(* ===== verification/_CoqProject ===== *)
-Q . S2P
Prelude.v
Pattern.v
Status.v
Chain.v
Timespec.v
Objects.v
ObjectsStatus.v
ObjectsFacts.v
Fts.v
FtsLemmas.v
FtsPattern.v
Counters.v
FtsCounters.v
FtsSlots.v
FtsStatic.v
FtsDynamic.v
FtsSchedule.v
FtsRegister.v
FtsGuarantee.v
FtsExamples.v
FtsTheorems.v
FtsTasks.v
Thread.v
RateMon.v
RateMonFacts.v
RateMonTheorems.v
FtsLegacy.v
Event.v
EventFacts.v
EventTheorems.v
Partition.v
Dpmem.v
RBTree.v
RBTreeFacts.v
Watchdog.v
WatchdogFacts.v
WatchdogTick.v
WatchdogTheorems.v
Tod.v
TodCalendar.v
TodTheorems.v
Timer.v
TimerFacts.v
TimerSpec.v
TimerTick.v
TimerServer.v
TimerTheorems.v
PriorityMap.v
Scheduler.v
SchedulerFacts.v
SchedulerSim.v
SchedulerTheorems.v
SchedulerTick.v
SchedulerEdf.v
SchedulerEdfTheorems.v
Heap.v
HeapList.v
HeapBlocks.v
HeapRun.v
HeapInv.v
HeapAlloc.v
HeapPlace.v
HeapSearch.v
HeapFree.v
HeapWalk.v
HeapInit.v
HeapResize.v
HeapSession.v
HeapTheorems.v
