(* ===== verification/Prelude.v ===== *)
(** * The fault tolerant scheduler of RTEMS, verified

    The repository is the kernel part of RTEMS with a fault tolerant scheduler
    (FTS) for tasks that may miss some of their results: a task with an (m,k)
    requirement has to deliver a correct result in at least [m] of any [k]
    consecutive instances.  This library translates the scheduler, the rate
    monotonic manager it is built into and the parts of the kernel they stand
    on into Rocq, and proves that the scheduler keeps its promise.

    ** The program

    An application registers a periodic task with its [m] and [k], one of four
    compensation techniques, a memory area for its pattern of zeros (a basic
    version may run) and ones (the result must be reliable), and the entry
    points of three versions of the task: basic, detection, correction
    ([rtems_rate_monotonic_create_fts], [fts_rtems_task_register_t]).  Each
    call of [rtems_rate_monotonic_period] ends the versions of the last
    instance, refills the tolerance counters of dynamic compensation, waits
    for the period, and releases the next version ([fts_compensate_t]): by the
    pattern under the static techniques SRE and SDR, by the counters under the
    dynamic ones, DRE and DDR.  A detection version reports at its end whether
    a fault occurred ([fault_detection_routine]), which may release the
    correction version.  The timer of a period calls back into the scheduler
    from [_Rate_monotonic_Timeout].  Periods and partitions are objects:
    identifiers map to them through the tables of their class, unused ones
    wait on chains.  Versions are tasks of the Classic API.  The memory behind
    tables, stacks and buffers comes from the heap of the kernel.  The timers
    of periods, threads and the timer manager are watchdogs, which the clock
    tick takes from two trees, one in ticks and one for dates of the calendar;
    threads wait for events, among them the timer server, whose chain of due
    timers the clock tick fills.  Which ready thread runs next, the heir, is
    chosen by one of several schedulers: by priority with a chain for each
    priority, by priority with one chain, or by deadline.

    ** The files

    - [Prelude]: undefined behaviour as a value, the state and error monad
      [cm], machine integers, arrays and memories, loops, tactics and hints.
    - [Pattern]: the specification, without data structures: cyclic patterns,
      [mk_robust], the R- and E-patterns of [final_report/chapter2.tex], and
      dynamic compensation as a machine ([dyn_run]).
    - [Status]: [rtems_status_code], names, and the class [TaskManager] of the
      three task directives the scheduler calls, with [TaskManagerLaws].
    - [Chain]: [score/.../chainimpl.h], [score/src/chain.c],
      [chainnodecount.c], at the level of words in memory.
    - [Timespec]: [score/src/timespec*.c] and [score/.../timestamp.h].
    - [Objects], [ObjectsStatus], [ObjectsFacts]: [score/src/object*.c], the
      status table of [rtems/src/status.c], and their properties.
    - [Fts]: [rtems/src/fts_t.c], [fts_t.h], and the scheduler's code inside
      [rtems_rate_monotonic_period] ([fts_period_begin]).
    - [FtsLemmas], [FtsPattern], [Counters], [FtsCounters], [FtsSlots],
      [FtsStatic], [FtsDynamic], [FtsSchedule], [FtsRegister],
      [FtsGuarantee]: the proof about [Fts], from the well-formedness of the
      state up to any interleaving of any number of registered tasks.
    - [FtsExamples], [FtsTheorems], [FtsTasks]: a concrete application, the
      theorems about the scheduler, and its use of the task manager.
    - [RateMon], [RateMonFacts], [RateMonTheorems]: [rtems/src/ratemon*.c].
    - [FtsLegacy]: [rtems/src/fts.c], the first version of the scheduler.
    - [Thread]: states, wait flags and timeouts of threads,
      [score/src/threadsetstate.c], [threadclearstate.c], [threadtimeout.c].
    - [Event], [EventFacts], [EventTheorems]: [rtems/src/event*.c],
      [systemevent*.c]; a receive in the parts between which interrupts can
      come ([ev_step]), the atomic event manager ([a_step]), the simulation
      between them.
    - [Partition]: [rtems/src/part*.c], [partimpl.h], on [Objects] and
      [Chain].
    - [Dpmem]: [rtems/src/dpmem*.c], [dpmemimpl.h], on [Objects].
    - [RBTree], [RBTreeFacts]: [score/.../rbtree.h] and the interface of its
      balancing; a tree in memory and its in-order traversal.
    - [Watchdog], [WatchdogFacts], [WatchdogTick], [WatchdogTheorems]:
      [score/src/watchdog*.c], [watchdogimpl.h]; the two trees as ordered
      queues ([wd_inv]), and the clock tick for any service routines.
    - [Tod], [TodCalendar], [TodTheorems]: [rtems/src/clock*.c],
      [score/src/coretod*.c]; the Gregorian calendar as the reference.
    - [Timer], [TimerFacts], [TimerSpec], [TimerTick], [TimerServer],
      [TimerTheorems]: [rtems/src/timer*.c]; the invariant [tm_inv], the
      abstract timer manager ([spec_op]), the tick with timers, the server
      task beside everything else ([system_step]).
    - [PriorityMap], [Scheduler]: [score/.../prioritybitmap*.h],
      [score/src/schedulerpriority*.c], [schedulersimple*.c] and what they
      share of [schedulerimpl.h]: the two uniprocessor schedulers, and the
      operations the thread handler asks of them ([run_sched]).
    - [SchedulerFacts], [SchedulerSim], [SchedulerTheorems]: the ready chains
      and the bit map ([ctx_ok]), the simulation between the two schedulers
      ([abs], [sched_ok], [agree]), sessions and the theorems.
    - [SchedulerTick]: [score/src/schedulerdefaulttick.c], [threadyield.c] and
      the budgets in [threaddispatch.c]: time slices.
    - [SchedulerEdf], [SchedulerEdfTheorems]: [score/src/scheduleredf*.c], the
      earliest deadline first scheduler on the red-black trees.
    - [Heap]: [score/src/heap.c], [heapallocate.c], [heapfree.c],
      [heapresizeblock.c], [heapsizeofuserarea.c], [heapiterate.c],
      [heapgetinfo.c], [heapgetfreeinfo.c], [heapwalk.c] and the inlines of
      [heapimpl.h]: the boundary tags and the free list as words of memory.
    - [HeapList], [HeapBlocks], [HeapRun], [HeapInv]: the free list as a list,
      the blocks as a list of sizes and flags, what single reads and writes do
      to them, and the invariant [heap_inv] that ties all of it together.
    - [HeapAlloc], [HeapPlace], [HeapSearch], [HeapFree], [HeapWalk],
      [HeapInit], [HeapResize]: each operation on a heap with the invariant.
    - [HeapSession], [HeapTheorems]: the abstract allocator, sessions of its
      clients, and the theorems about the heap.

    ** How code becomes definitions

    A function is a definition of the same name (a leading underscore is
    dropped) in the monad [cm S]: it takes the state [S] of its component and
    gives [Ok] of a result and the new state, or [Undef] of the kind of
    undefined behaviour: an access out of bounds or at an unmapped address, a
    division by zero, a signed overflow, an uninitialized read, a loop that
    does not end.  So every theorem that ends in [Ok] also says that none of
    these happens.  Global variables are the fields of the state record
    ([fts_state], [rm_state], [obj_state], [part_state], [heap_state],
    [thr_system], [wd_state], [tm_system], [sched_state]); integers are [Z]
    with the wrap-around of their C type ([u8], [u16], [i8], ...) written
    where the code stores or converts; pattern bytes, identifier cells and
    chain words live in memories ([gmap Z Z]) addressed by the pointers the
    program stores.  A component is embedded in another by [zoom].  Out
    parameters are optional results.

    Code outside the repository's C files, or below the level of this library,
    is an interface: [TaskManager] (create, start and delete a task; instances
    [id_supply] and [task_table]), [Workspace] (allocation for object tables;
    instance [big_workspace]), [Bintime] (the conversions of [sys/time.h];
    instances [bintime64] and [whole_seconds]), [SysTree] (the balancing of
    [sys/tree.h], which keeps the in-order traversal; instance
    [vine_sys_tree]) and [SysTreeMin] (its minimum; instance [flat_min]),
    [Timecounter] (the time counter; instances
    [stopped_clock] and [recording_clock]), [TimerLayout] (where the watchdog
    of a timer is; instance [demo_layout]).  Service routines of watchdogs and
    timers are parameters of the clock tick, with hypotheses on what they may
    do.

    ** What is proved

    - The (m,k) guarantee.  For any valid registrations, any interleaving of
      the tasks' periods and any faults, the scheduler runs without undefined
      behaviour and every task keeps its requirement
      ([FtsTheorems.fts_mk_guarantee]); the results are exactly those of the
      abstract techniques ([fts_refines_compensation]); the same through the
      directives of the rate monotonic manager, with the timer firing at any
      moment ([RateMonTheorems.rm_mk_guarantee], [rm_no_lost_wakeup]).
    - The parts of the scheduler: patterns are created as the report defines
      them where they are, and always robust ([FtsPattern]), counters lose
      nothing ([tol_counter_set_roundtrip]), registration accepts and refuses
      what it should, static compensation follows the pattern, versions are
      started and ended once ([FtsTasks]).
    - The kernel parts: a chain refines a list ([Chain.chain_refines_list]); an
      object is in exactly one place and an identifier finds exactly its open
      object ([ObjectsFacts]); a partition never hands a buffer to two users
      ([Partition.partition_exclusive]); a port translates exactly its area
      ([Dpmem.port_translates]); time arithmetic is exact and
      conversions round as they should ([Timespec]); statistics bound what
      was measured.
    - The heap: whatever its clients do from initialization on, no operation
      runs into undefined behaviour or an endless loop, live areas are
      disjoint and keep their contents, and the heap passes its own check
      ([HeapTheorems.heap_session_safe]); it refines an abstract allocator
      ([heap_refines_allocator]); allocation is first fit, free undoes it, and
      nothing is lost to fragmentation once all is freed
      ([heap_allocate_first_fit], [heap_free_undoes_allocate],
      [heap_all_freed]); what the information requests report is exact.
    - Watchdogs: the trees refine two ordered queues
      ([WatchdogTheorems.watchdog_refines_queue]); the loop of the clock tick
      ends and leaves nothing due ([watchdog_tickle_due]); a watchdog fires at
      its tick and not before ([watchdog_fires_on_time]).
    - Time of day: dates are converted to seconds and back as the Gregorian
      calendar says ([TodTheorems.tod_to_seconds_exact],
      [clock_get_tod_exact]), and a clock that is set shows the date it was
      set to ([clock_set_get]).
    - Events: receives, sends and timeouts, however their parts interleave,
      behave like atomic operations ([EventTheorems.event_refines_atomic]), and
      no thread stays blocked on events it was sent ([event_no_lost_wakeup]).
    - Timers: from start-up on, every session of directives gives the results
      of the abstract timer manager ([TimerTheorems.timer_refines_spec]); a
      clock tick serves exactly the timers that are due ([timer_tick_exact]);
      the timer server serves every timer on its chain, whatever comes in
      between ([timer_server_serves]).
    - Schedulers: whatever threads are created, block, become ready, change
      priority or yield, the default scheduler keeps its chains and its bit
      map exact and the most important ready thread as the heir
      ([SchedulerTheorems.priority_scheduler_sound]); the simple scheduler
      decides the same ([schedulers_agree]); threads with time slices take
      turns ([SchedulerTick.time_slices_round_robin]); with preemptible threads the
      heir of the third one has the earliest deadline
      ([SchedulerEdfTheorems.edf_earliest_deadline]).
    - Where the code does not do what it means to, a theorem states what it
      does: lost bytes of R-patterns, the division by zero of E-patterns with
      [m = k], the wrong entry [fts_off_t] removes, the unchecked index in
      [fault_detection_routine], the unchecked task creation in
      [release_task], the late owner check, the reused identifier, the end
      address a partition accepts, the port of length 0, the unusable first version, the too short
      area of an allocation at the end of a block, the table an unlimited class
      of single objects loses, the wrong hour of February 2100, the yield of the
      simple scheduler that keeps a heir without preemption.

    ** Bounds and fuel

    [P_TASKS] = 10 tasks, [PATTERN_PARTITIONS] = 16 counters and the widths
    of the fields are those of the code; the hypotheses of a request
    ([request_valid]) are the ranges in which the code is right: [m <= k],
    [k - m <= 127] for R-patterns, [m < k] for E-patterns, a pattern area of
    exactly [k] bits, at most 16 partitions.  Counted loops are [c_for] with
    the loop's own number of rounds.  The loops with fuel: the carry loop of
    [_Timespec_Add_to], which the sum of two valid times enters at most once;
    the searches over blocks, which cannot pass the number of blocks; the walk
    along a chain, bounded by the words of the memory, and
    [_Objects_Get_next], bounded by the indices of the class; the loops of the
    heap over its blocks and over its free list, bounded by the words of the
    memory, and the loop over boundary lines, bounded by the address where it
    starts; the walks in a tree, bounded by the number of its nodes; the loop
    over months, of 12 rounds.  The loop of the clock tick runs service
    routines, which may schedule again: its fuel is a parameter, and the
    theorems say how much is enough.  Running out of fuel is [Undef Divergence], so a theorem that gives
    [Ok] shows that the fuel suffices.

    A scheduler has at most 256 priorities, the size of the bit map.  Its bit
    field code is the generic one for GCC ([CPU_USE_GENERIC_BITFIELD_CODE]).

    The heap is that of a 32-bit port ([uintptr_t] is [uint32_t], alignment 4),
    without [HEAP_PROTECTION] and [RTEMS_HEAP_DEBUG], which are off by default.

    ** What is not modelled

    Locks, interrupt levels and dispatching: a directive is a sequence of
    atomic steps; where the period directive and the receive of events leave
    their critical section before they block, they are several steps, and the
    loop of the timer server is steps between which everything else can come.
    The watchdogs of timers that were never created count as inactive; the code
    marks them so before it reads them.  The default scheduler's
    release and cancel operations are empty in the source.  Diagnostic output,
    except the digits of patterns and the numbers of the statistics report.
    Multiprocessing, which is not configured.  The time counters of [kern_tc.c],
    thread queues and context switches; in [Thread] the scheduler is the set of
    ready threads, and in [Scheduler] the thread handler is the sequence of its
    requests.  The schedulers for several processors, the constant bandwidth
    server, and the release of jobs of the deadline scheduler, which works on
    the aggregation of the priorities of a thread.  The other managers of the
    Classic API, POSIX, file systems, networking and the vendored libraries,
    which the scheduler does not touch or uses through the interfaces above.

    ** Plan

    Next in this order: thread queues and the managers that wait on them
    (semaphores, message queues, barriers), the task directives behind
    [TaskManager], the priority aggregation that joins the deadline scheduler to
    the rate monotonic manager, the rest of the object handler, regions, the
    fault injection of the demonstration programs. *)

From stdpp Require Import base tactics numbers option list list_numbers gmap fin_maps.
From Stdlib Require Import ZArith Lia.

Open Scope Z_scope.

(** ** Undefined behaviour as a value

    A C expression either has a value or the behaviour of the program is
    undefined.  [outcome] keeps the two apart, so that a theorem that ends in
    [Ok] also says that no array is accessed out of its bounds, no division
    is by zero and no unmapped byte is touched. *)
Inductive ub_kind :=
| Out_of_bounds
| Bad_address
| Division_by_zero
| Signed_overflow
| Bad_shift
| Uninitialized
| Divergence
| Fatal_error.

#[export] Instance ub_kind_eq_dec : EqDecision ub_kind.
Proof. solve_decision. Defined.

Inductive outcome (A : Type) :=
| Ok (a : A)
| Undef (u : ub_kind).
Arguments Ok {A} a.
Arguments Undef {A} u.

#[export] Instance outcome_ret : MRet outcome := fun A a => Ok a.
#[export] Instance outcome_bind : MBind outcome := fun A B f o =>
  match o with Ok a => f a | Undef u => Undef u end.

(** ** The effect of C code: a state that is threaded, or undefined behaviour *)
Definition cm (St A : Type) : Type := St -> outcome (A * St).

#[export] Instance cm_ret {St} : MRet (cm St) := fun A a s => Ok (a, s).
#[export] Instance cm_bind {St} : MBind (cm St) := fun A B f m s =>
  match m s with Ok (a, s') => f a s' | Undef u => Undef u end.

Definition gets {St A} (f : St -> A) : cm St A := fun s => Ok (f s, s).
Definition getsM {St A} (f : St -> outcome A) : cm St A := fun s =>
  match f s with Ok a => Ok (a, s) | Undef u => Undef u end.
Definition modify {St} (f : St -> St) : cm St unit := fun s => Ok (tt, f s).
Definition modifyM {St} (f : St -> outcome St) : cm St unit := fun s =>
  match f s with Ok s' => Ok (tt, s') | Undef u => Undef u end.
Definition stateful {St A} (f : St -> A * St) : cm St A := fun s => Ok (f s).
Definition lift {St A} (o : outcome A) : cm St A := fun s =>
  match o with Ok a => Ok (a, s) | Undef u => Undef u end.

(** [c_if b c]: [if (b) c] without an else branch. *)
Definition c_if {St} (b : bool) (c : cm St unit) : cm St unit :=
  if b then c else mret tt.

(** Running a computation on a part of a larger state. *)
Definition zoom {Big St A} (get : Big -> St) (set : St -> Big -> Big)
    (m : cm St A) : cm Big A := fun b =>
  match m (get b) with
  | Ok (a, s') => Ok (a, set s' b)
  | Undef u => Undef u
  end.

(** A counted loop: the body runs [n] times with the counter [i], [i + 1],
    ...; [inr] is the C [break], [inl] goes on. *)
Fixpoint c_for {St A} (n : nat) (i : Z) (body : Z -> A -> cm St (A + A)) (a : A)
    : cm St A :=
  match n with
  | O => mret a
  | S n' =>
      r ← body i a;
      match r with
      | inl a' => c_for n' (i + 1) body a'
      | inr a' => mret a'
      end
  end.

(** ** Machine integers *)
Definition u8 (z : Z) : Z := z mod 2 ^ 8.
Definition u16 (z : Z) : Z := z mod 2 ^ 16.
Definition u32 (z : Z) : Z := z mod 2 ^ 32.
Definition u64 (z : Z) : Z := z mod 2 ^ 64.
Definition i8 (z : Z) : Z := (z + 2 ^ 7) mod 2 ^ 8 - 2 ^ 7.
Definition i16 (z : Z) : Z := (z + 2 ^ 15) mod 2 ^ 16 - 2 ^ 15.
Definition i32 (z : Z) : Z := (z + 2 ^ 31) mod 2 ^ 32 - 2 ^ 31.
Definition i64 (z : Z) : Z := (z + 2 ^ 63) mod 2 ^ 64 - 2 ^ 63.

Definition INT_MAX : Z := 2 ^ 31 - 1.
Definition INT_MIN : Z := - 2 ^ 31.
Definition UINT32_MAX : Z := 2 ^ 32 - 1.

(** The value of a signed [int] expression, undefined when it overflows. *)
Definition int_val (z : Z) : outcome Z :=
  if (INT_MIN <=? z) && (z <=? INT_MAX) then Ok z else Undef Signed_overflow.

(** C division and remainder truncate towards zero. *)
Definition int_div (a b : Z) : outcome Z :=
  if b =? 0 then Undef Division_by_zero else int_val (Z.quot a b).
Definition int_rem (a b : Z) : outcome Z :=
  if b =? 0 then Undef Division_by_zero else int_val (Z.rem a b).

(** [e >> n] of a nonnegative [int]: defined for shifts below the width. *)
Definition int_shr (e n : Z) : outcome Z :=
  if (0 <=? n) && (n <? 32) then Ok (Z.shiftr e n) else Undef Bad_shift.

Definition b2z (b : bool) : Z := if b then 1 else 0.

(** ** Arrays and memory *)
Definition arr_get {A} (l : list A) (i : Z) : outcome A :=
  if i <? 0 then Undef Out_of_bounds
  else match l !! Z.to_nat i with
       | Some x => Ok x
       | None => Undef Out_of_bounds
       end.

Definition arr_set {A} (l : list A) (i : Z) (x : A) : outcome (list A) :=
  if i <? 0 then Undef Out_of_bounds
  else if decide (Z.to_nat i < length l)%nat then Ok (<[Z.to_nat i := x]> l)
  else Undef Out_of_bounds.

(** Objects in memory, by address: a load or a store needs the object. *)
Definition mem_load {A} (m : gmap Z A) (a : Z) : outcome A :=
  match m !! a with Some x => Ok x | None => Undef Bad_address end.

Definition mem_store {A} (m : gmap Z A) (a : Z) (x : A) : outcome (gmap Z A) :=
  match m !! a with Some _ => Ok (<[a := x]> m) | None => Undef Bad_address end.

(** A field of a state: how it is read and how it is replaced.  [rd] and
    [wr] access one element of an array field, [ld] and [st] the whole field. *)
Record field (St A : Type) := mk_field { fget : St -> A; fset : A -> St -> St }.
Arguments mk_field {St A}.
Arguments fget {St A}.
Arguments fset {St A}.

Definition ld {St A} (f : field St A) : cm St A := gets (fget f).
Definition st {St A} (f : field St A) (x : A) : cm St unit := modify (fset f x).
Definition rd {St A} (f : field St (list A)) (i : Z) : cm St A :=
  getsM (fun s => arr_get (fget f s) i).
Definition wr {St A} (f : field St (list A)) (i : Z) (x : A) : cm St unit :=
  modifyM (fun s => match arr_set (fget f s) i x with
                    | Ok l => Ok (fset f l s)
                    | Undef u => Undef u
                    end).
(** An object in memory, through its address. *)
Definition ldm {St A} (f : field St (gmap Z A)) (a : Z) : cm St A :=
  getsM (fun s => mem_load (fget f s) a).
Definition stm {St A} (f : field St (gmap Z A)) (a : Z) (x : A) : cm St unit :=
  modifyM (fun s => match mem_store (fget f s) a x with
                    | Ok m => Ok (fset f m s)
                    | Undef u => Undef u
                    end).

(** ** Hint databases and tactics *)
Create Rewrite HintDb cmdb.
Create Rewrite HintDb cint.

Lemma cm_bind_ok {St A B} (m : cm St A) (f : A -> cm St B) s a s' :
  m s = Ok (a, s') -> (m ≫= f) s = f a s'.
Proof. intros H. unfold mbind, cm_bind. by rewrite H. Qed.

Lemma cm_ret_run {St A} (a : A) (s : St) : (mret a : cm St A) s = Ok (a, s).
Proof. done. Qed.

Lemma gets_run {St A} (f : St -> A) s : gets f s = Ok (f s, s).
Proof. done. Qed.

Lemma modify_run {St} (f : St -> St) s : modify f s = Ok (tt, f s).
Proof. done. Qed.

Lemma gets_bind {St A B} (f : St -> A) (k : A -> cm St B) s :
  (gets f ≫= k) s = k (f s) s.
Proof. done. Qed.

Lemma modify_bind {St B} (f : St -> St) (k : unit -> cm St B) s :
  (modify f ≫= k) s = k tt (f s).
Proof. done. Qed.

Lemma ret_bind {St A B} (a : A) (k : A -> cm St B) s :
  ((mret a : cm St A) ≫= k) s = k a s.
Proof. done. Qed.

Lemma stateful_bind {St A B} (f : St -> A * St) (k : A -> cm St B) s :
  (stateful f ≫= k) s = k (f s).1 (f s).2.
Proof. unfold mbind, cm_bind, stateful. by destruct (f s). Qed.

Lemma getsM_ok {St A} (f : St -> outcome A) s a :
  f s = Ok a -> getsM f s = Ok (a, s).
Proof. intros H. unfold getsM. by rewrite H. Qed.

Lemma modifyM_ok {St} (f : St -> outcome St) s s' :
  f s = Ok s' -> modifyM f s = Ok (tt, s').
Proof. intros H. unfold modifyM. by rewrite H. Qed.

Lemma getsM_bind {St A B} (f : St -> outcome A) (k : A -> cm St B) s a :
  f s = Ok a -> (getsM f ≫= k) s = k a s.
Proof. intros H. apply cm_bind_ok. by apply getsM_ok. Qed.

Lemma modifyM_bind {St B} (f : St -> outcome St) (k : unit -> cm St B) s s' :
  f s = Ok s' -> (modifyM f ≫= k) s = k tt s'.
Proof. intros H. apply cm_bind_ok. by apply modifyM_ok. Qed.

Lemma lift_bind {St A B} (o : outcome A) (k : A -> cm St B) s a :
  o = Ok a -> (lift o ≫= k) s = k a s.
Proof. intros ->. done. Qed.

Lemma cm_bind_assoc {St A B D} (m : cm St A) (f : A -> cm St B) (g : B -> cm St D) s :
  ((m ≫= f) ≫= g) s = (m ≫= (fun x => f x ≫= g)) s.
Proof. unfold mbind, cm_bind. by destruct (m s) as [[a s']|u]. Qed.

(** A computation that succeeds as a whole succeeded at its first step. *)
Lemma cm_bind_inv {St A B} (m : cm St A) (f : A -> cm St B) s b s'' :
  (m ≫= f) s = Ok (b, s'') ->
  exists a s', m s = Ok (a, s') /\ f a s' = Ok (b, s'').
Proof.
  unfold mbind, cm_bind. destruct (m s) as [[a s']|u]; [|done].
  intros H. by exists a, s'.
Qed.

Lemma rd_bind {St A B} (f : field St (list A)) i x (k : A -> cm St B) s :
  0 <= i -> fget f s !! Z.to_nat i = Some x -> (rd f i ≫= k) s = k x s.
Proof.
  intros Hi Hx. apply getsM_bind. unfold arr_get.
  rewrite (proj2 (Z.ltb_ge i 0)) by lia. by rewrite Hx.
Qed.

Lemma wr_bind {St A B} (f : field St (list A)) i x (k : unit -> cm St B) s :
  0 <= i < Z.of_nat (length (fget f s)) ->
  (wr f i x ≫= k) s = k tt (fset f (<[Z.to_nat i := x]> (fget f s)) s).
Proof.
  intros Hi. apply modifyM_bind. unfold arr_set.
  rewrite (proj2 (Z.ltb_ge i 0)) by lia. rewrite decide_True; [done|lia].
Qed.

Lemma ldm_bind {St A B} (f : field St (gmap Z A)) a x (k : A -> cm St B) s :
  fget f s !! a = Some x -> (ldm f a ≫= k) s = k x s.
Proof. intros Hx. apply getsM_bind. unfold mem_load. by rewrite Hx. Qed.

Lemma stm_bind {St A B} (f : field St (gmap Z A)) a x (k : unit -> cm St B) s :
  is_Some (fget f s !! a) ->
  (stm f a x ≫= k) s = k tt (fset f (<[a := x]> (fget f s)) s).
Proof. intros [y Hy]. apply modifyM_bind. unfold mem_store. by rewrite Hy. Qed.

Lemma ld_bind {St A B} (f : field St A) (k : A -> cm St B) s :
  (ld f ≫= k) s = k (fget f s) s.
Proof. done. Qed.

Lemma st_bind {St A B} (f : field St A) x (k : unit -> cm St B) s :
  (st f x ≫= k) s = k tt (fset f x s).
Proof. done. Qed.

Lemma bind_ret_r {St A} (m : cm St A) s : (x ← m; mret x) s = m s.
Proof. unfold mbind, cm_bind. by destruct (m s) as [[a s']|u]. Qed.

Lemma bind_tt_r {St} (m : cm St unit) s : (m ;; mret tt) s = m s.
Proof. unfold mbind, cm_bind. by destruct (m s) as [[[] s']|u]. Qed.

#[export] Hint Rewrite @ld_bind @st_bind @gets_bind @modify_bind @ret_bind @cm_ret_run @gets_run
  @modify_run : cmdb.

(** One symbolic step of a computation, and all the steps that need no
    side condition. *)
Ltac cm_step := autorewrite with cmdb; cbn beta iota.

(** Runs the head of a computation as far as it needs no side condition. *)
Ltac cm_run :=
  repeat first
    [ rewrite cm_bind_assoc | rewrite gets_bind | rewrite modify_bind | rewrite ret_bind
    | rewrite ld_bind | rewrite st_bind | progress cbn beta iota ].

Lemma arr_get_ok {A} (l : list A) (i : Z) x :
  0 <= i -> l !! Z.to_nat i = Some x -> arr_get l i = Ok x.
Proof.
  intros Hi Hx. unfold arr_get. rewrite (proj2 (Z.ltb_ge i 0)) by lia. by rewrite Hx.
Qed.

Lemma arr_get_inv {A} (l : list A) (i : Z) x :
  arr_get l i = Ok x -> 0 <= i < Z.of_nat (length l) /\ l !! Z.to_nat i = Some x.
Proof.
  unfold arr_get. destruct (Z.ltb_spec i 0); [done|].
  destruct (l !! Z.to_nat i) eqn:E; [|done]. intros [= <-].
  apply lookup_lt_Some in E as Hlt. split; [lia|done].
Qed.

Lemma arr_set_ok {A} (l : list A) (i : Z) x :
  0 <= i < Z.of_nat (length l) -> arr_set l i x = Ok (<[Z.to_nat i := x]> l).
Proof.
  intros Hi. unfold arr_set. rewrite (proj2 (Z.ltb_ge i 0)) by lia.
  rewrite decide_True; [done|lia].
Qed.

Lemma arr_set_inv {A} (l l' : list A) (i : Z) x :
  arr_set l i x = Ok l' ->
  0 <= i < Z.of_nat (length l) /\ l' = <[Z.to_nat i := x]> l.
Proof.
  unfold arr_set. destruct (Z.ltb_spec i 0); [done|].
  case_decide; [|done]. intros [= <-]. split; [lia|done].
Qed.

Lemma arr_get_oob {A} (l : list A) (i : Z) :
  i < 0 \/ Z.of_nat (length l) <= i -> arr_get l i = Undef Out_of_bounds.
Proof.
  intros H. unfold arr_get. destruct (Z.ltb_spec i 0); [done|].
  rewrite (proj2 (lookup_ge_None l (Z.to_nat i))) by lia. done.
Qed.

Lemma arr_get_total {A} (l : list A) (i : Z) :
  0 <= i < Z.of_nat (length l) -> exists x, l !! Z.to_nat i = Some x /\ arr_get l i = Ok x.
Proof.
  intros Hi. destruct (lookup_lt_is_Some_2 l (Z.to_nat i)) as [x Hx]; [lia|].
  exists x. split; [done|]. apply arr_get_ok; [lia|done].
Qed.

(** ** Wrap-around *)
Lemma u8_id z : 0 <= z < 256 -> u8 z = z.
Proof. intros. unfold u8. apply Z.mod_small. lia. Qed.
Lemma u16_id z : 0 <= z < 65536 -> u16 z = z.
Proof. intros. unfold u16. apply Z.mod_small. lia. Qed.
Lemma u32_id z : 0 <= z < 4294967296 -> u32 z = z.
Proof. intros. unfold u32. apply Z.mod_small. lia. Qed.
Lemma u64_id z : 0 <= z < 18446744073709551616 -> u64 z = z.
Proof. intros. unfold u64. apply Z.mod_small. lia. Qed.
Lemma i8_id z : -128 <= z < 128 -> i8 z = z.
Proof. intros. unfold i8. rewrite Z.mod_small; lia. Qed.
Lemma i16_id z : -32768 <= z < 32768 -> i16 z = z.
Proof. intros. unfold i16. rewrite Z.mod_small; lia. Qed.
Lemma i32_id z : -2147483648 <= z < 2147483648 -> i32 z = z.
Proof. intros. unfold i32. rewrite Z.mod_small; lia. Qed.
Lemma u8_range z : 0 <= u8 z < 256.
Proof. apply Z.mod_pos_bound. lia. Qed.
Lemma u16_range z : 0 <= u16 z < 65536.
Proof. apply Z.mod_pos_bound. lia. Qed.
Lemma u32_range z : 0 <= u32 z < 4294967296.
Proof. apply Z.mod_pos_bound. lia. Qed.
Lemma u64_range z : 0 <= u64 z < 18446744073709551616.
Proof. apply Z.mod_pos_bound. lia. Qed.

#[export] Hint Rewrite u8_id u16_id u32_id u64_id i8_id i16_id i32_id using lia : cint.

(** [lia] after removing the wraps that cannot happen. *)
Ltac cint := autorewrite with cint; try lia.

(** Fields of a word that do not overlap. *)
Lemma lor_low a b n : 0 <= n -> 0 <= b < 2 ^ n -> Z.lor (a * 2 ^ n) b = a * 2 ^ n + b.
Proof.
  intros Hn Hb. assert (Z.land (a * 2 ^ n) b = 0) as H0.
  { apply Z.bits_inj'. intros i Hi. rewrite Z.land_spec, Z.bits_0.
    destruct (Z.lt_ge_cases i n).
    - by rewrite Z.mul_pow2_bits_low by lia.
    - destruct (decide (b = 0)) as [->|]; [by rewrite Z.bits_0, andb_false_r|].
      rewrite (Z.bits_above_log2 b i); [apply andb_false_r|lia|].
      apply Z.log2_lt_pow2; [lia|]. assert (2 ^ n <= 2 ^ i) by (apply Z.pow_le_mono_r; lia). lia. }
  rewrite <- Z.lxor_lor by done. by rewrite <- Z.add_nocarry_lxor.
Qed.

Lemma int_val_ok z : INT_MIN <= z <= INT_MAX -> int_val z = Ok z.
Proof.
  intros H. unfold int_val.
  by rewrite (proj2 (Z.leb_le _ _)), (proj2 (Z.leb_le _ _)) by lia.
Qed.

Lemma int_div_ok a b :
  b <> 0 -> INT_MIN <= Z.quot a b <= INT_MAX -> int_div a b = Ok (Z.quot a b).
Proof.
  intros Hb H. unfold int_div. rewrite (proj2 (Z.eqb_neq _ _)) by done.
  by apply int_val_ok.
Qed.

Lemma int_rem_ok a b :
  b <> 0 -> INT_MIN <= Z.rem a b <= INT_MAX -> int_rem a b = Ok (Z.rem a b).
Proof.
  intros Hb H. unfold int_rem. rewrite (proj2 (Z.eqb_neq _ _)) by done.
  by apply int_val_ok.
Qed.

(** ** Loops *)
Lemma c_for_S {St A} n i (body : Z -> A -> cm St (A + A)) a s :
  c_for (S n) i body a s =
    (r ← body i a;
     match r with inl a' => c_for n (i + 1) body a' | inr a' => mret a' end) s.
Proof. done. Qed.

(** The rule for a loop that never breaks: an invariant that the body keeps
    holds at the end, and the loop has a result. *)
Lemma c_for_inv {St A} (P : Z -> A -> St -> Prop) n i (body : Z -> A -> cm St (A + A)) a s :
  P i a s ->
  (forall j a s, i <= j < i + Z.of_nat n -> P j a s ->
    exists a' s', body j a s = Ok (inl a', s') /\ P (j + 1) a' s') ->
  exists a' s', c_for n i body a s = Ok (a', s') /\ P (i + Z.of_nat n) a' s'.
Proof.
  revert i a s. induction n as [|n IH]; intros i a s HP Hbody.
  { exists a, s. split; [done|]. by rewrite Z.add_0_r. }
  destruct (Hbody i a s) as (a' & s' & Hb & HP'); [lia|done|].
  rewrite c_for_S, (cm_bind_ok _ _ _ _ _ Hb).
  destruct (IH (i + 1) a' s') as (a'' & s'' & Hr & HP''); [done| |].
  { intros j a0 s0 Hj HPj. apply Hbody; [lia|done]. }
  exists a'', s''. split; [done|].
  by replace (i + Z.of_nat (S n)) with (i + 1 + Z.of_nat n) by lia.
Qed.

(** The rule for a loop that may break: [P] is kept as long as it goes on,
    [Q] holds where it breaks and where it ends. *)
Lemma c_for_inv_break {St A} (P : Z -> A -> St -> Prop) (Q : A -> St -> Prop) n i
    (body : Z -> A -> cm St (A + A)) a s :
  P i a s ->
  (forall j a s, i <= j < i + Z.of_nat n -> P j a s ->
    exists r s', body j a s = Ok (r, s') /\
      match r with inl a' => P (j + 1) a' s' | inr a' => Q a' s' end) ->
  (forall a s, P (i + Z.of_nat n) a s -> Q a s) ->
  exists a' s', c_for n i body a s = Ok (a', s') /\ Q a' s'.
Proof.
  revert i a s. induction n as [|n IH]; intros i a s HP Hbody Hend.
  { exists a, s. split; [done|]. apply Hend. by rewrite Z.add_0_r. }
  destruct (Hbody i a s) as (r & s' & Hb & Hr); [lia|done|].
  rewrite c_for_S, (cm_bind_ok _ _ _ _ _ Hb). destruct r as [a'|a'].
  - apply IH; [done| |].
    + intros j a0 s0 Hj HPj. apply Hbody; [lia|done].
    + intros a0 s0. replace (i + 1 + Z.of_nat n) with (i + Z.of_nat (S n)) by lia. apply Hend.
  - by exists a', s'.
Qed.

(** ** What a computation leaves alone *)
Definition keeps {St A B} (f : St -> B) (c : cm St A) : Prop :=
  forall s a s', c s = Ok (a, s') -> f s' = f s.

Section Keeps.
Context {St B : Type} (f : St -> B).

Lemma keeps_ret {A} (a : A) : keeps f (mret a : cm St A).
Proof. intros s a' s' [= <- <-]. done. Qed.

Lemma keeps_bind {A A'} (c : cm St A) (k : A -> cm St A') :
  keeps f c -> (forall a, keeps f (k a)) -> keeps f (c ≫= k).
Proof.
  intros Hc Hk s a s' Hr. unfold mbind, cm_bind in Hr.
  destruct (c s) as [[b s1]|] eqn:E; [|done]. apply Hk in Hr. apply Hc in E. congruence.
Qed.

Lemma keeps_getsM {A} (g : St -> outcome A) : keeps f (getsM g).
Proof. intros s a s' Hr. unfold getsM in Hr. destruct (g s); naive_solver. Qed.

Lemma keeps_gets {A} (g : St -> A) : keeps f (gets g).
Proof. intros s a s' [= <- <-]. done. Qed.

Lemma keeps_lift {A} (o : outcome A) : keeps f (lift o).
Proof. intros s a s' Hr. unfold lift in Hr. destruct o; naive_solver. Qed.

Lemma keeps_wr {A} (fd : field St (list A)) i x :
  (forall v s, f (fset fd v s) = f s) -> keeps f (wr fd i x).
Proof.
  intros Hf s a s' Hr. unfold wr, modifyM in Hr.
  destruct (arr_set (fget fd s) i x); [|done]. by injection Hr as _ <-.
Qed.

Lemma keeps_st {A} (fd : field St A) x :
  (forall v s, f (fset fd v s) = f s) -> keeps f (st fd x).
Proof. intros Hf s a s' [= _ <-]. done. Qed.

Lemma keeps_for {A} n i (body : Z -> A -> cm St (A + A)) a :
  (forall j a, keeps f (body j a)) -> keeps f (c_for n i body a).
Proof.
  intros Hb. revert i a. induction n as [|n IH]; intros i a; [apply keeps_ret|].
  apply keeps_bind; [apply Hb|]. intros [a'|a']; [apply IH|apply keeps_ret].
Qed.

End Keeps.

Ltac solve_keeps :=
  repeat lazymatch goal with
  | |- forall _, _ => intros ?
  | |- keeps _ (mret _) => apply keeps_ret
  | |- keeps _ (_ ≫= _) => apply keeps_bind
  | |- keeps _ (wr _ _ _) => apply keeps_wr; done
  | |- keeps _ (st _ _) => apply keeps_st; done
  | |- keeps _ (rd _ _) => apply keeps_getsM
  | |- keeps _ (gets _) => apply keeps_gets
  | |- keeps _ (lift _) => apply keeps_lift
  | |- keeps _ (c_for _ _ _ _) => apply keeps_for
  | |- keeps _ (match ?b with _ => _ end) => destruct b
  end.

(** ** Lists and counting *)
Definition count_true (l : list bool) : Z := Z.of_nat (length (filter (fun b => b = true) l)).
Definition count_false (l : list bool) : Z := Z.of_nat (length (filter (fun b => b = false) l)).

Lemma count_true_app l1 l2 : count_true (l1 ++ l2) = count_true l1 + count_true l2.
Proof. unfold count_true. rewrite filter_app, length_app. lia. Qed.

Lemma count_false_app l1 l2 : count_false (l1 ++ l2) = count_false l1 + count_false l2.
Proof. unfold count_false. rewrite filter_app, length_app. lia. Qed.

Lemma count_true_cons b l : count_true (b :: l) = b2z b + count_true l.
Proof.
  unfold count_true. rewrite filter_cons. destruct b; case_decide; simplify_eq;
  cbn [length b2z]; lia.
Qed.

Lemma count_false_cons b l : count_false (b :: l) = b2z (negb b) + count_false l.
Proof.
  unfold count_false. rewrite filter_cons. destruct b; case_decide; simplify_eq;
  cbn [length b2z negb]; lia.
Qed.

Lemma count_true_false l : count_true l + count_false l = Z.of_nat (length l).
Proof.
  induction l as [|b l IH]; [done|].
  rewrite count_true_cons, count_false_cons. destruct b; cbn [b2z negb length]; lia.
Qed.

Lemma count_true_nonneg l : 0 <= count_true l.
Proof. unfold count_true. lia. Qed.

Lemma count_false_nonneg l : 0 <= count_false l.
Proof. unfold count_false. lia. Qed.

Lemma count_true_replicate n b : count_true (replicate n b) = Z.of_nat n * b2z b.
Proof.
  induction n as [|n IH]; [done|]. cbn [replicate]. rewrite count_true_cons, IH. lia.
Qed.

Lemma count_false_replicate n b : count_false (replicate n b) = Z.of_nat n * b2z (negb b).
Proof.
  induction n as [|n IH]; [done|]. cbn [replicate]. rewrite count_false_cons, IH. lia.
Qed.

(** More instances correct, more correct instances. *)
Lemma count_true_mono l l' :
  Forall2 (fun b b' => b = true -> b' = true) l l' -> count_true l <= count_true l'.
Proof.
  induction 1 as [|b b' l l' Hb _ IH]; [done|].
  rewrite !count_true_cons. destruct b, b'; cbn; naive_solver lia.
Qed.

#[export] Hint Rewrite count_true_app count_false_app count_true_cons count_false_cons
  count_true_replicate count_false_replicate : cint.
