(* ===== verification/Pattern.v ===== *)
(** * (m,k)-patterns and the robustness requirement

    The abstract side of the scheduler, with no reference to its data
    structures: cyclic bit patterns and their windows, the (m,k) robustness
    requirement on a sequence of task instances, the R- and E-patterns as
    [final_report/chapter2.tex] defines them, and dynamic compensation as a
    machine that follows a pattern and waits at every 0 until an error uses
    it up.  The files about [fts_t.c] prove that the code implements these. *)

From stdpp Require Import base tactics numbers list list_numbers.
From Stdlib Require Import ZArith Lia.
From S2P Require Import Prelude.

Open Scope Z_scope.

(** ** The requirement *)

(** [mk_robust m k tr]: of any [k] consecutive instances of the trace [tr]
    at least [m] are correct ([true]). *)
Definition mk_robust (m : Z) (k : nat) (tr : list bool) : Prop :=
  forall pre w post, tr = pre ++ w ++ post -> length w = k -> m <= count_true w.

(** ** Cyclic patterns *)
Definition cyc (bs : list bool) (n : nat) : bool :=
  default false (bs !! (n mod length bs)%nat).

Definition window (bs : list bool) (p n : nat) : list bool := cyc bs <$> seq p n.

Lemma window_length bs p n : length (window bs p n) = n.
Proof. unfold window. by rewrite length_fmap, length_seq. Qed.

Lemma window_S bs p n : window bs p (S n) = cyc bs p :: window bs (S p) n.
Proof. done. Qed.

Lemma window_app bs p n1 n2 :
  window bs p (n1 + n2) = window bs p n1 ++ window bs (p + n1) n2.
Proof. unfold window. by rewrite seq_app, fmap_app. Qed.

Lemma cyc_period bs n : (0 < length bs)%nat -> cyc bs (n + length bs) = cyc bs n.
Proof.
  intros H. unfold cyc.
  replace (n + length bs)%nat with (n + 1 * length bs)%nat by lia.
  by rewrite Nat.Div0.mod_add.
Qed.

Lemma cyc_lt bs n b : bs !! n = Some b -> cyc bs n = b.
Proof.
  intros H. unfold cyc. apply lookup_lt_Some in H as Hlt.
  rewrite Nat.mod_small by lia. by rewrite H.
Qed.

Lemma window_full bs : window bs 0 (length bs) = bs.
Proof.
  apply list_eq. intros i. unfold window.
  destruct (decide (i < length bs)%nat) as [Hi|Hi].
  - rewrite list_lookup_fmap, lookup_seq_lt by lia. cbn.
    destruct (lookup_lt_is_Some_2 bs i Hi) as [b Hb]. by rewrite (cyc_lt _ _ _ Hb).
  - rewrite !(proj2 (lookup_ge_None _ _)); [done|lia|].
    rewrite length_fmap, length_seq. lia.
Qed.

(** A window of one whole period holds the same bits wherever it starts. *)
Lemma window_count_false bs p : count_false (window bs p (length bs)) = count_false bs.
Proof.
  induction p as [|p IH]; [by rewrite window_full|].
  destruct (length bs) as [|L] eqn:HL; [by apply nil_length_inv in HL; subst|].
  rewrite window_S, count_false_cons in IH.
  rewrite <- IH. replace (S L) with (L + 1)%nat at 1 by lia.
  rewrite window_app, count_false_app, window_S, count_false_cons.
  replace (S p + L)%nat with (p + length bs)%nat by lia.
  rewrite cyc_period by lia. change (count_false (window _ _ 0)) with 0. lia.
Qed.

Lemma window_count_true bs p : count_true (window bs p (length bs)) = count_true bs.
Proof.
  pose proof (count_true_false (window bs p (length bs))) as H1.
  pose proof (count_true_false bs) as H2.
  rewrite window_length, window_count_false in H1. lia.
Qed.

Lemma window_count_false_mono bs p n1 n2 :
  (n1 <= n2)%nat -> count_false (window bs p n1) <= count_false (window bs p n2).
Proof.
  intros H. replace n2 with (n1 + (n2 - n1))%nat by lia.
  rewrite window_app, count_false_app.
  pose proof (count_false_nonneg (window bs (p + n1) (n2 - n1))). lia.
Qed.

(** A trace that follows a pattern cyclically meets the requirement the
    pattern states: [k] is the length of the pattern, [m] its number of 1s. *)
Lemma window_mk_robust bs m p n :
  m <= count_true bs -> mk_robust m (length bs) (window bs p n).
Proof.
  intros Hm pre w post Heq Hw.
  assert (n = length pre + (length w + length post))%nat as ->.
  { rewrite <- (window_length bs p n), Heq, !length_app. lia. }
  rewrite !window_app in Heq.
  apply app_inj_1 in Heq as [_ Heq]; [|by rewrite window_length].
  apply app_inj_1 in Heq as [Heq _]; [|by rewrite window_length].
  rewrite <- Heq, Hw, window_count_true. lia.
Qed.

Lemma mk_robust_mono m k tr tr' :
  mk_robust m k tr -> Forall2 (fun b b' => b = true -> b' = true) tr tr' ->
  mk_robust m k tr'.
Proof.
  intros H HF pre w post -> Hw.
  apply Forall2_app_inv_r in HF as (pre' & r' & Hpre & Hr & ->).
  apply Forall2_app_inv_r in Hr as (w' & post' & Hw' & Hpost & ->).
  specialize (H pre' w' post' eq_refl).
  rewrite (Forall2_length _ _ _ Hw') in H. specialize (H Hw).
  etransitivity; [exact H|]. by apply count_true_mono.
Qed.

(** ** R-patterns: all 0s, then all 1s *)
Definition r_pattern (m k : Z) : list bool :=
  replicate (Z.to_nat (k - m)) false ++ replicate (Z.to_nat m) true.

(** ** E-patterns: 0s spread evenly *)
Definition ceil_div (a b : Z) : Z := a / b + b2z (negb (a mod b =? 0)).

(** The instance [j] is a 0 of the E-pattern of [d] zeros in [k] places. *)
Definition e_zero (k d j : Z) : bool := j =? ceil_div (j * d) k * k / d.

Definition e_pattern (k d : Z) (n : nat) : list bool :=
  (fun j => negb (e_zero k d (Z.of_nat j))) <$> seq 0 n.

Lemma ceil_div_bounds a b :
  0 < b -> a <= b * ceil_div a b < a + b.
Proof.
  intros Hb. unfold ceil_div.
  pose proof (Z.div_mod a b ltac:(lia)). pose proof (Z.mod_pos_bound a b Hb).
  destruct (Z.eqb_spec (a mod b) 0); cbn [negb b2z]; nia.
Qed.

Lemma ceil_div_unique a b c : 0 < b -> a <= b * c < a + b -> ceil_div a b = c.
Proof. intros Hb H. pose proof (ceil_div_bounds a b Hb). nia. Qed.

(** Whether [j] is a 0 is the increase of [⌈j d / k⌉] at [j]. *)
Lemma e_zero_step k d j :
  0 < d <= k -> 0 <= j ->
  b2z (e_zero k d j) = ceil_div ((j + 1) * d) k - ceil_div (j * d) k.
Proof.
  intros Hd Hj. unfold e_zero.
  pose proof (ceil_div_bounds (j * d) k ltac:(lia)) as H1.
  set (c := ceil_div (j * d) k) in *.
  pose proof (Z.div_mod (c * k) d ltac:(lia)) as H2.
  pose proof (Z.mod_pos_bound (c * k) d ltac:(lia)) as H3.
  set (q := c * k / d) in *. set (r := (c * k) mod d) in *.
  destruct (Z.eqb_spec j q) as [He|He]; cbn [b2z].
  - rewrite (ceil_div_unique ((j + 1) * d) k (c + 1)); [lia|lia|]. nia.
  - rewrite (ceil_div_unique ((j + 1) * d) k c); [lia|lia|].
    assert (j <= q) by (apply Z.div_le_lower_bound; lia).
    assert ((j + 1) * d <= q * d) by (apply Z.mul_le_mono_nonneg_r; lia). lia.
Qed.

Lemma e_pattern_S k d n :
  e_pattern k d (S n) = e_pattern k d n ++ [negb (e_zero k d (Z.of_nat n))].
Proof. unfold e_pattern. by rewrite seq_S, fmap_app. Qed.

Lemma e_pattern_count_false k d n :
  0 < d <= k -> count_false (e_pattern k d n) = ceil_div (Z.of_nat n * d) k.
Proof.
  intros Hd. induction n as [|n IH].
  { symmetry. apply ceil_div_unique; [lia|]. change (count_false _) with 0. lia. }
  rewrite e_pattern_S, count_false_app, IH, count_false_cons, negb_involutive.
  rewrite e_zero_step by lia. change (count_false []) with 0.
  replace (Z.of_nat (S n)) with (Z.of_nat n + 1) by lia. lia.
Qed.

(** Over one period the E-pattern has exactly [d = k - m] zeros. *)
Lemma e_pattern_zeros k d :
  0 < d <= k -> count_false (e_pattern k d (Z.to_nat k)) = d.
Proof.
  intros Hd. rewrite e_pattern_count_false by done. rewrite Z2Nat.id by lia.
  apply ceil_div_unique; lia.
Qed.

(** ** Dynamic compensation

    The machine stands at a place [p] of the pattern.  At a 1 the instance
    is executed reliably and the machine goes on; at a 0 it gives a try: an
    error is tolerated and uses the 0 up, a success leaves the machine where
    it is, so the adoption of the rest of the pattern is postponed. *)
Definition dyn_step (bs : list bool) (p : nat) (fault : bool) : bool * nat :=
  if cyc bs p then (true, S p)
  else if fault then (false, S p)
  else (true, p).

Fixpoint dyn_run (bs : list bool) (p : nat) (faults : list bool) : list bool :=
  match faults with
  | [] => []
  | f :: fs => let '(c, p') := dyn_step bs p f in c :: dyn_run bs p' fs
  end.

Fixpoint dyn_pos (bs : list bool) (p : nat) (faults : list bool) : nat :=
  match faults with
  | [] => p
  | f :: fs => dyn_pos bs (dyn_step bs p f).2 fs
  end.

Lemma dyn_run_length bs p fs : length (dyn_run bs p fs) = length fs.
Proof.
  revert p. induction fs as [|f fs IH]; intros p; [done|].
  cbn. destruct (dyn_step bs p f) as [c p']. cbn. by rewrite IH.
Qed.

Lemma dyn_run_app bs p fs1 fs2 :
  dyn_run bs p (fs1 ++ fs2) = dyn_run bs p fs1 ++ dyn_run bs (dyn_pos bs p fs1) fs2.
Proof.
  revert p. induction fs1 as [|f fs IH]; intros p; [done|].
  cbn. destruct (dyn_step bs p f) as [c p'] eqn:E. cbn. by rewrite IH.
Qed.

(** The errors of a run are 0s of a window of the pattern that is no longer
    than the run. *)
Lemma dyn_run_errors bs p fs :
  count_false (dyn_run bs p fs) <= count_false (window bs p (length fs)).
Proof.
  revert p. induction fs as [|f fs IH]; intros p; [done|].
  cbn [dyn_run length]. unfold dyn_step. rewrite window_S.
  destruct (cyc bs p) eqn:E; [|destruct f]; cbv beta iota;
  rewrite !count_false_cons; cbn [b2z negb].
  - specialize (IH (S p)). lia.
  - specialize (IH (S p)). lia.
  - specialize (IH p).
    pose proof (window_count_false_mono bs p (length fs) (S (length fs)) ltac:(lia)) as Hm.
    rewrite window_S, count_false_cons, E in Hm. cbn [b2z negb] in Hm. lia.
Qed.

(** Postponing the pattern keeps the requirement of the pattern. *)
Lemma dyn_run_mk_robust bs m p fs :
  m <= count_true bs -> mk_robust m (length bs) (dyn_run bs p fs).
Proof.
  intros Hm pre w post Heq Hw.
  assert (length fs = length pre + (length w + length post))%nat as Hlen.
  { rewrite <- (dyn_run_length bs p fs), Heq, !length_app. lia. }
  rewrite <- (take_drop (length pre) fs) in Heq.
  rewrite dyn_run_app in Heq.
  apply app_inj_1 in Heq as [_ Heq].
  2: { rewrite dyn_run_length, length_take. lia. }
  rewrite <- (take_drop (length w) (drop (length pre) fs)) in Heq.
  rewrite dyn_run_app in Heq.
  apply app_inj_1 in Heq as [Heq _].
  2: { rewrite dyn_run_length, length_take, length_drop. lia. }
  set (q := dyn_pos _ _ _) in Heq. set (ws := take _ (drop _ _)) in Heq.
  assert (length ws = length bs) as Hws.
  { unfold ws. rewrite length_take, length_drop. lia. }
  pose proof (dyn_run_errors bs q ws) as Herr.
  rewrite Hws, window_count_false, Heq in Herr.
  pose proof (count_true_false w). pose proof (count_true_false bs). lia.
Qed.
