(* ===== verification/Status.v ===== *)
(** * Status codes, names and the task interface of the Classic API

    [rtems_status_code] of [status.h], object names, and the interface the
    fault tolerant scheduler uses of the task manager: three directives,
    stated as a class so that the scheduler is verified against what the
    directives promise. *)

From stdpp Require Import base tactics numbers list gmap fin_maps fin_sets infinite.
From Stdlib Require Import ZArith Lia.
From S2P Require Import Prelude.

Open Scope Z_scope.

Inductive rtems_status_code :=
| RTEMS_SUCCESSFUL
| RTEMS_TASK_EXITTED
| RTEMS_MP_NOT_CONFIGURED
| RTEMS_INVALID_NAME
| RTEMS_INVALID_ID
| RTEMS_TOO_MANY
| RTEMS_TIMEOUT
| RTEMS_OBJECT_WAS_DELETED
| RTEMS_INVALID_SIZE
| RTEMS_INVALID_ADDRESS
| RTEMS_INVALID_NUMBER
| RTEMS_NOT_DEFINED
| RTEMS_RESOURCE_IN_USE
| RTEMS_UNSATISFIED
| RTEMS_INCORRECT_STATE
| RTEMS_ALREADY_SUSPENDED
| RTEMS_ILLEGAL_ON_SELF
| RTEMS_ILLEGAL_ON_REMOTE_OBJECT
| RTEMS_CALLED_FROM_ISR
| RTEMS_INVALID_PRIORITY
| RTEMS_INVALID_CLOCK
| RTEMS_INVALID_NODE
| RTEMS_NOT_CONFIGURED
| RTEMS_NOT_OWNER_OF_RESOURCE
| RTEMS_NOT_IMPLEMENTED
| RTEMS_INTERNAL_ERROR
| RTEMS_NO_MEMORY
| RTEMS_IO_ERROR
| RTEMS_PROXY_BLOCKING.

#[export] Instance rtems_status_code_eq_dec : EqDecision rtems_status_code.
Proof. solve_decision. Defined.

(** [rtems_build_name]: four characters in one word. *)
Definition rtems_build_name (c1 c2 c3 c4 : Z) : Z :=
  Z.lor (Z.lor (Z.lor (u32 (Z.shiftl c1 24)) (u32 (Z.shiftl c2 16)))
               (u32 (Z.shiftl c3 8))) (u32 c4).

Definition rtems_is_name_valid (name : Z) : bool := negb (name =? 0).

(** What the scheduler uses of the task manager.  [rtems_task_create] writes
    the identifier through its last argument, and only when it succeeds: the
    result carries the identifier exactly when the cell is written. *)
Class TaskManager (T : Type) := {
  rtems_task_create : Z -> Z -> Z -> Z -> Z -> T -> rtems_status_code * option Z * T;
  rtems_task_start : Z -> Z -> Z -> T -> rtems_status_code * T;
  rtems_task_delete : Z -> T -> rtems_status_code * T
}.

(** The promises of the directives the scheduler relies on: [task_ok t] is
    the invariant of the task manager, [task_exists t id] says that [id] is the
    identifier of a task, [task_entry t id] is the entry point and the argument
    it was started with. *)
Class TaskManagerLaws (T : Type) `{TaskManager T} := {
  task_ok : T -> Prop;
  task_exists : T -> Z -> Prop;
  task_entry : T -> Z -> option (Z * Z);
  task_create_law : forall nm pr st mo at_ t sc oid t',
    task_ok t -> rtems_task_create nm pr st mo at_ t = (sc, oid, t') ->
    task_ok t' /\ (sc = RTEMS_SUCCESSFUL <-> is_Some oid) /\
    match oid with
    | Some id => id <> 0 /\ ~ task_exists t id /\ task_entry t' id = None /\
        (forall id', task_exists t' id' <-> id' = id \/ task_exists t id')
    | None => forall id', task_exists t' id' <-> task_exists t id'
    end;
  task_start_law : forall id entry arg t,
    task_ok t -> task_exists t id -> task_entry t id = None ->
    exists t', rtems_task_start id entry arg t = (RTEMS_SUCCESSFUL, t') /\ task_ok t' /\
      task_entry t' id = Some (entry, arg) /\
      (forall id', task_exists t' id' <-> task_exists t id');
  task_delete_law : forall id t,
    task_ok t -> task_exists t id ->
    exists t', rtems_task_delete id t = (RTEMS_SUCCESSFUL, t') /\ task_ok t' /\
      (forall id', task_exists t' id' <-> id' <> id /\ task_exists t id')
}.

(** A task manager that hands out identifiers one after another: the smallest
    implementation of the interface, for the examples. *)
Definition id_supply : TaskManager Z := {|
  rtems_task_create _ _ _ _ _ n := (RTEMS_SUCCESSFUL, Some (n + 1), n + 1);
  rtems_task_start _ _ _ n := (RTEMS_SUCCESSFUL, n);
  rtems_task_delete _ n := (RTEMS_SUCCESSFUL, n)
|}.

(** A task manager of at most [limit] tasks: a table from identifiers to the
    entry points.  It keeps the promises, so they can be kept. *)
Definition task_table (limit : nat) : TaskManager (gmap Z (option (Z * Z))) := {|
  rtems_task_create _ _ _ _ _ t :=
    if decide (size t < limit)%nat then
      let id := fresh ({[0]} ∪ dom t : gset Z) in
      (RTEMS_SUCCESSFUL, Some id, <[id := None]> t)
    else (RTEMS_TOO_MANY, None, t);
  rtems_task_start id entry arg t :=
    match t !! id with
    | Some None => (RTEMS_SUCCESSFUL, <[id := Some (entry, arg)]> t)
    | Some (Some _) => (RTEMS_INCORRECT_STATE, t)
    | None => (RTEMS_INVALID_ID, t)
    end;
  rtems_task_delete id t :=
    match t !! id with
    | Some _ => (RTEMS_SUCCESSFUL, delete id t)
    | None => (RTEMS_INVALID_ID, t)
    end
|}.

#[export] Instance task_table_laws limit :
  @TaskManagerLaws _ (task_table limit).
Proof.
  refine {|
    task_ok _ := True;
    task_exists t id := is_Some (t !! id);
    task_entry t id := mjoin (t !! id)
  |}; cbn.
  - intros _ _ _ _ _ t sc oid t' _. case_decide; intros [= <- <- <-]; [|naive_solver].
    pose proof (is_fresh ({[0]} ∪ dom t : gset Z)) as Hf.
    set (id := fresh _) in *. apply not_elem_of_union in Hf as [H0 Hf].
    split; [done|]. split; [naive_solver|].
    split; [set_solver|]. split; [by rewrite <- elem_of_dom|].
    split; [by rewrite lookup_insert_eq|]. intros id'.
    destruct (decide (id' = id)) as [->|]; [rewrite lookup_insert_eq; naive_solver|].
    rewrite lookup_insert_ne by done. naive_solver.
  - intros id entry arg t _ [e He] Hn. rewrite He in Hn |- *. cbn in Hn. subst e.
    eexists. split; [done|]. split; [done|]. split; [by rewrite lookup_insert_eq|].
    intros id'. destruct (decide (id' = id)) as [->|].
    + rewrite lookup_insert_eq, He. split; intros; by eexists.
    + by rewrite lookup_insert_ne.
  - intros id t _ [e He]. rewrite He. eexists. split; [done|]. split; [done|].
    intros id'. destruct (decide (id' = id)) as [->|].
    + rewrite lookup_delete_eq. split; [by intros []|naive_solver].
    + rewrite lookup_delete_ne by done. naive_solver.
Defined.
