(* ===== verification/Chain.v ===== *)
(** * Chains

    The doubly linked lists of [score/include/rtems/score/chainimpl.h] and
    [score/src/chain.c], [chainnodecount.c], in a memory of 32-bit words.  A
    node is two words, [next] and [previous]; a chain control is three, of
    which the head node is the first two and the tail node the last two: the
    word in the middle is the [previous] of the head and the [next] of the
    tail, and it is always NULL.  The operations refine those of lists. *)

From stdpp Require Import base tactics numbers option list list_numbers gmap fin_maps fin_map_dom fin_sets.
From Stdlib Require Import ZArith Lia.
From S2P Require Import Prelude.

Open Scope Z_scope.

(** ** The memory *)
Abbreviation words := (gmap Z Z).
Abbreviation CM := (cm words).

Definition ldw (a : Z) : CM Z := getsM (fun m => mem_load m a).
Definition stw (a v : Z) : CM unit := modifyM (fun m => mem_store m a v).

Definition NULL : Z := 0.
Definition next_of (node : Z) : Z := node.
Definition previous_of (node : Z) : Z := node + 4.

(** ** The operations *)
Definition Chain_Head (the_chain : Z) : Z := the_chain.
Definition Chain_Tail (the_chain : Z) : Z := the_chain + 4.

Definition Chain_First (the_chain : Z) : CM Z := ldw (next_of (Chain_Head the_chain)).
Definition Chain_Last (the_chain : Z) : CM Z := ldw (previous_of (Chain_Tail the_chain)).
Definition Chain_Next (the_node : Z) : CM Z := ldw (next_of the_node).
Definition Chain_Previous (the_node : Z) : CM Z := ldw (previous_of the_node).

Definition Chain_Is_empty (the_chain : Z) : CM bool :=
  first ← Chain_First the_chain; mret (first =? Chain_Tail the_chain).

Definition Chain_Is_first (the_node : Z) : CM bool :=
  p ← Chain_Previous the_node; pp ← Chain_Previous p; mret (pp =? NULL).

Definition Chain_Is_last (the_node : Z) : CM bool :=
  n ← Chain_Next the_node; nn ← Chain_Next n; mret (nn =? NULL).

Definition Chain_Initialize_empty (the_chain : Z) : CM unit :=
  let head := Chain_Head the_chain in
  let tail := Chain_Tail the_chain in
  stw (next_of head) tail;;
  stw (previous_of head) NULL;;
  stw (previous_of tail) head.

Definition Chain_Extract_unprotected (the_node : Z) : CM unit :=
  next ← ldw (next_of the_node);
  previous ← ldw (previous_of the_node);
  stw (previous_of next) previous;;
  stw (next_of previous) next.

Definition Chain_Get_first_unprotected (the_chain : Z) : CM Z :=
  let head := Chain_Head the_chain in
  old_first ← ldw (next_of head);
  new_first ← ldw (next_of old_first);
  stw (next_of head) new_first;;
  stw (previous_of new_first) head;;
  mret old_first.

Definition Chain_Get_unprotected (the_chain : Z) : CM Z :=
  empty ← Chain_Is_empty the_chain;
  if negb empty then Chain_Get_first_unprotected the_chain else mret NULL.

Definition Chain_Insert_unprotected (after_node the_node : Z) : CM unit :=
  stw (previous_of the_node) after_node;;
  before_node ← ldw (next_of after_node);
  stw (next_of after_node) the_node;;
  stw (next_of the_node) before_node;;
  stw (previous_of before_node) the_node.

Definition Chain_Append_unprotected (the_chain the_node : Z) : CM unit :=
  let tail := Chain_Tail the_chain in
  old_last ← ldw (previous_of tail);
  stw (next_of the_node) tail;;
  stw (previous_of tail) the_node;;
  stw (next_of old_last) the_node;;
  stw (previous_of the_node) old_last.

Definition Chain_Prepend_unprotected (the_chain the_node : Z) : CM unit :=
  Chain_Insert_unprotected (Chain_Head the_chain) the_node.

(** Addresses are 32 bits wide. *)
Definition Addresses_Add_offset (base offset : Z) : Z := u32 (base + offset).

(** [_Chain_Initialize]: the nodes lie one after another. *)
Definition Chain_Initialize (the_chain starting_address number_nodes node_size : Z) : CM unit :=
  let head := Chain_Head the_chain in
  let tail := Chain_Tail the_chain in
  stw (previous_of head) NULL;;
  r ← c_for (Z.to_nat number_nodes) 0
        (fun _ (x : Z * Z) =>
           let '(current, next) := x in
           stw (next_of current) next;;
           stw (previous_of next) current;;
           mret (inl (next, Addresses_Add_offset next node_size))) (head, starting_address);
  let '(current, _) := r in
  stw (next_of current) tail;;
  stw (previous_of tail) current.

(** The loop of [_Chain_Node_count_unprotected] visits each word of the memory
    at most once on a chain, so the number of words is enough fuel. *)
Fixpoint count_loop (fuel : nat) (tail node count : Z) : CM Z :=
  match fuel with
  | O => lift (Undef Divergence)
  | S fuel' =>
      if node =? tail then mret count
      else next ← Chain_Next node; count_loop fuel' tail next (count + 1)
  end.

Definition Chain_Node_count_unprotected (chain : Z) : CM Z :=
  first ← Chain_First chain;
  fuel ← gets size;
  count_loop fuel (Chain_Tail chain) first 0.

(** ** Lists in memory *)

(** Neighbours in [s] point to each other. *)
Fixpoint adjacent (m : words) (s : list Z) : Prop :=
  match s with
  | a :: ((b :: _) as r) => m !! next_of a = Some b /\ m !! previous_of b = Some a /\ adjacent m r
  | _ => True
  end.

(** The words of the chain at [c] with the nodes [l]. *)
Definition footprint (c : Z) (l : list Z) : list Z :=
  (c + 4) :: (next_of <$> c :: l) ++ (previous_of <$> l ++ [Chain_Tail c]).

Record chain (m : words) (c : Z) (l : list Z) : Prop := {
  ch_null : m !! previous_of (Chain_Head c) = Some NULL;
  ch_links : adjacent m (c :: l ++ [Chain_Tail c]);
  ch_apart : NoDup (footprint c l)
}.

Lemma adjacent_cons m a b s :
  adjacent m (a :: b :: s) <->
  m !! next_of a = Some b /\ m !! previous_of b = Some a /\ adjacent m (b :: s).
Proof. done. Qed.

Lemma adjacent_app m s1 a s2 :
  adjacent m (s1 ++ a :: s2) <-> adjacent m (s1 ++ [a]) /\ adjacent m (a :: s2).
Proof.
  induction s1 as [|x s1 IH]; [cbn [app]; split; [by split|by intros [_ ?]]|].
  destruct s1 as [|y s1]; cbn [app] in *.
  - rewrite (adjacent_cons m x a s2), (adjacent_cons m x a []). cbn [adjacent]. tauto.
  - rewrite !(adjacent_cons m x y), IH. tauto.
Qed.

Lemma adjacent_frame m m' s :
  (forall x, x ∈ removelast s -> m' !! next_of x = m !! next_of x) ->
  (forall y, y ∈ tail s -> m' !! previous_of y = m !! previous_of y) ->
  adjacent m s -> adjacent m' s.
Proof.
  induction s as [|a s IH]; intros Hn Hp Hadj; [done|].
  destruct s as [|b s]; [done|]. apply adjacent_cons in Hadj as (H1 & H2 & H3).
  apply adjacent_cons. split; [rewrite Hn; [done|left]|]. split; [rewrite Hp; [done|left]|].
  apply IH; [| |done].
  - intros x Hx. apply Hn. by right.
  - intros y Hy. apply Hp. by right.
Qed.

Lemma removelast_snoc {A} (l : list A) x : removelast (l ++ [x]) = l.
Proof. apply removelast_last. Qed.

#[export] Instance previous_of_inj : Inj (=) (=) previous_of.
Proof. intros x y. unfold previous_of. lia. Qed.

(** The words of a chain are apart: the [next] words of the head and the
    nodes, the [previous] words of the nodes and the tail. *)
Lemma footprint_NoDup c l :
  NoDup (footprint c l) <->
  (forall x, x ∈ c :: l -> x <> c + 4) /\ (forall y, y ∈ l ++ [Chain_Tail c] -> y + 4 <> c + 4) /\
  NoDup (c :: l) /\ NoDup (l ++ [Chain_Tail c]) /\
  (forall x y, x ∈ c :: l -> y ∈ l ++ [Chain_Tail c] -> x <> y + 4).
Proof.
  unfold footprint. rewrite NoDup_cons, NoDup_app, elem_of_app.
  change (next_of <$> c :: l) with (id <$> c :: l).
  rewrite list_fmap_id, (NoDup_fmap previous_of), list_elem_of_fmap.
  setoid_rewrite list_elem_of_fmap. unfold previous_of. split.
  - intros (Hn & H1 & H2 & H3). split; [|split; [|split; [done|split; [done|]]]].
    + intros x Hx ->. apply Hn. by left.
    + intros y Hy Heq. apply Hn. right. by exists y.
    + intros x y Hx Hy ->. apply (H2 _ Hx). by exists y.
  - intros (H1 & H2 & H3 & H4 & H5). split; [|split; [done|split; [|done]]].
    + intros [Hx|(y & Heq & Hy)]; [by apply (H1 _ Hx)|by apply (H2 _ Hy)].
    + intros x Hx (y & -> & Hy). by apply (H5 _ _ Hx Hy).
Qed.

Ltac in_list := repeat first [rewrite elem_of_app | rewrite elem_of_cons]; tauto.

(** A node [x] is linked in between [p] and [n]. *)
Lemma chain_link m m' c l1 x l2 s1 p n s2 :
  chain m c (l1 ++ l2) -> NoDup (footprint c (l1 ++ x :: l2)) ->
  c :: l1 = s1 ++ [p] -> l2 ++ [Chain_Tail c] = n :: s2 ->
  m' !! next_of p = Some x -> m' !! previous_of x = Some p ->
  m' !! next_of x = Some n -> m' !! previous_of n = Some x ->
  (forall w, w <> next_of p -> w <> previous_of x -> w <> next_of x -> w <> previous_of n ->
     m' !! w = m !! w) ->
  chain m' c (l1 ++ x :: l2).
Proof.
  intros [Hnull Hadj _] Hnd Hs1 Hs2 Hp Hx1 Hx2 Hn Hframe.
  pose proof Hnd as (H1 & H2 & H3 & H4 & H5)%footprint_NoDup.
  assert (c :: l1 ++ x :: l2 = s1 ++ p :: x :: l2) as E1
    by (by rewrite app_comm_cons, Hs1, <- app_assoc).
  assert ((l1 ++ x :: l2) ++ [Chain_Tail c] = l1 ++ x :: n :: s2) as E2
    by (by rewrite <- Hs2, <- app_assoc).
  rewrite E1 in H1, H3, H5. rewrite E2 in H2, H4, H5.
  assert (c :: (l1 ++ l2) ++ [Chain_Tail c] = s1 ++ p :: n :: s2) as Hseq.
  { rewrite <- app_assoc, Hs2, app_comm_cons, Hs1, <- app_assoc. done. }
  rewrite Hseq in Hadj. apply adjacent_app in Hadj as [Ha1 Ha2].
  apply adjacent_cons in Ha2 as (_ & _ & Ha2).
  assert (forall y, y ∈ tail (s1 ++ [p]) -> y ∈ l1) as Htl.
  { intros y Hy. by rewrite <- Hs1 in Hy. }
  assert (forall y, y ∈ removelast (n :: s2) -> y ∈ l2) as Hrl.
  { intros y Hy. by rewrite <- Hs2, removelast_snoc in Hy. }
  apply NoDup_app in H3 as (H3a & H3b & H3c). apply NoDup_app in H4 as (H4a & H4b & H4c).
  apply NoDup_cons in H4c as [H4c H4d]. apply NoDup_cons in H4d as [H4d H4e].
  assert (c :: (l1 ++ x :: l2) ++ [Chain_Tail c] = s1 ++ p :: x :: n :: s2) as E3.
  { by rewrite E2, app_comm_cons, Hs1, <- app_assoc. }
  split; [|rewrite E3|done].
  - rewrite Hframe; [done|..]; unfold previous_of, next_of, Chain_Head in *.
    + intros Heq. apply (H1 p); [in_list|done].
    + intros Heq. apply (H2 x); [in_list|done].
    + intros Heq. apply (H1 x); [in_list|done].
    + intros Heq. apply (H2 n); [in_list|done].
  - apply adjacent_app. split; [|apply adjacent_cons; split; [done|split; [done|]];
      apply adjacent_cons; split; [done|split; [done|]]].
    + eapply adjacent_frame; [| |exact Ha1].
      * intros y Hy. rewrite removelast_snoc in Hy.
        apply Hframe; unfold previous_of, next_of in *.
        -- intros ->. apply (H3b p); in_list.
        -- apply H5; in_list.
        -- intros ->. apply (H3b x); in_list.
        -- apply H5; in_list.
      * intros y Hy. apply Htl in Hy.
        apply Hframe; unfold previous_of, next_of in *; intros Heq.
        -- apply (H5 p y); [in_list..|done].
        -- assert (y = x) as -> by lia. apply (H4b x); in_list.
        -- apply (H5 x y); [in_list..|done].
        -- assert (y = n) as -> by lia. apply (H4b n); in_list.
    + eapply adjacent_frame; [| |exact Ha2].
      * intros y Hy. apply Hrl in Hy. apply Hframe; unfold previous_of, next_of in *.
        -- intros ->. apply NoDup_cons in H3c as [H3c _]. apply H3c. in_list.
        -- apply H5; in_list.
        -- intros ->. apply NoDup_cons in H3c as [_ H3c]. apply NoDup_cons in H3c as [H3c _]. by apply H3c.
        -- apply H5; in_list.
      * intros y Hy. cbn [tail] in Hy. apply Hframe; unfold previous_of, next_of in *; intros Heq.
        -- apply (H5 p y); [in_list..|done].
        -- assert (y = x) as -> by lia. apply H4c. in_list.
        -- apply (H5 x y); [in_list..|done].
        -- assert (y = n) as -> by lia. by apply H4d.
Qed.

Lemma footprint_unlink c l1 x l2 :
  NoDup (footprint c (l1 ++ x :: l2)) -> NoDup (footprint c (l1 ++ l2)).
Proof.
  intros (H1 & H2 & H3 & H4 & H5)%footprint_NoDup. apply footprint_NoDup.
  assert (forall y, y ∈ c :: l1 ++ l2 -> y ∈ c :: l1 ++ x :: l2) as Ha
    by (intros y; in_list).
  assert (forall y, y ∈ (l1 ++ l2) ++ [Chain_Tail c] -> y ∈ (l1 ++ x :: l2) ++ [Chain_Tail c])
    as Hb by (intros y; in_list).
  split; [auto|]. split; [auto|]. split; [|split; [|auto]].
  - eapply sublist_NoDup; [exact H3|]. apply sublist_skip, sublist_app; [done|by apply sublist_cons].
  - eapply sublist_NoDup; [exact H4|]. apply sublist_app; [|done].
    apply sublist_app; [done|by apply sublist_cons].
Qed.

(** A node [x] between [p] and [n] is unlinked. *)
Lemma chain_unlink m m' c l1 x l2 s1 p n s2 :
  chain m c (l1 ++ x :: l2) ->
  c :: l1 = s1 ++ [p] -> l2 ++ [Chain_Tail c] = n :: s2 ->
  m' !! next_of p = Some n -> m' !! previous_of n = Some p ->
  (forall w, w <> next_of p -> w <> previous_of n -> m' !! w = m !! w) ->
  chain m' c (l1 ++ l2).
Proof.
  intros [Hnull Hadj Hnd] Hs1 Hs2 Hp Hn Hframe.
  pose proof Hnd as (H1 & H2 & H3 & H4 & H5)%footprint_NoDup.
  assert (c :: l1 ++ x :: l2 = s1 ++ p :: x :: l2) as E1
    by (by rewrite app_comm_cons, Hs1, <- app_assoc).
  assert ((l1 ++ x :: l2) ++ [Chain_Tail c] = l1 ++ x :: n :: s2) as E2
    by (by rewrite <- Hs2, <- app_assoc).
  assert (c :: (l1 ++ x :: l2) ++ [Chain_Tail c] = s1 ++ p :: x :: n :: s2) as E3.
  { by rewrite E2, app_comm_cons, Hs1, <- app_assoc. }
  rewrite E1 in H1, H3, H5. rewrite E2 in H2, H4, H5. rewrite E3 in Hadj.
  apply adjacent_app in Hadj as [Ha1 Ha2].
  apply adjacent_cons in Ha2 as (_ & _ & Ha2). apply adjacent_cons in Ha2 as (_ & _ & Ha2).
  assert (forall y, y ∈ tail (s1 ++ [p]) -> y ∈ l1) as Htl.
  { intros y Hy. by rewrite <- Hs1 in Hy. }
  assert (forall y, y ∈ removelast (n :: s2) -> y ∈ l2) as Hrl.
  { intros y Hy. by rewrite <- Hs2, removelast_snoc in Hy. }
  assert (c :: (l1 ++ l2) ++ [Chain_Tail c] = s1 ++ p :: n :: s2) as Hseq.
  { rewrite <- app_assoc, Hs2, app_comm_cons, Hs1, <- app_assoc. done. }
  apply NoDup_app in H3 as (H3a & H3b & H3c). apply NoDup_app in H4 as (H4a & H4b & H4c).
  apply NoDup_cons in H4c as [_ H4d]. apply NoDup_cons in H4d as [H4d H4e].
  apply NoDup_cons in H3c as [H3c _].
  split; [|rewrite Hseq|by apply footprint_unlink in Hnd].
  - rewrite Hframe; [done|..]; unfold previous_of, next_of, Chain_Head in *; intros Heq.
    + apply (H1 p); [in_list|done].
    + apply (H2 n); [in_list|done].
  - apply adjacent_app. split; [|apply adjacent_cons; split; [done|split; [done|]]].
    + eapply adjacent_frame; [| |exact Ha1].
      * intros y Hy. rewrite removelast_snoc in Hy.
        apply Hframe; unfold previous_of, next_of in *.
        -- intros ->. apply (H3b p); in_list.
        -- apply H5; in_list.
      * intros y Hy. apply Htl in Hy.
        apply Hframe; unfold previous_of, next_of in *; intros Heq.
        -- apply (H5 p y); [in_list..|done].
        -- assert (y = n) as -> by lia. apply (H4b n); in_list.
    + eapply adjacent_frame; [| |exact Ha2].
      * intros y Hy. apply Hrl in Hy. apply Hframe; unfold previous_of, next_of in *.
        -- intros ->. apply H3c. in_list.
        -- apply H5; in_list.
      * intros y Hy. cbn [tail] in Hy. apply Hframe; unfold previous_of, next_of in *; intros Heq.
        -- apply (H5 p y); [in_list..|done].
        -- assert (y = n) as -> by lia. by apply H4d.
Qed.

(** ** The operations on chains *)
Lemma ldw_bind {B} a x (k : Z -> CM B) m :
  m !! a = Some x -> (ldw a ≫= k) m = k x m.
Proof. intros Hx. apply getsM_bind. unfold mem_load. by rewrite Hx. Qed.

Lemma stw_bind {B} a v (k : unit -> CM B) m :
  is_Some (m !! a) -> (stw a v ≫= k) m = k tt (<[a := v]> m).
Proof. intros [y Hy]. apply modifyM_bind. unfold mem_store. by rewrite Hy. Qed.

Lemma stw_run a v m : is_Some (m !! a) -> stw a v m = Ok (tt, <[a := v]> m).
Proof. intros [y Hy]. unfold stw, modifyM, mem_store. by rewrite Hy. Qed.

(** The neighbours of a position of a chain: the node before it, or the head,
    and the node after it, or the tail. *)
Lemma chain_before c (l1 : list Z) : exists s1 p, c :: l1 = s1 ++ [p].
Proof.
  destruct (exists_last (l := c :: l1)) as (s1 & p & Heq); [done|]. by exists s1, p.
Qed.

Lemma chain_after c (l2 : list Z) : exists n s2, l2 ++ [Chain_Tail c] = n :: s2.
Proof. destruct l2 as [|n l2]; [by eexists _, _|by eexists _, _]. Qed.

(** Two neighbours of a chain. *)
Lemma chain_pair m c l1 l2 s1 p n s2 :
  chain m c (l1 ++ l2) -> c :: l1 = s1 ++ [p] -> l2 ++ [Chain_Tail c] = n :: s2 ->
  m !! next_of p = Some n /\ m !! previous_of n = Some p.
Proof.
  intros [_ Hadj _] Hs1 Hs2.
  rewrite <- app_assoc, Hs2, app_comm_cons, Hs1, <- app_assoc in Hadj.
  apply adjacent_app in Hadj as [_ Hadj]. by apply adjacent_cons in Hadj as (? & ? & _).
Qed.

Lemma link_words c l1 x l2 s1 p n s2 :
  NoDup (footprint c (l1 ++ x :: l2)) -> c :: l1 = s1 ++ [p] -> l2 ++ [Chain_Tail c] = n :: s2 ->
  p <> x /\ x <> n /\ p <> x + 4 /\ p <> n + 4 /\ x <> n + 4.
Proof.
  intros (_ & _ & H3 & H4 & H5)%footprint_NoDup Hs1 Hs2.
  assert (c :: l1 ++ x :: l2 = s1 ++ p :: x :: l2) as E1
    by (by rewrite app_comm_cons, Hs1, <- app_assoc).
  assert ((l1 ++ x :: l2) ++ [Chain_Tail c] = l1 ++ x :: n :: s2) as E2
    by (by rewrite <- Hs2, <- app_assoc).
  rewrite E1 in H3, H5. rewrite E2 in H4, H5.
  apply NoDup_app in H3 as (_ & _ & H3). apply NoDup_cons in H3 as [H3 _].
  apply NoDup_app in H4 as (_ & _ & H4). apply NoDup_cons in H4 as [H4 _].
  split; [intros ->; apply H3; in_list|]. split; [intros ->; apply H4; in_list|].
  split; [|split]; apply H5; in_list.
Qed.

(** What an operation on a chain leaves alone. *)
Definition beyond (c : Z) (l : list Z) (m m' : words) : Prop :=
  (forall w, w ∉ footprint c l -> m' !! w = m !! w) /\
  (forall w, is_Some (m !! w) -> is_Some (m' !! w)).

Lemma beyond_refl c l m : beyond c l m m.
Proof. by split. Qed.

Lemma beyond_insert c l m w v m' :
  beyond c l m m' -> w ∈ footprint c l -> beyond c l m (<[w := v]> m').
Proof.
  intros [H1 H2] Hw. split.
  - intros w' Hw'. rewrite lookup_insert_ne; [by apply H1|]. by intros ->.
  - intros w' Hw'. destruct (decide (w = w')) as [->|].
    + rewrite lookup_insert_eq. by eexists.
    + rewrite lookup_insert_ne by done. by apply H2.
Qed.

Lemma footprint_next c l x : x ∈ c :: l -> next_of x ∈ footprint c l.
Proof.
  intros Hx. unfold footprint. right. apply elem_of_app. left. by apply list_elem_of_fmap_2.
Qed.

Lemma footprint_previous c l y : y ∈ l ++ [Chain_Tail c] -> previous_of y ∈ footprint c l.
Proof.
  intros Hy. unfold footprint. right. apply elem_of_app. right. by apply list_elem_of_fmap_2.
Qed.

(** The positions of the four words a link touches. *)
Lemma link_footprint c l1 x l2 s1 p n s2 :
  c :: l1 = s1 ++ [p] -> l2 ++ [Chain_Tail c] = n :: s2 ->
  let l := l1 ++ x :: l2 in
  next_of p ∈ footprint c l /\ previous_of x ∈ footprint c l /\
  next_of x ∈ footprint c l /\ previous_of n ∈ footprint c l.
Proof.
  intros Hs1 Hs2 l.
  assert (p ∈ c :: l1) as Hp by (rewrite Hs1; in_list).
  assert (n ∈ l2 ++ [Chain_Tail c]) as Hn by (rewrite Hs2; in_list).
  apply elem_of_cons in Hp. rewrite elem_of_app, elem_of_cons in Hn.
  split; [|split; [|split]]; [apply footprint_next|apply footprint_previous
    |apply footprint_next|apply footprint_previous]; unfold l; in_list.
Qed.

Lemma chain_insert_run m c l1 x l2 s1 p :
  chain m c (l1 ++ l2) -> NoDup (footprint c (l1 ++ x :: l2)) -> c :: l1 = s1 ++ [p] ->
  is_Some (m !! next_of x) -> is_Some (m !! previous_of x) ->
  exists m', Chain_Insert_unprotected p x m = Ok (tt, m') /\ chain m' c (l1 ++ x :: l2) /\
    beyond c (l1 ++ x :: l2) m m'.
Proof.
  intros Hc Hnd Hs1 Hm1 Hm2. destruct (chain_after c l2) as (n & s2 & Hs2).
  destruct (chain_pair _ _ _ _ _ _ _ _ Hc Hs1 Hs2) as [Hpn Hnp].
  destruct (link_words _ _ _ _ _ _ _ _ Hnd Hs1 Hs2) as (D1 & D2 & D3 & D4 & D5).
  destruct (link_footprint c l1 x l2 s1 p n s2 Hs1 Hs2) as (F1 & F2 & F3 & F4).
  unfold Chain_Insert_unprotected, next_of, previous_of in *.
  rewrite stw_bind by done. rewrite (ldw_bind _ n) by (by rewrite lookup_insert_ne by lia).
  rewrite stw_bind by (rewrite lookup_insert_ne by lia; by eexists).
  rewrite stw_bind by (by rewrite !lookup_insert_ne by lia).
  rewrite stw_run.
  2: { rewrite !lookup_insert_ne by lia. by eexists. }
  eexists. split; [reflexivity|]. split.
  - eapply chain_link; [exact Hc|done|exact Hs1|exact Hs2|..]; unfold next_of, previous_of.
    + by rewrite !lookup_insert_ne, lookup_insert_eq by lia.
    + by rewrite !lookup_insert_ne, lookup_insert_eq by lia.
    + by rewrite lookup_insert_ne, lookup_insert_eq by lia.
    + by rewrite lookup_insert_eq.
    + intros w ? ? ? ?. by rewrite !lookup_insert_ne by lia.
  - repeat apply beyond_insert; done || apply beyond_refl.
Qed.

Lemma chain_append_run m c l x :
  chain m c l -> NoDup (footprint c (l ++ [x])) ->
  is_Some (m !! next_of x) -> is_Some (m !! previous_of x) ->
  exists m', Chain_Append_unprotected c x m = Ok (tt, m') /\ chain m' c (l ++ [x]) /\
    beyond c (l ++ [x]) m m'.
Proof.
  intros Hc Hnd Hm1 Hm2. rewrite <- (app_nil_r l) in Hc.
  destruct (chain_before c l) as (s1 & p & Hs1).
  destruct (chain_pair _ _ _ _ _ _ _ _ Hc Hs1 (app_nil_l _)) as [Hpn Hnp].
  destruct (link_words _ _ _ _ _ _ _ _ Hnd Hs1 (app_nil_l _)) as (D1 & D2 & D3 & D4 & D5).
  destruct (link_footprint c l x [] s1 p (Chain_Tail c) [] Hs1 eq_refl) as (F1 & F2 & F3 & F4).
  unfold Chain_Append_unprotected, next_of, previous_of in *.
  rewrite (ldw_bind _ p) by done. rewrite stw_bind by done.
  rewrite stw_bind by (rewrite lookup_insert_ne by lia; by eexists).
  rewrite stw_bind by (rewrite !lookup_insert_ne by lia; by eexists).
  rewrite stw_run by (by rewrite !lookup_insert_ne by lia).
  eexists. split; [reflexivity|]. split.
  - eapply chain_link; [exact Hc|done|exact Hs1|reflexivity|..]; unfold next_of, previous_of.
    + by rewrite lookup_insert_ne, lookup_insert_eq by lia.
    + by rewrite lookup_insert_eq.
    + by rewrite !lookup_insert_ne, lookup_insert_eq by lia.
    + by rewrite !lookup_insert_ne, lookup_insert_eq by lia.
    + intros w ? ? ? ?. by rewrite !lookup_insert_ne by lia.
  - repeat apply beyond_insert; done || apply beyond_refl.
Qed.

Lemma chain_extract_run m c l1 x l2 :
  chain m c (l1 ++ x :: l2) ->
  exists m', Chain_Extract_unprotected x m = Ok (tt, m') /\ chain m' c (l1 ++ l2) /\
    beyond c (l1 ++ x :: l2) m m'.
Proof.
  intros Hc. destruct (chain_before c l1) as (s1 & p & Hs1).
  destruct (chain_after c l2) as (n & s2 & Hs2).
  destruct (chain_pair m c l1 (x :: l2) s1 p x (n :: s2) Hc Hs1) as [Hp1 Hp2];
    [by rewrite <- Hs2|].
  destruct (chain_pair m c (l1 ++ [x]) l2 (c :: l1) x n s2) as [Hn1 Hn2];
    [by rewrite <- app_assoc|done|done|].
  destruct (link_words _ _ _ _ _ _ _ _ (ch_apart _ _ _ Hc) Hs1 Hs2) as (D1 & D2 & D3 & D4 & D5).
  destruct (link_footprint c l1 x l2 s1 p n s2 Hs1 Hs2) as (F1 & F2 & F3 & F4).
  unfold Chain_Extract_unprotected, next_of, previous_of in *.
  rewrite (ldw_bind _ n), (ldw_bind _ p) by done. rewrite stw_bind by (by eexists).
  rewrite stw_run by (rewrite lookup_insert_ne by lia; by eexists).
  eexists. split; [reflexivity|]. split.
  - eapply chain_unlink; [exact Hc|exact Hs1|exact Hs2|..]; unfold next_of, previous_of.
    + by rewrite lookup_insert_eq.
    + by rewrite lookup_insert_ne, lookup_insert_eq by lia.
    + intros w ? ?. by rewrite !lookup_insert_ne by lia.
  - repeat apply beyond_insert; done || apply beyond_refl.
Qed.

Lemma chain_first_run m c l :
  chain m c l -> Chain_First c m = Ok (default (Chain_Tail c) (head l), m).
Proof.
  intros Hc. destruct (chain_after c l) as (n & s2 & Hs2).
  destruct (chain_pair m c [] l [] c n s2) as [H1 _]; [done..|].
  assert (default (Chain_Tail c) (head l) = n) as ->.
  { destruct l as [|y l]; by injection Hs2. }
  unfold Chain_First, Chain_Head, ldw, getsM, mem_load. by rewrite H1.
Qed.

Lemma node_not_tail m c l x : chain m c l -> x ∈ l -> x <> Chain_Tail c.
Proof.
  intros [_ _ (_ & _ & _ & H4 & _)%footprint_NoDup] Hx ->.
  apply NoDup_app in H4 as (_ & H4 & _). apply (H4 _ Hx). by left.
Qed.

Lemma chain_is_empty_run m c l :
  chain m c l -> Chain_Is_empty c m = Ok (bool_decide (l = []), m).
Proof.
  intros Hc. unfold Chain_Is_empty. rewrite (cm_bind_ok _ _ _ _ _ (chain_first_run m c l Hc)).
  rewrite cm_ret_run. do 2 f_equal. destruct l as [|x l]; cbn [head default].
  - by rewrite Z.eqb_refl.
  - rewrite bool_decide_false by done. apply Z.eqb_neq, (node_not_tail m c (x :: l)); [done|left].
Qed.

Lemma chain_get_run m c l :
  chain m c l ->
  exists m', Chain_Get_unprotected c m = Ok (default NULL (head l), m') /\ chain m' c (tail l) /\
    beyond c l m m'.
Proof.
  intros Hc. unfold Chain_Get_unprotected.
  rewrite (cm_bind_ok _ _ _ _ _ (chain_is_empty_run m c l Hc)).
  destruct l as [|x l]; cbn [head tail default].
  { exists m. split; [done|]. split; [done|apply beyond_refl]. }
  rewrite bool_decide_false by done. cbn [negb].
  destruct (chain_after c l) as (n & s2 & Hs2).
  destruct (chain_pair m c [] (x :: l) [] c x (n :: s2) Hc) as [Hp1 Hp2];
    [done|by rewrite <- Hs2|].
  destruct (chain_pair m c [x] l [c] x n s2) as [Hn1 Hn2]; [done..|].
  destruct (link_words c [] x l [] c n s2 (ch_apart _ _ _ Hc) eq_refl Hs2)
    as (D1 & D2 & D3 & D4 & D5).
  destruct (link_footprint c [] x l [] c n s2 eq_refl Hs2) as (F1 & F2 & F3 & F4).
  unfold Chain_Get_first_unprotected, Chain_Head, next_of, previous_of in *.
  rewrite (ldw_bind _ x), (ldw_bind _ n) by done. rewrite stw_bind by (by eexists).
  rewrite stw_bind by (rewrite lookup_insert_ne by lia; by eexists).
  eexists. split; [reflexivity|]. split.
  - eapply (chain_unlink m _ c [] x l []); [exact Hc|done|exact Hs2|..];
      unfold next_of, previous_of.
    + by rewrite lookup_insert_ne, lookup_insert_eq by lia.
    + by rewrite lookup_insert_eq.
    + intros w ? ?. by rewrite !lookup_insert_ne by lia.
  - repeat apply beyond_insert; done || apply beyond_refl.
Qed.

Lemma chain_prepend_run m c l x :
  chain m c l -> NoDup (footprint c (x :: l)) ->
  is_Some (m !! next_of x) -> is_Some (m !! previous_of x) ->
  exists m', Chain_Prepend_unprotected c x m = Ok (tt, m') /\ chain m' c (x :: l) /\
    beyond c (x :: l) m m'.
Proof. intros Hc Hnd H1 H2. by apply (chain_insert_run m c [] x l [] c). Qed.

Lemma chain_initialize_empty_run m c :
  is_Some (m !! c) -> is_Some (m !! (c + 4)) -> is_Some (m !! (c + 8)) ->
  exists m', Chain_Initialize_empty c m = Ok (tt, m') /\ chain m' c [] /\ beyond c [] m m'.
Proof.
  intros H1 H2 H3.
  unfold Chain_Initialize_empty, next_of, previous_of, Chain_Tail, Chain_Head.
  replace (c + 4 + 4) with (c + 8) by lia.
  rewrite stw_bind by done. rewrite stw_bind by (by rewrite lookup_insert_ne by lia).
  rewrite stw_run by (by rewrite !lookup_insert_ne by lia).
  eexists. split; [reflexivity|].
  split; [split|]; unfold Chain_Head, Chain_Tail, next_of, previous_of.
  - by rewrite lookup_insert_ne, lookup_insert_eq by lia.
  - apply adjacent_cons. unfold next_of, previous_of.
    replace (c + 4 + 4) with (c + 8) by lia.
    by rewrite !lookup_insert_ne, !lookup_insert_eq by lia.
  - apply footprint_NoDup. unfold Chain_Tail. cbn [app].
    setoid_rewrite elem_of_cons. setoid_rewrite elem_of_nil.
    split; [lia|]. split; [lia|]. split; [apply NoDup_singleton|].
    split; [apply NoDup_singleton|lia].
  - repeat apply beyond_insert; [apply beyond_refl|..]; unfold footprint, Chain_Tail; cbn;
      rewrite !elem_of_cons; unfold previous_of, next_of; auto 8 with lia.
Qed.

(** ** The nodes of an array *)
Definition node_at (start size i : Z) : Z := start + i * size.
Definition nodes (start size n : Z) : list Z := node_at start size <$> seqZ 0 n.

Lemma nodes_S start size n : 0 <= n -> nodes start size (n + 1) = nodes start size n ++ [node_at start size n].
Proof.
  intros Hn. unfold nodes. rewrite (seqZ_app 0 n 1), fmap_app by lia. done.
Qed.

Lemma nodes_elem start size n i : 0 <= i < n -> node_at start size i ∈ nodes start size n.
Proof. intros Hi. apply list_elem_of_fmap_2, elem_of_seqZ. lia. Qed.

Lemma nodes_prefix start size n i :
  0 <= i <= n -> exists r, nodes start size n = nodes start size i ++ r.
Proof.
  intros Hi. exists (node_at start size <$> seqZ i (n - i)). unfold nodes.
  rewrite <- fmap_app. f_equal. replace i with (0 + i) at 2 by lia.
  rewrite <- seqZ_app by lia. f_equal. lia.
Qed.

(** The state of the loop of [_Chain_Initialize] after [i] nodes. *)
Record building (m0 : words) (c start size n : Z) (i : Z) (x : Z * Z) (m : words) : Prop := {
  bu_next : i < n -> x.2 = node_at start size i;
  bu_current : exists s1, c :: nodes start size i = s1 ++ [x.1];
  bu_links : adjacent m (c :: nodes start size i);
  bu_null : m !! (c + 4) = Some NULL;
  bu_beyond : beyond c (nodes start size n) m0 m
}.

Section Building.
Context (m0 : words) (c start size n : Z).
Abbreviation l := (nodes start size n).
Context (Hnd : NoDup (footprint c l)).
Context (Hmap : forall w, w ∈ footprint c l -> is_Some (m0 !! w)).
Context (Hrange : forall x, x ∈ l -> 0 <= x < 2 ^ 32).

Lemma building_step i x m :
  0 <= i < n -> building m0 c start size n i x m ->
  exists x' m', (let '(current, next) := x in
    stw (next_of current) next;; stw (previous_of next) current;;
    mret (inl (next, Addresses_Add_offset next size) : (Z * Z) + (Z * Z))) m = Ok (inl x', m') /\
    building m0 c start size n (i + 1) x' m'.
Proof.
  intros Hi [Hx (s1 & Hs1) Hadj Hnull Hb]. destruct x as [p q]. cbn in Hx, Hs1.
  rewrite Hx by lia. clear Hx q.
  set (q := node_at start size i). pose proof Hnd as (H1 & H2 & H3 & H4 & H5)%footprint_NoDup.
  destruct (nodes_prefix start size n (i + 1) ltac:(lia)) as (r & Hpre).
  rewrite nodes_S in Hpre by lia. fold q in Hpre.
  assert (p ∈ c :: l) as Hp.
  { rewrite Hpre, app_comm_cons, app_comm_cons, Hs1. in_list. }
  assert (q ∈ l) as Hq by (apply nodes_elem; lia).
  assert (q ∈ l ++ [Chain_Tail c]) as Hq' by in_list.
  assert (forall w, w ∈ footprint c l -> is_Some (m !! w)) as Hmap'.
  { intros w Hw. by apply (proj2 Hb), Hmap. }
  unfold next_of, previous_of in *.
  rewrite stw_bind by (by apply Hmap', (footprint_next c l p)).
  rewrite stw_bind.
  2: { rewrite lookup_insert_ne by (apply H5; done). by apply Hmap', (footprint_previous c l q). }
  eexists (q, Addresses_Add_offset q size), _. split; [reflexivity|].
  rewrite Hpre, app_comm_cons, app_comm_cons in H3. apply NoDup_app in H3 as (H3 & _ & _).
  rewrite Hs1 in H3. rewrite Hpre in H4. rewrite <- !app_assoc in H4.
  apply NoDup_app in H4 as (_ & H4 & _).
  split; cbn [fst snd].
  - intros Hlt. unfold Addresses_Add_offset.
    replace (q + size) with (node_at start size (i + 1)) by (unfold q, node_at; lia).
    apply u32_id, Hrange, nodes_elem. lia.
  - exists (c :: nodes start size i). by rewrite nodes_S by lia.
  - rewrite nodes_S by lia. fold q. rewrite app_comm_cons, Hs1. rewrite <- app_assoc. cbn [app].
    apply adjacent_app. split.
    + eapply adjacent_frame; [| |by rewrite <- Hs1].
      * intros y Hy. rewrite removelast_snoc in Hy. unfold next_of.
        assert (y ∈ c :: l) as Hyl.
        { rewrite Hpre, app_comm_cons, app_comm_cons, Hs1. in_list. }
        rewrite !lookup_insert_ne; [done|..].
        -- intros ->. rewrite <- app_assoc in H3. apply NoDup_app in H3 as (_ & H3 & _).
           apply (H3 y Hy). by left.
        -- intros Heq. by apply (H5 y q).
      * intros y Hy. rewrite <- Hs1 in Hy. cbn [tail] in Hy. unfold previous_of.
        assert (y ∈ l ++ [Chain_Tail c]) as Hyl.
        { rewrite Hpre. in_list. }
        rewrite !lookup_insert_ne; [done|..].
        -- intros Heq. by apply (H5 p y).
        -- intros Heq. assert (y = q) as -> by lia. apply (H4 q Hy). by left.
    + apply adjacent_cons. unfold next_of, previous_of.
      rewrite lookup_insert_eq, lookup_insert_ne, lookup_insert_eq; [done|].
      intros Heq. by apply (H5 p q).
  - rewrite !lookup_insert_ne; [done|..].
    + by apply H1.
    + by apply H2.
  - repeat apply beyond_insert; [done|by apply (footprint_next c l p)
      |by apply (footprint_previous c l q)].
Qed.

Lemma chain_initialize_run :
  0 <= n ->
  exists m', Chain_Initialize c start n size m0 = Ok (tt, m') /\ chain m' c l /\ beyond c l m0 m'.
Proof.
  intros Hn. pose proof Hnd as (H1 & H2 & H3 & H4 & H5)%footprint_NoDup.
  unfold Chain_Initialize, Chain_Head.
  assert (c + 4 ∈ footprint c l) as Hmid by left.
  unfold previous_of at 1. rewrite stw_bind by (by apply Hmap).
  destruct (c_for_inv (building m0 c start size n) (Z.to_nat n) 0
    (fun (_ : Z) (x : Z * Z) => let '(current, next) := x in
       stw (next_of current) next;; stw (previous_of next) current;;
       mret (inl (next, Addresses_Add_offset next size))) (c, start) (<[c + 4 := NULL]> m0))
    as ([p q] & m & Hr & Hbu).
  - split; cbn [fst snd].
    + intros _. unfold node_at. lia.
    + by exists [].
    + done.
    + apply lookup_insert_eq.
    + by apply beyond_insert; [apply beyond_refl|].
  - intros i x m Hi Hbu. apply building_step; [lia|done].
  - rewrite (cm_bind_ok _ _ _ _ _ Hr). rewrite Z.add_0_l, Z2Nat.id in Hbu by lia.
    destruct Hbu as [_ (s1 & Hs1) Hadj Hnull Hb]. cbn in Hs1.
    assert (p ∈ c :: l) as Hp by (rewrite Hs1; in_list).
    assert (Chain_Tail c ∈ l ++ [Chain_Tail c]) as Ht by in_list.
    assert (forall w, w ∈ footprint c l -> is_Some (m !! w)) as Hmap'.
    { intros w Hw. by apply (proj2 Hb), Hmap. }
    rewrite stw_bind by (by apply Hmap', (footprint_next c l p)).
    rewrite stw_run.
    2: { unfold next_of, previous_of. rewrite lookup_insert_ne by (apply H5; done).
         by apply Hmap', (footprint_previous c l (Chain_Tail c)). }
    eexists. split; [reflexivity|].
    split; [split; [| |done]|repeat apply beyond_insert;
      [done|by apply (footprint_next c l p)|by apply (footprint_previous c l)]].
    + unfold previous_of, next_of, Chain_Head. rewrite !lookup_insert_ne; [done|..].
      * by apply H1.
      * by apply H2.
    + rewrite app_comm_cons, Hs1, <- app_assoc. cbn [app]. apply adjacent_app. split.
      * rewrite Hs1 in Hadj. rewrite Hs1 in H3, H5. eapply adjacent_frame; [| |exact Hadj].
        -- intros y Hy. rewrite removelast_snoc in Hy. unfold next_of, previous_of.
           rewrite !lookup_insert_ne; [done|..].
           ++ intros ->. apply NoDup_app in H3 as (_ & H3 & _). apply (H3 y Hy). by left.
           ++ intros Heq. apply (H5 y (Chain_Tail c)); [in_list..|done].
        -- intros y Hy. rewrite <- Hs1 in Hy. cbn [tail] in Hy. unfold next_of, previous_of.
           rewrite !lookup_insert_ne; [done|..].
           ++ intros Heq. apply (H5 p y); [in_list..|done].
           ++ intros Heq. assert (y = Chain_Tail c) as -> by lia.
              apply NoDup_app in H4 as (_ & H4 & _). apply (H4 _ Hy). by left.
      * apply adjacent_cons. unfold next_of, previous_of.
        rewrite lookup_insert_eq, lookup_insert_ne, lookup_insert_eq; [done|].
        intros Heq. by apply (H5 p (Chain_Tail c)).
Qed.

End Building.

(** ** Counting *)
Lemma chain_count_loop_run m c l1 l2 count fuel :
  chain m c (l1 ++ l2) -> (length l2 < fuel)%nat ->
  count_loop fuel (Chain_Tail c) (default (Chain_Tail c) (head l2)) count m =
    Ok (count + Z.of_nat (length l2), m).
Proof.
  revert l1 count fuel. induction l2 as [|x l2 IH]; intros l1 count fuel Hc Hf;
    (destruct fuel as [|fuel]; [cbn in Hf; lia|]); cbn [count_loop head default].
  - rewrite Z.eqb_refl. by rewrite cm_ret_run, Z.add_0_r.
  - rewrite (proj2 (Z.eqb_neq _ _)) by (eapply node_not_tail; [exact Hc|in_list]).
    destruct (chain_after c l2) as (n & s2 & Hs2).
    destruct (chain_pair m c (l1 ++ [x]) l2 (c :: l1) x n s2) as [Hn1 _];
      [by rewrite <- app_assoc|done|done|].
    unfold Chain_Next. rewrite (ldw_bind _ n) by done.
    assert (n = default (Chain_Tail c) (head l2)) as ->.
    { destruct l2; by injection Hs2. }
    rewrite (IH (l1 ++ [x])); [|by rewrite <- app_assoc|cbn in Hf; lia].
    do 2 f_equal. cbn [length]. lia.
Qed.

(** Every node of a chain has a word of its own, and the control has three. *)
Lemma chain_length m c l : chain m c l -> (length l < size m)%nat.
Proof.
  intros Hc. pose proof (ch_apart _ _ _ Hc) as (_ & _ & H3 & _ & _)%footprint_NoDup.
  assert (list_to_set (c :: l) ⊆ (dom m : gset Z)) as Hsub.
  { intros x Hx. apply elem_of_list_to_set in Hx. apply elem_of_dom.
    apply list_elem_of_split in Hx as (l1 & l2 & Heq).
    destruct l1 as [|y l1]; injection Heq as -> ->.
    - destruct (chain_after x l2) as (n & s2 & Hs2).
      destruct (chain_pair m x [] l2 [] x n s2) as [Hn1 _]; [done..|]. by eexists.
    - destruct (chain_after y l2) as (n & s2 & Hs2).
      destruct (chain_pair m y (l1 ++ [x]) l2 (y :: l1) x n s2) as [Hn1 _];
        [by rewrite <- app_assoc|done|done|]. by eexists. }
  apply subseteq_size in Hsub. rewrite size_list_to_set in Hsub by done.
  rewrite size_dom in Hsub. cbn in Hsub. lia.
Qed.

Lemma chain_node_count_run m c l :
  chain m c l -> Chain_Node_count_unprotected c m = Ok (Z.of_nat (length l), m).
Proof.
  intros Hc. unfold Chain_Node_count_unprotected.
  rewrite (cm_bind_ok _ _ _ _ _ (chain_first_run m c l Hc)), gets_bind.
  by rewrite (chain_count_loop_run m c [] l 0) by (done || by eapply chain_length).
Qed.

(** ** Refinement: a chain is a list *)
Inductive chain_op :=
| Op_append (x : Z)
| Op_prepend (x : Z)
| Op_insert (after x : Z)
| Op_extract (x : Z)
| Op_get
| Op_count.

(** The code of an operation; the result is the node or the number it returns. *)
Definition run_op (c : Z) (op : chain_op) : CM Z :=
  match op with
  | Op_append x => Chain_Append_unprotected c x;; mret NULL
  | Op_prepend x => Chain_Prepend_unprotected c x;; mret NULL
  | Op_insert p x => Chain_Insert_unprotected p x;; mret NULL
  | Op_extract x => Chain_Extract_unprotected x;; mret NULL
  | Op_get => Chain_Get_unprotected c
  | Op_count => Chain_Node_count_unprotected c
  end.

Fixpoint run_ops (c : Z) (ops : list chain_op) : CM (list Z) :=
  match ops with
  | [] => mret []
  | op :: r => x ← run_op c op; xs ← run_ops c r; mret (x :: xs)
  end.

(** The operation on a list; [None] where it may not be called: a node is
    added twice, or taken off a chain it is not on. *)
Fixpoint insert_after (p x : Z) (l : list Z) : list Z :=
  match l with
  | [] => []
  | y :: r => if y =? p then y :: x :: r else y :: insert_after p x r
  end.

Definition list_op (c : Z) (pool : list Z) (op : chain_op) (l : list Z) : option (Z * list Z) :=
  match op with
  | Op_append x =>
      if bool_decide (x ∈ pool /\ x ∉ l) then Some (NULL, l ++ [x]) else None
  | Op_prepend x => if bool_decide (x ∈ pool /\ x ∉ l) then Some (NULL, x :: l) else None
  | Op_insert p x =>
      if bool_decide ((x ∈ pool /\ x ∉ l) /\ p ∈ c :: l)
      then Some (NULL, tail (insert_after p x (c :: l))) else None
  | Op_extract x =>
      if bool_decide (x ∈ l) then Some (NULL, filter (fun y => y <> x) l) else None
  | Op_get => Some (default NULL (head l), tail l)
  | Op_count => Some (Z.of_nat (length l), l)
  end.

Fixpoint list_ops (c : Z) (pool : list Z) (ops : list chain_op) (l : list Z)
    : option (list Z * list Z) :=
  match ops with
  | [] => Some ([], l)
  | op :: r =>
      '(x, l') ← list_op c pool op l;
      '(xs, l'') ← list_ops c pool r l';
      Some (x :: xs, l'')
  end.

(** The nodes a program may chain: their words lie apart. *)
Record node_pool (m : words) (c : Z) (pool : list Z) : Prop := {
  np_apart : NoDup (footprint c pool);
  np_mapped : forall x, x ∈ pool -> is_Some (m !! next_of x) /\ is_Some (m !! previous_of x)
}.

Lemma footprint_sub c l pool :
  NoDup (footprint c pool) -> NoDup l -> (forall x, x ∈ l -> x ∈ pool) ->
  NoDup (footprint c l).
Proof.
  intros (H1 & H2 & H3 & H4 & H5)%footprint_NoDup Hl Hsub. apply footprint_NoDup.
  assert (forall x, x ∈ c :: l -> x ∈ c :: pool) as Ha.
  { intros x. rewrite !elem_of_cons. naive_solver. }
  assert (forall x, x ∈ l ++ [Chain_Tail c] -> x ∈ pool ++ [Chain_Tail c]) as Hb.
  { intros x. rewrite !elem_of_app. naive_solver. }
  split; [auto|]. split; [auto|]. split; [|split; [|auto]].
  - apply NoDup_cons. split; [|done]. apply NoDup_cons in H3 as [H3 _]. auto.
  - apply NoDup_app in H4 as (_ & H4 & _). apply NoDup_app. split; [done|].
    split; [auto|apply NoDup_singleton].
Qed.

Lemma chain_NoDup m c l : chain m c l -> NoDup l /\ c ∉ l.
Proof.
  intros [_ _ (_ & _ & H3 & _ & _)%footprint_NoDup]. by apply NoDup_cons in H3 as [? ?].
Qed.

Lemma insert_after_split p x l1 l2 :
  p ∉ l1 -> insert_after p x (l1 ++ p :: l2) = l1 ++ p :: x :: l2.
Proof.
  induction l1 as [|y l1 IH]; intros Hn; cbn [app insert_after]; [by rewrite Z.eqb_refl|].
  rewrite elem_of_cons in Hn. rewrite (proj2 (Z.eqb_neq y p)) by naive_solver.
  rewrite IH by naive_solver. done.
Qed.

Lemma filter_absent (x : Z) (l : list Z) : x ∉ l -> filter (fun y => y <> x) l = l.
Proof.
  induction l as [|y l IH]; intros Hn; [done|]. rewrite elem_of_cons in Hn.
  rewrite filter_cons_True by naive_solver. rewrite IH by naive_solver. done.
Qed.

Lemma filter_split (x : Z) l1 l2 :
  NoDup (l1 ++ x :: l2) -> filter (fun y => y <> x) (l1 ++ x :: l2) = l1 ++ l2.
Proof.
  intros (H1 & H2 & H3)%NoDup_app. apply NoDup_cons in H3 as [H3 _].
  rewrite filter_app, filter_cons_False by naive_solver.
  rewrite !filter_absent; [done|done|]. intros Hx. apply (H2 x Hx). by left.
Qed.

Lemma op_step c pool op m l x l' :
  node_pool m c pool -> chain m c l -> (forall y, y ∈ l -> y ∈ pool) ->
  list_op c pool op l = Some (x, l') ->
  exists m', run_op c op m = Ok (x, m') /\ node_pool m' c pool /\ chain m' c l' /\
    (forall y, y ∈ l' -> y ∈ pool).
Proof.
  intros Hp Hc Hsub Hop. destruct (chain_NoDup _ _ _ Hc) as [Hnd Hcl].
  assert (forall m' l0, beyond c l0 m m' -> node_pool m' c pool) as Hpool.
  { intros m' l0 [_ Hb]. destruct Hp as [Ha Hm]. split; [done|]. intros y Hy.
    destruct (Hm y Hy). auto. }
  assert (forall y, y ∈ pool -> is_Some (m !! next_of y)) as M1 by (intros; by apply Hp).
  assert (forall y, y ∈ pool -> is_Some (m !! previous_of y)) as M2 by (intros; by apply Hp).
  assert (forall l0, NoDup l0 -> (forall y, y ∈ l0 -> y ∈ pool) -> NoDup (footprint c l0)) as Hfp.
  { intros l0. apply footprint_sub, Hp. }
  destruct op as [y|y|p y|y| |]; cbn [list_op run_op] in *.
  - case_bool_decide as Hy; [|done]. destruct Hy as [Hy1 Hy2]. injection Hop as <- <-.
    assert (forall z, z ∈ l ++ [y] -> z ∈ pool) as Hs.
    { intros z. rewrite elem_of_app, list_elem_of_singleton. naive_solver. }
    destruct (chain_append_run m c l y Hc) as (m' & Hr & Hc' & Hb); [apply Hfp; [|done]|auto|auto|].
    { apply NoDup_app. split; [done|]. split; [|apply NoDup_singleton].
      intros z Hz ->%list_elem_of_singleton. done. }
    exists m'. rewrite (cm_bind_ok _ _ _ _ _ Hr). naive_solver.
  - case_bool_decide as Hy; [|done]. destruct Hy as [Hy1 Hy2]. injection Hop as <- <-.
    assert (forall z, z ∈ y :: l -> z ∈ pool) as Hs.
    { intros z. rewrite elem_of_cons. naive_solver. }
    destruct (chain_prepend_run m c l y Hc) as (m' & Hr & Hc' & Hb);
      [apply Hfp; [by apply NoDup_cons|done]|auto|auto|].
    exists m'. rewrite (cm_bind_ok _ _ _ _ _ Hr). naive_solver.
  - case_bool_decide as Hy; [|done]. destruct Hy as [[Hy1 Hy2] Hp1].
    assert (x = NULL /\ l' = tail (insert_after p y (c :: l))) as [-> ->] by (split; congruence).
    apply list_elem_of_split in Hp1 as (s1 & l2 & Heq).
    assert (NoDup (c :: l)) as Hncl by (by apply NoDup_cons).
    assert (p ∉ s1) as Hps.
    { rewrite Heq in Hncl. apply NoDup_app in Hncl as (_ & Hn & _). intros Hin.
      apply (Hn p Hin). by left. }
    rewrite Heq, insert_after_split by done.
    assert (exists l1, c :: l1 = s1 ++ [p] /\ l = l1 ++ l2 /\
      tail (s1 ++ p :: y :: l2) = l1 ++ y :: l2) as (l1 & E1 & -> & ->).
    { destruct s1 as [|z s1]; injection Heq as -> ->; [by exists []|].
      exists (s1 ++ [p]). by rewrite <- !app_assoc. }
    assert (forall z, z ∈ l1 ++ y :: l2 -> z ∈ pool) as Hs.
    { intros z Hz. rewrite elem_of_app, elem_of_cons in Hz.
      destruct Hz as [Hz|[-> |Hz]]; [apply Hsub; in_list|done|apply Hsub; in_list]. }
    destruct (chain_insert_run m c l1 y l2 s1 p Hc) as (m' & Hr & Hc' & Hb);
      [apply Hfp; [|done]|done|auto|auto|].
    { rewrite <- Permutation_middle. apply NoDup_cons. done. }
    exists m'. rewrite (cm_bind_ok _ _ _ _ _ Hr). naive_solver.
  - case_bool_decide as Hy; [|done]. injection Hop as <- <-.
    apply list_elem_of_split in Hy as (l1 & l2 & ->). rewrite filter_split by done.
    destruct (chain_extract_run m c l1 y l2 Hc) as (m' & Hr & Hc' & Hb).
    exists m'. rewrite (cm_bind_ok _ _ _ _ _ Hr). split; [done|]. split; [by eapply Hpool|].
    split; [done|]. intros z Hz. apply Hsub. rewrite elem_of_app in Hz. in_list.
  - injection Hop as <- <-. destruct (chain_get_run m c l Hc) as (m' & Hr & Hc' & Hb).
    exists m'. split; [done|]. split; [by eapply Hpool|]. split; [done|].
    intros z Hz. apply Hsub. destruct l; [done|by right].
  - injection Hop as <- <-. exists m. by rewrite (chain_node_count_run m c l Hc).
Qed.

(** C13: Chains implement lists: any sequence of the operations, on nodes whose
    words lie apart, behaves as the same sequence on a list.  Every access is
    to a word of the chain, the results are those of the list, and the memory
    holds the list in the end. *)
Theorem chain_refines_list c pool ops m l rs l' :
  node_pool m c pool -> chain m c l -> (forall x, x ∈ l -> x ∈ pool) ->
  list_ops c pool ops l = Some (rs, l') ->
  exists m', run_ops c ops m = Ok (rs, m') /\ chain m' c l'.
Proof.
  revert m l rs. induction ops as [|op ops IH]; intros m l rs Hp Hc Hsub Hops.
  { injection Hops as <- <-. by exists m. }
  cbn [list_ops] in Hops. destruct (list_op c pool op l) as [[x l1]|] eqn:Hop; [|done].
  cbn in Hops. destruct (list_ops c pool ops l1) as [[xs l2]|] eqn:Hops'; [|done].
  cbn in Hops. injection Hops as <- <-.
  destruct (op_step c pool op m l x l1 Hp Hc Hsub Hop) as (m1 & Hr1 & Hp1 & Hc1 & Hs1).
  destruct (IH m1 l1 xs Hp1 Hc1 Hs1 Hops') as (m2 & Hr2 & Hc2).
  exists m2. cbn [run_ops]. by rewrite (cm_bind_ok _ _ _ _ _ Hr1), (cm_bind_ok _ _ _ _ _ Hr2).
Qed.

(** [_Chain_Initialize] chains an array of [n] nodes, in their order, and
    touches no word outside the control and the nodes. *)
Theorem chain_initialize_array c start size n m :
  0 <= n -> NoDup (footprint c (nodes start size n)) ->
  (forall w, w ∈ footprint c (nodes start size n) -> is_Some (m !! w)) ->
  (forall x, x ∈ nodes start size n -> 0 <= x < 2 ^ 32) ->
  exists m', Chain_Initialize c start n size m = Ok (tt, m') /\
    chain m' c (nodes start size n) /\
    (forall w, w ∉ footprint c (nodes start size n) -> m' !! w = m !! w) /\
    Chain_Node_count_unprotected c m' = Ok (n, m').
Proof.
  intros Hn Hnd Hmap Hrange.
  destruct (chain_initialize_run m c start size n Hnd Hmap Hrange Hn) as (m' & Hr & Hc & [Hb _]).
  exists m'. split; [done|]. split; [done|]. split; [done|].
  rewrite (chain_node_count_run _ _ _ Hc). unfold nodes. rewrite length_fmap, length_seqZ.
  do 2 f_equal. lia.
Qed.

(** ** Instances *)
Definition chain_memory : words :=
  list_to_map ((fun i => (100 + 4 * i, 0)) <$> seqZ 0 20).

Lemma chain_initialize_array_witness :
  exists m', Chain_Initialize 100 112 3 16 chain_memory = Ok (tt, m') /\
    chain m' 100 [112; 128; 144] /\
    (forall w, w ∉ footprint 100 [112; 128; 144] -> m' !! w = chain_memory !! w) /\
    Chain_Node_count_unprotected 100 m' = Ok (3, m').
Proof.
  apply (chain_initialize_array 100 112 16 3 chain_memory); [lia| | |].
  - by apply (bool_decide_unpack _), I.
  - assert (Forall (fun w => is_Some (chain_memory !! w)) (footprint 100 (nodes 112 16 3))) as Hf
      by (by apply (bool_decide_unpack _), I).
    by apply Forall_forall.
  - assert (Forall (fun x => 0 <= x < 2 ^ 32) (nodes 112 16 3)) as Hf
      by (by apply (bool_decide_unpack _), I).
    by apply Forall_forall.
Defined.

Lemma chain_refines_list_witness :
  let ops := [Op_append 112; Op_prepend 128; Op_count; Op_insert 128 144; Op_get;
              Op_extract 112; Op_get; Op_get] in
  exists m0 m', Chain_Initialize_empty 100 chain_memory = Ok (tt, m0) /\
    run_ops 100 ops m0 = Ok ([0; 0; 2; 0; 128; 0; 144; 0], m') /\ chain m' 100 [].
Proof.
  destruct (chain_initialize_empty_run chain_memory 100) as (m0 & Hr & Hc & Hb); [by eexists..|].
  destruct (chain_refines_list 100 [112; 128; 144]
    [Op_append 112; Op_prepend 128; Op_count; Op_insert 128 144; Op_get; Op_extract 112; Op_get;
     Op_get] m0 [] [0; 0; 2; 0; 128; 0; 144; 0] []) as (m' & Hr' & Hc').
  - split; [by apply (bool_decide_unpack _), I|]. intros x Hx.
    assert (Forall (fun x => is_Some (chain_memory !! next_of x) /\
      is_Some (chain_memory !! previous_of x)) [112; 128; 144]) as Hf
      by (by apply (bool_decide_unpack _), I).
    destruct (proj1 (Forall_forall _ _) Hf x Hx) as [H1 H2]. split; by apply (proj2 Hb).
  - exact Hc.
  - intros x Hx. by apply elem_of_nil in Hx.
  - by vm_compute.
  - by exists m0, m'.
Defined.
