(* ===== verification/Timespec.v ===== *)
(** * Time specifications and timestamps

    The timespec helpers of [score/src/timespec*.c] and the inline timestamp
    operations of [score/timestamp.h], on which the period statistics of the
    rate monotonic manager rest.  [time_t] has 64 bits and [long] 32.  The
    functions on [struct bintime] come from the C library and are parameters. *)

From stdpp Require Import base tactics numbers list.
From Stdlib Require Import ZArith Lia.
From S2P Require Import Prelude.

Open Scope Z_scope.

Definition TOD_NANOSECONDS_PER_SECOND : Z := 1000000000.
Definition TOD_MICROSECONDS_PER_SECOND : Z := 1000000.
Definition TOD_NANOSECONDS_PER_MICROSECOND : Z := 1000.

Record timespec := mk_timespec { tv_sec : Z; tv_nsec : Z }.

Definition Timespec_Is_valid (time : option timespec) : bool :=
  match time with
  | None => false
  | Some t =>
      if tv_sec t <? 0 then false
      else if tv_nsec t <? 0 then false
      else if TOD_NANOSECONDS_PER_SECOND <=? tv_nsec t then false
      else true
  end.

Definition Timespec_Less_than (lhs rhs : timespec) : bool :=
  if tv_sec lhs <? tv_sec rhs then true
  else if tv_sec rhs <? tv_sec lhs then false
  else if tv_nsec lhs <? tv_nsec rhs then true
  else false.

(** The while loop of [_Timespec_Add_to]. *)
Fixpoint add_to_loop (fuel : nat) (time : timespec) (seconds : Z) : timespec * Z :=
  match fuel with
  | O => (time, seconds)
  | S fuel' =>
      if TOD_NANOSECONDS_PER_SECOND <=? tv_nsec time then
        add_to_loop fuel'
          (mk_timespec (i64 (tv_sec time + 1)) (i32 (tv_nsec time - TOD_NANOSECONDS_PER_SECOND)))
          (u32 (seconds + 1))
      else (time, seconds)
  end.

(** The new time and the returned seconds.  [tv_nsec] is below [2^31], so the
    loop body runs at most twice. *)
Definition Timespec_Add_to (time add : timespec) : timespec * Z :=
  let seconds := u32 (tv_sec add) in
  add_to_loop 3
    (mk_timespec (i64 (tv_sec time + tv_sec add)) (i32 (tv_nsec time + tv_nsec add))) seconds.

Definition Timespec_Subtract (start end_ : timespec) : timespec :=
  if tv_nsec end_ <? tv_nsec start then
    mk_timespec (i64 (tv_sec end_ - tv_sec start - 1))
      (i32 ((TOD_NANOSECONDS_PER_SECOND - tv_nsec start) + tv_nsec end_))
  else
    mk_timespec (i64 (tv_sec end_ - tv_sec start)) (i32 (tv_nsec end_ - tv_nsec start)).

Definition Timespec_Get_as_nanoseconds (time : timespec) : Z :=
  u64 (u64 (u64 (tv_sec time) * 1000000000) + u64 (tv_nsec time)).

Definition Timespec_Divide (lhs rhs : timespec) : Z * Z :=
  let left := u64 (u64 (u64 (tv_sec lhs) * TOD_NANOSECONDS_PER_SECOND) + u64 (tv_nsec lhs)) in
  let right := u64 (u64 (u64 (tv_sec rhs) * TOD_NANOSECONDS_PER_SECOND) + u64 (tv_nsec rhs)) in
  if right =? 0 then (0, 0)
  else
    let answer := u64 (left * 100000) / right in
    (u32 (answer / 1000), u32 (answer mod 1000)).

Definition Timespec_Divide_by_integer (time : timespec) (iterations : Z) : outcome timespec :=
  let t := u64 (tv_sec time) in
  let t := u64 (t * TOD_NANOSECONDS_PER_SECOND) in
  let t := u64 (t + u64 (tv_nsec time)) in
  if iterations =? 0 then Undef Division_by_zero
  else
    let t := t / iterations in
    Ok (mk_timespec (i64 (t / TOD_NANOSECONDS_PER_SECOND))
          (i32 (t mod TOD_NANOSECONDS_PER_SECOND))).

Definition Timespec_From_ticks (microseconds_per_tick ticks : Z) : timespec :=
  let usecs := u32 (ticks * microseconds_per_tick) in
  mk_timespec (usecs / TOD_MICROSECONDS_PER_SECOND)
    (i32 ((usecs mod TOD_MICROSECONDS_PER_SECOND) * TOD_NANOSECONDS_PER_MICROSECOND)).

Definition Timespec_To_ticks (ticks_per_second nanoseconds_per_tick : Z) (time : timespec)
    : outcome Z :=
  if (tv_sec time =? 0) && (tv_nsec time =? 0) then Ok 0
  else
    let ticks := u32 (i64 (tv_sec time * ticks_per_second)) in
    if nanoseconds_per_tick =? 0 then Undef Division_by_zero
    else
      let ticks := u32 (ticks + u32 (tv_nsec time) / nanoseconds_per_tick) in
      if negb (u32 (tv_nsec time) mod nanoseconds_per_tick =? 0) then Ok (u32 (ticks + 1))
      else Ok ticks.

(** ** Timestamps *)
Record Timestamp_Control := mk_timestamp { sec : Z; frac : Z }.

#[export] Instance Timestamp_Control_eq_dec : EqDecision Timestamp_Control.
Proof. solve_decision. Defined.

Definition Timestamp_Set_to_zero : Timestamp_Control := mk_timestamp 0 0.

Definition Timestamp_Less_than (lhs rhs : Timestamp_Control) : bool :=
  if sec lhs <? sec rhs then true
  else if sec rhs <? sec lhs then false
  else frac lhs <? frac rhs.

Definition Timestamp_Greater_than (lhs rhs : Timestamp_Control) : bool :=
  if sec rhs <? sec lhs then true
  else if sec lhs <? sec rhs then false
  else frac rhs <? frac lhs.

Definition Timestamp_Equal_to (lhs rhs : Timestamp_Control) : bool :=
  (sec lhs =? sec rhs) && (frac lhs =? frac rhs).

(** The functions of the C library: addition and subtraction of [bintime]
    (the result is what the first argument becomes), the conversions. *)
Class Bintime := {
  bintime_add : Timestamp_Control -> Timestamp_Control -> Timestamp_Control;
  bintime_sub : Timestamp_Control -> Timestamp_Control -> Timestamp_Control;
  bintime2timespec : Timestamp_Control -> timespec;
  timespec2bintime : timespec -> Timestamp_Control
}.

Section Timestamps.
Context `{Bintime}.

Definition Timestamp_Set (seconds nanoseconds : Z) : Timestamp_Control :=
  timespec2bintime (mk_timespec seconds nanoseconds).

Definition Timestamp_Add_to (time add : Timestamp_Control) : Timestamp_Control * Z :=
  let seconds := sec time in
  let time' := bintime_add time add in
  (time', i64 (sec time' - seconds)).

Definition Timestamp_Subtract (start end_ : Timestamp_Control) : Timestamp_Control :=
  bintime_sub (mk_timestamp (sec end_) (frac end_)) start.

Definition Timestamp_Divide (lhs rhs : Timestamp_Control) : Z * Z :=
  Timespec_Divide (bintime2timespec lhs) (bintime2timespec rhs).

Definition Timestamp_Get_as_nanoseconds (time : Timestamp_Control) : Z :=
  Timespec_Get_as_nanoseconds (bintime2timespec time).

Definition Timestamp_To_timespec (time : Timestamp_Control) : timespec := bintime2timespec time.

End Timestamps.

(** ** Meaning *)

(** A valid time below [2^62] seconds, and its nanoseconds. *)
Definition ts_valid (t : timespec) : Prop :=
  0 <= tv_sec t < 2 ^ 62 /\ 0 <= tv_nsec t < TOD_NANOSECONDS_PER_SECOND.

Definition ns (t : timespec) : Z := tv_sec t * TOD_NANOSECONDS_PER_SECOND + tv_nsec t.

Definition ticks_value (t : Timestamp_Control) : Z := sec t * 2 ^ 64 + frac t.

Definition stamp_valid (t : Timestamp_Control) : Prop := 0 <= frac t < 2 ^ 64.

Ltac ts_unfold := unfold ts_valid, ns, TOD_NANOSECONDS_PER_SECOND in *.

Lemma i64_id z : - 2 ^ 63 <= z < 2 ^ 63 -> i64 z = z.
Proof. intros. unfold i64. rewrite Z.mod_small; lia. Qed.

Lemma Timespec_Is_valid_spec t :
  Timespec_Is_valid (Some t) = true <->
  0 <= tv_sec t /\ 0 <= tv_nsec t < TOD_NANOSECONDS_PER_SECOND.
Proof.
  cbn. unfold TOD_NANOSECONDS_PER_SECOND.
  destruct (Z.ltb_spec (tv_sec t) 0), (Z.ltb_spec (tv_nsec t) 0),
    (Z.leb_spec 1000000000 (tv_nsec t)); split; intros; done || lia.
Qed.

Lemma Timespec_Add_to_run t a :
  ts_valid t -> ts_valid a ->
  let carry := if decide (tv_nsec t + tv_nsec a < TOD_NANOSECONDS_PER_SECOND) then 0 else 1 in
  Timespec_Add_to t a =
    (mk_timespec (tv_sec t + tv_sec a + carry)
       (tv_nsec t + tv_nsec a - carry * TOD_NANOSECONDS_PER_SECOND),
     u32 (tv_sec a + carry)).
Proof.
  intros Ht Ha. ts_unfold. unfold Timespec_Add_to. cbn [add_to_loop tv_sec tv_nsec].
  rewrite (i64_id (tv_sec t + tv_sec a)), (i32_id (tv_nsec t + tv_nsec a)) by lia.
  case_decide as Hc; unfold TOD_NANOSECONDS_PER_SECOND; cbn zeta.
  - rewrite (proj2 (Z.leb_gt _ _)) by lia. rewrite !Z.add_0_r, Z.mul_0_l, Z.sub_0_r. done.
  - rewrite (proj2 (Z.leb_le _ _)) by lia.
    rewrite (i64_id (tv_sec t + tv_sec a + 1)), (i32_id (tv_nsec t + tv_nsec a - 1000000000))
      by lia.
    rewrite (proj2 (Z.leb_gt _ _)) by lia. f_equal. unfold u32.
    by rewrite Zplus_mod_idemp_l.
Qed.

Lemma ns_lt_iff a b :
  ts_valid a -> ts_valid b ->
  ns a < ns b <-> tv_sec a < tv_sec b \/ tv_sec a = tv_sec b /\ tv_nsec a < tv_nsec b.
Proof. intros Ha Hb. ts_unfold. nia. Qed.

(** ** Properties *)

(** Time arithmetic.  Adding two valid times gives a valid time, the
    exact sum, and returns the seconds by which the time advanced; subtracting
    what was added gives the original time back. *)
Theorem timespec_add_subtract t a :
  ts_valid t -> ts_valid a -> tv_sec t + tv_sec a < 2 ^ 62 - 1 ->
  let '(t', seconds) := Timespec_Add_to t a in
  ts_valid t' /\ ns t' = ns t + ns a /\ seconds = u32 (tv_sec t' - tv_sec t) /\
  Timespec_Subtract a t' = t.
Proof.
  intros Ht Ha Hs. rewrite Timespec_Add_to_run by done.
  destruct t as [t1 t2], a as [a1 a2]. ts_unfold. cbn [tv_sec tv_nsec] in *.
  case_decide; unfold Timespec_Subtract; cbn [tv_sec tv_nsec];
    (split; [lia|]); (split; [lia|]); (split; [f_equal; lia|]).
  - rewrite (proj2 (Z.ltb_ge _ _)) by lia. rewrite i64_id, i32_id by lia. f_equal; lia.
  - rewrite (proj2 (Z.ltb_lt _ _)) by (unfold TOD_NANOSECONDS_PER_SECOND; lia).
    unfold TOD_NANOSECONDS_PER_SECOND. rewrite i64_id, i32_id by lia. f_equal; lia.
Qed.

Lemma timespec_add_subtract_witness :
  let t := mk_timespec 2 600000000 in
  let a := mk_timespec 1 700000000 in
  let '(t', seconds) := Timespec_Add_to t a in
  ts_valid t' /\ ns t' = ns t + ns a /\ seconds = u32 (tv_sec t' - tv_sec t) /\
  Timespec_Subtract a t' = t.
Proof.
  apply (timespec_add_subtract (mk_timespec 2 600000000) (mk_timespec 1 700000000));
    ts_unfold; cbn [tv_sec tv_nsec]; lia.
Defined.

(** The difference of two times is exact and valid when the end is not
    before the start, and [_Timespec_Less_than] is the order of the times. *)
Theorem timespec_subtract_less_than a b :
  ts_valid a -> ts_valid b ->
  (Timespec_Less_than a b = true <-> ns a < ns b) /\
  (Timespec_Less_than b a = false ->
     ts_valid (Timespec_Subtract a b) /\ ns (Timespec_Subtract a b) = ns b - ns a).
Proof.
  intros Ha Hb.
  assert (forall x y, ts_valid x -> ts_valid y ->
    Timespec_Less_than x y = true <-> ns x < ns y) as Hlt.
  { intros x y Hx Hy. rewrite ns_lt_iff by done. unfold Timespec_Less_than.
    destruct (Z.ltb_spec (tv_sec x) (tv_sec y)), (Z.ltb_spec (tv_sec y) (tv_sec x)),
      (Z.ltb_spec (tv_nsec x) (tv_nsec y)); split; intros; done || lia. }
  split; [by apply Hlt|]. intros Hn.
  assert (ns a <= ns b) as Hle.
  { destruct (Z.le_gt_cases (ns a) (ns b)) as [|Hgt]; [done|].
    apply Hlt in Hgt; [|done|done]. congruence. }
  ts_unfold. unfold Timespec_Subtract.
  destruct (Z.ltb_spec (tv_nsec b) (tv_nsec a)); cbn [tv_sec tv_nsec];
    unfold TOD_NANOSECONDS_PER_SECOND; rewrite i64_id, i32_id by lia; lia.
Qed.

Lemma timespec_subtract_less_than_witness :
  Timespec_Less_than (mk_timespec 1 5) (mk_timespec 2 3) = true <->
  ns (mk_timespec 1 5) < ns (mk_timespec 2 3).
Proof.
  apply (timespec_subtract_less_than (mk_timespec 1 5) (mk_timespec 2 3));
    ts_unfold; cbn [tv_sec tv_nsec]; lia.
Defined.

(** Converting a time to clock ticks rounds up, and never so far that a
    whole tick is lost: the ticks last at least the time, one tick less does
    not. *)
Theorem timespec_to_ticks_rounds_up us t :
  0 < us -> 1000000 mod us = 0 -> ts_valid t -> tv_sec t * (1000000 / us) < 2 ^ 31 ->
  us * 1000 < 2 ^ 31 -> 0 < ns t ->
  exists ticks, Timespec_To_ticks (1000000 / us) (us * 1000) t = Ok ticks /\
    (ticks - 1) * (us * 1000) < ns t <= ticks * (us * 1000).
Proof.
  intros Hus Hdiv Ht Hfit Hus2 Hpos. unfold Timespec_To_ticks.
  pose proof (Z.div_mod 1000000 us ltac:(lia)) as Hd. rewrite Hdiv in Hd.
  set (tps := 1000000 / us) in *. ts_unfold.
  assert (0 < tps) by nia. assert (tps <= 1000000) by nia.
  destruct (Z.eqb_spec (tv_sec t) 0), (Z.eqb_spec (tv_nsec t) 0); cbn [andb]; try lia.
  all: rewrite (proj2 (Z.eqb_neq (us * 1000) 0)) by lia.
  all: rewrite i64_id, (u32_id (tv_sec t * tps)), (u32_id (tv_nsec t)) by nia.
  all: pose proof (Z.div_mod (tv_nsec t) (us * 1000) ltac:(lia)) as Hn;
    pose proof (Z.mod_pos_bound (tv_nsec t) (us * 1000) ltac:(lia)) as Hb;
    set (q := tv_nsec t / (us * 1000)) in *; set (r := tv_nsec t mod (us * 1000)) in *.
  all: assert (0 <= q <= 1000000) by nia.
  all: rewrite (u32_id (_ + q)) by nia.
  all: destruct (Z.eqb_spec r 0); cbn [negb]; rewrite ?u32_id by nia;
    eexists; (split; [reflexivity|]); nia.
Qed.

Lemma timespec_to_ticks_rounds_up_witness :
  exists ticks, Timespec_To_ticks (1000000 / 1000) (1000 * 1000) (mk_timespec 2 500000) = Ok ticks /\
    (ticks - 1) * (1000 * 1000) < ns (mk_timespec 2 500000) <= ticks * (1000 * 1000).
Proof.
  apply (timespec_to_ticks_rounds_up 1000 (mk_timespec 2 500000));
    ts_unfold; cbn [tv_sec tv_nsec]; (done || lia).
Defined.

(** The percentages of the statistics: [_Timespec_Divide] gives the
    ratio of two times in thousandths of a percent, rounded down, as long as
    the dividend is short of 51 hours; a zero divisor gives zero. *)
Theorem timespec_divide_percentage a b :
  ts_valid a -> ts_valid b -> ns a * 100000 < 2 ^ 64 -> ns b < 2 ^ 64 ->
  let '(ival, fval) := Timespec_Divide a b in
  if decide (ns b = 0) then ival = 0 /\ fval = 0
  else ns a * 100000 / ns b < 2 ^ 32 ->
       ival * 1000 + fval = ns a * 100000 / ns b /\ 0 <= fval < 1000.
Proof.
  intros Ha Hb Hs Hs2. unfold Timespec_Divide. ts_unfold.
  rewrite !(u64_id (tv_sec _)), !(u64_id (tv_nsec _)) by lia.
  rewrite !(u64_id (tv_sec _ * _)) by lia. rewrite !(u64_id (_ + _)) by lia.
  destruct (Z.eqb_spec (tv_sec b * 1000000000 + tv_nsec b) 0) as [Hz|Hz]; case_decide as Hd;
    try lia. intros Hq.
  rewrite u64_id by lia.
  set (q := (tv_sec a * 1000000000 + tv_nsec a) * 100000 / (tv_sec b * 1000000000 + tv_nsec b))
    in *.
  assert (0 <= q) by (apply Z.div_pos; lia).
  pose proof (Z.div_mod q 1000 ltac:(lia)). pose proof (Z.mod_pos_bound q 1000 ltac:(lia)).
  rewrite !u32_id by lia. lia.
Qed.

Lemma timespec_divide_percentage_witness :
  let a := mk_timespec 1 0 in
  let b := mk_timespec 3 0 in
  let '(ival, fval) := Timespec_Divide a b in
  if decide (ns b = 0) then ival = 0 /\ fval = 0
  else ns a * 100000 / ns b < 2 ^ 32 ->
       ival * 1000 + fval = ns a * 100000 / ns b /\ 0 <= fval < 1000.
Proof.
  apply (timespec_divide_percentage (mk_timespec 1 0) (mk_timespec 3 0));
    ts_unfold; cbn [tv_sec tv_nsec]; lia.
Defined.
