(* ===== verification/Objects.v ===== *)
(** * The object handler

    Identifiers, and the object classes of [score/src/object*.c]: the chain
    of inactive objects, the local table that maps an identifier to its
    object, extension and shrinking of a class by blocks.  A pointer to an
    object of a class is modelled by the index of the object in the class;
    [obj_ids] and [obj_names] hold the fields of the objects.  The workspace
    allocator is an interface. *)

From stdpp Require Import base tactics numbers option list list_numbers gmap fin_maps.
From Stdlib Require Import ZArith Lia.
From S2P Require Import Prelude.

Open Scope Z_scope.

(** ** Identifiers: API, class, node and index in one word *)
Definition OBJECTS_INDEX_START_BIT : Z := 0.
Definition OBJECTS_NODE_START_BIT : Z := 16.
Definition OBJECTS_API_START_BIT : Z := 24.
Definition OBJECTS_CLASS_START_BIT : Z := 27.
Definition OBJECTS_ID_INITIAL_INDEX : Z := 0.
Definition OBJECTS_ID_FINAL_INDEX : Z := 65535.
Definition OBJECTS_ID_FINAL : Z := 4294967295.
Definition OBJECTS_ID_OF_SELF : Z := 0.
Definition OBJECTS_UNLIMITED_OBJECTS : Z := 2147483648.
Definition OBJECTS_SEARCH_ALL_NODES : Z := 0.
Definition OBJECTS_SEARCH_LOCAL_NODE : Z := 2147483647.

Definition Objects_Get_API (id : Z) : Z := Z.land (Z.shiftr id OBJECTS_API_START_BIT) 7.
Definition Objects_Get_class (id : Z) : Z := Z.land (Z.shiftr id OBJECTS_CLASS_START_BIT) 31.
Definition Objects_Get_node (id : Z) : Z := Z.land (Z.shiftr id OBJECTS_NODE_START_BIT) 255.
Definition Objects_Get_index (id : Z) : Z := u16 (Z.land (Z.shiftr id OBJECTS_INDEX_START_BIT) 65535).

Definition Objects_Build_id (api class node index : Z) : Z :=
  Z.lor (Z.lor (Z.lor (u32 (Z.shiftl api OBJECTS_API_START_BIT))
    (u32 (Z.shiftl class OBJECTS_CLASS_START_BIT)))
    (u32 (Z.shiftl node OBJECTS_NODE_START_BIT)))
    (u32 (Z.shiftl index OBJECTS_INDEX_START_BIT)).

Definition Objects_Is_unlimited (maximum : Z) : bool :=
  negb (Z.land maximum OBJECTS_UNLIMITED_OBJECTS =? 0).
Definition Objects_Maximum_per_allocation (maximum : Z) : Z :=
  u16 (Z.land maximum (Z.lnot OBJECTS_UNLIMITED_OBJECTS)).

(** [_Objects_Local_node] of a single processor system. *)
Definition Objects_Local_node : Z := 1.

Definition OBJECTS_NO_API : Z := 0.
Definition OBJECTS_INTERNAL_API : Z := 1.
Definition OBJECTS_CLASSIC_API : Z := 2.
Definition OBJECTS_POSIX_API : Z := 3.
Definition OBJECTS_RTEMS_TASKS : Z := 1.
Definition OBJECTS_RTEMS_PERIODS : Z := 8.

Definition Objects_API_maximum_class (api : Z) : Z :=
  if api =? OBJECTS_INTERNAL_API then 2
  else if api =? OBJECTS_CLASSIC_API then 10
  else if api =? OBJECTS_POSIX_API then 12
  else 0.

(** ** The information of a class

    The objects are numbered by their index; [obj_ids] and [obj_names] are the
    fields of their control blocks, [tables_area] is the address of the memory
    that holds the tables, the pointer [object_blocks]. *)
Record Objects_Information := mk_Objects_Information {
  the_api : Z;
  the_class : Z;
  minimum_id : Z;
  maximum_id : Z;
  maximum : Z;
  auto_extend : bool;
  allocation_size : Z;
  obj_size : Z;
  local_table : list (option Z);
  Inactive : list Z;
  inactive : Z;
  inactive_per_block : list Z;
  object_blocks : option (list (option Z));
  obj_ids : gmap Z Z;
  obj_names : gmap Z Z;
  tables_area : option Z
}.

(** Updates of one field. *)
Definition set_the_api v (r : Objects_Information) : Objects_Information :=
  mk_Objects_Information v (the_class r) (minimum_id r) (maximum_id r) (maximum r)
    (auto_extend r) (allocation_size r) (obj_size r) (local_table r) (Inactive r) (inactive
    r) (inactive_per_block r) (object_blocks r) (obj_ids r) (obj_names r)
    (tables_area r).
Definition set_the_class v (r : Objects_Information) : Objects_Information :=
  mk_Objects_Information (the_api r) v (minimum_id r) (maximum_id r) (maximum r)
    (auto_extend r) (allocation_size r) (obj_size r) (local_table r) (Inactive r) (inactive
    r) (inactive_per_block r) (object_blocks r) (obj_ids r) (obj_names r)
    (tables_area r).
Definition set_minimum_id v (r : Objects_Information) : Objects_Information :=
  mk_Objects_Information (the_api r) (the_class r) v (maximum_id r) (maximum r) (auto_extend
    r) (allocation_size r) (obj_size r) (local_table r) (Inactive r) (inactive r)
    (inactive_per_block r) (object_blocks r) (obj_ids r) (obj_names r)
    (tables_area r).
Definition set_maximum_id v (r : Objects_Information) : Objects_Information :=
  mk_Objects_Information (the_api r) (the_class r) (minimum_id r) v (maximum r) (auto_extend
    r) (allocation_size r) (obj_size r) (local_table r) (Inactive r) (inactive r)
    (inactive_per_block r) (object_blocks r) (obj_ids r) (obj_names r)
    (tables_area r).
Definition set_maximum v (r : Objects_Information) : Objects_Information :=
  mk_Objects_Information (the_api r) (the_class r) (minimum_id r) (maximum_id r) v
    (auto_extend r) (allocation_size r) (obj_size r) (local_table r) (Inactive r) (inactive
    r) (inactive_per_block r) (object_blocks r) (obj_ids r) (obj_names r)
    (tables_area r).
Definition set_auto_extend v (r : Objects_Information) : Objects_Information :=
  mk_Objects_Information (the_api r) (the_class r) (minimum_id r) (maximum_id r) (maximum r)
    v (allocation_size r) (obj_size r) (local_table r) (Inactive r) (inactive r)
    (inactive_per_block r) (object_blocks r) (obj_ids r) (obj_names r)
    (tables_area r).
Definition set_allocation_size v (r : Objects_Information) : Objects_Information :=
  mk_Objects_Information (the_api r) (the_class r) (minimum_id r) (maximum_id r) (maximum r)
    (auto_extend r) v (obj_size r) (local_table r) (Inactive r) (inactive r)
    (inactive_per_block r) (object_blocks r) (obj_ids r) (obj_names r)
    (tables_area r).
Definition set_obj_size v (r : Objects_Information) : Objects_Information :=
  mk_Objects_Information (the_api r) (the_class r) (minimum_id r) (maximum_id r) (maximum r)
    (auto_extend r) (allocation_size r) v (local_table r) (Inactive r) (inactive r)
    (inactive_per_block r) (object_blocks r) (obj_ids r) (obj_names r)
    (tables_area r).
Definition set_local_table v (r : Objects_Information) : Objects_Information :=
  mk_Objects_Information (the_api r) (the_class r) (minimum_id r) (maximum_id r) (maximum r)
    (auto_extend r) (allocation_size r) (obj_size r) v (Inactive r) (inactive r)
    (inactive_per_block r) (object_blocks r) (obj_ids r) (obj_names r)
    (tables_area r).
Definition set_Inactive v (r : Objects_Information) : Objects_Information :=
  mk_Objects_Information (the_api r) (the_class r) (minimum_id r) (maximum_id r) (maximum r)
    (auto_extend r) (allocation_size r) (obj_size r) (local_table r) v (inactive r)
    (inactive_per_block r) (object_blocks r) (obj_ids r) (obj_names r)
    (tables_area r).
Definition set_inactive v (r : Objects_Information) : Objects_Information :=
  mk_Objects_Information (the_api r) (the_class r) (minimum_id r) (maximum_id r) (maximum r)
    (auto_extend r) (allocation_size r) (obj_size r) (local_table r) (Inactive r) v
    (inactive_per_block r) (object_blocks r) (obj_ids r) (obj_names r)
    (tables_area r).
Definition set_inactive_per_block v (r : Objects_Information) : Objects_Information :=
  mk_Objects_Information (the_api r) (the_class r) (minimum_id r) (maximum_id r) (maximum r)
    (auto_extend r) (allocation_size r) (obj_size r) (local_table r) (Inactive r) (inactive
    r) v (object_blocks r) (obj_ids r) (obj_names r)
    (tables_area r).
Definition set_object_blocks v (r : Objects_Information) : Objects_Information :=
  mk_Objects_Information (the_api r) (the_class r) (minimum_id r) (maximum_id r) (maximum r)
    (auto_extend r) (allocation_size r) (obj_size r) (local_table r) (Inactive r) (inactive
    r) (inactive_per_block r) v (obj_ids r) (obj_names r)
    (tables_area r).
Definition set_obj_ids v (r : Objects_Information) : Objects_Information :=
  mk_Objects_Information (the_api r) (the_class r) (minimum_id r) (maximum_id r) (maximum r)
    (auto_extend r) (allocation_size r) (obj_size r) (local_table r) (Inactive r) (inactive
    r) (inactive_per_block r) (object_blocks r) v (obj_names r)
    (tables_area r).
Definition set_obj_names v (r : Objects_Information) : Objects_Information :=
  mk_Objects_Information (the_api r) (the_class r) (minimum_id r) (maximum_id r) (maximum r)
    (auto_extend r) (allocation_size r) (obj_size r) (local_table r) (Inactive r) (inactive
    r) (inactive_per_block r) (object_blocks r) (obj_ids r) v (tables_area r).
Definition set_tables_area v (r : Objects_Information) : Objects_Information :=
  mk_Objects_Information (the_api r) (the_class r) (minimum_id r) (maximum_id r) (maximum r)
    (auto_extend r) (allocation_size r) (obj_size r) (local_table r) (Inactive r) (inactive
    r) (inactive_per_block r) (object_blocks r) (obj_ids r) (obj_names r) v.

(** What the handler uses of the workspace: allocation may fail, and the
    memory it returns is not initialized ([uninit_object], [uninit_block],
    [uninit_count] are what the words of fresh tables hold). *)
Class Workspace (W : Type) := {
  Workspace_Allocate : Z -> W -> option Z * W;
  Workspace_Free : Z -> W -> W;
  uninit_object : Z -> option Z;
  uninit_block : Z -> option Z;
  uninit_count : Z -> Z
}.

Record obj_state (W : Type) := mk_obj_state { information : Objects_Information; workspace : W }.
Arguments mk_obj_state {W}.
Arguments information {W}.
Arguments workspace {W}.

Section Objects.
Context {W : Type} `{Workspace W}.
Abbreviation St := (obj_state W).
Abbreviation M := (cm (obj_state W)).

Definition upd_info (f : Objects_Information -> Objects_Information) : M unit :=
  modify (fun s => mk_obj_state (f (information s)) (workspace s)).
Definition info_of {A} (f : Objects_Information -> A) : M A := gets (fun s => f (information s)).
Definition table_ld {A} (f : Objects_Information -> list A) (i : Z) : M A :=
  getsM (fun s => arr_get (f (information s)) i).
Definition table_st {A} (f : Objects_Information -> list A)
    (g : list A -> Objects_Information -> Objects_Information) (i : Z) (x : A) : M unit :=
  modifyM (fun s => match arr_set (f (information s)) i x with
                    | Ok l => Ok (mk_obj_state (g l (information s)) (workspace s))
                    | Undef u => Undef u
                    end).

Definition ws_allocate (size : Z) : M (option Z) :=
  r ← gets (fun s => Workspace_Allocate size (workspace s));
  modify (fun s => mk_obj_state (information s) r.2);;
  mret r.1.
Definition ws_allocate_or_fatal_error (size : Z) : M Z :=
  r ← ws_allocate size;
  match r with Some p => mret p | None => lift (Undef Fatal_error) end.
Definition ws_free (p : option Z) : M unit :=
  match p with
  | Some a => modify (fun s => mk_obj_state (information s) (Workspace_Free a (workspace s)))
  | None => mret tt
  end.

(** The identifier of the object [o]. *)
Definition obj_id (o : Z) : M Z :=
  getsM (fun s => mem_load (obj_ids (information s)) o).

Definition Objects_Get_inactive : M (option Z) :=
  l ← info_of Inactive;
  match l with
  | [] => mret None
  | o :: l' => upd_info (set_Inactive l');; mret (Some o)
  end.

(** The first free block: its number, its first index, and whether the
    tables must grow. *)
Fixpoint find_free_block (fuel : nat) (blocks : list (option Z)) (alloc block index_base : Z)
    : outcome (Z * Z * bool) :=
  match fuel with
  | O => Ok (block, index_base, true)
  | S fuel' =>
      b ← arr_get blocks block;
      match b with
      | None => Ok (block, index_base, false)
      | Some _ => find_free_block fuel' blocks alloc (block + 1) (u32 (index_base + alloc))
      end
  end.

Definition CPU_ALIGNMENT : Z := 8.
Definition align_up (x a : Z) : Z := Z.land (x + a - 1) (Z.lnot (a - 1)).

(** The tables of a class with one more block of [alloc] objects: the old
    entries are copied, the new ones cleared. *)
Definition grown_table {A} (garbage : Z -> A) (size : Z) (old : list A) (copied : Z) : list A :=
  take (Z.to_nat copied) old ++ (garbage <$> seqZ copied (size - copied)).

Fixpoint clear_entries (n : nat) (index : Z) (t : list (option Z)) : outcome (list (option Z)) :=
  match n with
  | O => Ok t
  | S n' => t' ← arr_set t index None; clear_entries n' (index + 1) t'
  end.

Definition is_not_null {A} (p : option A) : bool := match p with Some _ => true | None => false end.

(** [do_extend]: new tables with room for one more block; [false] when the
    workspace has no room for them. *)
Definition grow_tables (new_object_block block_count minimum_index index_base new_maximum : Z)
    : M bool :=
  inf ← info_of (fun i => i);
  let object_blocks_size := align_up ((block_count + 1) * 4) CPU_ALIGNMENT in
  let inactive_per_block_size := align_up ((block_count + 1) * 4) CPU_ALIGNMENT in
  let block_size := object_blocks_size + inactive_per_block_size
                      + (new_maximum + minimum_index) * 4 in
  area ← (if auto_extend inf then
            t ← ws_allocate block_size;
            match t with
            | None => ws_free (Some new_object_block);; mret None
            | Some p => mret (Some p)
            end
          else p ← ws_allocate_or_fatal_error block_size; mret (Some p));
  if (is_not_null area : bool) then
    let copy := minimum_index <? maximum inf in
    let old_blocks := default [] (object_blocks inf) in
    let blocks := grown_table uninit_block (block_count + 1) old_blocks
                    (if copy then block_count else 0) in
    let counts := grown_table uninit_count (block_count + 1) (inactive_per_block inf)
                    (if copy then block_count else 0) in
    let table := grown_table uninit_object (new_maximum + minimum_index) (local_table inf)
                   (if copy then maximum inf + minimum_index else 0) in
    table ← (if copy then mret table
             else lift (clear_entries (Z.to_nat minimum_index) 0 table));
    blocks ← lift (arr_set blocks block_count None);
    counts ← lift (arr_set counts block_count 0);
    table ← lift (clear_entries (Z.to_nat (allocation_size inf)) index_base table);
    upd_info (fun i =>
      set_maximum_id (Objects_Build_id (the_api i) (the_class i) Objects_Local_node
                        (u16 new_maximum))
      (set_maximum (u16 new_maximum)
      (set_local_table table
      (set_inactive_per_block counts
      (set_object_blocks (Some blocks)
      (set_tables_area area i))))));;
    ws_free (tables_area inf);;
    mret true
  else mret false.

Definition Objects_Extend_information : M unit :=
  inf ← info_of (fun i => i);
  let minimum_index := Objects_Get_index (minimum_id inf) in
  block_count ← match object_blocks inf with
                | None => mret 0
                | Some _ =>
                    if allocation_size inf =? 0 then lift (Undef Division_by_zero)
                    else mret (maximum inf / allocation_size inf)
                end;
  found ← match object_blocks inf with
          | None => mret (0, minimum_index, true)
          | Some blocks =>
              lift (find_free_block (Z.to_nat block_count) blocks (allocation_size inf) 0
                      minimum_index)
          end;
  let block := found.1.1 in
  let index_base := found.1.2 in
  let do_extend : bool := found.2 in
  let new_maximum := u32 (maximum inf + allocation_size inf) in
  if OBJECTS_ID_FINAL_INDEX <? new_maximum then mret tt
  else
    let block_size := u32 (allocation_size inf * obj_size inf) in
    new_block ← (if auto_extend inf then ws_allocate block_size
                 else p ← ws_allocate_or_fatal_error block_size; mret (Some p));
    match new_block with
    | None => mret tt
    | Some new_object_block =>
        ok ← (if do_extend then
                grow_tables new_object_block block_count minimum_index index_base new_maximum
              else mret true);
        if (ok : bool) then
          blocks ← info_of (fun i => default [] (object_blocks i));
          blocks' ← lift (arr_set blocks block (Some new_object_block));
          upd_info (set_object_blocks (Some blocks'));;
          c_for (Z.to_nat (allocation_size inf)) index_base
            (fun index _ =>
               upd_info (fun i =>
                 set_Inactive (Inactive i ++ [index])
                 (set_obj_ids (<[index := Objects_Build_id (the_api i) (the_class i)
                                             Objects_Local_node (u16 index)]> (obj_ids i)) i));;
               mret (inl tt)) tt;;
          table_st inactive_per_block set_inactive_per_block block (allocation_size inf);;
          upd_info (fun i => set_inactive (u16 (inactive i + allocation_size i)) i)
        else mret tt
    end.

(** The block an object is in. *)
Definition block_of (o : Z) : M Z :=
  id ← obj_id o;
  inf ← info_of (fun i => i);
  if allocation_size inf =? 0 then lift (Undef Division_by_zero)
  else mret (u32 (Objects_Get_index id - Objects_Get_index (minimum_id inf))
               / allocation_size inf).

Definition Objects_Allocate_unprotected : M (option Z) :=
  size ← info_of obj_size;
  if size =? 0 then mret None
  else
    o ← Objects_Get_inactive;
    ae ← info_of auto_extend;
    if (ae : bool) then
      o ← match o with
          | None => Objects_Extend_information;; Objects_Get_inactive
          | Some _ => mret o
          end;
      match o with
      | Some x =>
          block ← block_of x;
          n ← table_ld inactive_per_block block;
          table_st inactive_per_block set_inactive_per_block block (u32 (n - 1));;
          upd_info (fun i => set_inactive (u16 (inactive i - 1)) i)
      | None => mret tt
      end;;
      mret o
    else mret o.

Definition Objects_Allocate : M (option Z) := Objects_Allocate_unprotected.

Fixpoint find_inactive_block (fuel : nat) (counts : list Z) (alloc block index_base : Z)
    : outcome (option (Z * Z)) :=
  match fuel with
  | O => Ok None
  | S fuel' =>
      n ← arr_get counts block;
      if n =? alloc then Ok (Some (block, index_base))
      else find_inactive_block fuel' counts alloc (block + 1) (u32 (index_base + alloc))
  end.

Definition Objects_Shrink_information : M unit :=
  inf ← info_of (fun i => i);
  let index_base := Objects_Get_index (minimum_id inf) in
  if allocation_size inf =? 0 then lift (Undef Division_by_zero)
  else
    let block_count := u32 (maximum inf - index_base) / allocation_size inf in
    found ← lift (find_inactive_block (Z.to_nat block_count) (inactive_per_block inf)
                    (allocation_size inf) 0 index_base);
    match found with
    | None => mret tt
    | Some (block, base) =>
        let index_end := base + allocation_size inf in
        let extracted (o : Z) : bool :=
          let index := Objects_Get_index (default 0 (obj_ids inf !! o)) in
          (base <=? index) && (index <? index_end) in
        upd_info (fun i => set_Inactive (filter (fun o => extracted o = false) (Inactive i)) i);;
        blocks ← info_of (fun i => default [] (object_blocks i));
        b ← lift (arr_get blocks block);
        ws_free b;;
        blocks' ← lift (arr_set blocks block None);
        upd_info (set_object_blocks (Some blocks'));;
        table_st inactive_per_block set_inactive_per_block block 0;;
        upd_info (fun i => set_inactive (u16 (inactive i - allocation_size i)) i)
    end.

Definition Objects_Free (o : Z) : M unit :=
  alloc ← info_of allocation_size;
  upd_info (fun i => set_Inactive (Inactive i ++ [o]) i);;
  ae ← info_of auto_extend;
  if (ae : bool) then
    block ← block_of o;
    n ← table_ld inactive_per_block block;
    table_st inactive_per_block set_inactive_per_block block (u32 (n + 1));;
    upd_info (fun i => set_inactive (u16 (inactive i + 1)) i);;
    n ← info_of inactive;
    if alloc + Z.shiftr alloc 1 <? n then Objects_Shrink_information else mret tt
  else mret tt.

Definition Objects_Set_local_object (index : Z) (o : option Z) : M unit :=
  table_st local_table set_local_table index o.

Definition Objects_Invalidate_Id (o : Z) : M unit :=
  id ← obj_id o;
  Objects_Set_local_object (Objects_Get_index id) None.

Definition Objects_Namespace_remove (o : Z) : M unit :=
  upd_info (fun i => set_obj_names (<[o := 0]> (obj_names i)) i).

Definition Objects_Close (o : Z) : M unit :=
  Objects_Invalidate_Id o;; Objects_Namespace_remove o.

Definition Objects_Open (o name : Z) : M unit :=
  upd_info (fun i => set_obj_names (<[o := name]> (obj_names i)) i);;
  id ← obj_id o;
  Objects_Set_local_object (Objects_Get_index id) (Some o).

Definition Objects_Get (id : Z) : M (option Z) :=
  inf ← info_of (fun i => i);
  let index := u32 (u32 (id - minimum_id inf) + 1) in
  if index <=? maximum inf then table_ld local_table index
  else mret None.

Definition Objects_Get_no_protection (id : Z) : M (option Z) :=
  inf ← info_of (fun i => i);
  let index := u32 (u32 (id - minimum_id inf) + 1) in
  if index <=? maximum inf then
    the_object ← table_ld local_table index;
    match the_object with
    | Some o => mret (Some o)
    | None => mret None
    end
  else mret None.

Inductive lookup_result :=
| OBJECTS_NAME_OR_ID_LOOKUP_SUCCESSFUL (id : Z)
| OBJECTS_INVALID_NAME
| OBJECTS_INVALID_ADDRESS
| OBJECTS_INVALID_ID
| OBJECTS_INVALID_NODE.

Definition Objects_Is_local_node (node : Z) : bool := node =? Objects_Local_node.

(** The search of the local table; the identifier is the one of the object
    with the lowest index that has the name. *)
Definition Objects_Name_to_id_u32 (name node : Z) (id_null : bool) : M lookup_result :=
  if id_null then mret OBJECTS_INVALID_ADDRESS
  else if name =? 0 then mret OBJECTS_INVALID_NAME
  else
    max ← info_of maximum;
    let search_local_node :=
      negb (max =? 0) &&
      ((node =? OBJECTS_SEARCH_ALL_NODES) || (node =? OBJECTS_SEARCH_LOCAL_NODE)
       || Objects_Is_local_node node) in
    if search_local_node then
      c_for (Z.to_nat max) 1
        (fun index _ =>
           the_object ← table_ld local_table index;
           match the_object with
           | None => mret (inl OBJECTS_INVALID_NAME)
           | Some o =>
               n ← info_of (fun i => default 0 (obj_names i !! o));
               if name =? n then
                 id ← obj_id o;
                 mret (inr (OBJECTS_NAME_OR_ID_LOOKUP_SUCCESSFUL id))
               else mret (inl OBJECTS_INVALID_NAME)
           end) OBJECTS_INVALID_NAME
    else mret OBJECTS_INVALID_NAME.

(** The next object from an identifier on; the loop ends at the latest past
    [maximum], the index grows in every step. *)
Fixpoint get_next_loop (fuel : nat) (next_id : Z) : M (option Z * Z) :=
  match fuel with
  | O => lift (Undef Divergence)
  | S fuel' =>
      max ← info_of maximum;
      if max <? Objects_Get_index next_id then mret (None, OBJECTS_ID_FINAL)
      else
        the_object ← Objects_Get_no_protection next_id;
        match the_object with
        | None => get_next_loop fuel' (u32 (next_id + 1))
        | Some o => mret (Some o, u32 (next_id + 1))
        end
  end.

Definition Objects_Get_next (id : Z) : M (option Z * Z) :=
  inf ← info_of (fun i => i);
  let next_id := if Objects_Get_index id =? OBJECTS_ID_INITIAL_INDEX then minimum_id inf else id in
  get_next_loop (Z.to_nat (maximum inf + 2)) next_id.

Definition Objects_Active_count : M Z :=
  inf ← info_of (fun i => i);
  mret (u16 (maximum inf - Z.of_nat (length (Inactive inf)))).

Definition Objects_Do_initialize_information (api class max size : Z) : M unit :=
  upd_info (fun i =>
    mk_Objects_Information api class (minimum_id i) (maximum_id i) 0
      (Objects_Is_unlimited max) (allocation_size i) size [] (Inactive i) 0 [] None
      (obj_ids i) (obj_names i) None);;
  let maximum_per_allocation := Objects_Maximum_per_allocation max in
  if Objects_Is_unlimited max && (maximum_per_allocation =? 0) then lift (Undef Fatal_error)
  else
    let minimum_index := if maximum_per_allocation =? 0 then 0 else 1 in
    upd_info (fun i =>
      set_Inactive []
      (set_minimum_id (Objects_Build_id api class Objects_Local_node minimum_index)
      (set_local_table [None]
      (set_allocation_size maximum_per_allocation i))));;
    if negb (maximum_per_allocation =? 0) then Objects_Extend_information else mret tt.

End Objects.
