(* ===== verification/ObjectsStatus.v ===== *)
(** * Object errors as directive statuses

    The table of [rtems/src/status.c] that the directives of all classes use
    when they look up an object by its name. *)

From Stdlib Require Import ZArith.
From S2P Require Import Prelude Status Objects.

(** The status of a directive that looks up a name, and the identifier it
    writes. *)
Definition Status_Object_name_errors_to_status (r : lookup_result)
    : rtems_status_code * option Z :=
  match r with
  | OBJECTS_NAME_OR_ID_LOOKUP_SUCCESSFUL id => (RTEMS_SUCCESSFUL, Some id)
  | OBJECTS_INVALID_NAME => (RTEMS_INVALID_NAME, None)
  | OBJECTS_INVALID_ADDRESS => (RTEMS_INVALID_ADDRESS, None)
  | OBJECTS_INVALID_ID => (RTEMS_INVALID_ID, None)
  | OBJECTS_INVALID_NODE => (RTEMS_INVALID_NODE, None)
  end.
