(* ===== verification/ObjectsFacts.v ===== *)
(** * Properties of the object handler

    Identifiers encode their parts without loss.  A class with a fixed number
    of objects (every class of the FTS configuration) keeps each object in
    exactly one place: on the chain of inactive objects, in the hands of a
    create directive, or open under its identifier. *)

From stdpp Require Import base tactics numbers option list list_numbers gmap fin_maps.
From Stdlib Require Import ZArith Lia.
From S2P Require Import Prelude Objects.

Open Scope Z_scope.

(** ** Identifiers *)
(** The parts of an identifier are in range. *)
Definition id_parts (api class node index : Z) : Prop :=
  0 <= api < 8 /\ 0 <= class < 32 /\ 0 <= node < 256 /\ 0 <= index < 65536.

Lemma Objects_Build_id_value api class node index :
  id_parts api class node index ->
  Objects_Build_id api class node index =
    class * 2 ^ 27 + api * 2 ^ 24 + node * 2 ^ 16 + index.
Proof.
  intros (Ha & Hc & Hn & Hi). unfold Objects_Build_id, OBJECTS_API_START_BIT,
    OBJECTS_CLASS_START_BIT, OBJECTS_NODE_START_BIT, OBJECTS_INDEX_START_BIT.
  rewrite !Z.shiftl_mul_pow2 by lia. rewrite Z.mul_1_r, !u32_id by lia.
  rewrite (Z.lor_comm (api * _) (class * _)).
  rewrite (lor_low class) by lia.
  replace (class * 2 ^ 27 + api * 2 ^ 24) with ((class * 8 + api) * 2 ^ 24) by lia.
  rewrite (lor_low (class * 8 + api)) by lia.
  replace ((class * 8 + api) * 2 ^ 24 + node * 2 ^ 16)
    with (((class * 8 + api) * 256 + node) * 2 ^ 16) by lia.
  rewrite lor_low by lia. lia.
Qed.

Lemma land_mask x n : 0 <= n -> Z.land x (2 ^ n - 1) = x mod 2 ^ n.
Proof.
  intros Hn. replace (2 ^ n - 1) with (Z.ones n) by (rewrite Z.ones_equiv; lia).
  by rewrite Z.land_ones.
Qed.

Lemma Objects_Get_index_build api class node index :
  id_parts api class node index ->
  Objects_Get_index (Objects_Build_id api class node index) = index.
Proof.
  intros Hp. rewrite Objects_Build_id_value by done. destruct Hp as (Ha & Hc & Hn & Hi).
  unfold Objects_Get_index, OBJECTS_INDEX_START_BIT. rewrite Z.shiftr_0_r.
  change 65535 with (2 ^ 16 - 1). rewrite land_mask by lia.
  replace (class * 2 ^ 27 + api * 2 ^ 24 + node * 2 ^ 16 + index)
    with (index + (class * 2 ^ 11 + api * 2 ^ 8 + node) * 2 ^ 16) by lia.
  rewrite Z.mod_add, Z.mod_small by lia. by apply u16_id.
Qed.

(** ** A class of [n] objects *)
Definition active (i : Objects_Information) : list Z := omap (fun x => x) (local_table i).

(** [held]: the objects that were allocated and are not yet open. *)
Record class_wf (n : Z) (held : list Z) (i : Objects_Information) : Prop := {
  cw_n : 1 <= n <= OBJECTS_ID_FINAL_INDEX;
  cw_api : 0 <= the_api i < 8 /\ 0 <= the_class i < 32;
  cw_limited : auto_extend i = false;
  cw_size : obj_size i <> 0;
  cw_max : maximum i = n;
  cw_min_id : minimum_id i = Objects_Build_id (the_api i) (the_class i) Objects_Local_node 1;
  cw_max_id : maximum_id i = Objects_Build_id (the_api i) (the_class i) Objects_Local_node n;
  cw_table : Z.of_nat (length (local_table i)) = n + 1;
  cw_zero : local_table i !! 0%nat = Some None;
  cw_self : forall j o, local_table i !! j = Some (Some o) -> o = Z.of_nat j;
  cw_ids : forall o, 1 <= o <= n ->
    obj_ids i !! o = Some (Objects_Build_id (the_api i) (the_class i) Objects_Local_node o);
  cw_all : Inactive i ++ held ++ active i ≡ₚ seqZ 1 n
}.

Definition id_of (i : Objects_Information) (o : Z) : Z :=
  Objects_Build_id (the_api i) (the_class i) Objects_Local_node o.

Lemma id_of_value n held i o :
  class_wf n held i -> 0 <= o <= n -> id_of i o = minimum_id i + (o - 1) /\
  Objects_Get_index (id_of i o) = o /\ 0 <= id_of i o < 2 ^ 32 /\ 0 < minimum_id i - 1.
Proof.
  intros Hw Ho. pose proof (cw_api _ _ _ Hw). pose proof (cw_n _ _ _ Hw) as Hn.
  unfold OBJECTS_ID_FINAL_INDEX in Hn.
  assert (id_parts (the_api i) (the_class i) Objects_Local_node o) as Hp
    by (unfold id_parts, Objects_Local_node; lia).
  assert (id_parts (the_api i) (the_class i) Objects_Local_node 1) as Hp1
    by (unfold id_parts, Objects_Local_node; lia).
  unfold id_of. rewrite (Objects_Get_index_build _ _ _ _ Hp).
  rewrite (cw_min_id _ _ _ Hw), (Objects_Build_id_value _ _ _ _ Hp),
    (Objects_Build_id_value _ _ _ _ Hp1).
  unfold Objects_Local_node. lia.
Qed.

(** The objects in one list are different and in range. *)
Lemma class_wf_range n held i o :
  class_wf n held i -> o ∈ Inactive i ++ held ++ active i -> 1 <= o <= n.
Proof. intros Hw Ho. rewrite (cw_all _ _ _ Hw) in Ho. apply elem_of_seqZ in Ho. lia. Qed.

Lemma class_wf_nodup n held i : class_wf n held i -> NoDup (Inactive i ++ held ++ active i).
Proof. intros Hw. rewrite (cw_all _ _ _ Hw). apply NoDup_seqZ. Qed.

Lemma elem_active i o :
  o ∈ active i <-> exists j, local_table i !! j = Some (Some o).
Proof.
  unfold active. rewrite list_elem_of_omap. split.
  - intros (x & Hx & ->). by apply list_elem_of_lookup in Hx.
  - intros [j Hj]. exists (Some o). split; [|done]. by eapply list_elem_of_lookup_2.
Qed.

Lemma active_lookup n held i o :
  class_wf n held i -> o ∈ active i -> local_table i !! Z.to_nat o = Some (Some o).
Proof.
  intros Hw Ho. apply elem_active in Ho as [j Hj].
  pose proof (cw_self _ _ _ Hw j o Hj). subst. by rewrite Nat2Z.id.
Qed.

Lemma inactive_lookup n held i o :
  class_wf n held i -> 1 <= o <= n -> o ∉ active i -> local_table i !! Z.to_nat o = Some None.
Proof.
  intros Hw Ho Hna. pose proof (cw_table _ _ _ Hw).
  destruct (lookup_lt_is_Some_2 (local_table i) (Z.to_nat o)) as [[x|] Hx]; [lia| |done].
  exfalso. apply Hna. apply elem_active. exists (Z.to_nat o).
  by rewrite Hx, (cw_self _ _ _ Hw _ _ Hx), Z2Nat.id by lia.
Qed.

Section Facts.
Context {W : Type} `{Workspace W}.
Implicit Types s : obj_state W.

Lemma upd_info_bind {B} f (k : unit -> cm (obj_state W) B) s :
  (upd_info f ≫= k) s = k tt (mk_obj_state (f (information s)) (workspace s)).
Proof. done. Qed.

Lemma obj_id_run n held o s :
  class_wf n held (information s) -> 1 <= o <= n -> obj_id o s = Ok (id_of (information s) o, s).
Proof.
  intros Hw Ho. apply getsM_ok. unfold mem_load. by rewrite (cw_ids _ _ _ Hw).
Qed.

Lemma set_local_run n held o x s :
  class_wf n held (information s) -> 1 <= o <= n ->
  Objects_Set_local_object o x s =
    Ok (tt, mk_obj_state (set_local_table (<[Z.to_nat o := x]> (local_table (information s)))
              (information s)) (workspace s)).
Proof.
  intros Hw Ho. apply modifyM_ok. pose proof (cw_table _ _ _ Hw).
  by rewrite arr_set_ok by lia.
Qed.

(** Opening and closing move one object between the places. *)
Lemma omap_insert_some (l : list (option Z)) (j : nat) x :
  l !! j = Some None -> omap (fun y => y) (<[j := Some x]> l) ≡ₚ x :: omap (fun y => y) l.
Proof.
  revert j. induction l as [|a l IH]; intros [|j] Hj; try done; cbn in *.
  - by simplify_eq.
  - destruct a as [a|]; cbn.
    + rewrite IH by done. apply perm_swap.
    + by apply IH.
Qed.

Lemma omap_insert_none (l : list (option Z)) (j : nat) x :
  l !! j = Some (Some x) -> x :: omap (fun y => y) (<[j := None]> l) ≡ₚ omap (fun y => y) l.
Proof.
  revert j. induction l as [|a l IH]; intros [|j] Hj; try done; cbn in *.
  - by simplify_eq.
  - destruct a as [a|]; cbn.
    + rewrite <- (IH j) by done. apply perm_swap.
    + by apply IH.
Qed.

(** ** The operations *)
Lemma allocate_run n held s :
  class_wf n held (information s) ->
  match Inactive (information s) with
  | [] => Objects_Allocate s = Ok (None, s)
  | o :: l =>
      exists s', Objects_Allocate s = Ok (Some o, s') /\
        s' = mk_obj_state (set_Inactive l (information s)) (workspace s) /\
        class_wf n (o :: held) (information s')
  end.
Proof.
  intros Hw. unfold Objects_Allocate, Objects_Allocate_unprotected, info_of.
  rewrite gets_bind, (proj2 (Z.eqb_neq _ _) (cw_size _ _ _ Hw)).
  unfold Objects_Get_inactive, info_of.
  destruct (Inactive (information s)) as [|o l] eqn:Hin.
  - rewrite cm_bind_assoc, gets_bind, Hin, ret_bind, gets_bind, (cw_limited _ _ _ Hw). done.
  - rewrite cm_bind_assoc, gets_bind, Hin, cm_bind_assoc. unfold upd_info.
    rewrite modify_bind, ret_bind, gets_bind. cbn [information auto_extend set_Inactive].
    rewrite (cw_limited _ _ _ Hw). eexists. split; [reflexivity|]. split; [done|].
    destruct Hw as [? ? ? ? ? ? ? ? ? ? ? Hall]. split; try done. cbn.
    unfold active in *. cbn. rewrite Hin in Hall. rewrite <- Hall. cbn.
    symmetry. apply Permutation_middle.
Qed.

Lemma open_run n held o name s :
  class_wf n held (information s) -> o ∈ held ->
  exists s' held', Objects_Open o name s = Ok (tt, s') /\ (held ≡ₚ o :: held') /\
    class_wf n held' (information s') /\ o ∈ active (information s') /\
    obj_names (information s') !! o = Some name /\
    id_of (information s') o = id_of (information s) o.
Proof.
  intros Hw Ho. pose proof (class_wf_nodup _ _ _ Hw) as Hnd.
  assert (1 <= o <= n) as Hr by (eapply class_wf_range; [done|set_solver]).
  assert (o ∉ active (information s)) as Hna.
  { apply NoDup_app in Hnd as (_ & _ & Hnd). apply NoDup_app in Hnd as (_ & Hd & _).
    by apply Hd. }
  pose proof (inactive_lookup _ _ _ _ Hw Hr Hna) as Hlk.
  apply elem_of_Permutation in Ho as [held' Hheld].
  unfold Objects_Open, upd_info. rewrite modify_bind.
  set (s1 := mk_obj_state _ _).
  assert (class_wf n held (information s1)) as Hw1 by (by destruct Hw; split).
  rewrite (cm_bind_ok _ _ _ _ _ (obj_id_run n held o s1 Hw1 Hr)).
  destruct (id_of_value n held (information s1) o Hw1 ltac:(lia)) as (_ & -> & _).
  rewrite (set_local_run n held o (Some o) s1 Hw1 Hr). eexists _, held'.
  split; [reflexivity|]. split; [done|].
  assert (length (local_table (information s)) > Z.to_nat o)%nat as Hlen
    by (pose proof (cw_table _ _ _ Hw); lia).
  split; [|split; [|split; [|done]]].
  - destruct Hw1 as [? ? ? ? ? ? ? Ht Hz Hs ? Hall]. split; try done;
      cbn [information set_local_table set_obj_names local_table Inactive the_api the_class
        obj_ids maximum minimum_id maximum_id] in *.
    + by rewrite length_insert.
    + by rewrite list_lookup_insert_ne by lia.
    + intros j o'. rewrite list_lookup_insert. case_decide as Hd; [|apply Hs].
      intros [= <-]. lia.
    + rewrite <- Hall. unfold active. cbn. rewrite (omap_insert_some _ _ _ Hlk), Hheld.
      apply Permutation_app_head. cbn. symmetry. apply Permutation_middle.
  - apply elem_active. exists (Z.to_nat o). cbn. by rewrite list_lookup_insert_eq by lia.
  - cbn. by rewrite lookup_insert_eq.
Qed.

(** What opening changes: the object joins the open ones. *)
Lemma open_effect n held o name s s' :
  class_wf n held (information s) -> o ∈ held -> Objects_Open o name s = Ok (tt, s') ->
  Inactive (information s') = Inactive (information s) /\
  active (information s') ≡ₚ o :: active (information s) /\
  (forall o', id_of (information s') o' = id_of (information s) o').
Proof.
  intros Hw Ho Hrun. pose proof (class_wf_nodup _ _ _ Hw) as Hnd.
  assert (1 <= o <= n) as Hr by (eapply class_wf_range; [done|set_solver]).
  assert (o ∉ active (information s)) as Hna.
  { apply NoDup_app in Hnd as (_ & _ & Hnd). apply NoDup_app in Hnd as (_ & Hd & _).
    by apply Hd. }
  pose proof (inactive_lookup _ _ _ _ Hw Hr Hna) as Hlk.
  unfold Objects_Open, upd_info in Hrun. rewrite modify_bind in Hrun.
  set (s1 := mk_obj_state _ _) in Hrun.
  assert (class_wf n held (information s1)) as Hw1 by (by destruct Hw; split).
  rewrite (cm_bind_ok _ _ _ _ _ (obj_id_run n held o s1 Hw1 Hr)) in Hrun.
  destruct (id_of_value n held (information s1) o Hw1 ltac:(lia)) as (_ & Hix & _). rewrite Hix in Hrun.
  rewrite (set_local_run n held o (Some o) s1 Hw1 Hr) in Hrun. injection Hrun as <-.
  split; [done|]. split; [|done]. unfold active. cbn. by apply omap_insert_some.
Qed.

(** What closing changes: the object leaves the open ones. *)
Lemma close_effect n held o s s' :
  class_wf n held (information s) -> o ∈ active (information s) -> Objects_Close o s = Ok (tt, s') ->
  Inactive (information s') = Inactive (information s) /\
  active (information s) ≡ₚ o :: active (information s') /\
  (forall o', id_of (information s') o' = id_of (information s) o').
Proof.
  intros Hw Ho Hrun.
  assert (1 <= o <= n) as Hr by (eapply class_wf_range; [done|set_solver]).
  pose proof (active_lookup _ _ _ _ Hw Ho) as Hlk.
  unfold Objects_Close, Objects_Invalidate_Id in Hrun. rewrite cm_bind_assoc in Hrun.
  rewrite (cm_bind_ok _ _ _ _ _ (obj_id_run n held o s Hw Hr)) in Hrun.
  destruct (id_of_value n held (information s) o Hw ltac:(lia)) as (_ & Hix & _). rewrite Hix in Hrun.
  rewrite (cm_bind_ok _ _ _ _ _ (set_local_run n held o None s Hw Hr)) in Hrun. injection Hrun as <-.
  split; [done|]. split; [|done]. unfold active. cbn. symmetry. by apply omap_insert_none.
Qed.

Lemma close_run n held o s :
  class_wf n held (information s) -> o ∈ active (information s) ->
  exists s', Objects_Close o s = Ok (tt, s') /\ class_wf n (o :: held) (information s') /\
    (o ∉ active (information s')) /\ id_of (information s') o = id_of (information s) o.
Proof.
  intros Hw Ho. pose proof (class_wf_nodup _ _ _ Hw) as Hnd.
  assert (1 <= o <= n) as Hr by (eapply class_wf_range; [done|set_solver]).
  pose proof (active_lookup _ _ _ _ Hw Ho) as Hlk.
  unfold Objects_Close, Objects_Invalidate_Id. rewrite cm_bind_assoc.
  rewrite (cm_bind_ok _ _ _ _ _ (obj_id_run n held o s Hw Hr)).
  destruct (id_of_value n held (information s) o Hw ltac:(lia)) as (_ & -> & _).
  rewrite (cm_bind_ok _ _ _ _ _ (set_local_run n held o None s Hw Hr)).
  eexists. split; [reflexivity|]. split; [|split; [|done]].
  - destruct Hw as [? ? ? ? ? ? ? Ht Hz Hs ? Hall]. split; try done;
      cbn [information set_local_table set_obj_names local_table Inactive the_api the_class
        obj_ids maximum minimum_id maximum_id] in *.
    + by rewrite length_insert.
    + by rewrite list_lookup_insert_ne by lia.
    + intros j o'. rewrite list_lookup_insert. case_decide; [done|apply Hs].
    + rewrite <- Hall. apply Permutation_app_head. cbn.
      rewrite Permutation_middle. apply Permutation_app_head.
      unfold active. cbn. by apply omap_insert_none.
  - intros Hin. apply elem_active in Hin as [j Hj]. cbn in Hj.
    rewrite list_lookup_insert in Hj. case_decide; [done|].
    apply lookup_lt_Some in Hlk. pose proof (cw_self _ _ _ Hw _ _ Hj). lia.
Qed.

Lemma free_run n held o s :
  class_wf n (o :: held) (information s) ->
  exists s', Objects_Free o s = Ok (tt, s') /\
    s' = mk_obj_state (set_Inactive (Inactive (information s) ++ [o]) (information s))
           (workspace s) /\
    class_wf n held (information s').
Proof.
  intros Hw. unfold Objects_Free, info_of, upd_info. rewrite gets_bind, modify_bind, gets_bind.
  cbn [information auto_extend set_Inactive]. rewrite (cw_limited _ _ _ Hw).
  eexists. split; [reflexivity|]. split; [done|].
  destruct Hw as [? ? ? ? ? ? ? ? ? ? ? Hall]. split; try done. cbn.
  rewrite <- Hall. rewrite <- app_assoc. done.
Qed.

Lemma get_run n held id s :
  class_wf n held (information s) -> 0 <= id < 2 ^ 32 ->
  exists r, Objects_Get id s = Ok (r, s) /\
    forall o, r = Some o <-> o ∈ active (information s) /\ id = id_of (information s) o.
Proof.
  intros Hw Hid. unfold Objects_Get, info_of. rewrite gets_bind.
  set (i := information s) in *. pose proof (cw_n _ _ _ Hw) as Hn.
  unfold OBJECTS_ID_FINAL_INDEX in Hn.
  destruct (id_of_value n held i 1 Hw ltac:(lia)) as (Hmin & _ & Hr1 & Hpos).
  set (index := u32 (u32 (id - minimum_id i) + 1)).
  assert (forall o, o ∈ active i -> 1 <= o <= n) as Hact.
  { intros o Ho. eapply class_wf_range; [done|]. set_solver. }
  assert (forall o, 1 <= o <= n -> id = id_of i o <-> index = o) as Hidx.
  { intros o Ho. destruct (id_of_value n held i o Hw ltac:(lia)) as (-> & _ & Hro & _).
    unfold index, u32. split; intros He.
    - subst id. replace (minimum_id i + (o - 1) - minimum_id i) with (o - 1) by lia.
      rewrite (Z.mod_small (o - 1)) by lia. rewrite Z.mod_small by lia. lia.
    - pose proof (Z.mod_pos_bound (id - minimum_id i) (2 ^ 32) ltac:(lia)).
      destruct (decide ((id - minimum_id i) mod 2 ^ 32 = 2 ^ 32 - 1)) as [Hx|Hx].
      { rewrite Hx in He. change ((2 ^ 32 - 1 + 1) mod 2 ^ 32) with 0 in He. lia. }
      rewrite (Z.mod_small (_ + 1)) in He by lia.
      pose proof (Z.div_mod (id - minimum_id i) (2 ^ 32) ltac:(lia)) as Hdm.
      assert ((id - minimum_id i) / 2 ^ 32 = 0 \/ (id - minimum_id i) / 2 ^ 32 = -1) as Hq by lia.
      lia. }
  assert (0 <= index < 2 ^ 32) as Hi by (unfold index; apply u32_range).
  pose proof (cw_max _ _ _ Hw) as Hmax. rewrite Hmax.
  destruct (Z.leb_spec index n) as [Hle|Hgt].
  - destruct (lookup_lt_is_Some_2 (local_table i) (Z.to_nat index)) as [r Hr].
    { pose proof (cw_table _ _ _ Hw). lia. }
    exists r. split.
    { apply getsM_ok. apply arr_get_ok; [lia|done]. }
    intros o. split.
    + intros ->. pose proof (cw_self _ _ _ Hw _ _ Hr) as Ho. rewrite Z2Nat.id in Ho by lia.
      assert (o ∈ active i) as Ha by (apply elem_active; by exists (Z.to_nat index)).
      split; [done|]. apply Hidx; [by apply Hact|done].
    + intros [Ha He]. apply Hidx in He; [|by apply Hact]. subst index.
      rewrite He in Hr. rewrite (active_lookup _ _ _ _ Hw Ha) in Hr. by simplify_eq.
  - exists None. split; [done|]. intros o. split; [done|]. intros [Ha He].
    apply Hidx in He; [|by apply Hact]. pose proof (Hact o Ha). lia.
Qed.

End Facts.

(** ** Initialization of a class *)
Lemma clear_entries_run n index t :
  0 <= index -> index + Z.of_nat n <= Z.of_nat (length t) ->
  exists t', clear_entries n index t = Ok t' /\ length t' = length t /\
    forall j, t' !! j = if decide (index <= Z.of_nat j < index + Z.of_nat n) then Some None
                        else t !! j.
Proof.
  revert index t. induction n as [|n IH]; intros index t Hi Hn.
  { exists t. split; [done|]. split; [done|]. intros j. by rewrite decide_False by lia. }
  cbn [clear_entries]. rewrite arr_set_ok by lia. cbn [mbind outcome_bind].
  destruct (IH (index + 1) (<[Z.to_nat index := None]> t)) as (t' & Hr & Hl & Ht);
    [lia|rewrite length_insert; lia|].
  exists t'. split; [done|]. rewrite Hl, length_insert. split; [done|]. intros j. rewrite Ht.
  destruct (decide (index + 1 <= Z.of_nat j < index + 1 + Z.of_nat n)).
  - by rewrite decide_True by lia.
  - destruct (decide (Z.of_nat j = index)) as [Hj|].
    + rewrite decide_True by lia. replace (Z.to_nat index) with j by lia.
      rewrite list_lookup_insert_eq by lia. done.
    + rewrite decide_False by lia. by rewrite list_lookup_insert_ne by lia.
Qed.

Section Initialize.
Context {W : Type} `{Workspace W}.
Implicit Types s : obj_state W.

(** The loop that appends the objects of a new block. *)
Lemma append_loop n base s :
  0 <= base ->
  exists s', c_for n base
    (fun index _ =>
       upd_info (fun i =>
         set_Inactive (Inactive i ++ [index])
         (set_obj_ids (<[index := Objects_Build_id (the_api i) (the_class i)
                                     Objects_Local_node (u16 index)]> (obj_ids i)) i));;
       mret (inl tt)) tt s = Ok (tt, s') /\
    exists ids, information s' = set_Inactive (Inactive (information s) ++ seqZ base (Z.of_nat n))
        (set_obj_ids ids (information s)) /\ workspace s' = workspace s /\
      forall o, ids !! o =
        if decide (base <= o < base + Z.of_nat n)
        then Some (Objects_Build_id (the_api (information s)) (the_class (information s))
                     Objects_Local_node (u16 o))
        else obj_ids (information s) !! o.
Proof.
  intros Hb.
  destruct (c_for_inv (fun j (_ : unit) s' => exists ids,
      information s' = set_Inactive (Inactive (information s) ++ seqZ base (j - base))
        (set_obj_ids ids (information s)) /\ workspace s' = workspace s /\
      forall o, ids !! o =
        if decide (base <= o < j)
        then Some (Objects_Build_id (the_api (information s)) (the_class (information s))
                     Objects_Local_node (u16 o))
        else obj_ids (information s) !! o)
    n base (fun index _ =>
       upd_info (fun i =>
         set_Inactive (Inactive i ++ [index])
         (set_obj_ids (<[index := Objects_Build_id (the_api i) (the_class i)
                                     Objects_Local_node (u16 index)]> (obj_ids i)) i));;
       mret (inl tt)) tt s) as ([] & s' & Hr & ids & Hi & Hw & Hids).
  - exists (obj_ids (information s)). split; [|split; [done|]].
    + rewrite Z.sub_diag, seqZ_nil, app_nil_r by lia. by destruct (information s).
    + intros o. by rewrite decide_False by lia.
  - intros j [] s1 Hj (ids & Hi & Hw & Hids). exists tt. eexists. split; [reflexivity|].
    exists (<[j := Objects_Build_id (the_api (information s)) (the_class (information s))
                      Objects_Local_node (u16 j)]> ids).
    split; [|split; [exact Hw|]].
    + cbn. rewrite Hi. cbn. rewrite <- app_assoc.
      replace (j + 1 - base) with ((j - base) + 1) by lia.
      rewrite seqZ_app by lia. replace (base + (j - base)) with j by lia. reflexivity.
    + intros o. rewrite lookup_insert, Hids.
      destruct (decide (j = o)) as [->|].
      * by rewrite decide_True by lia.
      * destruct (decide (base <= o < j)), (decide (base <= o < j + 1)); done || lia.
  - exists s'. split; [done|]. exists ids. split; [|split; [done|]].
    + by replace (base + Z.of_nat n - base) with (Z.of_nat n) in Hi by lia.
    + exact Hids.
Qed.

(** The allocations of an initialization succeed. *)
Definition workspace_suffices s (sizes : Z * Z) : Prop :=
  exists p1 w1 p2 w2,
    Workspace_Allocate sizes.1 (workspace s) = (Some p1, w1) /\
    Workspace_Allocate sizes.2 w1 = (Some p2, w2).

Definition table_sizes (n size : Z) : Z * Z :=
  (u32 (n * size), align_up (1 * 4) CPU_ALIGNMENT + align_up (1 * 4) CPU_ALIGNMENT + (n + 1) * 4).

Lemma limited_maximum n :
  0 <= n <= OBJECTS_ID_FINAL_INDEX ->
  Objects_Is_unlimited n = false /\ Objects_Maximum_per_allocation n = n.
Proof.
  unfold OBJECTS_ID_FINAL_INDEX. intros Hn.
  assert (Z.testbit n 31 = false) as H31.
  { destruct (decide (n = 0)) as [->|]; [done|].
    apply Z.bits_above_log2; [lia|]. apply Z.log2_lt_pow2; lia. }
  unfold Objects_Is_unlimited, Objects_Maximum_per_allocation, OBJECTS_UNLIMITED_OBJECTS.
  change 2147483648 with (2 ^ 31). split.
  - assert (Z.land n (2 ^ 31) = 0) as ->; [|done]. apply Z.bits_inj'. intros i Hi.
    rewrite Z.land_spec, Z.bits_0, Z.pow2_bits_eqb by lia.
    destruct (Z.eqb_spec 31 i); [subst; by rewrite H31|apply andb_false_r].
  - assert (Z.land n (Z.lnot (2 ^ 31)) = n) as ->; [|apply u16_id; lia].
    apply Z.bits_inj'. intros i Hi.
    rewrite Z.land_spec, Z.lnot_spec, Z.pow2_bits_eqb by lia.
    destruct (Z.eqb_spec 31 i); [subst; by rewrite H31|apply andb_true_r].
Qed.

(** The tables of a class with [n] objects and none in use. *)
Lemma grow_tables_first n i w new_block p w' :
  1 <= n <= OBJECTS_ID_FINAL_INDEX -> maximum i = 0 -> auto_extend i = false ->
  allocation_size i = n -> local_table i = [None] -> object_blocks i = None ->
  tables_area i = None ->
  Workspace_Allocate (table_sizes n (obj_size i)).2 w = (Some p, w') ->
  exists table, grow_tables new_block 0 1 1 n (mk_obj_state i w) =
    Ok (true, mk_obj_state
      (set_maximum_id (Objects_Build_id (the_api i) (the_class i) Objects_Local_node (u16 n))
        (set_maximum (u16 n) (set_local_table table (set_inactive_per_block [0]
          (set_object_blocks (Some [None]) (set_tables_area (Some p) i)))))) w') /\
    table = replicate (Z.to_nat (n + 1)) None.
Proof.
  intros Hn Hm Hae Hal Hlt Hob Hta Hws. unfold OBJECTS_ID_FINAL_INDEX in Hn.
  unfold grow_tables, info_of. rewrite gets_bind. cbn [information].
  rewrite Hae, Hm, Hal. change (0 + 1) with 1. change (1 <? 0) with false. cbn iota.
  unfold ws_allocate_or_fatal_error, ws_allocate. cm_run.
  cbn [workspace]. cbn [table_sizes snd] in Hws. rewrite Hws. cbn [fst snd]. cm_run. cbn [is_not_null]. cm_run.
  set (t0 := grown_table uninit_object (n + 1) (local_table i) 0).
  assert (Z.of_nat (length t0) = n + 1) as Ht0.
  { unfold t0, grown_table. rewrite length_app, length_take, length_fmap, length_seqZ. lia. }
  destruct (clear_entries_run (Z.to_nat 1) 0 t0) as (t1 & Hr1 & Hl1 & Ht1); [lia|lia|].
  rewrite (lift_bind _ _ _ t1 Hr1).
  rewrite (lift_bind _ _ _ [None]) by done. rewrite (lift_bind _ _ _ [0]) by done.
  destruct (clear_entries_run (Z.to_nat n) 1 t1) as (t2 & Hr2 & Hl2 & Ht2); [lia|lia|].
  rewrite (lift_bind _ _ _ t2 Hr2). rewrite Hta. exists t2. split; [reflexivity|].
  apply list_eq. intros j. rewrite Ht2, Ht1.
  destruct (decide (Z.of_nat j < n + 1)).
  - rewrite lookup_replicate_2 by lia.
    destruct (decide (1 <= Z.of_nat j < 1 + Z.of_nat (Z.to_nat n))); [done|].
    by rewrite decide_True by lia.
  - rewrite !decide_False by lia. rewrite !lookup_ge_None_2; [done| |lia].
    rewrite length_replicate. lia.
Qed.

Lemma initialize_run n api class size s :
  1 <= n <= OBJECTS_ID_FINAL_INDEX -> 0 <= api < 8 -> 0 <= class < 32 -> size <> 0 ->
  workspace_suffices s (table_sizes n size) ->
  exists s', Objects_Do_initialize_information api class n size s = Ok (tt, s') /\
    class_wf n [] (information s') /\ Inactive (information s') = seqZ 1 n /\
    the_api (information s') = api /\ the_class (information s') = class.
Proof.
  intros Hn Ha Hc Hs (p1 & w1 & p2 & w2 & Hw1 & Hw2).
  destruct (limited_maximum n ltac:(lia)) as [Hu Hm].
  unfold Objects_Do_initialize_information, upd_info. rewrite modify_bind.
  rewrite Hu, Hm, (proj2 (Z.eqb_neq n 0)) by (unfold OBJECTS_ID_FINAL_INDEX in Hn; lia).
  cbn [andb negb]. rewrite modify_bind. cbn [information workspace].
  match goal with |- context [Objects_Extend_information ?x] => set (s1 := x) end.
  set (i1 := information s1).
  unfold Objects_Extend_information, info_of. rewrite gets_bind. fold i1.
  change (object_blocks i1) with (@None (list (option Z))). cbn iota.
  rewrite !ret_bind. cbn [fst snd].
  assert (Objects_Get_index (minimum_id i1) = 1) as ->.
  { apply Objects_Get_index_build. unfold id_parts, Objects_Local_node. lia. }
  change (maximum i1) with 0. change (allocation_size i1) with n.
  change (auto_extend i1) with false. cbn iota. unfold OBJECTS_ID_FINAL_INDEX in *.
  rewrite Z.add_0_l, u32_id by lia. rewrite (proj2 (Z.ltb_ge 65535 n)) by lia.
  unfold ws_allocate_or_fatal_error, ws_allocate. cm_run.
  change (workspace s1) with (workspace s). change (obj_size i1) with size.
  cbn [table_sizes fst] in Hw1. rewrite Hw1. cbn [fst snd]. cm_run.
  change (information s1) with i1.
  destruct (grow_tables_first n i1 w1 p1 p2 w2) as (table & Hg & ->); [done..|].
  rewrite (cm_bind_ok _ _ _ _ _ Hg). cbn iota. rewrite gets_bind.
  cbn [information object_blocks set_maximum_id set_maximum set_local_table
    set_inactive_per_block set_object_blocks default].
  rewrite (lift_bind _ _ _ [Some p1]) by done.
  rewrite upd_info_bind. cbn [information workspace].
  match goal with |- context [(_ ≫= _) ?x = _] => set (s2 := x) end.
  destruct (append_loop (Z.to_nat n) 1 s2) as (s3 & Hr3 & ids & Hi3 & Hw3 & Hids); [lia|].
  rewrite (cm_bind_ok _ _ _ _ _ Hr3). rewrite Z2Nat.id in * by lia.
  unfold table_st. rewrite (modifyM_bind _ _ _
    (mk_obj_state (set_inactive_per_block [n] (information s3)) (workspace s3))).
  2: { rewrite Hi3. done. }
  eexists. split; [reflexivity|]. cbn [information]. rewrite Hi3.
  split; [|done]. cbn. split; try done; cbn.
  - by rewrite u16_id by lia.
  - by rewrite u16_id by lia.
  - rewrite length_replicate. lia.
  - by apply lookup_replicate_2; lia.
  - intros j o Hj. by apply lookup_replicate in Hj as [? _].
  - intros o Ho. rewrite Hids, decide_True, u16_id by lia. done.
  - assert (active (information s2) = []) as Hact.
    { unfold active, s2. cbn. generalize (Z.to_nat (n + 1)) as m.
      induction m as [|m IH]; [done|]. by cbn. }
    unfold active in *. cbn in *. rewrite Hact, app_nil_r. done.
Qed.

End Initialize.

(** ** The life of a class *)
Section Life.
Context {W : Type} `{Workspace W}.

(** What the managers do with a class: allocate an object, open it or give it
    back, close an open object and free it.  The list is [held]. *)
Inductive class_step : list Z * obj_state W -> list Z * obj_state W -> Prop :=
| step_allocate held s o s' :
    Objects_Allocate s = Ok (Some o, s') -> class_step (held, s) (o :: held, s')
| step_allocate_fails held s s' :
    Objects_Allocate s = Ok (None, s') -> class_step (held, s) (held, s')
| step_open held held' s o name s' :
    held ≡ₚ o :: held' -> Objects_Open o name s = Ok (tt, s') ->
    class_step (held, s) (held', s')
| step_give_back held held' s o s' :
    held ≡ₚ o :: held' -> Objects_Free o s = Ok (tt, s') -> class_step (held, s) (held', s')
| step_close held s o s' :
    o ∈ active (information s) -> Objects_Close o s = Ok (tt, s') ->
    class_step (held, s) (o :: held, s').

Lemma class_wf_perm n held held' i : held ≡ₚ held' -> class_wf n held i -> class_wf n held' i.
Proof. intros Hp []. split; try done. by rewrite <- Hp. Qed.

Lemma class_step_wf n x y :
  class_wf n x.1 (information x.2) -> class_step x y -> class_wf n y.1 (information y.2).
Proof.
  intros Hw Hst. destruct Hst as [held s o s' Hr|held s s' Hr|held held' s o name s' Hp Hr
    |held held' s o s' Hp Hr|held s o s' Ho Hr]; cbn [fst snd] in *.
  - pose proof (allocate_run n held s Hw) as Ha. destruct (Inactive (information s)) as [|o' l].
    + congruence.
    + destruct Ha as (s1 & Hr1 & _ & Hw1). rewrite Hr in Hr1. by simplify_eq.
  - pose proof (allocate_run n held s Hw) as Ha. destruct (Inactive (information s)) as [|o' l].
    + rewrite Hr in Ha. by simplify_eq.
    + destruct Ha as (s1 & Hr1 & _). congruence.
  - destruct (open_run n held o name s Hw) as (s1 & held1 & Hr1 & Hp1 & Hw1 & _).
    { rewrite Hp. by left. }
    rewrite Hr in Hr1. simplify_eq. eapply class_wf_perm; [|done].
    apply (Permutation_cons_inv (a := o)). by rewrite <- Hp1, Hp.
  - destruct (free_run n held' o s) as (s1 & Hr1 & _ & Hw1); [by eapply class_wf_perm|].
    rewrite Hr in Hr1. by simplify_eq.
  - destruct (close_run n held o s Hw Ho) as (s1 & Hr1 & Hw1 & _).
    rewrite Hr in Hr1. by simplify_eq.
Qed.

End Life.

(** ** Properties *)

(** C33: An identifier gives back the API, class, node and index it was built
    from, and different parts give different identifiers. *)
Theorem objects_id_roundtrip api class node index :
  id_parts api class node index ->
  let id := Objects_Build_id api class node index in
  Objects_Get_API id = api /\ Objects_Get_class id = class /\
  Objects_Get_node id = node /\ Objects_Get_index id = index /\ 0 <= id < 2 ^ 32.
Proof.
  intros Hp id. pose proof (Objects_Get_index_build _ _ _ _ Hp) as Hix. fold id in Hix.
  pose proof (Objects_Build_id_value _ _ _ _ Hp) as Hid. fold id in Hid. clearbody id.
  destruct Hp as (Ha & Hc & Hn & Hi).
  assert (forall sh w x, 0 <= sh -> 0 <= w -> 0 <= x < 2 ^ w ->
    forall lo hi, 0 <= lo < 2 ^ sh -> id = hi * 2 ^ (sh + w) + x * 2 ^ sh + lo ->
    Z.land (Z.shiftr id sh) (2 ^ w - 1) = x) as Hpart.
  { intros sh w x Hsh Hw Hx lo hi Hlo He. rewrite land_mask, Z.shiftr_div_pow2 by lia.
    assert (id / 2 ^ sh = hi * 2 ^ w + x) as ->.
    { symmetry. apply (Z.div_unique _ _ _ lo); [lia|]. rewrite He, Z.pow_add_r by lia. ring. }
    rewrite Z.add_comm, Z.mod_add, Z.mod_small by lia. done. }
  split; [|split; [|split; [|split; [done|lia]]]].
  - apply (Hpart 24 3 api ltac:(lia) ltac:(lia) ltac:(lia) (node * 2 ^ 16 + index) class);
      [lia|]. rewrite Hid. lia.
  - apply (Hpart 27 5 class ltac:(lia) ltac:(lia) ltac:(lia)
      (api * 2 ^ 24 + node * 2 ^ 16 + index) 0); [lia|]. rewrite Hid. lia.
  - apply (Hpart 16 8 node ltac:(lia) ltac:(lia) ltac:(lia) index (class * 8 + api));
      [lia|]. rewrite Hid. lia.
Qed.

Lemma objects_id_roundtrip_witness :
  let id := Objects_Build_id 2 8 1 3 in
  Objects_Get_API id = 2 /\ Objects_Get_class id = 8 /\
  Objects_Get_node id = 1 /\ Objects_Get_index id = 3 /\ 0 <= id < 2 ^ 32.
Proof. apply (objects_id_roundtrip 2 8 1 3). unfold id_parts. lia. Defined.

Section Properties.
Context {W : Type} `{Workspace W}.

(** Looking an identifier up finds an object exactly when the object is
    open and the identifier is its own: stale identifiers, identifiers of
    other classes and the identifier 0 find nothing, and the lookup never
    leaves the local table. *)
Theorem objects_get_exact n held id (s : obj_state W) :
  class_wf n held (information s) -> 0 <= id < 2 ^ 32 ->
  exists r, Objects_Get id s = Ok (r, s) /\
    forall o, r = Some o <-> o ∈ active (information s) /\ id = id_of (information s) o.
Proof. apply get_run. Qed.

(** C14: From the initialization of a class with [n] objects on, whatever
    objects are allocated, opened, closed and freed in whatever order, every
    object is in exactly one place: inactive, held by a directive, or open.
    So an allocation never hands out an object in use, and it fails only when
    all [n] objects are in use. *)
Theorem objects_class_invariant n api class size (s0 s : obj_state W) held :
  1 <= n <= OBJECTS_ID_FINAL_INDEX -> 0 <= api < 8 -> 0 <= class < 32 -> size <> 0 ->
  workspace_suffices s0 (table_sizes n size) ->
  exists s1, Objects_Do_initialize_information api class n size s0 = Ok (tt, s1) /\
    (rtc class_step ([], s1) (held, s) ->
       class_wf n held (information s) /\
       match Objects_Allocate s with
       | Ok (Some o, _) => (o ∉ held) /\ (o ∉ active (information s))
       | Ok (None, _) => Z.of_nat (length held + length (active (information s))) = n
       | Undef _ => False
       end).
Proof.
  intros Hn Ha Hc Hs Hws.
  destruct (initialize_run n api class size s0 Hn Ha Hc Hs Hws) as (s1 & Hr & Hw & _).
  exists s1. split; [done|]. intros Hreach.
  assert (class_wf n held (information s)) as Hwf.
  { change held with (held, s).1. change s with (held, s).2 at 2.
    revert Hreach. generalize (held, s) as y. intros y Hreach.
    assert (class_wf n ([] : list Z, s1).1 (information ([] : list Z, s1).2)) as Hx by done.
    induction Hreach as [x|x y z Hxy _ IH]; [done|]. apply IH. by eapply class_step_wf. }
  split; [done|]. pose proof (allocate_run n held s Hwf) as Hal.
  pose proof (class_wf_nodup _ _ _ Hwf) as Hnd. pose proof (cw_all _ _ _ Hwf) as Hall.
  destruct (Inactive (information s)) as [|o l].
  - rewrite Hal. apply Permutation_length in Hall. rewrite length_seqZ in Hall.
    cbn in Hall. rewrite length_app in Hall. lia.
  - destruct Hal as (s' & -> & _). cbn in Hnd. apply NoDup_cons in Hnd as [Hnd _].
    split; intros Hin; apply Hnd; set_solver.
Qed.

End Properties.

(** A workspace that never fails, for the examples. *)
Definition big_workspace : Workspace Z := {|
  Workspace_Allocate size w := (Some w, w + size);
  Workspace_Free _ w := w;
  uninit_object _ := Some 7;
  uninit_block _ := Some 7;
  uninit_count _ := 7
|}.

Definition empty_information : Objects_Information :=
  mk_Objects_Information 0 0 0 0 0 false 0 0 [] [] 0 [] None ∅ ∅ None.

Lemma objects_class_invariant_witness :
  let W := big_workspace in
  let s0 := mk_obj_state empty_information 4096 in
  exists s1, Objects_Do_initialize_information 2 8 10 100 s0 = Ok (tt, s1) /\
    (rtc class_step ([], s1) ([], s1) ->
       class_wf 10 [] (information s1) /\
       match Objects_Allocate s1 with
       | Ok (Some o, _) => (o ∉ []) /\ (o ∉ active (information s1))
       | Ok (None, _) => Z.of_nat (length (@nil Z) + length (active (information s1))) = 10
       | Undef _ => False
       end).
Proof.
  set (W := big_workspace). set (s0 := mk_obj_state empty_information 4096).
  destruct (Objects_Do_initialize_information 2 8 10 100 s0) as [[[] s1]|] eqn:E.
  - destruct (@objects_class_invariant Z W 10 2 8 100 s0 s1 []) as (s1' & Hr & Hx);
      [unfold OBJECTS_ID_FINAL_INDEX; lia|lia|lia|lia|by do 4 eexists|].
    rewrite E in Hr. injection Hr as <-. by exists s1.
  - vm_compute in E. done.
Defined.

Lemma objects_get_exact_witness :
  let W := big_workspace in
  let s0 := mk_obj_state empty_information 4096 in
  exists s1, Objects_Do_initialize_information 2 8 10 100 s0 = Ok (tt, s1) /\
  exists r, Objects_Get 0 s1 = Ok (r, s1) /\
    forall o, r = Some o <-> o ∈ active (information s1) /\ 0 = id_of (information s1) o.
Proof.
  set (W := big_workspace). set (s0 := mk_obj_state empty_information 4096).
  destruct (@initialize_run Z W 10 2 8 100 s0) as (s1 & Hr & Hw & _);
    [unfold OBJECTS_ID_FINAL_INDEX; lia|lia|lia|lia|by do 4 eexists|].
  exists s1. split; [done|]. apply (@objects_get_exact Z 10 [] 0 s1); [done|lia].
Defined.

(** A workspace that never fails and hands out memory that holds [g]. *)
Definition workspace_holding (g : option Z) : Workspace Z := {|
  Workspace_Allocate size w := (Some w, w + size);
  Workspace_Free _ w := w;
  uninit_object _ := g;
  uninit_block _ := g;
  uninit_count _ := 0
|}.

(** An unlimited class that grows by one object at a time: one object is
    created and looked up, a second is allocated, the first is looked up
    again. *)
Definition grow_by_one (W : Workspace Z) : cm (obj_state Z) (option Z * option Z * option Z * option Z) :=
  @Objects_Do_initialize_information Z W OBJECTS_CLASSIC_API 2 (Z.lor OBJECTS_UNLIMITED_OBJECTS 1) 100;;
  a ← @Objects_Allocate Z W;
  match a with
  | None => mret (None, None, None, None)
  | Some o =>
      Objects_Open o 7;;
      id ← obj_id o;
      before ← Objects_Get id;
      b ← @Objects_Allocate Z W;
      after ← Objects_Get id;
      mret (a, before, b, after)
  end.

