(* ===== verification/Fts.v ===== *)
(** * The fault tolerant scheduler: data and operations

    The translation of [rtems/src/fts_t.c] and [fts_t.h]: the task list and
    the other global variables as records of arrays, every function as a
    computation on them.  Pattern bytes and [rtems_id] cells live in two
    memories, addressed by the pointers the program stores.  Diagnostic
    output is left out, except that [show_pattern_t] reads the pattern, so
    its result is the text it prints. *)

From stdpp Require Import base tactics numbers option list list_numbers gmap fin_maps.
From Stdlib Require Import ZArith Lia.
From S2P Require Import Prelude Status.

Open Scope Z_scope.

(** ** Constants and enumerations of [fts_t.h] *)
Definition NR_RANDS : Z := 128.
Definition P_TASKS : Z := 10.
Definition BIT_7 : Z := 128.
Definition PATTERN_PARTITIONS : Z := 16.

Inductive fts_version := BASIC | DETECTION | CORRECTION.
Inductive fts_tech := NONE | SRE | SDR | DRE | DDR.
Inductive pattern_type := R_PATTERN | E_PATTERN.
Inductive fault_status := FAULT | NO_FAULT.

#[export] Instance fts_version_eq_dec : EqDecision fts_version.
Proof. solve_decision. Defined.
#[export] Instance fts_tech_eq_dec : EqDecision fts_tech.
Proof. solve_decision. Defined.
#[export] Instance pattern_type_eq_dec : EqDecision pattern_type.
Proof. solve_decision. Defined.
#[export] Instance fault_status_eq_dec : EqDecision fault_status.
Proof. solve_decision. Defined.

(** ** The task list *)
Record Task_ID_List := mkTask_ID_List {
  task_list_id : list Z;
  l_m : list Z;
  l_k : list Z;
  tech : list fts_tech;
  task_list_index : Z;
  pattern : list pattern_type;
  pattern_start : list Z;
  pattern_end : list Z;
  curr_pos : list Z;
  bitpos : list Z;
  max_bitpos : list Z;
  l_b : list Z;
  l_d : list Z;
  l_c : list Z
}.

Record tol_counter := mk_tol_counter {
  tol_counter_o : list Z;
  tol_counter_a : list Z
}.

Record Task_Specs := mkTask_Specs {
  initial_priority : list Z;
  stack_size : list Z;
  initial_modes : list Z;
  attribute_set : list Z
}.

Record task_user_specs := mk_task_user_specs {
  u_initial_priority : Z;
  u_stack_size : Z;
  u_initial_modes : Z;
  u_attribute_set : Z
}.

Record task_versions := mk_task_versions { v_b : Z; v_d : Z; v_c : Z }.

Record pattern_specs := mk_pattern_specs {
  ps_pattern : pattern_type;
  ps_start : Z;
  ps_end : Z;
  ps_max_bitpos : Z
}.

(** The names of the three task versions. *)
Definition Task_name : list Z :=
  [rtems_build_name 66 65 83 32; rtems_build_name 68 69 84 32;
   rtems_build_name 67 79 82 32].

(** The global variables of [fts_t.h], with the memory and the task manager
    the scheduler works on.  [released] is a history variable of the model:
    the versions [release_task] was asked for, oldest first. *)
Record fts_state (T : Type) := mk_fts_state {
  tasklist : Task_ID_List;
  period_pointers : list Z;
  running_id_b : list Z;
  running_id_d : list Z;
  running_id_c : list Z;
  tol_counter_const : list tol_counter;
  tol_counter_temp : list tol_counter;
  nr_partitions : list Z;
  partition_index : list Z;
  task_specs : Task_Specs;
  Task_id : list Z;
  mem8 : gmap Z Z;
  mem_id : gmap Z Z;
  tasks : T;
  released : list (Z * fts_version)
}.
Arguments mk_fts_state {T}.
Arguments tasklist {T}.
Arguments period_pointers {T}.
Arguments running_id_b {T}.
Arguments running_id_d {T}.
Arguments running_id_c {T}.
Arguments tol_counter_const {T}.
Arguments tol_counter_temp {T}.
Arguments nr_partitions {T}.
Arguments partition_index {T}.
Arguments task_specs {T}.
Arguments Task_id {T}.
Arguments mem8 {T}.
Arguments mem_id {T}.
Arguments tasks {T}.
Arguments released {T}.

(** The state before the first registration: the globals are in the BSS. *)
Definition tol_counter_zero : tol_counter :=
  mk_tol_counter (replicate 16 0) (replicate 16 0).

Definition fts_initial {T} (t : T) (m8 mid : gmap Z Z) : fts_state T :=
  let z := replicate 10 0 in
  mk_fts_state
    (mkTask_ID_List z z z (replicate 10 NONE) 0 (replicate 10 R_PATTERN)
       z z z z z z z z)
    z z z z (replicate 10 tol_counter_zero) (replicate 10 tol_counter_zero)
    z z (mkTask_Specs z z z z) (replicate 3 0) m8 mid t [].

(** ** Updates of one field *)
Definition set_task_list_id v (r : Task_ID_List) : Task_ID_List :=
  mkTask_ID_List v (l_m r) (l_k r) (tech r) (task_list_index r) (pattern r)
    (pattern_start r) (pattern_end r) (curr_pos r) (bitpos r) (max_bitpos r) (l_b r)
    (l_d r) (l_c r).
Definition set_l_m v (r : Task_ID_List) : Task_ID_List :=
  mkTask_ID_List (task_list_id r) v (l_k r) (tech r) (task_list_index r) (pattern r)
    (pattern_start r) (pattern_end r) (curr_pos r) (bitpos r) (max_bitpos r) (l_b r)
    (l_d r) (l_c r).
Definition set_l_k v (r : Task_ID_List) : Task_ID_List :=
  mkTask_ID_List (task_list_id r) (l_m r) v (tech r) (task_list_index r) (pattern r)
    (pattern_start r) (pattern_end r) (curr_pos r) (bitpos r) (max_bitpos r) (l_b r)
    (l_d r) (l_c r).
Definition set_tech v (r : Task_ID_List) : Task_ID_List :=
  mkTask_ID_List (task_list_id r) (l_m r) (l_k r) v (task_list_index r) (pattern r)
    (pattern_start r) (pattern_end r) (curr_pos r) (bitpos r) (max_bitpos r) (l_b r)
    (l_d r) (l_c r).
Definition set_task_list_index v (r : Task_ID_List) : Task_ID_List :=
  mkTask_ID_List (task_list_id r) (l_m r) (l_k r) (tech r) v (pattern r) (pattern_start
    r) (pattern_end r) (curr_pos r) (bitpos r) (max_bitpos r) (l_b r) (l_d r) (l_c r).
Definition set_pattern v (r : Task_ID_List) : Task_ID_List :=
  mkTask_ID_List (task_list_id r) (l_m r) (l_k r) (tech r) (task_list_index r) v
    (pattern_start r) (pattern_end r) (curr_pos r) (bitpos r) (max_bitpos r) (l_b r)
    (l_d r) (l_c r).
Definition set_pattern_start v (r : Task_ID_List) : Task_ID_List :=
  mkTask_ID_List (task_list_id r) (l_m r) (l_k r) (tech r) (task_list_index r) (pattern
    r) v (pattern_end r) (curr_pos r) (bitpos r) (max_bitpos r) (l_b r) (l_d r) (l_c r).
Definition set_pattern_end v (r : Task_ID_List) : Task_ID_List :=
  mkTask_ID_List (task_list_id r) (l_m r) (l_k r) (tech r) (task_list_index r) (pattern
    r) (pattern_start r) v (curr_pos r) (bitpos r) (max_bitpos r) (l_b r) (l_d r) (l_c
    r).
Definition set_curr_pos v (r : Task_ID_List) : Task_ID_List :=
  mkTask_ID_List (task_list_id r) (l_m r) (l_k r) (tech r) (task_list_index r) (pattern
    r) (pattern_start r) (pattern_end r) v (bitpos r) (max_bitpos r) (l_b r) (l_d r)
    (l_c r).
Definition set_bitpos v (r : Task_ID_List) : Task_ID_List :=
  mkTask_ID_List (task_list_id r) (l_m r) (l_k r) (tech r) (task_list_index r) (pattern
    r) (pattern_start r) (pattern_end r) (curr_pos r) v (max_bitpos r) (l_b r) (l_d r)
    (l_c r).
Definition set_max_bitpos v (r : Task_ID_List) : Task_ID_List :=
  mkTask_ID_List (task_list_id r) (l_m r) (l_k r) (tech r) (task_list_index r) (pattern
    r) (pattern_start r) (pattern_end r) (curr_pos r) (bitpos r) v (l_b r) (l_d r) (l_c
    r).
Definition set_l_b v (r : Task_ID_List) : Task_ID_List :=
  mkTask_ID_List (task_list_id r) (l_m r) (l_k r) (tech r) (task_list_index r) (pattern
    r) (pattern_start r) (pattern_end r) (curr_pos r) (bitpos r) (max_bitpos r) v (l_d
    r) (l_c r).
Definition set_l_d v (r : Task_ID_List) : Task_ID_List :=
  mkTask_ID_List (task_list_id r) (l_m r) (l_k r) (tech r) (task_list_index r) (pattern
    r) (pattern_start r) (pattern_end r) (curr_pos r) (bitpos r) (max_bitpos r) (l_b r)
    v (l_c r).
Definition set_l_c v (r : Task_ID_List) : Task_ID_List :=
  mkTask_ID_List (task_list_id r) (l_m r) (l_k r) (tech r) (task_list_index r) (pattern
    r) (pattern_start r) (pattern_end r) (curr_pos r) (bitpos r) (max_bitpos r) (l_b r)
    (l_d r) v.

Definition set_initial_priority v (r : Task_Specs) : Task_Specs :=
  mkTask_Specs v (stack_size r) (initial_modes r) (attribute_set r).
Definition set_stack_size v (r : Task_Specs) : Task_Specs :=
  mkTask_Specs (initial_priority r) v (initial_modes r) (attribute_set r).
Definition set_initial_modes v (r : Task_Specs) : Task_Specs :=
  mkTask_Specs (initial_priority r) (stack_size r) v (attribute_set r).
Definition set_attribute_set v (r : Task_Specs) : Task_Specs :=
  mkTask_Specs (initial_priority r) (stack_size r) (initial_modes r) v.

Definition set_tasklist {T} v (r : fts_state T) : fts_state T :=
  mk_fts_state v (period_pointers r) (running_id_b r) (running_id_d r) (running_id_c r)
    (tol_counter_const r) (tol_counter_temp r) (nr_partitions r) (partition_index r)
    (task_specs r) (Task_id r) (mem8 r) (mem_id r) (tasks r) (released r).
Definition set_period_pointers {T} v (r : fts_state T) : fts_state T :=
  mk_fts_state (tasklist r) v (running_id_b r) (running_id_d r) (running_id_c r)
    (tol_counter_const r) (tol_counter_temp r) (nr_partitions r) (partition_index r)
    (task_specs r) (Task_id r) (mem8 r) (mem_id r) (tasks r) (released r).
Definition set_running_id_b {T} v (r : fts_state T) : fts_state T :=
  mk_fts_state (tasklist r) (period_pointers r) v (running_id_d r) (running_id_c r)
    (tol_counter_const r) (tol_counter_temp r) (nr_partitions r) (partition_index r)
    (task_specs r) (Task_id r) (mem8 r) (mem_id r) (tasks r) (released r).
Definition set_running_id_d {T} v (r : fts_state T) : fts_state T :=
  mk_fts_state (tasklist r) (period_pointers r) (running_id_b r) v (running_id_c r)
    (tol_counter_const r) (tol_counter_temp r) (nr_partitions r) (partition_index r)
    (task_specs r) (Task_id r) (mem8 r) (mem_id r) (tasks r) (released r).
Definition set_running_id_c {T} v (r : fts_state T) : fts_state T :=
  mk_fts_state (tasklist r) (period_pointers r) (running_id_b r) (running_id_d r) v
    (tol_counter_const r) (tol_counter_temp r) (nr_partitions r) (partition_index r)
    (task_specs r) (Task_id r) (mem8 r) (mem_id r) (tasks r) (released r).
Definition set_tol_counter_const {T} v (r : fts_state T) : fts_state T :=
  mk_fts_state (tasklist r) (period_pointers r) (running_id_b r) (running_id_d r)
    (running_id_c r) v (tol_counter_temp r) (nr_partitions r) (partition_index r)
    (task_specs r) (Task_id r) (mem8 r) (mem_id r) (tasks r) (released r).
Definition set_tol_counter_temp {T} v (r : fts_state T) : fts_state T :=
  mk_fts_state (tasklist r) (period_pointers r) (running_id_b r) (running_id_d r)
    (running_id_c r) (tol_counter_const r) v (nr_partitions r) (partition_index r)
    (task_specs r) (Task_id r) (mem8 r) (mem_id r) (tasks r) (released r).
Definition set_nr_partitions {T} v (r : fts_state T) : fts_state T :=
  mk_fts_state (tasklist r) (period_pointers r) (running_id_b r) (running_id_d r)
    (running_id_c r) (tol_counter_const r) (tol_counter_temp r) v (partition_index r)
    (task_specs r) (Task_id r) (mem8 r) (mem_id r) (tasks r) (released r).
Definition set_partition_index {T} v (r : fts_state T) : fts_state T :=
  mk_fts_state (tasklist r) (period_pointers r) (running_id_b r) (running_id_d r)
    (running_id_c r) (tol_counter_const r) (tol_counter_temp r) (nr_partitions r) v
    (task_specs r) (Task_id r) (mem8 r) (mem_id r) (tasks r) (released r).
Definition set_task_specs {T} v (r : fts_state T) : fts_state T :=
  mk_fts_state (tasklist r) (period_pointers r) (running_id_b r) (running_id_d r)
    (running_id_c r) (tol_counter_const r) (tol_counter_temp r) (nr_partitions r)
    (partition_index r) v (Task_id r) (mem8 r) (mem_id r) (tasks r) (released r).
Definition set_Task_id {T} v (r : fts_state T) : fts_state T :=
  mk_fts_state (tasklist r) (period_pointers r) (running_id_b r) (running_id_d r)
    (running_id_c r) (tol_counter_const r) (tol_counter_temp r) (nr_partitions r)
    (partition_index r) (task_specs r) v (mem8 r) (mem_id r) (tasks r) (released r).
Definition set_mem8 {T} v (r : fts_state T) : fts_state T :=
  mk_fts_state (tasklist r) (period_pointers r) (running_id_b r) (running_id_d r)
    (running_id_c r) (tol_counter_const r) (tol_counter_temp r) (nr_partitions r)
    (partition_index r) (task_specs r) (Task_id r) v (mem_id r) (tasks r) (released r).
Definition set_mem_id {T} v (r : fts_state T) : fts_state T :=
  mk_fts_state (tasklist r) (period_pointers r) (running_id_b r) (running_id_d r)
    (running_id_c r) (tol_counter_const r) (tol_counter_temp r) (nr_partitions r)
    (partition_index r) (task_specs r) (Task_id r) (mem8 r) v (tasks r) (released r).
Definition set_tasks {T} v (r : fts_state T) : fts_state T :=
  mk_fts_state (tasklist r) (period_pointers r) (running_id_b r) (running_id_d r)
    (running_id_c r) (tol_counter_const r) (tol_counter_temp r) (nr_partitions r)
    (partition_index r) (task_specs r) (Task_id r) (mem8 r) (mem_id r) v (released r).
Definition set_released {T} v (r : fts_state T) : fts_state T :=
  mk_fts_state (tasklist r) (period_pointers r) (running_id_b r) (running_id_d r)
    (running_id_c r) (tol_counter_const r) (tol_counter_temp r) (nr_partitions r)
    (partition_index r) (task_specs r) (Task_id r) (mem8 r) (mem_id r) (tasks r) v.

(** ** The fields the functions access *)
Section Fields.
Context {T : Type}.
Abbreviation St := (fts_state T).

Definition F_task_list_id : field St (list Z) :=
  mk_field (fun s => task_list_id (tasklist s)) (fun v s => set_tasklist (set_task_list_id v (tasklist s)) s).
Definition F_l_m : field St (list Z) :=
  mk_field (fun s => l_m (tasklist s)) (fun v s => set_tasklist (set_l_m v (tasklist s)) s).
Definition F_l_k : field St (list Z) :=
  mk_field (fun s => l_k (tasklist s)) (fun v s => set_tasklist (set_l_k v (tasklist s)) s).
Definition F_tech : field St (list fts_tech) :=
  mk_field (fun s => tech (tasklist s)) (fun v s => set_tasklist (set_tech v (tasklist s)) s).
Definition F_task_list_index : field St (Z) :=
  mk_field (fun s => task_list_index (tasklist s)) (fun v s => set_tasklist (set_task_list_index v (tasklist s)) s).
Definition F_pattern : field St (list pattern_type) :=
  mk_field (fun s => pattern (tasklist s)) (fun v s => set_tasklist (set_pattern v (tasklist s)) s).
Definition F_pattern_start : field St (list Z) :=
  mk_field (fun s => pattern_start (tasklist s)) (fun v s => set_tasklist (set_pattern_start v (tasklist s)) s).
Definition F_pattern_end : field St (list Z) :=
  mk_field (fun s => pattern_end (tasklist s)) (fun v s => set_tasklist (set_pattern_end v (tasklist s)) s).
Definition F_curr_pos : field St (list Z) :=
  mk_field (fun s => curr_pos (tasklist s)) (fun v s => set_tasklist (set_curr_pos v (tasklist s)) s).
Definition F_bitpos : field St (list Z) :=
  mk_field (fun s => bitpos (tasklist s)) (fun v s => set_tasklist (set_bitpos v (tasklist s)) s).
Definition F_max_bitpos : field St (list Z) :=
  mk_field (fun s => max_bitpos (tasklist s)) (fun v s => set_tasklist (set_max_bitpos v (tasklist s)) s).
Definition F_l_b : field St (list Z) :=
  mk_field (fun s => l_b (tasklist s)) (fun v s => set_tasklist (set_l_b v (tasklist s)) s).
Definition F_l_d : field St (list Z) :=
  mk_field (fun s => l_d (tasklist s)) (fun v s => set_tasklist (set_l_d v (tasklist s)) s).
Definition F_l_c : field St (list Z) :=
  mk_field (fun s => l_c (tasklist s)) (fun v s => set_tasklist (set_l_c v (tasklist s)) s).
Definition F_initial_priority : field St (list Z) :=
  mk_field (fun s => initial_priority (task_specs s))
    (fun v s => set_task_specs (set_initial_priority v (task_specs s)) s).
Definition F_stack_size : field St (list Z) :=
  mk_field (fun s => stack_size (task_specs s))
    (fun v s => set_task_specs (set_stack_size v (task_specs s)) s).
Definition F_initial_modes : field St (list Z) :=
  mk_field (fun s => initial_modes (task_specs s))
    (fun v s => set_task_specs (set_initial_modes v (task_specs s)) s).
Definition F_attribute_set : field St (list Z) :=
  mk_field (fun s => attribute_set (task_specs s))
    (fun v s => set_task_specs (set_attribute_set v (task_specs s)) s).
Definition F_period_pointers : field St (list Z) := mk_field period_pointers set_period_pointers.
Definition F_running_id_b : field St (list Z) := mk_field running_id_b set_running_id_b.
Definition F_running_id_d : field St (list Z) := mk_field running_id_d set_running_id_d.
Definition F_running_id_c : field St (list Z) := mk_field running_id_c set_running_id_c.
Definition F_tol_counter_const : field St (list tol_counter) := mk_field tol_counter_const set_tol_counter_const.
Definition F_tol_counter_temp : field St (list tol_counter) := mk_field tol_counter_temp set_tol_counter_temp.
Definition F_nr_partitions : field St (list Z) := mk_field nr_partitions set_nr_partitions.
Definition F_partition_index : field St (list Z) := mk_field partition_index set_partition_index.
Definition F_Task_id : field St (list Z) := mk_field Task_id set_Task_id.
Definition F_mem8 : field St (gmap Z Z) := mk_field mem8 set_mem8.
Definition F_mem_id : field St (gmap Z Z) := mk_field mem_id set_mem_id.
Definition F_tasks : field St (T) := mk_field tasks set_tasks.
Definition F_released : field St (list (Z * fts_version)) := mk_field released set_released.
End Fields.

(** ** The functions of [fts_t.c] *)
Section Functions.
Context {T : Type} `{TaskManager T}.
Abbreviation St := (fts_state T).
Abbreviation M := (cm (fts_state T)).

(** One entry of the counters of task [i], [c[i].tol_counter_o[j]] or
    [c[i].tol_counter_a[j]]. *)
Definition rd_o (c : field St (list tol_counter)) (i j : Z) : M Z :=
  t ← rd c i; lift (arr_get (tol_counter_o t) j).
Definition rd_a (c : field St (list tol_counter)) (i j : Z) : M Z :=
  t ← rd c i; lift (arr_get (tol_counter_a t) j).
Definition wr_o (c : field St (list tol_counter)) (i j v : Z) : M unit :=
  t ← rd c i;
  o ← lift (arr_set (tol_counter_o t) j v);
  wr c i (mk_tol_counter o (tol_counter_a t)).
Definition wr_a (c : field St (list tol_counter)) (i j v : Z) : M unit :=
  t ← rd c i;
  a ← lift (arr_set (tol_counter_a t) j v);
  wr c i (mk_tol_counter (tol_counter_o t) a).

(** One case of the switch of [release_task]: create the task version [n],
    remember its identifier, start it with the entry point [entry[i]]. *)
Definition release_case (i n : Z) (running entry : field St (list Z)) : M unit :=
  name ← lift (arr_get Task_name n);
  prio ← rd F_initial_priority i;
  stack ← rd F_stack_size i;
  modes ← rd F_initial_modes i;
  attrs ← rd F_attribute_set i;
  r ← gets (fun s => rtems_task_create name prio stack modes attrs (tasks s));
  st F_tasks r.2;;
  match r.1.2 with
  | Some id => wr F_Task_id n id
  | None => mret tt
  end;;
  id ← rd F_Task_id n;
  wr running i id;;
  e ← rd entry i;
  arg ← rd F_period_pointers i;
  r' ← gets (fun s => rtems_task_start id e arg (tasks s));
  st F_tasks r'.2.

Definition release_task (i : Z) (task_version : fts_version) : M unit :=
  modify (fun s => set_released (released s ++ [(i, task_version)]) s);;
  match task_version with
  | BASIC => release_case i 0 F_running_id_b F_l_b
  | DETECTION => release_case i 1 F_running_id_d F_l_d
  | CORRECTION => release_case i 2 F_running_id_c F_l_c
  end.

(** The digits [show_pattern_t] prints for one byte; the loop counter jumps
    past 8 after the last bit of the pattern. *)
Fixpoint show_byte (fuel : nat) (i b_mask c_byte : Z) (last : bool) (maxbit : Z)
    : list bool :=
  match fuel with
  | O => []
  | S fuel' =>
      if i <? 8 then
        negb (Z.land b_mask c_byte =? 0) ::
        show_byte fuel' (u8 ((if last && (i =? maxbit) then 10 else i) + 1))
          (Z.shiftr b_mask 1) c_byte last maxbit
      else []
  end.

(** The text of [show_pattern_t]: one line of digits per byte. *)
Definition show_pattern_t (p_curr p_end maxbit : Z) : M (list (list bool)) :=
  c_for (Z.to_nat (p_end - p_curr + 1)) p_curr
    (fun p lines =>
       c_byte ← ldm F_mem8 p;
       mret (inl (lines ++ [show_byte 9 0 BIT_7 c_byte (p =? p_end) maxbit])))
    [].

(** The two lines of counters [partitions_print] prints. *)
Definition partitions_print (i : Z) : M (list Z * list Z) :=
  n ← rd F_nr_partitions i;
  o ← c_for (Z.to_nat (n + 1)) 0
        (fun m acc => out ← rd_o F_tol_counter_const i m; mret (inl (acc ++ [out]))) [];
  a ← c_for (Z.to_nat (n + 1)) 0
        (fun m acc => out ← rd_a F_tol_counter_const i m; mret (inl (acc ++ [out]))) [];
  mret (o, a).

(** The body of the inner loop of [tol_counter_set]: the bit [j] of the byte
    at [it]. *)
Definition tol_counter_bit (i it end_ maxbit j : Z) (x : Z * Z * Z)
    : M ((Z * Z * Z) + (Z * Z * Z)) :=
  let '(bmask, last_bit, partition) := x in
  if (maxbit <? j) && (it =? end_) then mret (inr x)
  else
    byte ← ldm F_mem8 it;
    if Z.land byte bmask =? 0 then
      let partition := if last_bit =? 1 then u8 (partition + 1) else partition in
      o ← rd_o F_tol_counter_const i partition;
      wr_o F_tol_counter_const i partition (u16 (o + 1));;
      mret (inl (Z.shiftr bmask 1, 0, partition))
    else
      a ← rd_a F_tol_counter_const i partition;
      wr_a F_tol_counter_const i partition (u16 (a + 1));;
      mret (inl (Z.shiftr bmask 1, 1, partition)).

Definition tol_counter_byte (i end_ maxbit it : Z) (x : Z * Z) : M ((Z * Z) + (Z * Z)) :=
  let '(last_bit, partition) := x in
  r ← c_for 8 0 (tol_counter_bit i it end_ maxbit) (BIT_7, last_bit, partition);
  mret (inl (r.1.2, r.2)).

Definition tol_counter_set (i start end_ maxbit : Z) : M unit :=
  r ← c_for (Z.to_nat (end_ - start + 1)) start (tol_counter_byte i end_ maxbit) (0, 0);
  wr F_nr_partitions i r.2;;
  partitions_print i;;
  mret tt.

Definition tolc_update (i : Z) : M unit :=
  n ← rd F_nr_partitions i;
  c_for (Z.to_nat (n + 1)) 0
    (fun j _ =>
       o ← rd_o F_tol_counter_const i j;
       wr_o F_tol_counter_temp i j o;;
       a ← rd_a F_tol_counter_const i j;
       wr_a F_tol_counter_temp i j a;;
       mret (inl tt)) tt;;
  wr F_partition_index i 0.

Definition task_in_list_t (id : Z) : M Z :=
  n ← ld F_task_list_index;
  r ← c_for (Z.to_nat n) 0
        (fun i _ =>
           x ← rd F_task_list_id i;
           mret (if x =? id then inr i else inl (-1))) (-1);
  mret (i16 r).

Definition fault_detection_routine (id : Z) (fs : fault_status) : M unit :=
  r ← task_in_list_t id;
  let i := u16 r in
  match fs with
  | NO_FAULT => mret tt
  | FAULT =>
      te ← rd F_tech i;
      match te with
      | SDR => release_task i CORRECTION
      | DRE | DDR =>
          p ← rd F_partition_index i;
          o ← rd_o F_tol_counter_temp i p;
          if 0 <? o then wr_o F_tol_counter_temp i p (u16 (o - 1))
          else release_task i CORRECTION
      | _ => mret tt
      end
  end.

(** The while loop that inserts the bytes of 0s of an R-pattern. *)
Fixpoint zero_fill (zero_bytes : nat) (pattern_it : Z) : M Z :=
  match zero_bytes with
  | O => mret pattern_it
  | S n =>
      stm F_mem8 pattern_it 0;;
      zero_fill n (if (1 <? zero_bytes)%nat then pattern_it + 1 else pattern_it)
  end.

Definition create_r_pattern (k m start end_ : Z) : M unit :=
  let k_minus_m := i8 (k - m) in
  let zero_bytes := u32 (Z.quot k_minus_m 8 + b2z (negb (Z.rem k_minus_m 8 =? 0))) in
  pattern_it ← zero_fill (Z.to_nat zero_bytes) start;
  let shift_r := u8 (Z.rem k_minus_m 8) in
  let ones_8 := 255 in
  sh ← lift (int_shr ones_8 shift_r);
  b ← ldm F_mem8 pattern_it;
  stm F_mem8 pattern_it (Z.lor b (u8 sh));;
  let pattern_it := pattern_it + 1 in
  c_for (Z.to_nat (end_ - pattern_it + 1)) pattern_it
    (fun p _ => stm F_mem8 p ones_8;; mret (inl tt)) tt.

(** The [int] expression [raman] of the E-pattern. *)
Definition raman (j k m : Z) : outcome Z :=
  d ← int_val (k - m);
  jd ← int_val (j * d);
  q ← int_div jd k;
  r ← int_rem jd k;
  c ← int_val (q + b2z (negb (r =? 0)));
  ck ← int_val (c * k);
  int_div ck d.

Definition create_e_bit (k m : Z) (it_bits : Z) (x : Z * Z * Z)
    : M ((Z * Z * Z) + (Z * Z * Z)) :=
  let '(set_byte, bitmask, j) := x in
  r ← lift (raman j k m);
  let set_byte := if negb (j =? r) then Z.lor set_byte bitmask else set_byte in
  mret (inl (set_byte, Z.shiftr bitmask 1, j + 1)).

Definition create_e_byte (k m : Z) (pattern_it : Z) (x : Z * Z) : M ((Z * Z) + (Z * Z)) :=
  let '(set_byte, j) := x in
  r ← c_for 8 0 (create_e_bit k m) (set_byte, BIT_7, j);
  stm F_mem8 pattern_it r.1.1;;
  mret (inl (r.1.1, r.2)).

Definition create_e_pattern (k m start end_ : Z) : M unit :=
  c_for (Z.to_nat (end_ - start + 1)) start (create_e_byte k m) (0, 0);;
  mret tt.

Definition create_pattern_t (i : Z) (p : pattern_type) : M Z :=
  m ← rd F_l_m i;
  k ← rd F_l_k i;
  start ← rd F_pattern_start i;
  end_ ← rd F_pattern_end i;
  match p with
  | R_PATTERN => create_r_pattern k m start end_
  | E_PATTERN => create_e_pattern k m start end_
  end;;
  maxbit ← rd F_max_bitpos i;
  show_pattern_t start end_ maxbit;;
  mret 1.

Definition static_next_version_t (i : Z) : M fts_version :=
  start ← rd F_pattern_start i;
  end_ ← rd F_pattern_end i;
  maxbit ← rd F_max_bitpos i;
  show_pattern_t start end_ maxbit;;
  bit ← rd F_bitpos i;
  pos ← rd F_curr_pos i;
  c_byte ← ldm F_mem8 pos;
  sh ← lift (int_shr BIT_7 bit);
  let bit_mask_one := u8 sh in
  let result_bit := Z.land c_byte bit_mask_one in
  (if end_ =? pos then
     if bit <? maxbit then wr F_bitpos i (u8 (bit + 1))
     else wr F_bitpos i 0;; wr F_curr_pos i start
   else
     if bit <? 7 then wr F_bitpos i (u8 (bit + 1))
     else wr F_bitpos i 0;; wr F_curr_pos i (pos + 1));;
  te ← rd F_tech i;
  let v :=
    match te with
    | SRE => if result_bit =? 0 then BASIC else CORRECTION
    | _ => if result_bit =? 0 then BASIC else DETECTION
    end in
  release_task i v;;
  mret v.

Definition dynamic_next_version_t (i : Z) : M fts_version :=
  start ← rd F_pattern_start i;
  end_ ← rd F_pattern_end i;
  maxbit ← rd F_max_bitpos i;
  show_pattern_t start end_ maxbit;;
  te ← rd F_tech i;
  p ← rd F_partition_index i;
  o ← rd_o F_tol_counter_temp i p;
  if 0 <? o then
    release_task i DETECTION;; mret DETECTION
  else
    match te with
    | DRE =>
        release_task i CORRECTION;;
        a ← rd_a F_tol_counter_temp i p;
        wr_a F_tol_counter_temp i p (u16 (a - 1));;
        mret CORRECTION
    | _ =>
        release_task i DETECTION;;
        a ← rd_a F_tol_counter_temp i p;
        wr_a F_tol_counter_temp i p (u16 (a - 1));;
        mret DETECTION
    end.

(** The part of [fts_rtems_task_register_t] behind its guard. *)
Definition register_entry (i idp id m k : Z) (te : fts_tech) (ps : pattern_specs)
    (v : task_versions) (sp : task_user_specs) : M Z :=
  wr F_task_list_id i id;;
  wr F_l_m i (u8 m);;
  wr F_l_k i (u8 k);;
  wr F_tech i te;;
  wr F_pattern i (ps_pattern ps);;
  wr F_pattern_start i (ps_start ps);;
  wr F_pattern_end i (ps_end ps);;
  wr F_curr_pos i (ps_start ps);;
  wr F_max_bitpos i (ps_max_bitpos ps);;
  wr F_bitpos i 0;;
  p ← rd F_pattern i;
  create_pattern_t i p;;
  te' ← rd F_tech i;
  (match te' with
   | DRE | DDR =>
       tol_counter_set i (ps_start ps) (ps_end ps) (ps_max_bitpos ps);;
       tolc_update i
   | _ => mret tt
   end);;
  wr F_l_b i (v_b v);;
  wr F_l_d i (v_d v);;
  wr F_l_c i (v_c v);;
  wr F_initial_priority i (u_initial_priority sp);;
  wr F_stack_size i (u_stack_size sp);;
  wr F_initial_modes i (u_initial_modes sp);;
  wr F_attribute_set i (u_attribute_set sp);;
  wr F_period_pointers i idp;;
  n ← ld F_task_list_index;
  st F_task_list_index (u16 (n + 1));;
  mret 1.

Definition fts_rtems_task_register_t (idp m k : Z) (te : fts_tech) (ps : pattern_specs)
    (v : task_versions) (sp : task_user_specs) : M Z :=
  i ← ld F_task_list_index;
  if i <? P_TASKS then
    id ← ldm F_mem_id idp;
    r ← task_in_list_t id;
    if (r =? -1) && (m <=? k) then register_entry i idp id m k te ps v sp
    else mret 0
  else mret 0.

Definition fts_compensate_t (id : Z) : M fts_version :=
  i ← task_in_list_t id;
  if i =? -1 then mret CORRECTION
  else
    te ← rd F_tech i;
    match te with
    | NONE => mret BASIC
    | SRE => static_next_version_t i
    | SDR => static_next_version_t i
    | DRE => dynamic_next_version_t i
    | DDR => dynamic_next_version_t i
    end.

(** One element moves down: [a[i] = a[i+1]]. *)
Definition shift_down {A} (f : field St (list A)) (i : Z) : M unit :=
  x ← rd f (i + 1); wr f i x.

Definition fts_off_t (id : Z) : M Z :=
  list_index ← task_in_list_t id;
  if list_index =? -1 then mret (u8 (-1))
  else
    n ← ld F_task_list_index;
    c_for (Z.to_nat n) 0
      (fun i _ =>
         shift_down F_task_list_id i;;
         shift_down F_l_m i;;
         shift_down F_l_k i;;
         shift_down F_tech i;;
         shift_down F_pattern_start i;;
         shift_down F_pattern_end i;;
         shift_down F_curr_pos i;;
         shift_down F_bitpos i;;
         shift_down F_max_bitpos i;;
         mret (inl tt)) tt;;
    st F_task_list_index (u16 (n - 1));;
    mret 1.

Definition fts_change_tech_t (id : Z) (te : fts_tech) : M Z :=
  list_index ← task_in_list_t id;
  if list_index =? -1 then mret 0
  else wr F_tech list_index te;; mret 1.

(** The lines of [rtems_rate_monotonic_period] that drive the scheduler: the
    versions released in the last period are deleted, and the counters of
    dynamic compensation move on to the next partition, or are replenished
    after the last. *)
Definition delete_version (running : field St (list Z)) (i : Z) : M unit :=
  id ← rd running i;
  if negb (id =? 0) then
    r ← gets (fun s => rtems_task_delete id (tasks s));
    st F_tasks r.2;;
    wr running i 0
  else mret tt.

Definition fts_period_replenish (i : Z) : M unit :=
  p ← rd F_partition_index i;
  a ← rd_a F_tol_counter_temp i p;
  if a =? 0 then
    n ← rd F_nr_partitions i;
    last ← (if n =? p then a' ← rd_a F_tol_counter_temp i n; mret (a' =? 0)
            else mret false);
    if (last : bool) then tolc_update i
    else wr F_partition_index i (u16 (p + 1))
  else mret tt.

Definition fts_period_begin (id : Z) : M unit :=
  i ← task_in_list_t id;
  if i =? -1 then mret tt
  else
    delete_version F_running_id_b i;;
    delete_version F_running_id_d i;;
    delete_version F_running_id_c i;;
    te ← rd F_tech i;
    match te with
    | DRE | DDR => fts_period_replenish i
    | _ => mret tt
    end.

End Functions.
