(* ===== verification/FtsLemmas.v ===== *)
(** * The scheduler's state: well-formedness and frames

    The shape invariant of the global variables, what [release_task],
    [task_in_list_t] and the deletions at the start of a period leave alone,
    and the bits of a pattern in memory. *)

From stdpp Require Import base tactics numbers option list list_numbers gmap fin_maps.
From Stdlib Require Import ZArith Lia.
From S2P Require Import Prelude Status Pattern Fts.

Open Scope Z_scope.

(** ** The shape of the state *)
Definition counters_wf (c : tol_counter) : Prop :=
  length (tol_counter_o c) = 16%nat /\ length (tol_counter_a c) = 16%nat.

Record list_wf (l : Task_ID_List) : Prop := {
  wf_id : length (task_list_id l) = 10%nat;
  wf_m : length (l_m l) = 10%nat;
  wf_k : length (l_k l) = 10%nat;
  wf_tech : length (tech l) = 10%nat;
  wf_index : 0 <= task_list_index l <= 10;
  wf_pattern : length (pattern l) = 10%nat;
  wf_start : length (pattern_start l) = 10%nat;
  wf_end : length (pattern_end l) = 10%nat;
  wf_curr : length (curr_pos l) = 10%nat;
  wf_bitpos : length (bitpos l) = 10%nat;
  wf_maxbit : length (max_bitpos l) = 10%nat;
  wf_b : length (l_b l) = 10%nat;
  wf_d : length (l_d l) = 10%nat;
  wf_c : length (l_c l) = 10%nat
}.

Record fts_wf {T} (s : fts_state T) : Prop := {
  wf_list : list_wf (tasklist s);
  wf_pointers : length (period_pointers s) = 10%nat;
  wf_rb : length (running_id_b s) = 10%nat;
  wf_rd : length (running_id_d s) = 10%nat;
  wf_rc : length (running_id_c s) = 10%nat;
  wf_const : length (tol_counter_const s) = 10%nat;
  wf_const_c : Forall counters_wf (tol_counter_const s);
  wf_temp : length (tol_counter_temp s) = 10%nat;
  wf_temp_c : Forall counters_wf (tol_counter_temp s);
  wf_nr : length (nr_partitions s) = 10%nat;
  wf_pi : length (partition_index s) = 10%nat;
  wf_prio : length (initial_priority (task_specs s)) = 10%nat;
  wf_stack : length (stack_size (task_specs s)) = 10%nat;
  wf_modes : length (initial_modes (task_specs s)) = 10%nat;
  wf_attr : length (attribute_set (task_specs s)) = 10%nat;
  wf_task_id : length (Task_id s) = 3%nat
}.

(** Everything the decisions of the scheduler depend on: all but the task
    manager, the identifiers of the released tasks and the history. *)
Definition core {T} (s : fts_state T) :=
  (tasklist s, period_pointers s, tol_counter_const s, tol_counter_temp s,
   nr_partitions s, partition_index s, task_specs s, mem8 s, mem_id s).

Ltac destruct_wf H :=
  let Hl := fresh "Hl" in
  destruct H as [Hl ? ? ? ? ? ? ? ? ? ? ? ? ? ? ?]; destruct Hl.

(** Side conditions of array accesses. *)
Ltac arr_side := cbn; rewrite ?length_insert; lia.

Lemma fts_initial_wf {T} (t : T) m8 mid : fts_wf (fts_initial t m8 mid).
Proof.
  repeat split; try done; by repeat constructor.
Qed.

Lemma rd_get {St A} (f : field St (list A)) i s :
  0 <= i < Z.of_nat (length (fget f s)) ->
  exists x, fget f s !! Z.to_nat i = Some x /\ rd f i s = Ok (x, s).
Proof.
  intros Hi. destruct (arr_get_total _ _ Hi) as (x & Hx & Hg).
  exists x. split; [done|]. by apply getsM_ok.
Qed.

(** Opens one array read whose index is in range. *)
Ltac rd_open x Hx :=
  match goal with
  | |- context [(rd ?f ?i ≫= _) ?s] =>
      destruct (rd_get f i s) as (x & Hx & ?); [arr_side|];
      rewrite (rd_bind f i x) by (lia || exact Hx)
  end.

Section Frames.
Context {T : Type} `{TaskManager T}.
Implicit Types s : fts_state T.

(** The three cases of the switch of [release_task]. *)
Inductive version_case : Z -> field (fts_state T) (list Z) ->
    field (fts_state T) (list Z) -> Prop :=
| case_basic : version_case 0 F_running_id_b F_l_b
| case_detection : version_case 1 F_running_id_d F_l_d
| case_correction : version_case 2 F_running_id_c F_l_c.

Lemma release_case_ok i n running entry s :
  fts_wf s -> 0 <= i < 10 -> version_case n running entry ->
  exists s', release_case i n running entry s = Ok (tt, s') /\ fts_wf s' /\
    core s' = core s /\ released s' = released s.
Proof.
  intros Hwf Hi Hin. destruct_wf Hwf.
  assert (exists nm, arr_get Task_name n = Ok nm) as [nm Hnm]
    by (destruct Hin; by eexists).
  unfold release_case. rewrite (lift_bind _ _ _ _ Hnm).
  rd_open prio Hp. rd_open stk Hs. rd_open mo Hm. rd_open at_ Ha.
  rewrite gets_bind, st_bind.
  destruct (rtems_task_create nm prio stk mo at_ (tasks s)) as [[sc oid] t']. cbn [fst snd].
  set (s1 := fset F_tasks t' s).
  assert (exists s2, (match oid with Some id => wr F_Task_id n id | None => mret tt end) s1
    = Ok (tt, s2) /\ length (Task_id s2) = 3%nat /\
    exists ids, s2 = set_Task_id ids s1) as (s2 & Hw & Hlen & ids & ->).
  { destruct oid as [id|].
    - eexists. split; [|split].
      + rewrite <- bind_tt_r. rewrite wr_bind by (destruct Hin; arr_side). done.
      + cbn. by rewrite length_insert.
      + by eexists.
    - exists s1. split; [done|]. split; [done|]. exists (Task_id s). by destruct s. }
  rewrite (cm_bind_ok _ _ _ _ _ Hw).
  cbn in Hlen.
  destruct Hin; rd_open idr Hid; rewrite wr_bind by arr_side;
    rd_open e He; rd_open arg Harg; rewrite gets_bind;
    (eexists; split; [reflexivity|]; split; [|done]).
  all: split; [split|..]; cbn; rewrite ?length_insert; done.
Qed.

Lemma release_task_ok i v s :
  fts_wf s -> 0 <= i < 10 ->
  exists s', release_task i v s = Ok (tt, s') /\ fts_wf s' /\ core s' = core s /\
    released s' = released s ++ [(i, v)].
Proof.
  intros Hwf Hi. unfold release_task. rewrite modify_bind.
  set (s1 := set_released _ s).
  assert (fts_wf s1) as Hwf1 by (destruct Hwf; by split).
  destruct v;
    [destruct (release_case_ok i 0 F_running_id_b F_l_b s1)
       as (s' & Hr & ? & Hc & Hl); [done|done|constructor|]
    |destruct (release_case_ok i 1 F_running_id_d F_l_d s1)
       as (s' & Hr & ? & Hc & Hl); [done|done|constructor|]
    |destruct (release_case_ok i 2 F_running_id_c F_l_c s1)
       as (s' & Hr & ? & Hc & Hl); [done|done|constructor|]];
    exists s'; rewrite Hr, Hc, Hl; done.
Qed.

Lemma delete_version_ok running entry n i s :
  fts_wf s -> 0 <= i < 10 -> version_case n running entry ->
  exists s', delete_version running i s = Ok (tt, s') /\ fts_wf s' /\
    core s' = core s /\ released s' = released s.
Proof.
  intros Hwf Hi Hc. pose proof Hwf as Hwf'. destruct_wf Hwf. unfold delete_version.
  destruct Hc; rd_open vid Hid; (destruct (Z.eqb_spec vid 0); cbn [negb];
    [by exists s|]); rewrite gets_bind, st_bind;
    (eexists; split; [rewrite <- bind_tt_r, wr_bind by arr_side; reflexivity|]);
    (split; [|done]); (split; [split|..]); cbn; rewrite ?length_insert; done.
Qed.

(** ** The search for an identifier *)

(** The registered identifiers, in the order of registration. *)
Definition ids (s : fts_state T) : list Z :=
  take (Z.to_nat (task_list_index (tasklist s))) (task_list_id (tasklist s)).

Definition index_of (id : Z) (l : list Z) : Z :=
  match list_find (fun x => x = id) l with Some (i, _) => Z.of_nat i | None => -1 end.

Lemma search_loop {St} (f : field St (list Z)) id n i (s : St) :
  0 <= i -> i + Z.of_nat n <= Z.of_nat (length (fget f s)) ->
  c_for n i (fun i _ => x ← rd f i; mret (if x =? id then inr i else inl (-1))) (-1) s
  = Ok (match list_find (fun x => x = id) (take n (drop (Z.to_nat i) (fget f s))) with
        | Some (j, _) => i + Z.of_nat j
        | None => -1
        end, s).
Proof.
  revert i. induction n as [|n IH]; intros i Hi Hn; [done|].
  rewrite c_for_S. destruct (rd_get f i s) as (x & Hx & Hr); [lia|].
  rewrite cm_bind_assoc, (cm_bind_ok _ _ _ _ _ Hr), ret_bind.
  rewrite (drop_S _ x) by done. cbn [take list_find].
  destruct (Z.eqb_spec x id) as [->|Hne].
  - rewrite decide_True by done. cbn. by rewrite Z.add_0_r.
  - rewrite decide_False by done. cbn beta iota. rewrite IH by lia.
    replace (Z.to_nat (i + 1)) with (S (Z.to_nat i)) by lia.
    destruct (list_find _ _) as [[j y]|]; cbn [fmap option_fmap option_map prod_map fst snd];
      [|done]. do 2 f_equal. lia.
Qed.

Lemma index_of_range id l : -1 <= index_of id l < Z.of_nat (length l) \/ index_of id l = -1.
Proof.
  unfold index_of. destruct (list_find _ l) as [[i x]|] eqn:E; [|by right].
  apply list_find_Some in E as (E & _ & _). apply lookup_lt_Some in E. left. lia.
Qed.

Lemma task_in_list_t_ok id s :
  fts_wf s -> task_in_list_t id s = Ok (index_of id (ids s), s).
Proof.
  intros Hwf. destruct_wf Hwf. unfold task_in_list_t. rewrite ld_bind.
  pose proof (search_loop F_task_list_id id (Z.to_nat (task_list_index (tasklist s))) 0 s)
    as Hloop.
  cbn [fget F_task_list_id F_task_list_index] in *. specialize (Hloop ltac:(lia) ltac:(lia)).
  rewrite (cm_bind_ok _ _ _ _ _ Hloop), cm_ret_run.
  change (Z.to_nat 0) with 0%nat. rewrite drop_0. fold (ids s). cbn [Z.add].
  fold (index_of id (ids s)). do 2 f_equal. apply i16_id.
  assert (length (ids s) <= 10)%nat by (unfold ids; rewrite length_take; lia).
  destruct (index_of_range id (ids s)); lia.
Qed.

Lemma index_of_registered id l i :
  NoDup l -> l !! i = Some id -> index_of id l = Z.of_nat i.
Proof.
  intros Hnd Hi. unfold index_of.
  destruct (list_find (fun x => x = id) l) as [[j x]|] eqn:E.
  - apply list_find_Some in E as (E & -> & _). f_equal.
    by eapply NoDup_lookup.
  - apply list_find_None in E. rewrite Forall_lookup in E. by apply E in Hi.
Qed.

Lemma index_of_not_registered id l : id ∉ l <-> index_of id l = -1.
Proof.
  unfold index_of. destruct (list_find _ l) as [[j x]|] eqn:E.
  - apply list_find_Some in E as (E & -> & _). split; [|lia].
    intros Hn. by apply list_elem_of_lookup_2 in E.
  - apply list_find_None in E. split; [done|]. intros _ Hin.
    rewrite Forall_forall in E. by apply (E id).
Qed.

End Frames.

(** ** The bits of a pattern in memory *)
Lemma land_pow2 b n : 0 <= n -> Z.land b (2 ^ n) = if Z.testbit b n then 2 ^ n else 0.
Proof.
  intros Hn. apply Z.bits_inj'. intros q Hq. rewrite Z.land_spec, Z.pow2_bits_eqb by lia.
  destruct (Z.eqb_spec n q) as [->|Hne].
  - destruct (Z.testbit b q) eqn:E; [|by rewrite Z.bits_0].
    by rewrite Z.pow2_bits_eqb, Z.eqb_refl.
  - rewrite andb_false_r. destruct (Z.testbit b n); [|by rewrite Z.bits_0].
    rewrite Z.pow2_bits_eqb by lia. by apply Z.eqb_neq in Hne as ->.
Qed.

(** The mask [BIT_7 >> j] selects the bit [7 - j]. *)
Lemma mask_u8 j : 0 <= j < 8 -> u8 (Z.shiftr BIT_7 j) = Z.shiftr BIT_7 j.
Proof.
  intros Hj. apply u8_id. change BIT_7 with 128. rewrite Z.shiftr_div_pow2 by lia.
  pose proof (Z.div_le_upper_bound 128 (2 ^ j) 128 ltac:(lia) ltac:(nia)).
  pose proof (Z.div_pos 128 (2 ^ j) ltac:(lia) ltac:(lia)). lia.
Qed.

Lemma mask_bit b j :
  0 <= j < 8 -> (Z.land b (Z.shiftr BIT_7 j) =? 0) = negb (Z.testbit b (7 - j)).
Proof.
  intros Hj. assert (Z.shiftr BIT_7 j = 2 ^ (7 - j)) as ->.
  { change BIT_7 with (2 ^ 7). rewrite Z.shiftr_div_pow2 by lia.
    replace 7 with ((7 - j) + j) at 1 by lia. rewrite Z.pow_add_r by lia.
    apply Z.div_mul. lia. }
  rewrite land_pow2 by lia. destruct (Z.testbit b (7 - j)); cbn [negb]; [|done].
  apply Z.eqb_neq. lia.
Qed.

(** The bit at place [n] of the pattern that starts at [start]. *)
Definition bit_at (m : gmap Z Z) (start n : Z) : bool :=
  Z.testbit (default 0 (m !! (start + n / 8))) (7 - n mod 8).

Definition pattern_len (start end_ maxbit : Z) : Z := 8 * (end_ - start) + maxbit + 1.

Definition pattern_bits (m : gmap Z Z) (start end_ maxbit : Z) : list bool :=
  bit_at m start <$> seqZ 0 (pattern_len start end_ maxbit).

(** The bytes of the pattern are objects of the program. *)
Definition mapped (m : gmap Z Z) (start end_ : Z) : Prop :=
  forall a, start <= a <= end_ -> is_Some (m !! a).

Lemma pattern_bits_length m start end_ maxbit :
  length (pattern_bits m start end_ maxbit) = Z.to_nat (pattern_len start end_ maxbit).
Proof. unfold pattern_bits. by rewrite length_fmap, length_seqZ. Qed.

Lemma bit_at_byte m start t j c :
  0 <= j < 8 -> m !! (start + t) = Some c ->
  bit_at m start (8 * t + j) = Z.testbit c (7 - j).
Proof.
  intros Hj Hc. unfold bit_at.
  replace ((8 * t + j) / 8) with t by (apply (Z.div_unique _ _ _ j); lia).
  replace ((8 * t + j) mod 8) with j by (apply (Z.mod_unique _ _ t); lia).
  by rewrite Hc.
Qed.

Lemma pattern_bits_lookup m start end_ maxbit n :
  (n < Z.to_nat (pattern_len start end_ maxbit))%nat ->
  pattern_bits m start end_ maxbit !! n = Some (bit_at m start (Z.of_nat n)).
Proof.
  intros Hn. unfold pattern_bits. rewrite list_lookup_fmap, lookup_seqZ_lt by lia.
  cbn. by rewrite Z.add_0_l.
Qed.
