(* ===== verification/FtsPattern.v ===== *)
(** * Creation of (m,k)-patterns

    [create_pattern_t] and [show_pattern_t]: which bits the code writes for
    an R-pattern and for an E-pattern, that every pattern it writes has at
    least [m] ones in [k] places, and that the console shows the pattern. *)

From stdpp Require Import base tactics numbers option list list_numbers gmap fin_maps.
From Stdlib Require Import ZArith Lia.
From S2P Require Import Prelude Status Pattern Fts FtsLemmas.

Open Scope Z_scope.

Section Show.
Context {T : Type}.
Implicit Types s : fts_state T.

(** ** What the console shows *)
Lemma show_byte_spec fuel i c last maxbit :
  0 <= maxbit <= 7 -> 0 <= i <= 8 -> 9 <= Z.of_nat fuel + i ->
  (last = true -> i <= maxbit) ->
  show_byte fuel i (Z.shiftr BIT_7 i) c last maxbit =
    (fun j => Z.testbit c (7 - j)) <$> seqZ i ((if last then maxbit + 1 else 8) - i).
Proof.
  intros Hmax. revert i. induction fuel as [|fuel IH]; intros i Hi Hf Hl; [lia|].
  cbn [show_byte]. destruct (Z.ltb_spec i 8).
  - rewrite seqZ_cons by (destruct last; lia). rewrite fmap_cons. f_equal.
    { rewrite Z.land_comm, mask_bit, negb_involutive by lia. done. }
    rewrite Z.shiftr_shiftr by lia.
    destruct last; cbn [andb]; [destruct (Z.eqb_spec i maxbit)|].
    + rewrite u8_id by lia. subst. destruct fuel; [lia|]. cbn [show_byte].
      rewrite seqZ_nil by lia. done.
    + rewrite u8_id by lia. rewrite IH by lia.
      by replace (Z.pred (maxbit + 1 - i)) with (maxbit + 1 - (i + 1)) by lia.
    + rewrite u8_id by lia. rewrite IH by (done || lia).
      by replace (Z.pred (8 - i)) with (8 - (i + 1)) by lia.
  - assert (i = 8) as -> by lia. rewrite seqZ_nil; [done|]. destruct last; [|lia].
    specialize (Hl eq_refl). lia.
Qed.

(** The digits of the bytes before [p]. *)
Definition shown (m : gmap Z Z) (start end_ maxbit p : Z) : list bool :=
  bit_at m start <$> seqZ 0 (if p <=? end_ then 8 * (p - start)
                             else pattern_len start end_ maxbit).

Lemma shown_step m start end_ maxbit p c :
  0 <= maxbit <= 7 -> start <= p <= end_ -> m !! p = Some c ->
  shown m start end_ maxbit (p + 1) =
    shown m start end_ maxbit p ++
    show_byte 9 0 BIT_7 c (p =? end_) maxbit.
Proof.
  intros Hmax Hp Hc. unfold shown, pattern_len.
  rewrite (proj2 (Z.leb_le p end_)) by lia.
  change BIT_7 with (Z.shiftr BIT_7 0) at 1. rewrite show_byte_spec by lia.
  set (n := (if p =? end_ then maxbit + 1 else 8) - 0).
  assert (0 <= n <= 8) by (unfold n; case_match; lia).
  assert ((if p + 1 <=? end_ then 8 * (p + 1 - start)
           else 8 * (end_ - start) + maxbit + 1) = 8 * (p - start) + n) as ->.
  { unfold n. destruct (Z.eqb_spec p end_), (Z.leb_spec (p + 1) end_); lia. }
  rewrite seqZ_app by lia. rewrite fmap_app. f_equal.
  apply list_eq. intros k. rewrite !list_lookup_fmap.
  destruct (decide (Z.of_nat k < n)) as [Hk|Hk].
  - rewrite !lookup_seqZ_lt by lia. cbn [fmap option_fmap option_map]. f_equal.
    rewrite Z.add_0_l, (bit_at_byte _ _ _ _ c); [f_equal; lia|lia|].
    by replace (start + (p - start)) with p by lia.
  - rewrite !lookup_seqZ_ge by lia. done.
Qed.

Lemma show_pattern_t_run start end_ maxbit s :
  start <= end_ -> 0 <= maxbit <= 7 -> mapped (mem8 s) start end_ ->
  exists lines, show_pattern_t start end_ maxbit s = Ok (lines, s) /\
    mjoin lines = pattern_bits (mem8 s) start end_ maxbit.
Proof.
  intros Hse Hmax Hm. unfold show_pattern_t.
  destruct (c_for_inv
    (fun p (lines : list (list bool)) s' =>
       s' = s /\ mjoin lines = shown (mem8 s) start end_ maxbit p)
    (Z.to_nat (end_ - start + 1)) start
    (fun p lines => c_byte ← ldm F_mem8 p;
       mret (inl (lines ++ [show_byte 9 0 BIT_7 c_byte (p =? end_) maxbit]))) [] s)
    as (lines & s' & Hr & -> & Hl).
  - split; [done|]. unfold shown. rewrite (proj2 (Z.leb_le _ _)) by lia.
    by rewrite Z.sub_diag, Z.mul_0_r.
  - intros p lines s' Hp [-> Hl]. destruct (Hm p) as [c Hc]; [lia|].
    eexists _, _. split.
    { rewrite (ldm_bind _ _ c) by done. reflexivity. }
    split; [done|]. rewrite join_app, Hl, (shown_step _ _ _ _ _ c) by (done || lia).
    cbn. by rewrite app_nil_r.
  - exists lines. split; [done|]. rewrite Hl. unfold shown, pattern_bits.
    destruct (Z.leb_spec (start + Z.of_nat (Z.to_nat (end_ - start + 1))) end_); [lia|done].
Qed.

End Show.

(** ** R-patterns *)
Section RPattern.
Context {T : Type}.
Implicit Types s : fts_state T.

(** The memory after a store of [v] to every byte of [[lo, hi)]. *)
Definition filled (m m' : gmap Z Z) (lo hi v : Z) : Prop :=
  forall a, m' !! a = if decide (lo <= a < hi) then Some v else m !! a.

Lemma mapped_insert m start end_ a v :
  mapped m start end_ -> mapped (<[a := v]> m) start end_.
Proof.
  intros Hm b Hb. rewrite lookup_insert. case_decide; [by eexists|by apply Hm].
Qed.

Lemma mapped_filled m m' lo hi v start end_ :
  filled m m' lo hi v -> mapped m start end_ -> mapped m' start end_.
Proof.
  intros Hf Hm a Ha. rewrite Hf. case_decide; [by eexists|by apply Hm].
Qed.

Lemma zero_fill_run n start s :
  mapped (mem8 s) start (start + Z.of_nat n - 1) ->
  exists m', zero_fill n start s = Ok (start + Z.of_nat (pred n), set_mem8 m' s) /\
    filled (mem8 s) m' start (start + Z.of_nat n) 0.
Proof.
  revert start s. induction n as [|n IH]; intros start s Hm.
  { exists (mem8 s). split; [destruct s; cbn; by rewrite Z.add_0_r|].
    intros a. rewrite decide_False by lia. done. }
  cbn [zero_fill]. rewrite stm_bind by (apply Hm; lia).
  destruct n as [|n].
  { eexists. split; [cbn; by rewrite Z.add_0_r|]. intros a. cbn. rewrite lookup_insert.
    destruct (decide (start = a)), (decide (start <= a < start + Z.of_nat 1)); done || lia. }
  change (1 <? S (S n))%nat with true. cbn iota.
  destruct (IH (start + 1) (fset F_mem8 (<[start := 0]> (fget F_mem8 s)) s))
    as (m' & Hr & Hf).
  { intros a Ha. cbn. apply mapped_insert with (start := start + 1)
      (end_ := start + Z.of_nat (S (S n)) - 1); [|lia].
    intros b Hb. apply Hm. lia. }
  exists m'. rewrite Hr. split; [cbn; do 2 f_equal; lia|].
  intros a. rewrite Hf. cbn. rewrite lookup_insert.
  destruct (decide (start + 1 <= a < start + 1 + Z.of_nat (S n)));
    destruct (decide (start = a)); destruct (decide (start <= a < start + Z.of_nat (S (S n))));
    done || lia.
Qed.

Lemma ones_fill_run n start s :
  mapped (mem8 s) start (start + Z.of_nat n - 1) ->
  exists m', c_for n start (fun p _ => stm F_mem8 p 255;; mret (inl tt)) tt s
      = Ok (tt, set_mem8 m' s) /\
    filled (mem8 s) m' start (start + Z.of_nat n) 255.
Proof.
  intros Hm.
  destruct (c_for_inv (fun p (_ : unit) s' => exists m', s' = set_mem8 m' s /\
      filled (mem8 s) m' start p 255)
    n start (fun p _ => stm F_mem8 p 255;; mret (inl tt)) tt s)
    as ([] & s' & Hr & m' & -> & Hf).
  - exists (mem8 s). split; [by destruct s|]. intros a. by rewrite decide_False by lia.
  - intros p [] s' Hp (m' & -> & Hf). exists tt. eexists. split.
    { rewrite stm_bind; [reflexivity|]. cbn.
      apply (mapped_filled _ _ _ _ _ start (start + Z.of_nat n - 1) Hf Hm). lia. }
    eexists. split; [reflexivity|]. intros a. cbn. rewrite lookup_insert, Hf.
    destruct (decide (p = a)); destruct (decide (start <= a < p));
      destruct (decide (start <= a < p + 1)); done || lia.
  - exists m'. split; [done|exact Hf].
Qed.

(** The number of 0s [create_pattern_t] puts before the 1s: the last byte of
    0s is lost when their number is a multiple of 8. *)
Definition r_zeros (d : Z) : Z := if d mod 8 =? 0 then Z.max 0 (d - 8) else d.

Lemma r_zeros_bounds d : 0 <= d -> 0 <= r_zeros d <= d.
Proof. intros Hd. unfold r_zeros. destruct (d mod 8 =? 0); lia. Qed.

Lemma testbit_255 n : 0 <= n -> Z.testbit 255 n = (n <? 8).
Proof.
  intros Hn. change 255 with (Z.ones 8). destruct (Z.ltb_spec n 8).
  - apply Z.ones_spec_low. lia.
  - apply Z.ones_spec_high. lia.
Qed.

(** The bits of one byte of the R-pattern. *)
Lemma r_byte_bit b r j :
  0 <= r < 8 -> 0 <= j < 8 -> (r = 0 \/ b = 0) ->
  Z.testbit (Z.lor b (u8 (Z.shiftr 255 r))) (7 - j) = (r <=? j).
Proof.
  intros Hr Hj Hb. rewrite Z.lor_spec. unfold u8.
  rewrite Z.mod_pow2_bits_low, Z.shiftr_spec, testbit_255 by lia.
  assert ((7 - j + r <? 8) = (r <=? j)) as ->.
  { destruct (Z.ltb_spec (7 - j + r) 8), (Z.leb_spec r j); done || lia. }
  destruct Hb as [Hr0 | ->]; [|by rewrite Z.bits_0].
  rewrite (proj2 (Z.leb_le r j)) by lia. apply orb_true_r.
Qed.

Lemma create_r_pattern_run k m start end_ s :
  0 <= m <= k -> k - m <= 127 -> start <= end_ -> k - m <= 8 * (end_ - start + 1) ->
  mapped (mem8 s) start end_ ->
  exists m', create_r_pattern k m start end_ s = Ok (tt, set_mem8 m' s) /\
    mapped m' start end_ /\
    (forall a, ~ (start <= a <= end_) -> m' !! a = mem8 s !! a) /\
    (forall n, 0 <= n < 8 * (end_ - start + 1) ->
       bit_at m' start n = (r_zeros (k - m) <=? n)).
Proof.
  intros Hmk Hd Hse Hfit Hm. set (d := k - m) in *. unfold create_r_pattern.
  fold d. rewrite (i8_id d) by lia.
  rewrite Z.quot_div_nonneg, Z.rem_mod_nonneg by lia.
  pose proof (Z.div_mod d 8 ltac:(lia)) as Hdm. pose proof (Z.mod_pos_bound d 8 ltac:(lia)).
  set (q := d / 8) in *. set (r := d mod 8) in *.
  set (zb := q + b2z (negb (r =? 0))).
  assert (0 <= zb <= 16 /\ zb <= end_ - start + 1 /\ (zb = 0 <-> d = 0) /\
          (r <> 0 -> zb = q + 1) /\ (r = 0 -> zb = q)) as (? & ? & ? & ? & ?).
  { unfold zb. destruct (Z.eqb_spec r 0); cbn [b2z negb]; lia. }
  rewrite (u32_id zb), (u8_id r) by lia.
  destruct (zero_fill_run (Z.to_nat zb) start s) as (m1 & Hr1 & Hf1).
  { intros a Ha. apply Hm. lia. }
  rewrite (cm_bind_ok _ _ _ _ _ Hr1).
  set (it := start + Z.of_nat (pred (Z.to_nat zb))).
  assert (start <= it <= end_) by lia.
  rewrite (lift_bind _ _ _ (Z.shiftr 255 r)).
  2: { unfold int_shr. rewrite (proj2 (Z.leb_le 0 r)), (proj2 (Z.ltb_lt r 32)) by lia. done. }
  pose proof (mapped_filled _ _ _ _ _ _ _ Hf1 Hm) as Hm1.
  destruct (Hm1 it) as [b Hb]; [lia|].
  rewrite (ldm_bind _ _ b) by done. rewrite stm_bind by (by exists b).
  set (v := Z.lor b (u8 (Z.shiftr 255 r))).
  set (s2 := fset F_mem8 _ _).
  destruct (ones_fill_run (Z.to_nat (end_ - (it + 1) + 1)) (it + 1) s2) as (m3 & Hr3 & Hf3).
  { intros a Ha. apply (mapped_insert _ _ _ _ _ Hm1). lia. }
  exists m3. split; [exact Hr3|].
  assert (forall a, m3 !! a = if decide (it + 1 <= a <= end_) then Some 255
            else if decide (a = it) then Some v else m1 !! a) as Hm3.
  { intros a. rewrite Hf3. cbn. rewrite lookup_insert.
    destruct (decide (it + 1 <= a < it + 1 + Z.of_nat (Z.to_nat (end_ - (it + 1) + 1))));
      destruct (decide (it + 1 <= a <= end_)); try lia; [done|].
    destruct (decide (it = a)), (decide (a = it)); done || lia. }
  split; [|split].
  - intros a Ha. rewrite Hm3. repeat case_decide; try by eexists. by apply Hm1.
  - intros a Ha. rewrite Hm3. rewrite !decide_False by lia. rewrite Hf1.
    by rewrite decide_False by lia.
  - intros n Hn. set (t := n / 8). set (j := n mod 8).
    pose proof (Z.div_mod n 8 ltac:(lia)) as Hn8. fold t j in Hn8.
    pose proof (Z.mod_pos_bound n 8 ltac:(lia)) as Hj. fold j in Hj.
    unfold bit_at. fold t j. rewrite Hm3. unfold r_zeros. fold r.
    destruct (decide (it + 1 <= start + t <= end_)).
    { cbn. rewrite testbit_255 by lia. rewrite (proj2 (Z.ltb_lt _ _)) by lia.
      symmetry. apply Z.leb_le. destruct (Z.eqb_spec r 0); lia. }
    destruct (decide (start + t = it)) as [Hit|Hit].
    + cbn. unfold v. rewrite r_byte_bit; [|lia|lia|].
      2: { destruct (decide (r = 0)); [by left|right]. rewrite Hf1 in Hb.
           rewrite decide_True in Hb by lia. congruence. }
      destruct (Z.eqb_spec r 0), (Z.leb_spec r j); symmetry;
        (apply Z.leb_le || apply Z.leb_gt); lia.
    + rewrite Hf1, decide_True by lia. cbn. rewrite Z.bits_0. symmetry.
      apply Z.leb_gt. destruct (Z.eqb_spec r 0); lia.
Qed.

End RPattern.

(** ** E-patterns *)
Section EPattern.
Context {T : Type}.
Implicit Types s : fts_state T.

(** The code's integer expression is the formula of the E-pattern. *)
Lemma raman_run j k m :
  0 <= m < k -> k <= 255 -> 0 <= j <= 1000000 ->
  raman j k m = Ok (ceil_div (j * (k - m)) k * k / (k - m)).
Proof.
  intros Hm Hk Hj. unfold raman. set (d := k - m).
  rewrite (int_val_ok d) by (unfold INT_MIN, INT_MAX; lia). cbn [mbind outcome_bind].
  assert (0 <= j * d <= 255000000) by nia.
  rewrite int_val_ok by (unfold INT_MIN, INT_MAX; lia). cbn [mbind outcome_bind].
  pose proof (ceil_div_bounds (j * d) k ltac:(lia)) as Hc.
  pose proof (Z.div_mod (j * d) k ltac:(lia)). pose proof (Z.mod_pos_bound (j * d) k ltac:(lia)).
  assert (0 <= j * d / k <= j * d) by nia.
  rewrite int_div_ok by (rewrite ?Z.quot_div_nonneg by lia; unfold INT_MIN, INT_MAX; lia).
  cbn [mbind outcome_bind].
  rewrite int_rem_ok by (rewrite ?Z.rem_mod_nonneg by lia; unfold INT_MIN, INT_MAX; lia).
  cbn [mbind outcome_bind].
  rewrite Z.quot_div_nonneg, Z.rem_mod_nonneg by lia. fold (ceil_div (j * d) k).
  set (c := ceil_div (j * d) k) in *. assert (0 <= c <= j * d + k) by nia.
  assert (0 <= c * k <= 255000255) by nia.
  rewrite int_val_ok by (unfold INT_MIN, INT_MAX; lia). cbn [mbind outcome_bind].
  rewrite int_val_ok by (unfold INT_MIN, INT_MAX; lia). cbn [mbind outcome_bind].
  pose proof (Z.div_mod (c * k) d ltac:(lia)). pose proof (Z.mod_pos_bound (c * k) d ltac:(lia)).
  assert (0 <= c * k / d <= c * k) by nia.
  rewrite int_div_ok by (rewrite ?Z.quot_div_nonneg by lia; unfold INT_MIN, INT_MAX; lia).
  by rewrite Z.quot_div_nonneg by lia.
Qed.

(** The bit the code sets for the place [b] of the [t] first bytes:
    [set_byte] is not cleared between bytes, so a 1 stays in the later ones. *)
Definition e_acc (k d t b : Z) : bool :=
  existsb (fun t' => negb (e_zero k d (8 * t' + b))) (seqZ 0 t).

Lemma e_acc_S k d t b :
  0 <= t -> e_acc k d (t + 1) b = e_acc k d t b || negb (e_zero k d (8 * t + b)).
Proof.
  intros Ht. unfold e_acc. rewrite seqZ_app, existsb_app by lia.
  rewrite (seqZ_cons _ 1), (seqZ_nil _ (Z.pred 1)) by lia. cbn [existsb]. by rewrite orb_false_r, Z.add_0_l.
Qed.

(** The low eight bits of a byte, from the most significant. *)
Lemma create_e_bits_run k m sb0 j0 s :
  0 <= m < k -> k <= 255 -> 0 <= j0 <= 999000 ->
  exists sb, c_for 8 0 (create_e_bit k m) (sb0, BIT_7, j0) s =
      Ok ((sb, Z.shiftr BIT_7 8, j0 + 8), s) /\
    forall b, 0 <= b < 8 -> Z.testbit sb (7 - b) =
      Z.testbit sb0 (7 - b) || negb (e_zero k (k - m) (j0 + b)).
Proof.
  intros Hm Hk Hj.
  destruct (c_for_inv (fun it (x : Z * Z * Z) s' => s' = s /\ exists sb,
      x = (sb, Z.shiftr BIT_7 it, j0 + it) /\
      forall b, 0 <= b < 8 -> Z.testbit sb (7 - b) =
        Z.testbit sb0 (7 - b) || ((b <? it) && negb (e_zero k (k - m) (j0 + b))))
    8 0 (create_e_bit k m) (sb0, BIT_7, j0) s) as (x & s' & Hr & -> & sb & -> & Hsb).
  - split; [done|]. exists sb0. split; [by rewrite Z.add_0_r|]. intros b Hb.
    rewrite (proj2 (Z.ltb_ge b 0)) by lia. by rewrite orb_false_r.
  - intros it x s' Hit (-> & sb & -> & Hsb). cbn [create_e_bit].
    rewrite (lift_bind _ _ _ _ (raman_run (j0 + it) _ _ Hm Hk ltac:(lia))).
    eexists _, _. split; [reflexivity|]. split; [done|].
    eexists. rewrite Z.shiftr_shiftr by lia.
    split; [by rewrite <- Z.add_assoc|].
    intros b Hb. change (j0 + it =? _) with (e_zero k (k - m) (j0 + it)).
    assert (Z.shiftr BIT_7 it = 2 ^ (7 - it)) as ->.
    { assert (it ∈ seqZ 0 8) as Hin by (apply elem_of_seqZ; lia).
      change (seqZ 0 8) with [0; 1; 2; 3; 4; 5; 6; 7] in Hin.
      set_unfold in Hin. by destruct_or! Hin; subst. }
    destruct (Z.ltb_spec b it), (Z.ltb_spec b (it + 1)); try lia.
    + destruct (e_zero k (k - m) (j0 + it)); cbn [negb]; [by rewrite Hsb, (proj2 (Z.ltb_lt b it))|].
      rewrite Z.lor_spec, Z.pow2_bits_eqb, Hsb by lia.
      rewrite (proj2 (Z.ltb_lt b it)), (proj2 (Z.eqb_neq _ _)) by lia. by rewrite orb_false_r.
    + assert (b = it) as -> by lia.
      destruct (e_zero k (k - m) (j0 + it)); cbn [negb andb].
      * rewrite Hsb by lia. by rewrite Z.ltb_irrefl.
      * rewrite Z.lor_spec, Z.pow2_bits_eqb, Z.eqb_refl by lia. by rewrite !orb_true_r.
    + destruct (e_zero k (k - m) (j0 + it)); cbn [negb andb].
      * rewrite Hsb by lia. by rewrite (proj2 (Z.ltb_ge b it)).
      * rewrite Z.lor_spec, Z.pow2_bits_eqb, Hsb by lia.
        rewrite (proj2 (Z.ltb_ge b it)), (proj2 (Z.eqb_neq _ _)) by lia. by rewrite !orb_false_r.
  - exists sb. split; [exact Hr|]. intros b Hb. rewrite Hsb by done.
    by rewrite (proj2 (Z.ltb_lt b _)) by lia.
Qed.

Lemma create_e_pattern_run k m start end_ s :
  0 <= m < k -> k <= 255 -> start <= end_ <= start + 100000 ->
  mapped (mem8 s) start end_ ->
  exists m', create_e_pattern k m start end_ s = Ok (tt, set_mem8 m' s) /\
    mapped m' start end_ /\
    (forall a, ~ (start <= a <= end_) -> m' !! a = mem8 s !! a) /\
    (forall n, 0 <= n < 8 * (end_ - start + 1) ->
       bit_at m' start n = e_acc k (k - m) (n / 8 + 1) (n mod 8)).
Proof.
  intros Hm Hk Hse Hmap. unfold create_e_pattern.
  destruct (c_for_inv (fun p (x : Z * Z) s' => exists sb m',
      x = (sb, 8 * (p - start)) /\ s' = set_mem8 m' s /\
      (forall b, 0 <= b < 8 -> Z.testbit sb (7 - b) = e_acc k (k - m) (p - start) b) /\
      (forall a, ~ (start <= a < p) -> m' !! a = mem8 s !! a) /\
      mapped m' start end_ /\
      (forall n, 0 <= n < 8 * (p - start) ->
         bit_at m' start n = e_acc k (k - m) (n / 8 + 1) (n mod 8)))
    (Z.to_nat (end_ - start + 1)) start (create_e_byte k m) (0, 0) s)
    as (x & s' & Hr & sb & m' & -> & -> & _ & Hout & Hmap' & Hbits).
  - exists 0, (mem8 s). split; [by rewrite Z.sub_diag|]. split; [by destruct s|].
    split; [|split; [done|split; [done|lia]]].
    intros b Hb. rewrite Z.bits_0, Z.sub_diag. done.
  - intros p x s' Hp (sb & m' & -> & -> & Hsb & Hout & Hmap' & Hbits). cbn [create_e_byte].
    destruct (create_e_bits_run k m sb (8 * (p - start)) (set_mem8 m' s) Hm Hk)
      as (sb' & Hr & Hsb'); [lia|].
    rewrite (cm_bind_ok _ _ _ _ _ Hr). cbn [fst snd].
    rewrite stm_bind by (apply Hmap'; lia).
    eexists _, _. split; [reflexivity|]. exists sb', (<[p := sb']> m').
    split; [f_equal; lia|]. split; [done|]. split; [|split; [|split]].
    + intros b Hb. rewrite Hsb', Hsb by done.
      replace (p + 1 - start) with ((p - start) + 1) by lia. by rewrite e_acc_S by lia.
    + intros a Ha. rewrite lookup_insert_ne by lia. apply Hout. lia.
    + by apply mapped_insert.
    + intros n Hn. pose proof (Z.div_mod n 8 ltac:(lia)).
      pose proof (Z.mod_pos_bound n 8 ltac:(lia)).
      destruct (decide (n < 8 * (p - start))) as [Hlt|Hge].
      * rewrite <- Hbits by lia. unfold bit_at. by rewrite lookup_insert_ne by lia.
      * unfold bit_at. assert (n / 8 = p - start) as Hq by lia.
        replace (start + n / 8) with p by lia. rewrite lookup_insert_eq. cbn.
        rewrite Hsb', Hsb, Hq, e_acc_S by lia. by rewrite <- Hq.
  - exists m'. unfold mbind, cm_bind. rewrite Hr. cbn. split; [done|].
    split; [done|]. split; [intros a Ha; apply Hout; lia|]. intros n Hn. apply Hbits. lia.
Qed.

Lemma e_acc_covers k d n :
  0 <= n -> e_zero k d n = false -> e_acc k d (n / 8 + 1) (n mod 8) = true.
Proof.
  intros Hn He. rewrite e_acc_S by (apply Z.div_pos; lia).
  rewrite <- Z.div_mod by lia. rewrite He. apply orb_true_r.
Qed.

(** In the first byte the pattern is the E-pattern itself. *)
Lemma e_acc_first k d n : 0 <= n < 8 -> e_acc k d (n / 8 + 1) (n mod 8) = negb (e_zero k d n).
Proof.
  intros Hn. rewrite Z.div_small, Z.mod_small, e_acc_S by lia. done.
Qed.

End EPattern.

(** ** The pattern of a task *)
Section Create.
Context {T : Type}.
Implicit Types s : fts_state T.

(** The memory a user has to provide for the pattern of a task: [k] bits,
    from [start] to the bit [maxbit] of the byte at [end_]. *)
Record pattern_space (mem : gmap Z Z) (start end_ maxbit k : Z) : Prop := {
  space_order : start <= end_;
  space_maxbit : 0 <= maxbit <= 7;
  space_len : pattern_len start end_ maxbit = k;
  space_mapped : mapped mem start end_
}.

(** Which requirements [create_pattern_t] can handle. *)
Definition pattern_supported (p : pattern_type) (m k : Z) : Prop :=
  match p with
  | R_PATTERN => 0 <= m <= k /\ k - m <= 127
  | E_PATTERN => 0 <= m < k
  end.

(** The bits [create_pattern_t] writes. *)
Definition created_bit (p : pattern_type) (m k n : Z) : bool :=
  match p with
  | R_PATTERN => r_zeros (k - m) <=? n
  | E_PATTERN => e_acc k (k - m) (n / 8 + 1) (n mod 8)
  end.

Lemma pattern_body_run p m k start end_ maxbit s :
  pattern_space (mem8 s) start end_ maxbit k -> k <= 255 -> pattern_supported p m k ->
  exists m', match p with
             | R_PATTERN => create_r_pattern k m start end_
             | E_PATTERN => create_e_pattern k m start end_
             end s = Ok (tt, set_mem8 m' s) /\
    mapped m' start end_ /\
    (forall a, ~ (start <= a <= end_) -> m' !! a = mem8 s !! a) /\
    pattern_bits m' start end_ maxbit = created_bit p m k <$> seqZ 0 k.
Proof.
  intros [Hse Hmb Hlen Hmap] Hk Hsup. unfold pattern_len in Hlen.
  assert (forall m' (f : Z -> bool),
    (forall n, 0 <= n < 8 * (end_ - start + 1) -> bit_at m' start n = f n) ->
    pattern_bits m' start end_ maxbit = f <$> seqZ 0 k) as Hbits.
  { intros m' f Hf. unfold pattern_bits, pattern_len. rewrite Hlen.
    apply list_fmap_ext. intros i n Hi%lookup_seqZ. apply Hf. lia. }
  destruct p; cbn in Hsup.
  - destruct (create_r_pattern_run k m start end_ s) as (m' & Hr & Hm & Ho & Hb);
      try lia; [done|]. exists m'. eauto.
  - destruct (create_e_pattern_run k m start end_ s) as (m' & Hr & Hm & Ho & Hb);
      try lia; [done|]. exists m'. eauto.
Qed.

Lemma e_pattern_alt k d :
  e_pattern k d (Z.to_nat k) = (fun n => negb (e_zero k d n)) <$> seqZ 0 k.
Proof.
  unfold e_pattern, seqZ. rewrite <- list_fmap_compose. apply list_fmap_ext.
  intros i x _. cbn. by rewrite Z.add_0_r.
Qed.

(** The bits of an R-pattern of [z] zeros in [k] places. *)
Lemma r_bits k z :
  0 <= z <= k ->
  ((fun n => z <=? n) <$> seqZ 0 k) =
    replicate (Z.to_nat z) false ++ replicate (Z.to_nat (k - z)) true.
Proof.
  intros Hz. apply list_eq. intros i. rewrite list_lookup_fmap.
  destruct (decide (Z.of_nat i < k)).
  - rewrite lookup_seqZ_lt by lia. cbn [fmap option_fmap option_map].
    destruct (Z.leb_spec z (0 + Z.of_nat i)).
    + rewrite lookup_app_r by (rewrite length_replicate; lia).
      rewrite lookup_replicate_2; [done|rewrite length_replicate; lia].
    + rewrite lookup_app_l by (rewrite length_replicate; lia).
      by rewrite lookup_replicate_2 by lia.
  - rewrite lookup_seqZ_ge, lookup_ge_None_2; [done| |lia].
    rewrite length_app, !length_replicate. lia.
Qed.

Lemma created_count p m k :
  0 < k -> pattern_supported p m k -> m <= count_true (created_bit p m k <$> seqZ 0 k).
Proof.
  intros Hk Hsup. destruct p; cbn in Hsup.
  - pose proof (r_zeros_bounds (k - m) ltac:(lia)) as Hz.
    change (created_bit R_PATTERN m k) with (fun n => r_zeros (k - m) <=? n).
    rewrite r_bits, count_true_app, !count_true_replicate by lia. cbn [b2z]. lia.
  - pose proof (e_pattern_zeros k (k - m) ltac:(lia)) as Hz.
    pose proof (count_true_false (e_pattern k (k - m) (Z.to_nat k))) as Hc.
    rewrite e_pattern_alt in *. rewrite length_fmap, length_seqZ in Hc.
    etransitivity; [|apply (count_true_mono ((fun n => negb (e_zero k (k - m) n)) <$> seqZ 0 k))].
    { lia. }
    rewrite Forall2_fmap. apply Forall_Forall2_diag, Forall_seqZ. intros n Hn He.
    apply e_acc_covers; [lia|]. by apply negb_true_iff.
Qed.
(** The (m,k) requirement and the pattern space of the task at index [i]. *)
Record pattern_of (l : Task_ID_List) (i m k start end_ maxbit : Z) : Prop := {
  po_m : l_m l !! Z.to_nat i = Some m;
  po_k : l_k l !! Z.to_nat i = Some k;
  po_start : pattern_start l !! Z.to_nat i = Some start;
  po_end : pattern_end l !! Z.to_nat i = Some end_;
  po_maxbit : max_bitpos l !! Z.to_nat i = Some maxbit
}.

Lemma create_pattern_t_run i p m k start end_ maxbit s :
  0 <= i -> pattern_of (tasklist s) i m k start end_ maxbit ->
  pattern_space (mem8 s) start end_ maxbit k -> k <= 255 -> pattern_supported p m k ->
  exists m', create_pattern_t i p s = Ok (1, set_mem8 m' s) /\
    mapped m' start end_ /\
    (forall a, ~ (start <= a <= end_) -> m' !! a = mem8 s !! a) /\
    pattern_bits m' start end_ maxbit = created_bit p m k <$> seqZ 0 k.
Proof.
  intros Hi [Hm Hk Hst He Hmb] Hsp Hk255 Hsup. unfold create_pattern_t.
  rewrite (rd_bind _ _ m), (rd_bind _ _ k), (rd_bind _ _ start), (rd_bind _ _ end_) by done.
  destruct (pattern_body_run p m k start end_ maxbit s) as (m' & Hr & Hmap & Ho & Hb);
    [done..|].
  rewrite (cm_bind_ok _ _ _ _ _ Hr), (rd_bind _ _ maxbit) by done.
  destruct (show_pattern_t_run start end_ maxbit (set_mem8 m' s)) as (ls & Hsh & _).
  { apply Hsp. } { apply Hsp. } { done. }
  rewrite (cm_bind_ok _ _ _ _ _ Hsh). exists m'. eauto.
Qed.
End Create.

(** A state with one task, for the examples: two bytes at the address 100. *)
Definition sample (m k maxbit end_ : Z) : fts_state unit :=
  let z := replicate 9 0 in
  set_tasklist
    (mkTask_ID_List (7 :: z) (m :: z) (k :: z) (SRE :: replicate 9 NONE) 1
       (replicate 10 R_PATTERN) (100 :: z) (end_ :: z) (100 :: z) (0 :: z) (maxbit :: z)
       (0 :: z) (0 :: z) (0 :: z))
    (fts_initial tt (<[100 := 0]> {[101 := 0]}) ∅).

Lemma sample_pattern_of m k maxbit end_ :
  pattern_of (tasklist (sample m k maxbit end_)) 0 m k 100 end_ maxbit.
Proof. by split. Qed.

Lemma sample_space m k maxbit end_ :
  100 <= end_ <= 101 -> 0 <= maxbit <= 7 -> pattern_len 100 end_ maxbit = k ->
  pattern_space (mem8 (sample m k maxbit end_)) 100 end_ maxbit k.
Proof.
  intros He Hm Hl. split; [lia|done|done|]. intros a Ha. cbn.
  destruct (decide (a = 100)) as [->|]; [by eexists|].
  assert (a = 101) as -> by lia. by eexists.
Qed.

(** ** Properties *)
Section Properties.
Context {T : Type}.
Implicit Types s : fts_state T.


(** An R-pattern whose number of zeros is no positive multiple of 8 is
    written exactly as the report defines it: [k - m] zeros, then [m] ones. *)
Theorem create_pattern_t_r_exact i m k start end_ maxbit s :
  0 <= i -> pattern_of (tasklist s) i m k start end_ maxbit ->
  pattern_space (mem8 s) start end_ maxbit k -> k <= 255 ->
  0 <= m <= k -> k - m <= 127 -> (k - m) mod 8 <> 0 \/ k = m ->
  exists m', create_pattern_t i R_PATTERN s = Ok (1, set_mem8 m' s) /\
    pattern_bits m' start end_ maxbit = r_pattern m k.
Proof.
  intros Hi Hpo Hsp Hk Hm Hd Hz.
  destruct (create_pattern_t_run i R_PATTERN m k start end_ maxbit s)
    as (m' & Hr & _ & _ & Hb); [done..|].
  exists m'. split; [done|]. rewrite Hb. unfold r_pattern.
  change (created_bit R_PATTERN m k) with (fun n => r_zeros (k - m) <=? n).
  assert (r_zeros (k - m) = k - m) as ->.
  { unfold r_zeros. destruct (Z.eqb_spec ((k - m) mod 8) 0); lia. }
  rewrite r_bits by lia. by replace (k - (k - m)) with m by lia.
Qed.


(** An E-pattern that fits in one byte is written exactly as the formula
    of the report has it. *)
Theorem create_pattern_t_e_exact i m k start maxbit s :
  0 <= i -> pattern_of (tasklist s) i m k start start maxbit ->
  pattern_space (mem8 s) start start maxbit k -> 0 <= m < k ->
  exists m', create_pattern_t i E_PATTERN s = Ok (1, set_mem8 m' s) /\
    pattern_bits m' start start maxbit = e_pattern k (k - m) (Z.to_nat k) /\
    count_true (pattern_bits m' start start maxbit) = m.
Proof.
  intros Hi Hpo Hsp Hm.
  assert (k <= 8) as Hk8.
  { destruct Hsp as [_ Hmb Hlen _]. unfold pattern_len in Hlen. lia. }
  destruct (create_pattern_t_run i E_PATTERN m k start start maxbit s)
    as (m' & Hr & _ & _ & Hb); [done..|lia|done|].
  assert (pattern_bits m' start start maxbit = e_pattern k (k - m) (Z.to_nat k)) as He.
  { rewrite Hb, e_pattern_alt. apply list_fmap_ext. intros n x Hn%lookup_seqZ.
    apply e_acc_first. lia. }
  exists m'. split; [done|]. split; [done|]. rewrite He.
  pose proof (e_pattern_zeros k (k - m) ltac:(lia)).
  pose proof (count_true_false (e_pattern k (k - m) (Z.to_nat k))) as Hc.
  rewrite e_pattern_alt in Hc at 3. rewrite length_fmap, length_seqZ in Hc. lia.
Qed.

(** An E-pattern with [m = k], which registration accepts, divides by
    zero. *)
Theorem create_pattern_t_e_all_reliable i k start end_ maxbit s :
  0 <= i -> pattern_of (tasklist s) i k k start end_ maxbit ->
  start <= end_ -> 0 < k <= 255 ->
  create_pattern_t i E_PATTERN s = Undef Division_by_zero.
Proof.
  intros Hi [Hm Hk Hst He Hmb] Hse Hk255. unfold create_pattern_t.
  rewrite (rd_bind _ _ k), (rd_bind _ _ k), (rd_bind _ _ start), (rd_bind _ _ end_) by done.
  unfold create_e_pattern. unfold mbind at 1, cm_bind at 1.
  replace (Z.to_nat (end_ - start + 1)) with (S (Z.to_nat (end_ - start))) by lia.
  unfold create_e_byte, create_e_bit, raman. rewrite Z.sub_diag.
  destruct k; try lia. reflexivity.
Qed.

(** [show_pattern_t] terminates without touching the state, and the
    digits it prints are the bits of the pattern, in order. *)
Theorem show_pattern_t_prints start end_ maxbit s :
  start <= end_ -> 0 <= maxbit <= 7 -> mapped (mem8 s) start end_ ->
  exists lines, show_pattern_t start end_ maxbit s = Ok (lines, s) /\
    mjoin lines = pattern_bits (mem8 s) start end_ maxbit.
Proof. apply show_pattern_t_run. Qed.

End Properties.


Lemma create_pattern_t_r_exact_witness :
  let s := sample 3 12 3 101 in
  exists m', create_pattern_t 0 R_PATTERN s = Ok (1, set_mem8 m' s) /\
    pattern_bits m' 100 101 3 = r_pattern 3 12.
Proof.
  apply (create_pattern_t_r_exact 0 3 12 100 101 3 (sample 3 12 3 101));
    [lia|apply sample_pattern_of|by apply sample_space|lia|lia|lia|left; by vm_compute].
Defined.


Lemma create_pattern_t_e_exact_witness :
  let s := sample 3 5 4 100 in
  exists m', create_pattern_t 0 E_PATTERN s = Ok (1, set_mem8 m' s) /\
    pattern_bits m' 100 100 4 = e_pattern 5 (5 - 3) 5 /\
    count_true (pattern_bits m' 100 100 4) = 3.
Proof.
  apply (create_pattern_t_e_exact 0 3 5 100 4 (sample 3 5 4 100));
    [lia|apply sample_pattern_of|by apply sample_space|lia].
Defined.

Lemma create_pattern_t_e_all_reliable_witness :
  create_pattern_t 0 E_PATTERN (sample 5 5 4 100) = Undef Division_by_zero.
Proof.
  apply (create_pattern_t_e_all_reliable 0 5 100 100 4 (sample 5 5 4 100));
    [lia|apply sample_pattern_of|lia|lia].
Defined.

Lemma show_pattern_t_prints_witness :
  let s := sample 3 12 3 101 in
  exists lines, show_pattern_t 100 101 3 s = Ok (lines, s) /\
    mjoin lines = pattern_bits (mem8 s) 100 101 3.
Proof.
  apply (show_pattern_t_prints 100 101 3 (sample 3 12 3 101));
    [lia|lia|by apply (sample_space 3 12 3 101)].
Defined.
