(* ===== verification/Counters.v ===== *)
(** * Tolerance counters, abstractly

    Dynamic compensation does not keep the pattern but counts the zeros
    ([o]) and ones ([a]) of its partitions, maximal blocks of the form
    [0...01...1].  This file relates such counters to the pattern: counting
    loses nothing ([expand] rebuilds the pattern), and a partition with what
    is left of its counters is a place in the pattern. *)

From stdpp Require Import base tactics numbers option list list_numbers.
From Stdlib Require Import ZArith Lia.
From S2P Require Import Prelude Pattern.

Open Scope Z_scope.

(** One counter of an array. *)
Definition cnt (l : list Z) (j : nat) : Z := default 0 (l !! j).

(** The block of a partition, and the pattern of the first [n] partitions. *)
Definition block (o a : Z) : list bool :=
  replicate (Z.to_nat o) false ++ replicate (Z.to_nat a) true.

Definition expand (os as_ : list Z) (n : nat) : list bool :=
  mjoin ((fun j => block (cnt os j) (cnt as_ j)) <$> seq 0 n).

(** Where the partition [p] starts. *)
Definition offset (os as_ : list Z) (p : nat) : Z := Z.of_nat (length (expand os as_ p)).

Lemma expand_S os as_ n :
  expand os as_ (S n) = expand os as_ n ++ block (cnt os n) (cnt as_ n).
Proof. unfold expand. rewrite seq_S, fmap_app, join_app. cbn. by rewrite app_nil_r. Qed.

Lemma block_length o a :
  0 <= o -> 0 <= a -> Z.of_nat (length (block o a)) = o + a.
Proof. intros. unfold block. rewrite length_app, !length_replicate. lia. Qed.

Lemma offset_S os as_ n :
  0 <= cnt os n -> 0 <= cnt as_ n ->
  offset os as_ (S n) = offset os as_ n + (cnt os n + cnt as_ n).
Proof.
  intros. unfold offset. rewrite expand_S, length_app, Nat2Z.inj_add, block_length by done.
  done.
Qed.

(** Only the counters of the first [n] partitions matter. *)
Lemma expand_ext os as_ os' as' n :
  (forall j, (j < n)%nat -> cnt os j = cnt os' j /\ cnt as_ j = cnt as' j) ->
  expand os as_ n = expand os' as' n.
Proof.
  intros Hext. unfold expand. f_equal. apply list_fmap_ext. intros i j Hj.
  apply lookup_seq in Hj as [-> Hlt]. cbn in *. by destruct (Hext i) as [-> ->].
Qed.

(** ** Counting a pattern *)

(** The number of partitions but one: how often a 0 follows a 1. *)
Fixpoint falls (last : bool) (l : list bool) : Z :=
  match l with
  | [] => 0
  | b :: l' => b2z (last && negb b) + falls b l'
  end.

Lemma falls_nonneg last l : 0 <= falls last l.
Proof.
  revert last. induction l as [|b l IH]; intros last; cbn [falls]; [lia|].
  specialize (IH b). destruct (last && negb b); cbn [b2z]; lia.
Qed.

Lemma falls_count_false last l : falls last l <= count_false l.
Proof.
  revert last. induction l as [|b l IH]; intros last; cbn [falls]; [done|].
  rewrite count_false_cons. specialize (IH b).
  destruct last, b; cbn [andb negb b2z]; lia.
Qed.

Lemma last_step {A} (l : list A) x d : List.last (x :: l) d = List.last l x.
Proof.
  revert x d. induction l as [|y l IH]; intros x d; [done|].
  change (List.last (x :: y :: l) d) with (List.last (y :: l) d). by rewrite !IH.
Qed.

Lemma falls_app last l1 l2 :
  falls last (l1 ++ l2) = falls last l1 + falls (List.last l1 last) l2.
Proof.
  revert last. induction l1 as [|b l1 IH]; intros last; [done|].
  cbn [falls app]. rewrite IH, last_step. lia.
Qed.

Lemma falls_snoc last l b :
  falls last (l ++ [b]) = falls last l + b2z (List.last l last && negb b).
Proof. rewrite falls_app. cbn [falls]. lia. Qed.

(** The counters [os], [as_] count the pattern [pre], whose last bit is [last]
    and whose last partition is [p]. *)
Record counted (os as_ : list Z) (p : nat) (last : bool) (pre : list bool) : Prop := {
  cnt_expand : expand os as_ (S p) = pre;
  cnt_falls : Z.of_nat p = falls false pre;
  cnt_last : List.last pre false = last;
  cnt_nonneg : forall j, 0 <= cnt os j /\ 0 <= cnt as_ j;
  cnt_rest : forall j, (p < j)%nat -> cnt os j = 0 /\ cnt as_ j = 0;
  cnt_open : last = false -> cnt as_ p = 0;
  cnt_closed : forall j, (j < p)%nat -> 1 <= cnt as_ j;
  cnt_end : last = true -> 1 <= cnt as_ p
}.

Lemma cnt_insert (l : list Z) (i j : nat) x :
  (i < length l)%nat -> cnt (<[i := x]> l) j = if decide (i = j) then x else cnt l j.
Proof.
  intros Hi. unfold cnt. case_decide as Hij.
  - subst. by rewrite list_lookup_insert_eq.
  - by rewrite list_lookup_insert_ne.
Qed.

Lemma block_snoc_false o : 0 <= o -> block (o + 1) 0 = block o 0 ++ [false].
Proof.
  intros Ho. unfold block. cbn. rewrite !app_nil_r.
  replace (Z.to_nat (o + 1)) with (S (Z.to_nat o)) by lia.
  by rewrite replicate_S_end.
Qed.

Lemma block_snoc_true o a : 0 <= a -> block o (a + 1) = block o a ++ [true].
Proof.
  intros Ha. unfold block. rewrite <- app_assoc. f_equal.
  replace (Z.to_nat (a + 1)) with (S (Z.to_nat a)) by lia.
  by rewrite replicate_S_end.
Qed.

Lemma expand_insert_o os as_ n p x :
  (p < length os)%nat -> (n <= p)%nat -> expand (<[p := x]> os) as_ n = expand os as_ n.
Proof.
  intros Hp Hn. apply expand_ext. intros j Hj. split; [|done].
  rewrite cnt_insert by done. by rewrite decide_False by lia.
Qed.

Lemma expand_insert_a os as_ n p x :
  (p < length as_)%nat -> (n <= p)%nat -> expand os (<[p := x]> as_) n = expand os as_ n.
Proof.
  intros Hp Hn. apply expand_ext. intros j Hj. split; [done|].
  rewrite cnt_insert by done. by rewrite decide_False by lia.
Qed.

(** A 0 after a 0 (or at the start) belongs to the current partition. *)
Lemma counted_zero_same os as_ p pre :
  (p < length os)%nat -> counted os as_ p false pre ->
  counted (<[p := cnt os p + 1]> os) as_ p false (pre ++ [false]).
Proof.
  intros Hp [He Hf Hl Hn Hr Ho Hc Hend]. specialize (Ho eq_refl). split.
  - rewrite expand_S, expand_insert_o by lia. rewrite cnt_insert, decide_True by done.
    rewrite Ho, block_snoc_false by apply Hn. rewrite app_assoc, <- He, expand_S, Ho. done.
  - rewrite falls_snoc, Hl. cbn. lia.
  - by rewrite List.last_last.
  - intros j. rewrite cnt_insert by done. destruct (Hn p), (Hn j). case_decide; lia.
  - intros j Hj. rewrite cnt_insert, decide_False by lia. by apply Hr.
  - done.
  - done.
  - done.
Qed.

(** A 0 after a 1 opens the next partition. *)
Lemma counted_zero_next os as_ p pre :
  (S p < length os)%nat -> counted os as_ p true pre ->
  counted (<[S p := cnt os (S p) + 1]> os) as_ (S p) false (pre ++ [false]).
Proof.
  intros Hp [He Hf Hl Hn Hr Ho Hc Hend]. specialize (Hend eq_refl).
  destruct (Hr (S p)) as [Hro Hra]; [lia|]. split.
  - rewrite expand_S, expand_insert_o by lia. rewrite cnt_insert, decide_True by done.
    rewrite Hra, Hro, block_snoc_false by lia. by rewrite He.
  - rewrite falls_snoc, Hl. cbn [andb negb b2z]. lia.
  - by rewrite List.last_last.
  - intros j. rewrite cnt_insert by done. destruct (Hn (S p)), (Hn j). case_decide; lia.
  - intros j Hj. rewrite cnt_insert, decide_False by lia. apply Hr. lia.
  - done.
  - intros j Hj. destruct (decide (j = p)) as [->|]; [done|]. apply Hc. lia.
  - done.
Qed.

(** A 1 belongs to the current partition. *)
Lemma counted_one os as_ p last pre :
  (p < length as_)%nat -> counted os as_ p last pre ->
  counted os (<[p := cnt as_ p + 1]> as_) p true (pre ++ [true]).
Proof.
  intros Hp [He Hf Hl Hn Hr Ho Hc Hend]. split.
  - rewrite expand_S, expand_insert_a by lia. rewrite cnt_insert, decide_True by done.
    rewrite block_snoc_true by apply Hn. rewrite app_assoc, <- He, expand_S. done.
  - rewrite falls_snoc. cbn. rewrite andb_false_r. cbn. lia.
  - by rewrite List.last_last.
  - intros j. rewrite cnt_insert by done. destruct (Hn p), (Hn j). case_decide; lia.
  - intros j Hj. rewrite cnt_insert, decide_False by lia. by apply Hr.
  - done.
  - intros j Hj. rewrite cnt_insert, decide_False by lia. by apply Hc.
  - intros _. rewrite cnt_insert, decide_True by done. destruct (Hn p). lia.
Qed.

Lemma counted_empty n : counted (replicate n 0) (replicate n 0) 0 false [].
Proof.
  assert (forall j, cnt (replicate n 0) j = 0) as Hz.
  { intros j. unfold cnt. destruct (decide (j < n)%nat).
    - by rewrite lookup_replicate_2 by lia.
    - rewrite lookup_ge_None_2; [done|]. rewrite length_replicate. lia. }
  split.
  - rewrite expand_S. rewrite !Hz. done.
  - done.
  - done.
  - intros j. rewrite Hz. lia.
  - intros j Hj. by rewrite Hz.
  - intros _. apply Hz.
  - intros j Hj. lia.
  - done.
Qed.

(** ** Places in the pattern *)

(** What is left of the counters of partition [p]: zeros are used up first,
    then ones.  [q] is the place in the pattern reached so far. *)
Definition place (os as_ : list Z) (p : nat) (o a q : Z) : Prop :=
  q = offset os as_ p + (cnt os p - o) + (cnt as_ p - a) /\
  0 <= o <= cnt os p /\ 0 <= a <= cnt as_ p /\ (0 < o -> a = cnt as_ p).

Lemma expand_lookup os as_ n p (x : nat) :
  (p < n)%nat -> (forall j, 0 <= cnt os j /\ 0 <= cnt as_ j) ->
  Z.of_nat x < cnt os p + cnt as_ p ->
  expand os as_ n !! (Z.to_nat (offset os as_ p) + x)%nat =
    Some (cnt os p <=? Z.of_nat x).
Proof.
  intros Hp Hn Hx. destruct (Hn p) as [Ho Ha].
  assert (exists rest, expand os as_ n = expand os as_ p ++ block (cnt os p) (cnt as_ p) ++ rest)
    as [rest ->].
  { clear Hx. induction n as [|n IH]; [lia|]. rewrite expand_S.
    destruct (decide (p = n)) as [->|]; [exists []; by rewrite app_nil_r|].
    destruct IH as [r ->]; [lia|]. rewrite <- !app_assoc. by eexists. }
  unfold offset. rewrite Nat2Z.id, lookup_app_r by lia.
  replace (length (expand os as_ p) + x - length (expand os as_ p))%nat with x by lia.
  pose proof (block_length (cnt os p) (cnt as_ p) Ho Ha).
  rewrite lookup_app_l by lia. unfold block. destruct (Z.leb_spec (cnt os p) (Z.of_nat x)).
  - rewrite lookup_app_r by (rewrite length_replicate; lia).
    rewrite lookup_replicate_2; [done|]. rewrite length_replicate. lia.
  - rewrite lookup_app_l by (rewrite length_replicate; lia).
    by rewrite lookup_replicate_2 by lia.
Qed.

(** The bit at a place: a 0 as long as zeros are left. *)
Lemma place_bit os as_ n p o a q :
  (p < n)%nat -> (forall j, 0 <= cnt os j /\ 0 <= cnt as_ j) ->
  place os as_ p o a q -> 1 <= a ->
  expand os as_ n !! Z.to_nat q = Some (o =? 0).
Proof.
  intros Hp Hn (Hq & Ho & Ha & Hz) Ha1.
  assert (Z.to_nat q = Z.to_nat (offset os as_ p) +
    Z.to_nat (cnt os p - o + (cnt as_ p - a)))%nat as ->.
  { assert (0 <= offset os as_ p) by (unfold offset; lia). lia. }
  rewrite expand_lookup by (done || lia). f_equal.
  destruct (Z.eqb_spec o 0); [apply Z.leb_le|apply Z.leb_gt]; lia.
Qed.
