(* ===== verification/FtsCounters.v ===== *)
(** * Tolerance counters

    [tol_counter_set], [partitions_print] and [tolc_update]: the counters of
    dynamic compensation count the blocks of the task's pattern, without loss
    and without overflow, and a replenishment starts the pattern anew. *)

From stdpp Require Import base tactics numbers option list list_numbers gmap fin_maps.
From Stdlib Require Import ZArith Lia.
From S2P Require Import Prelude Status Pattern Fts FtsLemmas Counters.

Open Scope Z_scope.

(** ** One counter of one task *)
Section Access.
Context {T : Type}.
Implicit Types s : fts_state T.

(** A field of counters that behaves like a field. *)
Definition counter_field (c : field (fts_state T) (list tol_counter)) : Prop :=
  forall v s, fget c (fset c v s) = v.

Lemma rd_o_run c i j t x s :
  0 <= i -> 0 <= j -> fget c s !! Z.to_nat i = Some t ->
  tol_counter_o t !! Z.to_nat j = Some x -> rd_o c i j s = Ok (x, s).
Proof.
  intros Hi Hj Ht Hx. unfold rd_o. rewrite (rd_bind _ _ t) by done.
  unfold lift. by rewrite (arr_get_ok _ _ x).
Qed.

Lemma rd_a_run c i j t x s :
  0 <= i -> 0 <= j -> fget c s !! Z.to_nat i = Some t ->
  tol_counter_a t !! Z.to_nat j = Some x -> rd_a c i j s = Ok (x, s).
Proof.
  intros Hi Hj Ht Hx. unfold rd_a. rewrite (rd_bind _ _ t) by done.
  unfold lift. by rewrite (arr_get_ok _ _ x).
Qed.

Lemma wr_o_run c i j t v s :
  0 <= i -> 0 <= j < Z.of_nat (length (tol_counter_o t)) ->
  fget c s !! Z.to_nat i = Some t ->
  wr_o c i j v s = Ok (tt, fset c (<[Z.to_nat i :=
    mk_tol_counter (<[Z.to_nat j := v]> (tol_counter_o t)) (tol_counter_a t)]> (fget c s)) s).
Proof.
  intros Hi Hj Ht. unfold wr_o. rewrite (rd_bind _ _ t) by done.
  rewrite (lift_bind _ _ _ _ (arr_set_ok _ _ _ Hj)).
  apply lookup_lt_Some in Ht as Hlt. rewrite <- bind_tt_r, wr_bind by lia. done.
Qed.

Lemma wr_a_run c i j t v s :
  0 <= i -> 0 <= j < Z.of_nat (length (tol_counter_a t)) ->
  fget c s !! Z.to_nat i = Some t ->
  wr_a c i j v s = Ok (tt, fset c (<[Z.to_nat i :=
    mk_tol_counter (tol_counter_o t) (<[Z.to_nat j := v]> (tol_counter_a t))]> (fget c s)) s).
Proof.
  intros Hi Hj Ht. unfold wr_a. rewrite (rd_bind _ _ t) by done.
  rewrite (lift_bind _ _ _ _ (arr_set_ok _ _ _ Hj)).
  apply lookup_lt_Some in Ht as Hlt. rewrite <- bind_tt_r, wr_bind by lia. done.
Qed.

Lemma cnt_lookup (l : list Z) (j : nat) : (j < length l)%nat -> l !! j = Some (cnt l j).
Proof.
  intros Hj. unfold cnt. by destruct (lookup_lt_is_Some_2 l j Hj) as [x ->].
Qed.

End Access.

(** ** Counting *)
Section Counting.
Context {T : Type}.
Implicit Types s : fts_state T.

(** The state with other constant counters for task [i]. *)
Definition with_const (i : Z) (os as_ : list Z) s : fts_state T :=
  set_tol_counter_const
    (<[Z.to_nat i := mk_tol_counter os as_]> (tol_counter_const s)) s.

Lemma with_const_lookup i os as_ s :
  0 <= i < Z.of_nat (length (tol_counter_const s)) ->
  tol_counter_const (with_const i os as_ s) !! Z.to_nat i = Some (mk_tol_counter os as_).
Proof. intros Hi. cbn. rewrite list_lookup_insert_eq by lia. done. Qed.

Lemma with_const_twice i os as_ os' as' s :
  with_const i os' as' (with_const i os as_ s) = with_const i os' as' s.
Proof. unfold with_const. cbn. by rewrite list_insert_insert_eq. Qed.

Lemma falls_take last l n : falls last (take n l) <= falls last l.
Proof.
  rewrite <- (take_drop n l) at 2. rewrite falls_app.
  pose proof (falls_nonneg (List.last (take n l) last) (drop n l)). lia.
Qed.

(** Counters stay below the length of what they count. *)
Lemma counted_le os as_ p last pre :
  counted os as_ p last pre ->
  cnt os p + cnt as_ p <= Z.of_nat (length pre).
Proof.
  intros Hc. pose proof (cnt_nonneg _ _ _ _ _ Hc p) as [? ?].
  rewrite <- (cnt_expand _ _ _ _ _ Hc), expand_S, length_app, Nat2Z.inj_add.
  rewrite block_length by done. lia.
Qed.

(** The loop state after the bits [pre]. *)
Definition counting i s (last : bool) (part : Z) (s' : fts_state T) (pre : list bool) : Prop :=
  exists os as_ p, part = Z.of_nat p /\ s' = with_const i os as_ s /\
    length os = 16%nat /\ length as_ = 16%nat /\ counted os as_ p last pre.

(** One more bit. *)
Lemma counting_bit i s it end_ maxbit j last part s' pre c :
  0 <= i < Z.of_nat (length (tol_counter_const s)) ->
  mem8 s !! it = Some c -> 0 <= j < 8 ->
  (maxbit <? j) && (it =? end_) = false ->
  Z.of_nat (length pre) < 65535 ->
  falls false (pre ++ [Z.testbit c (7 - j)]) < 16 ->
  counting i s last part s' pre ->
  exists last' part' s'',
    tol_counter_bit i it end_ maxbit j (Z.shiftr BIT_7 j, b2z last, part) s' =
      Ok (inl (Z.shiftr BIT_7 (j + 1), b2z last', part'), s'') /\
    counting i s last' part' s'' (pre ++ [Z.testbit c (7 - j)]).
Proof.
  intros Hi Hc Hj Hgo Hlen Hf (os & as_ & p & -> & -> & Hos & Has & Hcnt).
  pose proof (counted_le _ _ _ _ _ Hcnt) as Hle.
  pose proof (cnt_nonneg _ _ _ _ _ Hcnt p) as [Hno Hna].
  pose proof (falls_nonneg false pre) as Hnn.
  pose proof (cnt_falls _ _ _ _ _ Hcnt) as Hp.
  pose proof (with_const_lookup i os as_ s Hi) as Hlk.
  cbn [tol_counter_bit]. rewrite Hgo. rewrite (ldm_bind _ _ c) by done.
  rewrite mask_bit by done. rewrite <- (Z.shiftr_shiftr _ _ 1) by lia.
  rewrite falls_snoc, (cnt_last _ _ _ _ _ Hcnt) in Hf.
  destruct (Z.testbit c (7 - j)); cbn [negb].
  - (* a 1 *)
    cbn [negb andb b2z] in Hf. rewrite andb_false_r in Hf. cbn [b2z] in Hf.
    rewrite (cm_bind_ok _ _ _ _ _ (rd_a_run F_tol_counter_const i (Z.of_nat p) _ (cnt as_ p) _
      ltac:(lia) ltac:(lia) Hlk ltac:(rewrite Nat2Z.id; apply cnt_lookup; cbn; lia))).
    rewrite (cm_bind_ok _ _ _ _ _ (wr_a_run F_tol_counter_const i (Z.of_nat p) (mk_tol_counter os as_) _ _
      ltac:(lia) ltac:(cbn; lia) Hlk)).
    exists true. eexists _, _. split; [reflexivity|].
    exists os, (<[p := cnt as_ p + 1]> as_), p. split; [done|]. split.
    { rewrite Nat2Z.id, u16_id by lia. cbn [tol_counter_a tol_counter_o fget fset
        F_tol_counter_const]. fold (with_const i os (<[p := cnt as_ p + 1]> as_)
        (with_const i os as_ s)). apply with_const_twice. }
    rewrite length_insert. split; [done|]. split; [done|]. by eapply counted_one; [lia|].
  - (* a 0 *)
    set (p' := if last then S p else p).
    assert ((if b2z last =? 1 then u8 (Z.of_nat p + 1) else Z.of_nat p) = Z.of_nat p') as Hp'.
    { unfold p'. destruct last; cbn [b2z andb negb] in *; [|done].
      change (1 =? 1) with true. cbn iota. rewrite u8_id by lia. lia. }
    rewrite Hp'.
    assert (p' < 16)%nat as Hlt by (unfold p'; destruct last; cbn [b2z andb negb] in *; lia).
    assert (0 <= cnt os p' < 65535) as Hcp.
    { unfold p'. destruct last; [|lia]. destruct (cnt_rest _ _ _ _ _ Hcnt (S p)); lia. }
    rewrite (cm_bind_ok _ _ _ _ _ (rd_o_run F_tol_counter_const i (Z.of_nat p') _ (cnt os p') _
      ltac:(lia) ltac:(lia) Hlk ltac:(rewrite Nat2Z.id; apply cnt_lookup; cbn; lia))).
    rewrite (cm_bind_ok _ _ _ _ _ (wr_o_run F_tol_counter_const i (Z.of_nat p') (mk_tol_counter os as_) _ _
      ltac:(lia) ltac:(cbn; lia) Hlk)).
    exists false. eexists _, _. split; [reflexivity|].
    exists (<[p' := cnt os p' + 1]> os), as_, p'. split; [done|]. split.
    { rewrite Nat2Z.id, u16_id by lia. cbn [tol_counter_a tol_counter_o fget fset
        F_tol_counter_const]. fold (with_const i (<[p' := cnt os p' + 1]> os) as_
        (with_const i os as_ s)). apply with_const_twice. }
    rewrite length_insert. split; [done|]. split; [done|]. unfold p'. destruct last.
    + by apply counted_zero_next; [lia|].
    + by apply counted_zero_same; [lia|].
Qed.

(** The first [n] bits of the pattern and the next one. *)
Lemma take_bits_S m start end_ maxbit n :
  0 <= n < pattern_len start end_ maxbit ->
  take (Z.to_nat (n + 1)) (pattern_bits m start end_ maxbit) =
    take (Z.to_nat n) (pattern_bits m start end_ maxbit) ++ [bit_at m start n].
Proof.
  intros Hn. replace (Z.to_nat (n + 1)) with (S (Z.to_nat n)) by lia.
  erewrite take_S_r; [done|]. rewrite pattern_bits_lookup by lia. by rewrite Z2Nat.id by lia.
Qed.

(** One byte, up to the last bit of the pattern. *)
Lemma counting_byte i s start end_ maxbit it last part s' :
  0 <= i < Z.of_nat (length (tol_counter_const s)) ->
  0 <= maxbit <= 7 -> start <= it <= end_ -> mapped (mem8 s) start end_ ->
  let bits := pattern_bits (mem8 s) start end_ maxbit in
  Z.of_nat (length bits) <= 65535 -> falls false bits < 16 ->
  counting i s last part s' (take (Z.to_nat (8 * (it - start))) bits) ->
  exists last' part' s'',
    tol_counter_byte i end_ maxbit it (b2z last, part) s' =
      Ok (inl (b2z last', part'), s'') /\
    counting i s last' part' s'' (take (Z.to_nat (8 * (it + 1 - start))) bits).
Proof.
  intros Hi Hmax Hit Hmap bits Hlen Hf Hcnt. destruct (Hmap it) as [c Hc]; [lia|].
  pose proof (pattern_bits_length (mem8 s) start end_ maxbit) as HL. fold bits in HL.
  unfold pattern_len in HL.
  destruct (c_for_inv_break
    (fun j (x : Z * Z * Z) s' => exists last part, x = (Z.shiftr BIT_7 j, b2z last, part) /\
       8 * (it - start) + j <= Z.of_nat (length bits) /\
       counting i s last part s' (take (Z.to_nat (8 * (it - start) + j)) bits))
    (fun (x : Z * Z * Z) s' => exists last part, x.1.2 = b2z last /\ x.2 = part /\
       counting i s last part s' (take (Z.to_nat (8 * (it + 1 - start))) bits))
    8 0 (tol_counter_bit i it end_ maxbit) (BIT_7, b2z last, part) s')
    as (x & s'' & Hr & last' & part' & Hl & Hp & Hcnt').
  - exists last, part. rewrite Z.add_0_r. split; [done|]. split; [lia|done].
  - intros j x s1 Hj (l1 & p1 & -> & Hle & Hc1).
    destruct ((maxbit <? j) && (it =? end_)) eqn:Hgo.
    + apply andb_prop in Hgo as [Hm%Z.ltb_lt He%Z.eqb_eq].
      eexists _, _. split.
      { cbn [tol_counter_bit]. rewrite (proj2 (Z.ltb_lt _ _) Hm), (proj2 (Z.eqb_eq _ _) He).
        reflexivity. }
      exists l1, p1. split; [done|]. split; [done|].
      rewrite take_ge in Hc1 |- * by lia. done.
    + assert (0 <= 8 * (it - start) + j < pattern_len start end_ maxbit) as Hn.
      { unfold pattern_len. apply andb_false_iff in Hgo as [?%Z.ltb_ge|?%Z.eqb_neq]; lia. }
      pose proof (take_bits_S (mem8 s) start end_ maxbit _ Hn) as Htake. fold bits in Htake.
      rewrite (bit_at_byte _ _ _ _ c) in Htake;
        [|lia|by replace (start + (it - start)) with it by lia].
      destruct (counting_bit i s it end_ maxbit j l1 p1 s1
        (take (Z.to_nat (8 * (it - start) + j)) bits) c) as (l2 & p2 & s2 & Hr & Hc2);
        [done|done|lia|done| | |done|].
      { rewrite length_take. unfold pattern_len in Hn. lia. }
      { rewrite <- Htake. pose proof (falls_take false bits (Z.to_nat (8 * (it - start) + j + 1))).
        lia. }
      eexists _, _. split; [exact Hr|]. exists l2, p2. split; [done|].
      split; [unfold pattern_len in Hn; lia|].
      replace (8 * (it - start) + (j + 1)) with (8 * (it - start) + j + 1) by lia.
      by rewrite Htake.
  - intros x s1 (l1 & p1 & -> & Hle & Hc1). exists l1, p1. split; [done|]. split; [done|].
    by replace (8 * (it + 1 - start)) with (8 * (it - start) + (0 + Z.of_nat 8)) by lia.
  - cbn [tol_counter_byte]. rewrite (cm_bind_ok _ _ _ _ _ Hr). exists last', part', s''.
    rewrite Hl, Hp. done.
Qed.

Lemma partitions_print_run i n t s :
  0 <= i -> 0 <= n < 16 -> nr_partitions s !! Z.to_nat i = Some n ->
  tol_counter_const s !! Z.to_nat i = Some t -> counters_wf t ->
  exists o a, partitions_print i s = Ok ((o, a), s) /\
    o = take (Z.to_nat (n + 1)) (tol_counter_o t) /\
    a = take (Z.to_nat (n + 1)) (tol_counter_a t).
Proof.
  intros Hi Hn Hnr Ht [Hlo Hla]. unfold partitions_print. rewrite (rd_bind _ _ n) by done.
  destruct (c_for_inv (fun m (acc : list Z) s' => s' = s /\
      acc = take (Z.to_nat m) (tol_counter_o t)) (Z.to_nat (n + 1)) 0
    (fun m acc => out ← rd_o F_tol_counter_const i m; mret (inl (acc ++ [out]))) [] s)
    as (o & s1 & Hr1 & -> & Ho); [done| |].
  { intros m acc s' Hm [-> ->]. eexists _, _. split.
    - rewrite (cm_bind_ok _ _ _ _ _ (rd_o_run F_tol_counter_const i m t
        (cnt (tol_counter_o t) (Z.to_nat m)) s ltac:(lia) ltac:(lia) Ht
        ltac:(apply cnt_lookup; lia))). reflexivity.
    - split; [done|]. replace (Z.to_nat (m + 1)) with (S (Z.to_nat m)) by lia.
      by erewrite take_S_r by (apply cnt_lookup; lia). }
  rewrite (cm_bind_ok _ _ _ _ _ Hr1).
  destruct (c_for_inv (fun m (acc : list Z) s' => s' = s /\
      acc = take (Z.to_nat m) (tol_counter_a t)) (Z.to_nat (n + 1)) 0
    (fun m acc => out ← rd_a F_tol_counter_const i m; mret (inl (acc ++ [out]))) [] s)
    as (a & s2 & Hr2 & -> & Ha); [done| |].
  { intros m acc s' Hm [-> ->]. eexists _, _. split.
    - rewrite (cm_bind_ok _ _ _ _ _ (rd_a_run F_tol_counter_const i m t
        (cnt (tol_counter_a t) (Z.to_nat m)) s ltac:(lia) ltac:(lia) Ht
        ltac:(apply cnt_lookup; lia))). reflexivity.
    - split; [done|]. replace (Z.to_nat (m + 1)) with (S (Z.to_nat m)) by lia.
      by erewrite take_S_r by (apply cnt_lookup; lia). }
  rewrite (cm_bind_ok _ _ _ _ _ Hr2). exists o, a. split; [done|].
  by rewrite Ho, Ha, Z.add_0_l, Z2Nat.id by lia.
Qed.

(** The counters [tol_counter_set] leaves in a slot that held zeros. *)
Lemma tol_counter_set_run i s start end_ maxbit :
  0 <= i < Z.of_nat (length (tol_counter_const s)) ->
  i < Z.of_nat (length (nr_partitions s)) ->
  tol_counter_const s !! Z.to_nat i = Some tol_counter_zero ->
  start <= end_ -> 0 <= maxbit <= 7 -> mapped (mem8 s) start end_ ->
  let bits := pattern_bits (mem8 s) start end_ maxbit in
  Z.of_nat (length bits) <= 65535 -> falls false bits < 16 ->
  exists os as_ p last,
    tol_counter_set i start end_ maxbit s =
      Ok (tt, set_nr_partitions (<[Z.to_nat i := Z.of_nat p]> (nr_partitions s))
                (with_const i os as_ s)) /\
    length os = 16%nat /\ length as_ = 16%nat /\ (p < 16)%nat /\
    counted os as_ p last bits.
Proof.
  intros Hi Hnr Hz Hse Hmax Hmap bits Hlen Hf. unfold tol_counter_set.
  pose proof (pattern_bits_length (mem8 s) start end_ maxbit) as HL. fold bits in HL.
  unfold pattern_len in HL.
  destruct (c_for_inv (fun it (x : Z * Z) s' => exists last part, x = (b2z last, part) /\
      counting i s last part s' (take (Z.to_nat (8 * (it - start))) bits))
    (Z.to_nat (end_ - start + 1)) start (tol_counter_byte i end_ maxbit) (0, 0) s)
    as (x & s' & Hr & last & part & -> & os & as_ & p & -> & -> & Hos & Has & Hcnt).
  - exists false, 0. split; [done|]. exists (replicate 16 0), (replicate 16 0), 0%nat.
    split; [done|]. split; [|split; [done|split; [done|]]].
    + unfold with_const. fold tol_counter_zero. rewrite list_insert_id by done. by destruct s.
    + rewrite Z.sub_diag, Z.mul_0_r. apply counted_empty.
  - intros it x s' Hit (last & part & -> & Hc).
    destruct (counting_byte i s start end_ maxbit it last part s') as (l' & p' & s'' & Hr & Hc');
      [done|done|lia|done..|].
    eexists _, _. split; [exact Hr|]. by exists l', p'.
  - rewrite take_ge in Hcnt by lia.
    assert (p < 16)%nat by (pose proof (cnt_falls _ _ _ _ _ Hcnt); lia).
    rewrite (cm_bind_ok _ _ _ _ _ Hr). cbn [snd].
    rewrite wr_bind by (cbn; lia).
    set (s2 := fset F_nr_partitions _ _).
    destruct (partitions_print_run i (Z.of_nat p) (mk_tol_counter os as_) s2)
      as (o & a & Hp & _ & _); [lia|lia| | |done|].
    { cbn. by rewrite list_lookup_insert_eq by lia. }
    { apply with_const_lookup. lia. }
    rewrite (cm_bind_ok _ _ _ _ _ Hp). exists os, as_, p, last. done.
Qed.

End Counting.

(** ** Replenishment *)
Section Replenish.
Context {T : Type}.
Implicit Types s : fts_state T.

Definition with_temp (i : Z) (os as_ : list Z) s : fts_state T :=
  set_tol_counter_temp
    (<[Z.to_nat i := mk_tol_counter os as_]> (tol_counter_temp s)) s.

Lemma with_temp_lookup i os as_ s :
  0 <= i < Z.of_nat (length (tol_counter_temp s)) ->
  tol_counter_temp (with_temp i os as_ s) !! Z.to_nat i = Some (mk_tol_counter os as_).
Proof. intros Hi. cbn. rewrite list_lookup_insert_eq by lia. done. Qed.

Lemma with_temp_twice i os as_ os' as' s :
  with_temp i os' as' (with_temp i os as_ s) = with_temp i os' as' s.
Proof. unfold with_temp. cbn. by rewrite list_insert_insert_eq. Qed.

(** The counters after the first [n] have been copied from [os]. *)
Definition refreshed (n : nat) (os l l' : list Z) : Prop :=
  length l' = length l /\
  forall j, cnt l' j = if decide (j < n)%nat then cnt os j else cnt l j.

Lemma refreshed_step n os l l' :
  (n < length l)%nat -> refreshed n os l l' ->
  refreshed (S n) os l (<[n := cnt os n]> l').
Proof.
  intros Hn [Hlen Hc]. split; [by rewrite length_insert|]. intros j.
  rewrite cnt_insert, Hc by lia.
  destruct (decide (n = j)), (decide (j < n)%nat), (decide (j < S n)%nat); subst; done || lia.
Qed.

Lemma tolc_update_run i p os as_ t s :
  0 <= i -> (p < 16)%nat -> nr_partitions s !! Z.to_nat i = Some (Z.of_nat p) ->
  tol_counter_const s !! Z.to_nat i = Some (mk_tol_counter os as_) ->
  length os = 16%nat -> length as_ = 16%nat ->
  tol_counter_temp s !! Z.to_nat i = Some t -> counters_wf t ->
  i < Z.of_nat (length (partition_index s)) ->
  exists os' as',
    tolc_update i s =
      Ok (tt, set_partition_index (<[Z.to_nat i := 0]> (partition_index s))
                (with_temp i os' as' s)) /\
    refreshed (S p) os (tol_counter_o t) os' /\ refreshed (S p) as_ (tol_counter_a t) as'.
Proof.
  intros Hi Hp Hnr Hc Hos Has Ht [Hto Hta] Hpi. unfold tolc_update.
  rewrite (rd_bind _ _ (Z.of_nat p)) by done.
  apply lookup_lt_Some in Ht as Hlt.
  destruct (c_for_inv (fun j (_ : unit) s' => exists os' as', s' = with_temp i os' as' s /\
      refreshed (Z.to_nat j) os (tol_counter_o t) os' /\
      refreshed (Z.to_nat j) as_ (tol_counter_a t) as')
    (Z.to_nat (Z.of_nat p + 1)) 0
    (fun j _ =>
       o ← rd_o F_tol_counter_const i j;
       wr_o F_tol_counter_temp i j o;;
       a ← rd_a F_tol_counter_const i j;
       wr_a F_tol_counter_temp i j a;;
       mret (inl tt)) tt s) as ([] & s' & Hr & os' & as' & -> & Ho & Ha).
  - exists (tol_counter_o t), (tol_counter_a t). split; [|split; (split; [done|])].
    + unfold with_temp. destruct t as [o a]. cbn in *. rewrite list_insert_id by done.
      by destruct s.
    + intros j. rewrite decide_False by lia. done.
    + intros j. rewrite decide_False by lia. done.
  - intros j [] s' Hj (os' & as' & -> & Ho & Ha). exists tt. eexists. split.
    { rewrite (cm_bind_ok _ _ _ _ _ (rd_o_run F_tol_counter_const i j (mk_tol_counter os as_)
        (cnt os (Z.to_nat j)) (with_temp i os' as' s) ltac:(lia) ltac:(lia) Hc ltac:(apply cnt_lookup; cbn; lia))).
      rewrite (cm_bind_ok _ _ _ _ _ (wr_o_run F_tol_counter_temp i j (mk_tol_counter os' as')
        _ (with_temp i os' as' s) ltac:(lia) ltac:(cbn; destruct Ho; lia) ltac:(apply with_temp_lookup; lia))).
      cbn [tol_counter_o tol_counter_a fget fset F_tol_counter_temp].
      fold (with_temp i (<[Z.to_nat j := cnt os (Z.to_nat j)]> os') as' (with_temp i os' as' s)).
      rewrite with_temp_twice.
      rewrite (cm_bind_ok _ _ _ _ _ (rd_a_run F_tol_counter_const i j (mk_tol_counter os as_)
        (cnt as_ (Z.to_nat j))
        (with_temp i (<[Z.to_nat j := cnt os (Z.to_nat j)]> os') as' s)
        ltac:(lia) ltac:(lia) Hc ltac:(apply cnt_lookup; cbn; lia))).
      rewrite (cm_bind_ok _ _ _ _ _ (wr_a_run F_tol_counter_temp i j
        (mk_tol_counter (<[Z.to_nat j := cnt os (Z.to_nat j)]> os') as')
        _ (with_temp i (<[Z.to_nat j := cnt os (Z.to_nat j)]> os') as' s)
        ltac:(lia) ltac:(cbn; destruct Ha; lia) ltac:(apply with_temp_lookup; lia))).
      reflexivity. }
    eexists _, _. split.
    { cbn [tol_counter_o tol_counter_a fget fset F_tol_counter_temp]. apply with_temp_twice. }
    replace (Z.to_nat (j + 1)) with (S (Z.to_nat j)) by lia.
    split; apply refreshed_step; done || lia.
  - rewrite (cm_bind_ok _ _ _ _ _ Hr). exists os', as'.
    replace (Z.to_nat (0 + Z.of_nat (Z.to_nat (Z.of_nat p + 1)))) with (S p) in * by lia.
    split; [|done]. rewrite <- bind_tt_r, wr_bind by (cbn; lia). done.
Qed.

End Replenish.
