(* ===== verification/FtsSlots.v ===== *)
(** * The slot of a task

    Everything the decisions about one task depend on, as one record, and
    what an operation on one task leaves alone: the slots and the histories
    of all the others. *)

From stdpp Require Import base tactics numbers option list list_numbers gmap fin_maps.
From Stdlib Require Import ZArith Lia.
From S2P Require Import Prelude Status Pattern Fts FtsLemmas FtsPattern Counters FtsCounters.

Open Scope Z_scope.

Record slot := mk_slot {
  sl_tech : fts_tech;
  sl_start : Z;
  sl_end : Z;
  sl_maxbit : Z;
  sl_curr : Z;
  sl_bit : Z;
  sl_const : tol_counter;
  sl_temp : tol_counter;
  sl_nr : Z;
  sl_pi : Z
}.

Section Slots.
Context {T : Type} `{TaskManager T}.
Implicit Types s : fts_state T.

Record view s (i : Z) (sl : slot) : Prop := {
  vw_tech : tech (tasklist s) !! Z.to_nat i = Some (sl_tech sl);
  vw_start : pattern_start (tasklist s) !! Z.to_nat i = Some (sl_start sl);
  vw_end : pattern_end (tasklist s) !! Z.to_nat i = Some (sl_end sl);
  vw_maxbit : max_bitpos (tasklist s) !! Z.to_nat i = Some (sl_maxbit sl);
  vw_curr : curr_pos (tasklist s) !! Z.to_nat i = Some (sl_curr sl);
  vw_bit : bitpos (tasklist s) !! Z.to_nat i = Some (sl_bit sl);
  vw_const : tol_counter_const s !! Z.to_nat i = Some (sl_const sl);
  vw_temp : tol_counter_temp s !! Z.to_nat i = Some (sl_temp sl);
  vw_nr : nr_partitions s !! Z.to_nat i = Some (sl_nr sl);
  vw_pi : partition_index s !! Z.to_nat i = Some (sl_pi sl)
}.

(** The version released last for the task at [i]. *)
Definition last_version s (i : Z) : option fts_version :=
  snd <$> last (filter (fun r => r.1 = i) (released s)).

(** The step from [s] to [s'] concerns the task at [i] only. *)
Record frame (i : Z) s s' : Prop := {
  fr_wf : fts_wf s';
  fr_mem : mem8 s' = mem8 s;
  fr_ids : ids s' = ids s;
  fr_view : forall j sl, 0 <= j -> j <> i -> view s j sl -> view s' j sl;
  fr_last : forall j, j <> i -> last_version s' j = last_version s j
}.

Lemma frame_refl i s : fts_wf s -> frame i s s.
Proof. by split. Qed.

Lemma frame_trans i s1 s2 s3 : frame i s1 s2 -> frame i s2 s3 -> frame i s1 s3.
Proof.
  intros [W1 M1 I1 V1 L1] [W2 M2 I2 V2 L2]. split; [done|congruence|congruence| |].
  - intros. apply V2; try done. by apply V1.
  - intros. by rewrite L2, L1.
Qed.

(** Everything a slot shows is part of the core of the state. *)
Lemma view_core i sl s s' : core s' = core s -> view s i sl -> view s' i sl.
Proof.
  unfold core. intros Hc [? ? ? ? ? ? ? ? ? ?].
  injection Hc as Hl Hp Hco Ht Hn Hpi Hsp H8 Hid.
  split; congruence.
Qed.

Lemma last_version_snoc s s' i v :
  released s' = released s ++ [(i, v)] -> last_version s' i = Some v.
Proof.
  intros Hr. unfold last_version. rewrite Hr, filter_app, filter_cons_True by done.
  rewrite filter_nil, last_snoc. done.
Qed.

Lemma last_version_other s s' i j v :
  released s' = released s ++ [(i, v)] -> j <> i -> last_version s' j = last_version s j.
Proof.
  intros Hr Hj. unfold last_version. rewrite Hr, filter_app, filter_cons_False by (cbn; lia).
  by rewrite filter_nil, app_nil_r.
Qed.

Lemma frame_core i s s' :
  fts_wf s' -> core s' = core s -> released s' = released s -> frame i s s'.
Proof.
  intros Hwf Hc Hr. pose proof Hc as Hc'. unfold core in Hc'.
  injection Hc' as Hl _ _ _ _ _ _ H8 _. split; [done|done| | |].
  - unfold ids. by rewrite Hl.
  - intros j sl _ _. by apply view_core.
  - intros j _. unfold last_version. by rewrite Hr.
Qed.

(** A release touches the history of its task only. *)
Lemma release_frame i v s :
  fts_wf s -> 0 <= i < 10 ->
  exists s', release_task i v s = Ok (tt, s') /\ frame i s s' /\ core s' = core s /\
    last_version s' i = Some v.
Proof.
  intros Hwf Hi. destruct (release_task_ok i v s Hwf Hi) as (s' & Hr & Hwf' & Hc & Hrel).
  exists s'. split; [done|]. split; [|split; [done|by eapply last_version_snoc]].
  pose proof Hc as Hc'. unfold core in Hc'. injection Hc' as Hl _ _ _ _ _ _ H8 _.
  split; [done|done| | |].
  - unfold ids. by rewrite Hl.
  - intros j sl _ _. by apply view_core.
  - intros j Hj. by eapply last_version_other.
Qed.

Lemma delete_frame running entry n i s :
  fts_wf s -> 0 <= i < 10 -> version_case n running entry ->
  exists s', delete_version running i s = Ok (tt, s') /\ frame i s s' /\ core s' = core s /\
    released s' = released s.
Proof.
  intros Hwf Hi Hc. destruct (delete_version_ok running entry n i s Hwf Hi Hc)
    as (s' & Hr & Hwf' & Hco & Hre).
  exists s'. split; [done|]. split; [by apply frame_core|done].
Qed.

(** The start of a period up to the counters: the versions of the last
    period are deleted. *)
Lemma period_begin_run id i te s :
  fts_wf s -> index_of id (ids s) = i -> 0 <= i < 10 ->
  tech (tasklist s) !! Z.to_nat i = Some te ->
  exists s', frame i s s' /\ core s' = core s /\ released s' = released s /\
    fts_period_begin id s =
      match te with DRE | DDR => fts_period_replenish i s' | _ => Ok (tt, s') end.
Proof.
  intros Hwf Hidx Hi Hte. unfold fts_period_begin.
  rewrite (cm_bind_ok _ _ _ _ _ (task_in_list_t_ok id s Hwf)), Hidx.
  rewrite (proj2 (Z.eqb_neq i (-1))) by lia.
  destruct (delete_frame F_running_id_b F_l_b 0 i s) as (s1 & R1 & F1 & C1 & L1);
    [done|done|constructor|].
  rewrite (cm_bind_ok _ _ _ _ _ R1).
  destruct (delete_frame F_running_id_d F_l_d 1 i s1) as (s2 & R2 & F2 & C2 & L2);
    [apply F1|done|constructor|].
  rewrite (cm_bind_ok _ _ _ _ _ R2).
  destruct (delete_frame F_running_id_c F_l_c 2 i s2) as (s3 & R3 & F3 & C3 & L3);
    [apply F2|done|constructor|].
  rewrite (cm_bind_ok _ _ _ _ _ R3).
  assert (core s3 = core s) as Hc by congruence.
  exists s3. split; [by eapply frame_trans; [|eapply frame_trans]|].
  split; [done|]. split; [congruence|].
  rewrite (rd_bind _ _ te); [by destruct te|lia|].
  unfold core in Hc. injection Hc as Hl _ _ _ _ _ _ _ _. cbn. by rewrite Hl.
Qed.

(** ** Writes to a slot *)

(** The arrays of a slot, as one update. *)
Lemma frame_write i s s' :
  fts_wf s' -> mem8 s' = mem8 s -> ids s' = ids s -> released s' = released s ->
  (forall j sl, 0 <= j -> j <> i -> view s j sl -> view s' j sl) -> frame i s s'.
Proof.
  intros Hwf Hm Hi Hr Hv. split; [done..|]. intros j _. unfold last_version. by rewrite Hr.
Qed.

Lemma lookup_other {A} (l : list A) (i j : Z) x :
  0 <= i -> 0 <= j -> j <> i -> <[Z.to_nat i := x]> l !! Z.to_nat j = l !! Z.to_nat j.
Proof. intros. apply list_lookup_insert_ne. lia. Qed.

End Slots.

(** Proves [frame] for a write to the arrays of slot [i], and the new view. *)
Ltac solve_write :=
  apply frame_write; [|done|done|done|];
  [ match goal with H : fts_wf _ |- _ => destruct H as [[] ? ? ? ? ? ? ? ? ? ? ? ? ? ? ?] end;
    split; [split|..]; cbn; rewrite ?length_insert; try done
  | intros ? ? ? ? []; split; cbn; rewrite ?lookup_other by lia; done ].

Ltac solve_view Hv :=
  destruct Hv; split; cbn; rewrite ?list_lookup_insert_eq by (eapply lookup_lt_Some; eassumption);
  done.

(** Reads an array whose element is known. *)
Ltac rd_known Hx :=
  match goal with
  | |- context [(rd ?f ?i ≫= ?k) ?s] => rewrite (rd_bind f i _ k s ltac:(lia) Hx)
  end.
