(* ===== verification/FtsStatic.v ===== *)
(** * Static compensation

    [static_next_version_t] follows the pattern bit by bit, cyclically: the
    cursor of a task ([curr_pos], [bitpos]) is a place in the pattern, a call
    releases the version the bit at the cursor asks for, and moves on. *)

From stdpp Require Import base tactics numbers option list list_numbers gmap fin_maps.
From Stdlib Require Import ZArith Lia.
From S2P Require Import Prelude Status Pattern Fts FtsLemmas FtsPattern Counters FtsCounters.
From S2P Require Import FtsSlots.

Open Scope Z_scope.

(** The pattern of a slot is in memory. *)
Record holds (m : gmap Z Z) (sl : slot) (bits : list bool) : Prop := {
  h_order : sl_start sl <= sl_end sl;
  h_maxbit : 0 <= sl_maxbit sl <= 7;
  h_mapped : mapped m (sl_start sl) (sl_end sl);
  h_bits : pattern_bits m (sl_start sl) (sl_end sl) (sl_maxbit sl) = bits
}.

(** The place of an instance in the pattern. *)
Definition place_of (bits : list bool) (P : nat) : Z := Z.of_nat (P mod length bits).

(** The cursor stands at the instance [P]. *)
Definition cursor (bits : list bool) (sl : slot) (P : nat) : Prop :=
  let q := place_of bits P in
  sl_curr sl = sl_start sl + q / 8 /\ sl_bit sl = q mod 8.

Definition move (sl : slot) (c b : Z) : slot :=
  mk_slot (sl_tech sl) (sl_start sl) (sl_end sl) (sl_maxbit sl) c b
    (sl_const sl) (sl_temp sl) (sl_nr sl) (sl_pi sl).

(** The version a bit asks for. *)
Definition static_version (te : fts_tech) (bit : bool) : fts_version :=
  if bit then match te with SRE => CORRECTION | _ => DETECTION end else BASIC.

Lemma holds_length m sl bits :
  holds m sl bits ->
  Z.of_nat (length bits) = pattern_len (sl_start sl) (sl_end sl) (sl_maxbit sl) /\
  (0 < length bits)%nat.
Proof.
  intros [Ho Hm _ <-]. rewrite pattern_bits_length. unfold pattern_len. lia.
Qed.

Lemma place_of_range m sl bits P :
  holds m sl bits ->
  0 <= place_of bits P < pattern_len (sl_start sl) (sl_end sl) (sl_maxbit sl).
Proof.
  intros Hh. destruct (holds_length _ _ _ Hh) as [HL Hpos]. unfold place_of.
  pose proof (Nat.mod_upper_bound P (length bits) ltac:(lia)). lia.
Qed.

(** The byte under the cursor has the bit of the instance. *)
Lemma cursor_bit m sl bits P :
  holds m sl bits -> cursor bits sl P ->
  sl_start sl <= sl_curr sl <= sl_end sl /\ 0 <= sl_bit sl < 8 /\
  exists c, m !! sl_curr sl = Some c /\ Z.testbit c (7 - sl_bit sl) = cyc bits P.
Proof.
  intros Hh [Hc Hb]. pose proof (place_of_range _ _ _ P Hh) as Hq.
  pose proof (Z.div_mod (place_of bits P) 8 ltac:(lia)) as Hdm.
  pose proof (Z.mod_pos_bound (place_of bits P) 8 ltac:(lia)) as Hmb.
  destruct Hh as [Hse Hmax Hmap Hbits]. unfold pattern_len in Hq.
  split; [lia|]. split; [lia|]. destruct (Hmap (sl_curr sl)) as [c Hlk]; [lia|].
  exists c. split; [done|]. unfold cyc.
  assert (bits !! (P mod length bits)%nat = Some (bit_at m (sl_start sl) (place_of bits P)))
    as ->.
  { unfold place_of in *. revert Hq. generalize (P mod length bits)%nat as n. intros n Hn.
    rewrite <- Hbits. apply pattern_bits_lookup. unfold pattern_len. lia. }
  cbn. rewrite Hdm at 1.
  rewrite (bit_at_byte _ _ _ _ c); [by rewrite Hb|lia|by rewrite <- Hc].
Qed.

Lemma place_of_S bits P :
  (0 < length bits)%nat ->
  place_of bits (S P) =
    if decide (place_of bits P + 1 < Z.of_nat (length bits)) then place_of bits P + 1 else 0.
Proof.
  intros HL. unfold place_of. pose proof (Nat.mod_upper_bound P (length bits) ltac:(lia)).
  pose proof (Nat.div_mod_eq P (length bits)) as Hdm.
  case_decide.
  - rewrite <- (Nat.mod_unique (S P) (length bits) (P / length bits)
      (S (P mod length bits))) by lia. lia.
  - rewrite <- (Nat.mod_unique (S P) (length bits) (S (P / length bits)) 0) by lia. done.
Qed.

(** Where [static_next_version_t] puts the cursor. *)
Definition next_cursor (sl : slot) : Z * Z :=
  if sl_end sl =? sl_curr sl then
    if sl_bit sl <? sl_maxbit sl then (sl_curr sl, sl_bit sl + 1) else (sl_start sl, 0)
  else
    if sl_bit sl <? 7 then (sl_curr sl, sl_bit sl + 1) else (sl_curr sl + 1, 0).

Lemma next_cursor_correct m sl bits P :
  holds m sl bits -> cursor bits sl P ->
  cursor bits (move sl (next_cursor sl).1 (next_cursor sl).2) (S P).
Proof.
  intros Hh Hcur. destruct (cursor_bit _ _ _ _ Hh Hcur) as (Hc & Hb & _).
  destruct (holds_length _ _ _ Hh) as [HL Hpos].
  destruct Hcur as [Hcu Hbi]. unfold cursor. rewrite place_of_S by done.
  pose proof (place_of_range _ _ _ P Hh) as Hq.
  set (q := place_of bits P) in *. rewrite HL.
  pose proof (Z.div_mod q 8 ltac:(lia)) as Hdm.
  destruct Hh as [_ Hmax _ _]. unfold pattern_len in *.
  assert (forall q', q' = q + 1 -> q mod 8 < 7 -> q' / 8 = q / 8 /\ q' mod 8 = q mod 8 + 1) as H1.
  { intros q' -> Hlt. split; symmetry.
    - apply (Z.div_unique _ _ _ (q mod 8 + 1)); lia.
    - apply (Z.mod_unique _ _ (q / 8)); lia. }
  assert (q mod 8 = 7 -> (q + 1) / 8 = q / 8 + 1 /\ (q + 1) mod 8 = 0) as H2.
  { intros Hlt. split; symmetry.
    - apply (Z.div_unique _ _ _ 0); lia.
    - apply (Z.mod_unique _ _ (q / 8 + 1)); lia. }
  unfold next_cursor. cbn.
  destruct (Z.eqb_spec (sl_end sl) (sl_curr sl)).
  - destruct (Z.ltb_spec (sl_bit sl) (sl_maxbit sl)); cbn.
    + rewrite decide_True by lia. destruct (H1 (q + 1)); lia.
    + rewrite decide_False by lia. split; [|done]. by rewrite Z.add_0_r.
  - destruct (Z.ltb_spec (sl_bit sl) 7); cbn.
    + rewrite decide_True by lia. destruct (H1 (q + 1)); lia.
    + rewrite decide_True by lia. destruct H2; lia.
Qed.

Section Static.
Context {T : Type} `{TaskManager T}.
Implicit Types s : fts_state T.

(** The writes of the cursor. *)
Lemma write_cursor i sl c b s :
  fts_wf s -> 0 <= i < 10 -> view s i sl ->
  (forall k : unit -> cm (fts_state T) fts_version,
     exists s', ((wr F_bitpos i b;; wr F_curr_pos i c) ≫= k) s = k tt s' /\
     frame i s s' /\ view s' i (move sl c b)) /\
  (sl_curr sl = c -> forall k : unit -> cm (fts_state T) fts_version,
     exists s', (wr F_bitpos i b ≫= k) s = k tt s' /\
     frame i s s' /\ view s' i (move sl c b)).
Proof.
  intros Hwf Hi Hv. pose proof Hwf as Hwf'. destruct_wf Hwf'. split.
  - intros k. eexists. split.
    + rewrite cm_bind_assoc, wr_bind by arr_side. rewrite wr_bind by arr_side. reflexivity.
    + split; [solve_write|solve_view Hv].
  - intros <- k. eexists. split.
    + rewrite wr_bind by arr_side. reflexivity.
    + split; [solve_write|solve_view Hv].
Qed.

Lemma static_next_version_t_run i sl bits P s :
  fts_wf s -> 0 <= i < 10 -> view s i sl -> holds (mem8 s) sl bits -> cursor bits sl P ->
  let v := static_version (sl_tech sl) (cyc bits P) in
  exists s' sl', static_next_version_t i s = Ok (v, s') /\ frame i s s' /\
    last_version s' i = Some v /\ view s' i sl' /\ cursor bits sl' (S P) /\
    exists c b, sl' = move sl c b.
Proof.
  intros Hwf Hi Hv Hh Hcur v.
  destruct (cursor_bit _ _ _ _ Hh Hcur) as (Hc & Hb & c & Hlk & Hbit).
  pose proof (next_cursor_correct _ _ _ _ Hh Hcur) as Hnext.
  unfold static_next_version_t. pose proof Hv as [Vt Vs Ve Vm Vc Vb _ _ _ _].
  rd_known Vs. rd_known Ve. rd_known Vm.
  destruct (show_pattern_t_run (sl_start sl) (sl_end sl) (sl_maxbit sl) s) as (ls & Hsh & _);
    [apply Hh..|].
  rewrite (cm_bind_ok _ _ _ _ _ Hsh).
  rd_known Vb. rd_known Vc.
  rewrite (ldm_bind _ _ c) by done.
  rewrite (lift_bind _ _ _ (Z.shiftr BIT_7 (sl_bit sl))).
  2: { unfold int_shr. by rewrite (proj2 (Z.leb_le _ _)), (proj2 (Z.ltb_lt _ _)) by lia. }
  rewrite mask_u8 by lia.
  destruct (write_cursor i sl (next_cursor sl).1 (next_cursor sl).2 s Hwf Hi Hv) as [Wb Wc].
  match goal with |- context [(_ ≫= ?k) s] => set (K := k) end.
  assert (exists s1, ((if sl_end sl =? sl_curr sl then
     if sl_bit sl <? sl_maxbit sl then wr F_bitpos i (u8 (sl_bit sl + 1))
     else wr F_bitpos i 0;; wr F_curr_pos i (sl_start sl)
   else
     if sl_bit sl <? 7 then wr F_bitpos i (u8 (sl_bit sl + 1))
     else wr F_bitpos i 0;; wr F_curr_pos i (sl_curr sl + 1)) ≫= K) s = K tt s1 /\
     frame i s s1 /\ view s1 i (move sl (next_cursor sl).1 (next_cursor sl).2))
    as (s1 & -> & Hf1 & Hv1).
  { unfold next_cursor in *. rewrite u8_id by lia.
    destruct (sl_end sl =? sl_curr sl); [destruct (sl_bit sl <? sl_maxbit sl)|
      destruct (sl_bit sl <? 7)]; cbn [fst snd] in *; first [apply Wb | apply Wc; done]. }
  unfold K. rewrite (rd_bind _ _ (sl_tech sl)); [|lia|apply Hv1].
  rewrite mask_bit, Hbit by lia.
  assert (match sl_tech sl with
          | SRE => if negb (cyc bits P) then BASIC else CORRECTION
          | _ => if negb (cyc bits P) then BASIC else DETECTION end = v) as ->.
  { unfold v, static_version. by destruct (sl_tech sl), (cyc bits P). }
  destruct (release_frame i v s1) as (s2 & Hr & Hf2 & Hc2 & Hl2); [apply Hf1|done|].
  rewrite (cm_bind_ok _ _ _ _ _ Hr). exists s2. eexists.
  split; [done|]. split; [by eapply frame_trans|]. split; [done|].
  split; [by eapply view_core|]. split; [done|]. by eexists _, _.
Qed.

End Static.
