(* ===== verification/FtsDynamic.v ===== *)
(** * Dynamic compensation

    The counters of a task, with the partition it is in, are a place in its
    pattern.  The three steps of an instance, the replenishment at the start
    of the period, [dynamic_next_version_t] and [fault_detection_routine],
    move that place exactly as the abstract machine of dynamic compensation
    moves through the pattern. *)

From stdpp Require Import base tactics numbers option list list_numbers gmap fin_maps.
From Stdlib Require Import ZArith Lia.
From S2P Require Import Prelude Status Pattern Fts FtsLemmas FtsPattern Counters FtsCounters.
From S2P Require Import FtsSlots FtsStatic.

Open Scope Z_scope.

(** ** Counters as places *)

(** The constant part: the counters count the pattern, which ends with a 1. *)
Record dyn_slot (bits : list bool) (sl : slot) (n : nat) : Prop := {
  ds_const : counters_wf (sl_const sl);
  ds_temp : counters_wf (sl_temp sl);
  ds_nr : sl_nr sl = Z.of_nat n;
  ds_n : (n < 16)%nat;
  ds_counted : counted (tol_counter_o (sl_const sl)) (tol_counter_a (sl_const sl)) n true bits;
  ds_small : Z.of_nat (length bits) <= 65535
}.

(** The counters stand at instance [P], with at least [amin] ones left in the
    partition. *)
Record standing (bits : list bool) (sl : slot) (n : nat) (P : nat) (amin : Z)
    (p : nat) (o a q : Z) : Prop := {
  sd_pi : sl_pi sl = Z.of_nat p;
  sd_p : (p <= n)%nat;
  sd_o : cnt (tol_counter_o (sl_temp sl)) p = o;
  sd_a : cnt (tol_counter_a (sl_temp sl)) p = a;
  sd_place : place (tol_counter_o (sl_const sl)) (tol_counter_a (sl_const sl)) p o a q;
  sd_amin : amin <= a;
  sd_later : forall j, (p < j <= n)%nat ->
    cnt (tol_counter_o (sl_temp sl)) j = cnt (tol_counter_o (sl_const sl)) j /\
    cnt (tol_counter_a (sl_temp sl)) j = cnt (tol_counter_a (sl_const sl)) j;
  sd_pos : place_of bits P = q mod Z.of_nat (length bits)
}.

Definition recount (sl : slot) (t : tol_counter) (pi : Z) : slot :=
  mk_slot (sl_tech sl) (sl_start sl) (sl_end sl) (sl_maxbit sl) (sl_curr sl) (sl_bit sl)
    (sl_const sl) t (sl_nr sl) pi.

Lemma dyn_slot_recount bits sl n t pi :
  counters_wf t -> dyn_slot bits sl n -> dyn_slot bits (recount sl t pi) n.
Proof. intros Ht [? ? ? ? ? ?]. by split. Qed.

(** Every partition ends with ones. *)
Lemma dyn_slot_ones bits sl n p :
  dyn_slot bits sl n -> (p <= n)%nat -> 1 <= cnt (tol_counter_a (sl_const sl)) p.
Proof.
  intros Hd Hp. pose proof (ds_counted _ _ _ Hd) as Hc.
  destruct (decide (p = n)) as [->|]; [by apply (cnt_end _ _ _ _ _ Hc)|].
  apply (cnt_closed _ _ _ _ _ Hc). lia.
Qed.

Lemma dyn_slot_length bits sl n :
  dyn_slot bits sl n ->
  Z.of_nat (length bits) =
    offset (tol_counter_o (sl_const sl)) (tol_counter_a (sl_const sl)) (S n).
Proof.
  intros Hd. pose proof (ds_counted _ _ _ Hd) as Hc.
  unfold offset. by rewrite (cnt_expand _ _ _ _ _ Hc).
Qed.

Lemma offset_mono os as_ p n :
  (forall j, 0 <= cnt os j /\ 0 <= cnt as_ j) -> (p <= n)%nat ->
  offset os as_ p <= offset os as_ n.
Proof.
  intros Hn Hp. induction Hp as [|n Hp IH]; [done|].
  destruct (Hn n). rewrite offset_S by done. lia.
Qed.

(** The bit at the place, while ones are left: whether the zeros are used up. *)
Lemma standing_bit bits sl n P p o a q :
  dyn_slot bits sl n -> standing bits sl n P 1 p o a q ->
  q < Z.of_nat (length bits) /\ 0 <= q /\ cyc bits P = (o =? 0).
Proof.
  intros Hd Hs. pose proof (ds_counted _ _ _ Hd) as Hc.
  destruct Hs as [Hpi Hp Ho Ha Hpl Hmin _ Hpos].
  pose proof (place_bit _ _ (S n) p o a q ltac:(lia) (cnt_nonneg _ _ _ _ _ Hc) Hpl ltac:(lia))
    as Hbit.
  rewrite (cnt_expand _ _ _ _ _ Hc) in Hbit. apply lookup_lt_Some in Hbit as Hlt.
  assert (0 <= q).
  { destruct Hpl as (-> & ? & ? & _). unfold offset. lia. }
  split; [lia|]. split; [done|]. unfold cyc. rewrite Z.mod_small in Hpos by lia.
  unfold place_of in Hpos. replace (P mod length bits)%nat with (Z.to_nat q) by lia.
  by rewrite Hbit.
Qed.

(** The next place. *)
Lemma standing_next bits P q :
  0 <= q < Z.of_nat (length bits) -> place_of bits P = q mod Z.of_nat (length bits) ->
  place_of bits (S P) = (q + 1) mod Z.of_nat (length bits).
Proof.
  intros Hq Hpos. rewrite place_of_S by lia. rewrite Hpos, Z.mod_small by lia.
  case_decide.
  - rewrite Z.mod_small by lia. done.
  - replace (q + 1) with (Z.of_nat (length bits)) by lia. by rewrite Z.mod_same by lia.
Qed.

Lemma standing_weaken bits sl n P p o a q :
  standing bits sl n P 1 p o a q -> standing bits sl n P 0 p o a q.
Proof. intros []. split; try done. lia. Qed.

(** A fault at a 0 uses it up. *)
Lemma standing_fault bits sl n P p o a q :
  dyn_slot bits sl n -> standing bits sl n P 1 p o a q -> 0 < o ->
  standing bits (recount sl (mk_tol_counter (<[p := o - 1]> (tol_counter_o (sl_temp sl)))
    (tol_counter_a (sl_temp sl))) (sl_pi sl)) n (S P) 0 p (o - 1) a (q + 1).
Proof.
  intros Hd Hs Ho. destruct (standing_bit _ _ _ _ _ _ _ _ Hd Hs) as (Hq & Hq0 & _).
  destruct Hs as [Hpi Hp Hto Hta (Hq' & Hor & Har & Hz) Hmin Hl Hpos].
  destruct (ds_temp _ _ _ Hd) as [Hlo Hla]. pose proof (ds_n _ _ _ Hd).
  split; cbn [recount sl_temp sl_const sl_pi tol_counter_o tol_counter_a]; try done; try lia.
  - rewrite cnt_insert, decide_True by (done || lia). done.
  - unfold place. split; [lia|]. split; [lia|]. split; [lia|]. intros _. lia.
  - intros j Hj. rewrite cnt_insert, decide_False by lia. by apply Hl.
  - by apply standing_next.
Qed.

(** A 1 is executed reliably and used up. *)
Lemma standing_one bits sl n P p a q :
  dyn_slot bits sl n -> standing bits sl n P 1 p 0 a q ->
  standing bits (recount sl (mk_tol_counter (tol_counter_o (sl_temp sl))
    (<[p := a - 1]> (tol_counter_a (sl_temp sl)))) (sl_pi sl)) n (S P) 0 p 0 (a - 1) (q + 1).
Proof.
  intros Hd Hs. destruct (standing_bit _ _ _ _ _ _ _ _ Hd Hs) as (Hq & Hq0 & _).
  destruct Hs as [Hpi Hp Hto Hta (Hq' & Hor & Har & Hz) Hmin Hl Hpos].
  destruct (ds_temp _ _ _ Hd) as [Hlo Hla]. pose proof (ds_n _ _ _ Hd).
  split; cbn [recount sl_temp sl_const sl_pi tol_counter_o tol_counter_a]; try done; try lia.
  - rewrite cnt_insert, decide_True by (done || lia). done.
  - unfold place. split; [lia|]. split; [lia|]. split; [lia|]. lia.
  - intros j Hj. rewrite cnt_insert, decide_False by lia. by apply Hl.
  - by apply standing_next.
Qed.

(** From the end of a partition to the start of the next. *)
Lemma standing_advance bits sl n P p q :
  dyn_slot bits sl n -> standing bits sl n P 0 p 0 0 q -> p <> n ->
  exists o a, standing bits (recount sl (sl_temp sl) (Z.of_nat (S p))) n P 1 (S p) o a q.
Proof.
  intros Hd [Hpi Hp Hto Hta (Hq & Hor & Har & Hz) _ Hl Hpos] Hpn.
  pose proof (ds_counted _ _ _ Hd) as Hc. destruct (Hl (S p)) as [Hso Hsa]; [lia|].
  pose proof (dyn_slot_ones _ _ _ (S p) Hd ltac:(lia)).
  destruct (cnt_nonneg _ _ _ _ _ Hc p), (cnt_nonneg _ _ _ _ _ Hc (S p)).
  exists (cnt (tol_counter_o (sl_const sl)) (S p)), (cnt (tol_counter_a (sl_const sl)) (S p)).
  split; cbn [recount sl_temp sl_const sl_pi tol_counter_o tol_counter_a]; try done; try lia.
  - unfold place. rewrite offset_S by done. lia.
  - intros j Hj. apply Hl. lia.
Qed.

(** From the end of the pattern to its start. *)
Lemma standing_restart bits sl n P q os' as' :
  dyn_slot bits sl n -> standing bits sl n P 0 n 0 0 q ->
  refreshed (S n) (tol_counter_o (sl_const sl)) (tol_counter_o (sl_temp sl)) os' ->
  refreshed (S n) (tol_counter_a (sl_const sl)) (tol_counter_a (sl_temp sl)) as' ->
  exists o a, standing bits (recount sl (mk_tol_counter os' as') 0) n P 1 0 o a 0.
Proof.
  intros Hd [Hpi Hp Hto Hta (Hq & Hor & Har & Hz) _ _ Hpos] [_ Ho] [_ Ha].
  pose proof (ds_counted _ _ _ Hd) as Hc.
  pose proof (dyn_slot_ones _ _ _ 0 Hd ltac:(lia)).
  destruct (cnt_nonneg _ _ _ _ _ Hc 0), (cnt_nonneg _ _ _ _ _ Hc n).
  pose proof (dyn_slot_length _ _ _ Hd) as HL. rewrite offset_S in HL by done.
  exists (cnt (tol_counter_o (sl_const sl)) 0), (cnt (tol_counter_a (sl_const sl)) 0).
  split; cbn [recount sl_temp sl_const sl_pi tol_counter_o tol_counter_a]; try done; try lia.
  - unfold place. change (offset _ _ 0) with 0. lia.
  - intros j Hj. rewrite Ho, Ha, !decide_True by lia. done.
  - rewrite Hpos. replace q with (Z.of_nat (length bits)) by lia.
    destruct (decide (length bits = 0)%nat) as [->|]; [done|].
    rewrite Z.mod_same by lia. by rewrite Z.mod_0_l by lia.
Qed.

(** ** The steps of an instance *)
Section Dynamic.
Context {T : Type} `{TaskManager T}.
Implicit Types s : fts_state T.

Lemma write_temp i sl t s :
  fts_wf s -> 0 <= i < 10 -> view s i sl -> counters_wf t ->
  let s' := set_tol_counter_temp (<[Z.to_nat i := t]> (tol_counter_temp s)) s in
  frame i s s' /\ view s' i (recount sl t (sl_pi sl)).
Proof.
  intros Hwf Hi Hv Ht. cbn. split; [|solve_view Hv]. solve_write.
  by apply Forall_insert.
Qed.

Lemma write_pi i sl pi s :
  fts_wf s -> 0 <= i < 10 -> view s i sl ->
  let s' := set_partition_index (<[Z.to_nat i := pi]> (partition_index s)) s in
  frame i s s' /\ view s' i (recount sl (sl_temp sl) pi).
Proof. intros Hwf Hi Hv. cbn. split; [solve_write|solve_view Hv]. Qed.

(** The reads of the current partition. *)
Lemma rd_temp_o i sl n p bits s :
  0 <= i < 10 -> view s i sl -> dyn_slot bits sl n -> (p <= n)%nat ->
  rd_o F_tol_counter_temp i (Z.of_nat p) s = Ok (cnt (tol_counter_o (sl_temp sl)) p, s).
Proof.
  intros Hi Hv Hd Hp. destruct (ds_temp _ _ _ Hd). pose proof (ds_n _ _ _ Hd).
  apply (rd_o_run _ _ _ (sl_temp sl)); [lia|lia|apply Hv|].
  rewrite Nat2Z.id. apply cnt_lookup. lia.
Qed.

Lemma rd_temp_a i sl n p bits s :
  0 <= i < 10 -> view s i sl -> dyn_slot bits sl n -> (p <= n)%nat ->
  rd_a F_tol_counter_temp i (Z.of_nat p) s = Ok (cnt (tol_counter_a (sl_temp sl)) p, s).
Proof.
  intros Hi Hv Hd Hp. destruct (ds_temp _ _ _ Hd). pose proof (ds_n _ _ _ Hd).
  apply (rd_a_run _ _ _ (sl_temp sl)); [lia|lia|apply Hv|].
  rewrite Nat2Z.id. apply cnt_lookup. lia.
Qed.

Lemma replenish_run i sl bits n P p o a q s :
  fts_wf s -> 0 <= i < 10 -> view s i sl -> dyn_slot bits sl n ->
  standing bits sl n P 0 p o a q ->
  exists s' t pi p' o' a' q', fts_period_replenish i s = Ok (tt, s') /\ frame i s s' /\
    released s' = released s /\ view s' i (recount sl t pi) /\ counters_wf t /\
    standing bits (recount sl t pi) n P 1 p' o' a' q'.
Proof.
  intros Hwf Hi Hv Hd Hs. pose proof (ds_n _ _ _ Hd) as Hn.
  pose proof (sd_p _ _ _ _ _ _ _ _ _ Hs) as Hp. pose proof (sd_pi _ _ _ _ _ _ _ _ _ Hs) as Hpi.
  unfold fts_period_replenish. pose proof Hv as [_ _ _ _ _ _ Vc Vt Vn Vp].
  rd_known Vp. rewrite Hpi.
  rewrite (cm_bind_ok _ _ _ _ _ (rd_temp_a i sl n p bits s Hi Hv Hd Hp)).
  rewrite (sd_a _ _ _ _ _ _ _ _ _ Hs). destruct (Z.eqb_spec a 0) as [->|Hane].
  2: { exists s, (sl_temp sl), (sl_pi sl), p, o, a, q. split; [done|].
       assert (recount sl (sl_temp sl) (sl_pi sl) = sl) as -> by (by destruct sl).
       split; [by apply frame_refl|]. split; [done|]. split; [done|].
       split; [apply Hd|]. destruct Hs as [? ? ? ? (? & ? & ? & ?) ? ? ?]. split; try done. lia. }
  assert (o = 0) as ->.
  { destruct (sd_place _ _ _ _ _ _ _ _ _ Hs) as (_ & Ho & Ha & Hz).
    pose proof (dyn_slot_ones _ _ _ _ Hd Hp). lia. }
  rd_known Vn. rewrite (ds_nr _ _ _ Hd).
  destruct (Z.eqb_spec (Z.of_nat n) (Z.of_nat p)) as [He%Nat2Z.inj|Hne].
  - subst p. rewrite cm_bind_assoc.
    rewrite (cm_bind_ok _ _ _ _ _ (rd_temp_a i sl n n bits s Hi Hv Hd Hp)), ret_bind.
    rewrite (sd_a _ _ _ _ _ _ _ _ _ Hs). change (0 =? 0) with true. cbn iota.
    destruct (sl_const sl) as [os as_] eqn:Hco.
    destruct (ds_const _ _ _ Hd) as [Hlo Hla]. rewrite Hco in Hlo, Hla.
    destruct (tolc_update_run i n os as_ (sl_temp sl) s) as (os' & as' & Hr & Ho & Ha);
      [lia|done|by rewrite Vn, (ds_nr _ _ _ Hd)|done|done|done|done|apply Hd| |].
    { destruct Hwf. lia. }
    destruct (standing_restart bits sl n P q os' as' Hd Hs) as (o' & a' & Hs').
    { by rewrite Hco. } { by rewrite Hco. }
    assert (counters_wf (mk_tol_counter os' as')) as Ht'.
    { destruct (ds_temp _ _ _ Hd), Ho, Ha. split; cbn; lia. }
    destruct (write_temp i sl (mk_tol_counter os' as') s Hwf Hi Hv Ht') as [F1 V1].
    destruct (write_pi i _ 0 _ (fr_wf _ _ _ F1) Hi V1) as [F2 V2].
    eexists _, _, 0, 0%nat, o', a', 0. split; [exact Hr|].
    split; [exact (frame_trans _ _ _ _ F1 F2)|]. split; [done|]. split; [exact V2|]. done.
  - rewrite ret_bind. cbn iota.
    destruct (standing_advance bits sl n P p q Hd Hs) as (o' & a' & Hs'); [lia|].
    destruct (write_pi i sl (Z.of_nat (S p)) s Hwf Hi Hv) as [F1 V1].
    eexists _, _, _, (S p), o', a', q. split.
    { rewrite <- bind_tt_r, wr_bind; [reflexivity|]. destruct Hwf. cbn. lia. }
    rewrite u16_id by lia. replace (Z.of_nat p + 1) with (Z.of_nat (S p)) by lia.
    split; [exact F1|]. split; [done|]. split; [exact V1|]. split; [apply Hd|done].
Qed.

(** The version dynamic compensation releases for a bit. *)
Definition dynamic_version (te : fts_tech) (bit : bool) : fts_version :=
  if bit then match te with DRE => CORRECTION | _ => DETECTION end else DETECTION.

Lemma dynamic_next_version_t_run i sl bits n P p o a q s :
  fts_wf s -> 0 <= i < 10 -> view s i sl -> holds (mem8 s) sl bits -> dyn_slot bits sl n ->
  standing bits sl n P 1 p o a q ->
  let v := dynamic_version (sl_tech sl) (cyc bits P) in
  exists s' t, dynamic_next_version_t i s = Ok (v, s') /\ frame i s s' /\
    last_version s' i = Some v /\ view s' i (recount sl t (sl_pi sl)) /\ counters_wf t /\
    if cyc bits P then exists a' q', standing bits (recount sl t (sl_pi sl)) n (S P) 0 p 0 a' q'
    else 0 < o /\ standing bits (recount sl t (sl_pi sl)) n P 1 p o a q.
Proof.
  intros Hwf Hi Hv Hh Hd Hs v. unfold dynamic_next_version_t.
  pose proof Hv as [Vt Vs Ve Vm _ _ _ Vtp _ Vp].
  destruct (standing_bit _ _ _ _ _ _ _ _ Hd Hs) as (Hq & Hq0 & Hbit).
  pose proof (sd_p _ _ _ _ _ _ _ _ _ Hs) as Hp. pose proof (ds_n _ _ _ Hd) as Hn.
  assert (0 <= o) as Ho0 by apply (sd_place _ _ _ _ _ _ _ _ _ Hs).
  rd_known Vs. rd_known Ve. rd_known Vm.
  destruct (show_pattern_t_run (sl_start sl) (sl_end sl) (sl_maxbit sl) s) as (ls & Hsh & _);
    [apply Hh..|].
  rewrite (cm_bind_ok _ _ _ _ _ Hsh). rd_known Vt. rd_known Vp.
  rewrite (sd_pi _ _ _ _ _ _ _ _ _ Hs).
  rewrite (cm_bind_ok _ _ _ _ _ (rd_temp_o i sl n p bits s Hi Hv Hd Hp)).
  rewrite (sd_o _ _ _ _ _ _ _ _ _ Hs).
  assert (v = dynamic_version (sl_tech sl) (o =? 0)) as Hve by (unfold v; by rewrite Hbit).
  clearbody v. rewrite Hbit.
  destruct (Z.ltb_spec 0 o).
  - rewrite (proj2 (Z.eqb_neq o 0)) in * by lia. cbn in Hve. subst v.
    destruct (release_frame i DETECTION s Hwf Hi) as (s1 & Hr & F1 & C1 & L1).
    rewrite (cm_bind_ok _ _ _ _ _ Hr). exists s1, (sl_temp sl). split; [done|].
    assert (recount sl (sl_temp sl) (Z.of_nat p) = sl) as Hre.
    { rewrite <- (sd_pi _ _ _ _ _ _ _ _ _ Hs). by destruct sl. }
    rewrite Hre. split; [done|]. split; [done|]. split; [by eapply view_core|].
    split; [apply Hd|done].
  - assert (o = 0) as -> by lia. change (0 =? 0) with true in *. cbn iota.
    set (t := mk_tol_counter (tol_counter_o (sl_temp sl))
      (<[p := a - 1]> (tol_counter_a (sl_temp sl)))).
    assert (counters_wf t) as Ht.
    { destruct (ds_temp _ _ _ Hd). split; cbn; rewrite ?length_insert; done. }
    assert (0 < a <= 65535) as Ha.
    { destruct (sd_place _ _ _ _ _ _ _ _ _ Hs) as (_ & _ & Ha & _).
      pose proof (sd_amin _ _ _ _ _ _ _ _ _ Hs).
      pose proof (ds_counted _ _ _ Hd) as Hc. pose proof (dyn_slot_length _ _ _ Hd) as HL.
      pose proof (offset_mono _ _ (S p) (S n) (cnt_nonneg _ _ _ _ _ Hc) ltac:(lia)) as Hm.
      destruct (cnt_nonneg _ _ _ _ _ Hc p). rewrite offset_S in Hm by done.
      pose proof (ds_small _ _ _ Hd).
      assert (0 <= offset (tol_counter_o (sl_const sl)) (tol_counter_a (sl_const sl)) p)
        by (unfold offset; lia). lia. }
    assert (forall w (k : unit -> cm (fts_state T) fts_version),
      exists s2, (release_task i w;;
        a0 ← rd_a F_tol_counter_temp i (Z.of_nat p);
        wr_a F_tol_counter_temp i (Z.of_nat p) (u16 (a0 - 1));; k tt) s = k tt s2 /\
        frame i s s2 /\ last_version s2 i = Some w /\
        view s2 i (recount sl t (sl_pi sl))) as Hstep.
    { intros w k. destruct (release_frame i w s Hwf Hi) as (s1 & Hr & F1 & C1 & L1).
      rewrite (cm_bind_ok _ _ _ _ _ Hr). pose proof (view_core i sl s s1 C1 Hv) as V1.
      rewrite (cm_bind_ok _ _ _ _ _ (rd_temp_a i sl n p bits s1 Hi V1 Hd Hp)).
      rewrite (sd_a _ _ _ _ _ _ _ _ _ Hs), u16_id by lia.
      destruct (ds_temp _ _ _ Hd) as [Hlo Hla].
      rewrite (cm_bind_ok _ _ _ _ _ (wr_a_run F_tol_counter_temp i (Z.of_nat p) (sl_temp sl)
        (a - 1) s1 ltac:(lia) ltac:(lia) (vw_temp _ _ _ V1))).
      rewrite Nat2Z.id. cbn [fget fset F_tol_counter_temp]. fold t.
      destruct (write_temp i sl t s1 (fr_wf _ _ _ F1) Hi V1 Ht) as [F2 V2].
      eexists. split; [reflexivity|]. split; [exact (frame_trans _ _ _ _ F1 F2)|].
      split; [exact L1|exact V2]. }
    destruct (Hstep v (fun _ => mret v)) as (s2 & Hr & F2 & L2 & V2).
    exists s2, t. split; [rewrite Hve in *; by destruct (sl_tech sl)|]. split; [done|]. split; [done|].
    rewrite <- (sd_pi _ _ _ _ _ _ _ _ _ Hs).
    split; [done|]. split; [done|]. eexists _, _. by apply standing_one.
Qed.

End Dynamic.
