(* ===== verification/FtsSchedule.v ===== *)
(** * Scheduling protected tasks

    The life of the registered tasks as a sequence of events: a period
    begins, a version is released, the version finishes with or without a
    fault.  The events of different tasks may come in any order.  Every task
    follows the specification of its compensation technique, undisturbed by
    the others. *)

From stdpp Require Import base tactics numbers option list list_numbers gmap fin_maps.
From Stdlib Require Import ZArith Lia.
From S2P Require Import Prelude Status Pattern Fts FtsLemmas FtsPattern Counters FtsCounters.
From S2P Require Import FtsSlots FtsStatic FtsDynamic.

Open Scope Z_scope.

(** ** The specification of a protected task *)

Definition is_fault (fs : fault_status) : bool :=
  match fs with FAULT => true | NO_FAULT => false end.

(** Instance [P] of the pattern ends with a fault or without: is its result
    correct, and which instance of the pattern comes next. *)
Definition finish (te : fts_tech) (bits : list bool) (P : nat) (fs : fault_status)
    : bool * nat :=
  match te with
  | DRE | DDR => dyn_step bits P (is_fault fs)
  | _ => (cyc bits P || negb (is_fault fs), S P)
  end.

Fixpoint spec_run (te : fts_tech) (bits : list bool) (P : nat) (fs : list fault_status)
    : list bool :=
  match fs with
  | [] => []
  | f :: fs' => let '(c, P') := finish te bits P f in c :: spec_run te bits P' fs'
  end.

Lemma spec_run_dynamic te bits P fs :
  te = DRE \/ te = DDR -> spec_run te bits P fs = dyn_run bits P (is_fault <$> fs).
Proof.
  intros Hte. revert P. induction fs as [|f fs IH]; intros P; [done|]. cbn.
  destruct Hte as [-> | ->]; cbn; destruct (dyn_step bits P (is_fault f)) as [c P'];
    by rewrite IH.
Qed.

Lemma spec_run_static te bits P fs :
  te = SRE \/ te = SDR ->
  Forall2 (fun b b' => b = true -> b' = true) (window bits P (length fs))
    (spec_run te bits P fs).
Proof.
  intros Hte. revert P. induction fs as [|f fs IH]; intros P; [constructor|].
  cbn [length spec_run]. rewrite window_S.
  destruct Hte as [-> | ->]; cbn; (constructor; [|apply IH]); intros ->; done.
Qed.

(** The specification meets the requirement the pattern states. *)
Lemma spec_run_robust te bits m P fs :
  te <> NONE -> m <= count_true bits -> mk_robust m (length bits) (spec_run te bits P fs).
Proof.
  intros Hte Hm. destruct te; [done| | | |].
  1, 2: eapply mk_robust_mono; [by apply (window_mk_robust bits m P (length fs))|];
        apply spec_run_static; auto.
  1, 2: rewrite spec_run_dynamic by auto; by apply dyn_run_mk_robust.
Qed.

(** ** Events *)
Inductive fts_event :=
| Begin (id : Z)
| Release (id : Z)
| Finish (id : Z) (fs : fault_status).

Definition event_id (e : fts_event) : Z :=
  match e with Begin id => id | Release id => id | Finish id _ => id end.

(** The faults of the instances of one task. *)
Fixpoint faults_of (id : Z) (evs : list fts_event) : list fault_status :=
  match evs with
  | [] => []
  | Finish id' fs :: r => if decide (id' = id) then fs :: faults_of id r else faults_of id r
  | _ :: r => faults_of id r
  end.

(** The results of one task. *)
Definition results_of (id : Z) (log : list (Z * bool)) : list bool :=
  snd <$> filter (fun r => r.1 = id) log.

Inductive phase := Idle | Ready | Running.

(** The events of one task come in order: a period begins, a version is
    released, it finishes, the next period begins.  A period may begin twice:
    the directive that begins it is also called to query its status. *)
Fixpoint protocol (id : Z) (ph : phase) (evs : list fts_event) : bool :=
  match evs with
  | [] => true
  | e :: r =>
      if decide (event_id e = id) then
        match ph, e with
        | Idle, Begin _ | Ready, Begin _ => protocol id Ready r
        | Ready, Release _ => protocol id Running r
        | Running, Finish _ _ => protocol id Idle r
        | _, _ => false
        end
      else protocol id ph r
  end.

Section Schedule.
Context {T : Type} `{TaskManager T}.
Implicit Types s : fts_state T.
Abbreviation M := (cm (fts_state T)).

(** A version finishes: the detection version calls the detection routine.
    The result is correct when no fault occurred or the correction version
    was released. *)
Definition version_finishes (id : Z) (fs : fault_status) : M bool :=
  i ← task_in_list_t id;
  v ← gets (fun s => last_version s i);
  match v with
  | Some DETECTION => fault_detection_routine id fs
  | _ => mret tt
  end;;
  v' ← gets (fun s => last_version s i);
  mret (negb (is_fault fs) || bool_decide (v' = Some CORRECTION)).

Definition fts_event_run (e : fts_event) : M (list (Z * bool)) :=
  match e with
  | Begin id => fts_period_begin id;; mret []
  | Release id => fts_compensate_t id;; mret []
  | Finish id fs => c ← version_finishes id fs; mret [(id, c)]
  end.

Fixpoint fts_events_run (evs : list fts_event) : M (list (Z * bool)) :=
  match evs with
  | [] => mret []
  | e :: r => l ← fts_event_run e; l' ← fts_events_run r; mret (l ++ l')
  end.

(** ** The simulation relation of one task *)
Definition follows (te : fts_tech) (bits : list bool) (ph : phase) (P : nat) (sl : slot)
    (lv : option fts_version) : Prop :=
  match te with
  | NONE => False
  | SRE | SDR =>
      match ph with
      | Running => cursor bits sl (S P) /\ lv = Some (static_version te (cyc bits P))
      | _ => cursor bits sl P
      end
  | DRE | DDR =>
      exists n, dyn_slot bits sl n /\
      match ph with
      | Idle => exists p o a q, standing bits sl n P 0 p o a q
      | Ready => exists p o a q, standing bits sl n P 1 p o a q
      | Running =>
          lv = Some (dynamic_version te (cyc bits P)) /\
          if cyc bits P then exists p a q, standing bits sl n (S P) 0 p 0 a q
          else exists p o a q, 0 < o /\ standing bits sl n P 1 p o a q
      end
  end.

(** The task at [i] follows its technique at instance [P]. *)
Definition task_at s (i : Z) (te : fts_tech) (bits : list bool) (ph : phase) (P : nat) : Prop :=
  exists sl, view s i sl /\ sl_tech sl = te /\ holds (mem8 s) sl bits /\
    follows te bits ph P sl (last_version s i).

Lemma task_at_frame i j te bits ph P s s' :
  frame i s s' -> 0 <= j -> j <> i -> task_at s j te bits ph P -> task_at s' j te bits ph P.
Proof.
  intros [Hwf Hm Hi Hv Hl] Hj Hne (sl & Hsl & Hte & Hh & Hf).
  exists sl. rewrite Hm, Hl by done. split; [by apply Hv|done].
Qed.

Lemma holds_move m sl bits c b : holds m sl bits -> holds m (move sl c b) bits.
Proof. by intros []; split. Qed.

Lemma holds_recount m sl bits t pi : holds m sl bits -> holds m (recount sl t pi) bits.
Proof. by intros []; split. Qed.

(** ** The three steps *)
Lemma begin_step id i te bits ph P s :
  fts_wf s -> index_of id (ids s) = i -> 0 <= i < 10 -> ph = Idle \/ ph = Ready ->
  task_at s i te bits ph P ->
  exists s', fts_period_begin id s = Ok (tt, s') /\ frame i s s' /\
    task_at s' i te bits Ready P.
Proof.
  intros Hwf Hid Hi Hph (sl & Hv & Hte & Hh & Hf).
  destruct (period_begin_run id i te s) as (s1 & F1 & C1 & L1 & Hrun);
    [done..|rewrite <- Hte; apply Hv|].
  rewrite Hrun. pose proof (view_core _ _ _ _ C1 Hv) as V1.
  assert (last_version s1 i = last_version s i) as Hl by (unfold last_version; by rewrite L1).
  destruct te; [done| | | |].
  1, 2: exists s1; split; [done|]; split; [done|]; exists sl; rewrite (fr_mem _ _ _ F1);
    split; [done|]; split; [done|]; split; [done|]; by destruct Hph as [-> | ->].
  all: destruct Hf as (n & Hd & Hs);
    (assert (exists p o a q, standing bits sl n P 0 p o a q) as (p & o & a & q & Hs0) by
      (destruct Hph as [-> | ->]; destruct Hs as (? & ? & ? & ? & Hs);
       do 4 eexists; [exact Hs|exact (standing_weaken _ _ _ _ _ _ _ _ Hs)]));
    destruct (replenish_run i sl bits n P p o a q s1 (fr_wf _ _ _ F1) Hi V1 Hd Hs0)
      as (s2 & t & pi & p' & o' & a' & q' & Hr & F2 & L2 & V2 & Ht & Hs2);
    exists s2; split; [done|]; (split; [by eapply frame_trans|]);
    exists (recount sl t pi); rewrite (fr_mem _ _ _ F2), (fr_mem _ _ _ F1);
    split; [done|]; split; [done|]; split; [by apply holds_recount|];
    exists n; split; [by apply dyn_slot_recount|]; by do 4 eexists.
Qed.

Lemma compensate_dispatch id i te s :
  fts_wf s -> index_of id (ids s) = i -> 0 <= i ->
  tech (tasklist s) !! Z.to_nat i = Some te ->
  fts_compensate_t id s =
    match te with
    | NONE => Ok (BASIC, s)
    | SRE | SDR => static_next_version_t i s
    | DRE | DDR => dynamic_next_version_t i s
    end.
Proof.
  intros Hwf Hid Hi Hte. unfold fts_compensate_t.
  rewrite (cm_bind_ok _ _ _ _ _ (task_in_list_t_ok id s Hwf)), Hid.
  rewrite (proj2 (Z.eqb_neq i (-1))) by lia. rewrite (rd_bind _ _ te) by done.
  by destruct te.
Qed.

Lemma release_step id i te bits P s :
  fts_wf s -> index_of id (ids s) = i -> 0 <= i < 10 -> task_at s i te bits Ready P ->
  exists v s', fts_compensate_t id s = Ok (v, s') /\ frame i s s' /\
    last_version s' i = Some v /\ task_at s' i te bits Running P.
Proof.
  intros Hwf Hid Hi (sl & Hv & Hte & Hh & Hf).
  rewrite (compensate_dispatch id i te) by (done || lia || (rewrite <- Hte; apply Hv)).
  destruct te; [done| | | |].
  1, 2: destruct (static_next_version_t_run i sl bits P s)
      as (s1 & sl' & Hr & F1 & L1 & V1 & Hc & c & b & ->); [done..|];
    rewrite Hte in Hr, L1; eexists _, s1; split; [exact Hr|]; split; [done|];
    split; [done|]; exists (move sl c b); rewrite (fr_mem _ _ _ F1);
    split; [done|]; split; [done|]; split; [by apply holds_move|done].
  all: destruct Hf as (n & Hd & p & o & a & q & Hs);
    destruct (dynamic_next_version_t_run i sl bits n P p o a q s)
      as (s1 & t & Hr & F1 & L1 & V1 & Ht & Hs1); [done..|];
    rewrite Hte in Hr, L1; eexists _, s1; split; [exact Hr|]; split; [done|];
    split; [done|]; exists (recount sl t (sl_pi sl)); rewrite (fr_mem _ _ _ F1);
    split; [done|]; split; [done|]; split; [by apply holds_recount|];
    exists n; split; [by apply dyn_slot_recount|]; split; [done|];
    destruct (cyc bits P); [by destruct Hs1 as (? & ? & ?); do 3 eexists|
      by destruct Hs1 as (? & ?); do 4 eexists].
Qed.

(** The detection routine after a fault. *)
Lemma detection_fault id i te s :
  fts_wf s -> index_of id (ids s) = i -> 0 <= i < 10 ->
  tech (tasklist s) !! Z.to_nat i = Some te ->
  fault_detection_routine id FAULT s =
    match te with
    | SDR => release_task i CORRECTION s
    | DRE | DDR =>
        (p ← rd F_partition_index i;
         o ← rd_o F_tol_counter_temp i p;
         if 0 <? o then wr_o F_tol_counter_temp i p (u16 (o - 1))
         else release_task i CORRECTION) s
    | _ => Ok (tt, s)
    end.
Proof.
  intros Hwf Hid Hi Hte. unfold fault_detection_routine.
  rewrite (cm_bind_ok _ _ _ _ _ (task_in_list_t_ok id s Hwf)), Hid, u16_id by lia.
  rewrite (rd_bind _ _ te) by (done || lia). by destruct te.
Qed.

Lemma detection_no_fault id s :
  fts_wf s -> fault_detection_routine id NO_FAULT s = Ok (tt, s).
Proof.
  intros Hwf. unfold fault_detection_routine.
  by rewrite (cm_bind_ok _ _ _ _ _ (task_in_list_t_ok id s Hwf)).
Qed.

(** A version that calls no routine, or whose routine does nothing. *)
Lemma finishes_quiet id i v fs s :
  fts_wf s -> index_of id (ids s) = i -> last_version s i = Some v ->
  v <> DETECTION \/ fs = NO_FAULT ->
  version_finishes id fs s =
    Ok (negb (is_fault fs) || bool_decide (v = CORRECTION), s).
Proof.
  intros Hwf Hid Hl Hq. unfold version_finishes.
  rewrite (cm_bind_ok _ _ _ _ _ (task_in_list_t_ok id s Hwf)), Hid, gets_bind, Hl.
  rewrite (cm_bind_ok _ _ _ tt s).
  - rewrite gets_bind, Hl.
    by rewrite (bool_decide_ext (Some v = Some CORRECTION) (v = CORRECTION)) by naive_solver.
  - destruct Hq as [Hq | ->]; [by destruct v|]. destruct v; [done| |done].
    by apply detection_no_fault.
Qed.

(** A detection version that ends with a fault. *)
Lemma finishes_fault id i s s' :
  fts_wf s -> index_of id (ids s) = i -> last_version s i = Some DETECTION ->
  fault_detection_routine id FAULT s = Ok (tt, s') ->
  version_finishes id FAULT s = Ok (bool_decide (last_version s' i = Some CORRECTION), s').
Proof.
  intros Hwf Hid Hl Hr. unfold version_finishes.
  rewrite (cm_bind_ok _ _ _ _ _ (task_in_list_t_ok id s Hwf)), Hid, gets_bind, Hl.
  by rewrite (cm_bind_ok _ _ _ _ _ Hr).
Qed.

(** The fault is corrected by the release of the correction version. *)
Lemma finishes_corrected id i s :
  fts_wf s -> index_of id (ids s) = i -> 0 <= i < 10 -> last_version s i = Some DETECTION ->
  fault_detection_routine id FAULT s = release_task i CORRECTION s ->
  exists s', version_finishes id FAULT s = Ok (true, s') /\ frame i s s' /\ core s' = core s.
Proof.
  intros Hwf Hid Hi Hl Hr. destruct (release_frame i CORRECTION s Hwf Hi) as (s' & Hr' & F & C & L).
  exists s'. rewrite (finishes_fault id i s s') by (done || by rewrite Hr).
  by rewrite L, bool_decide_eq_true_2 by done.
Qed.

Lemma finish_step_static id i te bits P fs s :
  te = SRE \/ te = SDR ->
  fts_wf s -> index_of id (ids s) = i -> 0 <= i < 10 -> task_at s i te bits Running P ->
  exists s', version_finishes id fs s = Ok ((finish te bits P fs).1, s') /\ frame i s s' /\
    task_at s' i te bits Idle (finish te bits P fs).2.
Proof.
  intros Hst Hwf Hid Hi (sl & Hv & Hte & Hh & Hf).
  assert (cursor bits sl (S P) /\ last_version s i = Some (static_version te (cyc bits P)))
    as [Hc Hl] by (destruct Hst as [-> | ->]; done).
  assert (finish te bits P fs = (cyc bits P || negb (is_fault fs), S P)) as ->
    by (destruct Hst as [-> | ->]; done). cbn [fst snd].
  destruct (decide (static_version te (cyc bits P) <> DETECTION \/ fs = NO_FAULT)) as [Hq|Hq].
  - exists s. rewrite (finishes_quiet id i _ fs s Hwf Hid Hl Hq).
    split; [|split; [by apply frame_refl|]].
    + do 2 f_equal. unfold static_version in *.
      destruct Hst as [-> | ->], (cyc bits P), fs; cbn; naive_solver.
    + exists sl. destruct Hst as [-> | ->]; done.
  - assert (static_version te (cyc bits P) = DETECTION /\ fs = FAULT) as [Hd ->].
    { destruct (static_version te (cyc bits P)), fs; naive_solver. }
    assert (te = SDR /\ cyc bits P = true) as [-> Hcy].
    { unfold static_version in Hd. destruct Hst as [-> | ->], (cyc bits P); naive_solver. }
    destruct (finishes_corrected id i s) as (s' & Hr & F & C); [done..|by rewrite Hl, Hd| |].
    { rewrite (detection_fault id i SDR s); [done..|]. rewrite <- Hte. apply Hv. }
    exists s'. rewrite Hr, Hcy. split; [done|]. split; [done|].
    exists sl. rewrite (fr_mem _ _ _ F). split; [by eapply view_core|done].
Qed.

(** What the detection routine does under dynamic compensation: a zero that
    is left is used up, else the correction version is released. *)
Lemma detection_dynamic id i sl bits n p s :
  sl_tech sl = DRE \/ sl_tech sl = DDR ->
  fts_wf s -> index_of id (ids s) = i -> 0 <= i < 10 -> view s i sl -> dyn_slot bits sl n ->
  sl_pi sl = Z.of_nat p -> (p <= n)%nat ->
  let o := cnt (tol_counter_o (sl_temp sl)) p in
  fault_detection_routine id FAULT s =
    if 0 <? o then
      Ok (tt, set_tol_counter_temp (<[Z.to_nat i := mk_tol_counter
        (<[p := u16 (o - 1)]> (tol_counter_o (sl_temp sl))) (tol_counter_a (sl_temp sl))]>
        (tol_counter_temp s)) s)
    else release_task i CORRECTION s.
Proof.
  intros Hst Hwf Hid Hi Hv Hd Hpi Hp o.
  rewrite (detection_fault id i (sl_tech sl) s Hwf Hid Hi (vw_tech _ _ _ Hv)).
  transitivity ((p0 ← rd F_partition_index i;
    o ← rd_o F_tol_counter_temp i p0;
    if 0 <? o then wr_o F_tol_counter_temp i p0 (u16 (o - 1))
    else release_task i CORRECTION) s); [by destruct Hst as [-> | ->]|].
  rd_known (vw_pi _ _ _ Hv). rewrite Hpi.
  rewrite (cm_bind_ok _ _ _ _ _ (rd_temp_o i sl n p bits s Hi Hv Hd Hp)). fold o.
  destruct (0 <? o); [|done].
  rewrite (wr_o_run F_tol_counter_temp i (Z.of_nat p) (sl_temp sl));
    [by rewrite Nat2Z.id|lia| |apply Hv].
  destruct (ds_temp _ _ _ Hd). pose proof (ds_n _ _ _ Hd). lia.
Qed.

(** The counters of a dynamic task at rest. *)
Lemma task_at_idle i te bits n P p o a q sl s :
  te = DRE \/ te = DDR -> view s i sl -> sl_tech sl = te -> holds (mem8 s) sl bits ->
  dyn_slot bits sl n -> standing bits sl n P 0 p o a q -> task_at s i te bits Idle P.
Proof.
  intros Hst Hv Ht Hh Hd Hs. exists sl. split; [done|]. split; [done|]. split; [done|].
  destruct Hst as [-> | ->]; (exists n; split; [done|]; by exists p, o, a, q).
Qed.

(** An instance at a 1 of the pattern. *)
Lemma finish_dynamic_one id i te sl bits n P p a q fs s :
  te = DRE \/ te = DDR -> fts_wf s -> index_of id (ids s) = i -> 0 <= i < 10 ->
  view s i sl -> sl_tech sl = te -> holds (mem8 s) sl bits -> dyn_slot bits sl n ->
  last_version s i = Some (dynamic_version te true) -> standing bits sl n P 0 p 0 a q ->
  exists s', version_finishes id fs s = Ok (true, s') /\ frame i s s' /\
    task_at s' i te bits Idle P.
Proof.
  intros Hst Hwf Hid Hi Hv Hte Hh Hd Hl Hs.
  destruct (decide (dynamic_version te true <> DETECTION \/ fs = NO_FAULT)) as [Hq|Hq].
  - exists s. rewrite (finishes_quiet id i _ fs s Hwf Hid Hl Hq).
    split; [|split; [by apply frame_refl|by eapply task_at_idle]].
    do 2 f_equal. destruct Hst as [-> | ->], fs; cbn; naive_solver.
  - assert (dynamic_version te true = DETECTION /\ fs = FAULT) as [Hdv ->].
    { destruct (dynamic_version te true), fs; naive_solver. }
    rewrite Hdv in Hl.
    destruct (finishes_corrected id i s) as (s' & Hr & F & C); [done..| |].
    { rewrite (detection_dynamic id i sl bits n p s) by (first [done|by rewrite Hte|apply Hs]).
      by rewrite (sd_o _ _ _ _ _ _ _ _ _ Hs). }
    exists s'. split; [done|]. split; [done|].
    eapply task_at_idle; [done|by eapply view_core|done|by rewrite (fr_mem _ _ _ F)|done|done].
Qed.

(** A fault at a 0 of the pattern is tolerated. *)
Lemma finish_dynamic_zero id i te sl bits n P p o a q s :
  te = DRE \/ te = DDR -> fts_wf s -> index_of id (ids s) = i -> 0 <= i < 10 ->
  view s i sl -> sl_tech sl = te -> holds (mem8 s) sl bits -> dyn_slot bits sl n ->
  last_version s i = Some DETECTION -> standing bits sl n P 1 p o a q -> 0 < o ->
  exists s', version_finishes id FAULT s = Ok (false, s') /\ frame i s s' /\
    task_at s' i te bits Idle (S P).
Proof.
  intros Hst Hwf Hid Hi Hv Hte Hh Hd Hl Hs Ho.
  set (t := mk_tol_counter (<[p := o - 1]> (tol_counter_o (sl_temp sl)))
    (tol_counter_a (sl_temp sl))).
  assert (counters_wf t) as Htw.
  { destruct (ds_temp _ _ _ Hd). split; cbn; rewrite ?length_insert; done. }
  destruct (write_temp i sl t s Hwf Hi Hv Htw) as [F V].
  assert (o <= 65535) as Hmax.
  { pose proof (ds_counted _ _ _ Hd) as Hc. pose proof (ds_small _ _ _ Hd).
    pose proof (dyn_slot_length _ _ _ Hd) as HL. pose proof (sd_p _ _ _ _ _ _ _ _ _ Hs).
    pose proof (offset_mono _ _ (S p) (S n) (cnt_nonneg _ _ _ _ _ Hc) ltac:(lia)) as Hm.
    destruct (cnt_nonneg _ _ _ _ _ Hc p). rewrite offset_S in Hm by done.
    destruct (sd_place _ _ _ _ _ _ _ _ _ Hs) as (_ & ? & _ & _).
    assert (0 <= offset (tol_counter_o (sl_const sl)) (tol_counter_a (sl_const sl)) p)
      by (unfold offset; lia). lia. }
  set (s' := set_tol_counter_temp (<[Z.to_nat i := t]> (tol_counter_temp s)) s) in *.
  exists s'. split; [|split; [exact F|]].
  - rewrite (finishes_fault id i s s' Hwf Hid Hl).
    2: { rewrite (detection_dynamic id i sl bits n p s) by (first [done|by rewrite Hte|apply Hs]).
         rewrite (sd_o _ _ _ _ _ _ _ _ _ Hs), (proj2 (Z.ltb_lt 0 o) Ho), u16_id by lia.
         reflexivity. }
    do 2 f_equal. apply bool_decide_eq_false_2. unfold last_version in *. cbn. by rewrite Hl.
  - eapply task_at_idle; [done|exact V|done|by apply holds_recount|
      by apply dyn_slot_recount|by apply standing_fault].
Qed.

Lemma finish_step id i te bits P fs s :
  fts_wf s -> index_of id (ids s) = i -> 0 <= i < 10 -> task_at s i te bits Running P ->
  exists s', version_finishes id fs s = Ok ((finish te bits P fs).1, s') /\ frame i s s' /\
    task_at s' i te bits Idle (finish te bits P fs).2.
Proof.
  intros Hwf Hid Hi Ht.
  assert ((te = SRE \/ te = SDR) \/ te = DRE \/ te = DDR) as [Hst|Hst].
  { destruct Ht as (sl & _ & _ & _ & Hf). destruct te; auto; done. }
  { by apply finish_step_static. }
  destruct Ht as (sl & Hv & Hte & Hh & Hf).
  assert (exists n, dyn_slot bits sl n /\
    last_version s i = Some (dynamic_version te (cyc bits P)) /\
    if cyc bits P then exists p a q, standing bits sl n (S P) 0 p 0 a q
    else exists p o a q, 0 < o /\ standing bits sl n P 1 p o a q) as (n & Hd & Hl & Hs)
    by (destruct Hst as [-> | ->]; destruct Hf as (n & ? & ?); by exists n).
  assert (finish te bits P fs = dyn_step bits P (is_fault fs)) as ->
    by (destruct Hst as [-> | ->]; done). unfold dyn_step.
  destruct (cyc bits P).
  - destruct Hs as (p & a & q & Hs). by eapply finish_dynamic_one.
  - destruct Hs as (p & o & a & q & Ho & Hs). cbn in Hl. destruct fs; cbn [is_fault fst snd].
    + by eapply finish_dynamic_zero.
    + exists s. rewrite (finishes_quiet id i _ _ s Hwf Hid Hl) by auto.
      split; [done|]. split; [by apply frame_refl|].
      eapply task_at_idle; [done..|]. by apply standing_weaken.
Qed.

(** ** All tasks *)
Record ptask := mk_ptask { pt_id : Z; pt_te : fts_tech; pt_bits : list bool }.

(** The registered tasks [ts], each in the phase and at the instance [st]
    gives it. *)
Record scheduled s (ts : list ptask) (st : nat -> phase * nat) : Prop := {
  sc_wf : fts_wf s;
  sc_ids : ids s = pt_id <$> ts;
  sc_nodup : NoDup (pt_id <$> ts);
  sc_tasks : forall j t, ts !! j = Some t ->
    task_at s (Z.of_nat j) (pt_te t) (pt_bits t) (st j).1 (st j).2
}.

Definition upd (st : nat -> phase * nat) (j : nat) (x : phase * nat) : nat -> phase * nat :=
  fun j' => if decide (j' = j) then x else st j'.

Lemma scheduled_index s ts st j t :
  scheduled s ts st -> ts !! j = Some t ->
  index_of (pt_id t) (ids s) = Z.of_nat j /\ 0 <= Z.of_nat j < 10.
Proof.
  intros Hs Ht. pose proof (sc_wf _ _ _ Hs) as Hwf.
  assert (ids s !! j = Some (pt_id t)) as Hj
    by (rewrite (sc_ids _ _ _ Hs), list_lookup_fmap, Ht; done).
  split.
  - apply index_of_registered; [|done]. rewrite (sc_ids _ _ _ Hs). apply Hs.
  - apply lookup_lt_Some in Hj. unfold ids in Hj. rewrite length_take in Hj.
    destruct_wf Hwf. lia.
Qed.

(** A step of one task in the company of the others. *)
Lemma scheduled_frame s s' ts st j t ph P :
  scheduled s ts st -> ts !! j = Some t -> frame (Z.of_nat j) s s' ->
  task_at s' (Z.of_nat j) (pt_te t) (pt_bits t) ph P ->
  scheduled s' ts (upd st j (ph, P)).
Proof.
  intros [Hwf Hi Hn Ht] Hj F Hat. split; [apply F|by rewrite (fr_ids _ _ _ F)|done|].
  intros j' t' Hj'. unfold upd. case_decide as Heq.
  - subst. by rewrite Hj in Hj'; simplify_eq.
  - eapply task_at_frame; [exact F|lia|lia|by apply Ht].
Qed.

Lemma results_of_app id l1 l2 :
  results_of id (l1 ++ l2) = results_of id l1 ++ results_of id l2.
Proof. unfold results_of. by rewrite filter_app, fmap_app. Qed.

(** The next phase of a task, when the event is its own and in order. *)
Definition step_phase (te : fts_tech) (bits : list bool) (x : phase * nat) (e : fts_event)
    : phase * nat :=
  match e with
  | Begin _ => (Ready, x.2)
  | Release _ => (Running, x.2)
  | Finish _ fs => (Idle, (finish te bits x.2 fs).2)
  end.

(** One event of the task at [j]. *)
Lemma event_step s ts st j t e r :
  scheduled s ts st -> ts !! j = Some t -> event_id e = pt_id t ->
  protocol (pt_id t) (st j).1 (e :: r) = true ->
  let x := step_phase (pt_te t) (pt_bits t) (st j) e in
  exists l s', fts_event_run e s = Ok (l, s') /\ scheduled s' ts (upd st j x) /\
    protocol (pt_id t) x.1 r = true /\
    l = match e with
        | Finish id fs => [(id, (finish (pt_te t) (pt_bits t) (st j).2 fs).1)]
        | _ => []
        end.
Proof.
  intros Hs Hj Hid Hp. destruct (scheduled_index _ _ _ _ _ Hs Hj) as [Hidx Hr].
  pose proof (sc_tasks _ _ _ Hs j t Hj) as Ht. pose proof (sc_wf _ _ _ Hs) as Hwf.
  cbn [protocol] in Hp. rewrite decide_True in Hp by done.
  destruct (st j) as [ph P]. cbn [fst snd] in *.
  destruct e as [id|id|id fs]; cbn [event_id] in Hid; subst id; cbn [fts_event_run step_phase].
  - destruct (begin_step (pt_id t) (Z.of_nat j) (pt_te t) (pt_bits t) ph P s)
      as (s' & Hrun & F & Hat); [done..|destruct ph; auto; done|done|].
    exists [], s'. rewrite (cm_bind_ok _ _ _ _ _ Hrun). split; [done|].
    split; [by eapply scheduled_frame|]. split; [by destruct ph|done].
  - assert (ph = Ready) as -> by (by destruct ph).
    destruct (release_step (pt_id t) (Z.of_nat j) (pt_te t) (pt_bits t) P s)
      as (v & s' & Hrun & F & _ & Hat); [done..|].
    exists [], s'. rewrite (cm_bind_ok _ _ _ _ _ Hrun). split; [done|].
    split; [by eapply scheduled_frame|done].
  - assert (ph = Running) as -> by (by destruct ph).
    destruct (finish_step (pt_id t) (Z.of_nat j) (pt_te t) (pt_bits t) P fs s)
      as (s' & Hrun & F & Hat); [done..|].
    eexists _, s'. rewrite (cm_bind_ok _ _ _ _ _ Hrun). split; [reflexivity|].
    split; [by eapply scheduled_frame|done].
Qed.

(** Any interleaving: every task follows its specification. *)
Lemma events_run ts evs st s :
  scheduled s ts st ->
  (forall j t, ts !! j = Some t -> protocol (pt_id t) (st j).1 evs = true) ->
  Forall (fun e => event_id e ∈ (pt_id <$> ts)) evs ->
  exists log s' st', fts_events_run evs s = Ok (log, s') /\ scheduled s' ts st' /\
    forall j t, ts !! j = Some t ->
      results_of (pt_id t) log =
        spec_run (pt_te t) (pt_bits t) (st j).2 (faults_of (pt_id t) evs).
Proof.
  revert st s. induction evs as [|e r IH]; intros st s Hs Hp Hin.
  { exists [], s, st. done. }
  inversion_clear Hin as [|? ? He Hin'].
  apply list_elem_of_fmap in He as (t & Hid & Hel).
  apply list_elem_of_lookup in Hel as [j Hj].
  destruct (event_step s ts st j t e r) as (l & s1 & Hr & Hs1 & Hp1 & Hl); [done..|by apply Hp|].
  set (x := step_phase (pt_te t) (pt_bits t) (st j) e) in *.
  assert (forall j' t', ts !! j' = Some t' -> j' <> j -> pt_id t' <> pt_id t) as Hne.
  { intros j' t' Hj' Hneq Heq. apply Hneq.
    eapply (NoDup_lookup (pt_id <$> ts)); [apply Hs| |];
      rewrite list_lookup_fmap; [by rewrite Hj'|by rewrite Hj; cbn; rewrite Heq]. }
  destruct (IH (upd st j x) s1) as (log & s2 & st2 & Hr2 & Hs2 & Hspec); [done| |done|].
  { intros j' t' Hj'. unfold upd. case_decide as Heq; [subst; by simplify_eq|].
    specialize (Hp j' t' Hj'). cbn [protocol] in Hp.
    rewrite decide_False in Hp; [done|]. rewrite Hid. intros Heq'. by eapply Hne. }
  exists (l ++ log), s2, st2. cbn [fts_events_run].
  rewrite (cm_bind_ok _ _ _ _ _ Hr), (cm_bind_ok _ _ _ _ _ Hr2). split; [done|]. split; [done|].
  intros j' t' Hj'. specialize (Hspec j' t' Hj'). rewrite results_of_app, Hspec.
  unfold upd. subst l. case_decide as Heq.
  - subst j'. rewrite Hj in Hj'. injection Hj' as <-. subst x.
    destruct e as [id|id|id fs]; cbn in Hid; subst id; cbn [step_phase faults_of snd]; try done.
    rewrite decide_True by done. unfold results_of. cbn [spec_run].
    destruct (finish (pt_te t) (pt_bits t) (st j).2 fs) as [c P'].
    by rewrite filter_cons_True, filter_nil by done.
  - assert (event_id e <> pt_id t') as Hid'.
    { rewrite Hid. intros Heq'. by eapply (Hne j' t'). }
    destruct e as [id|id|id fs]; cbn in Hid'; cbn [faults_of]; try done.
    rewrite decide_False by done. unfold results_of.
    by rewrite filter_cons_False, filter_nil by done.
Qed.

End Schedule.
