(* ===== verification/FtsRegister.v ===== *)
(** * Registration

    [fts_rtems_task_register_t]: what it refuses, what it stores, and that a
    registered task starts at the beginning of its pattern. *)

From stdpp Require Import base tactics numbers option list list_numbers gmap fin_maps.
From Stdlib Require Import ZArith Lia.
From S2P Require Import Prelude Status Pattern Fts FtsLemmas FtsPattern Counters FtsCounters.
From S2P Require Import FtsSlots FtsStatic FtsDynamic FtsSchedule.

Open Scope Z_scope.

(** ** The pattern of a request *)
Definition created_bits (p : pattern_type) (m k : Z) : list bool :=
  created_bit p m k <$> seqZ 0 k.

Definition dynamic_tech (te : fts_tech) : bool :=
  match te with DRE | DDR => true | _ => false end.

(** Dynamic compensation needs a 1 in the pattern and at most
    [PATTERN_PARTITIONS] partitions. *)
Definition partitions_fit (p : pattern_type) (m k : Z) : Prop :=
  1 <= m /\ match p with R_PATTERN => True | E_PATTERN => k - m <= PATTERN_PARTITIONS end.

Lemma falls_replicate last n b :
  falls last (replicate n b) = if last && negb b && (0 <? Z.of_nat n) then 1 else 0.
Proof.
  revert last. induction n as [|n IH]; intros last; [by rewrite andb_false_r|].
  cbn [replicate falls]. rewrite IH, (proj2 (Z.ltb_lt 0 (Z.of_nat (S n)))) by lia.
  by destruct last, b.
Qed.

Lemma created_falls p m k :
  0 < k -> pattern_supported p m k -> partitions_fit p m k ->
  falls false (created_bits p m k) < 16.
Proof.
  intros Hk Hs [Hm Hf]. unfold created_bits. destruct p; cbn in Hs.
  - pose proof (r_zeros_bounds (k - m) ltac:(lia)).
    change (created_bit R_PATTERN m k) with (fun n => r_zeros (k - m) <=? n).
    rewrite r_bits, falls_app, !falls_replicate by lia. by rewrite andb_false_r.
  - pose proof (created_count E_PATTERN m k Hk Hs) as Hc.
    pose proof (count_true_false (created_bit E_PATTERN m k <$> seqZ 0 k)) as Ht.
    rewrite length_fmap, length_seqZ in Ht. unfold PATTERN_PARTITIONS in Hf.
    rewrite seqZ_cons, fmap_cons in * by lia.
    assert (created_bit E_PATTERN m k 0 = false) as H0.
    { change (created_bit E_PATTERN m k 0)
        with (e_acc k (k - m) (0 / 8 + 1) (0 mod 8)).
      rewrite e_acc_first by lia. unfold e_zero. rewrite Z.mul_0_l. done. }
    rewrite H0 in *. cbn [falls andb b2z]. rewrite count_true_cons, count_false_cons in *.
    cbn [b2z negb] in *.
    pose proof (falls_count_false false (created_bit E_PATTERN m k <$> seqZ (Z.succ 0) (Z.pred k))).
    lia.
Qed.

Lemma created_last p m k :
  0 < k -> pattern_supported p m k -> 1 <= m ->
  List.last (created_bits p m k) false = true.
Proof.
  intros Hk Hs Hm. unfold created_bits. replace k with ((k - 1) + 1) at 2 by lia.
  rewrite seqZ_app, fmap_app by lia. rewrite (seqZ_cons _ 1), (seqZ_nil _ (Z.pred 1)) by lia.
  cbn [fmap list_fmap]. rewrite List.last_last, Z.add_0_l. destruct p; cbn in Hs.
  - change ((r_zeros (k - m) <=? k - 1) = true). apply Z.leb_le.
    pose proof (r_zeros_bounds (k - m) ltac:(lia)). lia.
  - change (e_acc k (k - m) ((k - 1) / 8 + 1) ((k - 1) mod 8) = true).
    apply e_acc_covers; [lia|]. unfold e_zero. apply Z.eqb_neq.
    rewrite (ceil_div_unique ((k - 1) * (k - m)) k (k - m)) by nia.
    rewrite Z.mul_comm, Z.div_mul by lia. lia.
Qed.

(** Bytes outside a pattern do not matter for it. *)
Lemma pattern_bits_ext m m' start end_ maxbit :
  start <= end_ -> 0 <= maxbit <= 7 ->
  (forall a, start <= a <= end_ -> m' !! a = m !! a) ->
  pattern_bits m' start end_ maxbit = pattern_bits m start end_ maxbit.
Proof.
  intros Hse Hmb Hext. unfold pattern_bits. apply list_fmap_ext.
  intros j n Hn%lookup_seqZ. unfold pattern_len in Hn. unfold bit_at. rewrite Hext; [done|].
  pose proof (Z.div_mod n 8 ltac:(lia)). pose proof (Z.mod_pos_bound n 8 ltac:(lia)). lia.
Qed.

Lemma holds_ext m m' sl bits :
  (forall a, sl_start sl <= a <= sl_end sl -> m' !! a = m !! a) ->
  holds m sl bits -> holds m' sl bits.
Proof.
  intros Hext [Hse Hmb Hmap Hb]. split; [done|done| |].
  - intros a Ha. rewrite Hext by done. by apply Hmap.
  - by rewrite (pattern_bits_ext m m').
Qed.

(** ** The writes of a registration *)
Section Register.
Context {T : Type}.
Implicit Types s : fts_state T.

(** The entry of the task list up to the creation of the pattern. *)
Definition entered (i id m k : Z) (te : fts_tech) (ps : pattern_specs) s : fts_state T :=
  let l := tasklist s in
  let n := Z.to_nat i in
  set_tasklist
    (mkTask_ID_List (<[n := id]> (task_list_id l)) (<[n := u8 m]> (l_m l))
       (<[n := u8 k]> (l_k l)) (<[n := te]> (tech l)) (task_list_index l)
       (<[n := ps_pattern ps]> (pattern l)) (<[n := ps_start ps]> (pattern_start l))
       (<[n := ps_end ps]> (pattern_end l)) (<[n := ps_start ps]> (curr_pos l))
       (<[n := 0]> (bitpos l)) (<[n := ps_max_bitpos ps]> (max_bitpos l))
       (l_b l) (l_d l) (l_c l)) s.

(** The rest of the entry. *)
Definition completed (i idp : Z) (v : task_versions) (sp : task_user_specs) s
    : fts_state T :=
  let l := tasklist s in
  let n := Z.to_nat i in
  let ts := task_specs s in
  set_period_pointers (<[n := idp]> (period_pointers s))
  (set_task_specs
    (mkTask_Specs (<[n := u_initial_priority sp]> (initial_priority ts))
      (<[n := u_stack_size sp]> (stack_size ts))
      (<[n := u_initial_modes sp]> (initial_modes ts))
      (<[n := u_attribute_set sp]> (attribute_set ts)))
  (set_tasklist
    (mkTask_ID_List (task_list_id l) (l_m l) (l_k l) (tech l) (u16 (task_list_index l + 1))
       (pattern l) (pattern_start l) (pattern_end l) (curr_pos l) (bitpos l) (max_bitpos l)
       (<[n := v_b v]> (l_b l)) (<[n := v_d v]> (l_d l)) (<[n := v_c v]> (l_c l))) s)).

(** The counters of a dynamic technique. *)
Definition counters_setup (i : Z) (te : fts_tech) (ps : pattern_specs)
    : cm (fts_state T) unit :=
  match te with
  | DRE | DDR =>
      tol_counter_set i (ps_start ps) (ps_end ps) (ps_max_bitpos ps);; tolc_update i
  | _ => mret tt
  end.

Lemma entered_wf i id m k te ps s :
  fts_wf s -> fts_wf (entered i id m k te ps s).
Proof.
  intros [[] ? ? ? ? ? ? ? ? ? ? ? ? ? ? ?]. split; [split|..]; cbn; by rewrite ?length_insert.
Qed.

Lemma completed_wf i idp v sp s :
  fts_wf s -> 0 <= task_list_index (tasklist s) < 10 -> fts_wf (completed i idp v sp s).
Proof.
  intros [[] ? ? ? ? ? ? ? ? ? ? ? ? ? ? ?] Hi.
  split; [split|..]; cbn; rewrite ?length_insert; try done. rewrite u16_id by lia. lia.
Qed.

Lemma register_entry_shape i idp id m k te ps v sp s m' s2 :
  fts_wf s -> 0 <= i < 10 ->
  create_pattern_t i (ps_pattern ps) (entered i id m k te ps s) =
    Ok (1, set_mem8 m' (entered i id m k te ps s)) ->
  counters_setup i te ps (set_mem8 m' (entered i id m k te ps s)) = Ok (tt, s2) ->
  fts_wf s2 ->
  register_entry i idp id m k te ps v sp s = Ok (1, completed i idp v sp s2).
Proof.
  intros Hwf Hi Hc Hset Hwf2. pose proof (entered_wf i id m k te ps s Hwf) as Hwf1.
  destruct_wf Hwf. unfold register_entry.
  do 10 (rewrite wr_bind by arr_side).
  change (fset F_bitpos _ _) with (entered i id m k te ps s).
  rewrite (rd_bind _ _ (ps_pattern ps)).
  2: lia. 2: { cbn. rewrite list_lookup_insert_eq by lia. done. }
  rewrite (cm_bind_ok _ _ _ _ _ Hc). rewrite (rd_bind _ _ te).
  2: lia. 2: { cbn. rewrite list_lookup_insert_eq by lia. done. }
  fold (counters_setup i te ps). rewrite (cm_bind_ok _ _ _ _ _ Hset).
  destruct_wf Hwf2. do 8 (rewrite wr_bind by arr_side). reflexivity.
Qed.

(** ** Requests *)
Record request := mk_request {
  rq_idp : Z; rq_id : Z; rq_m : Z; rq_k : Z; rq_te : fts_tech;
  rq_ps : pattern_specs; rq_v : task_versions; rq_sp : task_user_specs
}.

Definition rq_bits (r : request) : list bool :=
  created_bits (ps_pattern (rq_ps r)) (rq_m r) (rq_k r).

Record request_valid (m8 mid : gmap Z Z) (r : request) : Prop := {
  rv_id : mid !! rq_idp r = Some (rq_id r);
  rv_te : rq_te r <> NONE;
  rv_k : 0 < rq_k r <= 255;
  rv_supported : pattern_supported (ps_pattern (rq_ps r)) (rq_m r) (rq_k r);
  rv_space : pattern_space m8 (ps_start (rq_ps r)) (ps_end (rq_ps r))
    (ps_max_bitpos (rq_ps r)) (rq_k r);
  rv_dynamic : dynamic_tech (rq_te r) = true ->
    partitions_fit (ps_pattern (rq_ps r)) (rq_m r) (rq_k r)
}.

Lemma rq_m_bounds m8 mid r : request_valid m8 mid r -> 0 <= rq_m r <= rq_k r.
Proof.
  intros [_ _ _ Hs _ _]. destruct (ps_pattern (rq_ps r)); cbn in Hs; lia.
Qed.

(** The slot of a task just registered. *)
Definition fresh_slot (r : request) (c t : tol_counter) (n : Z) (pi : Z) : slot :=
  mk_slot (rq_te r) (ps_start (rq_ps r)) (ps_end (rq_ps r)) (ps_max_bitpos (rq_ps r))
    (ps_start (rq_ps r)) 0 c t n pi.

(** The counters of a request, in the slot of a task entered before. *)
Lemma counters_setup_run i r c t n pi s :
  fts_wf s -> 0 <= i < 10 -> view s i (fresh_slot r c t n pi) ->
  holds (mem8 s) (fresh_slot r c t n pi) (rq_bits r) ->
  (dynamic_tech (rq_te r) = true ->
     c = tol_counter_zero /\ falls false (rq_bits r) < 16 /\
     List.last (rq_bits r) false = true /\ Z.of_nat (length (rq_bits r)) <= 65535) ->
  rq_te r <> NONE ->
  exists s' sl, counters_setup i (rq_te r) (rq_ps r) s = Ok (tt, s') /\ frame i s s' /\
    tasklist s' = tasklist s /\ mem_id s' = mem_id s /\
    (forall j, j <> Z.to_nat i -> tol_counter_const s' !! j = tol_counter_const s !! j) /\
    task_specs s' = task_specs s /\ period_pointers s' = period_pointers s /\
    view s' i sl /\ sl_tech sl = rq_te r /\ holds (mem8 s') sl (rq_bits r) /\
    follows (rq_te r) (rq_bits r) Idle 0 sl (last_version s' i).
Proof.
  intros Hwf Hi Hv Hh Hdyn Hnone.
  destruct (dynamic_tech (rq_te r)) eqn:Hte.
  2: { exists s, (fresh_slot r c t n pi).
       assert (counters_setup i (rq_te r) (rq_ps r) s = Ok (tt, s)) as ->
         by (by destruct (rq_te r)).
       do 2 (split; [done || by apply frame_refl|]).
       do 5 (split; [done|]). split; [done|]. split; [done|]. split; [done|].
       assert (cursor (rq_bits r) (fresh_slot r c t n pi) 0) as Hc0.
       { unfold cursor, place_of. cbn.
         rewrite Nat.Div0.mod_0_l. change (Z.of_nat 0 / 8) with 0.
         by rewrite Z.add_0_r. }
       by destruct (rq_te r). }
  destruct (Hdyn eq_refl) as (-> & Hf & Hlast & Hsmall). clear Hdyn.
  destruct Hh as [Hse Hmb Hmap Hb]. cbn in Hse, Hmb, Hmap, Hb.
  assert (counters_wf t) as Htw by (by eapply (Forall_lookup_1 _ _ _ _ (wf_temp_c _ Hwf)), Hv).
  pose proof Hwf as Hwf0. destruct_wf Hwf0.
  destruct (tol_counter_set_run i s (ps_start (rq_ps r)) (ps_end (rq_ps r))
    (ps_max_bitpos (rq_ps r))) as (os & as_ & p & last & Hr1 & Hos & Has & Hp & Hcnt);
    [lia|lia|apply Hv|done|done|done|by rewrite Hb|by rewrite Hb|].
  rewrite Hb in Hcnt. assert (last = true) as -> by (by rewrite <- (cnt_last _ _ _ _ _ Hcnt)).
  set (s1 := set_nr_partitions _ _) in Hr1.
  destruct (tolc_update_run i p os as_ t s1) as (os' & as' & Hr2 & Ho & Ha);
    [lia|done|cbn; by rewrite list_lookup_insert_eq by lia
    |apply with_const_lookup; lia|done|done|apply Hv|done|cbn; lia|].
  set (s2 := set_partition_index _ _) in Hr2.
  set (sl := fresh_slot r (mk_tol_counter os as_) (mk_tol_counter os' as') (Z.of_nat p) 0).
  assert (view s2 i sl) as V2 by solve_view Hv.
  assert (counters_wf (mk_tol_counter os' as')) as Hw'.
  { destruct Htw, Ho, Ha. split; cbn; lia. }
  exists s2, sl. split.
  { destruct (rq_te r); try done; cbn [counters_setup];
      rewrite (cm_bind_ok _ _ _ _ _ Hr1); exact Hr2. }
  assert (dyn_slot (rq_bits r) sl p) as Hd by (split; done).
  assert (exists o a, standing (rq_bits r) sl p 0 1 0 o a 0) as (o & a & Hs).
  { pose proof (dyn_slot_ones _ _ _ 0 Hd ltac:(lia)).
    destruct (cnt_nonneg _ _ _ _ _ Hcnt 0). destruct Ho as [_ Ho], Ha as [_ Ha].
    exists (cnt os 0), (cnt as_ 0).
    split; cbn [sl fresh_slot sl_temp sl_const sl_pi tol_counter_o tol_counter_a];
      try done; try lia.
    - unfold place. change (offset _ _ 0) with 0. lia.
    - intros j Hj. rewrite Ho, Ha, !decide_True by lia. done.
    - unfold place_of. by rewrite Nat.Div0.mod_0_l, Z.mod_0_l by
        (destruct (rq_bits r); [done|cbn; lia]). }
  split; [|do 5 (split; [done || (intros j Hj; cbn; by rewrite list_lookup_insert_ne)|])].
  - solve_write.
    + by apply Forall_insert.
    + by apply Forall_insert.
  - split; [done|]. split; [done|]. split; [done|].
    apply standing_weaken in Hs. destruct (rq_te r); try done; exists p; split; eauto.
Qed.

(** What a registration stores besides the slot: the requirement, the entry
    points of the versions, the attributes of their tasks and the address of
    the period's identifier. *)
Record stored s (i : Z) (r : request) : Prop := {
  so_id : task_list_id (tasklist s) !! Z.to_nat i = Some (rq_id r);
  so_m : l_m (tasklist s) !! Z.to_nat i = Some (rq_m r);
  so_k : l_k (tasklist s) !! Z.to_nat i = Some (rq_k r);
  so_pattern : pattern (tasklist s) !! Z.to_nat i = Some (ps_pattern (rq_ps r));
  so_start : pattern_start (tasklist s) !! Z.to_nat i = Some (ps_start (rq_ps r));
  so_end : pattern_end (tasklist s) !! Z.to_nat i = Some (ps_end (rq_ps r));
  so_b : l_b (tasklist s) !! Z.to_nat i = Some (v_b (rq_v r));
  so_d : l_d (tasklist s) !! Z.to_nat i = Some (v_d (rq_v r));
  so_c : l_c (tasklist s) !! Z.to_nat i = Some (v_c (rq_v r));
  so_prio : initial_priority (task_specs s) !! Z.to_nat i = Some (u_initial_priority (rq_sp r));
  so_stack : stack_size (task_specs s) !! Z.to_nat i = Some (u_stack_size (rq_sp r));
  so_modes : initial_modes (task_specs s) !! Z.to_nat i = Some (u_initial_modes (rq_sp r));
  so_attr : attribute_set (task_specs s) !! Z.to_nat i = Some (u_attribute_set (rq_sp r));
  so_pointer : period_pointers s !! Z.to_nat i = Some (rq_idp r)
}.

(** The effect of a successful registration at the index [i]. *)
Record registration (i : Z) (r : request) s s' : Prop := {
  rg_wf : fts_wf s';
  rg_ids : ids s' = ids s ++ [rq_id r];
  rg_index : task_list_index (tasklist s') = i + 1;
  rg_mem_id : mem_id s' = mem_id s;
  rg_mapped : mapped (mem8 s') (ps_start (rq_ps r)) (ps_end (rq_ps r));
  rg_mem8 : forall a, ~ (ps_start (rq_ps r) <= a <= ps_end (rq_ps r)) ->
    mem8 s' !! a = mem8 s !! a;
  rg_const : forall j, j <> Z.to_nat i -> tol_counter_const s' !! j = tol_counter_const s !! j;
  rg_view : forall j sl, 0 <= j -> j <> i -> view s j sl -> view s' j sl;
  rg_last : forall j, j <> i -> last_version s' j = last_version s j;
  rg_stored : stored s' i r;
  rg_task : task_at s' i (rq_te r) (rq_bits r) Idle 0
}.

Definition register (r : request) : cm (fts_state T) Z :=
  fts_rtems_task_register_t (rq_idp r) (rq_m r) (rq_k r) (rq_te r) (rq_ps r) (rq_v r) (rq_sp r).

Lemma ids_snoc (l : list Z) (i id : Z) :
  0 <= i < Z.of_nat (length l) ->
  take (Z.to_nat (i + 1)) (<[Z.to_nat i := id]> l) = take (Z.to_nat i) l ++ [id].
Proof.
  intros Hi. replace (Z.to_nat (i + 1)) with (S (Z.to_nat i)) by lia.
  erewrite take_S_r by (apply list_lookup_insert_eq; lia).
  by rewrite take_insert_ge by lia.
Qed.

(** The state after the pattern and the counters of [r] are set up. *)
Lemma register_setup i r s :
  fts_wf s -> i = task_list_index (tasklist s) -> i < 10 ->
  request_valid (mem8 s) (mem_id s) r ->
  (dynamic_tech (rq_te r) = true ->
     tol_counter_const s !! Z.to_nat i = Some tol_counter_zero) ->
  let e := entered i (rq_id r) (rq_m r) (rq_k r) (rq_te r) (rq_ps r) s in
  exists m' s2 sl, create_pattern_t i (ps_pattern (rq_ps r)) e = Ok (1, set_mem8 m' e) /\
    mapped m' (ps_start (rq_ps r)) (ps_end (rq_ps r)) /\
    (forall a, ~ (ps_start (rq_ps r) <= a <= ps_end (rq_ps r)) -> m' !! a = mem8 s !! a) /\
    counters_setup i (rq_te r) (rq_ps r) (set_mem8 m' e) = Ok (tt, s2) /\
    frame i (set_mem8 m' e) s2 /\ tasklist s2 = tasklist e /\ mem_id s2 = mem_id s /\
    (forall j, j <> Z.to_nat i -> tol_counter_const s2 !! j = tol_counter_const s !! j) /\
    task_specs s2 = task_specs s /\ period_pointers s2 = period_pointers s /\
    view s2 i sl /\ sl_tech sl = rq_te r /\ holds (mem8 s2) sl (rq_bits r) /\
    follows (rq_te r) (rq_bits r) Idle 0 sl (last_version s2 i).
Proof.
  intros Hwf Hidx Hi Hr Hz e. pose proof (rq_m_bounds _ _ _ Hr) as Hm.
  pose proof (entered_wf i (rq_id r) (rq_m r) (rq_k r) (rq_te r) (rq_ps r) s Hwf) as Hwfe.
  fold e in Hwfe. pose proof Hwf as Hwf0. destruct_wf Hwf0.
  destruct Hr as [Hid Hte Hk Hsup Hsp Hdyn].
  destruct (create_pattern_t_run i (ps_pattern (rq_ps r)) (rq_m r) (rq_k r)
    (ps_start (rq_ps r)) (ps_end (rq_ps r)) (ps_max_bitpos (rq_ps r)) e)
    as (m' & Hc & Hmap & Hout & Hb); [lia| |done|lia|done|].
  { split; cbn; rewrite list_lookup_insert_eq by lia; rewrite ?u8_id by lia; done. }
  set (s1 := set_mem8 m' e).
  assert (fts_wf s1) as Hwf1 by (destruct Hwfe; by split).
  destruct (lookup_lt_is_Some_2 (tol_counter_const s) (Z.to_nat i)) as [c Hlc]; [lia|].
  destruct (lookup_lt_is_Some_2 (tol_counter_temp s) (Z.to_nat i)) as [t Hlt]; [lia|].
  destruct (lookup_lt_is_Some_2 (nr_partitions s) (Z.to_nat i)) as [n Hln]; [lia|].
  destruct (lookup_lt_is_Some_2 (partition_index s) (Z.to_nat i)) as [pi Hlp]; [lia|].
  destruct (counters_setup_run i r c t n pi s1)
    as (s2 & sl & Hs2 & F & Htl & Hmi & Hco & Hts & Hpp & V & Ht & Hh & Hfo);
    [done|lia| | | |done|].
  - split; cbn; rewrite ?list_lookup_insert_eq by lia; done.
  - destruct Hsp. split; done.
  - intros Hd. split; [by specialize (Hz Hd); simplify_eq|].
    destruct (Hdyn Hd). split; [apply created_falls; [lia|done|by split]|].
    split; [apply created_last; [lia|done|done]|].
    unfold rq_bits, created_bits. rewrite length_fmap, length_seqZ. lia.
  - exists m', s2, sl. split; [done|]. split; [done|]. split; [done|]. split; [done|].
    split; [done|]. split; [done|]. split; [done|]. split; [done|]. done.
Qed.

Lemma register_run i r s :
  fts_wf s -> i = task_list_index (tasklist s) -> i < 10 -> rq_id r ∉ ids s ->
  request_valid (mem8 s) (mem_id s) r ->
  (dynamic_tech (rq_te r) = true ->
     tol_counter_const s !! Z.to_nat i = Some tol_counter_zero) ->
  exists s', register r s = Ok (1, s') /\ registration i r s s'.
Proof.
  intros Hwf Hidx Hi Hnew Hr Hz. pose proof (rq_m_bounds _ _ _ Hr) as Hm.
  destruct (register_setup i r s Hwf Hidx Hi Hr Hz)
    as (m' & s2 & sl & Hc & Hmap & Hout & Hs2 & F & Htl & Hmi & Hco & Hts & Hpp & V & Ht & Hh & Hfo).
  exists (completed i (rq_idp r) (rq_v r) (rq_sp r) s2).
  pose proof (rv_k _ _ _ Hr) as Hk. pose proof Hwf as Hwf0. destruct_wf Hwf0. split.
  - unfold register, fts_rtems_task_register_t. rewrite ld_bind. cbn [fget F_task_list_index].
    rewrite <- Hidx. rewrite (proj2 (Z.ltb_lt i P_TASKS)) by (unfold P_TASKS; lia).
    rewrite (ldm_bind _ _ (rq_id r)) by apply Hr.
    rewrite (cm_bind_ok _ _ _ _ _ (task_in_list_t_ok (rq_id r) s Hwf)).
    rewrite (proj1 (index_of_not_registered _ _) Hnew).
    rewrite (proj2 (Z.leb_le (rq_m r) (rq_k r))) by lia. cbn [Z.eqb Pos.eqb andb].
    eapply register_entry_shape; [done|lia|exact Hc|exact Hs2|apply F].
  - assert (forall A (l : list A) x, length l = 10%nat ->
      <[Z.to_nat i := x]> l !! Z.to_nat i = Some x) as Hins.
    { intros A l x Hl. apply list_lookup_insert_eq. lia. }
    split; cbn [completed set_period_pointers set_task_specs set_tasklist tasklist mem8 mem_id
      tol_counter_const task_list_index task_list_id].
    + apply completed_wf; [apply F|]. rewrite Htl. cbn. lia.
    + unfold ids. cbn. rewrite Htl. cbn. rewrite <- Hidx, u16_id by lia. by apply ids_snoc; lia.
    + rewrite Htl. cbn. rewrite u16_id by lia. lia.
    + done.
    + by rewrite (fr_mem _ _ _ F).
    + intros a Ha. rewrite (fr_mem _ _ _ F). by apply Hout.
    + done.
    + intros j sl' Hj Hne Hv.
      assert (view (set_mem8 m' (entered i (rq_id r) (rq_m r) (rq_k r) (rq_te r) (rq_ps r) s))
        j sl') as Hv1.
      { destruct Hv; split; cbn; rewrite ?list_lookup_insert_ne by lia; done. }
      apply (fr_view _ _ _ F) in Hv1; [|done|done]. by destruct Hv1.
    + intros j Hj. apply (fr_last _ _ _ F j Hj).
    + split; cbn; rewrite ?Htl, ?Hts, ?Hpp; cbn; rewrite Hins by done;
        rewrite ?u8_id by lia; done.
    + exists sl. split; [by destruct V|]. done.
Qed.

End Register.
