(* ===== verification/FtsGuarantee.v ===== *)
(** * The guarantee of the fault tolerant scheduler

    Tasks are registered one after another and then live through any
    interleaving of their periods and any sequence of faults: the program
    runs without undefined behaviour and each task keeps its (m,k)
    requirement. *)

From stdpp Require Import base tactics numbers option list list_numbers gmap fin_maps.
From Stdlib Require Import ZArith Lia.
From S2P Require Import Prelude Status Pattern Fts FtsLemmas FtsPattern Counters FtsCounters.
From S2P Require Import FtsSlots FtsStatic FtsDynamic FtsSchedule FtsRegister.

Open Scope Z_scope.

Section Guarantee.
Context {T : Type} `{TaskManager T}.
Implicit Types s : fts_state T.
Abbreviation M := (cm (fts_state T)).

Fixpoint register_all (rs : list request) : M (list Z) :=
  match rs with
  | [] => mret []
  | r :: rs' => x ← register r; xs ← register_all rs'; mret (x :: xs)
  end.

(** The patterns of two requests share no byte. *)
Definition apart (r1 r2 : request) : Prop :=
  ps_end (rq_ps r1) < ps_start (rq_ps r2) \/ ps_end (rq_ps r2) < ps_start (rq_ps r1).

Definition rq_task (r : request) : ptask := mk_ptask (rq_id r) (rq_te r) (rq_bits r).

(** The registered requests, all at the start of their patterns. *)
Record enrolled (rs : list request) s : Prop := {
  en_scheduled : scheduled s (rq_task <$> rs) (fun _ => (Idle, 0%nat));
  en_index : task_list_index (tasklist s) = Z.of_nat (length rs);
  en_region : forall j r, rs !! j = Some r ->
    pattern_start (tasklist s) !! j = Some (ps_start (rq_ps r)) /\
    pattern_end (tasklist s) !! j = Some (ps_end (rq_ps r));
  en_unused : forall j, (length rs <= j < 10)%nat ->
    tol_counter_const s !! j = Some tol_counter_zero
}.

Lemma request_valid_ext m8 m8' mid r :
  (forall a, ps_start (rq_ps r) <= a <= ps_end (rq_ps r) -> m8' !! a = m8 !! a) ->
  request_valid m8 mid r -> request_valid m8' mid r.
Proof.
  intros Hext [? ? ? ? [Hse Hmb Hl Hm] ?]. split; try done. split; [done..|].
  intros a Ha. rewrite Hext by done. by apply Hm.
Qed.

Lemma enroll_step rs r s s' :
  enrolled rs s -> rq_id r ∉ (rq_id <$> rs) -> Forall (fun r' => apart r' r) rs ->
  registration (Z.of_nat (length rs)) r s s' -> enrolled (rs ++ [r]) s'.
Proof.
  intros [Hs Hi Hreg Hun] Hnew Hap R. pose proof (sc_wf _ _ _ Hs) as Hwf.
  assert (forall j r', rs !! j = Some r' -> forall sl, view s (Z.of_nat j) sl ->
    sl_start sl = ps_start (rq_ps r') /\ sl_end sl = ps_end (rq_ps r')) as Hsl.
  { intros j r' Hj sl [_ Hst He _ _ _ _ _ _ _]. destruct (Hreg j r' Hj).
    rewrite Nat2Z.id in *. split; congruence. }
  assert (ids s = rq_id <$> rs) as Hids.
  { rewrite (sc_ids _ _ _ Hs), <- list_fmap_compose. done. }
  split.
  - split; [apply R| | |].
    + rewrite (rg_ids _ _ _ _ R), (sc_ids _ _ _ Hs), !fmap_app. done.
    + rewrite fmap_app, fmap_app. apply NoDup_app. split; [apply Hs|]. split.
      * intros x Hx Hx'. apply list_elem_of_singleton in Hx'. subst x. apply Hnew.
        by rewrite <- list_fmap_compose in Hx.
      * apply NoDup_singleton.
    + intros j t Ht. rewrite fmap_app in Ht. apply lookup_app_Some in Ht as [Ht|[Hge Ht]].
      * rewrite list_lookup_fmap in Ht. destruct (rs !! j) as [r'|] eqn:Hj; [|done].
        cbn in Ht. injection Ht as <-. apply lookup_lt_Some in Hj as Hlt.
        destruct (sc_tasks _ _ _ Hs j (rq_task r')) as (sl & V & Hte & Hh & Hf);
          [by rewrite list_lookup_fmap, Hj|].
        exists sl. split; [by apply (rg_view _ _ _ _ R); [lia|lia|]|]. split; [done|].
        split; [|by rewrite (rg_last _ _ _ _ R) by lia].
        eapply holds_ext; [|exact Hh]. intros a Ha. apply (rg_mem8 _ _ _ _ R).
        destruct (Hsl j r' Hj sl V) as [Hst He].
        pose proof (proj1 (Forall_lookup _ _) Hap j r' Hj) as Hd. unfold apart in Hd. lia.
      * rewrite length_fmap in Hge, Ht. destruct (j - length rs)%nat eqn:Hz; [|done].
        cbn in Ht. injection Ht as <-. replace j with (length rs) by lia. apply R.
  - rewrite (rg_index _ _ _ _ R), length_app. cbn. lia.
  - intros j r' Hj. apply lookup_app_Some in Hj as [Hj|[Hge Hj]].
    + apply lookup_lt_Some in Hj as Hlt.
      destruct (sc_tasks _ _ _ Hs j (rq_task r')) as (sl & V & _);
        [by rewrite list_lookup_fmap, Hj|].
      destruct (Hsl j r' Hj sl V) as [<- <-].
      apply (rg_view _ _ _ _ R) in V; [|lia|lia]. destruct V. by rewrite Nat2Z.id in *.
    + destruct (j - length rs)%nat eqn:Hz; [|done]. cbn in Hj. injection Hj as <-.
      replace j with (length rs) by lia.
      pose proof (rg_stored _ _ _ _ R) as [_ _ _ _ Hst He _ _ _ _ _ _ _ _].
      rewrite Nat2Z.id in Hst, He. done.
  - intros j Hj. rewrite length_app in Hj. cbn in Hj.
    rewrite (rg_const _ _ _ _ R) by lia. apply Hun. lia.
Qed.

Lemma enrolled_initial (t : T) m8 mid : enrolled [] (fts_initial t m8 mid).
Proof.
  split; [split|..]; try done.
  - apply fts_initial_wf.
  - apply NoDup_nil_2.
  - intros j Hj. cbn in Hj. apply (lookup_replicate_2 10). lia.
Qed.

(** Registering the requests [rest] after the requests [rs]. *)
Lemma register_all_run rest rs s :
  enrolled rs s -> (length (rs ++ rest) <= 10)%nat -> NoDup (rq_id <$> rs ++ rest) ->
  Forall (request_valid (mem8 s) (mem_id s)) rest ->
  (forall i j r1 r2, (rs ++ rest) !! i = Some r1 -> (rs ++ rest) !! j = Some r2 ->
     i <> j -> apart r1 r2) ->
  exists s', register_all rest s = Ok (replicate (length rest) 1, s') /\
    enrolled (rs ++ rest) s'.
Proof.
  revert rs s. induction rest as [|r rest IH]; intros rs s Hen Hlen Hnd Hval Hap.
  { exists s. by rewrite app_nil_r. }
  inversion_clear Hval as [|? ? Hr Hrest].
  assert ((rs ++ r :: rest) !! length rs = Some r) as Hat
    by (rewrite lookup_app_r, Nat.sub_diag by lia; done).
  rewrite length_app in Hlen. cbn in Hlen.
  rewrite fmap_app in Hnd. apply NoDup_app in Hnd as (Hnd1 & Hnd2 & Hnd3).
  assert (rq_id r ∉ (rq_id <$> rs)) as Hnew.
  { intros Hin. apply (Hnd2 _ Hin). rewrite fmap_cons. by left. }
  destruct (register_run (Z.of_nat (length rs)) r s) as (s1 & Hreg & R).
  { apply Hen. } { symmetry. apply Hen. } { lia. }
  { rewrite (sc_ids _ _ _ (en_scheduled _ _ Hen)), <- list_fmap_compose. exact Hnew. }
  { done. }
  { intros _. rewrite Nat2Z.id. apply Hen. lia. }
  destruct (IH (rs ++ [r]) s1) as (s2 & Hrun & Hen2).
  - eapply enroll_step; [done|done| |done].
    apply Forall_lookup. intros j r' Hj. apply lookup_lt_Some in Hj as Hlt.
    eapply (Hap j (length rs)); [by rewrite lookup_app_l by lia|done|lia].
  - rewrite !length_app. cbn. lia.
  - rewrite <- app_assoc. rewrite fmap_app. apply NoDup_app. done.
  - apply Forall_lookup. intros j r' Hj. rewrite (rg_mem_id _ _ _ _ R).
    eapply request_valid_ext; [|by eapply (Forall_lookup_1 _ _ _ _ Hrest)].
    intros a Ha. apply (rg_mem8 _ _ _ _ R).
    assert (apart r r') as Hd.
    { eapply (Hap (length rs) (length rs + S j)%nat); [done| |lia].
      rewrite lookup_app_r by lia. by replace (length rs + S j - length rs)%nat with (S j) by lia. }
    unfold apart in Hd. lia.
  - intros i j r1 r2. rewrite <- app_assoc. apply Hap.
  - exists s2. cbn [register_all]. rewrite (cm_bind_ok _ _ _ _ _ Hreg).
    rewrite (cm_bind_ok _ _ _ _ _ Hrun). rewrite <- app_assoc in Hen2. done.
Qed.

(** The life of the registered tasks. *)
Lemma enrolled_events_run rs evs s :
  enrolled rs s -> Forall (fun e => event_id e ∈ (rq_id <$> rs)) evs ->
  Forall (fun r => protocol (rq_id r) Idle evs = true) rs ->
  exists log s', fts_events_run evs s = Ok (log, s') /\ fts_wf s' /\
    forall r, r ∈ rs ->
      results_of (rq_id r) log = spec_run (rq_te r) (rq_bits r) 0 (faults_of (rq_id r) evs).
Proof.
  intros Hen Hev Hpr.
  destruct (events_run (rq_task <$> rs) evs (fun _ => (Idle, 0%nat)) s)
    as (log & s' & st' & Hrun & Hs' & Hres); [apply Hen| | |].
  - intros j t Ht. rewrite list_lookup_fmap in Ht.
    destruct (rs !! j) as [r|] eqn:Hj; [|done]. cbn in Ht. injection Ht as <-.
    by apply (Forall_lookup_1 _ _ _ _ Hpr Hj).
  - rewrite <- list_fmap_compose. exact Hev.
  - exists log, s'. split; [done|]. split; [apply Hs'|]. intros r Hr.
    apply list_elem_of_lookup in Hr as [j Hj].
    apply (Hres j (rq_task r)). by rewrite list_lookup_fmap, Hj.
Qed.

(** The requests a program may make of a memory [m8] with the identifiers
    [mid]: at most [P_TASKS] of them, each valid, with different identifiers
    and patterns apart. *)
Record requests_valid (m8 mid : gmap Z Z) (rs : list request) : Prop := {
  rqs_number : (length rs <= 10)%nat;
  rqs_ids : NoDup (rq_id <$> rs);
  rqs_valid : Forall (request_valid m8 mid) rs;
  rqs_apart : forall i j r1 r2, rs !! i = Some r1 -> rs !! j = Some r2 -> i <> j -> apart r1 r2
}.

(** Events of the registered tasks, those of each task in order. *)
Definition events_valid (rs : list request) (evs : list fts_event) : Prop :=
  Forall (fun e => event_id e ∈ (rq_id <$> rs)) evs /\
  Forall (fun r => protocol (rq_id r) Idle evs = true) rs.

Lemma rq_bits_count m8 mid r :
  request_valid m8 mid r ->
  rq_m r <= count_true (rq_bits r) /\ length (rq_bits r) = Z.to_nat (rq_k r).
Proof.
  intros Hr. pose proof (rv_k _ _ _ Hr). split.
  - apply created_count; [lia|apply Hr].
  - unfold rq_bits, created_bits. by rewrite length_fmap, length_seqZ.
Qed.

Lemma fts_program_run (t : T) m8 mid rs evs :
  requests_valid m8 mid rs -> events_valid rs evs ->
  exists codes log s1 s2,
    register_all rs (fts_initial t m8 mid) = Ok (codes, s1) /\
    codes = replicate (length rs) 1 /\ enrolled rs s1 /\
    fts_events_run evs s1 = Ok (log, s2) /\ fts_wf s2 /\
    forall r, r ∈ rs ->
      results_of (rq_id r) log = spec_run (rq_te r) (rq_bits r) 0 (faults_of (rq_id r) evs).
Proof.
  intros [Hn Hid Hv Hap] [Hev Hpr].
  destruct (register_all_run rs [] (fts_initial t m8 mid)) as (s1 & Hr1 & Hen);
    [apply enrolled_initial|done|done|done|done|]. cbn [app] in Hen.
  destruct (enrolled_events_run rs evs s1 Hen Hev Hpr) as (log & s2 & Hr2 & Hwf & Hres).
  by exists (replicate (length rs) 1), log, s1, s2.
Qed.

End Guarantee.
