(* ===== verification/FtsExamples.v ===== *)
(** * A protected application

    Two protected tasks, one under dynamic and one under static compensation:
    the memory of their patterns, their requests and the scheduler after both
    are registered.  The concrete instances of the theorems use them. *)

From stdpp Require Import base tactics numbers option list list_numbers gmap fin_maps.
From Stdlib Require Import ZArith Lia.
From S2P Require Import Prelude Status Pattern Fts FtsLemmas FtsPattern Counters FtsCounters.
From S2P Require Import FtsSlots FtsStatic FtsDynamic FtsSchedule FtsRegister FtsGuarantee.

Open Scope Z_scope.

Definition app_mem8 : gmap Z Z := <[100 := 0]> (<[101 := 0]> {[102 := 0]}).
Definition app_mem_id : gmap Z Z := <[500 := 11]> {[501 := 12]}.

Definition app_specs : task_user_specs := mk_task_user_specs 2 4096 0 0.

(** 3 of 12 under dynamic redundancy, evenly distributed. *)
Definition app_dre : request :=
  mk_request 500 11 3 12 DRE (mk_pattern_specs E_PATTERN 100 101 3)
    (mk_task_versions 1001 1002 1003) app_specs.

(** 2 of 5 under static detection and recovery, the reliable instances last. *)
Definition app_sdr : request :=
  mk_request 501 12 2 5 SDR (mk_pattern_specs R_PATTERN 102 102 4)
    (mk_task_versions 2001 2002 2003) app_specs.

Definition app_requests : list request := [app_dre; app_sdr].

(** The periods of the two tasks, interleaved, with two faults each. *)
Definition app_events : list fts_event :=
  [Begin 11; Begin 12; Release 12; Release 11; Finish 11 FAULT; Finish 12 FAULT;
   Begin 12; Begin 12; Release 12; Finish 12 NO_FAULT; Begin 11; Release 11; Finish 11 FAULT;
   Begin 12; Release 12; Finish 12 FAULT].

Lemma app_mapped : mapped app_mem8 100 102.
Proof.
  intros a Ha. assert (a = 100 \/ a = 101 \/ a = 102) as [-> | [-> | ->]] by lia; by eexists.
Qed.

Lemma app_dre_valid : request_valid app_mem8 app_mem_id app_dre.
Proof.
  split; [done|done|cbn; lia|cbn; lia| |cbn; unfold partitions_fit, PATTERN_PARTITIONS; lia].
  split; [cbn; lia|cbn; lia|done|]. intros a Ha. apply app_mapped. cbn in Ha. lia.
Qed.

Lemma app_sdr_valid : request_valid app_mem8 app_mem_id app_sdr.
Proof.
  split; [done|done|cbn; lia|cbn; lia| |done].
  split; [cbn; lia|cbn; lia|done|]. intros a Ha. apply app_mapped. cbn in Ha. lia.
Qed.

Lemma app_requests_valid : requests_valid app_mem8 app_mem_id app_requests.
Proof.
  split.
  - cbn. lia.
  - by apply (bool_decide_unpack _), I.
  - apply Forall_cons; split; [exact app_dre_valid|].
    apply Forall_cons; split; [exact app_sdr_valid|by apply Forall_nil].
  - intros i j r1 r2 Hi Hj Hne. unfold apart.
    destruct i as [|[|i]], j as [|[|j]]; simplify_eq/=; lia.
Qed.

Lemma app_events_valid : events_valid app_requests app_events.
Proof. split; by apply (bool_decide_unpack _), I. Qed.

(** The scheduler before and after both tasks are registered, over a task
    manager in the state [t]. *)
Section Started.
Context {T : Type} (t : T).

Definition app_initial : fts_state T := fts_initial t app_mem8 app_mem_id.

Definition app_started : fts_state T :=
  match register_all app_requests app_initial with
  | Ok (_, s) => s
  | Undef _ => app_initial
  end.

Lemma app_started_run : register_all app_requests app_initial = Ok ([1; 1], app_started).
Proof. by vm_compute. Qed.

Lemma app_started_enrolled : enrolled app_requests app_started.
Proof.
  pose proof app_requests_valid as [Hn Hid Hv Hap].
  destruct (register_all_run app_requests [] app_initial) as (s1 & Hr & Hen);
    [apply enrolled_initial|done|done|done|done|].
  pose proof app_started_run as Hs. rewrite Hr in Hs.
  revert Hs Hen. generalize app_started as s. intros s Hs. by injection Hs as <-.
Qed.

Lemma app_started_wf : fts_wf app_started.
Proof. apply app_started_enrolled. Qed.

Lemma app_started_task j r :
  app_requests !! j = Some r ->
  task_at app_started (Z.of_nat j) (rq_te r) (rq_bits r) Idle 0.
Proof.
  intros Hj. apply (sc_tasks _ _ _ (en_scheduled _ _ app_started_enrolled) j (rq_task r)).
  by rewrite list_lookup_fmap, Hj.
Qed.

End Started.
