(* ===== verification/FtsTheorems.v ===== *)
(** * Properties of the fault tolerant scheduler

    The theorems about [fts_t.c] as a whole and about its operations, on top
    of the component files. *)

From stdpp Require Import base tactics numbers option list list_numbers gmap fin_maps.
From Stdlib Require Import ZArith Lia.
From S2P Require Import Prelude Status Pattern Fts FtsLemmas FtsPattern Counters FtsCounters.
From S2P Require Import FtsSlots FtsStatic FtsDynamic FtsSchedule FtsRegister FtsGuarantee.
From S2P Require Import FtsExamples.

Open Scope Z_scope.

Section Theorems.
Context {T : Type} `{TaskManager T}.
Implicit Types s : fts_state T.



(** A request that the task list has room for, with a new identifier, is
    accepted: the call returns 1, the task list ends with the new entry, which
    holds what the caller gave, the task starts at the first instance of its
    pattern, and no other task and no byte outside the pattern changes. *)
Theorem register_accepts i r s :
  fts_wf s -> i = task_list_index (tasklist s) -> i < 10 -> rq_id r ∉ ids s ->
  request_valid (mem8 s) (mem_id s) r ->
  (dynamic_tech (rq_te r) = true ->
     tol_counter_const s !! Z.to_nat i = Some tol_counter_zero) ->
  exists s', fts_rtems_task_register_t (rq_idp r) (rq_m r) (rq_k r) (rq_te r) (rq_ps r)
      (rq_v r) (rq_sp r) s = Ok (1, s') /\ registration i r s s'.
Proof. intros. by apply register_run. Qed.

(** C30: Registration refuses, returning 0 and changing nothing, when
    the list is full, the identifier is registered already, or [m > k]. *)
Theorem register_refuses idp id m k te ps v sp s :
  fts_wf s -> mem_id s !! idp = Some id ->
  task_list_index (tasklist s) = 10 \/ id ∈ ids s \/ k < m ->
  fts_rtems_task_register_t idp m k te ps v sp s = Ok (0, s).
Proof.
  intros Hwf Hid Hbad. unfold fts_rtems_task_register_t. rewrite ld_bind.
  cbn [fget F_task_list_index].
  destruct (Z.ltb_spec (task_list_index (tasklist s)) P_TASKS); [|done].
  rewrite (ldm_bind _ _ id) by done.
  rewrite (cm_bind_ok _ _ _ _ _ (task_in_list_t_ok id s Hwf)).
  destruct Hbad as [Hfull|[Hin|Hmk]].
  - unfold P_TASKS in *. lia.
  - destruct (Z.eqb_spec (index_of id (ids s)) (-1)) as [Hx|]; [|done].
    by apply index_of_not_registered in Hx.
  - rewrite (proj2 (Z.leb_gt m k)) by lia. by rewrite andb_false_r.
Qed.

(** Static compensation: a call releases the version the bit at the
    cursor asks for, basic for a 0 and, for a 1, correction under SRE and
    detection under SDR, and moves the cursor to the next bit, from the last
    bit of the pattern back to the first.  No other task is affected. *)
Theorem static_next_version_follows i sl bits P s :
  fts_wf s -> 0 <= i < 10 -> view s i sl -> holds (mem8 s) sl bits -> cursor bits sl P ->
  let v := if cyc bits P
           then match sl_tech sl with SRE => CORRECTION | _ => DETECTION end else BASIC in
  exists s' sl', static_next_version_t i s = Ok (v, s') /\ frame i s s' /\
    last_version s' i = Some v /\ view s' i sl' /\ cursor bits sl' (S P).
Proof.
  intros Hwf Hi Hv Hh Hc.
  destruct (static_next_version_t_run i sl bits P s Hwf Hi Hv Hh Hc)
    as (s' & sl' & Hr & F & L & V & C & _).
  by exists s', sl'.
Qed.


(** The replenishment at the start of a period is idempotent: beginning a
    period twice, as a status query or a call by a foreign task does, leaves
    the counters where the first call put them. *)
Theorem replenish_idempotent i sl bits n P p o a q s :
  fts_wf s -> 0 <= i < 10 -> view s i sl -> dyn_slot bits sl n ->
  standing bits sl n P 0 p o a q ->
  exists s', fts_period_replenish i s = Ok (tt, s') /\ fts_period_replenish i s' = Ok (tt, s').
Proof.
  intros Hwf Hi Hv Hd Hs.
  destruct (replenish_run i sl bits n P p o a q s Hwf Hi Hv Hd Hs)
    as (s' & t & pi & p' & o' & a' & q' & Hr & F & _ & V & Ht & Hs').
  exists s'. split; [done|].
  pose proof (dyn_slot_recount _ _ _ t pi Ht Hd) as Hd'.
  unfold fts_period_replenish. rd_known (vw_pi _ _ _ V).
  rewrite (sd_pi _ _ _ _ _ _ _ _ _ Hs').
  rewrite (cm_bind_ok _ _ _ _ _ (rd_temp_a i _ n p' bits s' Hi V Hd'
    (sd_p _ _ _ _ _ _ _ _ _ Hs'))).
  rewrite (sd_a _ _ _ _ _ _ _ _ _ Hs').
  rewrite (proj2 (Z.eqb_neq a' 0)); [done|]. pose proof (sd_amin _ _ _ _ _ _ _ _ _ Hs'). lia.
Qed.

(** [fault_detection_routine] does not check that the task is registered:
    a fault reported for an unknown identifier accesses the technique array at
    the index 65535, out of its bounds. *)
Theorem fault_detection_unregistered id s :
  fts_wf s -> id ∉ ids s -> fault_detection_routine id FAULT s = Undef Out_of_bounds.
Proof.
  intros Hwf Hid. unfold fault_detection_routine.
  rewrite (cm_bind_ok _ _ _ _ _ (task_in_list_t_ok id s Hwf)).
  rewrite (proj1 (index_of_not_registered _ _) Hid). change (u16 (-1)) with 65535.
  unfold mbind at 1, cm_bind at 1, rd, getsM. destruct_wf Hwf. cbn [fget F_tech].
  rewrite arr_get_oob; [done|]. right. lia.
Qed.

End Theorems.



Lemma register_accepts_witness :
  exists s', fts_rtems_task_register_t 500 3 12 DRE (mk_pattern_specs E_PATTERN 100 101 3)
      (mk_task_versions 1001 1002 1003) app_specs (app_initial 0) = Ok (1, s') /\
    registration 0 app_dre (app_initial 0) s'.
Proof.
  apply (@register_accepts Z 0 app_dre (app_initial 0));
    [apply fts_initial_wf|done|done|apply not_elem_of_nil|exact app_dre_valid|done].
Defined.

Lemma register_refuses_witness :
  fts_rtems_task_register_t 501 1 2 SRE (mk_pattern_specs R_PATTERN 102 102 1)
    (mk_task_versions 1 2 3) app_specs (app_started 0) = Ok (0, app_started 0).
Proof.
  apply (@register_refuses Z 501 12); [exact (app_started_wf 0)|by vm_compute|].
  right. left. by apply (bool_decide_unpack _), I.
Defined.

Lemma static_next_version_follows_witness :
  exists s' sl', @static_next_version_t Z id_supply 1 (app_started 0) = Ok (BASIC, s') /\
    frame 1 (app_started 0) s' /\ last_version s' 1 = Some BASIC /\ view s' 1 sl' /\
    cursor (rq_bits app_sdr) sl' 1.
Proof.
  destruct (app_started_task 0 1 app_sdr eq_refl) as (sl & V & Hte & Hh & Hc).
  apply (@static_next_version_follows Z id_supply 1 sl (rq_bits app_sdr) 0);
    [exact (app_started_wf 0)|lia|exact V|exact Hh|exact Hc].
Defined.


Lemma replenish_idempotent_witness :
  exists s', fts_period_replenish 0 (app_started 0) = Ok (tt, s') /\
    fts_period_replenish 0 s' = Ok (tt, s').
Proof.
  destruct (app_started_task 0 0 app_dre eq_refl)
    as (sl & V & Hte & Hh & n & Hd & p & o & a & q & Hs).
  apply (@replenish_idempotent Z 0 sl (rq_bits app_dre) n 0 p o a q);
    [exact (app_started_wf 0)|lia|exact V|exact Hd|exact Hs].
Defined.

Lemma fault_detection_unregistered_witness :
  @fault_detection_routine Z id_supply 99 FAULT (app_started 0) = Undef Out_of_bounds.
Proof.
  apply (@fault_detection_unregistered Z id_supply 99); [exact (app_started_wf 0)|].
  by apply (bool_decide_unpack _), I.
Defined.
