(* ===== verification/FtsTasks.v ===== *)
(** * Removal from the task list, and the tasks of the versions

    [fts_off_t], and the use the scheduler makes of the task manager:
    [release_task] against the laws of the interface, the deletions at the
    start of a period. *)

From stdpp Require Import base tactics numbers option list list_numbers gmap fin_maps.
From Stdlib Require Import ZArith Lia.
From S2P Require Import Prelude Status Pattern Fts FtsLemmas FtsPattern Counters FtsCounters.
From S2P Require Import FtsSlots FtsStatic FtsDynamic FtsSchedule FtsRegister FtsGuarantee.
From S2P Require Import FtsExamples.

Open Scope Z_scope.

(** ** Removal *)
Section Off.
Context {T : Type}.
Implicit Types s : fts_state T.

(** The list [l] with its elements from the second to the [n]-th moved down. *)
Definition shifted (n : nat) (l l' : list Z) : Prop :=
  length l' = length l /\
  forall j, l' !! j = if decide (j < n)%nat then l !! S j else l !! j.

Lemma shifted_step n l l' x :
  (S n < length l)%nat -> shifted n l l' -> l' !! S n = Some x ->
  shifted (S n) l (<[n := x]> l').
Proof.
  intros Hn [Hlen Hs] Hx. split; [by rewrite length_insert|]. intros j.
  rewrite Hs, decide_False in Hx by lia.
  destruct (decide (j = n)) as [->|].
  - rewrite list_lookup_insert_eq, decide_True by lia. done.
  - rewrite list_lookup_insert_ne, Hs by done.
    destruct (decide (j < n)%nat), (decide (j < S n)%nat); done || lia.
Qed.

(** The body of the loop of [fts_off_t]. *)
Lemma off_body i s :
  fts_wf s -> 0 <= i < 9 ->
  exists s', (shift_down F_task_list_id i;;
         shift_down F_l_m i;;
         shift_down F_l_k i;;
         shift_down F_tech i;;
         shift_down F_pattern_start i;;
         shift_down F_pattern_end i;;
         shift_down F_curr_pos i;;
         shift_down F_bitpos i;;
         shift_down F_max_bitpos i;;
         mret (inl tt)) s = Ok (inl tt : unit + unit, s') /\ fts_wf s' /\
    task_list_index (tasklist s') = task_list_index (tasklist s) /\
    exists x, task_list_id (tasklist s) !! Z.to_nat (i + 1) = Some x /\
      task_list_id (tasklist s') = <[Z.to_nat i := x]> (task_list_id (tasklist s)).
Proof.
  intros Hwf Hi. pose proof Hwf as Hwf0. destruct_wf Hwf0. unfold shift_down.
  rewrite cm_bind_assoc. rd_open x Hx. rewrite wr_bind by arr_side.
  do 8 (rewrite cm_bind_assoc;
    (let y := fresh "y" in let Hy := fresh "Hy" in rd_open y Hy); rewrite wr_bind by arr_side).
  eexists. split; [reflexivity|]. split; [|split; [done|by exists x]].
  split; [split|..]; cbn; by rewrite ?length_insert.
Qed.

Lemma fts_off_t_run id s :
  fts_wf s -> id ∈ ids s -> task_list_index (tasklist s) < 10 ->
  exists s', fts_off_t id s = Ok (1, s') /\ fts_wf s' /\ ids s' = drop 1 (ids s).
Proof.
  intros Hwf Hin Hn. pose proof Hwf as Hwf0. destruct_wf Hwf0. unfold fts_off_t.
  rewrite (cm_bind_ok _ _ _ _ _ (task_in_list_t_ok id s Hwf)).
  destruct (Z.eqb_spec (index_of id (ids s)) (-1)) as [Hx|_].
  { by apply index_of_not_registered in Hx. }
  rewrite ld_bind. cbn [fget F_task_list_index].
  set (n := task_list_index (tasklist s)) in *.
  destruct (c_for_inv (fun i (_ : unit) s' => fts_wf s' /\
      task_list_index (tasklist s') = n /\
      shifted (Z.to_nat i) (task_list_id (tasklist s)) (task_list_id (tasklist s')))
    (Z.to_nat n) 0 (fun i _ =>
         shift_down F_task_list_id i;;
         shift_down F_l_m i;;
         shift_down F_l_k i;;
         shift_down F_tech i;;
         shift_down F_pattern_start i;;
         shift_down F_pattern_end i;;
         shift_down F_curr_pos i;;
         shift_down F_bitpos i;;
         shift_down F_max_bitpos i;;
         mret (inl tt)) tt s) as ([] & s' & Hr & Hwf' & Hidx & Hsh).
  - split; [done|]. split; [done|]. split; [done|]. intros j. by rewrite decide_False by lia.
  - intros i [] s1 Hi (Hwf1 & Hi1 & Hs1).
    destruct (off_body i s1) as (s2 & Hr2 & Hwf2 & Hi2 & x & Hx & Hl2); [done|lia|].
    exists tt, s2. split; [exact Hr2|]. split; [done|]. split; [congruence|].
    rewrite Hl2. replace (Z.to_nat (i + 1)) with (S (Z.to_nat i)) in * by lia.
    apply shifted_step; [lia|done|done].
  - rewrite (cm_bind_ok _ _ _ _ _ Hr), st_bind. eexists. split; [reflexivity|].
    assert (0 < n).
    { destruct (decide (n = 0)) as [Hz|]; [|lia]. unfold ids in Hin. fold n in Hin.
      rewrite Hz in Hin. by apply not_elem_of_nil in Hin. }
    split.
    { destruct_wf Hwf'. split; [split|..]; cbn; try done. rewrite u16_id by lia. lia. }
    destruct Hsh as [Hlen Hsh]. unfold ids. cbn. rewrite u16_id by lia.
    rewrite Z.add_0_l, Z2Nat.id in Hsh by lia. fold n.
    apply list_eq. intros j. rewrite lookup_drop.
    destruct (decide (Z.of_nat j < n - 1)).
    + rewrite !lookup_take_lt by lia. rewrite Hsh, decide_True by lia. done.
    + rewrite !lookup_take_ge by lia. done.
Qed.

End Off.

(** ** The tasks of the versions *)
Section Versions.
Context {T : Type} `{TaskManager T}.
Implicit Types s : fts_state T.

Definition version_number (v : fts_version) : Z :=
  match v with BASIC => 0 | DETECTION => 1 | CORRECTION => 2 end.

Definition running_field (v : fts_version) : field (fts_state T) (list Z) :=
  match v with
  | BASIC => F_running_id_b | DETECTION => F_running_id_d | CORRECTION => F_running_id_c
  end.

Definition entry_field (v : fts_version) : field (fts_state T) (list Z) :=
  match v with BASIC => F_l_b | DETECTION => F_l_d | CORRECTION => F_l_c end.

(** What [rtems_task_create] is called with for a version of the task [i]. *)
Definition create_version (i : Z) (v : fts_version) s : rtems_status_code * option Z * T :=
  let at_ (l : list Z) := default 0 (l !! Z.to_nat i) in
  let sp := task_specs s in
  rtems_task_create (default 0 (Task_name !! Z.to_nat (version_number v)))
    (at_ (initial_priority sp)) (at_ (stack_size sp)) (at_ (initial_modes sp))
    (at_ (attribute_set sp)) (tasks s).

(** [release_task] in one piece: [id] is the identifier it started. *)
Lemma release_task_run i v s :
  fts_wf s -> 0 <= i < 10 ->
  let '(_, oid, t1) := create_version i v s in
  exists stale entry arg s',
    Task_id s !! Z.to_nat (version_number v) = Some stale /\
    fget (entry_field v) s !! Z.to_nat i = Some entry /\
    period_pointers s !! Z.to_nat i = Some arg /\
    let id := default stale oid in
    release_task i v s = Ok (tt, s') /\
    fget (running_field v) s' !! Z.to_nat i = Some id /\
    tasks s' = (rtems_task_start id entry arg t1).2.
Proof.
  intros Hwf Hi. destruct (create_version i v s) as [[sc oid] t1] eqn:Hcv.
  pose proof Hwf as Hwf0. destruct_wf Hwf0. unfold release_task. rewrite modify_bind.
  set (s0 := set_released _ s).
  assert (length (Task_id s) = 3%nat) as Hl3 by done.
  destruct (lookup_lt_is_Some_2 (Task_id s) (Z.to_nat (version_number v))) as [stale Hst].
  { destruct v; cbn; lia. }
  destruct (lookup_lt_is_Some_2 (fget (entry_field v) s) (Z.to_nat i)) as [entry He].
  { destruct v; cbn; lia. }
  destruct (lookup_lt_is_Some_2 (period_pointers s) (Z.to_nat i)) as [arg Ha]; [lia|].
  exists stale, entry, arg.
  assert (forall l : list Z, length l = 10%nat ->
    l !! Z.to_nat i = Some (default 0 (l !! Z.to_nat i))) as Hd.
  { intros l Hl. destruct (lookup_lt_is_Some_2 l (Z.to_nat i)) as [y ->]; [lia|done]. }
  assert (release_case i (version_number v) (running_field v) (entry_field v) s0 =
    match v with
    | BASIC => release_case i 0 F_running_id_b F_l_b
    | DETECTION => release_case i 1 F_running_id_d F_l_d
    | CORRECTION => release_case i 2 F_running_id_c F_l_c
    end s0) as <- by (by destruct v).
  unfold release_case.
  rewrite (lift_bind _ _ _ (default 0 (Task_name !! Z.to_nat (version_number v))))
    by (by destruct v).
  rewrite (rd_bind F_initial_priority i (default 0 (initial_priority (task_specs s) !! Z.to_nat i)))
    by (lia || by apply Hd).
  rewrite (rd_bind F_stack_size i (default 0 (stack_size (task_specs s) !! Z.to_nat i)))
    by (lia || by apply Hd).
  rewrite (rd_bind F_initial_modes i (default 0 (initial_modes (task_specs s) !! Z.to_nat i)))
    by (lia || by apply Hd).
  rewrite (rd_bind F_attribute_set i (default 0 (attribute_set (task_specs s) !! Z.to_nat i)))
    by (lia || by apply Hd).
  rewrite gets_bind, st_bind.
  change (rtems_task_create _ _ _ _ _ (tasks s0)) with (create_version i v s).
  rewrite Hcv. cbn [fst snd]. set (s1 := fset F_tasks t1 s0).
  assert (exists l, (match oid with
      | Some id => wr F_Task_id (version_number v) id | None => mret tt end) s1 =
      Ok (tt, set_Task_id l s1) /\
      l !! Z.to_nat (version_number v) = Some (default stale oid)) as (l & Hw & Hl).
  { destruct oid as [id|].
    - exists (<[Z.to_nat (version_number v) := id]> (Task_id s)). split.
      + rewrite <- bind_tt_r, wr_bind by (destruct v; arr_side). done.
      + rewrite list_lookup_insert_eq by (destruct v; cbn; lia). done.
    - exists (Task_id s). split; [by destruct s|done]. }
  rewrite (cm_bind_ok _ _ _ _ _ Hw), (rd_bind F_Task_id (version_number v) (default stale oid))
    by (done || by destruct v).
  rewrite wr_bind by (destruct v; arr_side).
  rewrite (rd_bind (entry_field v) i entry) by (lia || by destruct v).
  rewrite (rd_bind F_period_pointers i arg) by (lia || by destruct v).
  rewrite gets_bind. eexists. split; [done|]. split; [done|]. split; [done|].
  split; [reflexivity|].
  split; [|by destruct v]. destruct v; cbn; by rewrite list_lookup_insert_eq by lia.
Qed.

(** The deletions of a period, on the tasks: [delete_version] forgets the
    identifier it deletes. *)
Lemma delete_version_run v i id s :
  fts_wf s -> 0 <= i < 10 -> fget (running_field v) s !! Z.to_nat i = Some id ->
  exists s', delete_version (running_field v) i s = Ok (tt, s') /\ fts_wf s' /\
    core s' = core s /\
    tasks s' = (if id =? 0 then tasks s else (rtems_task_delete id (tasks s)).2) /\
    (forall v', fget (running_field v') s' !! Z.to_nat i =
      if decide (v' = v) then Some 0 else fget (running_field v') s !! Z.to_nat i).
Proof.
  intros Hwf Hi Hid. pose proof Hwf as Hwf0. destruct_wf Hwf0. unfold delete_version.
  rewrite (rd_bind _ _ id) by (done || lia).
  destruct (Z.eqb_spec id 0) as [->|Hne]; cbn [negb].
  - exists s. do 4 (split; [done|]). intros v'. by case_decide; subst.
  - rewrite gets_bind, st_bind. eexists. split.
    { rewrite <- bind_tt_r, wr_bind by (destruct v; arr_side). reflexivity. }
    split; [destruct v; (split; [split|..]); cbn; by rewrite ?length_insert|].
    split; [by destruct v|]. split; [by destruct v|]. intros v'.
    destruct v, v'; cbn; try done; by rewrite list_lookup_insert_eq by lia.
Qed.

End Versions.

(** ** Properties *)
Section Laws.
Context {T : Type} `{Hlaws : TaskManagerLaws T}.
Implicit Types s : fts_state T.

(** The identifiers of the versions of the task [i] that may be running. *)
Definition running_ids s (i : Z) : list Z :=
  filter (fun x => x <> 0)
    (omap (fun v => fget (running_field v) s !! Z.to_nat i) [BASIC; DETECTION; CORRECTION]).

(** A release starts what it should: when the task manager creates the
    task, [release_task] starts it, under an identifier no task had before,
    with the entry point registered for the version and the address of the
    period's identifier as its argument, and remembers the identifier for the
    deletion at the next period.  No other task comes or goes. *)
Theorem release_task_starts i v id t1 s :
  fts_wf s -> 0 <= i < 10 -> task_ok (tasks s) ->
  create_version i v s = (RTEMS_SUCCESSFUL, Some id, t1) ->
  exists s' entry arg,
    release_task i v s = Ok (tt, s') /\
    fget (running_field v) s' !! Z.to_nat i = Some id /\ id <> 0 /\
    fget (entry_field v) s !! Z.to_nat i = Some entry /\
    period_pointers s !! Z.to_nat i = Some arg /\
    ~ task_exists (tasks s) id /\ task_entry (tasks s') id = Some (entry, arg) /\
    task_ok (tasks s') /\
    forall id', task_exists (tasks s') id' <-> id' = id \/ task_exists (tasks s) id'.
Proof.
  intros Hwf Hi Hok Hc. pose proof (release_task_run i v s Hwf Hi) as Hr. rewrite Hc in Hr.
  destruct Hr as (stale & entry & arg & s' & _ & He & Ha & Hr & Hrun & Ht). cbn in Hr, Hrun, Ht.
  destruct (task_create_law _ _ _ _ _ _ _ _ _ Hok Hc) as (Hok1 & _ & Hnz & Hnew & Hnone & Hex).
  destruct (task_start_law id entry arg t1 Hok1) as (t2 & Hs & Hok2 & Hent & Hex2);
    [apply Hex; by left|done|].
  rewrite Hs in Ht. cbn in Ht. exists s', entry, arg. rewrite Ht.
  do 8 (split; [done|]). intros id'. rewrite Hex2. apply Hex.
Qed.

(** A release does not look at the status of [rtems_task_create]: when
    no task is created, it starts, and notes for deletion, the identifier the
    last release of the same version left in [Task_id], of whichever protected
    task that was. *)
Theorem release_task_stale i v sc t1 s :
  fts_wf s -> 0 <= i < 10 -> create_version i v s = (sc, None, t1) ->
  exists s' stale entry arg,
    Task_id s !! Z.to_nat (version_number v) = Some stale /\
    release_task i v s = Ok (tt, s') /\
    fget (running_field v) s' !! Z.to_nat i = Some stale /\
    tasks s' = (rtems_task_start stale entry arg t1).2.
Proof.
  intros Hwf Hi Hc. pose proof (release_task_run i v s Hwf Hi) as Hr. rewrite Hc in Hr.
  destruct Hr as (stale & entry & arg & s' & Hst & _ & _ & Hr & Hrun & Ht).
  by exists s', stale, entry, arg.
Qed.

(** One deletion, under the laws. *)
Lemma delete_version_law v i id s :
  fts_wf s -> 0 <= i < 10 -> fget (running_field v) s !! Z.to_nat i = Some id ->
  task_ok (tasks s) -> (id <> 0 -> task_exists (tasks s) id) ->
  exists s', delete_version (running_field v) i s = Ok (tt, s') /\ fts_wf s' /\
    core s' = core s /\ task_ok (tasks s') /\
    (forall id', task_exists (tasks s') id' <->
       ~ (id' = id /\ id <> 0) /\ task_exists (tasks s) id') /\
    (forall v', fget (running_field v') s' !! Z.to_nat i =
      if decide (v' = v) then Some 0 else fget (running_field v') s !! Z.to_nat i).
Proof.
  intros Hwf Hi Hid Hok Hex.
  destruct (delete_version_run v i id s Hwf Hi Hid) as (s' & Hr & Hwf' & Hc & Ht & Hrun).
  exists s'. do 3 (split; [done|]). rewrite Ht.
  destruct (Z.eqb_spec id 0) as [->|Hne]; [by split; [|split]; [|naive_solver|]|].
  destruct (task_delete_law id (tasks s) Hok (Hex Hne)) as (t' & Hd & Hok' & Hex').
  rewrite Hd. split; [done|]. split; [|done]. intros id'. cbn. rewrite Hex'. naive_solver.
Qed.

Lemma replenish_keeps_tasks i : keeps (fun s => (tasks s, running_ids s i)) (fts_period_replenish i).
Proof.
  unfold fts_period_replenish, tolc_update, rd_o, rd_a, wr_o, wr_a. solve_keeps.
Qed.

Lemma running_ids_eq s i b d c :
  F_running_id_b.(fget) s !! Z.to_nat i = Some b ->
  F_running_id_d.(fget) s !! Z.to_nat i = Some d ->
  F_running_id_c.(fget) s !! Z.to_nat i = Some c ->
  running_ids s i = filter (fun x => x <> 0) [b; d; c].
Proof. cbn. intros Hb Hd Hc. unfold running_ids. cbn. by rewrite Hb, Hd, Hc. Qed.

(** The three deletions of a period. *)
Lemma delete_versions_law i s :
  fts_wf s -> 0 <= i < 10 -> task_ok (tasks s) ->
  NoDup (running_ids s i) -> Forall (task_exists (tasks s)) (running_ids s i) ->
  exists s', (forall k : cm (fts_state T) unit,
      (delete_version F_running_id_b i;; delete_version F_running_id_d i;;
       delete_version F_running_id_c i;; k) s = k s') /\
    running_ids s' i = [] /\ task_ok (tasks s') /\
    forall id', task_exists (tasks s') id' <->
      (id' ∉ running_ids s i) /\ task_exists (tasks s) id'.
Proof.
  intros Hwf Hi Hok Hnd Hex. pose proof Hwf as Hwf0. destruct_wf Hwf0.
  destruct (lookup_lt_is_Some_2 (running_id_b s) (Z.to_nat i)) as [b Hb]; [lia|].
  destruct (lookup_lt_is_Some_2 (running_id_d s) (Z.to_nat i)) as [d Hd]; [lia|].
  destruct (lookup_lt_is_Some_2 (running_id_c s) (Z.to_nat i)) as [c Hc]; [lia|].
  rewrite (running_ids_eq s i b d c Hb Hd Hc) in *.
  assert (forall x, x <> 0 -> x ∈ [b; d; c] -> task_exists (tasks s) x) as Hall.
  { intros x Hx Hin. apply (proj1 (Forall_forall _ _) Hex), list_elem_of_filter. done. }
  assert (forall x y, x <> 0 -> (x, y) = (b, d) \/ (x, y) = (b, c) \/ (x, y) = (d, c) -> x <> y)
    as Hdiff.
  { intros x y Hx Hxy ->. destruct Hxy as [[= <- <-]|[[= <- <-]|[= <- <-]]];
      repeat (rewrite filter_cons in Hnd; case_decide; try done);
      rewrite ?NoDup_cons, ?elem_of_cons in Hnd; naive_solver. }
  destruct (delete_version_law BASIC i b s) as (s1 & R1 & W1 & _ & O1 & E1 & V1);
    [done..|intros; apply Hall; set_solver|].
  destruct (delete_version_law DETECTION i d s1) as (s2 & R2 & W2 & _ & O2 & E2 & V2);
    [done|done|by rewrite V1|done| |].
  { intros Hne. apply E1. split; [|apply Hall; set_solver]. intros [-> ?]. by apply (Hdiff b b); auto. }
  destruct (delete_version_law CORRECTION i c s2) as (s3 & R3 & W3 & _ & O3 & E3 & V3);
    [done|done|by rewrite V2, decide_False, V1|done| |].
  { intros Hne. apply E2. split; [|apply E1; split; [|apply Hall; set_solver]].
    - intros [-> ?]. by apply (Hdiff d d); auto.
    - intros [-> ?]. by apply (Hdiff b b); auto. }
  exists s3. split.
  { intros k. rewrite (cm_bind_ok _ _ _ _ _ R1), (cm_bind_ok _ _ _ _ _ R2).
    exact (cm_bind_ok _ _ _ _ _ R3). }
  split.
  { rewrite (running_ids_eq s3 i 0 0 0); [done| | |].
    - change F_running_id_b with (running_field (T:=T) BASIC). by rewrite V3, V2, V1.
    - change F_running_id_d with (running_field (T:=T) DETECTION). by rewrite V3, V2.
    - change F_running_id_c with (running_field (T:=T) CORRECTION). by rewrite V3. }
  split; [done|]. intros id'. rewrite E3, E2, E1, list_elem_of_filter, !elem_of_cons.
  pose proof (not_elem_of_nil id'). naive_solver.
Qed.

(** No version outlives its period: a call that begins a period of a
    protected task deletes the tasks of all the versions released before,
    exactly those, and forgets their identifiers. *)
Theorem period_begin_deletes id i te bits ph P s :
  fts_wf s -> index_of id (ids s) = i -> 0 <= i < 10 -> ph = Idle \/ ph = Ready ->
  task_at s i te bits ph P -> task_ok (tasks s) ->
  NoDup (running_ids s i) -> Forall (task_exists (tasks s)) (running_ids s i) ->
  exists s', fts_period_begin id s = Ok (tt, s') /\ running_ids s' i = [] /\
    task_ok (tasks s') /\
    forall id', task_exists (tasks s') id' <->
      (id' ∉ running_ids s i) /\ task_exists (tasks s) id'.
Proof.
  intros Hwf Hidx Hi Hph Hta Hok Hnd Hex.
  destruct (begin_step id i te bits ph P s Hwf Hidx Hi Hph Hta) as (s' & Hr & _).
  exists s'. split; [done|].
  destruct (delete_versions_law i s Hwf Hi Hok Hnd Hex) as (s3 & Hd & Hrun & Hok3 & Hex3).
  unfold fts_period_begin in Hr.
  rewrite (cm_bind_ok _ _ _ _ _ (task_in_list_t_ok id s Hwf)), Hidx in Hr.
  rewrite (proj2 (Z.eqb_neq i (-1))) in Hr by lia.
  set (tail := te0 ← rd F_tech i; _) in Hr.
  assert (keeps (fun s => (tasks s, running_ids s i)) tail) as Hk.
  { apply keeps_bind; [apply keeps_getsM|].
    intros []; apply keeps_ret || apply replenish_keeps_tasks. }
  rewrite Hd in Hr. apply Hk in Hr. injection Hr as -> ->. done.
Qed.

End Laws.

Section Removal.
Context {T : Type}.
Implicit Types s : fts_state T.


End Removal.

(** ** Instances *)
Lemma release_task_starts_witness :
  let M := task_table 5 in
  let s := app_started (∅ : gmap Z (option (Z * Z))) in
  exists s' entry arg,
    @release_task _ M 1 DETECTION s = Ok (tt, s') /\
    fget (running_field DETECTION) s' !! 1%nat = Some 1 /\ 1 <> 0 /\
    fget (entry_field DETECTION) s !! 1%nat = Some entry /\
    period_pointers s !! 1%nat = Some arg /\
    ~ is_Some (tasks s !! 1) /\ mjoin (tasks s' !! 1) = Some (entry, arg) /\
    True /\
    forall id', is_Some (tasks s' !! id') <-> id' = 1 \/ is_Some (tasks s !! id').
Proof.
  apply (@release_task_starts _ _ (task_table_laws 5) 1 DETECTION 1
    (tasks (app_started (<[1 := None]> ∅ : gmap Z (option (Z * Z))))));
    [apply app_started_wf|lia|exact I|by vm_compute].
Defined.

Lemma release_task_stale_witness :
  let M := task_table 0 in
  let s := app_started (∅ : gmap Z (option (Z * Z))) in
  exists s' stale entry arg,
    Task_id s !! 1%nat = Some stale /\
    @release_task _ M 1 DETECTION s = Ok (tt, s') /\
    fget (running_field DETECTION) s' !! 1%nat = Some stale /\
    tasks s' = (@rtems_task_start _ M stale entry arg ∅).2.
Proof.
  apply (@release_task_stale _ (task_table 0) 1 DETECTION RTEMS_TOO_MANY);
    [apply app_started_wf|lia|by vm_compute].
Defined.


Lemma note_running {T} (s : fts_state T) l i te bits ph P :
  fts_wf s -> task_at s i te bits ph P -> length l = 10%nat ->
  let s' := fset F_running_id_d l s in
  fts_wf s' /\ ids s' = ids s /\ tasks s' = tasks s /\ task_at s' i te bits ph P.
Proof.
  intros [] (sl & V & Hte & Hh & Hf) Hl. split; [by split|]. split; [done|]. split; [done|].
  exists sl. split; [by destruct V; split|done].
Qed.

(** The second task with its detection version running, as task 1. *)
Definition app_running : fts_state (gmap Z (option (Z * Z))) :=
  fset F_running_id_d (<[1%nat := 1]> (replicate 10 0))
    (app_started (<[1 := Some (2002, 501)]> {[7 := None]})).

Lemma period_begin_deletes_witness :
  let M := task_table 5 in
  let s := app_running in
  exists s', @fts_period_begin _ M 12 s = Ok (tt, s') /\ running_ids s' 1 = [] /\ True /\
    forall id', is_Some (tasks s' !! id') <->
      (id' ∉ running_ids s 1) /\ is_Some (tasks s !! id').
Proof.
  destruct (note_running (app_started (<[1 := Some (2002, 501)]> {[7 := None]}
      : gmap Z (option (Z * Z))))
    (<[1%nat := 1]> (replicate 10 0)) 1 SDR (rq_bits app_sdr) Idle 0)
    as (Hwf & _ & _ & Hta); [apply app_started_wf|exact (app_started_task _ 1 app_sdr eq_refl)
    |done|].
  apply (@period_begin_deletes _ _ (task_table_laws 5) 12 1 SDR (rq_bits app_sdr) Idle 0
    app_running); [exact Hwf|by vm_compute|lia|by left|exact Hta|exact I| |].
  - by apply (bool_decide_unpack _), I.
  - apply Forall_cons. split; [by eexists|by apply Forall_nil].
Defined.
