(* ===== verification/Thread.v ===== *)
(** * Threads: wait information and states

    The part of the thread handler that blocking managers build on: the wait
    information and the wait flags of [score/include/rtems/score/thread.h] and
    [threadimpl.h], the thread states of [statesimpl.h], blocking and
    unblocking ([threadsetstate.c], [threadclearstate.c]), the timer of a
    thread and the general timeout ([threadtimeout.c]).  The scheduler is
    represented by the set of threads it may choose from.  The timer of a
    thread is a watchdog (component of its own); here it is armed or not, and
    its expiration is an event. *)

From stdpp Require Import base tactics numbers option list list_numbers gmap fin_maps.
From Stdlib Require Import ZArith Lia.
From S2P Require Import Prelude Status.

Open Scope Z_scope.

(** ** Constants *)
Definition THREAD_WAIT_FLAGS_INITIAL : Z := 0.
Definition THREAD_WAIT_STATE_MASK : Z := 255.
Definition THREAD_WAIT_STATE_INTEND_TO_BLOCK : Z := 1.
Definition THREAD_WAIT_STATE_BLOCKED : Z := 2.
Definition THREAD_WAIT_STATE_READY_AGAIN : Z := 4.
Definition THREAD_WAIT_CLASS_MASK : Z := 65280.
Definition THREAD_WAIT_CLASS_EVENT : Z := 256.
Definition THREAD_WAIT_CLASS_SYSTEM_EVENT : Z := 512.
Definition THREAD_WAIT_CLASS_OBJECT : Z := 1024.
Definition THREAD_WAIT_CLASS_PERIOD : Z := 2048.

Definition STATES_READY : Z := 0.
Definition STATES_DORMANT : Z := 2147483648.
Definition STATES_WAITING_FOR_MUTEX : Z := 1.
Definition STATES_WAITING_FOR_SEMAPHORE : Z := 2.
Definition STATES_WAITING_FOR_EVENT : Z := 4.
Definition STATES_WAITING_FOR_SYSTEM_EVENT : Z := 8.
Definition STATES_WAITING_FOR_MESSAGE : Z := 16.
Definition STATES_WAITING_FOR_CONDITION_VARIABLE : Z := 32.
Definition STATES_WAITING_FOR_FUTEX : Z := 64.
Definition STATES_WAITING_FOR_BSD_WAKEUP : Z := 128.
Definition STATES_WAITING_FOR_TIME : Z := 256.
Definition STATES_WAITING_FOR_PERIOD : Z := 512.
Definition STATES_WAITING_FOR_SIGNAL : Z := 1024.
Definition STATES_WAITING_FOR_BARRIER : Z := 2048.
Definition STATES_WAITING_FOR_RWLOCK : Z := 4096.
Definition STATES_WAITING_FOR_JOIN_AT_EXIT : Z := 8192.
Definition STATES_WAITING_FOR_JOIN : Z := 16384.
Definition STATES_SUSPENDED : Z := 32768.
Definition STATES_WAITING_FOR_SEGMENT : Z := 65536.
Definition STATES_LIFE_IS_CHANGING : Z := 131072.
Definition STATES_INTERRUPTIBLE_BY_SIGNAL : Z := 2 ^ 28.
Definition STATES_WAITING_FOR_RPC_REPLY : Z := 2 ^ 29.

(** The bits that are or-ed in the order of the source. *)
Definition or_all (l : list Z) : Z := foldr Z.lor 0 l.

Definition STATES_LOCALLY_BLOCKED : Z :=
  or_all [STATES_WAITING_FOR_SEGMENT; STATES_WAITING_FOR_MESSAGE; STATES_WAITING_FOR_SEMAPHORE;
          STATES_WAITING_FOR_MUTEX; STATES_WAITING_FOR_CONDITION_VARIABLE; STATES_WAITING_FOR_JOIN;
          STATES_WAITING_FOR_SIGNAL; STATES_WAITING_FOR_BARRIER; STATES_WAITING_FOR_BSD_WAKEUP;
          STATES_WAITING_FOR_FUTEX; STATES_WAITING_FOR_RWLOCK].
Definition STATES_BLOCKED : Z :=
  or_all [STATES_LOCALLY_BLOCKED; STATES_WAITING_FOR_TIME; STATES_WAITING_FOR_PERIOD;
          STATES_WAITING_FOR_EVENT; STATES_WAITING_FOR_RPC_REPLY; STATES_WAITING_FOR_SYSTEM_EVENT;
          STATES_INTERRUPTIBLE_BY_SIGNAL].

Definition States_Set (states_to_set current_state : Z) : Z := Z.lor current_state states_to_set.
Definition States_Clear (states_to_clear current_state : Z) : Z :=
  Z.land current_state (Z.lnot states_to_clear).
Definition States_Is_ready (the_states : Z) : bool := the_states =? STATES_READY.

(** The most important priority. *)
Definition PRIORITY_PSEUDO_ISR : Z := 0.

(** ** Status of a wait

    [STATUS_MINUS_ONE], which is no status of the Classic API, is left out. *)
Inductive Status_Control :=
| STATUS_BARRIER_AUTOMATICALLY_RELEASED
| STATUS_DEADLOCK
| STATUS_FLUSHED
| STATUS_INCORRECT_STATE
| STATUS_INTERRUPTED
| STATUS_INVALID_NUMBER
| STATUS_INVALID_PRIORITY
| STATUS_MAXIMUM_COUNT_EXCEEDED
| STATUS_MESSAGE_INVALID_SIZE
| STATUS_MESSAGE_QUEUE_WAIT_IN_ISR
| STATUS_MESSAGE_QUEUE_WAS_DELETED
| STATUS_MUTEX_CEILING_VIOLATED
| STATUS_NESTING_NOT_ALLOWED
| STATUS_NO_MEMORY
| STATUS_NOT_DEFINED
| STATUS_NOT_OWNER
| STATUS_OBJECT_WAS_DELETED
| STATUS_RESOURCE_IN_USE
| STATUS_RESULT_TOO_LARGE
| STATUS_SUCCESSFUL
| STATUS_TIMEOUT
| STATUS_TOO_MANY
| STATUS_UNAVAILABLE
| STATUS_UNSATISFIED.

#[export] Instance Status_Control_eq_dec : EqDecision Status_Control.
Proof. solve_decision. Defined.

Definition Status_Get (status : Status_Control) : rtems_status_code :=
  match status with
  | STATUS_BARRIER_AUTOMATICALLY_RELEASED => RTEMS_SUCCESSFUL
  | STATUS_DEADLOCK => RTEMS_INCORRECT_STATE
  | STATUS_FLUSHED => RTEMS_UNSATISFIED
  | STATUS_INCORRECT_STATE => RTEMS_INCORRECT_STATE
  | STATUS_INTERRUPTED => RTEMS_INTERNAL_ERROR
  | STATUS_INVALID_NUMBER => RTEMS_INVALID_NUMBER
  | STATUS_INVALID_PRIORITY => RTEMS_INVALID_PRIORITY
  | STATUS_MAXIMUM_COUNT_EXCEEDED => RTEMS_INTERNAL_ERROR
  | STATUS_MESSAGE_INVALID_SIZE => RTEMS_INVALID_SIZE
  | STATUS_MESSAGE_QUEUE_WAIT_IN_ISR => RTEMS_INTERNAL_ERROR
  | STATUS_MESSAGE_QUEUE_WAS_DELETED => RTEMS_OBJECT_WAS_DELETED
  | STATUS_MUTEX_CEILING_VIOLATED => RTEMS_INVALID_PRIORITY
  | STATUS_NESTING_NOT_ALLOWED => RTEMS_UNSATISFIED
  | STATUS_NO_MEMORY => RTEMS_NO_MEMORY
  | STATUS_NOT_DEFINED => RTEMS_NOT_DEFINED
  | STATUS_NOT_OWNER => RTEMS_NOT_OWNER_OF_RESOURCE
  | STATUS_OBJECT_WAS_DELETED => RTEMS_OBJECT_WAS_DELETED
  | STATUS_RESOURCE_IN_USE => RTEMS_RESOURCE_IN_USE
  | STATUS_RESULT_TOO_LARGE => RTEMS_UNSATISFIED
  | STATUS_SUCCESSFUL => RTEMS_SUCCESSFUL
  | STATUS_TIMEOUT => RTEMS_TIMEOUT
  | STATUS_TOO_MANY => RTEMS_TOO_MANY
  | STATUS_UNAVAILABLE => RTEMS_UNSATISFIED
  | STATUS_UNSATISFIED => RTEMS_UNSATISFIED
  end.

(** ** A thread *)
Record Thread_Wait_information := mk_Wait {
  Wait_count : Z;
  Wait_return_argument : Z;
  Wait_option : Z;
  Wait_return_code : Status_Control;
  Wait_flags : Z
}.

(** The two sets of pending events of a thread, [Event] and [System_event] of
    [RTEMS_API_Control]. *)
Record Thread := mk_Thread {
  thr_Wait : Thread_Wait_information;
  thr_state : Z;
  thr_Timer : option Z;
  thr_Event : Z;
  thr_System_event : Z
}.

Definition set_Wait_return_code v (w : Thread_Wait_information) : Thread_Wait_information :=
  mk_Wait (Wait_count w) (Wait_return_argument w) (Wait_option w) v (Wait_flags w).
Definition set_Wait_flags v (w : Thread_Wait_information) : Thread_Wait_information :=
  mk_Wait (Wait_count w) (Wait_return_argument w) (Wait_option w) (Wait_return_code w) v.
Definition set_thr_Wait v (t : Thread) : Thread :=
  mk_Thread v (thr_state t) (thr_Timer t) (thr_Event t) (thr_System_event t).
Definition set_thr_state v (t : Thread) : Thread :=
  mk_Thread (thr_Wait t) v (thr_Timer t) (thr_Event t) (thr_System_event t).
Definition set_thr_Timer v (t : Thread) : Thread :=
  mk_Thread (thr_Wait t) (thr_state t) v (thr_Event t) (thr_System_event t).
Definition set_thr_Event v (t : Thread) : Thread :=
  mk_Thread (thr_Wait t) (thr_state t) (thr_Timer t) v (thr_System_event t).
Definition set_thr_System_event v (t : Thread) : Thread :=
  mk_Thread (thr_Wait t) (thr_state t) (thr_Timer t) (thr_Event t) v.
Definition map_Wait (f : Thread_Wait_information -> Thread_Wait_information) (t : Thread) : Thread :=
  set_thr_Wait (f (thr_Wait t)) t.

(** The threads, the threads the scheduler may choose from, and the words of
    memory the threads pass as return arguments. *)
Record thr_system := mk_thr_system {
  thr_table : gmap Z Thread;
  thr_ready : gset Z;
  thr_words : gmap Z Z
}.

Definition set_thr_table v (s : thr_system) : thr_system := mk_thr_system v (thr_ready s) (thr_words s).
Definition set_thr_ready v (s : thr_system) : thr_system := mk_thr_system (thr_table s) v (thr_words s).
Definition set_thr_words v (s : thr_system) : thr_system := mk_thr_system (thr_table s) (thr_ready s) v.
Definition F_thr_table : field thr_system (gmap Z Thread) := mk_field thr_table set_thr_table.
Definition F_thr_words : field thr_system (gmap Z Z) := mk_field thr_words set_thr_words.

#[local] Abbreviation M := (cm thr_system).

Definition thr_ld {A} (t : Z) (f : Thread -> A) : M A := th ← ldm F_thr_table t; mret (f th).
Definition thr_upd (t : Z) (f : Thread -> Thread) : M unit :=
  th ← ldm F_thr_table t; stm F_thr_table t (f th).

(** ** Wait flags *)
Definition Thread_Wait_flags_get (t : Z) : M Z := thr_ld t (fun th => Wait_flags (thr_Wait th)).
Definition Thread_Wait_flags_set (t flags : Z) : M unit := thr_upd t (map_Wait (set_Wait_flags flags)).

Definition Thread_Wait_flags_try_change_release (t expected_flags desired_flags : Z) : M bool :=
  flags ← Thread_Wait_flags_get t;
  let success := flags =? expected_flags in
  c_if success (Thread_Wait_flags_set t desired_flags);;
  mret success.

Definition Thread_Wait_flags_try_change_acquire (t expected_flags desired_flags : Z) : M bool :=
  Thread_Wait_flags_try_change_release t expected_flags desired_flags.

Definition Thread_Wait_get_status (t : Z) : M Status_Control :=
  thr_ld t (fun th => Wait_return_code (thr_Wait th)).
Definition Status_Get_after_wait (executing : Z) : M rtems_status_code :=
  s ← Thread_Wait_get_status executing; mret (Status_Get s).

(** ** States *)
Definition Scheduler_Block (t : Z) : M unit :=
  modify (fun s => set_thr_ready (thr_ready s ∖ {[t]}) s).
Definition Scheduler_Unblock (t : Z) : M unit :=
  modify (fun s => set_thr_ready ({[t]} ∪ thr_ready s) s).

Definition Thread_Set_state (t state : Z) : M Z :=
  previous_state ← thr_ld t thr_state;
  let next_state := States_Set state previous_state in
  thr_upd t (set_thr_state next_state);;
  c_if (States_Is_ready previous_state) (Scheduler_Block t);;
  mret previous_state.

Definition Thread_Clear_state (t state : Z) : M Z :=
  previous_state ← thr_ld t thr_state;
  c_if (negb (Z.land previous_state state =? 0))
    (let next_state := States_Clear state previous_state in
     thr_upd t (set_thr_state next_state);;
     c_if (States_Is_ready next_state) (Scheduler_Unblock t));;
  mret previous_state.

Definition Thread_Unblock (t : Z) : M unit := Thread_Clear_state t STATES_BLOCKED;; mret tt.

(** ** The timer of a thread *)
Definition Thread_Timer_insert_relative (t ticks : Z) : M unit := thr_upd t (set_thr_Timer (Some ticks)).
Definition Thread_Timer_remove (t : Z) : M unit := thr_upd t (set_thr_Timer None).

(** The part of [_Thread_Timeout] with the wait lock held: the result says
    whether the thread is to be unblocked.  A thread that waits on no thread
    queue has the default operations, whose extraction does nothing. *)
Definition Thread_Timeout_locked (t : Z) : M bool :=
  wait_flags ← Thread_Wait_flags_get t;
  if Z.land wait_flags THREAD_WAIT_STATE_READY_AGAIN =? 0 then
    thr_upd t (map_Wait (set_Wait_return_code STATUS_TIMEOUT));;
    let wait_class := Z.land wait_flags THREAD_WAIT_CLASS_MASK in
    let ready_again := Z.lor wait_class THREAD_WAIT_STATE_READY_AGAIN in
    success ← Thread_Wait_flags_try_change_release t
                (Z.lor wait_class THREAD_WAIT_STATE_INTEND_TO_BLOCK) ready_again;
    if (success : bool) then mret false
    else Thread_Wait_flags_set t ready_again;; mret true
  else mret false.

Definition Thread_Timeout (t : Z) : M unit :=
  unblock ← Thread_Timeout_locked t;
  c_if unblock (Thread_Unblock t).

(** ** Accesses *)
Lemma thr_ld_bind {A B} t th (f : Thread -> A) (k : A -> M B) s :
  thr_table s !! t = Some th -> (x ← thr_ld t f; k x) s = k (f th) s.
Proof. intros Ht. unfold thr_ld. by rewrite cm_bind_assoc, (ldm_bind _ _ th). Qed.

Lemma thr_upd_run t th f s :
  thr_table s !! t = Some th -> thr_upd t f s = Ok (tt, set_thr_table (<[t := f th]> (thr_table s)) s).
Proof.
  intros Ht. unfold thr_upd. rewrite (ldm_bind _ _ th) by done.
  unfold stm. apply modifyM_ok. unfold mem_store. cbn. by rewrite Ht.
Qed.

Lemma thr_upd_bind {B} t th f (k : unit -> M B) s :
  thr_table s !! t = Some th ->
  (x ← thr_upd t f; k x) s = k tt (set_thr_table (<[t := f th]> (thr_table s)) s).
Proof. intros Ht. by rewrite (cm_bind_ok _ _ _ _ _ (thr_upd_run t th f s Ht)). Qed.

Lemma try_change_bind {B} t th e d (k : bool -> M B) s :
  thr_table s !! t = Some th ->
  (x ← Thread_Wait_flags_try_change_release t e d; k x) s =
  if Wait_flags (thr_Wait th) =? e
  then k true (set_thr_table (<[t := map_Wait (set_Wait_flags d) th]> (thr_table s)) s)
  else k false s.
Proof.
  intros Ht. unfold Thread_Wait_flags_try_change_release, Thread_Wait_flags_get, Thread_Wait_flags_set.
  rewrite cm_bind_assoc, (thr_ld_bind _ th) by done. cbn beta zeta.
  rewrite cm_bind_assoc. destruct (_ =? e); cbn [c_if]; [by rewrite (thr_upd_bind _ th)|done].
Qed.
