(* ===== verification/RateMon.v ===== *)
(** * The rate monotonic manager

    [rtems/src/ratemon*.c] with the changes of the fault tolerant scheduler:
    the directives on periods, the handler of a period's timer, and the calls
    into the scheduler.  Periods are objects of their class; the clock, the
    threads' wait flags and their CPU times are part of the state.  Locks and
    the dispatching of threads are left out: a directive is a sequence of
    atomic parts, and where the code leaves its critical section before it
    blocks ([_Rate_monotonic_Block_while_active]) the two parts are separate
    steps.  The release and cancel operations of the scheduler in use are
    empty ([score/src/schedulerdefaultreleasejob.c]). *)

From stdpp Require Import base tactics numbers option list list_numbers gmap fin_maps.
From Stdlib Require Import ZArith Lia.
From S2P Require Import Prelude Status Timespec Objects ObjectsStatus Fts Thread.

Open Scope Z_scope.

(** ** Data *)
Inductive period_state :=
| RATE_MONOTONIC_INACTIVE
| RATE_MONOTONIC_ACTIVE
| RATE_MONOTONIC_EXPIRED.

#[export] Instance period_state_eq_dec : EqDecision period_state.
Proof. solve_decision. Defined.

Record Rate_monotonic_Statistics := mk_statistics {
  count : Z;
  missed_count : Z;
  min_cpu_time : Timestamp_Control;
  max_cpu_time : Timestamp_Control;
  total_cpu_time : Timestamp_Control;
  min_wall_time : Timestamp_Control;
  max_wall_time : Timestamp_Control;
  total_wall_time : Timestamp_Control
}.

Record Rate_monotonic_Control := mk_period {
  Timer : option Z;
  state : period_state;
  next_length : Z;
  owner : Z;
  cpu_usage_period_initiated : Timestamp_Control;
  time_period_initiated : Timestamp_Control;
  Statistics : Rate_monotonic_Statistics;
  postponed_jobs : Z;
  latest_deadline : Z
}.

(** The part of a thread control block the manager works with. *)
Record Thread_Control := mk_thread {
  wait_flags : Z;
  return_argument : option Z;
  waiting_for_period : bool;
  cpu_time_used : Timestamp_Control
}.

Definition RTEMS_PERIOD_STATUS : Z := 0.

(** The wait flags of a thread that waits for a period. *)
Definition RATE_MONOTONIC_INTEND_TO_BLOCK : Z :=
  Z.lor THREAD_WAIT_CLASS_PERIOD THREAD_WAIT_STATE_INTEND_TO_BLOCK.
Definition RATE_MONOTONIC_BLOCKED : Z :=
  Z.lor THREAD_WAIT_CLASS_PERIOD THREAD_WAIT_STATE_BLOCKED.
Definition RATE_MONOTONIC_READY_AGAIN : Z :=
  Z.lor THREAD_WAIT_CLASS_PERIOD THREAD_WAIT_STATE_READY_AGAIN.

Record rm_state (T W : Type) := mk_rm_state {
  rm_info : obj_state W;
  periods : gmap Z Rate_monotonic_Control;
  threads : gmap Z Thread_Control;
  executing : Z;
  ticks : Z;
  uptime : Timestamp_Control;
  fts : fts_state T
}.
Arguments mk_rm_state {T W}.
Arguments rm_info {T W}.
Arguments periods {T W}.
Arguments threads {T W}.
Arguments executing {T W}.
Arguments ticks {T W}.
Arguments uptime {T W}.
Arguments fts {T W}.

(** Updates of one field. *)
Definition set_count v (r : Rate_monotonic_Statistics) : Rate_monotonic_Statistics :=
  mk_statistics v (missed_count r) (min_cpu_time r) (max_cpu_time r) (total_cpu_time r)
    (min_wall_time r) (max_wall_time r) (total_wall_time r).
Definition set_missed_count v (r : Rate_monotonic_Statistics) : Rate_monotonic_Statistics :=
  mk_statistics (count r) v (min_cpu_time r) (max_cpu_time r) (total_cpu_time r)
    (min_wall_time r) (max_wall_time r) (total_wall_time r).
Definition set_min_cpu_time v (r : Rate_monotonic_Statistics) : Rate_monotonic_Statistics :=
  mk_statistics (count r) (missed_count r) v (max_cpu_time r) (total_cpu_time r)
    (min_wall_time r) (max_wall_time r) (total_wall_time r).
Definition set_max_cpu_time v (r : Rate_monotonic_Statistics) : Rate_monotonic_Statistics :=
  mk_statistics (count r) (missed_count r) (min_cpu_time r) v (total_cpu_time r)
    (min_wall_time r) (max_wall_time r) (total_wall_time r).
Definition set_total_cpu_time v (r : Rate_monotonic_Statistics) : Rate_monotonic_Statistics :=
  mk_statistics (count r) (missed_count r) (min_cpu_time r) (max_cpu_time r) v
    (min_wall_time r) (max_wall_time r) (total_wall_time r).
Definition set_min_wall_time v (r : Rate_monotonic_Statistics) : Rate_monotonic_Statistics :=
  mk_statistics (count r) (missed_count r) (min_cpu_time r) (max_cpu_time r) (total_cpu_time
    r) v (max_wall_time r) (total_wall_time r).
Definition set_max_wall_time v (r : Rate_monotonic_Statistics) : Rate_monotonic_Statistics :=
  mk_statistics (count r) (missed_count r) (min_cpu_time r) (max_cpu_time r) (total_cpu_time
    r) (min_wall_time r) v (total_wall_time r).
Definition set_total_wall_time v (r : Rate_monotonic_Statistics) : Rate_monotonic_Statistics :=
  mk_statistics (count r) (missed_count r) (min_cpu_time r) (max_cpu_time r) (total_cpu_time
    r) (min_wall_time r) (max_wall_time r) v.
Definition set_Timer v (r : Rate_monotonic_Control) : Rate_monotonic_Control :=
  mk_period v (state r) (next_length r) (owner r) (cpu_usage_period_initiated r)
    (time_period_initiated r) (Statistics r) (postponed_jobs r) (latest_deadline r).
Definition set_state v (r : Rate_monotonic_Control) : Rate_monotonic_Control :=
  mk_period (Timer r) v (next_length r) (owner r) (cpu_usage_period_initiated r)
    (time_period_initiated r) (Statistics r) (postponed_jobs r) (latest_deadline r).
Definition set_next_length v (r : Rate_monotonic_Control) : Rate_monotonic_Control :=
  mk_period (Timer r) (state r) v (owner r) (cpu_usage_period_initiated r)
    (time_period_initiated r) (Statistics r) (postponed_jobs r) (latest_deadline r).
Definition set_owner v (r : Rate_monotonic_Control) : Rate_monotonic_Control :=
  mk_period (Timer r) (state r) (next_length r) v (cpu_usage_period_initiated r)
    (time_period_initiated r) (Statistics r) (postponed_jobs r) (latest_deadline r).
Definition set_cpu_usage_period_initiated v (r : Rate_monotonic_Control) : Rate_monotonic_Control :=
  mk_period (Timer r) (state r) (next_length r) (owner r) v (time_period_initiated r)
    (Statistics r) (postponed_jobs r) (latest_deadline r).
Definition set_time_period_initiated v (r : Rate_monotonic_Control) : Rate_monotonic_Control :=
  mk_period (Timer r) (state r) (next_length r) (owner r) (cpu_usage_period_initiated r) v
    (Statistics r) (postponed_jobs r) (latest_deadline r).
Definition set_Statistics v (r : Rate_monotonic_Control) : Rate_monotonic_Control :=
  mk_period (Timer r) (state r) (next_length r) (owner r) (cpu_usage_period_initiated r)
    (time_period_initiated r) v (postponed_jobs r) (latest_deadline r).
Definition set_postponed_jobs v (r : Rate_monotonic_Control) : Rate_monotonic_Control :=
  mk_period (Timer r) (state r) (next_length r) (owner r) (cpu_usage_period_initiated r)
    (time_period_initiated r) (Statistics r) v (latest_deadline r).
Definition set_latest_deadline v (r : Rate_monotonic_Control) : Rate_monotonic_Control :=
  mk_period (Timer r) (state r) (next_length r) (owner r) (cpu_usage_period_initiated r)
    (time_period_initiated r) (Statistics r) (postponed_jobs r) v.
Definition set_wait_flags v (r : Thread_Control) : Thread_Control :=
  mk_thread v (return_argument r) (waiting_for_period r) (cpu_time_used r).
Definition set_return_argument v (r : Thread_Control) : Thread_Control :=
  mk_thread (wait_flags r) v (waiting_for_period r) (cpu_time_used r).
Definition set_waiting_for_period v (r : Thread_Control) : Thread_Control :=
  mk_thread (wait_flags r) (return_argument r) v (cpu_time_used r).
Definition set_cpu_time_used v (r : Thread_Control) : Thread_Control :=
  mk_thread (wait_flags r) (return_argument r) (waiting_for_period r) v.
Definition set_rm_info {T W} v (r : rm_state T W) : rm_state T W :=
  mk_rm_state v (periods r) (threads r) (executing r) (ticks r) (uptime r) (fts r).
Definition set_periods {T W} v (r : rm_state T W) : rm_state T W :=
  mk_rm_state (rm_info r) v (threads r) (executing r) (ticks r) (uptime r) (fts r).
Definition set_threads {T W} v (r : rm_state T W) : rm_state T W :=
  mk_rm_state (rm_info r) (periods r) v (executing r) (ticks r) (uptime r) (fts r).
Definition set_executing {T W} v (r : rm_state T W) : rm_state T W :=
  mk_rm_state (rm_info r) (periods r) (threads r) v (ticks r) (uptime r) (fts r).
Definition set_ticks {T W} v (r : rm_state T W) : rm_state T W :=
  mk_rm_state (rm_info r) (periods r) (threads r) (executing r) v (uptime r) (fts r).
Definition set_uptime {T W} v (r : rm_state T W) : rm_state T W :=
  mk_rm_state (rm_info r) (periods r) (threads r) (executing r) (ticks r) v (fts r).
Definition set_fts {T W} v (r : rm_state T W) : rm_state T W :=
  mk_rm_state (rm_info r) (periods r) (threads r) (executing r) (ticks r) (uptime r) v.

(** ** The operations *)
Section RateMonotonic.
Context {T W : Type} `{TaskManager T} `{Workspace W} `{Bintime}.
Abbreviation St := (rm_state T W).
Abbreviation M := (cm (rm_state T W)).

Definition objs {A} (m : cm (obj_state W) A) : M A := zoom rm_info set_rm_info m.
Definition on_fts {A} (m : cm (fts_state T) A) : M A := zoom fts set_fts m.

(** The control block of the period object [o], and of a thread. *)
Definition period_ld {A} (o : Z) (f : Rate_monotonic_Control -> A) : M A :=
  getsM (fun s => match periods s !! o with Some p => Ok (f p) | None => Undef Bad_address end).
Definition period_upd (o : Z) (f : Rate_monotonic_Control -> Rate_monotonic_Control) : M unit :=
  modifyM (fun s => match periods s !! o with
                    | Some p => Ok (set_periods (<[o := f p]> (periods s)) s)
                    | None => Undef Bad_address
                    end).
Definition thread_ld {A} (t : Z) (f : Thread_Control -> A) : M A :=
  getsM (fun s => match threads s !! t with Some p => Ok (f p) | None => Undef Bad_address end).
Definition thread_upd (t : Z) (f : Thread_Control -> Thread_Control) : M unit :=
  modifyM (fun s => match threads s !! t with
                    | Some p => Ok (set_threads (<[t := f p]> (threads s)) s)
                    | None => Undef Bad_address
                    end).

Definition Rate_monotonic_Allocate : M (option Z) := objs Objects_Allocate.
Definition Rate_monotonic_Get (id : Z) : M (option Z) := objs (Objects_Get id).

Definition Rate_monotonic_Reset_min_time : Timestamp_Control :=
  Timestamp_Set 2147483647 2147483647.

Definition Rate_monotonic_Reset_statistics (o : Z) : M unit :=
  let zero := mk_timestamp 0 0 in
  period_upd o (set_Statistics
    (mk_statistics 0 0 Rate_monotonic_Reset_min_time zero zero
       Rate_monotonic_Reset_min_time zero zero)).

(** [_Rate_monotonic_Get_status]: the wall and CPU time since the period was
    initiated, unless the CPU usage was reset meanwhile.  The wall time is
    written in either case. *)
Definition Rate_monotonic_Get_status (o : Z)
    : M (bool * Timestamp_Control * Timestamp_Control) :=
  owning_thread ← period_ld o owner;
  up ← gets uptime;
  initiated ← period_ld o time_period_initiated;
  let wall_since_last_period := Timestamp_Subtract initiated up in
  used ← thread_ld owning_thread cpu_time_used;
  cpu_initiated ← period_ld o cpu_usage_period_initiated;
  if Timestamp_Less_than used cpu_initiated then
    mret (false, wall_since_last_period, mk_timestamp 0 0)
  else
    mret (true, wall_since_last_period, Timestamp_Subtract cpu_initiated used).

(** [_Watchdog_Per_CPU_insert_relative] on the timer of the period: the timer
    is armed for the returned tick. *)
Definition timer_insert (o length : Z) : M Z :=
  now ← gets ticks;
  let expire := u64 (length + now) in
  period_upd o (set_Timer (Some expire));;
  mret expire.

Definition Rate_monotonic_Release_postponed_job (o : Z) : M fts_version :=
  period_upd o (fun p => set_postponed_jobs (u32 (postponed_jobs p - 1)) p);;
  id ← objs (obj_id o);
  on_fts (fts_compensate_t id).

Definition Rate_monotonic_Release_job (o next_length : Z) : M fts_version :=
  timer_insert o next_length;;
  id ← objs (obj_id o);
  on_fts (fts_compensate_t id).

Definition Rate_monotonic_Restart (o the_owner : Z) : M fts_version :=
  up ← gets uptime;
  period_upd o (set_time_period_initiated up);;
  used ← thread_ld the_owner cpu_time_used;
  period_upd o (set_cpu_usage_period_initiated used);;
  len ← period_ld o next_length;
  Rate_monotonic_Release_job o len.

(** The statistics of a concluded period, from the CPU and the wall time. *)
Definition add_times (executed since : Timestamp_Control) (st : Rate_monotonic_Statistics)
    : Rate_monotonic_Statistics :=
  let st := set_total_cpu_time (Timestamp_Add_to (total_cpu_time st) executed).1 st in
  let st := if Timestamp_Less_than executed (min_cpu_time st)
            then set_min_cpu_time executed st else st in
  let st := if Timestamp_Greater_than executed (max_cpu_time st)
            then set_max_cpu_time executed st else st in
  let st := set_total_wall_time (Timestamp_Add_to (total_wall_time st) since).1 st in
  let st := if Timestamp_Less_than since (min_wall_time st)
            then set_min_wall_time since st else st in
  if Timestamp_Greater_than since (max_wall_time st) then set_max_wall_time since st else st.

Definition Rate_monotonic_Update_statistics (o : Z) : M unit :=
  period_upd o (fun p => set_Statistics
    (set_count (u32 (count (Statistics p) + 1)) (Statistics p)) p);;
  st ← period_ld o state;
  c_if (bool_decide (st = RATE_MONOTONIC_EXPIRED))
    (period_upd o (fun p => set_Statistics
       (set_missed_count (u32 (missed_count (Statistics p) + 1)) (Statistics p)) p));;
  status ← Rate_monotonic_Get_status o;
  let '(valid_status, since_last_period, executed) := status in
  c_if valid_status
    (period_upd o (fun p => set_Statistics
       (add_times executed since_last_period (Statistics p)) p)).

Definition Rate_monotonic_Get_status_for_state (st : period_state) : rtems_status_code :=
  match st with
  | RATE_MONOTONIC_INACTIVE => RTEMS_NOT_DEFINED
  | RATE_MONOTONIC_EXPIRED => RTEMS_TIMEOUT
  | RATE_MONOTONIC_ACTIVE => RTEMS_SUCCESSFUL
  end.

Definition Rate_monotonic_Activate (o length exec : Z) : M rtems_status_code :=
  period_upd o (set_postponed_jobs 0);;
  period_upd o (set_state RATE_MONOTONIC_ACTIVE);;
  period_upd o (set_next_length length);;
  Rate_monotonic_Restart o exec;;
  mret RTEMS_SUCCESSFUL.

(** The part of [_Rate_monotonic_Block_while_active] inside the critical
    section ... *)
Definition Rate_monotonic_Intend_to_block (o length exec : Z) : M unit :=
  Rate_monotonic_Update_statistics o;;
  period_upd o (set_next_length length);;
  thread_upd exec (set_return_argument (Some o));;
  thread_upd exec (set_wait_flags RATE_MONOTONIC_INTEND_TO_BLOCK).

(** ... and the part after it, in front of which the timer may fire. *)
Definition Rate_monotonic_Block (exec : Z) : M rtems_status_code :=
  thread_upd exec (set_waiting_for_period true);;
  flags ← thread_ld exec wait_flags;
  (if flags =? RATE_MONOTONIC_INTEND_TO_BLOCK then
     thread_upd exec (set_wait_flags RATE_MONOTONIC_BLOCKED)
   else thread_upd exec (set_waiting_for_period false));;
  mret RTEMS_SUCCESSFUL.

Definition Rate_monotonic_Block_while_expired (o length exec : Z) : M rtems_status_code :=
  period_upd o (set_state RATE_MONOTONIC_EXPIRED);;
  Rate_monotonic_Update_statistics o;;
  period_upd o (set_state RATE_MONOTONIC_ACTIVE);;
  period_upd o (set_next_length length);;
  Rate_monotonic_Release_postponed_job o;;
  mret RTEMS_TIMEOUT.

(** A call of [rtems_rate_monotonic_period] either returns a status or
    leaves the executing thread about to block. *)
Inductive call_result :=
| Returns (sc : rtems_status_code)
| About_to_block.

Definition rtems_rate_monotonic_period (id length : Z) : M call_result :=
  the_period ← Rate_monotonic_Get id;
  match the_period with
  | None => mret (Returns RTEMS_INVALID_ID)
  | Some o =>
      oid ← objs (obj_id o);
      on_fts (fts_period_begin oid);;
      exec ← gets executing;
      own ← period_ld o owner;
      if negb (exec =? own) then mret (Returns RTEMS_NOT_OWNER_OF_RESOURCE)
      else
        st ← period_ld o state;
        if length =? RTEMS_PERIOD_STATUS then
          mret (Returns (Rate_monotonic_Get_status_for_state st))
        else
          match st with
          | RATE_MONOTONIC_ACTIVE =>
              pj ← period_ld o postponed_jobs;
              if 0 <? pj then
                r ← Rate_monotonic_Block_while_expired o length exec; mret (Returns r)
              else
                Rate_monotonic_Intend_to_block o length exec;; mret About_to_block
          | RATE_MONOTONIC_INACTIVE =>
              r ← Rate_monotonic_Activate o length exec; mret (Returns r)
          | RATE_MONOTONIC_EXPIRED =>
              r ← Rate_monotonic_Block_while_expired o length exec; mret (Returns r)
          end
  end.

(** ** The timer of a period *)
Definition Rate_monotonic_Renew_deadline (o : Z) : M unit :=
  pj ← period_ld o postponed_jobs;
  c_if (negb (pj =? UINT32_MAX)) (period_upd o (set_postponed_jobs (pj + 1)));;
  period_upd o (set_state RATE_MONOTONIC_EXPIRED);;
  len ← period_ld o next_length;
  deadline ← timer_insert o len;
  period_upd o (set_latest_deadline deadline).

Definition Rate_monotonic_Timeout (o : Z) : M unit :=
  own ← period_ld o owner;
  flags ← thread_ld own wait_flags;
  arg ← thread_ld own return_argument;
  if negb (Z.land flags THREAD_WAIT_CLASS_PERIOD =? 0) && bool_decide (arg = Some o) then
    thread_upd own (set_return_argument None);;
    flags ← thread_ld own wait_flags;
    let success := flags =? RATE_MONOTONIC_INTEND_TO_BLOCK in
    thread_upd own (set_wait_flags RATE_MONOTONIC_READY_AGAIN);;
    Rate_monotonic_Restart o own;;
    c_if (negb success) (thread_upd own (set_waiting_for_period false))
  else Rate_monotonic_Renew_deadline o.

(** ** Creation, cancellation, deletion *)
Definition create_period (name : Z) (idp : option Z) : M (rtems_status_code * Z) :=
  if negb (rtems_is_name_valid name) then mret (RTEMS_INVALID_NAME, 0)
  else
    match idp with
    | None => mret (RTEMS_INVALID_ADDRESS, 0)
    | Some a =>
        the_period ← Rate_monotonic_Allocate;
        match the_period with
        | None => mret (RTEMS_TOO_MANY, 0)
        | Some o =>
            exec ← gets executing;
            modify (fun s =>
              let p := default (mk_period None RATE_MONOTONIC_INACTIVE 0 0 (mk_timestamp 0 0)
                         (mk_timestamp 0 0) (mk_statistics 0 0 (mk_timestamp 0 0)
                         (mk_timestamp 0 0) (mk_timestamp 0 0) (mk_timestamp 0 0)
                         (mk_timestamp 0 0) (mk_timestamp 0 0)) 0 0) (periods s !! o) in
              set_periods (<[o := set_Timer None (set_state RATE_MONOTONIC_INACTIVE
                (set_owner exec p))]> (periods s)) s);;
            Rate_monotonic_Reset_statistics o;;
            objs (Objects_Open o name);;
            id ← objs (obj_id o);
            on_fts (stm F_mem_id a id);;
            mret (RTEMS_SUCCESSFUL, a)
        end
    end.

Definition rtems_rate_monotonic_create (name : Z) (idp : option Z) : M rtems_status_code :=
  r ← create_period name idp; mret r.1.

Definition rtems_rate_monotonic_create_fts (name : Z) (idp : option Z) (m k : Z)
    (te : fts_tech) (ps : pattern_specs) (v : task_versions) (sp : task_user_specs)
    : M rtems_status_code :=
  r ← create_period name idp;
  match r with
  | (RTEMS_SUCCESSFUL, a) =>
      reg ← on_fts (fts_rtems_task_register_t a m k te ps v sp);
      if reg =? 0 then mret RTEMS_INVALID_NUMBER else mret RTEMS_SUCCESSFUL
  | (sc, _) => mret sc
  end.

Definition Rate_monotonic_Cancel (o : Z) : M unit :=
  period_upd o (set_Timer None);;
  period_upd o (set_state RATE_MONOTONIC_INACTIVE).

Definition rtems_rate_monotonic_cancel (id : Z) : M rtems_status_code :=
  the_period ← Rate_monotonic_Get id;
  match the_period with
  | None => mret RTEMS_INVALID_ID
  | Some o =>
      exec ← gets executing;
      own ← period_ld o owner;
      if negb (exec =? own) then mret RTEMS_NOT_OWNER_OF_RESOURCE
      else Rate_monotonic_Cancel o;; mret RTEMS_SUCCESSFUL
  end.

Definition rtems_rate_monotonic_cancel_fts (id : Z) : M rtems_status_code :=
  mret RTEMS_SUCCESSFUL.

Definition rtems_rate_monotonic_delete (id : Z) : M rtems_status_code :=
  the_period ← Rate_monotonic_Get id;
  match the_period with
  | Some o =>
      objs (Objects_Close o);;
      Rate_monotonic_Cancel o;;
      objs (Objects_Free o);;
      mret RTEMS_SUCCESSFUL
  | None => mret RTEMS_INVALID_ID
  end.

Definition rtems_rate_monotonic_delete_fts (id : Z) : M rtems_status_code :=
  mret RTEMS_SUCCESSFUL.

(** ** Status and statistics *)
(** [None]: the times are not written. *)
Definition rtems_rate_monotonic_get_status (id : Z) (dst_null : bool)
    : M (rtems_status_code * option (Z * period_state * Z) * option (timespec * timespec)) :=
  if dst_null then mret (RTEMS_INVALID_ADDRESS, None, None)
  else
    the_period ← Rate_monotonic_Get id;
    match the_period with
    | None => mret (RTEMS_INVALID_ID, None, None)
    | Some o =>
        p ← period_ld o (fun p => p);
        let written := Some (owner p, state p, postponed_jobs p) in
        match state p with
        | RATE_MONOTONIC_INACTIVE =>
            mret (RTEMS_SUCCESSFUL, written, Some (mk_timespec 0 0, mk_timespec 0 0))
        | _ =>
            status ← Rate_monotonic_Get_status o;
            let '(valid_status, wall, cpu) := status in
            if (valid_status : bool) then
              mret (RTEMS_SUCCESSFUL, written,
                    Some (Timestamp_To_timespec wall, Timestamp_To_timespec cpu))
            else mret (RTEMS_NOT_DEFINED, written, None)
        end
    end.

Record rtems_rate_monotonic_period_statistics := mk_period_statistics {
  d_count : Z; d_missed_count : Z;
  d_min_cpu_time : timespec; d_max_cpu_time : timespec; d_total_cpu_time : timespec;
  d_min_wall_time : timespec; d_max_wall_time : timespec; d_total_wall_time : timespec
}.

Definition rtems_rate_monotonic_get_statistics (id : Z) (dst_null : bool)
    : M (rtems_status_code * option rtems_rate_monotonic_period_statistics) :=
  if dst_null then mret (RTEMS_INVALID_ADDRESS, None)
  else
    the_period ← Rate_monotonic_Get id;
    match the_period with
    | None => mret (RTEMS_INVALID_ID, None)
    | Some o =>
        src ← period_ld o Statistics;
        mret (RTEMS_SUCCESSFUL,
          Some (mk_period_statistics (count src) (missed_count src)
            (Timestamp_To_timespec (min_cpu_time src)) (Timestamp_To_timespec (max_cpu_time src))
            (Timestamp_To_timespec (total_cpu_time src))
            (Timestamp_To_timespec (min_wall_time src))
            (Timestamp_To_timespec (max_wall_time src))
            (Timestamp_To_timespec (total_wall_time src))))
    end.

Definition rtems_rate_monotonic_reset_statistics (id : Z) : M rtems_status_code :=
  the_period ← Rate_monotonic_Get id;
  match the_period with
  | None => mret RTEMS_INVALID_ID
  | Some o => Rate_monotonic_Reset_statistics o;; mret RTEMS_SUCCESSFUL
  end.

(** The identifiers of the class, from the first to the last. *)
Definition rtems_rate_monotonic_reset_all_statistics : M unit :=
  lo ← objs (info_of minimum_id);
  hi ← objs (info_of maximum_id);
  c_for (Z.to_nat (hi - lo + 1)) lo
    (fun id _ => rtems_rate_monotonic_reset_statistics id;; mret (inl tt)) tt.

Definition rtems_rate_monotonic_ident (name : Z) (id_null : bool)
    : M (rtems_status_code * option Z) :=
  status ← objs (Objects_Name_to_id_u32 name OBJECTS_SEARCH_LOCAL_NODE id_null);
  mret (Status_Object_name_errors_to_status status).

(** The initialization of the manager, for a configured number of periods. *)
Definition Rate_monotonic_Manager_initialization (maximum_periods size : Z) : M unit :=
  objs (Objects_Do_initialize_information OBJECTS_CLASSIC_API OBJECTS_RTEMS_PERIODS
          maximum_periods size).

(** The lines of [rtems_rate_monotonic_report_statistics_with_plugin]: the
    identifier, the owner, the counts, and, unless the count is zero, the
    minimal, maximal and average CPU and wall times, as seconds and
    microseconds. *)
Definition NANOSECONDS_DIVIDER : Z := 1000.

Definition printed_time (t : timespec) : Z * Z :=
  (tv_sec t, Z.quot (tv_nsec t) NANOSECONDS_DIVIDER).

Record report_line := mk_report_line {
  r_id : Z; r_owner : option Z; r_count : Z; r_missed : Z;
  r_times : option ((Z * Z) * (Z * Z) * (Z * Z) * ((Z * Z) * (Z * Z) * (Z * Z)))
}.

Definition report_period (id : Z) : M (option report_line) :=
  st ← rtems_rate_monotonic_get_statistics id false;
  match st.2 with
  | None => mret None
  | Some the_stats =>
      the_status ← rtems_rate_monotonic_get_status id false;
      let own := (fun x => x.1.1) <$> the_status.1.2 in
      if d_count the_stats =? 0 then
        mret (Some (mk_report_line id own (d_count the_stats) (d_missed_count the_stats) None))
      else
        cpu_average ← lift (Timespec_Divide_by_integer (d_total_cpu_time the_stats)
                              (d_count the_stats));
        wall_average ← lift (Timespec_Divide_by_integer (d_total_wall_time the_stats)
                               (d_count the_stats));
        mret (Some (mk_report_line id own (d_count the_stats) (d_missed_count the_stats)
          (Some (printed_time (d_min_cpu_time the_stats), printed_time (d_max_cpu_time the_stats),
                 printed_time cpu_average,
                 (printed_time (d_min_wall_time the_stats),
                  printed_time (d_max_wall_time the_stats), printed_time wall_average)))))
  end.

Definition rtems_rate_monotonic_report_statistics : M (list report_line) :=
  lo ← objs (info_of minimum_id);
  hi ← objs (info_of maximum_id);
  c_for (Z.to_nat (hi - lo + 1)) lo
    (fun id lines =>
       l ← report_period id;
       mret (inl (lines ++ match l with Some x => [x] | None => [] end))) [].

End RateMonotonic.
