(* ===== verification/RateMonFacts.v ===== *)
(** * The rate monotonic manager drives the scheduler

    A registered period and its owner as a small machine: calls of
    [rtems_rate_monotonic_period], the period's timer, which may fire while
    the owner works, while it waits, or in the window just before it blocks,
    and the end of the released version.  The code implements this machine,
    and through it the (m,k) guarantee of the scheduler. *)

From stdpp Require Import base tactics numbers option list list_numbers gmap fin_maps.
From Stdlib Require Import ZArith Lia.
From S2P Require Import Prelude Status Timespec Objects ObjectsFacts Pattern Fts FtsLemmas.
From S2P Require Import FtsPattern Counters FtsCounters FtsSlots FtsStatic FtsDynamic FtsSchedule.
From S2P Require Import Thread RateMon.

Open Scope Z_scope.

(** ** Accesses *)
Section Access.
Context {T W : Type}.
Implicit Types s : rm_state T W.

Lemma period_ld_bind {A B} o p (f : Rate_monotonic_Control -> A)
    (k : A -> cm (rm_state T W) B) s :
  periods s !! o = Some p -> (period_ld o f ≫= k) s = k (f p) s.
Proof. intros Hp. apply getsM_bind. by rewrite Hp. Qed.

Lemma period_upd_bind {B} o p f (k : unit -> cm (rm_state T W) B) s :
  periods s !! o = Some p ->
  (period_upd o f ≫= k) s = k tt (set_periods (<[o := f p]> (periods s)) s).
Proof. intros Hp. apply modifyM_bind. by rewrite Hp. Qed.

Lemma thread_ld_bind {A B} t p (f : Thread_Control -> A) (k : A -> cm (rm_state T W) B) s :
  threads s !! t = Some p -> (thread_ld t f ≫= k) s = k (f p) s.
Proof. intros Hp. apply getsM_bind. by rewrite Hp. Qed.

Lemma thread_upd_bind {B} t p f (k : unit -> cm (rm_state T W) B) s :
  threads s !! t = Some p ->
  (thread_upd t f ≫= k) s = k tt (set_threads (<[t := f p]> (threads s)) s).
Proof. intros Hp. apply modifyM_bind. by rewrite Hp. Qed.

Lemma objs_bind {A B} (m : cm (obj_state W) A) (k : A -> cm (rm_state T W) B) s a o' :
  m (rm_info s) = Ok (a, o') -> (objs m ≫= k) s = k a (set_rm_info o' s).
Proof. intros Hm. apply cm_bind_ok. unfold objs, zoom. by rewrite Hm. Qed.

Lemma on_fts_bind {A B} (m : cm (fts_state T) A) (k : A -> cm (rm_state T W) B) s a f' :
  m (fts s) = Ok (a, f') -> (on_fts m ≫= k) s = k a (set_fts f' s).
Proof. intros Hm. apply cm_bind_ok. unfold on_fts, zoom. by rewrite Hm. Qed.

(** Reading the objects changes nothing. *)
Lemma objs_read_bind {A B} (m : cm (obj_state W) A) (k : A -> cm (rm_state T W) B) s a :
  m (rm_info s) = Ok (a, rm_info s) -> (objs m ≫= k) s = k a s.
Proof. intros Hm. rewrite (objs_bind _ _ _ _ _ Hm). by destruct s. Qed.

Lemma set_periods_twice s p1 p2 : set_periods p2 (set_periods p1 s) = set_periods p2 s.
Proof. done. Qed.

End Access.

(** Runs a part of the scheduler whose result is known. *)
Ltac fts_known Hx :=
  match goal with
  | |- context [(on_fts ?m ≫= ?k) ?s] => rewrite (on_fts_bind m k s _ _ Hx)
  end.

(** ** The machine of one period *)
Inductive rphase := RIdle | RWaiting | RRunning.

#[export] Instance rphase_eq_dec : EqDecision rphase.
Proof. solve_decision. Defined.

Inductive rm_event :=
| Call (length : Z)
| Call_and_fire (length : Z)
| Fire
| Version_ends (fs : fault_status).

Definition astate : Type := rphase * period_state * Z.

(** The abstract step: which events may come, and what they lead to. *)
Definition rm_spec (e : rm_event) (a : astate) : option astate :=
  let '(ph, act, pj) := a in
  match e, ph, act with
  | Call l, RIdle, RATE_MONOTONIC_INACTIVE =>
      if l =? 0 then None else Some (RRunning, RATE_MONOTONIC_ACTIVE, 0)
  | Call l, RIdle, RATE_MONOTONIC_ACTIVE =>
      if l =? 0 then None
      else if 0 <? pj then Some (RRunning, RATE_MONOTONIC_ACTIVE, pj - 1)
      else Some (RWaiting, RATE_MONOTONIC_ACTIVE, 0)
  | Call l, RIdle, RATE_MONOTONIC_EXPIRED =>
      if l =? 0 then None else Some (RRunning, RATE_MONOTONIC_ACTIVE, pj - 1)
  | Call_and_fire l, RIdle, RATE_MONOTONIC_ACTIVE =>
      if (l =? 0) || (0 <? pj) then None else Some (RRunning, RATE_MONOTONIC_ACTIVE, 0)
  | Fire, _, RATE_MONOTONIC_INACTIVE => None
  | Fire, RWaiting, _ => Some (RRunning, act, pj)
  | Fire, ph, _ => Some (ph, RATE_MONOTONIC_EXPIRED, Z.min (pj + 1) UINT32_MAX)
  | Version_ends _, RRunning, _ => Some (RIdle, act, pj)
  | _, _, _ => None
  end.

Fixpoint rm_accepts (evs : list rm_event) (a : astate) : bool :=
  match evs with
  | [] => true
  | e :: r => match rm_spec e a with Some a' => rm_accepts r a' | None => false end
  end.

Fixpoint rm_faults (evs : list rm_event) : list fault_status :=
  match evs with
  | [] => []
  | Version_ends fs :: r => fs :: rm_faults r
  | _ :: r => rm_faults r
  end.

Section Driver.
Context {T W : Type} `{TaskManager T} `{Bintime}.
Implicit Types s : rm_state T W.
Abbreviation M := (cm (rm_state T W)).

(** The code behind an event: the owner's call, with its blocking part, and
    the timer's handler. *)
Definition rm_event_run (o id own : Z) (e : rm_event) : M (list bool) :=
  match e with
  | Call l =>
      modify (set_executing own);;
      r ← rtems_rate_monotonic_period id l;
      match r with
      | About_to_block => Rate_monotonic_Block own;; mret []
      | Returns _ => mret []
      end
  | Call_and_fire l =>
      modify (set_executing own);;
      r ← rtems_rate_monotonic_period id l;
      match r with
      | About_to_block => Rate_monotonic_Timeout o;; Rate_monotonic_Block own;; mret []
      | Returns _ => mret []
      end
  | Fire => Rate_monotonic_Timeout o;; mret []
  | Version_ends fs => c ← on_fts (version_finishes id fs); mret [c]
  end.

Fixpoint rm_events_run (o id own : Z) (evs : list rm_event) : M (list bool) :=
  match evs with
  | [] => mret []
  | e :: r => l ← rm_event_run o id own e; l' ← rm_events_run o id own r; mret (l ++ l')
  end.

(** ** The relation *)
Record rm_rel (o id own i : Z) (te : fts_tech) (bits : list bool) (a : astate) (P : nat) s
    : Prop := {
  rr_class : exists n held, class_wf n held (information (rm_info s)) /\ 1 <= o <= n;
  rr_open : o ∈ active (information (rm_info s));
  rr_id : id = id_of (information (rm_info s)) o;
  rr_fts : fts_wf (fts s);
  rr_index : index_of id (ids (fts s)) = i;
  rr_i : 0 <= i < 10;
  rr_period : exists p, periods s !! o = Some p /\ owner p = own /\ state p = a.1.2 /\
    postponed_jobs p = a.2;
  rr_pj : 0 <= a.2 <= UINT32_MAX;
  rr_expired : a.1.2 = RATE_MONOTONIC_EXPIRED -> 1 <= a.2;
  rr_waits : a.1.1 = RWaiting -> a.1.2 <> RATE_MONOTONIC_INACTIVE;
  rr_thread : exists th, threads s !! own = Some th /\
    match a.1.1 with
    | RWaiting =>
        wait_flags th = RATE_MONOTONIC_BLOCKED /\ return_argument th = Some o /\
        waiting_for_period th = true
    | _ => return_argument th <> Some o /\ waiting_for_period th = false
    end;
  rr_task :
    match a.1.1 with
    | RWaiting => task_at (fts s) i te bits Ready P
    | RIdle => task_at (fts s) i te bits Idle P \/ task_at (fts s) i te bits Ready P
    | RRunning => task_at (fts s) i te bits Running P
    end
}.

(** The identifier of the period's object. *)
Lemma rr_obj_id o id own i te bits a P s :
  rm_rel o id own i te bits a P s -> obj_id o (rm_info s) = Ok (id, rm_info s).
Proof.
  intros [(n & held & Hw & Ho) _ -> _ _ _ _ _ _ _ _ _]. by apply (obj_id_run n held).
Qed.

Lemma rr_get o id own i te bits a P s :
  rm_rel o id own i te bits a P s -> Objects_Get id (rm_info s) = Ok (Some o, rm_info s).
Proof.
  intros [(n & held & Hw & Ho) Hopen Hid _ _ _ _ _ _ _ _ _].
  destruct (id_of_value n held _ o Hw ltac:(lia)) as (_ & _ & Hr & _).
  destruct (get_run n held id (rm_info s) Hw) as (r & Hr1 & Hr2); [by rewrite Hid|].
  rewrite Hr1. do 2 f_equal. by apply Hr2.
Qed.

(** Statistics only change the statistics. *)
Lemma update_statistics_run o p th s :
  periods s !! o = Some p -> threads s !! owner p = Some th ->
  exists st, Rate_monotonic_Update_statistics o s =
    Ok (tt, set_periods (<[o := set_Statistics st p]> (periods s)) s).
Proof.
  intros Hp Ht. unfold Rate_monotonic_Update_statistics.
  rewrite (period_upd_bind _ p) by done.
  set (p1 := set_Statistics _ p). set (s1 := set_periods _ s).
  assert (periods s1 !! o = Some p1) as Hp1 by apply lookup_insert_eq.
  rewrite (period_ld_bind _ p1) by done.
  assert (exists p2, c_if (bool_decide (state p1 = RATE_MONOTONIC_EXPIRED))
    (period_upd o (fun p => set_Statistics
       (set_missed_count (u32 (missed_count (Statistics p) + 1)) (Statistics p)) p)) s1 =
    Ok (tt, set_periods (<[o := p2]> (periods s)) s) /\
    exists st2, p2 = set_Statistics st2 p) as (p2 & Hr2 & st2 & ->).
  { case_bool_decide.
    - eexists. split.
      + cbn [c_if]. rewrite <- bind_tt_r, (period_upd_bind _ p1) by done. unfold s1. cbn.
        rewrite insert_insert_eq. reflexivity.
      + by eexists.
    - exists p1. split; [done|]. by eexists. }
  rewrite (cm_bind_ok _ _ _ _ _ Hr2). set (p2 := set_Statistics st2 p).
  set (s2 := set_periods (<[o := p2]> (periods s)) s).
  assert (periods s2 !! o = Some p2) as Hp2 by apply lookup_insert_eq.
  unfold Rate_monotonic_Get_status. rewrite cm_bind_assoc, (period_ld_bind _ p2) by done.
  rewrite cm_bind_assoc, gets_bind, cm_bind_assoc, (period_ld_bind _ p2) by done.
  rewrite cm_bind_assoc, (thread_ld_bind _ th) by done.
  rewrite cm_bind_assoc, (period_ld_bind _ p2) by done.
  destruct (Timestamp_Less_than (cpu_time_used th) (cpu_usage_period_initiated p2)).
  - rewrite ret_bind. cbn [c_if]. by exists st2.
  - rewrite ret_bind. cbn [c_if]. eexists.
    rewrite <- bind_tt_r, (period_upd_bind _ p2) by done. unfold s2. cbn.
    rewrite insert_insert_eq. reflexivity.
Qed.

(** The release of a job: the timer is armed and the scheduler releases a
    version. *)
Lemma restart_run o id own i te bits P p th n held s :
  class_wf n held (information (rm_info s)) -> 1 <= o <= n ->
  id = id_of (information (rm_info s)) o ->
  fts_wf (fts s) -> index_of id (ids (fts s)) = i -> 0 <= i < 10 ->
  periods s !! o = Some p -> threads s !! own = Some th ->
  task_at (fts s) i te bits Ready P ->
  exists v f' p', Rate_monotonic_Restart o own s =
      Ok (v, set_fts f' (set_periods (<[o := p']> (periods s)) s)) /\
    frame i (fts s) f' /\ task_at f' i te bits Running P /\
    owner p' = owner p /\ state p' = state p /\ postponed_jobs p' = postponed_jobs p /\
    next_length p' = next_length p /\
    Timer p' = Some (u64 (next_length p + ticks s)).
Proof.
  intros Hw Ho Hid Hf Hidx Hi Hp Ht Hta. unfold Rate_monotonic_Restart.
  rewrite gets_bind, (period_upd_bind _ p) by done.
  set (p1 := set_time_period_initiated (uptime s) p).
  rewrite (thread_ld_bind _ th) by done.
  rewrite (period_upd_bind _ p1) by apply lookup_insert_eq.
  set (p2 := set_cpu_usage_period_initiated (cpu_time_used th) p1).
  rewrite (period_ld_bind _ p2) by apply lookup_insert_eq.
  unfold Rate_monotonic_Release_job, timer_insert.
  rewrite cm_bind_assoc, gets_bind, cm_bind_assoc.
  rewrite (period_upd_bind _ p2) by apply lookup_insert_eq. rewrite ret_bind.
  rewrite (objs_read_bind _ _ _ id).
  2: { rewrite Hid. by apply (obj_id_run n held). }
  destruct (release_step id i te bits P (fts s)) as (v & f' & Hr & F & _ & Hrun); [done..|].
  exists v, f'. eexists. split.
  { unfold on_fts, zoom. cbn [fts set_periods]. rewrite Hr. cbn. rewrite !insert_insert_eq.
    reflexivity. }
  split; [done|]. split; [done|]. done.
Qed.

(** How a call of the owner starts: the object is found and the scheduler's
    period begins. *)
Lemma call_prefix o id own i te bits act pj P l s :
  rm_rel o id own i te bits (RIdle, act, pj) P s -> l <> 0 ->
  exists f' p, frame i (fts s) f' /\ task_at f' i te bits Ready P /\
    let s1 := set_fts f' (set_executing own s) in
    periods s !! o = Some p /\
    rtems_rate_monotonic_period id l (set_executing own s) =
      match act with
      | RATE_MONOTONIC_ACTIVE =>
          if 0 <? pj then
            (r ← Rate_monotonic_Block_while_expired o l own; mret (Returns r)) s1
          else (Rate_monotonic_Intend_to_block o l own;; mret About_to_block) s1
      | RATE_MONOTONIC_INACTIVE =>
          (r ← Rate_monotonic_Activate o l own; mret (Returns r)) s1
      | RATE_MONOTONIC_EXPIRED =>
          (r ← Rate_monotonic_Block_while_expired o l own; mret (Returns r)) s1
      end.
Proof.
  intros R Hl. destruct (rr_period _ _ _ _ _ _ _ _ _ R) as (p & Hp & Hown & Hst & Hpj).
  cbn [fst snd] in *.
  assert (exists f', fts_period_begin id (fts s) = Ok (tt, f') /\ frame i (fts s) f' /\
    task_at f' i te bits Ready P) as (f' & Hb & F & Hta).
  { destruct (rr_task _ _ _ _ _ _ _ _ _ R) as [Hi|Hr].
    - apply (begin_step id i te bits Idle P (fts s)); [apply R|apply R|apply R|by left|done].
    - apply (begin_step id i te bits Ready P (fts s)); [apply R|apply R|apply R|by right|done]. }
  exists f', p. split; [done|]. split; [done|]. cbn zeta. split; [done|].
  unfold rtems_rate_monotonic_period, Rate_monotonic_Get.
  rewrite (objs_read_bind _ _ _ (Some o)) by exact (rr_get _ _ _ _ _ _ _ _ _ R).
  rewrite (objs_read_bind _ _ _ id) by exact (rr_obj_id _ _ _ _ _ _ _ _ _ R).
  fts_known Hb. rewrite gets_bind. cbn [executing set_executing set_fts].
  rewrite (period_ld_bind _ p) by done. rewrite Hown, Z.eqb_refl. cbn [negb].
  rewrite (period_ld_bind _ p) by done.
  rewrite (proj2 (Z.eqb_neq l RTEMS_PERIOD_STATUS)) by done. rewrite Hst.
  destruct act; [done| |done].
  rewrite (period_ld_bind _ p) by done. rewrite Hpj. by destruct (0 <? pj).
Qed.

(** Builds the relation after a step that leaves the objects alone. *)
Lemma rm_rel_intro o id own i te bits a P a' P' s s' :
  rm_rel o id own i te bits a P s ->
  rm_info s' = rm_info s -> fts_wf (fts s') -> ids (fts s') = ids (fts s) ->
  (exists p, periods s' !! o = Some p /\ owner p = own /\ state p = a'.1.2 /\
     postponed_jobs p = a'.2) ->
  0 <= a'.2 <= UINT32_MAX -> (a'.1.2 = RATE_MONOTONIC_EXPIRED -> 1 <= a'.2) ->
  (a'.1.1 = RWaiting -> a'.1.2 <> RATE_MONOTONIC_INACTIVE) ->
  (exists th, threads s' !! own = Some th /\
    match a'.1.1 with
    | RWaiting =>
        wait_flags th = RATE_MONOTONIC_BLOCKED /\ return_argument th = Some o /\
        waiting_for_period th = true
    | _ => return_argument th <> Some o /\ waiting_for_period th = false
    end) ->
  match a'.1.1 with
  | RWaiting => task_at (fts s') i te bits Ready P'
  | RIdle => task_at (fts s') i te bits Idle P' \/ task_at (fts s') i te bits Ready P'
  | RRunning => task_at (fts s') i te bits Running P'
  end ->
  rm_rel o id own i te bits a' P' s'.
Proof.
  intros R Hi Hf Hids Hp Hpj He Hw Ht Hta. destruct R.
  split; rewrite ?Hi, ?Hids; done.
Qed.

(** The first call activates the period and releases a version. *)
Lemma activate_step o id own i te bits pj P l s :
  rm_rel o id own i te bits (RIdle, RATE_MONOTONIC_INACTIVE, pj) P s -> l <> 0 ->
  exists s', rtems_rate_monotonic_period id l (set_executing own s) =
      Ok (Returns RTEMS_SUCCESSFUL, s') /\
    rm_rel o id own i te bits (RRunning, RATE_MONOTONIC_ACTIVE, 0) P s'.
Proof.
  intros R Hl. destruct (call_prefix _ _ _ _ _ _ _ _ _ _ _ R Hl) as (f' & p & F & Hta & Hp & ->).
  destruct (rr_period _ _ _ _ _ _ _ _ _ R) as (p' & Hp' & Hown & _ & _).
  rewrite Hp in Hp'. injection Hp' as <-.
  destruct (rr_thread _ _ _ _ _ _ _ _ _ R) as (th & Hth & Hra & Hwt).
  destruct (rr_class _ _ _ _ _ _ _ _ _ R) as (n & held & Hw & Ho).
  unfold Rate_monotonic_Activate. rewrite cm_bind_assoc, (period_upd_bind _ p) by done.
  rewrite cm_bind_assoc, (period_upd_bind _ _ _ _ _ (lookup_insert_eq _ _ _)).
  rewrite cm_bind_assoc, (period_upd_bind _ _ _ _ _ (lookup_insert_eq _ _ _)).
  set (p3 := set_next_length l _). set (s3 := set_periods (<[o := p3]> _) _).
  destruct (restart_run o id own i te bits P p3 th n held s3)
    as (v & f2 & p4 & Hr & F2 & Hrun & Ho4 & Hs4 & Hj4 & _);
    [done|done|apply R|apply F|cbn; rewrite (fr_ids _ _ _ F); apply R|apply R
    |apply lookup_insert_eq|done|done|].
  rewrite cm_bind_assoc, (cm_bind_ok _ _ _ _ _ Hr), ret_bind.
  eexists. split; [reflexivity|].
  eapply rm_rel_intro; [exact R|done|apply F2| | |cbn; unfold UINT32_MAX; lia|done|done| |done].
  - cbn. rewrite (fr_ids _ _ _ F2). apply (fr_ids _ _ _ F).
  - exists p4. cbn. rewrite lookup_insert_eq, Ho4, Hs4, Hj4. done.
  - exists th. done.
Qed.

(** A call with postponed jobs releases the next of them at once. *)
Lemma postponed_step o id own i te bits act pj P l s :
  rm_rel o id own i te bits (RIdle, act, pj) P s -> l <> 0 ->
  act = RATE_MONOTONIC_EXPIRED \/ act = RATE_MONOTONIC_ACTIVE /\ 0 < pj ->
  exists s', rtems_rate_monotonic_period id l (set_executing own s) =
      Ok (Returns RTEMS_TIMEOUT, s') /\
    rm_rel o id own i te bits (RRunning, RATE_MONOTONIC_ACTIVE, pj - 1) P s'.
Proof.
  intros R Hl Hact.
  destruct (call_prefix _ _ _ _ _ _ _ _ _ _ _ R Hl) as (f' & p & F & Hta & Hp & Hrun).
  destruct (rr_period _ _ _ _ _ _ _ _ _ R) as (p' & Hp' & Hown & Hst & Hpj).
  rewrite Hp in Hp'. injection Hp' as <-.
  destruct (rr_thread _ _ _ _ _ _ _ _ _ R) as (th & Hth & Hra & Hwt).
  pose proof (rr_pj _ _ _ _ _ _ _ _ _ R) as Hb. pose proof (rr_expired _ _ _ _ _ _ _ _ _ R) as Hx.
  cbn [fst snd] in *. unfold UINT32_MAX in Hb.
  assert (1 <= pj) by (destruct Hact as [-> | [_ ?]]; [by apply Hx|lia]).
  set (s1 := set_fts f' (set_executing own s)) in *.
  assert (rtems_rate_monotonic_period id l (set_executing own s) =
    (r ← Rate_monotonic_Block_while_expired o l own; mret (Returns r)) s1) as ->.
  { rewrite Hrun. destruct Hact as [-> | [-> Hgt]]; [done|].
    by rewrite (proj2 (Z.ltb_lt 0 pj)). }
  unfold Rate_monotonic_Block_while_expired.
  rewrite cm_bind_assoc, (period_upd_bind _ p) by done.
  set (p1 := set_state RATE_MONOTONIC_EXPIRED p). set (s2 := set_periods (<[o := p1]> _) _).
  destruct (update_statistics_run o p1 th s2) as (st & Hu);
    [apply lookup_insert_eq|cbn; by rewrite Hown|].
  rewrite cm_bind_assoc, (cm_bind_ok _ _ _ _ _ Hu).
  rewrite cm_bind_assoc, (period_upd_bind _ _ _ _ _ (lookup_insert_eq _ _ _)).
  rewrite cm_bind_assoc, (period_upd_bind _ _ _ _ _ (lookup_insert_eq _ _ _)).
  unfold Rate_monotonic_Release_postponed_job.
  rewrite cm_bind_assoc, cm_bind_assoc, (period_upd_bind _ _ _ _ _ (lookup_insert_eq _ _ _)).
  rewrite cm_bind_assoc, (objs_read_bind _ _ _ id) by exact (rr_obj_id _ _ _ _ _ _ _ _ _ R).
  destruct (release_step id i te bits P f') as (v & f2 & Hr2 & F2 & _ & Hrn2);
    [apply F|by rewrite (fr_ids _ _ _ F); apply R|apply R|done|].
  fts_known Hr2. rewrite ret_bind. eexists. split; [reflexivity|].
  eapply rm_rel_intro; [exact R|done|apply F2| | |cbn; unfold UINT32_MAX; lia|done|done| |done].
  - cbn. rewrite (fr_ids _ _ _ F2). apply (fr_ids _ _ _ F).
  - eexists. split; [cbn; apply lookup_insert_eq|]. cbn. rewrite u32_id by lia.
    split; [done|]. split; [done|]. lia.
  - exists th. done.
Qed.

(** The owner is about to wait: its wait flags say so, nothing is released. *)
Lemma intend_step o id own i te bits pj P l s :
  rm_rel o id own i te bits (RIdle, RATE_MONOTONIC_ACTIVE, pj) P s -> l <> 0 -> pj = 0 ->
  exists s' p th, rtems_rate_monotonic_period id l (set_executing own s) =
      Ok (About_to_block, s') /\
    rm_info s' = rm_info s /\ frame i (fts s) (fts s') /\
    task_at (fts s') i te bits Ready P /\
    periods s' !! o = Some p /\ owner p = own /\ state p = RATE_MONOTONIC_ACTIVE /\
    postponed_jobs p = 0 /\ next_length p = l /\
    threads s' !! own = Some th /\ wait_flags th = RATE_MONOTONIC_INTEND_TO_BLOCK /\
    return_argument th = Some o.
Proof.
  intros R Hl ->. destruct (call_prefix _ _ _ _ _ _ _ _ _ _ _ R Hl)
    as (f' & p & F & Hta & Hp & ->).
  destruct (rr_period _ _ _ _ _ _ _ _ _ R) as (p' & Hp' & Hown & Hst & Hpj).
  rewrite Hp in Hp'. injection Hp' as <-.
  destruct (rr_thread _ _ _ _ _ _ _ _ _ R) as (th & Hth & Hra & Hwt).
  change (0 <? 0) with false. cbn iota. cbn [fst snd] in *.
  unfold Rate_monotonic_Intend_to_block.
  set (s1 := set_fts f' (set_executing own s)).
  destruct (update_statistics_run o p th s1) as (st & Hu); [done|by rewrite Hown|].
  rewrite cm_bind_assoc, (cm_bind_ok _ _ _ _ _ Hu).
  rewrite cm_bind_assoc, (period_upd_bind _ _ _ _ _ (lookup_insert_eq _ _ _)).
  rewrite cm_bind_assoc, (thread_upd_bind _ th) by done.
  rewrite (thread_upd_bind _ _ _ _ _ (lookup_insert_eq _ _ _)).
  eexists _, _, _. split; [reflexivity|]. cbn.
  split; [done|]. split; [done|]. split; [done|].
  split; [apply lookup_insert_eq|]. cbn. do 4 (split; [done|]).
  split; [apply lookup_insert_eq|]. done.
Qed.

(** The timer fires for an owner that waits or is about to wait: the job is
    released, the owner is marked ready. *)
Lemma timeout_waiting o id own i te bits P p th n held s :
  class_wf n held (information (rm_info s)) -> 1 <= o <= n ->
  id = id_of (information (rm_info s)) o ->
  fts_wf (fts s) -> index_of id (ids (fts s)) = i -> 0 <= i < 10 ->
  periods s !! o = Some p -> owner p = own -> threads s !! own = Some th ->
  task_at (fts s) i te bits Ready P ->
  wait_flags th = RATE_MONOTONIC_INTEND_TO_BLOCK \/ wait_flags th = RATE_MONOTONIC_BLOCKED ->
  return_argument th = Some o ->
  exists f' p' th', Rate_monotonic_Timeout o s =
      Ok (tt, set_threads (<[own := th']> (threads s))
                (set_fts f' (set_periods (<[o := p']> (periods s)) s))) /\
    frame i (fts s) f' /\ task_at f' i te bits Running P /\
    owner p' = own /\ state p' = state p /\ postponed_jobs p' = postponed_jobs p /\
    return_argument th' = None /\ wait_flags th' = RATE_MONOTONIC_READY_AGAIN /\
    (wait_flags th = RATE_MONOTONIC_BLOCKED -> waiting_for_period th' = false).
Proof.
  intros Hw Ho Hid Hf Hidx Hi Hp Hown Hth Hta Hfl Hra. unfold Rate_monotonic_Timeout.
  rewrite (period_ld_bind _ p) by done. rewrite Hown.
  rewrite (thread_ld_bind _ th) by done. rewrite (thread_ld_bind _ th) by done.
  assert (negb (Z.land (wait_flags th) THREAD_WAIT_CLASS_PERIOD =? 0) = true) as ->
    by (by destruct Hfl as [-> | ->]).
  rewrite bool_decide_eq_true_2 by done. cbn [andb].
  rewrite (thread_upd_bind _ th) by done.
  rewrite (thread_ld_bind _ _ _ _ _ (lookup_insert_eq _ _ _)).
  rewrite (thread_upd_bind _ _ _ _ _ (lookup_insert_eq _ _ _)).
  set (th1 := set_wait_flags RATE_MONOTONIC_READY_AGAIN (set_return_argument None th)).
  set (s1 := set_threads (<[own := th1]> _) _).
  destruct (restart_run o id own i te bits P p th1 n held s1)
    as (v & f' & p' & Hr & F & Hrun & Hp1 & Hp2 & Hp3 & _);
    [done|done|done|done|done|done|done|apply lookup_insert_eq|done|].
  rewrite (cm_bind_ok _ _ _ _ _ Hr). cbn [wait_flags set_return_argument].
  destruct Hfl as [Hfl | Hfl]; rewrite Hfl.
  - exists f', p', th1. split.
    { cbn. unfold s1. cbn. by rewrite insert_insert_eq. }
    split; [done|]. split; [done|]. split; [congruence|]. done.
  - exists f', p', (set_waiting_for_period false th1). split.
    { change (RATE_MONOTONIC_BLOCKED =? RATE_MONOTONIC_INTEND_TO_BLOCK) with false.
      cbn [negb c_if]. rewrite <- bind_tt_r.
      rewrite (thread_upd_bind _ th1) by apply lookup_insert_eq.
      cbn. unfold s1. cbn. by rewrite !insert_insert_eq. }
    split; [done|]. split; [done|]. split; [congruence|]. done.
Qed.

(** The timer fires while the owner works: the deadline is missed. *)
Lemma timeout_working o own p th s :
  periods s !! o = Some p -> owner p = own -> threads s !! own = Some th ->
  return_argument th <> Some o -> 0 <= postponed_jobs p <= UINT32_MAX ->
  exists p', Rate_monotonic_Timeout o s =
      Ok (tt, set_periods (<[o := p']> (periods s)) s) /\
    owner p' = own /\ state p' = RATE_MONOTONIC_EXPIRED /\
    postponed_jobs p' = Z.min (postponed_jobs p + 1) UINT32_MAX /\
    Timer p' = Some (u64 (next_length p + ticks s)) /\
    latest_deadline p' = u64 (next_length p + ticks s).
Proof.
  intros Hp Hown Hth Hra Hpj. unfold Rate_monotonic_Timeout.
  rewrite (period_ld_bind _ p) by done. rewrite Hown.
  rewrite (thread_ld_bind _ th) by done. rewrite (thread_ld_bind _ th) by done.
  rewrite bool_decide_eq_false_2 by done. rewrite andb_false_r.
  unfold Rate_monotonic_Renew_deadline, timer_insert. rewrite (period_ld_bind _ p) by done.
  destruct (Z.eqb_spec (postponed_jobs p) UINT32_MAX) as [He|He]; cbn [negb c_if].
  - rewrite ret_bind, (period_upd_bind _ p) by done.
    rewrite (period_ld_bind _ _ _ _ _ (lookup_insert_eq _ _ _)).
    rewrite cm_bind_assoc, gets_bind, cm_bind_assoc.
    rewrite (period_upd_bind _ _ _ _ _ (lookup_insert_eq _ _ _)), ret_bind.
    rewrite <- bind_tt_r, (period_upd_bind _ _ _ _ _ (lookup_insert_eq _ _ _)).
    eexists. split; [cbn; rewrite !insert_insert_eq; reflexivity|]. cbn.
    split; [done|]. split; [done|]. split; [rewrite He; unfold UINT32_MAX; lia|]. done.
  - rewrite (period_upd_bind _ p) by done.
    rewrite (period_upd_bind _ _ _ _ _ (lookup_insert_eq _ _ _)).
    rewrite (period_ld_bind _ _ _ _ _ (lookup_insert_eq _ _ _)).
    rewrite cm_bind_assoc, gets_bind, cm_bind_assoc.
    rewrite (period_upd_bind _ _ _ _ _ (lookup_insert_eq _ _ _)), ret_bind.
    rewrite <- bind_tt_r, (period_upd_bind _ _ _ _ _ (lookup_insert_eq _ _ _)).
    eexists. split; [cbn; rewrite !insert_insert_eq; reflexivity|]. cbn.
    split; [done|]. split; [done|]. split; [unfold UINT32_MAX in *; lia|]. done.
Qed.

(** The second part of the blocking: a timer that fired meanwhile is noticed. *)
Lemma block_run own th s :
  threads s !! own = Some th ->
  exists th', Rate_monotonic_Block own s =
      Ok (RTEMS_SUCCESSFUL, set_threads (<[own := th']> (threads s)) s) /\
    return_argument th' = return_argument th /\
    if wait_flags th =? RATE_MONOTONIC_INTEND_TO_BLOCK
    then wait_flags th' = RATE_MONOTONIC_BLOCKED /\ waiting_for_period th' = true
    else wait_flags th' = wait_flags th /\ waiting_for_period th' = false.
Proof.
  intros Hth. unfold Rate_monotonic_Block. rewrite (thread_upd_bind _ th) by done.
  rewrite (thread_ld_bind _ _ _ _ _ (lookup_insert_eq _ _ _)).
  cbn [wait_flags set_waiting_for_period].
  destruct (wait_flags th =? RATE_MONOTONIC_INTEND_TO_BLOCK);
    rewrite (thread_upd_bind _ _ _ _ _ (lookup_insert_eq _ _ _));
    (eexists; split; [cbn; rewrite insert_insert_eq; reflexivity|]); done.
Qed.

(** What one event does: the code implements the machine. *)
Definition step_ok (o id own i : Z) (te : fts_tech) (bits : list bool) (P : nat)
    (e : rm_event) (a' : astate) s : Prop :=
  exists l s' P', rm_event_run o id own e s = Ok (l, s') /\
    rm_rel o id own i te bits a' P' s' /\
    match e with
    | Version_ends fs => l = [(finish te bits P fs).1] /\ P' = (finish te bits P fs).2
    | _ => l = [] /\ P' = P
    end.

Lemma call_step o id own i te bits act pj a' P l s :
  rm_rel o id own i te bits (RIdle, act, pj) P s -> l <> 0 ->
  rm_spec (Call l) (RIdle, act, pj) = Some a' ->
  step_ok o id own i te bits P (Call l) a' s.
Proof.
  intros R Hl Hsp. unfold step_ok. cbn [rm_event_run]. rewrite modify_bind. cbn in Hsp.
  rewrite (proj2 (Z.eqb_neq l 0) Hl) in Hsp.
  assert (forall sc s', rtems_rate_monotonic_period id l (set_executing own s) =
      Ok (Returns sc, s') -> rm_rel o id own i te bits a' P s' ->
    exists (l0 : list bool) s' P', (r ← rtems_rate_monotonic_period id l;
      match r with
      | About_to_block => Rate_monotonic_Block own;; mret ([] : list bool)
      | Returns _ => mret ([] : list bool)
      end) (set_executing own s) = Ok (l0, s') /\
      rm_rel o id own i te bits a' P' s' /\ l0 = [] /\ P' = P) as Hdone.
  { intros sc s' Hr R'. rewrite (cm_bind_ok _ _ _ _ _ Hr). by exists [], s', P. }
  destruct act.
  - injection Hsp as <-. destruct (activate_step _ _ _ _ _ _ _ _ l s R) as (s' & Hr & R');
      [done|]. by eapply Hdone.
  - destruct (Z.ltb_spec 0 pj); injection Hsp as <-.
    { destruct (postponed_step _ _ _ _ _ _ _ _ _ l s R) as (s' & Hr & R'); [done|by right|].
      by eapply Hdone. }
    pose proof (rr_pj _ _ _ _ _ _ _ _ _ R) as Hb. cbn in Hb.
    destruct (intend_step _ _ _ _ _ _ _ _ l s R)
      as (s' & p' & th' & Hr & Hi & F & Hta & Hp' & Ho' & Hs' & Hj' & _ & Ht' & Hf' & Hra');
      [done|lia|].
    rewrite (cm_bind_ok _ _ _ _ _ Hr).
    destruct (block_run own th' s' Ht') as (th2 & Hr2 & Hra2 & Hfl2).
    rewrite Hf' in Hfl2. change (_ =? _) with true in Hfl2. cbn iota in Hfl2.
    rewrite (cm_bind_ok _ _ _ _ _ Hr2). eexists _, _, P. split; [reflexivity|]. split; [|done].
    eapply rm_rel_intro; [exact R|done|apply F|apply F| |cbn; unfold UINT32_MAX; lia
      |done|done| |done].
    + by exists p'.
    + exists th2. cbn. rewrite lookup_insert_eq, Hra2. by destruct Hfl2.
  - injection Hsp as <-.
    destruct (postponed_step _ _ _ _ _ _ _ _ _ l s R) as (s' & Hr & R'); [done|by left|].
    by eapply Hdone.
Qed.

Lemma call_and_fire_step o id own i te bits pj P l s :
  rm_rel o id own i te bits (RIdle, RATE_MONOTONIC_ACTIVE, pj) P s -> l <> 0 -> pj = 0 ->
  step_ok o id own i te bits P (Call_and_fire l) (RRunning, RATE_MONOTONIC_ACTIVE, 0) s.
Proof.
  intros R Hl Hz. unfold step_ok. cbn [rm_event_run]. rewrite modify_bind.
  destruct (rr_class _ _ _ _ _ _ _ _ _ R) as (n & held & Hw & Ho).
  destruct (intend_step _ _ _ _ _ _ _ _ l s R)
    as (s' & p' & th' & Hr & Hi & F & Hta & Hp' & Ho' & Hs' & Hj' & _ & Ht' & Hf' & Hra');
    [done|done|].
  rewrite (cm_bind_ok _ _ _ _ _ Hr).
  destruct (timeout_waiting o id own i te bits P p' th' n held s')
    as (f2 & p2 & th2 & Hr2 & F2 & Hrun & Ho2 & Hs2 & Hj2 & Hra2 & Hfl2 & _);
    [by rewrite Hi|done|rewrite Hi; apply R|apply F|rewrite (fr_ids _ _ _ F); apply R
    |apply R|done|done|done|done|by left|done|].
  rewrite (cm_bind_ok _ _ _ _ _ Hr2).
  destruct (block_run own th2 (set_threads (<[own := th2]> (threads s'))
    (set_fts f2 (set_periods (<[o := p2]> (periods s')) s'))))
    as (th3 & Hr3 & Hra3 & Hfl3); [apply lookup_insert_eq|].
  rewrite Hfl2 in Hfl3. change (_ =? _) with false in Hfl3. cbn iota in Hfl3.
  rewrite (cm_bind_ok _ _ _ _ _ Hr3). eexists _, _, P. split; [reflexivity|]. split; [|done].
  eapply rm_rel_intro; [exact R|exact Hi|apply F2| | |cbn; unfold UINT32_MAX; lia
    |done|done| |done].
  - cbn. rewrite (fr_ids _ _ _ F2). apply (fr_ids _ _ _ F).
  - exists p2. cbn. rewrite lookup_insert_eq. split; [done|]. split; [done|]. split; congruence.
  - exists th3. cbn. rewrite lookup_insert_eq, Hra3, Hra2. by destruct Hfl3.
Qed.

Lemma fire_waiting_step o id own i te bits act pj P s :
  rm_rel o id own i te bits (RWaiting, act, pj) P s ->
  step_ok o id own i te bits P Fire (RRunning, act, pj) s.
Proof.
  intros R. unfold step_ok. cbn [rm_event_run].
  destruct (rr_period _ _ _ _ _ _ _ _ _ R) as (p & Hp & Hown & Hst & Hpj).
  destruct (rr_thread _ _ _ _ _ _ _ _ _ R) as (th & Hth & Hf & Hra & Hwt).
  cbn [fst snd] in *.
  destruct (rr_class _ _ _ _ _ _ _ _ _ R) as (n & held & Hw & Ho).
  destruct (timeout_waiting o id own i te bits P p th n held s)
    as (f2 & p2 & th2 & Hr2 & F2 & Hrun & Ho2 & Hs2 & Hj2 & Hra2 & Hfl2 & Hwt2);
    [done|done|apply R|apply R|apply R|apply R|done|done|done
    |apply (rr_task _ _ _ _ _ _ _ _ _ R)|by right|done|].
  rewrite (cm_bind_ok _ _ _ _ _ Hr2). eexists _, _, P. split; [reflexivity|]. split; [|done].
  eapply rm_rel_intro; [exact R|done|apply F2|apply F2| |apply R|apply R|done| |done].
  - exists p2. cbn. rewrite lookup_insert_eq. split; [done|]. split; [done|]. split; congruence.
  - exists th2. cbn. rewrite lookup_insert_eq, Hra2. split; [done|]. split; [done|]. by apply Hwt2.
Qed.

Lemma fire_working_step o id own i te bits ph act pj P s :
  rm_rel o id own i te bits (ph, act, pj) P s -> ph <> RWaiting ->
  step_ok o id own i te bits P Fire
    (ph, RATE_MONOTONIC_EXPIRED, Z.min (pj + 1) UINT32_MAX) s.
Proof.
  intros R Hph. unfold step_ok. cbn [rm_event_run].
  destruct (rr_period _ _ _ _ _ _ _ _ _ R) as (p & Hp & Hown & Hst & Hpj).
  destruct (rr_thread _ _ _ _ _ _ _ _ _ R) as (th & Hth & Hthr). cbn [fst snd] in *.
  pose proof (rr_pj _ _ _ _ _ _ _ _ _ R) as Hb. cbn in Hb.
  assert (return_argument th <> Some o /\ waiting_for_period th = false) as [Hra Hwt]
    by (by destruct ph).
  destruct (timeout_working o own p th s) as (p2 & Hr2 & Ho2 & Hs2 & Hj2 & _);
    [done|done|done|done|by rewrite Hpj|].
  rewrite (cm_bind_ok _ _ _ _ _ Hr2). eexists _, _, P. split; [reflexivity|].
  split; [|done]. pose proof (rr_task _ _ _ _ _ _ _ _ _ R) as Hta.
  eapply rm_rel_intro; [exact R|done|apply R|done| |cbn; unfold UINT32_MAX in *; lia
    |cbn; unfold UINT32_MAX in *; lia|done| |].
  - exists p2. cbn. rewrite lookup_insert_eq, Hj2, Hpj. done.
  - exists th. cbn. split; [done|]. by destruct ph.
  - cbn. by destruct ph.
Qed.

Lemma version_ends_step o id own i te bits act pj P fs s :
  rm_rel o id own i te bits (RRunning, act, pj) P s ->
  step_ok o id own i te bits P (Version_ends fs) (RIdle, act, pj) s.
Proof.
  intros R. unfold step_ok. cbn [rm_event_run].
  destruct (finish_step id i te bits P fs (fts s)) as (f' & Hr & F & Hta);
    [apply R|apply R|apply R|apply (rr_task _ _ _ _ _ _ _ _ _ R)|].
  fts_known Hr. eexists _, _, _. split; [reflexivity|]. split; [|done].
  eapply rm_rel_intro; [exact R|done|apply F|apply F|apply R|apply R|apply R|done
    |apply R|by left].
Qed.

Lemma rm_step o id own i te bits a a' P e s :
  rm_rel o id own i te bits a P s -> rm_spec e a = Some a' ->
  step_ok o id own i te bits P e a' s.
Proof.
  intros R Hsp. destruct a as [[ph act] pj]. destruct e as [l|l| |fs].
  - assert (ph = RIdle /\ l <> 0) as [-> Hl].
    { cbn in Hsp. destruct ph, act; try done; (destruct (Z.eqb_spec l 0); [done|]); done. }
    by eapply call_step.
  - pose proof (rr_pj _ _ _ _ _ _ _ _ _ R) as Hb. cbn in Hsp, Hb.
    destruct ph, act; try done. destruct (Z.eqb_spec l 0); [done|]. cbn [orb] in Hsp.
    destruct (Z.ltb_spec 0 pj); [done|]. injection Hsp as <-.
    apply (call_and_fire_step _ _ _ _ _ _ pj); [done|done|lia].
  - destruct (decide (ph = RWaiting)) as [->|Hph].
    + assert (a' = (RRunning, act, pj)) as -> by (cbn in Hsp; destruct act; by simplify_eq).
      by apply fire_waiting_step.
    + assert (a' = (ph, RATE_MONOTONIC_EXPIRED, Z.min (pj + 1) UINT32_MAX)) as ->
        by (cbn in Hsp; destruct ph, act; by simplify_eq).
      by eapply fire_working_step.
  - assert (ph = RRunning /\ a' = (RIdle, act, pj)) as [-> ->].
    { cbn in Hsp. destruct ph, act; by simplify_eq. }
    by apply version_ends_step.
Qed.

(** Any sequence of events the machine allows. *)
Lemma rm_events_run_ok o id own i te bits a P evs s :
  rm_rel o id own i te bits a P s -> rm_accepts evs a = true ->
  exists l s' a' P', rm_events_run o id own evs s = Ok (l, s') /\
    rm_rel o id own i te bits a' P' s' /\
    l = spec_run te bits P (rm_faults evs).
Proof.
  revert a P s. induction evs as [|e r IH]; intros a P s R Hacc.
  { by exists [], s, a, P. }
  cbn [rm_accepts] in Hacc. destruct (rm_spec e a) as [a'|] eqn:Hsp; [|done].
  destruct (rm_step o id own i te bits a a' P e s R Hsp) as (l & s1 & P1 & Hr & R1 & Hl).
  destruct (IH a' P1 s1 R1 Hacc) as (l2 & s2 & a2 & P2 & Hr2 & R2 & Hl2).
  exists (l ++ l2), s2, a2, P2. cbn [rm_events_run].
  rewrite (cm_bind_ok _ _ _ _ _ Hr), (cm_bind_ok _ _ _ _ _ Hr2). split; [done|].
  split; [done|]. subst l2.
  destruct e; cbn [rm_faults]; destruct Hl as [-> ->]; try done.
  cbn [spec_run app]. by destruct (finish te bits P fs).
Qed.

End Driver.
