(* ===== verification/RateMonTheorems.v ===== *)
(** * Properties of the rate monotonic manager

    Creation of a period protected by the scheduler, its life, the ways out
    of the directives, and what the statistics say. *)

From stdpp Require Import base tactics numbers option list list_numbers gmap fin_maps.
From Stdlib Require Import ZArith Lia.
From S2P Require Import Prelude Status Timespec Objects ObjectsFacts Pattern Fts FtsLemmas.
From S2P Require Import FtsPattern Counters FtsCounters FtsSlots FtsStatic FtsDynamic FtsSchedule.
From S2P Require Import FtsRegister FtsGuarantee FtsExamples FtsTasks RateMon RateMonFacts.

Open Scope Z_scope.

Section Creation.
Context {T W : Type} `{TaskManager T} `{Workspace W} `{Bintime}.
Implicit Types s : rm_state T W.

(** A period is created: its object is open under the stored identifier, the
    caller owns it, and it is inactive. *)
Record created (o a name : Z) s s' : Prop := {
  cr_class : exists n held, class_wf n held (information (rm_info s')) /\ 1 <= o <= n;
  cr_open : o ∈ active (information (rm_info s'));
  cr_period : exists p, periods s' !! o = Some p /\ owner p = executing s /\
    state p = RATE_MONOTONIC_INACTIVE /\ Timer p = None /\
    count (Statistics p) = 0 /\ missed_count (Statistics p) = 0 /\
    postponed_jobs p = default 0 (postponed_jobs <$> (periods s !! o));
  cr_fts : fts s' = set_mem_id (<[a := id_of (information (rm_info s')) o]> (mem_id (fts s)))
                      (fts s);
  cr_threads : threads s' = threads s /\ executing s' = executing s;
  cr_id : 0 <= id_of (information (rm_info s')) o < 2 ^ 32
}.

Lemma create_period_run n held o l a name s :
  class_wf n held (information (rm_info s)) -> Inactive (information (rm_info s)) = o :: l ->
  name <> 0 -> is_Some (mem_id (fts s) !! a) ->
  exists s', create_period name (Some a) s = Ok ((RTEMS_SUCCESSFUL, a), s') /\
    created o a name s s' /\ (exists id, mem_id (fts s') !! a = Some id /\
      id = id_of (information (rm_info s')) o /\ id = id_of (information (rm_info s)) o).
Proof.
  intros Hw Hin Hname Ha.
  assert (1 <= o <= n) as Ho.
  { eapply class_wf_range; [exact Hw|]. rewrite Hin. set_solver. }
  pose proof (allocate_run n held (rm_info s) Hw) as Hal. rewrite Hin in Hal.
  destruct Hal as (i1 & Hr1 & Hi1 & Hw1).
  unfold create_period, rtems_is_name_valid. rewrite (proj2 (Z.eqb_neq name 0)) by done.
  cbn [negb]. unfold Rate_monotonic_Allocate. rewrite (objs_bind _ _ _ _ _ Hr1).
  rewrite gets_bind, modify_bind. cbn [executing set_rm_info periods].
  unfold Rate_monotonic_Reset_statistics.
  rewrite (period_upd_bind _ _ _ _ _ (lookup_insert_eq _ _ _)).
  destruct (open_run n (o :: held) o name i1 Hw1) as (i2 & held2 & Hr2 & _ & Hw2 & Hact & _ & Hid);
    [by left|].
  match goal with |- context [(objs (Objects_Open o name) ≫= ?k) ?x] =>
    rewrite (objs_bind _ k x _ _ Hr2) end.
  match goal with |- context [(objs (obj_id o) ≫= ?k) ?x] =>
    rewrite (objs_read_bind _ k x _ (obj_id_run n held2 o i2 Hw2 Ho)) end.
  assert (stm F_mem_id a (id_of (information i2) o) (fts s) =
    Ok (tt, set_mem_id (<[a := id_of (information i2) o]> (mem_id (fts s))) (fts s))) as Hst.
  { rewrite <- bind_tt_r, stm_bind by done. done. }
  fts_known Hst. eexists. split; [reflexivity|].
  split.
  - split; cbn.
    + by exists n, held2.
    + done.
    + eexists. split; [apply lookup_insert_eq|]. cbn. do 5 (split; [done|]).
      by destruct (periods s !! o).
    + done.
    + done.
    + by apply (id_of_value n held2 _ o Hw2 ltac:(lia)).
  - eexists. cbn. split; [apply lookup_insert_eq|]. split; [done|].
    rewrite Hid. by rewrite Hi1.
Qed.

(** The whole of [rtems_rate_monotonic_create_fts] for a valid request. *)
Lemma create_fts_run n held o l r name own th s :
  class_wf n held (information (rm_info s)) -> Inactive (information (rm_info s)) = o :: l ->
  name <> 0 -> is_Some (mem_id (fts s) !! rq_idp r) ->
  rq_id r = id_of (information (rm_info s)) o ->
  fts_wf (fts s) -> task_list_index (tasklist (fts s)) < 10 -> rq_id r ∉ ids (fts s) ->
  request_valid (mem8 (fts s)) (<[rq_idp r := rq_id r]> (mem_id (fts s))) r ->
  (dynamic_tech (rq_te r) = true ->
     tol_counter_const (fts s) !! Z.to_nat (task_list_index (tasklist (fts s)))
       = Some tol_counter_zero) ->
  executing s = own -> threads s !! own = Some th -> return_argument th = None ->
  waiting_for_period th = false ->
  (forall p, periods s !! o = Some p -> 0 <= postponed_jobs p <= UINT32_MAX) ->
  exists s', rtems_rate_monotonic_create_fts name (Some (rq_idp r)) (rq_m r) (rq_k r) (rq_te r)
      (rq_ps r) (rq_v r) (rq_sp r) s = Ok (RTEMS_SUCCESSFUL, s') /\
    exists pj, rm_rel o (rq_id r) own (task_list_index (tasklist (fts s))) (rq_te r) (rq_bits r)
        (RIdle, RATE_MONOTONIC_INACTIVE, pj) 0 s'.
Proof.
  intros Hw Hin Hname Ha Hid Hf Hidx Hnew Hv Hz Hex Hth Hra Hwt Hpjs.
  destruct (create_period_run n held o l (rq_idp r) name s Hw Hin Hname Ha)
    as (s1 & Hr1 & [Hcl Hop (p & Hp & Hown & Hst & _ & _ & _ & Hpjv) Hfts [Hthr Hexe] _] & id & Hm & Hid1 & Hid2).
  assert (id = rq_id r) as -> by congruence.
  unfold rtems_rate_monotonic_create_fts. rewrite (cm_bind_ok _ _ _ _ _ Hr1).
  rewrite <- Hid1 in Hfts.
  destruct (register_run (task_list_index (tasklist (fts s))) r (fts s1))
    as (f2 & Hr2 & R); [rewrite Hfts; by destruct Hf; split|by rewrite Hfts|done
    |by rewrite Hfts|by rewrite Hfts|by rewrite Hfts|].
  unfold register in Hr2. fts_known Hr2. change (1 =? 0) with false. cbn iota.
  eexists. split; [reflexivity|]. exists (postponed_jobs p).
  pose proof Hf as Hf0. destruct_wf Hf0.
  split; cbn.
  - exact Hcl.
  - exact Hop.
  - exact Hid1.
  - apply R.
  - rewrite (rg_ids _ _ _ _ R), Hfts.
    assert (length (ids (fts s)) = Z.to_nat (task_list_index (tasklist (fts s)))) as Hlen.
    { unfold ids. rewrite length_take. lia. }
    assert (ids (set_mem_id (<[rq_idp r := rq_id r]> (mem_id (fts s))) (fts s)) = ids (fts s))
      as -> by done.
    unfold index_of.
    assert (list_find (fun x => x = rq_id r) (ids (fts s) ++ [rq_id r]) =
      Some (length (ids (fts s)), rq_id r)) as ->.
    { apply list_find_Some. split; [by rewrite lookup_app_r, Nat.sub_diag by lia|].
      split; [done|]. intros j y Hj Hlt. rewrite lookup_app_l in Hj by done.
      intros ->. apply Hnew. by eapply list_elem_of_lookup_2. }
    rewrite Hlen. lia.
  - lia.
  - exists p. split; [done|]. split; [congruence|]. done.
  - rewrite Hpjv. destruct (periods s !! o) as [p0|] eqn:Hp0; cbn; [by apply Hpjs|].
    unfold UINT32_MAX. lia.
  - done.
  - done.
  - exists th. rewrite Hthr. split; [done|]. by rewrite Hra.
  - left. apply R.
Qed.

End Creation.

(** ** Properties *)

(** What a task needs for a protected period: a free period object [o], room
    in the task list, a valid request, and a thread that does not wait. *)
Record protectable {T W} (n : Z) (held : list Z) (o name own : Z) (r : request)
    (s : rm_state T W) : Prop := {
  pr_class : class_wf n held (information (rm_info s));
  pr_free : exists l, Inactive (information (rm_info s)) = o :: l;
  pr_name : name <> 0;
  pr_cell : is_Some (mem_id (fts s) !! rq_idp r);
  pr_id : rq_id r = id_of (information (rm_info s)) o;
  pr_fts : fts_wf (fts s);
  pr_room : task_list_index (tasklist (fts s)) < 10;
  pr_new : rq_id r ∉ ids (fts s);
  pr_request : request_valid (mem8 (fts s)) (<[rq_idp r := rq_id r]> (mem_id (fts s))) r;
  pr_counters : dynamic_tech (rq_te r) = true ->
    tol_counter_const (fts s) !! Z.to_nat (task_list_index (tasklist (fts s)))
      = Some tol_counter_zero;
  pr_executing : executing s = own;
  pr_thread : exists th, threads s !! own = Some th /\ return_argument th = None /\
    waiting_for_period th = false;
  pr_postponed : forall p, periods s !! o = Some p -> 0 <= postponed_jobs p <= UINT32_MAX
}.

Lemma rm_accepts_inactive evs pj :
  rm_accepts evs (RIdle, RATE_MONOTONIC_INACTIVE, pj) =
  rm_accepts evs (RIdle, RATE_MONOTONIC_INACTIVE, 0).
Proof. by destruct evs as [|[] evs]. Qed.

Section Guarantee.
Context {T W : Type} `{TaskManager T} `{Workspace W} `{Bintime}.
Implicit Types s : rm_state T W.


(** C18: No wake-up is lost.  Whether the timer fires before or after the
    owner, about to wait, has blocked, in the end the owner is ready, it waits
    for nothing, and one version was released. *)
Theorem rm_no_lost_wakeup o id own i te bits P p th n held s :
  class_wf n held (information (rm_info s)) -> 1 <= o <= n ->
  id = id_of (information (rm_info s)) o ->
  fts_wf (fts s) -> index_of id (ids (fts s)) = i -> 0 <= i < 10 ->
  periods s !! o = Some p -> owner p = own -> threads s !! own = Some th ->
  task_at (fts s) i te bits Ready P ->
  wait_flags th = RATE_MONOTONIC_INTEND_TO_BLOCK -> return_argument th = Some o ->
  forall order : bool,
  exists s', (if order then Rate_monotonic_Timeout o;; Rate_monotonic_Block own;; mret tt
              else Rate_monotonic_Block own;; Rate_monotonic_Timeout o) s = Ok (tt, s') /\
    (exists th', threads s' !! own = Some th' /\ waiting_for_period th' = false /\
       wait_flags th' = RATE_MONOTONIC_READY_AGAIN /\ return_argument th' = None) /\
    task_at (fts s') i te bits Running P.
Proof.
  intros Hw Ho Hid Hf Hidx Hi Hp Hown Hth Hta Hfl Hra [].
  - destruct (timeout_waiting o id own i te bits P p th n held s)
      as (f2 & p2 & th2 & Hr2 & F2 & Hrun & Ho2 & Hs2 & Hj2 & Hra2 & Hfl2 & _);
      [done..|by left|done|].
    rewrite (cm_bind_ok _ _ _ _ _ Hr2).
    match goal with |- context [(Rate_monotonic_Block own ≫= _) ?x] =>
      destruct (block_run own th2 x) as (th3 & Hr3 & Hra3 & Hfl3) end;
      [apply lookup_insert_eq|].
    rewrite Hfl2 in Hfl3. change (_ =? _) with false in Hfl3. destruct Hfl3 as [Hfl3 Hwt3].
    rewrite (cm_bind_ok _ _ _ _ _ Hr3). eexists. split; [reflexivity|]. split; [|done].
    exists th3. cbn. rewrite lookup_insert_eq, Hra3. done.
  - destruct (block_run own th s Hth) as (th1 & Hr1 & Hra1 & Hfl1).
    rewrite Hfl in Hfl1. change (_ =? _) with true in Hfl1. destruct Hfl1 as [Hfl1 Hwt1].
    rewrite (cm_bind_ok _ _ _ _ _ Hr1).
    destruct (timeout_waiting o id own i te bits P p th1 n held
      (set_threads (<[own := th1]> (threads s)) s))
      as (f2 & p2 & th2 & Hr2 & F2 & Hrun & Ho2 & Hs2 & Hj2 & Hra2 & Hfl2 & Hwt2);
      [done..|apply lookup_insert_eq|done|by right|congruence|].
    rewrite Hr2. eexists. split; [reflexivity|]. split; [|done].
    exists th2. cbn. rewrite lookup_insert_eq. naive_solver.
Qed.



End Guarantee.

(** The order of timestamps. *)
Definition stamp_le (a b : Timestamp_Control) : Prop := Timestamp_Less_than b a = false.

Lemma stamp_le_iff a b :
  stamp_le a b <-> sec a < sec b \/ sec a = sec b /\ frac a <= frac b.
Proof.
  unfold stamp_le, Timestamp_Less_than.
  destruct (Z.ltb_spec (sec b) (sec a)), (Z.ltb_spec (sec a) (sec b)),
    (Z.ltb_spec (frac b) (frac a)); split; intros; done || lia.
Qed.

Lemma stamp_le_refl a : stamp_le a a.
Proof. apply stamp_le_iff. lia. Qed.

Lemma stamp_le_trans a b c : stamp_le a b -> stamp_le b c -> stamp_le a c.
Proof. rewrite !stamp_le_iff. lia. Qed.

Section Statistics.
Context `{Bintime}.

(** The statistics bound what was measured: after a concluded period its
    CPU and wall times lie between the recorded minima and maxima, and the
    bounds of earlier periods only widen. *)
Theorem statistics_bound_times executed since st :
  let st' := add_times executed since st in
  (stamp_le (min_cpu_time st') executed /\ stamp_le executed (max_cpu_time st')) /\
  (stamp_le (min_wall_time st') since /\ stamp_le since (max_wall_time st')) /\
  (stamp_le (min_cpu_time st') (min_cpu_time st) /\
   stamp_le (max_cpu_time st) (max_cpu_time st')) /\
  (stamp_le (min_wall_time st') (min_wall_time st) /\
   stamp_le (max_wall_time st) (max_wall_time st')) /\
  count st' = count st /\ missed_count st' = missed_count st.
Proof.
  assert (forall x m, let m' := if Timestamp_Less_than x m then x else m in
    stamp_le m' x /\ stamp_le m' m) as Hmin.
  { intros x m. cbn. destruct (Timestamp_Less_than x m) eqn:E; (split; [|]);
      rewrite ?stamp_le_iff; try lia.
    - unfold Timestamp_Less_than in E.
      destruct (Z.ltb_spec (sec x) (sec m)), (Z.ltb_spec (sec m) (sec x)),
        (Z.ltb_spec (frac x) (frac m)); done || lia.
    - by apply stamp_le_iff. }
  assert (forall x m, let m' := if Timestamp_Greater_than x m then x else m in
    stamp_le x m' /\ stamp_le m m') as Hmax.
  { intros x m. cbn. destruct (Timestamp_Greater_than x m) eqn:E; (split; [|]);
      rewrite ?stamp_le_iff; try lia; unfold Timestamp_Greater_than in E;
      destruct (Z.ltb_spec (sec m) (sec x)), (Z.ltb_spec (sec x) (sec m)),
        (Z.ltb_spec (frac m) (frac x)); done || lia. }
  destruct (Hmin executed (min_cpu_time st)), (Hmax executed (max_cpu_time st)),
    (Hmin since (min_wall_time st)), (Hmax since (max_wall_time st)).
  unfold add_times. cbn.
  destruct (Timestamp_Less_than executed (min_cpu_time st)); cbn in *;
  destruct (Timestamp_Greater_than executed (max_cpu_time st)); cbn in *;
  destruct (Timestamp_Less_than since (min_wall_time st)); cbn in *;
  destruct (Timestamp_Greater_than since (max_wall_time st)); cbn in *; done.
Qed.

End Statistics.

(** ** Instances *)

(** Binary time with 64 bits of fraction, as the C library has it. *)
Definition bintime64 : Bintime := {|
  bintime_add a b :=
    let f := frac a + frac b in
    mk_timestamp (i64 (sec a + sec b + f / 2 ^ 64)) (u64 f);
  bintime_sub a b :=
    let f := frac a - frac b in
    mk_timestamp (i64 (sec a - sec b + f / 2 ^ 64)) (u64 f);
  bintime2timespec a :=
    mk_timespec (sec a) (Z.shiftr (1000000000 * Z.shiftr (frac a) 32) 32);
  timespec2bintime t := mk_timestamp (tv_sec t) (u64 (tv_nsec t * 18446744073))
|}.

(** The class of four periods. *)
Definition period_class : obj_state Z :=
  let s0 := mk_obj_state empty_information 4096 in
  match @Objects_Do_initialize_information Z big_workspace 2 8 4 100 s0 with
  | Ok (_, s) => s
  | Undef _ => s0
  end.

Lemma period_class_wf :
  class_wf 4 [] (information period_class) /\
  Inactive (information period_class) = [1; 2; 3; 4] /\
  the_api (information period_class) = 2 /\ the_class (information period_class) = 8.
Proof.
  destruct (@initialize_run Z big_workspace 4 2 8 100 (mk_obj_state empty_information 4096))
    as (s1 & Hr & Hw & Hin & Ha & Hc);
    [unfold OBJECTS_ID_FINAL_INDEX; lia|lia|lia|lia|by do 4 eexists|].
  unfold period_class. rewrite Hr. by rewrite Hin.
Qed.

(** The thread 40 asks for a period, with the request of the first protected
    task. *)
Definition rm_request : request :=
  mk_request 500 (Objects_Build_id 2 8 1 1) 3 12 DRE (mk_pattern_specs E_PATTERN 100 101 3)
    (mk_task_versions 1001 1002 1003) app_specs.

Definition rm_thread : Thread_Control := mk_thread 0 None false Timestamp_Set_to_zero.

Definition rm_example (f : fts_state Z) : rm_state Z Z :=
  mk_rm_state period_class ∅ (<[40 := rm_thread]> {[41 := rm_thread]}) 40 0
    Timestamp_Set_to_zero f.

Lemma rm_request_id : rq_id rm_request = id_of (information period_class) 1.
Proof.
  destruct period_class_wf as (_ & _ & Ha & Hc). unfold id_of. by rewrite Ha, Hc.
Qed.

Lemma rm_request_valid : request_valid app_mem8 (<[500 := rq_id rm_request]> app_mem_id) rm_request.
Proof.
  destruct app_dre_valid as [? ? ? ? ? ?]. by split.
Qed.

Lemma rm_example_protectable :
  protectable 4 [] 1 1 40 rm_request (rm_example (app_initial 0)).
Proof.
  destruct period_class_wf as (Hw & Hin & _ & _).
  split; [exact Hw|by exists [2; 3; 4]|done|by eexists|exact rm_request_id|apply fts_initial_wf
    |done|apply not_elem_of_nil|exact rm_request_valid|done|done
    |by exists rm_thread|done].
Qed.

Definition rm_run : list rm_event :=
  [Call 10; Version_ends FAULT; Call 10; Fire; Version_ends NO_FAULT; Fire; Fire; Call 10;
   Version_ends FAULT; Call 10; Version_ends NO_FAULT; Call_and_fire 10; Version_ends FAULT].


(** The period of the example, created. *)
Lemma rm_example_created :
  exists s, @rtems_rate_monotonic_create_fts Z Z big_workspace bintime64 1 (Some 500) 3 12 DRE
      (mk_pattern_specs E_PATTERN 100 101 3) (mk_task_versions 1001 1002 1003) app_specs
      (rm_example (app_initial 0)) = Ok (RTEMS_SUCCESSFUL, s) /\
    exists pj, rm_rel 1 (rq_id rm_request) 40 0 DRE (rq_bits rm_request)
      (RIdle, RATE_MONOTONIC_INACTIVE, pj) 0 s.
Proof.
  destruct rm_example_protectable
    as [Hw [l Hin] Hna Hc Hid Hf Hro Hne Hv Hz Hex (th & Hth & Hra & Hwt) Hpj].
  exact (@create_fts_run Z Z big_workspace bintime64 4 [] 1 l rm_request 1 40 th
    (rm_example (app_initial 0)) Hw Hin Hna Hc Hid Hf Hro Hne Hv Hz Hex Hth Hra Hwt Hpj).
Qed.


Lemma rm_no_lost_wakeup_witness :
  exists s, forall order : bool, exists s',
    (if order then @Rate_monotonic_Timeout Z Z id_supply 1;;
                   Rate_monotonic_Block 40;; mret tt
     else Rate_monotonic_Block 40;; @Rate_monotonic_Timeout Z Z id_supply 1) s
      = Ok (tt, s') /\
    (exists th', threads s' !! 40 = Some th' /\ waiting_for_period th' = false /\
       wait_flags th' = RATE_MONOTONIC_READY_AGAIN /\ return_argument th' = None) /\
    task_at (fts s') 0 DRE (rq_bits rm_request) Running 0.
Proof.
  destruct rm_example_created as (s & _ & pj & R).
  destruct (rr_period _ _ _ _ _ _ _ _ _ R) as (p & Hp & Hown & _).
  destruct (rr_class _ _ _ _ _ _ _ _ _ R) as (n & held & Hw & Ho).
  assert (exists f', @fts_period_begin Z id_supply (rq_id rm_request) (fts s) = Ok (tt, f') /\
    frame 0 (fts s) f' /\ task_at f' 0 DRE (rq_bits rm_request) Ready 0) as (f' & _ & F & Hta).
  { destruct (rr_task _ _ _ _ _ _ _ _ _ R) as [Ht|Ht];
      (eapply begin_step; [apply R|apply R|apply R| |exact Ht]); auto. }
  set (th := mk_thread RATE_MONOTONIC_INTEND_TO_BLOCK (Some 1) false Timestamp_Set_to_zero).
  exists (set_threads (<[40 := th]> (threads s)) (set_fts f' s)).
  apply (@rm_no_lost_wakeup Z Z id_supply 1 (rq_id rm_request) 40 0 DRE
    (rq_bits rm_request) 0 p th n held).
  - exact Hw.
  - exact Ho.
  - apply R.
  - apply F.
  - cbn [fts set_threads set_fts]. rewrite (fr_ids _ _ _ F). apply R.
  - lia.
  - exact Hp.
  - exact Hown.
  - apply lookup_insert_eq.
  - exact Hta.
  - done.
  - done.
Defined.

