(* ===== verification/FtsLegacy.v ===== *)
(** * The first version of the scheduler

    [rtems/src/fts.c], the scheduler before it was tied to periods: a list of
    tasks with (m,k) requirements and pointers to pattern objects that the
    callers own, and the choice of the next version under static compensation.
    The pattern objects are a store of their own, since entries of the list may
    point to the same object.  The loops that write a pattern into memory and
    print it are the text of [create_pattern_t] and [show_pattern_t], so their
    translations are shared. *)

From stdpp Require Import base tactics numbers option list list_numbers gmap fin_maps.
From Stdlib Require Import ZArith Lia.
From S2P Require Import Prelude Status Pattern Fts FtsLemmas FtsPattern Counters FtsCounters.
From S2P Require Import FtsSlots FtsStatic FtsDynamic FtsSchedule FtsRegister FtsGuarantee.
From S2P Require Import FtsExamples.

Open Scope Z_scope.

(** ** Data *)
Inductive legacy_version := L_BASIC | L_DETECTION | L_RECOVERY.

#[export] Instance legacy_version_eq_dec : EqDecision legacy_version.
Proof. solve_decision. Defined.

Record bitstring_pattern := mk_bitstring {
  bs_start : Z;
  bs_end : Z;
  bs_curr : Z;
  bs_bitpos : Z;
  bs_max_bitpos : Z
}.

(** The static variable [list]; [lg_pattern] are addresses of pattern
    objects. *)
Record Legacy_ID_List := mk_legacy_list {
  lg_id : list Z;
  lg_m : list Z;
  lg_k : list Z;
  lg_tech : list fts_tech;
  lg_pattern : list Z;
  lg_index : Z
}.

Record legacy_state := mk_legacy_state {
  lg_list : Legacy_ID_List;
  patterns : gmap Z bitstring_pattern;
  lg_mem8 : gmap Z Z
}.

Definition legacy_initial (ps : gmap Z bitstring_pattern) (m8 : gmap Z Z) : legacy_state :=
  let z := replicate 10 0 in
  mk_legacy_state (mk_legacy_list z z z (replicate 10 NONE) z 0) ps m8.

Definition L_task_list_id : field legacy_state (list Z) :=
  mk_field (fun s => lg_id (lg_list s)) (fun v s =>
    let l := lg_list s in
    mk_legacy_state (mk_legacy_list v (lg_m l) (lg_k l) (lg_tech l) (lg_pattern l) (lg_index l))
      (patterns s) (lg_mem8 s)).
Definition L_m : field legacy_state (list Z) :=
  mk_field (fun s => lg_m (lg_list s)) (fun v s =>
    let l := lg_list s in
    mk_legacy_state (mk_legacy_list (lg_id l) v (lg_k l) (lg_tech l) (lg_pattern l) (lg_index l))
      (patterns s) (lg_mem8 s)).
Definition L_k : field legacy_state (list Z) :=
  mk_field (fun s => lg_k (lg_list s)) (fun v s =>
    let l := lg_list s in
    mk_legacy_state (mk_legacy_list (lg_id l) (lg_m l) v (lg_tech l) (lg_pattern l) (lg_index l))
      (patterns s) (lg_mem8 s)).
Definition L_tech : field legacy_state (list fts_tech) :=
  mk_field (fun s => lg_tech (lg_list s)) (fun v s =>
    let l := lg_list s in
    mk_legacy_state (mk_legacy_list (lg_id l) (lg_m l) (lg_k l) v (lg_pattern l) (lg_index l))
      (patterns s) (lg_mem8 s)).
Definition L_pattern : field legacy_state (list Z) :=
  mk_field (fun s => lg_pattern (lg_list s)) (fun v s =>
    let l := lg_list s in
    mk_legacy_state (mk_legacy_list (lg_id l) (lg_m l) (lg_k l) (lg_tech l) v (lg_index l))
      (patterns s) (lg_mem8 s)).
Definition L_index : field legacy_state Z :=
  mk_field (fun s => lg_index (lg_list s)) (fun v s =>
    let l := lg_list s in
    mk_legacy_state (mk_legacy_list (lg_id l) (lg_m l) (lg_k l) (lg_tech l) (lg_pattern l) v)
      (patterns s) (lg_mem8 s)).
Definition L_patterns : field legacy_state (gmap Z bitstring_pattern) :=
  mk_field patterns (fun v s => mk_legacy_state (lg_list s) v (lg_mem8 s)).
Definition L_mem8 : field legacy_state (gmap Z Z) :=
  mk_field lg_mem8 (fun v s => mk_legacy_state (lg_list s) (patterns s) v).

Abbreviation LM := (cm legacy_state).

(** The code shared with the later scheduler works on the bytes only. *)
Definition on_bytes {A} (m : cm (fts_state unit) A) : LM A :=
  zoom (fun s => fts_initial tt (lg_mem8 s) ∅) (fun f s => fset L_mem8 (mem8 f) s) m.

(** [list.pattern[i]->f] and its assignment. *)
Definition pat_ld {A} (i : Z) (f : bitstring_pattern -> A) : LM A :=
  a ← rd L_pattern i; p ← ldm L_patterns a; mret (f p).
Definition pat_upd (i : Z) (f : bitstring_pattern -> bitstring_pattern) : LM unit :=
  a ← rd L_pattern i; p ← ldm L_patterns a; stm L_patterns a (f p).

Definition set_bs_start v (p : bitstring_pattern) :=
  mk_bitstring v (bs_end p) (bs_curr p) (bs_bitpos p) (bs_max_bitpos p).
Definition set_bs_end v (p : bitstring_pattern) :=
  mk_bitstring (bs_start p) v (bs_curr p) (bs_bitpos p) (bs_max_bitpos p).
Definition set_bs_curr v (p : bitstring_pattern) :=
  mk_bitstring (bs_start p) (bs_end p) v (bs_bitpos p) (bs_max_bitpos p).
Definition set_bs_bitpos v (p : bitstring_pattern) :=
  mk_bitstring (bs_start p) (bs_end p) (bs_curr p) v (bs_max_bitpos p).
Definition set_bs_max_bitpos v (p : bitstring_pattern) :=
  mk_bitstring (bs_start p) (bs_end p) (bs_curr p) (bs_bitpos p) v.

(** ** Operations *)
Definition show_pattern (p_curr p_end maxbit : Z) : LM (list (list bool)) :=
  on_bytes (show_pattern_t p_curr p_end maxbit).

Definition task_in_list (id : Z) : LM Z :=
  n ← ld L_index;
  r ← c_for (Z.to_nat n) 0
        (fun i _ =>
           x ← rd L_task_list_id i;
           mret (if x =? id then inr i else inl (-1))) (-1);
  mret (i16 r).

Definition create_pattern (id : Z) (p : pattern_type) (pattern_s pattern_e bitpos_max : Z)
    : LM Z :=
  i ← task_in_list id;
  pat_upd i (set_bs_start pattern_s);;
  pat_upd i (set_bs_end pattern_e);;
  pat_upd i (set_bs_max_bitpos bitpos_max);;
  m ← rd L_m i;
  k ← rd L_k i;
  on_bytes (match p with
            | R_PATTERN => create_r_pattern k m pattern_s pattern_e
            | E_PATTERN => create_e_pattern k m pattern_s pattern_e
            end);;
  show_pattern pattern_s pattern_e bitpos_max;;
  mret 1.

Definition fts_set_static_pattern (id p : Z) : LM Z :=
  static_index ← task_in_list id;
  wr L_pattern static_index p;;
  o ← ldm L_patterns p;
  show_pattern (bs_start o) (bs_end o) (bs_max_bitpos o);;
  p_curr ← pat_ld static_index bs_start;
  p_end ← pat_ld static_index bs_end;
  maxbit ← pat_ld static_index bs_max_bitpos;
  show_pattern p_curr p_end maxbit;;
  mret 1.

Definition static_next_version (i : Z) : LM legacy_version :=
  start ← pat_ld i bs_start;
  end_ ← pat_ld i bs_end;
  maxbit ← pat_ld i bs_max_bitpos;
  show_pattern start end_ maxbit;;
  bitpos ← pat_ld i bs_bitpos;
  pos ← pat_ld i bs_curr;
  c_byte ← ldm L_mem8 pos;
  sh ← lift (int_shr BIT_7 bitpos);
  let bit_mask_one := u8 sh in
  let result_bit := Z.land c_byte bit_mask_one in
  (if end_ =? pos then
     if bitpos <? maxbit then pat_upd i (set_bs_bitpos (u8 (bitpos + 1)))
     else pat_upd i (set_bs_bitpos 0);; pat_upd i (set_bs_curr start)
   else
     if bitpos <? 7 then pat_upd i (set_bs_bitpos (u8 (bitpos + 1)))
     else pat_upd i (set_bs_bitpos 0);; pat_upd i (set_bs_curr (pos + 1)));;
  te ← rd L_tech i;
  mret (match te with
        | SRE => if result_bit =? 0 then L_BASIC else L_RECOVERY
        | _ => if result_bit =? 0 then L_BASIC else L_DETECTION
        end).

Definition fts_init_versions : LM Z := mret 1.

(** Without an entry in the list, [next_version] is returned without a value. *)
Definition fts_get_mode (id : Z) : LM legacy_version :=
  task_index ← task_in_list id;
  if negb (task_index =? -1) then
    te ← rd L_tech task_index;
    match te with
    | NONE => mret L_BASIC
    | SRE => static_next_version task_index
    | SDR => static_next_version task_index
    | DRE => mret L_RECOVERY
    | DDR => mret L_RECOVERY
    end
  else lift (Undef Uninitialized).

Definition legacy_shift_down {A} (f : field legacy_state (list A)) (i : Z) : LM unit :=
  x ← rd f (i + 1); wr f i x.

Definition fts_off (id : Z) : LM Z :=
  list_index ← task_in_list id;
  if negb (list_index =? -1) then
    n ← ld L_index;
    c_for (Z.to_nat n) 0
      (fun i _ =>
         legacy_shift_down L_task_list_id i;;
         legacy_shift_down L_m i;;
         legacy_shift_down L_k i;;
         legacy_shift_down L_tech i;;
         legacy_shift_down L_pattern i;;
         mret (inl tt)) tt;;
    st L_index (u16 (n - 1));;
    mret 1
  else mret (u8 (-1)).

Definition fts_task_status (id : Z) : LM Z := mret 1.

Definition fts_change_tech (id : Z) (te : fts_tech) : LM Z :=
  list_index ← task_in_list id;
  if negb (list_index =? -1) then wr L_tech list_index te;; mret 1
  else mret 0.

(** ** Entries and their patterns *)

(** The pattern object in the form of the later scheduler's slots. *)
Definition object_slot (p : bitstring_pattern) (te : fts_tech) : slot :=
  mk_slot te (bs_start p) (bs_end p) (bs_max_bitpos p) (bs_curr p) (bs_bitpos p)
    tol_counter_zero tol_counter_zero 0 0.

Record entry (s : legacy_state) (i : Z) (te : fts_tech) (a : Z) (p : bitstring_pattern)
    : Prop := {
  ent_i : 0 <= i;
  ent_tech : lg_tech (lg_list s) !! Z.to_nat i = Some te;
  ent_pattern : lg_pattern (lg_list s) !! Z.to_nat i = Some a;
  ent_object : patterns s !! a = Some p
}.

(** The object moves to another place. *)
Definition place_object (a : Z) (p : bitstring_pattern) (c b : Z) (s : legacy_state)
    : legacy_state :=
  fset L_patterns (<[a := mk_bitstring (bs_start p) (bs_end p) c b (bs_max_bitpos p)]>
    (patterns s)) s.

Definition legacy_of (v : fts_version) : legacy_version :=
  match v with BASIC => L_BASIC | DETECTION => L_DETECTION | CORRECTION => L_RECOVERY end.

Section Objects.
Context (s : legacy_state) (i : Z) (te : fts_tech) (a : Z) (p : bitstring_pattern).
Context (He : entry s i te a p).

Lemma pat_ld_bind {A B} (f : bitstring_pattern -> A) (k : A -> LM B) :
  (pat_ld i f ≫= k) s = k (f p) s.
Proof.
  destruct He. apply cm_bind_ok. unfold pat_ld.
  by rewrite (rd_bind _ _ a), (ldm_bind _ _ p) by done.
Qed.

Lemma pat_upd_bind {B} f (k : unit -> LM B) :
  (pat_upd i f ≫= k) s = k tt (fset L_patterns (<[a := f p]> (patterns s)) s).
Proof.
  destruct He as [? ? ? Ho]. apply cm_bind_ok. unfold pat_upd.
  rewrite (rd_bind _ _ a), (ldm_bind _ _ p) by done.
  by rewrite <- bind_tt_r, stm_bind by (by eexists).
Qed.

End Objects.

Lemma entry_place s i te a p c b :
  entry s i te a p ->
  entry (place_object a p c b s) i te a
    (mk_bitstring (bs_start p) (bs_end p) c b (bs_max_bitpos p)).
Proof. intros []. split; try done. cbn. by rewrite lookup_insert_eq. Qed.

Lemma show_pattern_run start end_ maxbit s :
  start <= end_ -> 0 <= maxbit <= 7 -> mapped (lg_mem8 s) start end_ ->
  exists lines, show_pattern start end_ maxbit s = Ok (lines, s) /\
    mjoin lines = pattern_bits (lg_mem8 s) start end_ maxbit.
Proof.
  intros Hse Hmb Hm.
  destruct (show_pattern_t_run start end_ maxbit (fts_initial tt (lg_mem8 s) ∅) Hse Hmb Hm)
    as (ls & Hr & Hj).
  exists ls. split; [|done]. unfold show_pattern, on_bytes, zoom. rewrite Hr. by destruct s.
Qed.

(** The cursor update of [static_next_version]. *)
Lemma advance_run {B} i te a p s (k : unit -> LM B) :
  entry s i te a p -> 0 <= bs_bitpos p < 8 ->
  ((if bs_end p =? bs_curr p then
      if bs_bitpos p <? bs_max_bitpos p then pat_upd i (set_bs_bitpos (u8 (bs_bitpos p + 1)))
      else pat_upd i (set_bs_bitpos 0);; pat_upd i (set_bs_curr (bs_start p))
    else
      if bs_bitpos p <? 7 then pat_upd i (set_bs_bitpos (u8 (bs_bitpos p + 1)))
      else pat_upd i (set_bs_bitpos 0);; pat_upd i (set_bs_curr (bs_curr p + 1))) ≫= k) s =
  k tt (place_object a p (next_cursor (object_slot p te)).1
          (next_cursor (object_slot p te)).2 s).
Proof.
  intros He Hb. unfold next_cursor. cbn [sl_end sl_curr sl_bit sl_maxbit sl_start object_slot].
  assert (forall c, ((pat_upd i (set_bs_bitpos 0);; pat_upd i (set_bs_curr c)) ≫= k) s = k tt (place_object a p c 0 s)) as Hwrap.
  { intros c. rewrite cm_bind_assoc, (pat_upd_bind _ _ _ _ _ He).
    assert (entry (fset L_patterns (<[a := set_bs_bitpos 0 p]> (patterns s)) s) i te a
      (set_bs_bitpos 0 p)) as He'.
    { destruct He. split; try done. cbn. by rewrite lookup_insert_eq. }
    rewrite (pat_upd_bind _ _ _ _ _ He'). unfold place_object. cbn.
    by rewrite insert_insert_eq. }
  rewrite u8_id by lia.
  destruct (bs_end p =? bs_curr p); [destruct (bs_bitpos p <? bs_max_bitpos p)
    |destruct (bs_bitpos p <? 7)]; first [apply Hwrap | apply (pat_upd_bind _ _ _ _ _ He)].
Qed.

Lemma static_next_version_run i te a p bits P s :
  entry s i te a p -> holds (lg_mem8 s) (object_slot p te) bits ->
  cursor bits (object_slot p te) P ->
  exists c b, static_next_version i s =
      Ok (legacy_of (static_version te (cyc bits P)), place_object a p c b s) /\
    move (object_slot p te) c b =
      object_slot (mk_bitstring (bs_start p) (bs_end p) c b (bs_max_bitpos p)) te /\
    (c, b) = next_cursor (object_slot p te) /\
    cursor bits (move (object_slot p te) c b) (S P).
Proof.
  intros He Hh Hcur.
  destruct (cursor_bit _ _ _ _ Hh Hcur) as (Hc & Hb & byte & Hlk & Hbit).
  pose proof (next_cursor_correct _ _ _ _ Hh Hcur) as Hnext. cbn in Hb, Hlk, Hbit.
  exists (next_cursor (object_slot p te)).1, (next_cursor (object_slot p te)).2.
  split; [|split; [done|]; split; [by destruct (next_cursor _)|done]].
  unfold static_next_version. rewrite !(pat_ld_bind _ _ _ _ _ He).
  destruct (show_pattern_run (bs_start p) (bs_end p) (bs_max_bitpos p) s) as (ls & Hsh & _);
    [apply Hh..|].
  rewrite (cm_bind_ok _ _ _ _ _ Hsh), !(pat_ld_bind _ _ _ _ _ He).
  rewrite (ldm_bind _ _ byte) by done.
  rewrite (lift_bind _ _ _ (Z.shiftr BIT_7 (bs_bitpos p))).
  2: { unfold int_shr. by rewrite (proj2 (Z.leb_le _ _)), (proj2 (Z.ltb_lt _ _)) by lia. }
  rewrite mask_u8, mask_bit by lia. rewrite (advance_run _ te a p) by done.
  rewrite Hbit, (rd_bind _ _ te) by apply He.
  rewrite cm_ret_run. unfold static_version.
  by destruct te, (cyc bits P).
Qed.

(** ** Properties *)

(** The identifiers of the list, and the search. *)
Definition legacy_ids (s : legacy_state) : list Z :=
  take (Z.to_nat (lg_index (lg_list s))) (lg_id (lg_list s)).

Lemma task_in_list_ok id s :
  0 <= lg_index (lg_list s) <= 10 -> length (lg_id (lg_list s)) = 10%nat ->
  task_in_list id s = Ok (index_of id (legacy_ids s), s).
Proof.
  intros Hn Hl. unfold task_in_list. rewrite ld_bind.
  pose proof (search_loop L_task_list_id id (Z.to_nat (lg_index (lg_list s))) 0 s) as Hloop.
  cbn [fget L_task_list_id L_index] in *. specialize (Hloop ltac:(lia) ltac:(lia)).
  rewrite (cm_bind_ok _ _ _ _ _ Hloop), cm_ret_run.
  change (Z.to_nat 0) with 0%nat. rewrite drop_0. fold (legacy_ids s). cbn [Z.add].
  fold (index_of id (legacy_ids s)). do 2 f_equal. apply i16_id.
  assert (length (legacy_ids s) <= 10)%nat by (unfold legacy_ids; rewrite length_take; lia).
  destruct (index_of_range id (legacy_ids s)); lia.
Qed.

(** The calls a program can make. *)
Inductive legacy_step : legacy_state -> legacy_state -> Prop :=
| step_create id p a b m r s s' : create_pattern id p a b m s = Ok (r, s') -> legacy_step s s'
| step_set id p r s s' : fts_set_static_pattern id p s = Ok (r, s') -> legacy_step s s'
| step_mode id r s s' : fts_get_mode id s = Ok (r, s') -> legacy_step s s'
| step_off id r s s' : fts_off id s = Ok (r, s') -> legacy_step s s'
| step_change id te r s s' : fts_change_tech id te s = Ok (r, s') -> legacy_step s s'.

(** The list of a system nothing is registered in. *)
Definition unregistered (s : legacy_state) : Prop :=
  lg_index (lg_list s) = 0 /\ length (lg_id (lg_list s)) = 10%nat.

Lemma unregistered_search id s : unregistered s -> task_in_list id s = Ok (-1, s).
Proof.
  intros [Hn Hl]. rewrite task_in_list_ok by (done || lia). unfold legacy_ids. by rewrite Hn.
Qed.

Lemma unregistered_calls s :
  unregistered s ->
  (forall id p a b m, create_pattern id p a b m s = Undef Out_of_bounds) /\
  (forall id p, fts_set_static_pattern id p s = Undef Out_of_bounds) /\
  (forall id, fts_get_mode id s = Undef Uninitialized) /\
  (forall id, fts_off id s = Ok (255, s)) /\
  (forall id te, fts_change_tech id te s = Ok (0, s)).
Proof.
  intros Hu. pose proof (fun id => unregistered_search id s Hu) as Hs.
  split; [|split; [|split; [|split]]]; intros;
    unfold create_pattern, fts_set_static_pattern, fts_get_mode, fts_off, fts_change_tech;
    by rewrite (cm_bind_ok _ _ _ _ _ (Hs _)).
Qed.

(** The first version of the scheduler cannot protect a task: its
    registration is commented out, so that in every state a program can reach
    the list is empty, [fts_get_mode] returns a version that was never
    assigned, whatever task asks, and setting a pattern for a task writes in
    front of the array of patterns. *)
Theorem legacy_protects_nothing ps m8 s :
  rtc legacy_step (legacy_initial ps m8) s ->
  (forall id, fts_get_mode id s = Undef Uninitialized) /\
  (forall id p, fts_set_static_pattern id p s = Undef Out_of_bounds) /\
  (forall id p a b m, create_pattern id p a b m s = Undef Out_of_bounds) /\
  (forall id, fts_off id s = Ok (255, s)) /\ (forall id te, fts_change_tech id te s = Ok (0, s)).
Proof.
  intros Hr. assert (unregistered s) as Hu.
  { assert (unregistered (legacy_initial ps m8)) as H0 by done. revert H0.
    induction Hr as [x|x y z Hxy _ IH]; [done|]. intros Hx. apply IH.
    destruct (unregistered_calls x Hx) as (H1 & H2 & H3 & H4 & H5).
    destruct Hxy as [id p a b m r x y Hs|id p r x y Hs|id r x y Hs|id r x y Hs|id te r x y Hs];
      rewrite ?H1, ?H2, ?H3, ?H4, ?H5 in Hs; naive_solver. }
  destruct (unregistered_calls s Hu) as (? & ? & ? & ? & ?). done.
Qed.

(** [n] calls of [fts_get_mode]. *)
Fixpoint get_modes (n : nat) (id : Z) : LM (list legacy_version) :=
  match n with
  | O => mret []
  | S n' => v ← fts_get_mode id; vs ← get_modes n' id; mret (v :: vs)
  end.

(** With an entry in the list, as a registration would make it, the
    versions [fts_get_mode] returns under static compensation follow the bits
    of the pattern in memory, cyclically, from the cursor on, and only the
    entry's pattern object changes. *)
Theorem legacy_modes_follow_pattern n id i te a p bits P s :
  0 <= lg_index (lg_list s) <= 10 -> length (lg_id (lg_list s)) = 10%nat ->
  index_of id (legacy_ids s) = i -> te = SRE \/ te = SDR ->
  entry s i te a p -> holds (lg_mem8 s) (object_slot p te) bits ->
  cursor bits (object_slot p te) P ->
  exists p', get_modes n id s =
      Ok ((fun b : bool => legacy_of (static_version te b)) <$> window bits P n,
          fset L_patterns (<[a := p']> (patterns s)) s) /\
    cursor bits (object_slot p' te) (P + n).
Proof.
  intros Hn Hl Hid Hte He Hh Hc. revert p P s Hn Hl Hid He Hh Hc.
  induction n as [|n IH]; intros p P s Hn Hl Hid He Hh Hc.
  { exists p. cbn. rewrite Nat.add_0_r. split; [|done].
    rewrite insert_id by apply He. by destruct s. }
  destruct (static_next_version_run i te a p bits P s He Hh Hc) as (c & b & Hr & Hmv & _ & Hc').
  assert (fts_get_mode id s = static_next_version i s) as Hgm.
  { unfold fts_get_mode.
    rewrite (cm_bind_ok _ _ _ _ _ (task_in_list_ok id s Hn Hl)), Hid.
    rewrite (proj2 (Z.eqb_neq i (-1))) by (destruct He; lia). cbn [negb].
    rewrite (rd_bind _ _ te) by apply He. by destruct Hte as [-> | ->]. }
  cbn [get_modes]. rewrite (cm_bind_ok _ _ _ _ _ (eq_trans Hgm Hr)).
  rewrite Hmv in Hc'. set (p1 := mk_bitstring _ _ _ _ _) in *.
  destruct (IH p1 (S P) (place_object a p c b s)) as (p' & Hr' & Hcur); [done|done|done| | |done|].
  - by apply entry_place.
  - destruct Hh. by split.
  - exists p'. rewrite (cm_bind_ok _ _ _ _ _ Hr'). cbn [place_object fset L_patterns patterns].
    rewrite insert_insert_eq. split; [done|]. by replace (P + S n)%nat with (S P + n)%nat by lia.
Qed.

(** The scheduler of the periods chooses as its predecessor did: from the
    same pattern bytes and the same cursor, [static_next_version_t] returns
    the version [static_next_version] returns, and leaves the cursor in the
    same place. *)
Theorem static_next_version_agrees {T} `{TaskManager T} i te a p bits P sl
    (s : legacy_state) (f : fts_state T) :
  entry s i te a p -> fts_wf f -> 0 <= i < 10 -> view f i sl -> mem8 f = lg_mem8 s ->
  sl_tech sl = te -> sl_start sl = bs_start p -> sl_end sl = bs_end p ->
  sl_maxbit sl = bs_max_bitpos p -> sl_curr sl = bs_curr p -> sl_bit sl = bs_bitpos p ->
  holds (mem8 f) sl bits -> cursor bits sl P ->
  exists v s' f' p' sl', static_next_version i s = Ok (legacy_of v, s') /\
    static_next_version_t i f = Ok (v, f') /\
    patterns s' !! a = Some p' /\ view f' i sl' /\
    bs_curr p' = sl_curr sl' /\ bs_bitpos p' = sl_bit sl'.
Proof.
  intros He Hwf Hi Hv Hm Ht Hst Hen Hmb Hcu Hbi Hh Hc.
  destruct (static_next_version_t_run i sl bits P f Hwf Hi Hv Hh Hc)
    as (f' & sl' & Hr & _ & _ & Hv' & Hc' & c' & b' & ->).
  assert (holds (lg_mem8 s) (object_slot p te) bits) as Hh2.
  { rewrite <- Hm. destruct Hh. split; cbn; by rewrite <- ?Hst, <- ?Hen, <- ?Hmb. }
  assert (cursor bits (object_slot p te) P) as Hc2.
  { unfold cursor in *. cbn. by rewrite <- Hcu, <- Hbi, <- Hst. }
  destruct (static_next_version_run i te a p bits P s He Hh2 Hc2) as (c & b & Hr2 & _ & _ & Hc3).
  exists (static_version te (cyc bits P)).
  eexists _, f', (mk_bitstring (bs_start p) (bs_end p) c b (bs_max_bitpos p)), (move sl c' b').
  split; [exact Hr2|]. split; [by rewrite <- Ht|].
  split; [cbn; by rewrite lookup_insert_eq|]. split; [done|]. unfold cursor in Hc', Hc3.
  cbn in *. split; [rewrite (proj1 Hc'), (proj1 Hc3); congruence
    |by rewrite (proj2 Hc'), (proj2 Hc3)].
Qed.

(** ** Instances *)
Lemma legacy_protects_nothing_witness :
  let s := legacy_initial ∅ ∅ in
  (forall id, fts_get_mode id s = Undef Uninitialized) /\
  (forall id p, fts_set_static_pattern id p s = Undef Out_of_bounds) /\
  (forall id p a b m, create_pattern id p a b m s = Undef Out_of_bounds) /\
  (forall id, fts_off id s = Ok (255, s)) /\ (forall id te, fts_change_tech id te s = Ok (0, s)).
Proof.
  apply (legacy_protects_nothing ∅ ∅). apply rtc_once. by apply (step_off 3 255).
Defined.

(** One task, 2 of 5 under SRE, its pattern object at the address 1000. *)
Definition one_task (te : fts_tech) (p : bitstring_pattern) (m8 : gmap Z Z) (i : nat)
    : legacy_state :=
  let z := replicate 10 0 in
  mk_legacy_state
    (mk_legacy_list (<[i := 7]> z) (<[i := 2]> z) (<[i := 5]> z) (<[i := te]> (replicate 10 NONE))
       (<[i := 1000]> z) (Z.of_nat i + 1)) {[1000 := p]} m8.

Lemma legacy_modes_follow_pattern_witness :
  let p := mk_bitstring 100 100 100 0 4 in
  let s := one_task SRE p {[100 := 24]} 0 in
  exists p', get_modes 7 7 s =
      Ok ([L_BASIC; L_BASIC; L_BASIC; L_RECOVERY; L_RECOVERY; L_BASIC; L_BASIC],
          fset L_patterns (<[1000 := p']> (patterns s)) s) /\
    cursor [false; false; false; true; true] (object_slot p' SRE) (0 + 7).
Proof.
  apply (legacy_modes_follow_pattern 7 7 0 SRE 1000 (mk_bitstring 100 100 100 0 4)
    [false; false; false; true; true] 0); [cbn; lia|done|done|by left|by split| |done].
  - split; [cbn; lia|cbn; lia| |by vm_compute].
    intros b Hb. cbn in Hb. assert (b = 100) as -> by lia. by eexists.
Defined.

Lemma static_next_version_agrees_witness :
  let p := mk_bitstring 102 102 102 0 4 in
  let f := app_started (0 : Z) in
  let s := one_task SDR p (mem8 f) 1 in
  exists v s' f' p' sl', static_next_version 1 s = Ok (legacy_of v, s') /\
    @static_next_version_t Z id_supply 1 f = Ok (v, f') /\
    patterns s' !! 1000 = Some p' /\ view f' 1 sl' /\
    bs_curr p' = sl_curr sl' /\ bs_bitpos p' = sl_bit sl'.
Proof.
  destruct (app_started_task (0 : Z) 1 app_sdr eq_refl) as (sl & V & Hte & Hh & Hc).
  pose proof (en_region _ _ (app_started_enrolled (0 : Z)) 1 app_sdr eq_refl) as [Hst Hen].
  assert (sl_start sl = 102) as Hs1.
  { pose proof (vw_start _ _ _ V) as H1. change (Z.to_nat (Z.of_nat 1)) with 1%nat in H1.
    rewrite Hst in H1. injection H1 as H1. symmetry. exact H1. }
  assert (sl_end sl = 102) as Hs2.
  { pose proof (vw_end _ _ _ V) as H1. change (Z.to_nat (Z.of_nat 1)) with 1%nat in H1.
    rewrite Hen in H1. injection H1 as H1. symmetry. exact H1. }
  assert (sl_maxbit sl = 4) as Hs3.
  { destruct (holds_length _ _ _ Hh) as [HL _]. unfold pattern_len in HL.
    rewrite Hs1, Hs2 in HL. change (length (rq_bits app_sdr)) with 5%nat in HL. lia. }
  assert (sl_curr sl = 102 /\ sl_bit sl = 0) as [Hs4 Hs5].
  { destruct Hc as [Hc1 Hc2]. rewrite Hs1 in Hc1. change (place_of _ 0) with 0 in *. split; [exact Hc1|exact Hc2]. }
  apply (@static_next_version_agrees Z id_supply 1 SDR 1000 (mk_bitstring 102 102 102 0 4)
    (rq_bits app_sdr) 0 sl); [split; reflexivity || lia|apply app_started_wf|lia|exact V|reflexivity|exact Hte
    |exact Hs1|exact Hs2|exact Hs3|exact Hs4|exact Hs5|exact Hh|exact Hc].
Defined.
