(* ===== verification/Event.v ===== *)
(** * The event manager

    [rtems/src/event*.c], [systemevent*.c] and [eventimpl.h]: each thread has
    two sets of pending events, one for the application and one for the
    system; a thread receives a combination of events, waiting for it if
    necessary, and interrupts and other threads send events to it.  A receive
    that waits is a sequence of parts with interrupts in between: it notes what
    it waits for, arms the timer, enters the blocked state, and completes the
    blocking operation by a compare-and-swap of the wait flags.  A send and a
    timeout decide with the lock held and unblock the thread afterwards.  Here
    each such part is one operation, and [ev_step] lets them interleave in
    every order. *)

From stdpp Require Import base tactics numbers option list list_numbers gmap fin_maps.
From Stdlib Require Import ZArith Lia.
From S2P Require Import Prelude Chain Status Thread.

Open Scope Z_scope.

#[local] Abbreviation M := (cm thr_system).

(** ** Sets of events and options *)
Definition EVENT_SETS_NONE_PENDING : Z := 0.
Definition RTEMS_WAIT : Z := 0.
Definition RTEMS_NO_WAIT : Z := 1.
Definition RTEMS_EVENT_ALL : Z := 0.
Definition RTEMS_EVENT_ANY : Z := 2.

Definition Options_Is_no_wait (option_set : Z) : bool := negb (Z.land option_set RTEMS_NO_WAIT =? 0).
Definition Options_Is_any (option_set : Z) : bool := negb (Z.land option_set RTEMS_EVENT_ANY =? 0).

Definition Event_sets_Is_empty (the_event_set : Z) : bool := the_event_set =? 0.
Definition Event_sets_Post (the_new_events the_event_set : Z) : Z := Z.lor the_event_set the_new_events.
Definition Event_sets_Get (the_event_set the_event_condition : Z) : Z :=
  Z.land the_event_set the_event_condition.
Definition Event_sets_Clear (the_event_set the_mask : Z) : Z := Z.land the_event_set (Z.lnot the_mask).

(** ** The two event controls of a thread *)
Inductive event_kind := Event | System_event.

#[export] Instance event_kind_eq_dec : EqDecision event_kind.
Proof. solve_decision. Defined.

Definition pending_events (c : event_kind) (th : Thread) : Z :=
  match c with Event => thr_Event th | System_event => thr_System_event th end.
Definition set_pending_events (c : event_kind) (v : Z) (th : Thread) : Thread :=
  match c with Event => set_thr_Event v th | System_event => set_thr_System_event v th end.

(** The wait class and the blocked state that go with a control. *)
Definition wait_class_of (c : event_kind) : Z :=
  match c with Event => THREAD_WAIT_CLASS_EVENT | System_event => THREAD_WAIT_CLASS_SYSTEM_EVENT end.
Definition block_state_of (c : event_kind) : Z :=
  match c with Event => STATES_WAITING_FOR_EVENT | System_event => STATES_WAITING_FOR_SYSTEM_EVENT end.

Definition Event_Initialize (t : Z) (c : event_kind) : M unit :=
  thr_upd t (set_pending_events c EVENT_SETS_NONE_PENDING).

(** ** Receiving *)

(** [_Event_Seize] up to the release of the lock: a status when the receive
    ends here, nothing when the thread goes on to block. *)
Definition Event_Seize_enter (event_in option_set event_out executing : Z) (c : event_kind)
    : M (option rtems_status_code) :=
  pending ← thr_ld executing (pending_events c);
  let seized_events := Event_sets_Get pending event_in in
  if negb (Event_sets_Is_empty seized_events)
     && ((seized_events =? event_in) || Options_Is_any option_set)
  then
    thr_upd executing (set_pending_events c (Event_sets_Clear pending seized_events));;
    stm F_thr_words event_out seized_events;;
    mret (Some RTEMS_SUCCESSFUL)
  else if Options_Is_no_wait option_set then
    stm F_thr_words event_out seized_events;;
    mret (Some RTEMS_UNSATISFIED)
  else
    let intend_to_block := Z.lor (wait_class_of c) THREAD_WAIT_STATE_INTEND_TO_BLOCK in
    thr_upd executing (set_thr_Wait (mk_Wait event_in event_out option_set STATUS_SUCCESSFUL intend_to_block));;
    mret None.

(** The timer of a wait with a timeout. *)
Definition Event_Seize_timer (executing ticks : Z) : M unit :=
  c_if (negb (ticks =? 0)) (Thread_Timer_insert_relative executing ticks).

Definition Event_Seize_block (executing : Z) (c : event_kind) : M unit :=
  Thread_Set_state executing (block_state_of c);; mret tt.

(** The end of the blocking operation: when an event or the timeout came in
    between, the thread does not block. *)
Definition Event_Seize_finish (executing : Z) (c : event_kind) : M unit :=
  success ← Thread_Wait_flags_try_change_acquire executing
              (Z.lor (wait_class_of c) THREAD_WAIT_STATE_INTEND_TO_BLOCK)
              (Z.lor (wait_class_of c) THREAD_WAIT_STATE_BLOCKED);
  c_if (negb success) (Thread_Timer_remove executing;; Thread_Unblock executing).

(** [_Event_Seize] without interrupts: the status of a receive that ends, or
    nothing when the thread is blocked. *)
Definition Event_Seize (event_in option_set ticks event_out executing : Z) (c : event_kind)
    : M (option rtems_status_code) :=
  r ← Event_Seize_enter event_in option_set event_out executing c;
  match r with
  | Some sc => mret (Some sc)
  | None =>
      Event_Seize_timer executing ticks;;
      Event_Seize_block executing c;;
      Event_Seize_finish executing c;;
      mret None
  end.

(** The directives, up to the point where the thread goes on to block. *)
Definition event_receive (c : event_kind) (event_in option_set event_out executing : Z)
    : M (option rtems_status_code) :=
  if negb (event_out =? NULL) then
    if negb (Event_sets_Is_empty event_in) then
      Event_Seize_enter event_in option_set event_out executing c
    else
      pending ← thr_ld executing (pending_events c);
      stm F_thr_words event_out pending;;
      mret (Some RTEMS_SUCCESSFUL)
  else mret (Some RTEMS_INVALID_ADDRESS).

Definition rtems_event_receive (event_in option_set event_out executing : Z)
    : M (option rtems_status_code) := event_receive Event event_in option_set event_out executing.
Definition rtems_event_system_receive (event_in option_set event_out executing : Z)
    : M (option rtems_status_code) := event_receive System_event event_in option_set event_out executing.

(** ** Sending *)
Definition Event_Satisfy (t : Z) (c : event_kind) (pending seized_events : Z) : M unit :=
  thr_upd t (set_pending_events c (Event_sets_Clear pending seized_events));;
  argument ← thr_ld t (fun th => Wait_return_argument (thr_Wait th));
  stm F_thr_words argument seized_events.

Definition Event_Is_blocking_on_event (t wait_class : Z) : M bool :=
  wait_flags ← Thread_Wait_flags_get t;
  let wait_mask := Z.lor THREAD_WAIT_CLASS_MASK THREAD_WAIT_STATE_READY_AGAIN in
  mret (Z.land wait_flags wait_mask =? wait_class).

Definition Event_Is_satisfied (t pending : Z) : M (bool * Z) :=
  option_set ← thr_ld t (fun th => Wait_option (thr_Wait th));
  event_condition ← thr_ld t (fun th => Wait_count (thr_Wait th));
  let seized_events := Event_sets_Get pending event_condition in
  mret (negb (Event_sets_Is_empty seized_events)
        && ((seized_events =? event_condition) || Options_Is_any option_set), seized_events).

(** [_Event_Surrender] with the lock held: whether the thread is to be
    unblocked. *)
Definition Event_Surrender_locked (t event_in : Z) (c : event_kind) : M bool :=
  thr_upd t (fun th => set_pending_events c (Event_sets_Post event_in (pending_events c th)) th);;
  pending ← thr_ld t (pending_events c);
  blocking ← Event_Is_blocking_on_event t (wait_class_of c);
  satisfied ← (if (blocking : bool) then Event_Is_satisfied t pending else mret (false, 0));
  let '(satisfied, seized_events) := satisfied in
  if (satisfied : bool) then
    Event_Satisfy t c pending seized_events;;
    let ready_again := Z.lor (wait_class_of c) THREAD_WAIT_STATE_READY_AGAIN in
    success ← Thread_Wait_flags_try_change_release t
                (Z.lor (wait_class_of c) THREAD_WAIT_STATE_INTEND_TO_BLOCK) ready_again;
    if (success : bool) then mret false
    else Thread_Wait_flags_set t ready_again;; mret true
  else mret false.

Definition Event_Surrender (t event_in : Z) (c : event_kind) : M rtems_status_code :=
  unblock ← Event_Surrender_locked t event_in c;
  c_if unblock (Thread_Timer_remove t;; Thread_Unblock t);;
  mret RTEMS_SUCCESSFUL.

Section Send.
(** The lookup of a thread by its identifier. *)
Variable Thread_Get : Z -> option Z.

Definition event_send (c : event_kind) (id event_in : Z) : M rtems_status_code :=
  match Thread_Get id with
  | None => mret RTEMS_INVALID_ID
  | Some t => Event_Surrender t event_in c
  end.

Definition rtems_event_send (id event_in : Z) : M rtems_status_code := event_send Event id event_in.
Definition rtems_event_system_send (id event_in : Z) : M rtems_status_code :=
  event_send System_event id event_in.
End Send.

(** ** The machine of one thread

    Where the thread is in its receive. *)
Inductive ev_pc :=
| P_idle
| P_entered (c : event_kind) (out ticks : Z)
| P_timed (c : event_kind) (out : Z)
| P_state_set (c : event_kind) (out : Z)
| P_waits (c : event_kind) (out : Z).

(** What a send or a timeout that is to unblock the thread still has to do,
    after it released the lock. *)
Inductive waker := W_remove_timer | W_unblock.

Record ev_config := mk_config { cf_pc : ev_pc; cf_wakers : list waker; cf_sys : thr_system }.

(** What is visible of a step: the call of a receive, with its result when it
    ends at once, the end of a receive that waited, and a send. *)
Inductive ev_label :=
| L_receive (c : event_kind) (event_in option_set ticks out : Z) (r : option (rtems_status_code * option Z))
| L_return (r : rtems_status_code * option Z)
| L_send (c : event_kind) (event_in : Z)
| L_silent.

(** The result of a receive: its status, and the events at [*event_out] when
    the status says that they were written. *)
Definition result_at (s : thr_system) (sc : rtems_status_code) (out : Z) : rtems_status_code * option Z :=
  (sc, if bool_decide (sc = RTEMS_SUCCESSFUL \/ sc = RTEMS_UNSATISFIED) then thr_words s !! out else None).

(** The result argument of a receive is NULL or points to a word. *)
Definition valid_out (s : thr_system) (out : Z) : Prop := out = NULL \/ is_Some (thr_words s !! out).

Inductive ev_step (t : Z) : ev_config -> ev_label -> ev_config -> Prop :=
| ES_receive c ein opt ticks out ws s sc s' :
    valid_out s out -> event_receive c ein opt out t s = Ok (Some sc, s') ->
    ev_step t (mk_config P_idle ws s) (L_receive c ein opt ticks out (Some (result_at s' sc out)))
      (mk_config P_idle ws s')
| ES_receive_waits c ein opt ticks out ws s s' :
    valid_out s out -> event_receive c ein opt out t s = Ok (None, s') ->
    ev_step t (mk_config P_idle ws s) (L_receive c ein opt ticks out None)
      (mk_config (P_entered c out ticks) ws s')
| ES_timer c out ticks ws s s' :
    Event_Seize_timer t ticks s = Ok (tt, s') ->
    ev_step t (mk_config (P_entered c out ticks) ws s) L_silent (mk_config (P_timed c out) ws s')
| ES_block c out ws s s' :
    Event_Seize_block t c s = Ok (tt, s') ->
    ev_step t (mk_config (P_timed c out) ws s) L_silent (mk_config (P_state_set c out) ws s')
| ES_finish c out ws s s' :
    Event_Seize_finish t c s = Ok (tt, s') ->
    ev_step t (mk_config (P_state_set c out) ws s) L_silent (mk_config (P_waits c out) ws s')
| ES_return c out ws s th sc s' :
    thr_table s !! t = Some th -> thr_state th = STATES_READY ->
    Status_Get_after_wait t s = Ok (sc, s') ->
    ev_step t (mk_config (P_waits c out) ws s) (L_return (result_at s' sc out)) (mk_config P_idle ws s')
| ES_send c ein pc ws s unblock s' :
    Event_Surrender_locked t ein c s = Ok (unblock, s') ->
    ev_step t (mk_config pc ws s) (L_send c ein)
      (mk_config pc (if (unblock : bool) then ws ++ [W_remove_timer] else ws) s')
| ES_expire pc ws s th ticks s1 unblock s' :
    thr_table s !! t = Some th -> thr_Timer th = Some ticks ->
    thr_upd t (set_thr_Timer None) s = Ok (tt, s1) ->
    Thread_Timeout_locked t s1 = Ok (unblock, s') ->
    ev_step t (mk_config pc ws s) L_silent
      (mk_config pc (if (unblock : bool) then ws ++ [W_unblock] else ws) s')
| ES_remove_timer pc ws1 ws2 s s' :
    Thread_Timer_remove t s = Ok (tt, s') ->
    ev_step t (mk_config pc (ws1 ++ W_remove_timer :: ws2) s) L_silent
      (mk_config pc (ws1 ++ W_unblock :: ws2) s')
| ES_unblock pc ws1 ws2 s s' :
    Thread_Unblock t s = Ok (tt, s') ->
    ev_step t (mk_config pc (ws1 ++ W_unblock :: ws2) s) L_silent (mk_config pc (ws1 ++ ws2) s')
| ES_suspend pc ws s p s' :
    Thread_Set_state t STATES_SUSPENDED s = Ok (p, s') ->
    ev_step t (mk_config pc ws s) L_silent (mk_config pc ws s')
| ES_resume pc ws s p s' :
    Thread_Clear_state t STATES_SUSPENDED s = Ok (p, s') ->
    ev_step t (mk_config pc ws s) L_silent (mk_config pc ws s').

(** ** The abstract event manager

    A receive is one atomic step, a send another; nothing can come in
    between. *)
Inductive a_status :=
| A_idle
| A_waiting (c : event_kind) (event_in option_set : Z) (timed : bool)
| A_done (r : rtems_status_code * option Z).

Record a_events := mk_a_events { a_pending : event_kind -> Z; a_stat : a_status }.

Definition satisfies (pending event_in option_set : Z) : bool :=
  negb (Z.land pending event_in =? 0)
  && ((Z.land pending event_in =? event_in) || Options_Is_any option_set).

Definition with_pending (c : event_kind) (v : Z) (p : event_kind -> Z) : event_kind -> Z :=
  fun c' => if decide (c' = c) then v else p c'.

Definition a_send (c : event_kind) (e : Z) (a : a_events) : a_events :=
  let p := Z.lor (a_pending a c) e in
  match a_stat a with
  | A_waiting c' ein opt timed =>
      if bool_decide (c' = c) && satisfies p ein opt
      then mk_a_events (with_pending c (Z.ldiff p ein) (a_pending a))
             (A_done (RTEMS_SUCCESSFUL, Some (Z.land p ein)))
      else mk_a_events (with_pending c p (a_pending a)) (a_stat a)
  | _ => mk_a_events (with_pending c p (a_pending a)) (a_stat a)
  end.

(** A receive: the result when it ends at once, and the new state. *)
Definition a_receive (c : event_kind) (ein opt ticks out : Z) (a : a_events)
    : option (rtems_status_code * option Z) * a_events :=
  let p := a_pending a c in
  if out =? NULL then (Some (RTEMS_INVALID_ADDRESS, None), a)
  else if ein =? 0 then (Some (RTEMS_SUCCESSFUL, Some p), a)
  else if satisfies p ein opt then
    (Some (RTEMS_SUCCESSFUL, Some (Z.land p ein)),
     mk_a_events (with_pending c (Z.ldiff p ein) (a_pending a)) (a_stat a))
  else if Options_Is_no_wait opt then (Some (RTEMS_UNSATISFIED, Some (Z.land p ein)), a)
  else (None, mk_a_events (a_pending a) (A_waiting c ein opt (negb (ticks =? 0)))).

Inductive a_step : a_events -> ev_label -> a_events -> Prop :=
| AS_send c e a : a_step a (L_send c e) (a_send c e a)
| AS_receive c ein opt ticks out a r a' :
    a_stat a = A_idle -> a_receive c ein opt ticks out a = (r, a') ->
    a_step a (L_receive c ein opt ticks out r) a'
| AS_timeout a c ein opt :
    a_stat a = A_waiting c ein opt true ->
    a_step a L_silent (mk_a_events (a_pending a) (A_done (RTEMS_TIMEOUT, None)))
| AS_return a r :
    a_stat a = A_done r -> a_step a (L_return r) (mk_a_events (a_pending a) A_idle).

(** Runs with their visible labels. *)
Section Runs.
Context {St : Type} (step : St -> ev_label -> St -> Prop).

Inductive ev_run : St -> list ev_label -> St -> Prop :=
| run_nil s : ev_run s [] s
| run_silent s s1 tr s2 : step s L_silent s1 -> ev_run s1 tr s2 -> ev_run s tr s2
| run_visible s l s1 tr s2 : l <> L_silent -> step s l s1 -> ev_run s1 tr s2 -> ev_run s (l :: tr) s2.
End Runs.
