(* ===== verification/EventFacts.v ===== *)
(** * The event manager: simulation

    The interleaved parts of the code implement the atomic event manager
    [a_step]: [sim] relates a configuration of the code to a state of the
    atomic machine, and every step of the code is a step of it or none. *)

From stdpp Require Import base tactics numbers option list list_numbers gmap fin_maps.
From Stdlib Require Import ZArith Lia.
From S2P Require Import Prelude Chain Status Thread Event.

Open Scope Z_scope.

#[local] Abbreviation M := (cm thr_system).

(** ** Bits *)
Lemma clear_seized p e : Event_sets_Clear p (Z.land p e) = Z.ldiff p e.
Proof.
  unfold Event_sets_Clear. apply Z.bits_inj'. intros n Hn.
  rewrite Z.land_spec, Z.lnot_spec, Z.land_spec, Z.ldiff_spec by done.
  by destruct (Z.testbit p n), (Z.testbit e n).
Qed.

(** The state word of a thread that waits for events or not, suspended or
    not. *)
Definition state_word (w : option event_kind) (susp : bool) : Z :=
  Z.lor (if w is Some c then block_state_of c else 0) (if susp then STATES_SUSPENDED else 0).

Lemma state_word_block c susp : States_Set (block_state_of c) (state_word None susp) = state_word (Some c) susp.
Proof. by destruct c, susp. Qed.
Lemma state_word_unblock w susp : States_Clear STATES_BLOCKED (state_word w susp) = state_word None susp.
Proof. by destruct w as [[]|], susp. Qed.
Lemma state_word_suspend w susp : States_Set STATES_SUSPENDED (state_word w susp) = state_word w true.
Proof. by destruct w as [[]|], susp. Qed.
Lemma state_word_resume w susp : States_Clear STATES_SUSPENDED (state_word w susp) = state_word w false.
Proof. by destruct w as [[]|], susp. Qed.
Lemma state_word_ready w susp : state_word w susp = STATES_READY <-> w = None /\ susp = false.
Proof. destruct w as [[]|], susp; cbn; split; intros; naive_solver. Qed.

(** ** Runs of the operations *)
Lemma pending_set c c' v th :
  pending_events c' (set_pending_events c v th) = if decide (c' = c) then v else pending_events c' th.
Proof. by destruct c, c'. Qed.

Lemma surrender_run t th e c s :
  thr_table s !! t = Some th ->
  let w := thr_Wait th in
  let p := Z.lor (pending_events c th) e in
  let flags := Wait_flags w in
  (Z.land flags 65284 = wait_class_of c /\ satisfies p (Wait_count w) (Wait_option w) = true ->
     is_Some (thr_words s !! Wait_return_argument w) ->
     Event_Surrender_locked t e c s =
       Ok (negb (flags =? Z.lor (wait_class_of c) 1),
           mk_thr_system
             (<[t := map_Wait (set_Wait_flags (Z.lor (wait_class_of c) 4))
                  (set_pending_events c (Z.ldiff p (Wait_count w)) th)]> (thr_table s))
             (thr_ready s) (<[Wait_return_argument w := Z.land p (Wait_count w)]> (thr_words s)))) /\
  (~ (Z.land flags 65284 = wait_class_of c /\ satisfies p (Wait_count w) (Wait_option w) = true) ->
     Event_Surrender_locked t e c s =
       Ok (false, set_thr_table (<[t := set_pending_events c p th]> (thr_table s)) s)).
Proof.
  intros Ht w p flags. unfold Event_Surrender_locked. rewrite (thr_upd_bind _ th) by done.
  unfold Event_sets_Post. fold p.
  set (th1 := set_pending_events c p th). set (s1 := set_thr_table _ s).
  assert (H1 : thr_table s1 !! t = Some th1) by apply lookup_insert_eq.
  assert (HW : thr_Wait th1 = w) by (by destruct c).
  rewrite (thr_ld_bind _ th1) by done. cbv beta.
  assert (Hp : pending_events c th1 = p) by (by destruct c).
  unfold Event_Is_blocking_on_event, Thread_Wait_flags_get.
  rewrite !cm_bind_assoc, (thr_ld_bind _ th1) by done. rewrite ret_bind, HW, Hp.
  change (Z.lor THREAD_WAIT_CLASS_MASK THREAD_WAIT_STATE_READY_AGAIN) with 65284. fold flags.
  assert (Hsat : forall B (k : bool * Z -> M B),
    (x ← Event_Is_satisfied t p; k x) s1 = k (satisfies p (Wait_count w) (Wait_option w), Z.land p (Wait_count w)) s1).
  { intros B k. unfold Event_Is_satisfied. rewrite cm_bind_assoc, (thr_ld_bind _ th1) by done.
    rewrite cm_bind_assoc, (thr_ld_bind _ th1) by done. by rewrite ret_bind, HW. }
  split.
  - intros [Hb Hs] Hout. rewrite Hb, Z.eqb_refl, Hsat, Hs. unfold Event_Satisfy.
    rewrite !cm_bind_assoc, (thr_upd_bind _ th1) by done.
    unfold Event_sets_Get. rewrite clear_seized.
    set (th2 := set_pending_events c _ th1). set (s2 := set_thr_table _ s1).
    assert (H2 : thr_table s2 !! t = Some th2) by apply lookup_insert_eq.
    rewrite cm_bind_assoc, (thr_ld_bind _ th2) by done.
    assert (HW2 : thr_Wait th2 = w) by (by destruct c). rewrite HW2.
    rewrite stm_bind by done. set (s3 := fset F_thr_words _ s2).
    rewrite (try_change_bind _ th2) by done. rewrite HW2. fold flags.
    change (Z.lor (wait_class_of c) THREAD_WAIT_STATE_INTEND_TO_BLOCK) with (Z.lor (wait_class_of c) 1).
    assert (Hth : map_Wait (set_Wait_flags (Z.lor (wait_class_of c) 4)) th2 =
                  map_Wait (set_Wait_flags (Z.lor (wait_class_of c) 4)) (set_pending_events c (Z.ldiff p (Wait_count w)) th))
      by (by destruct c).
    destruct (flags =? _); cbn [negb].
    + rewrite cm_ret_run. f_equal. f_equal. cbn. rewrite !insert_insert_eq. unfold set_thr_table. cbn.
      f_equal. f_equal. done.
    + unfold Thread_Wait_flags_set. rewrite (thr_upd_bind _ th2) by done. rewrite cm_ret_run.
      f_equal. f_equal. cbn. rewrite !insert_insert_eq. unfold set_thr_table. cbn. f_equal. f_equal. done.
  - intros Hn. destruct (Z.eqb_spec (Z.land flags 65284) (wait_class_of c)) as [Hb|Hb]; [|by rewrite ret_bind].
    rewrite Hsat. destruct (satisfies p (Wait_count w) (Wait_option w)) eqn:Hs; [tauto|done].
Qed.

Lemma timeout_run t th s :
  thr_table s !! t = Some th ->
  let flags := Wait_flags (thr_Wait th) in
  let cls := Z.land flags 65280 in
  let th' := set_thr_Wait (set_Wait_flags (Z.lor cls 4) (set_Wait_return_code STATUS_TIMEOUT (thr_Wait th))) th in
  (Z.land flags 4 = 0 ->
     Thread_Timeout_locked t s =
       Ok (negb (flags =? Z.lor cls 1), set_thr_table (<[t := th']> (thr_table s)) s)) /\
  (Z.land flags 4 <> 0 -> Thread_Timeout_locked t s = Ok (false, s)).
Proof.
  intros Ht flags cls th'. unfold Thread_Timeout_locked, Thread_Wait_flags_get.
  rewrite (thr_ld_bind _ th) by done. cbv beta. fold flags.
  change THREAD_WAIT_STATE_READY_AGAIN with 4. change THREAD_WAIT_CLASS_MASK with 65280. split; intros Hf.
  - rewrite Hf. cbn [Z.eqb]. rewrite (thr_upd_bind _ th) by done. cbv zeta. fold cls.
    set (th1 := map_Wait _ th). set (s1 := set_thr_table _ s).
    assert (H1 : thr_table s1 !! t = Some th1) by apply lookup_insert_eq.
    rewrite (try_change_bind _ th1) by done.
    change (Wait_flags (thr_Wait th1)) with flags. change THREAD_WAIT_STATE_INTEND_TO_BLOCK with 1.
    assert (Hth : map_Wait (set_Wait_flags (Z.lor cls 4)) th1 = th') by done.
    destruct (flags =? _); cbn [negb].
    + rewrite cm_ret_run. unfold s1, set_thr_table. cbn. by rewrite insert_insert_eq, Hth.
    + unfold Thread_Wait_flags_set. rewrite (thr_upd_bind _ th1) by done. rewrite cm_ret_run.
      unfold s1, set_thr_table. cbn. by rewrite insert_insert_eq, Hth.
  - by rewrite (proj2 (Z.eqb_neq _ _) Hf).
Qed.

(** The scheduler knows exactly the ready threads. *)
Definition scheduled t th s : Prop := t ∈ thr_ready s <-> thr_state th = STATES_READY.

Lemma set_state_steps t th state s :
  thr_table s !! t = Some th -> scheduled t th s ->
  States_Is_ready (States_Set state (thr_state th)) = false ->
  exists s' p, Thread_Set_state t state s = Ok (p, s') /\
    thr_table s' = <[t := set_thr_state (States_Set state (thr_state th)) th]> (thr_table s) /\
    thr_words s' = thr_words s /\
    scheduled t (set_thr_state (States_Set state (thr_state th)) th) s'.
Proof.
  intros Ht Hs Hr. unfold Thread_Set_state. rewrite (thr_ld_bind _ th) by done. cbv zeta.
  rewrite (thr_upd_bind _ th) by done. unfold States_Is_ready in *. apply Z.eqb_neq in Hr.
  destruct (Z.eqb_spec (thr_state th) STATES_READY) as [He|He]; cbn [c_if];
    (eexists _, _; split; [reflexivity|]); split_and!; try done; unfold scheduled in *; cbn in *; set_solver.
Qed.

Lemma clear_state_steps t th state s :
  thr_table s !! t = Some th -> scheduled t th s ->
  exists s' p, Thread_Clear_state t state s = Ok (p, s') /\
    thr_table s' = <[t := set_thr_state (States_Clear state (thr_state th)) th]> (thr_table s) /\
    thr_words s' = thr_words s /\
    scheduled t (set_thr_state (States_Clear state (thr_state th)) th) s'.
Proof.
  intros Ht Hs. unfold Thread_Clear_state. rewrite (thr_ld_bind _ th) by done. cbv zeta.
  destruct (Z.eqb_spec (Z.land (thr_state th) state) 0) as [He|He]; cbn [negb c_if].
  - assert (Hsame : States_Clear state (thr_state th) = thr_state th).
    { unfold States_Clear. apply Z.bits_inj'. intros n Hn. apply (f_equal (fun z => Z.testbit z n)) in He.
      rewrite Z.land_spec, Z.bits_0 in He. rewrite Z.land_spec, Z.lnot_spec by done.
      by destruct (Z.testbit (thr_state th) n), (Z.testbit state n). }
    rewrite Hsame. assert (Hth : set_thr_state (thr_state th) th = th) by (by destruct th). rewrite Hth.
    eexists _, _. split; [reflexivity|]. split_and!; try done. by rewrite insert_id.
  - rewrite !cm_bind_assoc, (thr_upd_bind _ th) by done.
    destruct (States_Is_ready _) eqn:Hr; unfold States_Is_ready in Hr; cbn [c_if];
      (eexists _, _; split; [reflexivity|]); split_and!; try done; unfold scheduled in *; cbn in *.
    + apply Z.eqb_eq in Hr. set_solver.
    + apply Z.eqb_neq in Hr. split; [|done]. intros Hin. apply Hs in Hin. rewrite Hin in He. by destruct state.
Qed.

(** ** The simulation relation *)

(** The part of a receive a thread is in: the flags while nothing has
    happened yet, and whether it has the blocked state. *)
Definition phase_of (pc : ev_pc) : option (event_kind * Z * Z * bool) :=
  match pc with
  | P_idle => None
  | P_entered c out _ | P_timed c out => Some (c, out, THREAD_WAIT_STATE_INTEND_TO_BLOCK, false)
  | P_state_set c out => Some (c, out, THREAD_WAIT_STATE_INTEND_TO_BLOCK, true)
  | P_waits c out => Some (c, out, THREAD_WAIT_STATE_BLOCKED, true)
  end.

(** The timer: armed only by a wait with a timeout, after the entry. *)
Definition timer_ok (pc : ev_pc) (timed : bool) (th : Thread) : Prop :=
  match pc with
  | P_entered _ _ ticks => thr_Timer th = None /\ timed = negb (ticks =? 0)
  | _ => is_Some (thr_Timer th) -> timed = true
  end.

(** How a receive ends, as the wait information and the memory tell. *)
Inductive outcome_is (th : Thread) (words : gmap Z Z) (out : Z) : rtems_status_code * option Z -> Prop :=
| outcome_events v :
    Wait_return_code (thr_Wait th) = STATUS_SUCCESSFUL -> words !! out = Some v ->
    outcome_is th words out (RTEMS_SUCCESSFUL, Some v)
| outcome_timeout :
    Wait_return_code (thr_Wait th) = STATUS_TIMEOUT -> outcome_is th words out (RTEMS_TIMEOUT, None).

(** A thread whose wait is over, or that never waited for events. *)
Definition not_waiting (th : Thread) : Prop :=
  forall c, Z.land (Wait_flags (thr_Wait th)) 65284 <> wait_class_of c.

Definition blocked_on (c : event_kind) (b : bool) : option event_kind := if b then Some c else None.

Inductive rel (th : Thread) (words : gmap Z Z) (susp : bool) : ev_pc -> list waker -> a_status -> Prop :=
| R_idle :
    not_waiting th -> thr_Timer th = None -> thr_state th = state_word None susp ->
    rel th words susp P_idle [] A_idle
| R_waits pc c out st b ein opt timed :
    phase_of pc = Some (c, out, st, b) ->
    thr_Wait th = mk_Wait ein out opt STATUS_SUCCESSFUL (Z.lor (wait_class_of c) st) ->
    is_Some (words !! out) -> timer_ok pc timed th ->
    thr_state th = state_word (blocked_on c b) susp ->
    satisfies (pending_events c th) ein opt = false ->
    rel th words susp pc [] (A_waiting c ein opt timed)
| R_done pc ws c out st b r :
    phase_of pc = Some (c, out, st, b) ->
    Wait_flags (thr_Wait th) = Z.lor (wait_class_of c) THREAD_WAIT_STATE_READY_AGAIN ->
    outcome_is th words out r ->
    (if bool_decide (st = THREAD_WAIT_STATE_BLOCKED) then
       match ws with
       | [] => thr_Timer th = None /\ thr_state th = state_word None susp
       | [W_remove_timer] => thr_state th = state_word (Some c) susp
       | [W_unblock] => thr_Timer th = None /\ thr_state th = state_word (Some c) susp
       | _ => False
       end
     else ws = [] /\ thr_state th = state_word (blocked_on c b) susp) ->
    rel th words susp pc ws (A_done r).

Record sim (t : Z) (susp : bool) (cf : ev_config) (a : a_events) : Prop := {
  sim_thread : exists th, thr_table (cf_sys cf) !! t = Some th /\ scheduled t th (cf_sys cf) /\
    (forall c, pending_events c th = a_pending a c) /\
    rel th (thr_words (cf_sys cf)) susp (cf_pc cf) (cf_wakers cf) (a_stat a)
}.

(** A step of the code is a step of the atomic machine, or nothing. *)
Definition matched (t : Z) (susp : bool) (l : ev_label) (cf : ev_config) (a : a_events) : Prop :=
  exists a', (a_step a l a' \/ (l = L_silent /\ a' = a)) /\ sim t susp cf a'.

Lemma matched_silent t susp cf a : sim t susp cf a -> matched t susp L_silent cf a.
Proof. intros. exists a. auto. Qed.

Lemma with_pending_same c v p : with_pending c v p c = v.
Proof. unfold with_pending. by rewrite decide_True. Qed.

Lemma not_waiting_ready th c :
  Wait_flags (thr_Wait th) = Z.lor (wait_class_of c) THREAD_WAIT_STATE_READY_AGAIN -> not_waiting th.
Proof. intros Hf c'. rewrite Hf. by destruct c, c'. Qed.

Lemma flags_class c st :
  st = THREAD_WAIT_STATE_INTEND_TO_BLOCK \/ st = THREAD_WAIT_STATE_BLOCKED ->
  forall c', Z.land (Z.lor (wait_class_of c) st) 65284 = wait_class_of c' <-> c' = c.
Proof. intros [-> | ->] c'; destruct c, c'; split; intros; try done; by vm_compute in *. Qed.

Lemma phase_state pc c out st b :
  phase_of pc = Some (c, out, st, b) ->
  st = THREAD_WAIT_STATE_INTEND_TO_BLOCK \/ st = THREAD_WAIT_STATE_BLOCKED.
Proof. destruct pc; intros; simplify_eq/=; auto. Qed.

(** ** Sends *)

(** Events that end no wait are only posted. *)
Lemma post_keeps t pc ws th s susp c v ap as_ :
  scheduled t th s -> (forall c', pending_events c' th = ap c') ->
  rel th (thr_words s) susp pc ws as_ ->
  (forall ein opt timed, as_ = A_waiting c ein opt timed -> satisfies v ein opt = false) ->
  sim t susp (mk_config pc ws (set_thr_table (<[t := set_pending_events c v th]> (thr_table s)) s))
    (mk_a_events (with_pending c v ap) as_).
Proof.
  intros Hs Hp HR Hsat. split. exists (set_pending_events c v th). cbn [cf_sys cf_pc cf_wakers a_pending a_stat thr_words set_thr_table thr_table].
  rewrite lookup_insert_eq. split_and!; [done|by destruct c| |].
  - intros c'. rewrite pending_set. unfold with_pending. by case_decide.
  - destruct HR as [Hnw Htm Hst | pc c0 out st b ein opt timed Hph HW Hout Htm Hst Hs0
      | pc ws c0 out st b r Hph Hfl Hout Hrest].
    + by constructor; destruct c.
    + econstructor; [exact Hph|by destruct c|done| |by destruct c|].
      * destruct pc; by destruct c.
      * rewrite pending_set. case_decide as Hc; [subst; by eapply Hsat|done].
    + econstructor; [exact Hph|by destruct c| |].
      * destruct Hout; econstructor; by destruct c.
      * by destruct c.
Qed.

Lemma send_sim t susp pc ws s c e a :
  sim t susp (mk_config pc ws s) a ->
  exists (unblock : bool) s', Event_Surrender_locked t e c s = Ok (unblock, s') /\
    sim t susp (mk_config pc (if unblock then ws ++ [W_remove_timer] else ws) s') (a_send c e a).
Proof.
  intros [(th & Ht & Hs & Hp & HR)]. destruct a as [ap as_]. cbn in *.
  destruct (surrender_run t th e c s Ht) as [Hyes Hno]. cbn in Hyes, Hno.
  rewrite Hp in Hyes, Hno. set (p := Z.lor (ap c) e) in *. unfold a_send. cbn [a_pending a_stat]. fold p.
  assert (Hpost := post_keeps t pc ws th s susp c p ap as_ Hs Hp HR).
  destruct HR as [Hnw Htm Hst | pc c0 out st b ein opt timed Hph HW Hout Htm Hst Hsat
    | pc ws c0 out st b r Hph Hfl Hout Hrest].
  - eexists false, _. split; [apply Hno; intros [H1 _]; by destruct (Hnw c)|]. by apply Hpost.
  - rewrite HW in Hyes, Hno. cbn in Hyes, Hno.
    assert (Hfl := flags_class c0 st (phase_state _ _ _ _ _ Hph) c).
    destruct (bool_decide (c0 = c) && satisfies p ein opt) eqn:Hd.
    + apply andb_prop in Hd as [->%bool_decide_eq_true Hd].
      eexists _, _. split; [apply Hyes; [split; [by apply Hfl|done]|done]|].
      split. eexists _. cbn. rewrite lookup_insert_eq. split_and!; [done|by destruct c| |].
      * intros c'. unfold with_pending. destruct c, c'; cbn; try done; by rewrite <- Hp.
      * assert (Hfs : (Z.lor (wait_class_of c) st =? Z.lor (wait_class_of c) 1) =
                      bool_decide (st = THREAD_WAIT_STATE_INTEND_TO_BLOCK)).
        { destruct (phase_state _ _ _ _ _ Hph) as [-> | ->]; by destruct c. }
        rewrite Hfs. eapply (R_done _ _ _ _ _ c out st b); [exact Hph|by destruct c| |].
        -- econstructor; [destruct c; cbn; by rewrite HW|apply lookup_insert_eq].
        -- destruct (phase_state _ _ _ _ _ Hph) as [-> | ->]; cbn; [by destruct c|].
           destruct pc; simplify_eq/=. by destruct c.
    + eexists false, _. split.
      * apply Hno. intros [->%Hfl H2]. rewrite bool_decide_true in Hd by done. by rewrite H2 in Hd.
      * apply Hpost. intros ein' opt' timed' ?. simplify_eq. by rewrite bool_decide_true in Hd.
  - eexists false, _. split; [apply Hno; intros [H1 _]; by destruct (not_waiting_ready _ _ Hfl c)|].
    apply Hpost. done.
Qed.

(** ** Timeouts *)
Lemma expire_sim t susp pc ws s th ticks s1 unblock s' a :
  sim t susp (mk_config pc ws s) a -> thr_table s !! t = Some th -> thr_Timer th = Some ticks ->
  thr_upd t (set_thr_Timer None) s = Ok (tt, s1) -> Thread_Timeout_locked t s1 = Ok (unblock, s') ->
  matched t susp L_silent (mk_config pc (if (unblock : bool) then ws ++ [W_unblock] else ws) s') a.
Proof.
  intros [(th' & Ht' & Hs & Hp & HR)] Ht Htick Hupd Hrun. destruct a as [ap as_]. cbn in *. rewrite Ht in Ht'. injection Ht' as <-.
  rewrite (thr_upd_run _ th) in Hupd by done. injection Hupd as <-.
  set (th1 := set_thr_Timer None th) in *. set (s1 := set_thr_table _ s) in *.
  assert (H1 : thr_table s1 !! t = Some th1) by apply lookup_insert_eq.
  destruct (timeout_run t th1 s1 H1) as [Hyes Hno]. cbn in Hyes, Hno.
  destruct HR as [Hnw Htm Hst | pc c out st b ein opt timed Hph HW Hout Htm Hst Hsat
    | pc ws c out st b r Hph Hfl Hout Hrest].
  - congruence.
  - assert (Htimed : timed = true).
    { destruct pc; cbn in *; try (apply Htm; eauto). destruct Htm. congruence. }
    assert (Hf : Wait_flags (thr_Wait th) = Z.lor (wait_class_of c) st) by by rewrite HW.
    destruct (phase_state _ _ _ _ _ Hph) as [Hst1|Hst1];
      (rewrite Hyes in Hrun; [|by rewrite Hf, Hst1; destruct c]); injection Hrun as <- <-;
      (eexists; split; [left; eapply AS_timeout; cbn; by rewrite Htimed|]);
      split; eexists _; cbn; rewrite lookup_insert_eq;
      (split_and!; [done|done|intros c'; cbn; by rewrite <- Hp; destruct c'|]);
      (eapply (R_done _ _ _ _ _ c out st b); [done|cbn; by rewrite Hf, Hst1; destruct c|by constructor|]);
      rewrite Hf, Hst1; destruct c; cbn; try done.
    all: destruct pc; by simplify_eq/=.
  - rewrite Hno in Hrun by (rewrite Hfl; by destruct c). injection Hrun as <- <-. apply matched_silent.
    split. eexists _. split_and!; [exact H1|done| |].
    + intros c'. cbn. rewrite <- Hp. by destruct c'.
    + cbn. eapply (R_done _ _ _ _ _ c out st b); [done|done| |].
      * destruct Hout; by econstructor.
      * destruct (bool_decide _); [|done]. destruct ws as [|[] []]; cbn; try done; tauto.
Qed.

(** ** The receive *)
Lemma receive_sim t susp ws s c ein opt ticks out r s' a :
  sim t susp (mk_config P_idle ws s) a -> valid_out s out -> event_receive c ein opt out t s = Ok (r, s') ->
  matched t susp (L_receive c ein opt ticks out (match r with Some sc => Some (result_at s' sc out) | None => None end))
    (mk_config (match r with Some _ => P_idle | None => P_entered c out ticks end) ws s') a.
Proof.
  intros [(th & Ht & Hs & Hp & HR)] Hout Hrun. destruct a as [ap as_]. cbn in *.
  inversion HR as [Hnw Htm Hst| |]; [|done|done]. subst.
  unfold event_receive in Hrun. unfold matched.
  enough (a_receive c ein opt ticks out (mk_a_events ap A_idle) =
    (match r with Some sc => Some (result_at s' sc out) | None => None end,
     snd (a_receive c ein opt ticks out (mk_a_events ap A_idle))) /\
    sim t susp (mk_config (match r with Some _ => P_idle | None => P_entered c out ticks end) [] s')
      (snd (a_receive c ein opt ticks out (mk_a_events ap A_idle)))) as [He Hsim].
  { eexists. split; [left|exact Hsim]. by constructor. }
  unfold a_receive. cbn [a_pending a_stat].
  destruct (Z.eqb_spec out NULL) as [->|Hnull]; cbn [negb] in Hrun.
  { cbn in Hrun. injection Hrun as <- <-. cbn. split; [done|]. split. by exists th. }
  destruct Hout as [?|Hout]; [done|].
  unfold Event_sets_Is_empty in Hrun. destruct (Z.eqb_spec ein 0) as [->|Hein]; cbn [negb] in Hrun.
  { rewrite (thr_ld_bind _ th) in Hrun by done. rewrite stm_bind in Hrun by done.
    injection Hrun as <- <-. cbn. unfold result_at. cbn. rewrite lookup_insert_eq, Hp. split; [done|].
    split. exists th. split_and!; try done. by constructor. }
  unfold Event_Seize_enter in Hrun. rewrite (thr_ld_bind _ th) in Hrun by done.
  unfold Event_sets_Get, Event_sets_Is_empty in Hrun. cbv zeta in Hrun. rewrite Hp in Hrun.
  unfold satisfies. destruct (negb (Z.land (ap c) ein =? 0) && _) eqn:Hsat.
  { rewrite clear_seized, (thr_upd_bind _ th) in Hrun by done. rewrite stm_bind in Hrun by done.
    injection Hrun as <- <-. cbn. unfold result_at. cbn. rewrite lookup_insert_eq. split; [done|].
    split. eexists _. cbn. rewrite lookup_insert_eq. split_and!; [done|by destruct c| |].
    - intros c'. rewrite pending_set. unfold with_pending. by case_decide.
    - by constructor; destruct c. }
  destruct (Options_Is_no_wait opt).
  { rewrite stm_bind in Hrun by done. injection Hrun as <- <-. cbn. unfold result_at. cbn.
    rewrite lookup_insert_eq. split; [done|]. split. exists th. split_and!; try done. by constructor. }
  rewrite (thr_upd_bind _ th) in Hrun by done. injection Hrun as <- <-. cbn. split; [done|].
  split. eexists _. cbn. rewrite lookup_insert_eq. split_and!; [done|done| |].
  - intros c'. cbn. rewrite <- Hp. by destruct c'.
  - econstructor; cbn; try done. rewrite <- Hp in Hsat. unfold satisfies. by destruct c.
Qed.

Lemma timer_sim t susp c out ticks ws s s' a :
  sim t susp (mk_config (P_entered c out ticks) ws s) a -> Event_Seize_timer t ticks s = Ok (tt, s') ->
  sim t susp (mk_config (P_timed c out) ws s') a.
Proof.
  intros [(th & Ht & Hs & Hp & HR)] Hrun. cbn in *. unfold Event_Seize_timer in Hrun.
  assert (Hnew : exists v, (thr_Timer th = None -> is_Some v -> ticks <> 0) /\
    thr_table s' = <[t := set_thr_Timer v th]> (thr_table s) /\
    thr_ready s' = thr_ready s /\ thr_words s' = thr_words s).
  { destruct (Z.eqb_spec ticks 0) as [->|Hz]; cbn in Hrun.
    - injection Hrun as <-. exists (thr_Timer th). rewrite insert_id by (by destruct th).
      split; [|done]. intros ->. by intros [? ?].
    - unfold Thread_Timer_insert_relative in Hrun. rewrite (thr_upd_run _ th) in Hrun by done.
      injection Hrun as <-. by exists (Some ticks). }
  destruct Hnew as (v & Hv & Hth & Hrd & Hwd).
  split. exists (set_thr_Timer v th). cbn. rewrite Hth, lookup_insert_eq, Hwd. split_and!; [done| | |].
  - unfold scheduled in *. by rewrite Hrd.
  - intros c'. rewrite <- Hp. by destruct c'.
  - inversion HR as [|pc c0 out0 st b ein opt timed Hph HW Hout Htm Hst Hsat Hpc Hws Has|
      pc ws0 c0 out0 st b r Hph Hfl Hout Hrest Hpc Hws Has]; simplify_eq/=.
    + destruct Htm as [Htm1 ->]. eapply R_waits; cbn; try done.
      intros Hv'. rewrite (proj2 (Z.eqb_neq _ _)); [done|]. by apply Hv.
    + econstructor; cbn; try done. destruct Hout; by econstructor.
Qed.

Lemma block_sim t susp c out ws s s' a :
  sim t susp (mk_config (P_timed c out) ws s) a -> Event_Seize_block t c s = Ok (tt, s') ->
  sim t susp (mk_config (P_state_set c out) ws s') a.
Proof.
  intros [(th & Ht & Hs & Hp & HR)] Hrun. cbn in *. unfold Event_Seize_block in Hrun.
  assert (Hst : thr_state th = state_word None susp).
  { inversion HR as [|? ? ? ? ? ? ? ? Hph|? ? ? ? ? ? ? Hph ? ? Hrest]; subst; try done;
      injection Hph as <- <- <- <-; [done|]. apply Hrest. }
  destruct (set_state_steps t th (block_state_of c) s Ht Hs) as (s1 & p & Hr & Hth & Hwd & Hsc).
  { rewrite Hst, state_word_block. by destruct c, susp. }
  rewrite (cm_bind_ok _ _ _ _ _ Hr) in Hrun. injection Hrun as <-. rewrite Hst, state_word_block in Hth, Hsc.
  split. eexists _. cbn. rewrite Hth, lookup_insert_eq, Hwd. split_and!; [done|done| |].
  - intros c'. rewrite <- Hp. by destruct c'.
  - inversion HR as [|pc c0 out0 st b ein opt timed Hph HW Hout Htm Hst' Hsat Hpc Hws Has|
      pc ws0 c0 out0 st b r Hph Hfl Hout Hrest Hpc Hws Has]; simplify_eq/=.
    + eapply R_waits; cbn; try done.
    + econstructor; cbn; try done; [destruct Hout; by econstructor|]. by destruct Hrest.
Qed.

Lemma unblock_run t th w susp s :
  thr_table s !! t = Some th -> scheduled t th s -> thr_state th = state_word w susp ->
  exists s', Thread_Unblock t s = Ok (tt, s') /\
    thr_table s' = <[t := set_thr_state (state_word None susp) th]> (thr_table s) /\
    thr_words s' = thr_words s /\ scheduled t (set_thr_state (state_word None susp) th) s'.
Proof.
  intros Ht Hs Hst. unfold Thread_Unblock.
  destruct (clear_state_steps t th STATES_BLOCKED s Ht Hs) as (s1 & p & Hr & Hth & Hwd & Hsc).
  rewrite Hst, state_word_unblock in Hth, Hsc.
  exists s1. split_and!; try done. by rewrite (cm_bind_ok _ _ _ _ _ Hr).
Qed.

Lemma finish_sim t susp c out ws s s' a :
  sim t susp (mk_config (P_state_set c out) ws s) a -> Event_Seize_finish t c s = Ok (tt, s') ->
  sim t susp (mk_config (P_waits c out) ws s') a.
Proof.
  intros [(th & Ht & Hs & Hp & HR)] Hrun. cbn in *.
  unfold Event_Seize_finish, Thread_Wait_flags_try_change_acquire in Hrun.
  rewrite (try_change_bind _ th) in Hrun by done.
  inversion HR as [|pc c0 out0 st b ein opt timed Hph HW Hout Htm Hst Hsat Hpc Hws Has|
    pc ws0 c0 out0 st b r Hph Hfl Hout Hrest Hpc Hws Has]; simplify_eq/=.
  - rewrite HW in Hrun. cbn in Hrun. rewrite Z.eqb_refl in Hrun. injection Hrun as <-.
    split. eexists _. cbn. rewrite lookup_insert_eq. split_and!; [done|done| |].
    + intros c'. rewrite <- Hp. by destruct c'.
    + rewrite <- Has. eapply R_waits; cbn; try done; by rewrite HW.
  - rewrite Hfl in Hrun. destruct Hrest as [-> Hst].
    assert (Hne : (Z.lor (wait_class_of c0) THREAD_WAIT_STATE_READY_AGAIN =?
                   Z.lor (wait_class_of c0) THREAD_WAIT_STATE_INTEND_TO_BLOCK) = false) by by destruct c0.
    rewrite Hne in Hrun. cbn [negb c_if] in Hrun. unfold Thread_Timer_remove in Hrun.
    rewrite (thr_upd_bind _ th) in Hrun by done.
    set (th1 := set_thr_Timer None th) in *. set (s1 := set_thr_table _ s) in *.
    destruct (unblock_run t th1 (Some c0) susp s1) as (s2 & Hr & Hth & Hwd & Hsc);
      [apply lookup_insert_eq|done|done|].
    rewrite Hr in Hrun. injection Hrun as <-.
    split. eexists _. cbn. rewrite Hth, lookup_insert_eq, Hwd. split_and!; [done|done| |].
    + intros c'. rewrite <- Hp. by destruct c'.
    + rewrite <- Has. econstructor; cbn; try done. destruct Hout; by econstructor.
Qed.

Lemma return_sim t susp c out ws s th sc s' a :
  sim t susp (mk_config (P_waits c out) ws s) a -> thr_table s !! t = Some th -> thr_state th = STATES_READY ->
  Status_Get_after_wait t s = Ok (sc, s') ->
  matched t susp (L_return (result_at s' sc out)) (mk_config P_idle ws s') a.
Proof.
  intros [(th' & Ht' & Hs & Hp & HR)] Ht Hrd Hrun. destruct a as [ap as_]. cbn in *.
  rewrite Ht in Ht'. injection Ht' as <-.
  unfold Status_Get_after_wait, Thread_Wait_get_status in Hrun. rewrite (thr_ld_bind _ th) in Hrun by done.
  injection Hrun as <- <-.
  inversion HR as [|pc c0 out0 st b ein opt timed Hph HW Hout Htm Hst Hsat Hpc Hws Has|
    pc ws0 c0 out0 st b r Hph Hfl Hout Hrest Hpc Hws Has]; simplify_eq/=.
  - rewrite Hst in Hrd. by apply state_word_ready in Hrd as [? _].
  - destruct ws as [|[] []]; try done; cbn in Hrest.
    2: { rewrite Hrest in Hrd. by apply state_word_ready in Hrd as [? _]. }
    2: { destruct Hrest as [_ Hrest]. rewrite Hrest in Hrd. by apply state_word_ready in Hrd as [? _]. }
    destruct Hrest as [Htm Hst].
    assert (Hr : result_at s (Status_Get (Wait_return_code (thr_Wait th))) out0 = r).
    { destruct Hout as [v Hc Hv|Hc]; rewrite Hc; unfold result_at; cbn; [by rewrite Hv|done]. }
    rewrite Hr. eexists. split; [left; by constructor|]. split. exists th. split_and!; try done.
    cbn. constructor; [by eapply not_waiting_ready|done|done].
Qed.

(** ** Unblocking, suspending and resuming *)
Lemma rel_state th words susp pc ws as_ :
  rel th words susp pc ws as_ ->
  exists w, thr_state th = state_word w susp /\
    forall susp', rel (set_thr_state (state_word w susp') th) words susp' pc ws as_.
Proof.
  intros [Hnw Htm Hst | pc' c out st b ein opt timed Hph HW Hout Htm Hst Hsat
    | pc' ws' c out st b r Hph Hfl Hout Hrest].
  - exists None. split; [done|]. by constructor.
  - exists (blocked_on c b). split; [done|]. intros susp'. by eapply R_waits.
  - destruct (bool_decide (st = THREAD_WAIT_STATE_BLOCKED)) eqn:Hb.
    + destruct ws' as [|[] []]; try done; [exists None|exists (Some c)..]; (split; [tauto|]);
        intros susp'; (eapply (R_done _ _ _ _ _ c out st b); try done; [destruct Hout; by econstructor|]);
        by rewrite Hb; cbn; tauto.
    + destruct Hrest as [-> Hst]. exists (blocked_on c b). split; [done|]. intros susp'.
      eapply (R_done _ _ _ _ _ c out st b); try done; [destruct Hout; by econstructor|]. by rewrite Hb.
Qed.

Lemma suspend_sim t susp0 pc ws s s' p a (susp : bool) :
  sim t susp0 (mk_config pc ws s) a ->
  (if susp then Thread_Set_state t STATES_SUSPENDED s else Thread_Clear_state t STATES_SUSPENDED s) = Ok (p, s') ->
  sim t susp (mk_config pc ws s') a.
Proof.
  intros [(th & Ht & Hs & Hp & HR)] Hrun. cbn in *. destruct (rel_state _ _ _ _ _ _ HR) as (w & Hst & HR').
  assert (Hnew : thr_table s' = <[t := set_thr_state (state_word w susp) th]> (thr_table s) /\
    thr_words s' = thr_words s /\ scheduled t (set_thr_state (state_word w susp) th) s').
  { destruct susp.
    - destruct (set_state_steps t th STATES_SUSPENDED s Ht Hs) as (s1 & p1 & Hr & Hth & Hwd & Hsc).
      { rewrite Hst, state_word_suspend. by destruct w as [[]|]. }
      rewrite Hst, state_word_suspend in Hth, Hsc. rewrite Hr in Hrun. by injection Hrun as <- <-.
    - destruct (clear_state_steps t th STATES_SUSPENDED s Ht Hs) as (s1 & p1 & Hr & Hth & Hwd & Hsc).
      rewrite Hst, state_word_resume in Hth, Hsc. rewrite Hr in Hrun. by injection Hrun as <- <-. }
  destruct Hnew as (Hth & Hwd & Hsc). split. eexists _. cbn. rewrite Hth, lookup_insert_eq, Hwd.
  split_and!; [done|done| |apply HR']. intros c'. rewrite <- Hp. by destruct c'.
Qed.

(** Only a wait that is over has a waker, and only one. *)
Lemma one_waker th words susp pc ws1 k ws2 as_ :
  rel th words susp pc (ws1 ++ k :: ws2) as_ ->
  ws1 = [] /\ ws2 = [] /\ exists c out r, pc = P_waits c out /\ as_ = A_done r /\
    Wait_flags (thr_Wait th) = Z.lor (wait_class_of c) THREAD_WAIT_STATE_READY_AGAIN /\
    outcome_is th words out r /\ thr_state th = state_word (Some c) susp /\
    (k = W_unblock -> thr_Timer th = None).
Proof.
  intros HR. inversion HR as [| |pc' ws c out st b r Hph Hfl Hout Hrest]; subst;
    try (by destruct ws1). destruct (bool_decide_reflect (st = THREAD_WAIT_STATE_BLOCKED)) as [->|Hb].
  - destruct ws1 as [|[] [|??]], ws2, k; try done; cbn in Hrest; destruct pc; simplify_eq/=;
      (split; [done|]); (split; [done|]); eexists _, _, _; split_and!; try done; tauto.
  - destruct Hrest as [He _]. by destruct ws1.
Qed.

Lemma remove_timer_sim t susp pc ws1 ws2 s s' a :
  sim t susp (mk_config pc (ws1 ++ W_remove_timer :: ws2) s) a -> Thread_Timer_remove t s = Ok (tt, s') ->
  sim t susp (mk_config pc (ws1 ++ W_unblock :: ws2) s') a.
Proof.
  intros [(th & Ht & Hs & Hp & HR)] Hrun. cbn in *.
  destruct (one_waker _ _ _ _ _ _ _ _ HR) as (-> & -> & c & out & r & -> & Has & Hfl & Hout & Hst & _).
  unfold Thread_Timer_remove in Hrun. rewrite (thr_upd_run _ th) in Hrun by done. injection Hrun as <-.
  split. eexists _. cbn. rewrite lookup_insert_eq. split_and!; [done|done| |].
  - intros c'. rewrite <- Hp. by destruct c'.
  - rewrite Has. econstructor; cbn; try done. destruct Hout; by econstructor.
Qed.

Lemma unblock_sim t susp pc ws1 ws2 s s' a :
  sim t susp (mk_config pc (ws1 ++ W_unblock :: ws2) s) a -> Thread_Unblock t s = Ok (tt, s') ->
  sim t susp (mk_config pc (ws1 ++ ws2) s') a.
Proof.
  intros [(th & Ht & Hs & Hp & HR)] Hrun. cbn in *.
  destruct (one_waker _ _ _ _ _ _ _ _ HR) as (-> & -> & c & out & r & -> & Has & Hfl & Hout & Hst & Htm).
  destruct (unblock_run t th (Some c) susp s Ht Hs Hst) as (s1 & Hr & Hth & Hwd & Hsc).
  rewrite Hr in Hrun. injection Hrun as <-.
  split. eexists _. cbn. rewrite Hth, lookup_insert_eq, Hwd. split_and!; [done|done| |].
  - intros c'. rewrite <- Hp. by destruct c'.
  - rewrite Has. econstructor; cbn; try done; [destruct Hout; by econstructor|]. split; [by apply Htm|done].
Qed.

(** ** All steps *)
Lemma ev_step_sim t susp cf l cf' a :
  sim t susp cf a -> ev_step t cf l cf' -> exists susp', matched t susp' l cf' a.
Proof.
  intros Hsim Hst. destruct Hst as
    [c ein opt ticks out ws s sc s' Ho Hr|c ein opt ticks out ws s s' Ho Hr|c out ticks ws s s' Hr
    |c out ws s s' Hr|c out ws s s' Hr|c out ws s th sc s' Ht Hrd Hr|c ein pc ws s u s' Hr
    |pc ws s th ticks s1 u s' Ht Htm H1 Hr|pc ws1 ws2 s s' Hr|pc ws1 ws2 s s' Hr|pc ws s p s' Hr|pc ws s p s' Hr].
  - exists susp. exact (receive_sim t susp ws s c ein opt ticks out (Some sc) s' a Hsim Ho Hr).
  - exists susp. exact (receive_sim t susp ws s c ein opt ticks out None s' a Hsim Ho Hr).
  - exists susp. apply matched_silent. by eapply timer_sim.
  - exists susp. apply matched_silent. by eapply block_sim.
  - exists susp. apply matched_silent. by eapply finish_sim.
  - exists susp. by eapply return_sim.
  - destruct (send_sim t susp pc ws s c ein a Hsim) as (u' & s1 & Hr1 & Hsim1). rewrite Hr in Hr1.
    injection Hr1 as <- <-. exists susp. eexists. split; [left; constructor|done].
  - exists susp. by eapply expire_sim.
  - exists susp. apply matched_silent. by eapply remove_timer_sim.
  - exists susp. apply matched_silent. by eapply unblock_sim.
  - exists true. apply matched_silent. by eapply (suspend_sim _ _ _ _ _ _ _ _ true).
  - exists false. apply matched_silent. by eapply (suspend_sim _ _ _ _ _ _ _ _ false).
Qed.

Lemma ev_run_sim t susp cf tr cf' a :
  sim t susp cf a -> ev_run (ev_step t) cf tr cf' ->
  exists a' susp', ev_run a_step a tr a' /\ sim t susp' cf' a'.
Proof.
  intros Hsim Hrun. revert a susp Hsim. induction Hrun as [cf|cf cf1 tr cf2 Hst _ IH|cf l cf1 tr cf2 Hl Hst _ IH];
    intros a susp Hsim.
  - exists a, susp. split; [constructor|done].
  - destruct (ev_step_sim _ _ _ _ _ _ Hsim Hst) as (susp1 & a1 & Ha & Hsim1).
    destruct (IH a1 susp1 Hsim1) as (a2 & susp2 & Hrun2 & Hsim2). exists a2, susp2. split; [|done].
    destruct Ha as [Ha|[_ ->]]; [by eapply run_silent|done].
  - destruct (ev_step_sim _ _ _ _ _ _ Hsim Hst) as (susp1 & a1 & Ha & Hsim1).
    destruct (IH a1 susp1 Hsim1) as (a2 & susp2 & Hrun2 & Hsim2). exists a2, susp2. split; [|done].
    destruct Ha as [Ha|[? _]]; [by eapply run_visible|done].
Qed.
