(* ===== verification/EventTheorems.v ===== *)
(** * The event manager: theorems

    Receives and sends, however their parts interleave with each other, with
    timeouts and with suspensions, behave like atomic operations, and no thread
    waits for events that are there. *)

From stdpp Require Import base tactics numbers option list list_numbers gmap fin_maps.
From Stdlib Require Import ZArith Lia.
From S2P Require Import Prelude Chain Status Thread Event EventFacts.

Open Scope Z_scope.

(** A new thread: it is ready, waits for nothing, and its timer is not armed. *)
Record new_thread (t : Z) (th : Thread) (s : thr_system) : Prop := {
  nt_thread : thr_table s !! t = Some th;
  nt_flags : Wait_flags (thr_Wait th) = THREAD_WAIT_FLAGS_INITIAL;
  nt_timer : thr_Timer th = None;
  nt_state : thr_state th = STATES_READY;
  nt_ready : t ∈ thr_ready s
}.

Lemma new_thread_sim t th s :
  new_thread t th s ->
  sim t false (mk_config P_idle [] s) (mk_a_events (fun c => pending_events c th) A_idle).
Proof.
  intros [Ht Hf Htm Hst Hr]. split. exists th. split_and!; try done. cbn.
  constructor; [|done|done]. intros c. rewrite Hf. by destruct c.
Qed.

(** ** The parts that are left of a wait that is over

    The steps of the receiving thread itself and of the send or timeout that
    ended its wait. *)
Inductive own_step (t : Z) : ev_config -> ev_config -> Prop :=
| OS_timer c out ticks ws s s' :
    Event_Seize_timer t ticks s = Ok (tt, s') ->
    own_step t (mk_config (P_entered c out ticks) ws s) (mk_config (P_timed c out) ws s')
| OS_block c out ws s s' :
    Event_Seize_block t c s = Ok (tt, s') ->
    own_step t (mk_config (P_timed c out) ws s) (mk_config (P_state_set c out) ws s')
| OS_finish c out ws s s' :
    Event_Seize_finish t c s = Ok (tt, s') ->
    own_step t (mk_config (P_state_set c out) ws s) (mk_config (P_waits c out) ws s')
| OS_remove_timer pc ws1 ws2 s s' :
    Thread_Timer_remove t s = Ok (tt, s') ->
    own_step t (mk_config pc (ws1 ++ W_remove_timer :: ws2) s) (mk_config pc (ws1 ++ W_unblock :: ws2) s')
| OS_unblock pc ws1 ws2 s s' :
    Thread_Unblock t s = Ok (tt, s') ->
    own_step t (mk_config pc (ws1 ++ W_unblock :: ws2) s) (mk_config pc (ws1 ++ ws2) s').

Lemma own_step_ev t cf cf' : own_step t cf cf' -> ev_step t cf L_silent cf'.
Proof. destruct 1; by econstructor. Qed.

(** The parts of a receive always run. *)
Lemma own_step_runs t susp pc s a :
  sim t susp (mk_config pc [] s) a ->
  match pc with
  | P_entered c out _ => exists s', own_step t (mk_config pc [] s) (mk_config (P_timed c out) [] s')
  | P_timed c out => exists s', own_step t (mk_config pc [] s) (mk_config (P_state_set c out) [] s')
  | P_state_set c out => exists s', own_step t (mk_config pc [] s) (mk_config (P_waits c out) [] s')
  | _ => True
  end.
Proof.
  intros [(th & Ht & Hs & Hp & HR)]. cbn in *.
  destruct (rel_state _ _ _ _ _ _ HR) as (w & Hst & _).
  destruct pc as [|c out ticks|c out|c out|c out]; try done.
  - destruct (Z.eqb_spec ticks 0) as [->|Hz].
    + exists s. by constructor.
    + eexists. apply OS_timer. unfold Event_Seize_timer. rewrite (proj2 (Z.eqb_neq _ _) Hz). cbn.
      by apply (thr_upd_run _ th).
  - destruct (set_state_steps t th (block_state_of c) s Ht Hs) as (s1 & p & Hr & _).
    { rewrite Hst. by destruct w as [[]|], susp, c. }
    exists s1. apply OS_block. unfold Event_Seize_block. by rewrite (cm_bind_ok _ _ _ _ _ Hr).
  - enough (exists s', Event_Seize_finish t c s = Ok (tt, s')) as [s' Hr] by (exists s'; by apply OS_finish).
    unfold Event_Seize_finish, Thread_Wait_flags_try_change_acquire. rewrite (try_change_bind _ th) by done.
    destruct (_ =? _); cbn [negb c_if]; [by eexists|]. unfold Thread_Timer_remove.
    rewrite (thr_upd_bind _ th) by done.
    destruct (unblock_run t (set_thr_Timer None th) w susp
      (set_thr_table (<[t := set_thr_Timer None th]> (thr_table s)) s)) as (s2 & Hr & _);
      [apply lookup_insert_eq|done|done|]. by eexists.
Qed.

(** A wait that is over leads to a thread that is ready to return. *)
Definition about_to_return (t : Z) (cf : ev_config) (r : rtems_status_code * option Z) : Prop :=
  exists c out s th, cf = mk_config (P_waits c out) [] s /\ thr_table s !! t = Some th /\
    thr_state th = STATES_READY /\ t ∈ thr_ready s /\ outcome_is th (thr_words s) out r.

Lemma own_step_sim t susp cf cf' a : sim t susp cf a -> own_step t cf cf' -> sim t susp cf' a.
Proof.
  intros Hsim Hst.
  destruct Hst as [c out ticks ws s s' Hr|c out ws s s' Hr|c out ws s s' Hr|pc ws1 ws2 s s' Hr|pc ws1 ws2 s s' Hr];
    [by eapply timer_sim|by eapply block_sim|by eapply finish_sim|by eapply remove_timer_sim|by eapply unblock_sim].
Qed.

(** Without a waker, the receive gets to its end. *)
Lemma own_steps_wait t susp pc s a :
  sim t susp (mk_config pc [] s) a -> pc <> P_idle ->
  exists c out s', rtc (own_step t) (mk_config pc [] s) (mk_config (P_waits c out) [] s') /\
    sim t susp (mk_config (P_waits c out) [] s') a.
Proof.
  assert (Hlast : forall c out s, sim t susp (mk_config (P_state_set c out) [] s) a ->
    exists c' out' s', rtc (own_step t) (mk_config (P_state_set c out) [] s) (mk_config (P_waits c' out') [] s') /\
      sim t susp (mk_config (P_waits c' out') [] s') a).
  { intros c out s0 Hsim. destruct (own_step_runs _ _ _ _ _ Hsim) as [s1 Hst].
    exists c, out, s1. split; [by apply rtc_once|by eapply own_step_sim]. }
  assert (Hmid : forall c out s, sim t susp (mk_config (P_timed c out) [] s) a ->
    exists c' out' s', rtc (own_step t) (mk_config (P_timed c out) [] s) (mk_config (P_waits c' out') [] s') /\
      sim t susp (mk_config (P_waits c' out') [] s') a).
  { intros c out s0 Hsim. destruct (own_step_runs _ _ _ _ _ Hsim) as [s1 Hst].
    destruct (Hlast c out s1) as (c' & out' & s' & Hr & Hs'); [by eapply own_step_sim|].
    exists c', out', s'. split; [by eapply rtc_l|done]. }
  intros Hsim Hpc. destruct pc as [|c out ticks|c out|c out|c out]; [done| |by apply Hmid|by apply Hlast|].
  - destruct (own_step_runs _ _ _ _ _ Hsim) as [s1 Hst].
    destruct (Hmid c out s1) as (c' & out' & s' & Hr & Hs'); [by eapply own_step_sim|].
    exists c', out', s'. split; [by eapply rtc_l|done].
  - exists c, out, s. split; [done|done].
Qed.

Lemma own_steps_return t pc ws s a r :
  sim t false (mk_config pc ws s) a -> a_stat a = A_done r ->
  exists cf', rtc (own_step t) (mk_config pc ws s) cf' /\ about_to_return t cf' r.
Proof.
  intros Hsim Ha.
  assert (Hend : forall c out s, sim t false (mk_config (P_waits c out) [] s) a ->
    about_to_return t (mk_config (P_waits c out) [] s) r).
  { intros c out s0 [(th & Ht & Hs & Hp & HR)]. cbn in *. rewrite Ha in HR.
    inversion HR as [| |pc0 ws0 c0 out0 st b r0 Hph Hfl Hout Hrest]; simplify_eq/=. destruct Hrest as [_ Hst].
    exists c0, out0, s0, th. split_and!; try done. by apply Hs. }
  pose proof Hsim as [(th & Ht & Hs & Hp & HR)]. cbn in *. destruct ws as [|k ws].
  { destruct (own_steps_wait t false pc s a Hsim) as (c & out & s' & Hr & Hs').
    - intros ->. rewrite Ha in HR. by inversion HR.
    - eexists. split; [exact Hr|by apply Hend]. }
  destruct (one_waker _ _ _ _ [] k ws _ HR) as (_ & -> & c & out & r' & -> & _ & _ & _ & Hst & _).
  assert (Hun : forall s, sim t false (mk_config (P_waits c out) [W_unblock] s) a ->
    exists cf', rtc (own_step t) (mk_config (P_waits c out) [W_unblock] s) cf' /\ about_to_return t cf' r).
  { intros s0 Hsim0. pose proof Hsim0 as [(th0 & Ht0 & Hs0 & Hp0 & HR0)]. cbn in *.
    destruct (one_waker _ _ _ _ [] W_unblock [] _ HR0) as (_ & _ & c0 & out0 & r0 & Hpc & _ & _ & _ & Hst0 & _).
    simplify_eq. destruct (unblock_run t th0 (Some c0) false s0 Ht0 Hs0 Hst0) as (s1 & Hr & _).
    assert (Hstep : own_step t (mk_config (P_waits c0 out0) [W_unblock] s0) (mk_config (P_waits c0 out0) [] s1))
      by exact (OS_unblock t _ [] [] s0 s1 Hr).
    eexists. split; [by apply rtc_once|]. apply Hend. by eapply own_step_sim. }
  destruct k; [|by apply Hun].
  set (s1 := set_thr_table (<[t := set_thr_Timer None th]> (thr_table s)) s).
  assert (Hstep : own_step t (mk_config (P_waits c out) [W_remove_timer] s) (mk_config (P_waits c out) [W_unblock] s1)).
  { apply (OS_remove_timer t _ [] [] s s1). by apply (thr_upd_run _ th). }
  destruct (Hun s1) as (cf' & Hr & Hret); [by eapply own_step_sim|].
  exists cf'. split; [by eapply rtc_l|done].
Qed.

(** ** Theorems *)

(** C9: The event manager behaves as if every receive and every send were one
    atomic operation.  Start with a new thread and let it receive events, of
    both kinds and with all options, while interrupts and other threads send
    events at any point between the parts of a receive, its timeout expires at
    any such point, and it is suspended and resumed: the calls, results and
    sends that are seen are those of a run of the atomic machine, the pending
    events are the same, and a further send is always possible. *)
Theorem event_refines_atomic t th s tr cf :
  new_thread t th s -> ev_run (ev_step t) (mk_config P_idle [] s) tr cf ->
  exists a th', ev_run a_step (mk_a_events (fun c => pending_events c th) A_idle) tr a /\
    thr_table (cf_sys cf) !! t = Some th' /\ (forall c, pending_events c th' = a_pending a c) /\
    (forall c e, exists cf', ev_step t cf (L_send c e) cf').
Proof.
  intros Hn Hrun. destruct (ev_run_sim _ _ _ _ _ _ (new_thread_sim t th s Hn) Hrun) as (a & susp & Ha & Hsim).
  pose proof Hsim as [(th' & Ht & _ & Hp & _)]. exists a, th'. split_and!; try done.
  intros c e. destruct cf as [pc ws s']. destruct (send_sim t susp pc ws s' c e a Hsim) as (u & s1 & Hr & _).
  eexists. by apply ES_send.
Qed.

(** C10: No wake-up is lost.  At every point of such a run where the thread is
    inside a receive, either the events it waits for are not there, or the
    receive is decided: unless the thread is suspended, the remaining parts of
    the receive and of the send or timeout that decided it, and nothing else,
    bring the thread to the ready state with its result in place.  (Without
    suspensions in between.) *)
Theorem event_no_lost_wakeup t th s tr pc ws s' :
  new_thread t th s -> ev_run (ev_step t) (mk_config P_idle [] s) tr (mk_config pc ws s') -> pc <> P_idle ->
  exists th', thr_table s' !! t = Some th' /\
    ((exists c, ws = [] /\ Z.land (Wait_flags (thr_Wait th')) THREAD_WAIT_CLASS_MASK = wait_class_of c /\
        satisfies (pending_events c th') (Wait_count (thr_Wait th')) (Wait_option (thr_Wait th')) = false) \/
     (Z.land (thr_state th') STATES_SUSPENDED = 0 ->
        exists r cf', rtc (own_step t) (mk_config pc ws s') cf' /\ about_to_return t cf' r)).
Proof.
  intros Hn Hrun Hpc. destruct (ev_run_sim _ _ _ _ _ _ (new_thread_sim t th s Hn) Hrun) as (a & susp & _ & Hsim).
  pose proof Hsim as [(th' & Ht & _ & Hp & HR)]. exists th'. split; [done|]. cbn in *.
  destruct (rel_state _ _ _ _ _ _ HR) as (w & Hst & _).
  inversion HR as [|pc0 c out st b ein opt timed Hph HW Hout Htm Hst' Hsat Hpc0 Hws Has|
    pc0 ws0 c out st b r Hph Hfl Hout Hrest Hpc0 Hws Has]; subst; [done| |].
  - left. exists c. rewrite HW. cbn. split_and!; try done.
    by destruct (phase_state _ _ _ _ _ Hph) as [-> | ->], c.
  - right. intros Hs. assert (susp = false) as ->.
    { destruct susp; [|done]. rewrite Hst in Hs. by destruct w as [[]|]. }
    exists r. by apply (own_steps_return t pc ws s' a r Hsim).
Qed.

(** ** A run

    A thread waits for two events; one is sent before it has armed its timer,
    the other in the window before it has completed the blocking operation. *)
Definition demo_thread : Thread :=
  mk_Thread (mk_Wait 0 0 0 STATUS_SUCCESSFUL THREAD_WAIT_FLAGS_INITIAL) STATES_READY None 0 0.
Definition demo_threads : thr_system := mk_thr_system {[1 := demo_thread]} {[1]} {[100 := 0]}.

Lemma demo_new_thread : new_thread 1 demo_thread demo_threads.
Proof. split; [apply lookup_singleton_eq|done|done|done|]. cbn. set_solver. Qed.

Definition demo_wait_trace : list ev_label :=
  [L_receive Event 3 (Z.lor RTEMS_WAIT RTEMS_EVENT_ALL) 5 100 None; L_send Event 1; L_send Event 2].

Lemma demo_run_window :
  { s' | ev_run (ev_step 1) (mk_config P_idle [] demo_threads) demo_wait_trace
           (mk_config (P_state_set Event 100) [] s') }.
Proof.
  eexists. unfold demo_wait_trace.
  eapply run_visible; [done|eapply ES_receive_waits; [right; by eexists|vm_compute; reflexivity]|].
  eapply run_visible; [done|eapply ES_send; vm_compute; reflexivity|].
  eapply run_silent; [eapply ES_timer; vm_compute; reflexivity|].
  eapply run_silent; [eapply ES_block; vm_compute; reflexivity|].
  eapply run_visible; [done|eapply ES_send; vm_compute; reflexivity|].
  apply run_nil.
Defined.

Lemma event_refines_atomic_witness :
  exists cf, ev_run (ev_step 1) (mk_config P_idle [] demo_threads) demo_wait_trace cf /\
  exists a th', ev_run a_step (mk_a_events (fun c => pending_events c demo_thread) A_idle) demo_wait_trace a /\
    thr_table (cf_sys cf) !! 1 = Some th' /\ (forall c, pending_events c th' = a_pending a c) /\
    (forall c e, exists cf', ev_step 1 cf (L_send c e) cf').
Proof.
  destruct demo_run_window as [s' Hrun]. eexists. split; [exact Hrun|].
  exact (event_refines_atomic 1 demo_thread demo_threads demo_wait_trace _ demo_new_thread Hrun).
Defined.

Lemma event_no_lost_wakeup_witness :
  exists s' th', ev_run (ev_step 1) (mk_config P_idle [] demo_threads) demo_wait_trace
      (mk_config (P_state_set Event 100) [] s') /\ thr_table s' !! 1 = Some th' /\
    ((exists c, [] = @nil waker /\ Z.land (Wait_flags (thr_Wait th')) THREAD_WAIT_CLASS_MASK = wait_class_of c /\
        satisfies (pending_events c th') (Wait_count (thr_Wait th')) (Wait_option (thr_Wait th')) = false) \/
     (Z.land (thr_state th') STATES_SUSPENDED = 0 ->
        exists r cf', rtc (own_step 1) (mk_config (P_state_set Event 100) [] s') cf' /\ about_to_return 1 cf' r)).
Proof.
  destruct demo_run_window as [s' Hrun].
  destruct (event_no_lost_wakeup 1 demo_thread demo_threads demo_wait_trace _ _ s' demo_new_thread Hrun
    ltac:(done)) as (th' & H1 & H2).
  exists s', th'. by split.
Defined.
