(* ===== verification/Partition.v ===== *)
(** * The partition manager

    [rtems/src/part*.c] and [partimpl.h]: partitions of fixed size buffers,
    whose free buffers are a chain threaded through the buffers themselves.
    Partitions are objects of their class, the chains live in the memory of
    words.  Locks are left out, and so is the multiprocessing support, which is
    not configured. *)

From stdpp Require Import base tactics numbers option list list_numbers gmap fin_maps.
From Stdlib Require Import ZArith Lia.
From S2P Require Import Prelude Status Chain Objects ObjectsStatus ObjectsFacts.

Open Scope Z_scope.

(** ** Data *)
Record Partition_Control := mk_partition {
  starting_address : Z;
  part_length : Z;
  buffer_size : Z;
  part_attribute_set : Z;
  number_of_used_blocks : Z
}.

Definition set_used v (p : Partition_Control) : Partition_Control :=
  mk_partition (starting_address p) (part_length p) (buffer_size p) (part_attribute_set p) v.

Record part_state (W : Type) := mk_part_state {
  part_info : obj_state W;
  partitions : gmap Z Partition_Control;
  part_words : words
}.
Arguments mk_part_state {W}.
Arguments part_info {W}.
Arguments partitions {W}.
Arguments part_words {W}.

Definition set_part_info {W} v (s : part_state W) : part_state W :=
  mk_part_state v (partitions s) (part_words s).
Definition set_partitions {W} v (s : part_state W) : part_state W :=
  mk_part_state (part_info s) v (part_words s).
Definition set_part_words {W} v (s : part_state W) : part_state W :=
  mk_part_state (part_info s) (partitions s) v.

Definition CPU_PARTITION_ALIGNMENT : Z := CPU_ALIGNMENT.

(** ** Addresses *)
Definition Addresses_Subtract (left right : Z) : Z := i32 (left - right).
Definition Addresses_Is_aligned (address : Z) : bool := address mod CPU_ALIGNMENT =? 0.
Definition Addresses_Is_in_range (address base limit : Z) : bool :=
  (base <=? address) && (address <=? limit).

(** ** The operations *)
Section Partition.
Context {W : Type} `{Workspace W}.
(** The address of the chain in the control block of an object. *)
Context (Memory_of : Z -> Z).
Abbreviation M := (cm (part_state W)).

Definition p_objs {A} (m : cm (obj_state W) A) : M A := zoom part_info set_part_info m.
Definition p_words {A} (m : CM A) : M A := zoom part_words set_part_words m.
Definition part_ld {A} (o : Z) (f : Partition_Control -> A) : M A :=
  getsM (fun s => match partitions s !! o with Some p => Ok (f p) | None => Undef Bad_address end).
Definition part_upd (o : Z) (f : Partition_Control -> Partition_Control) : M unit :=
  modifyM (fun s => match partitions s !! o with
                    | Some p => Ok (set_partitions (<[o := f p]> (partitions s)) s)
                    | None => Undef Bad_address
                    end).

Definition Partition_Allocate_buffer (o : Z) : M Z :=
  p_words (Chain_Get_unprotected (Memory_of o)).

Definition Partition_Free_buffer (o the_buffer : Z) : M unit :=
  p_words (Chain_Append_unprotected (Memory_of o) the_buffer).

Definition Partition_Is_buffer_on_boundary (the_buffer : Z) (p : Partition_Control)
    : outcome bool :=
  let offset := u32 (Addresses_Subtract the_buffer (starting_address p)) in
  if buffer_size p =? 0 then Undef Division_by_zero
  else Ok (offset mod buffer_size p =? 0).

Definition Partition_Is_buffer_valid (the_buffer : Z) (p : Partition_Control) : outcome bool :=
  let starting := starting_address p in
  let ending := Addresses_Add_offset starting (part_length p) in
  if Addresses_Is_in_range the_buffer starting ending then
    Partition_Is_buffer_on_boundary the_buffer p
  else Ok false.

Definition Partition_Is_buffer_size_aligned (size : Z) : bool :=
  size mod CPU_PARTITION_ALIGNMENT =? 0.

Definition Partition_Allocate : M (option Z) := p_objs Objects_Allocate.
Definition Partition_Free (o : Z) : M unit := p_objs (Objects_Free o).
Definition Partition_Get (id : Z) : M (option Z) := p_objs (Objects_Get id).

Definition Partition_Initialize (o start length size attribute_set : Z) : M unit :=
  modify (fun s => set_partitions
    (<[o := mk_partition start (i32 length) size attribute_set 0]> (partitions s)) s);;
  n ← (if size =? 0 then lift (Undef Division_by_zero) else mret (length / size));
  p_words (Chain_Initialize (Memory_of o) start n size).

(** The identifier is written exactly when the result has one. *)
Definition rtems_partition_create (name start length size attribute_set : Z) (id_null : bool)
    : M (rtems_status_code * option Z) :=
  if negb (rtems_is_name_valid name) then mret (RTEMS_INVALID_NAME, None)
  else if start =? NULL then mret (RTEMS_INVALID_ADDRESS, None)
  else if id_null then mret (RTEMS_INVALID_ADDRESS, None)
  else if (length =? 0) || (size =? 0) || (length <? size)
          || negb (Partition_Is_buffer_size_aligned size)
  then mret (RTEMS_INVALID_SIZE, None)
  else if negb (Addresses_Is_aligned start) then mret (RTEMS_INVALID_ADDRESS, None)
  else
    the_partition ← Partition_Allocate;
    match the_partition with
    | None => mret (RTEMS_TOO_MANY, None)
    | Some o =>
        Partition_Initialize o start length size attribute_set;;
        p_objs (Objects_Open o name);;
        id ← p_objs (obj_id o);
        mret (RTEMS_SUCCESSFUL, Some id)
    end.

Definition rtems_partition_delete (id : Z) : M rtems_status_code :=
  the_partition ← Partition_Get id;
  match the_partition with
  | None => mret RTEMS_INVALID_ID
  | Some o =>
      used ← part_ld o number_of_used_blocks;
      if negb (used =? 0) then mret RTEMS_RESOURCE_IN_USE
      else
        p_objs (Objects_Close o);;
        Partition_Free o;;
        mret RTEMS_SUCCESSFUL
  end.

(** The buffer is written exactly when the result has one. *)
Definition rtems_partition_get_buffer (id : Z) (buffer_null : bool)
    : M (rtems_status_code * option Z) :=
  if buffer_null then mret (RTEMS_INVALID_ADDRESS, None)
  else
    the_partition ← Partition_Get id;
    match the_partition with
    | None => mret (RTEMS_INVALID_ID, None)
    | Some o =>
        the_buffer ← Partition_Allocate_buffer o;
        if the_buffer =? NULL then mret (RTEMS_UNSATISFIED, None)
        else
          part_upd o (fun p => set_used (u32 (number_of_used_blocks p + 1)) p);;
          mret (RTEMS_SUCCESSFUL, Some the_buffer)
    end.

Definition rtems_partition_return_buffer (id buffer : Z) : M rtems_status_code :=
  the_partition ← Partition_Get id;
  match the_partition with
  | None => mret RTEMS_INVALID_ID
  | Some o =>
      p ← part_ld o (fun p => p);
      valid ← lift (Partition_Is_buffer_valid buffer p);
      if negb valid then mret RTEMS_INVALID_ADDRESS
      else
        Partition_Free_buffer o buffer;;
        part_upd o (fun p => set_used (u32 (number_of_used_blocks p - 1)) p);;
        mret RTEMS_SUCCESSFUL
  end.

Definition rtems_partition_ident (name node : Z) (id_null : bool)
    : M (rtems_status_code * option Z) :=
  status ← p_objs (Objects_Name_to_id_u32 name node id_null);
  mret (Status_Object_name_errors_to_status status).

Definition OBJECTS_RTEMS_PARTITIONS : Z := 5.

Definition Partition_Manager_initialization (maximum_partitions size : Z) : M unit :=
  p_objs (Objects_Do_initialize_information OBJECTS_CLASSIC_API OBJECTS_RTEMS_PARTITIONS
            maximum_partitions size).

(** ** The invariant of a partition *)
Implicit Types s : part_state W.

Definition buffers (p : Partition_Control) : list Z :=
  nodes (starting_address p) (buffer_size p) (part_length p / buffer_size p).

(** The partition [o] with the identifier [id], whose buffers [used] are with
    the application: the other buffers, and only they, are on its chain. *)
Record partition (o id : Z) (p : Partition_Control) (used : list Z) s : Prop := {
  pt_class : exists n held, class_wf n held (information (part_info s)) /\ 1 <= o <= n;
  pt_open : o ∈ active (information (part_info s));
  pt_id : id = id_of (information (part_info s)) o;
  pt_control : partitions s !! o = Some p;
  pt_start : 0 < starting_address p;
  pt_size : 0 < buffer_size p;
  pt_length : buffer_size p <= part_length p < 2 ^ 31;
  pt_space : starting_address p + part_length p < 2 ^ 32;
  pt_apart : NoDup (footprint (Memory_of o) (buffers p));
  pt_mapped : forall b, b ∈ buffers p ->
    is_Some (part_words s !! next_of b) /\ is_Some (part_words s !! previous_of b);
  pt_chain : exists free, chain (part_words s) (Memory_of o) free /\
    free ++ used ≡ₚ buffers p;
  pt_used : number_of_used_blocks p = Z.of_nat (length used)
}.

(** ** Facts *)
Lemma p_objs_bind {A B} (m : cm (obj_state W) A) (k : A -> M B) s a o' :
  m (part_info s) = Ok (a, o') -> (p_objs m ≫= k) s = k a (set_part_info o' s).
Proof. intros Hm. apply cm_bind_ok. unfold p_objs, zoom. by rewrite Hm. Qed.

Lemma p_objs_read_bind {A B} (m : cm (obj_state W) A) (k : A -> M B) s a :
  m (part_info s) = Ok (a, part_info s) -> (p_objs m ≫= k) s = k a s.
Proof. intros Hm. rewrite (p_objs_bind _ _ _ _ _ Hm). by destruct s. Qed.

Lemma p_words_bind {A B} (m : CM A) (k : A -> M B) s a w' :
  m (part_words s) = Ok (a, w') -> (p_words m ≫= k) s = k a (set_part_words w' s).
Proof. intros Hm. apply cm_bind_ok. unfold p_words, zoom. by rewrite Hm. Qed.

Lemma part_ld_bind {A B} o (f : Partition_Control -> A) (k : A -> M B) p s :
  partitions s !! o = Some p -> (part_ld o f ≫= k) s = k (f p) s.
Proof. intros Hp. apply getsM_bind. by rewrite Hp. Qed.

Lemma part_upd_bind {B} o f (k : unit -> M B) p s :
  partitions s !! o = Some p ->
  (part_upd o f ≫= k) s = k tt (set_partitions (<[o := f p]> (partitions s)) s).
Proof. intros Hp. apply modifyM_bind. by rewrite Hp. Qed.

Lemma partition_get o id p used s :
  partition o id p used s -> Objects_Get id (part_info s) = Ok (Some o, part_info s).
Proof.
  intros [(n & held & Hw & Ho) Hop Hid _ _ _ _ _ _ _ _ _].
  destruct (id_of_value n held _ o Hw ltac:(lia)) as (_ & _ & Hr & _). rewrite <- Hid in Hr.
  destruct (get_run n held id (part_info s) Hw Hr) as (r & Hg & Hspec).
  rewrite Hg. by rewrite (proj2 (Hspec o)).
Qed.

Lemma buffers_elem p b :
  0 < buffer_size p ->
  b ∈ buffers p <-> exists i, b = starting_address p + i * buffer_size p /\
    0 <= i < part_length p / buffer_size p.
Proof.
  intros Hs. unfold buffers, nodes. rewrite list_elem_of_fmap. unfold node_at.
  setoid_rewrite elem_of_seqZ. split; intros (i & -> & Hi); exists i; (split; [done|]); lia.
Qed.

(** A buffer lies in the area of its partition, on a boundary. *)
Lemma buffers_bounds p b :
  0 < buffer_size p -> b ∈ buffers p ->
  starting_address p <= b /\ b + buffer_size p <= starting_address p + part_length p /\
  (b - starting_address p) mod buffer_size p = 0.
Proof.
  intros Hs Hb. apply buffers_elem in Hb as (i & -> & Hi); [|done].
  pose proof (Z.mul_div_le (part_length p) (buffer_size p) Hs). split; [nia|]. split; [nia|].
  replace (starting_address p + i * buffer_size p - starting_address p) with
    (i * buffer_size p) by lia. by apply Z.mod_mul; lia.
Qed.

Lemma buffers_number p :
  length (buffers p) = Z.to_nat (part_length p / buffer_size p).
Proof. unfold buffers, nodes. by rewrite length_fmap, length_seqZ. Qed.

(** The check of a returned buffer, for any address in the area or at its end. *)
Lemma buffer_valid_run p b :
  0 < starting_address p -> 0 < buffer_size p -> 0 <= part_length p < 2 ^ 31 ->
  starting_address p + part_length p < 2 ^ 32 ->
  starting_address p <= b <= starting_address p + part_length p ->
  Partition_Is_buffer_valid b p =
    Ok ((b - starting_address p) mod buffer_size p =? 0).
Proof.
  intros H1 H2 H3 H4 H5. unfold Partition_Is_buffer_valid, Addresses_Is_in_range.
  unfold Addresses_Add_offset. rewrite u32_id by lia.
  rewrite (proj2 (Z.leb_le _ _)), (proj2 (Z.leb_le _ _)) by lia. cbn [andb].
  unfold Partition_Is_buffer_on_boundary, Addresses_Subtract.
  rewrite (proj2 (Z.eqb_neq _ _)) by lia. rewrite i32_id, u32_id by lia. done.
Qed.

(** *** The steps *)
Lemma partition_change o id p used s used' (w' : words) k :
  partition o id p used s ->
  (exists free, chain w' (Memory_of o) free /\ free ++ used' ≡ₚ buffers p) ->
  (forall w, is_Some (part_words s !! w) -> is_Some (w' !! w)) ->
  k = Z.of_nat (length used') ->
  partition o id (set_used k p) used'
    (set_partitions (<[o := set_used k p]> (partitions s)) (set_part_words w' s)).
Proof.
  intros [Hcl Hop Hid Hp Hst Hsz Hle Hsp Hap Hm _ _] Hc Hw ->. split; try done.
  - apply lookup_insert_eq.
  - intros b Hb. destruct (Hm b Hb). split; by apply Hw.
Qed.

Lemma get_buffer_run o id p used s :
  partition o id p used s ->
  (length used = length (buffers p) /\
     rtems_partition_get_buffer id false s = Ok ((RTEMS_UNSATISFIED, None), s)) \/
  exists b s', rtems_partition_get_buffer id false s = Ok ((RTEMS_SUCCESSFUL, Some b), s') /\
    b ∈ buffers p /\ (b ∉ used) /\
    partition o id (set_used (Z.of_nat (length used) + 1) p) (b :: used) s'.
Proof.
  intros Hpt. pose proof Hpt as [(n & held & Hw & Ho) _ _ Hp Hst Hsz Hle Hsp Hap Hm (free & Hc & Hall) Hu].
  unfold rtems_partition_get_buffer, Partition_Get.
  rewrite (p_objs_read_bind _ _ _ _ (partition_get _ _ _ _ _ Hpt)).
  destruct (chain_get_run _ _ _ Hc) as (w' & Hr & Hc' & Hb).
  unfold Partition_Allocate_buffer. rewrite (p_words_bind _ _ _ _ _ Hr).
  destruct free as [|b free]; cbn [head default tail] in *.
  - left. apply Permutation_length in Hall as Hlen. cbn in Hlen. split; [done|].
    cbn. unfold Chain_Get_unprotected in Hr.
    rewrite (cm_bind_ok _ _ _ _ _ (chain_is_empty_run _ _ _ Hc)) in Hr. cbn in Hr.
    injection Hr as <-. by destruct s.
  - right. assert (b ∈ buffers p) as Hbb by (rewrite <- Hall; left).
    destruct (buffers_bounds p b Hsz Hbb) as (Hb1 & _ & _).
    assert (NoDup (b :: free ++ used)) as Hnd.
    { change (NoDup ((b :: free) ++ used)). rewrite Hall. unfold buffers, nodes.
      apply footprint_NoDup in Hap as (_ & _ & H3 & _ & _). by apply NoDup_cons in H3 as [_ ?]. }
    apply NoDup_cons in Hnd as [Hnb _]. rewrite elem_of_app in Hnb.
    change (Datatypes.id b) with b. rewrite (proj2 (Z.eqb_neq b NULL)) by (unfold NULL; lia).
    rewrite (part_upd_bind _ _ _ p) by done.
    assert (Z.of_nat (length used) < 2 ^ 31) as Hsm.
    { apply Permutation_length in Hall. rewrite length_app, buffers_number in Hall. cbn in Hall.
      assert (part_length p / buffer_size p <= part_length p) by (apply Z.div_le_upper_bound; nia).
      lia. }
    eexists b, _. split; [reflexivity|]. split; [done|]. split; [tauto|].
    rewrite Hu, u32_id by lia.
    apply (partition_change o id p used s (b :: used) w'); [done| |apply Hb|cbn; lia].
    exists free. split; [done|]. by rewrite <- Hall, <- Permutation_middle.
Qed.

Lemma return_buffer_run o id p used used' b s :
  partition o id p used s -> used ≡ₚ b :: used' ->
  exists s', rtems_partition_return_buffer id b s = Ok (RTEMS_SUCCESSFUL, s') /\
    partition o id (set_used (Z.of_nat (length used')) p) used' s'.
Proof.
  intros Hpt Hperm.
  pose proof Hpt as [(n & held & Hw & Ho) _ _ Hp Hst Hsz Hle Hsp Hap Hm (free & Hc & Hall) Hu].
  assert (b ∈ buffers p) as Hbb by (rewrite <- Hall, Hperm; in_list).
  destruct (buffers_bounds p b Hsz Hbb) as (Hb1 & Hb2 & Hb3). destruct (Hm b Hbb) as [M1 M2].
  unfold rtems_partition_return_buffer, Partition_Get.
  rewrite (p_objs_read_bind _ _ _ _ (partition_get _ _ _ _ _ Hpt)).
  rewrite (part_ld_bind _ _ _ p) by done.
  rewrite (lift_bind _ _ _ true).
  2: { rewrite buffer_valid_run by lia. rewrite Hb3. done. }
  cbn [negb]. assert (NoDup (free ++ used)) as Hnd.
  { rewrite Hall. apply footprint_NoDup in Hap as (_ & _ & H3 & _ & _).
    by apply NoDup_cons in H3 as [_ ?]. }
  rewrite Hperm in Hnd, Hall.
  destruct (chain_append_run (part_words s) (Memory_of o) free b Hc)
    as (w' & Hr & Hc' & Hb); [|done|done|].
  { apply (footprint_sub _ _ (buffers p)); [done| |].
    - replace (free ++ b :: used') with ((free ++ [b]) ++ used') in Hnd by (by rewrite <- app_assoc).
      by apply NoDup_app in Hnd as (? & _ & _).
    - intros x Hx. rewrite <- Hall. rewrite elem_of_app, list_elem_of_singleton in Hx. in_list. }
  unfold Partition_Free_buffer. rewrite (p_words_bind _ _ _ _ _ Hr).
  rewrite (part_upd_bind _ _ _ p) by done. eexists. split; [reflexivity|].
  assert (u32 (number_of_used_blocks p - 1) = Z.of_nat (length used')) as ->.
  { rewrite Hu, Hperm. cbn [length]. rewrite u32_id; [lia|].
    apply Permutation_length in Hall. rewrite length_app, buffers_number in Hall. cbn in Hall.
    assert (part_length p / buffer_size p <= part_length p) by (apply Z.div_le_upper_bound; nia).
    lia. }
  apply (partition_change o id p used s used' w'); [done| |apply Hb|done].
  exists (free ++ [b]). split; [done|]. by rewrite <- app_assoc.
Qed.

(** The chain of a new partition. *)
Lemma nodes_apart c start size n :
  8 <= size -> c + 12 <= start \/ start + n * size <= c ->
  NoDup (footprint c (nodes start size n)).
Proof.
  intros Hs Hd. apply footprint_NoDup.
  assert (forall x, x ∈ nodes start size n -> exists i, x = start + i * size /\ 0 <= i < n) as Hin.
  { intros x Hx. apply list_elem_of_fmap in Hx as (i & -> & Hi). apply elem_of_seqZ in Hi.
    exists i. unfold node_at. split; [done|lia]. }
  assert (forall x, x ∈ nodes start size n ->
    x <> c /\ x <> c + 4 /\ x <> c + 8 /\ x + 4 <> c /\ x + 4 <> c + 4) as Hc.
  { intros x (i & -> & Hi)%Hin. nia. }
  assert (NoDup (nodes start size n)) as Hnd.
  { apply NoDup_fmap_2_strong; [|apply NoDup_seqZ]. unfold node_at. intros; nia. }
  unfold Chain_Tail.
  split; [intros x [-> |Hx]%elem_of_cons; [lia|pose proof (Hc _ Hx); lia]|].
  split; [intros y [Hy| ->%list_elem_of_singleton]%elem_of_app; [pose proof (Hc _ Hy); lia|lia]|].
  split; [apply NoDup_cons; split; [intros Hx; pose proof (Hc _ Hx); lia|done]|].
  split.
  - apply NoDup_app. split; [done|]. split; [|apply NoDup_singleton].
    intros x Hx ->%list_elem_of_singleton. pose proof (Hc _ Hx). lia.
  - intros x y [-> |Hx]%elem_of_cons [Hy| ->%list_elem_of_singleton]%elem_of_app.
    + pose proof (Hc _ Hy). lia.
    + lia.
    + apply Hin in Hx as (i & -> & Hi). apply Hin in Hy as (j & -> & Hj). intros Heq.
      destruct (Z.le_gt_cases i j); nia.
    + pose proof (Hc _ Hx). lia.
Qed.

(** What a caller needs for a new partition: a free object [o], parameters the
    directive accepts, and memory for the buffers apart from the control
    block. *)
Record partition_request (n : Z) (held : list Z) (o name start length size : Z) s : Prop := {
  rq_class : class_wf n held (information (part_info s));
  rq_free : exists l, Inactive (information (part_info s)) = o :: l;
  rq_name : name <> 0;
  rq_start : 0 < start /\ start mod CPU_ALIGNMENT = 0;
  rq_size : 0 < size <= length /\ size mod CPU_ALIGNMENT = 0;
  rq_length : length < 2 ^ 31 /\ start + length < 2 ^ 32;
  rq_apart : Memory_of o + 12 <= start \/ start + length <= Memory_of o;
  rq_mapped : forall w, w ∈ footprint (Memory_of o) (nodes start size (length / size)) ->
    is_Some (part_words s !! w)
}.

Lemma create_run n held o name start length size attr s :
  partition_request n held o name start length size s ->
  exists s' id, rtems_partition_create name start length size attr false s =
      Ok ((RTEMS_SUCCESSFUL, Some id), s') /\
    partition o id (mk_partition start length size attr 0) [] s' /\
    (forall w, is_Some (part_words s !! w) -> is_Some (part_words s' !! w)).
Proof.
  intros [Hw [l Hin] Hna [Hst Hsa] [Hsz Hza] [Hle Hsp] Hap Hmap].
  assert (1 <= o <= n) as Ho.
  { eapply class_wf_range; [exact Hw|]. rewrite Hin. left. }
  pose proof (allocate_run n held (part_info s) Hw) as Hal. rewrite Hin in Hal.
  destruct Hal as (i1 & Hr1 & Hi1 & Hw1).
  unfold rtems_partition_create, rtems_is_name_valid, Partition_Is_buffer_size_aligned,
    Addresses_Is_aligned, CPU_PARTITION_ALIGNMENT.
  rewrite (proj2 (Z.eqb_neq name 0)), (proj2 (Z.eqb_neq start NULL)) by (unfold NULL; lia).
  rewrite (proj2 (Z.eqb_neq length 0)), (proj2 (Z.eqb_neq size 0)) by lia.
  rewrite (proj2 (Z.ltb_ge length size)) by lia. rewrite Hza, Hsa.
  change (0 =? 0) with true. cbn [negb orb].
  unfold Partition_Allocate. rewrite (p_objs_bind _ _ _ _ _ Hr1).
  unfold Partition_Initialize. rewrite cm_bind_assoc, modify_bind.
  rewrite cm_bind_assoc. rewrite (proj2 (Z.eqb_neq size 0)) by lia. rewrite ret_bind.
  assert (8 <= size) as H8.
  { unfold CPU_ALIGNMENT in Hza. destruct (Z.le_gt_cases 8 size); [done|].
    rewrite Z.mod_small in Hza by lia. lia. }
  pose proof (Z.mul_div_le length size ltac:(lia)) as Hmul.
  assert (0 <= length / size) as Hn by (apply Z.div_pos; lia).
  assert (NoDup (footprint (Memory_of o) (nodes start size (length / size)))) as Hnd.
  { apply nodes_apart; [done|]. destruct Hap; [by left|right]. nia. }
  destruct (chain_initialize_run (part_words s) (Memory_of o) start size (length / size) Hnd Hmap)
    as (w' & Hr2 & Hc & Hb); [|done|].
  { intros x Hx. apply list_elem_of_fmap in Hx as (i & -> & Hi). apply elem_of_seqZ in Hi.
    unfold node_at. nia. }
  match goal with |- context [(p_words _ ≫= ?k) ?x] => rewrite (p_words_bind _ k x _ _ Hr2) end.
  destruct (open_run n (o :: held) o name i1 Hw1) as (i2 & held2 & Hr3 & _ & Hw2 & Hact & _ & Hid);
    [by left|].
  match goal with |- context [(p_objs (Objects_Open o name) ≫= ?k) ?x] =>
    rewrite (p_objs_bind _ k x _ _ Hr3) end.
  match goal with |- context [(p_objs (obj_id o) ≫= ?k) ?x] =>
    rewrite (p_objs_read_bind _ k x _ (obj_id_run n held2 o i2 Hw2 Ho)) end.
  eexists _, _. split; [reflexivity|].
  assert (i32 length = length) as Hlen by (apply i32_id; lia).
  split; [|exact (proj2 Hb)].
  split; cbn; rewrite ?Hlen; try done; try lia.
  - by exists n, held2.
  - apply lookup_insert_eq.
  - intros b Hbb. split; apply (proj2 Hb), Hmap.
    + apply footprint_next. by right.
    + apply footprint_previous, elem_of_app. by left.
  - exists (nodes start size (length / size)). split; [done|]. by rewrite app_nil_r.
Qed.

(** ** Properties *)

(** What an application does with a partition: it gets buffers and returns
    buffers it got; the list is the buffers it holds. *)
Inductive part_step (id : Z) : list Z * part_state W -> list Z * part_state W -> Prop :=
| step_get used s b s' :
    rtems_partition_get_buffer id false s = Ok ((RTEMS_SUCCESSFUL, Some b), s') ->
    part_step id (used, s) (b :: used, s')
| step_get_none used s sc s' :
    rtems_partition_get_buffer id false s = Ok ((sc, None), s') -> part_step id (used, s) (used, s')
| step_return used used' s b sc s' :
    used ≡ₚ b :: used' -> rtems_partition_return_buffer id b s = Ok (sc, s') ->
    part_step id (used, s) (used', s').

Lemma part_step_keeps o id x y :
  part_step id x y ->
  (exists p, partition o id p x.1 x.2) -> forall start len size,
  (forall p, partitions x.2 !! o = Some p ->
     starting_address p = start /\ part_length p = len /\ buffer_size p = size) ->
  (exists p, partition o id p y.1 y.2) /\
  (forall p, partitions y.2 !! o = Some p ->
     starting_address p = start /\ part_length p = len /\ buffer_size p = size).
Proof.
  intros Hst [p Hp] start len size Hsh.
  destruct (Hsh p (pt_control _ _ _ _ _ Hp)) as (H1 & H2 & H3).
  assert (forall used' s' k, partition o id (set_used k p) used' s' ->
    (exists p, partition o id p used' s') /\ (forall p, partitions s' !! o = Some p ->
     starting_address p = start /\ part_length p = len /\ buffer_size p = size)) as Hok.
  { intros used' s' k Hp'. split; [by eexists|]. intros p' Hp2.
    rewrite (pt_control _ _ _ _ _ Hp') in Hp2. by injection Hp2 as <-. }
  destruct Hst as [used s b s' Hr|used s sc s' Hr|used used' s b sc s' Hperm Hr];
    cbn [fst snd] in *.
  - destruct (get_buffer_run o id p used s Hp) as [[_ Hr']|(b' & s1 & Hr' & _ & _ & Hp')];
      rewrite Hr in Hr'; [done|]. injection Hr' as <- <-. by eapply Hok.
  - destruct (get_buffer_run o id p used s Hp) as [[_ Hr']|(b' & s1 & Hr' & _ & _ & Hp')];
      rewrite Hr in Hr'; [|done]. injection Hr' as _ <-. split; [by eexists|done].
  - destruct (return_buffer_run o id p used used' b s Hp Hperm) as (s1 & Hr' & Hp').
    rewrite Hr in Hr'. injection Hr' as _ <-. by eapply Hok.
Qed.

(** C17: A partition gives every buffer to one user at a time.  Create a
    partition, then get and return buffers in any order: the buffers handed
    out are different from each other, lie in the partition's memory, on
    multiples of the buffer size, and the next call gets one that nobody
    holds, or reports RTEMS_UNSATISFIED when all [length / size] buffers are
    out. *)
Theorem partition_exclusive n held o name start length size attr s0 :
  partition_request n held o name start length size s0 ->
  exists id s1, rtems_partition_create name start length size attr false s0 =
      Ok ((RTEMS_SUCCESSFUL, Some id), s1) /\
    (forall used s, rtc (part_step id) ([], s1) (used, s) ->
       NoDup used /\
       (forall b, b ∈ used -> start <= b /\ b + size <= start + length /\
          (b - start) mod size = 0) /\
       match rtems_partition_get_buffer id false s with
       | Ok ((sc, Some b), _) => sc = RTEMS_SUCCESSFUL /\ b ∉ used
       | Ok ((sc, None), s') => sc = RTEMS_UNSATISFIED /\ s' = s /\
           Z.of_nat (List.length used) = length / size
       | Undef _ => False
       end).
Proof.
  intros Hrq. destruct (create_run n held o name start length size attr s0 Hrq)
    as (s1 & id & Hr & Hp1 & _). exists id, s1. split; [done|]. intros used s Hrtc.
  assert (forall x y, rtc (part_step id) x y -> (exists p, partition o id p x.1 x.2) ->
    (forall p, partitions x.2 !! o = Some p ->
       starting_address p = start /\ part_length p = length /\ buffer_size p = size) ->
    (exists p, partition o id p y.1 y.2) /\ (forall p, partitions y.2 !! o = Some p ->
       starting_address p = start /\ part_length p = length /\ buffer_size p = size)) as Hkeep.
  { induction 1 as [x|x y z Hxy _ IH]; intros H1 H2; [done|].
    destruct (part_step_keeps o id x y Hxy H1 start length size H2). by apply IH. }
  destruct (Hkeep _ _ Hrtc) as [[p Hp] Hsh].
  { by eexists. }
  { cbn. intros p Hp. rewrite (pt_control _ _ _ _ _ Hp1) in Hp. by injection Hp as <-. }
  cbn [fst snd] in *. destruct (Hsh p (pt_control _ _ _ _ _ Hp)) as (<- & <- & <-).
  pose proof (pt_size _ _ _ _ _ Hp) as Hsz.
  destruct (pt_chain _ _ _ _ _ Hp) as (free & _ & Hall).
  assert (forall b, b ∈ used -> b ∈ buffers p) as Hin.
  { intros b Hb. rewrite <- Hall. apply elem_of_app. by right. }
  split; [|split].
  - pose proof (pt_apart _ _ _ _ _ Hp) as (_ & _ & H3 & _ & _)%footprint_NoDup.
    apply NoDup_cons in H3 as [_ H3]. rewrite <- Hall in H3. by apply NoDup_app in H3 as (_ & _ & ?).
  - intros b Hb. by apply buffers_bounds; [|apply Hin].
  - destruct (get_buffer_run o id p used s Hp) as [[Hlen Hr']|(b & s2 & Hr' & _ & Hnb & _)];
      rewrite Hr'; [|done]. split; [done|]. split; [done|].
    rewrite Hlen, buffers_number. apply Z2Nat.id, Z.div_pos; [|done].
    pose proof (pt_length _ _ _ _ _ Hp). lia.
Qed.

(** The check of a returned address has its upper bound wrong by one: when
    the length of the partition is a multiple of the buffer size, the address
    behind the last buffer is accepted, with RTEMS_SUCCESSFUL, and chained as
    a free buffer, to be handed out later. *)
Theorem partition_accepts_end o id p used s :
  partition o id p used s -> part_length p mod buffer_size p = 0 ->
  let b := starting_address p + part_length p in
  is_Some (part_words s !! next_of b) -> is_Some (part_words s !! previous_of b) ->
  NoDup (footprint (Memory_of o) (buffers p ++ [b])) ->
  exists s' free, rtems_partition_return_buffer id b s = Ok (RTEMS_SUCCESSFUL, s') /\
    chain (part_words s') (Memory_of o) (free ++ [b]) /\ (b ∉ buffers p).
Proof.
  intros Hpt Hmod b M1 M2 Hnd.
  pose proof Hpt as [_ _ _ Hp Hst Hsz Hle Hsp Hap Hm (free & Hc & Hall) Hu].
  unfold rtems_partition_return_buffer, Partition_Get.
  rewrite (p_objs_read_bind _ _ _ _ (partition_get _ _ _ _ _ Hpt)).
  rewrite (part_ld_bind _ _ _ p) by done. rewrite (lift_bind _ _ _ true).
  2: { rewrite buffer_valid_run by (unfold b; lia). unfold b.
       replace (starting_address p + part_length p - starting_address p) with (part_length p)
         by lia. by rewrite Hmod. }
  cbn [negb].
  assert (b ∉ buffers p) as Hnb.
  { intros Hb. apply buffers_bounds in Hb; [|done]. unfold b in Hb. lia. }
  assert (NoDup free /\ forall x, x ∈ free -> x ∈ buffers p) as [Hnf Hsub].
  { split; [|intros x Hx; rewrite <- Hall; apply elem_of_app; by left].
    by apply (chain_NoDup _ _ _ Hc). }
  destruct (chain_append_run (part_words s) (Memory_of o) free b Hc)
    as (w' & Hr & Hc' & Hb); [|done|done|].
  { apply (footprint_sub _ _ (buffers p ++ [b])); [done| |].
    - apply NoDup_app. split; [done|]. split; [|apply NoDup_singleton].
      intros x Hx ->%list_elem_of_singleton. auto.
    - intros x Hx. rewrite elem_of_app in Hx |- *. naive_solver. }
  unfold Partition_Free_buffer. rewrite (p_words_bind _ _ _ _ _ Hr).
  rewrite (part_upd_bind _ _ _ p) by done. eexists _, free. split; [reflexivity|]. done.
Qed.

(** A partition is deleted only when all its buffers are back: otherwise
    the directive reports RTEMS_RESOURCE_IN_USE and changes nothing. *)
Theorem partition_delete_guarded o id p used s :
  partition o id p used s ->
  (used <> [] -> rtems_partition_delete id s = Ok (RTEMS_RESOURCE_IN_USE, s)) /\
  (used = [] -> exists s', rtems_partition_delete id s = Ok (RTEMS_SUCCESSFUL, s') /\
     (o ∉ active (information (part_info s'))) /\ o ∈ Inactive (information (part_info s')) /\
     part_words s' = part_words s).
Proof.
  intros Hpt. pose proof Hpt as [(n & held & Hw & Ho) Hop _ Hp Hst Hsz Hle Hsp Hap Hm _ Hu].
  unfold rtems_partition_delete, Partition_Get.
  rewrite (p_objs_read_bind _ _ _ _ (partition_get _ _ _ _ _ Hpt)).
  rewrite (part_ld_bind _ _ _ p) by done. rewrite Hu. split.
  - intros Hne. destruct used as [|b used]; [done|]. done.
  - intros ->. change (Z.of_nat (List.length (@nil Z))) with 0.
    change (negb (0 =? 0)) with false. cbv iota.
    destruct (close_run n held o (part_info s) Hw Hop) as (i1 & Hr1 & Hw1 & Hna & _).
    rewrite (p_objs_bind _ _ _ _ _ Hr1).
    destruct (free_run n held o i1 Hw1) as (i2 & Hr2 & -> & Hw2).
    unfold Partition_Free.
    match goal with |- context [(p_objs (Objects_Free o) ≫= ?k) ?x] =>
      rewrite (p_objs_bind _ k x _ _ Hr2) end.
    eexists. split; [reflexivity|]. cbn. split; [done|]. split; [|done].
    apply elem_of_app. right. by left.
Qed.

End Partition.

(** ** Instances *)
#[local] Existing Instance big_workspace.

Definition part_memory_of (o : Z) : Z := 64 * o.

Definition part_memory : words :=
  list_to_map (((fun i => (64 + 4 * i, 0)) <$> seqZ 0 80) ++
               ((fun i => (1024 + 4 * i, 0)) <$> seqZ 0 16)).

Definition part_class : obj_state Z :=
  let s0 := mk_obj_state empty_information 4096 in
  match @Objects_Do_initialize_information Z big_workspace OBJECTS_CLASSIC_API
          OBJECTS_RTEMS_PARTITIONS 4 100 s0 with
  | Ok (_, s) => s
  | Undef _ => s0
  end.

Definition part_example : part_state Z := mk_part_state part_class ∅ part_memory.

(** Three buffers of 16 bytes. *)
Lemma part_example_request :
  partition_request part_memory_of 4 [] 1 7 1024 48 16 part_example.
Proof.
  destruct (@initialize_run Z big_workspace 4 2 5 100 (mk_obj_state empty_information 4096))
    as (s1 & Hr & Hw & Hin & _ & _);
    [unfold OBJECTS_ID_FINAL_INDEX; lia|lia|lia|lia|by do 4 eexists|].
  unfold part_example, part_class.
  change OBJECTS_CLASSIC_API with 2. change OBJECTS_RTEMS_PARTITIONS with 5. rewrite Hr.
  split; cbn [part_info part_words].
  - exact Hw.
  - exists [2; 3; 4]. exact Hin.
  - lia.
  - done.
  - done.
  - lia.
  - unfold part_memory_of. lia.
  - assert (Forall (fun w => is_Some (part_memory !! w))
      (footprint (part_memory_of 1) (nodes 1024 16 (48 / 16)))) as Hf
      by (by apply (bool_decide_unpack _), I).
    by apply Forall_forall.
Qed.

Lemma part_example_created :
  exists (s : part_state Z) id,
    partition part_memory_of 1 id (mk_partition 1024 48 16 0 0) [] s /\
    is_Some (part_words s !! 1072) /\ is_Some (part_words s !! 1076).
Proof.
  destruct (create_run part_memory_of 4 [] 1 7 1024 48 16 0 _ part_example_request)
    as (s & id & _ & Hp & Hm).
  exists s, id. split; [exact Hp|]. split; by apply Hm; eexists.
Qed.

Lemma partition_exclusive_witness :
  exists id s1, rtems_partition_create part_memory_of 7 1024 48 16 0 false part_example =
      Ok ((RTEMS_SUCCESSFUL, Some id), s1) /\
    (forall used s, rtc (part_step part_memory_of id) ([], s1) (used, s) ->
       NoDup used /\
       (forall b, b ∈ used -> 1024 <= b /\ b + 16 <= 1024 + 48 /\ (b - 1024) mod 16 = 0) /\
       match rtems_partition_get_buffer part_memory_of id false s with
       | Ok ((sc, Some b), _) => sc = RTEMS_SUCCESSFUL /\ b ∉ used
       | Ok ((sc, None), s') => sc = RTEMS_UNSATISFIED /\ s' = s /\
           Z.of_nat (List.length used) = 48 / 16
       | Undef _ => False
       end).
Proof. exact (partition_exclusive _ 4 [] 1 7 1024 48 16 0 _ part_example_request). Defined.

Lemma partition_accepts_end_witness :
  exists (s s' : part_state Z) id free,
    rtems_partition_return_buffer part_memory_of id 1072 s = Ok (RTEMS_SUCCESSFUL, s') /\
    chain (part_words s') (part_memory_of 1) (free ++ [1072]) /\
    (1072 ∉ [1024; 1040; 1056]).
Proof.
  destruct part_example_created as (s & id & Hp & Hm1 & Hm2).
  destruct (partition_accepts_end part_memory_of 1 id _ [] s Hp) as (s' & free & Hr & Hc & Hn).
  - done.
  - exact Hm1.
  - exact Hm2.
  - by apply (bool_decide_unpack _), I.
  - exists s, s', id, free. exact (conj Hr (conj Hc Hn)).
Defined.

Lemma partition_delete_guarded_witness :
  exists (s s' : part_state Z) id b,
    rtems_partition_delete id s = Ok (RTEMS_RESOURCE_IN_USE, s) /\
    rtems_partition_return_buffer part_memory_of id b s = Ok (RTEMS_SUCCESSFUL, s') /\
    exists s'', rtems_partition_delete id s' = Ok (RTEMS_SUCCESSFUL, s'') /\
    1 ∈ Inactive (information (part_info s'')).
Proof.
  destruct part_example_created as (s0 & id & Hp & _).
  destruct (get_buffer_run _ _ _ _ _ _ Hp) as [[Hl _]|(b & s & _ & _ & _ & Hp1)]; [done|].
  destruct (return_buffer_run _ _ _ _ _ [] b _ Hp1) as (s' & Hr & Hp2); [done|].
  destruct (proj2 (partition_delete_guarded _ _ _ _ _ _ Hp2) eq_refl)
    as (s'' & Hd & _ & Hin & _).
  exists s, s', id, b. split; [|split; [exact Hr|by exists s'']].
  apply (proj1 (partition_delete_guarded _ _ _ _ _ _ Hp1)). done.
Defined.
