(* ===== verification/Dpmem.v ===== *)
(** * The dual-ported memory manager

    [rtems/src/dpmem*.c] and [dpmemimpl.h]: ports, which translate between the
    internal and the external addresses of a memory area.  Ports are objects of
    their class; locks are left out. *)

From stdpp Require Import base tactics numbers option list list_numbers gmap fin_maps.
From Stdlib Require Import ZArith Lia.
From S2P Require Import Prelude Status Chain Objects ObjectsStatus ObjectsFacts Partition.

Open Scope Z_scope.

(** ** Data *)
Record Dual_ported_memory_Control := mk_port {
  internal_base : Z;
  external_base : Z;
  port_length : Z
}.

Record port_state (W : Type) := mk_port_state {
  port_info : obj_state W;
  ports : gmap Z Dual_ported_memory_Control
}.
Arguments mk_port_state {W}.
Arguments port_info {W}.
Arguments ports {W}.

Definition set_port_info {W} v (s : port_state W) : port_state W := mk_port_state v (ports s).
Definition set_ports {W} v (s : port_state W) : port_state W := mk_port_state (port_info s) v.

Definition OBJECTS_RTEMS_PORTS : Z := 7.

(** ** The operations *)
Section Ports.
Context {W : Type} `{Workspace W}.
Abbreviation M := (cm (port_state W)).
Implicit Types s : port_state W.

Definition port_objs {A} (m : cm (obj_state W) A) : M A := zoom port_info set_port_info m.
Definition port_ld (o : Z) : M Dual_ported_memory_Control :=
  getsM (fun s => match ports s !! o with Some p => Ok p | None => Undef Bad_address end).

Definition Dual_ported_memory_Allocate : M (option Z) := port_objs Objects_Allocate.
Definition Dual_ported_memory_Free (o : Z) : M unit := port_objs (Objects_Free o).
Definition Dual_ported_memory_Get (id : Z) : M (option Z) := port_objs (Objects_Get id).

Definition Dual_ported_memory_Manager_initialization (maximum_ports size : Z) : M unit :=
  port_objs (Objects_Do_initialize_information OBJECTS_CLASSIC_API OBJECTS_RTEMS_PORTS maximum_ports size).

(** The identifier is written exactly when the result has one. *)
Definition rtems_port_create (name internal_start external_start length : Z) (id_null : bool)
    : M (rtems_status_code * option Z) :=
  if negb (rtems_is_name_valid name) then mret (RTEMS_INVALID_NAME, None)
  else if id_null then mret (RTEMS_INVALID_ADDRESS, None)
  else if negb (Addresses_Is_aligned internal_start) || negb (Addresses_Is_aligned external_start)
  then mret (RTEMS_INVALID_ADDRESS, None)
  else
    the_port ← Dual_ported_memory_Allocate;
    match the_port with
    | None => mret (RTEMS_TOO_MANY, None)
    | Some o =>
        modify (fun s => set_ports (<[o := mk_port internal_start external_start (u32 (length - 1))]> (ports s)) s);;
        port_objs (Objects_Open o name);;
        id ← port_objs (obj_id o);
        mret (RTEMS_SUCCESSFUL, Some id)
    end.

Definition rtems_port_delete (id : Z) : M rtems_status_code :=
  the_port ← Dual_ported_memory_Get id;
  match the_port with
  | None => mret RTEMS_INVALID_ID
  | Some o =>
      port_objs (Objects_Close o);;
      Dual_ported_memory_Free o;;
      mret RTEMS_SUCCESSFUL
  end.

(** The translated address is written exactly when the result has one. *)
Definition rtems_port_external_to_internal (id external : Z) (internal_null : bool)
    : M (rtems_status_code * option Z) :=
  if internal_null then mret (RTEMS_INVALID_ADDRESS, None)
  else
    the_port ← Dual_ported_memory_Get id;
    match the_port with
    | None => mret (RTEMS_INVALID_ID, None)
    | Some o =>
        p ← port_ld o;
        let ending := u32 (Addresses_Subtract external (external_base p)) in
        mret (RTEMS_SUCCESSFUL,
              Some (if port_length p <? ending then external else Addresses_Add_offset (internal_base p) ending))
    end.

Definition rtems_port_internal_to_external (id internal : Z) (external_null : bool)
    : M (rtems_status_code * option Z) :=
  if external_null then mret (RTEMS_INVALID_ADDRESS, None)
  else
    the_port ← Dual_ported_memory_Get id;
    match the_port with
    | None => mret (RTEMS_INVALID_ID, None)
    | Some o =>
        p ← port_ld o;
        let ending := u32 (Addresses_Subtract internal (internal_base p)) in
        mret (RTEMS_SUCCESSFUL,
              Some (if port_length p <? ending then internal else Addresses_Add_offset (external_base p) ending))
    end.

Definition rtems_port_ident (name : Z) (id_null : bool) : M (rtems_status_code * option Z) :=
  status ← port_objs (Objects_Name_to_id_u32 name OBJECTS_SEARCH_ALL_NODES id_null);
  mret (Status_Object_name_errors_to_status status).

(** ** Facts *)
Lemma port_objs_bind {A B} (m : cm (obj_state W) A) (k : A -> M B) s a o' :
  m (port_info s) = Ok (a, o') -> (port_objs m ≫= k) s = k a (set_port_info o' s).
Proof. intros Hm. apply cm_bind_ok. unfold port_objs, zoom. by rewrite Hm. Qed.

Lemma port_objs_read_bind {A B} (m : cm (obj_state W) A) (k : A -> M B) s a :
  m (port_info s) = Ok (a, port_info s) -> (port_objs m ≫= k) s = k a s.
Proof. intros Hm. rewrite (port_objs_bind _ _ _ _ _ Hm). by destruct s. Qed.

(** The port [o] with the identifier [id]. *)
Record port (n : Z) (held : list Z) (o id : Z) (p : Dual_ported_memory_Control) s : Prop := {
  po_class : class_wf n held (information (port_info s));
  po_open : o ∈ active (information (port_info s));
  po_range : 1 <= o <= n;
  po_id : id = id_of (information (port_info s)) o;
  po_control : ports s !! o = Some p
}.

Lemma port_get n held o id p s :
  port n held o id p s -> Objects_Get id (port_info s) = Ok (Some o, port_info s) /\ 0 <= id < 2 ^ 32.
Proof.
  intros [Hw Hop Ho Hid _]. destruct (id_of_value n held _ o Hw ltac:(lia)) as (_ & _ & Hr & _). rewrite <- Hid in Hr.
  destruct (get_run n held id (port_info s) Hw Hr) as (r & Hg & Hspec). split; [|done]. rewrite Hg. by rewrite (proj2 (Hspec o)).
Qed.

Lemma port_ld_bind {B} o p (k : Dual_ported_memory_Control -> M B) s :
  ports s !! o = Some p -> (x ← port_ld o; k x) s = k p s.
Proof. intros Hp. apply getsM_bind. by rewrite Hp. Qed.

(** A translation moves an address of the area and leaves others alone. *)
Definition translate (from to len a : Z) : Z := if bool_decide (from <= a < from + len) then to + (a - from) else a.

Lemma translation_exact from to len a :
  0 <= from -> 0 <= to -> 1 <= len -> from + len <= 2 ^ 32 -> to + len <= 2 ^ 32 -> 0 <= a < 2 ^ 32 ->
  (if u32 (len - 1) <? u32 (Addresses_Subtract a from) then a
   else Addresses_Add_offset to (u32 (Addresses_Subtract a from))) = translate from to len a.
Proof.
  intros Hf Ht Hl Hfl Htl Ha. unfold Addresses_Subtract, Addresses_Add_offset, translate.
  assert (Hu : u32 (i32 (a - from)) = (a - from) mod 2 ^ 32).
  { unfold u32, i32. rewrite Zminus_mod_idemp_l. f_equal. lia. }
  rewrite Hu, (u32_id (len - 1)) by lia. destruct (bool_decide_reflect (from <= a < from + len)) as [Hin|Hout].
  - rewrite Z.mod_small by lia. destruct (Z.ltb_spec (len - 1) (a - from)); [lia|]. apply u32_id. lia.
  - destruct (Z.ltb_spec (len - 1) ((a - from) mod 2 ^ 32)) as [|Hle]; [done|]. exfalso. apply Hout.
    destruct (Z.le_gt_cases from a); [rewrite Z.mod_small in Hle by lia; lia|].
    rewrite <- (Z_mod_plus_full _ 1), Z.mod_small in Hle by lia. lia.
Qed.

Lemma translate_back from to len a : from <= a < from + len -> translate to from len (translate from to len a) = a.
Proof.
  intros Ha. unfold translate. rewrite (bool_decide_true (from <= a < from + len)) by done.
  rewrite bool_decide_true by lia. lia.
Qed.

Lemma convert_run n held o id p s a :
  port n held o id p s -> 0 <= port_length p < 2 ^ 32 ->
  0 <= internal_base p -> 0 <= external_base p -> internal_base p + port_length p < 2 ^ 32 ->
  external_base p + port_length p < 2 ^ 32 -> 0 <= a < 2 ^ 32 ->
  rtems_port_internal_to_external id a false s =
    Ok ((RTEMS_SUCCESSFUL, Some (translate (internal_base p) (external_base p) (port_length p + 1) a)), s) /\
  rtems_port_external_to_internal id a false s =
    Ok ((RTEMS_SUCCESSFUL, Some (translate (external_base p) (internal_base p) (port_length p + 1) a)), s).
Proof.
  intros Hp Hr Hi He Hil Hel Ha. destruct (port_get _ _ _ _ _ _ Hp) as [Hg _].
  unfold rtems_port_internal_to_external, rtems_port_external_to_internal, Dual_ported_memory_Get.
  rewrite !(port_objs_read_bind _ _ _ _ Hg), !(port_ld_bind _ p) by apply Hp. cbv zeta.
  pose proof (fun f t => translation_exact f t (port_length p + 1) a) as Htr.
  replace (u32 (port_length p + 1 - 1)) with (port_length p) in Htr by (rewrite u32_id; lia). by rewrite !Htr by lia.
Qed.

(** A new port: a free object and parameters the directive accepts. *)
Lemma port_create_run n held o name internal external len s :
  class_wf n held (information (port_info s)) -> (exists l, Inactive (information (port_info s)) = o :: l) ->
  name <> 0 -> internal mod CPU_ALIGNMENT = 0 -> external mod CPU_ALIGNMENT = 0 ->
  exists id s1 held', rtems_port_create name internal external len false s = Ok ((RTEMS_SUCCESSFUL, Some id), s1) /\
    port n held' o id (mk_port internal external (u32 (len - 1))) s1.
Proof.
  intros Hw [l Hin] Hna Hi He.
  assert (1 <= o <= n) as Ho by (eapply class_wf_range; [exact Hw|]; rewrite Hin; left).
  pose proof (allocate_run n held (port_info s) Hw) as Hal. rewrite Hin in Hal. destruct Hal as (i1 & Hr1 & Hi1 & Hw1).
  unfold rtems_port_create, rtems_is_name_valid, Addresses_Is_aligned. rewrite (proj2 (Z.eqb_neq name 0)) by done. rewrite Hi, He.
  change (0 =? 0) with true. cbn [negb orb]. unfold Dual_ported_memory_Allocate. rewrite (port_objs_bind _ _ _ _ _ Hr1), modify_bind.
  destruct (open_run n (o :: held) o name i1 Hw1) as (i2 & held2 & Hr3 & _ & Hw2 & Hact & _ & Hid); [by left|].
  match goal with |- context [(port_objs (Objects_Open o name) ≫= ?k) ?x] => rewrite (port_objs_bind _ k x _ _ Hr3) end.
  match goal with |- context [(port_objs (obj_id o) ≫= ?k) ?x] =>
    rewrite (port_objs_read_bind _ k x _ (obj_id_run n held2 o i2 Hw2 Ho)) end.
  eexists _, _, held2. split; [reflexivity|]. split; cbn; try done. apply lookup_insert_eq.
Qed.

Lemma port_delete_run n held o id p s :
  port n held o id p s ->
  exists s', rtems_port_delete id s = Ok (RTEMS_SUCCESSFUL, s') /\ ports s' = ports s /\
    Objects_Get id (port_info s') = Ok (None, port_info s').
Proof.
  intros Hp. destruct (port_get _ _ _ _ _ _ Hp) as [Hg Hidr]. destruct Hp as [Hw Hop Ho Hid Hc].
  unfold rtems_port_delete, Dual_ported_memory_Get. rewrite (port_objs_read_bind _ _ _ _ Hg).
  destruct (close_run n held o (port_info s) Hw Hop) as (i1 & Hr1 & Hw1 & Hna & Hid1). rewrite (port_objs_bind _ _ _ _ _ Hr1).
  destruct (free_run n held o i1 Hw1) as (i2 & Hr2 & Hi2 & Hw2). unfold Dual_ported_memory_Free.
  match goal with |- context [(port_objs (Objects_Free o) ≫= ?k) ?x] => rewrite (port_objs_bind _ k x _ _ Hr2) end.
  eexists. split; [reflexivity|]. split; [done|]. cbn. destruct (get_run n held id i2 Hw2 Hidr) as (r & Hg2 & Hspec). rewrite Hg2.
  destruct r as [o'|]; [|done]. exfalso. destruct (proj1 (Hspec o') eq_refl) as [Ha' Hid'].
  assert (Ho' : 1 <= o' <= n) by (eapply class_wf_range; [exact Hw2|]; apply elem_of_app; right; apply elem_of_app; by right).
  subst i2. cbn in Ha'. change (id = id_of (information i1) o') in Hid'.
  destruct (id_of_value n (o :: held) (information i1) o Hw1 ltac:(lia)) as (_ & Hv & _).
  destruct (id_of_value n (o :: held) (information i1) o' Hw1 ltac:(lia)) as (_ & Hv' & _).
  apply Hna. replace o with o'; [exact Ha'|]. congruence.
Qed.
(** ** Properties *)


(** The length is not checked: a port of length 0 is created, and since the
    code stores the length minus one, it translates every address there is. *)
Theorem port_of_length_zero n held o name internal external s :
  class_wf n held (information (port_info s)) -> (exists l, Inactive (information (port_info s)) = o :: l) ->
  name <> 0 -> internal mod CPU_ALIGNMENT = 0 -> external mod CPU_ALIGNMENT = 0 ->
  exists id s1, rtems_port_create name internal external 0 false s = Ok ((RTEMS_SUCCESSFUL, Some id), s1) /\
    forall a, rtems_port_internal_to_external id a false s1 =
      Ok ((RTEMS_SUCCESSFUL, Some (u32 (external + (a - internal)))), s1).
Proof.
  intros Hw Hf Hna Hi He.
  destruct (port_create_run n held o name internal external 0 s Hw Hf Hna Hi He) as (id & s1 & held' & Hr & Hp).
  exists id, s1. split; [done|]. intros a. destruct (port_get _ _ _ _ _ _ Hp) as [Hg _].
  unfold rtems_port_internal_to_external, Dual_ported_memory_Get. rewrite (port_objs_read_bind _ _ _ _ Hg).
  erewrite port_ld_bind by apply (po_control _ _ _ _ _ _ Hp). cbv zeta. cbn [port_length internal_base external_base].
  pose proof (u32_range (Addresses_Subtract a internal)) as Hu. change (u32 (0 - 1)) with 4294967295.
  rewrite (proj2 (Z.ltb_ge _ _)) by lia.
  assert (E : Addresses_Add_offset external (u32 (Addresses_Subtract a internal)) = u32 (external + (a - internal))).
  { unfold Addresses_Add_offset, Addresses_Subtract, u32, i32. rewrite Zminus_mod_idemp_l, Zplus_mod_idemp_r. f_equal. lia. }
  by rewrite E.
Qed.


End Ports.

(** ** Instances *)
#[local] Existing Instance big_workspace.

Definition port_class : obj_state Z :=
  let s0 := mk_obj_state empty_information 4096 in
  match @Objects_Do_initialize_information Z big_workspace OBJECTS_CLASSIC_API OBJECTS_RTEMS_PORTS 2 100 s0 with
  | Ok (_, s) => s
  | Undef _ => s0
  end.

Definition port_example : port_state Z := mk_port_state port_class ∅.

Lemma port_example_class :
  class_wf 2 [] (information (port_info port_example)) /\ Inactive (information (port_info port_example)) = [1; 2].
Proof.
  destruct (@initialize_run Z big_workspace 2 2 7 100 (mk_obj_state empty_information 4096))
    as (s1 & Hr & Hw & Hin & _ & _); [unfold OBJECTS_ID_FINAL_INDEX; lia|lia|lia|lia|by do 4 eexists|].
  unfold port_example, port_class. change OBJECTS_CLASSIC_API with 2. change OBJECTS_RTEMS_PORTS with 7. by rewrite Hr.
Qed.

