(* ===== verification/RBTreeFacts.v ===== *)
(** * Red-black trees: shape and order

    Which pointers make a tree ([is_tree]), the promises of [sys/tree.h]
    ([SysTreeLaws]), the place a walk down the tree finds, as a path through
    the tree ([descend]), and what the operations of the handler do to the
    in-order traversal. *)

From stdpp Require Import base tactics numbers option list list_numbers gmap fin_maps fin_map_dom fin_sets.
From Stdlib Require Import ZArith Lia.
From S2P Require Import Prelude Chain RBTree.

Open Scope Z_scope.

(** ** Trees of pointers *)
Inductive tree :=
| Leaf
| Node (l : tree) (x : Z) (r : tree).

Fixpoint inorder (t : tree) : list Z :=
  match t with
  | Leaf => []
  | Node l x r => inorder l ++ x :: inorder r
  end.

Definition colored (n : RBTree_Node) : Prop := rbe_color n = RB_BLACK \/ rbe_color n = RB_RED.

(** [p] points to the nodes of [t], whose root has the parent [par]. *)
Fixpoint rep (m : gmap Z RBTree_Node) (par : Z) (t : tree) (p : Z) : Prop :=
  match t with
  | Leaf => p = NULL
  | Node l x r => p = x /\ x <> NULL /\ exists n, m !! x = Some n /\ rbe_parent n = par /\
      colored n /\ rep m x l (rbe_left n) /\ rep m x r (rbe_right n)
  end.

Definition is_tree (s : rb_state) (t : tree) : Prop :=
  rep (rb_nodes s) NULL t (rbh_root s) /\ NoDup (inorder t).

(** ** What [sys/tree.h] promises

    [balanced] is its own invariant, the red-black property of the tree.  After a node
    was linked as a leaf of a balanced tree, the rebalancing keeps the order of
    the nodes; the removal takes one node out of the order.  Both leave alone
    what is not in the tree. *)
Class SysTreeLaws `{SysTree} := {
  balanced : rb_state -> Prop;
  balanced_empty : forall s, rbh_root s = NULL -> balanced s;
  balanced_frame : forall s s' t,
    is_tree s t -> rbh_root s' = rbh_root s ->
    (forall x, x ∈ inorder t -> rb_nodes s' !! x = rb_nodes s !! x) -> balanced s -> balanced s';
  RB_SET_law : forall parent n, RB_SET parent n = mk_RBTree_Node NULL NULL parent RB_RED;
  RB_INSERT_COLOR_law : forall s t x parent link s1 t1,
    balanced s -> is_tree s t -> x ∉ inorder t ->
    RBTree_Add_child x parent link s = Ok (tt, s1) -> is_tree s1 t1 ->
    exists t2, is_tree (RB_INSERT_COLOR x s1) t2 /\ inorder t2 = inorder t1 /\
      balanced (RB_INSERT_COLOR x s1) /\
      (forall y, y ∉ inorder t1 -> rb_nodes (RB_INSERT_COLOR x s1) !! y = rb_nodes s1 !! y);
  RB_REMOVE_law : forall s t l1 x l2,
    balanced s -> is_tree s t -> inorder t = l1 ++ x :: l2 ->
    exists t2, is_tree (RB_REMOVE x s) t2 /\ inorder t2 = l1 ++ l2 /\ balanced (RB_REMOVE x s) /\
      is_Some (rb_nodes (RB_REMOVE x s) !! x) /\
      (forall y, y ∉ inorder t -> rb_nodes (RB_REMOVE x s) !! y = rb_nodes s !! y)
}.

Lemma rep_frame m m' t : forall par p,
  (forall x, x ∈ inorder t -> m' !! x = m !! x) -> rep m par t p -> rep m' par t p.
Proof.
  induction t as [|l IHl x r IHr]; intros par p Hm; [done|].
  cbn [rep inorder] in *. intros (-> & Hx & n & Hn & Hp & Hc & Hl & Hr).
  split_and!; [done..|]. exists n.
  rewrite Hm by set_solver. split_and!; try done.
  - apply IHl; [|done]. intros y Hy. apply Hm. set_solver.
  - apply IHr; [|done]. intros y Hy. apply Hm. set_solver.
Qed.

Lemma rep_null m par t p : rep m par t p -> (p = NULL <-> t = Leaf).
Proof.
  destruct t; cbn [rep]; [by intros ->|]. intros (-> & Hx & _). split; [intros ->; done | done].
Qed.

Lemma rep_nodes m par t : forall p x, rep m par t p -> x ∈ inorder t -> x <> NULL /\ is_Some (m !! x).
Proof.
  revert par. induction t as [|l IHl y r IHr]; intros par p x; cbn [rep inorder]; [set_solver|].
  intros (-> & Hy & n & Hn & Hp & Hc & Hl & Hr). rewrite elem_of_app, elem_of_cons.
  intros [Hx|[->|Hx]]; eauto.
Qed.

(** ** Paths

    A path from the root to a place in the tree, the last step first: the
    nodes passed, with the subtree on the side not taken. *)
Inductive frame :=
| Went_left (x : Z) (r : tree)
| Went_right (l : tree) (x : Z).

Definition path := list frame.

Fixpoint plug (c : path) (t : tree) : tree :=
  match c with
  | [] => t
  | Went_left x r :: c' => plug c' (Node t x r)
  | Went_right l x :: c' => plug c' (Node l x t)
  end.

Fixpoint before (c : path) : list Z :=
  match c with
  | [] => []
  | Went_left _ _ :: c' => before c'
  | Went_right l x :: c' => before c' ++ inorder l ++ [x]
  end.

Fixpoint after (c : path) : list Z :=
  match c with
  | [] => []
  | Went_left x r :: c' => x :: inorder r ++ after c'
  | Went_right _ _ :: c' => after c'
  end.

Lemma inorder_plug c t : inorder (plug c t) = before c ++ inorder t ++ after c.
Proof.
  revert t. induction c as [|[x r|l x] c IH]; intros t; cbn; [by rewrite app_nil_r|..];
    rewrite IH; cbn; by rewrite <- ?app_assoc.
Qed.

Definition link_of (c : path) : rb_link :=
  match c with
  | [] => Link_root
  | Went_left x _ :: _ => Link_left x
  | Went_right _ x :: _ => Link_right x
  end.

Definition parent_of (c : path) : Z :=
  match c with
  | [] => NULL
  | (Went_left x _ | Went_right _ x) :: _ => x
  end.

(** The path leads to a child pointer that holds [p]. *)
Fixpoint hole_is (s : rb_state) (c : path) (p : Z) : Prop :=
  match c with
  | [] => rbh_root s = p
  | Went_left x r :: c' => x <> NULL /\ exists n, rb_nodes s !! x = Some n /\ rbe_left n = p /\
      rbe_parent n = parent_of c' /\ colored n /\ rep (rb_nodes s) x r (rbe_right n) /\
      hole_is s c' x
  | Went_right l x :: c' => x <> NULL /\ exists n, rb_nodes s !! x = Some n /\ rbe_right n = p /\
      rbe_parent n = parent_of c' /\ colored n /\ rep (rb_nodes s) x l (rbe_left n) /\
      hole_is s c' x
  end.

Lemma plug_rep s c : forall t,
  rep (rb_nodes s) NULL (plug c t) (rbh_root s) <->
  exists p, rep (rb_nodes s) (parent_of c) t p /\ hole_is s c p.
Proof.
  induction c as [|[x r|l x] c IH]; intros t; cbn [plug hole_is parent_of].
  - split; [eauto|]. intros (p & Ht & ->). done.
  - rewrite IH. cbn [rep]. split.
    + intros (p & (-> & Hx & n & Hn & Hp & Hc & Hl & Hr) & Hh). eauto 12.
    + intros (p & Ht & Hx & n & Hn & <- & Hp & Hc & Hr & Hh). exists x. eauto 12.
  - rewrite IH. cbn [rep]. split.
    + intros (p & (-> & Hx & n & Hn & Hp & Hc & Hl & Hr) & Hh). eauto 12.
    + intros (p & Ht & Hx & n & Hn & <- & Hp & Hc & Hr & Hh). exists x. eauto 12.
Qed.

Lemma hole_frame s s' c : forall p,
  rbh_root s' = rbh_root s ->
  (forall x, x ∈ before c ++ after c -> rb_nodes s' !! x = rb_nodes s !! x) ->
  hole_is s c p -> hole_is s' c p.
Proof.
  induction c as [|[x r|l x] c IH]; intros p Hroot Hm; cbn [hole_is before after] in *.
  - congruence.
  - intros (Hx & n & Hn & Hl & Hp & Hc & Hr & Hh). split; [done|]. exists n.
    rewrite Hm by set_solver. split_and!; try done.
    + eapply rep_frame; [|done]. intros y Hy. apply Hm. set_solver.
    + apply IH; try done. intros y Hy. apply Hm. set_solver.
  - intros (Hx & n & Hn & Hl & Hp & Hc & Hr & Hh). split; [done|]. exists n.
    rewrite Hm by set_solver. split_and!; try done.
    + eapply rep_frame; [|done]. intros y Hy. apply Hm. set_solver.
    + apply IH; try done. intros y Hy. apply Hm. set_solver.
Qed.

Lemma hole_nodes s c : forall p x, hole_is s c p -> x ∈ before c ++ after c ->
  x <> NULL /\ is_Some (rb_nodes s !! x).
Proof.
  induction c as [|[y r|l y] c IH]; intros p x; cbn [hole_is before after]; [set_solver|..];
    intros (Hy & n & Hn & Hl & Hp & Hc & Hr & Hh); rewrite !elem_of_app, ?elem_of_cons, ?elem_of_app;
    pose proof (fun z => rep_nodes _ _ _ _ z Hr); pose proof (IH _ x Hh) as Hrec;
    rewrite elem_of_app in Hrec.
  - intros [|[->|[|]]]; eauto.
  - intros [[?|[?|[->|?%elem_of_nil]]]|]; try done; eauto.
Qed.

(** ** Single steps *)
Section Steps.
Context `{SysTree}.

Lemma rb_ld_bind {B} x n (k : RBTree_Node -> cm rb_state B) s :
  rb_nodes s !! x = Some n -> (v ← rb_ld x; k v) s = k n s.
Proof. intros Hn. unfold rb_ld. by rewrite (ldm_bind _ _ n). Qed.

Lemma rb_upd_run x n f s :
  rb_nodes s !! x = Some n ->
  rb_upd x f s = Ok (tt, set_rb_nodes (<[x := f n]> (rb_nodes s)) s).
Proof.
  intros Hn. unfold rb_upd. rewrite (rb_ld_bind _ n) by done.
  unfold stm, modifyM, mem_store. cbn. by rewrite Hn.
Qed.

Lemma rb_upd_bind {B} x n f (k : unit -> cm rb_state B) s :
  rb_nodes s !! x = Some n ->
  (v ← rb_upd x f; k v) s = k tt (set_rb_nodes (<[x := f n]> (rb_nodes s)) s).
Proof. intros Hn. apply cm_bind_ok. by apply rb_upd_run. Qed.

Lemma ld_link_run s c p : hole_is s c p -> ld_link (link_of c) s = Ok (p, s).
Proof.
  destruct c as [|[x r|l x] c]; cbn [hole_is link_of ld_link].
  - by intros <-.
  - intros (Hx & n & Hn & <- & _). unfold RBTree_Left. by rewrite (rb_ld_bind _ n).
  - intros (Hx & n & Hn & <- & _). unfold RBTree_Right. by rewrite (rb_ld_bind _ n).
Qed.

(** Writing through a link changes what the path leads to, and only the node
    that holds the pointer. *)
Lemma st_link_run s c p q :
  hole_is s c p -> NoDup (before c ++ after c) ->
  exists s', st_link (link_of c) q s = Ok (tt, s') /\ hole_is s' c q /\
    (forall y, y ∉ before c ++ after c -> rb_nodes s' !! y = rb_nodes s !! y).
Proof.
  destruct c as [|[x r|l x] c]; cbn [hole_is link_of st_link parent_of before after].
  - intros <- _. exists (set_rbh_root q s). done.
  - intros (Hx & n & Hn & <- & Hp & Hc & Hr & Hh) Hnd. eexists.
    rewrite (rb_upd_run _ n) by done. split; [done|]. split; [|cbn; intros y ?; rewrite lookup_insert_ne; set_solver].
    split; [done|]. exists (set_rbe_left q n). cbn. rewrite lookup_insert_eq.
    apply NoDup_app in Hnd as (_ & Hb & [Hxa _]%NoDup_cons). split_and!; try done.
    + eapply rep_frame; [|done]. intros y Hy. apply lookup_insert_ne. set_solver.
    + eapply hole_frame; [..|done]; [done|]. intros y Hy. cbn. apply lookup_insert_ne.
      intros <-. rewrite elem_of_app in Hy. destruct Hy; [|set_solver].
      eapply Hb; [done|]. set_solver.
  - intros (Hx & n & Hn & <- & Hp & Hc & Hr & Hh) Hnd. eexists.
    rewrite (rb_upd_run _ n) by done. split; [done|]. split; [|cbn; intros y ?; rewrite lookup_insert_ne; set_solver].
    split; [done|]. exists (set_rbe_right q n). cbn. rewrite lookup_insert_eq.
    rewrite <- !app_assoc in Hnd. apply NoDup_app in Hnd as (_ & Hb & Hnd).
    apply NoDup_app in Hnd as (_ & Hl & [Hxa _]%NoDup_cons). split_and!; try done.
    + eapply rep_frame; [|done]. intros y Hy. apply lookup_insert_ne. intros <-.
      eapply Hl; [done|]. set_solver.
    + eapply hole_frame; [..|done]; [done|]. intros y Hy. cbn. apply lookup_insert_ne.
      intros <-. rewrite elem_of_app in Hy. destruct Hy; [|set_solver].
      eapply Hb; [done|]. set_solver.
Qed.

(** A node that is linked at the end of a path. *)
Lemma add_child_run `{!SysTreeLaws} s c x n0 :
  is_tree s (plug c Leaf) -> x ∉ before c ++ after c -> x <> NULL -> rb_nodes s !! x = Some n0 ->
  exists s1, RBTree_Add_child x (parent_of c) (link_of c) s = Ok (tt, s1) /\
    is_tree s1 (plug c (Node Leaf x Leaf)) /\
    (forall y, y <> x -> y ∉ before c ++ after c -> rb_nodes s1 !! y = rb_nodes s !! y).
Proof.
  intros [Ht Hnd] Hx Hx0 Hn. rewrite inorder_plug in Hnd. cbn in Hnd.
  apply plug_rep in Ht as (p & Hp & Hh).
  set (s0 := set_rb_nodes (<[x := RB_SET (parent_of c) n0]> (rb_nodes s)) s).
  assert (Hh0 : hole_is s0 c p).
  { eapply hole_frame; [..|done]; [done|]. intros y Hy. cbn. apply lookup_insert_ne. set_solver. }
  destruct (st_link_run s0 c p x Hh0 Hnd) as (s1 & Hrun & Hh1 & Hf).
  exists s1. split; [|split; [split|]].
  - unfold RBTree_Add_child. by rewrite (rb_upd_bind _ n0).
  - apply plug_rep. exists x. split; [|done]. cbn [rep]. split_and!; [done..|].
    exists (RB_SET (parent_of c) n0). rewrite Hf by done. cbn. rewrite lookup_insert_eq, RB_SET_law.
    cbn. split_and!; try done. by right.
  - rewrite inorder_plug. cbn. apply NoDup_app in Hnd as (Hb & Hba & Ha).
    rewrite NoDup_app, NoDup_cons. set_solver.
  - intros y Hy Hyc. rewrite Hf by done. cbn. by apply lookup_insert_ne.
Qed.

(** The leaf is made a part of the tree by the rebalancing. *)
Lemma insert_at_run `{!SysTreeLaws} s c x n0 :
  balanced s -> is_tree s (plug c Leaf) -> x ∉ before c ++ after c -> x <> NULL ->
  rb_nodes s !! x = Some n0 ->
  exists s' t', RBTree_Insert_with_parent x (parent_of c) (link_of c) s = Ok (tt, s') /\
    is_tree s' t' /\ inorder t' = before c ++ x :: after c /\ balanced s' /\
    (forall y, y ∉ inorder t' -> rb_nodes s' !! y = rb_nodes s !! y).
Proof.
  intros Hb Ht Hx Hx0 Hn.
  destruct (add_child_run s c x n0 Ht Hx Hx0 Hn) as (s1 & Hrun & Ht1 & Hf1).
  destruct (RB_INSERT_COLOR_law s (plug c Leaf) x (parent_of c) (link_of c) s1
    (plug c (Node Leaf x Leaf)) Hb Ht) as (t2 & Ht2 & Hin & Hb2 & Hf2);
    [by rewrite inorder_plug|done..|].
  rewrite inorder_plug in Hin. cbn in Hin.
  exists (RB_INSERT_COLOR x s1), t2. split_and!; try done.
  - unfold RBTree_Insert_with_parent. by rewrite (cm_bind_ok _ _ _ _ _ Hrun).
  - intros y. rewrite Hin. intros Hy. rewrite Hf2 by (rewrite inorder_plug; done).
    apply Hf1; set_solver.
Qed.

End Steps.

(** ** Walks down the tree *)

(** The path of a walk that goes left where [left] says so. *)
Fixpoint descend (left : Z -> bool) (c : path) (t : tree) : path :=
  match t with
  | Leaf => c
  | Node l x r =>
      if left x then descend left (Went_left x r :: c) l
      else descend left (Went_right l x :: c) r
  end.

Lemma plug_descend left t : forall c, plug (descend left c t) Leaf = plug c t.
Proof.
  induction t as [|l IHl x r IHr]; intros c; cbn [descend]; [done|].
  destruct (left x); rewrite ?IHl, ?IHr; done.
Qed.

(** Once [left] holds in the order, it goes on to hold. *)
Definition upward (left : Z -> bool) (l : list Z) : Prop :=
  forall l1 x l2, l = l1 ++ x :: l2 -> left x = true -> Forall (fun y => left y = true) l2.

Lemma upward_split left l x r :
  upward left (l ++ x :: r) ->
  upward left l /\ upward left r /\
  (if left x then Forall (fun y => left y = true) r else Forall (fun y => left y = false) l).
Proof.
  intros Hu. split_and!.
  - intros l1 y l2 -> Hy. specialize (Hu l1 y (l2 ++ x :: r)).
    rewrite <- app_assoc in Hu. specialize (Hu eq_refl Hy). by apply Forall_app in Hu as [? _].
  - intros l1 y l2 -> Hy. apply (Hu (l ++ x :: l1) y l2); [|done]. by rewrite <- app_assoc.
  - destruct (left x) eqn:Hx; [by apply (Hu l x r)|]. apply Forall_forall. intros y Hy.
    destruct (left y) eqn:Hly; [|done]. apply list_elem_of_split in Hy as (l1 & l2 & ->).
    specialize (Hu l1 y (l2 ++ x :: r)). rewrite <- app_assoc in Hu.
    specialize (Hu eq_refl Hly). rewrite Forall_app, Forall_cons in Hu. by destruct Hu as (_ & ? & _); congruence.
Qed.

Lemma filter_all {A} (P : A -> Prop) `{!forall x, Decision (P x)} l : Forall P l -> filter P l = l.
Proof. induction 1; [done|]. rewrite filter_cons_True by done. congruence. Qed.

Lemma filter_none {A} (P : A -> Prop) `{!forall x, Decision (P x)} l :
  Forall (fun x => ~ P x) l -> filter P l = [].
Proof. induction 1; [done|]. by rewrite filter_cons_False. Qed.

(** The walk ends between the nodes for which [left] does not hold and those
    for which it does. *)
Lemma descend_order left t : forall c, upward left (inorder t) ->
  before (descend left c t) = before c ++ filter (fun x => left x = false) (inorder t) /\
  after (descend left c t) = filter (fun x => left x = true) (inorder t) ++ after c.
Proof.
  induction t as [|l IHl x r IHr]; intros c Hu; cbn [descend inorder];
    [by rewrite app_nil_r|].
  apply upward_split in Hu as (Hl & Hr & Hx).
  rewrite !filter_app, !filter_cons. destruct (left x) eqn:E.
  - destruct (IHl (Went_left x r :: c) Hl) as [-> ->]. cbn [before after].
    rewrite decide_False, decide_True by done.
    rewrite (filter_all _ (inorder r) Hx), (filter_none (fun y => left y = false) (inorder r)), app_nil_r
      by (eapply Forall_impl; [done|]; cbn; congruence).
    by rewrite <- app_assoc.
  - destruct (IHr (Went_right l x :: c) Hr) as [-> ->]. cbn [before after].
    rewrite decide_True, decide_False by done.
    rewrite (filter_all _ (inorder l) Hx), (filter_none (fun y => left y = true) (inorder l))
      by (eapply Forall_impl; [done|]; cbn; congruence).
    by rewrite <- !app_assoc.
Qed.

Lemma tree_size s t : is_tree s t -> (length (inorder t) <= size (rb_nodes s))%nat.
Proof.
  intros [Ht Hnd]. rewrite <- (size_list_to_set (C := gset Z)) by done.
  rewrite <- (size_dom (D := gset Z)). apply subseteq_size. intros x Hx%elem_of_list_to_set.
  apply elem_of_dom. by eapply rep_nodes.
Qed.

(** One step of a walk, down to the left or to the right. *)
Lemma walk_step s c l x r p :
  rep (rb_nodes s) (parent_of c) (Node l x r) p -> hole_is s c p ->
  p = x /\ x <> NULL /\
  (exists q, rep (rb_nodes s) x l q /\ hole_is s (Went_left x r :: c) q) /\
  (exists q, rep (rb_nodes s) x r q /\ hole_is s (Went_right l x :: c) q).
Proof.
  cbn [rep hole_is]. intros (-> & Hx & n & Hn & Hp & Hc & Hl & Hr) Hh.
  split_and!; [done..| |]; eexists; (split; [done|]); (split; [done|]); by exists n.
Qed.

Section Operations.
Context `{SysTreeLaws}.

Lemma insert_inline_loop_run less t : forall s c p fuel,
  rep (rb_nodes s) (parent_of c) t p -> hole_is s c p -> (length (inorder t) < fuel)%nat ->
  let c' := descend less c t in
  insert_inline_loop less fuel (link_of c) (parent_of c) (bool_decide (before c = [])) s =
  Ok (link_of c', parent_of c', bool_decide (before c' = []), s).
Proof.
  induction t as [|l IHl x r IHr]; intros s c p fuel Hp Hh Hfuel; (destruct fuel; [lia|]);
    cbn [insert_inline_loop descend]; rewrite (cm_bind_ok _ _ _ _ _ (ld_link_run s c p Hh)).
  - cbn in Hp. by subst.
  - destruct (walk_step _ _ _ _ _ _ Hp Hh) as (-> & Hx & (q & Hq & Hhq) & (q' & Hq' & Hhq')).
    cbn [inorder] in Hfuel. rewrite length_app in Hfuel. cbn in Hfuel.
    rewrite (proj2 (Z.eqb_neq x NULL)) by done. destruct (less x).
    + apply (IHl s (Went_left x r :: c) q); [done..|lia].
    + etrans; [|apply (IHr s (Went_right l x :: c) q' fuel); [done..|lia]].
      rewrite (bool_decide_eq_false_2 (before (Went_right l x :: c) = [])); [done|].
      cbn. by destruct (before c), (inorder l).
Qed.

(** [_RBTree_Insert_inline] puts the node behind all nodes it is not less than,
    and tells whether it is the first now. *)
Lemma insert_inline_run s t x n0 less :
  balanced s -> is_tree s t -> upward less (inorder t) -> x ∉ inorder t -> x <> NULL ->
  rb_nodes s !! x = Some n0 ->
  let smaller := filter (fun y => less y = false) (inorder t) in
  exists s' t', RBTree_Insert_inline x less s = Ok (bool_decide (smaller = []), s') /\
    is_tree s' t' /\ inorder t' = smaller ++ x :: filter (fun y => less y = true) (inorder t) /\
    balanced s' /\ (forall y, y ∉ inorder t' -> rb_nodes s' !! y = rb_nodes s !! y).
Proof.
  intros Hb Ht Hu Hx Hx0 Hn smaller. pose proof (tree_size s t Ht) as Hsize.
  destruct (descend_order less t [] Hu) as [Hbe Haf]. rewrite app_nil_r in Haf. cbn in Hbe.
  pose proof (inorder_plug (descend less [] t) Leaf) as Hpl. cbn in Hpl.
  pose proof (plug_descend less t []) as Hd. rewrite Hd in Hpl. cbn in Hpl.
  destruct (insert_at_run s (descend less [] t) x n0 Hb)
    as (s' & t' & Hrun & Ht' & Hin & Hb' & Hf); [by rewrite Hd|by rewrite <- Hpl|done..|].
  exists s', t'. split_and!; try done; [|by rewrite Hin, Hbe, Haf].
  unfold RBTree_Insert_inline. rewrite gets_bind.
  pose proof (insert_inline_loop_run less t s [] (rbh_root s) (S (size (rb_nodes s)))
    (proj1 Ht) eq_refl ltac:(lia)) as Hl.
  rewrite (cm_bind_ok _ _ _ _ _ Hl), Hbe.
  etrans; [symmetry; exact (cm_bind_assoc _ _ _ s)|]. by rewrite (cm_bind_ok _ _ _ _ _ Hrun).
Qed.

(** [_RBTree_Extract] takes the node out of the order. *)
Lemma extract_run s t l1 x l2 :
  balanced s -> is_tree s t -> inorder t = l1 ++ x :: l2 ->
  exists s' t', RBTree_Extract x s = Ok (tt, s') /\ is_tree s' t' /\ inorder t' = l1 ++ l2 /\
    balanced s' /\ is_Some (rb_nodes s' !! x) /\
    (forall y, y ∉ inorder t -> rb_nodes s' !! y = rb_nodes s !! y).
Proof.
  intros Hb Ht Hin. destruct (RB_REMOVE_law s t l1 x l2 Hb Ht Hin) as (t' & ? & ? & ? & ? & ?).
  exists (RB_REMOVE x s), t'. done.
Qed.

End Operations.

(** The path to a node of the tree. *)
Lemma path_to t x : x ∈ inorder t -> exists c l r, t = plug c (Node l x r).
Proof.
  assert (Hg : forall t c, x ∈ inorder t -> exists c' l r, plug c t = plug c' (Node l x r)).
  { clear t. induction t as [|l IHl y r IHr]; intros c; cbn [inorder]; [set_solver|].
    rewrite elem_of_app, elem_of_cons. intros [Hx|[->|Hx]]; [..|by exists c, l, r|].
    - exact (IHl (Went_left y r :: c) Hx).
    - exact (IHr (Went_right l y :: c) Hx). }
  apply (Hg t []).
Qed.

(** The parent of the first node is the one behind its right subtree. *)
Lemma parent_is_next c : before c = [] -> parent_of c = default NULL (head (after c)).
Proof. destruct c as [|[x r|l x] c]; cbn; [done..|]. by destruct (before c), (inorder l). Qed.

(** ** An implementation of the interface

    The smallest one: a new leaf stays where it is, and a removal builds the
    tree of the remaining nodes anew, each the right child of the one before. *)
Fixpoint flatten (fuel : nat) (m : gmap Z RBTree_Node) (p : Z) : list Z :=
  match fuel, m !! p with
  | S fuel', Some n =>
      if p =? NULL then [] else flatten fuel' m (rbe_left n) ++ p :: flatten fuel' m (rbe_right n)
  | _, _ => []
  end.

Fixpoint vine (par : Z) (l : list Z) (m : gmap Z RBTree_Node) : gmap Z RBTree_Node :=
  match l with
  | [] => m
  | x :: l' => <[x := mk_RBTree_Node NULL (default NULL (head l')) par RB_BLACK]> (vine x l' m)
  end.

Fixpoint vine_tree (l : list Z) : tree :=
  match l with
  | [] => Leaf
  | x :: l' => Node Leaf x (vine_tree l')
  end.

Definition vine_remove (x : Z) (s : rb_state) : rb_state :=
  let l := filter (fun y => y <> x) (flatten (size (rb_nodes s)) (rb_nodes s) (rbh_root s)) in
  mk_rb_state (default NULL (head l)) (vine NULL l (rb_nodes s)).

Definition vine_sys_tree : SysTree := {|
  RB_SET parent _ := mk_RBTree_Node NULL NULL parent RB_RED;
  RB_INSERT_COLOR _ s := s;
  RB_REMOVE := vine_remove
|}.

Lemma flatten_rep m t : forall par p fuel,
  rep m par t p -> (length (inorder t) <= fuel)%nat -> flatten fuel m p = inorder t.
Proof.
  induction t as [|l IHl x r IHr]; intros par p fuel; cbn [rep inorder].
  - intros -> _. destruct fuel; cbn; [done|]. by destruct (m !! NULL).
  - intros (-> & Hx & n & Hn & _ & _ & Hl & Hr). rewrite length_app. cbn. intros Hf.
    destruct fuel as [|fuel]; [lia|]. cbn. rewrite Hn, (proj2 (Z.eqb_neq x NULL)) by done.
    rewrite (IHl x _ fuel), (IHr x _ fuel); (done || lia).
Qed.

Lemma vine_inorder l : inorder (vine_tree l) = l.
Proof. induction l; cbn; congruence. Qed.

Lemma vine_other l m y : forall par, y ∉ l -> vine par l m !! y = m !! y.
Proof.
  induction l as [|x l IH]; intros par Hy; cbn; [done|]. rewrite lookup_insert_ne by set_solver.
  apply IH. set_solver.
Qed.

Lemma vine_rep l m : forall par, NoDup l -> NULL ∉ l ->
  rep (vine par l m) par (vine_tree l) (default NULL (head l)).
Proof.
  induction l as [|x l IH]; intros par Hnd H0; cbn [vine vine_tree rep]; [done|].
  apply NoDup_cons in Hnd as [Hx Hnd]. cbn. split_and!; [done|set_solver|].
  eexists. rewrite lookup_insert_eq. split_and!; try done; [by left|]. cbn.
  eapply rep_frame; [|apply IH; [done|set_solver]]. rewrite vine_inorder.
  intros y Hy. apply lookup_insert_ne. set_solver.
Qed.

Lemma vine_mapped l m x : forall par, is_Some (m !! x) -> is_Some (vine par l m !! x).
Proof.
  induction l as [|y l IH]; intros par Hx; cbn; [done|].
  destruct (decide (x = y)) as [->|]; [rewrite lookup_insert_eq; eauto|].
  rewrite lookup_insert_ne by done. by apply IH.
Qed.

Definition vine_laws : @SysTreeLaws vine_sys_tree.
Proof.
  refine (@Build_SysTreeLaws vine_sys_tree (fun _ => True) _ _ _ _ _); [done|done|done|..].
  - intros s t x parent link s1 t1 _ _ _ _ Ht1. exists t1. done.
  - intros s t l1 x l2 _ Ht Hin. pose proof (tree_size s t Ht) as Hsize. destruct Ht as [Ht Hnd].
    cbn [RB_REMOVE vine_sys_tree]. unfold vine_remove.
    rewrite (flatten_rep _ t NULL) by done. rewrite Hin in Hnd |- *.
    assert (Hfl : filter (fun y => y <> x) (l1 ++ x :: l2) = l1 ++ l2).
    { apply NoDup_app in Hnd as (_ & H1 & [H2 _]%NoDup_cons).
      rewrite filter_app, filter_cons_False, !filter_all; try done; [..|naive_solver];
        apply Forall_forall; set_solver. }
    rewrite Hfl. exists (vine_tree (l1 ++ l2)). cbn.
    assert (Hnd' : NoDup (l1 ++ l2)).
    { apply NoDup_app in Hnd as (? & ? & [? ?]%NoDup_cons). apply NoDup_app. set_solver. }
    assert (Hnodes : forall y, y ∈ l1 ++ x :: l2 -> y <> NULL /\ is_Some (rb_nodes s !! y)).
    { intros y Hy. eapply rep_nodes; [done|by rewrite Hin]. }
    split_and!; try done.
    + split; cbn; [|by rewrite vine_inorder]. apply vine_rep; [done|].
      intros H0. apply (Hnodes NULL); [set_solver|done].
    + apply vine_inorder.
    + apply vine_mapped, Hnodes. set_solver.
    + intros y Hy. apply vine_other. set_solver.
Defined.
