(* ===== verification/Watchdog.v ===== *)
(** * Watchdogs and the clock tick

    The timers of the kernel: [score/src/watchdoginsert.c],
    [watchdogremove.c], [watchdogtick.c] and the inlines of
    [watchdogimpl.h].  The scheduled watchdogs of a header are the nodes of a
    red-black tree ordered by expiration time; [first] points to the earliest
    one.  A processor has two headers, for timers in clock ticks and for
    timers at a date.  The single processor configuration is translated; the
    service routines, the time counter and the scheduler are parameters of the
    clock tick. *)

From stdpp Require Import base tactics numbers option list list_numbers gmap fin_maps.
From Stdlib Require Import ZArith Lia.
From S2P Require Import Prelude Chain Timespec RBTree.

Open Scope Z_scope.

(** ** Data *)
Record Watchdog_Header := mk_Watchdog_Header {
  Watchdogs : Z;
  first : Z
}.

(** The node of a watchdog is its first member and so has its address; the
    nodes are kept apart in [wd_nodes]. *)
Record Watchdog_Control := mk_Watchdog_Control {
  routine : Z;
  expire : Z
}.
Definition set_routine v (w : Watchdog_Control) : Watchdog_Control :=
  mk_Watchdog_Control v (expire w).
Definition set_expire v (w : Watchdog_Control) : Watchdog_Control :=
  mk_Watchdog_Control (routine w) v.

Inductive Per_CPU_Watchdog_index :=
| PER_CPU_WATCHDOG_RELATIVE
| PER_CPU_WATCHDOG_ABSOLUTE.

#[export] Instance Per_CPU_Watchdog_index_eq_dec : EqDecision Per_CPU_Watchdog_index.
Proof. solve_decision. Defined.

Definition WATCHDOG_SCHEDULED_BLACK : Z := 0.
Definition WATCHDOG_SCHEDULED_RED : Z := 1.
Definition WATCHDOG_INACTIVE : Z := 2.
Definition WATCHDOG_PENDING : Z := 3.

Definition WATCHDOG_BITS_FOR_1E9_NANOSECONDS : Z := 30.

(** The watchdog part of the processor control, the watchdogs in memory, and
    the rest of the system, which the service routines work on. *)
Record wd_state (T : Type) := mk_wd_state {
  relative_header : Watchdog_Header;
  absolute_header : Watchdog_Header;
  wd_ticks : Z;
  Watchdog_Ticks_since_boot : Z;
  wd_nodes : gmap Z RBTree_Node;
  wd_controls : gmap Z Watchdog_Control;
  wd_rest : T
}.
Arguments mk_wd_state {T}.
Arguments relative_header {T}.
Arguments absolute_header {T}.
Arguments wd_ticks {T}.
Arguments Watchdog_Ticks_since_boot {T}.
Arguments wd_nodes {T}.
Arguments wd_controls {T}.
Arguments wd_rest {T}.

Section Watchdogs.
Context {T : Type} `{SysTree}.

Abbreviation M := (cm (wd_state T)).
Implicit Types s : wd_state T.

Definition header_of (i : Per_CPU_Watchdog_index) s : Watchdog_Header :=
  match i with
  | PER_CPU_WATCHDOG_RELATIVE => relative_header s
  | PER_CPU_WATCHDOG_ABSOLUTE => absolute_header s
  end.

Definition set_header (i : Per_CPU_Watchdog_index) (h : Watchdog_Header) s : wd_state T :=
  match i with
  | PER_CPU_WATCHDOG_RELATIVE =>
      mk_wd_state h (absolute_header s) (wd_ticks s) (Watchdog_Ticks_since_boot s) (wd_nodes s)
        (wd_controls s) (wd_rest s)
  | PER_CPU_WATCHDOG_ABSOLUTE =>
      mk_wd_state (relative_header s) h (wd_ticks s) (Watchdog_Ticks_since_boot s) (wd_nodes s)
        (wd_controls s) (wd_rest s)
  end.
Definition set_wd_ticks v s : wd_state T :=
  mk_wd_state (relative_header s) (absolute_header s) v (Watchdog_Ticks_since_boot s)
    (wd_nodes s) (wd_controls s) (wd_rest s).
Definition set_Watchdog_Ticks_since_boot v s : wd_state T :=
  mk_wd_state (relative_header s) (absolute_header s) (wd_ticks s) v
    (wd_nodes s) (wd_controls s) (wd_rest s).
Definition set_wd_nodes v s : wd_state T :=
  mk_wd_state (relative_header s) (absolute_header s) (wd_ticks s) (Watchdog_Ticks_since_boot s)
    v (wd_controls s) (wd_rest s).
Definition set_wd_controls v s : wd_state T :=
  mk_wd_state (relative_header s) (absolute_header s) (wd_ticks s) (Watchdog_Ticks_since_boot s)
    (wd_nodes s) v (wd_rest s).
Definition set_wd_rest v s : wd_state T :=
  mk_wd_state (relative_header s) (absolute_header s) (wd_ticks s) (Watchdog_Ticks_since_boot s)
    (wd_nodes s) (wd_controls s) v.
Definition F_wd_controls : field (wd_state T) (gmap Z Watchdog_Control) :=
  mk_field wd_controls set_wd_controls.

Definition wd_ld {A} (w : Z) (f : Watchdog_Control -> A) : M A :=
  c ← ldm F_wd_controls w; mret (f c).
Definition wd_upd (w : Z) (f : Watchdog_Control -> Watchdog_Control) : M unit :=
  c ← ldm F_wd_controls w; stm F_wd_controls w (f c).
Definition ld_first (i : Per_CPU_Watchdog_index) : M Z := gets (fun s => first (header_of i s)).
Definition st_first (i : Per_CPU_Watchdog_index) (p : Z) : M unit :=
  modify (fun s => set_header i (mk_Watchdog_Header (Watchdogs (header_of i s)) p) s).

(** The tree of a header. *)
Definition tree_of (i : Per_CPU_Watchdog_index) s : rb_state :=
  mk_rb_state (Watchdogs (header_of i s)) (wd_nodes s).
Definition set_tree (i : Per_CPU_Watchdog_index) (r : rb_state) s : wd_state T :=
  set_wd_nodes (rb_nodes r)
    (set_header i (mk_Watchdog_Header (rbh_root r) (first (header_of i s))) s).
Definition in_tree {A} (i : Per_CPU_Watchdog_index) (m : cm rb_state A) : M A :=
  zoom (tree_of i) (set_tree i) m.

(** ** Single watchdogs *)

(** The state of a watchdog is kept in the color of its node, whichever tree
    it is in. *)
Definition Watchdog_Get_state (the_watchdog : Z) : M Z :=
  in_tree PER_CPU_WATCHDOG_RELATIVE (n ← rb_ld the_watchdog; mret (rbe_color n)).
Definition Watchdog_Set_state (the_watchdog state : Z) : M unit :=
  in_tree PER_CPU_WATCHDOG_RELATIVE (rb_upd the_watchdog (set_rbe_color state)).

Definition Watchdog_Is_scheduled (the_watchdog : Z) : M bool :=
  state ← Watchdog_Get_state the_watchdog; mret (state <? WATCHDOG_INACTIVE).

Definition Watchdog_Preinitialize (the_watchdog : Z) : M unit :=
  Watchdog_Set_state the_watchdog WATCHDOG_INACTIVE.
Definition Watchdog_Initialize (the_watchdog routine : Z) : M unit :=
  wd_upd the_watchdog (set_routine routine).

Definition Watchdog_Header_initialize (i : Per_CPU_Watchdog_index) : M unit :=
  in_tree i RBTree_Initialize_empty;;
  st_first i NULL.

(** ** Scheduling *)

(** The walk to the place of the watchdog: [new_first] becomes the old first
    one as soon as the walk goes right. *)
Fixpoint watchdog_insert_loop (fuel : nat) (i : Per_CPU_Watchdog_index) (expire_time old_first : Z)
    (link : rb_link) (parent new_first : Z) : M (rb_link * Z * Z) :=
  match fuel with
  | O => lift (Undef Divergence)
  | S fuel' =>
      v ← in_tree i (ld_link link);
      if v =? NULL then mret (link, parent, new_first)
      else
        parent_expire ← wd_ld v expire;
        if expire_time <? parent_expire then
          watchdog_insert_loop fuel' i expire_time old_first (RBTree_Left_reference v) v new_first
        else
          watchdog_insert_loop fuel' i expire_time old_first (RBTree_Right_reference v) v old_first
  end.

Definition Watchdog_Insert (i : Per_CPU_Watchdog_index) (the_watchdog expire_time : Z) : M unit :=
  old_first ← ld_first i;
  wd_upd the_watchdog (set_expire expire_time);;
  fuel ← gets (fun s => S (size (wd_nodes s)));
  r ← watchdog_insert_loop fuel i expire_time old_first RBTree_Root_reference NULL the_watchdog;
  let '(link, parent, new_first) := r in
  st_first i new_first;;
  in_tree i (RBTree_Add_child the_watchdog parent link);;
  in_tree i (RBTree_Insert_color the_watchdog).

(** The leftmost node below [node]. *)
Fixpoint leftmost_loop (fuel : nat) (i : Per_CPU_Watchdog_index) (node : Z) : M Z :=
  match fuel with
  | O => lift (Undef Divergence)
  | S fuel' =>
      left ← in_tree i (RBTree_Left node);
      if negb (left =? NULL) then leftmost_loop fuel' i left else mret node
  end.

Definition Watchdog_Next_first (i : Per_CPU_Watchdog_index) (the_watchdog : Z) : M unit :=
  node ← in_tree i (RBTree_Right the_watchdog);
  if negb (node =? NULL) then
    fuel ← gets (fun s => size (wd_nodes s));
    node ← leftmost_loop fuel i node;
    st_first i node
  else
    parent ← in_tree i (RBTree_Parent the_watchdog);
    st_first i parent.

Definition Watchdog_Remove (i : Per_CPU_Watchdog_index) (the_watchdog : Z) : M unit :=
  scheduled ← Watchdog_Is_scheduled the_watchdog;
  c_if scheduled
    (f ← ld_first i;
     c_if (f =? the_watchdog) (Watchdog_Next_first i the_watchdog);;
     in_tree i (RBTree_Extract the_watchdog);;
     Watchdog_Set_state the_watchdog WATCHDOG_INACTIVE).

Definition Watchdog_Cancel (i : Per_CPU_Watchdog_index) (the_watchdog now : Z) : M Z :=
  e ← wd_ld the_watchdog expire;
  let remaining := if now <? e then u64 (e - now) else 0 in
  Watchdog_Remove i the_watchdog;;
  mret remaining.

(** ** Times *)
Definition Watchdog_Ticks_from_seconds (seconds : Z) : Z :=
  u64 (Z.shiftl seconds WATCHDOG_BITS_FOR_1E9_NANOSECONDS).

Definition Watchdog_Ticks_from_timespec (ts : timespec) : Z :=
  Z.lor (u64 (Z.shiftl (u64 (tv_sec ts)) WATCHDOG_BITS_FOR_1E9_NANOSECONDS)) (u32 (tv_nsec ts)).

(** A signed left shift of a negative value is undefined. *)
Definition Watchdog_Ticks_from_sbintime (sbt : Z) : outcome Z :=
  if sbt <? 0 then Undef Bad_shift
  else Ok (Z.lor (u64 (Z.shiftl (Z.shiftr sbt 32) WATCHDOG_BITS_FOR_1E9_NANOSECONDS))
                 (Z.shiftr (u64 (1000000000 * u32 sbt)) 32)).

(** ** The timers of the processor *)
Definition Watchdog_Per_CPU_insert_relative (the_watchdog ticks : Z) : M Z :=
  now ← gets wd_ticks;
  let expire_time := u64 (ticks + now) in
  Watchdog_Insert PER_CPU_WATCHDOG_RELATIVE the_watchdog expire_time;;
  mret expire_time.

Definition Watchdog_Per_CPU_insert_absolute (the_watchdog expire_time : Z) : M Z :=
  Watchdog_Insert PER_CPU_WATCHDOG_ABSOLUTE the_watchdog expire_time;;
  mret expire_time.

Definition Watchdog_Per_CPU_remove (the_watchdog : Z) (i : Per_CPU_Watchdog_index) : M unit :=
  Watchdog_Remove i the_watchdog.
Definition Watchdog_Per_CPU_remove_relative (the_watchdog : Z) : M unit :=
  Watchdog_Per_CPU_remove the_watchdog PER_CPU_WATCHDOG_RELATIVE.
Definition Watchdog_Per_CPU_remove_absolute (the_watchdog : Z) : M unit :=
  Watchdog_Per_CPU_remove the_watchdog PER_CPU_WATCHDOG_ABSOLUTE.

(** ** The clock tick *)

(** [call_routine r w] is the call of the service routine [r] on the watchdog
    [w]; [Timecounter_Getnanotime] the time of day; [Scheduler_Tick] the tick
    of the scheduler. *)
Section Tick.
Variable call_routine : Z -> Z -> M unit.
Variable Timecounter_Getnanotime : M timespec.
Variable Scheduler_Tick : M unit.

(** The loop ends when no watchdog of the header is due; a service routine may
    schedule its watchdog again, so that the number of rounds depends on the
    routines. *)
Fixpoint Watchdog_Do_tickle (fuel : nat) (i : Per_CPU_Watchdog_index) (now : Z) : M unit :=
  match fuel with
  | O => lift (Undef Divergence)
  | S fuel' =>
      the_watchdog ← ld_first i;
      if the_watchdog =? NULL then mret tt
      else
        e ← wd_ld the_watchdog expire;
        if e <=? now then
          Watchdog_Next_first i the_watchdog;;
          in_tree i (RBTree_Extract the_watchdog);;
          Watchdog_Set_state the_watchdog WATCHDOG_INACTIVE;;
          r ← wd_ld the_watchdog routine;
          call_routine r the_watchdog;;
          Watchdog_Do_tickle fuel' i now
        else mret tt
  end.

Definition Watchdog_Per_CPU_tickle_absolute (fuel : nat) (now : Z) : M unit :=
  Watchdog_Do_tickle fuel PER_CPU_WATCHDOG_ABSOLUTE now.

Definition Watchdog_Tick (fuel : nat) : M unit :=
  modify (fun s => set_Watchdog_Ticks_since_boot (u32 (Watchdog_Ticks_since_boot s + 1)) s);;
  t ← gets wd_ticks;
  let ticks := u64 (t + 1) in
  modify (set_wd_ticks ticks);;
  Watchdog_Do_tickle fuel PER_CPU_WATCHDOG_RELATIVE ticks;;
  now ← Timecounter_Getnanotime;
  Watchdog_Per_CPU_tickle_absolute fuel (Watchdog_Ticks_from_timespec now);;
  Scheduler_Tick.

End Tick.

End Watchdogs.
