(* ===== verification/WatchdogFacts.v ===== *)
(** * Watchdogs: the queue of timers

    The watchdogs of a header are a queue ordered by expiration time, those
    that expire at the same time in the order of their insertion ([wd_inv]).
    Each operation of [Watchdog] does to the queue what its name says. *)

From stdpp Require Import base tactics numbers option list list_numbers gmap fin_maps fin_map_dom fin_sets sorting.
From Stdlib Require Import ZArith Lia.
From S2P Require Import Prelude Chain Timespec RBTree RBTreeFacts Watchdog.

Open Scope Z_scope.

(** ** The abstract queue: expiration times and watchdogs *)
Abbreviation timers := (list (Z * Z)).

(** Behind all that expire at the same time or earlier. *)
Definition tq_insert (e w : Z) (q : timers) : timers :=
  filter (fun x => x.1 <= e) q ++ (e, w) :: filter (fun x => ~ x.1 <= e) q.

Definition tq_remove (w : Z) (q : timers) : timers := filter (fun x => x.2 <> w) q.

(** Those that are due. *)
Definition due (now : Z) (q : timers) : timers := filter (fun x => x.1 <= now) q.

(** Ordered by time. *)
Definition ordered (q : timers) : Prop := StronglySorted (fun x y => x.1 <= y.1) q.

Abbreviation queues := (Per_CPU_Watchdog_index -> timers).

Definition with_queue (i : Per_CPU_Watchdog_index) (q : timers) (Q : queues) : queues :=
  fun j => if decide (j = i) then q else Q j.

Lemma with_queue_same i q Q : with_queue i q Q i = q.
Proof. unfold with_queue. by rewrite decide_True. Qed.

Lemma with_queue_other i j q Q : j <> i -> with_queue i q Q j = Q j.
Proof. intros. unfold with_queue. by rewrite decide_False. Qed.

Lemma filter_snd (P : Z * Z -> Prop) (R : Z -> Prop) `{!forall x, Decision (P x)}
    `{!forall x, Decision (R x)} (q : timers) :
  (forall x, x ∈ q -> P x <-> R x.2) -> filter R q.*2 = (filter P q).*2.
Proof.
  induction q as [|x q IH]; intros Hq; [done|]. rewrite fmap_cons, !filter_cons.
  rewrite IH by set_solver. specialize (Hq x ltac:(set_solver)).
  destruct (decide (P x)), (decide (R x.2)); cbn; tauto || done.
Qed.

Lemma ordered_filter (P : Z * Z -> Prop) `{!forall x, Decision (P x)} q :
  ordered q -> ordered (filter P q).
Proof.
  unfold ordered. induction q as [|x q IH]; [done|]. rewrite StronglySorted_cons. intros [Hx Hq].
  rewrite filter_cons. destruct (decide (P x)); [|by apply IH].
  apply StronglySorted_cons. split; [|by apply IH]. rewrite Forall_forall in Hx |- *.
  intros y [_ Hy]%list_elem_of_filter. by apply Hx.
Qed.

Lemma tq_insert_ordered e w q : ordered q -> ordered (tq_insert e w q).
Proof.
  intros Hq. pose proof (ordered_filter (fun x => x.1 <= e) q Hq).
  pose proof (ordered_filter (fun x => ~ x.1 <= e) q Hq).
  unfold ordered, tq_insert in *. rewrite StronglySorted_app, StronglySorted_cons. split_and!; try done.
  - intros x y [Hx _]%list_elem_of_filter [->|[Hy _]%list_elem_of_filter]%elem_of_cons; cbn; lia.
  - apply Forall_forall. intros x [Hx _]%list_elem_of_filter. cbn. lia.
Qed.

Lemma tq_insert_snd e w q : (tq_insert e w q).*2 ≡ₚ w :: q.*2.
Proof.
  unfold tq_insert. rewrite fmap_app, fmap_cons. cbn.
  rewrite <- Permutation_middle. constructor. rewrite <- fmap_app. apply fmap_Permutation.
  induction q as [|x q IH]; [done|]. rewrite !filter_cons. destruct (decide (x.1 <= e)).
  - rewrite decide_False by lia. cbn. by constructor.
  - rewrite decide_True by lia. rewrite <- Permutation_middle. by constructor.
Qed.

Section Facts.
Context {T : Type} `{SysTreeLaws}.
Implicit Types s : wd_state T.

(** The header [i] has the timers [q]. *)
Record header_ok (i : Per_CPU_Watchdog_index) s (q : timers) : Prop := {
  ho_tree : exists t, is_tree (tree_of i s) t /\ inorder t = q.*2;
  ho_balanced : balanced (tree_of i s);
  ho_first : first (header_of i s) = default NULL (head q.*2);
  ho_expire : forall e w, (e, w) ∈ q -> exists r, wd_controls s !! w = Some (mk_Watchdog_Control r e);
  ho_ordered : ordered q
}.

(** The state of the watchdogs: no watchdog is in both queues, and those that
    are in none are not marked as scheduled. *)
Record wd_inv s (Q : queues) : Prop := {
  wi_header : forall i, header_ok i s (Q i);
  wi_apart : forall i j w, i <> j -> w ∈ (Q i).*2 -> w ∉ (Q j).*2;
  wi_idle : forall w n, wd_nodes s !! w = Some n -> (forall i, w ∉ (Q i).*2) ->
    WATCHDOG_INACTIVE <= rbe_color n;
  wi_both : forall w, is_Some (wd_nodes s !! w) <-> is_Some (wd_controls s !! w);
  wi_null : wd_nodes s !! NULL = None
}.

(** What no operation of the handler changes. *)
Definition wd_frame s s' : Prop :=
  wd_ticks s' = wd_ticks s /\ Watchdog_Ticks_since_boot s' = Watchdog_Ticks_since_boot s /\
  wd_rest s' = wd_rest s /\
  (forall w, routine <$> wd_controls s' !! w = routine <$> wd_controls s !! w).

(** ** Steps in a tree *)
Lemma tree_of_set i r s : tree_of i (set_tree i r s) = r.
Proof. by destruct i, r. Qed.

Lemma set_tree_same i s : set_tree i (tree_of i s) s = s.
Proof. by destruct i, s as [[] [] ?]. Qed.

Lemma set_tree_twice i r r' s : set_tree i r (set_tree i r' s) = set_tree i r s.
Proof. by destruct i. Qed.

Lemma tree_of_first i j p s :
  tree_of j (set_header i (mk_Watchdog_Header (Watchdogs (header_of i s)) p) s) = tree_of j s.
Proof. by destruct i, j. Qed.

Lemma set_first_same i p s :
  first (header_of i s) = p ->
  set_header i (mk_Watchdog_Header (Watchdogs (header_of i s)) p) s = s.
Proof. intros <-. by destruct i, s as [[] [] ?]. Qed.

Lemma in_tree_bind {A B} i (m : cm rb_state A) (k : A -> cm (wd_state T) B) s a r :
  m (tree_of i s) = Ok (a, r) -> (x ← in_tree i m; k x) s = k a (set_tree i r s).
Proof. intros Hm. apply cm_bind_ok. unfold in_tree, zoom. by rewrite Hm. Qed.

Lemma in_tree_read {A B} i (m : cm rb_state A) (k : A -> cm (wd_state T) B) s a :
  m (tree_of i s) = Ok (a, tree_of i s) -> (x ← in_tree i m; k x) s = k a s.
Proof. intros Hm. by rewrite (in_tree_bind _ _ _ _ _ _ Hm), set_tree_same. Qed.

Lemma in_tree_seq i (m1 m2 : cm rb_state unit) s :
  (in_tree i m1;; in_tree i m2) s = in_tree i (m1;; m2) s.
Proof.
  unfold mbind, cm_bind, in_tree, zoom. destruct (m1 (tree_of i s)) as [[[] r]|u]; [|done].
  rewrite tree_of_set. destruct (m2 r) as [[[] r']|u]; [|done]. by rewrite set_tree_twice.
Qed.

Lemma wd_ld_bind {A B} w c (f : Watchdog_Control -> A) (k : A -> cm (wd_state T) B) s :
  wd_controls s !! w = Some c -> (v ← wd_ld w f; k v) s = k (f c) s.
Proof. intros Hc. unfold wd_ld. rewrite cm_bind_assoc, (ldm_bind _ _ c) by done. done. Qed.

Lemma wd_upd_bind {B} w c f (k : unit -> cm (wd_state T) B) s :
  wd_controls s !! w = Some c ->
  (v ← wd_upd w f; k v) s = k tt (set_wd_controls (<[w := f c]> (wd_controls s)) s).
Proof.
  intros Hc. unfold wd_upd. rewrite cm_bind_assoc, (ldm_bind _ _ c) by done.
  rewrite stm_bind by (cbn; eauto). done.
Qed.

Lemma state_bind {B} w n (k : Z -> cm (wd_state T) B) s :
  wd_nodes s !! w = Some n -> (v ← Watchdog_Get_state w; k v) s = k (rbe_color n) s.
Proof. intros Hn. unfold Watchdog_Get_state. apply in_tree_read. by rewrite (rb_ld_bind _ n). Qed.

Lemma set_state_run w n v s :
  wd_nodes s !! w = Some n ->
  Watchdog_Set_state w v s = Ok (tt, set_wd_nodes (<[w := set_rbe_color v n]> (wd_nodes s)) s).
Proof.
  intros Hn. unfold Watchdog_Set_state, in_tree, zoom. rewrite (rb_upd_run _ n) by done.
  by destruct s as [[] [] ?].
Qed.

(** ** The two headers do not disturb each other *)
Lemma header_frame i s s' q :
  header_of i s' = header_of i s ->
  (forall w, w ∈ q.*2 -> wd_nodes s' !! w = wd_nodes s !! w /\ wd_controls s' !! w = wd_controls s !! w) ->
  header_ok i s q -> header_ok i s' q.
Proof.
  intros Hh Hw [(t & [Ht Hnd] & Hin) Hb Hf He Ho].
  assert (Hr : is_tree (tree_of i s') t).
  { split; [|done]. cbn. rewrite Hh. eapply rep_frame; [|done]. intros x Hx. apply Hw. by rewrite <- Hin. }
  split; [by exists t| |by rewrite Hh| |done].
  - eapply balanced_frame; [by split|..|done]; cbn; [by rewrite Hh|].
    intros x Hx. apply Hw. by rewrite <- Hin.
  - intros e w Hew. destruct (He e w Hew) as [r Hr']. exists r.
    rewrite (proj2 (Hw w ltac:(apply list_elem_of_fmap; by exists (e, w)))). done.
Qed.

(** ** Insertion *)
Definition expire_of s (w : Z) : Z := from_option expire 0 (wd_controls s !! w).

Lemma watchdog_insert_loop_run i e old_first w t : forall s c p fuel,
  rep (wd_nodes s) (parent_of c) t p -> hole_is (tree_of i s) c p ->
  (forall x, x ∈ inorder t -> is_Some (wd_controls s !! x)) -> (length (inorder t) < fuel)%nat ->
  let c' := descend (fun x => e <? expire_of s x) c t in
  watchdog_insert_loop fuel i e old_first (link_of c) (parent_of c)
    (if bool_decide (before c = []) then w else old_first) s =
  Ok (link_of c', parent_of c', if bool_decide (before c' = []) then w else old_first, s).
Proof.
  induction t as [|l IHl x r IHr]; intros s c p fuel Hp Hh Hc Hfuel; (destruct fuel; [lia|]);
    cbn [watchdog_insert_loop descend];
    rewrite (in_tree_read _ _ _ _ _ (ld_link_run (tree_of i s) c p Hh)).
  - cbn in Hp. by subst.
  - destruct (walk_step (tree_of i s) _ _ _ _ _ Hp Hh) as (-> & Hx & (q & Hq & Hhq) & (q' & Hq' & Hhq')).
    cbn [inorder] in Hfuel, Hc. rewrite length_app in Hfuel. cbn in Hfuel.
    rewrite (proj2 (Z.eqb_neq x NULL)) by done.
    destruct (Hc x ltac:(set_solver)) as [k Hk].
    assert (Hkx : expire_of s x = expire k) by (unfold expire_of; by rewrite Hk).
    rewrite (wd_ld_bind _ k), Hkx by done. destruct (e <? expire k).
    + apply (IHl s (Went_left x r :: c) q); [done..|set_solver|lia].
    + etrans; [|apply (IHr s (Went_right l x :: c) q' fuel); [done..|set_solver|lia]].
      rewrite (bool_decide_eq_false_2 (before (Went_right l x :: c) = [])); [done|].
      cbn. by destruct (before c), (inorder l).
Qed.

Lemma upward_later s e q :
  ordered q ->
  (forall t w, (t, w) ∈ q -> exists r, wd_controls s !! w = Some (mk_Watchdog_Control r t)) ->
  upward (fun x => e <? expire_of s x) q.*2.
Proof.
  intros Ho He l1 x l2 Heq Hx. apply Forall_forall. intros y Hy.
  apply fmap_app_inv in Heq as (q1 & q2 & -> & Heq & ->).
  destruct q2 as [|[t x'] q2]; [done|]. rewrite fmap_cons in Heq. injection Heq as -> ->.
  apply list_elem_of_fmap in Hy as ([t' y'] & -> & Hy').
  destruct (He t x') as [r Hr]; [set_solver|]. destruct (He t' y') as [r' Hr']; [set_solver|].
  unfold expire_of in *. cbn. rewrite Hr' . rewrite Hr in Hx. cbn in *.
  unfold ordered in Ho. apply StronglySorted_app in Ho as (_ & _ & Ho).
  apply StronglySorted_cons in Ho as [Ho _]. rewrite Forall_forall in Ho. specialize (Ho _ Hy').
  cbn in Ho. lia.
Qed.

Lemma queue_mapped s Q i x :
  wd_inv s Q -> x ∈ (Q i).*2 -> is_Some (wd_nodes s !! x) /\ is_Some (wd_controls s !! x).
Proof.
  intros Hi Hx. assert (Hc : is_Some (wd_controls s !! x)).
  { apply list_elem_of_fmap in Hx as ([e x'] & -> & Hx).
    destruct (ho_expire _ _ _ (wi_header _ _ Hi i) e x' Hx) as [r Hr]. cbn. eauto. }
  split; [|done]. by apply (wi_both _ _ Hi).
Qed.

(** The invariant of the whole from that of a changed header. *)
Lemma wd_inv_change s s' Q i q :
  wd_inv s Q -> header_ok i s' q ->
  (forall j, j <> i -> header_of j s' = header_of j s) ->
  (forall x, x ∈ q.*2 -> x ∈ (Q i).*2 \/ (forall j, x ∉ (Q j).*2)) ->
  (forall x, x ∉ q.*2 -> x ∉ (Q i).*2 -> wd_nodes s' !! x = wd_nodes s !! x) ->
  (forall x, x ∉ q.*2 -> wd_controls s' !! x = wd_controls s !! x) ->
  (forall x, x ∉ q.*2 -> x ∈ (Q i).*2 -> exists n, wd_nodes s' !! x = Some n /\ rbe_color n = WATCHDOG_INACTIVE) ->
  wd_inv s' (with_queue i q Q).
Proof.
  intros Hi Hh Hother Hsub Hnodes Hcontrols Hout.
  assert (Hdisj : forall j x, j <> i -> x ∈ (Q j).*2 -> (x ∉ q.*2) /\ (x ∉ (Q i).*2)).
  { intros j x Hj Hx. split; [|exact (wi_apart _ _ Hi j i x Hj Hx)].
    intros [Hq|Hq]%Hsub; [|by eapply Hq]. exact (wi_apart _ _ Hi i j x (not_eq_sym Hj) Hq Hx). }
  pose proof (ho_tree _ _ _ Hh) as (t & [Ht Hnd] & Hin).
  assert (Hq : forall x, x ∈ q.*2 -> x <> NULL /\ is_Some (wd_nodes s' !! x)).
  { intros x Hx. eapply rep_nodes; [exact Ht|by rewrite Hin]. }
  split.
  - intros j. destruct (decide (j = i)) as [->|Hj]; [by rewrite with_queue_same|].
    rewrite with_queue_other by done. eapply header_frame; [by apply Hother| |by apply wi_header].
    intros x Hx. destruct (Hdisj j x Hj Hx). split; [by apply Hnodes|by apply Hcontrols].
  - assert (Hne : forall a b x, a <> b -> b <> i -> x ∈ (with_queue i q Q a).*2 -> x ∉ (Q b).*2).
    { intros a b x Hab Hb. destruct (decide (a = i)) as [->|Ha].
      - rewrite with_queue_same. intros Hx Hxb. by destruct (Hdisj b x Hb Hxb).
      - rewrite with_queue_other by done. exact (wi_apart _ _ Hi a b x Hab). }
    intros a b x Hab Hx. destruct (decide (b = i)) as [->|Hb].
    + rewrite with_queue_same. rewrite with_queue_other in Hx by done. by apply (Hdisj a x).
    + rewrite with_queue_other by done. by apply (Hne a b).
  - intros x n Hn Hx.
    assert (Hxq : x ∉ q.*2) by (specialize (Hx i); by rewrite with_queue_same in Hx).
    destruct (decide (x ∈ (Q i).*2)) as [Hxi|Hxi].
    + destruct (Hout x Hxq Hxi) as (n' & Hn' & Hc). rewrite Hn in Hn'. injection Hn' as <-.
      by rewrite Hc.
    + rewrite Hnodes in Hn by done. apply (wi_idle _ _ Hi _ _ Hn). intros j.
      destruct (decide (j = i)) as [->|Hj]; [done|]. specialize (Hx j). by rewrite with_queue_other in Hx.
  - intros x. destruct (decide (x ∈ q.*2)) as [Hx|Hx].
    + split; intros _; [|by apply Hq]. apply list_elem_of_fmap in Hx as ([e x'] & -> & Hx).
      destruct (ho_expire _ _ _ Hh e x' Hx) as [r Hr]. cbn. eauto.
    + rewrite (Hcontrols x Hx). destruct (decide (x ∈ (Q i).*2)) as [Hxi|Hxi].
      * destruct (Hout x Hx Hxi) as (n & Hn & _). rewrite Hn.
        split; intros _; [|done]. by eapply queue_mapped.
      * rewrite Hnodes by done. apply (wi_both _ _ Hi).
  - rewrite Hnodes; [by eapply wi_null|intros [? _]%Hq; done|].
    intros [[n Hn] _]%(queue_mapped s Q i); [|done]. by rewrite (wi_null _ _ Hi) in Hn.
Qed.

Lemma head_insert (b a : list Z) w :
  (if bool_decide (b = []) then w else default NULL (head (b ++ a))) = default NULL (head (b ++ w :: a)).
Proof. by destruct b. Qed.

(** The place of a new watchdog, found by the walk. *)
Lemma insert_place s i q e w :
  header_ok i s q ->
  exists c, is_tree (tree_of i s) (plug c Leaf) /\ q.*2 = before c ++ after c /\
    (tq_insert e w q).*2 = before c ++ w :: after c /\
    watchdog_insert_loop (S (size (wd_nodes s))) i e (first (header_of i s)) Link_root NULL w s =
    Ok (link_of c, parent_of c, default NULL (head (tq_insert e w q).*2), s).
Proof.
  intros [(t & Ht & Hin) Hb Hf He Ho].
  pose proof (upward_later s e q Ho He) as Hu. rewrite <- Hin in Hu.
  set (left := fun x => e <? expire_of s x) in Hu. set (c := descend left [] t).
  destruct (descend_order left t [] Hu) as [Hbe Haf]. rewrite app_nil_r in Haf. cbn in Hbe.
  fold c in Hbe, Haf. pose proof (inorder_plug c Leaf) as Hpl.
  pose proof (plug_descend left t []) as Hd. fold c in Hd. rewrite Hd in Hpl. cbn in Hd, Hpl.
  assert (Hq : (tq_insert e w q).*2 = before c ++ w :: after c).
  { unfold tq_insert. rewrite fmap_app, fmap_cons, Hbe, Haf, Hin. cbn [snd].
    assert (Hl : forall x, x ∈ q -> left x.2 = (e <? x.1)).
    { intros [u x] Hx. destruct (He u x Hx) as [r Hr]. unfold left, expire_of. cbn [snd fst]. by rewrite Hr. }
    f_equal; [|f_equal]; symmetry; apply filter_snd; intros x Hx; rewrite Hl by done; lia. }
  exists c. split_and!; [by rewrite Hd|by rewrite <- Hin|done|].
  pose proof (tree_size _ _ Ht) as Hsize. cbn in Hsize.
  pose proof (watchdog_insert_loop_run i e (first (header_of i s)) w t s [] (Watchdogs (header_of i s))
    (S (size (wd_nodes s))) (proj1 Ht) eq_refl) as Hl.
  rewrite Hq, <- head_insert, <- Hpl, Hin, <- Hf. apply Hl; [|lia].
  intros x. rewrite Hin. intros ([u x'] & -> & Hx)%list_elem_of_fmap. destruct (He u x' Hx) as [r Hr].
  cbn. eauto.
Qed.

Lemma watchdog_insert_run s Q i w e c0 :
  wd_inv s Q -> wd_controls s !! w = Some c0 -> (forall j, w ∉ (Q j).*2) ->
  exists s', Watchdog_Insert i w e s = Ok (tt, s') /\
    wd_inv s' (with_queue i (tq_insert e w (Q i)) Q) /\ wd_frame s s' /\
    wd_controls s' = <[w := set_expire e c0]> (wd_controls s) /\
    (forall x, x <> w -> x ∉ (Q i).*2 -> wd_nodes s' !! x = wd_nodes s !! x).
Proof.
  intros Hi Hc Hw. set (q := tq_insert e w (Q i)).
  set (s1 := set_wd_controls (<[w := set_expire e c0]> (wd_controls s)) s).
  assert (Hh1 : header_ok i s1 (Q i)).
  { eapply header_frame; [..|by apply wi_header]; [by destruct i|]. intros x Hx. split; [done|].
    cbn. apply lookup_insert_ne. intros ->. by eapply Hw. }
  destruct (insert_place s1 i (Q i) e w Hh1) as (c & Ht & Hbefore & Hafter & Hl). fold q in Hafter, Hl.
  destruct (wi_both _ _ Hi w) as [_ Hn0]. destruct Hn0 as [n0 Hn0]; [by eexists|].
  set (nf := default NULL (head q.*2)) in Hl.
  set (s2 := set_header i (mk_Watchdog_Header (Watchdogs (header_of i s1)) nf) s1).
  assert (Ht2 : tree_of i s2 = tree_of i s1) by apply tree_of_first.
  destruct (insert_at_run (tree_of i s2) c w n0) as (r & t' & Hrun & Ht' & Hin' & Hb' & Hfr);
    rewrite ?Ht2; try done; [by apply ho_balanced with (q := Q i)|rewrite <- Hbefore; apply Hw| |].
  { intros ->. by rewrite (wi_null _ _ Hi) in Hn0. }
  assert (Hq : forall x, x ∈ q.*2 <-> x = w \/ x ∈ (Q i).*2).
  { intros x. unfold q. rewrite tq_insert_snd. apply elem_of_cons. }
  assert (Hcs : wd_controls (set_tree i r s2) = <[w := set_expire e c0]> (wd_controls s))
    by (by destruct i).
  assert (Hns : wd_nodes (set_tree i r s2) = rb_nodes r) by (by destruct i).
  assert (Hn2 : rb_nodes (tree_of i s2) = wd_nodes s) by (by destruct i).
  assert (Hsame : forall x, x ∉ q.*2 -> wd_nodes (set_tree i r s2) !! x = wd_nodes s !! x).
  { intros x Hx. rewrite Hns, Hfr, Hn2; [done|]. by rewrite Hin', <- Hafter. }
  exists (set_tree i r s2). split_and!; [..|done|].
  - unfold Watchdog_Insert, ld_first. rewrite gets_bind, (wd_upd_bind _ c0), gets_bind by done.
    fold s1. replace (first (header_of i s)) with (first (header_of i s1)) by (by destruct i).
    rewrite (cm_bind_ok _ _ _ _ _ Hl). unfold st_first. rewrite modify_bind. fold s2.
    rewrite in_tree_seq. unfold in_tree, zoom. unfold RBTree_Insert_with_parent in Hrun. by rewrite Hrun.
  - apply (wd_inv_change s); try done.
    + split; rewrite ?tree_of_set; try done.
      * exists t'. split; [done|]. by rewrite Hin'.
      * by destruct i.
      * rewrite Hcs. intros u x Hx. destruct (decide (x = w)) as [->|Hxw].
        -- rewrite lookup_insert_eq. unfold q, tq_insert in Hx.
           rewrite elem_of_app, elem_of_cons, !list_elem_of_filter in Hx.
           destruct Hx as [[_ Hx]|[[= ->]|[_ Hx]]]; [exfalso|by exists (routine c0)|exfalso];
             eapply Hw; apply list_elem_of_fmap; by exists (u, w).
        -- rewrite lookup_insert_ne by done. apply (ho_expire _ _ _ (wi_header _ _ Hi i)).
           unfold q, tq_insert in Hx. rewrite elem_of_app, elem_of_cons, !list_elem_of_filter in Hx.
           naive_solver.
      * apply tq_insert_ordered. apply (ho_ordered _ _ _ Hh1).
    + intros j Hj. by destruct i, j.
    + intros x [->|Hx]%Hq; auto.
    + intros x Hx _. by apply Hsame.
    + intros x Hx. rewrite Hcs. apply lookup_insert_ne. intros <-. apply Hx, Hq. by left.
    + intros x Hx Hxi. exfalso. apply Hx, Hq. by right.
  - split_and!; [by destruct i..|]. intros x. rewrite Hcs.
    destruct (decide (x = w)) as [->|Hxw]; [rewrite lookup_insert_eq, Hc; done|by rewrite lookup_insert_ne].
  - intros x Hxw Hx. apply Hsame. by intros [?|?]%Hq.
Qed.

(** ** Removal *)
Lemma leftmost_loop_run i s l : forall y r par p fuel,
  rep (wd_nodes s) par (Node l y r) p -> (length (inorder l) < fuel)%nat ->
  leftmost_loop fuel i p s = Ok (default NULL (head (inorder (Node l y r))), s).
Proof.
  induction l as [|l1 IH z r1 _]; intros y r par p fuel; cbn [rep inorder];
    intros (-> & Hy & n & Hn & Hp & Hc & Hl & Hr) Hf; (destruct fuel as [|fuel]; [lia|]);
    cbn [leftmost_loop];
    (rewrite (in_tree_read _ _ _ _ (rbe_left n));
      [|unfold RBTree_Left; by rewrite (rb_ld_bind _ n)]).
  - rewrite Hl. done.
  - pose proof Hl as (Hl0 & Hz & _). rewrite Hl0.
    rewrite (proj2 (Z.eqb_neq z NULL)) by done. cbn [negb]. rewrite Hl0 in Hl.
    cbn in Hf. rewrite length_app in Hf. cbn in Hf.
    rewrite (IH z r1 y _ fuel); [|done|lia]. cbn [inorder]. by destruct (inorder l1).
Qed.

(** The first watchdog is followed by the leftmost one of its right subtree, or
    by its parent. *)
Lemma next_first_bind {B} i s e w q (k : unit -> cm (wd_state T) B) :
  header_ok i s ((e, w) :: q) ->
  (v ← Watchdog_Next_first i w; k v) s =
  k tt (set_header i (mk_Watchdog_Header (Watchdogs (header_of i s)) (default NULL (head q.*2))) s).
Proof.
  intros [(t & Ht & Hin) Hb Hf He Ho]. pose proof (tree_size _ _ Ht) as Hsize. cbn in Hsize.
  destruct (path_to t w) as (c & l & r & ->); [rewrite Hin; apply list_elem_of_here|]. destruct Ht as [Ht Hnd].
  rewrite inorder_plug in Hin, Hnd, Hsize. cbn [inorder] in Hin, Hnd, Hsize. rewrite fmap_cons in Hin. cbn [snd] in Hin.
  assert (Hbl : before c ++ inorder l = []).
  { destruct (before c ++ inorder l) as [|x bl] eqn:E; [done|].
    rewrite <- app_assoc, app_assoc, E in Hin, Hnd. injection Hin as -> _. cbn in Hnd.
    apply NoDup_cons in Hnd as [Hx _]. set_solver. }
  apply app_eq_nil in Hbl as [Hbe Hil]. rewrite Hbe, Hil in Hin. cbn in Hin. injection Hin as Hq.
  apply plug_rep in Ht as (p & Hp & Hh). cbn [rep] in Hp.
  destruct Hp as (-> & Hw & n & Hn & Hpar & Hcol & Hl & Hr). cbn in Hn, Hl, Hr.
  unfold Watchdog_Next_first. rewrite cm_bind_assoc, (in_tree_read _ _ _ _ (rbe_right n));
    [|unfold RBTree_Right; by rewrite (rb_ld_bind _ n)].
  pose proof (rep_null _ _ _ _ Hr) as Hnull. rewrite <- Hq.
  destruct (rbe_right n =? NULL) eqn:E; cbn [negb].
  - apply Z.eqb_eq, Hnull in E as ->. cbn [inorder app].
    rewrite cm_bind_assoc, (in_tree_read _ _ _ _ (rbe_parent n));
      [|unfold RBTree_Parent; by rewrite (rb_ld_bind _ n)].
    rewrite Hpar, (parent_is_next c) by done. done.
  - destruct r as [|rl y rr]; [by rewrite (proj2 Hnull) in E|].
    rewrite cm_bind_assoc, gets_bind, cm_bind_assoc.
    assert (Hlen : (length (inorder rl) < size (wd_nodes s))%nat).
    { rewrite !length_app in Hsize. cbn [inorder length] in Hsize. rewrite !length_app in Hsize.
      cbn [length] in Hsize. lia. }
    rewrite (cm_bind_ok _ _ _ _ _ (leftmost_loop_run i s rl y rr w _ _ Hr Hlen)).
    cbn [inorder]. destruct (inorder rl); done.
Qed.

(** A watchdog is taken out of the tree and marked as inactive. *)
Lemma take_out_run s Q i q1 e w q2 :
  wd_inv s Q -> Q i = q1 ++ (e, w) :: q2 ->
  let s1 := set_header i (mk_Watchdog_Header (Watchdogs (header_of i s))
    (default NULL (head (q1 ++ q2).*2))) s in
  exists s', (in_tree i (RBTree_Extract w);; Watchdog_Set_state w WATCHDOG_INACTIVE) s1 = Ok (tt, s') /\
    wd_inv s' (with_queue i (q1 ++ q2) Q) /\ wd_frame s s' /\ wd_controls s' = wd_controls s /\
    (forall x, x ∉ (Q i).*2 -> wd_nodes s' !! x = wd_nodes s !! x) /\
    (exists n, wd_nodes s' !! w = Some n /\ rbe_color n = WATCHDOG_INACTIVE).
Proof.
  intros Hi HQ s1. pose proof (wi_header _ _ Hi i) as [(t & Ht & Hin) Hb Hf He Ho].
  rewrite HQ in Hin, He, Ho. rewrite fmap_app, fmap_cons in Hin. cbn [snd] in Hin.
  assert (Ht1 : tree_of i s1 = tree_of i s) by apply tree_of_first.
  destruct (extract_run (tree_of i s1) t q1.*2 w q2.*2) as (r & t' & Hrun & Ht' & Hin' & Hb' & [n Hn] & Hfr);
    [by rewrite Ht1..|done|].
  assert (Hnd : w ∉ q1.*2 ++ q2.*2).
  { destruct Ht as [_ Hnd]. rewrite Hin in Hnd. apply NoDup_app in Hnd as (_ & Ha & [Hx _]%NoDup_cons).
    set_solver. }
  set (s2 := set_wd_nodes (<[w := set_rbe_color WATCHDOG_INACTIVE n]> (wd_nodes (set_tree i r s1)))
    (set_tree i r s1)).
  assert (Hns : wd_nodes s2 = <[w := set_rbe_color WATCHDOG_INACTIVE n]> (rb_nodes r)) by (by destruct i).
  assert (Hnr : rb_nodes (tree_of i s1) = wd_nodes s) by (by destruct i).
  assert (Hcs : wd_controls s2 = wd_controls s) by (by destruct i).
  assert (Hsame : forall x, x ∉ (Q i).*2 -> wd_nodes s2 !! x = wd_nodes s !! x).
  { rewrite HQ. intros x Hxi. rewrite fmap_app, fmap_cons in Hxi. rewrite Hns, lookup_insert_ne by set_solver.
    rewrite Hfr, Hnr; [done|]. rewrite Hin. set_solver. }
  exists s2. split_and!; [| | |done|done|rewrite Hns, lookup_insert_eq; by eexists].
  - rewrite (in_tree_bind _ _ _ _ _ _ Hrun).
    apply set_state_run. by destruct i.
  - apply (wd_inv_change s); try done.
    + assert (Htree : forall x, x ∈ inorder t' -> wd_nodes s2 !! x = rb_nodes r !! x).
      { intros x. rewrite Hin'. intros Hx. rewrite Hns. apply lookup_insert_ne. by intros ->. }
      assert (Hroot : rbh_root (tree_of i s2) = rbh_root r) by (by destruct i).
      assert (Hit : is_tree (tree_of i s2) t').
      { split; [|apply Ht']. rewrite Hroot. eapply rep_frame; [exact Htree|]. apply Ht'. }
      split; [exists t'; split; [done|]; by rewrite Hin', fmap_app|..|].
      * exact (balanced_frame r (tree_of i s2) t' Ht' Hroot Htree Hb').
      * by destruct i.
      * rewrite Hcs. intros u x Hx. apply He. set_solver.
      * unfold ordered in *. apply StronglySorted_app in Ho as (Ho1 & Ho2 & Ho3).
        apply StronglySorted_cons in Ho3 as [_ Ho3]. apply StronglySorted_app. split_and!; try done.
        intros x y Hx Hy. apply Ho1; set_solver.
    + intros j Hj. by destruct i, j.
    + rewrite HQ. intros x Hx. left. rewrite fmap_app in *. set_solver.
    + intros x _. apply Hsame.
    + intros x _. by rewrite Hcs.
    + rewrite HQ. intros x Hx Hxi. rewrite fmap_app, fmap_cons in Hxi. rewrite fmap_app in Hx.
      assert (x = w) as -> by set_solver. rewrite Hns, lookup_insert_eq. by eexists.
  - split_and!; [by destruct i..|]. intros x. by rewrite Hcs.
Qed.

#[export] Instance wd_inv_proper s : Proper (pointwise_relation _ (=) ==> iff) (wd_inv s).
Proof.
  enough (Hx : forall Q Q', pointwise_relation _ (=) Q Q' -> wd_inv s Q -> wd_inv s Q')
    by (intros Q Q' HQ; split; apply Hx; [done|by symmetry]).
  intros Q Q' HQ Hi. split; try setoid_rewrite <- (HQ _); apply Hi.
Qed.

Lemma with_queue_id i Q : pointwise_relation _ (=) (with_queue i (Q i) Q) Q.
Proof. intros j. unfold with_queue. case_decide; by subst. Qed.

Lemma tq_remove_absent w q : w ∉ q.*2 -> tq_remove w q = q.
Proof.
  intros Hw. apply filter_all, Forall_forall. intros x Hx Heq. apply Hw. apply list_elem_of_fmap. eauto.
Qed.

Lemma tq_remove_split q1 e w q2 : NoDup (q1 ++ (e, w) :: q2).*2 -> tq_remove w (q1 ++ (e, w) :: q2) = q1 ++ q2.
Proof.
  rewrite fmap_app, fmap_cons. intros (_ & Ha & [Hx _]%NoDup_cons)%NoDup_app. cbn in *.
  unfold tq_remove. rewrite filter_app, filter_cons_False by naive_solver.
  f_equal; apply tq_remove_absent; set_solver.
Qed.

Lemma queue_split s Q i w :
  wd_inv s Q -> w ∈ (Q i).*2 -> exists q1 e q2, Q i = q1 ++ (e, w) :: q2 /\ tq_remove w (Q i) = q1 ++ q2.
Proof.
  intros Hi ([e w'] & -> & Hw)%list_elem_of_fmap. cbn [snd].
  apply list_elem_of_split in Hw as (q1 & q2 & Hq). exists q1, e, q2. split; [done|].
  rewrite Hq. apply tq_remove_split. rewrite <- Hq.
  destruct (wi_header _ _ Hi i) as [(t & [_ Hnd] & Hin) _ _ _ _]. by rewrite <- Hin.
Qed.

(** Whether a watchdog is scheduled is read off its color. *)
Lemma queue_color s Q i w n :
  wd_inv s Q -> w ∈ (Q i).*2 -> wd_nodes s !! w = Some n -> rbe_color n < WATCHDOG_INACTIVE.
Proof.
  intros Hi Hw Hn. pose proof (ho_tree _ _ _ (wi_header _ _ Hi i)) as (t & [Ht Hnd] & Hin).
  rewrite <- Hin in Hw. apply path_to in Hw as (c & l & r & ->).
  apply plug_rep in Ht as (p & (_ & _ & n' & Hn' & _ & Hcol & _) & _). cbn in Hn'.
  rewrite Hn in Hn'. injection Hn' as <-. destruct Hcol as [-> | ->]; done.
Qed.

Lemma scheduled_iff s Q w n :
  wd_inv s Q -> wd_nodes s !! w = Some n ->
  (rbe_color n <? WATCHDOG_INACTIVE) = true <-> exists i, w ∈ (Q i).*2.
Proof.
  intros Hi Hn. split.
  - intros Hc%Z.ltb_lt. destruct (decide (w ∈ (Q PER_CPU_WATCHDOG_RELATIVE).*2)); [by eexists|].
    destruct (decide (w ∈ (Q PER_CPU_WATCHDOG_ABSOLUTE).*2)); [by eexists|].
    enough (WATCHDOG_INACTIVE <= rbe_color n) by lia.
    apply (wi_idle _ _ Hi w n Hn). by intros [].
  - intros [i Hw]. apply Z.ltb_lt. by eapply queue_color.
Qed.

Lemma is_scheduled_bind {B} s w n (k : bool -> cm (wd_state T) B) :
  wd_nodes s !! w = Some n ->
  (x ← Watchdog_Is_scheduled w; k x) s = k (rbe_color n <? WATCHDOG_INACTIVE) s.
Proof.
  intros Hn. unfold Watchdog_Is_scheduled. by rewrite cm_bind_assoc, (state_bind _ n), ret_bind by done.
Qed.

(** The state of a watchdog that is not scheduled may be set. *)
Lemma set_state_inv s Q w n v :
  wd_inv s Q -> wd_nodes s !! w = Some n -> (forall j, w ∉ (Q j).*2) -> WATCHDOG_INACTIVE <= v ->
  wd_inv (set_wd_nodes (<[w := set_rbe_color v n]> (wd_nodes s)) s) Q.
Proof.
  intros Hi Hn Hw Hv. destruct Hi as [Hh Hap Hid Hb Hnull]. split; try done.
  - intros i. eapply header_frame; [..|apply Hh]; [by destruct i|]. intros x Hx. split; [|done].
    cbn. apply lookup_insert_ne. intros <-. by eapply Hw.
  - intros x n' Hx Hout. cbn in Hx. destruct (decide (x = w)) as [->|Hxw].
    + rewrite lookup_insert_eq in Hx. by injection Hx as <-.
    + rewrite lookup_insert_ne in Hx by done. by apply (Hid x).
  - intros x. cbn. rewrite <- Hb. destruct (decide (x = w)) as [->|Hxw].
    + rewrite lookup_insert_eq, Hn. by split; intros _; eexists.
    + by rewrite lookup_insert_ne.
  - cbn. rewrite lookup_insert_ne; [done|]. intros ->. by rewrite Hnull in Hn.
Qed.

(** And so may its routine and its time. *)
Lemma set_control_inv s Q w c c' :
  wd_inv s Q -> wd_controls s !! w = Some c -> (forall j, w ∉ (Q j).*2) ->
  wd_inv (set_wd_controls (<[w := c']> (wd_controls s)) s) Q.
Proof.
  intros [Hh Hap Hid Hb Hnull] Hc Hw. split; try done.
  - intros i. eapply header_frame; [..|apply Hh]; [by destruct i|]. intros x Hx. split; [done|].
    cbn. apply lookup_insert_ne. intros <-. by eapply Hw.
  - intros x. cbn. rewrite Hb. destruct (decide (x = w)) as [->|Hxw].
    + rewrite lookup_insert_eq, Hc. by split; intros _; eexists.
    + by rewrite lookup_insert_ne.
Qed.

(** [_Watchdog_Remove] of a watchdog of the header, or of one that is not
    scheduled. *)
Lemma watchdog_remove_run s Q i w :
  wd_inv s Q -> is_Some (wd_controls s !! w) -> (w ∈ (Q i).*2 \/ (forall j, w ∉ (Q j).*2)) ->
  exists s', Watchdog_Remove i w s = Ok (tt, s') /\
    wd_inv s' (with_queue i (tq_remove w (Q i)) Q) /\ wd_frame s s' /\ wd_controls s' = wd_controls s /\
    (forall x, x ∉ (Q i).*2 -> wd_nodes s' !! x = wd_nodes s !! x) /\
    (w ∈ (Q i).*2 -> exists n, wd_nodes s' !! w = Some n /\ rbe_color n = WATCHDOG_INACTIVE).
Proof.
  intros Hi Hc Hw. apply (wi_both _ _ Hi) in Hc as [n Hn].
  unfold Watchdog_Remove, Watchdog_Is_scheduled. rewrite cm_bind_assoc, (state_bind _ n), ret_bind by done.
  destruct Hw as [Hw|Hw].
  - destruct (queue_split s Q i w Hi Hw) as (q1 & e & q2 & Hq & ->).
    pose proof (wi_header _ _ Hi i) as Hh. pose proof (ho_tree _ _ _ Hh) as (t & [Ht Hnd] & Hin).
    pose proof (queue_color s Q i w n Hi Hw Hn) as Hcol.
    rewrite (proj2 (Z.ltb_lt _ _) Hcol). cbn [c_if]. unfold ld_first. rewrite gets_bind.
    destruct (take_out_run s Q i q1 e w q2 Hi Hq) as (s' & Hrun & Hi' & Hf & Hcs & Hsame & Hoff).
    exists s'. split; [|done]. rewrite (ho_first _ _ _ Hh), Hq.
    destruct q1 as [|[e1 w1] q1]; cbn [fmap list_fmap app head from_option id snd].
    + rewrite Z.eqb_refl. cbn [c_if]. rewrite Hq in Hh. by rewrite (next_first_bind i s e w q2).
    + rewrite (proj2 (Z.eqb_neq w1 w)).
      2:{ intros ->. rewrite Hin, Hq in Hnd. cbn in Hnd. apply NoDup_cons in Hnd as [Hx _].
          apply Hx. rewrite fmap_app. set_solver. }
      cbn [c_if]. rewrite ret_bind. rewrite set_first_same in Hrun; [done|].
      by rewrite (ho_first _ _ _ Hh), Hq.
  - pose proof (wi_idle _ _ Hi w n Hn Hw) as Hcol. rewrite (proj2 (Z.ltb_ge _ _) Hcol).
    exists s. rewrite (tq_remove_absent _ (Q i)) by done. split_and!; try done; [by rewrite with_queue_id|].
    intros Hx. by destruct (Hw i).
Qed.

End Facts.
