(* ===== verification/WatchdogTick.v ===== *)
(** * Watchdogs: the clock tick

    What a clock tick does to the queues of timers, for any service routines:
    the abstract machine [tickled] pops the timers that are due one after
    another and lets the routine of each change the queues; the loop of
    [_Watchdog_Do_tickle] implements it.  From it follow which timers fire, in
    which order, and that a timer fires at its tick and not before. *)

From stdpp Require Import base tactics numbers option list list_numbers gmap fin_maps fin_map_dom fin_sets sorting.
From Stdlib Require Import ZArith Lia.
From S2P Require Import Prelude Chain Timespec RBTree RBTreeFacts Watchdog WatchdogFacts.

Open Scope Z_scope.

(** ** The abstract tick

    [K Q Q'] says what a service routine may do to the queues. *)
Inductive tickled (K : queues -> queues -> Prop) (i : Per_CPU_Watchdog_index) (now : Z)
    : queues -> list Z -> queues -> Prop :=
| tickled_none Q : due now (Q i) = [] -> tickled K i now Q [] Q
| tickled_fire Q e w q Q1 fs Q2 :
    Q i = (e, w) :: q -> e <= now -> K (with_queue i q Q) Q1 -> tickled K i now Q1 fs Q2 ->
    tickled K i now Q (w :: fs) Q2.

(** Service routines that leave the timers that are due alone or cancel them,
    but do not add to them. *)
Definition no_new_due (i : Per_CPU_Watchdog_index) (now : Z) (Q Q' : queues) : Prop :=
  due now (Q' i) `sublist_of` due now (Q i).

(** Service routines that only add timers, in ticks and for later ticks. *)
Definition only_adds (ticks : Z) (Q Q' : queues) : Prop :=
  Q' PER_CPU_WATCHDOG_ABSOLUTE = Q PER_CPU_WATCHDOG_ABSOLUTE /\
  Q PER_CPU_WATCHDOG_RELATIVE `sublist_of` Q' PER_CPU_WATCHDOG_RELATIVE /\
  due ticks (Q' PER_CPU_WATCHDOG_RELATIVE) = due ticks (Q PER_CPU_WATCHDOG_RELATIVE).

Lemma due_head now e w q : ordered ((e, w) :: q) -> now < e -> due now ((e, w) :: q) = [].
Proof.
  unfold ordered. rewrite StronglySorted_cons, Forall_forall. intros [Hq _] He.
  apply filter_none, Forall_forall. intros x [->|Hx]%elem_of_cons; cbn; [lia|].
  specialize (Hq x Hx). cbn in Hq. lia.
Qed.

Lemma due_cons now e w q : e <= now -> due now ((e, w) :: q) = (e, w) :: due now q.
Proof. intros. unfold due. by rewrite filter_cons_True. Qed.

Lemma sublist_filter {A} (P : A -> Prop) `{!forall x, Decision (P x)} (l k : list A) :
  l `sublist_of` k -> filter P l `sublist_of` filter P k.
Proof.
  induction 1; [done|..]; rewrite ?filter_cons; repeat case_decide; try done; by constructor.
Qed.

Lemma sublist_filter_self {A} (P : A -> Prop) `{!forall x, Decision (P x)} (l : list A) :
  filter P l `sublist_of` l.
Proof. induction l; [done|]. rewrite filter_cons. case_decide; by constructor. Qed.

Lemma sublist_snd (l k : timers) : l `sublist_of` k -> l.*2 `sublist_of` k.*2.
Proof. induction 1; cbn; by constructor. Qed.

(** What fires was due, in the order of the queue, and nothing that is due is
    left. *)
Lemma tickled_sound i now Q fs Q' :
  tickled (no_new_due i now) i now Q fs Q' ->
  fs `sublist_of` (due now (Q i)).*2 /\ due now (Q' i) = [].
Proof.
  induction 1 as [Q Hd|Q e w q Q1 fs Q2 Hq He HK _ [IH1 IH2]]; [by rewrite Hd|].
  split; [|done]. rewrite Hq, due_cons by done. rewrite fmap_cons. constructor.
  etrans; [exact IH1|]. apply sublist_snd. unfold no_new_due in HK. by rewrite with_queue_same in HK.
Qed.

(** With routines that only add timers, all that is due fires, in order, and
    the other timers stay. *)
Lemma tickled_relative ticks Q fs Q' :
  tickled (only_adds ticks) PER_CPU_WATCHDOG_RELATIVE ticks Q fs Q' ->
  fs = (due ticks (Q PER_CPU_WATCHDOG_RELATIVE)).*2 /\ due ticks (Q' PER_CPU_WATCHDOG_RELATIVE) = [] /\
  Q' PER_CPU_WATCHDOG_ABSOLUTE = Q PER_CPU_WATCHDOG_ABSOLUTE /\
  filter (fun x => ~ x.1 <= ticks) (Q PER_CPU_WATCHDOG_RELATIVE) `sublist_of`
    Q' PER_CPU_WATCHDOG_RELATIVE.
Proof.
  induction 1 as [Q Hd|Q e w q Q1 fs Q2 Hq He (Ha & Hs & Hdue) _ (-> & IH2 & IH3 & IH4)].
  - rewrite Hd. split_and!; try done. apply sublist_filter_self.
  - rewrite with_queue_same in Hs, Hdue. rewrite with_queue_other in Ha by done.
    rewrite Hq, due_cons, Hdue by done. split_and!; try done; [by rewrite IH3|].
    rewrite filter_cons_False by (cbn; lia). etrans; [|exact IH4]. by apply sublist_filter.
Qed.

Lemma tickled_absolute ticks now Q fs Q' :
  tickled (only_adds ticks) PER_CPU_WATCHDOG_ABSOLUTE now Q fs Q' ->
  fs = (due now (Q PER_CPU_WATCHDOG_ABSOLUTE)).*2 /\ due now (Q' PER_CPU_WATCHDOG_ABSOLUTE) = [] /\
  Q PER_CPU_WATCHDOG_RELATIVE `sublist_of` Q' PER_CPU_WATCHDOG_RELATIVE /\
  due ticks (Q' PER_CPU_WATCHDOG_RELATIVE) = due ticks (Q PER_CPU_WATCHDOG_RELATIVE).
Proof.
  induction 1 as [Q Hd|Q e w q Q1 fs Q2 Hq He (Ha & Hs & Hdue) _ (-> & IH2 & IH3 & IH4)].
  - by rewrite Hd.
  - rewrite with_queue_other in Hs, Hdue by done. rewrite with_queue_same in Ha.
    rewrite Hq, due_cons, Ha by done. split_and!; try done; [by etrans|by rewrite IH4].
Qed.

(** ** The loop implements the abstract tick *)
Section Clients.
Context {T : Type} `{SysTreeLaws}.
Variable call_routine : Z -> Z -> cm (wd_state T) unit.
(** An invariant of the rest of the system, and the record it keeps of the
    routines that were called. *)
Variable R : T -> Prop.
Variable fired : T -> list Z.

(** A service routine ends, keeps the invariants, and does to the queues what
    [K] allows. *)
Definition routines_ok (K : queues -> queues -> Prop) (ticks : Z) : Prop := forall r w s Q,
  wd_inv s Q -> R (wd_rest s) -> wd_ticks s = ticks ->
  is_Some (wd_controls s !! w) -> (forall j, w ∉ (Q j).*2) ->
  exists s' Q', call_routine r w s = Ok (tt, s') /\ wd_inv s' Q' /\ K Q Q' /\
    R (wd_rest s') /\ fired (wd_rest s') = fired (wd_rest s) ++ [w] /\ wd_ticks s' = ticks.

Lemma tickle_step s Q i now e w q fuel :
  wd_inv s Q -> Q i = (e, w) :: q ->
  first (header_of i s) = w /\ w <> NULL /\ expire_of s w = e /\
  (now < e -> Watchdog_Do_tickle call_routine (S fuel) i now s = Ok (tt, s)) /\
  (e <= now -> exists r s', Watchdog_Do_tickle call_routine (S fuel) i now s =
      (call_routine r w;; Watchdog_Do_tickle call_routine fuel i now) s' /\
    wd_inv s' (with_queue i q Q) /\ wd_frame s s' /\ is_Some (wd_controls s' !! w) /\
    wd_controls s !! w = Some (mk_Watchdog_Control r e) /\ wd_controls s' = wd_controls s /\
    (forall x, x ∉ (Q i).*2 -> wd_nodes s' !! x = wd_nodes s !! x) /\
    (exists n, wd_nodes s' !! w = Some n /\ rbe_color n = WATCHDOG_INACTIVE)).
Proof.
  intros Hi Hq. pose proof (wi_header _ _ Hi i) as Hh. rewrite Hq in Hh.
  pose proof Hh as [(t & [Ht Hnd] & Hin) _ Hf He _]. cbn in Hf.
  destruct (He e w) as [r Hr]; [apply list_elem_of_here|].
  assert (Hw : w <> NULL) by (eapply rep_nodes; [exact Ht|rewrite Hin; apply list_elem_of_here]).
  split_and!; try done; [by unfold expire_of; rewrite Hr|..]; intros Hnow;
    cbn [Watchdog_Do_tickle]; unfold ld_first; rewrite gets_bind, Hf;
    rewrite (proj2 (Z.eqb_neq w NULL)), (wd_ld_bind _ _ _ _ _ Hr) by done; cbn [expire].
  - by rewrite (proj2 (Z.leb_gt e now)).
  - rewrite (proj2 (Z.leb_le e now)) by done. rewrite (next_first_bind i s e w q) by done.
    destruct (take_out_run s Q i [] e w q Hi Hq) as (s' & Hrun & Hi' & Hfr & Hcs & Hsame & Hoff).
    exists r, s'. split_and!; try done; [|rewrite Hcs; eauto].
    etrans; [symmetry; exact (cm_bind_assoc _ _ _ _)|]. cbn in Hrun.
    etrans; [exact (cm_bind_ok _ _ _ _ _ Hrun)|].
    rewrite <- Hcs in Hr. by rewrite (wd_ld_bind _ _ _ _ _ Hr).
Qed.

Lemma tickle_run K i now ticks :
  (forall Q Q', K Q Q' -> no_new_due i now Q Q') -> routines_ok K ticks ->
  forall fuel s Q, wd_inv s Q -> R (wd_rest s) -> wd_ticks s = ticks ->
  (length (due now (Q i)) < fuel)%nat ->
  exists s' fs Q', Watchdog_Do_tickle call_routine fuel i now s = Ok (tt, s') /\
    tickled K i now Q fs Q' /\ wd_inv s' Q' /\ R (wd_rest s') /\
    fired (wd_rest s') = fired (wd_rest s) ++ fs /\ wd_ticks s' = ticks.
Proof.
  intros HK Hcall fuel. induction fuel as [|fuel IH]; intros s Q Hi HR Ht Hlen; [lia|].
  destruct (Q i) as [|[e w] q] eqn:Hq.
  - exists s, [], Q. rewrite app_nil_r. split_and!; try done; [|constructor; by rewrite Hq].
    cbn [Watchdog_Do_tickle]. unfold ld_first. rewrite gets_bind.
    rewrite (ho_first _ _ _ (wi_header _ _ Hi i)), Hq. done.
  - destruct (tickle_step s Q i now e w q fuel Hi Hq) as (_ & _ & _ & Hlater & Hdue).
    pose proof (ho_ordered _ _ _ (wi_header _ _ Hi i)) as Ho. rewrite Hq in Ho.
    destruct (Z.le_gt_cases e now) as [He|He].
    + destruct (Hdue He) as (r & s1 & -> & Hi1 & (Ht1 & _ & HR1 & _) & Hc1 & _).
      destruct (Hcall r w s1 (with_queue i q Q)) as (s2 & Q2 & Hrun & Hi2 & HK2 & HR2 & Hf2 & Ht2);
        [done|by rewrite HR1|by rewrite Ht1|done|..].
      { intros j. pose proof (ho_tree _ _ _ (wi_header _ _ Hi i)) as (t & [_ Hnd] & Hin).
        rewrite Hin, Hq in Hnd. cbn in Hnd. apply NoDup_cons in Hnd as [Hw _].
        destruct (decide (j = i)) as [->|Hj]; [by rewrite with_queue_same|].
        rewrite with_queue_other by done. apply (wi_apart _ _ Hi i j); [done|].
        rewrite Hq. apply list_elem_of_here. }
      rewrite (cm_bind_ok _ _ _ _ _ Hrun).
      rewrite due_cons in Hlen by done. cbn [length] in Hlen.
      pose proof (HK _ _ HK2) as Hs. unfold no_new_due in Hs. rewrite with_queue_same in Hs.
      apply sublist_length in Hs.
      destruct (IH s2 Q2 Hi2 HR2 Ht2) as (s' & fs & Q' & Hrun' & Htick & Hi' & HR' & Hf' & Ht'); [lia|].
      exists s', (w :: fs), Q'. split_and!; try done.
      * by eapply tickled_fire.
      * rewrite Hf', Hf2, HR1. by rewrite <- app_assoc.
    + exists s, [], Q. rewrite app_nil_r. split_and!; try done; [by apply Hlater|].
      constructor. rewrite Hq. by apply due_head.
Qed.

(** More rounds than needed do not change the result. *)
Lemma tickle_mono i now fuel : forall fuel' s x,
  Watchdog_Do_tickle call_routine fuel i now s = Ok x -> (fuel <= fuel')%nat ->
  Watchdog_Do_tickle call_routine fuel' i now s = Ok x.
Proof.
  induction fuel as [|fuel IH]; intros fuel' s [[] s'] Hrun Hle; [done|].
  destruct fuel' as [|fuel']; [lia|]. cbn [Watchdog_Do_tickle] in *.
  apply cm_bind_inv in Hrun as (f & s1 & H1 & Hrun). rewrite (cm_bind_ok _ _ _ _ _ H1).
  destruct (f =? NULL); [done|].
  apply cm_bind_inv in Hrun as (e & s2 & H2 & Hrun). rewrite (cm_bind_ok _ _ _ _ _ H2).
  destruct (e <=? now); [|done].
  apply cm_bind_inv in Hrun as ([] & s3 & H3 & Hrun). rewrite (cm_bind_ok _ _ _ _ _ H3).
  apply cm_bind_inv in Hrun as ([] & s4 & H4 & Hrun). rewrite (cm_bind_ok _ _ _ _ _ H4).
  apply cm_bind_inv in Hrun as ([] & s5 & H5 & Hrun). rewrite (cm_bind_ok _ _ _ _ _ H5).
  apply cm_bind_inv in Hrun as (r & s6 & H6 & Hrun). rewrite (cm_bind_ok _ _ _ _ _ H6).
  apply cm_bind_inv in Hrun as ([] & s7 & H7 & Hrun). rewrite (cm_bind_ok _ _ _ _ _ H7).
  apply IH; [done|lia].
Qed.

(** ** The whole clock tick *)
Variable Timecounter_Getnanotime : cm (wd_state T) timespec.
Variable Scheduler_Tick : cm (wd_state T) unit.

(** Reading the time changes nothing; the tick of the scheduler works on the
    rest of the system. *)
Definition tick_clients_ok : Prop :=
  (forall s, exists now, Timecounter_Getnanotime s = Ok (now, s)) /\
  (forall s, R (wd_rest s) -> exists t, Scheduler_Tick s = Ok (tt, set_wd_rest t s) /\ R t /\
     fired t = fired (wd_rest s)).

Abbreviation Tick := (Watchdog_Tick call_routine Timecounter_Getnanotime Scheduler_Tick).

Lemma only_adds_relative ticks Q Q' :
  only_adds ticks Q Q' -> no_new_due PER_CPU_WATCHDOG_RELATIVE ticks Q Q'.
Proof. intros (_ & _ & Hd). unfold no_new_due. by rewrite Hd. Qed.

Lemma only_adds_absolute ticks now Q Q' :
  only_adds ticks Q Q' -> no_new_due PER_CPU_WATCHDOG_ABSOLUTE now Q Q'.
Proof. intros (Ha & _). unfold no_new_due. by rewrite Ha. Qed.

Lemma wd_inv_same (s s' : wd_state T) Q :
  relative_header s' = relative_header s -> absolute_header s' = absolute_header s ->
  wd_nodes s' = wd_nodes s -> wd_controls s' = wd_controls s -> wd_inv s Q -> wd_inv s' Q.
Proof.
  intros Hr Ha Hn Hc [Hh Hap Hid Hb Hnull].
  split; rewrite ?Hn, ?Hc; try done. intros i. eapply header_frame; [..|apply Hh].
  - destruct i; cbn; done.
  - intros w _. by rewrite Hn, Hc.
Qed.

Lemma due_length now q : (length (due now q) <= length q)%nat.
Proof. apply sublist_length, sublist_filter_self. Qed.

Lemma tick_run s Q :
  let t := wd_ticks s + 1 in
  wd_inv s Q -> R (wd_rest s) -> 0 <= wd_ticks s -> t < 2 ^ 64 ->
  routines_ok (only_adds t) t -> tick_clients_ok ->
  exists fuel0 now s' Q', (forall fuel, (fuel0 <= fuel)%nat -> Tick fuel s = Ok (tt, s')) /\
    wd_inv s' Q' /\ R (wd_rest s') /\ wd_ticks s' = t /\
    fired (wd_rest s') = fired (wd_rest s) ++ (due t (Q PER_CPU_WATCHDOG_RELATIVE)).*2 ++
      (due now (Q PER_CPU_WATCHDOG_ABSOLUTE)).*2 /\
    filter (fun x => ~ x.1 <= t) (Q PER_CPU_WATCHDOG_RELATIVE) `sublist_of`
      Q' PER_CPU_WATCHDOG_RELATIVE.
Proof.
  intros t Hi HR Ht0 Ht1 Hcall [Htime Hsched].
  set (s1 := set_wd_ticks t
    (set_Watchdog_Ticks_since_boot (u32 (Watchdog_Ticks_since_boot s + 1)) s)).
  destruct (tickle_run _ _ _ t (only_adds_relative t) Hcall
    (S (length (due t (Q PER_CPU_WATCHDOG_RELATIVE)))) s1 Q) as (s2 & f2 & Q2 & Hrun2 & Htk2 & Hi2 & HR2 & Hf2 & Ht2);
    [by apply (wd_inv_same s)|done|done|lia|].
  destruct (Htime s2) as [ts Hts]. set (now := Watchdog_Ticks_from_timespec ts).
  destruct (tickle_run _ _ now t (only_adds_absolute t now) Hcall
    (S (length (due now (Q2 PER_CPU_WATCHDOG_ABSOLUTE)))) s2 Q2 Hi2 HR2 Ht2)
    as (s3 & f3 & Q3 & Hrun3 & Htk3 & Hi3 & HR3 & Hf3 & Ht3); [lia|].
  destruct (Hsched s3 HR3) as (rest & Hrun4 & HR4 & Hf4).
  apply tickled_relative in Htk2 as (-> & Hd2 & Ha2 & Hl2).
  apply tickled_absolute in Htk3 as (-> & Hd3 & Hl3 & _).
  rewrite Ha2 in Hf3, Hrun3.
  exists (S (length (due t (Q PER_CPU_WATCHDOG_RELATIVE)) + length (due now (Q PER_CPU_WATCHDOG_ABSOLUTE)))), now, (set_wd_rest rest s3), Q3.
  split_and!; try done.
  - intros fuel Hfuel. unfold Watchdog_Tick. rewrite modify_bind, gets_bind. cbn beta.
    rewrite modify_bind. change (wd_ticks (set_Watchdog_Ticks_since_boot _ s)) with (wd_ticks s).
    rewrite u64_id by lia. fold t. fold s1.
    rewrite (cm_bind_ok _ _ _ _ _ (tickle_mono _ _ _ fuel _ _ Hrun2 ltac:(lia))).
    rewrite (cm_bind_ok _ _ _ _ _ Hts). unfold Watchdog_Per_CPU_tickle_absolute. fold now.
    by rewrite (cm_bind_ok _ _ _ _ _ (tickle_mono _ _ _ fuel _ _ Hrun3 ltac:(lia))).
  - by apply (wd_inv_same s3).
  - cbn. rewrite Hf4, Hf3, Hf2. by rewrite <- app_assoc.
  - by etrans.
Qed.

(** One clock tick, and its result is unique. *)
Definition ticks_to (s s' : wd_state T) : Prop := exists fuel, Tick fuel s = Ok (tt, s').

End Clients.
