(* ===== verification/WatchdogTheorems.v ===== *)
(** * Watchdogs: the theorems

    The handler refines two ordered queues of timers; a clock tick calls the
    routines of exactly the timers that are due, in order; a timer fires at its
    tick.  The examples run on the smallest tree library ([vine_laws]). *)

From stdpp Require Import base tactics numbers option list list_numbers gmap fin_maps fin_map_dom fin_sets sorting relations.
From Stdlib Require Import ZArith Lia.
From S2P Require Import Prelude Chain Timespec RBTree RBTreeFacts Watchdog WatchdogFacts WatchdogTick.

Open Scope Z_scope.

(** ** The handler as operations on queues *)
Inductive wd_op :=
| W_insert (i : Per_CPU_Watchdog_index) (w expire_time : Z)
| W_remove (i : Per_CPU_Watchdog_index) (w : Z)
| W_cancel (i : Per_CPU_Watchdog_index) (w now : Z).

Definition run_wd_op {T} `{SysTree} (op : wd_op) : cm (wd_state T) (option Z) :=
  match op with
  | W_insert i w e => Watchdog_Insert i w e;; mret None
  | W_remove i w => Watchdog_Remove i w;; mret None
  | W_cancel i w now => r ← Watchdog_Cancel i w now; mret (Some r)
  end.

(** The queues after an operation; of a watchdog that is scheduled [_Watchdog_Cancel]
    returns the time left. *)
Definition wd_op_queues (op : wd_op) (Q : queues) : queues :=
  match op with
  | W_insert i w e => with_queue i (tq_insert e w (Q i)) Q
  | W_remove i w | W_cancel i w _ => with_queue i (tq_remove w (Q i)) Q
  end.

Definition wd_op_result (op : wd_op) (Q : queues) (r : option Z) : Prop :=
  match op with
  | W_insert _ _ _ | W_remove _ _ => r = None
  | W_cancel i w now => forall e, (e, w) ∈ Q i -> r = Some (Z.max 0 (e - now))
  end.

(** A watchdog is inserted when it is in no queue, and removed from the queue
    it is in, if any. *)
Definition wd_op_ok {T} (s : wd_state T) (Q : queues) (op : wd_op) : Prop :=
  match op with
  | W_insert i w e => is_Some (wd_controls s !! w) /\ (forall j, w ∉ (Q j).*2)
  | W_remove i w => is_Some (wd_controls s !! w) /\ (w ∈ (Q i).*2 \/ forall j, w ∉ (Q j).*2)
  | W_cancel i w now => is_Some (wd_controls s !! w) /\ (w ∈ (Q i).*2 \/ forall j, w ∉ (Q j).*2) /\
      0 <= now /\ (forall e, (e, w) ∈ Q i -> 0 <= e < 2 ^ 64)
  end.

Section Theorems.
Context {T : Type} `{SysTreeLaws}.

(** C6: the watchdog handler refines two queues ordered by expiration time.
    Inserting a watchdog puts it behind all that expire at the same time or
    earlier, removing or cancelling takes it out, cancelling tells the time
    left; the pointer to the first watchdog is the head of the queue, whatever
    the shape of the tree; the other queue, the service routines and the rest
    of the system are unchanged. *)
Theorem watchdog_refines_queue (s : wd_state T) Q op :
  wd_inv s Q -> wd_op_ok s Q op ->
  exists r s', run_wd_op op s = Ok (r, s') /\ wd_op_result op Q r /\
    wd_inv s' (wd_op_queues op Q) /\ wd_frame s s' /\
    (forall i, first (header_of i s') = default NULL (head (wd_op_queues op Q i).*2)).
Proof.
  intros Hi Hok.
  enough (exists r s', run_wd_op op s = Ok (r, s') /\ wd_op_result op Q r /\
    wd_inv s' (wd_op_queues op Q) /\ wd_frame s s') as (r & s' & ? & ? & Hi' & ?).
  { exists r, s'. split_and!; try done. intros i. apply (ho_first _ _ _ (wi_header _ _ Hi' i)). }
  destruct op as [i w e|i w|i w now]; cbn [run_wd_op wd_op_queues wd_op_result wd_op_ok] in *.
  - destruct Hok as [[c Hc] Hw]. destruct (watchdog_insert_run s Q i w e c Hi Hc Hw) as (s' & Hrun & ? & ? & _).
    exists None, s'. by rewrite (cm_bind_ok _ _ _ _ _ Hrun).
  - destruct Hok as [Hc Hw]. destruct (watchdog_remove_run s Q i w Hi Hc Hw) as (s' & Hrun & ? & ? & _).
    exists None, s'. by rewrite (cm_bind_ok _ _ _ _ _ Hrun).
  - destruct Hok as ([c Hc] & Hw & Hnow & He).
    destruct (watchdog_remove_run s Q i w Hi (ex_intro _ c Hc) Hw) as (s' & Hrun & ? & ? & _).
    eexists _, s'. unfold Watchdog_Cancel. rewrite cm_bind_assoc, (wd_ld_bind _ c) by done.
    rewrite cm_bind_assoc, (cm_bind_ok _ _ _ _ _ Hrun), ret_bind. split; [done|split; [|done]].
    intros e Hew. destruct (ho_expire _ _ _ (wi_header _ _ Hi i) e w Hew) as [r Hr].
    rewrite Hc in Hr. injection Hr as ->. cbn. specialize (He e Hew).
    destruct (Z.ltb_spec now e); f_equal; [rewrite u64_id by lia|]; lia.
Qed.

Variable call_routine : Z -> Z -> cm (wd_state T) unit.
Variable R : T -> Prop.
Variable fired : T -> list Z.

(** C28: the loop over the due watchdogs ends for all service routines that end
    and schedule nothing that is due at once; the routines called are those of
    watchdogs that were due, in the order of their expiration (a routine may
    cancel others), each is taken out of its queue before its routine runs,
    and no watchdog that is due is left. *)
Theorem watchdog_tickle_due s Q i now fuel :
  wd_inv s Q -> R (wd_rest s) -> routines_ok call_routine R fired (no_new_due i now) (wd_ticks s) ->
  (length (due now (Q i)) < fuel)%nat ->
  exists s' fs Q', Watchdog_Do_tickle call_routine fuel i now s = Ok (tt, s') /\
    wd_inv s' Q' /\ due now (Q' i) = [] /\ R (wd_rest s') /\
    fired (wd_rest s') = fired (wd_rest s) ++ fs /\ fs `sublist_of` (due now (Q i)).*2 /\
    tickled (no_new_due i now) i now Q fs Q'.
Proof.
  intros Hi HR Hcall Hfuel.
  destruct (tickle_run call_routine R fired (no_new_due i now) i now (wd_ticks s) ltac:(done) Hcall
    fuel s Q Hi HR eq_refl Hfuel) as (s' & fs & Q' & Hrun & Htk & Hi' & HR' & Hf & _).
  destruct (tickled_sound _ _ _ _ _ Htk) as [Hs Hd]. by exists s', fs, Q'.
Qed.

Variable Timecounter_Getnanotime : cm (wd_state T) timespec.
Variable Scheduler_Tick : cm (wd_state T) unit.

Abbreviation tick := (ticks_to call_routine Timecounter_Getnanotime Scheduler_Tick).

(** The timer [(e, w)] waits, or has just fired. *)
Lemma waits_or_fires s Q e w k :
  (forall t, routines_ok call_routine R fired (only_adds t) t) ->
  tick_clients_ok R fired Timecounter_Getnanotime Scheduler_Tick ->
  wd_inv s Q -> R (wd_rest s) -> (e, w) ∈ Q PER_CPU_WATCHDOG_RELATIVE ->
  0 <= wd_ticks s -> wd_ticks s + Z.of_nat k < 2 ^ 64 ->
  Z.of_nat k <= Z.max 1 (e - wd_ticks s) ->
  exists s' fs, nsteps tick k s s' /\ fired (wd_rest s') = fired (wd_rest s) ++ fs /\
    (w ∈ fs <-> Z.of_nat k = Z.max 1 (e - wd_ticks s)) /\
    (Z.of_nat k < Z.max 1 (e - wd_ticks s) -> exists Q', wd_inv s' Q' /\ R (wd_rest s') /\
       (e, w) ∈ Q' PER_CPU_WATCHDOG_RELATIVE /\ wd_ticks s' = wd_ticks s + Z.of_nat k).
Proof.
  intros Hcall Hclients Hi HR Hew Ht0 Ht1 Hk. induction k as [|k IH].
  - exists s, []. rewrite app_nil_r. split_and!; [constructor|done|..].
    + split; [by intros ?%elem_of_nil|lia].
    + intros _. exists Q. rewrite Z.add_0_r. done.
  - destruct IH as (s1 & f1 & Hsteps & Hf1 & Hw1 & Hgo); [lia..|].
    destruct Hgo as (Q1 & Hi1 & HR1 & Hew1 & Htk1); [lia|].
    destruct (tick_run call_routine R fired Timecounter_Getnanotime Scheduler_Tick s1 Q1 Hi1 HR1)
      as (fuel0 & now & s' & Q' & Hrun & Hi' & HR' & Htk' & Hf' & Hl); [lia..|by apply Hcall|done|].
    exists s', (f1 ++ (due (wd_ticks s1 + 1) (Q1 PER_CPU_WATCHDOG_RELATIVE)).*2 ++
      (due now (Q1 PER_CPU_WATCHDOG_ABSOLUTE)).*2). split_and!.
    + eapply nsteps_r; [done|]. exists fuel0. by apply Hrun.
    + by rewrite Hf', Hf1, <- app_assoc.
    + assert (Habs : w ∉ (due now (Q1 PER_CPU_WATCHDOG_ABSOLUTE)).*2).
      { intros (x & -> & [_ Hx]%list_elem_of_filter)%list_elem_of_fmap.
        apply (wi_apart _ _ Hi1 PER_CPU_WATCHDOG_RELATIVE PER_CPU_WATCHDOG_ABSOLUTE x.2); [done|..];
          apply list_elem_of_fmap; [by exists (e, x.2)|by exists x]. }
      assert (Hrel : w ∈ (due (wd_ticks s1 + 1) (Q1 PER_CPU_WATCHDOG_RELATIVE)).*2 <-> e <= wd_ticks s1 + 1).
      { split.
        - intros ([e' w'] & -> & [He Hx]%list_elem_of_filter)%list_elem_of_fmap. cbn [fst snd] in *.
          destruct (ho_expire _ _ _ (wi_header _ _ Hi1 _) _ _ Hx) as [r1 Hr1].
          destruct (ho_expire _ _ _ (wi_header _ _ Hi1 _) _ _ Hew1) as [r2 Hr2]. cbn [snd] in *. congruence.
        - intros He. apply list_elem_of_fmap. exists (e, w). split; [done|].
          by apply list_elem_of_filter. }
      rewrite !elem_of_app, Hw1, Hrel. split; [intros [?|[?|?]]; [lia|lia|done]|].
      intros. right. left. lia.
    + intros Hlt. exists Q'. split_and!; try done; [|lia].
      eapply elem_of_sublist; [|exact Hl]. apply list_elem_of_filter. split; [cbn; lia|done].
Qed.

(** C11: a timer fires on time.  A watchdog armed for [n] ticks has its routine
    called in the [n]-th clock tick after that (in the next one when [n] is 0)
    and not before, however many other timers there are, at the same time or
    other times, in ticks or at dates, as long as the routines called in
    between only add timers for later ticks. *)
Theorem watchdog_fires_on_time s Q w c n k :
  (forall t, routines_ok call_routine R fired (only_adds t) t) ->
  tick_clients_ok R fired Timecounter_Getnanotime Scheduler_Tick ->
  wd_inv s Q -> R (wd_rest s) -> wd_controls s !! w = Some c -> (forall j, w ∉ (Q j).*2) ->
  0 <= n < 2 ^ 32 -> 0 <= wd_ticks s -> wd_ticks s + Z.max 1 n < 2 ^ 64 ->
  Z.of_nat k <= Z.max 1 n ->
  exists s0 s' fs, Watchdog_Per_CPU_insert_relative w n s = Ok (wd_ticks s + n, s0) /\
    nsteps tick k s0 s' /\ fired (wd_rest s') = fired (wd_rest s) ++ fs /\
    (w ∈ fs <-> Z.of_nat k = Z.max 1 n).
Proof.
  intros Hcall Hclients Hi HR Hc Hw Hn Ht0 Ht1 Hk.
  unfold Watchdog_Per_CPU_insert_relative. rewrite gets_bind, u64_id by lia.
  destruct (watchdog_insert_run s Q PER_CPU_WATCHDOG_RELATIVE w (n + wd_ticks s) c Hi Hc Hw)
    as (s0 & Hrun & Hi0 & (Hfr & _ & Hrest & _) & _).
  rewrite (cm_bind_ok _ _ _ _ _ Hrun). rewrite <- Hrest, (Z.add_comm n), <- Hfr in *.
  destruct (waits_or_fires s0 _ (wd_ticks s0 + n) w k Hcall Hclients Hi0) as (s' & fs & ? & ? & Hfs & _).
  - done.
  - rewrite with_queue_same. unfold tq_insert. set_solver.
  - lia.
  - lia.
  - lia.
  - exists s0, s', fs. split_and!; try done. rewrite Hfs. lia.
Qed.

End Theorems.

(** ** Dates as numbers *)
Lemma date_ticks_value ts :
  0 <= tv_sec ts < 2 ^ 34 -> 0 <= tv_nsec ts < 2 ^ 30 ->
  Watchdog_Ticks_from_timespec ts = tv_sec ts * 2 ^ 30 + tv_nsec ts.
Proof.
  intros Hs Hn. unfold Watchdog_Ticks_from_timespec, WATCHDOG_BITS_FOR_1E9_NANOSECONDS.
  rewrite (u64_id (tv_sec ts)), (u32_id (tv_nsec ts)), Z.shiftl_mul_pow2 by lia.
  rewrite u64_id by lia. by apply lor_low.
Qed.

(** Dates of absolute timers as 64-bit numbers keep their order: for times
    up to the year 2514 a date is before another exactly when its number is
    smaller, so that the queue of absolute timers is ordered by date, and a
    date in whole seconds has the number [_Watchdog_Ticks_from_seconds] gives. *)
Theorem watchdog_dates_ordered a b :
  Timespec_Is_valid (Some a) = true -> Timespec_Is_valid (Some b) = true ->
  tv_sec a < 2 ^ 34 -> tv_sec b < 2 ^ 34 ->
  0 <= Watchdog_Ticks_from_timespec a < 2 ^ 64 /\
  (Watchdog_Ticks_from_timespec a <? Watchdog_Ticks_from_timespec b) = Timespec_Less_than a b /\
  (Watchdog_Ticks_from_timespec a = Watchdog_Ticks_from_timespec b -> a = b) /\
  (tv_nsec a = 0 -> Watchdog_Ticks_from_timespec a = Watchdog_Ticks_from_seconds (tv_sec a)).
Proof.
  rewrite !Timespec_Is_valid_spec. unfold TOD_NANOSECONDS_PER_SECOND. intros Ha Hb Hsa Hsb.
  rewrite !date_ticks_value by lia. split_and!; [lia|lia|..].
  - unfold Timespec_Less_than.
    destruct (Z.ltb_spec (tv_sec a) (tv_sec b)), (Z.ltb_spec (tv_sec b) (tv_sec a)),
      (Z.ltb_spec (tv_nsec a) (tv_nsec b)); try lia; (apply Z.ltb_lt || apply Z.ltb_ge); lia.
  - destruct a as [sa na], b as [sb nb]. cbn in *. intros Heq.
    assert (sa = sb) as -> by lia. f_equal. lia.
  - intros ->. unfold Watchdog_Ticks_from_seconds, WATCHDOG_BITS_FOR_1E9_NANOSECONDS.
    rewrite Z.shiftl_mul_pow2, u64_id by lia. lia.
Qed.

(** ** The start, and an example *)

(** Headers as [_Watchdog_Header_initialize] makes them, and watchdogs that are
    initialized but not scheduled. *)
Lemma wd_inv_initial {T} `{SysTreeLaws} (s : wd_state T) :
  relative_header s = mk_Watchdog_Header NULL NULL -> absolute_header s = mk_Watchdog_Header NULL NULL ->
  (forall w n, wd_nodes s !! w = Some n -> WATCHDOG_INACTIVE <= rbe_color n) ->
  (forall w, is_Some (wd_nodes s !! w) <-> is_Some (wd_controls s !! w)) -> wd_nodes s !! NULL = None ->
  wd_inv s (fun _ => []).
Proof.
  intros Hr Ha Hidle Hboth Hnull.
  assert (Hh : forall i, header_of i s = mk_Watchdog_Header NULL NULL) by (by intros []).
  split; try done.
  - intros i. split.
    + exists Leaf. split; [|done]. split; [|constructor]. cbn. by rewrite Hh.
    + apply balanced_empty. cbn. by rewrite Hh.
    + by rewrite Hh.
    + intros e w []%elem_of_nil.
    + constructor.
  - intros i j w _ []%elem_of_nil.
  - eauto.
Qed.

(** Two watchdogs; the rest of the system is the list of those that fired. *)
Definition demo_watchdogs : wd_state (list Z) :=
  mk_wd_state (mk_Watchdog_Header NULL NULL) (mk_Watchdog_Header NULL NULL) 41 41
    (<[16 := mk_RBTree_Node 0 0 0 WATCHDOG_INACTIVE]>
      (<[48 := mk_RBTree_Node 0 0 0 WATCHDOG_INACTIVE]> ∅))
    (<[16 := mk_Watchdog_Control 7 0]> (<[48 := mk_Watchdog_Control 8 0]> ∅)) [].

Definition demo_routine (r w : Z) : cm (wd_state (list Z)) unit :=
  modify (fun s => set_wd_rest (wd_rest s ++ [w]) s).
Definition demo_time : cm (wd_state (list Z)) timespec := mret (mk_timespec 5 0).

#[local] Existing Instance vine_sys_tree.
#[local] Existing Instance vine_laws.

Lemma demo_watchdogs_inv : wd_inv demo_watchdogs (fun _ => []).
Proof.
  apply wd_inv_initial; try done.
  - intros w n. cbn. rewrite !lookup_insert_Some, lookup_empty. naive_solver.
  - intros w. cbn. rewrite <- !elem_of_dom, !dom_insert, !dom_empty. done.
Qed.

Lemma demo_routines (K : queues -> queues -> Prop) t :
  (forall Q, K Q Q) -> routines_ok demo_routine (fun _ => True) id K t.
Proof.
  intros HK r w s Q Hi _ Ht _ _. exists (set_wd_rest (wd_rest s ++ [w]) s), Q.
  split_and!; try done. by apply (wd_inv_same s).
Qed.

Lemma demo_clients : tick_clients_ok (fun _ => True) id demo_time (mret tt).
Proof.
  split; [intros s; by exists (mk_timespec 5 0)|]. intros s _. exists (wd_rest s). by destruct s.
Qed.

Lemma watchdog_refines_queue_witness : exists r s',
  run_wd_op (W_insert PER_CPU_WATCHDOG_RELATIVE 48 50) demo_watchdogs = Ok (r, s') /\
  first (relative_header s') = 48.
Proof.
  destruct (watchdog_refines_queue demo_watchdogs (fun _ => []) (W_insert PER_CPU_WATCHDOG_RELATIVE 48 50))
    as (r & s' & Hrun & _ & _ & _ & Hf); [exact demo_watchdogs_inv| |].
  - split; [by eexists|]. intros j. apply not_elem_of_nil.
  - exists r, s'. split; [exact Hrun|]. exact (Hf PER_CPU_WATCHDOG_RELATIVE).
Defined.

Lemma watchdog_tickle_due_witness : exists s1 s',
  Watchdog_Insert PER_CPU_WATCHDOG_RELATIVE 48 50 demo_watchdogs = Ok (tt, s1) /\
  Watchdog_Do_tickle demo_routine 2 PER_CPU_WATCHDOG_RELATIVE 60 s1 = Ok (tt, s') /\
  48 ∈ wd_rest s' /\ wd_rest s' `sublist_of` [48].
Proof.
  destruct (watchdog_insert_run demo_watchdogs (fun _ => []) PER_CPU_WATCHDOG_RELATIVE 48 50
    (mk_Watchdog_Control 8 0) demo_watchdogs_inv) as (s1 & Hrun1 & Hi1 & (_ & _ & Hrest & _) & _);
    [reflexivity|intros j; apply not_elem_of_nil|].
  destruct (watchdog_tickle_due demo_routine (fun _ => True) id s1 _ PER_CPU_WATCHDOG_RELATIVE 60 2 Hi1)
    as (s' & fs & Q' & Hrun & Hi & Hdue & _ & Hf & Hs & Htk);
    [exact I|apply demo_routines; intros Q; unfold no_new_due; reflexivity|vm_compute; lia|].
  exists s1, s'. split; [exact Hrun1|]. split; [exact Hrun|]. split.
  - unfold id in Hf. rewrite Hf, Hrest.
    inversion Htk as [Q Hd|Q e w q Q1 fs' Q2 Hq He HK Htk']; subst; [by vm_compute in Hd|].
    vm_compute in Hq. injection Hq as <- <- <-. apply list_elem_of_here.
  - unfold id in Hf. rewrite Hf, Hrest. exact Hs.
Defined.

Lemma watchdog_fires_on_time_witness : exists s0 s' fs,
  Watchdog_Per_CPU_insert_relative 16 3 demo_watchdogs = Ok (44, s0) /\
  nsteps (ticks_to demo_routine demo_time (mret tt)) 3 s0 s' /\
  wd_rest s' = fs /\ 16 ∈ fs.
Proof.
  destruct (watchdog_fires_on_time demo_routine (fun _ => True) id demo_time (mret tt) demo_watchdogs
    (fun _ => []) 16 (mk_Watchdog_Control 7 0) 3 3) as (s0 & s' & fs & Hrun & Hsteps & Hf & Hiff);
    [|exact demo_clients|exact demo_watchdogs_inv|exact I|reflexivity|intros j; apply not_elem_of_nil|cbn; lia..|].
  - intros t. apply demo_routines. intros Q. repeat split; reflexivity.
  - exists s0, s', fs. split; [exact Hrun|]. split; [exact Hsteps|]. split; [exact Hf|]. by apply Hiff.
Defined.

Lemma watchdog_dates_ordered_witness :
  (Watchdog_Ticks_from_timespec (mk_timespec 7 999999999) <? Watchdog_Ticks_from_timespec (mk_timespec 8 0))
  = true.
Proof.
  destruct (watchdog_dates_ordered (mk_timespec 7 999999999) (mk_timespec 8 0)) as (_ & -> & _);
    [reflexivity|reflexivity|cbn; lia|cbn; lia|reflexivity].
Defined.
