(* ===== verification/Tod.v ===== *)
(** * Time of day

    The clock manager of the Classic API and the calendar behind it:
    [rtems/src/clocktodvalidate.c], [clocktodtoseconds.c], [clockset.c],
    [clockgettod.c] and the other [clockget*.c], [score/src/coretodset.c],
    [coretodadjust.c], [coretodabsolutetimeout.c] and [todimpl.h].  The time
    counter is an interface ([Timecounter]). *)

From stdpp Require Import base tactics numbers option list list_numbers gmap fin_maps.
From Stdlib Require Import ZArith Lia.
From S2P Require Import Prelude Chain Status Timespec RBTree Watchdog.

Open Scope Z_scope.

(** ** Data *)
Record rtems_time_of_day := mk_time_of_day {
  year : Z;
  month : Z;
  day : Z;
  hour : Z;
  minute : Z;
  second : Z;
  ticks : Z
}.

Definition TOD_SECONDS_PER_MINUTE : Z := 60.
Definition TOD_MINUTES_PER_HOUR : Z := 60.
Definition TOD_MONTHS_PER_YEAR : Z := 12.
Definition TOD_DAYS_PER_YEAR : Z := 365.
Definition TOD_HOURS_PER_DAY : Z := 24.
Definition TOD_SECONDS_PER_DAY : Z :=
  TOD_SECONDS_PER_MINUTE * TOD_MINUTES_PER_HOUR * TOD_HOURS_PER_DAY.
Definition TOD_SECONDS_PER_NON_LEAP_YEAR : Z := 365 * TOD_SECONDS_PER_DAY.
Definition TOD_SECONDS_1970_THROUGH_1988 : Z :=
  (1987 - 1970 + 1) * TOD_SECONDS_PER_NON_LEAP_YEAR + 4 * TOD_SECONDS_PER_DAY.
Definition TOD_BASE_YEAR : Z := 1988.
Definition TOD_SECONDS_AT_2100_03_01_00_00 : Z := 4107538800.

Definition TOD_Days_per_month : list (list Z) :=
  [[0; 31; 28; 31; 30; 31; 30; 31; 31; 30; 31; 30; 31];
   [0; 31; 29; 31; 30; 31; 30; 31; 31; 30; 31; 30; 31]].
Definition TOD_Days_to_date : list (list Z) :=
  [[0; 0; 31; 59; 90; 120; 151; 181; 212; 243; 273; 304; 334];
   [0; 0; 31; 60; 91; 121; 152; 182; 213; 244; 274; 305; 335]].
Definition TOD_Days_since_last_leap_year : list Z := [0; 366; 731; 1096].

(** ** Calendar time to seconds *)
Section Calendar.

(** [rtems_configuration_get_microseconds_per_tick] *)
Variable microseconds_per_tick : Z.

Definition TOD_TICKS_PER_SECOND_method : outcome Z :=
  if microseconds_per_tick =? 0 then Undef Division_by_zero
  else Ok (TOD_MICROSECONDS_PER_SECOND / microseconds_per_tick).

Definition TOD_Validate (the_tod : option rtems_time_of_day) : outcome bool :=
  if microseconds_per_tick =? 0 then Undef Division_by_zero
  else
    let ticks_per_second := TOD_MICROSECONDS_PER_SECOND / microseconds_per_tick in
    match the_tod with
    | None => Ok false
    | Some t =>
        if (ticks_per_second <=? ticks t) || (TOD_SECONDS_PER_MINUTE <=? second t) ||
           (TOD_MINUTES_PER_HOUR <=? minute t) || (TOD_HOURS_PER_DAY <=? hour t) ||
           (month t =? 0) || (TOD_MONTHS_PER_YEAR <? month t) ||
           (year t <? TOD_BASE_YEAR) || (day t =? 0)
        then Ok false
        else
          row ← (if (year t mod 4 =? 0) && negb (year t mod 100 =? 0) || (year t mod 400 =? 0)
                 then arr_get TOD_Days_per_month 1 else arr_get TOD_Days_per_month 0);
          days_in_month ← arr_get row (month t);
          if days_in_month <? day t then Ok false else Ok true
    end.

Definition TOD_To_seconds (the_tod : rtems_time_of_day) : outcome Z :=
  let time := u32 (day the_tod - 1) in
  let year_mod_4 := Z.land (year the_tod) 3 in
  row ← (if year_mod_4 =? 0 then arr_get TOD_Days_to_date 1 else arr_get TOD_Days_to_date 0);
  to_date ← arr_get row (month the_tod);
  let time := u32 (time + to_date) in
  let time := u32 (time + u32 (u32 (year the_tod - TOD_BASE_YEAR) / 4 * (TOD_DAYS_PER_YEAR * 4 + 1))) in
  since ← arr_get TOD_Days_since_last_leap_year year_mod_4;
  let time := u32 (time + since) in
  let time := u32 (time * TOD_SECONDS_PER_DAY) in
  let time := u32 (time + u32 (u32 (u32 (hour the_tod * TOD_MINUTES_PER_HOUR) + minute the_tod)
                                * TOD_SECONDS_PER_MINUTE)) in
  let time := u32 (time + second the_tod) in
  let time :=
    if u32 (TOD_SECONDS_AT_2100_03_01_00_00 - TOD_SECONDS_1970_THROUGH_1988) <=? time
    then u32 (time - TOD_SECONDS_PER_DAY) else time in
  Ok (u32 (time + TOD_SECONDS_1970_THROUGH_1988)).

(** ** Seconds to calendar time *)
Definition RTEMS_SECS_PER_MINUTE : Z := 60.
Definition RTEMS_MINUTE_PER_HOUR : Z := 60.
Definition RTEMS_SECS_PER_HOUR : Z := RTEMS_SECS_PER_MINUTE * RTEMS_MINUTE_PER_HOUR.
Definition RTEMS_HOURS_PER_DAY : Z := 24.
Definition RTEMS_SECS_PER_DAY : Z := RTEMS_SECS_PER_HOUR * RTEMS_HOURS_PER_DAY.
Definition RTEMS_DAYS_PER_YEAR : Z := 365.
Definition RTEMS_YEAR_BASE : Z := 1970.

Definition Leap_year (y : Z) : bool :=
  (y mod 4 =? 0) && negb (y mod 100 =? 0) || (y mod 400 =? 0).

Definition Leap_years_before (y : Z) : Z :=
  let y := u32 (y - 1) in
  u32 (u32 (y / 4 - y / 100) + y / 400).

Definition Leap_years_between (from to : Z) : Z :=
  u32 (Leap_years_before to - Leap_years_before (u32 (from + 1))).

(** The month counts up while the day is not before the first of the next
    month; the result is the month and the day in it. *)
Fixpoint month_loop (fuel : nat) (days_to_date : list Z) (month day : Z) : outcome Z :=
  match fuel with
  | O => Undef Divergence
  | S fuel' =>
      if month <? 11 then
        v ← arr_get days_to_date (month + 2);
        if day <? v then Ok month else month_loop fuel' days_to_date (month + 1) day
      else Ok month
  end.

Definition Year_day_as_month (y day : Z) : outcome (Z * Z) :=
  days_to_date ← (if Leap_year y then arr_get TOD_Days_to_date 1 else arr_get TOD_Days_to_date 0);
  month ← month_loop 12 days_to_date 0 day;
  v ← arr_get days_to_date (month + 1);
  Ok (month, u32 (day - v)).

(** The conversion of the current time in [rtems_clock_get_tod]. *)
Definition tod_of_time (now_sec now_usec : Z) : outcome rtems_time_of_day :=
  let days := u32 (Z.quot now_sec RTEMS_SECS_PER_DAY) in
  let day_secs := u32 (Z.rem now_sec RTEMS_SECS_PER_DAY) in
  let y := u32 (days / RTEMS_DAYS_PER_YEAR + RTEMS_YEAR_BASE) in
  let leap_years := Leap_years_between RTEMS_YEAR_BASE y in
  let year_days := u32 (days - leap_years) mod RTEMS_DAYS_PER_YEAR in
  let '(y, year_days) :=
    if days mod RTEMS_DAYS_PER_YEAR <? leap_years then
      let y := u32 (y - 1) in
      (y, if Leap_year y then u32 (year_days + 1) else year_days)
    else (y, year_days) in
  r ← Year_day_as_month y year_days;
  let '(m, d) := r in
  let rest := day_secs mod RTEMS_SECS_PER_HOUR in
  if microseconds_per_tick =? 0 then Undef Division_by_zero
  else
    Ok (mk_time_of_day y (u32 (m + 1)) (u32 (d + 1)) (day_secs / RTEMS_SECS_PER_HOUR)
          (rest / RTEMS_SECS_PER_MINUTE) (rest mod RTEMS_SECS_PER_MINUTE)
          (u32 (Z.quot now_usec microseconds_per_tick))).

End Calendar.

(** ** The clock *)

(** What the clock manager uses of the time counter: setting the clock, and
    the readings as seconds and microseconds, as a timestamp, as a [timespec],
    and of the time since boot.  [Timecounter_Time_second] is the clock in whole
    seconds. *)
Class Timecounter (U : Type) := {
  Timecounter_Set_clock : Timestamp_Control -> U -> U;
  Timecounter_Microtime : U -> Z * Z;
  Timecounter_Bintime : U -> Timestamp_Control;
  Timecounter_Nanotime : U -> timespec;
  Timecounter_Binuptime : U -> Timestamp_Control;
  Timecounter_Nanouptime : U -> timespec;
  Timecounter_Time_second : U -> Z
}.

(** The part of the system outside the watchdogs: [_TOD.is_set] and the time
    counter. *)
Record clock_state (U : Type) := mk_clock_state {
  TOD_is_set : bool;
  timecounter : U
}.
Arguments mk_clock_state {U}.
Arguments TOD_is_set {U}.
Arguments timecounter {U}.

Inductive TOD_Absolute_timeout_conversion_results :=
| TOD_ABSOLUTE_TIMEOUT_INVALID
| TOD_ABSOLUTE_TIMEOUT_IS_IN_PAST
| TOD_ABSOLUTE_TIMEOUT_IS_NOW
| TOD_ABSOLUTE_TIMEOUT_IS_IN_FUTURE.

Inductive clock_id :=
| CLOCK_REALTIME
| CLOCK_MONOTONIC.

Section Clock.
Context {U : Type} `{SysTree} `{Bintime} `{Timecounter U}.
Variable microseconds_per_tick : Z.
Variable nanoseconds_per_tick : Z.

Abbreviation M := (cm (wd_state (clock_state U))).

(** The service routines of the absolute timers, which setting the clock may
    call. *)
Variable call_routine : Z -> Z -> M unit.

Definition on_clock (f : U -> U) : M unit :=
  modify (fun s => set_wd_rest (mk_clock_state (TOD_is_set (wd_rest s)) (f (timecounter (wd_rest s)))) s).
Definition clock {A} (f : U -> A) : M A := gets (fun s => f (timecounter (wd_rest s))).

Definition TOD_Is_set : M bool := gets (fun s => TOD_is_set (wd_rest s)).
Definition TOD_Get : M Timestamp_Control := clock Timecounter_Bintime.
Definition TOD_Get_as_timespec : M timespec := clock Timecounter_Nanotime.
Definition TOD_Get_uptime : M Timestamp_Control := clock Timecounter_Binuptime.
Definition TOD_Get_zero_based_uptime : M Timestamp_Control :=
  t ← clock Timecounter_Binuptime; mret (mk_timestamp (i64 (sec t - 1)) (frac t)).
Definition TOD_Get_zero_based_uptime_as_timespec : M timespec :=
  t ← clock Timecounter_Nanouptime; mret (mk_timespec (i64 (tv_sec t - 1)) (tv_nsec t)).
Definition TOD_Seconds_since_epoch : M Z := t ← clock Timecounter_Time_second; mret (u32 t).
Definition TOD_Get_timeval : M (Z * Z) := clock Timecounter_Microtime.

(** The clock is set and the absolute timers that are due now are fired; one
    processor. *)
Definition TOD_Set (fuel : nat) (tod_as_timestamp : Timestamp_Control) : M unit :=
  on_clock (Timecounter_Set_clock tod_as_timestamp);;
  let tod_as_timespec := Timestamp_To_timespec tod_as_timestamp in
  let tod_as_ticks := Watchdog_Ticks_from_timespec tod_as_timespec in
  Watchdog_Per_CPU_tickle_absolute call_routine fuel tod_as_ticks;;
  modify (fun s => set_wd_rest (mk_clock_state true (timecounter (wd_rest s))) s).

Definition TOD_Set_with_timespec (fuel : nat) (tod_as_timespec : timespec) : M unit :=
  TOD_Set fuel (Timestamp_Set (tv_sec tod_as_timespec) (tv_nsec tod_as_timespec)).

Definition TOD_Adjust (fuel : nat) (delta : Timestamp_Control) : M unit :=
  tod ← TOD_Get;
  let '(tod, _) := Timestamp_Add_to tod delta in
  TOD_Set fuel tod.

Definition TOD_Absolute_timeout_to_ticks (abstime : option timespec) (clock_id : clock_id)
    : M (TOD_Absolute_timeout_conversion_results * Z) :=
  match abstime with
  | None => mret (TOD_ABSOLUTE_TIMEOUT_INVALID, 0)
  | Some t =>
      if negb (Timespec_Is_valid (Some t)) then mret (TOD_ABSOLUTE_TIMEOUT_INVALID, 0)
      else
        current_time ← (match clock_id with
                        | CLOCK_REALTIME => TOD_Get_as_timespec
                        | CLOCK_MONOTONIC => TOD_Get_zero_based_uptime_as_timespec
                        end);
        if Timespec_Less_than t current_time then mret (TOD_ABSOLUTE_TIMEOUT_IS_IN_PAST, 0)
        else
          let difference := Timespec_Subtract current_time t in
          ticks_per_second ← lift (TOD_TICKS_PER_SECOND_method microseconds_per_tick);
          ticks_out ← lift (Timespec_To_ticks ticks_per_second nanoseconds_per_tick difference);
          mret (if ticks_out =? 0 then TOD_ABSOLUTE_TIMEOUT_IS_NOW
                else TOD_ABSOLUTE_TIMEOUT_IS_IN_FUTURE, ticks_out)
  end.

(** ** The directives *)
Definition rtems_clock_set (fuel : nat) (tod : option rtems_time_of_day) : M rtems_status_code :=
  match tod with
  | None => mret RTEMS_INVALID_ADDRESS
  | Some t =>
      valid ← lift (TOD_Validate microseconds_per_tick (Some t));
      if (valid : bool) then
        seconds ← lift (TOD_To_seconds t);
        let nanoseconds := u32 (ticks t * nanoseconds_per_tick) in
        TOD_Set fuel (Timestamp_Set seconds nanoseconds);;
        mret RTEMS_SUCCESSFUL
      else mret RTEMS_INVALID_CLOCK
  end.

(** The buffer [time_buffer] is there or NULL; what is written to it is the
    optional result. *)
Definition rtems_clock_get_tod (time_buffer : bool)
    : M (rtems_status_code * option rtems_time_of_day) :=
  if negb time_buffer then mret (RTEMS_INVALID_ADDRESS, None)
  else
    is_set ← TOD_Is_set;
    if negb is_set then mret (RTEMS_NOT_DEFINED, None)
    else
      now ← TOD_Get_timeval;
      t ← lift (tod_of_time microseconds_per_tick now.1 now.2);
      mret (RTEMS_SUCCESSFUL, Some t).

Definition rtems_clock_get_seconds_since_epoch (the_interval : bool)
    : M (rtems_status_code * option Z) :=
  if negb the_interval then mret (RTEMS_INVALID_ADDRESS, None)
  else
    is_set ← TOD_Is_set;
    if negb is_set then mret (RTEMS_NOT_DEFINED, None)
    else seconds ← TOD_Seconds_since_epoch; mret (RTEMS_SUCCESSFUL, Some seconds).

Definition rtems_clock_get_tod_timeval (time : bool) : M (rtems_status_code * option (Z * Z)) :=
  if negb time then mret (RTEMS_INVALID_ADDRESS, None)
  else
    is_set ← TOD_Is_set;
    if negb is_set then mret (RTEMS_NOT_DEFINED, None)
    else tv ← TOD_Get_timeval; mret (RTEMS_SUCCESSFUL, Some tv).

Definition rtems_clock_get_uptime (uptime : bool) : M (rtems_status_code * option timespec) :=
  if negb uptime then mret (RTEMS_INVALID_ADDRESS, None)
  else t ← TOD_Get_zero_based_uptime_as_timespec; mret (RTEMS_SUCCESSFUL, Some t).

Definition rtems_clock_get_uptime_nanoseconds : M Z :=
  t ← TOD_Get_zero_based_uptime; mret (Timestamp_Get_as_nanoseconds t).

Definition rtems_clock_get_ticks_per_second : M Z :=
  if microseconds_per_tick =? 0 then lift (Undef Division_by_zero)
  else mret (TOD_MICROSECONDS_PER_SECOND / microseconds_per_tick).

Definition rtems_clock_get_ticks_since_boot : M Z := gets Watchdog_Ticks_since_boot.

End Clock.
