(* ===== verification/TodCalendar.v ===== *)
(** * Time of day: the calendar

    The Gregorian calendar as a reference definition ([epoch_seconds]), and
    the tables and loops of the clock manager checked against it, month by
    month and day by day. *)

From stdpp Require Import base tactics numbers option list list_numbers gmap fin_maps.
From Stdlib Require Import ZArith Lia.
From S2P Require Import Prelude Chain Status Timespec RBTree RBTreeFacts Watchdog WatchdogFacts WatchdogTick Tod.

Open Scope Z_scope.

(** ** The reference calendar *)
Definition is_leap (y : Z) : bool := (y mod 4 =? 0) && (negb (y mod 100 =? 0) || (y mod 400 =? 0)).

Definition month_length (y m : Z) : Z :=
  if m =? 2 then if is_leap y then 29 else 28
  else if (m =? 4) || (m =? 6) || (m =? 9) || (m =? 11) then 30 else 31.

Definition year_length (y : Z) : Z := if is_leap y then 366 else 365.

Definition sum (l : list Z) : Z := foldr Z.add 0 l.

(** Days from the first of January 1970 to the first of the month. *)
Definition days_before (y m : Z) : Z :=
  sum (year_length <$> seqZ 1970 (y - 1970)) + sum (month_length y <$> seqZ 1 (m - 1)).

Definition epoch_days (y m d : Z) : Z := days_before y m + d - 1.

Definition seconds_of_day (t : rtems_time_of_day) : Z := hour t * 3600 + minute t * 60 + second t.

Definition epoch_seconds (t : rtems_time_of_day) : Z :=
  epoch_days (year t) (month t) (day t) * 86400 + seconds_of_day t.

Definition date_ok (y m d : Z) : Prop := 1 <= m <= 12 /\ 1 <= d <= month_length y m.

Definition time_ok (t : rtems_time_of_day) : Prop :=
  date_ok (year t) (month t) (day t) /\ 0 <= hour t < 24 /\ 0 <= minute t < 60 /\ 0 <= second t < 60.

(** Fields of 32 bits. *)
Definition tod_fields (t : rtems_time_of_day) : Prop :=
  0 <= year t < 2 ^ 32 /\ 0 <= month t < 2 ^ 32 /\ 0 <= day t < 2 ^ 32 /\ 0 <= hour t < 2 ^ 32 /\
  0 <= minute t < 2 ^ 32 /\ 0 <= second t < 2 ^ 32 /\ 0 <= ticks t < 2 ^ 32.

Lemma leap_year_is_leap y : Leap_year y = is_leap y.
Proof.
  unfold Leap_year, is_leap. destruct (Z.eqb_spec (y mod 400) 0) as [H4|H4]; [|by rewrite !orb_false_r].
  rewrite !orb_true_r, andb_true_r. symmetry. apply Z.eqb_eq.
  apply Z.mod_divide in H4 as [k ->]; [|lia]. apply Z.mod_divide; [lia|]. exists (k * 100). lia.
Qed.

Lemma month_length_table y m :
  1 <= m <= 12 ->
  (row ← (if Leap_year y then arr_get TOD_Days_per_month 1 else arr_get TOD_Days_per_month 0);
   arr_get row m) = Ok (month_length y m).
Proof.
  intros Hm. rewrite leap_year_is_leap. unfold month_length.
  assert (Hc : m = 1 \/ m = 2 \/ m = 3 \/ m = 4 \/ m = 5 \/ m = 6 \/ m = 7 \/ m = 8 \/ m = 9 \/
    m = 10 \/ m = 11 \/ m = 12) by lia.
  destruct (is_leap y); repeat (destruct Hc as [->|Hc]; [reflexivity|]); subst; reflexivity.
Qed.

Lemma validate_run us t :
  0 < us -> tod_fields t ->
  exists b, TOD_Validate us (Some t) = Ok b /\
    (b = true <-> time_ok t /\ 1988 <= year t /\ ticks t < 1000000 / us).
Proof.
  intros Hus (Hy & Hm & Hd & Hh & Hmi & Hs & Ht). unfold TOD_Validate.
  rewrite (proj2 (Z.eqb_neq us 0)) by lia. unfold TOD_MICROSECONDS_PER_SECOND.
  case_match eqn:Hb.
  - exists false. split; [done|]. split; [done|].
    unfold time_ok, date_ok. rewrite !orb_true_iff in Hb. unfold TOD_SECONDS_PER_MINUTE, TOD_MINUTES_PER_HOUR,
      TOD_HOURS_PER_DAY, TOD_MONTHS_PER_YEAR, TOD_BASE_YEAR in Hb. lia.
  - rewrite !orb_false_iff in Hb. unfold TOD_SECONDS_PER_MINUTE, TOD_MINUTES_PER_HOUR,
      TOD_HOURS_PER_DAY, TOD_MONTHS_PER_YEAR, TOD_BASE_YEAR in Hb.
    pose proof (month_length_table (year t) (month t) ltac:(lia)) as Hrow. unfold Leap_year in Hrow.
    destruct (if _ : bool then arr_get TOD_Days_per_month 1 else _) as [row|]; [|done].
    cbn in Hrow |- *. rewrite Hrow. cbn.
    destruct (Z.ltb_spec (month_length (year t) (month t)) (day t)); eexists; (split; [reflexivity|]);
      unfold time_ok, date_ok; split; try done; lia.
Qed.

Lemma validated us t :
  0 < us -> tod_fields t -> TOD_Validate us (Some t) = Ok true ->
  time_ok t /\ 1988 <= year t /\ ticks t < 1000000 / us.
Proof.
  intros Hus Hf Hv. destruct (validate_run us t Hus Hf) as (b & Hb & Hiff).
  rewrite Hv in Hb. injection Hb as <-. by apply Hiff.
Qed.

(** ** To seconds *)
Lemma forallb_seqZ (f : Z -> bool) a n x :
  forallb f (seqZ a n) = true -> a <= x < a + n -> f x = true.
Proof. intros Hf Hx. rewrite forallb_forall in Hf. apply Hf. apply list_elem_of_In, elem_of_seqZ. lia. Qed.

(** The days the code counts up to a month, every fourth year being a leap
    year. *)
Definition code_days (y m : Z) : outcome Z :=
  let year_mod_4 := Z.land y 3 in
  row ← (if year_mod_4 =? 0 then arr_get TOD_Days_to_date 1 else arr_get TOD_Days_to_date 0);
  to_date ← arr_get row m;
  since ← arr_get TOD_Days_since_last_leap_year year_mod_4;
  Ok (to_date + (y - 1988) / 4 * 1461 + since).

(** From March 2100 on the code has counted a day too much. *)
Definition after_feb_2100 (y m : Z) : bool := (2100 <? y) || ((y =? 2100) && (3 <=? m)).

Definition code_days_ok (y m : Z) : bool :=
  match code_days y m with
  | Ok v =>
      if after_feb_2100 y m then (v =? days_before y m - 6573) && (40968 <=? v)
      else (v =? days_before y m - 6574) && (0 <=? v) &&
        (if (y =? 2100) && (m =? 2) then v =? 40939 else v + month_length y m - 1 <? 40966)
  | Undef _ => false
  end.

Lemma code_days_checked :
  forallb (fun y => forallb (code_days_ok y) (seqZ 1 12)) (seqZ 1988 119) = true.
Proof. vm_compute. reflexivity. Qed.

Lemma code_days_value y m :
  1988 <= y <= 2106 -> 1 <= m <= 12 ->
  exists row to_date since, (if Z.land y 3 =? 0 then arr_get TOD_Days_to_date 1
      else arr_get TOD_Days_to_date 0) = Ok row /\ arr_get row m = Ok to_date /\
    arr_get TOD_Days_since_last_leap_year (Z.land y 3) = Ok since /\
    let v := to_date + (y - 1988) / 4 * 1461 + since in
    if after_feb_2100 y m then v = days_before y m - 6573 /\ 40968 <= v
    else v = days_before y m - 6574 /\ 0 <= v /\
      (if (y =? 2100) && (m =? 2) then v = 40939 else v + month_length y m - 1 < 40966).
Proof.
  intros Hy Hm. pose proof (forallb_seqZ _ _ _ y code_days_checked ltac:(lia)) as Hc.
  cbn beta in Hc. apply (forallb_seqZ _ _ _ m) in Hc; [|lia].
  unfold code_days_ok, code_days in Hc.
  destruct (if _ : bool then arr_get TOD_Days_to_date 1 else _) as [row|] eqn:E1; [|done]. cbn in Hc.
  destruct (arr_get row m) as [to_date|] eqn:E2; [|done]. cbn in Hc.
  destruct (arr_get TOD_Days_since_last_leap_year _) as [since|] eqn:E3; [|done]. cbn in Hc.
  exists row, to_date, since. split_and!; try done.
  cbn zeta. destruct (after_feb_2100 y m); [lia|].
  destruct ((y =? 2100) && (m =? 2)); lia.
Qed.

Lemma u32_add_l a b : u32 (u32 a + b) = u32 (a + b).
Proof. apply Zplus_mod_idemp_l. Qed.
Lemma u32_add_r a b : u32 (a + u32 b) = u32 (a + b).
Proof. apply Zplus_mod_idemp_r. Qed.

(** The last hour of the 28th of February 2100. *)
Definition wrong_hour (t : rtems_time_of_day) : bool :=
  (year t =? 2100) && (month t =? 2) && (day t =? 28) && (hour t =? 23).

Lemma to_seconds_value t :
  time_ok t -> 1988 <= year t <= 2106 -> epoch_seconds t < 2 ^ 32 ->
  TOD_To_seconds t = Ok (epoch_seconds t - (if wrong_hour t then 86400 else 0)).
Proof.
  intros (Hdate & Hh & Hmi & Hs) Hy Hlt. destruct Hdate as [Hm Hd].
  destruct (code_days_value (year t) (month t) Hy Hm) as (row & to_date & since & Hrow & Hto & Hsi & Hv).
  assert (Hml : month_length (year t) (month t) <= 31) by (unfold month_length; repeat case_match; lia).
  unfold epoch_seconds, epoch_days, seconds_of_day in *.
  unfold TOD_To_seconds. rewrite Hrow. cbn [mbind outcome_bind]. rewrite Hto. cbn [mbind outcome_bind].
  rewrite Hsi. cbn [mbind outcome_bind]. unfold TOD_SECONDS_PER_DAY, TOD_SECONDS_1970_THROUGH_1988,
    TOD_SECONDS_PER_NON_LEAP_YEAR, TOD_SECONDS_PER_DAY, TOD_HOURS_PER_DAY, TOD_MINUTES_PER_HOUR,
    TOD_SECONDS_PER_MINUTE, TOD_DAYS_PER_YEAR, TOD_BASE_YEAR, TOD_SECONDS_AT_2100_03_01_00_00.
  rewrite (u32_id (year t - 1988)) by lia. change (365 * 4 + 1) with 1461.
  set (v := to_date + (year t - 1988) / 4 * 1461 + since) in *.
  assert (Hdays : u32 (u32 (u32 (u32 (day t - 1) + to_date) + u32 ((year t - 1988) / 4 * 1461)) + since)
    = day t - 1 + v).
  { rewrite u32_add_r, !u32_add_l, <- !Z.add_assoc, u32_add_l. etrans; [|apply (u32_id (day t - 1 + v))].
    - f_equal. unfold v. lia.
    - destruct (after_feb_2100 (year t) (month t)); lia. }
  rewrite Hdays. change (u32 (4107538800 - _)) with 3539545200. change (60 * 60 * 24) with 86400.
  assert (Hw : wrong_hour t = negb (after_feb_2100 (year t) (month t)) &&
    (3539545200 <=? (day t - 1 + v) * 86400 + (hour t * 3600 + minute t * 60 + second t))).
  { unfold wrong_hour. destruct (after_feb_2100 (year t) (month t)) eqn:E; unfold after_feb_2100 in E; [lia|].
    cbn [negb andb]. destruct ((year t =? 2100) && (month t =? 2)) eqn:Eb; cbn [andb].
    - assert (Hl : month_length (year t) (month t) = 28).
      { apply andb_true_iff in Eb as [->%Z.eqb_eq ->%Z.eqb_eq]. reflexivity. }
      lia.
    - symmetry. apply Z.leb_gt. lia. }
  assert (Hbound : 0 <= (day t - 1 + v) * 86400 + (hour t * 3600 + minute t * 60 + second t) < 2 ^ 32)
    by (destruct (after_feb_2100 (year t) (month t)); lia).
  rewrite (u32_id (hour t * 60)), (u32_id (hour t * 60 + minute t)), (u32_id ((hour t * 60 + minute t) * 60)) by lia.
  rewrite (u32_id ((day t - 1 + v) * 86400)) by lia.
  rewrite (u32_id ((day t - 1 + v) * 86400 + (hour t * 60 + minute t) * 60)) by lia.
  rewrite (u32_id (_ + second t)) by lia.
  replace ((day t - 1 + v) * 86400 + (hour t * 60 + minute t) * 60 + second t)
    with ((day t - 1 + v) * 86400 + (hour t * 3600 + minute t * 60 + second t)) by lia.
  rewrite Hw. f_equal.
  destruct (after_feb_2100 (year t) (month t)), (Z.leb_spec 3539545200 ((day t - 1 + v) * 86400 +
    (hour t * 3600 + minute t * 60 + second t))); cbn [negb andb];
    try rewrite (u32_id (_ - 86400)) by lia; rewrite u32_id by lia; lia.
Qed.

(** ** From seconds *)
Definition days_before_year (y : Z) : Z := sum (year_length <$> seqZ 1970 (y - 1970)).
Definition days_before_month (y m : Z) : Z := sum (month_length y <$> seqZ 1 (m - 1)).

(** The date of each day of a year, as the code computes it, against the
    reference calendar. *)
Definition day_checked (y first k : Z) : bool :=
  match tod_of_time 1 ((first + k) * 86400) 0 with
  | Ok t => (year t =? y) && (days_before_month y (month t) + day t - 1 =? k) &&
      (1 <=? month t) && (month t <=? 12) && (1 <=? day t) && (day t <=? month_length y (month t))
  | Undef _ => false
  end.

Definition year_checked (y : Z) : bool :=
  let first := days_before_year y in
  forallb (day_checked y first) (seqZ 0 (year_length y)).

Lemma years_checked : forallb year_checked (seqZ 1970 137) = true.
Proof. vm_compute. reflexivity. Qed.
