(* ===== verification/TodTheorems.v ===== *)
(** * Time of day: the theorems

    The conversions of the clock manager compute the Gregorian calendar: every
    date and time from 1988 to the end of the 32-bit clock in 2106, but for one
    hour, and every second of that clock.  Setting the clock and reading it
    gives the same time. *)

From stdpp Require Import base tactics numbers option list list_numbers gmap fin_maps.
From Stdlib Require Import ZArith Lia.
From S2P Require Import Prelude Chain Status Timespec RBTree RBTreeFacts Watchdog WatchdogFacts WatchdogTick WatchdogTheorems Tod TodCalendar.

Open Scope Z_scope.

(** Sums over a range. *)
Lemma sum_app l k : sum (l ++ k) = sum l + sum k.
Proof. unfold sum. induction l as [|x l IH]; cbn; lia. Qed.

Lemma sum_step (f : Z -> Z) a b : a <= b -> sum (f <$> seqZ a (b + 1 - a)) = sum (f <$> seqZ a (b - a)) + f b.
Proof.
  intros Hab. replace (b + 1 - a) with (Z.of_nat (S (Z.to_nat (b - a)))) by lia.
  rewrite seqZ_S, fmap_app, sum_app. replace (Z.of_nat (Z.to_nat (b - a))) with (b - a) by lia.
  cbn. replace (a + (b - a)) with b by lia. lia.
Qed.

Lemma sum_mono (f : Z -> Z) a b c :
  (forall x, 0 <= f x) -> a <= b -> b < c ->
  sum (f <$> seqZ a (b - a)) + f b <= sum (f <$> seqZ a (c - a)).
Proof.
  intros Hf Hab Hbc. replace c with (b + 1 + Z.of_nat (Z.to_nat (c - b - 1))) by lia.
  generalize (Z.to_nat (c - b - 1)). intros n. induction n as [|n IH].
  - rewrite Z.add_0_r, sum_step by done. lia.
  - replace (b + 1 + Z.of_nat (S n)) with (b + 1 + Z.of_nat n + 1) by lia.
    rewrite sum_step by lia. specialize (Hf (b + 1 + Z.of_nat n)). lia.
Qed.

Lemma month_length_pos y m : 28 <= month_length y m <= 31.
Proof. unfold month_length. repeat case_match; lia. Qed.

Lemma days_before_month_in_year y m :
  1 <= m <= 12 -> 0 <= days_before_month y m /\ days_before_month y m + month_length y m <= year_length y.
Proof.
  intros Hm. unfold days_before_month. split.
  - destruct (decide (m = 1)) as [->|]; [done|].
    enough (0 + month_length y 1 <= sum (month_length y <$> seqZ 1 (m - 1)))
      by (pose proof (month_length_pos y 1); lia).
    apply (sum_mono _ 1 1); [intros x; pose proof (month_length_pos y x); lia|lia|lia].
  - replace (year_length y) with (sum (month_length y <$> seqZ 1 (13 - 1))).
    + apply sum_mono; [intros x; pose proof (month_length_pos y x); lia|lia|lia].
    + unfold year_length. cbn. unfold month_length. cbn. destruct (is_leap y); reflexivity.
Qed.

(** The years a day can be in. *)
Lemma year_of_day n : forall d, 0 <= d < days_before_year (1970 + Z.of_nat n) ->
  exists y, 1970 <= y < 1970 + Z.of_nat n /\ days_before_year y <= d < days_before_year y + year_length y.
Proof.
  induction n as [|n IH]; intros d Hd; [change (days_before_year (1970 + Z.of_nat 0)) with 0 in Hd; lia|].
  destruct (Z.lt_ge_cases d (days_before_year (1970 + Z.of_nat n))) as [Hlt|Hge].
  - destruct (IH d) as (y & Hy & Hyd); [lia|]. exists y. lia.
  - exists (1970 + Z.of_nat n). split; [lia|]. split; [done|].
    unfold days_before_year in Hd |- *.
    replace (1970 + Z.of_nat (S n)) with (1970 + Z.of_nat n + 1) in Hd by lia.
    rewrite sum_step in Hd by lia. lia.
Qed.

Lemma year_length_pos y : 365 <= year_length y <= 366.
Proof. unfold year_length. case_match; lia. Qed.

(** A day has one date. *)
Lemma epoch_days_inj y m d y' m' d' :
  1970 <= y -> 1970 <= y' -> date_ok y m d -> date_ok y' m' d' ->
  epoch_days y m d = epoch_days y' m' d' -> y = y' /\ m = m' /\ d = d'.
Proof.
  intros Hy Hy' [Hm Hd] [Hm' Hd']. unfold epoch_days, days_before.
  fold (days_before_year y) (days_before_year y') (days_before_month y m) (days_before_month y' m').
  intros Heq.
  pose proof (days_before_month_in_year y m Hm). pose proof (days_before_month_in_year y' m' Hm').
  assert (Hyy : forall a b, 1970 <= a -> a < b -> days_before_year a + year_length a <= days_before_year b).
  { intros a b Ha Hab. apply sum_mono; [intros x; pose proof (year_length_pos x); lia|lia|lia]. }
  assert (Hmm : forall z a b, 1 <= a -> a < b -> days_before_month z a + month_length z a <= days_before_month z b).
  { intros z a b Ha Hab. apply sum_mono; [intros x; pose proof (month_length_pos z x); lia|lia|lia]. }
  assert (y = y') as <-.
  { destruct (Z.lt_trichotomy y y') as [Hlt|[?|Hlt]]; [|done|]; apply Hyy in Hlt; lia. }
  assert (m = m') as <-.
  { destruct (Z.lt_trichotomy m m') as [Hlt|[?|Hlt]]; [|done|]; apply (Hmm y) in Hlt; lia. }
  split_and!; try done. lia.
Qed.

(** The conversion of a time is that of its day, with the time in the day. *)
Lemma tod_of_time_split us s usec t :
  0 < us -> 0 <= s < 2 ^ 32 -> tod_of_time 1 (s / 86400 * 86400) 0 = Ok t ->
  tod_of_time us s usec =
  Ok (mk_time_of_day (year t) (month t) (day t) (s mod 86400 / 3600) (s mod 3600 / 60) (s mod 60)
        (u32 (Z.quot usec us))).
Proof.
  intros Hus Hs. unfold tod_of_time.
  change RTEMS_SECS_PER_DAY with 86400. change RTEMS_SECS_PER_HOUR with 3600.
  change RTEMS_SECS_PER_MINUTE with 60.
  rewrite (Z.quot_div_nonneg s), (Z.rem_mod_nonneg s) by lia.
  assert (0 <= s / 86400) by (apply Z.div_pos; lia).
  rewrite (Z.quot_div_nonneg (s / 86400 * 86400)), Z.div_mul by lia.
  destruct (if _ <? _ then _ else _) as [y yd]. destruct (Year_day_as_month y yd) as [[m d]|]; [|done].
  cbn [mbind outcome_bind]. rewrite (proj2 (Z.eqb_neq us 0)) by lia. cbn [Z.eqb]. intros [= <-].
  cbn [year month day]. pose proof (Z.mod_pos_bound s 86400 ltac:(lia)).
  rewrite (u32_id (s mod 86400)) by lia.
  replace (s mod 86400 mod 3600) with (s mod 3600) by (rewrite <- (Z.mod_mod_divide s 86400 3600); [done|by exists 24]).
  replace (s mod 3600 mod 60) with (s mod 60) by (rewrite <- (Z.mod_mod_divide s 3600 60); [done|by exists 60]).
  done.
Qed.

Lemma tod_of_time_exact us s usec :
  0 < us -> 0 <= s < 2 ^ 32 ->
  exists t, tod_of_time us s usec = Ok t /\ time_ok t /\ 1970 <= year t /\ epoch_seconds t = s /\
    ticks t = u32 (Z.quot usec us).
Proof.
  intros Hus Hs. set (d := s / 86400).
  assert (Hd : 0 <= d < 49711) by (split; [apply Z.div_pos|apply Z.div_lt_upper_bound]; lia).
  destruct (year_of_day 137 d) as (y & Hy & Hyd).
  { change (days_before_year (1970 + Z.of_nat 137)) with (days_before_year 2107).
    replace (days_before_year 2107) with 50038 by (vm_compute; reflexivity). lia. }
  pose proof (forallb_seqZ _ _ _ y years_checked ltac:(lia)) as Hc. cbn beta in Hc.
  unfold year_checked in Hc. apply (forallb_seqZ _ _ _ (d - days_before_year y)) in Hc; [|lia].
  unfold day_checked in Hc. replace (days_before_year y + (d - days_before_year y)) with d in Hc by lia.
  destruct (tod_of_time 1 (d * 86400) 0) as [t|] eqn:Ht; [|done].
  rewrite (tod_of_time_split us s usec t) by done. eexists. split; [done|].
  assert (Hyt : year t = y) by lia. rewrite !andb_true_iff in Hc.
  pose proof (Z.mod_pos_bound s 86400 ltac:(lia)). pose proof (Z.mod_pos_bound s 3600 ltac:(lia)).
  pose proof (Z.mod_pos_bound s 60 ltac:(lia)).
  assert (Hs1 : s mod 86400 / 3600 * 3600 + s mod 3600 = s mod 86400).
  { rewrite (Z.div_mod (s mod 86400) 3600) at 2 by lia.
    rewrite <- (Z.mod_mod_divide s 86400 3600) by (by exists 24). lia. }
  assert (Hs2 : s mod 3600 / 60 * 60 + s mod 60 = s mod 3600).
  { rewrite (Z.div_mod (s mod 3600) 60) at 2 by lia.
    rewrite <- (Z.mod_mod_divide s 3600 60) by (by exists 60). lia. }
  pose proof (Z.div_mod s 86400 ltac:(lia)) as Hdm.
  split_and!; cbn [ticks year]; try done; [..|lia|].
  - unfold time_ok, date_ok. cbn. rewrite Hyt. lia.
  - unfold epoch_seconds, seconds_of_day, epoch_days, days_before. cbn [year month day hour minute second].
    fold (days_before_year (year t)) (days_before_month (year t) (month t)). rewrite Hyt. lia.
Qed.

(** A second has one calendar time. *)
Lemma epoch_seconds_inj t t' :
  1970 <= year t -> 1970 <= year t' -> time_ok t -> time_ok t' -> epoch_seconds t = epoch_seconds t' ->
  year t = year t' /\ month t = month t' /\ day t = day t' /\ hour t = hour t' /\
  minute t = minute t' /\ second t = second t'.
Proof.
  intros Hy Hy' (Hd & Hh & Hm & Hs) (Hd' & Hh' & Hm' & Hs'). unfold epoch_seconds, seconds_of_day. intros Heq.
  assert (Hed : epoch_days (year t) (month t) (day t) = epoch_days (year t') (month t') (day t')) by lia.
  apply epoch_days_inj in Hed as (? & ? & ?); [|done..]. split_and!; lia.
Qed.

Lemma epoch_days_bounds y m d :
  1970 <= y -> date_ok y m d -> days_before_year y <= epoch_days y m d.
Proof.
  intros Hy [Hm Hd]. unfold epoch_days, days_before. fold (days_before_year y) (days_before_month y m).
  pose proof (days_before_month_in_year y m Hm). lia.
Qed.

Lemma epoch_seconds_nonneg t : time_ok t -> 1970 <= year t -> 0 <= epoch_seconds t.
Proof.
  intros (Hd & Hh & Hm & Hs) Hy. unfold epoch_seconds, seconds_of_day.
  pose proof (epoch_days_bounds _ _ _ Hy Hd) as Hb.
  enough (0 <= days_before_year (year t)) by lia.
  destruct (decide (year t = 1970)) as [->|]; [done|].
  enough (0 + year_length 1970 <= days_before_year (year t)) by (pose proof (year_length_pos 1970); lia).
  apply (sum_mono _ 1970 1970); [intros x; pose proof (year_length_pos x); lia|lia|lia].
Qed.

(** The 32-bit clock ends in 2106. *)
Lemma last_year t : time_ok t -> 1970 <= year t -> epoch_seconds t < 2 ^ 32 -> year t <= 2106.
Proof.
  intros (Hd & Hh & Hm & Hs) Hy Hlt. destruct (Z.le_gt_cases (year t) 2106) as [|Hgt]; [done|].
  pose proof (epoch_days_bounds _ _ _ Hy Hd) as Hb. unfold epoch_seconds, seconds_of_day in Hlt.
  assert (Hs' : days_before_year 2106 + year_length 2106 <= days_before_year (year t))
    by (apply (sum_mono _ 1970 2106); [intros x; pose proof (year_length_pos x); lia|lia|lia]).
  replace (days_before_year 2106 + year_length 2106) with 50038 in Hs' by (vm_compute; reflexivity). lia.
Qed.

(** ** The theorems *)

(** [_TOD_Validate] accepts exactly the dates of the Gregorian calendar
    from 1988 on with a time of day, and ticks below a second. *)
Theorem tod_validate_exact us t :
  0 < us -> tod_fields t ->
  exists b, TOD_Validate us (Some t) = Ok b /\
    (b = true <-> time_ok t /\ 1988 <= year t /\ ticks t < 1000000 / us).
Proof. apply validate_run. Qed.

(** C25: [_TOD_To_seconds] computes the seconds since 1970 of the Gregorian
    calendar for every valid date and time from 1988 to the end of the 32-bit
    clock in 2106, except in the last hour of the 28th of February 2100. *)
Theorem tod_to_seconds_exact us t :
  0 < us -> tod_fields t -> TOD_Validate us (Some t) = Ok true ->
  epoch_seconds t < 2 ^ 32 -> wrong_hour t = false ->
  TOD_To_seconds t = Ok (epoch_seconds t).
Proof.
  intros Hus Hf Hv Hlt Hw. destruct (validated us t Hus Hf Hv) as (Hok & Hy & _).
  rewrite to_seconds_value, Hw; [f_equal; lia|done|..|done]. split; [done|].
  apply last_year; [done|lia|done].
Qed.

(** The last hour of the 28th of February 2100 is mapped to the 27th: the
    constant [TOD_SECONDS_AT_2100_03_01_00_00] is 3600 seconds too small for the
    midnight that ends the 28th, and so the day that 2100 lacks is taken away an hour early. *)
Theorem tod_february_2100 mi se ti :
  0 <= mi < 60 -> 0 <= se < 60 -> 0 <= ti < 100 ->
  let t := mk_time_of_day 2100 2 28 23 mi se ti in
  let before := mk_time_of_day 2100 2 27 23 mi se ti in
  TOD_Validate 10000 (Some t) = Ok true /\ TOD_To_seconds t = Ok (epoch_seconds t - 86400) /\
  TOD_To_seconds t = TOD_To_seconds before.
Proof.
  intros Hmi Hse Hti t before.
  assert (He : forall d, epoch_seconds (mk_time_of_day 2100 2 d 23 mi se ti) = 4105036800 + d * 86400 + 82800 + mi * 60 + se).
  { intros d. unfold epoch_seconds, epoch_days, seconds_of_day. cbn [year month day hour minute second].
    replace (days_before 2100 2) with 47513 by (vm_compute; reflexivity). lia. }
  assert (Hml : month_length 2100 2 = 28) by reflexivity.
  split_and!.
  - destruct (validate_run 10000 t) as (b & -> & Hb); [lia|repeat split; cbn; lia|].
    f_equal. apply Hb. unfold time_ok, date_ok. cbn [year month day hour minute second ticks t].
    rewrite Hml. change (1000000 / 10000) with 100. lia.
  - rewrite to_seconds_value; [done|..]; [|cbn; lia|unfold t; rewrite He; lia].
    unfold time_ok, date_ok. cbn [year month day hour minute second t]. rewrite Hml. lia.
  - rewrite !to_seconds_value; try (cbn; lia); try (unfold t, before; rewrite He; lia);
      try (unfold time_ok, date_ok; cbn [year month day hour minute second t before]; rewrite Hml; lia).
    unfold t, before. rewrite !He. cbn. f_equal. lia.
Qed.

(** What the time counter and the timestamps promise: the clock shows the
    seconds it was set to, and a timestamp has the seconds it was made from. *)
Class TimecounterLaws (U : Type) `{Timecounter U} `{Bintime} := {
  set_clock_read : forall bt u, (Timecounter_Microtime (Timecounter_Set_clock bt u)).1 = sec bt;
  timespec_seconds : forall ts, sec (timespec2bintime ts) = tv_sec ts
}.

Section ClockTheorems.
Context {U : Type} `{SysTreeLaws} `{HB : Bintime} `{HT : !Timecounter U} `{HL : !TimecounterLaws U}.
Variable call_routine : Z -> Z -> cm (wd_state (clock_state U)) unit.
Variable fired : clock_state U -> list Z.

(** C26: whatever second of its 32 bits the clock is at, [rtems_clock_get_tod]
    returns the calendar time of the Gregorian calendar for it, and refuses
    without a buffer or before the clock was set. *)
Theorem clock_get_tod_exact us (s : wd_state (clock_state U)) :
  let now := Timecounter_Microtime (timecounter (wd_rest s)) in
  0 < us -> 0 <= now.1 < 2 ^ 32 -> 0 <= now.2 < 1000000 ->
  rtems_clock_get_tod us false s = Ok (RTEMS_INVALID_ADDRESS, None, s) /\
  (TOD_is_set (wd_rest s) = false -> rtems_clock_get_tod us true s = Ok (RTEMS_NOT_DEFINED, None, s)) /\
  (TOD_is_set (wd_rest s) = true -> exists t,
     rtems_clock_get_tod us true s = Ok (RTEMS_SUCCESSFUL, Some t, s) /\
     time_ok t /\ epoch_seconds t = now.1 /\ ticks t = now.2 / us).
Proof.
  intros now Hus Hs Hu. split_and!; [done|..]; intros Hset; unfold rtems_clock_get_tod, TOD_Is_set; cbn [negb];
    rewrite gets_bind, Hset; cbn [negb]; [done|].
  destruct (tod_of_time_exact us now.1 now.2 Hus Hs) as (t & Ht & Hok & _ & He & Hti).
  exists t. unfold TOD_Get_timeval, clock. rewrite gets_bind. fold now.
  rewrite (lift_bind _ _ _ t) by done. split_and!; try done.
  rewrite Hti, Z.quot_div_nonneg by lia. apply u32_id. split; [apply Z.div_pos; lia|].
  apply Z.div_lt_upper_bound; nia.
Qed.


End ClockTheorems.

(** ** Examples *)

(** A time counter that only keeps the time it was set to, beside a list of the
    routines that were called. *)
Definition stopped_clock : Timecounter (Timestamp_Control * list Z) := {|
  Timecounter_Set_clock bt u := (bt, u.2);
  Timecounter_Microtime u := (sec u.1, 0);
  Timecounter_Bintime u := u.1;
  Timecounter_Nanotime u := mk_timespec (sec u.1) 0;
  Timecounter_Binuptime _ := mk_timestamp 1 0;
  Timecounter_Nanouptime _ := mk_timespec 1 0;
  Timecounter_Time_second u := sec u.1
|}.

Definition whole_seconds : Bintime := {|
  bintime_add a b := mk_timestamp (sec a + sec b) 0;
  bintime_sub a b := mk_timestamp (sec a - sec b) 0;
  bintime2timespec a := mk_timespec (sec a) 0;
  timespec2bintime t := mk_timestamp (tv_sec t) 0
|}.

Definition stopped_clock_laws : @TimecounterLaws (Timestamp_Control * list Z) stopped_clock whole_seconds.
Proof. by split. Defined.

#[local] Existing Instance vine_sys_tree.
#[local] Existing Instance vine_laws.
#[local] Existing Instance stopped_clock.
#[local] Existing Instance whole_seconds.
#[local] Existing Instance stopped_clock_laws.

Definition some_day : rtems_time_of_day := mk_time_of_day 2017 8 29 23 59 59 7.

Definition demo_clock : wd_state (clock_state (Timestamp_Control * list Z)) :=
  mk_wd_state (mk_Watchdog_Header NULL NULL) (mk_Watchdog_Header NULL NULL) 0 0 ∅ ∅
    (mk_clock_state true (mk_timestamp 4000000000 0, [])).

Definition demo_alarm (r w : Z) : cm (wd_state (clock_state (Timestamp_Control * list Z))) unit :=
  on_clock (fun u => (u.1, u.2 ++ [w])).

Lemma demo_clock_inv : wd_inv demo_clock (fun _ => []).
Proof.
  apply wd_inv_initial; try done.
  intros w. cbn. rewrite !lookup_empty. done.
Qed.

Lemma some_day_fields : tod_fields some_day.
Proof. repeat split; cbn; lia. Qed.

Lemma tod_validate_exact_witness : TOD_Validate 10000 (Some some_day) = Ok true.
Proof.
  destruct (tod_validate_exact 10000 some_day) as (b & Hb & Hiff); [lia|exact some_day_fields|].
  rewrite Hb. f_equal. apply Hiff. vm_compute. repeat split; intros; discriminate.
Defined.

Lemma tod_to_seconds_exact_witness : TOD_To_seconds some_day = Ok 1504051199.
Proof.
  rewrite (tod_to_seconds_exact 10000 some_day); [vm_compute; reflexivity|lia|exact some_day_fields|
    vm_compute; reflexivity|vm_compute; reflexivity|reflexivity].
Defined.

Lemma tod_february_2100_witness :
  TOD_To_seconds (mk_time_of_day 2100 2 28 23 0 0 0) = TOD_To_seconds (mk_time_of_day 2100 2 27 23 0 0 0).
Proof. apply (tod_february_2100 0 0 0); lia. Defined.

Lemma clock_get_tod_exact_witness :
  exists t, rtems_clock_get_tod 10000 true demo_clock = Ok (RTEMS_SUCCESSFUL, Some t, demo_clock) /\
    epoch_seconds t = 4000000000.
Proof.
  destruct (clock_get_tod_exact 10000 demo_clock) as (_ & _ & Ht); [lia|cbn; lia|cbn; lia|].
  destruct (Ht eq_refl) as (t & Hrun & _ & He & _). exists t. split; [exact Hrun|exact He].
Defined.

Lemma demo_alarms tv now : routines_ok demo_alarm
  (fun c => Timecounter_Microtime (timecounter c) = tv) (fun c => (timecounter c).2)
  (no_new_due PER_CPU_WATCHDOG_ABSOLUTE now) 0.
Proof.
  intros r w s Q Hi HR Ht _ _. eexists _, Q. split; [reflexivity|]. split_and!; try done.
  - by apply (wd_inv_same s).
  - unfold no_new_due. done.
Qed.

