(* ===== verification/Timer.v ===== *)
(** * The timer manager

    [rtems/src/timer*.c] and [timerimpl.h]: timers that call a routine after a
    number of ticks or at a date, from the clock tick or from a server task.
    The manager composes the others: a timer is an object of its class, it
    contains a watchdog, dates are calendar times, and the server task waits
    for an event.  Timers that are due for the server are on a chain, here a
    list (the chain handler refines lists); the event state of the server
    task is that of the atomic event manager, which the event manager
    implements.  Locks are left out. *)

From stdpp Require Import base tactics numbers option list list_numbers gmap fin_maps.
From Stdlib Require Import ZArith Lia.
From S2P Require Import Prelude Chain Status Timespec Objects ObjectsStatus Thread Event.
From S2P Require Import RBTree Watchdog Tod.

Open Scope Z_scope.

(** ** Data *)
Definition TIMER_CLASS_BIT_TIME_OF_DAY : Z := 1.
Definition TIMER_CLASS_BIT_ON_TASK : Z := 2.
Definition TIMER_CLASS_BIT_NOT_DORMANT : Z := 4.

Definition TIMER_DORMANT : Z := 0.
Definition TIMER_INTERVAL : Z := TIMER_CLASS_BIT_NOT_DORMANT.
Definition TIMER_INTERVAL_ON_TASK : Z := Z.lor TIMER_CLASS_BIT_NOT_DORMANT TIMER_CLASS_BIT_ON_TASK.
Definition TIMER_TIME_OF_DAY : Z := Z.lor TIMER_CLASS_BIT_NOT_DORMANT TIMER_CLASS_BIT_TIME_OF_DAY.
Definition TIMER_TIME_OF_DAY_ON_TASK : Z :=
  Z.lor (Z.lor TIMER_CLASS_BIT_NOT_DORMANT TIMER_CLASS_BIT_TIME_OF_DAY) TIMER_CLASS_BIT_ON_TASK.

(** The object part of a timer is with the object handler, its watchdog with
    the watchdogs. *)
Record Timer_Control := mk_Timer_Control {
  tm_class : Z;
  tm_routine : Z;
  tm_user_data : Z;
  tm_initial : Z;
  tm_start_time : Z;
  tm_stop_time : Z
}.

Definition set_tm_class v (t : Timer_Control) : Timer_Control :=
  mk_Timer_Control v (tm_routine t) (tm_user_data t) (tm_initial t) (tm_start_time t) (tm_stop_time t).
Definition set_tm_stop_time v (t : Timer_Control) : Timer_Control :=
  mk_Timer_Control (tm_class t) (tm_routine t) (tm_user_data t) (tm_initial t) (tm_start_time t) v.

Record rtems_timer_information := mk_timer_information {
  ti_class : Z;
  ti_initial : Z;
  ti_start_time : Z;
  ti_stop_time : Z
}.

(** The timers and the timer server: whether it is there ([_Timer_server] is
    not NULL), its chain of pending timers, its task, and the event state of
    that task; the tasks; and the time counter. *)
Record tm_system (T W V : Type) := mk_tm_system {
  tm_info : obj_state W;
  tm_timers : gmap Z Timer_Control;
  tm_server : bool;
  tm_Pending : list Z;
  tm_server_id : Z;
  tm_events : a_events;
  tm_tasks : T;
  tm_clock : V
}.
Arguments mk_tm_system {T W V}.
Arguments tm_info {T W V}.
Arguments tm_timers {T W V}.
Arguments tm_server {T W V}.
Arguments tm_Pending {T W V}.
Arguments tm_server_id {T W V}.
Arguments tm_events {T W V}.
Arguments tm_tasks {T W V}.
Arguments tm_clock {T W V}.

Section Updates.
Context {T W V : Type}.
Implicit Types x : tm_system T W V.
Definition set_tm_info v x : tm_system T W V :=
  mk_tm_system v (tm_timers x) (tm_server x) (tm_Pending x) (tm_server_id x) (tm_events x) (tm_tasks x) (tm_clock x).
Definition set_tm_timers v x : tm_system T W V :=
  mk_tm_system (tm_info x) v (tm_server x) (tm_Pending x) (tm_server_id x) (tm_events x) (tm_tasks x) (tm_clock x).
Definition set_tm_server v x : tm_system T W V :=
  mk_tm_system (tm_info x) (tm_timers x) v (tm_Pending x) (tm_server_id x) (tm_events x) (tm_tasks x) (tm_clock x).
Definition set_tm_Pending v x : tm_system T W V :=
  mk_tm_system (tm_info x) (tm_timers x) (tm_server x) v (tm_server_id x) (tm_events x) (tm_tasks x) (tm_clock x).
Definition set_tm_server_id v x : tm_system T W V :=
  mk_tm_system (tm_info x) (tm_timers x) (tm_server x) (tm_Pending x) v (tm_events x) (tm_tasks x) (tm_clock x).
Definition set_tm_events v x : tm_system T W V :=
  mk_tm_system (tm_info x) (tm_timers x) (tm_server x) (tm_Pending x) (tm_server_id x) v (tm_tasks x) (tm_clock x).
Definition set_tm_tasks v x : tm_system T W V :=
  mk_tm_system (tm_info x) (tm_timers x) (tm_server x) (tm_Pending x) (tm_server_id x) (tm_events x) v (tm_clock x).
Definition set_tm_clock v x : tm_system T W V :=
  mk_tm_system (tm_info x) (tm_timers x) (tm_server x) (tm_Pending x) (tm_server_id x) (tm_events x) (tm_tasks x) v.
End Updates.

(** The clock of the system is its time counter. *)
#[export] Instance tm_Timecounter {T W V} `{Timecounter V} : Timecounter (tm_system T W V) := {|
  Timecounter_Set_clock b x := set_tm_clock (Timecounter_Set_clock b (tm_clock x)) x;
  Timecounter_Microtime x := Timecounter_Microtime (tm_clock x);
  Timecounter_Bintime x := Timecounter_Bintime (tm_clock x);
  Timecounter_Nanotime x := Timecounter_Nanotime (tm_clock x);
  Timecounter_Binuptime x := Timecounter_Binuptime (tm_clock x);
  Timecounter_Nanouptime x := Timecounter_Nanouptime (tm_clock x);
  Timecounter_Time_second x := Timecounter_Time_second (tm_clock x)
|}.

(** The layout of memory: where the watchdog [Ticker] of the timer with index
    [o] is, which timer contains a watchdog, and the addresses of the two
    adaptor routines. *)
Class TimerLayout := {
  Ticker_of : Z -> Z;
  Timer_of : Z -> Z;
  Timer_Routine_adaptor_address : Z;
  Timer_server_Routine_adaptor_address : Z
}.

Definition RTEMS_EVENT_SYSTEM_SERVER : Z := 2 ^ 30.

Section Timers.
Context {T W V : Type} `{TaskManager T} `{Workspace W} `{SysTree} `{Timecounter V} `{TimerLayout}.
Variable microseconds_per_tick : Z.

Abbreviation sys := (wd_state (clock_state (tm_system T W V))).
Abbreviation M := (cm sys).
Implicit Types s : sys.

Definition tm_of s : tm_system T W V := timecounter (wd_rest s).
Definition set_tm (x : tm_system T W V) s : sys :=
  set_wd_rest (mk_clock_state (TOD_is_set (wd_rest s)) x) s.
Definition tm_get {A} (f : tm_system T W V -> A) : M A := gets (fun s => f (tm_of s)).
Definition tm_mod (f : tm_system T W V -> tm_system T W V) : M unit :=
  modify (fun s => set_tm (f (tm_of s)) s).
Definition tm_objs {A} (m : cm (obj_state W) A) : M A :=
  zoom (fun s => tm_info (tm_of s)) (fun i s => set_tm (set_tm_info i (tm_of s)) s) m.
Definition F_tm_timers : field sys (gmap Z Timer_Control) :=
  mk_field (fun s => tm_timers (tm_of s)) (fun m s => set_tm (set_tm_timers m (tm_of s)) s).
Definition tm_ld {A} (o : Z) (f : Timer_Control -> A) : M A := t ← ldm F_tm_timers o; mret (f t).
Definition tm_upd (o : Z) (f : Timer_Control -> Timer_Control) : M unit :=
  t ← ldm F_tm_timers o; stm F_tm_timers o (f t).

(** ** Helpers *)
Definition Timer_Allocate : M (option Z) := tm_objs Objects_Allocate.
Definition Timer_Free (o : Z) : M unit := tm_objs (Objects_Free o).
Definition Timer_Get (id : Z) : M (option Z) := tm_objs (Objects_Get id).

Definition Timer_Is_interval_class (the_class : Z) : bool :=
  let mask := Z.lor TIMER_CLASS_BIT_NOT_DORMANT TIMER_CLASS_BIT_TIME_OF_DAY in
  Z.land the_class mask =? TIMER_CLASS_BIT_NOT_DORMANT.
Definition Timer_Is_on_task_class (the_class : Z) : bool :=
  let mask := Z.lor TIMER_CLASS_BIT_NOT_DORMANT TIMER_CLASS_BIT_ON_TASK in
  Z.land the_class mask =? mask.

(** The index is the bit itself; PER_CPU_WATCHDOG_ABSOLUTE is 1. *)
Definition Timer_Watchdog_header_index (the_class : Z) : Per_CPU_Watchdog_index :=
  if Z.land the_class TIMER_CLASS_BIT_TIME_OF_DAY =? 0
  then PER_CPU_WATCHDOG_RELATIVE else PER_CPU_WATCHDOG_ABSOLUTE.
Definition Timer_Get_CPU_ticks : M Z := t ← gets wd_ticks; mret (u32 t).

(** ** Starting and stopping *)
Definition Timer_Cancel (o : Z) : M unit :=
  the_class ← tm_ld o tm_class;
  scheduled ← Watchdog_Is_scheduled (Ticker_of o);
  if (scheduled : bool) then
    now ← Timer_Get_CPU_ticks;
    tm_upd o (set_tm_stop_time now);;
    Watchdog_Remove (Timer_Watchdog_header_index the_class) (Ticker_of o)
  else
    c_if (Timer_Is_on_task_class the_class)
      (state ← Watchdog_Get_state (Ticker_of o);
       c_if (state =? WATCHDOG_PENDING)
         (Watchdog_Set_state (Ticker_of o) WATCHDOG_INACTIVE;;
          tm_mod (fun x => set_tm_Pending (filter (fun w => w <> Ticker_of o) (tm_Pending x)) x))).

Definition Timer_Fire (id interval routine user_data the_class adaptor : Z) : M rtems_status_code :=
  the_timer ← Timer_Get id;
  match the_timer with
  | None => mret RTEMS_INVALID_ID
  | Some o =>
      Timer_Cancel o;;
      Watchdog_Initialize (Ticker_of o) adaptor;;
      now ← Timer_Get_CPU_ticks;
      tm_upd o (fun t => mk_Timer_Control the_class routine user_data interval now (tm_stop_time t));;
      (if Timer_Is_interval_class the_class then
         ticks ← gets wd_ticks;
         Watchdog_Insert PER_CPU_WATCHDOG_RELATIVE (Ticker_of o) (u64 (ticks + interval))
       else
         Watchdog_Insert PER_CPU_WATCHDOG_ABSOLUTE (Ticker_of o) (Watchdog_Ticks_from_seconds interval));;
      mret RTEMS_SUCCESSFUL
  end.

Definition Timer_Fire_after (id ticks routine user_data the_class adaptor : Z) : M rtems_status_code :=
  if ticks =? 0 then mret RTEMS_INVALID_NUMBER
  else if routine =? NULL then mret RTEMS_INVALID_ADDRESS
  else Timer_Fire id ticks routine user_data the_class adaptor.

Definition Timer_Fire_when (id : Z) (wall_time : option rtems_time_of_day)
    (routine user_data the_class adaptor : Z) : M rtems_status_code :=
  is_set ← TOD_Is_set;
  if negb is_set then mret RTEMS_NOT_DEFINED
  else if routine =? NULL then mret RTEMS_INVALID_ADDRESS
  else
    valid ← lift (TOD_Validate microseconds_per_tick wall_time);
    if negb valid then mret RTEMS_INVALID_CLOCK
    else
      match wall_time with
      | None => lift (Undef Bad_address)
      | Some t =>
          seconds ← lift (TOD_To_seconds t);
          now ← TOD_Seconds_since_epoch;
          if seconds <=? now then mret RTEMS_INVALID_CLOCK
          else Timer_Fire id seconds routine user_data the_class adaptor
      end.

(** ** The directives *)
Definition rtems_timer_create (name : Z) (id_null : bool) : M (rtems_status_code * option Z) :=
  if negb (rtems_is_name_valid name) then mret (RTEMS_INVALID_NAME, None)
  else if id_null then mret (RTEMS_INVALID_ADDRESS, None)
  else
    the_timer ← Timer_Allocate;
    match the_timer with
    | None => mret (RTEMS_TOO_MANY, None)
    | Some o =>
        tm_upd o (set_tm_class TIMER_DORMANT);;
        Watchdog_Preinitialize (Ticker_of o);;
        tm_objs (Objects_Open o name);;
        id ← tm_objs (obj_id o);
        mret (RTEMS_SUCCESSFUL, Some id)
    end.

Definition rtems_timer_delete (id : Z) : M rtems_status_code :=
  the_timer ← Timer_Get id;
  match the_timer with
  | None => mret RTEMS_INVALID_ID
  | Some o =>
      tm_objs (Objects_Close o);;
      Timer_Cancel o;;
      Timer_Free o;;
      mret RTEMS_SUCCESSFUL
  end.

Definition rtems_timer_cancel (id : Z) : M rtems_status_code :=
  the_timer ← Timer_Get id;
  match the_timer with
  | None => mret RTEMS_INVALID_ID
  | Some o => Timer_Cancel o;; mret RTEMS_SUCCESSFUL
  end.

Definition rtems_timer_reset (id : Z) : M rtems_status_code :=
  the_timer ← Timer_Get id;
  match the_timer with
  | None => mret RTEMS_INVALID_ID
  | Some o =>
      the_class ← tm_ld o tm_class;
      if Timer_Is_interval_class the_class then
        Timer_Cancel o;;
        ticks ← gets wd_ticks;
        initial ← tm_ld o tm_initial;
        Watchdog_Insert PER_CPU_WATCHDOG_RELATIVE (Ticker_of o) (u64 (ticks + initial));;
        mret RTEMS_SUCCESSFUL
      else mret RTEMS_NOT_DEFINED
  end.

Definition rtems_timer_fire_after (id ticks routine user_data : Z) : M rtems_status_code :=
  Timer_Fire_after id ticks routine user_data TIMER_INTERVAL Timer_Routine_adaptor_address.
Definition rtems_timer_fire_when (id : Z) (wall_time : option rtems_time_of_day)
    (routine user_data : Z) : M rtems_status_code :=
  Timer_Fire_when id wall_time routine user_data TIMER_TIME_OF_DAY Timer_Routine_adaptor_address.

Definition rtems_timer_server_fire_after (id ticks routine user_data : Z) : M rtems_status_code :=
  timer_server ← tm_get tm_server;
  if negb timer_server then mret RTEMS_INCORRECT_STATE
  else Timer_Fire_after id ticks routine user_data TIMER_INTERVAL_ON_TASK
         Timer_server_Routine_adaptor_address.
Definition rtems_timer_server_fire_when (id : Z) (wall_time : option rtems_time_of_day)
    (routine user_data : Z) : M rtems_status_code :=
  timer_server ← tm_get tm_server;
  if negb timer_server then mret RTEMS_INCORRECT_STATE
  else Timer_Fire_when id wall_time routine user_data TIMER_TIME_OF_DAY_ON_TASK
         Timer_server_Routine_adaptor_address.

(** The information is written exactly when the result has one. *)
Definition rtems_timer_get_information (id : Z) (info_null : bool)
    : M (rtems_status_code * option rtems_timer_information) :=
  if info_null then mret (RTEMS_INVALID_ADDRESS, None)
  else
    the_timer ← Timer_Get id;
    match the_timer with
    | None => mret (RTEMS_INVALID_ID, None)
    | Some o =>
        i ← tm_ld o (fun t => mk_timer_information (tm_class t) (tm_initial t) (tm_start_time t) (tm_stop_time t));
        mret (RTEMS_SUCCESSFUL, Some i)
    end.

Definition rtems_timer_ident (name : Z) (id_null : bool) : M (rtems_status_code * option Z) :=
  status ← tm_objs (Objects_Name_to_id_u32 name OBJECTS_SEARCH_LOCAL_NODE id_null);
  mret (Status_Object_name_errors_to_status status).

Definition OBJECTS_RTEMS_TIMERS : Z := 2.

Definition Timer_Manager_initialization (maximum_timers size : Z) : M unit :=
  tm_objs (Objects_Do_initialize_information OBJECTS_CLASSIC_API OBJECTS_RTEMS_TIMERS maximum_timers size).

(** ** Expiration *)

(** A timer service routine is called with the identifier of the timer and the
    data of the user. *)
Variable service_routine : Z -> Z -> Z -> M unit.

Definition Timer_Routine_adaptor (the_watchdog : Z) : M unit :=
  let o := Timer_of the_watchdog in
  now ← Timer_Get_CPU_ticks;
  tm_upd o (set_tm_stop_time now);;
  routine ← tm_ld o tm_routine;
  id ← tm_objs (obj_id o);
  user_data ← tm_ld o tm_user_data;
  service_routine routine id user_data.

Definition Timer_server_Routine_adaptor (the_watchdog : Z) : M unit :=
  let o := Timer_of the_watchdog in
  Watchdog_Set_state the_watchdog WATCHDOG_PENDING;;
  now ← Timer_Get_CPU_ticks;
  tm_upd o (set_tm_stop_time now);;
  pending ← tm_get tm_Pending;
  let wakeup := bool_decide (pending = []) in
  tm_mod (fun x => set_tm_Pending (tm_Pending x ++ [the_watchdog]) x);;
  c_if wakeup
    (tm_mod (fun x => set_tm_events (a_send System_event RTEMS_EVENT_SYSTEM_SERVER (tm_events x)) x)).

(** The routines of watchdogs that belong to other managers. *)
Variable other_routine : Z -> Z -> M unit.

(** The call of the routine of a watchdog, by its address. *)
Definition timer_call_routine (routine the_watchdog : Z) : M unit :=
  if routine =? Timer_Routine_adaptor_address then Timer_Routine_adaptor the_watchdog
  else if routine =? Timer_server_Routine_adaptor_address then Timer_server_Routine_adaptor the_watchdog
  else other_routine routine the_watchdog.

(** ** The server task *)

(** One round of the inner loop: the next pending timer is taken from the
    chain, and its routine is to be called, with identifier and data. *)
Definition Timer_server_Body_get : M (option (Z * Z * Z)) :=
  pending ← tm_get tm_Pending;
  match pending with
  | [] => mret None
  | the_watchdog :: rest =>
      tm_mod (set_tm_Pending rest);;
      Watchdog_Set_state the_watchdog WATCHDOG_INACTIVE;;
      let o := Timer_of the_watchdog in
      routine ← tm_ld o tm_routine;
      id ← tm_objs (obj_id o);
      user_data ← tm_ld o tm_user_data;
      mret (Some (routine, id, user_data))
  end.

(** The wait for the next event: [true] when the server goes on at once. *)
Definition Timer_server_Body_receive (out : Z) : M bool :=
  ev ← tm_get tm_events;
  let '(r, ev') := a_receive System_event RTEMS_EVENT_SYSTEM_SERVER
                     (Z.lor RTEMS_EVENT_ALL RTEMS_WAIT) 0 out ev in
  tm_mod (set_tm_events ev');;
  mret (match r with Some _ => true | None => false end).

Definition RTEMS_TIMER_SERVER_DEFAULT_PRIORITY : Z := 2 ^ 32 - 1.
Definition RTEMS_NO_PREEMPT : Z := 256.
Definition RTEMS_SYSTEM_TASK : Z := 32768.

(** The entry point of the server task. *)
Variable Timer_server_Body_address : Z.
Variable Timer_server_Default_address : Z.

Definition Timer_server_Initiate (priority stack_size attribute_set : Z) : M rtems_status_code :=
  timer_server ← tm_get tm_server;
  if (timer_server : bool) then mret RTEMS_INCORRECT_STATE
  else
    let priority := if priority =? RTEMS_TIMER_SERVER_DEFAULT_PRIORITY then PRIORITY_PSEUDO_ISR
                    else priority in
    tasks ← tm_get tm_tasks;
    let '(status, oid, tasks) := rtems_task_create (rtems_build_name 84 73 77 69) priority stack_size
                                   RTEMS_NO_PREEMPT (Z.lor attribute_set RTEMS_SYSTEM_TASK) tasks in
    tm_mod (set_tm_tasks tasks);;
    match status, oid with
    | RTEMS_SUCCESSFUL, Some id =>
        tm_mod (set_tm_Pending []);;
        tm_mod (set_tm_server_id id);;
        tm_mod (set_tm_server true);;
        tasks ← tm_get tm_tasks;
        let '(status, tasks) := rtems_task_start id Timer_server_Body_address
                                  Timer_server_Default_address tasks in
        tm_mod (set_tm_tasks tasks);;
        mret status
    | _, _ => mret status
    end.

Definition rtems_timer_initiate_server (priority stack_size attribute_set : Z) : M rtems_status_code :=
  Timer_server_Initiate priority stack_size attribute_set.

End Timers.
