(* ===== verification/TimerFacts.v ===== *)
(** * The timer manager: invariant and operations

    The invariant of the timers: where the watchdog of a timer is agrees with
    the class of the timer, the chain of the server holds exactly the
    watchdogs marked as pending, and unused timers are nowhere.  Every
    operation keeps it, and what it does to the queues is stated exactly. *)

From stdpp Require Import base tactics numbers option list list_numbers gmap fin_maps.
From Stdlib Require Import ZArith Lia.
From S2P Require Import Prelude Chain Status Timespec Objects ObjectsStatus ObjectsFacts Thread Event.
From S2P Require Import RBTree RBTreeFacts Watchdog WatchdogFacts WatchdogTick Tod Timer.

Open Scope Z_scope.

(** Timers and their watchdogs correspond, and the adaptors are different
    routines. *)
Class TimerLayoutLaws `{TimerLayout} := {
  Timer_of_Ticker : forall o, Timer_of (Ticker_of o) = o;
  adaptors_differ : Timer_Routine_adaptor_address <> Timer_server_Routine_adaptor_address
}.

Section Timers.
Context {T W V : Type} `{TaskManager T} `{Workspace W} `{SysTreeLaws} `{Timecounter V} `{TimerLayoutLaws}.

Abbreviation sys := (wd_state (clock_state (tm_system T W V))).
Abbreviation M := (cm sys).
Implicit Types s : sys.

(** ** Accesses *)
Lemma Ticker_of_inj o o' : Ticker_of o = Ticker_of o' -> o = o'.
Proof. intros He. by rewrite <- (Timer_of_Ticker o), He, Timer_of_Ticker. Qed.

Lemma tm_of_set x s : tm_of (set_tm x s) = x.
Proof. done. Qed.

Lemma tm_ld_bind {A B} o t (f : Timer_Control -> A) (k : A -> M B) s :
  tm_timers (tm_of s) !! o = Some t -> (v ← tm_ld o f; k v) s = k (f t) s.
Proof. intros Ht. unfold tm_ld. by rewrite cm_bind_assoc, (ldm_bind _ _ t). Qed.

Lemma tm_upd_bind {B} o t f (k : unit -> M B) s :
  tm_timers (tm_of s) !! o = Some t ->
  (v ← tm_upd o f; k v) s = k tt (set_tm (set_tm_timers (<[o := f t]> (tm_timers (tm_of s))) (tm_of s)) s).
Proof.
  intros Ht. unfold tm_upd. rewrite cm_bind_assoc, (ldm_bind _ _ t) by done.
  rewrite stm_bind by (cbn; eauto). done.
Qed.

Lemma tm_objs_bind {A B} (m : cm (obj_state W) A) (k : A -> M B) s a o' :
  m (tm_info (tm_of s)) = Ok (a, o') -> (v ← tm_objs m; k v) s = k a (set_tm (set_tm_info o' (tm_of s)) s).
Proof. intros Hm. apply cm_bind_ok. unfold tm_objs, zoom. by rewrite Hm. Qed.

Lemma tm_objs_read_bind {A B} (m : cm (obj_state W) A) (k : A -> M B) s a :
  m (tm_info (tm_of s)) = Ok (a, tm_info (tm_of s)) -> (v ← tm_objs m; k v) s = k a s.
Proof. intros Hm. rewrite (tm_objs_bind _ _ _ _ _ Hm). by destruct s as [? ? ? ? ? ? [? []]]. Qed.

Lemma set_tm_inv x s Q : wd_inv s Q -> wd_inv (set_tm x s) Q.
Proof. by apply wd_inv_same. Qed.

(** ** The invariant *)
Definition info_of_timers s : Objects_Information := information (tm_info (tm_of s)).

Definition disarm (w : Z) (Q : queues) : queues := fun i => tq_remove w (Q i).

(** The adaptor a timer of a class is started with. *)
Definition adaptor_of (cls : Z) : Z :=
  if Timer_Is_on_task_class cls then Timer_server_Routine_adaptor_address
  else Timer_Routine_adaptor_address.

Definition running_class (cls : Z) : Prop :=
  cls = TIMER_INTERVAL \/ cls = TIMER_INTERVAL_ON_TASK \/ cls = TIMER_TIME_OF_DAY \/
  cls = TIMER_TIME_OF_DAY_ON_TASK.

(** A timer in use was never started, or has the adaptor of its class. *)
Definition kind_ok (server : bool) (t : Timer_Control) (c : Watchdog_Control) : Prop :=
  tm_class t = TIMER_DORMANT \/
  (running_class (tm_class t) /\ routine c = adaptor_of (tm_class t) /\
   (Timer_Is_on_task_class (tm_class t) = true -> server = true)).

Definition color (w : Z) s : option Z := rbe_color <$> wd_nodes s !! w.

Record tm_inv (n : Z) (held : list Z) s (Q : queues) : Prop := {
  ti_wd : wd_inv s Q;
  ti_class : class_wf n held (info_of_timers s);
  ti_block : forall o, 1 <= o <= n ->
    is_Some (tm_timers (tm_of s) !! o) /\ is_Some (wd_controls s !! Ticker_of o);
  ti_armed : forall o i, 1 <= o <= n -> Ticker_of o ∈ (Q i).*2 ->
    exists t c, tm_timers (tm_of s) !! o = Some t /\ wd_controls s !! Ticker_of o = Some c /\
      running_class (tm_class t) /\ Timer_Watchdog_header_index (tm_class t) = i /\
      routine c = adaptor_of (tm_class t) /\
      (Timer_Is_on_task_class (tm_class t) = true -> tm_server (tm_of s) = true);
  ti_kind : forall o t c, o ∈ active (info_of_timers s) -> tm_timers (tm_of s) !! o = Some t ->
    wd_controls s !! Ticker_of o = Some c -> kind_ok (tm_server (tm_of s)) t c;
  ti_pending : forall o, 1 <= o <= n ->
    Ticker_of o ∈ tm_Pending (tm_of s) <-> color (Ticker_of o) s = Some WATCHDOG_PENDING;
  ti_nodup : NoDup (tm_Pending (tm_of s));
  ti_owner : forall w, w ∈ tm_Pending (tm_of s) -> exists o t, w = Ticker_of o /\ 1 <= o <= n /\
    tm_timers (tm_of s) !! o = Some t /\ Timer_Is_on_task_class (tm_class t) = true;
  ti_free : forall o, o ∈ Inactive (info_of_timers s) ->
    (forall j, Ticker_of o ∉ (Q j).*2) /\ (Ticker_of o ∉ tm_Pending (tm_of s));
  ti_server : tm_Pending (tm_of s) <> [] -> tm_server (tm_of s) = true
}.

(** What the operations on single timers leave alone. *)
Definition tm_same s s' : Prop :=
  wd_ticks s' = wd_ticks s /\ TOD_is_set (wd_rest s') = TOD_is_set (wd_rest s) /\
  tm_info (tm_of s') = tm_info (tm_of s) /\ tm_server (tm_of s') = tm_server (tm_of s) /\
  tm_server_id (tm_of s') = tm_server_id (tm_of s) /\ tm_events (tm_of s') = tm_events (tm_of s) /\
  tm_tasks (tm_of s') = tm_tasks (tm_of s) /\ tm_clock (tm_of s') = tm_clock (tm_of s).

(** Watchdogs other than [w] keep their routine and time. *)
Definition controls_but (w : Z) s s' : Prop :=
  forall x, x <> w -> wd_controls s' !! x = wd_controls s !! x.

(** What every directive leaves alone. *)
Definition tm_kept s s' : Prop :=
  wd_ticks s' = wd_ticks s /\ TOD_is_set (wd_rest s') = TOD_is_set (wd_rest s) /\
  (forall o, id_of (information (tm_info (tm_of s'))) o = id_of (information (tm_info (tm_of s))) o) /\
  tm_server (tm_of s') = tm_server (tm_of s) /\
  tm_server_id (tm_of s') = tm_server_id (tm_of s) /\ tm_events (tm_of s') = tm_events (tm_of s) /\
  tm_tasks (tm_of s') = tm_tasks (tm_of s) /\ tm_clock (tm_of s') = tm_clock (tm_of s).

Lemma tm_same_kept s s' : tm_same s s' -> tm_kept s s'.
Proof. intros (? & ? & Hi & ?). unfold tm_kept. by rewrite Hi. Qed.

#[export] Instance tm_kept_preorder : PreOrder tm_kept.
Proof.
  split; [by intros s; split_and!|].
  intros s1 s2 s3 (Ha & Hb & Hc & Hd & He & Hf & Hg & Hh) (Ka & Kb & Kc & Kd & Ke & Kf & Kg & Kh).
  split_and!; congruence.
Qed.

#[export] Instance tm_inv_proper n held s : Proper (pointwise_relation _ (=) ==> iff) (tm_inv n held s).
Proof.
  enough (Hx : forall Q Q', pointwise_relation _ (=) Q Q' -> tm_inv n held s Q -> tm_inv n held s Q')
    by (intros Q Q' HQ; split; apply Hx; [done|by symmetry]).
  intros Q Q' HQ Hi. split; try setoid_rewrite <- (HQ _); try apply Hi.
  eapply wd_inv_proper; [symmetry; exact HQ|apply Hi].
Qed.

Lemma timer_node n held s Q o :
  tm_inv n held s Q -> 1 <= o <= n -> exists nd, wd_nodes s !! Ticker_of o = Some nd.
Proof. intros Hi Ho. destruct (ti_block _ _ _ _ Hi o Ho) as [_ Hc]. by apply (wi_both _ _ (ti_wd _ _ _ _ Hi)) in Hc. Qed.

(** A timer is scheduled in the queue of its class, or in none. *)
Lemma disarm_class n held s Q o t :
  tm_inv n held s Q -> 1 <= o <= n -> tm_timers (tm_of s) !! o = Some t ->
  pointwise_relation _ (=) (disarm (Ticker_of o) Q)
    (with_queue (Timer_Watchdog_header_index (tm_class t))
       (tq_remove (Ticker_of o) (Q (Timer_Watchdog_header_index (tm_class t)))) Q).
Proof.
  intros Hi Ho Ht i. unfold disarm, with_queue. case_decide as He; [by subst|].
  apply tq_remove_absent. intros Hin.
  destruct (ti_armed _ _ _ _ Hi o i Ho Hin) as (t' & c & Ht' & _ & _ & Hidx & _). congruence.
Qed.

Lemma tq_remove_snd w q x : x ∈ (tq_remove w q).*2 <-> x <> w /\ x ∈ q.*2.
Proof.
  unfold tq_remove. rewrite !list_elem_of_fmap. setoid_rewrite list_elem_of_filter.
  split.
  - intros (y & -> & Hy & Hin). eauto.
  - intros (Hx & y & -> & Hin). by exists y.
Qed.

(** Whether a watchdog is in one of the queues. *)
Lemma in_queue_dec (Q : queues) w : (exists i, w ∈ (Q i).*2) \/ forall i, w ∉ (Q i).*2.
Proof.
  destruct (decide (w ∈ (Q PER_CPU_WATCHDOG_RELATIVE).*2)); [left; by eexists|].
  destruct (decide (w ∈ (Q PER_CPU_WATCHDOG_ABSOLUTE).*2)); [left; by eexists|].
  right. by intros [].
Qed.

(** The invariant after a change that concerns the timer [o] only. *)
Lemma tm_inv_one n held s s' Q Q' o t' :
  let w := Ticker_of o in
  tm_inv n held s Q -> 1 <= o <= n -> wd_inv s' Q' ->
  tm_info (tm_of s') = tm_info (tm_of s) -> tm_server (tm_of s') = tm_server (tm_of s) ->
  tm_timers (tm_of s') = <[o := t']> (tm_timers (tm_of s)) ->
  (forall x, x <> w -> wd_controls s' !! x = wd_controls s !! x) -> is_Some (wd_controls s' !! w) ->
  (forall x i, x <> w -> x ∈ (Q' i).*2 <-> x ∈ (Q i).*2) ->
  (forall x, x <> w -> (forall i, x ∉ (Q i).*2) -> wd_nodes s' !! x = wd_nodes s !! x) ->
  (forall x, x <> w -> x ∈ tm_Pending (tm_of s') <-> x ∈ tm_Pending (tm_of s)) ->
  NoDup (tm_Pending (tm_of s')) ->
  (forall i, w ∈ (Q' i).*2 -> running_class (tm_class t') /\ Timer_Watchdog_header_index (tm_class t') = i /\
     (forall c, wd_controls s' !! w = Some c -> routine c = adaptor_of (tm_class t')) /\
     (Timer_Is_on_task_class (tm_class t') = true -> tm_server (tm_of s) = true)) ->
  (w ∈ tm_Pending (tm_of s') <-> color w s' = Some WATCHDOG_PENDING) ->
  (w ∈ tm_Pending (tm_of s') -> Timer_Is_on_task_class (tm_class t') = true /\ tm_server (tm_of s) = true) ->
  (o ∈ Inactive (info_of_timers s) -> (forall j, w ∉ (Q' j).*2) /\ (w ∉ tm_Pending (tm_of s'))) ->
  (o ∈ active (info_of_timers s) -> forall c, wd_controls s' !! w = Some c -> kind_ok (tm_server (tm_of s)) t' c) ->
  tm_inv n held s' Q'.
Proof.
  intros w Hi Ho Hwd Hinfo Hsrv Htm Hcs Hcw HQ Hnodes HP HPnd Harm Hpend Hpown Hfree Hkind.
  assert (Hne : forall o', o' <> o -> Ticker_of o' <> w) by (intros o' Hx ?%Ticker_of_inj; done).
  assert (Hinf : info_of_timers s' = info_of_timers s) by (unfold info_of_timers; by rewrite Hinfo).
  split; rewrite ?Hinf, ?Hsrv; try done.
  - apply Hi.
  - intros o' Ho'. destruct (ti_block _ _ _ _ Hi o' Ho') as [Hz1 Hz2]. rewrite Htm.
    destruct (decide (o' = o)) as [->|Hx]; [by rewrite lookup_insert_eq|].
    rewrite lookup_insert_ne, Hcs by auto. done.
  - intros o' i Ho' Hin. destruct (decide (o' = o)) as [->|Hx].
    + destruct (Harm i Hin) as (Hz1 & Hz2 & Hz3 & Hz4). destruct Hcw as [c Hc].
      exists t', c. rewrite Htm, lookup_insert_eq. split_and!; auto.
    + rewrite Htm, lookup_insert_ne, Hcs by auto. apply HQ in Hin; [|auto].
      by apply (ti_armed _ _ _ _ Hi).
  - intros o' t c Hact. rewrite Htm. destruct (decide (o' = o)) as [->|Hx].
    + rewrite lookup_insert_eq. intros [= <-]. by apply Hkind.
    + rewrite lookup_insert_ne, Hcs by auto. by apply (ti_kind _ _ _ _ Hi).
  - intros o' Ho'. destruct (decide (o' = o)) as [->|Hx]; [done|].
    rewrite HP by auto. rewrite (ti_pending _ _ _ _ Hi o' Ho').
    destruct (timer_node _ _ _ _ o' Hi Ho') as [nd Hnd]. pose proof (ti_wd _ _ _ _ Hi) as Hwd0.
    destruct (in_queue_dec Q (Ticker_of o')) as [[i Hin]|Hout].
    + pose proof (queue_color s Q i _ nd Hwd0 Hin Hnd) as Hc.
      assert (Hin' : Ticker_of o' ∈ (Q' i).*2) by (apply HQ; auto).
      destruct (queue_mapped s' Q' i _ Hwd Hin') as [[nd' Hnd'] _].
      pose proof (queue_color s' Q' i _ nd' Hwd Hin' Hnd') as Hc'.
      unfold color. rewrite Hnd, Hnd'. cbn. unfold WATCHDOG_INACTIVE, WATCHDOG_PENDING in *.
      split; intros [= ?]; lia.
    + unfold color. rewrite Hnodes; [done|auto|done].
  - intros x Hx. destruct (decide (x = w)) as [->|Hxw].
    + exists o, t'. rewrite Htm, lookup_insert_eq. split_and!; try done; try lia. by apply Hpown.
    + apply HP in Hx; [|done]. destruct (ti_owner _ _ _ _ Hi x Hx) as (o' & t & -> & Ho' & Ht & Hcl).
      exists o', t. rewrite Htm, lookup_insert_ne by (intros <-; done). done.
  - intros o' Hin. destruct (decide (o' = o)) as [->|Hx]; [by apply Hfree|].
    destruct (ti_free _ _ _ _ Hi o' Hin) as [Hz1 Hz2]. split.
    + intros j Hj%HQ; [by eapply Hz1|auto].
    + intros Hj%HP; [by apply Hz2|auto].
  - intros Hne0. destruct (decide (w ∈ tm_Pending (tm_of s'))) as [Hw|Hw]; [by apply Hpown|].
    destruct (tm_Pending (tm_of s')) as [|x l] eqn:Hl; [done|].
    apply (ti_server _ _ _ _ Hi). intros He. assert (Hx : x ∈ x :: l) by apply list_elem_of_here.
    destruct (decide (x = w)) as [Hxw|Hxw]; [by rewrite <- Hxw in Hw|]. apply HP in Hx; [|done].
    rewrite He in Hx. by apply elem_of_nil in Hx.
Qed.

(** ** Stopping a timer *)

(** Stopping writes the time of the stop when the timer was scheduled. *)
Definition stopped_timer (now : Z) (Q : queues) (o : Z) (t : Timer_Control) : Timer_Control :=
  if decide (Ticker_of o ∈ (Q (Timer_Watchdog_header_index (tm_class t))).*2)
  then set_tm_stop_time (u32 now) t else t.

Lemma stopped_timer_class now Q o t : tm_class (stopped_timer now Q o t) = tm_class t.
Proof. unfold stopped_timer. by case_decide. Qed.

Lemma wd_ticks_u32_bind {B} (k : Z -> M B) s : (x ← Timer_Get_CPU_ticks; k x) s = k (u32 (wd_ticks s)) s.
Proof. unfold Timer_Get_CPU_ticks. by rewrite cm_bind_assoc, gets_bind, ret_bind. Qed.

Lemma set_tm_timers_same s o t :
  tm_timers (tm_of s) !! o = Some t -> <[o := t]> (tm_timers (tm_of s)) = tm_timers (tm_of s).
Proof. apply insert_id. Qed.

Lemma cancel_run n held s Q o t :
  tm_inv n held s Q -> 1 <= o <= n -> tm_timers (tm_of s) !! o = Some t ->
  exists s', Timer_Cancel o s = Ok (tt, s') /\ tm_inv n held s' (disarm (Ticker_of o) Q) /\ tm_same s s' /\
    tm_Pending (tm_of s') = filter (fun w => w <> Ticker_of o) (tm_Pending (tm_of s)) /\
    tm_timers (tm_of s') = <[o := stopped_timer (wd_ticks s) Q o t]> (tm_timers (tm_of s)) /\
    wd_controls s' = wd_controls s.
Proof.
  intros Hi Ho Ht. set (w := Ticker_of o). pose proof (ti_wd _ _ _ _ Hi) as Hwd.
  destruct (timer_node _ _ _ _ o Hi Ho) as [nd Hnd]. destruct (ti_block _ _ _ _ Hi o Ho) as [_ Hc].
  set (i := Timer_Watchdog_header_index (tm_class t)).
  assert (HPx : forall x, x <> w -> x ∈ filter (fun w => w <> Ticker_of o) (tm_Pending (tm_of s)) <->
    x ∈ tm_Pending (tm_of s)) by (intros x Hx; rewrite list_elem_of_filter; tauto).
  assert (HPw : w ∉ filter (fun w => w <> Ticker_of o) (tm_Pending (tm_of s)))
    by (rewrite list_elem_of_filter; tauto).
  assert (HPn : NoDup (filter (fun w => w <> Ticker_of o) (tm_Pending (tm_of s))))
    by (apply NoDup_filter, (ti_nodup _ _ _ _ Hi)).
  assert (HQx : forall x j, x <> w -> x ∈ (disarm w Q j).*2 <-> x ∈ (Q j).*2)
    by (intros x j Hx; unfold disarm; rewrite tq_remove_snd; tauto).
  assert (HQw : forall j, w ∉ (disarm w Q j).*2) by (intros j; unfold disarm; rewrite tq_remove_snd; tauto).
  pose proof (disarm_class _ _ _ _ _ _ Hi Ho Ht) as Hdis. fold i w in Hdis.
  unfold Timer_Cancel. rewrite (tm_ld_bind _ t) by done. fold w.
  rewrite (is_scheduled_bind s w nd) by done. pose proof (scheduled_iff s Q w nd Hwd Hnd) as Hsched.
  unfold stopped_timer. fold i w. destruct (rbe_color nd <? WATCHDOG_INACTIVE) eqn:Hcol.
  - destruct (proj1 Hsched eq_refl) as [j Hj].
    destruct (ti_armed _ _ _ _ Hi o j Ho Hj) as (t' & c & Ht' & _ & _ & Hidx & _).
    rewrite Ht in Ht'. injection Ht' as <-. fold i in Hidx. subst j. rewrite decide_True by done.
    rewrite wd_ticks_u32_bind, (tm_upd_bind _ t) by done. set (s1 := set_tm _ s).
    destruct (watchdog_remove_run s1 Q i w) as (s' & Hr & Hwd' & (Hf1 & _ & Hf3 & _) & Hcs & Hnodes & Hoff);
      [by apply set_tm_inv|done|by left|].
    exists s'. split; [done|]. assert (Htm : tm_of s' = tm_of s1) by (unfold tm_of; by rewrite Hf3).
    destruct (Hoff Hj) as (nd' & Hnd' & Hcol').
    assert (HPs : tm_Pending (tm_of s) = filter (fun w => w <> Ticker_of o) (tm_Pending (tm_of s))).
    { symmetry. apply filter_all, Forall_forall. intros x Hx ->.
      apply (ti_pending _ _ _ _ Hi o Ho) in Hx. unfold color in Hx. rewrite Hnd in Hx. injection Hx as Hx.
      apply Z.ltb_lt in Hcol. rewrite Hx in Hcol. done. }
    rewrite <- Hdis in Hwd'.
    split_and!; [|split_and!; try done; by rewrite ?Htm, ?Hf1, ?Hf3|by rewrite Htm|by rewrite Htm|done].
    eapply (tm_inv_one n held s s' Q _ o (set_tm_stop_time (u32 (wd_ticks s)) t)); try done; rewrite ?Htm; try done.
    + intros x Hx. by rewrite Hcs.
    + by rewrite Hcs.
    + intros x Hx Hout. by rewrite Hnodes.
    + apply (ti_nodup _ _ _ _ Hi).
    + intros j' Hj'. by destruct (HQw j').
    + cbn. rewrite HPs. split; [done|]. unfold color. fold w. rewrite Hnd'. cbn. by rewrite Hcol'.
    + cbn. by rewrite HPs.
    + intros Hin. cbn. rewrite HPs. done.
    + intros Hact c'. rewrite Hcs. exact (ti_kind _ _ _ _ Hi o t c' Hact Ht).
  - assert (Hout : forall j, w ∉ (Q j).*2).
    { intros j Hj. discriminate (proj2 Hsched (ex_intro _ j Hj)). }
    rewrite decide_False by apply Hout. apply Z.ltb_ge in Hcol.
    assert (HQs : pointwise_relation _ (=) (disarm w Q) Q) by (intros j; by apply tq_remove_absent).
    assert (Hsame : <[o := t]> (tm_timers (tm_of s)) = tm_timers (tm_of s)) by by apply insert_id.
    destruct (decide (rbe_color nd = WATCHDOG_PENDING)) as [Hp|Hp].
    + assert (Hinp : w ∈ tm_Pending (tm_of s)).
      { apply (ti_pending _ _ _ _ Hi o Ho). unfold color. rewrite Hnd. cbn. by rewrite Hp. }
      destruct (ti_owner _ _ _ _ Hi w Hinp) as (o' & t' & He & _ & Ht' & Hon). apply Ticker_of_inj in He as <-.
      rewrite Ht in Ht'. injection Ht' as <-. rewrite Hon. cbn [c_if].
      rewrite (state_bind _ nd) by done. rewrite Hp, Z.eqb_refl. cbn [c_if].
      rewrite (cm_bind_ok _ _ _ _ _ (set_state_run w nd WATCHDOG_INACTIVE s Hnd)).
      set (s1 := set_wd_nodes _ s). unfold tm_mod. eexists. split; [reflexivity|].
      set (s' := set_tm _ s1). rewrite HQs.
      assert (Hwd' : wd_inv s' Q).
      { apply set_tm_inv, set_state_inv; done. }
      split_and!; [|done|done|by rewrite Hsame|done].
      eapply (tm_inv_one n held s s' Q _ o t); try done.
      * intros x Hx _. by apply lookup_insert_ne.
      * intros j Hj. by destruct (Hout j).
      * split; [done|]. unfold color. cbn. by rewrite lookup_insert_eq.
      * intros Hact c'. exact (ti_kind _ _ _ _ Hi o t c' Hact Ht).
    + assert (Hnp : w ∉ tm_Pending (tm_of s)).
      { intros Hin. apply (ti_pending _ _ _ _ Hi o Ho) in Hin. unfold color in Hin. rewrite Hnd in Hin.
        injection Hin as Hin. done. }
      exists s. split.
      { destruct (Timer_Is_on_task_class (tm_class t)); [|done]. cbn [c_if]. rewrite (state_bind _ nd) by done.
        by rewrite (proj2 (Z.eqb_neq _ _) Hp). }
      rewrite HQs, Hsame. split_and!; try done. symmetry. apply filter_all, Forall_forall. by intros x Hx ->.
Qed.

(** ** Starting a timer *)
Lemma timer_get n held s Q o :
  tm_inv n held s Q -> o ∈ active (info_of_timers s) ->
  1 <= o <= n /\
  Objects_Get (id_of (info_of_timers s) o) (tm_info (tm_of s)) = Ok (Some o, tm_info (tm_of s)).
Proof.
  intros Hi Ho. pose proof (ti_class _ _ _ _ Hi) as Hw.
  assert (Hr : 1 <= o <= n) by (eapply class_wf_range; [exact Hw|set_solver]). split; [done|].
  destruct (id_of_value n held _ o Hw ltac:(lia)) as (_ & _ & Hid & _).
  destruct (get_run n held (id_of (info_of_timers s) o) (tm_info (tm_of s)) Hw Hid) as (r & Hg & Hspec).
  rewrite Hg. by rewrite (proj2 (Hspec o)).
Qed.

Lemma timer_get_none n held s Q id :
  tm_inv n held s Q -> 0 <= id < 2 ^ 32 ->
  (forall o, o ∈ active (info_of_timers s) -> id <> id_of (info_of_timers s) o) ->
  Objects_Get id (tm_info (tm_of s)) = Ok (None, tm_info (tm_of s)).
Proof.
  intros Hi Hid Hno. destruct (get_run n held id (tm_info (tm_of s)) (ti_class _ _ _ _ Hi) Hid) as (r & Hg & Hspec).
  rewrite Hg. destruct r as [o|]; [|done]. destruct (proj1 (Hspec o) eq_refl) as [Ha He]. by destruct (Hno o Ha).
Qed.

Definition armed_queue (i : Per_CPU_Watchdog_index) (e w : Z) (Q : queues) : queues :=
  with_queue i (tq_insert e w (Q i)) Q.

Lemma arm_run n held s Q o t i e :
  tm_inv n held s Q -> 1 <= o <= n -> tm_timers (tm_of s) !! o = Some t ->
  (forall j, Ticker_of o ∉ (Q j).*2) -> Ticker_of o ∉ tm_Pending (tm_of s) ->
  o ∉ Inactive (info_of_timers s) -> running_class (tm_class t) ->
  Timer_Watchdog_header_index (tm_class t) = i ->
  (forall c, wd_controls s !! Ticker_of o = Some c -> routine c = adaptor_of (tm_class t)) ->
  (Timer_Is_on_task_class (tm_class t) = true -> tm_server (tm_of s) = true) ->
  exists s', Watchdog_Insert i (Ticker_of o) e s = Ok (tt, s') /\
    tm_inv n held s' (armed_queue i e (Ticker_of o) Q) /\ wd_rest s' = wd_rest s /\ wd_ticks s' = wd_ticks s /\
    controls_but (Ticker_of o) s s'.
Proof.
  intros Hi Ho Ht HQ HP Hina Hrun Hidx Hrt Hsrv. set (w := Ticker_of o) in *.
  destruct (ti_block _ _ _ _ Hi o Ho) as [_ [c Hc]]. fold w in Hc.
  destruct (watchdog_insert_run s Q i w e c (ti_wd _ _ _ _ Hi) Hc HQ)
    as (s' & Hr & Hwd & (Hf1 & _ & Hf3 & _) & Hcs & Hnodes).
  exists s'. split; [done|]. assert (Htm : tm_of s' = tm_of s) by (unfold tm_of; by rewrite Hf3).
  assert (Hmem : forall x j, x ∈ (armed_queue i e w Q j).*2 <-> (x = w /\ j = i) \/ x ∈ (Q j).*2).
  { intros x j. unfold armed_queue, with_queue. case_decide as Hj; [subst j|].
    - rewrite tq_insert_snd, elem_of_cons. naive_solver.
    - naive_solver. }
  assert (Hcb : controls_but w s s') by (intros x Hx; rewrite Hcs; by apply lookup_insert_ne).
  split_and!; try done.
  eapply (tm_inv_one n held s s' Q _ o t); rewrite ?Htm; try done.
  - by rewrite insert_id.
  - fold w. rewrite Hcs, lookup_insert_eq. by eexists.
  - intros x j Hx. fold w in Hx. rewrite Hmem. naive_solver.
  - intros x Hx Hout. by apply Hnodes.
  - apply (ti_nodup _ _ _ _ Hi).
  - intros j Hj. fold w in Hj. apply Hmem in Hj as [[_ ->]|Hj]; [|by destruct (HQ j)].
    split_and!; try done. fold w. rewrite Hcs, lookup_insert_eq. intros c' [= <-]. cbn. by apply Hrt.
  - split; [done|]. fold w. intros Hcol. exfalso.
    assert (Hin : w ∈ (armed_queue i e w Q i).*2) by (apply Hmem; by left).
    destruct (queue_mapped _ _ _ _ Hwd Hin) as [[nd Hnd] _].
    pose proof (queue_color _ _ _ _ _ Hwd Hin Hnd). unfold color in Hcol. rewrite Hnd in Hcol.
    injection Hcol as Hcol. rewrite Hcol in *. done.
  - intros _ c'. fold w. rewrite Hcs, lookup_insert_eq. intros [= <-]. right. split_and!; try done.
    cbn. by apply Hrt.
Qed.

(** The time a timer of a class expires at. *)
Definition expire_time (cls interval ticks : Z) : Z :=
  if Timer_Is_interval_class cls then u64 (ticks + interval) else Watchdog_Ticks_from_seconds interval.

Lemma running_index cls :
  running_class cls ->
  Timer_Watchdog_header_index cls =
    if Timer_Is_interval_class cls then PER_CPU_WATCHDOG_RELATIVE else PER_CPU_WATCHDOG_ABSOLUTE.
Proof. by intros [->|[->|[->| ->]]]. Qed.

Lemma active_not_inactive n held s Q o :
  tm_inv n held s Q -> o ∈ active (info_of_timers s) -> o ∉ Inactive (info_of_timers s).
Proof.
  intros Hi Ho Hin. pose proof (class_wf_nodup _ _ _ (ti_class _ _ _ _ Hi)) as Hnd.
  apply NoDup_app in Hnd as (_ & Hd & _). apply (Hd o Hin). set_solver.
Qed.

Lemma fire_run n held s Q o t interval rt data cls :
  tm_inv n held s Q -> o ∈ active (info_of_timers s) -> tm_timers (tm_of s) !! o = Some t ->
  running_class cls -> (Timer_Is_on_task_class cls = true -> tm_server (tm_of s) = true) ->
  let w := Ticker_of o in
  let i := Timer_Watchdog_header_index cls in
  exists s', Timer_Fire (id_of (info_of_timers s) o) interval rt data cls (adaptor_of cls) s = Ok (RTEMS_SUCCESSFUL, s') /\
    tm_inv n held s' (armed_queue i (expire_time cls interval (wd_ticks s)) w (disarm w Q)) /\ tm_same s s' /\
    tm_Pending (tm_of s') = filter (fun x => x <> w) (tm_Pending (tm_of s)) /\
    tm_timers (tm_of s') = <[o := mk_Timer_Control cls rt data interval (u32 (wd_ticks s))
      (tm_stop_time (stopped_timer (wd_ticks s) Q o t))]> (tm_timers (tm_of s)) /\
    controls_but w s s'.
Proof.
  intros Hi Ha Ht Hrc Hsrv w i. destruct (timer_get _ _ _ _ _ Hi Ha) as [Ho Hget].
  unfold Timer_Fire, Timer_Get. rewrite (tm_objs_read_bind _ _ _ _ Hget).
  destruct (cancel_run n held s Q o t Hi Ho Ht) as (s1 & Hr1 & Hi1 & Hs1 & Hp1 & Ht1 & Hc1).
  rewrite (cm_bind_ok _ _ _ _ _ Hr1).
  destruct (ti_block _ _ _ _ Hi1 o Ho) as [_ [c Hc]].
  unfold Watchdog_Initialize. rewrite (wd_upd_bind _ c) by done. set (s2 := set_wd_controls _ s1).
  rewrite wd_ticks_u32_bind. change (wd_ticks s2) with (wd_ticks s1).
  destruct Hs1 as (Hk & Hk2 & Hk3 & Hk4 & Hk5 & Hk6 & Hk7 & Hk8). rewrite Hk.
  assert (Hlk : tm_timers (tm_of s2) !! o = Some (stopped_timer (wd_ticks s) Q o t))
    by (change (tm_of s2) with (tm_of s1); by rewrite Ht1, lookup_insert_eq).
  rewrite (tm_upd_bind _ _ _ _ _ Hlk).
  set (t3 := mk_Timer_Control _ _ _ _ _ _). set (s3 := set_tm _ s2).
  assert (HQ1 : forall j, w ∉ (disarm w Q j).*2) by (intros j; unfold disarm; rewrite tq_remove_snd; tauto).
  assert (HP1 : w ∉ tm_Pending (tm_of s1)) by (rewrite Hp1, list_elem_of_filter; tauto).
  assert (Hi3 : tm_inv n held s3 (disarm w Q)).
  { eapply (tm_inv_one n held s1 s3 _ _ o t3); try done.
    - apply set_tm_inv. by eapply set_control_inv; [apply Hi1|exact Hc|].
    - intros x Hx. by apply lookup_insert_ne.
    - cbn. rewrite lookup_insert_eq. by eexists.
    - apply (ti_nodup _ _ _ _ Hi1).
    - intros j Hj. by destruct (HQ1 j).
    - apply (ti_pending _ _ _ _ Hi1 o Ho).
    - intros _ c'. cbn. rewrite lookup_insert_eq. intros [= <-]. right. rewrite Hk4. by split_and!. }
  assert (Hins : exists s', Watchdog_Insert i w (expire_time cls interval (wd_ticks s)) s3 = Ok (tt, s') /\
    tm_inv n held s' (armed_queue i (expire_time cls interval (wd_ticks s)) w (disarm w Q)) /\
    wd_rest s' = wd_rest s3 /\ wd_ticks s' = wd_ticks s3 /\ controls_but w s3 s').
  { eapply (arm_run n held s3 _ o t3); try done.
    - apply lookup_insert_eq.
    - change (o ∉ Inactive (info_of_timers s1)). unfold info_of_timers. rewrite Hk3.
      by eapply active_not_inactive.
    - cbn. rewrite lookup_insert_eq. by intros c' [= <-].
    - change (tm_server (tm_of s3)) with (tm_server (tm_of s1)). by rewrite Hk4. }
  destruct Hins as (s' & Hr' & Hi' & Hrest & Htk & Hcb). exists s'.
  assert (Htm : tm_of s' = tm_of s3) by (unfold tm_of; by rewrite Hrest).
  split_and!.
  - unfold expire_time in Hr'. unfold i in Hr'. rewrite (running_index cls Hrc) in Hr'.
    destruct (Timer_Is_interval_class cls).
    + rewrite cm_bind_assoc, gets_bind. change (wd_ticks s3) with (wd_ticks s1). rewrite Hk.
      by rewrite (cm_bind_ok _ _ _ _ _ Hr').
    + by rewrite (cm_bind_ok _ _ _ _ _ Hr').
  - done.
  - unfold tm_same. rewrite Htm, Htk, Hrest. by split_and!.
  - rewrite Htm. exact Hp1.
  - rewrite Htm. change (tm_timers (tm_of s3)) with (<[o := t3]> (tm_timers (tm_of s1))).
    by rewrite Ht1, insert_insert_eq.
  - intros x Hx. rewrite (Hcb x Hx), <- Hc1. by apply lookup_insert_ne.
Qed.

Lemma reset_run n held s Q o t :
  tm_inv n held s Q -> o ∈ active (info_of_timers s) -> tm_timers (tm_of s) !! o = Some t ->
  let w := Ticker_of o in
  if Timer_Is_interval_class (tm_class t) then
    exists s', rtems_timer_reset (id_of (info_of_timers s) o) s = Ok (RTEMS_SUCCESSFUL, s') /\
      tm_inv n held s' (armed_queue PER_CPU_WATCHDOG_RELATIVE (u64 (wd_ticks s + tm_initial t)) w (disarm w Q)) /\
      tm_same s s' /\ tm_Pending (tm_of s') = filter (fun x => x <> w) (tm_Pending (tm_of s)) /\
      tm_timers (tm_of s') = <[o := stopped_timer (wd_ticks s) Q o t]> (tm_timers (tm_of s)) /\
      controls_but w s s'
  else rtems_timer_reset (id_of (info_of_timers s) o) s = Ok (RTEMS_NOT_DEFINED, s).
Proof.
  intros Hi Ha Ht w. destruct (timer_get _ _ _ _ _ Hi Ha) as [Ho Hget].
  destruct (Timer_Is_interval_class (tm_class t)) eqn:Hcl; unfold rtems_timer_reset, Timer_Get;
    rewrite (tm_objs_read_bind _ _ _ _ Hget), (tm_ld_bind _ t), Hcl by done; [|done].
  destruct (cancel_run n held s Q o t Hi Ho Ht) as (s1 & Hr1 & Hi1 & Hs1 & Hp1 & Ht1 & Hc1).
  rewrite (cm_bind_ok _ _ _ _ _ Hr1), gets_bind.
  destruct Hs1 as (Hk & Hk2 & Hk3 & Hk4 & Hk5 & Hk6 & Hk7 & Hk8). rewrite Hk.
  set (t1 := stopped_timer (wd_ticks s) Q o t) in *.
  assert (Hlk : tm_timers (tm_of s1) !! o = Some t1) by by rewrite Ht1, lookup_insert_eq.
  assert (Hinit : tm_initial t1 = tm_initial t) by (unfold t1, stopped_timer; by case_decide).
  rewrite (tm_ld_bind _ t1), Hinit by done.
  destruct (ti_block _ _ _ _ Hi1 o Ho) as [_ [c Hc]].
  assert (Hkind : kind_ok (tm_server (tm_of s)) t c).
  { apply (ti_kind _ _ _ _ Hi o t c Ha Ht). by rewrite <- Hc1. }
  destruct Hkind as [Hd|(Hrc & Hrt & Hsv)]; [by rewrite Hd in Hcl|].
  assert (Hcls : tm_class t1 = tm_class t) by apply stopped_timer_class.
  destruct (arm_run n held s1 (disarm w Q) o t1 PER_CPU_WATCHDOG_RELATIVE (u64 (wd_ticks s + tm_initial t)))
    as (s' & Hr' & Hi' & Hrest & Htk & Hcb); rewrite ?Hcls, ?Hk4; try done.
  - intros j. unfold disarm. rewrite tq_remove_snd. fold w. tauto.
  - rewrite Hp1, list_elem_of_filter. tauto.
  - unfold info_of_timers. rewrite Hk3. by eapply active_not_inactive.
  - rewrite (running_index _ Hrc). by rewrite Hcl.
  - intros c' Hc'. rewrite Hc in Hc'. by injection Hc' as <-.
  - exists s'. assert (Htm : tm_of s' = tm_of s1) by (unfold tm_of; by rewrite Hrest).
    split_and!; [by rewrite (cm_bind_ok _ _ _ _ _ Hr')|done|..]; rewrite ?Htm; try done.
    + unfold tm_same. rewrite Htm, Htk, Hrest. by split_and!.
    + intros x Hx. by rewrite (Hcb x Hx), Hc1.
Qed.

(** ** Creating and deleting *)
Lemma tm_inv_objs n held held' s i' Q :
  tm_inv n held s Q -> class_wf n held' (information i') ->
  (forall o, o ∈ Inactive (information i') ->
     (forall j, Ticker_of o ∉ (Q j).*2) /\ (Ticker_of o ∉ tm_Pending (tm_of s))) ->
  (forall o t c, o ∈ active (information i') -> tm_timers (tm_of s) !! o = Some t ->
     wd_controls s !! Ticker_of o = Some c -> kind_ok (tm_server (tm_of s)) t c) ->
  tm_inv n held' (set_tm (set_tm_info i' (tm_of s)) s) Q.
Proof.
  intros Hi Hw Hfree Hkind. destruct Hi as [Hwd Hcl Hbl Har Hki Hpe Hnd Hown Hfr Hsv].
  split; try done. by apply set_tm_inv.
Qed.

Lemma timer_create_run n held s Q o l t name :
  tm_inv n held s Q -> Inactive (info_of_timers s) = o :: l -> name <> 0 ->
  tm_timers (tm_of s) !! o = Some t ->
  exists s', rtems_timer_create name false s = Ok ((RTEMS_SUCCESSFUL, Some (id_of (info_of_timers s) o)), s') /\
    tm_inv n held s' Q /\ tm_kept s s' /\ Inactive (info_of_timers s') = l /\
    active (info_of_timers s') ≡ₚ o :: active (info_of_timers s) /\
    tm_Pending (tm_of s') = tm_Pending (tm_of s) /\
    tm_timers (tm_of s') = <[o := set_tm_class TIMER_DORMANT t]> (tm_timers (tm_of s)) /\
    wd_controls s' = wd_controls s.
Proof.
  intros Hi Hin Hname Ht. pose proof (ti_class _ _ _ _ Hi) as Hw.
  assert (Ho : 1 <= o <= n) by (eapply class_wf_range; [exact Hw|rewrite Hin; left]).
  destruct (ti_free _ _ _ _ Hi o ltac:(rewrite Hin; left)) as [HQo HPo].
  pose proof (allocate_run n held (tm_info (tm_of s)) Hw) as Hal. unfold info_of_timers in Hin. rewrite Hin in Hal.
  destruct Hal as (i1 & Hr1 & Hi1 & Hw1).
  unfold rtems_timer_create, rtems_is_name_valid. rewrite (proj2 (Z.eqb_neq name 0)) by done. cbn [negb].
  unfold Timer_Allocate. rewrite (tm_objs_bind _ _ _ _ _ Hr1). set (s1 := set_tm _ s).
  assert (Hinv1 : tm_inv n (o :: held) s1 Q).
  { apply tm_inv_objs with (held := held); [done|done|..].
    - rewrite Hi1. intros o' Ho'. apply (ti_free _ _ _ _ Hi). unfold info_of_timers. rewrite Hin. by right.
    - rewrite Hi1. apply (ti_kind _ _ _ _ Hi). }
  rewrite (tm_upd_bind _ t) by done. set (s2 := set_tm _ s1).
  destruct (timer_node _ _ _ _ o Hi Ho) as [nd Hnd].
  unfold Watchdog_Preinitialize. rewrite (cm_bind_ok _ _ _ _ _ (set_state_run (Ticker_of o) nd WATCHDOG_INACTIVE s2 Hnd)).
  set (s3 := set_wd_nodes _ s2).
  assert (Hna : o ∉ active (information i1)).
  { pose proof (class_wf_nodup _ _ _ Hw1) as Hn. apply NoDup_app in Hn as (_ & _ & Hn).
    apply NoDup_app in Hn as (_ & Hd & _). apply Hd. left. }
  assert (Hinv3 : tm_inv n (o :: held) s3 Q).
  { eapply (tm_inv_one n (o :: held) s1 s3 Q Q o (set_tm_class TIMER_DORMANT t)); try done.
    - apply set_state_inv; try done. by apply set_tm_inv, Hinv1.
    - apply (ti_block _ _ _ _ Hi o Ho).
    - intros x Hx _. by apply lookup_insert_ne.
    - apply (ti_nodup _ _ _ _ Hi).
    - intros j Hj. by destruct (HQo j).
    - split; [done|]. unfold color. cbn. by rewrite lookup_insert_eq. }
  destruct (open_run n (o :: held) o name i1 Hw1) as (i2 & held2 & Hr2 & Hperm & Hw2 & Hact & _ & Hid); [by left|].
  destruct (open_effect n (o :: held) o name i1 i2 Hw1 ltac:(by left) Hr2) as (Hin2 & Hact2 & Hids).
  rewrite (tm_objs_bind (Objects_Open o name) _ s3 _ _ Hr2). set (s4 := set_tm _ s3).
  apply Permutation_cons_inv in Hperm.
  assert (Hinv4 : tm_inv n held s4 Q).
  { apply tm_inv_objs with (held := o :: held); [done|by eapply class_wf_perm|..].
    - rewrite Hin2. apply (ti_free _ _ _ _ Hinv3).
    - intros o' t' c Ho'. rewrite Hact2 in Ho'. apply elem_of_cons in Ho' as [->|Ho'].
      + change (tm_timers (tm_of s3)) with (<[o := set_tm_class TIMER_DORMANT t]> (tm_timers (tm_of s))).
        rewrite lookup_insert_eq. intros [= <-] _. by left.
      + by apply (ti_kind _ _ _ _ Hinv3). }
  rewrite (tm_objs_read_bind (obj_id o) _ s4 _ (obj_id_run n held2 o i2 Hw2 Ho)).
  assert (Hidf : forall o', id_of (information i2) o' = id_of (info_of_timers s) o').
  { intros o'. rewrite Hids, Hi1. done. }
  rewrite Hidf. eexists. split; [reflexivity|]. split; [done|]. split; [by split_and!|]. split_and!; try done.
  - etrans; [exact Hin2|by rewrite Hi1].
  - etrans; [exact Hact2|by rewrite Hi1].
Qed.

Lemma delete_run n held s Q o t :
  tm_inv n held s Q -> o ∈ active (info_of_timers s) -> tm_timers (tm_of s) !! o = Some t ->
  let w := Ticker_of o in
  exists s', rtems_timer_delete (id_of (info_of_timers s) o) s = Ok (RTEMS_SUCCESSFUL, s') /\
    tm_inv n held s' (disarm w Q) /\
    active (info_of_timers s) ≡ₚ o :: active (info_of_timers s') /\
    Inactive (info_of_timers s') = Inactive (info_of_timers s) ++ [o] /\ tm_kept s s' /\
    tm_Pending (tm_of s') = filter (fun x => x <> w) (tm_Pending (tm_of s)) /\
    tm_timers (tm_of s') = <[o := stopped_timer (wd_ticks s) Q o t]> (tm_timers (tm_of s)) /\
    wd_controls s' = wd_controls s.
Proof.
  intros Hi Ha Ht w. destruct (timer_get _ _ _ _ _ Hi Ha) as [Ho Hget]. pose proof (ti_class _ _ _ _ Hi) as Hw.
  unfold rtems_timer_delete, Timer_Get. rewrite (tm_objs_read_bind _ _ _ _ Hget).
  destruct (close_run n held o (tm_info (tm_of s)) Hw Ha) as (i1 & Hr1 & Hw1 & Hna & _).
  destruct (close_effect n held o _ _ Hw Ha Hr1) as (Hin1 & Hact1 & Hids).
  rewrite (tm_objs_bind _ _ _ _ _ Hr1). set (s1 := set_tm _ s).
  assert (Hinv1 : tm_inv n (o :: held) s1 Q).
  { apply tm_inv_objs with (held := held); [done|done|..].
    - rewrite Hin1. apply (ti_free _ _ _ _ Hi).
    - intros o' t' c Ho'. apply (ti_kind _ _ _ _ Hi). unfold info_of_timers. rewrite Hact1. by right. }
  destruct (cancel_run n (o :: held) s1 Q o t Hinv1 Ho Ht) as (s2 & Hr2 & Hi2 & Hs2 & Hp2 & Ht2 & Hc2).
  rewrite (cm_bind_ok _ _ _ _ _ Hr2).
  destruct Hs2 as (Hk & Hk2 & Hk3 & Hk4 & Hk5 & Hk6 & Hk7 & Hk8).
  destruct (free_run n held o (tm_info (tm_of s2))) as (i3 & Hr3 & Hi3 & Hw3).
  { apply (ti_class _ _ _ _ Hi2). }
  unfold Timer_Free. rewrite (tm_objs_bind (Objects_Free o) _ s2 _ _ Hr3). set (s3 := set_tm _ s2).
  change (tm_info (tm_of s1)) with i1 in Hk3.
  assert (Hinfo3 : active (info_of_timers s3) = active (information i1)).
  { unfold info_of_timers. cbn. rewrite Hi3, Hk3. done. }
  eexists. split; [reflexivity|]. split_and!.
  - apply tm_inv_objs with (held := o :: held); [done|done|..].
    + rewrite Hi3. cbn. intros o' Ho'. apply elem_of_app in Ho' as [Ho'|Ho'%list_elem_of_singleton].
      * by apply (ti_free _ _ _ _ Hi2).
      * subst o'. split; [intros j; unfold disarm; rewrite tq_remove_snd; fold w; tauto|].
        rewrite Hp2, list_elem_of_filter. tauto.
    + rewrite Hi3. apply (ti_kind _ _ _ _ Hi2).
  - by rewrite Hinfo3.
  - unfold info_of_timers at 1. cbn. rewrite Hi3, Hk3. cbn. by rewrite Hin1.
  - split_and!; try done. intros o'. cbn. rewrite Hi3, Hk3. apply Hids.
  - exact Hp2.
  - exact Ht2.
  - exact Hc2.
Qed.

(** ** Expiration *)

(** A watchdog, of a timer or of another manager, is taken from its queue. *)
Lemma tm_inv_pop n held s s1 Q i e w q :
  tm_inv n held s Q -> Q i = (e, w) :: q -> wd_inv s1 (with_queue i q Q) ->
  wd_rest s1 = wd_rest s -> wd_controls s1 = wd_controls s ->
  (forall x, x ∉ (Q i).*2 -> wd_nodes s1 !! x = wd_nodes s !! x) -> color w s1 = Some WATCHDOG_INACTIVE ->
  tm_inv n held s1 (with_queue i q Q).
Proof.
  intros Hi HQ Hwd1 Hrest Hcs Hnodes Hcol. pose proof (ti_wd _ _ _ _ Hi) as Hwd.
  assert (Htm : tm_of s1 = tm_of s) by (unfold tm_of; by rewrite Hrest).
  assert (Hsub : forall x j, x ∈ (with_queue i q Q j).*2 -> x ∈ (Q j).*2).
  { intros x j. unfold with_queue. case_decide; [subst j|done]. rewrite HQ. cbn. by right. }
  assert (Hkeep : forall x, x <> w -> x ∈ (Q i).*2 -> x ∈ (with_queue i q Q i).*2).
  { intros x Hx. rewrite with_queue_same, HQ. cbn. rewrite elem_of_cons. naive_solver. }
  assert (Hinf : info_of_timers s1 = info_of_timers s) by (unfold info_of_timers; by rewrite Htm).
  split; rewrite ?Hinf, ?Htm, ?Hcs; try apply Hi; try done.
  - intros o j Ho Hin. apply (ti_armed _ _ _ _ Hi); [done|]. by apply Hsub.
  - intros o Ho. rewrite (ti_pending _ _ _ _ Hi o Ho).
    destruct (timer_node _ _ _ _ o Hi Ho) as [nd Hnd].
    destruct (decide (Ticker_of o ∈ (Q i).*2)) as [Hin|Hout]; [|unfold color; by rewrite Hnodes].
    pose proof (queue_color _ _ _ _ _ Hwd Hin Hnd) as Hc0. unfold color at 1. rewrite Hnd. cbn.
    assert (Hno : rbe_color nd <> WATCHDOG_PENDING) by (unfold WATCHDOG_INACTIVE, WATCHDOG_PENDING in *; lia).
    destruct (decide (Ticker_of o = w)) as [->|Hne].
    + rewrite Hcol. by split; [intros [= ?]|intros ?].
    + pose proof (Hkeep _ Hne Hin) as Hin1. destruct (queue_mapped _ _ _ _ Hwd1 Hin1) as [[nd1 Hnd1] _].
      pose proof (queue_color _ _ _ _ _ Hwd1 Hin1 Hnd1) as Hc1. unfold color. rewrite Hnd1. cbn.
      unfold WATCHDOG_INACTIVE, WATCHDOG_PENDING in *. split; intros [= ?]; lia.
  - intros o Ho. destruct (ti_free _ _ _ _ Hi o Ho) as [Hz1 Hz2]. split; [|done].
    intros j Hj%Hsub. by destruct (Hz1 j).
Qed.

(** The time of the stop is noted. *)
Lemma tm_inv_stop n held s Q o t v :
  tm_inv n held s Q -> 1 <= o <= n -> tm_timers (tm_of s) !! o = Some t ->
  tm_inv n held (set_tm (set_tm_timers (<[o := set_tm_stop_time v t]> (tm_timers (tm_of s))) (tm_of s)) s) Q.
Proof.
  intros Hi Ho Ht. eapply (tm_inv_one n held s _ Q Q o (set_tm_stop_time v t)); try done.
  - apply set_tm_inv, Hi.
  - apply (ti_block _ _ _ _ Hi o Ho).
  - apply (ti_nodup _ _ _ _ Hi).
  - intros i Hin. destruct (ti_armed _ _ _ _ Hi o i Ho Hin) as (t' & c & Ht' & Hc & Hz1 & Hz2 & Hz3 & Hz4).
    rewrite Ht in Ht'. injection Ht' as <-. split_and!; try done. intros c' Hc'. cbn in Hc'.
    rewrite Hc in Hc'. by injection Hc' as <-.
  - apply (ti_pending _ _ _ _ Hi o Ho).
  - intros Hin. destruct (ti_owner _ _ _ _ Hi _ Hin) as (o' & t' & He & _ & Ht' & Hon).
    apply Ticker_of_inj in He as <-. rewrite Ht in Ht'. injection Ht' as <-. split; [done|].
    apply (ti_server _ _ _ _ Hi). intros He. cbn in Hin. rewrite He in Hin. by apply elem_of_nil in Hin.
  - apply (ti_free _ _ _ _ Hi).
  - intros Hact c Hc. exact (ti_kind _ _ _ _ Hi o t c Hact Ht Hc).
Qed.

Lemma set_tm_timers_frame s o t v :
  let s1 := set_tm (set_tm_timers (<[o := set_tm_stop_time v t]> (tm_timers (tm_of s))) (tm_of s)) s in
  tm_same s s1 /\ tm_Pending (tm_of s1) = tm_Pending (tm_of s).
Proof. by split. Qed.

Lemma timer_id_run n held s Q o :
  tm_inv n held s Q -> 1 <= o <= n ->
  obj_id o (tm_info (tm_of s)) = Ok (id_of (info_of_timers s) o, tm_info (tm_of s)).
Proof. intros Hi Ho. by apply (obj_id_run n held); [apply Hi|]. Qed.

Section Routines.
Variable service_routine : Z -> Z -> Z -> M unit.

(** The adaptor of a timer without the server calls the routine with the
    identifier and the data, after the stop is noted. *)
Lemma routine_adaptor_run n held s Q o t :
  tm_inv n held s Q -> 1 <= o <= n -> tm_timers (tm_of s) !! o = Some t ->
  let s1 := set_tm (set_tm_timers (<[o := set_tm_stop_time (u32 (wd_ticks s)) t]> (tm_timers (tm_of s))) (tm_of s)) s in
  tm_inv n held s1 Q /\
  Timer_Routine_adaptor service_routine (Ticker_of o) s =
    service_routine (tm_routine t) (id_of (info_of_timers s) o) (tm_user_data t) s1.
Proof.
  intros Hi Ho Ht s1. assert (Hi1 : tm_inv n held s1 Q) by by apply tm_inv_stop.
  split; [done|]. unfold Timer_Routine_adaptor. rewrite Timer_of_Ticker, wd_ticks_u32_bind.
  rewrite (tm_upd_bind _ t) by done. fold s1.
  assert (Hlk : tm_timers (tm_of s1) !! o = Some (set_tm_stop_time (u32 (wd_ticks s)) t)) by apply lookup_insert_eq.
  rewrite (tm_ld_bind _ _ _ _ _ Hlk), (tm_objs_read_bind _ _ _ _ (timer_id_run _ _ _ _ _ Hi1 Ho)).
  by rewrite (tm_ld_bind _ _ _ _ _ Hlk).
Qed.

End Routines.

(** The adaptor of a timer of the server puts it on the chain, and wakes the
    server when the chain was empty. *)
Lemma server_adaptor_run n held s Q o t :
  tm_inv n held s Q -> 1 <= o <= n -> tm_timers (tm_of s) !! o = Some t ->
  (forall j, Ticker_of o ∉ (Q j).*2) -> Ticker_of o ∉ tm_Pending (tm_of s) ->
  o ∉ Inactive (info_of_timers s) -> Timer_Is_on_task_class (tm_class t) = true ->
  tm_server (tm_of s) = true ->
  exists s', Timer_server_Routine_adaptor (Ticker_of o) s = Ok (tt, s') /\ tm_inv n held s' Q /\
    tm_Pending (tm_of s') = tm_Pending (tm_of s) ++ [Ticker_of o] /\
    tm_events (tm_of s') = (if bool_decide (tm_Pending (tm_of s) = [])
      then a_send System_event RTEMS_EVENT_SYSTEM_SERVER (tm_events (tm_of s)) else tm_events (tm_of s)) /\
    wd_ticks s' = wd_ticks s /\ tm_info (tm_of s') = tm_info (tm_of s) /\
    tm_clock (tm_of s') = tm_clock (tm_of s) /\ tm_server (tm_of s') = tm_server (tm_of s) /\
    tm_tasks (tm_of s') = tm_tasks (tm_of s) /\ wd_controls s' = wd_controls s /\
    tm_timers (tm_of s') = <[o := set_tm_stop_time (u32 (wd_ticks s)) t]> (tm_timers (tm_of s)).
Proof.
  intros Hi Ho Ht HQ HP Hina Hon Hsrv. set (w := Ticker_of o) in *.
  destruct (timer_node _ _ _ _ o Hi Ho) as [nd Hnd]. fold w in Hnd.
  unfold Timer_server_Routine_adaptor. rewrite (Timer_of_Ticker o : Timer_of w = o). cbv zeta.
  rewrite (cm_bind_ok _ _ _ _ _ (set_state_run w nd WATCHDOG_PENDING s Hnd)).
  set (s1 := set_wd_nodes _ s). rewrite wd_ticks_u32_bind. change (wd_ticks s1) with (wd_ticks s).
  rewrite (tm_upd_bind _ t) by done. set (s2 := set_tm _ s1). unfold tm_get, tm_mod. rewrite gets_bind, modify_bind.
  change (tm_Pending (tm_of s2)) with (tm_Pending (tm_of s)). set (s3 := set_tm _ s2).
  assert (Hinv3 : tm_inv n held s3 Q).
  { eapply (tm_inv_one n held s s3 Q Q o (set_tm_stop_time (u32 (wd_ticks s)) t)); try done.
    - apply set_tm_inv, set_tm_inv. apply set_state_inv; try done. apply Hi.
    - apply (ti_block _ _ _ _ Hi o Ho).
    - intros x Hx _. by apply lookup_insert_ne.
    - intros x Hx. cbn. rewrite elem_of_app, list_elem_of_singleton. fold w in Hx. naive_solver.
    - cbn. apply NoDup_app. split_and!; [apply (ti_nodup _ _ _ _ Hi)| |apply NoDup_singleton].
      intros x Hx ->%list_elem_of_singleton. done.
    - intros j Hj. by destruct (HQ j).
    - cbn. rewrite elem_of_app, list_elem_of_singleton. split; [|by auto]. intros _.
      unfold color. cbn. fold w. by rewrite lookup_insert_eq.
    - intros Hact c Hc. exact (ti_kind _ _ _ _ Hi o t c Hact Ht Hc). }
  destruct (bool_decide (tm_Pending (tm_of s) = [])); cbn [c_if].
  - eexists. split; [reflexivity|]. split_and!; try done.
    destruct Hinv3 as [Hz1 Hz2 Hz3 Hz4 Hz5 Hz6 Hz7 Hz8 Hz9 Hz10]. split; try done. by apply set_tm_inv.
  - eexists. split; [reflexivity|]. by split_and!.
Qed.

(** The server takes the first timer from its chain. *)
Lemma body_get_run n held s Q w rest :
  tm_inv n held s Q -> tm_Pending (tm_of s) = w :: rest ->
  exists o t s', w = Ticker_of o /\ tm_timers (tm_of s) !! o = Some t /\
    Timer_server_Body_get s = Ok (Some (tm_routine t, id_of (info_of_timers s) o, tm_user_data t), s') /\
    tm_inv n held s' Q /\ tm_Pending (tm_of s') = rest /\ tm_events (tm_of s') = tm_events (tm_of s) /\
    wd_ticks s' = wd_ticks s /\ tm_info (tm_of s') = tm_info (tm_of s) /\
    tm_clock (tm_of s') = tm_clock (tm_of s) /\ tm_server (tm_of s') = tm_server (tm_of s) /\
    tm_timers (tm_of s') = tm_timers (tm_of s) /\ wd_controls s' = wd_controls s.
Proof.
  intros Hi HP. assert (Hw : w ∈ tm_Pending (tm_of s)) by (rewrite HP; left).
  destruct (ti_owner _ _ _ _ Hi w Hw) as (o & t & -> & Ho & Ht & Hon). set (w := Ticker_of o) in *.
  destruct (timer_node _ _ _ _ o Hi Ho) as [nd Hnd]. fold w in Hnd.
  pose proof (ti_nodup _ _ _ _ Hi) as Hnd0. rewrite HP in Hnd0. apply NoDup_cons in Hnd0 as [Hwr Hndr].
  assert (Hout : forall j, w ∉ (Q j).*2).
  { intros j Hj. pose proof (queue_color _ _ _ _ _ (ti_wd _ _ _ _ Hi) Hj Hnd) as Hc.
    apply (ti_pending _ _ _ _ Hi o Ho) in Hw. unfold color in Hw. fold w in Hw. rewrite Hnd in Hw.
    injection Hw as Hw. rewrite Hw in Hc. done. }
  exists o, t. unfold Timer_server_Body_get, tm_get, tm_mod. rewrite gets_bind, HP, modify_bind.
  set (s1 := set_tm _ s).
  rewrite (cm_bind_ok _ _ _ _ _ (set_state_run w nd WATCHDOG_INACTIVE s1 Hnd)). set (s2 := set_wd_nodes _ s1).
  assert (Hinv2 : tm_inv n held s2 Q).
  { eapply (tm_inv_one n held s s2 Q Q o t); try done.
    - apply set_state_inv; try done. by apply set_tm_inv, Hi.
    - cbn. by rewrite insert_id.
    - apply (ti_block _ _ _ _ Hi o Ho).
    - intros x Hx _. by apply lookup_insert_ne.
    - intros x Hx. cbn. rewrite HP, elem_of_cons. fold w in Hx. naive_solver.
    - intros j Hj. by destruct (Hout j).
    - cbn. split; [by intros ?|]. unfold color. cbn. fold w. by rewrite lookup_insert_eq.
    - intros Hact c Hc. exact (ti_kind _ _ _ _ Hi o t c Hact Ht Hc). }
  rewrite (Timer_of_Ticker o : Timer_of w = o). cbv zeta.
  rewrite (tm_ld_bind _ t) by done. rewrite (tm_objs_read_bind _ _ _ _ (timer_id_run _ _ _ _ _ Hinv2 Ho)).
  rewrite (tm_ld_bind _ t) by done. eexists. split; [done|]. split; [done|]. split; [reflexivity|]. by split_and!.
Qed.

End Timers.
