(* ===== verification/TimerSpec.v ===== *)
(** * The timer manager: what the directives promise

    An abstract timer manager: which timers are in use, their settings, the
    two queues of watchdogs and the chain of the server, with one function for
    every directive.  The directives of the code return the same results and
    stay related to it ([run_op_refines]). *)

From stdpp Require Import base tactics numbers option list list_numbers gmap fin_maps fin_sets.
From Stdlib Require Import ZArith Lia.
From S2P Require Import Prelude Chain Status Timespec Objects ObjectsStatus ObjectsFacts Thread Event.
From S2P Require Import RBTree RBTreeFacts Watchdog WatchdogFacts WatchdogTick Tod TodCalendar Timer TimerFacts.

Open Scope Z_scope.

(** ** The directives and their results *)
Inductive tm_op :=
| Op_create (name : Z) (id_null : bool)
| Op_delete (id : Z)
| Op_cancel (id : Z)
| Op_reset (id : Z)
| Op_fire_after (server : bool) (id ticks routine user_data : Z)
| Op_fire_when (server : bool) (id : Z) (wall_time : option rtems_time_of_day) (routine user_data : Z)
| Op_get_information (id : Z) (info_null : bool).

Inductive tm_result :=
| R_status (status : rtems_status_code)
| R_id (status : rtems_status_code) (id : option Z)
| R_information (status : rtems_status_code) (the_info : option rtems_timer_information).

(** The arguments have the types of the prototypes. *)
Definition op_typed (op : tm_op) : Prop :=
  match op with
  | Op_create _ _ => True
  | Op_delete id | Op_cancel id | Op_reset id | Op_get_information id _ => 0 <= id < 2 ^ 32
  | Op_fire_after _ id _ _ _ => 0 <= id < 2 ^ 32
  | Op_fire_when _ id wall_time _ _ =>
      0 <= id < 2 ^ 32 /\ forall t, wall_time = Some t -> tod_fields t
  end.

(** ** The abstract manager *)
Record tm_spec := mk_tm_spec {
  sp_free : list Z;
  sp_used : gset Z;
  sp_timers : gmap Z Timer_Control;
  sp_queues : queues;
  sp_pending : list Z
}.

(** What the directives read and do not change. *)
Record tm_env := mk_tm_env {
  env_id : Z -> Z;
  env_ticks : Z;
  env_is_set : bool;
  env_seconds : Z;
  env_server : bool
}.

Section Spec.
Context `{TimerLayout}.
Variable microseconds_per_tick : Z.
Variable E : tm_env.

Definition spec_get (id : Z) (S : tm_spec) : option Z :=
  head (filter (fun o => env_id E o = id) (elements (sp_used S))).

Definition with_timer (id : Z) (S : tm_spec) (f : Z -> tm_result * tm_spec) : tm_result * tm_spec :=
  match spec_get id S with
  | None => (R_status RTEMS_INVALID_ID, S)
  | Some o => f o
  end.

(** A timer that is stopped is in no queue and not on the chain. *)
Definition spec_cancel (o : Z) (S : tm_spec) : tm_spec :=
  mk_tm_spec (sp_free S) (sp_used S)
    (alter (stopped_timer (env_ticks E) (sp_queues S) o) o (sp_timers S))
    (disarm (Ticker_of o) (sp_queues S))
    (filter (fun w => w <> Ticker_of o) (sp_pending S)).

(** A timer that is started is in the queue of its class and nowhere else. *)
Definition spec_arm (i : Per_CPU_Watchdog_index) (e o : Z) (S : tm_spec) : tm_spec :=
  mk_tm_spec (sp_free S) (sp_used S) (sp_timers S)
    (armed_queue i e (Ticker_of o) (sp_queues S)) (sp_pending S).

Definition spec_start (cls interval routine data o : Z) (S : tm_spec) : tm_spec :=
  let S1 := spec_cancel o S in
  spec_arm (Timer_Watchdog_header_index cls) (expire_time cls interval (env_ticks E)) o
    (mk_tm_spec (sp_free S1) (sp_used S1)
       (alter (fun t => mk_Timer_Control cls routine data interval (u32 (env_ticks E)) (tm_stop_time t))
          o (sp_timers S1))
       (sp_queues S1) (sp_pending S1)).

(** The date a timer is set to, in seconds, when it is a valid one in the
    future. *)
Definition spec_date (wall_time : option rtems_time_of_day) : option Z :=
  match TOD_Validate microseconds_per_tick wall_time, wall_time with
  | Ok true, Some t =>
      match TOD_To_seconds t with
      | Ok seconds => if seconds <=? env_seconds E then None else Some seconds
      | Undef _ => None
      end
  | _, _ => None
  end.

Definition spec_op (op : tm_op) (S : tm_spec) : tm_result * tm_spec :=
  match op with
  | Op_create name id_null =>
      if name =? 0 then (R_id RTEMS_INVALID_NAME None, S)
      else if id_null then (R_id RTEMS_INVALID_ADDRESS None, S)
      else
        match sp_free S with
        | [] => (R_id RTEMS_TOO_MANY None, S)
        | o :: l =>
            (R_id RTEMS_SUCCESSFUL (Some (env_id E o)),
             mk_tm_spec l ({[o]} ∪ sp_used S) (alter (set_tm_class TIMER_DORMANT) o (sp_timers S))
               (sp_queues S) (sp_pending S))
        end
  | Op_delete id =>
      with_timer id S (fun o =>
        let S1 := spec_cancel o S in
        (R_status RTEMS_SUCCESSFUL,
         mk_tm_spec (sp_free S ++ [o]) (sp_used S ∖ {[o]}) (sp_timers S1) (sp_queues S1) (sp_pending S1)))
  | Op_cancel id => with_timer id S (fun o => (R_status RTEMS_SUCCESSFUL, spec_cancel o S))
  | Op_reset id =>
      with_timer id S (fun o =>
        match sp_timers S !! o with
        | Some t =>
            if Timer_Is_interval_class (tm_class t)
            then (R_status RTEMS_SUCCESSFUL,
                  spec_arm PER_CPU_WATCHDOG_RELATIVE (u64 (env_ticks E + tm_initial t)) o (spec_cancel o S))
            else (R_status RTEMS_NOT_DEFINED, S)
        | None => (R_status RTEMS_NOT_DEFINED, S)
        end)
  | Op_fire_after server id ticks routine user_data =>
      if server && negb (env_server E) then (R_status RTEMS_INCORRECT_STATE, S)
      else if ticks =? 0 then (R_status RTEMS_INVALID_NUMBER, S)
      else if routine =? NULL then (R_status RTEMS_INVALID_ADDRESS, S)
      else with_timer id S (fun o =>
        (R_status RTEMS_SUCCESSFUL,
         spec_start (if server then TIMER_INTERVAL_ON_TASK else TIMER_INTERVAL) ticks routine user_data o S))
  | Op_fire_when server id wall_time routine user_data =>
      if server && negb (env_server E) then (R_status RTEMS_INCORRECT_STATE, S)
      else if negb (env_is_set E) then (R_status RTEMS_NOT_DEFINED, S)
      else if routine =? NULL then (R_status RTEMS_INVALID_ADDRESS, S)
      else
        match spec_date wall_time with
        | None => (R_status RTEMS_INVALID_CLOCK, S)
        | Some seconds => with_timer id S (fun o =>
            (R_status RTEMS_SUCCESSFUL,
             spec_start (if server then TIMER_TIME_OF_DAY_ON_TASK else TIMER_TIME_OF_DAY)
               seconds routine user_data o S))
        end
  | Op_get_information id info_null =>
      if info_null then (R_information RTEMS_INVALID_ADDRESS None, S)
      else
        match spec_get id S with
        | None => (R_information RTEMS_INVALID_ID None, S)
        | Some o =>
            (R_information RTEMS_SUCCESSFUL
               ((fun t => mk_timer_information (tm_class t) (tm_initial t) (tm_start_time t) (tm_stop_time t))
                  <$> sp_timers S !! o), S)
        end
  end.

Fixpoint spec_session (ops : list tm_op) (S : tm_spec) : list tm_result * tm_spec :=
  match ops with
  | [] => ([], S)
  | op :: ops' =>
      let '(r, S1) := spec_op op S in
      let '(rs, S2) := spec_session ops' S1 in
      (r :: rs, S2)
  end.

End Spec.

(** ** The code implements it *)
Lemma alter_lookup (f : Timer_Control -> Timer_Control) (m : gmap Z Timer_Control) o t :
  m !! o = Some t -> alter f o m = <[o := f t]> m.
Proof.
  intros Ht. apply map_eq. intros o'. destruct (decide (o' = o)) as [->|Hne].
  - by rewrite lookup_alter_eq, lookup_insert_eq, Ht.
  - by rewrite lookup_alter_ne, lookup_insert_ne.
Qed.

(** A valid date has a number of seconds. *)
Lemma to_seconds_total us t :
  0 < us -> tod_fields t -> TOD_Validate us (Some t) = Ok true -> exists v, TOD_To_seconds t = Ok v.
Proof.
  intros Hus Hf Hv. destruct (validated us t Hus Hf Hv) as (((Hm & _) & _) & _).
  assert (Hm4 : 0 <= Z.land (year t) 3 <= 3).
  { change (Z.land (year t) 3) with (Z.land (year t) (Z.ones 2)). rewrite Z.land_ones by lia. pose proof (Z.mod_pos_bound (year t) (2 ^ 2) ltac:(lia)). lia. }
  unfold TOD_To_seconds. generalize dependent (Z.land (year t) 3). intros y Hy.
  assert (exists since, arr_get TOD_Days_since_last_leap_year y = Ok since) as [since Hs].
  { assert (y = 0 \/ y = 1 \/ y = 2 \/ y = 3) as [->|[->|[->| ->]]] by lia; by eexists. }
  assert (exists row d, (if y =? 0 then arr_get TOD_Days_to_date 1 else arr_get TOD_Days_to_date 0) = Ok row /\
    arr_get row (month t) = Ok d) as (row & d & Hr & Hd).
  { assert (Hc : month t = 1 \/ month t = 2 \/ month t = 3 \/ month t = 4 \/ month t = 5 \/ month t = 6 \/
      month t = 7 \/ month t = 8 \/ month t = 9 \/ month t = 10 \/ month t = 11 \/ month t = 12) by lia.
    destruct (y =? 0); repeat (destruct Hc as [->|Hc]; [by do 2 eexists|]); rewrite Hc; by do 2 eexists. }
  rewrite Hr. cbn [mbind outcome_bind]. rewrite Hd. cbn [mbind outcome_bind]. rewrite Hs. by eexists.
Qed.

Section Refinement.
Context {T W V : Type} `{TaskManager T} `{Workspace W} `{SysTreeLaws} `{Timecounter V} `{TimerLayoutLaws}.
Variable microseconds_per_tick : Z.
Hypothesis tick_length : 0 < microseconds_per_tick.

Abbreviation sys := (wd_state (clock_state (tm_system T W V))).
Abbreviation M := (cm sys).
Implicit Types s : sys.

Definition run_op (op : tm_op) : M tm_result :=
  match op with
  | Op_create name id_null => r ← rtems_timer_create name id_null; mret (R_id r.1 r.2)
  | Op_delete id => r ← rtems_timer_delete id; mret (R_status r)
  | Op_cancel id => r ← rtems_timer_cancel id; mret (R_status r)
  | Op_reset id => r ← rtems_timer_reset id; mret (R_status r)
  | Op_fire_after false id ticks rt data =>
      r ← rtems_timer_fire_after id ticks rt data; mret (R_status r)
  | Op_fire_after true id ticks rt data =>
      r ← rtems_timer_server_fire_after id ticks rt data; mret (R_status r)
  | Op_fire_when false id tod rt data =>
      r ← rtems_timer_fire_when microseconds_per_tick id tod rt data; mret (R_status r)
  | Op_fire_when true id tod rt data =>
      r ← rtems_timer_server_fire_when microseconds_per_tick id tod rt data; mret (R_status r)
  | Op_get_information id info_null =>
      r ← rtems_timer_get_information id info_null; mret (R_information r.1 r.2)
  end.

Fixpoint run_session (ops : list tm_op) : M (list tm_result) :=
  match ops with
  | [] => mret []
  | op :: ops' => r ← run_op op; rs ← run_session ops'; mret (r :: rs)
  end.

(** The abstract state of a state of the code, and what the directives read. *)
Record tm_abs (n : Z) s (S : tm_spec) : Prop := {
  ab_inv : tm_inv n [] s (sp_queues S);
  ab_free : Inactive (info_of_timers s) = sp_free S;
  ab_used : forall o, o ∈ sp_used S <-> o ∈ active (info_of_timers s);
  ab_timers : tm_timers (tm_of s) = sp_timers S;
  ab_pending : tm_Pending (tm_of s) = sp_pending S
}.

Definition env_of s : tm_env :=
  mk_tm_env (id_of (info_of_timers s)) (wd_ticks s) (TOD_is_set (wd_rest s))
    (u32 (Timecounter_Time_second (tm_clock (tm_of s)))) (tm_server (tm_of s)).

(** The parts of [E] that the state determines. *)
Definition env_ok (E : tm_env) s : Prop :=
  (forall o, env_id E o = id_of (info_of_timers s) o) /\ env_ticks E = wd_ticks s /\
  env_is_set E = TOD_is_set (wd_rest s) /\
  env_seconds E = u32 (Timecounter_Time_second (tm_clock (tm_of s))) /\
  env_server E = tm_server (tm_of s).

Lemma env_of_ok s : env_ok (env_of s) s.
Proof. by split_and!. Qed.

Lemma env_ok_kept E s s' : env_ok E s -> tm_kept s s' -> env_ok E s'.
Proof.
  intros (Ha & Hb & Hc & Hd & He) (Ka & Kb & Kc & Kd & _ & _ & _ & Kh).
  unfold env_ok, info_of_timers. rewrite Ka, Kb, Kd, Kh. split_and!; try done.
  intros o. rewrite Kc. apply Ha.
Qed.

(** The lookup by identifier. *)
Lemma get_refines n E s S id :
  tm_abs n s S -> env_ok E s -> 0 <= id < 2 ^ 32 ->
  match spec_get E id S with
  | None => Objects_Get id (tm_info (tm_of s)) = Ok (None, tm_info (tm_of s))
  | Some o => o ∈ active (info_of_timers s) /\ id = id_of (info_of_timers s) o /\
      exists t, sp_timers S !! o = Some t
  end.
Proof.
  intros HA HE Hid. unfold spec_get. destruct HE as [HE _]. pose proof (ab_inv _ _ _ HA) as Hi.
  destruct (filter _ (elements (sp_used S))) as [|o l] eqn:Hf; cbn [head].
  - eapply timer_get_none; [exact Hi|done|]. intros o Ho ->.
    apply (elem_of_nil o). rewrite <- Hf. apply list_elem_of_filter. split; [by rewrite HE|].
    by apply elem_of_elements, (ab_used _ _ _ HA).
  - assert (Ho : o ∈ filter (fun o => env_id E o = id) (elements (sp_used S))) by (rewrite Hf; left).
    apply list_elem_of_filter in Ho as [Hoid Ho%elem_of_elements%(ab_used _ _ _ HA)].
    split; [done|]. split; [by rewrite <- HE|]. rewrite <- (ab_timers _ _ _ HA).
    destruct (timer_get _ _ _ _ _ Hi Ho) as [Hr _]. apply (ti_block _ _ _ _ Hi o Hr).
Qed.

(** The relation after a change that keeps the objects. *)
Lemma tm_abs_same n s s' S S' :
  tm_abs n s S -> tm_same s s' -> tm_inv n [] s' (sp_queues S') ->
  sp_free S' = sp_free S -> sp_used S' = sp_used S ->
  tm_timers (tm_of s') = sp_timers S' -> tm_Pending (tm_of s') = sp_pending S' -> tm_abs n s' S'.
Proof.
  intros HA (_ & _ & Hk & _) Hi Hf Hu Ht Hp.
  assert (Hinf : info_of_timers s' = info_of_timers s) by (unfold info_of_timers; by rewrite Hk).
  split; rewrite ?Hinf, ?Hf, ?Hu; try done; apply HA.
Qed.

(** The watchdogs of other managers are not touched. *)
Definition others_kept (n : Z) s s' : Prop := forall w,
  (forall o, 1 <= o <= n -> w <> Ticker_of o) -> wd_controls s' !! w = wd_controls s !! w.

Lemma controls_but_others n o s s' : 1 <= o <= n -> controls_but (Ticker_of o) s s' -> others_kept n s s'.
Proof. intros Ho Hc w Hw. by apply Hc, Hw. Qed.

Lemma same_controls_others n s s' : wd_controls s' = wd_controls s -> others_kept n s s'.
Proof. intros Hc w _. by rewrite Hc. Qed.

#[local] Hint Resolve controls_but_others same_controls_others : core.

Definition refines_op n E op s S : Prop :=
  exists s', run_op op s = Ok ((spec_op microseconds_per_tick E op S).1, s') /\
    tm_abs n s' (spec_op microseconds_per_tick E op S).2 /\ tm_kept s s' /\ others_kept n s s'.

Lemma refines_stay n E op s S r :
  tm_abs n s S -> run_op op s = Ok (r, s) -> spec_op microseconds_per_tick E op S = (r, S) ->
  refines_op n E op s S.
Proof. intros HA Hrun Hsp. exists s. rewrite Hsp. by split_and!. Qed.

(** *** One directive at a time *)
Lemma create_refines n E s S name id_null :
  tm_abs n s S -> env_ok E s -> refines_op n E (Op_create name id_null) s S.
Proof.
  intros HA HE. destruct (Z.eqb_spec name 0) as [->|Hname].
  { by apply refines_stay with (r := R_id RTEMS_INVALID_NAME None). }
  assert (Hn : (name =? 0) = false) by by apply Z.eqb_neq.
  destruct id_null.
  { apply refines_stay with (r := R_id RTEMS_INVALID_ADDRESS None); cbn; rewrite ?Hn; try done.
    unfold rtems_timer_create, rtems_is_name_valid. by rewrite Hn. }
  pose proof (ab_inv _ _ _ HA) as Hi. destruct (sp_free S) as [|o l] eqn:Hf.
  - apply refines_stay with (r := R_id RTEMS_TOO_MANY None); cbn; rewrite ?Hn, ?Hf; try done.
    unfold rtems_timer_create, rtems_is_name_valid. rewrite Hn. cbn [negb].
    pose proof (allocate_run n [] _ (ti_class _ _ _ _ Hi)) as Hal.
    change (Inactive (information (tm_info (tm_of s)))) with (Inactive (info_of_timers s)) in Hal.
    rewrite (ab_free _ _ _ HA), Hf in Hal. rewrite cm_bind_assoc. unfold Timer_Allocate.
    by rewrite (tm_objs_read_bind _ _ _ _ Hal).
  - pose proof (ab_free _ _ _ HA) as Hin. rewrite Hf in Hin.
    assert (Ho : 1 <= o <= n).
    { eapply class_wf_range; [apply Hi|]. rewrite Hin. apply list_elem_of_here. }
    destruct (ti_block _ _ _ _ Hi o Ho) as [[t Ht] _].
    destruct (timer_create_run n [] s (sp_queues S) o l t name Hi Hin Hname Ht)
      as (s' & Hr & Hi' & Hk & Hl & Hact & Hp & Htm & Hc).
    exists s'. cbn [spec_op run_op]. rewrite Hn, Hf. cbn [fst snd].
    rewrite (cm_bind_ok _ _ _ _ _ Hr). destruct HE as [HE _]. rewrite <- HE.
    split_and!; [done| |done|by auto]. split; cbn; try done.
    + intros o'. rewrite elem_of_union, elem_of_singleton, (ab_used _ _ _ HA), Hact. by rewrite elem_of_cons.
    + rewrite Htm, <- (ab_timers _ _ _ HA). symmetry. by apply alter_lookup.
    + rewrite Hp. apply HA.
Qed.

(** The timer of an identifier, and its settings. *)
Lemma found n E s S id o :
  tm_abs n s S -> env_ok E s -> 0 <= id < 2 ^ 32 -> spec_get E id S = Some o ->
  exists t, id = id_of (info_of_timers s) o /\ o ∈ active (info_of_timers s) /\ 1 <= o <= n /\
    tm_timers (tm_of s) !! o = Some t /\ sp_timers S !! o = Some t /\
    Objects_Get id (tm_info (tm_of s)) = Ok (Some o, tm_info (tm_of s)).
Proof.
  intros HA HE Hid Hg. pose proof (get_refines n E s S id HA HE Hid) as Hget. rewrite Hg in Hget.
  destruct Hget as (Ha & -> & t & Ht). exists t. pose proof Ht as Ht'. rewrite <- (ab_timers _ _ _ HA) in Ht'.
  destruct (timer_get _ _ _ _ _ (ab_inv _ _ _ HA) Ha) as [[Hr1 Hr2] Hget]. by split_and!.
Qed.

Lemma not_found n E s S id :
  tm_abs n s S -> env_ok E s -> 0 <= id < 2 ^ 32 -> spec_get E id S = None ->
  forall {B} (k : option Z -> M B), (r ← Timer_Get id; k r) s = k None s.
Proof.
  intros HA HE Hid Hg B k. pose proof (get_refines n E s S id HA HE Hid) as Hget. rewrite Hg in Hget.
  unfold Timer_Get. by rewrite (tm_objs_read_bind _ _ _ _ Hget).
Qed.

Lemma cancel_abs n E s S o t s' :
  tm_abs n s S -> env_ok E s -> tm_timers (tm_of s) !! o = Some t ->
  tm_inv n [] s' (disarm (Ticker_of o) (sp_queues S)) -> tm_same s s' ->
  tm_Pending (tm_of s') = filter (fun w => w <> Ticker_of o) (tm_Pending (tm_of s)) ->
  tm_timers (tm_of s') = <[o := stopped_timer (wd_ticks s) (sp_queues S) o t]> (tm_timers (tm_of s)) ->
  tm_abs n s' (spec_cancel E o S).
Proof.
  intros HA (_ & HE & _) Ht Hi Hs Hp Htm. eapply tm_abs_same; [exact HA|exact Hs|exact Hi|done|done|..]; cbn.
  - rewrite Htm, HE, <- (ab_timers _ _ _ HA). symmetry. by apply alter_lookup.
  - by rewrite Hp, (ab_pending _ _ _ HA).
Qed.

Lemma cancel_refines n E s S id :
  tm_abs n s S -> env_ok E s -> 0 <= id < 2 ^ 32 -> refines_op n E (Op_cancel id) s S.
Proof.
  intros HA HE Hid. destruct (spec_get E id S) as [o|] eqn:Hg.
  - destruct (found _ _ _ _ _ _ HA HE Hid Hg) as (t & He & Ha & Ho & Ht & _ & Hget).
    destruct (cancel_run n [] s (sp_queues S) o t (ab_inv _ _ _ HA) Ho Ht) as (s' & Hr & Hi & Hs & Hp & Htm & Hc).
    exists s'. cbn [spec_op run_op]. unfold with_timer. rewrite Hg. cbn [fst snd]. split_and!; [..|by auto].
    + unfold rtems_timer_cancel, Timer_Get.
      rewrite cm_bind_assoc, (tm_objs_read_bind _ _ _ _ Hget). rewrite cm_bind_assoc.
      by rewrite (cm_bind_ok _ _ _ _ _ Hr).
    + by eapply cancel_abs.
    + by apply tm_same_kept.
  - apply refines_stay with (r := R_status RTEMS_INVALID_ID); cbn; unfold with_timer; rewrite ?Hg; try done.
    unfold rtems_timer_cancel. rewrite cm_bind_assoc. by rewrite (not_found _ _ _ _ _ HA HE Hid Hg).
Qed.

Lemma delete_refines n E s S id :
  tm_abs n s S -> env_ok E s -> 0 <= id < 2 ^ 32 -> refines_op n E (Op_delete id) s S.
Proof.
  intros HA HE Hid. destruct (spec_get E id S) as [o|] eqn:Hg.
  - destruct (found _ _ _ _ _ _ HA HE Hid Hg) as (t & -> & Ha & Ho & Ht & _ & Hget).
    destruct (delete_run n [] s (sp_queues S) o t (ab_inv _ _ _ HA) Ha Ht)
      as (s' & Hr & Hi & Hact & Hin & Hk & Hp & Htm & Hc).
    exists s'. cbn [spec_op run_op]. unfold with_timer. rewrite Hg. cbn [fst snd].
    split_and!; [by rewrite (cm_bind_ok _ _ _ _ _ Hr)| |done|by auto]. destruct HE as (_ & HE & _). split; cbn.
    + done.
    + by rewrite Hin, (ab_free _ _ _ HA).
    + intros o'. rewrite elem_of_difference, elem_of_singleton, (ab_used _ _ _ HA), Hact, elem_of_cons.
      pose proof (class_wf_nodup _ _ _ (ti_class _ _ _ _ (ab_inv _ _ _ HA))) as Hnd.
      apply NoDup_app in Hnd as (_ & _ & Hnd). cbn in Hnd. rewrite Hact in Hnd.
      apply NoDup_cons in Hnd as [Hno _]. naive_solver.
    + rewrite Htm, HE, <- (ab_timers _ _ _ HA). symmetry. by apply alter_lookup.
    + by rewrite Hp, (ab_pending _ _ _ HA).
  - apply refines_stay with (r := R_status RTEMS_INVALID_ID); cbn; unfold with_timer; rewrite ?Hg; try done.
    unfold rtems_timer_delete. rewrite cm_bind_assoc. by rewrite (not_found _ _ _ _ _ HA HE Hid Hg).
Qed.

Lemma reset_refines n E s S id :
  tm_abs n s S -> env_ok E s -> 0 <= id < 2 ^ 32 -> refines_op n E (Op_reset id) s S.
Proof.
  intros HA HE Hid. destruct (spec_get E id S) as [o|] eqn:Hg.
  - destruct (found _ _ _ _ _ _ HA HE Hid Hg) as (t & -> & Ha & Ho & Ht & HtS & Hget).
    pose proof (reset_run n [] s (sp_queues S) o t (ab_inv _ _ _ HA) Ha Ht) as Hrun.
    destruct (Timer_Is_interval_class (tm_class t)) eqn:Hc.
    + destruct Hrun as (s' & Hr & Hi & Hs & Hp & Htm & Hcb). exists s'. cbn [spec_op run_op]. unfold with_timer.
      rewrite Hg, HtS, Hc. cbn [fst snd]. rewrite (cm_bind_ok _ _ _ _ _ Hr).
      split_and!; [done| |by apply tm_same_kept|by eauto]. destruct HE as (_ & HE & _).
      eapply tm_abs_same; [exact HA|exact Hs|by rewrite HE|done|done|..]; cbn.
      * rewrite Htm, HE, <- (ab_timers _ _ _ HA). symmetry. by apply alter_lookup.
      * by rewrite Hp, (ab_pending _ _ _ HA).
    + apply refines_stay with (r := R_status RTEMS_NOT_DEFINED); cbn; unfold with_timer; rewrite ?Hg, ?HtS, ?Hc;
        try done. by rewrite (cm_bind_ok _ _ _ _ _ Hrun).
  - apply refines_stay with (r := R_status RTEMS_INVALID_ID); cbn; unfold with_timer; rewrite ?Hg; try done.
    unfold rtems_timer_reset. rewrite cm_bind_assoc. by rewrite (not_found _ _ _ _ _ HA HE Hid Hg).
Qed.

(** Starting a timer, with the arguments checked. *)
Lemma start_refines n E s S id interval rt data cls :
  tm_abs n s S -> env_ok E s -> 0 <= id < 2 ^ 32 -> running_class cls ->
  (Timer_Is_on_task_class cls = true -> tm_server (tm_of s) = true) ->
  let R := with_timer E id S (fun o => (R_status RTEMS_SUCCESSFUL, spec_start E cls interval rt data o S)) in
  exists s', (r ← Timer_Fire id interval rt data cls (adaptor_of cls); mret (R_status r)) s = Ok (R.1, s') /\
    tm_abs n s' R.2 /\ tm_kept s s' /\ others_kept n s s'.
Proof.
  intros HA HE Hid Hrc Hsrv R. unfold R, with_timer. destruct (spec_get E id S) as [o|] eqn:Hg.
  - destruct (found _ _ _ _ _ _ HA HE Hid Hg) as (t & -> & Ha & Ho & Ht & HtS & Hget).
    destruct (fire_run n [] s (sp_queues S) o t interval rt data cls (ab_inv _ _ _ HA) Ha Ht Hrc Hsrv)
      as (s' & Hr & Hi & Hs & Hp & Htm & Hcb). exists s'. rewrite (cm_bind_ok _ _ _ _ _ Hr). cbn [fst snd].
    split_and!; [done| |by apply tm_same_kept|by eauto]. destruct HE as (_ & HE & _).
    eapply tm_abs_same; [exact HA|exact Hs|cbn; by rewrite HE|done|done|..]; cbn.
    + rewrite Htm, HE, <- (ab_timers _ _ _ HA).
      rewrite (alter_lookup _ (tm_timers (tm_of s)) o t Ht).
      rewrite (alter_lookup _ _ o (stopped_timer (wd_ticks s) (sp_queues S) o t)) by apply lookup_insert_eq.
      by rewrite insert_insert_eq.
    + by rewrite Hp, (ab_pending _ _ _ HA).
  - exists s. unfold Timer_Fire. rewrite cm_bind_assoc, (not_found _ _ _ _ _ HA HE Hid Hg). by split_and!.
Qed.

(** A timer of the server is only started when the server is there. *)
Lemma server_check n E s S (server : bool) st (k : M rtems_status_code) (op : tm_op) :
  tm_abs n s S -> env_ok E s ->
  run_op op s = (r ← (if server then
      b ← tm_get tm_server; if negb b then mret st else k else k); mret (R_status r)) s ->
  (spec_op microseconds_per_tick E op S = if server && negb (env_server E) then (R_status st, S)
     else spec_op microseconds_per_tick E op S) ->
  ((server = true -> tm_server (tm_of s) = true) ->
     run_op op s = (r ← k; mret (R_status r)) s -> refines_op n E op s S) ->
  refines_op n E op s S.
Proof.
  intros HA (_ & _ & _ & _ & HE) Hrun Hsp Hk. destruct server; [|by apply Hk].
  unfold tm_get in Hrun. rewrite cm_bind_assoc, gets_bind in Hrun. cbn [andb] in Hsp. rewrite HE in Hsp.
  destruct (tm_server (tm_of s)) eqn:Hs; cbn [negb] in *; [by apply Hk|].
  by apply refines_stay with (r := R_status st).
Qed.

Lemma fire_after_refines n E s S server id ticks rt data :
  tm_abs n s S -> env_ok E s -> 0 <= id < 2 ^ 32 ->
  refines_op n E (Op_fire_after server id ticks rt data) s S.
Proof.
  intros HA HE Hid. set (cls := if server then TIMER_INTERVAL_ON_TASK else TIMER_INTERVAL).
  apply (server_check n E s S server RTEMS_INCORRECT_STATE
    (Timer_Fire_after id ticks rt data cls (adaptor_of cls))); [done|done|by destruct server|..].
  { cbn. by destruct (server && negb (env_server E)). }
  intros Hsrv Hrun. pose proof HE as (_ & _ & _ & _ & HEs).
  assert (Hg : server && negb (env_server E) = false).
  { rewrite HEs. destruct server; [by rewrite Hsrv|done]. }
  unfold refines_op. rewrite Hrun. cbn [spec_op]. rewrite Hg. unfold Timer_Fire_after.
  destruct (ticks =? 0); [exists s; by split_and!|].
  destruct (rt =? NULL); [exists s; by split_and!|].
  apply (start_refines n E s S id ticks rt data cls HA HE Hid).
  - unfold cls, running_class. destruct server; tauto.
  - unfold cls. by destruct server; auto.
Qed.

(** The check of the date. *)
Lemma date_run E s wall_time (k : Z -> M rtems_status_code) :
  env_ok E s -> (forall t, wall_time = Some t -> tod_fields t) ->
  (valid ← lift (TOD_Validate microseconds_per_tick wall_time);
   if negb valid then mret RTEMS_INVALID_CLOCK
   else
     match wall_time with
     | None => lift (Undef Bad_address)
     | Some t =>
         seconds ← lift (TOD_To_seconds t);
         now ← TOD_Seconds_since_epoch;
         if seconds <=? now then mret RTEMS_INVALID_CLOCK else k seconds
     end) s =
  match spec_date microseconds_per_tick E wall_time with
  | None => Ok (RTEMS_INVALID_CLOCK, s)
  | Some seconds => k seconds s
  end.
Proof.
  intros (_ & _ & _ & HE & _) Hf. unfold spec_date. destruct wall_time as [t|].
  - destruct (validate_run microseconds_per_tick t tick_length (Hf t eq_refl)) as (b & Hb & _).
    rewrite (lift_bind _ _ _ _ Hb), Hb. destruct b; cbn [negb]; [|done].
    destruct (to_seconds_total microseconds_per_tick t tick_length (Hf t eq_refl) Hb) as [v Hv].
    rewrite (lift_bind _ _ _ _ Hv), Hv. unfold TOD_Seconds_since_epoch. rewrite cm_bind_assoc.
    change (clock _) with (gets (fun s : sys => Timecounter_Time_second (tm_clock (tm_of s)))).
    rewrite gets_bind, ret_bind, <- HE. by destruct (v <=? env_seconds E).
  - assert (Hb : TOD_Validate microseconds_per_tick None = Ok false); [|by rewrite (lift_bind _ _ _ _ Hb), Hb].
    unfold TOD_Validate. by rewrite (proj2 (Z.eqb_neq _ _)) by lia.
Qed.

Lemma fire_when_refines n E s S server id wall_time rt data :
  tm_abs n s S -> env_ok E s -> 0 <= id < 2 ^ 32 -> (forall t, wall_time = Some t -> tod_fields t) ->
  refines_op n E (Op_fire_when server id wall_time rt data) s S.
Proof.
  intros HA HE Hid Hf. set (cls := if server then TIMER_TIME_OF_DAY_ON_TASK else TIMER_TIME_OF_DAY).
  apply (server_check n E s S server RTEMS_INCORRECT_STATE
    (Timer_Fire_when microseconds_per_tick id wall_time rt data cls (adaptor_of cls))); [done|done|by destruct server|..].
  { cbn. by destruct (server && negb (env_server E)). }
  intros Hsrv Hrun. pose proof HE as (_ & _ & HEi & _ & HEs).
  assert (Hg : server && negb (env_server E) = false).
  { rewrite HEs. destruct server; [by rewrite Hsrv|done]. }
  unfold refines_op. rewrite Hrun. cbn [spec_op]. rewrite Hg. unfold Timer_Fire_when, TOD_Is_set.
  rewrite cm_bind_assoc, gets_bind. rewrite HEi.
  destruct (negb (TOD_is_set (wd_rest s))); [exists s; by split_and!|].
  destruct (rt =? NULL); [exists s; by split_and!|].
  pose proof (date_run E s wall_time (fun v => Timer_Fire id v rt data cls (adaptor_of cls)) HE Hf) as Hd.
  destruct (spec_date microseconds_per_tick E wall_time) as [v|].
  - unfold mbind at 1, cm_bind at 1. cbn beta. rewrite Hd.
    apply (start_refines n E s S id v rt data cls HA HE Hid).
    + unfold cls, running_class. destruct server; tauto.
    + unfold cls. by destruct server; auto.
  - exists s. rewrite (cm_bind_ok _ _ _ _ _ Hd). by split_and!.
Qed.

Lemma information_refines n E s S id info_null :
  tm_abs n s S -> env_ok E s -> 0 <= id < 2 ^ 32 -> refines_op n E (Op_get_information id info_null) s S.
Proof.
  intros HA HE Hid. unfold refines_op. cbn [spec_op run_op]. unfold rtems_timer_get_information.
  destruct info_null; [exists s; by split_and!|].
  destruct (spec_get E id S) as [o|] eqn:Hg; exists s; rewrite cm_bind_assoc.
  - destruct (found _ _ _ _ _ _ HA HE Hid Hg) as (t & -> & Ha & Ho & Ht & HtS & Hget). unfold Timer_Get.
    rewrite (tm_objs_read_bind _ _ _ _ Hget), cm_bind_assoc, (tm_ld_bind _ t) by done. rewrite HtS. by split_and!.
  - rewrite (not_found _ _ _ _ _ HA HE Hid Hg). by split_and!.
Qed.

Lemma run_op_refines n E op s S :
  tm_abs n s S -> env_ok E s -> op_typed op -> refines_op n E op s S.
Proof.
  intros HA HE Hop. destruct op as [| | | | | ? ? ? ? ?|]; cbn in Hop.
  - by apply create_refines.
  - by apply delete_refines.
  - by apply cancel_refines.
  - by apply reset_refines.
  - by apply fire_after_refines.
  - destruct Hop. by apply fire_when_refines.
  - by apply information_refines.
Qed.

Lemma session_run n E ops : forall s S,
  tm_abs n s S -> env_ok E s -> Forall op_typed ops ->
  exists s', run_session ops s = Ok ((spec_session microseconds_per_tick E ops S).1, s') /\
    tm_abs n s' (spec_session microseconds_per_tick E ops S).2 /\ tm_kept s s' /\ others_kept n s s'.
Proof.
  induction ops as [|op ops IH]; intros s S HA HE Hops; [exists s; by split_and!|].
  apply Forall_cons in Hops as [Hop Hops].
  destruct (run_op_refines n E op s S HA HE Hop) as (s1 & Hr1 & HA1 & Hk1 & Ho1).
  destruct (IH s1 _ HA1 (env_ok_kept _ _ _ HE Hk1) Hops) as (s2 & Hr2 & HA2 & Hk2 & Ho2).
  exists s2. cbn [run_session spec_session]. rewrite (cm_bind_ok _ _ _ _ _ Hr1), (cm_bind_ok _ _ _ _ _ Hr2).
  destruct (spec_op _ E op S) as [r S1]. cbn [fst snd] in *.
  destruct (spec_session _ E ops S1) as [rs S2]. cbn [fst snd] in *.
  split_and!; [done|done|by etrans|]. intros w Hw. by rewrite (Ho2 w Hw), (Ho1 w Hw).
Qed.

End Refinement.
