(* ===== verification/TimerTick.v ===== *)
(** * The timer manager: what a clock tick does

    A clock tick calls the routine of every timer that is due, with its
    identifier and data, in the order of the queue, or puts the timer on the
    chain of the server, and wakes the server when the chain was empty. *)

From stdpp Require Import base tactics numbers option list list_numbers gmap fin_maps.
From Stdlib Require Import ZArith Lia.
From S2P Require Import Prelude Chain Status Timespec Objects ObjectsStatus ObjectsFacts Thread Event.
From S2P Require Import RBTree RBTreeFacts Watchdog WatchdogFacts WatchdogTick Tod Timer TimerFacts.

Open Scope Z_scope.

(** The timer that contains a watchdog, among the timers [1..n]. *)
Definition owner `{TimerLayout} (n w : Z) : option Z :=
  let o := Timer_of w in if decide (Ticker_of o = w /\ 1 <= o <= n) then Some o else None.

(** What the expiration of a watchdog leads to: a call, or a place on the
    chain of the server. *)
Definition call_of `{TimerLayout} (n : Z) (ids : Z -> Z) (timers : gmap Z Timer_Control) (w : Z) : list (Z * Z * Z) :=
  match owner n w with
  | Some o =>
      match timers !! o with
      | Some t => if Timer_Is_on_task_class (tm_class t) then [] else [(tm_routine t, ids o, tm_user_data t)]
      | None => []
      end
  | None => []
  end.

Definition chain_of `{TimerLayout} (n : Z) (timers : gmap Z Timer_Control) (w : Z) : list Z :=
  match owner n w with
  | Some o =>
      match timers !! o with
      | Some t => if Timer_Is_on_task_class (tm_class t) then [w] else []
      | None => []
      end
  | None => []
  end.

Definition calls_of `{TimerLayout} n ids timers (ws : list Z) : list (Z * Z * Z) :=
  concat (call_of n ids timers <$> ws).
Definition chained `{TimerLayout} n timers (ws : list Z) : list Z := concat (chain_of n timers <$> ws).

(** The event state of the server after the chain went from [p] to [p']. *)
Definition woken (p p' : list Z) (ev : a_events) : a_events :=
  if bool_decide (p = []) && negb (bool_decide (p' = []))
  then a_send System_event RTEMS_EVENT_SYSTEM_SERVER ev else ev.

Lemma woken_same p ev : woken p p ev = ev.
Proof. unfold woken. by destruct (bool_decide (p = [])). Qed.

Lemma woken_app p p' q ev : woken (p ++ p') (p ++ p' ++ q) (woken p (p ++ p') ev) = woken p (p ++ p' ++ q) ev.
Proof.
  unfold woken. destruct p as [|x p]; [|done]. cbn.
  destruct p' as [|x p']; cbn; [|done]. by destruct q.
Qed.

Lemma calls_of_ext `{TimerLayout} n ids m m' ws :
  (forall o, 1 <= o <= n -> Ticker_of o ∈ ws -> m' !! o = m !! o) ->
  calls_of n ids m' ws = calls_of n ids m ws /\ chained n m' ws = chained n m ws.
Proof.
  intros Hm. unfold calls_of, chained. induction ws as [|w ws IH]; [done|]. rewrite !fmap_cons. cbn [concat].
  destruct IH as [-> ->].
  { intros o Ho Hin. apply Hm; [done|by right]. }
  unfold call_of, chain_of. destruct (owner n w) as [o|] eqn:Ho; [|done].
  unfold owner in Ho. case_decide as Hd; [|done]. injection Ho as Ho. rewrite Ho in Hd. destruct Hd as [Hw Hr].
  rewrite Hm; [done|done|]. rewrite Hw. left.
Qed.

Section Tick.
Context {T W V : Type} `{TaskManager T} `{Workspace W} `{SysTreeLaws} `{Timecounter V} `{TimerLayoutLaws}.

Abbreviation sys := (wd_state (clock_state (tm_system T W V))).
Abbreviation M := (cm sys).
Implicit Types s : sys.

Variable n : Z.
Variable service_routine : Z -> Z -> Z -> M unit.
Variable other_routine : Z -> Z -> M unit.
(** A record of the calls of service routines. *)
Variable calls : T -> V -> list (Z * Z * Z).

Definition calls_in s : list (Z * Z * Z) := calls (tm_tasks (tm_of s)) (tm_clock (tm_of s)).

(** The watchdogs of other managers have other routines. *)
Definition foreign_ok s : Prop := forall w c,
  wd_controls s !! w = Some c -> owner n w = None ->
  routine c <> Timer_Routine_adaptor_address /\ routine c <> Timer_server_Routine_adaptor_address.

Definition tick_inv s (Q : queues) : Prop := tm_inv n [] s Q /\ foreign_ok s.

(** What a routine leaves alone: the timers that are scheduled, the chain and
    the server. *)
Record left_alone (Q : queues) s s' : Prop := {
  la_ticks : wd_ticks s' = wd_ticks s;
  la_ids : forall o, id_of (info_of_timers s') o = id_of (info_of_timers s) o;
  la_server : tm_server (tm_of s') = tm_server (tm_of s);
  la_pending : tm_Pending (tm_of s') = tm_Pending (tm_of s);
  la_events : tm_events (tm_of s') = tm_events (tm_of s);
  la_timers : forall o i, 1 <= o <= n -> Ticker_of o ∈ (Q i).*2 ->
    tm_timers (tm_of s') !! o = tm_timers (tm_of s) !! o
}.

(** A service routine returns, keeps the invariant, and starts only timers
    that are not scheduled, for later ticks. *)
Definition service_ok (ticks : Z) : Prop := forall r id d s Q,
  tick_inv s Q -> wd_ticks s = ticks ->
  exists s' Q', service_routine r id d s = Ok (tt, s') /\ tick_inv s' Q' /\ only_adds ticks Q Q' /\
    left_alone Q s s' /\ calls_in s' = calls_in s ++ [(r, id, d)].

Definition others_ok (ticks : Z) : Prop := forall r w s Q,
  tick_inv s Q -> wd_ticks s = ticks -> owner n w = None ->
  exists s' Q', other_routine r w s = Ok (tt, s') /\ tick_inv s' Q' /\ only_adds ticks Q Q' /\
    left_alone Q s s' /\ calls_in s' = calls_in s.

Abbreviation call := (timer_call_routine service_routine other_routine).

Lemma owner_some w o : owner n w = Some o -> w = Ticker_of o /\ 1 <= o <= n.
Proof. unfold owner. case_decide as Hd; [|done]. intros [= <-]. by destruct Hd as [-> Hr]. Qed.

Lemma owner_ticker o : 1 <= o <= n -> owner n (Ticker_of o) = Some o.
Proof. intros Ho. unfold owner. rewrite Timer_of_Ticker. by rewrite decide_True. Qed.

Lemma only_adds_refl ticks Q : only_adds ticks Q Q.
Proof. by split_and!. Qed.

(** The expiration of one watchdog, after it was taken from its queue. *)
Record expired (Q Q' : queues) (ticks w : Z) s s' : Prop := {
  ex_inv : tick_inv s' Q';
  ex_adds : only_adds ticks Q Q';
  ex_ticks : wd_ticks s' = ticks;
  ex_ids : forall o, id_of (info_of_timers s') o = id_of (info_of_timers s) o;
  ex_server : tm_server (tm_of s') = tm_server (tm_of s);
  ex_calls : calls_in s' = calls_in s ++ call_of n (id_of (info_of_timers s)) (tm_timers (tm_of s)) w;
  ex_pending : tm_Pending (tm_of s') = tm_Pending (tm_of s) ++ chain_of n (tm_timers (tm_of s)) w;
  ex_events : tm_events (tm_of s') = woken (tm_Pending (tm_of s)) (tm_Pending (tm_of s')) (tm_events (tm_of s));
  ex_timers : forall o i, 1 <= o <= n -> Ticker_of o ∈ (Q i).*2 ->
    tm_timers (tm_of s') !! o = tm_timers (tm_of s) !! o
}.

Lemma expire_call ticks s Q o t :
  service_ok ticks -> tick_inv s Q -> wd_ticks s = ticks -> 1 <= o <= n ->
  (forall i, Ticker_of o ∉ (Q i).*2) -> tm_timers (tm_of s) !! o = Some t ->
  Timer_Is_on_task_class (tm_class t) = false ->
  exists s' Q', Timer_Routine_adaptor service_routine (Ticker_of o) s = Ok (tt, s') /\
    expired Q Q' ticks (Ticker_of o) s s'.
Proof.
  intros Hsv [Hi Hfo] Htk Ho HQ Ht Hon.
  destruct (routine_adaptor_run service_routine n [] s Q o t Hi Ho Ht) as [Hi1 ->].
  set (s1 := set_tm _ s) in *.
  destruct (Hsv (tm_routine t) (id_of (info_of_timers s) o) (tm_user_data t) s1 Q) as (s' & Q' & Hr & Hi' & Had & Hla & Hc);
    [by split|done|].
  exists s', Q'. split; [done|]. destruct Hla as [Hl1 Hl2 Hl3 Hl4 Hl5 Hl6].
  unfold call_of, chain_of. split; unfold call_of, chain_of; rewrite ?owner_ticker, ?Ht, ?Hon by done; try done.
  - by rewrite Hl1.
  - by rewrite Hl4, app_nil_r.
  - by rewrite Hl4, woken_same.
  - intros o' i Ho' Hin. rewrite (Hl6 o' i) by done. apply lookup_insert_ne. intros ->. by apply (HQ i).
Qed.

Lemma expire_chain ticks s Q o t :
  tick_inv s Q -> wd_ticks s = ticks -> 1 <= o <= n ->
  (forall i, Ticker_of o ∉ (Q i).*2) -> Ticker_of o ∉ tm_Pending (tm_of s) ->
  o ∉ Inactive (info_of_timers s) -> tm_server (tm_of s) = true -> tm_timers (tm_of s) !! o = Some t ->
  Timer_Is_on_task_class (tm_class t) = true ->
  exists s', Timer_server_Routine_adaptor (Ticker_of o) s = Ok (tt, s') /\
    expired Q Q ticks (Ticker_of o) s s'.
Proof.
  intros [Hi Hfo] Htk Ho HQ HP Hina Hsrv Ht Hon.
  destruct (server_adaptor_run n [] s Q o t Hi Ho Ht HQ HP Hina Hon Hsrv)
    as (s' & Hr & Hi' & Hp & Hev & Hk1 & Hk2 & Hk3 & Hk4 & Hk5 & Hk6 & Htm).
  exists s'. split; [done|]. unfold info_of_timers.
  split; unfold call_of, chain_of; rewrite ?owner_ticker, ?Ht, ?Hon by done; try done.
  - split; [done|]. intros w c. rewrite Hk6. apply Hfo.
  - by rewrite Hk1.
  - intros o'. unfold info_of_timers. by rewrite Hk2.
  - unfold calls_in. by rewrite Hk5, Hk3, app_nil_r.
  - rewrite Hev, Hp. unfold woken. destruct (tm_Pending (tm_of s)); done.
  - intros o' i Ho' Hin. rewrite Htm. apply lookup_insert_ne. intros ->. by apply (HQ i).
Qed.

(** The routine of any watchdog that was taken from its queue. *)
Lemma expire_any ticks s s1 Q i e w q r :
  service_ok ticks -> others_ok ticks -> tick_inv s Q -> wd_ticks s = ticks ->
  Q i = (e, w) :: q -> wd_inv s1 (with_queue i q Q) ->
  wd_frame s s1 -> wd_controls s1 = wd_controls s -> wd_controls s !! w = Some (mk_Watchdog_Control r e) ->
  (forall x, x ∉ (Q i).*2 -> wd_nodes s1 !! x = wd_nodes s !! x) ->
  (exists nd, wd_nodes s1 !! w = Some nd /\ rbe_color nd = WATCHDOG_INACTIVE) ->
  exists s' Q', call r w s1 = Ok (tt, s') /\ expired (with_queue i q Q) Q' ticks w s s'.
Proof.
  intros Hsv Hot [Hi Hfo] Htk HQ Hwd1 (Hf1 & _ & Hf3 & _) Hcs Hr Hnodes (nd & Hnd & Hcol).
  assert (Htm : tm_of s1 = tm_of s) by (unfold tm_of; by rewrite Hf3).
  assert (Hcol1 : color w s1 = Some WATCHDOG_INACTIVE) by (unfold color; rewrite Hnd; cbn; by rewrite Hcol).
  assert (Hi1 : tm_inv n [] s1 (with_queue i q Q)) by by eapply tm_inv_pop.
  assert (Ht1 : tick_inv s1 (with_queue i q Q)) by (split; [done|intros x c; rewrite Hcs; apply Hfo]).
  assert (Hout : forall j, w ∉ (with_queue i q Q j).*2).
  { intros j. pose proof (ho_tree _ _ _ (wi_header _ _ (ti_wd _ _ _ _ Hi) i)) as (tr & [_ Hnd'] & Hin).
    rewrite Hin, HQ in Hnd'. cbn in Hnd'. apply NoDup_cons in Hnd' as [Hw _].
    destruct (decide (j = i)) as [->|Hj]; [by rewrite with_queue_same|].
    rewrite with_queue_other by done. apply (wi_apart _ _ (ti_wd _ _ _ _ Hi) i j); [done|].
    rewrite HQ. apply list_elem_of_here. }
  enough (exists s' Q', call r w s1 = Ok (tt, s') /\ expired (with_queue i q Q) Q' ticks w s1 s')
    as (s' & Q' & Hrun & Hex).
  { exists s', Q'. split; [done|]. destruct Hex.
    unfold calls_in, info_of_timers in *. rewrite ?Htm in *. by split. }
  assert (Hwq : w ∈ (Q i).*2) by (rewrite HQ; apply list_elem_of_here).
  unfold timer_call_routine. destruct (owner n w) as [o|] eqn:Hown.
  - apply owner_some in Hown as [-> Ho].
    destruct (ti_armed _ _ _ _ Hi o i Ho Hwq) as (t & c & Ht & Hc & Hrc & Hidx & Hrt & Hsrv).
    rewrite Hr in Hc. injection Hc as <-. cbn in Hrt. subst r. unfold adaptor_of.
    destruct (Timer_Is_on_task_class (tm_class t)) eqn:Hon.
    + rewrite (proj2 (Z.eqb_neq _ _)) by (symmetry; apply adaptors_differ). rewrite Z.eqb_refl.
      destruct (expire_chain ticks s1 (with_queue i q Q) o t) as (s' & Hrun & Hex); rewrite ?Htm; try done.
      * by rewrite Hf1.
      * rewrite <- Htm. intros Hp%(ti_pending _ _ _ _ Hi1 o Ho). rewrite Hcol1 in Hp. done.
      * intros Hin. unfold info_of_timers in Hin. rewrite Htm in Hin.
        destruct (ti_free _ _ _ _ Hi o Hin) as [Hz _]. by apply (Hz i).
      * by apply Hsrv.
      * by exists s', (with_queue i q Q).
    + rewrite Z.eqb_refl. apply (expire_call ticks s1 _ o t); rewrite ?Htm; try done. by rewrite Hf1.
  - destruct (Hfo w _ Hr Hown) as [Hn1 Hn2]. cbn in Hn1, Hn2.
    rewrite (proj2 (Z.eqb_neq _ _) Hn1), (proj2 (Z.eqb_neq _ _) Hn2).
    destruct (Hot r w s1 _ Ht1 ltac:(by rewrite Hf1) Hown) as (s' & Q' & Hrun & Hi' & Had & Hla & Hc).
    exists s', Q'. split; [done|]. destruct Hla as [Hl1 Hl2 Hl3 Hl4 Hl5 Hl6].
    split; unfold call_of, chain_of; rewrite ?Hown, ?app_nil_r; try done.
    + by rewrite Hl1, Hf1.
    + by rewrite Hl4, woken_same.
Qed.

(** ** The loop *)

(** The state after the watchdogs [ws] have expired. *)
Record tickled_to (Q Q' : queues) (ticks : Z) (ws : list Z) s s' : Prop := {
  tt_inv : tick_inv s' Q';
  tt_ticks : wd_ticks s' = ticks;
  tt_ids : forall o, id_of (info_of_timers s') o = id_of (info_of_timers s) o;
  tt_server : tm_server (tm_of s') = tm_server (tm_of s);
  tt_calls : calls_in s' = calls_in s ++ calls_of n (id_of (info_of_timers s)) (tm_timers (tm_of s)) ws;
  tt_pending : tm_Pending (tm_of s') = tm_Pending (tm_of s) ++ chained n (tm_timers (tm_of s)) ws;
  tt_events : tm_events (tm_of s') = woken (tm_Pending (tm_of s)) (tm_Pending (tm_of s')) (tm_events (tm_of s))
}.

Lemma call_of_ids ids ids' m w : (forall o, ids' o = ids o) -> call_of n ids' m w = call_of n ids m w.
Proof. intros Hids. unfold call_of. repeat case_match; by rewrite ?Hids. Qed.

Lemma calls_of_ids ids ids' m ws : (forall o, ids' o = ids o) -> calls_of n ids' m ws = calls_of n ids m ws.
Proof.
  intros Hids. unfold calls_of. induction ws as [|w ws IH]; [done|]. rewrite !fmap_cons. cbn.
  by rewrite IH, (call_of_ids ids).
Qed.

(** Routines that only add timers keep what is in the queues. *)
Lemma only_adds_in ticks Q Q' j w : only_adds ticks Q Q' -> w ∈ (Q j).*2 -> w ∈ (Q' j).*2.
Proof.
  intros (Ha & Hs & _) Hw. destruct j; [|by rewrite Ha].
  eapply elem_of_sublist; [exact Hw|by apply sublist_snd].
Qed.

Lemma tickled_to_cons Q Q1 Q2 ticks w ws s s1 s2 :
  expired Q Q1 ticks w s s1 -> tickled_to Q1 Q2 ticks ws s1 s2 ->
  (forall o, 1 <= o <= n -> Ticker_of o ∈ ws -> exists i, Ticker_of o ∈ (Q i).*2) ->
  tickled_to Q Q2 ticks (w :: ws) s s2.
Proof.
  intros He Ht Hws. destruct Ht as [Ht1 Ht2 Ht3 Ht4 Ht5 Ht6 Ht7]. destruct He as [He1 He2 He3 He4 He5 He6 He7 He8 He9].
  destruct (calls_of_ext n (id_of (info_of_timers s)) (tm_timers (tm_of s)) (tm_timers (tm_of s1)) ws) as [Hc Hp].
  { intros o Ho Hin. destruct (Hws o Ho Hin) as [i Hi]. by apply (He9 o i). }
  assert (Hpend : tm_Pending (tm_of s2) = tm_Pending (tm_of s) ++ chain_of n (tm_timers (tm_of s)) w ++
    chained n (tm_timers (tm_of s)) ws) by by rewrite Ht6, He7, Hp, <- app_assoc.
  split; try done.
  - intros o. by rewrite Ht3.
  - by rewrite Ht4.
  - rewrite Ht5, He6, (calls_of_ids _ _ _ _ He4), Hc, <- app_assoc. done.
  - rewrite Ht7, He8, Hpend, He7. apply woken_app.
Qed.

Lemma tickle_timers i now ticks :
  service_ok ticks -> others_ok ticks ->
  (forall Q Q', only_adds ticks Q Q' -> due now (Q' i) = due now (Q i)) ->
  forall fuel s Q, tick_inv s Q -> wd_ticks s = ticks -> (length (due now (Q i)) < fuel)%nat ->
  exists s' Q', Watchdog_Do_tickle call fuel i now s = Ok (tt, s') /\
    tickled_to Q Q' ticks (due now (Q i)).*2 s s' /\
    (i = PER_CPU_WATCHDOG_RELATIVE -> Q' PER_CPU_WATCHDOG_ABSOLUTE = Q PER_CPU_WATCHDOG_ABSOLUTE) /\
    (forall o j, j <> i -> 1 <= o <= n -> Ticker_of o ∈ (Q j).*2 ->
       tm_timers (tm_of s') !! o = tm_timers (tm_of s) !! o).
Proof.
  intros Hsv Hot Hdue fuel. induction fuel as [|fuel IH]; intros s Q Hti Htk Hlen; [lia|].
  pose proof (ti_wd _ _ _ _ (proj1 Hti)) as Hwd.
  assert (Hnone : due now (Q i) = [] -> Watchdog_Do_tickle call (S fuel) i now s = Ok (tt, s) ->
    exists s' Q', Watchdog_Do_tickle call (S fuel) i now s = Ok (tt, s') /\
      tickled_to Q Q' ticks (due now (Q i)).*2 s s' /\
      (i = PER_CPU_WATCHDOG_RELATIVE -> Q' PER_CPU_WATCHDOG_ABSOLUTE = Q PER_CPU_WATCHDOG_ABSOLUTE) /\
      (forall o j, j <> i -> 1 <= o <= n -> Ticker_of o ∈ (Q j).*2 ->
         tm_timers (tm_of s') !! o = tm_timers (tm_of s) !! o)).
  { intros Hd Hrun. exists s, Q. split_and!; try done. rewrite Hd.
    split; rewrite ?app_nil_r, ?woken_same; done. }
  destruct (Q i) as [|[e w] q] eqn:HQ.
  - apply Hnone; [done|]. cbn [Watchdog_Do_tickle]. unfold ld_first. rewrite gets_bind.
    rewrite (ho_first _ _ _ (wi_header _ _ Hwd i)), HQ. done.
  - destruct (tickle_step call s Q i now e w q fuel Hwd HQ) as (_ & _ & _ & Hlater & Hnow).
    pose proof (ho_ordered _ _ _ (wi_header _ _ Hwd i)) as Ho. rewrite HQ in Ho.
    destruct (Z.le_gt_cases e now) as [He|He].
    2: { apply Hnone; [by apply due_head|by apply Hlater]. }
    destruct (Hnow He) as (r & s1 & -> & Hwd1 & Hfr & _ & Hr & Hcs & Hnodes & Hoff). clear Hnone.
    destruct (expire_any ticks s s1 Q i e w q r Hsv Hot Hti Htk HQ Hwd1 Hfr Hcs Hr Hnodes Hoff)
      as (s2 & Q2 & Hrun & Hex). rewrite (cm_bind_ok _ _ _ _ _ Hrun).
    pose proof (ex_adds _ _ _ _ _ _ Hex) as Hadds.
    pose proof (Hdue _ _ Hadds) as Hd2. rewrite with_queue_same in Hd2.
    rewrite due_cons in Hlen |- * by done. cbn [length] in Hlen.
    destruct (IH s2 Q2 (ex_inv _ _ _ _ _ _ Hex) (ex_ticks _ _ _ _ _ _ Hex)) as (s' & Q' & Hrun' & Hto & Ha & Hoth);
      [rewrite Hd2; lia|]. rewrite Hd2 in Hto. exists s', Q'. split_and!; [done|..].
    + destruct (tickled_to_cons (with_queue i q Q) Q2 Q' ticks w (due now q).*2 s s2 s' Hex Hto); [|by split].
      intros o Hr' Hin. exists i. rewrite with_queue_same. eapply elem_of_sublist; [exact Hin|].
      apply sublist_snd, sublist_filter_self.
    + intros Hi. rewrite (Ha Hi). destruct Hadds as (-> & _). subst i. by rewrite with_queue_other.
    + intros o j Hj Hr' Hin.
      assert (Hin1 : Ticker_of o ∈ (with_queue i q Q j).*2) by by rewrite with_queue_other.
      rewrite (Hoth o j); [|done|done|by eapply only_adds_in]. by apply (ex_timers _ _ _ _ _ _ Hex o j).
Qed.

(** ** The whole tick *)
Variable Timecounter_Getnanotime : M timespec.
Variable Scheduler_Tick : M unit.

(** Reading the time changes nothing; the tick of the scheduler leaves the
    timers alone. *)
Definition timer_clients_ok : Prop :=
  (forall s, exists now, Timecounter_Getnanotime s = Ok (now, s)) /\
  (forall s, exists tasks, Scheduler_Tick s = Ok (tt, set_tm (set_tm_tasks tasks (tm_of s)) s) /\
     calls tasks (tm_clock (tm_of s)) = calls_in s).

Lemma timer_tick s Q :
  let t := wd_ticks s + 1 in
  tick_inv s Q -> 0 <= wd_ticks s -> t < 2 ^ 64 -> service_ok t -> others_ok t -> timer_clients_ok ->
  exists fuel0 now s' Q',
    (forall fuel, (fuel0 <= fuel)%nat ->
       Watchdog_Tick call Timecounter_Getnanotime Scheduler_Tick fuel s = Ok (tt, s')) /\
    tickled_to Q Q' t ((due t (Q PER_CPU_WATCHDOG_RELATIVE)).*2 ++ (due now (Q PER_CPU_WATCHDOG_ABSOLUTE)).*2) s s'.
Proof.
  intros t Hti Ht0 Ht1 Hsv Hot [Htime Hsched].
  set (s1 := set_wd_ticks t
    (set_Watchdog_Ticks_since_boot (u32 (Watchdog_Ticks_since_boot s + 1)) s)).
  assert (Hti1 : tick_inv s1 Q).
  { destruct Hti as [Hi Hfo]. split; [|exact Hfo]. destruct Hi. split; try done. by apply (wd_inv_same s). }
  destruct (tickle_timers PER_CPU_WATCHDOG_RELATIVE t t Hsv Hot ltac:(by intros ? ? (_ & _ & ->))
    (S (length (due t (Q PER_CPU_WATCHDOG_RELATIVE)))) s1 Q Hti1 eq_refl ltac:(lia))
    as (s2 & Q2 & Hrun2 & Hto2 & Ha2 & Hoth2).
  destruct (Htime s2) as [ts Hts]. set (now := Watchdog_Ticks_from_timespec ts).
  destruct (tickle_timers PER_CPU_WATCHDOG_ABSOLUTE now t Hsv Hot ltac:(by intros ? ? (-> & _))
    (S (length (due now (Q2 PER_CPU_WATCHDOG_ABSOLUTE)))) s2 Q2 (tt_inv _ _ _ _ _ _ Hto2)
    (tt_ticks _ _ _ _ _ _ Hto2) ltac:(lia)) as (s3 & Q3 & Hrun3 & Hto3 & _ & _).
  destruct (Hsched s3) as (tasks & Hrun4 & Hc4). rewrite (Ha2 eq_refl) in Hto3, Hrun3.
  exists (S (length (due t (Q PER_CPU_WATCHDOG_RELATIVE)) + length (due now (Q PER_CPU_WATCHDOG_ABSOLUTE)))), now,
    (set_tm (set_tm_tasks tasks (tm_of s3)) s3), Q3. split.
  - intros fuel Hfuel. unfold Watchdog_Tick. rewrite modify_bind, gets_bind. cbn beta.
    rewrite modify_bind. change (wd_ticks (set_Watchdog_Ticks_since_boot _ s)) with (wd_ticks s).
    rewrite u64_id by lia. fold t. fold s1.
    rewrite (cm_bind_ok _ _ _ _ _ (tickle_mono _ _ _ _ fuel _ _ Hrun2 ltac:(lia))).
    rewrite (cm_bind_ok _ _ _ _ _ Hts). unfold Watchdog_Per_CPU_tickle_absolute. fold now.
    by rewrite (cm_bind_ok _ _ _ _ _ (tickle_mono _ _ _ _ fuel _ _ Hrun3 ltac:(lia))).
  - destruct Hto2 as [Hx1 Hx2 Hx3 Hx4 Hx5 Hx6 Hx7], Hto3 as [Hy1 Hy2 Hy3 Hy4 Hy5 Hy6 Hy7].
    change (calls_in s1) with (calls_in s) in Hx5. change (info_of_timers s1) with (info_of_timers s) in Hx3, Hx5.
    change (tm_of s1) with (tm_of s) in *.
    destruct (calls_of_ext n (id_of (info_of_timers s)) (tm_timers (tm_of s)) (tm_timers (tm_of s2))
      (due now (Q PER_CPU_WATCHDOG_ABSOLUTE)).*2) as [Hc Hp].
    { intros o Ho Hin. apply (Hoth2 o PER_CPU_WATCHDOG_ABSOLUTE); [done|done|].
      eapply elem_of_sublist; [exact Hin|apply sublist_snd, sublist_filter_self]. }
    assert (Hpend : tm_Pending (tm_of s3) = tm_Pending (tm_of s) ++
      chained n (tm_timers (tm_of s)) (due t (Q PER_CPU_WATCHDOG_RELATIVE)).*2 ++
      chained n (tm_timers (tm_of s)) (due now (Q PER_CPU_WATCHDOG_ABSOLUTE)).*2).
    { rewrite Hy6, Hx6, Hp. by rewrite <- app_assoc. }
    split; cbn [tm_of set_tm].
    + destruct Hy1 as [Hi Hfo]. split; [|exact Hfo]. destruct Hi. split; try done. by apply set_tm_inv.
    + done.
    + intros o. etrans; [apply (Hy3 o)|apply (Hx3 o)].
    + etrans; [exact Hy4|exact Hx4].
    + unfold calls_in at 1. cbn. rewrite Hc4, Hy5, Hx5, (calls_of_ids _ _ _ _ Hx3), Hc.
      unfold calls_of. by rewrite fmap_app, concat_app, <- app_assoc.
    + unfold chained. rewrite fmap_app, concat_app. exact Hpend.
    + etrans; [exact Hy7|]. change (tm_Pending (tm_of (set_tm _ s3))) with (tm_Pending (tm_of s3)).
      rewrite Hx7, Hpend. rewrite Hx6. apply woken_app.
Qed.

End Tick.
