(* ===== verification/TimerServer.v ===== *)
(** * The timer server

    The server task runs beside everything else: between any two parts of its
    loop the application may call directives, clock ticks may come, and other
    tasks may send events to it.  However these interleave, a timer on the
    chain of the server is served: the server does not sleep while a timer is
    pending, and its own steps lead to the calls of the routines of all
    pending timers, in order. *)

From stdpp Require Import base tactics numbers option list list_numbers gmap fin_maps fin_sets relations.
From Stdlib Require Import ZArith Lia.
From S2P Require Import Prelude Chain Status Timespec Objects ObjectsStatus ObjectsFacts Thread Event.
From S2P Require Import RBTree RBTreeFacts Watchdog WatchdogFacts WatchdogTick Tod TodCalendar.
From S2P Require Import Timer TimerFacts TimerSpec TimerTick.

Open Scope Z_scope.

(** Where the server is: before it takes the next timer, in the call of a
    routine, before it waits, and in the wait. *)
Inductive srv_pc :=
| Srv_get
| Srv_call (call : Z * Z * Z)
| Srv_receive
| Srv_wait.

(** The directives take timers from the chain and add none. *)
Lemma spec_op_pending `{TimerLayout} us E op S :
  sp_pending S = [] -> sp_pending (spec_op us E op S).2 = [].
Proof.
  intros Hp. destruct op; cbn; unfold with_timer; repeat (case_match; try done); cbn; by rewrite Hp.
Qed.

Section Server.
Context {T W V : Type} `{TaskManager T} `{Workspace W} `{SysTreeLaws} `{Timecounter V} `{TimerLayoutLaws}.

Abbreviation sys := (wd_state (clock_state (tm_system T W V))).
Abbreviation M := (cm sys).
Implicit Types s : sys.

Variable n : Z.
Variable microseconds_per_tick : Z.
Hypothesis tick_length : 0 < microseconds_per_tick.
Variable service_routine : Z -> Z -> Z -> M unit.
Variable other_routine : Z -> Z -> M unit.
Variable calls : T -> V -> list (Z * Z * Z).
Variable Timecounter_Getnanotime : M timespec.
Variable Scheduler_Tick : M unit.
(** The address of the local variable [events]. *)
Variable events_address : Z.
Hypothesis events_not_null : events_address <> NULL.

Abbreviation Tick := (Watchdog_Tick (timer_call_routine service_routine other_routine)
                        Timecounter_Getnanotime Scheduler_Tick).

(** ** Steps *)
Definition set_events ev s : sys := set_tm (set_tm_events ev (tm_of s)) s.

(** The server itself, with the calls it makes.  While it is in a call, the
    routine may call directives, as everybody else. *)
Inductive server_step : srv_pc * sys -> list (Z * Z * Z) -> srv_pc * sys -> Prop :=
| SS_take s c s' : Timer_server_Body_get s = Ok (Some c, s') -> server_step (Srv_get, s) [c] (Srv_call c, s')
| SS_empty s s' : Timer_server_Body_get s = Ok (None, s') -> server_step (Srv_get, s) [] (Srv_receive, s')
| SS_called c s : server_step (Srv_call c, s) [] (Srv_get, s)
| SS_receive s s' :
    Timer_server_Body_receive events_address s = Ok (true, s') -> server_step (Srv_receive, s) [] (Srv_get, s')
| SS_wait s s' :
    Timer_server_Body_receive events_address s = Ok (false, s') -> server_step (Srv_receive, s) [] (Srv_wait, s')
| SS_return s r ev :
    a_step (tm_events (tm_of s)) (L_return r) ev -> server_step (Srv_wait, s) [] (Srv_get, set_events ev s).

(** The rest of the system. *)
Inductive rest_step : sys -> sys -> Prop :=
| RS_op op r s s' : op_typed op -> run_op microseconds_per_tick op s = Ok (r, s') -> rest_step s s'
| RS_tick fuel s s' : wd_ticks s + 1 < 2 ^ 64 -> Tick fuel s = Ok (tt, s') -> rest_step s s'
| RS_send c e s : rest_step s (set_events (a_send c e (tm_events (tm_of s))) s).

Inductive system_step : srv_pc * sys -> srv_pc * sys -> Prop :=
| Sys_server c1 cs c2 : server_step c1 cs c2 -> system_step c1 c2
| Sys_rest pc s s' : rest_step s s' -> system_step (pc, s) (pc, s').

(** The server alone, until it made the calls. *)
Inductive server_run : srv_pc * sys -> list (Z * Z * Z) -> srv_pc * sys -> Prop :=
| server_done c : server_run c [] c
| server_go c1 cs c2 cs' c3 : server_step c1 cs c2 -> server_run c2 cs' c3 -> server_run c1 (cs ++ cs') c3.

(** ** The invariant *)
Definition server_event (ev : a_events) : Prop := Z.testbit (a_pending ev System_event) 30 = true.

(** Where the server may miss nothing. *)
Definition awake (pc : srv_pc) s : Prop :=
  let ev := tm_events (tm_of s) in
  match pc with
  | Srv_get | Srv_call _ => a_stat ev = A_idle
  | Srv_receive => a_stat ev = A_idle /\ (tm_Pending (tm_of s) <> [] -> server_event ev)
  | Srv_wait =>
      (exists r, a_stat ev = A_done r) \/
      (a_stat ev = A_waiting System_event RTEMS_EVENT_SYSTEM_SERVER (Z.lor RTEMS_EVENT_ALL RTEMS_WAIT) false /\
       tm_Pending (tm_of s) = [])
  end.

Definition srv_inv (c : srv_pc * sys) : Prop :=
  (exists Q, tick_inv n c.2 Q) /\ 0 <= wd_ticks c.2 /\ tm_server (tm_of c.2) = true /\ awake c.1 c.2.

(** Events that arrive wake the server and are not lost. *)
Lemma send_awake pc s c e : awake pc s -> awake pc (set_events (a_send c e (tm_events (tm_of s))) s).
Proof.
  unfold awake, a_send, server_event. cbn. set (ev := tm_events (tm_of s)).
  assert (Hbit : Z.testbit (a_pending ev System_event) 30 = true ->
    Z.testbit (with_pending c (Z.lor (a_pending ev c) e) (a_pending ev) System_event) 30 = true).
  { intros Hb. unfold with_pending. case_decide as Hc; [subst c|done]. by rewrite Z.lor_spec, Hb. }
  destruct pc; try (intros ->; done).
  - intros [-> Hb]. cbn. auto.
  - intros [[r ->]|[-> Hp]]; cbn; [left; by eexists|].
    destruct (bool_decide _ && _); cbn; [left; by eexists|right; done].
Qed.

(** A server timer that expires wakes the server. *)
Lemma woken_awake pc s s' p :
  awake pc s -> tm_Pending (tm_of s') = tm_Pending (tm_of s) ++ p ->
  tm_events (tm_of s') = woken (tm_Pending (tm_of s)) (tm_Pending (tm_of s')) (tm_events (tm_of s)) ->
  awake pc s'.
Proof.
  intros Ha Hp Hev. unfold woken in Hev. rewrite Hp in Hev.
  destruct (bool_decide_reflect (tm_Pending (tm_of s) = [])) as [He|He]; cbn [andb] in Hev.
  - rewrite He in Hev, Hp. cbn in Hev, Hp. destruct p as [|w p]; cbn in Hev.
    { unfold awake in *. rewrite Hev, Hp. rewrite He in Ha. by destruct pc. }
    pose proof (send_awake pc s System_event RTEMS_EVENT_SYSTEM_SERVER Ha) as Hs.
    unfold awake in Hs |- *. cbn in Hs. rewrite Hev. destruct pc; try done.
    + destruct Hs as [Hs _]. split; [done|]. intros _. destruct Ha as [Ha _]. unfold a_send, server_event.
      rewrite Ha. cbn [a_pending]. unfold with_pending. rewrite decide_True by done. by rewrite Z.lor_spec, orb_true_r.
    + left. destruct Ha as [[r Ha]|[Ha _]]; unfold a_send; rewrite Ha; cbn; [by eexists|].
      assert (satisfies (Z.lor (a_pending (tm_events (tm_of s)) System_event) RTEMS_EVENT_SYSTEM_SERVER)
        RTEMS_EVENT_SYSTEM_SERVER (Z.lor RTEMS_EVENT_ALL RTEMS_WAIT) = true) as ->; [|by eexists].
      unfold satisfies. rewrite Z.land_comm, Z.lor_comm, Z.land_lor_distr_r, Z.land_diag.
      rewrite Z.lor_comm. replace (Z.lor _ RTEMS_EVENT_SYSTEM_SERVER) with RTEMS_EVENT_SYSTEM_SERVER; [done|].
      apply Z.bits_inj'. intros k Hk. rewrite Z.lor_spec, Z.land_spec. by destruct (Z.testbit _ k); rewrite ?orb_true_r, ?orb_false_r.
  - unfold awake in *. rewrite Hev. destruct pc; try done.
    + destruct Ha as [Ha Hb]. split; [done|]. intros _. by apply Hb.
    + destruct Ha as [Ha|[_ Ha]]; [by left|done].
Qed.

Lemma tick_inv_same s s' Q : tick_inv n s Q -> tm_inv n [] s' Q -> wd_controls s' = wd_controls s -> tick_inv n s' Q.
Proof. intros [_ Hf] Hi Hc. split; [done|]. intros w c. rewrite Hc. apply Hf. Qed.

Lemma set_events_inv ev s Q : tick_inv n s Q -> tick_inv n (set_events ev s) Q.
Proof.
  intros Hti. eapply tick_inv_same; [exact Hti| |done]. destruct Hti as [Hi _].
  destruct Hi. split; try done. by apply set_tm_inv.
Qed.

(** ** Every step keeps the invariant *)
Definition spec_of s Q : tm_spec :=
  mk_tm_spec (Inactive (info_of_timers s)) (list_to_set (active (info_of_timers s)))
    (tm_timers (tm_of s)) Q (tm_Pending (tm_of s)).

Lemma spec_of_abs s Q : tm_inv n [] s Q -> tm_abs n s (spec_of s Q).
Proof. intros Hi. split; try done. intros o. cbn. by rewrite elem_of_list_to_set. Qed.

Lemma directive_step pc op r s s' :
  srv_inv (pc, s) -> op_typed op -> run_op microseconds_per_tick op s = Ok (r, s') -> srv_inv (pc, s').
Proof.
  intros ([Q [Hi Hf]] & Ht & Hsv & Ha) Hop Hrun. cbn in *.
  destruct (run_op_refines microseconds_per_tick tick_length n (env_of s) op s (spec_of s Q) (spec_of_abs s Q Hi)
    (env_of_ok s) Hop) as (s1 & Hrun1 & HA & (Hk1 & _ & _ & Hk4 & _ & Hk6 & _) & Hoth).
  rewrite Hrun in Hrun1. injection Hrun1 as _ <-. split_and!; cbn; [|by rewrite Hk1|by rewrite Hk4|].
  - exists (sp_queues (spec_op microseconds_per_tick (env_of s) op (spec_of s Q)).2). split; [apply HA|].
    intros w c Hc Hown. rewrite Hoth in Hc; [by apply (Hf w c)|].
    intros o Ho ->. by rewrite owner_ticker in Hown.
  - assert (Hp : tm_Pending (tm_of s) = [] -> tm_Pending (tm_of s') = []).
    { intros Hp. rewrite (ab_pending _ _ _ HA). by apply spec_op_pending. }
    unfold awake in *. rewrite Hk6. destruct pc; try done; naive_solver.
Qed.

Lemma tick_mono fuel fuel' s x : Tick fuel s = Ok x -> (fuel <= fuel')%nat -> Tick fuel' s = Ok x.
Proof.
  destruct x as [u sx]. intros Hrun Hle. unfold Watchdog_Tick in *. rewrite modify_bind, gets_bind in Hrun |- *.
  cbn beta in *. rewrite modify_bind in Hrun |- *.
  apply cm_bind_inv in Hrun as ([] & s1 & Hr1 & Hrun).
  rewrite (cm_bind_ok _ _ _ _ _ (tickle_mono _ _ _ _ fuel' _ _ Hr1 Hle)).
  apply cm_bind_inv in Hrun as (now & s2 & Hr2 & Hrun). rewrite (cm_bind_ok _ _ _ _ _ Hr2).
  unfold Watchdog_Per_CPU_tickle_absolute in *.
  apply cm_bind_inv in Hrun as ([] & s3 & Hr3 & Hrun).
  by rewrite (cm_bind_ok _ _ _ _ _ (tickle_mono _ _ _ _ fuel' _ _ Hr3 Hle)).
Qed.

Hypothesis services : forall t, service_ok n service_routine calls t.
Hypothesis others : forall t, others_ok n other_routine calls t.
Hypothesis clients : timer_clients_ok calls Timecounter_Getnanotime Scheduler_Tick.

Lemma tick_step pc fuel s s' :
  srv_inv (pc, s) -> wd_ticks s + 1 < 2 ^ 64 -> Tick fuel s = Ok (tt, s') -> srv_inv (pc, s').
Proof.
  intros ([Q Hti] & Ht & Hsv & Ha) Hlt Hrun. cbn in *.
  destruct (timer_tick n service_routine other_routine calls Timecounter_Getnanotime Scheduler_Tick s Q Hti Ht Hlt
    (services _) (others _) clients) as (fuel0 & now & s1 & Q' & Hrun1 & Hto).
  specialize (Hrun1 (fuel0 + fuel)%nat ltac:(lia)).
  rewrite (tick_mono _ (fuel0 + fuel)%nat _ _ Hrun) in Hrun1 by lia. injection Hrun1 as <-.
  destruct Hto as [Hx1 Hx2 Hx3 Hx4 Hx5 Hx6 Hx7]. split_and!; cbn; [by eexists|lia|by rewrite Hx4|].
  by eapply woken_awake.
Qed.

Lemma rest_step_inv pc s s' : srv_inv (pc, s) -> rest_step s s' -> srv_inv (pc, s').
Proof.
  intros Hinv Hst. destruct Hst as [op r s s' Hop Hrun|fuel s s' Hlt Hrun|c e s].
  - by eapply directive_step.
  - by eapply tick_step.
  - destruct Hinv as ([Q Hti] & Ht & Hsv & Ha). split_and!; cbn; try done.
    + exists Q. by apply set_events_inv.
    + by apply send_awake.
Qed.

(** The wait ends at once exactly when the event is there. *)
Lemma body_receive_run s :
  a_stat (tm_events (tm_of s)) = A_idle ->
  Timer_server_Body_receive events_address s =
    if Z.testbit (a_pending (tm_events (tm_of s)) System_event) 30
    then Ok (true, set_events (mk_a_events (with_pending System_event
           (Z.ldiff (a_pending (tm_events (tm_of s)) System_event) RTEMS_EVENT_SYSTEM_SERVER)
           (a_pending (tm_events (tm_of s)))) A_idle) s)
    else Ok (false, set_events (mk_a_events (a_pending (tm_events (tm_of s)))
           (A_waiting System_event RTEMS_EVENT_SYSTEM_SERVER (Z.lor RTEMS_EVENT_ALL RTEMS_WAIT) false)) s).
Proof.
  intros Hid. unfold Timer_server_Body_receive, tm_get, tm_mod. rewrite gets_bind.
  set (ev := tm_events (tm_of s)) in *. unfold a_receive.
  rewrite (proj2 (Z.eqb_neq _ _) events_not_null). change (RTEMS_EVENT_SYSTEM_SERVER =? 0) with false. cbn iota.
  assert (Hbit : Z.land (a_pending ev System_event) RTEMS_EVENT_SYSTEM_SERVER =
    if Z.testbit (a_pending ev System_event) 30 then RTEMS_EVENT_SYSTEM_SERVER else 0).
  { unfold RTEMS_EVENT_SYSTEM_SERVER. apply Z.bits_inj'. intros k Hk. rewrite Z.land_spec, Z.pow2_bits_eqb by lia.
    destruct (Z.eqb_spec 30 k) as [<-|Hne].
    - destruct (Z.testbit _ 30); [by rewrite Z.pow2_bits_true by lia|by rewrite Z.bits_0].
    - rewrite andb_false_r. destruct (Z.testbit _ 30); [by rewrite Z.pow2_bits_false by lia|by rewrite Z.bits_0]. }
  unfold satisfies. rewrite Hbit. destruct (Z.testbit _ 30); [|done].
  cbn -[RTEMS_EVENT_SYSTEM_SERVER Z.land]. by rewrite Hid.
Qed.

Lemma server_step_inv c cs c' : srv_inv c -> server_step c cs c' -> srv_inv c'.
Proof.
  intros ([Q Hti] & Ht & Hsv & Ha) Hst.
  destruct Hst as [s c s' Hr|s s' Hr|c s|s s' Hr|s s' Hr|s r ev Hr]; cbn in *.
  - destruct (tm_Pending (tm_of s)) as [|w rest] eqn:Hp.
    { unfold Timer_server_Body_get, tm_get in Hr. rewrite gets_bind, Hp in Hr. done. }
    destruct (body_get_run n [] s Q w rest (proj1 Hti) Hp)
      as (o & t & s1 & _ & _ & Hr1 & Hi1 & Hp1 & Hk1 & Hk2 & Hk3 & Hk4 & Hk5 & Hk6 & Hk7).
    rewrite Hr in Hr1. injection Hr1 as _ <-. split_and!; cbn; [|by rewrite Hk2|by rewrite Hk5|by rewrite Hk1].
    exists Q. by eapply tick_inv_same.
  - destruct (tm_Pending (tm_of s)) as [|w rest] eqn:Hp.
    2: { destruct (body_get_run n [] s Q w rest (proj1 Hti) Hp) as (o & t & s1 & _ & _ & Hr1 & _). by rewrite Hr in Hr1. }
    unfold Timer_server_Body_get, tm_get in Hr. rewrite gets_bind, Hp in Hr. injection Hr as <-.
    split_and!; cbn; try done. by exists Q.
  - split_and!; cbn; try done. by exists Q.
  - destruct Ha as [Ha _]. rewrite (body_receive_run s Ha) in Hr.
    destruct (Z.testbit _ 30); [|done]. injection Hr as <-. split_and!; cbn; try done.
    exists Q. by apply set_events_inv.
  - destruct Ha as [Ha Hb]. rewrite (body_receive_run s Ha) in Hr. unfold server_event in Hb.
    destruct (Z.testbit _ 30); [done|]. injection Hr as <-. split_and!; cbn; try done.
    + exists Q. by apply set_events_inv.
    + right. split; [done|]. destruct (decide (tm_Pending (tm_of s) = [])) as [|Hne]; [done|]. by apply Hb in Hne.
  - inversion Hr as [| | |a r' Hst Heq]. split_and!; cbn; try done. exists Q. by apply set_events_inv.
Qed.

Lemma system_step_inv c c' : srv_inv c -> system_step c c' -> srv_inv c'.
Proof. intros Hi Hst. destruct Hst as [c1 cs c2 Hst|pc s s' Hst]; [by apply (server_step_inv _ _ _ Hi Hst)|by apply (rest_step_inv _ _ _ Hi Hst)]. Qed.

Lemma system_steps_inv c c' : srv_inv c -> rtc system_step c c' -> srv_inv c'.
Proof. intros Hi Hst. induction Hst; eauto using system_step_inv. Qed.

(** ** The server serves *)

(** The calls for the timers on the chain. *)
Definition server_calls s : list (Z * Z * Z) :=
  concat ((fun w =>
    match tm_timers (tm_of s) !! Timer_of w with
    | Some t => [(tm_routine t, id_of (info_of_timers s) (Timer_of w), tm_user_data t)]
    | None => []
    end) <$> tm_Pending (tm_of s)).

Lemma drain s Q : tm_inv n [] s Q ->
  exists s', server_run (Srv_get, s) (server_calls s) (Srv_get, s') /\ tm_Pending (tm_of s') = [].
Proof.
  remember (tm_Pending (tm_of s)) as p eqn:Hp. revert s Hp.
  induction p as [|w p IH]; intros s Hp Hi; symmetry in Hp.
  { exists s. unfold server_calls. rewrite Hp. by split; [constructor|]. }
  destruct (body_get_run n [] s Q w p Hi Hp)
    as (o & t & s1 & -> & Ht & Hr1 & Hi1 & Hp1 & Hk1 & Hk2 & Hk3 & Hk4 & Hk5 & Hk6 & Hk7).
  destruct (IH s1 (eq_sym Hp1) Hi1) as (s' & Hrun & Hp'). exists s'. split; [|done].
  assert (Hcalls : server_calls s = [(tm_routine t, id_of (info_of_timers s) o, tm_user_data t)] ++ [] ++ server_calls s1).
  { unfold server_calls. rewrite Hp, Hp1, Hk6, fmap_cons. unfold info_of_timers. rewrite Hk3. cbn.
    by rewrite Timer_of_Ticker, Ht. }
  rewrite Hcalls. eapply server_go; [by apply SS_take|]. eapply server_go; [apply SS_called|]. done.
Qed.

(** The server gets back to its chain without help. *)
Lemma to_chain pc s :
  srv_inv (pc, s) -> tm_Pending (tm_of s) <> [] ->
  exists s', server_run (pc, s) [] (Srv_get, s') /\ (exists Q, tm_inv n [] s' Q) /\
    server_calls s' = server_calls s.
Proof.
  intros ([Q [Hi Hf]] & Ht & Hsv & Ha) Hp. cbn in *.
  assert (Hev : forall ev, exists Q, tm_inv n [] (set_events ev s) Q) by (intros ev; exists Q; by apply set_events_inv).
  destruct pc.
  - exists s. split_and!; [constructor|by eexists|done].
  - exists s. split_and!; [|by eexists|done]. eapply (server_go _ [] _ []); constructor.
  - destruct Ha as [Ha Hb]. pose proof (body_receive_run s Ha) as Hr. unfold server_event in Hb. rewrite (Hb Hp) in Hr.
    eexists. split_and!; [|apply Hev|done]. eapply (server_go _ [] _ []); [by apply SS_receive|constructor].
  - destruct Ha as [[r Ha]|[_ Ha]]; [|done].
    exists (set_events (mk_a_events (a_pending (tm_events (tm_of s))) A_idle) s).
    split_and!; [|apply Hev|done]. eapply (server_go _ [] _ []); [|constructor].
    apply SS_return with (r := r). by constructor.
Qed.

Lemma server_run_app c cs c1 cs' c2 : server_run c cs c1 -> server_run c1 cs' c2 -> server_run c (cs ++ cs') c2.
Proof. induction 1; intros Hr; [done|]. rewrite <- app_assoc. eapply server_go; [done|by auto]. Qed.

Lemma serves c : srv_inv c ->
  exists pc' s', server_run c (server_calls c.2) (pc', s') /\ tm_Pending (tm_of s') = [].
Proof.
  destruct c as [pc s]. intros Hinv. destruct (decide (tm_Pending (tm_of s) = [])) as [Hp|Hp].
  - exists pc, s. split; [|done]. unfold server_calls. cbn. rewrite Hp. constructor.
  - destruct (to_chain pc s Hinv Hp) as (s1 & Hr1 & [Q Hi] & Hc).
    destruct (drain s1 Q Hi) as (s2 & Hr2 & Hp2). exists Srv_get, s2. split; [|done].
    cbn. rewrite <- Hc. by apply (server_run_app _ [] _ _ _ Hr1).
Qed.

(** ** The start of the server *)
Context `{!TaskManagerLaws T}.
Variable body_address default_address : Z.

Lemma initiate_run s Q prio size attr s' :
  tick_inv n s Q -> 0 <= wd_ticks s -> a_stat (tm_events (tm_of s)) = A_idle -> task_ok (tm_tasks (tm_of s)) ->
  Timer_server_Initiate body_address default_address prio size attr s = Ok (RTEMS_SUCCESSFUL, s') ->
  srv_inv (Srv_get, s').
Proof.
  intros Hti Ht Hid Htasks Hrun. pose proof Hti as [Hi Hf]. unfold Timer_server_Initiate, tm_get, tm_mod in Hrun.
  rewrite gets_bind in Hrun. destruct (tm_server (tm_of s)) eqn:Hsv; [done|]. rewrite gets_bind in Hrun.
  destruct (rtems_task_create _ _ _ _ _ _) as [[st oid] tk] eqn:Hcr. rewrite modify_bind in Hrun.
  destruct (task_create_law _ _ _ _ _ _ _ _ _ Htasks Hcr) as (_ & [Hid1 _] & _).
  destruct st; try (by (destruct oid; cbn in Hrun)). destruct (Hid1 eq_refl) as [id ->].
  rewrite !modify_bind, gets_bind in Hrun. destruct (rtems_task_start _ _ _ _) as [st2 tk2].
  rewrite modify_bind in Hrun. injection Hrun as _ <-. split_and!; cbn; try done.
  exists Q. split; [|exact Hf].
  assert (Hp : tm_Pending (tm_of s) = []).
  { destruct (tm_Pending (tm_of s)) eqn:Hp; [done|]. exfalso.
    rewrite (ti_server _ _ _ _ Hi) in Hsv; [done|]. by rewrite Hp. }
  destruct Hi as [Hz1 Hz2 Hz3 Hz4 Hz5 Hz6 Hz7 Hz8 Hz9 Hz10]. rewrite Hp in Hz6, Hz8, Hz9. split; cbn; try done.
  - by repeat apply set_tm_inv.
  - intros o i Ho Hin. destruct (Hz4 o i Ho Hin) as (t & c & ? & ? & ? & ? & ? & _). exists t, c. by split_and!.
  - intros o t c Ho Hto Hc. destruct (Hz5 o t c Ho Hto Hc) as [?|(? & ? & _)]; [by left|right; by split_and!].
  - constructor.
Qed.

End Server.
