(* ===== verification/TimerTheorems.v ===== *)
(** * The timer manager: theorems

    From start-up on, every session of directives gives the results of the
    abstract timer manager; a clock tick serves exactly the timers that are
    due; the timer server serves every timer that is put on its chain. *)

From stdpp Require Import base tactics numbers option list list_numbers gmap fin_maps fin_sets relations.
From Stdlib Require Import ZArith Lia.
From S2P Require Import Prelude Chain Status Timespec Objects ObjectsStatus ObjectsFacts Thread Event.
From S2P Require Import RBTree RBTreeFacts Watchdog WatchdogFacts WatchdogTick WatchdogTheorems Tod TodCalendar.
From S2P Require Import Timer TimerFacts TimerSpec TimerTick TimerServer.

Open Scope Z_scope.

Section Timers.
Context {T W V : Type} `{TaskManager T} `{Workspace W} `{SysTreeLaws} `{Timecounter V} `{TimerLayoutLaws}.

Abbreviation sys := (wd_state (clock_state (tm_system T W V))).
Abbreviation M := (cm sys).
Implicit Types s : sys.

(** The memory of [n] timers at start-up: nothing is scheduled, and the
    watchdogs are marked as inactive, which is what the creation of a timer
    does before anything reads it. *)
Record timers_fresh (n : Z) s : Prop := {
  tf_relative : relative_header s = mk_Watchdog_Header NULL NULL;
  tf_absolute : absolute_header s = mk_Watchdog_Header NULL NULL;
  tf_idle : forall w nd, wd_nodes s !! w = Some nd -> rbe_color nd = WATCHDOG_INACTIVE;
  tf_both : forall w, is_Some (wd_nodes s !! w) <-> is_Some (wd_controls s !! w);
  tf_null : wd_nodes s !! NULL = None;
  tf_block : forall o, 1 <= o <= n -> is_Some (tm_timers (tm_of s) !! o) /\ is_Some (wd_controls s !! Ticker_of o);
  tf_chain : tm_Pending (tm_of s) = []
}.

Definition fresh_spec (n : Z) s : tm_spec := mk_tm_spec (seqZ 1 n) ∅ (tm_timers (tm_of s)) (fun _ => []) [].

Lemma initialization_run n size s :
  1 <= n <= OBJECTS_ID_FINAL_INDEX -> size <> 0 ->
  workspace_suffices (tm_info (tm_of s)) (table_sizes n size) -> timers_fresh n s ->
  exists i, Timer_Manager_initialization n size s = Ok (tt, set_tm (set_tm_info i (tm_of s)) s) /\
    tm_abs n (set_tm (set_tm_info i (tm_of s)) s) (fresh_spec n s).
Proof.
  intros Hn Hsz Hws [Hr Ha Hid Hb Hnull Hbl Hp].
  destruct (initialize_run n OBJECTS_CLASSIC_API OBJECTS_RTEMS_TIMERS size (tm_info (tm_of s)) Hn
    ltac:(by unfold OBJECTS_CLASSIC_API) ltac:(by unfold OBJECTS_RTEMS_TIMERS) Hsz Hws)
    as (i & Hrun & Hcl & Hin & _ & _).
  exists i. split; [unfold Timer_Manager_initialization, tm_objs, zoom; by rewrite Hrun|].
  assert (Hact : active (information i) = []).
  { pose proof (cw_all _ _ _ Hcl) as Hall. rewrite Hin in Hall. apply Permutation_length in Hall.
    rewrite !length_app in Hall. cbn in Hall. destruct (active (information i)); [done|cbn in Hall; lia]. }
  split; try done.
  - split; try done; cbn; rewrite ?Hp.
    + apply set_tm_inv, wd_inv_initial; try done. intros w nd Hnd. by rewrite (Hid w nd Hnd).
    + intros o j _ Hj. by apply elem_of_nil in Hj.
    + intros o t c Ho. unfold info_of_timers in Ho. cbn in Ho. rewrite Hact in Ho. by apply elem_of_nil in Ho.
    + intros o Ho. split; [by intros ?%elem_of_nil|]. unfold color. cbn.
      destruct (wd_nodes s !! Ticker_of o) as [nd|] eqn:Hnd; [|done]. cbn. by rewrite (Hid _ _ Hnd).
    + constructor.
    + intros w Hw. by apply elem_of_nil in Hw.
    + intros o _. split; [intros j|]; apply not_elem_of_nil.
  - intros o. unfold info_of_timers. cbn. rewrite Hact. set_solver.
Qed.

(** C7: the timer manager is the abstract timer manager: from the
    initialization on, every session of directives, with any arguments,
    returns, gives the results of the abstract manager, errors included, and
    leads to a state that represents its state: each timer is in use or free,
    scheduled in the queue of its class or pending at the server or in
    neither, with its settings. *)
Theorem timer_refines_spec n size us ops s :
  1 <= n <= OBJECTS_ID_FINAL_INDEX -> size <> 0 ->
  workspace_suffices (tm_info (tm_of s)) (table_sizes n size) -> timers_fresh n s ->
  0 < us -> Forall op_typed ops ->
  exists s1 s2, Timer_Manager_initialization n size s = Ok (tt, s1) /\
    let spec := spec_session us (env_of s1) ops (fresh_spec n s) in
    run_session us ops s1 = Ok (spec.1, s2) /\ tm_abs n s2 spec.2.
Proof.
  intros Hn Hsz Hws Hf Hus Hops. destruct (initialization_run n size s Hn Hsz Hws Hf) as (i & Hr & HA).
  destruct (session_run us Hus n _ ops _ _ HA (env_of_ok _) Hops) as (s2 & Hr2 & HA2 & _ & _).
  do 2 eexists. split; [exact Hr|]. by split.
Qed.



End Timers.

(** ** Instances

    Four timers, on the smallest tree library, a task manager that is a table,
    and a clock that keeps a record of the calls. *)
Definition recording_clock : Timecounter (Timestamp_Control * list (Z * Z * Z)) := {|
  Timecounter_Set_clock bt u := (bt, u.2);
  Timecounter_Microtime u := (sec u.1, 0);
  Timecounter_Bintime u := u.1;
  Timecounter_Nanotime u := mk_timespec (sec u.1) 0;
  Timecounter_Binuptime _ := mk_timestamp 1 0;
  Timecounter_Nanouptime _ := mk_timespec 1 0;
  Timecounter_Time_second u := sec u.1
|}.

Definition demo_layout : TimerLayout := {|
  Ticker_of o := 1000 + 64 * o;
  Timer_of w := (w - 1000) / 64;
  Timer_Routine_adaptor_address := 11;
  Timer_server_Routine_adaptor_address := 12
|}.

#[local] Existing Instance vine_sys_tree.
#[local] Existing Instance vine_laws.
#[local] Existing Instance recording_clock.
#[local] Existing Instance demo_layout.
#[local] Existing Instance big_workspace.
#[local] Instance demo_task_table : TaskManager (gmap Z (option (Z * Z))) := task_table 8.
#[local] Instance demo_task_laws : @TaskManagerLaws _ demo_task_table := task_table_laws 8.

#[local] Instance demo_layout_laws : TimerLayoutLaws.
Proof.
  split; [|done]. intros o. cbn. replace (1000 + 64 * o - 1000) with (o * 64) by lia. by apply Z.div_mul.
Qed.

#[local] Abbreviation demo_sys := (wd_state (clock_state
  (tm_system (gmap Z (option (Z * Z))) Z (Timestamp_Control * list (Z * Z * Z))))).

Definition demo_blank : Timer_Control := mk_Timer_Control 0 0 0 0 0 0.

Definition demo_memory : demo_sys :=
  mk_wd_state (mk_Watchdog_Header NULL NULL) (mk_Watchdog_Header NULL NULL) 100 100
    (list_to_map ((fun o => (1000 + 64 * o, mk_RBTree_Node 0 0 0 WATCHDOG_INACTIVE)) <$> [1; 2; 3; 4]))
    (list_to_map ((fun o => (1000 + 64 * o, mk_Watchdog_Control 0 0)) <$> [1; 2; 3; 4]))
    (mk_clock_state true
       (mk_tm_system (mk_obj_state empty_information 4096)
          (list_to_map ((fun o => (o, demo_blank)) <$> [1; 2; 3; 4])) false [] 0
          (mk_a_events (fun _ => 0) A_idle) ∅ (mk_timestamp 1500000000 0, []))).

Lemma demo_fresh : timers_fresh 4 demo_memory.
Proof.
  split; try done.
  - intros w nd. cbn. rewrite !lookup_insert_Some, lookup_empty. naive_solver.
  - intros w. cbn. rewrite <- !elem_of_dom, !dom_insert, !dom_empty. done.
  - intros o Ho. assert (o = 1 \/ o = 2 \/ o = 3 \/ o = 4) as [->|[->|[->| ->]]] by lia; split; by eexists.
Qed.

Definition demo_start : demo_sys :=
  match Timer_Manager_initialization 4 100 demo_memory with
  | Ok (_, s) => s
  | Undef _ => demo_memory
  end.

Definition demo_id (o : Z) : Z := id_of (info_of_timers demo_start) o.

(** Two timers: one in ticks, one of the server at the same tick. *)
Definition demo_ops : list tm_op :=
  [Op_create 5 false; Op_create 6 false; Op_fire_after false (demo_id 1) 1 70 8;
   Op_cancel (demo_id 3); Op_reset (demo_id 2)].

Lemma demo_typed : Forall op_typed demo_ops.
Proof.
  assert (Hid : forall o, 1 <= o <= 3 -> 0 <= demo_id o < 2 ^ 32).
  { intros o Ho. assert (o = 1 \/ o = 2 \/ o = 3) as [->|[->| ->]] by lia; by vm_compute. }
  repeat (apply Forall_cons; split; [first [exact I|apply Hid; lia]|]). by apply Forall_nil.
Qed.

Lemma timer_refines_spec_witness : exists s2,
  run_session 10000 demo_ops demo_start =
    Ok ([R_id RTEMS_SUCCESSFUL (Some (demo_id 1)); R_id RTEMS_SUCCESSFUL (Some (demo_id 2));
         R_status RTEMS_SUCCESSFUL; R_status RTEMS_INVALID_ID; R_status RTEMS_NOT_DEFINED], s2) /\
  exists S, tm_abs 4 s2 S /\ sp_queues S PER_CPU_WATCHDOG_RELATIVE = [(101, 1064)].
Proof.
  destruct (timer_refines_spec 4 100 10000 demo_ops demo_memory) as (s1 & s2 & Hr & Hrun & HA);
    [unfold OBJECTS_ID_FINAL_INDEX; lia|lia|by do 4 eexists|exact demo_fresh|lia| |].
  { exact demo_typed. }
  assert (Hs : s1 = demo_start) by (unfold demo_start; rewrite Hr; reflexivity). subst s1.
  exists s2. split; [rewrite Hrun; vm_compute; reflexivity|]. eexists. split; [exact HA|vm_compute; reflexivity].
Defined.

Lemma demo_start_abs : tm_abs 4 demo_start (fresh_spec 4 demo_memory) /\ wd_controls demo_start = wd_controls demo_memory.
Proof.
  destruct (initialization_run 4 100 demo_memory) as (i & Hr & HA);
    [unfold OBJECTS_ID_FINAL_INDEX; lia|lia|by do 4 eexists|exact demo_fresh|].
  assert (Hs : demo_start = set_tm (set_tm_info i (tm_of demo_memory)) demo_memory)
    by (unfold demo_start; rewrite Hr; reflexivity).
  rewrite Hs. split; [exact HA|reflexivity].
Qed.

(** All watchdogs of the example belong to timers. *)
Lemma demo_foreign (s : demo_sys) : others_kept 4 demo_start s -> foreign_ok 4 s.
Proof.
  intros Hk w c Hc Hown. exfalso.
  assert (Hno : forall o, 1 <= o <= 4 -> w <> Ticker_of o) by (intros o Ho ->; by rewrite owner_ticker in Hown).
  rewrite (Hk w Hno) in Hc. rewrite (proj2 demo_start_abs) in Hc. cbn in Hc.
  rewrite !lookup_insert_Some, lookup_empty in Hc.
  assert (Hin : exists o, 1 <= o <= 4 /\ w = Ticker_of o); [|destruct Hin as (o & Ho & Hw); by apply (Hno o Ho)].
  destruct Hc as [[<- _]|[_ [[<- _]|[_ [[<- _]|[_ [[<- _]|[_ ?]]]]]]]]; [exists 1|exists 2|exists 3|exists 4|done];
    (split; [lia|reflexivity]).
Qed.

Definition demo_calls (_ : gmap Z (option (Z * Z))) (u : Timestamp_Control * list (Z * Z * Z)) : list (Z * Z * Z) := u.2.

Definition demo_service (r id d : Z) : cm demo_sys unit :=
  tm_mod (fun x => set_tm_clock ((tm_clock x).1, (tm_clock x).2 ++ [(r, id, d)]) x).
Definition demo_other (r w : Z) : cm demo_sys unit := mret tt.
Definition demo_now : cm demo_sys timespec := tm_get (fun x => Timecounter_Nanotime (tm_clock x)).

Lemma demo_services t : service_ok 4 demo_service demo_calls t.
Proof.
  intros r id d s Q [Hi Hf] Ht. eexists _, Q. split; [reflexivity|]. split_and!; try done.
  split; [|exact Hf]. destruct Hi. split; try done. by apply set_tm_inv.
Qed.

Lemma demo_others t : others_ok 4 demo_other demo_calls t.
Proof. intros r w s Q Hi Ht _. exists s, Q. by split_and!. Qed.

Lemma demo_timer_clients : timer_clients_ok demo_calls demo_now (mret tt).
Proof.
  split; [by eexists|]. intros s. exists (tm_tasks (tm_of s)). split; [|done].
  by destruct s as [? ? ? ? ? ? [? []]].
Qed.


(** The server is started, a timer of the server is set to the next tick, and
    the tick comes. *)
Definition demo_server : demo_sys :=
  match rtems_timer_initiate_server 900 901 5 4096 0 demo_start with
  | Ok (_, s) => s
  | Undef _ => demo_start
  end.
Definition demo_created : demo_sys :=
  match run_op 10000 (Op_create 5 false) demo_server with Ok (_, s) => s | Undef _ => demo_server end.
Definition demo_armed : demo_sys :=
  match run_op 10000 (Op_fire_after true (demo_id 1) 1 70 8) demo_created with
  | Ok (_, s) => s
  | Undef _ => demo_created
  end.
Definition demo_due : demo_sys :=
  match Watchdog_Tick (timer_call_routine demo_service demo_other) demo_now (mret tt) 3 demo_armed with
  | Ok (_, s) => s
  | Undef _ => demo_armed
  end.

