(* ===== verification/PriorityMap.v ===== *)
(** * The priority bit map

    [score/.../prioritybitmap.h] and [prioritybitmapimpl.h]: a bit for each of
    256 priorities, in 16 words of 16 bits, and a word with a bit for each of
    these words that is not zero.  The generic code with the count of leading
    zeros of the compiler is translated.  The map implements a set of
    priorities with a minimum. *)

From stdpp Require Import base tactics numbers option list list_numbers.
From Stdlib Require Import ZArith Lia.
From S2P Require Import Prelude.

Open Scope Z_scope.

(** ** Data and operations *)
Record Priority_bit_map_Control := mk_bit_map {
  major_bit_map : Z;
  bit_map : list Z
}.

(** The address of the minor word is its index. *)
Record Priority_bit_map_Information := mk_map_information {
  minor : Z;
  ready_major : Z;
  ready_minor : Z;
  block_major : Z;
  block_minor : Z
}.

(** The count of leading zeros of zero is not defined. *)
Definition Bitfield_Find_first_bit (value : Z) : outcome Z :=
  if value =? 0 then Undef Uninitialized
  else Ok (u32 (31 - Z.log2 value - 32 + 16)).

Definition Priority_Mask (bit_number : Z) : Z := u16 (Z.shiftr 32768 bit_number).
Definition Priority_Bits_index (bit_number : Z) : Z := bit_number.
Definition Priority_Major (the_priority : Z) : Z := the_priority / 16.
Definition Priority_Minor (the_priority : Z) : Z := the_priority mod 16.

Definition Priority_bit_map_Initialize : Priority_bit_map_Control := mk_bit_map 0 (replicate 16 0).

Definition Priority_bit_map_Add (info : Priority_bit_map_Information) (bm : Priority_bit_map_Control)
    : outcome Priority_bit_map_Control :=
  w ← arr_get (bit_map bm) (minor info);
  words ← arr_set (bit_map bm) (minor info) (Z.lor w (ready_minor info));
  Ok (mk_bit_map (Z.lor (major_bit_map bm) (ready_major info)) words).

Definition Priority_bit_map_Remove (info : Priority_bit_map_Information) (bm : Priority_bit_map_Control)
    : outcome Priority_bit_map_Control :=
  w ← arr_get (bit_map bm) (minor info);
  let w' := Z.land w (block_minor info) in
  words ← arr_set (bit_map bm) (minor info) w';
  Ok (mk_bit_map (if w' =? 0 then Z.land (major_bit_map bm) (block_major info) else major_bit_map bm) words).

Definition Priority_bit_map_Get_highest (bm : Priority_bit_map_Control) : outcome Z :=
  major ← Bitfield_Find_first_bit (major_bit_map bm);
  w ← arr_get (bit_map bm) major;
  minor ← Bitfield_Find_first_bit w;
  Ok (u32 (u32 (Z.shiftl (Priority_Bits_index major) 4) + Priority_Bits_index minor)).

Definition Priority_bit_map_Is_empty (bm : Priority_bit_map_Control) : bool := major_bit_map bm =? 0.

Definition Priority_bit_map_Initialize_information (new_priority : Z) : Priority_bit_map_Information :=
  let major := Priority_Major new_priority in
  let minor := Priority_Minor new_priority in
  let mask_major := Priority_Mask major in
  let mask_minor := Priority_Mask minor in
  mk_map_information (Priority_Bits_index major) mask_major mask_minor
    (u16 (Z.lnot mask_major)) (u16 (Z.lnot mask_minor)).

(** ** Meaning *)

(** Bit [k] of a word, counted from the most significant one of 16. *)
Definition bit16 (w k : Z) : bool := Z.testbit w (15 - k).

Definition word16 (w : Z) : Prop := 0 <= w < 2 ^ 16.

(** The map holds exactly the priorities of [P]. *)
Record map_holds (P : Z -> Prop) (bm : Priority_bit_map_Control) : Prop := {
  mh_length : length (bit_map bm) = 16%nat;
  mh_words : Forall word16 (bit_map bm);
  mh_major : word16 (major_bit_map bm);
  mh_minor_bit : forall m k w, 0 <= k < 16 -> bit_map bm !! Z.to_nat m = Some w -> 0 <= m < 16 ->
    bit16 w k = true <-> P (16 * m + k);
  mh_major_bit : forall m w, 0 <= m < 16 -> bit_map bm !! Z.to_nat m = Some w ->
    bit16 (major_bit_map bm) m = true <-> w <> 0
}.

Lemma mask_value k : 0 <= k < 16 -> Priority_Mask k = 2 ^ (15 - k).
Proof.
  intros Hk. unfold Priority_Mask. change 32768 with (2 ^ 15). rewrite Z.shiftr_div_pow2 by lia.
  rewrite <- Z.pow_sub_r by lia. apply Z.mod_small. split; [apply Z.pow_nonneg; lia|].
  apply Z.pow_lt_mono_r; lia.
Qed.

Lemma priority_mask_bit k j : 0 <= k < 16 -> 0 <= j < 16 -> bit16 (Priority_Mask k) j = bool_decide (j = k).
Proof.
  intros Hk Hj. unfold bit16. rewrite mask_value, Z.pow2_bits_eqb by lia.
  destruct (bool_decide_reflect (j = k)) as [->|Hne]; [apply Z.eqb_refl|apply Z.eqb_neq; lia].
Qed.

Lemma unmask_bit k j : 0 <= k < 16 -> 0 <= j < 16 -> bit16 (u16 (Z.lnot (Priority_Mask k))) j = negb (bool_decide (j = k)).
Proof.
  intros Hk Hj. unfold bit16. change (u16 ?x) with (x mod 2 ^ 16).
  rewrite Z.mod_pow2_bits_low by lia. rewrite Z.lnot_spec by lia. f_equal. by apply priority_mask_bit.
Qed.

Lemma mask_word k : 0 <= k < 16 -> word16 (Priority_Mask k).
Proof.
  intros Hk. rewrite mask_value by done. split; [apply Z.pow_nonneg; lia|]. apply Z.pow_lt_mono_r; lia.
Qed.

Lemma word16_bound w : word16 w <-> 0 <= w /\ forall j, 16 <= j -> Z.testbit w j = false.
Proof.
  unfold word16. split.
  - intros [H0 H1]. split; [done|]. intros j Hj. destruct (decide (w = 0)) as [->|Hne]; [apply Z.bits_0|].
    apply Z.bits_above_log2; [done|]. apply Z.log2_lt_pow2; [lia|].
    apply Z.lt_le_trans with (2 ^ 16); [done|]. apply Z.pow_le_mono_r; lia.
  - intros [H0 Hb]. split; [done|]. destruct (decide (w = 0)) as [->|Hne]; [done|].
    apply Z.log2_lt_pow2; [lia|]. destruct (Z.lt_ge_cases (Z.log2 w) 16) as [|Hge]; [done|].
    specialize (Hb _ Hge). rewrite Z.bit_log2 in Hb by lia. done.
Qed.

Lemma word16_lor a b : word16 a -> word16 b -> word16 (Z.lor a b).
Proof.
  rewrite !word16_bound. intros [Ha Ha'] [Hb Hb']. split; [by apply Z.lor_nonneg|].
  intros j Hj. by rewrite Z.lor_spec, Ha', Hb'.
Qed.

Lemma word16_land a b : word16 a -> word16 (Z.land a b).
Proof.
  rewrite !word16_bound. intros [Ha Ha']. split; [apply Z.land_nonneg; by left|].
  intros j Hj. by rewrite Z.land_spec, Ha'.
Qed.

(** A word is not zero when one of its bits is set. *)
Lemma word16_nonzero w : word16 w -> w <> 0 <-> exists k, 0 <= k < 16 /\ bit16 w k = true.
Proof.
  intros Hw. split.
  - intros Hne. destruct Hw as [H0 H1]. exists (15 - Z.log2 w).
    assert (Hl : Z.log2 w < 16) by (apply Z.log2_lt_pow2; lia). pose proof (Z.log2_nonneg w).
    split; [lia|]. unfold bit16. replace (15 - (15 - Z.log2 w)) with (Z.log2 w) by lia. apply Z.bit_log2. lia.
  - intros (k & _ & Hb) ->. unfold bit16 in Hb. by rewrite Z.bits_0 in Hb.
Qed.

(** The first bit is the smallest number whose bit is set. *)
Lemma find_first_bit w :
  word16 w -> w <> 0 ->
  exists k, Bitfield_Find_first_bit w = Ok k /\ 0 <= k < 16 /\ bit16 w k = true /\
    forall j, 0 <= j < k -> bit16 w j = false.
Proof.
  intros [H0 H1] Hne. assert (Hl : Z.log2 w < 16) by (apply Z.log2_lt_pow2; lia).
  pose proof (Z.log2_nonneg w). exists (15 - Z.log2 w). unfold Bitfield_Find_first_bit.
  rewrite (proj2 (Z.eqb_neq _ _) Hne). rewrite u32_id by lia. split_and!; try lia.
  - f_equal. lia.
  - unfold bit16. replace (15 - (15 - Z.log2 w)) with (Z.log2 w) by lia. apply Z.bit_log2. lia.
  - intros j Hj. unfold bit16. apply Z.bits_above_log2; lia.
Qed.

Lemma initialize_holds : map_holds (fun _ => False) Priority_bit_map_Initialize.
Proof.
  split; try done.
  - by apply Forall_replicate.
  - intros m k w Hk Hw Hm. apply lookup_replicate in Hw as [-> _]. unfold bit16. by rewrite Z.bits_0.
  - intros m w Hm Hw. apply lookup_replicate in Hw as [-> _]. unfold bit16. cbn. by rewrite Z.bits_0.
Qed.

Lemma map_holds_proper P P' bm : (forall p, 0 <= p < 256 -> P p <-> P' p) -> map_holds P bm -> map_holds P' bm.
Proof.
  intros HP [Hl Hw Hm Hb HB]. split; try done. intros m k w Hk Hlk Hm'. rewrite (Hb m k w) by done. apply HP. lia.
Qed.

Lemma map_word P bm m : map_holds P bm -> 0 <= m < 16 -> exists w, bit_map bm !! Z.to_nat m = Some w /\ word16 w.
Proof.
  intros HP Hm. destruct (lookup_lt_is_Some_2 (bit_map bm) (Z.to_nat m)) as [w Hw].
  { rewrite (mh_length _ _ HP). lia. }
  exists w. split; [done|]. by eapply (Forall_lookup_1 _ _ _ _ (mh_words _ _ HP)).
Qed.

Lemma priority_parts p : 0 <= p < 256 ->
  0 <= Priority_Major p < 16 /\ 0 <= Priority_Minor p < 16 /\ p = 16 * Priority_Major p + Priority_Minor p.
Proof.
  intros Hp. unfold Priority_Major, Priority_Minor. pose proof (Z.div_mod p 16 ltac:(lia)).
  pose proof (Z.mod_pos_bound p 16 ltac:(lia)). lia.
Qed.

Lemma add_holds P bm p :
  map_holds P bm -> 0 <= p < 256 ->
  exists bm', Priority_bit_map_Add (Priority_bit_map_Initialize_information p) bm = Ok bm' /\
    map_holds (fun q => q = p \/ P q) bm'.
Proof.
  intros HP Hp. destruct (priority_parts p Hp) as (HM & Hm & Heq).
  set (M := Priority_Major p) in *. set (k := Priority_Minor p) in *.
  destruct (map_word _ _ M HP HM) as (w & Hw & Hww). pose proof (mh_length _ _ HP) as Hl.
  unfold Priority_bit_map_Add, Priority_bit_map_Initialize_information. cbn [minor ready_minor ready_major].
  unfold Priority_Bits_index. fold M k. clearbody M k. rewrite (arr_get_ok _ _ w) by (done || lia). cbn [mbind outcome_bind].
  rewrite arr_set_ok by lia. cbn [mbind outcome_bind]. eexists. split; [reflexivity|].
  assert (Hor : forall a b j, bit16 (Z.lor a b) j = bit16 a j || bit16 b j) by (intros; apply Z.lor_spec).
  split; cbn [bit_map major_bit_map].
  - by rewrite length_insert.
  - apply Forall_insert; [apply HP|]. apply word16_lor; [done|by apply mask_word].
  - apply word16_lor; [apply HP|by apply mask_word].
  - intros m j w' Hj Hlk Hm'. apply list_lookup_insert_Some in Hlk as [(He & <- & _)|[Hne Hlk]].
    + assert (m = M) as -> by lia. rewrite Hor, priority_mask_bit, orb_true_iff by done.
      rewrite bool_decide_eq_true, (mh_minor_bit _ _ HP M j w) by done. split; (intros [?|?]; [by right; (lia || done)|left; (lia || done)]).
    + rewrite (mh_minor_bit _ _ HP m j w') by done. split; [by auto|]. intros [He|]; [|done]. exfalso. lia.
  - intros m w' Hm' Hlk. rewrite Hor, priority_mask_bit, orb_true_iff, bool_decide_eq_true by done.
    apply list_lookup_insert_Some in Hlk as [(He & <- & _)|[Hne Hlk]].
    + assert (m = M) as -> by lia. split; [|by auto]. intros _ Hz. apply Z.lor_eq_0_iff in Hz as [_ Hz].
      rewrite mask_value in Hz by done. pose proof (Z.pow_pos_nonneg 2 (15 - k)). lia.
    + rewrite (mh_major_bit _ _ HP m w') by done. split; [|by auto]. intros [?|]; [done|lia].
Qed.

Lemma remove_holds P bm p :
  map_holds P bm -> 0 <= p < 256 ->
  exists bm', Priority_bit_map_Remove (Priority_bit_map_Initialize_information p) bm = Ok bm' /\
    map_holds (fun q => q <> p /\ P q) bm'.
Proof.
  intros HP Hp. destruct (priority_parts p Hp) as (HM & Hm & Heq).
  set (M := Priority_Major p) in *. set (k := Priority_Minor p) in *.
  destruct (map_word _ _ M HP HM) as (w & Hw & Hww). pose proof (mh_length _ _ HP) as Hl.
  unfold Priority_bit_map_Remove, Priority_bit_map_Initialize_information. cbn [minor block_minor block_major].
  unfold Priority_Bits_index. fold M k. clearbody M k. rewrite (arr_get_ok _ _ w) by (done || lia). cbn [mbind outcome_bind].
  rewrite arr_set_ok by lia. cbn [mbind outcome_bind]. eexists. split; [reflexivity|].
  assert (Hand : forall a b j, bit16 (Z.land a b) j = bit16 a j && bit16 b j) by (intros; apply Z.land_spec).
  set (w1 := Z.land w (u16 (Z.lnot (Priority_Mask k)))) in *.
  split; cbn [bit_map major_bit_map].
  - by rewrite length_insert.
  - apply Forall_insert; [apply HP|]. by apply word16_land.
  - case_match; [apply word16_land|]; apply HP.
  - intros m j w' Hj Hlk Hm'. apply list_lookup_insert_Some in Hlk as [(He & <- & _)|[Hne Hlk]].
    + assert (m = M) as -> by lia. unfold w1. rewrite Hand, unmask_bit, andb_true_iff, negb_true_iff by done.
      rewrite bool_decide_eq_false, (mh_minor_bit _ _ HP M j w) by done.
      split; intros [? ?]; split; auto; lia.
    + rewrite (mh_minor_bit _ _ HP m j w') by done. split; [intros ?; split; [lia|done]|tauto].
  - intros m w' Hm' Hlk. apply list_lookup_insert_Some in Hlk as [(He & <- & _)|[Hne Hlk]].
    + assert (m = M) as -> by lia. destruct (Z.eqb_spec w1 0) as [Hz|Hz].
      * rewrite Hand, unmask_bit, bool_decide_eq_true_2, andb_false_r by done. done.
      * rewrite (mh_major_bit _ _ HP M w) by done. split; [done|]. intros _ ->. by apply Hz.
    + assert (m <> M) by (intros ->; done). destruct (Z.eqb_spec w1 0) as [Hz|Hz].
      * rewrite Hand, unmask_bit, bool_decide_eq_false_2, andb_true_r by done. by apply (mh_major_bit _ _ HP).
      * by apply (mh_major_bit _ _ HP).
Qed.

(** The map gives the smallest of its priorities. *)
Lemma get_highest P bm :
  map_holds P bm -> (exists p, 0 <= p < 256 /\ P p) ->
  exists p, Priority_bit_map_Get_highest bm = Ok p /\ 0 <= p < 256 /\ P p /\ forall q, 0 <= q < p -> ~ P q.
Proof.
  intros HP (p0 & Hp0 & HPp). destruct (priority_parts p0 Hp0) as (HM0 & Hm0 & Heq0).
  set (M0 := Priority_Major p0) in *. set (k0 := Priority_Minor p0) in *.
  destruct (map_word _ _ _ HP HM0) as (w0 & Hw0 & Hww0).
  assert (Hne0 : w0 <> 0).
  { apply word16_nonzero; [done|]. exists k0. split; [done|].
    apply (mh_minor_bit _ _ HP M0); [done|done|done|]. by rewrite <- Heq0. }
  destruct (find_first_bit (major_bit_map bm)) as (M & HfM & HM & HbM & HlM); [apply HP| |].
  { apply word16_nonzero; [apply HP|]. exists M0. split; [done|].
    by apply (mh_major_bit _ _ HP M0 w0). }
  destruct (map_word _ _ _ HP HM) as (w & Hw & Hww).
  destruct (find_first_bit w Hww) as (k & Hfk & Hk & Hbk & Hlk); [by apply (mh_major_bit _ _ HP M)|].
  exists (16 * M + k). unfold Priority_bit_map_Get_highest. rewrite HfM. cbn [mbind outcome_bind].
  rewrite (arr_get_ok _ _ w) by (done || lia). cbn [mbind outcome_bind]. rewrite Hfk. cbn [mbind outcome_bind].
  split_and!; try lia.
  - unfold Priority_Bits_index. rewrite Z.shiftl_mul_pow2 by lia. rewrite (u32_id (M * 2 ^ 4)), u32_id by lia.
    f_equal. lia.
  - by apply (mh_minor_bit _ _ HP M k w).
  - intros q Hq HPq. destruct (priority_parts q ltac:(lia)) as (HMq & Hmq & Heqq).
    set (Mq := Priority_Major q) in *. set (kq := Priority_Minor q) in *.
    destruct (map_word _ _ _ HP HMq) as (wq & Hwq & Hwwq). rewrite Heqq in HPq.
    apply (mh_minor_bit _ _ HP Mq kq wq) in HPq; [|done..].
    destruct (Z.lt_ge_cases Mq M) as [Hlt|Hge].
    + assert (Hz : wq <> 0) by (apply word16_nonzero; [done|by exists kq]).
      apply (mh_major_bit _ _ HP Mq wq) in Hz; [|done..]. rewrite HlM in Hz by lia. done.
    + assert (Mq = M) as HeM by lia. rewrite HeM in Hwq. rewrite Hw in Hwq. injection Hwq as <-.
      rewrite Hlk in HPq by lia. done.
Qed.
