(* ===== verification/Scheduler.v ===== *)
(** * The uniprocessor schedulers

    [score/src/schedulerpriority*.c], [schedulerpriorityimpl.h]: the default
    scheduler, one chain of ready threads for each priority and a bit map of
    the chains that are not empty; [score/src/schedulersimple*.c],
    [schedulersimpleimpl.h]: one chain of ready threads ordered by priority;
    and the parts of [schedulerimpl.h] and [schedulernodeimpl.h] they share.
    The node of a thread on a chain is the thread itself, and a chain is a list
    (the chain handler refines lists). *)

From stdpp Require Import base tactics numbers option list list_numbers gmap fin_maps.
From Stdlib Require Import ZArith Lia.
From S2P Require Import Prelude Chain Status Timespec Thread PriorityMap.

Open Scope Z_scope.

(** ** Threads and the processor *)

(** The part of a thread and of its scheduler node that the schedulers read:
    [sn_wait_priority] is the priority of the thread ([Wait.Priority] of the
    node), [sn_value] and [sn_prepend_it] the value for the scheduler
    ([Priority] of the node). *)
Record sched_thread := mk_sched_thread {
  st_current_state : Z;
  st_is_preemptible : bool;
  sn_wait_priority : Z;
  sn_value : Z;
  sn_prepend_it : bool
}.

Definition set_st_current_state v (t : sched_thread) : sched_thread :=
  mk_sched_thread v (st_is_preemptible t) (sn_wait_priority t) (sn_value t) (sn_prepend_it t).
Definition set_sn_wait_priority v (t : sched_thread) : sched_thread :=
  mk_sched_thread (st_current_state t) (st_is_preemptible t) v (sn_value t) (sn_prepend_it t).
Definition set_sn_Priority v b (t : sched_thread) : sched_thread :=
  mk_sched_thread (st_current_state t) (st_is_preemptible t) (sn_wait_priority t) v b.

(** The processor, with the context [X] of its scheduler. *)
Record sched_state (X : Type) := mk_sched_state {
  sc_threads : gmap Z sched_thread;
  sc_heir : Z;
  sc_executing : Z;
  sc_dispatch_necessary : bool;
  sc_cpu_usage_timestamp : Timestamp_Control;
  sc_cpu_time_used : gmap Z Timestamp_Control;
  sc_uptime : Timestamp_Control;
  sc_context : X
}.
Arguments mk_sched_state {X}.
Arguments sc_threads {X}.
Arguments sc_heir {X}.
Arguments sc_executing {X}.
Arguments sc_dispatch_necessary {X}.
Arguments sc_cpu_usage_timestamp {X}.
Arguments sc_cpu_time_used {X}.
Arguments sc_uptime {X}.
Arguments sc_context {X}.

Section Shared.
Context {X : Type} `{Bintime}.
Implicit Types s : sched_state X.

Abbreviation M := (cm (sched_state X)).

Definition set_sc_threads v s : sched_state X :=
  mk_sched_state v (sc_heir s) (sc_executing s) (sc_dispatch_necessary s) (sc_cpu_usage_timestamp s)
    (sc_cpu_time_used s) (sc_uptime s) (sc_context s).
Definition set_sc_heir v s : sched_state X :=
  mk_sched_state (sc_threads s) v (sc_executing s) (sc_dispatch_necessary s) (sc_cpu_usage_timestamp s)
    (sc_cpu_time_used s) (sc_uptime s) (sc_context s).
Definition set_sc_executing v s : sched_state X :=
  mk_sched_state (sc_threads s) (sc_heir s) v (sc_dispatch_necessary s) (sc_cpu_usage_timestamp s)
    (sc_cpu_time_used s) (sc_uptime s) (sc_context s).
Definition set_sc_dispatch_necessary v s : sched_state X :=
  mk_sched_state (sc_threads s) (sc_heir s) (sc_executing s) v (sc_cpu_usage_timestamp s)
    (sc_cpu_time_used s) (sc_uptime s) (sc_context s).
Definition set_sc_cpu_usage v w s : sched_state X :=
  mk_sched_state (sc_threads s) (sc_heir s) (sc_executing s) (sc_dispatch_necessary s) v w
    (sc_uptime s) (sc_context s).
Definition set_sc_context v s : sched_state X :=
  mk_sched_state (sc_threads s) (sc_heir s) (sc_executing s) (sc_dispatch_necessary s)
    (sc_cpu_usage_timestamp s) (sc_cpu_time_used s) (sc_uptime s) v.

Definition F_sc_threads : field (sched_state X) (gmap Z sched_thread) := mk_field sc_threads set_sc_threads.
Definition sc_ld {A} (t : Z) (f : sched_thread -> A) : M A := th ← ldm F_sc_threads t; mret (f th).
Definition sc_upd (t : Z) (f : sched_thread -> sched_thread) : M unit :=
  th ← ldm F_sc_threads t; stm F_sc_threads t (f th).

Definition Thread_Is_executing (the_thread : Z) : M bool := e ← gets sc_executing; mret (the_thread =? e).
Definition Thread_Is_heir (the_thread : Z) : M bool := h ← gets sc_heir; mret (the_thread =? h).
Definition Thread_Is_ready (the_thread : Z) : M bool :=
  sc_ld the_thread (fun t => States_Is_ready (st_current_state t)).
Definition Thread_Get_priority (the_thread : Z) : M Z := sc_ld the_thread sn_wait_priority.

(** The CPU time since the last time stamp is added to the thread. *)
Definition Thread_Update_CPU_time_used (the_thread : Z) : M unit :=
  last ← gets sc_cpu_usage_timestamp;
  now ← gets sc_uptime;
  used ← gets sc_cpu_time_used;
  match used !! the_thread with
  | None => lift (Undef Bad_address)
  | Some u =>
      let ran := Timestamp_Subtract last now in
      modify (set_sc_cpu_usage now (<[the_thread := (Timestamp_Add_to u ran).1]> used))
  end.

Definition Scheduler_Update_heir (new_heir : Z) (force_dispatch : bool) : M unit :=
  heir ← gets sc_heir;
  if heir =? new_heir then mret tt
  else
    preemptible ← sc_ld heir st_is_preemptible;
    c_if (preemptible || force_dispatch)
      (Thread_Update_CPU_time_used heir;;
       modify (set_sc_heir new_heir);;
       modify (set_sc_dispatch_necessary true)).

Definition Scheduler_Node_get_priority (node : Z) : M (Z * bool) :=
  sc_ld node (fun t => (sn_value t, sn_prepend_it t)).
Definition Scheduler_Node_set_priority (node new_priority : Z) (prepend_it : bool) : M unit :=
  sc_upd node (set_sn_Priority new_priority prepend_it).

Definition Scheduler_Node_do_initialize (node priority : Z) : M unit := sc_upd node (set_sn_Priority priority false).
Definition Scheduler_default_Node_initialize (node priority : Z) : M unit := Scheduler_Node_do_initialize node priority.

Definition Scheduler_Generic_block (the_thread : Z) (extract : Z -> M unit) (schedule : Z -> bool -> M unit)
    : M unit :=
  extract the_thread;;
  executing ← Thread_Is_executing the_thread;
  is_heir ← Thread_Is_heir the_thread;
  c_if (executing || is_heir) (schedule the_thread true).

(** The heir starts to execute. *)
Definition Thread_Get_heir_and_make_it_executing : M Z :=
  heir ← gets sc_heir;
  modify (set_sc_dispatch_necessary false);;
  modify (set_sc_executing heir);;
  mret heir.

Definition Scheduler_default_Map_priority (priority : Z) : Z := priority.

End Shared.

(** ** The priority scheduler *)

(** The pointer to a ready chain is its index. *)
Record Scheduler_priority_Ready_queue := mk_ready_queue {
  current_priority : Z;
  ready_chain : Z;
  Priority_map : Priority_bit_map_Information
}.

Record Scheduler_priority_Context := mk_priority_context {
  Bit_map : Priority_bit_map_Control;
  Ready : list (list Z);
  Ready_queues : gmap Z Scheduler_priority_Ready_queue
}.

(** A node is taken from whatever chain it is on. *)
Definition chain_extract (node : Z) (l : list Z) : list Z := filter (fun x => x <> node) l.

Section Priority.
Context `{Bintime}.

Abbreviation M := (cm (sched_state Scheduler_priority_Context)).

Definition pc_get : M Scheduler_priority_Context := gets sc_context.
Definition pc_set (c : Scheduler_priority_Context) : M unit := modify (set_sc_context c).
Definition set_Bit_map v (c : Scheduler_priority_Context) : Scheduler_priority_Context :=
  mk_priority_context v (Ready c) (Ready_queues c).
Definition set_Ready v (c : Scheduler_priority_Context) : Scheduler_priority_Context :=
  mk_priority_context (Bit_map c) v (Ready_queues c).
Definition set_Ready_queues v (c : Scheduler_priority_Context) : Scheduler_priority_Context :=
  mk_priority_context (Bit_map c) (Ready c) v.

(** The ready queue data of a thread's node. *)
Definition ready_queue_of (the_thread : Z) : M Scheduler_priority_Ready_queue :=
  c ← pc_get; lift (mem_load (Ready_queues c) the_thread).

Definition st_Ready (index : Z) (l : list Z) : M unit :=
  c ← pc_get;
  r ← lift (arr_set (Ready c) index l);
  pc_set (set_Ready r c).
Definition ld_Ready (index : Z) : M (list Z) := c ← pc_get; lift (arr_get (Ready c) index).
Definition bit_map_op (f : Priority_bit_map_Control -> outcome Priority_bit_map_Control) : M unit :=
  c ← pc_get;
  b ← lift (f (Bit_map c));
  pc_set (set_Bit_map b c).

Definition Scheduler_priority_Ready_queue_initialize (maximum_priority : Z) : M unit :=
  c ← pc_get; pc_set (set_Ready (replicate (Z.to_nat (maximum_priority + 1)) []) c).

Definition Scheduler_priority_Ready_queue_enqueue (node : Z) (rq : Scheduler_priority_Ready_queue) : M unit :=
  l ← ld_Ready (ready_chain rq);
  st_Ready (ready_chain rq) (l ++ [node]);;
  bit_map_op (Priority_bit_map_Add (Priority_map rq)).

Definition Scheduler_priority_Ready_queue_enqueue_first (node : Z) (rq : Scheduler_priority_Ready_queue) : M unit :=
  l ← ld_Ready (ready_chain rq);
  st_Ready (ready_chain rq) (node :: l);;
  bit_map_op (Priority_bit_map_Add (Priority_map rq)).

(** The first and the last node of an empty chain are different: its tail and
    its head. *)
Definition Chain_Has_only_one_node (l : list Z) : bool := bool_decide (length l = 1%nat).

Definition Scheduler_priority_Ready_queue_extract (node : Z) (rq : Scheduler_priority_Ready_queue) : M unit :=
  l ← ld_Ready (ready_chain rq);
  if Chain_Has_only_one_node l then
    st_Ready (ready_chain rq) [];;
    bit_map_op (Priority_bit_map_Remove (Priority_map rq))
  else
    c ← pc_get;
    pc_set (set_Ready (chain_extract node <$> Ready c) c).

Definition Scheduler_priority_Extract_body (the_thread : Z) : M unit :=
  rq ← ready_queue_of the_thread;
  Scheduler_priority_Ready_queue_extract the_thread rq.

(** The first node of an empty chain is the address of its tail, which is no
    thread. *)
Definition Scheduler_priority_Ready_queue_first : M Z :=
  c ← pc_get;
  index ← lift (Priority_bit_map_Get_highest (Bit_map c));
  l ← ld_Ready index;
  match l with
  | first :: _ => mret first
  | [] => lift (Undef Bad_address)
  end.

Definition Scheduler_priority_Schedule_body (the_thread : Z) (force_dispatch : bool) : M unit :=
  heir ← Scheduler_priority_Ready_queue_first;
  Scheduler_Update_heir heir force_dispatch.

Definition Scheduler_priority_Ready_queue_update (node new_priority : Z) : M unit :=
  c ← pc_get;
  pc_set (set_Ready_queues
    (<[node := mk_ready_queue (u32 new_priority) new_priority
                 (Priority_bit_map_Initialize_information (u32 new_priority))]> (Ready_queues c)) c).

Definition Scheduler_priority_Initialize (maximum_priority : Z) : M unit :=
  c ← pc_get;
  pc_set (set_Bit_map Priority_bit_map_Initialize c);;
  Scheduler_priority_Ready_queue_initialize maximum_priority.

Definition Scheduler_priority_Node_initialize (the_thread priority : Z) : M unit :=
  Scheduler_Node_do_initialize the_thread priority;;
  Scheduler_priority_Ready_queue_update the_thread priority.

Definition Scheduler_priority_Block (the_thread : Z) : M unit :=
  Scheduler_Generic_block the_thread Scheduler_priority_Extract_body Scheduler_priority_Schedule_body.

Definition Scheduler_priority_Unblock (the_thread : Z) : M unit :=
  p ← Scheduler_Node_get_priority the_thread;
  let priority := u32 p.1 in
  rq ← ready_queue_of the_thread;
  c_if (negb (priority =? current_priority rq)) (Scheduler_priority_Ready_queue_update the_thread priority);;
  rq ← ready_queue_of the_thread;
  Scheduler_priority_Ready_queue_enqueue the_thread rq;;
  heir ← gets sc_heir;
  heir_priority ← Thread_Get_priority heir;
  c_if (priority <? heir_priority)
    (Scheduler_Update_heir the_thread (priority =? PRIORITY_PSEUDO_ISR)).

Definition Scheduler_priority_Update_priority (the_thread : Z) : M unit :=
  ready ← Thread_Is_ready the_thread;
  if negb ready then mret tt
  else
    p ← Scheduler_Node_get_priority the_thread;
    let priority := u32 p.1 in
    rq ← ready_queue_of the_thread;
    if priority =? current_priority rq then mret tt
    else
      Scheduler_priority_Ready_queue_extract the_thread rq;;
      Scheduler_priority_Ready_queue_update the_thread priority;;
      rq ← ready_queue_of the_thread;
      (if (p.2 : bool) then Scheduler_priority_Ready_queue_enqueue_first the_thread rq
       else Scheduler_priority_Ready_queue_enqueue the_thread rq);;
      Scheduler_priority_Schedule_body the_thread false.

Definition Scheduler_priority_Yield (the_thread : Z) : M unit :=
  rq ← ready_queue_of the_thread;
  l ← ld_Ready (ready_chain rq);
  c_if (negb (Chain_Has_only_one_node l))
    (c ← pc_get;
     pc_set (set_Ready (chain_extract the_thread <$> Ready c) c);;
     l ← ld_Ready (ready_chain rq);
     st_Ready (ready_chain rq) (l ++ [the_thread]));;
  Scheduler_priority_Schedule_body the_thread true.

Definition Scheduler_priority_Schedule (the_thread : Z) : M unit :=
  Scheduler_priority_Schedule_body the_thread false.

End Priority.

(** ** The simple scheduler *)
Section Simple.
Context `{Bintime}.

(** The context is the chain of ready threads. *)
Abbreviation M := (cm (sched_state (list Z))).

Definition Scheduler_simple_Initialize : M unit := modify (set_sc_context []).

Definition Scheduler_simple_Insert_priority_lifo_order (to_insert next : Z) : M bool :=
  p ← Thread_Get_priority to_insert; q ← Thread_Get_priority next; mret (p <=? q).
Definition Scheduler_simple_Insert_priority_fifo_order (to_insert next : Z) : M bool :=
  p ← Thread_Get_priority to_insert; q ← Thread_Get_priority next; mret (p <? q).

(** [_Chain_Insert_ordered_unprotected]: the node goes before the first one it
    is to be in front of. *)
Fixpoint Chain_Insert_ordered_unprotected (chain : list Z) (to_insert : Z) (order : Z -> Z -> M bool)
    : M (list Z) :=
  match chain with
  | [] => mret [to_insert]
  | next :: rest =>
      before ← order to_insert next;
      if (before : bool) then mret (to_insert :: next :: rest)
      else rest' ← Chain_Insert_ordered_unprotected rest to_insert order; mret (next :: rest')
  end.

Definition Scheduler_simple_Insert_priority_lifo (to_insert : Z) : M unit :=
  l ← gets sc_context;
  l' ← Chain_Insert_ordered_unprotected l to_insert Scheduler_simple_Insert_priority_lifo_order;
  modify (set_sc_context l').
Definition Scheduler_simple_Insert_priority_fifo (to_insert : Z) : M unit :=
  l ← gets sc_context;
  l' ← Chain_Insert_ordered_unprotected l to_insert Scheduler_simple_Insert_priority_fifo_order;
  modify (set_sc_context l').

Definition Scheduler_simple_Extract (the_thread : Z) : M unit :=
  l ← gets sc_context; modify (set_sc_context (chain_extract the_thread l)).

Definition Scheduler_simple_Schedule_body (the_thread : Z) (force_dispatch : bool) : M unit :=
  l ← gets sc_context;
  match l with
  | heir :: _ => Scheduler_Update_heir heir force_dispatch
  | [] => lift (Undef Bad_address)
  end.

Definition Scheduler_simple_Block (the_thread : Z) : M unit :=
  Scheduler_Generic_block the_thread Scheduler_simple_Extract Scheduler_simple_Schedule_body.

Definition Scheduler_simple_Unblock (the_thread : Z) : M unit :=
  Scheduler_simple_Insert_priority_fifo the_thread;;
  priority ← Thread_Get_priority the_thread;
  heir ← gets sc_heir;
  heir_priority ← Thread_Get_priority heir;
  c_if (priority <? heir_priority)
    (Scheduler_Update_heir the_thread (priority =? PRIORITY_PSEUDO_ISR)).

Definition Scheduler_simple_Update_priority (the_thread : Z) : M unit :=
  ready ← Thread_Is_ready the_thread;
  if negb ready then mret tt
  else
    p ← Scheduler_Node_get_priority the_thread;
    Scheduler_simple_Extract the_thread;;
    (if (p.2 : bool) then Scheduler_simple_Insert_priority_lifo the_thread
     else Scheduler_simple_Insert_priority_fifo the_thread);;
    Scheduler_simple_Schedule_body the_thread false.

Definition Scheduler_simple_Yield (the_thread : Z) : M unit :=
  Scheduler_simple_Extract the_thread;;
  Scheduler_simple_Insert_priority_fifo the_thread;;
  Scheduler_simple_Schedule_body the_thread false.

Definition Scheduler_simple_Schedule (the_thread : Z) : M unit :=
  Scheduler_simple_Schedule_body the_thread false.

End Simple.

(** ** Scheduler operations

    The table of entry points of a scheduler, [Scheduler_Operations], with the
    operations that change its state; [so_initialize] is told the maximum
    priority of the scheduler. *)
Record Scheduler_Operations (X : Type) := mk_Scheduler_Operations {
  so_initialize : Z -> cm (sched_state X) unit;
  so_schedule : Z -> cm (sched_state X) unit;
  so_yield : Z -> cm (sched_state X) unit;
  so_block : Z -> cm (sched_state X) unit;
  so_unblock : Z -> cm (sched_state X) unit;
  so_update_priority : Z -> cm (sched_state X) unit;
  so_map_priority : Z -> Z;
  so_node_initialize : Z -> Z -> cm (sched_state X) unit
}.
Arguments mk_Scheduler_Operations {X}.
Arguments so_initialize {X}.
Arguments so_map_priority {X}.
Arguments so_node_initialize {X}.
Arguments so_schedule {X}.
Arguments so_yield {X}.
Arguments so_block {X}.
Arguments so_unblock {X}.
Arguments so_update_priority {X}.

Definition SCHEDULER_PRIORITY_ENTRY_POINTS `{Bintime} : Scheduler_Operations Scheduler_priority_Context :=
  mk_Scheduler_Operations Scheduler_priority_Initialize Scheduler_priority_Schedule Scheduler_priority_Yield
    Scheduler_priority_Block Scheduler_priority_Unblock Scheduler_priority_Update_priority
    Scheduler_default_Map_priority Scheduler_priority_Node_initialize.

Definition SCHEDULER_SIMPLE_ENTRY_POINTS `{Bintime} : Scheduler_Operations (list Z) :=
  mk_Scheduler_Operations (fun _ => Scheduler_simple_Initialize) Scheduler_simple_Schedule Scheduler_simple_Yield
    Scheduler_simple_Block Scheduler_simple_Unblock Scheduler_simple_Update_priority
    Scheduler_default_Map_priority Scheduler_default_Node_initialize.

(** The idle thread is started like any other. *)
Definition Scheduler_default_Start_idle {X} (ops : Scheduler_Operations X) (the_thread : Z) : cm (sched_state X) unit :=
  so_unblock ops the_thread.

(** What the thread handler asks of a scheduler. *)
Inductive sched_op :=
| S_create (t priority : Z) (is_preemptible : bool)
| S_block (t state : Z)
| S_unblock (t : Z)
| S_priority (t priority : Z) (prepend_it : bool)
| S_yield (t : Z)
| S_schedule (t : Z)
| S_dispatch.

(** The thread changes its state and tells the scheduler, as
    [_Thread_Set_state] and [_Thread_Clear_state] do; a new priority is noted
    in the node before the scheduler is told. A new thread is dormant, has used
    no processor time and has the preemption mode it will start with, as
    [_Thread_Initialize] leaves it. *)
Definition run_create {X} (ops : Scheduler_Operations X) (t priority : Z) (is_preemptible : bool)
    : cm (sched_state X) unit :=
  modify (fun s => set_sc_threads (<[t := mk_sched_thread STATES_DORMANT is_preemptible priority 0 false]> (sc_threads s)) s);;
  modify (fun s => set_sc_cpu_usage (sc_cpu_usage_timestamp s)
                     (<[t := Timestamp_Set_to_zero]> (sc_cpu_time_used s)) s);;
  so_node_initialize ops t priority.

Definition run_sched {X} (ops : Scheduler_Operations X) (op : sched_op) : cm (sched_state X) unit :=
  match op with
  | S_create t priority is_preemptible => run_create ops t priority is_preemptible
  | S_block t state => sc_upd t (set_st_current_state state);; so_block ops t
  | S_unblock t => sc_upd t (set_st_current_state STATES_READY);; so_unblock ops t
  | S_priority t priority prepend_it =>
      sc_upd t (set_sn_wait_priority priority);;
      Scheduler_Node_set_priority t priority prepend_it;;
      so_update_priority ops t
  | S_yield t => so_yield ops t
  | S_schedule t => so_schedule ops t
  | S_dispatch => Thread_Get_heir_and_make_it_executing;; mret tt
  end.

Fixpoint run_scheds {X} (ops : Scheduler_Operations X) (l : list sched_op) : cm (sched_state X) unit :=
  match l with
  | [] => mret tt
  | op :: l' => run_sched ops op;; run_scheds ops l'
  end.

(** [_Thread_Create_idle_for_CPU]: the scheduler starts with the idle thread. *)
Definition run_start {X} (ops : Scheduler_Operations X) (maximum_priority idle : Z) : cm (sched_state X) unit :=
  so_initialize ops maximum_priority;;
  run_create ops idle (so_map_priority ops maximum_priority) true;;
  modify (set_sc_heir idle);;
  modify (set_sc_executing idle);;
  sc_upd idle (set_st_current_state STATES_READY);;
  Scheduler_default_Start_idle ops idle.
