(* ===== verification/SchedulerFacts.v ===== *)
(** * The schedulers: ready queues

    The chains of the priority scheduler, one after another, are the chain of
    the simple scheduler: taking a thread out and inserting it, in front of or
    behind the threads of its priority, is the same on both, and the bit map
    finds the first thread. *)

From stdpp Require Import base tactics numbers option list list_numbers gmap fin_maps.
From Stdlib Require Import ZArith Lia.
From S2P Require Import Prelude Chain Status Timespec Thread PriorityMap RBTreeFacts Scheduler.

Open Scope Z_scope.

(** ** Lists *)

(** Insertion before the first element with [before]. *)
Fixpoint ins (before : Z -> bool) (t : Z) (l : list Z) : list Z :=
  match l with
  | [] => [t]
  | x :: r => if before x then t :: x :: r else x :: ins before t r
  end.

Lemma ins_skip before t l r : Forall (fun x => before x = false) l -> ins before t (l ++ r) = l ++ ins before t r.
Proof. induction 1 as [|x l Hx _ IH]; [done|]. cbn. by rewrite Hx, IH. Qed.

Lemma ins_here before t r : Forall (fun x => before x = true) r -> ins before t r = t :: r.
Proof. destruct 1 as [|x r Hx _]; [done|]. cbn. by rewrite Hx. Qed.

Lemma elem_of_ins before t l x : x ∈ ins before t l <-> x = t \/ x ∈ l.
Proof.
  induction l as [|y l IH]; cbn; [by rewrite list_elem_of_singleton, elem_of_nil; tauto|].
  destruct (before y); rewrite !elem_of_cons; [tauto|]. rewrite IH. tauto.
Qed.

Lemma NoDup_ins before t l : t ∉ l -> NoDup l -> NoDup (ins before t l).
Proof.
  induction l as [|y l IH]; cbn; intros Ht Hnd; [apply NoDup_singleton|].
  destruct (before y); [by constructor|]. apply NoDup_cons in Hnd as [Hy Hnd].
  apply not_elem_of_cons in Ht as [Hne Ht]. constructor; [|by apply IH].
  rewrite elem_of_ins. intros [->|]; done.
Qed.

Lemma concat_fmap_extract t (R : list (list Z)) :
  concat (chain_extract t <$> R) = chain_extract t (concat R).
Proof. induction R as [|l R IH]; [done|]. cbn. rewrite IH. unfold chain_extract. by rewrite filter_app. Qed.

Lemma elem_of_extract t l x : x ∈ chain_extract t l <-> x <> t /\ x ∈ l.
Proof. unfold chain_extract. by rewrite list_elem_of_filter. Qed.

Lemma extract_absent t l : t ∉ l -> chain_extract t l = l.
Proof. intros Ht. apply filter_all, Forall_forall. intros x Hx ->. done. Qed.

(** All threads of chain [i] have priority [o + i]. *)
Definition placed (prio : Z -> Z) (o : Z) (R : list (list Z)) : Prop :=
  forall i l t, R !! i = Some l -> t ∈ l -> prio t = o + Z.of_nat i.

Lemma placed_cons prio o l R : placed prio o (l :: R) <-> (forall t, t ∈ l -> prio t = o) /\ placed prio (o + 1) R.
Proof.
  split.
  - intros Hp. split.
    + intros t Ht. rewrite (Hp 0%nat l t) by done. lia.
    + intros i k t Hi Ht. rewrite (Hp (S i) k t) by done. lia.
  - intros [Hl HR] [|i] k t Hi Ht; cbn in Hi.
    + injection Hi as <-. rewrite Hl by done. lia.
    + rewrite (HR i k t) by done. lia.
Qed.

Lemma placed_concat prio o R t : placed prio o R -> t ∈ concat R -> o <= prio t.
Proof.
  intros Hp Ht. apply list_elem_of_In, in_concat in Ht as (l & Hl & Ht).
  apply list_elem_of_In, list_elem_of_lookup in Hl as [i Hi]. rewrite (Hp i l t Hi) by (by apply list_elem_of_In). lia.
Qed.

(** Behind the threads of the same priority. *)
Lemma concat_append prio t R : forall o i l,
  placed prio o R -> R !! i = Some l ->
  concat (<[i := l ++ [t]]> R) = ins (fun x => o + Z.of_nat i <? prio x) t (concat R).
Proof.
  induction R as [|k R IH]; intros o i l Hp Hi; [done|]. apply placed_cons in Hp as [Hk HR].
  destruct i as [|i]; cbn in Hi; [|change (<[S i := ?v]> (k :: R)) with (k :: <[i := v]> R)]; cbn [concat].
  - injection Hi as <-. change (<[0%nat := ?v]> (k :: R)) with (v :: R). cbn [concat]. rewrite ins_skip, ins_here, <- app_assoc; [done|..]; apply Forall_forall; intros x Hx.
    + pose proof (placed_concat _ _ _ _ HR Hx). apply Z.ltb_lt. lia.
    + rewrite (Hk x Hx). apply Z.ltb_ge. lia.
  - replace (o + Z.of_nat (S i)) with (o + 1 + Z.of_nat i) by lia.
    rewrite (IH (o + 1) i l HR Hi), ins_skip; [done|].
    apply Forall_forall. intros x Hx. rewrite (Hk x Hx). apply Z.ltb_ge. lia.
Qed.

(** In front of the threads of the same priority. *)
Lemma concat_prepend prio t R : forall o i l,
  placed prio o R -> R !! i = Some l ->
  concat (<[i := t :: l]> R) = ins (fun x => o + Z.of_nat i <=? prio x) t (concat R).
Proof.
  induction R as [|k R IH]; intros o i l Hp Hi; [done|]. apply placed_cons in Hp as [Hk HR].
  destruct i as [|i]; cbn in Hi; [|change (<[S i := ?v]> (k :: R)) with (k :: <[i := v]> R)]; cbn [concat].
  - injection Hi as <-. change (<[0%nat := ?v]> (k :: R)) with (v :: R). cbn [concat]. rewrite ins_here; [done|]. apply Forall_app. split; apply Forall_forall; intros x Hx.
    + rewrite (Hk x Hx). apply Z.leb_le. lia.
    + pose proof (placed_concat _ _ _ _ HR Hx). apply Z.leb_le. lia.
  - replace (o + Z.of_nat (S i)) with (o + 1 + Z.of_nat i) by lia.
    rewrite (IH (o + 1) i l HR Hi), ins_skip; [done|].
    apply Forall_forall. intros x Hx. rewrite (Hk x Hx). apply Z.leb_gt. lia.
Qed.

(** ** The context of the priority scheduler *)
Definition rq_for (p : Z) : Scheduler_priority_Ready_queue :=
  mk_ready_queue p p (Priority_bit_map_Initialize_information p).

Definition nonempty (R : list (list Z)) (p : Z) : Prop := exists l, R !! Z.to_nat p = Some l /\ l <> [].

Record ctx_ok (N : Z) (c : Scheduler_priority_Context) : Prop := {
  co_bound : 1 <= N <= 256;
  co_length : Z.of_nat (length (Ready c)) = N;
  co_map : map_holds (nonempty (Ready c)) (Bit_map c);
  co_place : forall i l t, Ready c !! i = Some l -> t ∈ l -> Ready_queues c !! t = Some (rq_for (Z.of_nat i));
  co_nodup : NoDup (concat (Ready c));
  co_rq : forall t rq, Ready_queues c !! t = Some rq -> exists p, 0 <= p < N /\ rq = rq_for p
}.

(** The priority the scheduler has for a thread. *)
Definition cur (c : Scheduler_priority_Context) (t : Z) : Z :=
  match Ready_queues c !! t with Some rq => current_priority rq | None => 0 end.

Lemma elem_of_concat (R : list (list Z)) t : t ∈ concat R <-> exists i l, R !! i = Some l /\ t ∈ l.
Proof.
  rewrite list_elem_of_In, in_concat. split.
  - intros (l & Hl & Ht). apply list_elem_of_In, list_elem_of_lookup in Hl as [i Hi]. exists i, l.
    split; [done|by apply list_elem_of_In].
  - intros (i & l & Hi & Ht). exists l. split; [|by apply list_elem_of_In].
    by apply list_elem_of_In, list_elem_of_lookup_2 with i.
Qed.

Lemma ctx_placed N c : ctx_ok N c -> placed (cur c) 0 (Ready c).
Proof. intros Hc i l t Hi Ht. unfold cur. rewrite (co_place _ _ Hc i l t Hi Ht). cbn. lia. Qed.

Lemma ctx_chain N c p : ctx_ok N c -> 0 <= p < N -> exists l, Ready c !! Z.to_nat p = Some l.
Proof. intros Hc Hp. apply lookup_lt_is_Some_2. pose proof (co_length _ _ Hc). lia. Qed.

(** A thread is on the chain of its priority. *)
Lemma ctx_member N c t : ctx_ok N c -> t ∈ concat (Ready c) ->
  exists p l, 0 <= p < N /\ Ready c !! Z.to_nat p = Some l /\ t ∈ l /\ Ready_queues c !! t = Some (rq_for p) /\ cur c t = p.
Proof.
  intros Hc Ht. apply elem_of_concat in Ht as (i & l & Hi & Ht). exists (Z.of_nat i), l.
  pose proof (co_place _ _ Hc i l t Hi Ht) as Hrq. pose proof (co_length _ _ Hc).
  apply lookup_lt_Some in Hi as Hlt. unfold cur. rewrite Hrq, Nat2Z.id. split_and!; try done; lia.
Qed.

Section Context.
Context `{Bintime}.
Implicit Types s : sched_state Scheduler_priority_Context.

Lemma pc_get_bind {B} (k : Scheduler_priority_Context -> cm (sched_state Scheduler_priority_Context) B) s :
  (c ← pc_get; k c) s = k (sc_context s) s.
Proof. apply gets_bind. Qed.

Lemma rq_bind {B} t rq (k : Scheduler_priority_Ready_queue -> cm (sched_state Scheduler_priority_Context) B) s :
  Ready_queues (sc_context s) !! t = Some rq -> (r ← ready_queue_of t; k r) s = k rq s.
Proof.
  intros Hrq. unfold ready_queue_of. rewrite cm_bind_assoc, pc_get_bind.
  apply lift_bind. unfold mem_load. by rewrite Hrq.
Qed.

Lemma ld_Ready_bind {B} p l (k : list Z -> cm (sched_state Scheduler_priority_Context) B) s :
  0 <= p -> Ready (sc_context s) !! Z.to_nat p = Some l -> (r ← ld_Ready p; k r) s = k l s.
Proof.
  intros Hp Hl. unfold ld_Ready. rewrite cm_bind_assoc, pc_get_bind. apply lift_bind. by apply arr_get_ok.
Qed.

Lemma st_Ready_bind {B} p l (k : unit -> cm (sched_state Scheduler_priority_Context) B) s :
  0 <= p < Z.of_nat (length (Ready (sc_context s))) ->
  (r ← st_Ready p l; k r) s = k tt (set_sc_context (set_Ready (<[Z.to_nat p := l]> (Ready (sc_context s))) (sc_context s)) s).
Proof.
  intros Hp. unfold st_Ready. rewrite cm_bind_assoc, pc_get_bind, cm_bind_assoc.
  rewrite (lift_bind _ _ _ _ (arr_set_ok _ _ _ Hp)). apply modify_bind.
Qed.

Lemma bit_map_run f s b :
  f (Bit_map (sc_context s)) = Ok b -> bit_map_op f s = Ok (tt, set_sc_context (set_Bit_map b (sc_context s)) s).
Proof. intros Hf. unfold bit_map_op. by rewrite pc_get_bind, (lift_bind _ _ _ _ Hf). Qed.

Lemma nonempty_range N R p : Z.of_nat (length R) = N -> 0 <= p -> nonempty R p -> p < N.
Proof. intros Hl Hp (l & Hi & _). apply lookup_lt_Some in Hi. lia. Qed.

(** The chain with [t] alone becomes empty. *)
Lemma extract_single R i t :
  NoDup (concat R) -> R !! i = Some [t] -> chain_extract t <$> R = <[i := []]> R.
Proof.
  intros Hnd Hi. apply list_eq. intros j. rewrite list_lookup_fmap.
  destruct (decide (j = i)) as [->|Hj].
  - rewrite list_lookup_insert_eq by (by eapply lookup_lt_Some). rewrite Hi. cbn. unfold chain_extract. cbn.
    by rewrite decide_False by tauto.
  - rewrite list_lookup_insert_ne by done. destruct (R !! j) as [l|] eqn:Hl; [|done]. cbn. f_equal.
    apply extract_absent. intros Ht.
    assert (Hsplit : exists R1 R2, R = R1 ++ l :: R2 /\ t ∈ concat (R1 ++ R2)).
    { exists (take j R), (drop (S j) R). split; [by rewrite take_drop_middle|]. apply elem_of_concat.
      destruct (decide (i < j)%nat).
      - exists i, [t]. split; [|by left]. rewrite lookup_app_l by (rewrite length_take; apply lookup_lt_Some in Hl; lia).
        by rewrite lookup_take_lt.
      - exists (i - 1)%nat, [t]. split; [|by left]. apply lookup_lt_Some in Hl as Hlt.
        rewrite lookup_app_r; rewrite length_take; [|lia]. rewrite lookup_drop.
        by replace (S j + (i - 1 - j `min` length R))%nat with i by lia. }
    destruct Hsplit as (R1 & R2 & -> & Hin). rewrite concat_app in Hnd, Hin. cbn in Hnd.
    rewrite elem_of_app in Hin. apply NoDup_app in Hnd as (_ & Hd & Hnd). apply NoDup_app in Hnd as (_ & Hd2 & _).
    destruct Hin as [Hin|Hin]; [apply (Hd t Hin); apply elem_of_app; by left|by apply (Hd2 t Ht)].
Qed.

(** A thread is on one chain only. *)
Lemma other_chain N c t i l j :
  ctx_ok N c -> Ready c !! i = Some l -> t ∈ l -> j <> i -> chain_extract t <$> Ready c !! j = Ready c !! j.
Proof.
  intros Hc Hl Ht Hj. destruct (Ready c !! j) as [k|] eqn:Hk; [|done]. cbn. f_equal. apply extract_absent. intros Htk.
  pose proof (co_place _ _ Hc _ _ _ Hk Htk) as Hr1. pose proof (co_place _ _ Hc _ _ _ Hl Ht) as Hr2.
  rewrite Hr1 in Hr2. injection Hr2 as He _. lia.
Qed.

Lemma extract_ctx N c t b :
  ctx_ok N c -> map_holds (nonempty (chain_extract t <$> Ready c)) b ->
  ctx_ok N (mk_priority_context b (chain_extract t <$> Ready c) (Ready_queues c)).
Proof.
  intros [Hb Hl Hm Hp Hnd Hrq] Hm'. split; cbn; try done.
  - by rewrite length_fmap.
  - intros i l x Hi Hx. rewrite list_lookup_fmap in Hi. destruct (Ready c !! i) as [k|] eqn:Hk; [|done].
    cbn in Hi. injection Hi as <-. apply elem_of_extract in Hx as [_ Hx]. by apply (Hp i k x).
  - rewrite concat_fmap_extract. by apply NoDup_filter.
Qed.

Lemma ready_extract_run N s t p l :
  ctx_ok N (sc_context s) -> 0 <= p < N -> Ready (sc_context s) !! Z.to_nat p = Some l -> t ∈ l ->
  exists c', Scheduler_priority_Ready_queue_extract t (rq_for p) s = Ok (tt, set_sc_context c' s) /\
    ctx_ok N c' /\ Ready c' = chain_extract t <$> Ready (sc_context s) /\ Ready_queues c' = Ready_queues (sc_context s).
Proof.
  intros Hc Hp Hl Ht. set (c := sc_context s) in *. pose proof (co_length _ _ Hc) as Hlen.
  unfold Scheduler_priority_Ready_queue_extract. cbn [ready_chain rq_for]. rewrite (ld_Ready_bind p l) by (done || lia).
  unfold Chain_Has_only_one_node. destruct (bool_decide_reflect (length l = 1%nat)) as [H1|H1].
  - destruct l as [|x [|]]; try done. apply list_elem_of_singleton in Ht as ->.
    rewrite st_Ready_bind by (fold c; lia). set (s1 := set_sc_context _ s).
    destruct (remove_holds _ _ p (co_map _ _ Hc)) as (b & Hb & Hm); [pose proof (co_bound _ _ Hc); lia|].
    pose proof (extract_single _ _ _ (co_nodup _ _ Hc) Hl) as He.
    eexists. split; [apply (bit_map_run _ s1 b Hb)|]. cbn. fold c. rewrite <- He. split; [|done].
    apply (extract_ctx N c x b); [done|]. eapply map_holds_proper; [|exact Hm]. intros q Hq. rewrite He. unfold nonempty. cbn.
    destruct (decide (q = p)) as [->|Hne].
    + rewrite list_lookup_insert_eq by lia. split; [tauto|]. by intros (k & [= <-] & ?).
    + rewrite list_lookup_insert_ne by lia. tauto.
  - rewrite pc_get_bind. eexists. split; [reflexivity|]. fold c. split; [|done].
    apply (extract_ctx N c t (Bit_map c)); [done|]. eapply map_holds_proper; [|exact (co_map _ _ Hc)]. intros q Hq.
    unfold nonempty. rewrite list_lookup_fmap. destruct (decide (q = p)) as [->|Hne].
    + rewrite Hl. cbn. split; [intros _|intros _; exists l; split; [done|intros ->; by apply elem_of_nil in Ht]].
      eexists. split; [done|]. intros Hz. destruct l as [|x [|y l]]; [by apply elem_of_nil in Ht|done|].
      pose proof (co_nodup _ _ Hc) as Hnd.
      assert (Hxy : NoDup (x :: y :: l)).
      { rewrite <- (take_drop_middle _ _ _ Hl), concat_app in Hnd. apply NoDup_app in Hnd as (_ & _ & Hnd).
        by apply NoDup_app in Hnd as (Hnd & _). }
      apply NoDup_cons in Hxy as [Hxy _]. apply not_elem_of_cons in Hxy as [Hxy _].
      destruct (decide (x = t)) as [->|Hx].
      * apply (elem_of_nil y). rewrite <- Hz. apply elem_of_extract. split; [by intros ->|]. right. left.
      * apply (elem_of_nil x). rewrite <- Hz. apply elem_of_extract. split; [done|]. left.
    + rewrite (other_chain N c t (Z.to_nat p) l (Z.to_nat q) Hc Hl Ht) by lia. tauto.
Qed.

(** Insertion into the chain of the priority of a thread. *)
Lemma insert_ctx N c t p l l' b :
  ctx_ok N c -> 0 <= p < N -> Ready c !! Z.to_nat p = Some l -> l' ≡ₚ t :: l -> t ∉ concat (Ready c) ->
  Ready_queues c !! t = Some (rq_for p) -> map_holds (fun q => q = p \/ nonempty (Ready c) q) b ->
  ctx_ok N (mk_priority_context b (<[Z.to_nat p := l']> (Ready c)) (Ready_queues c)).
Proof.
  intros [Hb Hlen Hm Hpl Hnd Hrq] Hp Hl Hperm Ht Hrqt Hb'. split; cbn; try done.
  - by rewrite length_insert.
  - eapply map_holds_proper; [|exact Hb']. intros q Hq. unfold nonempty. destruct (decide (q = p)) as [->|Hne].
    + rewrite list_lookup_insert_eq by lia. split; [|by auto]. intros _. exists l'. split; [done|].
      intros ->. by apply Permutation_nil_cons in Hperm.
    + rewrite list_lookup_insert_ne by lia. split; [by intros [?|?]|by auto].
  - intros i k x Hi Hx. apply list_lookup_insert_Some in Hi as [(<- & <- & _)|[Hne Hi]]; [|by apply (Hpl i k x)].
    rewrite Z2Nat.id by lia. rewrite Hperm in Hx. apply elem_of_cons in Hx as [->|Hx]; [done|].
    rewrite (Hpl _ _ _ Hl Hx). by rewrite Z2Nat.id by lia.
  - assert (Hc : concat (<[Z.to_nat p := l']> (Ready c)) ≡ₚ t :: concat (Ready c)).
    { rewrite insert_take_drop by (by eapply lookup_lt_Some). rewrite <- (take_drop_middle _ _ _ Hl) at 3.
      rewrite !concat_app. cbn. rewrite Hperm. cbn. by rewrite <- Permutation_middle. }
    rewrite Hc. by constructor.
Qed.

Lemma enqueue_run N s t p l :
  ctx_ok N (sc_context s) -> 0 <= p < N -> Ready (sc_context s) !! Z.to_nat p = Some l ->
  t ∉ concat (Ready (sc_context s)) -> Ready_queues (sc_context s) !! t = Some (rq_for p) ->
  exists c', Scheduler_priority_Ready_queue_enqueue t (rq_for p) s = Ok (tt, set_sc_context c' s) /\
    ctx_ok N c' /\ Ready c' = <[Z.to_nat p := l ++ [t]]> (Ready (sc_context s)) /\
    Ready_queues c' = Ready_queues (sc_context s).
Proof.
  intros Hc Hp Hl Ht Hrq. pose proof (co_length _ _ Hc) as Hlen. unfold Scheduler_priority_Ready_queue_enqueue.
  cbn [ready_chain rq_for]. rewrite (ld_Ready_bind p l), st_Ready_bind by (done || lia). set (s1 := set_sc_context _ s).
  destruct (add_holds _ _ p (co_map _ _ Hc)) as (b & Hb & Hm); [pose proof (co_bound _ _ Hc); lia|].
  eexists. split; [apply (bit_map_run _ s1 b Hb)|]. split; [|done].
  apply (insert_ctx N _ t p l _ b Hc Hp Hl); try done. by rewrite Permutation_app_comm.
Qed.

Lemma enqueue_first_run N s t p l :
  ctx_ok N (sc_context s) -> 0 <= p < N -> Ready (sc_context s) !! Z.to_nat p = Some l ->
  t ∉ concat (Ready (sc_context s)) -> Ready_queues (sc_context s) !! t = Some (rq_for p) ->
  exists c', Scheduler_priority_Ready_queue_enqueue_first t (rq_for p) s = Ok (tt, set_sc_context c' s) /\
    ctx_ok N c' /\ Ready c' = <[Z.to_nat p := t :: l]> (Ready (sc_context s)) /\
    Ready_queues c' = Ready_queues (sc_context s).
Proof.
  intros Hc Hp Hl Ht Hrq. pose proof (co_length _ _ Hc) as Hlen. unfold Scheduler_priority_Ready_queue_enqueue_first.
  cbn [ready_chain rq_for]. rewrite (ld_Ready_bind p l), st_Ready_bind by (done || lia). set (s1 := set_sc_context _ s).
  destruct (add_holds _ _ p (co_map _ _ Hc)) as (b & Hb & Hm); [pose proof (co_bound _ _ Hc); lia|].
  eexists. split; [apply (bit_map_run _ s1 b Hb)|]. split; [|done].
  by apply (insert_ctx N _ t p l _ b Hc Hp Hl).
Qed.

(** The bit map leads to the first thread of all chains. *)
Lemma ready_first_run N s h r :
  ctx_ok N (sc_context s) -> concat (Ready (sc_context s)) = h :: r ->
  Scheduler_priority_Ready_queue_first s = Ok (h, s).
Proof.
  intros Hc Hr. set (c := sc_context s) in *. pose proof (co_bound _ _ Hc) as HN. pose proof (co_length _ _ Hc) as Hlen.
  assert (Hh : h ∈ concat (Ready c)) by (rewrite Hr; left).
  destruct (ctx_member N c h Hc Hh) as (p0 & l0 & Hp0 & Hl0 & Hin0 & _).
  destruct (get_highest _ _ (co_map _ _ Hc)) as (p & Hget & Hp & (l & Hl & Hne) & Hmin).
  { exists p0. split; [lia|]. exists l0. split; [done|]. intros ->. by apply elem_of_nil in Hin0. }
  unfold Scheduler_priority_Ready_queue_first. rewrite pc_get_bind. fold c.
  rewrite (lift_bind _ _ _ _ Hget), (ld_Ready_bind p l) by (done || lia).
  assert (Hz : concat (take (Z.to_nat p) (Ready c)) = []).
  { destruct (concat (take (Z.to_nat p) (Ready c))) as [|x k0] eqn:Hk0; [done|]. exfalso.
    assert (Hx : x ∈ concat (take (Z.to_nat p) (Ready c))) by (rewrite Hk0; left). apply elem_of_concat in Hx as (i & k & Hi & Hx).
    apply lookup_take_Some in Hi as [Hi Hlt]. apply (Hmin (Z.of_nat i)); [lia|]. exists k. rewrite Nat2Z.id.
    split; [done|]. intros ->. by apply elem_of_nil in Hx. }
  rewrite <- (take_drop_middle _ _ _ Hl), concat_app, Hz in Hr. destruct l as [|y l]; [done|]. cbn in Hr.
  by injection Hr as -> _.
Qed.

End Context.
