(* ===== verification/SchedulerSim.v ===== *)
(** * The schedulers: simulation

    The priority scheduler with its chains and its bit map does what the simple
    scheduler does with one ordered chain: each operation takes both from
    corresponding states to corresponding states, keeps the invariant of the
    ready queues and leaves a heir that is ready. *)

From stdpp Require Import base tactics numbers option list list_numbers gmap fin_maps.
From Stdlib Require Import ZArith Lia.
From S2P Require Import Prelude Chain Status Timespec Thread PriorityMap Scheduler SchedulerFacts.

Open Scope Z_scope.

(** ** The heir *)
Section Heir.
Context {X : Type} `{Bintime}.
Implicit Types s : sched_state X.

Lemma sc_ld_bind {A B} t th (f : sched_thread -> A) (k : A -> cm (sched_state X) B) s :
  sc_threads s !! t = Some th -> (x ← sc_ld t f; k x) s = k (f th) s.
Proof. intros Ht. unfold sc_ld. rewrite cm_bind_assoc. by rewrite (ldm_bind _ _ th). Qed.

Lemma sc_upd_bind {B} t th f (k : unit -> cm (sched_state X) B) s :
  sc_threads s !! t = Some th ->
  (x ← sc_upd t f; k x) s = k tt (set_sc_threads (<[t := f th]> (sc_threads s)) s).
Proof.
  intros Ht. unfold sc_upd. rewrite cm_bind_assoc. rewrite (ldm_bind _ _ th) by done.
  by rewrite stm_bind by (by exists th).
Qed.

Lemma involved_bind {B} t (k : bool -> bool -> cm (sched_state X) B) s :
  (e ← Thread_Is_executing t; h ← Thread_Is_heir t; k e h) s = k (t =? sc_executing s) (t =? sc_heir s) s.
Proof. done. Qed.

(** The state after the heir is updated. *)
Definition upd_heir (new_heir : Z) (force : bool) s : sched_state X :=
  if (sc_heir s =? new_heir) ||
     negb (default false (st_is_preemptible <$> sc_threads s !! sc_heir s) || force) then s
  else
    let u := default (sc_uptime s) (sc_cpu_time_used s !! sc_heir s) in
    let ran := Timestamp_Subtract (sc_cpu_usage_timestamp s) (sc_uptime s) in
    mk_sched_state (sc_threads s) new_heir (sc_executing s) true (sc_uptime s)
      (<[sc_heir s := (Timestamp_Add_to u ran).1]> (sc_cpu_time_used s)) (sc_uptime s) (sc_context s).

Lemma update_heir_run new force s :
  is_Some (sc_threads s !! sc_heir s) -> is_Some (sc_cpu_time_used s !! sc_heir s) ->
  Scheduler_Update_heir new force s = Ok (tt, upd_heir new force s).
Proof.
  intros [th Hth] [u Hu]. unfold Scheduler_Update_heir, upd_heir. rewrite gets_bind.
  destruct (sc_heir s =? new); [done|]. rewrite (sc_ld_bind _ th) by done. rewrite Hth, Hu. cbn.
  destruct (st_is_preemptible th || force); cbn [negb c_if]; [|done]. unfold Thread_Update_CPU_time_used.
  rewrite !cm_bind_assoc, gets_bind, cm_bind_assoc, gets_bind, cm_bind_assoc, gets_bind. by rewrite Hu.
Qed.

Lemma upd_heir_threads new force s : sc_threads (upd_heir new force s) = sc_threads s.
Proof. unfold upd_heir. by destruct (_ || _). Qed.
Lemma upd_heir_context new force s : sc_context (upd_heir new force s) = sc_context s.
Proof. unfold upd_heir. by destruct (_ || _). Qed.

(** The heir is the new one, or the old one which is not preemptible. *)
Lemma upd_heir_heir new force s :
  sc_heir (upd_heir new force s) = new \/
  (force = false /\ sc_heir (upd_heir new force s) = sc_heir s /\
   default false (st_is_preemptible <$> sc_threads s !! sc_heir s) = false).
Proof.
  unfold upd_heir. destruct (Z.eqb_spec (sc_heir s) new); [by left|]. cbn [orb].
  destruct (default false _) eqn:E; [by left|]. destruct force; [by left|]. by right.
Qed.

Lemma upd_heir_used new force s t : is_Some (sc_cpu_time_used s !! t) -> is_Some (sc_cpu_time_used (upd_heir new force s) !! t).
Proof.
  intros Ht. unfold upd_heir. destruct (_ || _); [done|]. cbn. destruct (decide (t = sc_heir s)) as [->|Hne].
  - rewrite lookup_insert_eq. by eexists.
  - by rewrite lookup_insert_ne.
Qed.

(** A preemptible heir needs no force. *)
Lemma upd_heir_preemptible new s th :
  sc_threads s !! sc_heir s = Some th -> st_is_preemptible th = true -> upd_heir new true s = upd_heir new false s.
Proof. intros Hth Hp. unfold upd_heir. by rewrite Hth, orb_true_r; cbn; rewrite Hp. Qed.

End Heir.

(** ** The corresponding state *)

(** The chains one after another. *)
Definition abs (s : sched_state Scheduler_priority_Context) : sched_state (list Z) :=
  mk_sched_state (sc_threads s) (sc_heir s) (sc_executing s) (sc_dispatch_necessary s) (sc_cpu_usage_timestamp s)
    (sc_cpu_time_used s) (sc_uptime s) (concat (Ready (sc_context s))).

Definition ready_list (s : sched_state Scheduler_priority_Context) : list Z := concat (Ready (sc_context s)).

Lemma abs_upd_heir `{Bintime} new force s : abs (upd_heir new force s) = upd_heir new force (abs s).
Proof. unfold upd_heir. cbn. by destruct (_ || _). Qed.

(** ** The invariant *)
Record base_ok (N : Z) (s : sched_state Scheduler_priority_Context) : Prop := {
  bo_ctx : ctx_ok N (sc_context s);
  bo_thr : forall t th, sc_threads s !! t = Some th ->
    0 <= sn_value th < N /\ sn_wait_priority th = sn_value th /\
    is_Some (Ready_queues (sc_context s) !! t) /\ is_Some (sc_cpu_time_used s !! t);
  bo_ready : forall t, t ∈ ready_list s <-> exists th, sc_threads s !! t = Some th /\ States_Is_ready (st_current_state th) = true;
  bo_rq : forall t th, sc_threads s !! t = Some th -> t ∈ ready_list s ->
    Ready_queues (sc_context s) !! t = Some (rq_for (sn_value th));
  bo_heir : is_Some (sc_threads s !! sc_heir s)
}.

(** The heir is ready, and none is more important than a preemptible heir. *)
Record sched_ok (N : Z) (s : sched_state Scheduler_priority_Context) : Prop := {
  so_base : base_ok N s;
  so_heir : sc_heir s ∈ ready_list s;
  so_best : forall h, sc_threads s !! sc_heir s = Some h -> st_is_preemptible h = true ->
    forall t th, t ∈ ready_list s -> sc_threads s !! t = Some th -> sn_value h <= sn_value th
}.

(** The priority of a thread for the schedulers. *)
Definition prio (m : gmap Z sched_thread) (t : Z) : Z := default 0 (sn_value <$> m !! t).

Lemma prio_eq m t th : m !! t = Some th -> prio m t = sn_value th.
Proof. intros Ht. unfold prio. by rewrite Ht. Qed.

Lemma cur_prio N s t : base_ok N s -> t ∈ ready_list s -> cur (sc_context s) t = prio (sc_threads s) t.
Proof.
  intros Hs Ht. pose proof Ht as (th & Hth & _)%(bo_ready _ _ Hs). unfold cur.
  rewrite (bo_rq _ _ Hs t th) by done. by rewrite (prio_eq _ _ _ Hth).
Qed.

Lemma placed_first pr o R h r t : placed pr o R -> concat R = h :: r -> t ∈ concat R -> pr h <= pr t.
Proof.
  revert o. induction R as [|l R IH]; intros o Hp Hc Ht; [done|]. apply placed_cons in Hp as [Hl HR].
  destruct l as [|x l]; [by apply (IH (o + 1))|]. cbn in Hc. injection Hc as -> _. rewrite (Hl h) by left.
  cbn in Ht. apply elem_of_cons in Ht as [->|Ht]; [rewrite Hl; [lia|left]|].
  apply elem_of_app in Ht as [Ht|Ht]; [rewrite Hl; [lia|by right]|]. pose proof (placed_concat _ _ _ _ HR Ht). lia.
Qed.

(** The first thread is one of the most important. *)
Lemma first_best N s h r th t tt' :
  base_ok N s -> ready_list s = h :: r -> sc_threads s !! h = Some th -> t ∈ ready_list s ->
  sc_threads s !! t = Some tt' -> sn_value th <= sn_value tt'.
Proof.
  intros Hs Hr Hth Ht Htt. pose proof (placed_first _ _ _ h r t (ctx_placed _ _ (bo_ctx _ _ Hs)) Hr Ht) as Hle.
  rewrite !(cur_prio N s) in Hle by (done || (rewrite Hr; left)).
  by rewrite (prio_eq _ _ _ Hth), (prio_eq _ _ _ Htt) in Hle.
Qed.

(** ** The chain of the simple scheduler *)
Section Insert.
Context `{Bintime}.
Implicit Types s : sched_state (list Z).

Lemma insert_ordered_run order before t l s :
  (forall x, x ∈ l -> order t x s = Ok (before x, s)) ->
  Chain_Insert_ordered_unprotected l t order s = Ok (ins before t l, s).
Proof.
  induction l as [|x l IH]; intros Ho; cbn [Chain_Insert_ordered_unprotected ins]; [done|].
  rewrite (cm_bind_ok _ _ _ _ _ (Ho x ltac:(left))). destruct (before x); [done|].
  rewrite (cm_bind_ok _ _ _ (ins before t l) s); [done|]. apply IH. intros y Hy. apply Ho. by right.
Qed.

Lemma ins_ext b b' t l : (forall x, x ∈ l -> b x = b' x) -> ins b t l = ins b' t l.
Proof.
  induction l as [|x l IH]; intros Hb; [done|]. cbn. rewrite (Hb x) by left. rewrite IH; [done|].
  intros y Hy. apply Hb. by right.
Qed.

(** The threads of the chain and the inserted one have their priorities. *)
Definition known (m : gmap Z sched_thread) (x : Z) : Prop :=
  exists th, m !! x = Some th /\ sn_wait_priority th = sn_value th.

Lemma order_run (f : Z -> Z -> bool) t x s :
  known (sc_threads s) t -> known (sc_threads s) x ->
  (p ← Thread_Get_priority t; q ← Thread_Get_priority x; mret (f p q)) s =
  Ok (f (prio (sc_threads s) t) (prio (sc_threads s) x), s).
Proof.
  intros (th & Ht & Hw) (xh & Hx & Hxw). unfold Thread_Get_priority. rewrite (sc_ld_bind _ th) by done.
  rewrite (sc_ld_bind _ xh) by done. by rewrite (prio_eq _ _ _ Ht), (prio_eq _ _ _ Hx), Hw, Hxw.
Qed.

Lemma fifo_run t s :
  known (sc_threads s) t -> (forall x, x ∈ sc_context s -> known (sc_threads s) x) ->
  Scheduler_simple_Insert_priority_fifo t s =
  Ok (tt, set_sc_context (ins (fun x => prio (sc_threads s) t <? prio (sc_threads s) x) t (sc_context s)) s).
Proof.
  intros Ht Hx. unfold Scheduler_simple_Insert_priority_fifo. rewrite gets_bind.
  erewrite cm_bind_ok; [reflexivity|]. apply insert_ordered_run. intros x Hin. apply (order_run Z.ltb); auto.
Qed.

Lemma lifo_run t s :
  known (sc_threads s) t -> (forall x, x ∈ sc_context s -> known (sc_threads s) x) ->
  Scheduler_simple_Insert_priority_lifo t s =
  Ok (tt, set_sc_context (ins (fun x => prio (sc_threads s) t <=? prio (sc_threads s) x) t (sc_context s)) s).
Proof.
  intros Ht Hx. unfold Scheduler_simple_Insert_priority_lifo. rewrite gets_bind.
  erewrite cm_bind_ok; [reflexivity|]. apply insert_ordered_run. intros x Hin. apply (order_run Z.leb); auto.
Qed.

End Insert.

(** ** Choosing a heir *)

Lemma base_known N s t : base_ok N s -> is_Some (sc_threads s !! t) -> known (sc_threads s) t.
Proof. intros Hs [th Hth]. exists th. split; [done|]. by destruct (bo_thr _ _ Hs t th Hth) as (_ & ? & _). Qed.

Lemma ready_known N s t : base_ok N s -> t ∈ ready_list s -> known (sc_threads s) t.
Proof. intros Hs Ht. apply (base_known N s t Hs). apply (bo_ready _ _ Hs) in Ht as (th & Hth & _). by exists th. Qed.

Section Both.
Context `{Bintime} (N : Z).
Implicit Types s : sched_state Scheduler_priority_Context.

Lemma upd_heir_base new force s : base_ok N s -> new ∈ ready_list s -> base_ok N (upd_heir new force s).
Proof.
  intros Hs Hn. assert (Hrl : ready_list (upd_heir new force s) = ready_list s).
  { unfold ready_list. by rewrite upd_heir_context. }
  destruct Hs as [Hc Ht Hr Hq Hh]. split; rewrite ?Hrl, ?upd_heir_context, ?upd_heir_threads; try done.
  - intros t th Hth. destruct (Ht t th Hth) as (? & ? & ? & ?). split_and!; try tauto; try lia. by apply upd_heir_used.
  - destruct (upd_heir_heir new force s) as [->|(_ & -> & _)]; [|done].
    apply Hr in Hn as (th & Hth & _). by exists th.
Qed.

(** Whatever the new heir is among the most important, the state is sound. *)
Lemma upd_heir_ok new force s nh :
  base_ok N s -> new ∈ ready_list s -> sc_threads s !! new = Some nh ->
  (forall t th, t ∈ ready_list s -> sc_threads s !! t = Some th -> sn_value nh <= sn_value th) ->
  force = true \/ sc_heir s ∈ ready_list s ->
  sched_ok N (upd_heir new force s).
Proof.
  intros Hs Hn Hnh Hbest Hf. split; [by apply upd_heir_base|..]; unfold ready_list in *; rewrite ?upd_heir_context, ?upd_heir_threads.
  - destruct (upd_heir_heir new force s) as [->|(-> & -> & _)]; [done|]. by destruct Hf.
  - destruct (upd_heir_heir new force s) as [->|(-> & -> & Hp)].
    + intros h Hh. rewrite Hnh in Hh. injection Hh as <-. auto.
    + intros h Hh Hph. rewrite Hh in Hp. cbn in Hp. congruence.
Qed.

Lemma update_heir_both new force s :
  base_ok N s ->
  Scheduler_Update_heir new force s = Ok (tt, upd_heir new force s) /\
  Scheduler_Update_heir new force (abs s) = Ok (tt, abs (upd_heir new force s)).
Proof.
  intros Hs. destruct (bo_heir _ _ Hs) as [h Hh]. destruct (bo_thr _ _ Hs _ _ Hh) as (_ & _ & _ & Hu).
  split; [|rewrite abs_upd_heir]; apply update_heir_run; by try exists h.
Qed.

(** The schedulers take the same thread from the front of their queues. *)
Lemma schedule_both t force s h r :
  base_ok N s -> ready_list s = h :: r ->
  Scheduler_priority_Schedule_body t force s = Ok (tt, upd_heir h force s) /\
  Scheduler_simple_Schedule_body t force (abs s) = Ok (tt, abs (upd_heir h force s)).
Proof.
  intros Hs Hr. destruct (update_heir_both h force s Hs) as [Hp Hsi]. split.
  - unfold Scheduler_priority_Schedule_body. by rewrite (cm_bind_ok _ _ _ _ _ (ready_first_run N s h r (bo_ctx _ _ Hs) Hr)).
  - unfold Scheduler_simple_Schedule_body. rewrite gets_bind. unfold ready_list in Hr. cbn. by rewrite Hr.
Qed.

Lemma schedule_ok force s h r :
  base_ok N s -> ready_list s = h :: r -> force = true \/ sc_heir s ∈ ready_list s ->
  sched_ok N (upd_heir h force s).
Proof.
  intros Hs Hr Hf. assert (Hh : h ∈ ready_list s) by (rewrite Hr; left).
  pose proof Hh as (th & Hth & _)%(bo_ready _ _ Hs). apply (upd_heir_ok h force s th); try done.
  intros t tt' Ht Htt. by apply (first_best N s h r th t tt').
Qed.

Lemma schedule_step t force s :
  base_ok N s -> ready_list s <> [] -> force = true \/ sc_heir s ∈ ready_list s ->
  exists s', Scheduler_priority_Schedule_body t force s = Ok (tt, s') /\
    Scheduler_simple_Schedule_body t force (abs s) = Ok (tt, abs s') /\ sched_ok N s'.
Proof.
  intros Hs Hne Hf. destruct (ready_list s) as [|h r] eqn:Hr; [done|].
  destruct (schedule_both t force s h r Hs Hr) as [Hp Hsi]. exists (upd_heir h force s).
  split_and!; try done. apply (schedule_ok force s h r); [done..|]. by rewrite Hr.
Qed.

End Both.

(** ** One thread and the context change *)
Section Steps.
Context `{Bintime} (N : Z).
Implicit Types s : sched_state Scheduler_priority_Context.

Lemma base_change s t th th' c' :
  base_ok N s -> sc_threads s !! t = Some th -> ctx_ok N c' ->
  0 <= sn_value th' < N -> sn_wait_priority th' = sn_value th' ->
  (forall x, x <> t -> Ready_queues c' !! x = Ready_queues (sc_context s) !! x) -> is_Some (Ready_queues c' !! t) ->
  (forall x, x <> t -> x ∈ concat (Ready c') <-> x ∈ ready_list s) ->
  (t ∈ concat (Ready c') <-> States_Is_ready (st_current_state th') = true) ->
  (t ∈ concat (Ready c') -> Ready_queues c' !! t = Some (rq_for (sn_value th'))) ->
  base_ok N (set_sc_context c' (set_sc_threads (<[t := th']> (sc_threads s)) s)).
Proof.
  intros [Hc Ht Hr Hq Hh] Hth Hc' Hv Hw Hrq Hrqt Hl Hlt Hlq. split; cbn; try done.
  - intros x xh Hx. destruct (decide (x = t)) as [->|Hne].
    + rewrite lookup_insert_eq in Hx. injection Hx as <-. split_and!; try done; try lia. by apply (Ht t th).
    + rewrite lookup_insert_ne in Hx by done. rewrite Hrq by done. by apply Ht.
  - intros x. unfold ready_list. cbn. destruct (decide (x = t)) as [->|Hne].
    + rewrite lookup_insert_eq, Hlt. split; [by eexists|]. by intros (? & [= <-] & ?).
    + rewrite lookup_insert_ne by done. rewrite Hl by done. apply Hr.
  - intros x xh Hx Hin. unfold ready_list in Hin. cbn in Hin. destruct (decide (x = t)) as [->|Hne].
    + rewrite lookup_insert_eq in Hx. injection Hx as <-. by apply Hlq.
    + rewrite lookup_insert_ne in Hx by done. rewrite Hrq by done. apply Hq; [done|]. by apply Hl.
  - destruct (decide (sc_heir s = t)) as [->|Hne]; [rewrite lookup_insert_eq; by eexists|].
    by rewrite lookup_insert_ne.
Qed.

Lemma extract_both s t p :
  ctx_ok N (sc_context s) -> t ∈ ready_list s -> Ready_queues (sc_context s) !! t = Some (rq_for p) ->
  exists c', Scheduler_priority_Ready_queue_extract t (rq_for p) s = Ok (tt, set_sc_context c' s) /\
    Scheduler_simple_Extract t (abs s) = Ok (tt, abs (set_sc_context c' s)) /\
    ctx_ok N c' /\ concat (Ready c') = chain_extract t (ready_list s) /\ Ready_queues c' = Ready_queues (sc_context s).
Proof.
  intros Hc Ht Hrq. destruct (ctx_member N _ t Hc Ht) as (p' & l & Hp & Hl & Hin & Hrq' & _).
  rewrite Hrq in Hrq'. injection Hrq' as -> _. destruct (ready_extract_run N s t p' l Hc Hp Hl Hin) as (c' & Hrun & Hc' & HR & HQ).
  assert (Hcat : concat (Ready c') = chain_extract t (ready_list s)) by (by rewrite HR, concat_fmap_extract).
  exists c'. split_and!; try done. unfold Scheduler_simple_Extract. rewrite gets_bind. unfold abs at 3. cbn. by rewrite Hcat.
Qed.

(** The priorities of the queued threads are those of their nodes. *)
Definition synced (s : sched_state Scheduler_priority_Context) : Prop :=
  forall x, x ∈ ready_list s -> known (sc_threads s) x /\ cur (sc_context s) x = prio (sc_threads s) x.

Lemma base_synced s : base_ok N s -> synced s.
Proof. intros Hs x Hx. split; [by apply (ready_known N)|by apply (cur_prio N)]. Qed.

Lemma synced_change s t th' c' :
  base_ok N s -> (forall x, x ∈ concat (Ready c') -> x <> t /\ x ∈ ready_list s) ->
  (forall x, x <> t -> Ready_queues c' !! x = Ready_queues (sc_context s) !! x) ->
  synced (set_sc_context c' (set_sc_threads (<[t := th']> (sc_threads s)) s)).
Proof.
  intros Hb Hl Hq x Hx. apply Hl in Hx as [Hne Hx]. destruct (base_synced s Hb x Hx) as [(xh & Hxh & Hxw) Hcur].
  split; [exists xh; cbn; by rewrite lookup_insert_ne|]. cbn. unfold cur, prio in *.
  by rewrite Hq, lookup_insert_ne.
Qed.

Definition enqueue_at (prepend_it : bool) : Z -> Scheduler_priority_Ready_queue -> cm (sched_state Scheduler_priority_Context) unit :=
  if prepend_it then Scheduler_priority_Ready_queue_enqueue_first else Scheduler_priority_Ready_queue_enqueue.
Definition insert_at (prepend_it : bool) : Z -> cm (sched_state (list Z)) unit :=
  if prepend_it then Scheduler_simple_Insert_priority_lifo else Scheduler_simple_Insert_priority_fifo.

Lemma enqueue_both s t p (prepend_it : bool) :
  ctx_ok N (sc_context s) -> synced s -> t ∉ ready_list s -> 0 <= p < N ->
  Ready_queues (sc_context s) !! t = Some (rq_for p) -> known (sc_threads s) t -> prio (sc_threads s) t = p ->
  exists c', enqueue_at prepend_it t (rq_for p) s = Ok (tt, set_sc_context c' s) /\
    insert_at prepend_it t (abs s) = Ok (tt, abs (set_sc_context c' s)) /\
    ctx_ok N c' /\ (forall x, x ∈ concat (Ready c') <-> x = t \/ x ∈ ready_list s) /\
    Ready_queues c' = Ready_queues (sc_context s).
Proof.
  intros Hc Hsy Ht Hp Hrq Hk Hpr. destruct (ctx_chain N _ p Hc Hp) as [l Hl].
  pose proof (ctx_placed _ _ Hc) as Hpl. unfold enqueue_at, insert_at. destruct prepend_it.
  - destruct (enqueue_first_run N s t p l Hc Hp Hl Ht Hrq) as (c' & Hrun & Hc' & HR & HQ). exists c'.
    assert (Hcat : concat (Ready c') = ins (fun x => p <=? prio (sc_threads s) x) t (ready_list s)).
    { rewrite HR, (concat_prepend (cur (sc_context s)) t _ 0 (Z.to_nat p) l Hpl Hl). apply ins_ext.
      intros x Hx. rewrite Z2Nat.id by lia. f_equal. by apply Hsy. }
    split_and!; try done.
    + rewrite lifo_run; [|done|by apply Hsy]. cbn. rewrite Hpr. unfold abs at 2. cbn. by rewrite Hcat.
    + intros x. rewrite Hcat. apply elem_of_ins.
  - destruct (enqueue_run N s t p l Hc Hp Hl Ht Hrq) as (c' & Hrun & Hc' & HR & HQ). exists c'.
    assert (Hcat : concat (Ready c') = ins (fun x => p <? prio (sc_threads s) x) t (ready_list s)).
    { rewrite HR, (concat_append (cur (sc_context s)) t _ 0 (Z.to_nat p) l Hpl Hl). apply ins_ext.
      intros x Hx. rewrite Z2Nat.id by lia. f_equal. by apply Hsy. }
    split_and!; try done.
    + rewrite fifo_run; [|done|by apply Hsy]. cbn. rewrite Hpr. unfold abs at 2. cbn. by rewrite Hcat.
    + intros x. rewrite Hcat. apply elem_of_ins.
Qed.

(** The node of a thread that is on no chain takes a new priority. *)
Lemma update_ctx c t p :
  ctx_ok N c -> t ∉ concat (Ready c) -> 0 <= p < N -> ctx_ok N (set_Ready_queues (<[t := rq_for p]> (Ready_queues c)) c).
Proof.
  intros [Hb Hl Hm Hpl Hnd Hrq] Ht Hp. split; cbn; try done.
  - intros i l x Hi Hx. rewrite lookup_insert_ne; [by apply (Hpl i l x)|]. intros ->. apply Ht, elem_of_concat. by exists i, l.
  - intros x rq Hx. destruct (decide (x = t)) as [->|Hne].
    + rewrite lookup_insert_eq in Hx. injection Hx as <-. by exists p.
    + rewrite lookup_insert_ne in Hx by done. by apply (Hrq x).
Qed.

Lemma queue_update_run s t p :
  ctx_ok N (sc_context s) -> 0 <= p < N ->
  Scheduler_priority_Ready_queue_update t p s =
  Ok (tt, set_sc_context (set_Ready_queues (<[t := rq_for p]> (Ready_queues (sc_context s))) (sc_context s)) s).
Proof.
  intros Hc Hp. unfold Scheduler_priority_Ready_queue_update. rewrite pc_get_bind.
  pose proof (co_bound _ _ Hc). unfold rq_for. by rewrite u32_id by lia.
Qed.

Lemma queue_refresh s t p :
  ctx_ok N (sc_context s) -> t ∉ ready_list s -> 0 <= p < N -> is_Some (Ready_queues (sc_context s) !! t) ->
  exists c', (forall k : unit -> cm (sched_state Scheduler_priority_Context) unit, (rq ← ready_queue_of t;
     x ← c_if (negb (p =? current_priority rq)) (Scheduler_priority_Ready_queue_update t p); k x) s = k tt (set_sc_context c' s)) /\
    ctx_ok N c' /\ Ready c' = Ready (sc_context s) /\ Ready_queues c' !! t = Some (rq_for p) /\
    forall x, x <> t -> Ready_queues c' !! x = Ready_queues (sc_context s) !! x.
Proof.
  intros Hc Ht Hp [rq Hrq]. destruct (co_rq _ _ Hc t rq Hrq) as (p0 & Hp0 & ->).
  destruct (Z.eqb_spec p p0) as [->|Hne].
  - exists (sc_context s). split_and!; try done. intros k. rewrite (rq_bind _ (rq_for p0)) by done.
    cbn [current_priority rq_for]. rewrite Z.eqb_refl. by destruct s.
  - eexists. split.
    { intros k. rewrite (rq_bind _ (rq_for p0)) by done. cbn [current_priority rq_for]. apply Z.eqb_neq in Hne. rewrite Hne.
      cbn [negb c_if]. by rewrite (cm_bind_ok _ _ _ _ _ (queue_update_run s t p Hc Hp)). }
    split; [by apply update_ctx|]. cbn. rewrite lookup_insert_eq. split_and!; try done.
    intros x Hx. by rewrite lookup_insert_ne.
Qed.

End Steps.

(** ** The operations *)
Section Operations.
Context `{Bintime} (N : Z).
Implicit Types s : sched_state Scheduler_priority_Context.

(** Both schedulers run and reach corresponding sound states. *)
Definition agree (mp : cm (sched_state Scheduler_priority_Context) unit) (ms : cm (sched_state (list Z)) unit) s : Prop :=
  exists s', mp s = Ok (tt, s') /\ ms (abs s) = Ok (tt, abs s') /\ sched_ok N s'.

Lemma agree_ret s : sched_ok N s -> agree (mret tt) (mret tt) s.
Proof. intros Hs. by exists s. Qed.

Lemma agree_upd s t th f kp ks :
  sc_threads s !! t = Some th -> agree kp ks (set_sc_threads (<[t := f th]> (sc_threads s)) s) ->
  agree (sc_upd t f;; kp) (sc_upd t f;; ks) s.
Proof.
  intros Ht (s' & Hp & Hk & Hok). exists s'. rewrite (sc_upd_bind _ th) by done. split; [done|].
  by rewrite (sc_upd_bind _ th) by done.
Qed.

Lemma agree_bind s s1 (mp kp : cm (sched_state Scheduler_priority_Context) unit) (ms ks : cm (sched_state (list Z)) unit) :
  mp s = Ok (tt, s1) -> ms (abs s) = Ok (tt, abs s1) -> agree kp ks s1 -> agree (mp;; kp) (ms;; ks) s.
Proof.
  intros Hp Hm (s' & Hkp & Hks & Hok). exists s'. by rewrite (cm_bind_ok _ _ _ _ _ Hp), (cm_bind_ok _ _ _ _ _ Hm).
Qed.

Lemma agree_schedule t force s :
  base_ok N s -> ready_list s <> [] -> force = true \/ sc_heir s ∈ ready_list s ->
  agree (Scheduler_priority_Schedule_body t force) (Scheduler_simple_Schedule_body t force) s.
Proof. apply schedule_step. Qed.

(** A change of a thread other than the heir that adds no ready thread, or one
    that is not more important, keeps the heir. *)
Lemma heir_stays s s' :
  sched_ok N s -> base_ok N s' -> sc_heir s' = sc_heir s -> sc_heir s ∈ ready_list s' ->
  sc_threads s' !! sc_heir s = sc_threads s !! sc_heir s ->
  (forall h t th, sc_threads s !! sc_heir s = Some h -> st_is_preemptible h = true ->
     t ∈ ready_list s' -> sc_threads s' !! t = Some th ->
     sn_value h <= sn_value th \/ (t ∈ ready_list s /\ sc_threads s !! t = Some th)) ->
  sched_ok N s'.
Proof.
  intros Hs Hb Hh Hin Ht Hbest. split; [done|by rewrite Hh|]. rewrite Hh, Ht. intros h Hth Hp t th Htr Htt.
  destruct (Hbest h t th Hth Hp Htr Htt) as [?|[? ?]]; [done|]. by apply (so_best _ _ Hs h Hth Hp t th).
Qed.

Lemma block_agree s t state :
  sched_ok N s -> t ∈ ready_list s -> States_Is_ready state = false -> chain_extract t (ready_list s) <> [] ->
  agree (sc_upd t (set_st_current_state state);; Scheduler_priority_Block t)
        (sc_upd t (set_st_current_state state);; Scheduler_simple_Block t) s.
Proof.
  intros Hs Ht Hst Hoth. pose proof (so_base _ _ Hs) as Hb. pose proof Ht as (th & Hth & Hr)%(bo_ready _ _ Hb).
  apply (agree_upd s t th); [done|]. set (s1 := set_sc_threads _ s).
  pose proof (bo_rq _ _ Hb t th Hth Ht) as Hrq.
  destruct (extract_both N s1 t (sn_value th) (bo_ctx _ _ Hb) Ht Hrq) as (c' & He & Hes & Hc' & Hcat & HQ).
  assert (Hb1 : base_ok N (set_sc_context c' s1)).
  { apply (base_change N s t th); try done; cbn [sn_value sn_wait_priority set_st_current_state st_current_state].
    - by apply (bo_thr _ _ Hb t th).
    - by apply (bo_thr _ _ Hb t th).
    - intros x _. by rewrite HQ.
    - rewrite HQ. cbn. rewrite Hrq. by eexists.
    - intros x Hx. rewrite Hcat, elem_of_extract. tauto.
    - rewrite Hcat, elem_of_extract, Hst. split; [tauto|done].
    - rewrite Hcat, elem_of_extract. tauto. }
  unfold Scheduler_priority_Block, Scheduler_simple_Block, Scheduler_Generic_block.
  apply (agree_bind s1 (set_sc_context c' s1)); [|done|].
  { unfold Scheduler_priority_Extract_body. by rewrite (rq_bind _ (rq_for (sn_value th))). }
  assert (Hrl : ready_list (set_sc_context c' s1) = chain_extract t (ready_list s)) by done.
  destruct ((t =? sc_executing s) || (t =? sc_heir s)) eqn:E.
  - destruct (agree_schedule t true (set_sc_context c' s1) Hb1) as (s' & Hp & Hsi & Hok); [by rewrite Hrl|by left|].
    exists s'. rewrite !involved_bind. cbn. by rewrite E.
  - exists (set_sc_context c' s1). rewrite !involved_bind. cbn. rewrite E.
    split_and!; try done. apply orb_false_iff in E as [_ E]. apply Z.eqb_neq in E.
    apply (heir_stays s); try done.
    + rewrite Hrl. apply elem_of_extract. split; [congruence|apply (so_heir _ _ Hs)].
    + cbn. by rewrite lookup_insert_ne.
    + intros h x xh Hh Hp Hx Hxh. right. rewrite Hrl, elem_of_extract in Hx. destruct Hx as [Hne Hx].
      cbn in Hxh. by rewrite lookup_insert_ne in Hxh.
Qed.

(** A thread that became ready is the heir when it is more important. *)
Lemma preempt_ok s t th h :
  base_ok N s -> t ∈ ready_list s -> sc_threads s !! t = Some th ->
  sc_heir s ∈ ready_list s -> sc_threads s !! sc_heir s = Some h ->
  (st_is_preemptible h = true -> forall x xh, x ∈ ready_list s -> sc_threads s !! x = Some xh -> x = t \/ sn_value h <= sn_value xh) ->
  sched_ok N (if sn_value th <? sn_value h then upd_heir t (sn_value th =? PRIORITY_PSEUDO_ISR) s else s).
Proof.
  intros Hb Ht Hth Hh Hhh Hbest. destruct (Z.ltb_spec (sn_value th) (sn_value h)) as [Hlt|Hge].
  - destruct (st_is_preemptible h) eqn:Hp; [|destruct (Z.eqb_spec (sn_value th) PRIORITY_PSEUDO_ISR) as [Hz|Hz]].
    + apply (upd_heir_ok N t _ s th); auto. intros x xh Hx Hxh.
      destruct (Hbest eq_refl x xh Hx Hxh) as [->|?]; [|lia]. rewrite Hth in Hxh. injection Hxh as <-. lia.
    + apply (upd_heir_ok N t _ s th); auto. intros x xh Hx Hxh. rewrite Hz.
      destruct (bo_thr _ _ Hb x xh Hxh) as [? _]. unfold PRIORITY_PSEUDO_ISR. lia.
    + unfold upd_heir. rewrite Hhh. cbn. rewrite Hp, orb_true_r. split; [done..|]. intros h' Hh' Hp'. congruence.
  - split; [done..|]. intros h' Hh' Hp' x xh Hx Hxh. rewrite Hhh in Hh'. injection Hh' as <-.
    destruct (Hbest Hp' x xh Hx Hxh) as [->|?]; [|done]. rewrite Hth in Hxh. injection Hxh as <-. lia.
Qed.

(** The queues take a thread that becomes ready. *)
Lemma unblock_queue s t th :
  base_ok N s -> sc_threads s !! t = Some th -> t ∉ ready_list s ->
  exists c', let s1 := set_sc_threads (<[t := set_st_current_state STATES_READY th]> (sc_threads s)) s in
    let s' := set_sc_context c' s1 in
    (forall k, (rq ← ready_queue_of t;
       c_if (negb (sn_value th =? current_priority rq)) (Scheduler_priority_Ready_queue_update t (sn_value th));;
       rq ← ready_queue_of t; Scheduler_priority_Ready_queue_enqueue t rq;; k) s1 = k s' :> outcome (unit * _)) /\
    Scheduler_simple_Insert_priority_fifo t (abs s1) = Ok (tt, abs s') /\
    base_ok N s' /\ (forall x, x ∈ ready_list s' <-> x = t \/ x ∈ ready_list s).
Proof.
  intros Hb Hth Ht. destruct (bo_thr _ _ Hb t th Hth) as (Hv & Hw & Hrq & Hu). set (th' := set_st_current_state STATES_READY th).
  set (s1 := set_sc_threads _ s). assert (Hth1 : sc_threads s1 !! t = Some th') by apply lookup_insert_eq.
  destruct (queue_refresh N s1 t (sn_value th)) as (c1 & Hrun1 & Hc1 & HR1 & Hq1 & Hqo); [apply Hb|done..|].
  set (s2 := set_sc_context c1 s1).
  assert (Hsy : synced s2).
  { apply (synced_change N); [done| |done]. intros x Hx. rewrite HR1 in Hx. split; [by intros ->|done]. }
  assert (Hrl2 : ready_list s2 = ready_list s) by (unfold ready_list; cbn; by rewrite HR1).
  destruct (enqueue_both N s2 t (sn_value th) false) as (c2 & He & Hi & Hc2 & Hmem & HQ); try done.
  { by rewrite Hrl2. } { exists th'. split; [exact Hth1|exact Hw]. } { by apply (prio_eq _ _ th'). }
  exists c2. cbv zeta. split_and!.
  - intros k. rewrite Hrun1. fold s2. rewrite (rq_bind _ (rq_for (sn_value th))) by done. by rewrite (cm_bind_ok _ _ _ _ _ He).
  - assert (Habs : abs s1 = abs s2) by (unfold abs; cbn; by rewrite HR1). by rewrite Habs.
  - apply (base_change N s t th); try done.
    + intros x Hx. rewrite HQ. by apply Hqo.
    + rewrite HQ. cbn. rewrite Hq1. by eexists.
    + intros x Hx. rewrite Hmem, Hrl2. tauto.
    + rewrite Hmem. split; [done|by left].
    + intros _. rewrite HQ. exact Hq1.
  - intros x. unfold ready_list at 1. cbn. by rewrite Hmem, Hrl2.
Qed.

(** The heir is ready, or it is the thread itself when the processor starts. *)
Lemma unblock_agree s t th h :
  base_ok N s -> sc_threads s !! t = Some th -> t ∉ ready_list s -> sc_threads s !! sc_heir s = Some h ->
  sc_heir s = t \/ sc_heir s ∈ ready_list s ->
  (st_is_preemptible h = true -> forall x xh, x ∈ ready_list s -> sc_threads s !! x = Some xh -> sn_value h <= sn_value xh) ->
  agree (sc_upd t (set_st_current_state STATES_READY);; Scheduler_priority_Unblock t)
        (sc_upd t (set_st_current_state STATES_READY);; Scheduler_simple_Unblock t) s.
Proof.
  intros Hb Hth Ht Hh Hhr Hbest. destruct (bo_thr _ _ Hb t th Hth) as (Hv & Hw & _).
  pose proof (co_bound _ _ (bo_ctx _ _ Hb)) as HN. apply (agree_upd s t th); [done|].
  destruct (unblock_queue s t th Hb Hth Ht) as (c' & Hrun & Hi & Hb3 & Hmem). cbv zeta in Hrun, Hi, Hb3, Hmem.
  set (th' := set_st_current_state STATES_READY th) in *. set (s1 := set_sc_threads _ s) in *. set (s3 := set_sc_context c' s1) in *.
  assert (Hth1 : sc_threads s1 !! t = Some th') by apply lookup_insert_eq.
  assert (Hh1 : exists h', sc_threads s1 !! sc_heir s = Some h' /\ sn_value h' = sn_value h /\
    sn_wait_priority h' = sn_value h /\ st_is_preemptible h' = st_is_preemptible h).
  { destruct (bo_thr _ _ Hb _ h Hh) as (_ & Hhw & _). destruct (decide (sc_heir s = t)) as [E|E].
    - rewrite E in Hh |- *. rewrite Hth in Hh. injection Hh as <-. by exists th'.
    - exists h. cbn. by rewrite lookup_insert_ne. }
  destruct Hh1 as (h' & Hh1 & Hhv & Hhw & Hhp).
  exists (if sn_value th <? sn_value h' then upd_heir t (sn_value th =? PRIORITY_PSEUDO_ISR) s3 else s3).
  destruct (update_heir_both N t (sn_value th =? PRIORITY_PSEUDO_ISR) s3 Hb3) as [Hup Hus]. split_and!.
  - unfold Scheduler_priority_Unblock, Scheduler_Node_get_priority. rewrite (sc_ld_bind _ th') by done.
    change (sn_value th') with (sn_value th). cbv zeta. cbn [fst]. rewrite u32_id by lia. rewrite Hrun. rewrite gets_bind.
    unfold Thread_Get_priority. rewrite (sc_ld_bind _ h') by done. rewrite Hhw, <- Hhv. by destruct (_ <? _).
  - unfold Scheduler_simple_Unblock. rewrite (cm_bind_ok _ _ _ _ _ Hi).
    unfold Thread_Get_priority. rewrite (sc_ld_bind _ th') by done. rewrite gets_bind. rewrite (sc_ld_bind _ h') by done.
    change (sn_wait_priority th') with (sn_wait_priority th). rewrite Hhw, Hw, <- Hhv. by destruct (_ <? _).
  - apply (preempt_ok s3 t th' h'); try done; [by apply Hmem; left|apply Hmem; tauto|].
    rewrite Hhp, Hhv. intros Hp x xh Hx Hxh. apply Hmem in Hx as [->|Hx]; [by left|]. right. cbn in Hxh.
    rewrite lookup_insert_ne in Hxh by (by intros <-). by apply (Hbest Hp x xh).
Qed.

Lemma context_eta {X} (s : sched_state X) : set_sc_context (sc_context s) s = s.
Proof. by destruct s. Qed.

(** A new priority of a thread that is not ready is noted for later. *)
Lemma note_ok s t th th' :
  sched_ok N s -> sc_threads s !! t = Some th -> States_Is_ready (st_current_state th) = false ->
  st_current_state th' = st_current_state th -> 0 <= sn_value th' < N -> sn_wait_priority th' = sn_value th' ->
  sched_ok N (set_sc_threads (<[t := th']> (sc_threads s)) s).
Proof.
  intros Hs Hth Hr Hst Hv Hw. pose proof (so_base _ _ Hs) as Hb.
  assert (Ht : t ∉ ready_list s) by (intros (? & ? & ?)%(bo_ready _ _ Hb); congruence).
  assert (Hht : sc_heir s <> t) by (intros E; apply Ht; rewrite <- E; apply (so_heir _ _ Hs)).
  rewrite <- (context_eta (set_sc_threads _ s)). apply (heir_stays s); try done.
  - apply (base_change N s t th); try done.
    + apply (bo_ctx _ _ Hb).
    + by apply (bo_thr _ _ Hb t th).
    + rewrite Hst, Hr. split; [by intros ?%Ht|done].
  - apply (so_heir _ _ Hs).
  - cbn. by rewrite lookup_insert_ne.
  - intros h x xh Hh Hp Hx Hxh. right. cbn in Hxh. rewrite lookup_insert_ne in Hxh; [done|]. intros <-. by apply Ht.
Qed.

(** The queue of a ready thread changes. *)
Lemma move_agree s t th th' :
  sched_ok N s -> sc_threads s !! t = Some th -> States_Is_ready (st_current_state th) = true ->
  st_current_state th' = st_current_state th -> 0 <= sn_value th' < N -> sn_wait_priority th' = sn_value th' ->
  sn_value th' <> sn_value th ->
  agree (Scheduler_priority_Update_priority t) (Scheduler_simple_Update_priority t)
    (set_sc_threads (<[t := th']> (sc_threads s)) s).
Proof.
  intros Hs Hth Hr Hst Hv Hw Hne. pose proof (so_base _ _ Hs) as Hb. set (s1 := set_sc_threads _ s).
  assert (Ht : t ∈ ready_list s) by (apply (bo_ready _ _ Hb); eauto). pose proof (co_bound _ _ (bo_ctx _ _ Hb)) as HN.
  pose proof (bo_rq _ _ Hb t th Hth Ht) as Hrq. assert (Hth1 : sc_threads s1 !! t = Some th') by apply lookup_insert_eq.
  destruct (extract_both N s1 t (sn_value th) (bo_ctx _ _ Hb) Ht Hrq) as (c1 & He & Hes & Hc1 & Hcat & HQ1).
  assert (Hout : t ∉ concat (Ready c1)) by (rewrite Hcat, elem_of_extract; tauto).
  pose proof (queue_update_run N (set_sc_context c1 s1) t (sn_value th') Hc1 Hv) as Hup.
  set (c2 := set_Ready_queues _ _) in Hup. change (set_sc_context c2 _) with (set_sc_context c2 s1) in Hup.
  set (s2 := set_sc_context c2 s1) in *.
  assert (Hqo : forall x, x <> t -> Ready_queues c2 !! x = Ready_queues (sc_context s) !! x).
  { intros x Hx. cbn. rewrite lookup_insert_ne by done. by rewrite HQ1. }
  destruct (enqueue_both N s2 t (sn_value th') (sn_prepend_it th')) as (c3 & Hq & Hqs & Hc3 & Hmem & HQ3); try done.
  { by apply update_ctx. }
  { apply (synced_change N); [done| |done]. intros x Hx. cbn in Hx. by rewrite Hcat, elem_of_extract in Hx. }
  { apply lookup_insert_eq. } { by exists th'. } { by apply prio_eq. }
  set (s3 := set_sc_context c3 s2) in *.
  assert (Hb3 : base_ok N s3).
  { apply (base_change N s t th); try done.
    - intros x Hx. rewrite HQ3. by apply Hqo.
    - rewrite HQ3. cbn. rewrite lookup_insert_eq. by eexists.
    - intros x Hx. rewrite Hmem. unfold ready_list at 1. cbn. rewrite Hcat, elem_of_extract. tauto.
    - rewrite Hmem, Hst. split; [done|by left].
    - intros _. rewrite HQ3. apply lookup_insert_eq. }
  assert (Hin : forall x, x ∈ ready_list s -> x ∈ ready_list s3).
  { intros x Hx. apply Hmem. destruct (decide (x = t)); [by left|right]. unfold ready_list. cbn. by rewrite Hcat, elem_of_extract. }
  destruct (agree_schedule t false s3 Hb3) as (s' & Hp & Hsi & Hok).
  { intros Hz. apply (elem_of_nil t). rewrite <- Hz. by apply Hin. } { right. apply Hin, (so_heir _ _ Hs). }
  exists s'. split_and!; [| |done].
  - unfold Scheduler_priority_Update_priority, Thread_Is_ready, Scheduler_Node_get_priority.
    rewrite (sc_ld_bind _ th') by done. rewrite Hst, Hr. cbn [negb]. rewrite (sc_ld_bind _ th') by done. cbv zeta. cbn [fst snd].
    rewrite u32_id by lia. rewrite (rq_bind _ (rq_for (sn_value th))) by done. cbn [current_priority rq_for].
    rewrite (proj2 (Z.eqb_neq _ _) Hne). rewrite (cm_bind_ok _ _ _ _ _ He), (cm_bind_ok _ _ _ _ _ Hup).
    rewrite (rq_bind _ (rq_for (sn_value th'))) by apply lookup_insert_eq.
    erewrite cm_bind_ok; [exact Hp|]. unfold enqueue_at in Hq. by destruct (sn_prepend_it th').
  - unfold Scheduler_simple_Update_priority, Thread_Is_ready, Scheduler_Node_get_priority.
    rewrite (sc_ld_bind _ th') by done. rewrite Hst, Hr. cbn [negb]. rewrite (sc_ld_bind _ th') by done. cbn [snd].
    rewrite (cm_bind_ok _ _ _ _ _ Hes). erewrite cm_bind_ok; [exact Hsi|]. unfold insert_at in Hqs. by destruct (sn_prepend_it th').
Qed.

Lemma priority_agree s t th p prepend_it :
  sched_ok N s -> sc_threads s !! t = Some th -> 0 <= p < N ->
  (States_Is_ready (st_current_state th) = true -> p <> sn_value th) ->
  agree (sc_upd t (set_sn_wait_priority p);; Scheduler_Node_set_priority t p prepend_it;; Scheduler_priority_Update_priority t)
        (sc_upd t (set_sn_wait_priority p);; Scheduler_Node_set_priority t p prepend_it;; Scheduler_simple_Update_priority t) s.
Proof.
  intros Hs Hth Hp Hne. apply (agree_upd s t th); [done|]. set (s0 := set_sc_threads _ s).
  assert (Hth0 : sc_threads s0 !! t = Some (set_sn_wait_priority p th)) by apply lookup_insert_eq.
  apply (agree_upd s0 t (set_sn_wait_priority p th)); [done|]. set (th' := set_sn_Priority p prepend_it _).
  assert (E : set_sc_threads (<[t := th']> (sc_threads s0)) s0 = set_sc_threads (<[t := th']> (sc_threads s)) s).
  { unfold s0, set_sc_threads. cbn. by rewrite insert_insert_eq. }
  rewrite E. destruct (States_Is_ready (st_current_state th)) eqn:Hr.
  - apply (move_agree s t th th'); try done. by apply Hne.
  - set (s1 := set_sc_threads _ s). assert (Hth1 : sc_threads s1 !! t = Some th') by apply lookup_insert_eq.
    exists s1. unfold Scheduler_priority_Update_priority, Scheduler_simple_Update_priority, Thread_Is_ready.
    rewrite !(sc_ld_bind _ th') by done. cbn [st_current_state th' set_sn_Priority set_sn_wait_priority]. rewrite Hr.
    split_and!; try done. by apply (note_ok s t th th').
Qed.

(** The chain of a thread that yields: the thread goes behind the others. *)
Lemma yield_queue s t p l :
  ctx_ok N (sc_context s) -> 0 <= p < N -> Ready (sc_context s) !! Z.to_nat p = Some l -> t ∈ l ->
  exists c', (rq ← ready_queue_of t;
      l ← ld_Ready (ready_chain rq);
      c_if (negb (Chain_Has_only_one_node l))
        (c ← pc_get;
         pc_set (set_Ready (chain_extract t <$> Ready c) c);;
         l ← ld_Ready (ready_chain rq);
         st_Ready (ready_chain rq) (l ++ [t]))) s = Ok (tt, set_sc_context c' s) /\
    ctx_ok N c' /\ Ready_queues c' = Ready_queues (sc_context s) /\
    concat (Ready c') = ins (fun x => p <? cur (sc_context s) x) t (chain_extract t (ready_list s)).
Proof.
  intros Hc Hp Hl Ht. pose proof (co_place _ _ Hc _ _ _ Hl Ht) as Hrq. rewrite Z2Nat.id in Hrq by lia.
  rewrite (rq_bind _ (rq_for p)) by done. cbn [ready_chain rq_for]. rewrite (ld_Ready_bind p l) by (done || lia).
  destruct (ready_extract_run N s t p l Hc Hp Hl Ht) as (c1 & _ & Hc1 & HR1 & HQ1).
  assert (Hl1 : (chain_extract t <$> Ready (sc_context s)) !! Z.to_nat p = Some (chain_extract t l)) by (by rewrite list_lookup_fmap, Hl).
  set (R2 := <[Z.to_nat p := chain_extract t l ++ [t]]> (chain_extract t <$> Ready (sc_context s))).
  assert (Hcat : concat R2 = ins (fun x => p <? cur (sc_context s) x) t (chain_extract t (ready_list s))).
  { unfold R2, ready_list. rewrite <- concat_fmap_extract. rewrite (concat_append (cur (sc_context s)) t _ 0 _ _); [|..].
    - apply ins_ext. intros x _. by rewrite Z2Nat.id by lia.
    - intros i k x Hi Hx. rewrite list_lookup_fmap in Hi. destruct (Ready (sc_context s) !! i) as [k'|] eqn:Hk; [|done].
      cbn in Hi. injection Hi as <-. apply elem_of_extract in Hx as [_ Hx].
      by apply (ctx_placed _ _ Hc i k' x).
    - done. }
  unfold Chain_Has_only_one_node. destruct (bool_decide_reflect (length l = 1%nat)) as [H1|H1]; cbn [negb c_if].
  - exists (sc_context s). destruct l as [|x [|]]; try done. apply list_elem_of_singleton in Ht as ->. split_and!; try done.
    { by rewrite context_eta. } rewrite <- Hcat. f_equal. unfold R2. rewrite (extract_single _ _ _ (co_nodup _ _ Hc) Hl).
    unfold chain_extract. cbn. rewrite decide_False by tauto. cbn. rewrite list_insert_insert_eq. symmetry. by apply list_insert_id.
  - exists (mk_priority_context (Bit_map (sc_context s)) R2 (Ready_queues (sc_context s))). split_and!; try done.
    + rewrite pc_get_bind. unfold pc_set. rewrite modify_bind.
      rewrite (ld_Ready_bind p (chain_extract t l)) by (done || lia). rewrite <- (bind_tt_r (st_Ready _ _)).
      rewrite st_Ready_bind; [done|]. cbn. rewrite length_fmap, (co_length _ _ Hc). done.
    + rewrite <- HQ1. unfold R2. rewrite <- HR1.
      apply (insert_ctx N c1 t p (chain_extract t l)); try done.
      * by rewrite HR1.
      * by rewrite Permutation_app_comm.
      * rewrite HR1, concat_fmap_extract, elem_of_extract. tauto.
      * by rewrite HQ1.
      * eapply map_holds_proper; [|exact (co_map _ _ Hc)]. intros q Hq. cbn. unfold nonempty.
        rewrite HR1, list_lookup_fmap. destruct (decide (q = p)) as [->|Hne].
        -- rewrite Hl. split; [by left|]. intros _. exists l. split; [done|]. intros ->. by apply elem_of_nil in Ht.
        -- rewrite (other_chain N _ t (Z.to_nat p) l (Z.to_nat q) Hc Hl Ht) by lia. tauto.
Qed.

Lemma bind3_assoc {St A B} (a : cm St A) (b : A -> cm St B) (m : A -> B -> cm St unit) (k : cm St unit) (s : St) :
  (x ← a; y ← b x; m x y;; k) s = ((x ← a; y ← b x; m x y);; k) s.
Proof.
  unfold mbind, cm_bind. destruct (a s) as [[x s1]|]; [|done]. by destruct (b x s1) as [[y s2]|].
Qed.

(** The state after a yield: the thread is behind the others of its priority. *)
Lemma yield_run s t :
  sched_ok N s -> t ∈ ready_list s ->
  exists c' f r, let s1 := set_sc_context c' s in
    Scheduler_priority_Yield t s = Ok (tt, upd_heir f true s1) /\ base_ok N s1 /\ ready_list s1 = f :: r /\
    ready_list s1 = ins (fun x => prio (sc_threads s) t <? prio (sc_threads s) x) t (chain_extract t (ready_list s)).
Proof.
  intros Hs Ht. pose proof (so_base _ _ Hs) as Hb. pose proof Ht as (th & Hth & Hr)%(bo_ready _ _ Hb).
  destruct (ctx_member N _ t (bo_ctx _ _ Hb) Ht) as (p & l & Hp & Hl & Hin & Hrq & Hcur).
  destruct (yield_queue s t p l (bo_ctx _ _ Hb) Hp Hl Hin) as (c' & Hrun & Hc' & HQ & Hcat).
  assert (Hmem : forall x, x ∈ concat (Ready c') <-> x ∈ ready_list s).
  { intros x. rewrite Hcat, elem_of_ins, elem_of_extract. destruct (decide (x = t)) as [->|]; tauto. }
  assert (Hb1 : base_ok N (set_sc_context c' s)).
  { replace s with (set_sc_threads (<[t := th]> (sc_threads s)) s) by (destruct s; unfold set_sc_threads; cbn; by rewrite insert_id).
    apply (base_change N s t th); try done; try (by apply (bo_thr _ _ Hb t th)).
    - intros x _. by rewrite HQ.
    - rewrite HQ, Hrq. by eexists.
    - rewrite Hmem, Hr. done.
    - intros _. rewrite HQ. by apply (bo_rq _ _ Hb). }
  destruct (ready_list (set_sc_context c' s)) as [|f r] eqn:Hrl.
  { exfalso. apply (elem_of_nil t). rewrite <- Hrl. by apply Hmem. }
  exists c', f, r. cbv zeta. split_and!; try done.
  - unfold Scheduler_priority_Yield. rewrite bind3_assoc, (cm_bind_ok _ _ _ _ _ Hrun).
    by apply (schedule_both N t true (set_sc_context c' s) f r).
  - unfold ready_list at 1. cbn. rewrite Hcat. apply ins_ext. intros x Hx. apply elem_of_extract in Hx as [_ Hx].
    rewrite (cur_prio N s x Hb Hx), <- (cur_prio N s t Hb Ht). by rewrite Hcur.
Qed.

Lemma simple_yield_run s t s1 f r :
  base_ok N s -> t ∈ ready_list s -> base_ok N s1 -> ready_list s1 = f :: r -> s1 = set_sc_context (sc_context s1) s ->
  ready_list s1 = ins (fun x => prio (sc_threads s) t <? prio (sc_threads s) x) t (chain_extract t (ready_list s)) ->
  Scheduler_simple_Yield t (abs s) = Ok (tt, abs (upd_heir f false s1)).
Proof.
  intros Hb Ht Hb1 Hf Hs1 Hrl. unfold Scheduler_simple_Yield, Scheduler_simple_Extract.
  rewrite cm_bind_assoc, gets_bind, modify_bind. erewrite cm_bind_ok; [|apply fifo_run].
  - rewrite <- (proj2 (schedule_both N t false s1 f r Hb1 Hf)). f_equal. rewrite Hs1. unfold abs, set_sc_context. cbn.
    f_equal. symmetry. exact Hrl.
  - by apply (ready_known N).
  - intros x Hx. apply elem_of_extract in Hx as [_ Hx]. by apply (ready_known N).
Qed.

Lemma yield_agree s t h :
  sched_ok N s -> t ∈ ready_list s -> sc_threads s !! sc_heir s = Some h -> st_is_preemptible h = true ->
  agree (Scheduler_priority_Yield t) (Scheduler_simple_Yield t) s.
Proof.
  intros Hs Ht Hh Hpre. destruct (yield_run s t Hs Ht) as (c' & f & r & Hrun & Hb1 & Hf & Hrl).
  exists (upd_heir f true (set_sc_context c' s)). split_and!; [done| |apply (schedule_ok N true _ f r); auto].
  rewrite (upd_heir_preemptible f (set_sc_context c' s) h) by done. by apply (simple_yield_run s t _ f r (so_base _ _ Hs)).
Qed.

Lemma schedule_agree s t :
  sched_ok N s -> agree (Scheduler_priority_Schedule t) (Scheduler_simple_Schedule t) s.
Proof.
  intros Hs. apply agree_schedule; [apply (so_base _ _ Hs)| |right; apply (so_heir _ _ Hs)].
  intros Hz. apply (elem_of_nil (sc_heir s)). rewrite <- Hz. apply (so_heir _ _ Hs).
Qed.

Lemma dispatch_agree s :
  sched_ok N s -> agree (Thread_Get_heir_and_make_it_executing;; mret tt) (Thread_Get_heir_and_make_it_executing;; mret tt) s.
Proof.
  intros Hs. exists (set_sc_executing (sc_heir s) (set_sc_dispatch_necessary false s)). split_and!; try done.
  destruct Hs as [[? ? ? ? ?] ? ?]. by split.
Qed.

(** ** New threads and the start *)
Definition created (t p : Z) (b : bool) s : sched_state Scheduler_priority_Context :=
  mk_sched_state (<[t := mk_sched_thread STATES_DORMANT b p p false]> (sc_threads s)) (sc_heir s) (sc_executing s)
    (sc_dispatch_necessary s) (sc_cpu_usage_timestamp s) (<[t := Timestamp_Set_to_zero]> (sc_cpu_time_used s)) (sc_uptime s)
    (set_Ready_queues (<[t := rq_for p]> (Ready_queues (sc_context s))) (sc_context s)).

Lemma sched_create_run s t p b :
  N <= 256 -> 0 <= p < N ->
  run_create SCHEDULER_PRIORITY_ENTRY_POINTS t p b s = Ok (tt, created t p b s) /\
  run_create SCHEDULER_SIMPLE_ENTRY_POINTS t p b (abs s) = Ok (tt, abs (created t p b s)).
Proof.
  intros HN Hp. unfold run_create. rewrite !modify_bind. split; cbn [so_node_initialize SCHEDULER_PRIORITY_ENTRY_POINTS SCHEDULER_SIMPLE_ENTRY_POINTS].
  - unfold Scheduler_priority_Node_initialize, Scheduler_Node_do_initialize.
    erewrite sc_upd_bind by apply lookup_insert_eq. unfold Scheduler_priority_Ready_queue_update. rewrite pc_get_bind, u32_id by lia.
    unfold created, pc_set, modify. cbn. by rewrite insert_insert_eq.
  - unfold Scheduler_default_Node_initialize, Scheduler_Node_do_initialize. rewrite <- bind_tt_r.
    erewrite sc_upd_bind by apply lookup_insert_eq. unfold abs, created. cbn. by rewrite insert_insert_eq.
Qed.

Lemma create_agree s t p b :
  sched_ok N s -> sc_threads s !! t = None -> 0 <= p < N ->
  agree (run_create SCHEDULER_PRIORITY_ENTRY_POINTS t p b) (run_create SCHEDULER_SIMPLE_ENTRY_POINTS t p b) s.
Proof.
  intros Hs Hn Hp. pose proof (so_base _ _ Hs) as Hb. pose proof (co_bound _ _ (bo_ctx _ _ Hb)).
  assert (Ht : t ∉ ready_list s) by (intros (? & ? & _)%(bo_ready _ _ Hb); congruence).
  destruct (sched_create_run s t p b) as [Hr1 Hr2]; [lia|done|]. exists (created t p b s). split_and!; try done.
  assert (Hht : sc_heir s <> t) by (intros E; apply Ht; rewrite <- E; apply (so_heir _ _ Hs)).
  apply (heir_stays s); try done.
  - destruct Hb as [Hc Hth Hr Hq Hh]. split; cbn.
    + by apply update_ctx.
    + intros x xh Hx. destruct (decide (x = t)) as [->|Hne].
      * rewrite lookup_insert_eq in Hx. injection Hx as <-. rewrite !lookup_insert_eq. cbn. split_and!; try done; try lia; by eexists.
      * rewrite lookup_insert_ne in Hx by done. rewrite !lookup_insert_ne by done. by apply Hth.
    + intros x. destruct (decide (x = t)) as [->|Hne].
      * rewrite lookup_insert_eq. split; [by intros ?%Ht|]. by intros (? & [= <-] & ?).
      * rewrite lookup_insert_ne by done. apply Hr.
    + intros x xh Hx Hin. assert (Hne : x <> t) by (by intros ->). rewrite lookup_insert_ne in Hx by done. rewrite lookup_insert_ne by done. by apply Hq.
    + by rewrite lookup_insert_ne.
  - apply (so_heir _ _ Hs).
  - cbn. by rewrite lookup_insert_ne.
  - intros h x xh Hh Hpre Hx Hxh. right. cbn in Hxh. rewrite lookup_insert_ne in Hxh; [done|]. intros <-. by apply Ht.
Qed.

Lemma concat_replicate_nil n : concat (replicate n ([] : list Z)) = [].
Proof. by induction n. Qed.

Lemma init_ctx rqs :
  1 <= N <= 256 -> (forall t rq, rqs !! t = Some rq -> exists p, 0 <= p < N /\ rq = rq_for p) ->
  ctx_ok N (mk_priority_context Priority_bit_map_Initialize (replicate (Z.to_nat N) []) rqs).
Proof.
  intros HN Hrq. split; cbn; try done.
  - rewrite length_replicate. lia.
  - eapply map_holds_proper; [|apply initialize_holds]. intros q Hq. split; [done|]. unfold nonempty. cbn.
    intros (l & Hl & Hne). apply lookup_replicate in Hl as [-> _]. done.
  - intros i l t Hi Ht. apply lookup_replicate in Hi as [-> _]. by apply elem_of_nil in Ht.
  - rewrite concat_replicate_nil. apply NoDup_nil_2.
Qed.

(** The processor starts with the idle thread. *)
Lemma start_agree s idle :
  1 <= N <= 256 -> sc_threads s = ∅ -> Ready_queues (sc_context s) = ∅ ->
  agree (run_start SCHEDULER_PRIORITY_ENTRY_POINTS (N - 1) idle) (run_start SCHEDULER_SIMPLE_ENTRY_POINTS (N - 1) idle) s.
Proof.
  intros HN Hth Hrq. set (c0 := mk_priority_context Priority_bit_map_Initialize (replicate (Z.to_nat N) []) ∅).
  assert (Hc0 : ctx_ok N c0) by (apply init_ctx; [done|]; intros ? ?; by rewrite lookup_empty).
  set (s0 := set_sc_context c0 s). apply (agree_bind s s0).
  { cbn [so_initialize SCHEDULER_PRIORITY_ENTRY_POINTS]. unfold Scheduler_priority_Initialize, Scheduler_priority_Ready_queue_initialize.
    rewrite pc_get_bind. unfold pc_set. rewrite modify_bind, pc_get_bind. unfold modify, set_Ready, set_Bit_map. cbn. rewrite Hrq.
    by replace (N - 1 + 1) with N by lia. }
  { cbn. unfold Scheduler_simple_Initialize, modify, abs. cbn. by rewrite concat_replicate_nil. }
  destruct (sched_create_run s0 idle (N - 1) true) as [Hr1 Hr2]; [lia..|]. apply (agree_bind s0 (created idle (N - 1) true s0)); [done..|].
  set (th := mk_sched_thread STATES_DORMANT true (N - 1) (N - 1) false).
  set (s1 := set_sc_executing idle (set_sc_heir idle (created idle (N - 1) true s0))).
  assert (Hrl : ready_list s1 = []) by apply concat_replicate_nil.
  assert (Hl : forall x xh, sc_threads s1 !! x = Some xh -> x = idle /\ xh = th).
  { intros x xh Hx. cbn in Hx. rewrite Hth in Hx. by apply lookup_insert_Some in Hx as [[<- <-]|[_ Hx]]. }
  assert (Hi : sc_threads s1 !! idle = Some th) by apply lookup_insert_eq.
  change (agree (sc_upd idle (set_st_current_state STATES_READY);; Scheduler_priority_Unblock idle)
                (sc_upd idle (set_st_current_state STATES_READY);; Scheduler_simple_Unblock idle) s1).
  apply (unblock_agree s1 idle th th); try done.
  - split; [|intros x xh [-> ->]%Hl|intros x|intros x xh _|by exists th].
    + apply (update_ctx N c0); [done| |lia]. unfold c0. cbn. rewrite concat_replicate_nil. apply not_elem_of_nil.
    + cbn. rewrite !lookup_insert_eq. split_and!; try done; try lia; by eexists.
    + rewrite Hrl. split; [by intros ?%elem_of_nil|]. by intros (xh & [-> ->]%Hl & ?).
    + rewrite Hrl. by intros ?%elem_of_nil.
  - rewrite Hrl. apply not_elem_of_nil.
  - by left.
  - intros _ x xh. rewrite Hrl. by intros ?%elem_of_nil.
Qed.

End Operations.
