(* ===== verification/SchedulerTheorems.v ===== *)
(** * The schedulers: theorems

    The default scheduler keeps the most important ready thread as the heir,
    and the two uniprocessor schedulers take the same decisions, apart from a
    thread that yields while the heir is not preemptible. *)

From stdpp Require Import base tactics numbers option list list_numbers gmap fin_maps.
From Stdlib Require Import ZArith Lia.
From S2P Require Import Prelude Chain Status Timespec Thread PriorityMap RateMonTheorems Scheduler SchedulerFacts SchedulerSim.

Open Scope Z_scope.

(** ** Sessions *)
(** A session of a scheduler in which each operation satisfies [P]. *)
Fixpoint session {X} (table : Scheduler_Operations X) (P : sched_op -> sched_state X -> Prop) (ops : list sched_op)
    (s : sched_state X) : Prop :=
  match ops with
  | [] => True
  | op :: ops' =>
      P op s /\ match run_sched table op s with
                | Ok (_, s') => session table P ops' s'
                | Undef _ => True
                end
  end.

#[export] Instance session_dec {X} table P `{!forall op s, Decision (P op s)} ops (s : sched_state X) :
  Decision (session table P ops s).
Proof.
  revert s. induction ops as [|op ops IH]; intros s; cbn; [apply _|].
  destruct (run_sched table op s) as [[? s']|]; apply _.
Defined.

Section Sessions.
Context `{Bintime} (N : Z).
Implicit Types s : sched_state Scheduler_priority_Context.

Definition is_ready (th : sched_thread) : Prop := States_Is_ready (st_current_state th) = true.

(** What the callers of a scheduler see to: threads are created once, with a
    priority of the scheduler; only ready threads block or yield, and one other
    thread, such as the idle thread, stays ready; only threads that are not
    ready are unblocked. *)
Definition op_ok (op : sched_op) s : Prop :=
  match op with
  | S_create t p _ => sc_threads s !! t = None /\ 0 <= p < N
  | S_block t state => t ∈ ready_list s /\ States_Is_ready state = false /\ chain_extract t (ready_list s) <> []
  | S_unblock t => is_Some (sc_threads s !! t) /\ t ∉ ready_list s
  | S_priority t p _ => is_Some (sc_threads s !! t) /\ 0 <= p < N
  | S_yield t => t ∈ ready_list s
  | S_schedule _ | S_dispatch => True
  end.

(** The operations on which the simple scheduler is no different: a new
    priority is a new one, and a thread yields to a heir that is preemptible. *)
Definition op_same (op : sched_op) s : Prop :=
  match op with
  | S_priority t p _ => match sc_threads s !! t with Some th => is_ready th -> p <> sn_value th | None => True end
  | S_yield _ => match sc_threads s !! sc_heir s with Some h => st_is_preemptible h = true | None => True end
  | _ => True
  end.

#[export] Instance op_ok_dec op s : Decision (op_ok op s).
Proof. destruct op; cbn; apply _. Defined.
#[export] Instance op_same_dec op s : Decision (op_same op s).
Proof.
  destruct op as [| | |t p b|t| |]; cbn; try apply _; [destruct (sc_threads s !! t)|destruct (sc_threads s !! sc_heir s)];
    unfold is_ready; apply _.
Defined.

Lemma step_agree op s :
  sched_ok N s -> op_ok op s -> op_same op s ->
  agree N (run_sched SCHEDULER_PRIORITY_ENTRY_POINTS op) (run_sched SCHEDULER_SIMPLE_ENTRY_POINTS op) s.
Proof.
  intros Hs. pose proof (so_base _ _ Hs) as Hb. destruct op as [t p b|t st|t|t p b|t|t|]; cbn.
  - intros [? ?] _. by apply create_agree.
  - intros (Ht & Hst & Hne) _. by apply block_agree.
  - intros [[th Hth] Ht] _. destruct (bo_heir _ _ Hb) as [h Hh]. apply (unblock_agree N s t th h); try done.
    + right. apply (so_heir _ _ Hs).
    + intros Hp x xh. by apply (so_best _ _ Hs).
  - intros [[th Hth] Hp] Hne. rewrite Hth in Hne. by apply (priority_agree N s t th).
  - intros Ht Hp. destruct (bo_heir _ _ Hb) as [h Hh]. rewrite Hh in Hp. by apply (yield_agree N s t h).
  - intros _ _. by apply schedule_agree.
  - intros _ _. by apply dispatch_agree.
Qed.

(** A ready thread is given the priority it has. *)
Lemma same_value_ok s t th th' :
  sched_ok N s -> sc_threads s !! t = Some th -> st_current_state th' = st_current_state th ->
  st_is_preemptible th' = st_is_preemptible th -> sn_value th' = sn_value th -> sn_wait_priority th' = sn_value th' ->
  sched_ok N (set_sc_threads (<[t := th']> (sc_threads s)) s).
Proof.
  intros Hs Hth Hst Hpr Hv Hw. pose proof (so_base _ _ Hs) as Hb.
  assert (Hold : forall x xh, <[t := th']> (sc_threads s) !! x = Some xh ->
    exists yh, sc_threads s !! x = Some yh /\ sn_value xh = sn_value yh /\ st_is_preemptible xh = st_is_preemptible yh).
  { intros x xh [[<- <-]|[Hne Hx]]%lookup_insert_Some; eauto. }
  split; [|apply (so_heir _ _ Hs)|].
  - rewrite <- (context_eta (set_sc_threads _ s)). destruct (bo_thr _ _ Hb t th Hth) as (Hr & _ & Hrq & _).
    apply (base_change N s t th); try done; rewrite ?Hv; try done.
    + apply (bo_ctx _ _ Hb).
    + cbn. rewrite Hst. etransitivity; [exact (bo_ready _ _ Hb t)|]. split; [|by eauto]. by intros (? & ? & ?); simplify_eq.
    + by apply (bo_rq _ _ Hb t th).
  - intros h Hh Hp x xh Hx Hxh. destruct (Hold _ _ Hh) as (h0 & Hh0 & -> & Hp0). destruct (Hold _ _ Hxh) as (x0 & Hx0 & -> & _).
    apply (so_best _ _ Hs h0 Hh0 ltac:(congruence) x x0 Hx Hx0).
Qed.

Lemma step_ok op s :
  sched_ok N s -> op_ok op s -> exists s', run_sched SCHEDULER_PRIORITY_ENTRY_POINTS op s = Ok (tt, s') /\ sched_ok N s'.
Proof.
  intros Hs Hop. pose proof (so_base _ _ Hs) as Hb.
  assert (Hsame : op_same op s -> exists s', run_sched SCHEDULER_PRIORITY_ENTRY_POINTS op s = Ok (tt, s') /\ sched_ok N s').
  { intros Hsame. destruct (step_agree op s Hs Hop Hsame) as (s' & Hr & _ & Hok). eauto. }
  destruct op as [t p b|t st|t|t p b|t|t|]; try (by apply Hsame).
  - destruct Hop as [[th Hth] Hp]. destruct (decide (is_ready th /\ p = sn_value th)) as [[Hr ->]|Hd].
    + set (th' := mk_sched_thread (st_current_state th) (st_is_preemptible th) (sn_value th) (sn_value th) b).
      exists (set_sc_threads (<[t := th']> (sc_threads s)) s). split; [|by apply (same_value_ok s t th)].
      cbn [run_sched]. unfold Scheduler_Node_set_priority. rewrite (sc_upd_bind _ th) by done.
      erewrite sc_upd_bind by apply lookup_insert_eq. set (s1 := set_sc_threads _ _).
      assert (E : s1 = set_sc_threads (<[t := th']> (sc_threads s)) s).
      { unfold s1, set_sc_threads. cbn. by rewrite insert_insert_eq. }
      rewrite E. assert (Ht : t ∈ ready_list s) by (apply (bo_ready _ _ Hb); eauto).
      cbn [so_update_priority SCHEDULER_PRIORITY_ENTRY_POINTS]. unfold Scheduler_priority_Update_priority, Thread_Is_ready, Scheduler_Node_get_priority.
      rewrite !(sc_ld_bind _ th') by apply lookup_insert_eq. unfold is_ready in Hr. cbn [st_current_state th'] in *. rewrite Hr. cbn [negb].
      rewrite (sc_ld_bind _ th') by apply lookup_insert_eq. cbv zeta. cbn [fst sn_value th']. pose proof (co_bound _ _ (bo_ctx _ _ Hb)).
      rewrite u32_id by lia. rewrite (rq_bind _ (rq_for (sn_value th))) by (by apply (bo_rq _ _ Hb)). cbn. by rewrite Z.eqb_refl.
    + apply Hsame. cbn. rewrite Hth. intros Hr ->. by apply Hd.
  - destruct (yield_run N s t Hs Hop) as (c' & f & r & Hrun & Hb1 & Hf & _). eexists. split; [exact Hrun|].
    apply (schedule_ok N true _ f r); auto.
Qed.

Lemma session_ok ops s :
  sched_ok N s -> session SCHEDULER_PRIORITY_ENTRY_POINTS op_ok ops s ->
  exists s', run_scheds SCHEDULER_PRIORITY_ENTRY_POINTS ops s = Ok (tt, s') /\ sched_ok N s'.
Proof.
  revert s. induction ops as [|op ops IH]; intros s Hs; cbn; [by exists s|]. intros [Hop Hrest].
  destruct (step_ok op s Hs Hop) as (s1 & Hr & Hs1). rewrite Hr in Hrest. destruct (IH s1 Hs1 Hrest) as (s2 & Hr2 & Hs2).
  exists s2. by rewrite (cm_bind_ok _ _ _ _ _ Hr).
Qed.

Lemma session_agree ops s :
  sched_ok N s -> session SCHEDULER_PRIORITY_ENTRY_POINTS (fun op s => op_ok op s /\ op_same op s) ops s ->
  agree N (run_scheds SCHEDULER_PRIORITY_ENTRY_POINTS ops) (run_scheds SCHEDULER_SIMPLE_ENTRY_POINTS ops) s.
Proof.
  revert s. induction ops as [|op ops IH]; intros s Hs; cbn; [by intros _; apply agree_ret|]. intros [[Hop Hsame] Hrest].
  destruct (step_agree op s Hs Hop Hsame) as (s1 & Hr & Hr' & Hs1). rewrite Hr in Hrest.
  apply (agree_bind N s s1); auto.
Qed.

(** ** The ready queues in terms of the threads *)
Lemma chain_exact s p l t :
  base_ok N s -> 0 <= p -> Ready (sc_context s) !! Z.to_nat p = Some l ->
  t ∈ l <-> exists th, sc_threads s !! t = Some th /\ is_ready th /\ sn_value th = p.
Proof.
  intros Hb Hp Hl. split.
  - intros Ht. assert (Hin : t ∈ ready_list s) by (apply elem_of_concat; eauto).
    pose proof Hin as (th & Hth & Hr)%(bo_ready _ _ Hb). exists th. split_and!; try done.
    pose proof (bo_rq _ _ Hb t th Hth Hin) as Hq. rewrite (co_place _ _ (bo_ctx _ _ Hb) _ _ _ Hl Ht) in Hq.
    injection Hq as Hq _. lia.
  - intros (th & Hth & Hr & <-). assert (Hin : t ∈ ready_list s) by (apply (bo_ready _ _ Hb); eauto).
    destruct (ctx_member N _ t (bo_ctx _ _ Hb) Hin) as (q & k & Hq & Hk & Htk & Hrq & _).
    rewrite (bo_rq _ _ Hb t th Hth Hin) in Hrq. injection Hrq as <- _. by rewrite Hl in Hk; injection Hk as ->.
Qed.

Lemma highest_exact s :
  base_ok N s -> ready_list s <> [] ->
  exists p, Priority_bit_map_Get_highest (Bit_map (sc_context s)) = Ok p /\
    (exists t th, sc_threads s !! t = Some th /\ is_ready th /\ sn_value th = p) /\
    (forall t th, sc_threads s !! t = Some th -> is_ready th -> p <= sn_value th).
Proof.
  intros Hb Hne. pose proof (bo_ctx _ _ Hb) as Hc. pose proof (co_bound _ _ Hc) as HN.
  destruct (ready_list s) as [|x r] eqn:Hrl; [done|].
  destruct (ctx_member N _ x Hc) as (p0 & l0 & Hp0 & Hl0 & Hin0 & _). { fold (ready_list s). rewrite Hrl. left. }
  destruct (get_highest _ _ (co_map _ _ Hc)) as (p & Hget & Hp & (l & Hl & Hnil) & Hmin).
  { exists p0. split; [lia|]. exists l0. split; [done|]. intros ->. by apply elem_of_nil in Hin0. }
  exists p. split_and!; [done|..].
  - destruct l as [|y l]; [done|]. exists y. apply (chain_exact s p (y :: l)); [done|lia|done|left].
  - intros t th Hth Hr. destruct (Z.le_gt_cases p (sn_value th)) as [|Hlt]; [done|]. exfalso.
    destruct (bo_thr _ _ Hb t th Hth) as [Hv _]. destruct (ctx_chain N _ (sn_value th) Hc Hv) as [k Hk].
    apply (Hmin (sn_value th)); [lia|]. exists k. split; [done|]. intros ->. apply (elem_of_nil t).
    apply (chain_exact s (sn_value th) []); eauto. lia.
Qed.

End Sessions.

(** ** Theorems *)

(** C19: the default scheduler of one processor, with any number of
    priorities up to 256: from the start with the idle thread, through every
    session of thread creations, blocking, unblocking, priority changes,
    yields and dispatches, it runs without undefined behaviour; the heir is
    ready, and no ready thread is more important than a heir that is
    preemptible; each chain holds exactly the ready threads of its priority;
    and the bit map leads to the most important priority with a ready
    thread. *)
Theorem priority_scheduler_sound `{Bintime} N idle ops s0 :
  1 <= N <= 256 -> sc_threads s0 = ∅ -> Ready_queues (sc_context s0) = ∅ ->
  exists s1, run_start SCHEDULER_PRIORITY_ENTRY_POINTS (N - 1) idle s0 = Ok (tt, s1) /\
    (session SCHEDULER_PRIORITY_ENTRY_POINTS (op_ok N) ops s1 ->
     exists s2 h, run_scheds SCHEDULER_PRIORITY_ENTRY_POINTS ops s1 = Ok (tt, s2) /\
       sc_threads s2 !! sc_heir s2 = Some h /\ is_ready h /\
       (st_is_preemptible h = true ->
          forall t th, sc_threads s2 !! t = Some th -> is_ready th -> sn_value h <= sn_value th) /\
       (forall p l t, 0 <= p -> Ready (sc_context s2) !! Z.to_nat p = Some l ->
          t ∈ l <-> exists th, sc_threads s2 !! t = Some th /\ is_ready th /\ sn_value th = p) /\
       NoDup (concat (Ready (sc_context s2))) /\
       exists p, Priority_bit_map_Get_highest (Bit_map (sc_context s2)) = Ok p /\
         (exists t th, sc_threads s2 !! t = Some th /\ is_ready th /\ sn_value th = p) /\
         (forall t th, sc_threads s2 !! t = Some th -> is_ready th -> p <= sn_value th)).
Proof.
  intros HN Hth Hrq. destruct (start_agree N s0 idle HN Hth Hrq) as (s1 & Hr1 & _ & Hs1). exists s1. split; [done|].
  intros Hses. destruct (session_ok N ops s1 Hs1 Hses) as (s2 & Hr2 & Hs2). pose proof (so_base _ _ Hs2) as Hb.
  pose proof (so_heir _ _ Hs2) as Hin. pose proof Hin as (h & Hh & Hr)%(bo_ready _ _ Hb). exists s2, h. split_and!; try done.
  - intros Hp t th Ht Htr. apply (so_best _ _ Hs2 h Hh Hp t th); [|done]. apply (bo_ready _ _ Hb). eauto.
  - intros p l t Hp Hl. by apply (chain_exact N).
  - apply (co_nodup _ _ (bo_ctx _ _ Hb)).
  - apply (highest_exact N); [done|]. intros Hz. rewrite Hz in Hin. by apply elem_of_nil in Hin.
Qed.

(** C20: the two uniprocessor schedulers are equivalent: from the start and
    through every session in which a new priority differs from the old one and
    threads yield only to a preemptible heir, both run without undefined
    behaviour and reach states that differ only in the shape of their ready
    queues: the chain of the simple scheduler is the chains of the priority
    scheduler one after another, and threads, heir, executing thread, dispatch
    flag and processor times are the same. *)
Theorem schedulers_agree `{Bintime} N idle ops s0 :
  1 <= N <= 256 -> sc_threads s0 = ∅ -> Ready_queues (sc_context s0) = ∅ ->
  exists s1, run_start SCHEDULER_PRIORITY_ENTRY_POINTS (N - 1) idle s0 = Ok (tt, s1) /\
    run_start SCHEDULER_SIMPLE_ENTRY_POINTS (N - 1) idle (abs s0) = Ok (tt, abs s1) /\
    (session SCHEDULER_PRIORITY_ENTRY_POINTS (fun op s => op_ok N op s /\ op_same op s) ops s1 ->
     exists s2, run_scheds SCHEDULER_PRIORITY_ENTRY_POINTS ops s1 = Ok (tt, s2) /\
       run_scheds SCHEDULER_SIMPLE_ENTRY_POINTS ops (abs s1) = Ok (tt, abs s2)).
Proof.
  intros HN Hth Hrq. destruct (start_agree N s0 idle HN Hth Hrq) as (s1 & Hr1 & Hr1' & Hs1). exists s1.
  split_and!; [done..|]. intros Hses. destruct (session_agree N ops s1 Hs1 Hses) as (s2 & Hr2 & Hr2' & _). eauto.
Qed.

(** ** A run of the schedulers *)
Definition seen {St A} (f : St -> A) (r : outcome (unit * St)) : option A :=
  match r with Ok (_, s) => Some (f s) | Undef _ => None end.

Definition demo_cpu : sched_state Scheduler_priority_Context :=
  mk_sched_state ∅ 0 0 false Timestamp_Set_to_zero ∅ (mk_timestamp 1 0) (mk_priority_context (mk_bit_map 0 []) [] ∅).

(** Two threads of the same priority take turns; then one becomes more
    important, runs and waits for an event. *)
Definition demo_schedule : list sched_op :=
  [S_create 1 2 true; S_create 2 2 true; S_unblock 1; S_dispatch; S_unblock 2; S_yield 1; S_dispatch; S_yield 2;
   S_priority 2 1 false; S_dispatch; S_block 2 STATES_WAITING_FOR_EVENT; S_dispatch; S_priority 2 0 true; S_schedule 1].

Definition demo_ready : sched_state Scheduler_priority_Context :=
  match @run_start _ (@SCHEDULER_PRIORITY_ENTRY_POINTS bintime64) 3 9 demo_cpu with
  | Ok (_, s) => s
  | Undef _ => demo_cpu
  end.

Lemma priority_scheduler_sound_witness : exists s2 h,
  run_scheds (@SCHEDULER_PRIORITY_ENTRY_POINTS bintime64) demo_schedule demo_ready = Ok (tt, s2) /\
  sc_threads s2 !! sc_heir s2 = Some h /\ is_ready h /\
  sc_heir s2 = 1 /\ Ready (sc_context s2) = [[]; []; [1]; [9]].
Proof.
  destruct (@priority_scheduler_sound bintime64 4 9 demo_schedule demo_cpu) as (s1 & Hr1 & Hses); [lia|done|done|].
  assert (Hs1 : s1 = demo_ready) by (unfold demo_ready; change 3 with (4 - 1); by rewrite Hr1). subst s1.
  destruct Hses as (s2 & h & Hr2 & Hh & Hr & _); [apply (bool_decide_unpack _); vm_compute; exact I|].
  assert (E : seen (fun s => (sc_heir s, Ready (sc_context s)))
      (run_scheds (@SCHEDULER_PRIORITY_ENTRY_POINTS bintime64) demo_schedule demo_ready) = Some (1, [[]; []; [1]; [9]]))
    by (vm_compute; reflexivity).
  rewrite Hr2 in E. injection E as E1 E2. exists s2, h. by split_and!.
Defined.

Lemma schedulers_agree_witness : exists s2,
  run_scheds (@SCHEDULER_PRIORITY_ENTRY_POINTS bintime64) demo_schedule demo_ready = Ok (tt, s2) /\
  run_scheds (@SCHEDULER_SIMPLE_ENTRY_POINTS bintime64) demo_schedule (abs demo_ready) = Ok (tt, abs s2) /\
  sc_context (abs s2) = [1; 9].
Proof.
  destruct (@schedulers_agree bintime64 4 9 demo_schedule demo_cpu) as (s1 & Hr1 & _ & Hses); [lia|done|done|].
  assert (Hs1 : s1 = demo_ready) by (unfold demo_ready; change 3 with (4 - 1); by rewrite Hr1). subst s1.
  destruct Hses as (s2 & Hr2 & Hr2'); [apply (bool_decide_unpack _); vm_compute; exact I|].
  assert (E : seen sc_context
      (run_scheds (@SCHEDULER_SIMPLE_ENTRY_POINTS bintime64) demo_schedule (abs demo_ready)) = Some [1; 9])
    by (vm_compute; reflexivity).
  rewrite Hr2' in E. injection E as E. exists s2. by split_and!.
Defined.

(** C37: the yields differ when the heir is not preemptible: the priority
    scheduler gives the processor to the first ready thread, which is behind
    no thread of the same priority, while the simple scheduler moves the
    thread that yields behind the others but keeps the heir. *)
Theorem simple_yield_keeps_heir `{Bintime} N s t h :
  sched_ok N s -> t ∈ ready_list s -> sc_threads s !! sc_heir s = Some h -> st_is_preemptible h = false ->
  exists sp ss, Scheduler_priority_Yield t s = Ok (tt, sp) /\ Scheduler_simple_Yield t (abs s) = Ok (tt, ss) /\
    ready_list sp = sc_context ss /\
    sc_context ss = ins (fun x => prio (sc_threads s) t <? prio (sc_threads s) x) t (chain_extract t (ready_list s)) /\
    head (sc_context ss) = Some (sc_heir sp) /\ sc_heir ss = sc_heir s.
Proof.
  intros Hs Ht Hh Hp. destruct (yield_run N s t Hs Ht) as (c' & f & r & Hrun & Hb1 & Hf & Hrl).
  exists (upd_heir f true (set_sc_context c' s)), (abs (upd_heir f false (set_sc_context c' s))).
  assert (Hk : forall b, ready_list (upd_heir f b (set_sc_context c' s)) = f :: r).
  { intros b. unfold ready_list. by rewrite upd_heir_context. }
  split_and!; [done|by apply (simple_yield_run N s t _ f r (so_base _ _ Hs))|..].
  - rewrite Hk. symmetry. apply (Hk false).
  - rewrite <- Hrl, Hf. apply (Hk false).
  - etransitivity; [by rewrite (Hk false : sc_context (abs _) = _)|]. cbn. f_equal.
    by destruct (upd_heir_heir f true (set_sc_context c' s)) as [->|[? _]].
  - cbn. unfold upd_heir. cbn. rewrite Hh. cbn. by rewrite Hp, orb_true_r.
Qed.

(** The first thread runs without preemption, the second waits for it. *)
Definition demo_two : sched_state Scheduler_priority_Context :=
  match run_scheds (@SCHEDULER_PRIORITY_ENTRY_POINTS bintime64)
          [S_create 1 2 false; S_create 2 2 true; S_unblock 1; S_dispatch; S_unblock 2] demo_ready with
  | Ok (_, s) => s
  | Undef _ => demo_ready
  end.

Lemma demo_two_ok : sched_ok 4 demo_two.
Proof.
  destruct (@start_agree bintime64 4 demo_cpu 9) as (s1 & Hr1 & _ & Hs1); [lia|done|done|].
  assert (E : s1 = demo_ready) by (unfold demo_ready; change 3 with (4 - 1); by rewrite Hr1). subst s1.
  destruct (@session_ok bintime64 4 [S_create 1 2 false; S_create 2 2 true; S_unblock 1; S_dispatch; S_unblock 2] demo_ready Hs1)
    as (s2 & Hr2 & Hs2); [apply (bool_decide_unpack _); vm_compute; exact I|].
  unfold demo_two. by rewrite Hr2.
Qed.

Lemma simple_yield_keeps_heir_witness : exists sp ss,
  @Scheduler_priority_Yield bintime64 1 demo_two = Ok (tt, sp) /\ @Scheduler_simple_Yield bintime64 1 (abs demo_two) = Ok (tt, ss) /\
  sc_context ss = [2; 1; 9] /\ sc_heir sp = 2 /\ sc_heir ss = 1.
Proof.
  destruct (@simple_yield_keeps_heir bintime64 4 demo_two 1 (mk_sched_thread STATES_READY false 2 2 false))
    as (sp & ss & Hp & Hs & _ & Hc & Hh & Hk); [exact demo_two_ok|apply (bool_decide_unpack _); vm_compute; exact I|by vm_compute|done|].
  exists sp, ss. assert (Hl : sc_context ss = [2; 1; 9]) by (rewrite Hc; by vm_compute). rewrite Hl in Hh. injection Hh as <-.
  by split_and!.
Defined.
