(* ===== verification/SchedulerTick.v ===== *)
(** * Time slices

    [score/src/schedulerdefaulttick.c], [threadyield.c] and what
    [threaddispatch.c] does with the budget of a thread: at each clock tick the
    executing thread uses up its time slice, and at its end yields to the other
    threads of its priority.  Threads with time slices take turns. *)

From stdpp Require Import base tactics numbers option list list_numbers gmap fin_maps.
From Stdlib Require Import ZArith Lia.
From S2P Require Import Prelude Chain Status Timespec Thread PriorityMap RateMonTheorems Scheduler SchedulerFacts SchedulerSim SchedulerTheorems.

Open Scope Z_scope.

Inductive Thread_CPU_budget_algorithms :=
| THREAD_CPU_BUDGET_ALGORITHM_NONE
| THREAD_CPU_BUDGET_ALGORITHM_RESET_TIMESLICE
| THREAD_CPU_BUDGET_ALGORITHM_EXHAUST_TIMESLICE
| THREAD_CPU_BUDGET_ALGORITHM_CALLOUT.

#[export] Instance Thread_CPU_budget_algorithms_eq_dec : EqDecision Thread_CPU_budget_algorithms.
Proof. solve_decision. Defined.

(** The processor with the budgets of its threads. *)
Record slice_state (X : Type) := mk_slice_state {
  sl_sched : sched_state X;
  sl_algorithm : gmap Z Thread_CPU_budget_algorithms;
  sl_budget : gmap Z Z
}.
Arguments mk_slice_state {X}.
Arguments sl_sched {X}.
Arguments sl_algorithm {X}.
Arguments sl_budget {X}.

Section Tick.
Context {X : Type} (ops : Scheduler_Operations X).

(** The time slice of the configuration, and the routines of threads with
    their own budget handling. *)
Context (ticks_per_timeslice : Z) (budget_callout : Z -> cm (slice_state X) unit).

Abbreviation M := (cm (slice_state X)).

Definition set_sl_sched v (s : slice_state X) : slice_state X := mk_slice_state v (sl_algorithm s) (sl_budget s).
Definition set_sl_budget v (s : slice_state X) : slice_state X := mk_slice_state (sl_sched s) (sl_algorithm s) v.
Definition F_sl_budget : field (slice_state X) (gmap Z Z) := mk_field sl_budget set_sl_budget.
Definition in_sched {A} (m : cm (sched_state X) A) : M A := zoom sl_sched set_sl_sched m.
Definition ld_algorithm (t : Z) : M Thread_CPU_budget_algorithms :=
  s ← gets sl_algorithm; lift (mem_load s t).

(** [--the_thread->cpu_time_budget]. *)
Definition decrement_budget (t : Z) : M Z :=
  b ← ldm F_sl_budget t;
  stm F_sl_budget t (u32 (b - 1));;
  mret (u32 (b - 1)).

Definition Thread_Yield (executing : Z) : M unit :=
  in_sched (ready ← Thread_Is_ready executing; c_if ready (so_yield ops executing)).

Definition Scheduler_default_Tick (executing : Z) : M unit :=
  preemptible ← in_sched (sc_ld executing st_is_preemptible);
  if negb preemptible then mret tt
  else
    ready ← in_sched (Thread_Is_ready executing);
    if negb ready then mret tt
    else
      algorithm ← ld_algorithm executing;
      match algorithm with
      | THREAD_CPU_BUDGET_ALGORITHM_NONE => mret tt
      | THREAD_CPU_BUDGET_ALGORITHM_RESET_TIMESLICE
      | THREAD_CPU_BUDGET_ALGORITHM_EXHAUST_TIMESLICE =>
          b ← decrement_budget executing;
          c_if (i32 b <=? 0)
            (Thread_Yield executing;;
             stm F_sl_budget executing ticks_per_timeslice)
      | THREAD_CPU_BUDGET_ALGORITHM_CALLOUT =>
          b ← decrement_budget executing;
          c_if (b =? 0) (budget_callout executing)
      end.

Definition Scheduler_Tick : M unit :=
  executing ← in_sched (gets sc_executing);
  c_if (negb (executing =? NULL)) (Scheduler_default_Tick executing).

(** The switch to the heir, which goes on from where it was. *)
Definition Thread_Do_dispatch : M unit :=
  executing ← in_sched (gets sc_executing);
  heir ← in_sched Thread_Get_heir_and_make_it_executing;
  c_if (negb (heir =? executing))
    (algorithm ← ld_algorithm heir;
     c_if (bool_decide (algorithm = THREAD_CPU_BUDGET_ALGORITHM_RESET_TIMESLICE))
       (stm F_sl_budget heir ticks_per_timeslice)).

Definition Thread_Dispatch : M unit :=
  necessary ← in_sched (gets sc_dispatch_necessary);
  c_if necessary Thread_Do_dispatch.

(** Clock ticks, each followed by the dispatch at the end of its interrupt. *)
Fixpoint run_ticks (n : nat) : M unit :=
  match n with
  | O => mret tt
  | S n' => run_ticks n';; Scheduler_Tick;; Thread_Dispatch
  end.

End Tick.

(** ** Taking turns *)
Definition rot1 (l : list Z) : list Z := match l with [] => [] | x :: r => r ++ [x] end.

Lemma rot1_perm l : rot1 l ≡ₚ l.
Proof. destruct l as [|x l]; [done|]. cbn. symmetry. apply Permutation_cons_append. Qed.

(** After [j] rotations the list begins with the element [j]. *)
Lemma rot1_iter l j : l <> [] ->
  Nat.iter j rot1 l = drop (j mod length l) l ++ take (j mod length l) l.
Proof.
  intros Hl. assert (Hn : length l <> 0%nat) by (by destruct l). induction j as [|j IH].
  - rewrite Nat.Div0.mod_0_l. cbn. by rewrite app_nil_r.
  - cbn [Nat.iter nat_rect]. change (nat_rect _ l (fun _ => rot1) j) with (Nat.iter j rot1 l). rewrite IH.
    pose proof (Nat.mod_upper_bound j (length l) Hn) as Hlt. set (k := (j mod length l)%nat) in *.
    assert (Hk : (S j mod length l = if decide (S k = length l) then 0 else S k)%nat).
    { rewrite <- Nat.add_1_r, <- Nat.Div0.add_mod_idemp_l. fold k. rewrite Nat.add_1_r. case_decide as E.
      - rewrite E. apply Nat.Div0.mod_same.
      - apply Nat.mod_small. lia. }
    rewrite Hk. destruct (lookup_lt_is_Some_2 l k) as [x Hx]; [lia|]. rewrite (drop_S _ _ _ Hx). cbn [rot1 app].
    case_decide as E.
    + rewrite drop_0, take_0, app_nil_r, (drop_ge l (S k)) by lia. cbn.
      rewrite <- (take_S_r _ _ _ Hx). apply take_ge. lia.
    + rewrite <- app_assoc, (take_S_r _ _ _ Hx). done.
Qed.

Lemma rot1_head l j : l <> [] -> head (Nat.iter j rot1 l) = l !! (j mod length l)%nat.
Proof.
  intros Hl. rewrite rot1_iter by done. assert (Hn : length l <> 0%nat) by (by destruct l).
  pose proof (Nat.mod_upper_bound j (length l) Hn) as Hlt. destruct (lookup_lt_is_Some_2 l (j mod length l)) as [x Hx]; [lia|].
  by rewrite (drop_S _ _ _ Hx), Hx.
Qed.

Section Slices.
Context `{Bintime} (N q p : Z) (callout : Z -> cm (slice_state Scheduler_priority_Context) unit).
Implicit Types s : slice_state Scheduler_priority_Context.

Abbreviation Tick := (Scheduler_Tick SCHEDULER_PRIORITY_ENTRY_POINTS q callout).
Abbreviation Dispatch := (Thread_Dispatch (X := Scheduler_priority_Context) q).

(** The threads [G] of the most important priority [p] of the ready ones have
    time slices; the first of them executes and has [b] ticks left. *)
Record turn (G rest : list Z) (b : Z) s : Prop := {
  tu_ok : sched_ok N (sl_sched s);
  tu_list : ready_list (sl_sched s) = G ++ rest;
  tu_top : forall x, x ∈ G -> x <> NULL /\ exists th, sc_threads (sl_sched s) !! x = Some th /\ is_ready th /\
    st_is_preemptible th = true /\ sn_value th = p;
  tu_algorithm : forall x, x ∈ G -> sl_algorithm s !! x = Some THREAD_CPU_BUDGET_ALGORITHM_RESET_TIMESLICE /\ is_Some (sl_budget s !! x);
  tu_rest : forall x, x ∈ rest -> p < prio (sc_threads (sl_sched s)) x;
  tu_heir : head G = Some (sc_heir (sl_sched s));
  tu_executing : sc_executing (sl_sched s) = sc_heir (sl_sched s);
  tu_dispatch : sc_dispatch_necessary (sl_sched s) = false;
  tu_budget : sl_budget s !! sc_heir (sl_sched s) = Some b
}.

Lemma in_sched_bind {A B} (m : cm (sched_state Scheduler_priority_Context) A) (k : A -> cm (slice_state Scheduler_priority_Context) B) s a (s1 : sched_state Scheduler_priority_Context) :
  m (sl_sched s) = Ok (a, s1) -> (x ← in_sched m; k x) s = k a (set_sl_sched s1 s).
Proof. intros Hm. unfold mbind, cm_bind, in_sched, zoom. by rewrite Hm. Qed.

Lemma slice_eta s : set_sl_sched (sl_sched s) s = s.
Proof. by destruct s. Qed.

(** A tick of a thread with a time slice. *)
Lemma slice_tick_run s t th b :
  sc_executing (sl_sched s) = t -> t <> NULL -> sc_threads (sl_sched s) !! t = Some th -> is_ready th -> st_is_preemptible th = true ->
  sl_algorithm s !! t = Some THREAD_CPU_BUDGET_ALGORITHM_RESET_TIMESLICE -> sl_budget s !! t = Some b -> 1 <= b < 2 ^ 31 ->
  Tick s = c_if (b - 1 <=? 0) (Thread_Yield SCHEDULER_PRIORITY_ENTRY_POINTS t;; stm F_sl_budget t q)
             (set_sl_budget (<[t := b - 1]> (sl_budget s)) s).
Proof.
  intros He Ht0 Hth Hr Hp Ha Hb Hbound. unfold Scheduler_Tick. rewrite (in_sched_bind _ _ s t (sl_sched s)) by (by rewrite <- He).
  rewrite slice_eta. apply Z.eqb_neq in Ht0. rewrite Ht0. cbn [negb c_if]. unfold Scheduler_default_Tick.
  rewrite (in_sched_bind _ _ s true (sl_sched s)), slice_eta; [|unfold sc_ld; rewrite (ldm_bind _ _ th) by done; by rewrite Hp].
  cbn [negb]. rewrite (in_sched_bind _ _ s true (sl_sched s)), slice_eta;
    [|unfold Thread_Is_ready, sc_ld; rewrite (ldm_bind _ _ th) by done; by rewrite (Hr : States_Is_ready _ = true)].
  cbn [negb]. unfold ld_algorithm. rewrite cm_bind_assoc, gets_bind.
  rewrite (lift_bind _ _ _ THREAD_CPU_BUDGET_ALGORITHM_RESET_TIMESLICE) by (unfold mem_load; by rewrite Ha).
  unfold decrement_budget. rewrite !cm_bind_assoc, (ldm_bind _ _ b) by done. rewrite cm_bind_assoc, stm_bind by (by exists b).
  rewrite ret_bind. cbn [fget fset F_sl_budget]. by rewrite u32_id, i32_id by lia.
Qed.

Lemma dispatch_idle s : sc_dispatch_necessary (sl_sched s) = false -> Dispatch s = Ok (tt, s).
Proof.
  intros Hd. unfold Thread_Dispatch. rewrite (in_sched_bind _ _ s false (sl_sched s)) by (by rewrite <- Hd). by rewrite slice_eta.
Qed.

(** Within a time slice nothing else happens. *)
Lemma tick_within G rest b s :
  turn G rest b s -> 1 < b < 2 ^ 31 -> exists s', (Tick;; Dispatch) s = Ok (tt, s') /\ turn G rest (b - 1) s'.
Proof.
  intros [Hok Hl Ht Ha Hr Hh He Hd Hb] Hbound. destruct G as [|t G]; [done|]. injection Hh as Hh.
  destruct (Ht t ltac:(left)) as (Ht0 & th & Hth & Hrd & Hp & _). destruct (Ha t ltac:(left)) as [Hat _]. rewrite <- Hh in He, Hb.
  exists (set_sl_budget (<[t := b - 1]> (sl_budget s)) s). split.
  - unfold mbind, cm_bind. rewrite (slice_tick_run s t th b) by (done || lia). destruct (Z.leb_spec (b - 1) 0); [lia|]. cbn [c_if].
    by apply dispatch_idle.
  - split; cbn; try done; rewrite <- ?Hh; try done.
    + intros x Hx. destruct (Ha x Hx). split; [done|]. destruct (decide (x = t)) as [->|]; [rewrite lookup_insert_eq; by eexists|].
      by rewrite lookup_insert_ne.
    + by rewrite lookup_insert_eq.
Qed.
Lemma executing_ok (s : sched_state Scheduler_priority_Context) e d :
  sched_ok N s -> sched_ok N (set_sc_executing e (set_sc_dispatch_necessary d s)).
Proof. intros [[? ? ? ? ?] ? ?]. by split. Qed.

(** The first thread of the queue goes behind its group. *)
Lemma yield_rotates (s : sched_state Scheduler_priority_Context) t G rest :
  sched_ok N s -> ready_list s = t :: G ++ rest -> (forall x, x ∈ t :: G -> prio (sc_threads s) x = p) ->
  (forall x, x ∈ rest -> p < prio (sc_threads s) x) ->
  exists (s1 : sched_state Scheduler_priority_Context) f r, Scheduler_priority_Yield t s = Ok (tt, upd_heir f true s1) /\ sched_ok N (upd_heir f true s1) /\
    sc_threads s1 = sc_threads s /\ sc_heir s1 = sc_heir s /\ sc_executing s1 = sc_executing s /\
    sc_dispatch_necessary s1 = sc_dispatch_necessary s /\ ready_list s1 = rot1 (t :: G) ++ rest /\ rot1 (t :: G) = f :: r.
Proof.
  intros Hok Hl HG Hrest. assert (Ht : t ∈ ready_list s) by (rewrite Hl; left).
  destruct (yield_run N s t Hok Ht) as (c' & f & r & Hrun & Hb1 & Hf & Hins).
  assert (Hr : ready_list (set_sc_context c' s) = rot1 (t :: G) ++ rest).
  { rewrite Hins, Hl. pose proof (co_nodup _ _ (bo_ctx _ _ (so_base _ _ Hok))) as Hnd. fold (ready_list s) in Hnd. rewrite Hl in Hnd.
    apply NoDup_cons in Hnd as [Hnt _]. unfold chain_extract. rewrite filter_cons_False by tauto. fold (chain_extract t (G ++ rest)).
    rewrite extract_absent by done. rewrite ins_skip, ins_here; [cbn; by rewrite <- app_assoc|..]; apply Forall_forall; intros x Hx.
    - rewrite (HG t) by left. apply Z.ltb_lt. by apply Hrest.
    - rewrite (HG t), (HG x) by (left || by right). apply Z.ltb_irrefl. }
  destruct (rot1 (t :: G)) as [|f' r'] eqn:E; [by cbn in E; destruct G|].
  rewrite Hf in Hr. injection Hr as <- Hr. exists (set_sc_context c' s), f, r'. split_and!; try done.
  - by apply (schedule_ok N true _ f r); auto.
  - by rewrite Hf, Hr.
Qed.

Lemma dispatch_run s f t :
  sc_heir (sl_sched s) = f -> sc_executing (sl_sched s) = t -> f <> t -> sc_dispatch_necessary (sl_sched s) = true ->
  sl_algorithm s !! f = Some THREAD_CPU_BUDGET_ALGORITHM_RESET_TIMESLICE -> is_Some (sl_budget s !! f) ->
  Dispatch s = Ok (tt, mk_slice_state (set_sc_executing f (set_sc_dispatch_necessary false (sl_sched s))) (sl_algorithm s)
                         (<[f := q]> (sl_budget s))).
Proof.
  intros Hh He Hne Hd Ha [b0 Hb]. unfold Thread_Dispatch. rewrite (in_sched_bind _ _ s true (sl_sched s)) by (by rewrite <- Hd).
  rewrite slice_eta. cbn [c_if]. unfold Thread_Do_dispatch. rewrite (in_sched_bind _ _ s t (sl_sched s)) by (by rewrite <- He).
  rewrite slice_eta, (in_sched_bind _ _ s f (set_sc_executing f (set_sc_dispatch_necessary false (sl_sched s)))) by (by rewrite <- Hh).
  apply Z.eqb_neq in Hne. rewrite Hne. cbn [negb c_if]. unfold ld_algorithm. rewrite cm_bind_assoc, gets_bind.
  rewrite (lift_bind _ _ _ THREAD_CPU_BUDGET_ALGORITHM_RESET_TIMESLICE) by (unfold mem_load; cbn; by rewrite Ha).
  rewrite bool_decide_true by done. cbn [c_if]. rewrite <- bind_tt_r. rewrite stm_bind by (by exists b0). done.
Qed.

(** At the end of its time slice a thread goes behind the others of its group,
    and the next one starts with a time slice of its own. *)
Lemma tick_ends G rest s :
  turn G rest 1 s -> exists s', (Tick;; Dispatch) s = Ok (tt, s') /\ turn (rot1 G) rest q s'.
Proof.
  intros [Hok Hl Ht Ha Hr Hh He Hd Hb]. destruct G as [|t G]; [done|]. injection Hh as Hh. rewrite <- Hh in He, Hb.
  destruct (Ht t ltac:(left)) as (Ht0 & th & Hth & Hrd & Hp & _). destruct (Ha t ltac:(left)) as [Hat _].
  destruct (yield_rotates (sl_sched s) t G rest Hok Hl) as (s1 & f & r & Hy & Hok1 & Hth1 & Hh1 & He1 & Hd1 & Hl1 & Hrot); [|done|].
  { intros x Hx. destruct (Ht x Hx) as (_ & xh & Hxh & _ & _ & <-). by apply prio_eq. }
  set (u := upd_heir f true s1) in *. set (bud := <[t := q]> (<[t := 0]> (sl_budget s))).
  assert (Hheir : sc_heir u = f) by (by destruct (upd_heir_heir f true s1) as [?|[? _]]).
  assert (Hlu : ready_list u = rot1 (t :: G) ++ rest) by (unfold ready_list, u; by rewrite upd_heir_context).
  assert (Htu : sc_threads u = sc_threads (sl_sched s)) by (unfold u; by rewrite upd_heir_threads).
  assert (Hin : forall x, x ∈ rot1 (t :: G) -> x ∈ t :: G) by (intros x; by rewrite rot1_perm).
  assert (Hbud : forall x, x ∈ rot1 (t :: G) -> is_Some (bud !! x)).
  { intros x Hx. unfold bud. rewrite insert_insert_eq. destruct (decide (x = t)) as [->|]; [rewrite lookup_insert_eq; by eexists|].
    rewrite lookup_insert_ne by done. by apply Ha, Hin. }
  assert (Htick : Tick s = Ok (tt, mk_slice_state u (sl_algorithm s) bud)).
  { rewrite (slice_tick_run s t th 1) by (done || lia). change (1 - 1 <=? 0) with true. cbn [c_if]. unfold Thread_Yield.
    rewrite (in_sched_bind _ (fun _ => stm F_sl_budget t q) _ tt u).
    2: { unfold Thread_Is_ready. cbn [sl_sched set_sl_budget]. rewrite (sc_ld_bind _ th) by done. rewrite (Hrd : States_Is_ready _ = true). exact Hy. }
    rewrite <- bind_tt_r. rewrite stm_bind; [done|]. cbn. rewrite lookup_insert_eq. by eexists. }
  assert (Hturn : forall sc bud', sched_ok N sc -> ready_list sc = ready_list u -> sc_threads sc = sc_threads u -> sc_heir sc = f ->
    sc_executing sc = f -> sc_dispatch_necessary sc = false -> bud' !! f = Some q -> (forall x, x ∈ rot1 (t :: G) -> is_Some (bud' !! x)) ->
    turn (rot1 (t :: G)) rest q (mk_slice_state sc (sl_algorithm s) bud')).
  { intros sc bud' Hsc Hlsc Htsc Hhsc Hesc Hdsc Hbf Hbx. split; cbn [sl_sched sl_algorithm sl_budget]; rewrite ?Htsc, ?Htu, ?Hhsc, ?Hesc; try done.
    - by rewrite Hlsc, Hlu.
    - intros x Hx. by apply Ht, Hin.
    - intros x Hx. split; [by apply Ha, Hin|by apply Hbx].
    - by rewrite Hrot. }
  unfold mbind, cm_bind. rewrite Htick. destruct (decide (f = t)) as [->|Hne].
  - assert (Hus : u = s1) by (unfold u, upd_heir; rewrite Hh1, <- Hh; by rewrite Z.eqb_refl).
    eexists. split; [apply dispatch_idle; cbn; rewrite Hus; congruence|]. apply Hturn; try done; rewrite ?Hus; try congruence.
    unfold bud. by rewrite lookup_insert_eq.
  - assert (Hdu : sc_dispatch_necessary u = true /\ sc_executing u = t).
    { unfold u, upd_heir. rewrite Hh1, <- Hh. apply not_eq_sym, Z.eqb_neq in Hne. rewrite Hne, orb_true_r. cbn. by rewrite He1. }
    assert (Hf : f ∈ rot1 (t :: G)) by (rewrite Hrot; left).
    eexists. split; [apply (dispatch_run _ f t); try done; [apply Hdu|apply Hdu|by apply Ha, Hin|by apply Hbud]|]. cbn [sl_sched sl_algorithm sl_budget].
    apply Hturn; try done; [by apply executing_ok|by rewrite lookup_insert_eq|].
    intros x Hx. destruct (decide (x = f)) as [->|]; [rewrite lookup_insert_eq; by eexists|]. rewrite lookup_insert_ne by done. by apply Hbud.
Qed.

Lemma turns_run G rest s n :
  turn G rest q s -> 1 <= q < 2 ^ 31 ->
  exists s', run_ticks SCHEDULER_PRIORITY_ENTRY_POINTS q callout n s = Ok (tt, s') /\
    turn (Nat.iter (n / Z.to_nat q) rot1 G) rest (q - Z.of_nat (n mod Z.to_nat q)) s'.
Proof.
  intros Ht Hq. set (k := Z.to_nat q). assert (Hk : (k <> 0)%nat) by lia. induction n as [|n IH].
  - exists s. split; [done|]. rewrite Nat.Div0.div_0_l, Nat.Div0.mod_0_l. by rewrite Z.sub_0_r.
  - destruct IH as (s1 & Hr1 & Ht1). pose proof (Nat.mod_upper_bound n k Hk) as Hm. pose proof (Nat.div_mod_eq n k) as Hdm.
    cbn [run_ticks]. destruct (decide (n mod k = k - 1)%nat) as [E|E].
    + assert (Hd' : (S n / k = S (n / k))%nat) by (symmetry; apply (Nat.div_unique _ _ _ 0); lia).
      assert (Hm' : (S n mod k = 0)%nat) by (symmetry; apply (Nat.mod_unique _ _ (S (n / k))); lia).
      rewrite Hd', Hm'. replace (q - Z.of_nat (n mod k)) with 1 in Ht1 by lia. destruct (tick_ends _ _ _ Ht1) as (s2 & Hr2 & Ht2).
      exists s2. rewrite (cm_bind_ok _ _ _ _ _ Hr1). split; [done|]. cbn. by rewrite Z.sub_0_r.
    + assert (Hd' : (S n / k = n / k)%nat) by (symmetry; apply (Nat.div_unique _ _ _ (S (n mod k))); lia).
      assert (Hm' : (S n mod k = S (n mod k))%nat) by (symmetry; apply (Nat.mod_unique _ _ (n / k)); lia).
      rewrite Hd', Hm'. destruct (tick_within _ _ _ _ Ht1) as (s2 & Hr2 & Ht2); [lia|].
      exists s2. rewrite (cm_bind_ok _ _ _ _ _ Hr1). split; [done|].
      replace (q - Z.of_nat (S (n mod k))) with (q - Z.of_nat (n mod k) - 1) by lia. done.
Qed.

End Slices.

(** C22: threads with time slices take turns: when the threads [G], the most
    important ready ones, have time slices of [q] ticks, then after [n] clock
    ticks, whatever [n] is, the thread number [n / q] executes, counted around
    [G], and [q - n mod q] ticks of its slice are left; the ready queue has
    turned as often as slices have ended.  So in each round of [q] times the
    length of [G] ticks every one of these threads has exactly [q] ticks. *)
Theorem time_slices_round_robin `{Bintime} N q p callout G rest s n :
  turn N p G rest q s -> 1 <= q < 2 ^ 31 ->
  exists s', run_ticks SCHEDULER_PRIORITY_ENTRY_POINTS q callout n s = Ok (tt, s') /\
    G !! ((n / Z.to_nat q) mod length G)%nat = Some (sc_executing (sl_sched s')) /\
    sl_budget s' !! sc_executing (sl_sched s') = Some (q - Z.of_nat (n mod Z.to_nat q)) /\
    ready_list (sl_sched s') = Nat.iter (n / Z.to_nat q) rot1 G ++ rest /\ sched_ok N (sl_sched s').
Proof.
  intros Ht Hq. destruct (turns_run N q p callout G rest s n Ht Hq) as (s' & Hr & Ht'). exists s'.
  assert (HG : G <> []) by (intros ->; by destruct Ht).
  split_and!; [done| | |apply (tu_list _ _ _ _ _ _ Ht')|apply (tu_ok _ _ _ _ _ _ Ht')].
  - rewrite <- rot1_head by done. rewrite (tu_executing _ _ _ _ _ _ Ht'). apply (tu_heir _ _ _ _ _ _ Ht').
  - rewrite (tu_executing _ _ _ _ _ _ Ht'). apply (tu_budget _ _ _ _ _ _ Ht').
Qed.

(** Two threads of one priority and the idle thread. *)
Definition demo_pair_ops : list sched_op :=
  [S_create 1 2 true; S_create 2 2 true; S_unblock 1; S_unblock 2; S_dispatch].
Definition demo_pair : sched_state Scheduler_priority_Context :=
  match run_scheds (@SCHEDULER_PRIORITY_ENTRY_POINTS bintime64) demo_pair_ops demo_ready with
  | Ok (_, s) => s
  | Undef _ => demo_ready
  end.

Lemma demo_pair_ok : sched_ok 4 demo_pair.
Proof.
  destruct (@start_agree bintime64 4 demo_cpu 9) as (s1 & Hr1 & _ & Hs1); [lia|done|done|].
  assert (E : s1 = demo_ready) by (unfold demo_ready; change 3 with (4 - 1); by rewrite Hr1). subst s1.
  destruct (@session_ok bintime64 4 demo_pair_ops demo_ready Hs1) as (s2 & Hr2 & Hs2); [apply (bool_decide_unpack _); vm_compute; exact I|].
  unfold demo_pair. by rewrite Hr2.
Qed.

Definition demo_slices : slice_state Scheduler_priority_Context :=
  mk_slice_state demo_pair
    (<[1 := THREAD_CPU_BUDGET_ALGORITHM_RESET_TIMESLICE]> (<[2 := THREAD_CPU_BUDGET_ALGORITHM_RESET_TIMESLICE]> ∅))
    (<[1 := 50]> (<[2 := 7]> ∅)).

Lemma demo_slices_turn : turn 4 2 [1; 2] [9] 50 demo_slices.
Proof.
  split; [exact demo_pair_ok|by vm_compute| | | |by vm_compute..].
  - intros x Hx. rewrite !elem_of_cons, elem_of_nil in Hx. destruct Hx as [->|[->|[]]]; (split; [done|]);
      exists (mk_sched_thread STATES_READY true 2 2 false); split_and!; by vm_compute.
  - intros x Hx. rewrite !elem_of_cons, elem_of_nil in Hx. destruct Hx as [->|[->|[]]]; (split; [by vm_compute|]); by eexists.
  - intros x Hx. apply list_elem_of_singleton in Hx as ->. by vm_compute.
Qed.

Lemma time_slices_round_robin_witness : exists s',
  run_ticks (@SCHEDULER_PRIORITY_ENTRY_POINTS bintime64) 50 (fun _ => mret tt) 120 demo_slices = Ok (tt, s') /\
  sc_executing (sl_sched s') = 1 /\ sl_budget s' !! 1 = Some 30 /\ ready_list (sl_sched s') = [1; 2; 9].
Proof.
  destruct (@time_slices_round_robin bintime64 4 50 2 (fun _ => mret tt) [1; 2] [9] demo_slices 120 demo_slices_turn)
    as (s' & Hr & He & Hb & Hl & _); [lia|]. cbn in He. injection He as He.
  exists s'. rewrite <- He in Hb |- *. split_and!; [done|done|exact Hb|exact Hl].
Defined.
