(* ===== verification/SchedulerEdf.v ===== *)
(** * The earliest deadline first scheduler

    [score/src/scheduleredf*.c], [scheduleredfimpl.h]: the ready threads are the
    nodes of a red-black tree ordered by priority.  The priority of a thread
    with a deadline is its deadline; other threads have the most significant
    bit set and run in the background.  The tree handler is that of [RBTree.v];
    the minimum of a tree, [RB_MIN] of [sys/tree.h], joins its interface. *)

From stdpp Require Import base tactics numbers option list list_numbers gmap fin_maps.
From Stdlib Require Import ZArith Lia.
From S2P Require Import Prelude Chain Status Timespec RBTree RBTreeFacts Thread Scheduler.

Open Scope Z_scope.

(** The minimum of a tree, from [sys/tree.h]. *)
Class SysTreeMin := { RB_MIN : rb_state -> Z }.
Class SysTreeMinLaws `{SysTreeMin} := {
  RB_MIN_law : forall s t, is_tree s t -> RB_MIN s = default NULL (head (inorder t))
}.

(** The node of a thread in the tree has the address of the thread. *)
Record Scheduler_EDF_Context := mk_EDF_context {
  edf_Ready : rb_state;
  edf_priority : gmap Z Z
}.

Definition SCHEDULER_EDF_PRIO_MSB : Z := 9223372036854775808.

Definition Scheduler_EDF_Map_priority (priority : Z) : Z := Z.lor SCHEDULER_EDF_PRIO_MSB priority.
Definition Scheduler_EDF_Unmap_priority (priority : Z) : Z :=
  Z.land priority (u64 (Z.lnot SCHEDULER_EDF_PRIO_MSB)).

Section EDF.
Context `{Bintime} `{SysTree} `{SysTreeMin}.

Abbreviation M := (cm (sched_state Scheduler_EDF_Context)).

Definition set_edf_Ready v (c : Scheduler_EDF_Context) : Scheduler_EDF_Context := mk_EDF_context v (edf_priority c).
Definition set_edf_priority v (c : Scheduler_EDF_Context) : Scheduler_EDF_Context := mk_EDF_context (edf_Ready c) v.

Definition in_Ready {A} (m : cm rb_state A) : M A :=
  zoom (fun s => edf_Ready (sc_context s)) (fun r s => set_sc_context (set_edf_Ready r (sc_context s)) s) m.

Definition RBTree_Minimum : cm rb_state Z := gets RB_MIN.

(** The comparisons of a key with the node [right] of the tree. *)
Definition Scheduler_EDF_Less (m : gmap Z Z) (prio_left right : Z) : bool := prio_left <? default 0 (m !! right).
Definition Scheduler_EDF_Less_or_equal (m : gmap Z Z) (prio_left right : Z) : bool :=
  prio_left <=? default 0 (m !! right).

Definition Scheduler_EDF_Enqueue (node priority : Z) : M unit :=
  m ← gets (fun s => edf_priority (sc_context s));
  in_Ready (RBTree_Insert_inline node (Scheduler_EDF_Less m priority));;
  mret tt.
Definition Scheduler_EDF_Enqueue_first (node priority : Z) : M unit :=
  m ← gets (fun s => edf_priority (sc_context s));
  in_Ready (RBTree_Insert_inline node (Scheduler_EDF_Less_or_equal m priority));;
  mret tt.
Definition Scheduler_EDF_Extract (node : Z) : M unit := in_Ready (RBTree_Extract node).
Definition Scheduler_EDF_Extract_body (the_thread : Z) : M unit := Scheduler_EDF_Extract the_thread.

(** The owner of the null pointer is no thread. *)
Definition Scheduler_EDF_Schedule_body (the_thread : Z) (force_dispatch : bool) : M unit :=
  first ← in_Ready RBTree_Minimum;
  if first =? NULL then lift (Undef Bad_address)
  else Scheduler_Update_heir first force_dispatch.

Definition edf_set_priority (the_node priority : Z) : M unit :=
  modify (fun s => set_sc_context
    (set_edf_priority (<[the_node := priority]> (edf_priority (sc_context s))) (sc_context s)) s).
Definition edf_get_priority (the_node : Z) : M Z :=
  c ← gets sc_context; lift (mem_load (edf_priority c) the_node).

Definition Scheduler_EDF_Initialize : M unit := in_Ready RBTree_Initialize_empty.

(** [_RBTree_Initialize_node] does nothing outside of a debug configuration. *)
Definition Scheduler_EDF_Node_initialize (the_node priority : Z) : M unit :=
  Scheduler_Node_do_initialize the_node priority;;
  edf_set_priority the_node priority.

Definition Scheduler_EDF_Block (the_thread : Z) : M unit :=
  Scheduler_Generic_block the_thread Scheduler_EDF_Extract_body Scheduler_EDF_Schedule_body.

Definition Scheduler_EDF_Unblock (the_thread : Z) : M unit :=
  p ← Scheduler_Node_get_priority the_thread;
  let priority := p.1 in
  edf_set_priority the_thread priority;;
  Scheduler_EDF_Enqueue the_thread priority;;
  heir ← gets sc_heir;
  heir_priority ← Thread_Get_priority heir;
  c_if (priority <? heir_priority)
    (Scheduler_Update_heir the_thread (priority =? Z.lor SCHEDULER_EDF_PRIO_MSB PRIORITY_PSEUDO_ISR)).

Definition Scheduler_EDF_Update_priority (the_thread : Z) : M unit :=
  ready ← Thread_Is_ready the_thread;
  if negb ready then mret tt
  else
    p ← Scheduler_Node_get_priority the_thread;
    let priority := p.1 in
    old ← edf_get_priority the_thread;
    if priority =? old then mret tt
    else
      edf_set_priority the_thread priority;;
      Scheduler_EDF_Extract the_thread;;
      (if (p.2 : bool) then Scheduler_EDF_Enqueue_first the_thread priority
       else Scheduler_EDF_Enqueue the_thread priority);;
      Scheduler_EDF_Schedule_body the_thread false.

Definition Scheduler_EDF_Yield (the_thread : Z) : M unit :=
  Scheduler_EDF_Extract the_thread;;
  priority ← edf_get_priority the_thread;
  Scheduler_EDF_Enqueue the_thread priority;;
  Scheduler_EDF_Schedule_body the_thread true.

Definition Scheduler_EDF_Schedule (the_thread : Z) : M unit := Scheduler_EDF_Schedule_body the_thread false.

Definition SCHEDULER_EDF_ENTRY_POINTS : Scheduler_Operations Scheduler_EDF_Context :=
  mk_Scheduler_Operations (fun _ => Scheduler_EDF_Initialize) Scheduler_EDF_Schedule Scheduler_EDF_Yield
    Scheduler_EDF_Block Scheduler_EDF_Unblock Scheduler_EDF_Update_priority
    Scheduler_EDF_Map_priority Scheduler_EDF_Node_initialize.

End EDF.
