(* ===== verification/SchedulerEdfTheorems.v ===== *)
(** * Earliest deadline first: theorems

    With preemptible threads the scheduler always has the ready thread with the
    earliest deadline as the heir, and is the simple scheduler with a tree for
    its chain. *)

From stdpp Require Import base tactics numbers option list list_numbers gmap fin_maps.
From Stdlib Require Import ZArith Lia Sorted.
From S2P Require Import Prelude Chain Status Timespec RBTree RBTreeFacts Thread RateMonTheorems Scheduler SchedulerFacts SchedulerSim SchedulerTheorems SchedulerEdf.

Open Scope Z_scope.

(** ** Ordered lists *)
Definition below (pr : Z -> Z) (x y : Z) : Prop := pr x <= pr y.
Abbreviation ordered pr := (StronglySorted (below pr)).

(** A test that holds from some priority on. *)
Definition threshold (pr : Z -> Z) (before : Z -> bool) : Prop :=
  forall x y, pr x <= pr y -> before x = true -> before y = true.

Lemma ordered_upward pr before L : ordered pr L -> threshold pr before -> upward before L.
Proof.
  intros HL Hb l1 x l2 -> Hx. induction l1 as [|z l1 IH]; cbn in HL; apply StronglySorted_inv in HL as [HS HL]; [|by apply IH].
  eapply Forall_impl; [exact HL|]. intros y Hy. by apply (Hb x).
Qed.

Lemma ins_filter before x L :
  upward before L -> ins before x L = filter (fun y => before y = false) L ++ x :: filter (fun y => before y = true) L.
Proof.
  induction L as [|y L IH]; intros Hu; [done|]. cbn [ins]. destruct (before y) eqn:Hy.
  - assert (HL : Forall (fun z => before z = true) (y :: L)) by (constructor; [done|by apply (Hu [] y L)]).
    rewrite (filter_none (fun z : Z => before z = false)), (filter_all (fun z : Z => before z = true)); [done|done|].
    eapply Forall_impl; [exact HL|]. intros z Hz. cbn. congruence.
  - rewrite filter_cons_True by done. rewrite filter_cons_False by congruence. cbn. f_equal. apply IH.
    intros l1 z l2 -> Hz. by apply (Hu (y :: l1) z l2).
Qed.

Lemma ordered_ins (pr : Z -> Z) (before : Z -> bool) x L :
  ordered pr L -> (forall y, y ∈ L -> if before y then pr x <= pr y else pr y <= pr x) -> ordered pr (ins before x L).
Proof.
  induction 1 as [|y L HL IH Hy]; intros Hb; cbn; [by repeat constructor|].
  pose proof (Hb y ltac:(left)) as Hby. destruct (before y).
  - constructor; [by constructor|]. constructor; [done|]. eapply Forall_impl; [exact Hy|]. unfold below in *. lia.
  - constructor; [apply IH; intros z Hz; apply Hb; by right|]. apply Forall_forall. intros z [->|Hz]%elem_of_ins; [done|].
    by rewrite Forall_forall in Hy; apply Hy.
Qed.

Lemma ordered_extract pr x L : ordered pr L -> ordered pr (chain_extract x L).
Proof.
  unfold chain_extract. induction 1 as [|y L HL IH Hy]; [apply SSorted_nil|]. rewrite filter_cons.
  destruct (decide (y <> x)); [|done]. constructor; [done|]. apply Forall_forall. intros z [_ Hz]%list_elem_of_filter.
  by rewrite Forall_forall in Hy; apply Hy.
Qed.

Lemma ordered_ext pr pr' L : (forall x, x ∈ L -> pr x = pr' x) -> ordered pr L -> ordered pr' L.
Proof.
  intros He. induction 1 as [|y L HL IH Hy]; constructor; [apply IH; intros; apply He; by right|].
  apply Forall_forall. intros z Hz. rewrite Forall_forall in Hy. unfold below in *. rewrite <- !He by (left || by right). by apply Hy.
Qed.

(** ** The tree as a list *)
Section Tree.
Context `{SysTree} `{!SysTreeLaws} `{SysTreeMin} `{!SysTreeMinLaws}.

Definition tree_list (r : rb_state) (L : list Z) : Prop := balanced r /\ exists t, is_tree r t /\ inorder t = L.

(** Nodes in memory stay there. *)
Definition nodes_stay (r r' : rb_state) : Prop := forall y, is_Some (rb_nodes r !! y) -> is_Some (rb_nodes r' !! y).

Lemma tree_extract r L x :
  tree_list r L -> x ∈ L ->
  exists r', RBTree_Extract x r = Ok (tt, r') /\ tree_list r' (chain_extract x L) /\ nodes_stay r r'.
Proof.
  intros (Hb & t & Ht & HL) Hx. pose proof (proj2 Ht) as Hnd. rewrite HL in Hnd.
  apply list_elem_of_split in Hx as (l1 & l2 & ->).
  destruct (extract_run r t l1 x l2 Hb Ht HL) as (r' & t' & Hrun & Ht' & HL' & Hb' & Hsx & Hfr).
  exists r'. split; [done|]. split.
  - split; [done|]. exists t'. split; [done|]. rewrite HL'. apply NoDup_app in Hnd as (_ & Hd & Hnd). apply NoDup_cons in Hnd as [Hx2 _].
    unfold chain_extract. rewrite filter_app, filter_cons_False by tauto. fold (chain_extract x l1) (chain_extract x l2).
    rewrite !extract_absent; [done|done|]. intros Hx1. apply (Hd x Hx1). left.
  - intros y Hy. destruct (decide (y ∈ inorder t)) as [Hin|Hin]; [|by rewrite Hfr].
    rewrite HL in Hin. rewrite elem_of_app, elem_of_cons in Hin.
    assert (Hin' : y = x \/ y ∈ inorder t') by (rewrite HL', elem_of_app; tauto).
    destruct Hin' as [->|Hin']; [done|]. by apply (rep_nodes _ _ _ _ y (proj1 Ht')).
Qed.

Lemma tree_insert r L x less :
  tree_list r L -> upward less L -> x ∉ L -> x <> NULL -> is_Some (rb_nodes r !! x) ->
  exists b r', RBTree_Insert_inline x less r = Ok (b, r') /\ tree_list r' (ins less x L) /\ nodes_stay r r'.
Proof.
  intros (Hb & t & Ht & <-) Hu Hx Hx0 [n Hn].
  destruct (insert_inline_run r t x n less Hb Ht Hu Hx Hx0 Hn) as (r' & t' & Hrun & Ht' & HL & Hb' & Hfr).
  do 2 eexists. split; [exact Hrun|]. split.
  - split; [done|]. exists t'. split; [done|]. by rewrite ins_filter.
  - intros y Hy. destruct (decide (y ∈ inorder t')) as [Hin|Hin]; [|by rewrite Hfr].
    by apply (rep_nodes _ _ _ _ y (proj1 Ht')).
Qed.

Lemma tree_min r x L : tree_list r (x :: L) -> RB_MIN r = x /\ x <> NULL.
Proof.
  intros (_ & t & Ht & HL). rewrite (RB_MIN_law _ _ Ht), HL. split; [done|].
  apply (rep_nodes _ _ _ _ x (proj1 Ht)). rewrite HL. left.
Qed.

Lemma tree_nodup r L : tree_list r L -> NoDup L.
Proof. intros (_ & t & [_ Hnd] & <-). done. Qed.

End Tree.

(** ** The invariant *)
Definition with_list {X} (L : list Z) (s : sched_state X) : sched_state (list Z) :=
  mk_sched_state (sc_threads s) (sc_heir s) (sc_executing s) (sc_dispatch_necessary s) (sc_cpu_usage_timestamp s)
    (sc_cpu_time_used s) (sc_uptime s) L.

Definition node_prio (c : Scheduler_EDF_Context) (x : Z) : Z := default 0 (edf_priority c !! x).

Section Edf.
Context `{Bintime} `{SysTree} `{!SysTreeLaws} `{SysTreeMin} `{!SysTreeMinLaws}.
Implicit Types s : sched_state Scheduler_EDF_Context.

(** [L] is the ready queue: the tree in order, the ready threads by deadline. *)
Record edf_base s (L : list Z) : Prop := {
  eb_tree : tree_list (edf_Ready (sc_context s)) L;
  eb_ordered : ordered (node_prio (sc_context s)) L;
  eb_thr : forall t th, sc_threads s !! t = Some th ->
    sn_wait_priority th = sn_value th /\ st_is_preemptible th = true /\ t <> NULL /\
    is_Some (rb_nodes (edf_Ready (sc_context s)) !! t) /\ is_Some (edf_priority (sc_context s) !! t) /\
    is_Some (sc_cpu_time_used s !! t);
  eb_ready : forall t, t ∈ L <-> exists th, sc_threads s !! t = Some th /\ is_ready th;
  eb_prio : forall t th, sc_threads s !! t = Some th -> t ∈ L -> edf_priority (sc_context s) !! t = Some (sn_value th);
  eb_heir : is_Some (sc_threads s !! sc_heir s)
}.

(** The heir is the first of the queue. *)
Definition edf_ok s (L : list Z) : Prop := edf_base s L /\ head L = Some (sc_heir s).

Definition edf_agree (mp : cm (sched_state Scheduler_EDF_Context) unit) (ms : cm (sched_state (list Z)) unit) L s : Prop :=
  exists s' L', mp s = Ok (tt, s') /\ ms (with_list L s) = Ok (tt, with_list L' s') /\ edf_ok s' L'.

Lemma edf_change s L t th th' c' L' :
  edf_base s L -> sc_threads s !! t = Some th -> tree_list (edf_Ready c') L' -> ordered (node_prio c') L' ->
  sn_wait_priority th' = sn_value th' -> st_is_preemptible th' = true ->
  nodes_stay (edf_Ready (sc_context s)) (edf_Ready c') ->
  (forall x, x <> t -> edf_priority c' !! x = edf_priority (sc_context s) !! x) -> is_Some (edf_priority c' !! t) ->
  (forall x, x <> t -> x ∈ L' <-> x ∈ L) -> (t ∈ L' <-> is_ready th') ->
  (t ∈ L' -> edf_priority c' !! t = Some (sn_value th')) ->
  edf_base (set_sc_context c' (set_sc_threads (<[t := th']> (sc_threads s)) s)) L'.
Proof.
  intros [Htr Ho Ht Hr Hp Hh] Hth Htr' Ho' Hw Hpre Hst Hq Hqt Hl Hlt Hlp.
  destruct (Ht t th Hth) as (_ & _ & Ht0 & Htn & _ & Htu). split; cbn; try done.
  - intros x xh Hx. destruct (decide (x = t)) as [->|Hne].
    + rewrite lookup_insert_eq in Hx. injection Hx as <-. split_and!; auto.
    + rewrite lookup_insert_ne in Hx by done. rewrite Hq by done. destruct (Ht x xh Hx) as (? & ? & ? & ? & ? & ?). split_and!; auto.
  - intros x. destruct (decide (x = t)) as [->|Hne].
    + rewrite lookup_insert_eq, Hlt. split; [by eexists|]. by intros (? & [= <-] & ?).
    + rewrite lookup_insert_ne by done. rewrite Hl by done. apply Hr.
  - intros x xh Hx Hin. destruct (decide (x = t)) as [->|Hne].
    + rewrite lookup_insert_eq in Hx. injection Hx as <-. by apply Hlp.
    + rewrite lookup_insert_ne in Hx by done. rewrite Hq by done. apply Hp; [done|]. by apply Hl.
  - destruct (decide (sc_heir s = t)) as [->|Hne]; [rewrite lookup_insert_eq; by eexists|]. by rewrite lookup_insert_ne.
Qed.

Lemma edf_known s L x : edf_base s L -> is_Some (sc_threads s !! x) -> known (sc_threads s) x.
Proof. intros Hb [th Hth]. exists th. split; [done|]. by apply (eb_thr _ _ Hb x). Qed.

(** The threads of a queue have the priorities of their nodes. *)
Definition edf_synced s (L : list Z) : Prop :=
  forall x, x ∈ L -> known (sc_threads s) x /\ prio (sc_threads s) x = node_prio (sc_context s) x.

Lemma edf_base_synced s L : edf_base s L -> edf_synced s L.
Proof.
  intros Hb x Hx. pose proof Hx as (th & Hth & _)%(eb_ready _ _ Hb). split; [by apply (edf_known s L); [done|exists th]|].
  rewrite (prio_eq _ _ _ Hth). unfold node_prio. by rewrite (eb_prio _ _ Hb x th).
Qed.

Lemma in_Ready_run {A} (m : cm rb_state A) s a r' :
  m (edf_Ready (sc_context s)) = Ok (a, r') ->
  in_Ready m s = Ok (a, set_sc_context (set_edf_Ready r' (sc_context s)) s).
Proof. intros Hm. unfold in_Ready, zoom. by rewrite Hm. Qed.

(** ** The queue operations *)
Lemma edf_extract_both s L t :
  tree_list (edf_Ready (sc_context s)) L -> t ∈ L ->
  exists r', Scheduler_EDF_Extract t s = Ok (tt, set_sc_context (set_edf_Ready r' (sc_context s)) s) /\
    Scheduler_simple_Extract t (with_list L s) = Ok (tt, with_list (chain_extract t L) s) /\
    tree_list r' (chain_extract t L) /\ nodes_stay (edf_Ready (sc_context s)) r'.
Proof.
  intros Ht Hin. destruct (tree_extract _ L t Ht Hin) as (r' & Hrun & Ht' & Hst). exists r'. split_and!; try done.
  by apply in_Ready_run.
Qed.

Definition edf_enqueue_at (prepend_it : bool) : Z -> Z -> cm (sched_state Scheduler_EDF_Context) unit :=
  if prepend_it then Scheduler_EDF_Enqueue_first else Scheduler_EDF_Enqueue.
Definition goes_before (prepend_it : bool) (p q : Z) : bool := if prepend_it then p <=? q else p <? q.

Lemma edf_enqueue_run s L t p (prepend_it : bool) :
  tree_list (edf_Ready (sc_context s)) L -> ordered (node_prio (sc_context s)) L -> t ∉ L -> t <> NULL ->
  is_Some (rb_nodes (edf_Ready (sc_context s)) !! t) -> node_prio (sc_context s) t = p ->
  let L' := ins (fun x => goes_before prepend_it p (node_prio (sc_context s) x)) t L in
  exists r', edf_enqueue_at prepend_it t p s = Ok (tt, set_sc_context (set_edf_Ready r' (sc_context s)) s) /\
    tree_list r' L' /\ ordered (node_prio (sc_context s)) L' /\ nodes_stay (edf_Ready (sc_context s)) r'.
Proof.
  intros Ht Ho Hin Ht0 Hn Hp. cbv zeta. set (before := fun x => goes_before prepend_it p (node_prio (sc_context s) x)).
  assert (Hu : upward before L).
  { apply (ordered_upward (node_prio (sc_context s))); [done|]. intros x y Hxy. unfold before, goes_before.
    destruct prepend_it; rewrite ?Z.leb_le, ?Z.ltb_lt; lia. }
  destruct (tree_insert _ L t before Ht Hu Hin Ht0 Hn) as (b & r' & Hrun & Ht' & Hst). exists r'. split_and!; try done.
  - unfold edf_enqueue_at. destruct prepend_it; unfold Scheduler_EDF_Enqueue_first, Scheduler_EDF_Enqueue; rewrite gets_bind;
      erewrite cm_bind_ok; [done|by apply in_Ready_run; exact Hrun|done|by apply in_Ready_run; exact Hrun].
  - apply ordered_ins; [done|]. intros y _. unfold before, goes_before. rewrite Hp.
    destruct prepend_it; [destruct (Z.leb_spec p (node_prio (sc_context s) y))|destruct (Z.ltb_spec p (node_prio (sc_context s) y))]; lia.
Qed.

Lemma edf_insert_run s L t (prepend_it : bool) :
  edf_synced s L -> known (sc_threads s) t ->
  insert_at prepend_it t (with_list L s) =
  Ok (tt, with_list (ins (fun x => goes_before prepend_it (prio (sc_threads s) t) (node_prio (sc_context s) x)) t L) s).
Proof.
  intros Hs Ht. unfold insert_at, goes_before.
  assert (Hk : forall x, x ∈ sc_context (with_list L s) -> known (sc_threads (with_list L s)) x) by (intros x Hx; by apply Hs).
  destruct prepend_it; [rewrite lifo_run by done|rewrite fifo_run by done]; unfold with_list, set_sc_context; cbn; do 3 f_equal;
    apply ins_ext; intros x Hx; by rewrite (proj2 (Hs x Hx)).
Qed.
(** ** The steps *)
Lemma edf_agree_bind s L s1 L1 (mp kp : cm (sched_state Scheduler_EDF_Context) unit) (ms ks : cm (sched_state (list Z)) unit) :
  mp s = Ok (tt, s1) -> ms (with_list L s) = Ok (tt, with_list L1 s1) -> edf_agree kp ks L1 s1 -> edf_agree (mp;; kp) (ms;; ks) L s.
Proof.
  intros Hp Hm (s' & L' & Hkp & Hks & Hok). exists s', L'. by rewrite (cm_bind_ok _ _ _ _ _ Hp), (cm_bind_ok _ _ _ _ _ Hm).
Qed.

Lemma edf_agree_upd s L t th f kp ks :
  sc_threads s !! t = Some th -> edf_agree kp ks L (set_sc_threads (<[t := f th]> (sc_threads s)) s) ->
  edf_agree (sc_upd t f;; kp) (sc_upd t f;; ks) L s.
Proof.
  intros Ht (s' & L' & Hp & Hk & Hok). exists s', L'. rewrite (sc_upd_bind _ th) by done. split; [done|].
  by rewrite (sc_upd_bind _ th) by done.
Qed.

Lemma edf_upd_heir s L f force :
  edf_base s L -> head L = Some f -> edf_ok (upd_heir f force s) L /\ with_list L (upd_heir f force s) = upd_heir f force (with_list L s).
Proof.
  intros Hb Hf. destruct (eb_heir _ _ Hb) as [h Hh]. destruct (eb_thr _ _ Hb _ h Hh) as (_ & Hpre & _).
  assert (Hheir : sc_heir (upd_heir f force s) = f).
  { destruct (upd_heir_heir f force s) as [?|(_ & _ & Hn)]; [done|]. rewrite Hh in Hn. cbn in Hn. congruence. }
  split; [split; [|by rewrite Hheir]|unfold upd_heir; cbn; by destruct (_ || _)].
  destruct Hb as [Htr Ho Ht Hr Hp Hhe]. split; rewrite ?upd_heir_context, ?upd_heir_threads, ?Hheir; try done.
  - intros t th Hth. destruct (Ht t th Hth) as (? & ? & ? & ? & ? & ?). split_and!; try done. by apply upd_heir_used.
  - destruct L as [|x L]; [done|]. injection Hf as ->. destruct (proj1 (Hr f) ltac:(left)) as (th & Hth & _). by exists th.
Qed.

Lemma edf_update_heir s L f force :
  edf_base s L -> head L = Some f ->
  Scheduler_Update_heir f force s = Ok (tt, upd_heir f force s) /\
  forall force', Scheduler_Update_heir f force' (with_list L s) = Ok (tt, with_list L (upd_heir f force s)).
Proof.
  intros Hb Hf. destruct (eb_heir _ _ Hb) as [h Hh]. destruct (eb_thr _ _ Hb _ h Hh) as (_ & Hpre & _ & _ & _ & Hu).
  split; [apply update_heir_run; by try exists h|]. intros force'. rewrite (proj2 (edf_upd_heir s L f force Hb Hf)).
  rewrite update_heir_run by (by try exists h). do 2 f_equal.
  pose proof (upd_heir_preemptible f (with_list L s) h Hh Hpre). by destruct force, force'.
Qed.

(** A preemptible heir is replaced with and without force. *)
Lemma edf_schedule s L t force force' :
  edf_base s L -> L <> [] -> edf_agree (Scheduler_EDF_Schedule_body t force) (Scheduler_simple_Schedule_body t force') L s.
Proof.
  intros Hb HL. destruct L as [|f L]; [done|]. destruct (edf_update_heir s (f :: L) f force Hb eq_refl) as [Hu Hu'].
  exists (upd_heir f force s), (f :: L). split_and!; [|apply Hu'|by apply edf_upd_heir].
  destruct (tree_min _ _ _ (eb_tree _ _ Hb)) as [Hm Hf0]. unfold Scheduler_EDF_Schedule_body, RBTree_Minimum.
  erewrite cm_bind_ok by (apply in_Ready_run; apply gets_run). rewrite Hm. cbn [set_edf_Ready]. apply Z.eqb_neq in Hf0. rewrite Hf0.
  replace (set_sc_context _ s) with s; [done|]. destruct s as [? ? ? ? ? ? ? []]. done.
Qed.

Lemma edf_block s L t state :
  edf_ok s L -> t ∈ L -> States_Is_ready state = false -> chain_extract t L <> [] ->
  edf_agree (sc_upd t (set_st_current_state state);; Scheduler_EDF_Block t)
            (sc_upd t (set_st_current_state state);; Scheduler_simple_Block t) L s.
Proof.
  intros [Hb Hh] Ht Hst Hne. pose proof Ht as (th & Hth & Hr)%(eb_ready _ _ Hb). apply (edf_agree_upd s L t th); [done|].
  set (s1 := set_sc_threads _ s). destruct (edf_extract_both s1 L t (eb_tree _ _ Hb) Ht) as (r' & He & Hes & Htr & Hns).
  set (c' := set_edf_Ready r' (sc_context s1)) in *.
  assert (Hb1 : edf_base (set_sc_context c' s1) (chain_extract t L)).
  { destruct (eb_thr _ _ Hb t th Hth) as (Hw & Hpre & _ & _ & Hq & _).
    apply (edf_change s L t th); try done; try (rewrite ?elem_of_extract; tauto).
    - by apply ordered_extract, (eb_ordered _ _ Hb).
    - intros x Hx. rewrite elem_of_extract. tauto.
    - rewrite elem_of_extract. unfold is_ready. cbn. rewrite Hst. split; [tauto|done]. }
  unfold Scheduler_EDF_Block, Scheduler_simple_Block, Scheduler_Generic_block.
  apply (edf_agree_bind s1 L (set_sc_context c' s1) (chain_extract t L)); [done|done|].
  destruct ((t =? sc_executing s) || (t =? sc_heir s)) eqn:E.
  - destruct (edf_schedule (set_sc_context c' s1) (chain_extract t L) t true true Hb1 Hne) as (s' & L' & Hp & Hsi & Hok).
    exists s', L'. rewrite !involved_bind. cbn. by rewrite E.
  - exists (set_sc_context c' s1), (chain_extract t L). rewrite !involved_bind. cbn. rewrite E. split_and!; try done. split; [done|].
    apply orb_false_iff in E as [_ E]. apply Z.eqb_neq in E. destruct L as [|x L]; [done|]. cbn in Hh. injection Hh as ->.
    unfold chain_extract. rewrite filter_cons_True by congruence. done.
Qed.

(** The priority is noted and the thread enters the queue. *)
Lemma edf_enter s L t th th' (prepend_it : bool) r0 :
  edf_base s L -> sc_threads s !! t = Some th -> sn_wait_priority th' = sn_value th' -> st_is_preemptible th' = true -> is_ready th' ->
  let L0 := chain_extract t L in
  let c0 := mk_EDF_context r0 (<[t := sn_value th']> (edf_priority (sc_context s))) in
  let s0 := set_sc_context c0 (set_sc_threads (<[t := th']> (sc_threads s)) s) in
  tree_list r0 L0 -> nodes_stay (edf_Ready (sc_context s)) r0 ->
  exists r', let s' := set_sc_context (set_edf_Ready r' c0) s0 in
    let L' := ins (fun x => goes_before prepend_it (sn_value th') (node_prio c0 x)) t L0 in
    edf_enqueue_at prepend_it t (sn_value th') s0 = Ok (tt, s') /\
    insert_at prepend_it t (with_list L0 s0) = Ok (tt, with_list L' s') /\ edf_base s' L'.
Proof.
  intros Hb Hth Hw Hpre Hr L0 c0 s0 Htr Hns.
  assert (Hq : forall x, x <> t -> edf_priority c0 !! x = edf_priority (sc_context s) !! x).
  { intros x Hx. cbn. by rewrite lookup_insert_ne. }
  assert (Hmem : forall x, x ∈ L0 <-> x <> t /\ x ∈ L) by (intros x; apply elem_of_extract).
  assert (Hp : node_prio c0 t = sn_value th') by (unfold node_prio; cbn; by rewrite lookup_insert_eq).
  assert (Hsame : forall x, x ∈ L0 -> node_prio (sc_context s) x = node_prio c0 x).
  { intros x [Hx _]%Hmem. unfold node_prio. by rewrite Hq. }
  assert (Hsy : edf_synced s0 L0).
  { intros x Hx0. pose proof Hx0 as [Hne Hx]%Hmem. destruct (edf_base_synced s L Hb x Hx) as [(xh & Hxh & Hxw) Hpx]. split.
    - exists xh. cbn. by rewrite lookup_insert_ne.
    - cbn. rewrite <- Hsame by done. rewrite <- Hpx. unfold prio. by rewrite lookup_insert_ne. }
  destruct (eb_thr _ _ Hb t th Hth) as (_ & _ & Ht0 & Htn & _).
  destruct (edf_enqueue_run s0 L0 t (sn_value th') prepend_it) as (r' & Hrun & Ht' & Ho' & Hns'); try done.
  { eapply ordered_ext; [exact Hsame|]. by apply ordered_extract, (eb_ordered _ _ Hb). }
  { rewrite Hmem. tauto. } { by apply Hns. }
  assert (Hth0 : sc_threads s0 !! t = Some th') by apply lookup_insert_eq.
  exists r'. cbv zeta. split_and!; [done| |].
  - rewrite edf_insert_run; [|done|by exists th']. by rewrite (prio_eq _ _ _ Hth0).
  - apply (edf_change s L t th); try done.
    + intros y Hy. apply Hns'. by apply Hns.
    + cbn. rewrite lookup_insert_eq. by eexists.
    + intros x Hx. rewrite elem_of_ins, Hmem. tauto.
    + rewrite elem_of_ins. split; [done|by left].
    + intros _. apply lookup_insert_eq.
Qed.
Lemma edf_context_eta (c : Scheduler_EDF_Context) m : set_edf_priority m c = mk_EDF_context (edf_Ready c) m.
Proof. done. Qed.

(** The heir is the first thread, or the thread itself when the processor starts. *)
Lemma edf_unblock s L t th :
  edf_base s L -> sc_threads s !! t = Some th -> t ∉ L -> head L = Some (sc_heir s) \/ L = [] /\ sc_heir s = t ->
  edf_agree (sc_upd t (set_st_current_state STATES_READY);; Scheduler_EDF_Unblock t)
            (sc_upd t (set_st_current_state STATES_READY);; Scheduler_simple_Unblock t) L s.
Proof.
  intros Hb Hth Ht Hheir. apply (edf_agree_upd s L t th); [done|]. set (th' := set_st_current_state STATES_READY th).
  destruct (eb_thr _ _ Hb t th Hth) as (Hw & Hpre & _). pose proof (extract_absent t L Ht) as HL0.
  destruct (edf_enter s L t th th' false (edf_Ready (sc_context s))) as (r' & Hrun & Hins & Hb'); try done.
  { rewrite HL0. apply (eb_tree _ _ Hb). } { by intros y. }
  cbv zeta in Hrun, Hins, Hb'. rewrite HL0 in Hins, Hb'. cbn [edf_enqueue_at insert_at goes_before] in Hrun, Hins, Hb'.
  set (s1 := set_sc_threads _ s) in *. set (c0 := mk_EDF_context _ _) in *. set (s' := set_sc_context (set_edf_Ready r' c0) _) in *.
  set (L' := ins _ t L) in *. assert (Hth1 : sc_threads s1 !! t = Some th') by apply lookup_insert_eq.
  destruct (eb_heir _ _ Hb') as [h Hh]. change (sc_heir s') with (sc_heir s) in Hh. destruct (eb_thr _ _ Hb' _ h Hh) as (Hhw & _).
  assert (Hhead : head L' = Some (if sn_value th' <? sn_value h then t else sc_heir s)).
  { destruct Hheir as [Hf|[-> He]].
    - destruct L as [|f L]; [done|]. injection Hf as ->. unfold L'. cbn [ins].
      assert (Hf' : sc_heir s ∈ L') by (apply elem_of_ins; right; left).
      unfold node_prio at 1. rewrite (eb_prio _ _ Hb' _ h Hh Hf' : edf_priority c0 !! _ = _). cbn. by destruct (_ <? _).
    - rewrite He in Hh |- *. rewrite (Hth1 : sc_threads s' !! t = _) in Hh. injection Hh as <-. by rewrite Z.ltb_irrefl. }
  assert (Hrun0 : edf_set_priority t (sn_value th') s1 = Ok (tt, set_sc_context c0 s1)) by done.
  exists (if sn_value th' <? sn_value h then upd_heir t (sn_value th' =? Z.lor SCHEDULER_EDF_PRIO_MSB PRIORITY_PSEUDO_ISR) s' else s'), L'.
  unfold Scheduler_EDF_Unblock, Scheduler_simple_Unblock, Scheduler_Node_get_priority, Thread_Get_priority.
  rewrite (sc_ld_bind _ th') by done. cbv zeta. cbn [fst]. rewrite (cm_bind_ok _ _ _ _ _ Hrun0), (cm_bind_ok _ _ _ _ _ Hrun), gets_bind.
  rewrite (sc_ld_bind _ h) by done. change (with_list L s1) with (with_list L (set_sc_context c0 s1)). rewrite (cm_bind_ok _ _ _ _ _ Hins).
  rewrite (sc_ld_bind _ th') by done. rewrite gets_bind, (sc_ld_bind _ h) by done.
  change (sn_wait_priority th') with (sn_wait_priority th). rewrite Hhw, Hw. change (sn_value th) with (sn_value th').
  destruct (sn_value th' <? sn_value h); cbn [c_if]; [|by split_and!].
  destruct (edf_update_heir s' L' t (sn_value th' =? Z.lor SCHEDULER_EDF_PRIO_MSB PRIORITY_PSEUDO_ISR) Hb' Hhead) as [Hu Hu'].
  split_and!; [done|apply Hu'|by apply edf_upd_heir].
Qed.

Lemma edf_note s L t th th' :
  edf_ok s L -> sc_threads s !! t = Some th -> ~ is_ready th -> st_current_state th' = st_current_state th ->
  st_is_preemptible th' = st_is_preemptible th -> sn_wait_priority th' = sn_value th' ->
  edf_ok (set_sc_threads (<[t := th']> (sc_threads s)) s) L.
Proof.
  intros [Hb Hh] Hth Hr Hst Hpre Hw. split; [|done]. rewrite <- (context_eta (set_sc_threads _ s)).
  assert (Ht : t ∉ L) by (intros (? & ? & ?)%(eb_ready _ _ Hb); simplify_eq; done).
  destruct (eb_thr _ _ Hb t th Hth) as (_ & Hp & _ & _ & Hq & _). apply (edf_change s L t th); try done.
  - apply (eb_tree _ _ Hb).
  - apply (eb_ordered _ _ Hb).
  - congruence.
  - by intros y.
  - unfold is_ready in *. rewrite Hst. split; [by intros ?%Ht|done].
Qed.

Lemma edf_move s L t th th' :
  edf_ok s L -> sc_threads s !! t = Some th -> is_ready th -> st_current_state th' = st_current_state th ->
  st_is_preemptible th' = st_is_preemptible th -> sn_wait_priority th' = sn_value th' -> sn_value th' <> sn_value th ->
  edf_agree (Scheduler_EDF_Update_priority t) (Scheduler_simple_Update_priority t) L (set_sc_threads (<[t := th']> (sc_threads s)) s).
Proof.
  intros [Hb Hh] Hth Hr Hst Hpre Hw Hne. set (s1 := set_sc_threads _ s).
  assert (Ht : t ∈ L) by (apply (eb_ready _ _ Hb); eauto). assert (Hth1 : sc_threads s1 !! t = Some th') by apply lookup_insert_eq.
  destruct (eb_thr _ _ Hb t th Hth) as (_ & Hp & _). assert (Hr' : is_ready th') by (unfold is_ready in *; congruence).
  set (c1 := set_edf_priority (<[t := sn_value th']> (edf_priority (sc_context s))) (sc_context s)).
  destruct (edf_extract_both (set_sc_context c1 s1) L t (eb_tree _ _ Hb) Ht) as (r0 & He & Hes & Htr & Hns).
  destruct (edf_enter s L t th th' (sn_prepend_it th') r0) as (r' & Hrun & Hins & Hb'); try done; [congruence|].
  cbv zeta in Hrun, Hins, Hb'. set (s' := set_sc_context (set_edf_Ready r' _) _) in *. set (L' := ins _ t _) in *.
  destruct (edf_schedule s' L' t false false Hb') as (s2 & L2 & Hp2 & Hs2 & Hok).
  { intros Hz. apply (elem_of_nil t). rewrite <- Hz. apply elem_of_ins. by left. }
  exists s2, L2. split_and!; [| |done].
  - unfold Scheduler_EDF_Update_priority, Thread_Is_ready, Scheduler_Node_get_priority, edf_get_priority.
    rewrite (sc_ld_bind _ th') by done. rewrite (Hr' : States_Is_ready _ = true). cbn [negb]. rewrite (sc_ld_bind _ th') by done.
    cbv zeta. cbn [fst snd]. rewrite cm_bind_assoc, gets_bind. rewrite (lift_bind _ _ _ (sn_value th)).
    2: { unfold mem_load. cbn. by rewrite (eb_prio _ _ Hb t th). }
    rewrite (proj2 (Z.eqb_neq _ _) Hne). unfold edf_set_priority at 1. rewrite modify_bind.
    etransitivity; [|exact Hp2]. erewrite cm_bind_ok by exact He. erewrite cm_bind_ok; [reflexivity|].
    unfold edf_enqueue_at in Hrun. by destruct (sn_prepend_it th').
  - unfold Scheduler_simple_Update_priority, Thread_Is_ready, Scheduler_Node_get_priority.
    rewrite (sc_ld_bind _ th') by done. rewrite (Hr' : States_Is_ready _ = true). cbn [negb]. rewrite (sc_ld_bind _ th') by done. cbn [snd].
    erewrite cm_bind_ok by exact Hes. erewrite cm_bind_ok; [exact Hs2|]. unfold insert_at in Hins. by destruct (sn_prepend_it th').
Qed.

Lemma edf_set_prio s L t th p prepend_it :
  edf_ok s L -> sc_threads s !! t = Some th -> (is_ready th -> p <> sn_value th) ->
  edf_agree (sc_upd t (set_sn_wait_priority p);; Scheduler_Node_set_priority t p prepend_it;; Scheduler_EDF_Update_priority t)
            (sc_upd t (set_sn_wait_priority p);; Scheduler_Node_set_priority t p prepend_it;; Scheduler_simple_Update_priority t) L s.
Proof.
  intros Hs Hth Hne. apply (edf_agree_upd s L t th); [done|]. set (s0 := set_sc_threads _ s).
  assert (Hth0 : sc_threads s0 !! t = Some (set_sn_wait_priority p th)) by apply lookup_insert_eq.
  apply (edf_agree_upd s0 L t (set_sn_wait_priority p th)); [done|]. set (th' := set_sn_Priority p prepend_it _).
  assert (E : set_sc_threads (<[t := th']> (sc_threads s0)) s0 = set_sc_threads (<[t := th']> (sc_threads s)) s).
  { unfold s0, set_sc_threads. cbn. by rewrite insert_insert_eq. }
  rewrite E. destruct (decide (is_ready th)) as [Hr|Hr]; [apply (edf_move s L t th th'); try done; by apply Hne|].
  set (s1 := set_sc_threads _ s). assert (Hth1 : sc_threads s1 !! t = Some th') by apply lookup_insert_eq.
  exists s1, L. unfold Scheduler_EDF_Update_priority, Scheduler_simple_Update_priority, Thread_Is_ready.
  rewrite !(sc_ld_bind _ th') by done. unfold is_ready in Hr. apply not_true_is_false in Hr.
  cbn [st_current_state th' set_sn_Priority set_sn_wait_priority]. rewrite Hr.
  split_and!; try done. apply (edf_note s L t th th'); try done. unfold is_ready. by rewrite Hr.
Qed.
Lemma edf_yield s L t :
  edf_ok s L -> t ∈ L -> edf_agree (Scheduler_EDF_Yield t) (Scheduler_simple_Yield t) L s.
Proof.
  intros [Hb Hh] Ht. pose proof Ht as (th & Hth & Hr)%(eb_ready _ _ Hb). pose proof (eb_prio _ _ Hb t th Hth Ht) as Hq.
  destruct (eb_thr _ _ Hb t th Hth) as (Hw & Hpre & _).
  destruct (edf_extract_both s L t (eb_tree _ _ Hb) Ht) as (r0 & He & Hes & Htr & Hns).
  destruct (edf_enter s L t th th false r0) as (r' & Hrun & Hins & Hb'); try done.
  cbv zeta in Hrun, Hins, Hb'. cbn [edf_enqueue_at insert_at goes_before] in Hrun, Hins, Hb'.
  assert (E : set_sc_context (mk_EDF_context r0 (<[t := sn_value th]> (edf_priority (sc_context s))))
      (set_sc_threads (<[t := th]> (sc_threads s)) s) = set_sc_context (set_edf_Ready r0 (sc_context s)) s).
  { unfold set_sc_context, set_sc_threads. cbn. rewrite !insert_id by done. done. }
  rewrite E in Hrun, Hins, Hb'. set (s' := set_sc_context (set_edf_Ready r' _) _) in *. set (L' := ins _ t _) in *.
  destruct (edf_schedule s' L' t true false Hb') as (s2 & L2 & Hp2 & Hs2 & Hok).
  { intros Hz. apply (elem_of_nil t). rewrite <- Hz. apply elem_of_ins. by left. }
  exists s2, L2. split_and!; [| |done].
  - unfold Scheduler_EDF_Yield, edf_get_priority. rewrite (cm_bind_ok _ _ _ _ _ He), cm_bind_assoc, gets_bind.
    rewrite (lift_bind _ _ _ (sn_value th)) by (unfold mem_load; cbn; by rewrite Hq). rewrite (cm_bind_ok _ _ _ _ _ Hrun). done.
  - unfold Scheduler_simple_Yield. rewrite (cm_bind_ok _ _ _ _ _ Hes).
    change (with_list (chain_extract t L) s) with (with_list (chain_extract t L) (set_sc_context (set_edf_Ready r0 (sc_context s)) s)).
    rewrite (cm_bind_ok _ _ _ _ _ Hins). done.
Qed.

Lemma edf_dispatch s L :
  edf_ok s L -> edf_agree (Thread_Get_heir_and_make_it_executing;; mret tt) (Thread_Get_heir_and_make_it_executing;; mret tt) L s.
Proof.
  intros [[? ? ? ? ? ?] Hh]. exists (set_sc_executing (sc_heir s) (set_sc_dispatch_necessary false s)), L. split_and!; try done.
Qed.

(** The simple scheduler with the priorities of this one. *)
Definition simple_by_deadline : Scheduler_Operations (list Z) :=
  mk_Scheduler_Operations (fun _ => Scheduler_simple_Initialize) Scheduler_simple_Schedule Scheduler_simple_Yield
    Scheduler_simple_Block Scheduler_simple_Unblock Scheduler_simple_Update_priority
    Scheduler_EDF_Map_priority Scheduler_default_Node_initialize.

Definition edf_created (t p : Z) (b : bool) s : sched_state Scheduler_EDF_Context :=
  mk_sched_state (<[t := mk_sched_thread STATES_DORMANT b p p false]> (sc_threads s)) (sc_heir s) (sc_executing s)
    (sc_dispatch_necessary s) (sc_cpu_usage_timestamp s) (<[t := Timestamp_Set_to_zero]> (sc_cpu_time_used s)) (sc_uptime s)
    (set_edf_priority (<[t := p]> (edf_priority (sc_context s))) (sc_context s)).

Lemma edf_create_run s L t p b :
  run_create SCHEDULER_EDF_ENTRY_POINTS t p b s = Ok (tt, edf_created t p b s) /\
  run_create simple_by_deadline t p b (with_list L s) = Ok (tt, with_list L (edf_created t p b s)).
Proof.
  unfold run_create. rewrite !modify_bind. split; cbn [so_node_initialize SCHEDULER_EDF_ENTRY_POINTS simple_by_deadline].
  - unfold Scheduler_EDF_Node_initialize, Scheduler_Node_do_initialize. erewrite sc_upd_bind by apply lookup_insert_eq.
    unfold edf_set_priority, edf_created, modify. cbn. by rewrite insert_insert_eq.
  - unfold Scheduler_default_Node_initialize, Scheduler_Node_do_initialize. rewrite <- bind_tt_r.
    erewrite sc_upd_bind by apply lookup_insert_eq. unfold with_list, edf_created. cbn. by rewrite insert_insert_eq.
Qed.

Lemma edf_create s L t p :
  edf_ok s L -> sc_threads s !! t = None -> t <> NULL -> is_Some (rb_nodes (edf_Ready (sc_context s)) !! t) ->
  edf_agree (run_create SCHEDULER_EDF_ENTRY_POINTS t p true) (run_create simple_by_deadline t p true) L s.
Proof.
  intros [Hb Hh] Hn Ht0 Htn. destruct (edf_create_run s L t p true) as [Hr1 Hr2]. exists (edf_created t p true s), L.
  split_and!; [done..|]. split; [|done]. assert (Ht : t ∉ L) by (intros (? & ? & _)%(eb_ready _ _ Hb); congruence).
  destruct Hb as [Htr Ho Hth Hr Hq He]. split; cbn; try done.
  - eapply ordered_ext; [|exact Ho]. intros x Hx. unfold node_prio. cbn. rewrite lookup_insert_ne; [done|]. by intros ->.
  - intros x xh Hx. destruct (decide (x = t)) as [->|Hne].
    + rewrite lookup_insert_eq in Hx. injection Hx as <-. rewrite !lookup_insert_eq. cbn. split_and!; try done; by eexists.
    + rewrite lookup_insert_ne in Hx by done. rewrite !lookup_insert_ne by done. by apply Hth.
  - intros x. destruct (decide (x = t)) as [->|Hne].
    + rewrite lookup_insert_eq. split; [by intros ?%Ht|]. by intros (? & [= <-] & ?).
    + rewrite lookup_insert_ne by done. apply Hr.
  - intros x xh Hx Hin. assert (Hne : x <> t) by (by intros ->). rewrite lookup_insert_ne in Hx by done.
    rewrite lookup_insert_ne by done. by apply Hq.
  - assert (sc_heir s <> t) by (intros E; rewrite E in He; destruct He; congruence). by rewrite lookup_insert_ne.
Qed.

Lemma edf_start s idle maximum_priority :
  sc_threads s = ∅ -> idle <> NULL -> is_Some (rb_nodes (edf_Ready (sc_context s)) !! idle) ->
  edf_agree (run_start SCHEDULER_EDF_ENTRY_POINTS maximum_priority idle) (run_start simple_by_deadline maximum_priority idle) [] s.
Proof.
  intros Hth Hi0 Hin. set (r0 := set_rbh_root NULL (edf_Ready (sc_context s))). set (s0 := set_sc_context (set_edf_Ready r0 (sc_context s)) s).
  apply (edf_agree_bind s [] s0 []); [done..|]. set (p := Scheduler_EDF_Map_priority maximum_priority).
  destruct (edf_create_run s0 [] idle p true) as [Hr1 Hr2].
  apply (edf_agree_bind s0 [] (edf_created idle p true s0) []); [done..|].
  set (th := mk_sched_thread STATES_DORMANT true p p false).
  set (s1 := set_sc_executing idle (set_sc_heir idle (edf_created idle p true s0))).
  assert (Hl : forall x xh, sc_threads s1 !! x = Some xh -> x = idle /\ xh = th).
  { intros x xh Hx. cbn in Hx. rewrite Hth in Hx. by apply lookup_insert_Some in Hx as [[<- <-]|[_ Hx]]. }
  assert (Hi : sc_threads s1 !! idle = Some th) by apply lookup_insert_eq.
  change (edf_agree (sc_upd idle (set_st_current_state STATES_READY);; Scheduler_EDF_Unblock idle)
                    (sc_upd idle (set_st_current_state STATES_READY);; Scheduler_simple_Unblock idle) [] s1).
  apply (edf_unblock s1 [] idle th); [|done|apply not_elem_of_nil|by right].
  split; [|apply SSorted_nil|intros x xh [-> ->]%Hl|intros x|intros x xh _ ?%elem_of_nil; done|by exists th].
  - split; [by apply balanced_empty|]. exists Leaf. split; [|done]. split; [done|apply NoDup_nil_2].
  - cbn. rewrite !lookup_insert_eq. split_and!; try done; by eexists.
  - split; [by intros ?%elem_of_nil|]. by intros (xh & [-> ->]%Hl & ?).
Qed.
(** ** Sessions *)
Definition thread_ready s (t : Z) : Prop := match sc_threads s !! t with Some th => is_ready th | None => False end.

(** Threads are preemptible and have memory for their node; a new priority of a
    ready thread is a new one; otherwise as for the other schedulers. *)
Definition edf_op_ok (op : sched_op) s : Prop :=
  match op with
  | S_create t _ is_preemptible =>
      sc_threads s !! t = None /\ is_preemptible = true /\ t <> NULL /\ is_Some (rb_nodes (edf_Ready (sc_context s)) !! t)
  | S_block t state =>
      thread_ready s t /\ States_Is_ready state = false /\
      Exists (fun e => e.1 <> t /\ thread_ready s e.1) (map_to_list (sc_threads s))
  | S_unblock t => is_Some (sc_threads s !! t) /\ ~ thread_ready s t
  | S_priority t p _ =>
      is_Some (sc_threads s !! t) /\
      match sc_threads s !! t with Some th => is_ready th -> p <> sn_value th | None => True end
  | S_yield t => thread_ready s t
  | S_schedule _ | S_dispatch => True
  end.

#[export] Instance thread_ready_dec s t : Decision (thread_ready s t).
Proof. unfold thread_ready, is_ready. destruct (sc_threads s !! t); apply _. Defined.
#[export] Instance edf_op_ok_dec op s : Decision (edf_op_ok op s).
Proof.
  destruct op as [| | |t p b|t| |]; cbn; try apply _. destruct (sc_threads s !! t); unfold is_ready; apply _.
Defined.

Lemma thread_ready_in s L t : edf_base s L -> thread_ready s t <-> t ∈ L.
Proof.
  intros Hb. rewrite (eb_ready _ _ Hb). unfold thread_ready. destruct (sc_threads s !! t) as [th|]; split; try done.
  - eauto.
  - by intros (? & [= <-] & ?).
  - by intros (? & ? & ?).
Qed.

Lemma edf_step op s L :
  edf_ok s L -> edf_op_ok op s -> edf_agree (run_sched SCHEDULER_EDF_ENTRY_POINTS op) (run_sched simple_by_deadline op) L s.
Proof.
  intros Hs. pose proof (proj1 Hs) as Hb. destruct op as [t p b|t st|t|t p b|t|t|]; cbn.
  - intros (Hn & -> & ? & ?). by apply edf_create.
  - rewrite (thread_ready_in s L) by done. intros (Ht & Hst & Hex). apply edf_block; try done. intros Hz.
    apply Exists_exists in Hex as ([x xh] & _ & Hne & Hx). cbn in Hne, Hx. apply (elem_of_nil x). rewrite <- Hz.
    apply elem_of_extract. split; [done|]. by apply (thread_ready_in s).
  - rewrite (thread_ready_in s L) by done. intros [[th Hth] Ht]. apply (edf_unblock s L t th); try done. left. apply Hs.
  - intros [[th Hth] Hne]. rewrite Hth in Hne. by apply (edf_set_prio s L t th).
  - rewrite (thread_ready_in s L) by done. intros Ht. by apply edf_yield.
  - intros _. apply edf_schedule; [done|]. intros ->. by destruct Hs.
  - intros _. by apply edf_dispatch.
Qed.

Lemma edf_session ops s L :
  edf_ok s L -> session SCHEDULER_EDF_ENTRY_POINTS edf_op_ok ops s ->
  edf_agree (run_scheds SCHEDULER_EDF_ENTRY_POINTS ops) (run_scheds simple_by_deadline ops) L s.
Proof.
  revert s L. induction ops as [|op ops IH]; intros s L Hs; cbn; [by intros _; exists s, L|]. intros [Hop Hrest].
  destruct (edf_step op s L Hs Hop) as (s1 & L1 & Hr & Hr' & Hs1). rewrite Hr in Hrest.
  apply (edf_agree_bind s L s1 L1); auto.
Qed.

(** The heir has the earliest deadline. *)
Lemma edf_heir_first s L h t th :
  edf_ok s L -> sc_threads s !! sc_heir s = Some h -> sc_threads s !! t = Some th -> is_ready th -> sn_value h <= sn_value th.
Proof.
  intros [Hb Hh] Hhe Hth Hr. assert (Ht : t ∈ L) by (apply (eb_ready _ _ Hb); eauto).
  assert (Hhin : sc_heir s ∈ L) by (destruct L; [done|]; injection Hh as ->; left).
  assert (Hle : node_prio (sc_context s) (sc_heir s) <= node_prio (sc_context s) t).
  { pose proof (eb_ordered _ _ Hb) as Ho. destruct L as [|f L]; [done|]. injection Hh as ->.
    apply StronglySorted_inv in Ho as [_ Ho]. rewrite Forall_forall in Ho. apply elem_of_cons in Ht as [->|Ht]; [lia|]. by apply Ho. }
  unfold node_prio in Hle. by rewrite (eb_prio _ _ Hb _ h Hhe Hhin), (eb_prio _ _ Hb t th Hth Ht) in Hle.
Qed.

(** C21: earliest deadline first: from the start with the idle thread and
    through every session of preemptible threads, with any deadlines and
    background priorities, the scheduler runs without undefined behaviour, the
    heir is ready and has the earliest deadline of all ready threads, and the
    scheduler does what the simple scheduler does with an ordered chain, which
    is the red-black tree of ready threads in order: threads with the same
    deadline run in the order in which they became ready. *)
Theorem edf_earliest_deadline maximum_priority idle ops s0 :
  sc_threads s0 = ∅ -> idle <> NULL -> is_Some (rb_nodes (edf_Ready (sc_context s0)) !! idle) ->
  exists s1 L1, run_start SCHEDULER_EDF_ENTRY_POINTS maximum_priority idle s0 = Ok (tt, s1) /\
    run_start simple_by_deadline maximum_priority idle (with_list [] s0) = Ok (tt, with_list L1 s1) /\
    (session SCHEDULER_EDF_ENTRY_POINTS edf_op_ok ops s1 ->
     exists s2 L2 h, run_scheds SCHEDULER_EDF_ENTRY_POINTS ops s1 = Ok (tt, s2) /\
       run_scheds simple_by_deadline ops (with_list L1 s1) = Ok (tt, with_list L2 s2) /\
       (exists t, is_tree (edf_Ready (sc_context s2)) t /\ inorder t = L2) /\
       head L2 = Some (sc_heir s2) /\ sc_threads s2 !! sc_heir s2 = Some h /\ is_ready h /\
       forall t th, sc_threads s2 !! t = Some th -> is_ready th -> sn_value h <= sn_value th).
Proof.
  intros Hth Hi Hn. destruct (edf_start s0 idle maximum_priority Hth Hi Hn) as (s1 & L1 & Hr1 & Hr1' & Hs1).
  exists s1, L1. split_and!; [done..|]. intros Hses. destruct (edf_session ops s1 L1 Hs1 Hses) as (s2 & L2 & Hr2 & Hr2' & Hs2).
  destruct Hs2 as [Hb Hh]. assert (Hhin : sc_heir s2 ∈ L2) by (destruct L2; [done|]; injection Hh as ->; left).
  pose proof Hhin as (h & Hhe & Hr)%(eb_ready _ _ Hb). exists s2, L2, h. split_and!; try done; [apply (eb_tree _ _ Hb)|].
  intros t th Ht. by apply (edf_heir_first s2 L2 h t th).
Qed.

End Edf.

(** ** Priorities *)

(** The API priority comes back, and every thread without a deadline is behind
    every thread with one. *)
Lemma edf_map_unmap p : 0 <= p < 2 ^ 63 -> Scheduler_EDF_Unmap_priority (Scheduler_EDF_Map_priority p) = p.
Proof.
  intros Hp. unfold Scheduler_EDF_Unmap_priority, Scheduler_EDF_Map_priority.
  change (u64 (Z.lnot SCHEDULER_EDF_PRIO_MSB)) with (Z.ones 63). change SCHEDULER_EDF_PRIO_MSB with (1 * 2 ^ 63).
  rewrite lor_low by lia. rewrite Z.land_ones by lia. rewrite Z.add_comm, Z_mod_plus_full. by apply Z.mod_small.
Qed.

Lemma edf_map_background p deadline :
  0 <= p < 2 ^ 63 -> 0 <= deadline < SCHEDULER_EDF_PRIO_MSB -> deadline < Scheduler_EDF_Map_priority p.
Proof.
  intros Hp Hd. unfold Scheduler_EDF_Map_priority. change SCHEDULER_EDF_PRIO_MSB with (1 * 2 ^ 63) in *. rewrite lor_low by lia. lia.
Qed.

(** ** Witnesses *)

(** The minimum of a tree by the traversal of its nodes. *)
Definition flat_min : SysTreeMin :=
  {| RB_MIN s := default NULL (head (flatten (size (rb_nodes s)) (rb_nodes s) (rbh_root s))) |}.

Definition flat_min_laws : @SysTreeMinLaws flat_min.
Proof.
  constructor. intros s t Ht. cbn. rewrite (flatten_rep _ t NULL); [done|apply Ht|by apply tree_size].
Defined.

Definition blank : RBTree_Node := mk_RBTree_Node 0 0 0 0.
Definition edf_cpu : sched_state Scheduler_EDF_Context :=
  mk_sched_state ∅ 0 0 false Timestamp_Set_to_zero ∅ (mk_timestamp 1 0)
    (mk_EDF_context (mk_rb_state 77 (<[1 := blank]> (<[2 := blank]> (<[3 := blank]> (<[9 := blank]> ∅))))) ∅).

Definition edf_table : Scheduler_Operations Scheduler_EDF_Context :=
  @SCHEDULER_EDF_ENTRY_POINTS bintime64 vine_sys_tree flat_min.
Definition chain_table : Scheduler_Operations (list Z) := @simple_by_deadline bintime64.

(** Two threads with deadlines and one in the background; the second thread gets
    an earlier deadline, runs and waits; the first one yields. *)
Definition edf_run : list sched_op :=
  [S_create 1 100 true; S_create 2 200 true; S_create 3 (Scheduler_EDF_Map_priority 5) true;
   S_unblock 3; S_unblock 2; S_unblock 1; S_dispatch; S_priority 2 50 false; S_dispatch;
   S_block 2 STATES_WAITING_FOR_PERIOD; S_dispatch; S_priority 2 300 true; S_yield 1; S_schedule 1].

Definition edf_ready : sched_state Scheduler_EDF_Context :=
  match run_start edf_table 255 9 edf_cpu with Ok (_, s) => s | Undef _ => edf_cpu end.

Lemma edf_earliest_deadline_witness : exists s2 h,
  run_scheds edf_table edf_run edf_ready = Ok (tt, s2) /\
  run_scheds chain_table edf_run (with_list [9] edf_ready) = Ok (tt, with_list [1; 3; 9] s2) /\
  sc_heir s2 = 1 /\ sc_threads s2 !! 1 = Some h /\ is_ready h.
Proof.
  destruct (@edf_earliest_deadline bintime64 vine_sys_tree vine_laws flat_min flat_min_laws 255 9 edf_run edf_cpu)
    as (s1 & L1 & Hr1 & Hr1' & Hses); [done|done|by eexists|].
  assert (Hs1 : s1 = edf_ready) by (unfold edf_ready, edf_table; by rewrite Hr1). subst s1.
  assert (E1 : seen sc_context (run_start chain_table 255 9 (with_list [] edf_cpu)) = Some [9]) by (vm_compute; reflexivity).
  rewrite (Hr1' : run_start chain_table _ _ _ = _) in E1. injection E1 as ->.
  destruct Hses as (s2 & L2 & h & Hr2 & Hr2' & _ & Hh & Hhe & Hrh & _); [apply (bool_decide_unpack _); vm_compute; exact I|].
  assert (E2 : seen sc_context (run_scheds chain_table edf_run (with_list [9] edf_ready)) = Some [1; 3; 9]) by (vm_compute; reflexivity).
  rewrite (Hr2' : run_scheds chain_table _ _ = _) in E2. injection E2 as ->. injection Hh as Hh. rewrite <- Hh in Hhe.
  exists s2, h. split_and!; try done.
Defined.

(** A thread with the priority of a pseudo interrupt takes the processor from a
    thread that is not preemptible, although a thread with a deadline is ready:
    the new heir is preemptible and is not the most important ready thread. *)
Example edf_pseudo_isr_before_deadline :
  seen (fun s => (sc_heir s, (fun th => (st_is_preemptible th, sn_value th)) <$> sc_threads s !! sc_heir s,
                  (fun th => (st_current_state th, sn_value th)) <$> sc_threads s !! 2))
    (run_scheds edf_table
      [S_create 1 (Scheduler_EDF_Map_priority 7) false; S_create 2 100 true; S_create 3 (Scheduler_EDF_Map_priority 0) true;
       S_unblock 1; S_dispatch; S_unblock 2; S_unblock 3] edf_ready)
  = Some (3, Some (true, SCHEDULER_EDF_PRIO_MSB), Some (STATES_READY, 100)).
Proof. vm_compute. reflexivity. Qed.
