(* ===== verification/Heap.v ===== *)
(** * The heap handler: data and operations

    The translation of [score/src/heap*.c] with [heap.h] and [heapimpl.h]: a
    heap of blocks with boundary tags in a memory of 32-bit words.  A block is
    its address; its fields [prev_size], [size_and_flag], [next] and [prev]
    are the four words from there.  The field [prev_size] of a block belongs to
    the allocated area of the block before it while that block is used, and
    [next] and [prev] are allocated memory in a used block.  The free list is
    cyclic, its head is the block at the start of the heap control.  The
    protection and debug variants of the code ([HEAP_PROTECTION],
    [RTEMS_HEAP_DEBUG]) are not configured. *)

From stdpp Require Import base tactics numbers option list list_numbers gmap fin_maps.
From Stdlib Require Import ZArith Lia.
From S2P Require Import Prelude Chain Objects.

Open Scope Z_scope.

(** ** Data *)
Record Heap_Statistics := mk_heap_statistics {
  lifetime_allocated : Z;
  lifetime_freed : Z;
  hs_size : Z;
  free_size : Z;
  min_free_size : Z;
  free_blocks : Z;
  max_free_blocks : Z;
  used_blocks : Z;
  max_search : Z;
  searches : Z;
  allocs : Z;
  failed_allocs : Z;
  frees : Z;
  resizes : Z
}.

(** The control without its [free_list], which is in the memory. *)
Record Heap_Control := mk_heap_control {
  page_size : Z;
  min_block_size : Z;
  area_begin : Z;
  area_end : Z;
  first_block : Z;
  last_block : Z;
  stats : Heap_Statistics
}.

Record heap_state := mk_heap_state {
  hp_control : Heap_Control;
  hp_words : words
}.

Definition set_hp_control v (s : heap_state) : heap_state := mk_heap_state v (hp_words s).
Definition set_hp_words v (s : heap_state) : heap_state := mk_heap_state (hp_control s) v.
Definition set_stats v (c : Heap_Control) : Heap_Control :=
  mk_heap_control (page_size c) (min_block_size c) (area_begin c) (area_end c)
    (first_block c) (last_block c) v.

Definition heap_zero_statistics : Heap_Statistics :=
  mk_heap_statistics 0 0 0 0 0 0 0 0 0 0 0 0 0 0.

Definition stat_lifetime_allocated f (t : Heap_Statistics) : Heap_Statistics :=
  mk_heap_statistics (f (lifetime_allocated t)) (lifetime_freed t) (hs_size t) (free_size t)
    (min_free_size t) (free_blocks t) (max_free_blocks t) (used_blocks t) (max_search t)
    (searches t) (allocs t) (failed_allocs t) (frees t) (resizes t).
Definition stat_lifetime_freed f (t : Heap_Statistics) : Heap_Statistics :=
  mk_heap_statistics (lifetime_allocated t) (f (lifetime_freed t)) (hs_size t) (free_size t)
    (min_free_size t) (free_blocks t) (max_free_blocks t) (used_blocks t) (max_search t)
    (searches t) (allocs t) (failed_allocs t) (frees t) (resizes t).
Definition stat_free_size f (t : Heap_Statistics) : Heap_Statistics :=
  mk_heap_statistics (lifetime_allocated t) (lifetime_freed t) (hs_size t) (f (free_size t))
    (min_free_size t) (free_blocks t) (max_free_blocks t) (used_blocks t) (max_search t)
    (searches t) (allocs t) (failed_allocs t) (frees t) (resizes t).
Definition stat_min_free_size v (t : Heap_Statistics) : Heap_Statistics :=
  mk_heap_statistics (lifetime_allocated t) (lifetime_freed t) (hs_size t) (free_size t)
    v (free_blocks t) (max_free_blocks t) (used_blocks t) (max_search t)
    (searches t) (allocs t) (failed_allocs t) (frees t) (resizes t).
Definition stat_free_blocks f (t : Heap_Statistics) : Heap_Statistics :=
  mk_heap_statistics (lifetime_allocated t) (lifetime_freed t) (hs_size t) (free_size t)
    (min_free_size t) (f (free_blocks t)) (max_free_blocks t) (used_blocks t) (max_search t)
    (searches t) (allocs t) (failed_allocs t) (frees t) (resizes t).
Definition stat_max_free_blocks v (t : Heap_Statistics) : Heap_Statistics :=
  mk_heap_statistics (lifetime_allocated t) (lifetime_freed t) (hs_size t) (free_size t)
    (min_free_size t) (free_blocks t) v (used_blocks t) (max_search t)
    (searches t) (allocs t) (failed_allocs t) (frees t) (resizes t).
Definition stat_used_blocks f (t : Heap_Statistics) : Heap_Statistics :=
  mk_heap_statistics (lifetime_allocated t) (lifetime_freed t) (hs_size t) (free_size t)
    (min_free_size t) (free_blocks t) (max_free_blocks t) (f (used_blocks t)) (max_search t)
    (searches t) (allocs t) (failed_allocs t) (frees t) (resizes t).
Definition stat_max_search v (t : Heap_Statistics) : Heap_Statistics :=
  mk_heap_statistics (lifetime_allocated t) (lifetime_freed t) (hs_size t) (free_size t)
    (min_free_size t) (free_blocks t) (max_free_blocks t) (used_blocks t) v
    (searches t) (allocs t) (failed_allocs t) (frees t) (resizes t).
Definition stat_searches f (t : Heap_Statistics) : Heap_Statistics :=
  mk_heap_statistics (lifetime_allocated t) (lifetime_freed t) (hs_size t) (free_size t)
    (min_free_size t) (free_blocks t) (max_free_blocks t) (used_blocks t) (max_search t)
    (f (searches t)) (allocs t) (failed_allocs t) (frees t) (resizes t).
Definition stat_allocs f (t : Heap_Statistics) : Heap_Statistics :=
  mk_heap_statistics (lifetime_allocated t) (lifetime_freed t) (hs_size t) (free_size t)
    (min_free_size t) (free_blocks t) (max_free_blocks t) (used_blocks t) (max_search t)
    (searches t) (f (allocs t)) (failed_allocs t) (frees t) (resizes t).
Definition stat_failed_allocs f (t : Heap_Statistics) : Heap_Statistics :=
  mk_heap_statistics (lifetime_allocated t) (lifetime_freed t) (hs_size t) (free_size t)
    (min_free_size t) (free_blocks t) (max_free_blocks t) (used_blocks t) (max_search t)
    (searches t) (allocs t) (f (failed_allocs t)) (frees t) (resizes t).
Definition stat_frees f (t : Heap_Statistics) : Heap_Statistics :=
  mk_heap_statistics (lifetime_allocated t) (lifetime_freed t) (hs_size t) (free_size t)
    (min_free_size t) (free_blocks t) (max_free_blocks t) (used_blocks t) (max_search t)
    (searches t) (allocs t) (failed_allocs t) (f (frees t)) (resizes t).
Definition stat_resizes f (t : Heap_Statistics) : Heap_Statistics :=
  mk_heap_statistics (lifetime_allocated t) (lifetime_freed t) (hs_size t) (free_size t)
    (min_free_size t) (free_blocks t) (max_free_blocks t) (used_blocks t) (max_search t)
    (searches t) (allocs t) (failed_allocs t) (frees t) (f (resizes t)).

(** ** Constants and arithmetic *)
Definition HEAP_PREV_BLOCK_USED : Z := 1.
Definition HEAP_ALLOC_BONUS : Z := 4.
Definition HEAP_BLOCK_HEADER_SIZE : Z := 8.
Definition SIZEOF_HEAP_BLOCK : Z := 16.
(** [~HEAP_PREV_BLOCK_USED] in 32 bits. *)
Definition HEAP_SIZE_MASK : Z := 2 ^ 32 - 2.

Definition Heap_Is_aligned (value alignment : Z) : outcome bool :=
  if alignment =? 0 then Undef Division_by_zero else Ok (value mod alignment =? 0).

Definition Heap_Align_down (value alignment : Z) : outcome Z :=
  if alignment =? 0 then Undef Division_by_zero else Ok (value - value mod alignment).

Definition Heap_Align_up (value alignment : Z) : outcome Z :=
  if alignment =? 0 then Undef Division_by_zero
  else
    let remainder := value mod alignment in
    Ok (if remainder =? 0 then value else u32 (value - remainder + alignment)).

Definition Heap_Min_block_size (page : Z) : outcome Z := Heap_Align_up SIZEOF_HEAP_BLOCK page.

Definition Heap_Max (a b : Z) : Z := if b <? a then a else b.
Definition Heap_Min (a b : Z) : Z := if a <? b then a else b.

Definition Heap_Block_at (block offset : Z) : Z := u32 (block + offset).
Definition Heap_Alloc_area_of_block (block : Z) : Z := u32 (block + HEAP_BLOCK_HEADER_SIZE).
Definition Heap_Block_of_alloc_area (alloc_begin page : Z) : outcome Z :=
  down ← Heap_Align_down alloc_begin page;
  mret (u32 (down - HEAP_BLOCK_HEADER_SIZE)).

Inductive Heap_Resize_status :=
| HEAP_RESIZE_SUCCESSFUL
| HEAP_RESIZE_UNSATISFIED
| HEAP_RESIZE_FATAL_ERROR.

Record Heap_Information := mk_heap_information {
  info_number : Z;
  info_largest : Z;
  info_total : Z
}.

(** ** Operations *)
Section Heap.
(** The address of the heap control, where its [free_list] is. *)
Context (heap : Z).
Abbreviation M := (cm heap_state).

Definition in_words {A} (m : CM A) : M A := zoom hp_words set_hp_words m.
Definition ctl {A} (f : Heap_Control -> A) : M A := gets (fun s => f (hp_control s)).
Definition upd_stats (f : Heap_Statistics -> Heap_Statistics) : M unit :=
  modify (fun s => set_hp_control (set_stats (f (stats (hp_control s))) (hp_control s)) s).

Definition ld_prev_size (block : Z) : M Z := in_words (ldw block).
Definition ld_size_and_flag (block : Z) : M Z := in_words (ldw (block + 4)).
Definition ld_next (block : Z) : M Z := in_words (ldw (block + 8)).
Definition ld_prev (block : Z) : M Z := in_words (ldw (block + 12)).
Definition st_prev_size (block v : Z) : M unit := in_words (stw block v).
Definition st_size_and_flag (block v : Z) : M unit := in_words (stw (block + 4) v).
Definition st_next (block v : Z) : M unit := in_words (stw (block + 8) v).
Definition st_prev (block v : Z) : M unit := in_words (stw (block + 12) v).

Definition Heap_Free_list_head : Z := heap.
Definition Heap_Free_list_tail : Z := heap.
Definition Heap_Free_list_first : M Z := ld_next Heap_Free_list_head.
Definition Heap_Free_list_last : M Z := ld_prev Heap_Free_list_tail.

Definition Heap_Free_list_remove (block : Z) : M unit :=
  next ← ld_next block;
  prev ← ld_prev block;
  st_next prev next;;
  st_prev next prev.

Definition Heap_Free_list_replace (old_block new_block : Z) : M unit :=
  next ← ld_next old_block;
  prev ← ld_prev old_block;
  st_next new_block next;;
  st_prev new_block prev;;
  st_prev next new_block;;
  st_next prev new_block.

Definition Heap_Free_list_insert_after (block_before new_block : Z) : M unit :=
  next ← ld_next block_before;
  st_next new_block next;;
  st_prev new_block block_before;;
  st_next block_before new_block;;
  st_prev next new_block.

Definition Heap_Free_list_insert_before (block_next new_block : Z) : M unit :=
  prev ← ld_prev block_next;
  st_next new_block block_next;;
  st_prev new_block prev;;
  st_next prev new_block;;
  st_prev block_next new_block.

Definition Heap_Prev_block (block : Z) : M Z :=
  ps ← ld_prev_size block; mret (u32 (block - ps)).

Definition Heap_Block_size (block : Z) : M Z :=
  v ← ld_size_and_flag block; mret (Z.land v HEAP_SIZE_MASK).

Definition Heap_Block_set_size (block size : Z) : M unit :=
  v ← ld_size_and_flag block;
  let flag := Z.land v HEAP_PREV_BLOCK_USED in
  st_size_and_flag block (Z.lor size flag).

Definition Heap_Is_prev_used (block : Z) : M bool :=
  v ← ld_size_and_flag block; mret (negb (Z.land v HEAP_PREV_BLOCK_USED =? 0)).

Definition Heap_Is_used (block : Z) : M bool :=
  size ← Heap_Block_size block;
  Heap_Is_prev_used (Heap_Block_at block size).

Definition Heap_Is_free (block : Z) : M bool :=
  used ← Heap_Is_used block; mret (negb used).

Definition Heap_Is_block_in_heap (block : Z) : M bool :=
  first ← ctl first_block;
  last ← ctl last_block;
  mret ((first <=? block) && (block <=? last)).

Definition Heap_Set_last_block_size : M unit :=
  first ← ctl first_block;
  last ← ctl last_block;
  Heap_Block_set_size last (u32 (first - last)).

Definition Heap_Get_size : M Z := ctl (fun c => hs_size (stats c)).

(** *** Initialization *)
(** The first and the last block, when the area is large enough. *)
Definition Heap_Get_first_and_last_block (heap_area_begin heap_area_size page min : Z)
    : outcome (option (Z * Z)) :=
  let heap_area_end := u32 (heap_area_begin + heap_area_size) in
  alloc_area_begin ← Heap_Align_up (u32 (heap_area_begin + HEAP_BLOCK_HEADER_SIZE)) page;
  let first_block_begin := u32 (alloc_area_begin - HEAP_BLOCK_HEADER_SIZE) in
  let overhead := u32 (HEAP_BLOCK_HEADER_SIZE + u32 (first_block_begin - heap_area_begin)) in
  first_block_size ← Heap_Align_down (u32 (heap_area_size - overhead)) page;
  let last := Heap_Block_at first_block_begin first_block_size in
  mret (if (heap_area_end <? heap_area_begin) || (heap_area_size <=? overhead)
           || (first_block_size <? min)
        then None else Some (first_block_begin, last)).

Definition Heap_Initialize (heap_area_begin heap_area_size page : Z) : M Z :=
  let heap_area_end := u32 (heap_area_begin + heap_area_size) in
  page ← (if page =? 0 then mret CPU_ALIGNMENT else lift (Heap_Align_up page CPU_ALIGNMENT));
  if page <? CPU_ALIGNMENT then mret 0
  else
    min ← lift (Heap_Min_block_size page);
    area ← lift (Heap_Get_first_and_last_block heap_area_begin heap_area_size page min);
    match area with
    | None => mret 0
    | Some (first, last) =>
        (* memset *)
        st_prev_size heap 0;;
        st_size_and_flag heap 0;;
        st_next heap 0;;
        st_prev heap 0;;
        modify (set_hp_control (mk_heap_control 0 0 0 0 0 0 heap_zero_statistics));;
        let first_block_size := u32 (last - first) in
        (* First block *)
        st_prev_size first heap_area_end;;
        st_size_and_flag first (Z.lor first_block_size HEAP_PREV_BLOCK_USED);;
        st_next first Heap_Free_list_tail;;
        st_prev first Heap_Free_list_head;;
        (* Heap control *)
        modify (set_hp_control (mk_heap_control page min heap_area_begin heap_area_end first last
                  heap_zero_statistics));;
        st_next Heap_Free_list_head first;;
        st_prev Heap_Free_list_tail first;;
        (* Last block *)
        st_prev_size last first_block_size;;
        st_size_and_flag last 0;;
        Heap_Set_last_block_size;;
        (* Statistics *)
        upd_stats (fun _ => mk_heap_statistics 0 0 first_block_size first_block_size
          first_block_size 1 1 0 0 0 0 0 0 0);;
        mret first_block_size
    end.

(** *** Allocation *)
(** The end of the block becomes a free block, merged with a free one behind
    it. *)
Definition split_off (block free_list_anchor block_size used_block_size next_block : Z) : M unit :=
  let free_block := Heap_Block_at block used_block_size in
  let free_block_size := u32 (block_size - used_block_size) in
  Heap_Block_set_size block used_block_size;;
  upd_stats (stat_free_size (fun x => u32 (x + free_block_size)));;
  next_used ← Heap_Is_used next_block;
  r ← (if (next_used : bool) then
         Heap_Free_list_insert_after free_list_anchor free_block;;
         upd_stats (stat_free_blocks (fun x => u32 (x + 1)));;
         mret (free_block_size, next_block)
       else
         next_block_size ← Heap_Block_size next_block;
         Heap_Free_list_replace next_block free_block;;
         let size := u32 (free_block_size + next_block_size) in
         mret (size, Heap_Block_at free_block size));
  let '(free_block_size, next_block) := r in
  st_size_and_flag free_block (Z.lor free_block_size HEAP_PREV_BLOCK_USED);;
  st_prev_size next_block free_block_size;;
  v ← ld_size_and_flag next_block;
  st_size_and_flag next_block (Z.land v HEAP_SIZE_MASK).

Definition Heap_Block_split (block free_list_anchor alloc_size : Z) : M unit :=
  page ← ctl page_size;
  min ← ctl min_block_size;
  let min_alloc_size := u32 (min - HEAP_BLOCK_HEADER_SIZE) in
  block_size ← Heap_Block_size block;
  let used_size := u32 (Heap_Max alloc_size min_alloc_size + HEAP_BLOCK_HEADER_SIZE) in
  used_block_size ← lift (Heap_Align_up used_size page);
  let free_size := u32 (block_size + HEAP_ALLOC_BONUS - used_size) in
  let free_size_limit := u32 (min + HEAP_ALLOC_BONUS) in
  let next_block := Heap_Block_at block block_size in
  if free_size_limit <=? free_size then
    split_off block free_list_anchor block_size used_block_size next_block
  else
    v ← ld_size_and_flag next_block;
    st_size_and_flag next_block (Z.lor v HEAP_PREV_BLOCK_USED).

Definition Heap_Block_allocate_from_begin (block free_list_anchor alloc_size : Z) : M Z :=
  Heap_Block_split block free_list_anchor alloc_size;;
  mret block.

Definition Heap_Block_allocate_from_end (block free_list_anchor alloc_begin alloc_size : Z)
    : M Z :=
  block_size ← Heap_Block_size block;
  let block_end := u32 (block + block_size) in
  page ← ctl page_size;
  new_block ← lift (Heap_Block_of_alloc_area alloc_begin page);
  let new_block_size := u32 (block_end - new_block) in
  let block_size := u32 (new_block - block) in
  upd_stats (stat_free_size (fun x => u32 (x + block_size)));;
  prev_used ← Heap_Is_prev_used block;
  r ← (if (prev_used : bool) then
         Heap_Free_list_insert_after free_list_anchor block;;
         upd_stats (stat_free_blocks (fun x => u32 (x + 1)));;
         mret (block, block_size, block)
       else
         prev_block ← Heap_Prev_block block;
         prev_block_size ← Heap_Block_size prev_block;
         mret (prev_block, u32 (block_size + prev_block_size), free_list_anchor));
  let '(block, block_size, free_list_anchor) := r in
  st_size_and_flag block (Z.lor block_size HEAP_PREV_BLOCK_USED);;
  st_prev_size new_block block_size;;
  st_size_and_flag new_block new_block_size;;
  Heap_Block_split new_block free_list_anchor alloc_size;;
  mret new_block.

(** A free block leaves the free list; the result is the place in the list for
    the parts of the block that stay free. *)
Definition block_take (block : Z) : M Z :=
  free ← Heap_Is_free block;
  if (free : bool) then
    anchor ← ld_prev block;
    Heap_Free_list_remove block;;
    upd_stats (stat_free_blocks (fun x => u32 (x - 1)));;
    upd_stats (stat_used_blocks (fun x => u32 (x + 1)));;
    size ← Heap_Block_size block;
    upd_stats (stat_free_size (fun x => u32 (x - size)));;
    mret anchor
  else mret Heap_Free_list_head.

Definition Heap_Block_allocate (block alloc_begin alloc_size : Z) : M Z :=
  let alloc_area_begin := Heap_Alloc_area_of_block block in
  let alloc_area_offset := u32 (alloc_begin - alloc_area_begin) in
  free_list_anchor ← block_take block;
  page ← ctl page_size;
  block ← (if alloc_area_offset <? page then
      Heap_Block_allocate_from_begin block free_list_anchor (u32 (alloc_size + alloc_area_offset))
    else Heap_Block_allocate_from_end block free_list_anchor alloc_begin alloc_size);
  upd_stats (fun t => if free_size t <? min_free_size t
                      then stat_min_free_size (free_size t) t else t);;
  mret block.

(** The loop that moves an allocation below the boundary lines it crosses: the
    begin decreases in every step.  [None] when it would leave the block. *)
Fixpoint boundary_loop (fuel : nat) (boundary_floor alloc_size alignment boundary : Z)
    (alloc_begin alloc_end boundary_line : Z) : outcome (option Z) :=
  match fuel with
  | O => Undef Divergence
  | S fuel' =>
      if (alloc_begin <? boundary_line) && (boundary_line <? alloc_end) then
        if boundary_line <? boundary_floor then Ok None
        else
          alloc_begin ← Heap_Align_down (u32 (boundary_line - alloc_size)) alignment;
          let alloc_end := u32 (alloc_begin + alloc_size) in
          boundary_line ← Heap_Align_down alloc_end boundary;
          boundary_loop fuel' boundary_floor alloc_size alignment boundary alloc_begin alloc_end
            boundary_line
      else Ok (Some alloc_begin)
  end.

Definition Heap_Check_block (block alloc_size alignment boundary : Z) : M Z :=
  page ← ctl page_size;
  min ← ctl min_block_size;
  block_size ← Heap_Block_size block;
  let block_end := u32 (block + block_size) in
  let alloc_begin_floor := Heap_Alloc_area_of_block block in
  let alloc_begin_ceiling := u32 (block_end - min + HEAP_BLOCK_HEADER_SIZE + page - 1) in
  let alloc_end := u32 (block_end + HEAP_ALLOC_BONUS) in
  alloc_begin ← lift (Heap_Align_down (u32 (alloc_end - alloc_size)) alignment);
  alloc_begin ← (if alloc_begin_ceiling <? alloc_begin
                 then lift (Heap_Align_down alloc_begin_ceiling alignment)
                 else mret alloc_begin);
  let alloc_end := u32 (alloc_begin + alloc_size) in
  r ← (if negb (boundary =? 0) then
         let boundary_floor := u32 (alloc_begin_floor + alloc_size) in
         boundary_line ← lift (Heap_Align_down alloc_end boundary);
         lift (boundary_loop (S (Z.to_nat alloc_begin)) boundary_floor alloc_size alignment
                 boundary alloc_begin alloc_end boundary_line)
       else mret (Some alloc_begin));
  match r with
  | None => mret 0
  | Some alloc_begin =>
      if alloc_begin_floor <=? alloc_begin then
        alloc_block_begin ← lift (Heap_Block_of_alloc_area alloc_begin page);
        let free_size := u32 (alloc_block_begin - block) in
        mret (if (min <=? free_size) || (free_size =? 0) then alloc_begin else 0)
      else mret 0
  end.

(** The walk along the free list for the first block that serves the request:
    the block, the begin of the allocation (0: none) and the blocks looked at. *)
Fixpoint search_loop (fuel : nat) (block alloc_size alignment boundary search_count : Z)
    : M (Z * Z * Z) :=
  match fuel with
  | O => lift (Undef Divergence)
  | S fuel' =>
      if block =? Heap_Free_list_tail then mret (block, 0, search_count)
      else
        v ← ld_size_and_flag block;
        alloc_begin ← (if u32 (alloc_size + HEAP_BLOCK_HEADER_SIZE - HEAP_ALLOC_BONUS) <? v then
            if alignment =? 0 then mret (Heap_Alloc_area_of_block block)
            else Heap_Check_block block alloc_size alignment boundary
          else mret 0);
        let search_count := u32 (search_count + 1) in
        if negb (alloc_begin =? 0) then mret (block, alloc_begin, search_count)
        else
          next ← ld_next block;
          search_loop fuel' next alloc_size alignment boundary search_count
  end.

Definition Heap_Allocate_aligned_with_boundary (alloc_size alignment boundary : Z) : M Z :=
  let block_size_floor := u32 (alloc_size + HEAP_BLOCK_HEADER_SIZE - HEAP_ALLOC_BONUS) in
  page ← ctl page_size;
  if block_size_floor <? alloc_size then mret NULL
  else if negb (boundary =? 0) && (boundary <? alloc_size) then mret NULL
  else
    let alignment := if negb (boundary =? 0) && (alignment =? 0) then page else alignment in
    block ← Heap_Free_list_first;
    fuel ← gets (fun s => size (hp_words s));
    r ← search_loop fuel block alloc_size alignment boundary 0;
    let '(block, alloc_begin, search_count) := r in
    (if negb (alloc_begin =? 0) then
       block ← Heap_Block_allocate block alloc_begin alloc_size;
       upd_stats (stat_allocs (fun x => u32 (x + 1)));;
       upd_stats (stat_searches (fun x => u32 (x + search_count)));;
       size ← Heap_Block_size block;
       upd_stats (stat_lifetime_allocated (fun x => u64 (x + size)))
     else upd_stats (stat_failed_allocs (fun x => u32 (x + 1))));;
    upd_stats (fun t => if max_search t <? search_count
                        then stat_max_search search_count t else t);;
    mret alloc_begin.

Definition Heap_Allocate_aligned (size alignment : Z) : M Z :=
  Heap_Allocate_aligned_with_boundary size alignment 0.
Definition Heap_Allocate (size : Z) : M Z := Heap_Allocate_aligned_with_boundary size 0 0.

(** *** Freeing *)
Definition free_statistics (block_size : Z) : M bool :=
  upd_stats (stat_used_blocks (fun x => u32 (x - 1)));;
  upd_stats (stat_frees (fun x => u32 (x + 1)));;
  upd_stats (stat_free_size (fun x => u32 (x + block_size)));;
  upd_stats (stat_lifetime_freed (fun x => u64 (x + block_size)));;
  mret true.

(** The block becomes free, alone or with its free neighbours. *)
Definition free_coalesce (block block_size next_block next_block_size : Z)
    (next_is_free prev_used : bool) : M bool :=
  if negb prev_used then
    prev_size ← ld_prev_size block;
    let prev_block := Heap_Block_at block (u32 (- prev_size)) in
    prev_in_heap ← Heap_Is_block_in_heap prev_block;
    if negb prev_in_heap then mret false
    else
      prev_prev_used ← Heap_Is_prev_used prev_block;
      if negb prev_prev_used then mret false
      else if next_is_free then
        let size := u32 (block_size + prev_size + next_block_size) in
        Heap_Free_list_remove next_block;;
        upd_stats (stat_free_blocks (fun x => u32 (x - 1)));;
        st_size_and_flag prev_block (Z.lor size HEAP_PREV_BLOCK_USED);;
        let next_block := Heap_Block_at prev_block size in
        st_prev_size next_block size;;
        free_statistics block_size
      else
        let size := u32 (block_size + prev_size) in
        st_size_and_flag prev_block (Z.lor size HEAP_PREV_BLOCK_USED);;
        v ← ld_size_and_flag next_block;
        st_size_and_flag next_block (Z.land v HEAP_SIZE_MASK);;
        st_prev_size next_block size;;
        free_statistics block_size
  else if next_is_free then
    let size := u32 (block_size + next_block_size) in
    Heap_Free_list_replace next_block block;;
    st_size_and_flag block (Z.lor size HEAP_PREV_BLOCK_USED);;
    let next_block := Heap_Block_at block size in
    st_prev_size next_block size;;
    free_statistics block_size
  else
    Heap_Free_list_insert_after Heap_Free_list_head block;;
    st_size_and_flag block (Z.lor block_size HEAP_PREV_BLOCK_USED);;
    v ← ld_size_and_flag next_block;
    st_size_and_flag next_block (Z.land v HEAP_SIZE_MASK);;
    st_prev_size next_block block_size;;
    upd_stats (stat_free_blocks (fun x => u32 (x + 1)));;
    upd_stats (fun t => if max_free_blocks t <? free_blocks t
                        then stat_max_free_blocks (free_blocks t) t else t);;
    free_statistics block_size.

Definition Heap_Free (alloc_begin : Z) : M bool :=
  if alloc_begin =? NULL then mret true
  else
    page ← ctl page_size;
    block ← lift (Heap_Block_of_alloc_area alloc_begin page);
    in_heap ← Heap_Is_block_in_heap block;
    if negb in_heap then mret false
    else
      block_size ← Heap_Block_size block;
      let next_block := Heap_Block_at block block_size in
      next_in_heap ← Heap_Is_block_in_heap next_block;
      if negb next_in_heap then mret false
      else
        used ← Heap_Is_prev_used next_block;
        if negb used then mret false
        else
          next_block_size ← Heap_Block_size next_block;
          last ← ctl last_block;
          next_is_free ← (if negb (next_block =? last) then
              u ← Heap_Is_prev_used (Heap_Block_at next_block next_block_size); mret (negb u)
            else mret false);
          prev_used ← Heap_Is_prev_used block;
          free_coalesce block block_size next_block next_block_size next_is_free prev_used.

(** *** The size of an allocated area, and changing it *)
(** The size is written exactly when the result has one. *)
Definition Heap_Size_of_alloc_area (alloc_begin : Z) : M (option Z) :=
  page ← ctl page_size;
  block ← lift (Heap_Block_of_alloc_area alloc_begin page);
  in_heap ← Heap_Is_block_in_heap block;
  if negb in_heap then mret None
  else
    block_size ← Heap_Block_size block;
    let next_block := Heap_Block_at block block_size in
    next_in_heap ← Heap_Is_block_in_heap next_block;
    used ← (if (next_in_heap : bool) then Heap_Is_prev_used next_block else mret false);
    mret (if (used : bool) then Some (u32 (next_block + HEAP_ALLOC_BONUS - alloc_begin)) else None).

(** The status, the old and the new size. *)
Definition Heap_Resize_block_checked (block alloc_begin new_alloc_size : Z)
    : M (Heap_Resize_status * Z * Z) :=
  block_size ← Heap_Block_size block;
  let block_end := u32 (block + block_size) in
  let alloc_size := u32 (block_end - alloc_begin + HEAP_ALLOC_BONUS) in
  let next_block := Heap_Block_at block block_size in
  next_block_size ← Heap_Block_size next_block;
  next_block_is_free ← Heap_Is_free next_block;
  let old_size := alloc_size in
  let '(block_size, alloc_size) :=
    if (next_block_is_free : bool)
    then (u32 (block_size + next_block_size), u32 (alloc_size + next_block_size))
    else (block_size, alloc_size) in
  if alloc_size <? new_alloc_size then mret (HEAP_RESIZE_UNSATISFIED, old_size, 0)
  else
    c_if next_block_is_free
      (Heap_Block_set_size block block_size;;
       Heap_Free_list_remove next_block;;
       let next_block := Heap_Block_at block block_size in
       v ← ld_size_and_flag next_block;
       st_size_and_flag next_block (Z.lor v HEAP_PREV_BLOCK_USED);;
       upd_stats (stat_free_blocks (fun x => u32 (x - 1)));;
       upd_stats (stat_free_size (fun x => u32 (x - next_block_size))));;
    block ← Heap_Block_allocate block alloc_begin new_alloc_size;
    block_size ← Heap_Block_size block;
    let next_block := Heap_Block_at block block_size in
    let new_size := u32 (next_block - alloc_begin + HEAP_ALLOC_BONUS) in
    upd_stats (stat_resizes (fun x => u32 (x + 1)));;
    mret (HEAP_RESIZE_SUCCESSFUL, old_size, new_size).

Definition Heap_Resize_block (alloc_begin new_alloc_size : Z)
    : M (Heap_Resize_status * Z * Z) :=
  page ← ctl page_size;
  block ← lift (Heap_Block_of_alloc_area alloc_begin page);
  in_heap ← Heap_Is_block_in_heap block;
  if (in_heap : bool) then Heap_Resize_block_checked block alloc_begin new_alloc_size
  else mret (HEAP_RESIZE_FATAL_ERROR, 0, 0).

(** *** Visiting the blocks *)
(** A visitor has a state of its own; it stops the iteration with [true].  The
    blocks before the last one are at most as many as the words of the memory. *)
Fixpoint iterate_loop {A} (visitor : Z -> Z -> bool -> A -> bool * A) (fuel : nat)
    (current end_ : Z) (stop : bool) (a : A) : M A :=
  match fuel with
  | O => lift (Undef Divergence)
  | S fuel' =>
      if negb stop && negb (current =? end_) then
        size ← Heap_Block_size current;
        let next := Heap_Block_at current size in
        used ← Heap_Is_prev_used next;
        let '(stop, a) := visitor current size used a in
        iterate_loop visitor fuel' next end_ stop a
      else mret a
  end.

Definition Heap_Iterate {A} (visitor : Z -> Z -> bool -> A -> bool * A) (a : A) : M A :=
  current ← ctl first_block;
  end_ ← ctl last_block;
  fuel ← gets (fun s => size (hp_words s));
  iterate_loop visitor fuel current end_ false a.

Definition count_block (block_size : Z) (i : Heap_Information) : Heap_Information :=
  mk_heap_information (u32 (info_number i + 1))
    (if info_largest i <? block_size then block_size else info_largest i)
    (u32 (info_total i + block_size)).

(** The information on the free and on the used blocks. *)
Definition Heap_Get_information_visitor (block block_size : Z) (block_is_used : bool)
    (i : Heap_Information * Heap_Information) : bool * (Heap_Information * Heap_Information) :=
  (false, if block_is_used then (i.1, count_block block_size i.2)
          else (count_block block_size i.1, i.2)).

Definition Heap_Get_information
    : M (Heap_Information * Heap_Information * Heap_Statistics) :=
  i ← Heap_Iterate Heap_Get_information_visitor
        (mk_heap_information 0 0 0, mk_heap_information 0 0 0);
  t ← ctl stats;
  mret (i.1, i.2, t).

Fixpoint free_info_loop (fuel : nat) (the_block : Z) (i : Heap_Information)
    : M Heap_Information :=
  match fuel with
  | O => lift (Undef Divergence)
  | S fuel' =>
      if the_block =? Heap_Free_list_tail then mret i
      else
        the_size ← Heap_Block_size the_block;
        next ← ld_next the_block;
        free_info_loop fuel' next (count_block the_size i)
  end.

Definition Heap_Get_free_information : M Heap_Information :=
  first ← Heap_Free_list_first;
  fuel ← gets (fun s => size (hp_words s));
  free_info_loop fuel first (mk_heap_information 0 0 0).

(** *** Checking the heap

    The messages are left out, the fields they print are read. *)
Fixpoint check_free_list_loop (fuel : nat) (page prev_block free_block : Z) : M bool :=
  match fuel with
  | O => lift (Undef Divergence)
  | S fuel' =>
      if free_block =? Heap_Free_list_tail then mret true
      else
        in_heap ← Heap_Is_block_in_heap free_block;
        if negb in_heap then mret false
        else
          aligned ← lift (Heap_Is_aligned (Heap_Alloc_area_of_block free_block) page);
          if negb aligned then mret false
          else
            used ← Heap_Is_used free_block;
            if (used : bool) then mret false
            else
              prev ← ld_prev free_block;
              if negb (prev =? prev_block) then mret false
              else
                next ← ld_next free_block;
                check_free_list_loop fuel' page free_block next
  end.

Definition Heap_Walk_check_free_list : M bool :=
  page ← ctl page_size;
  first ← Heap_Free_list_first;
  fuel ← gets (fun s => size (hp_words s));
  check_free_list_loop fuel page Heap_Free_list_tail first.

Fixpoint is_in_free_list_loop (fuel : nat) (free_block block : Z) : M bool :=
  match fuel with
  | O => lift (Undef Divergence)
  | S fuel' =>
      if free_block =? Heap_Free_list_tail then mret false
      else if free_block =? block then mret true
      else next ← ld_next free_block; is_in_free_list_loop fuel' next block
  end.

Definition Heap_Walk_is_in_free_list (block : Z) : M bool :=
  first ← Heap_Free_list_first;
  fuel ← gets (fun s => size (hp_words s));
  is_in_free_list_loop fuel first block.

Definition Heap_Walk_check_control : M bool :=
  page ← ctl page_size;
  min ← ctl min_block_size;
  Heap_Free_list_first;;
  Heap_Free_list_last;;
  first ← ctl first_block;
  last ← ctl last_block;
  if page =? 0 then mret false
  else if negb (page mod CPU_ALIGNMENT =? 0) then mret false
  else
    min_aligned ← lift (Heap_Is_aligned min page);
    if negb min_aligned then mret false
    else
      first_aligned ← lift (Heap_Is_aligned (Heap_Alloc_area_of_block first) page);
      if negb first_aligned then mret false
      else
        prev_used ← Heap_Is_prev_used first;
        if negb prev_used then mret false
        else
          last_free ← Heap_Is_free last;
          if (last_free : bool) then mret false
          else
            size ← Heap_Block_size last;
            if negb (Heap_Block_at last size =? first) then mret false
            else Heap_Walk_check_free_list.

Definition Heap_Walk_check_free_block (block : Z) : M bool :=
  Heap_Free_list_first;;
  Heap_Free_list_last;;
  prev_used ← Heap_Is_prev_used block;
  block_size ← Heap_Block_size block;
  let next_block := Heap_Block_at block block_size in
  ld_prev block;;
  ld_next block;;
  next_prev_size ← ld_prev_size next_block;
  if negb (block_size =? next_prev_size) then mret false
  else if negb prev_used then mret false
  else
    listed ← Heap_Walk_is_in_free_list block;
    mret listed.

Fixpoint walk_loop (fuel : nat) (page min first last block : Z) : M bool :=
  match fuel with
  | O => lift (Undef Divergence)
  | S fuel' =>
      block_size ← Heap_Block_size block;
      prev_used ← Heap_Is_prev_used block;
      let next_block := Heap_Block_at block block_size in
      let is_not_last_block := negb (block =? last) in
      in_heap ← Heap_Is_block_in_heap next_block;
      if negb in_heap then mret false
      else
        aligned ← lift (Heap_Is_aligned block_size page);
        if negb aligned && is_not_last_block then mret false
        else if (block_size <? min) && is_not_last_block then mret false
        else if (next_block <=? block) && is_not_last_block then mret false
        else
          next_prev_used ← Heap_Is_prev_used next_block;
          ok ← (if negb next_prev_used then Heap_Walk_check_free_block block
                else if (prev_used : bool) then mret true
                else ld_prev_size block;; mret true);
          if negb ok then mret false
          else if next_block =? first then mret true
          else walk_loop fuel' page min first last next_block
  end.

Definition Heap_Walk (system_is_up : bool) : M bool :=
  page ← ctl page_size;
  min ← ctl min_block_size;
  first ← ctl first_block;
  last ← ctl last_block;
  if negb system_is_up then mret true
  else
    control_ok ← Heap_Walk_check_control;
    if negb control_ok then mret false
    else
      fuel ← gets (fun s => size (hp_words s));
      walk_loop fuel page min first last first.

End Heap.
