(* ===== verification/HeapList.v ===== *)
(** * The free list of a heap

    The cyclic list of the free blocks, whose head is the [free_list] of the
    heap control: the blocks in its order, and what the operations on the list
    do to that order and to the memory. *)

From stdpp Require Import base tactics numbers option list list_numbers gmap fin_maps.
From Stdlib Require Import ZArith Lia.
From S2P Require Import Prelude Chain Objects Heap.

Open Scope Z_scope.

(** ** Running the accesses *)
Lemma in_words_bind {A B} (m : CM A) (k : A -> cm heap_state B) s a w :
  m (hp_words s) = Ok (a, w) -> (in_words m ≫= k) s = k a (set_hp_words w s).
Proof. intros Hm. apply cm_bind_ok. unfold in_words, zoom. by rewrite Hm. Qed.

Lemma hld_bind {B} w v (k : Z -> cm heap_state B) s :
  hp_words s !! w = Some v -> (in_words (ldw w) ≫= k) s = k v s.
Proof.
  intros Hv. rewrite (in_words_bind _ _ _ v (hp_words s)).
  - by destruct s.
  - apply getsM_ok. unfold mem_load. by rewrite Hv.
Qed.

Lemma hst_bind {B} w v (k : unit -> cm heap_state B) s :
  is_Some (hp_words s !! w) ->
  (in_words (stw w v) ≫= k) s = k tt (set_hp_words (<[w := v]> (hp_words s)) s).
Proof. intros Hv. apply in_words_bind, stw_run, Hv. Qed.

Lemma hst_run w v s :
  is_Some (hp_words s !! w) ->
  in_words (stw w v) s = Ok (tt, set_hp_words (<[w := v]> (hp_words s)) s).
Proof. intros Hv. unfold in_words, zoom. by rewrite (stw_run _ _ _ Hv). Qed.

(** ** Linked blocks *)

(** Neighbours in [s] are each other's [next] and [prev]. *)
Fixpoint linked (m : words) (s : list Z) : Prop :=
  match s with
  | a :: ((b :: _) as r) => m !! (a + 8) = Some b /\ m !! (b + 12) = Some a /\ linked m r
  | _ => True
  end.

Lemma linked_cons m a b s :
  linked m (a :: b :: s) <-> m !! (a + 8) = Some b /\ m !! (b + 12) = Some a /\ linked m (b :: s).
Proof. done. Qed.

Lemma linked_app m s1 a s2 :
  linked m (s1 ++ a :: s2) <-> linked m (s1 ++ [a]) /\ linked m (a :: s2).
Proof.
  induction s1 as [|x s1 IH]; [cbn [app]; split; [by split|by intros [_ ?]]|].
  destruct s1 as [|y s1]; cbn [app] in *.
  - rewrite (linked_cons m x a s2), (linked_cons m x a []). cbn [linked]. tauto.
  - rewrite !(linked_cons m x y), IH. tauto.
Qed.

Lemma linked_frame m m' s :
  (forall x, x ∈ removelast s -> m' !! (x + 8) = m !! (x + 8)) ->
  (forall y, y ∈ tail s -> m' !! (y + 12) = m !! (y + 12)) ->
  linked m s -> linked m' s.
Proof.
  induction s as [|a s IH]; intros Hn Hp Hl; [done|].
  destruct s as [|b s]; [done|]. apply linked_cons in Hl as (H1 & H2 & H3).
  apply linked_cons. split; [rewrite Hn; [done|left]|]. split; [rewrite Hp; [done|left]|].
  apply IH; [| |done].
  - intros x Hx. apply Hn. by right.
  - intros y Hy. apply Hp. by right.
Qed.

(** Blocks are at least 16 bytes apart. *)
Definition spread (l : list Z) : Prop :=
  NoDup l /\ forall x y, x ∈ l -> y ∈ l -> x = y \/ x + 16 <= y \/ y + 16 <= x.

Lemma spread_sub l l' : spread l -> NoDup l' -> (forall x, x ∈ l' -> x ∈ l) -> spread l'.
Proof. intros [_ Hs] Hnd Hsub. split; [done|]. intros x y Hx Hy. apply Hs; auto. Qed.

(** The free list at [heap] with the blocks [fl] in its order. *)
Definition free_list (m : words) (heap : Z) (fl : list Z) : Prop :=
  linked m (heap :: fl ++ [heap]).

(** The words an operation on the list may write. *)
Definition link_word (l : list Z) (w : Z) : Prop := exists x, x ∈ l /\ (w = x + 8 \/ w = x + 12).

Definition changes (l : list Z) (m m' : words) : Prop :=
  (forall w, ~ link_word l w -> m' !! w = m !! w) /\
  (forall w, is_Some (m !! w) -> is_Some (m' !! w)).

(** The blocks before and after a position of the list. *)
Lemma list_before (heap : Z) (f1 : list Z) : exists s1 p, heap :: f1 = s1 ++ [p].
Proof.
  destruct (exists_last (l := heap :: f1)) as (s1 & p & Heq); [done|]. by exists s1, p.
Qed.

Lemma list_after (heap : Z) (f2 : list Z) : exists n s2, f2 ++ [heap] = n :: s2.
Proof. destruct f2 as [|n f2]; by eexists _, _. Qed.

(** The part of the list between [p] and [n] is replaced by [mid]. *)
Lemma splice m m' heap f1 old f2 mid s1 p n s2 :
  free_list m heap (f1 ++ old ++ f2) -> spread (heap :: f1 ++ mid ++ f2) ->
  heap :: f1 = s1 ++ [p] -> f2 ++ [heap] = n :: s2 ->
  linked m' (p :: mid ++ [n]) ->
  (forall w, w <> p + 8 -> w <> n + 12 -> ~ link_word mid w -> m' !! w = m !! w) ->
  free_list m' heap (f1 ++ mid ++ f2).
Proof.
  intros Hl [Hnd Hsp] Hs1 Hs2 Hmid Hfr. unfold free_list in *.
  assert (heap :: (f1 ++ old ++ f2) ++ [heap] = s1 ++ p :: old ++ n :: s2) as E1.
  { rewrite <- !app_assoc, Hs2, app_comm_cons, Hs1, <- app_assoc. done. }
  assert (heap :: (f1 ++ mid ++ f2) ++ [heap] = s1 ++ p :: mid ++ n :: s2) as E2.
  { rewrite <- !app_assoc, Hs2, app_comm_cons, Hs1, <- app_assoc. done. }
  rewrite E1 in Hl. rewrite E2. apply linked_app in Hl as [L1 L2].
  rewrite app_comm_cons in L2. apply linked_app in L2 as [_ L2].
  assert (heap :: f1 ++ mid ++ f2 = s1 ++ p :: mid ++ f2) as E3.
  { rewrite app_comm_cons, Hs1, <- app_assoc. done. }
  rewrite E3 in Hnd, Hsp.
  assert (forall y, y ∈ tail (s1 ++ [p]) -> y ∈ f1) as Htl by (intros y Hy; by rewrite <- Hs1 in Hy).
  assert (forall y, y ∈ removelast (n :: s2) -> y ∈ f2) as Hrl
    by (intros y Hy; by rewrite <- Hs2, removelast_snoc in Hy).
  assert (forall y, y ∈ n :: s2 -> y = heap \/ y ∈ f2) as Hn2.
  { intros y Hy. rewrite <- Hs2 in Hy. apply elem_of_app in Hy as [?|?%list_elem_of_singleton]; auto. }
  assert (heap ∈ s1 ++ p :: mid ++ f2) as Hh by (rewrite <- E3; left).
  assert (forall y, y ∈ f1 -> y ∈ s1 ++ p :: mid ++ f2) as Hf1.
  { intros y Hy. rewrite <- E3. right. in_list. }
  assert (NoDup (heap :: f1 ++ mid ++ f2)) as Hnd' by (by rewrite E3).
  apply NoDup_app in Hnd as (N1 & N2 & N3). apply NoDup_cons in N3 as [N3 N4].
  apply NoDup_cons in Hnd' as [N5 N6]. apply NoDup_app in N6 as (N6 & N7 & N8).
  assert (n ∈ s1 ++ p :: mid ++ f2) as Hn.
  { destruct (Hn2 n) as [-> |?]; [left|done|in_list]. }
  (* a [next] word of a block other than [p] and [mid], and a [prev] word of a
     block other than [n] and [mid] *)
  assert (forall x, x ∈ s1 ++ p :: mid ++ f2 -> x <> p -> (x ∉ mid) -> m' !! (x + 8) = m !! (x + 8))
    as Fn.
  { intros x Hx Hp Hm. apply Hfr; [lia| |].
    - intros Heq. destruct (Hsp x n Hx Hn); lia.
    - intros (y & Hy & Heq). destruct (Hsp x y Hx); [in_list|subst; done|lia]. }
  assert (forall x, x ∈ s1 ++ p :: mid ++ f2 -> x <> n -> (x ∉ mid) -> m' !! (x + 12) = m !! (x + 12))
    as Fp.
  { intros x Hx Hp Hm. apply Hfr; [|lia|].
    - intros Heq. destruct (Hsp x p Hx); [in_list|lia..].
    - intros (y & Hy & Heq). destruct (Hsp x y Hx); [in_list|subst; done|lia]. }
  assert (forall y, y ∈ f1 -> y <> n) as Nn.
  { intros y Hy ->. destruct (Hn2 n) as [-> |Hx]; [left| |].
    - apply N5. in_list.
    - apply (N7 n Hy). in_list. }
  apply linked_app. split; [|rewrite app_comm_cons; apply linked_app; split; [done|]].
  - eapply linked_frame; [| |exact L1].
    + intros x Hx. rewrite removelast_snoc in Hx. apply Fn; [in_list| |].
      * intros ->. apply (N2 p Hx). in_list.
      * intros Hm. apply (N2 x Hx). in_list.
    + intros y Hy. apply Htl in Hy. apply Fp; [auto|auto|]. intros Hm. apply (N7 y Hy). in_list.
  - eapply linked_frame; [| |exact L2].
    + intros x Hx. apply Hrl in Hx. apply Fn; [in_list| |].
      * intros ->. apply N3. in_list.
      * intros Hm. apply NoDup_app in N8 as (_ & N8 & _). by apply (N8 x).
    + intros y Hy. cbn [tail] in Hy.
      assert (y <> n) as Hyn.
      { assert (NoDup (n :: s2)) as Hq.
        { rewrite <- Hs2. apply NoDup_app in N8 as (_ & _ & N8). apply NoDup_app.
          split; [done|]. split; [|apply NoDup_singleton].
          intros z Hz ->%list_elem_of_singleton. apply N5. in_list. }
        apply NoDup_cons in Hq as [Hq _]. intros ->. done. }
      destruct (Hn2 y) as [-> |Hy2]; [by right| |].
      * apply Fp; [done|done|]. intros Hm. apply N5. in_list.
      * apply Fp; [in_list|done|]. intros Hm. apply NoDup_app in N8 as (_ & N8 & _). by apply (N8 y).
Qed.

(** The neighbours of a block, and of a gap between blocks. *)
Lemma list_pair m heap f1 f2 s1 p n s2 :
  free_list m heap (f1 ++ f2) -> heap :: f1 = s1 ++ [p] -> f2 ++ [heap] = n :: s2 ->
  m !! (p + 8) = Some n /\ m !! (n + 12) = Some p.
Proof.
  intros Hl Hs1 Hs2. unfold free_list in Hl.
  rewrite <- app_assoc, Hs2, app_comm_cons, Hs1, <- app_assoc in Hl.
  apply linked_app in Hl as [_ Hl]. by apply linked_cons in Hl as (? & ? & _).
Qed.

Lemma before_elem (heap : Z) (f1 f2 s1 : list Z) (p : Z) : heap :: f1 = s1 ++ [p] -> p ∈ heap :: f1 ++ f2.
Proof. intros Hs1. rewrite app_comm_cons, Hs1. in_list. Qed.

Lemma after_elem (heap : Z) (f1 f2 : list Z) (n : Z) (s2 : list Z) : f2 ++ [heap] = n :: s2 -> n ∈ heap :: f1 ++ f2.
Proof.
  intros Hs2. assert (n ∈ f2 ++ [heap]) as Hn by (rewrite Hs2; left).
  rewrite elem_of_app, list_elem_of_singleton in Hn. in_list.
Qed.

(** A block [x] that is new between [p] and [n]. *)
Lemma between_new (heap : Z) (f1 : list Z) (x : Z) (f2 s1 : list Z) (p n : Z) (s2 : list Z) :
  spread (heap :: f1 ++ x :: f2) -> heap :: f1 = s1 ++ [p] -> f2 ++ [heap] = n :: s2 ->
  p ∈ heap :: f1 ++ x :: f2 /\ n ∈ heap :: f1 ++ x :: f2 /\ x ∈ heap :: f1 ++ x :: f2 /\
  (p = n \/ p + 16 <= n \/ n + 16 <= p) /\ (p + 16 <= x \/ x + 16 <= p) /\
  (n + 16 <= x \/ x + 16 <= n).
Proof.
  intros [Hnd Hsp] Hs1 Hs2. pose proof (before_elem heap f1 (x :: f2) s1 p Hs1) as Hp.
  assert (n ∈ heap :: f1 ++ x :: f2) as Hn.
  { pose proof (after_elem heap f1 f2 n s2 Hs2) as Hn. revert Hn. in_list. }
  assert (x ∈ heap :: f1 ++ x :: f2) as Hx by in_list.
  rewrite app_comm_cons in Hnd. apply NoDup_app in Hnd as (_ & Hd & Hf).
  apply NoDup_cons in Hf as [Hf _].
  assert (p <> x). { intros ->. apply (Hd x); [rewrite Hs1; in_list|left]. }
  assert (n <> x).
  { intros ->. assert (x ∈ f2 ++ [heap]) as Hxx by (rewrite Hs2; left).
    apply elem_of_app in Hxx as [?| ->%list_elem_of_singleton]; [done|]. apply (Hd heap); left. }
  pose proof (Hsp p n Hp Hn). pose proof (Hsp p x Hp Hx). pose proof (Hsp n x Hn Hx).
  do 3 (split; [done|]). lia.
Qed.

Lemma changes_refl l m : changes l m m.
Proof. by split. Qed.

Lemma changes_insert (l : list Z) m m' x w v :
  changes l m m' -> x ∈ l -> w = x + 8 \/ w = x + 12 -> changes l m (<[w := v]> m').
Proof.
  intros [H1 H2] Hx Hw. split; intros w' Hw'.
  - rewrite lookup_insert_ne; [auto|]. intros <-. apply Hw'. by exists x.
  - apply lookup_insert_is_Some'. auto.
Qed.

Lemma changes_trans l m1 m2 m3 : changes l m1 m2 -> changes l m2 m3 -> changes l m1 m3.
Proof.
  intros [H1 H2] [H3 H4]. split; [|auto]. intros w Hw. rewrite H3 by done. auto.
Qed.

Lemma changes_sub (l l' : list Z) m m' :
  changes l m m' -> (forall x, x ∈ l -> x ∈ l') -> changes l' m m'.
Proof.
  intros [H1 H2] Hs. split; [|done]. intros w Hw. apply H1. intros (x & Hx & ?). apply Hw.
  exists x. auto.
Qed.

Ltac hstep H := rewrite (hld_bind _ _ _ _ H).

Section List.
Context (heap : Z).

(** ** The operations *)
Lemma list_remove_run f1 b f2 s :
  free_list (hp_words s) heap (f1 ++ b :: f2) -> spread (heap :: f1 ++ b :: f2) ->
  exists m', Heap_Free_list_remove b s = Ok (tt, set_hp_words m' s) /\
    free_list m' heap (f1 ++ f2) /\ changes (heap :: f1 ++ f2) (hp_words s) m'.
Proof.
  intros Hl Hsp. destruct (list_before heap f1) as (s1 & p & Hs1).
  destruct (list_after heap f2) as (n & s2 & Hs2).
  destruct (list_pair _ _ f1 (b :: f2) s1 p b (f2 ++ [heap]) Hl Hs1 eq_refl) as [P1 P2].
  destruct (list_pair (hp_words s) heap (f1 ++ [b]) f2 (heap :: f1) b n s2) as [N1 N2];
    [by rewrite <- app_assoc|done|done|].
  pose proof (before_elem heap f1 f2 s1 p Hs1) as Hp.
  pose proof (after_elem heap f1 f2 n s2 Hs2) as Hn.
  assert (spread (heap :: f1 ++ f2)) as Hsp'.
  { apply (spread_sub _ (heap :: f1 ++ f2) Hsp); [|intros x; in_list].
    eapply sublist_NoDup; [apply Hsp|]. apply sublist_skip, sublist_app; [done|by apply sublist_cons]. }
  set (m' := <[n + 12 := p]> (<[p + 8 := n]> (hp_words s))).
  exists m'. split; [|split].
  - unfold Heap_Free_list_remove, ld_next, ld_prev, st_next, st_prev. hstep N1. hstep P2.
    rewrite hst_bind by (by eexists). rewrite hst_run; [done|]. cbn.
    apply lookup_insert_is_Some'. right. by eexists.
  - apply (splice (hp_words s) m' heap f1 [b] f2 [] s1 p n s2); [done|done|done|done| |].
    + split; [|split; [|done]]; unfold m'.
      * rewrite lookup_insert_ne; [apply lookup_insert_eq|].
        destruct Hsp' as [_ Hsp']. destruct (Hsp' p n Hp Hn); lia.
      * apply lookup_insert_eq.
    + intros w W1 W2 _. unfold m'. by rewrite !lookup_insert_ne.
  - unfold m'. eapply changes_insert; [|exact Hn|by right].
    eapply changes_insert; [apply changes_refl|exact Hp|by left].
Qed.

Lemma list_insert_after_run f1 f2 s1 p x s :
  free_list (hp_words s) heap (f1 ++ f2) -> spread (heap :: f1 ++ x :: f2) ->
  heap :: f1 = s1 ++ [p] ->
  is_Some (hp_words s !! (x + 8)) -> is_Some (hp_words s !! (x + 12)) ->
  exists m', Heap_Free_list_insert_after p x s = Ok (tt, set_hp_words m' s) /\
    free_list m' heap (f1 ++ x :: f2) /\ changes (heap :: f1 ++ x :: f2) (hp_words s) m'.
Proof.
  intros Hl Hsp Hs1 X1 X2. destruct (list_after heap f2) as (n & s2 & Hs2).
  destruct (list_pair _ _ f1 f2 s1 p n s2 Hl Hs1 Hs2) as [P1 P2].
  destruct (between_new heap f1 x f2 s1 p n s2 Hsp Hs1 Hs2) as (Hp & Hn & Hx & ? & ? & ?).
  set (m' := <[n + 12 := x]> (<[p + 8 := x]> (<[x + 12 := p]> (<[x + 8 := n]> (hp_words s))))).
  exists m'. split; [|split].
  - unfold Heap_Free_list_insert_after, ld_next, ld_prev, st_next, st_prev. hstep P1.
    rewrite hst_bind by done. rewrite hst_bind by (cbn; apply lookup_insert_is_Some'; by right).
    rewrite hst_bind by (cbn; rewrite !lookup_insert_is_Some'; right; right; by eexists).
    rewrite hst_run; [done|]. cbn. rewrite !lookup_insert_is_Some'. do 3 right. by eexists.
  - apply (splice (hp_words s) m' heap f1 [] f2 [x] s1 p n s2); [done|done|done|done| |].
    + cbn [app linked]. unfold m'. repeat split.
      * by rewrite lookup_insert_ne, lookup_insert_eq by lia.
      * by rewrite !lookup_insert_ne, lookup_insert_eq by lia.
      * by rewrite !lookup_insert_ne, lookup_insert_eq by lia.
      * apply lookup_insert_eq.
    + intros w W1 W2 W3. unfold m'.
      assert (w <> x + 8 /\ w <> x + 12) as [? ?].
      { split; intros ->; apply W3; exists x; (split; [by left|lia]). }
      by rewrite !lookup_insert_ne.
  - unfold m'. eapply changes_insert; [|exact Hn|by right].
    eapply changes_insert; [|exact Hp|by left]. eapply changes_insert; [|exact Hx|by right].
    eapply changes_insert; [apply changes_refl|exact Hx|by left].
Qed.

Lemma list_replace_run f1 b f2 x s :
  free_list (hp_words s) heap (f1 ++ b :: f2) -> spread (heap :: f1 ++ x :: f2) ->
  is_Some (hp_words s !! (x + 8)) -> is_Some (hp_words s !! (x + 12)) ->
  exists m', Heap_Free_list_replace b x s = Ok (tt, set_hp_words m' s) /\
    free_list m' heap (f1 ++ x :: f2) /\ changes (heap :: f1 ++ x :: f2) (hp_words s) m'.
Proof.
  intros Hl Hsp X1 X2. destruct (list_before heap f1) as (s1 & p & Hs1).
  destruct (list_after heap f2) as (n & s2 & Hs2).
  destruct (list_pair _ _ f1 (b :: f2) s1 p b (f2 ++ [heap]) Hl Hs1 eq_refl) as [P1 P2].
  destruct (list_pair (hp_words s) heap (f1 ++ [b]) f2 (heap :: f1) b n s2) as [N1 N2];
    [by rewrite <- app_assoc|done|done|].
  destruct (between_new heap f1 x f2 s1 p n s2 Hsp Hs1 Hs2) as (Hp & Hn & Hx & ? & ? & ?).
  set (m' := <[p + 8 := x]> (<[n + 12 := x]> (<[x + 12 := p]> (<[x + 8 := n]> (hp_words s))))).
  exists m'. split; [|split].
  - unfold Heap_Free_list_replace, ld_next, ld_prev, st_next, st_prev. hstep N1. hstep P2.
    rewrite hst_bind by done. rewrite hst_bind by (cbn; apply lookup_insert_is_Some'; by right).
    rewrite hst_bind by (cbn; rewrite !lookup_insert_is_Some'; right; right; by eexists).
    rewrite hst_run; [done|]. cbn. rewrite !lookup_insert_is_Some'. do 3 right. by eexists.
  - apply (splice (hp_words s) m' heap f1 [b] f2 [x] s1 p n s2); [done|done|done|done| |].
    + cbn [app linked]. unfold m'. repeat split.
      * apply lookup_insert_eq.
      * by rewrite !lookup_insert_ne, lookup_insert_eq by lia.
      * by rewrite !lookup_insert_ne, lookup_insert_eq by lia.
      * by rewrite lookup_insert_ne, lookup_insert_eq by lia.
    + intros w W1 W2 W3. unfold m'.
      assert (w <> x + 8 /\ w <> x + 12) as [? ?].
      { split; intros ->; apply W3; exists x; (split; [by left|lia]). }
      by rewrite !lookup_insert_ne.
  - unfold m'. eapply changes_insert; [|exact Hp|by left].
    eapply changes_insert; [|exact Hn|by right]. eapply changes_insert; [|exact Hx|by right].
    eapply changes_insert; [apply changes_refl|exact Hx|by left].
Qed.

End List.
