(* ===== verification/HeapBlocks.v ===== *)
(** * The blocks of a heap

    A heap is a list of sizes with a used flag, from the first block to the
    last: [placed] gives every block its address, [tag] is what the memory
    holds of a block, and [heap_inv] is the invariant of the heap: the blocks
    tile the area, no two neighbours are free, the tags and the free list are
    in memory, and the statistics count what they say. *)

From stdpp Require Import base tactics numbers option list list_numbers gmap fin_maps.
From stdpp Require Import fin_map_dom fin_sets.
From Stdlib Require Import ZArith Lia.
From S2P Require Import Prelude Chain Objects Heap HeapList.

Open Scope Z_scope.

(** ** Placed blocks *)
Record block := mk_block { b_at : Z; b_size : Z; b_prev : bool; b_used : bool }.

Fixpoint placed (a : Z) (pu : bool) (bs : list (Z * bool)) : list block :=
  match bs with
  | [] => []
  | (sz, u) :: bs' => mk_block a sz pu u :: placed (a + sz) u bs'
  end.

Fixpoint total (bs : list (Z * bool)) : Z :=
  match bs with [] => 0 | b :: bs' => b.1 + total bs' end.

Fixpoint used_before (pu : bool) (bs : list (Z * bool)) : bool :=
  match bs with [] => pu | b :: bs' => used_before b.2 bs' end.

(** The boundary tags of a block: its size and the flag of the block before it,
    and, behind a free block, its size again; a free block follows a used one. *)
Definition tag (m : words) (b : block) : Prop :=
  m !! (b_at b + 4) = Some (b_size b + b2z (b_prev b)) /\
  (b_used b = false -> b_prev b = true /\ m !! (b_at b + b_size b) = Some (b_size b)).

Definition free_at (L : list block) : list Z := b_at <$> filter (fun b => b_used b = false) L.

Lemma total_app l1 l2 : total (l1 ++ l2) = total l1 + total l2.
Proof. induction l1 as [|b l1 IH]; cbn; lia. Qed.

Lemma used_before_app pu l1 l2 : used_before pu (l1 ++ l2) = used_before (used_before pu l1) l2.
Proof. revert pu. induction l1 as [|b l1 IH]; intros pu; cbn; auto. Qed.

Lemma placed_app a pu l1 l2 :
  placed a pu (l1 ++ l2) = placed a pu l1 ++ placed (a + total l1) (used_before pu l1) l2.
Proof.
  revert a pu. induction l1 as [|[sz u] l1 IH]; intros a pu; cbn; [by rewrite Z.add_0_r|].
  by rewrite IH, Z.add_assoc.
Qed.

Lemma free_at_app L1 L2 : free_at (L1 ++ L2) = free_at L1 ++ free_at L2.
Proof. unfold free_at. by rewrite filter_app, fmap_app. Qed.

Lemma free_at_elem L x : x ∈ free_at L <-> exists b, b ∈ L /\ b_at b = x /\ b_used b = false.
Proof.
  unfold free_at. rewrite list_elem_of_fmap. setoid_rewrite list_elem_of_filter. naive_solver.
Qed.

Definition large (bs : list (Z * bool)) : Prop := Forall (fun b => 16 <= b.1) bs.

Lemma total_nonneg bs : large bs -> 0 <= total bs.
Proof. induction 1; cbn; lia. Qed.

Lemma placed_bounds a pu bs b :
  large bs -> b ∈ placed a pu bs ->
  a <= b_at b /\ b_at b + b_size b <= a + total bs /\ 16 <= b_size b.
Proof.
  intros Hl. revert a pu. induction Hl as [|[sz u] bs Hsz Hl IH]; intros a pu Hb.
  { by apply elem_of_nil in Hb. }
  pose proof (total_nonneg _ Hl). cbn in *. apply elem_of_cons in Hb as [-> |Hb]; [cbn; lia|].
  apply IH in Hb. lia.
Qed.

Lemma placed_apart a pu bs b1 b2 :
  large bs -> b1 ∈ placed a pu bs -> b2 ∈ placed a pu bs ->
  b1 = b2 \/ b_at b1 + b_size b1 <= b_at b2 \/ b_at b2 + b_size b2 <= b_at b1.
Proof.
  intros Hl. revert a pu. induction Hl as [|[sz u] bs Hsz Hl IH]; intros a pu H1 H2.
  { by apply elem_of_nil in H1. }
  cbn in *. apply elem_of_cons in H1 as [-> |H1]; apply elem_of_cons in H2 as [-> |H2]; cbn.
  - by left.
  - apply placed_bounds in H2; [|done]. lia.
  - apply placed_bounds in H1; [|done]. lia.
  - by eapply IH.
Qed.

Lemma placed_NoDup a pu bs : large bs -> NoDup (b_at <$> placed a pu bs).
Proof.
  intros Hl. revert a pu. induction Hl as [|[sz u] bs Hsz Hl IH]; intros a pu; [constructor|].
  cbn. apply NoDup_cons. split; [|apply IH]. intros (b & Heq & Hb)%list_elem_of_fmap.
  cbn in Hsz. apply placed_bounds in Hb; [lia|done].
Qed.

Lemma free_at_NoDup a pu bs : large bs -> NoDup (free_at (placed a pu bs)).
Proof.
  intros Hl. eapply sublist_NoDup; [exact (placed_NoDup a pu bs Hl)|].
  apply fmap_sublist, sublist_filter.
Qed.

(** A block of a heap has a place in the list. *)
Lemma placed_split a pu bs b :
  b ∈ placed a pu bs ->
  exists l1 l2, bs = l1 ++ (b_size b, b_used b) :: l2 /\ b_at b = a + total l1 /\
    b_prev b = used_before pu l1.
Proof.
  revert a pu. induction bs as [|[sz u] bs IH]; intros a pu Hb; cbn in Hb.
  { by apply elem_of_nil in Hb. }
  apply elem_of_cons in Hb as [-> |Hb].
  - exists [], bs. cbn. by rewrite Z.add_0_r.
  - destruct (IH _ _ Hb) as (l1 & l2 & -> & Hat & Hp). exists ((sz, u) :: l1), l2.
    cbn. split; [done|]. split; [lia|done].
Qed.

(** The used blocks, with their sizes. *)
Definition used_at (L : list block) : list (Z * Z) :=
  (fun b => (b_at b, b_size b)) <$> filter (fun b => b_used b = true) L.

Lemma used_at_app L1 L2 : used_at (L1 ++ L2) = used_at L1 ++ used_at L2.
Proof. unfold used_at. by rewrite filter_app, fmap_app. Qed.

Lemma used_at_elem L x sz :
  (x, sz) ∈ used_at L <-> exists b, b ∈ L /\ b_at b = x /\ b_size b = sz /\ b_used b = true.
Proof.
  unfold used_at. rewrite list_elem_of_fmap. setoid_rewrite list_elem_of_filter.
  split; [intros (b & [= -> ->] & ? & ?); eauto 6|intros (b & ? & <- & <- & ?); eauto].
Qed.

Lemma used_at_placed a pu pu' bs : used_at (placed a pu bs) = used_at (placed a pu' bs).
Proof. destruct bs as [|[sz []] bs]; done. Qed.

Lemma used_at_cons a pu sz (u : bool) bs :
  used_at (placed a pu ((sz, u) :: bs)) =
  (if u then [(a, sz)] else []) ++ used_at (placed (a + sz) u bs).
Proof. by destruct u. Qed.

(** What the users of the used blocks stored: from behind the header of a block
    to the field [prev_size] of the next one. *)
Definition keeps (m m' : words) (L : list block) : Prop :=
  forall b w, b ∈ L -> b_used b = true -> b_at b + 8 <= w <= b_at b + b_size b ->
    m' !! w = m !! w.

(** ** Tags and changes of the memory *)
Lemma tags_frame m m' L :
  Forall (tag m) L ->
  (forall b, b ∈ L -> m' !! (b_at b + 4) = m !! (b_at b + 4)) ->
  (forall b, b ∈ L -> b_used b = false -> m' !! (b_at b + b_size b) = m !! (b_at b + b_size b)) ->
  Forall (tag m') L.
Proof.
  rewrite !Forall_forall. intros Ht H1 H2 b Hb. destruct (Ht b Hb) as [T1 T2].
  split; [by rewrite H1|]. intros Hu. rewrite H2 by done. auto.
Qed.

(** ** The invariant *)
Definition sizes_ok (page min : Z) (bs : list (Z * bool)) : Prop :=
  Forall (fun b => min <= b.1 /\ b.1 mod page = 0) bs.

Definition free_total (bs : list (Z * bool)) : Z := total (filter (fun b => b.2 = false) bs).
Definition used_number (bs : list (Z * bool)) : Z :=
  Z.of_nat (length (filter (fun b => b.2 = true) bs)).

(** What the control says of the area and its pages. *)
Record heap_area (c : Heap_Control) (heap : Z) : Prop := {
  ha_page : 8 <= page_size c /\ page_size c mod 8 = 0;
  ha_min : 16 <= min_block_size c /\ page_size c <= min_block_size c /\
    min_block_size c mod page_size c = 0;
  ha_first : 0 < first_block c /\ (first_block c + 8) mod page_size c = 0;
  ha_space : first_block c + min_block_size c <= last_block c /\ last_block c + 8 < 2 ^ 32;
  ha_apart : heap + 16 <= first_block c \/ last_block c + 8 <= heap
}.

(** The last block counts as used and closes the circle to the first. *)
Definition end_block (c : Heap_Control) : Z * bool :=
  (u32 (first_block c - last_block c), true).

Record heap_inv (heap : Z) (s : heap_state) (bs : list (Z * bool)) (fl : list Z) : Prop := {
  hi_area : heap_area (hp_control s) heap;
  hi_sizes : sizes_ok (page_size (hp_control s)) (min_block_size (hp_control s)) bs;
  hi_last : first_block (hp_control s) + total bs = last_block (hp_control s);
  hi_tags : Forall (tag (hp_words s))
    (placed (first_block (hp_control s)) true (bs ++ [end_block (hp_control s)]));
  hi_list : free_list (hp_words s) heap fl;
  hi_free : fl ≡ₚ free_at (placed (first_block (hp_control s)) true bs);
  hi_mapped : forall w, first_block (hp_control s) <= w <= last_block (hp_control s) + 4 ->
    w mod 4 = 0 -> is_Some (hp_words s !! w);
  hi_stat_size : hs_size (stats (hp_control s)) = total bs;
  hi_stat_free : free_size (stats (hp_control s)) = free_total bs;
  hi_stat_number : free_blocks (stats (hp_control s)) = Z.of_nat (length fl);
  hi_stat_used : used_blocks (stats (hp_control s)) = used_number bs
}.

Lemma sizes_large page min bs : 16 <= min -> sizes_ok page min bs -> large bs.
Proof. intros Hm Hs. eapply Forall_impl; [exact Hs|]. cbn. lia. Qed.

Lemma sizes_app page min l1 l2 :
  sizes_ok page min (l1 ++ l2) <-> sizes_ok page min l1 /\ sizes_ok page min l2.
Proof. apply Forall_app. Qed.

Lemma sizes_total page min bs : 0 < page -> sizes_ok page min bs -> total bs mod page = 0.
Proof.
  intros Hp. induction 1 as [|b bs [_ Hb] _ IH]; cbn; [by apply Z.mod_0_l; lia|].
  rewrite <- Z.add_mod_idemp_l, Hb by lia. done.
Qed.
