(* ===== verification/HeapRun.v ===== *)
(** * Running the heap operations on blocks

    Sizes with their flag, the accessors of a block whose tag is known, and
    how the tags and the free list of a heap survive the writes of an
    operation. *)

From stdpp Require Import base tactics numbers option list list_numbers gmap fin_maps.
From stdpp Require Import fin_map_dom fin_sets.
From Stdlib Require Import ZArith Lia.
From S2P Require Import Prelude Chain Objects Heap HeapList HeapBlocks.

Open Scope Z_scope.

(** ** A size and its flag *)
Definition even32 (sz : Z) : Prop := 0 <= sz < 2 ^ 32 /\ sz mod 2 = 0.

Lemma land_flag sz f : sz mod 2 = 0 -> Z.land (sz + b2z f) HEAP_PREV_BLOCK_USED = b2z f.
Proof.
  intros Hs. unfold HEAP_PREV_BLOCK_USED. change 1 with (Z.ones 1). rewrite Z.land_ones by lia.
  change (2 ^ 1) with 2. rewrite <- Z.add_mod_idemp_l, Hs by lia. by destruct f.
Qed.

Lemma land_size_mask sz f : even32 sz -> Z.land (sz + b2z f) HEAP_SIZE_MASK = sz.
Proof.
  intros [Hr Hs]. change HEAP_SIZE_MASK with (Z.shiftl (Z.ones 31) 1).
  assert (sz = 2 * (sz / 2)) as Hk by (apply Z.div_exact; lia). set (k := sz / 2) in *.
  assert (Z.land (sz + b2z f) (Z.shiftl (Z.ones 31) 1) =
    Z.land (Z.shiftl k 1) (Z.shiftl (Z.ones 31) 1)) as ->.
  { apply Z.bits_inj'. intros i Hi. rewrite !Z.land_spec, !Z.shiftl_spec by lia.
    destruct (Z.eq_dec i 0) as [-> |]; [by rewrite !andb_false_r|]. f_equal.
    replace i with (Z.succ (i - 1)) at 1 by lia.
    replace (sz + b2z f) with (2 * k + Z.b2z f) by (destruct f; cbn; lia).
    rewrite Z.testbit_succ_r by lia. f_equal. }
  rewrite <- Z.shiftl_land, Z.land_ones, Z.shiftl_mul_pow2 by lia.
  rewrite Z.mod_small; change (2 ^ 1) with 2; lia.
Qed.

Lemma lor_flag sz f : sz mod 2 = 0 -> Z.lor sz (b2z f) = sz + b2z f.
Proof.
  intros Hs. rewrite <- (Z.add_lor_land sz (b2z f)).
  replace (Z.land sz (b2z f)) with 0; [lia|]. destruct f; cbn [b2z]; [|by rewrite Z.land_0_r].
  change 1 with (Z.ones 1). rewrite Z.land_ones by lia. by change (2 ^ 1) with 2.
Qed.

Lemma lor_used sz f :
  sz mod 2 = 0 -> Z.lor (sz + b2z f) HEAP_PREV_BLOCK_USED = sz + b2z true.
Proof.
  intros Hs. rewrite <- (lor_flag sz f), <- Z.lor_assoc by done.
  rewrite <- (lor_flag sz true) by done. by destruct f.
Qed.

Lemma lor_new sz : sz mod 2 = 0 -> Z.lor sz HEAP_PREV_BLOCK_USED = sz + b2z true.
Proof. intros Hs. rewrite <- (lor_used sz false Hs). f_equal. cbn. lia. Qed.

Lemma even_page page sz : page mod 8 = 0 -> 0 < page -> sz mod page = 0 -> sz mod 2 = 0.
Proof.
  intros Hp Hpos Hs. apply Z.mod_divide in Hp; [|lia]. apply Z.mod_divide in Hs; [|lia].
  apply Z.mod_divide; [lia|]. destruct Hp as [p ->], Hs as [q ->]. exists (q * p * 4). lia.
Qed.

(** ** Accessors *)
Section Accessors.
Context {B : Type}.
Implicit Types s : heap_state.

Lemma ctl_bind {A} (f : Heap_Control -> A) (k : A -> cm heap_state B) s :
  (ctl f ≫= k) s = k (f (hp_control s)) s.
Proof. done. Qed.

Lemma upd_stats_bind f (k : unit -> cm heap_state B) s :
  (upd_stats f ≫= k) s =
  k tt (set_hp_control (set_stats (f (stats (hp_control s))) (hp_control s)) s).
Proof. done. Qed.

Lemma block_size_bind b sz f (k : Z -> cm heap_state B) s :
  hp_words s !! (b + 4) = Some (sz + b2z f) -> even32 sz ->
  (Heap_Block_size b ≫= k) s = k sz s.
Proof.
  intros Hw He. unfold Heap_Block_size, ld_size_and_flag. rewrite cm_bind_assoc.
  hstep Hw. rewrite ret_bind. by rewrite land_size_mask.
Qed.

Lemma prev_used_bind b sz f (k : bool -> cm heap_state B) s :
  hp_words s !! (b + 4) = Some (sz + b2z f) -> even32 sz ->
  (Heap_Is_prev_used b ≫= k) s = k f s.
Proof.
  intros Hw [_ He]. unfold Heap_Is_prev_used, ld_size_and_flag. rewrite cm_bind_assoc.
  hstep Hw. rewrite ret_bind, land_flag by done. by destruct f.
Qed.

Lemma is_used_bind b sz f nsz u (k : bool -> cm heap_state B) s :
  hp_words s !! (b + 4) = Some (sz + b2z f) -> even32 sz ->
  hp_words s !! (u32 (b + sz) + 4) = Some (nsz + b2z u) -> even32 nsz ->
  (Heap_Is_used b ≫= k) s = k u s.
Proof.
  intros Hw He Hn Hne. unfold Heap_Is_used. rewrite cm_bind_assoc.
  rewrite (block_size_bind b sz f) by done. by apply (prev_used_bind _ nsz).
Qed.

Lemma is_free_bind b sz f nsz u (k : bool -> cm heap_state B) s :
  hp_words s !! (b + 4) = Some (sz + b2z f) -> even32 sz ->
  hp_words s !! (u32 (b + sz) + 4) = Some (nsz + b2z u) -> even32 nsz ->
  (Heap_Is_free b ≫= k) s = k (negb u) s.
Proof.
  intros Hw He Hn Hne. unfold Heap_Is_free. rewrite cm_bind_assoc.
  by rewrite (is_used_bind b sz f nsz u).
Qed.

Lemma set_size_bind b sz f sz' (k : unit -> cm heap_state B) s :
  hp_words s !! (b + 4) = Some (sz + b2z f) -> even32 sz -> sz' mod 2 = 0 ->
  (Heap_Block_set_size b sz' ≫= k) s =
  k tt (set_hp_words (<[b + 4 := sz' + b2z f]> (hp_words s)) s).
Proof.
  intros Hw [_ He] He'. unfold Heap_Block_set_size, ld_size_and_flag, st_size_and_flag.
  rewrite cm_bind_assoc. hstep Hw. rewrite land_flag, lor_flag by done.
  by rewrite hst_bind by (by eexists).
Qed.

Lemma in_heap_bind b (k : bool -> cm heap_state B) s :
  (Heap_Is_block_in_heap b ≫= k) s =
  k ((first_block (hp_control s) <=? b) && (b <=? last_block (hp_control s))) s.
Proof. done. Qed.

Lemma align_down_bind v al (k : Z -> cm heap_state B) s :
  al <> 0 -> (lift (Heap_Align_down v al) ≫= k) s = k (v - v mod al) s.
Proof.
  intros Ha. apply lift_bind. unfold Heap_Align_down. by rewrite (proj2 (Z.eqb_neq _ _) Ha).
Qed.

Lemma align_up_bind v al (k : Z -> cm heap_state B) s :
  al <> 0 -> (lift (Heap_Align_up v al) ≫= k) s =
  k (if v mod al =? 0 then v else u32 (v - v mod al + al)) s.
Proof.
  intros Ha. apply lift_bind. unfold Heap_Align_up. by rewrite (proj2 (Z.eqb_neq _ _) Ha).
Qed.

Lemma block_of_bind p page (k : Z -> cm heap_state B) s :
  page <> 0 -> (lift (Heap_Block_of_alloc_area p page) ≫= k) s = k (u32 (p - p mod page - 8)) s.
Proof.
  intros Ha. apply lift_bind. unfold Heap_Block_of_alloc_area, Heap_Align_down.
  by rewrite (proj2 (Z.eqb_neq _ _) Ha).
Qed.

End Accessors.

(** ** Alignment *)
Definition aup (v page : Z) : Z := if v mod page =? 0 then v else v - v mod page + page.

Lemma aup_spec v page :
  0 < page -> v <= aup v page < v + page /\ aup v page mod page = 0 /\
  forall x, x mod page = 0 -> v <= x -> aup v page <= x.
Proof.
  intros Hp. unfold aup. pose proof (Z.mod_pos_bound v page Hp) as Hr.
  pose proof (Z.div_mod v page ltac:(lia)) as Hd.
  destruct (Z.eqb_spec (v mod page) 0) as [Hz|Hz]; (split; [lia|]); (split; [|]).
  - done.
  - lia.
  - replace (v - v mod page + page) with ((v / page + 1) * page) by nia. by apply Z.mod_mul; lia.
  - intros x Hx Hv. apply Z.mod_divide in Hx as [q ->]; [|lia].
    assert (v / page < q) by nia. nia.
Qed.

Lemma aup_bind {B} v page (k : Z -> cm heap_state B) s :
  0 < page -> 0 <= v -> aup v page < 2 ^ 32 ->
  (lift (Heap_Align_up v page) ≫= k) s = k (aup v page) s.
Proof.
  intros Hp Hv Hr. rewrite align_up_bind by lia. unfold aup in *.
  pose proof (aup_spec v page Hp) as [? _]. unfold aup in *.
  destruct (v mod page =? 0); [done|]. by rewrite u32_id by lia.
Qed.

Lemma mod_sub page a b : 0 < page -> a mod page = 0 -> b mod page = 0 -> (a - b) mod page = 0.
Proof.
  intros Hp [p ->]%Z.mod_divide [q ->]%Z.mod_divide; [|lia..].
  rewrite <- Z.mul_sub_distr_r. by apply Z.mod_mul; lia.
Qed.

Lemma mod_add page a b : 0 < page -> a mod page = 0 -> b mod page = 0 -> (a + b) mod page = 0.
Proof.
  intros Hp [p ->]%Z.mod_divide [q ->]%Z.mod_divide; [|lia..].
  rewrite <- Z.mul_add_distr_r. by apply Z.mod_mul; lia.
Qed.

Lemma mod_page4 page x : page mod 8 = 0 -> 0 < page -> x mod page = 0 -> x mod 4 = 0.
Proof.
  intros [p ->]%Z.mod_divide Hpos [q ->]%Z.mod_divide; [|lia..].
  replace (q * (p * 8)) with (q * p * 2 * 4) by lia. by apply Z.mod_mul.
Qed.

(** ** Splitting a block *)

(** A block of the size [sz] at [a] and what follows it: another block, which
    is used. *)
Record at_block (m : words) (a sz : Z) (pu : bool) (nsz : Z) (f : bool) : Prop := {
  ab_size : m !! (a + 4) = Some (sz + b2z pu);
  ab_next : m !! (a + sz + 4) = Some (nsz + b2z f);
  ab_even : even32 nsz;
  ab_used : exists nnsz, m !! (u32 (a + sz + nsz) + 4) = Some (nnsz + b2z true) /\ even32 nnsz;
  ab_mapped : forall w, a <= w <= a + sz + 4 -> w mod 4 = 0 -> is_Some (m !! w)
}.

Definition used_size (min alloc : Z) : Z := Z.max alloc (min - 8) + 8.

(** The blocks a split leaves. *)
Definition split_blocks (page min sz alloc : Z) : list (Z * bool) :=
  if min <=? sz - used_size min alloc
  then [(aup (used_size min alloc) page, true); (sz - aup (used_size min alloc) page, false)]
  else [(sz, true)].

(** The size of the used one of them. *)
Definition split_used (page min sz alloc : Z) : Z :=
  if min <=? sz - used_size min alloc then aup (used_size min alloc) page else sz.

Definition split_list (page min a sz alloc : Z) (f1 f2 : list Z) : list Z :=
  if min <=? sz - used_size min alloc
  then f1 ++ (a + aup (used_size min alloc) page) :: f2 else f1 ++ f2.

Definition split_stats (page min sz alloc : Z) (t : Heap_Statistics) : Heap_Statistics :=
  if min <=? sz - used_size min alloc
  then stat_free_blocks (fun x => u32 (x + 1))
         (stat_free_size (fun x => u32 (x + (sz - aup (used_size min alloc) page))) t)
  else t.

Lemma split_facts page min sz alloc :
  0 < page -> 16 <= min -> page <= min -> min mod page = 0 -> sz mod page = 0 -> min <= sz ->
  0 <= alloc -> alloc + 4 <= sz ->
  let us := used_size min alloc in
  16 <= us /\ min <= us <= sz + 4 /\ alloc + 8 <= us /\
  (min <= sz - us -> us <= aup us page <= sz - min /\ aup us page mod page = 0 /\
     min <= aup us page /\ (sz - aup us page) mod page = 0).
Proof.
  intros Hp H16 Hpm Hmp Hsp Hms Ha Hs us. unfold us, used_size in *.
  split; [lia|]. split; [lia|]. split; [lia|]. intros Hlim.
  destruct (aup_spec (Z.max alloc (min - 8) + 8) page Hp) as (Hb & Hm & Hleast).
  assert (aup (Z.max alloc (min - 8) + 8) page <= sz - min).
  { apply Hleast; [|lia]. by apply mod_sub. }
  split; [lia|]. split; [done|]. split; [lia|]. by apply mod_sub.
Qed.

(** Outside the region of a block and the links of the list nothing changes. *)
Definition region_frame (a e : Z) (nodes : list Z) (m m' : words) : Prop :=
  (forall w, (w <= a \/ e + 4 < w) -> ~ link_word nodes w -> m' !! w = m !! w) /\
  (forall w, is_Some (m !! w) -> is_Some (m' !! w)).

Lemma spread_insert (heap : Z) (f1 f2 : list Z) (y : Z) :
  spread (heap :: f1 ++ f2) ->
  (forall x, x ∈ heap :: f1 ++ f2 -> x + 16 <= y \/ y + 16 <= x) ->
  spread (heap :: f1 ++ y :: f2).
Proof.
  intros [Hnd Hs] Hy.
  assert (heap :: f1 ++ y :: f2 ≡ₚ y :: heap :: f1 ++ f2) as Hp.
  { rewrite <- Permutation_middle. apply Permutation_swap. }
  split.
  - rewrite Hp. apply NoDup_cons. split; [|done]. intros Hin. destruct (Hy y Hin); lia.
  - intros x z Hx Hz. rewrite Hp in Hx, Hz.
    apply elem_of_cons in Hx as [-> |Hx]; apply elem_of_cons in Hz as [-> |Hz].
    + by left.
    + destruct (Hy z Hz); lia.
    + destruct (Hy x Hx); lia.
    + by apply Hs.
Qed.

(** A write that is no link of the list. *)
Lemma free_list_insert m heap fl w v :
  free_list m heap fl -> ~ link_word (heap :: fl) w -> free_list (<[w := v]> m) heap fl.
Proof.
  intros Hl Hw. eapply linked_frame; [| |exact Hl]; intros x Hx; apply lookup_insert_ne;
    intros Heq; apply Hw; exists x; (split; [|lia]).
  - change (heap :: fl ++ [heap]) with ((heap :: fl) ++ [heap]) in Hx.
    by rewrite removelast_snoc in Hx.
  - cbn [tail] in Hx. rewrite elem_of_app, list_elem_of_singleton in Hx. in_list.
Qed.

Lemma elem_insert (heap x y : Z) (f1 f2 : list Z) :
  x ∈ heap :: f1 ++ y :: f2 -> x = y \/ x ∈ heap :: f1 ++ f2.
Proof. rewrite !elem_of_cons, !elem_of_app, elem_of_cons. tauto. Qed.

(** The nodes of the list stay clear of the block. *)
Definition clear_of (a e : Z) (nodes : list Z) : Prop :=
  forall x, x ∈ nodes -> x + 16 <= a \/ e + 8 <= x.

Section Split.
Context (heap : Z) (s : heap_state) (a sz : Z) (pu : bool) (nsz : Z) (f : bool).
Context (f1 f2 s1 : list Z) (anchor : Z).

Abbreviation c := (hp_control s).
Abbreviation page := (page_size c).
Abbreviation min := (min_block_size c).

Context (A : heap_area c heap) (B : at_block (hp_words s) a sz pu nsz f).
Context (Ha : 0 < a) (Hap : (a + 8) mod page = 0) (He : a + sz + 8 < 2 ^ 32).
Context (Hszp : sz mod page = 0) (Hmsz : min <= sz).
Context (Hl : free_list (hp_words s) heap (f1 ++ f2)) (Hs1 : heap :: f1 = s1 ++ [anchor]).
Context (Hsp : spread (heap :: f1 ++ f2)) (Hcl : clear_of a (a + sz) (heap :: f1 ++ f2)).

Lemma split_even : even32 sz /\ a mod 4 = 0 /\ (a + sz) mod 4 = 0.
Proof.
  destruct A as [[P8 P] [M16 _] _ _ _].
  assert (a mod 4 = 0) as H4.
  { apply (mod_page4 page _ P) in Hap; [|lia]. replace a with (a + 8 - 8) by lia. by apply mod_sub. }
  split; [split; [lia|by apply (even_page page); lia]|]. split; [done|].
  apply mod_add; [lia|done|by apply (mod_page4 page); [|lia|]].
Qed.

(** Whether there is room for another block. *)
Lemma split_enter alloc :
  0 <= alloc -> alloc + 4 <= sz -> let us := used_size min alloc in
  Heap_Block_split a anchor alloc s =
  if min <=? sz - us then split_off a anchor sz (aup us page) (a + sz) s
  else (v ← ld_size_and_flag (a + sz); st_size_and_flag (a + sz) (Z.lor v HEAP_PREV_BLOCK_USED)) s.
Proof.
  intros Hal Hals us. destruct A as [[P8 P] [M16 [PM MP]] _ _ _]. destruct split_even as [Hev _].
  destruct (split_facts page min sz alloc) as (U1 & U2 & U3 & U4); [lia..|]. fold us in U1, U2, U3, U4.
  unfold Heap_Block_split. rewrite !ctl_bind, (block_size_bind a sz pu) by (done || apply B).
  assert (u32 (Heap_Max alloc (u32 (min - HEAP_BLOCK_HEADER_SIZE)) + HEAP_BLOCK_HEADER_SIZE) = us)
    as ->.
  { unfold HEAP_BLOCK_HEADER_SIZE, Heap_Max. rewrite (u32_id (min - 8)) by lia.
    unfold us, used_size. destruct (Z.ltb_spec (min - 8) alloc); rewrite u32_id; lia. }
  rewrite align_up_bind by lia. unfold HEAP_ALLOC_BONUS.
  rewrite (u32_id (min + 4)) by lia. rewrite (u32_id (sz + 4 - us)) by lia.
  unfold Heap_Block_at. rewrite !(u32_id (a + sz)) by lia.
  destruct (Z.leb_spec min (sz - us)) as [Hlim|Hlim].
  - rewrite (proj2 (Z.leb_le _ _)) by lia. destruct (U4 Hlim) as (? & _).
    unfold aup in *. destruct (us mod page =? 0); [done|]. by rewrite u32_id by lia.
  - by rewrite (proj2 (Z.leb_gt _ _)) by lia.
Qed.

(** ** A block split off *)
Section Off.
Context (ubs : Z) (Hub : 16 <= ubs /\ ubs <= sz - 16) (Hubp : ubs mod page = 0).
Context (Hfp : (sz - ubs) mod page = 0).

Lemma off_even : even32 ubs /\ even32 (sz - ubs) /\ (a + ubs) mod 4 = 0.
Proof.
  destruct A as [[P8 P] _ _ _ _]. destruct split_even as (_ & H4 & _).
  split; [split; [lia|by apply (even_page page); lia]|].
  split; [split; [lia|by apply (even_page page); lia]|].
  apply mod_add; [lia|done|by apply (mod_page4 page); [|lia|]].
Qed.

(** Of the region only the links of the new block are in the list. *)
Lemma off_link w :
  a <= w <= a + sz + 4 -> w <> a + ubs + 8 -> w <> a + ubs + 12 ->
  ~ link_word (heap :: f1 ++ (a + ubs) :: f2) w.
Proof.
  intros Hw W1 W2 (x & Hx & Hxw). destruct (elem_insert _ _ _ _ _ Hx) as [-> |Hx']; [lia|].
  destruct (Hcl x Hx'); lia.
Qed.

Abbreviation m1 := (<[a + 4 := ubs + b2z pu]> (hp_words s)).

(** The next block stays used. *)
Lemma off_next_used :
  exists z, m1 !! (u32 (a + sz + nsz) + 4) = Some (z + b2z true) /\ even32 z.
Proof.
  destruct B as [Bsz _ _ (nnsz & Bnn & Bnne) _]. destruct off_even as (E1 & _).
  destruct split_even as ([_ Hev] & _).
  destruct (Z.eq_dec (u32 (a + sz + nsz)) a) as [Heq|Hneq].
  - rewrite Heq, lookup_insert_eq. rewrite Heq, Bsz in Bnn. injection Bnn as Bnn.
    destruct pu; [by exists ubs|]. cbn in Bnn. destruct Bnne as [_ Bnne].
    replace sz with (nnsz + 1) in Hev by lia. rewrite <- Z.add_mod_idemp_l, Bnne in Hev by lia. done.
  - rewrite lookup_insert_ne by lia. by exists nnsz.
Qed.

(** The writes after the new block is in the list. *)
Definition off_words (m2 : words) : words :=
  <[a + sz + 4 := nsz]> (<[a + sz := sz - ubs]> (<[a + ubs + 4 := sz - ubs + 1]> m2)).

Definition off_stats (t : Heap_Statistics) : Heap_Statistics :=
  stat_free_blocks (fun x => u32 (x + 1)) (stat_free_size (fun x => u32 (x + (sz - ubs))) t).

Lemma off_run :
  exists m2, changes (heap :: f1 ++ (a + ubs) :: f2) m1 m2 /\
    free_list m2 heap (f1 ++ (a + ubs) :: f2) /\
    split_off a anchor sz ubs (a + sz) s =
    Ok (tt, mk_heap_state (set_stats (off_stats (stats c)) c) (off_words m2)).
Proof.
  destruct B as [Bsz Bnx Bne _ Bmap]. destruct off_even as (E1 & E2 & H4).
  destruct split_even as (Hev & H4a & H4e). destruct off_next_used as (z & Hz & Hze).
  set (t1 := stat_free_size (fun x => u32 (x + (sz - ubs))) (stats c)).
  set (st1 := mk_heap_state (set_stats t1 c) m1).
  assert (forall w, a <= w <= a + sz + 4 -> w mod 4 = 0 -> is_Some (m1 !! w)) as Hm1.
  { intros w Hw Hw4. apply lookup_insert_is_Some'. right. by apply Bmap. }
  destruct (list_insert_after_run heap f1 f2 s1 anchor (a + ubs) st1) as (m2 & Hr2 & Hl2 & Hc2 & Hm2).
  { apply free_list_insert; [done|]. intros (x & Hx & Hxw). destruct (Hcl x Hx); lia. }
  { apply spread_insert; [done|]. intros x Hx. destruct (Hcl x Hx); lia. }
  { done. }
  { apply Hm1; [lia|by apply mod_add]. }
  { apply Hm1; [lia|by apply mod_add]. }
  exists m2. split; [by split|]. split; [done|].
  unfold split_off, Heap_Block_at. rewrite (u32_id (a + ubs)), (u32_id (sz - ubs)) by lia.
  rewrite (set_size_bind a sz pu) by (done || apply E1). rewrite upd_stats_bind.
  change (set_hp_control _ (set_hp_words _ s)) with st1.
  rewrite (is_used_bind (a + sz) nsz f z true); [|cbn; by rewrite lookup_insert_ne by lia|done..].
  rewrite cm_bind_assoc, (cm_bind_ok _ _ _ _ _ Hr2), cm_bind_assoc, upd_stats_bind, ret_bind.
  unfold st_size_and_flag, st_prev_size, ld_size_and_flag.
  rewrite hst_bind by (cbn; apply Hm2, Hm1; [lia|by apply mod_add]).
  rewrite hst_bind by (cbn; apply lookup_insert_is_Some'; right; apply Hm2, Hm1; [lia|done]).
  rewrite (lor_new (sz - ubs)) by apply E2. rewrite (hld_bind _ (nsz + b2z f)).
  2: { cbn. rewrite !lookup_insert_ne by lia. rewrite Hc2 by (apply off_link; lia).
       cbn. by rewrite lookup_insert_ne by lia. }
  rewrite land_size_mask by done. rewrite hst_run; [reflexivity|].
  cbn. rewrite !lookup_insert_is_Some'. right. right. apply Hm2, Hm1; [lia|by apply mod_add].
Qed.

Lemma off_words_ok m2 :
  changes (heap :: f1 ++ (a + ubs) :: f2) m1 m2 -> free_list m2 heap (f1 ++ (a + ubs) :: f2) ->
  let m' := off_words m2 in
  Forall (tag m') (placed a pu [(ubs, true); (sz - ubs, false)]) /\
  m' !! (a + sz + 4) = Some nsz /\ free_list m' heap (f1 ++ (a + ubs) :: f2) /\
  region_frame a (a + sz) (heap :: f1 ++ f2) (hp_words s) m' /\
  (forall w, a + 4 < w <= a + ubs -> m' !! w = hp_words s !! w).
Proof.
  intros [Hc2 Hm2] Hl2 m'.
  assert (forall w, a <= w <= a + sz + 4 -> w <> a + ubs + 8 -> w <> a + ubs + 12 ->
    m2 !! w = m1 !! w) as Hm21 by (intros w Hw W1 W2; by apply Hc2, off_link).
  unfold m', off_words. split; [|split; [|split; [|split]]].
  - constructor; [|constructor; [|constructor]]; (split; [|]); cbn.
    + rewrite !lookup_insert_ne, Hm21 by lia. apply lookup_insert_eq.
    + done.
    + by rewrite !lookup_insert_ne, lookup_insert_eq by lia.
    + intros _. split; [done|]. rewrite lookup_insert_ne by lia.
      replace (a + ubs + (sz - ubs)) with (a + sz) by lia. apply lookup_insert_eq.
  - apply lookup_insert_eq.
  - repeat apply free_list_insert; try done; apply off_link; lia.
  - split.
    + intros w Hw Hlw. rewrite !lookup_insert_ne by lia. rewrite Hc2; [apply lookup_insert_ne; lia|].
      intros (x & Hx & Hxw). destruct (elem_insert _ _ _ _ _ Hx) as [-> |Hx']; [lia|].
      apply Hlw. by exists x.
    + intros w Hw. rewrite !lookup_insert_is_Some'. do 3 right. apply Hm2, lookup_insert_is_Some'.
      by right.
  - intros w Hw. rewrite !lookup_insert_ne, Hm21 by lia. apply lookup_insert_ne. lia.
Qed.
End Off.

(** ** The split *)
Lemma split_run alloc :
  0 <= alloc -> alloc + 4 <= sz ->
  exists m', Heap_Block_split a anchor alloc s =
      Ok (tt, mk_heap_state (set_stats (split_stats page min sz alloc (stats c)) c) m') /\
    Forall (tag m') (placed a pu (split_blocks page min sz alloc)) /\
    m' !! (a + sz + 4) =
      Some (nsz + b2z (used_before pu (split_blocks page min sz alloc))) /\
    free_list m' heap (split_list page min a sz alloc f1 f2) /\
    region_frame a (a + sz) (heap :: f1 ++ f2) (hp_words s) m' /\
    (forall w, a + 4 < w <= a + split_used page min sz alloc -> m' !! w = hp_words s !! w).
Proof.
  intros Hal Hals. rewrite (split_enter alloc Hal Hals).
  destruct A as [[P8 P] [M16 [PM MP]] _ _ _].
  destruct (split_facts page min sz alloc) as (U1 & U2 & U3 & U4); [lia..|].
  unfold split_blocks, split_list, split_stats, split_used. set (us := used_size min alloc) in *.
  destruct (Z.leb_spec min (sz - us)) as [Hlim|Hlim].
  - destruct (U4 Hlim) as (V1 & V2 & V3 & V4). set (ubs := aup us page) in *.
    assert (16 <= ubs /\ ubs <= sz - 16) as Hub by lia.
    destruct (off_run ubs Hub V2 V4) as (m2 & Hc2 & Hl2 & Hr).
    destruct (off_words_ok ubs Hub m2 Hc2 Hl2) as (W1 & W2 & W3).
    exists (off_words ubs m2). split; [exact Hr|]. split; [exact W1|]. split; [|exact W3].
    rewrite W2. f_equal. cbn. lia.
  - destruct B as [Bsz Bnx [_ Bne] _ _]. unfold ld_size_and_flag, st_size_and_flag. hstep Bnx.
    rewrite hst_run, lor_used by (done || by eexists).
    eexists. split; [destruct s as [c0 ?]; by destruct c0|].
    split; [|split; [apply lookup_insert_eq|split; [|split]]].
    + constructor; [|constructor]. split; [|done]. cbn. by rewrite lookup_insert_ne by lia.
    + apply free_list_insert; [done|]. intros (x & Hx & Hxw). destruct (Hcl x Hx); lia.
    + split; [|intros w Hw; apply lookup_insert_is_Some'; by right].
      intros w Hw Hlw. apply lookup_insert_ne. lia.
    + intros w Hw. apply lookup_insert_ne. lia.
Qed.
End Split.
