(* ===== verification/HeapInv.v ===== *)
(** * Using and rebuilding the invariant of a heap

    What the invariant says of one block and its neighbours, and that an
    operation which rewrites the tags of a region of blocks and the links of
    the free list leaves a heap again. *)

From stdpp Require Import base tactics numbers option list list_numbers gmap fin_maps.
From stdpp Require Import fin_map_dom fin_sets.
From Stdlib Require Import ZArith Lia.
From S2P Require Import Prelude Chain Objects Heap HeapList HeapBlocks HeapRun.

Open Scope Z_scope.

Section Inv.
Context (heap : Z).
Context (s : heap_state) (bs : list (Z * bool)) (fl : list Z).
Context (I : heap_inv heap s bs fl).

Abbreviation c := (hp_control s).
Abbreviation page := (page_size c).
Abbreviation min := (min_block_size c).
Abbreviation first := (first_block c).
Abbreviation last := (last_block c).
Abbreviation all := (placed first true (bs ++ [end_block c])).

Lemma inv_large : large bs.
Proof.
  destruct I as [[_ [? _] _ _ _] Hs _ _ _ _ _ _ _ _ _]. by eapply sizes_large.
Qed.

Lemma inv_total : min <= total bs < 2 ^ 32 /\ total bs mod page = 0.
Proof.
  destruct I as [[[? ?] _ [? ?] [? ?] _] Hs Hl _ _ _ _ _ _ _ _]. split; [lia|].
  eapply sizes_total; [lia|exact Hs].
Qed.

Lemma all_split : all = placed first true bs ++ placed last (used_before true bs) [end_block c].
Proof. rewrite placed_app. by rewrite (hi_last _ _ _ _ I). Qed.

(** Every block is a real one or the last. *)
Lemma all_cases b :
  b ∈ all -> b ∈ placed first true bs \/
    b = mk_block last (u32 (first - last)) (used_before true bs) true.
Proof.
  rewrite all_split, elem_of_app. intros [?|Hb]; [by left|]. right.
  by apply list_elem_of_singleton in Hb.
Qed.

Lemma all_real b : b ∈ placed first true bs -> b ∈ all.
Proof. intros Hb. rewrite all_split, elem_of_app. by left. Qed.

Lemma real_bounds b :
  b ∈ placed first true bs ->
  first <= b_at b /\ b_at b + b_size b <= last /\ min <= b_size b /\ b_size b mod page = 0 /\
  (b_at b + 8) mod page = 0.
Proof.
  intros Hb. pose proof (placed_bounds _ _ _ _ inv_large Hb) as (H1 & H2 & _).
  rewrite (hi_last _ _ _ _ I) in H2.
  destruct (placed_split _ _ _ _ Hb) as (l1 & l2 & Hbs & Hat & _).
  pose proof (hi_sizes _ _ _ _ I) as Hs. rewrite Hbs in Hs.
  apply sizes_app in Hs as [Hs1 Hs2]. apply Forall_cons in Hs2 as [[? ?] _].
  destruct (hi_area _ _ _ _ I) as [[? ?] _ [_ Hf] _ _]. do 4 (split; [done|]).
  rewrite Hat. replace (first + total l1 + 8) with (first + 8 + total l1) by lia.
  apply mod_add; [lia|done|]. eapply sizes_total; [lia|exact Hs1].
Qed.

Lemma all_even b : b ∈ all -> even32 (b_size b).
Proof.
  destruct (hi_area _ _ _ _ I) as [[? ?] [? _] [? ?] [? ?] _]. intros [Hb| ->]%all_cases.
  - apply real_bounds in Hb as (? & ? & ? & ? & _). split; [lia|]. apply (even_page page); [done|lia|done].
  - pose proof inv_total as [? Ht]. pose proof (hi_last _ _ _ _ I). cbn.
    unfold u32. split; [apply Z.mod_pos_bound; lia|].
    assert (total bs mod 2 = 0) as He by (apply (even_page page); [done|lia|done]).
    replace (first - last) with (- total bs) by lia.
    rewrite Z.mod_opp_l_nz by (rewrite ?Z.mod_small; lia).
    rewrite (Z.mod_small (total bs)) by lia.
    apply mod_sub; [lia|done|done].
Qed.

Lemma all_word b : b ∈ all -> hp_words s !! (b_at b + 4) = Some (b_size b + b2z (b_prev b)).
Proof. intros Hb. pose proof (hi_tags _ _ _ _ I) as Ht. rewrite Forall_forall in Ht. by apply Ht. Qed.

Lemma all_free b :
  b ∈ all -> b_used b = false ->
  b_prev b = true /\ hp_words s !! (b_at b + b_size b) = Some (b_size b).
Proof. intros Hb. pose proof (hi_tags _ _ _ _ I) as Ht. rewrite Forall_forall in Ht. by apply Ht. Qed.

(** The block after a block, where the circle closes behind the last. *)
Lemma all_next b :
  b ∈ all -> exists nb, nb ∈ all /\ b_at nb = u32 (b_at b + b_size b) /\ b_prev nb = b_used b.
Proof.
  intros Hb. destruct (hi_area _ _ _ _ I) as [_ [? _] [? ?] [? ?] _].
  destruct (all_cases b Hb) as [Hr| ->].
  - destruct (placed_split _ _ _ _ Hr) as (l1 & l2 & Hbs & Hat & _).
    pose proof (real_bounds b Hr) as (? & ? & ? & _).
    destruct (l2 ++ [end_block c]) as [|[nsz nu] l3] eqn:El; [by destruct l2|].
    exists (mk_block (b_at b + b_size b) nsz (b_used b) nu). cbn.
    rewrite u32_id by lia. split; [|done].
    rewrite Hbs, <- app_assoc. cbn [app]. rewrite El, placed_app. apply elem_of_app. right.
    cbn. rewrite <- Hat. right. left.
  - assert (exists sz u bs', bs = (sz, u) :: bs') as (sz & u & bs' & Ebs).
    { pose proof inv_total as [Ht _]. revert Ht. destruct bs as [|[sz u] bs']; [cbn; lia|].
      intros _. by exists sz, u, bs'. }
    exists (mk_block first sz true u). cbn. split; [rewrite Ebs; left|]. split; [|done].
    unfold u32. rewrite Z.add_mod_idemp_r by lia.
    replace (last + (first - last)) with first by lia. rewrite Z.mod_small; lia.
Qed.

(** Two different blocks, and a block and the list. *)
Lemma all_apart b1 b2 :
  b1 ∈ placed first true bs -> b2 ∈ all ->
  b1 = b2 \/ b_at b1 + b_size b1 <= b_at b2 \/ b_at b2 + 16 <= b_at b1.
Proof.
  intros H1 [H2| ->]%all_cases.
  - destruct (placed_apart _ _ _ _ _ inv_large H1 H2) as [?|[?|?]]; [auto|auto|].
    apply placed_bounds in H2; [|exact inv_large]. lia.
  - apply real_bounds in H1 as (? & ? & _). cbn. lia.
Qed.

Lemma free_block x :
  x ∈ fl <-> exists b, b ∈ placed first true bs /\ b_at b = x /\ b_used b = false.
Proof. rewrite (hi_free _ _ _ _ I). apply free_at_elem. Qed.

Lemma not_link b : b ∈ all -> ~ link_word (heap :: fl) (b_at b) /\ ~ link_word (heap :: fl) (b_at b + 4).
Proof.
  intros Hb.
  assert (forall x, x ∈ heap :: fl -> x = b_at b \/ x + 16 <= b_at b \/ b_at b + 8 <= x) as Hx.
  { intros x [-> |Hx]%elem_of_cons.
    - destruct (hi_area _ _ _ _ I) as [_ [? _] _ [? _] Hap].
      destruct (all_cases b Hb) as [(? & ? & _)%real_bounds| ->]; [|cbn]; [|lia].
      pose proof (all_even b Hb) as [? _]. lia.
    - apply free_block in Hx as (b' & Hb' & <- & _).
      pose proof (real_bounds b' Hb') as (_ & _ & ? & _).
      destruct (hi_area _ _ _ _ I) as [_ [? _] _ _ _].
      destruct (all_apart b' b Hb' Hb) as [-> |[?|?]]; lia. }
  split; intros (x & Hx' & Hw); destruct (Hx x Hx'); lia.
Qed.

Lemma list_spread : spread (heap :: fl).
Proof.
  destruct (hi_area _ _ _ _ I) as [_ [? _] _ _ Hap].
  assert (forall x, x ∈ fl -> first <= x /\ x + 16 <= last) as Hx.
  { intros x (b & Hb & <- & _)%free_block. apply real_bounds in Hb as (? & ? & ? & _). lia. }
  split.
  - apply NoDup_cons. split; [intros Hh%Hx; lia|].
    rewrite (hi_free _ _ _ _ I). apply free_at_NoDup, inv_large.
  - intros x y [-> |H1]%elem_of_cons [-> |H2]%elem_of_cons.
    + by left.
    + apply Hx in H2. lia.
    + apply Hx in H1. lia.
    + apply free_block in H1 as (b1 & Hb1 & <- & _). apply free_block in H2 as (b2 & Hb2 & <- & _).
      pose proof (real_bounds _ Hb1) as (_ & _ & ? & _).
      destruct (all_apart b1 b2 Hb1 (all_real _ Hb2)) as [-> |[?|?]]; lia.
Qed.

(** The data of a used block are no links of the list. *)
Lemma data_not_link b w :
  b ∈ placed first true bs -> b_used b = true -> b_at b + 8 <= w <= b_at b + b_size b ->
  ~ link_word (heap :: fl) w.
Proof.
  intros Hb Hu Hw. destruct (hi_area _ _ _ _ I) as [_ [? _] _ [? _] Hap].
  pose proof (real_bounds b Hb) as (? & ? & ? & _).
  intros (x & [-> |Hx]%elem_of_cons & Hxw); [lia|].
  apply free_block in Hx as (b' & Hb' & <- & Hu').
  pose proof (real_bounds b' Hb') as (_ & _ & ? & _).
  destruct (placed_apart _ _ _ _ _ inv_large Hb Hb') as [-> |[?|?]]; [congruence|lia|lia].
Qed.

(** The tags outside the region [a, e] survive. *)
Section Outside.
Context (nodes : list Z) (a e : Z) (m' : words).
Context (Hrf : region_frame a e nodes (hp_words s) m').
Context (Hn : forall x, x ∈ nodes -> x = heap \/ x ∈ fl \/ a <= x /\ x + 16 <= e).

Lemma word_outside w :
  w <= a \/ e + 4 < w -> ~ link_word (heap :: fl) w -> m' !! w = hp_words s !! w.
Proof.
  destruct Hrf as [Hfr _]. intros Hw Hlw. apply Hfr; [done|]. intros (x & Hx & Hxw).
  destruct (Hn x Hx) as [-> |[Hx'|Hx']].
  - apply Hlw. exists heap. split; [left|done].
  - apply Hlw. exists x. split; [by right|done].
  - lia.
Qed.

Lemma prev_size_outside b :
  b ∈ all -> b_used b = false -> b_at b + b_size b <= a \/ e + 4 < b_at b + b_size b ->
  m' !! (b_at b + b_size b) = Some (b_size b).
Proof.
  intros Hb Hu Hout. destruct (all_free b Hb Hu) as [_ Hw].
  destruct (all_next b Hb) as (nb & Hnb & Hat & _).
  destruct (all_cases b Hb) as [Hr| ->]; [|done].
  pose proof (real_bounds b Hr) as (? & ? & ? & _).
  destruct (hi_area _ _ _ _ I) as [_ [? _] [? _] [? ?] _].
  rewrite u32_id in Hat by lia. rewrite word_outside; [done|done|]. rewrite <- Hat. by apply not_link.
Qed.

Lemma tag_outside b :
  b ∈ all -> b_at b + 4 <= a \/ e < b_at b ->
  (b_used b = false -> b_at b + b_size b <= a \/ e + 4 < b_at b + b_size b) -> tag m' b.
Proof.
  intros Hb Hout Hout2. split.
  - rewrite word_outside; [by apply all_word|lia|by apply not_link].
  - intros Hu. split; [by apply all_free|]. apply prev_size_outside; auto.
Qed.

(** The data of the used blocks outside the region survive. *)
Lemma data_outside b w :
  b ∈ placed first true bs -> b_used b = true -> b_at b + b_size b <= a \/ e <= b_at b ->
  b_at b + 8 <= w <= b_at b + b_size b -> m' !! w = hp_words s !! w.
Proof. intros Hb Hu Hout Hw. apply word_outside; [lia|by apply (data_not_link b)]. Qed.
End Outside.

(** The data of the used blocks around a region. *)
Lemma region_keeps l1 mid l2 nodes m' :
  bs = l1 ++ mid ++ l2 ->
  let a := first + total l1 in
  let e := a + total mid in
  region_frame a e nodes (hp_words s) m' ->
  (forall x, x ∈ nodes -> x = heap \/ x ∈ fl \/ a <= x /\ x + 16 <= e) ->
  keeps (hp_words s) m' (placed first true l1) /\
  forall pu, keeps (hp_words s) m' (placed e pu l2).
Proof.
  intros Hbs a e Hrf Hn. pose proof inv_large as Hl. rewrite Hbs in Hl.
  apply Forall_app in Hl as [L1 L2]. apply Forall_app in L2 as [_ L2].
  assert (placed first true bs = placed first true l1 ++
    placed a (used_before true l1) mid ++ placed e (used_before (used_before true l1) mid) l2) as Ep
    by (by rewrite Hbs, !placed_app).
  split.
  - intros b w Hb Hu Hw. apply (data_outside nodes a e m' Hrf Hn b); [|done| |done].
    + rewrite Ep. in_list.
    + apply placed_bounds in Hb; [lia|done].
  - intros pu b w Hb Hu Hw.
    assert (exists b', b' ∈ placed first true bs /\ b_at b' = b_at b /\ b_size b' = b_size b /\
      b_used b' = true) as (b' & Hb' & E1 & E2 & E3).
    { apply used_at_elem. rewrite Ep, !used_at_app. apply elem_of_app. right. apply elem_of_app.
      right. rewrite (used_at_placed _ _ pu). apply used_at_elem. eauto. }
    apply (data_outside nodes a e m' Hrf Hn b'); [done|done| |lia].
    apply placed_bounds in Hb; [lia|done].
Qed.

(** The blocks [mid] become [mid']. *)
Lemma inv_rebuild l1 mid l2 mid' fl' nodes t m' :
  bs = l1 ++ mid ++ l2 ->
  let a := first + total l1 in
  let e := a + total mid in
  let pu := used_before true l1 in
  total mid' = total mid -> sizes_ok page min mid' ->
  Forall (tag m') (placed a pu mid') ->
  (forall nsz nu l3, l2 ++ [end_block c] = (nsz, nu) :: l3 ->
     m' !! (e + 4) = Some (nsz + b2z (used_before pu mid')) /\
     (nu = false -> used_before pu mid' = true)) ->
  region_frame a e nodes (hp_words s) m' ->
  (forall x, x ∈ nodes -> x = heap \/ x ∈ fl \/ a <= x /\ x + 16 <= e) ->
  free_list m' heap fl' -> fl' ≡ₚ free_at (placed first true (l1 ++ mid' ++ l2)) ->
  hs_size t = hs_size (stats c) -> free_size t = free_total (l1 ++ mid' ++ l2) ->
  free_blocks t = Z.of_nat (length fl') -> used_blocks t = used_number (l1 ++ mid' ++ l2) ->
  heap_inv heap (mk_heap_state (set_stats t c) m') (l1 ++ mid' ++ l2) fl'.
Proof.
  intros Hbs a e pu Htot Hsz Htag Hnext Hrf Hnodes Hfl Hperm T1 T2 T3 T4.
  pose proof (hi_sizes _ _ _ _ I) as Hs. rewrite Hbs in Hs.
  apply sizes_app in Hs as [Hs1 Hs2]. apply sizes_app in Hs2 as [Hs2 Hs3].
  destruct (hi_area _ _ _ _ I) as [? [H16 ?] [? ?] [? ?] ?].
  pose proof (sizes_large _ _ _ H16 Hs1) as L1. pose proof (sizes_large _ _ _ H16 Hs3) as L3.
  assert (total (l1 ++ mid' ++ l2) = total bs) as Htb by (rewrite Hbs, !total_app; lia).
  assert (first + total (l1 ++ mid ++ l2) = last) as Hlast by (rewrite <- Hbs; apply I).
  rewrite !total_app in Hlast.
  assert (exists nsz nu l3, l2 ++ [end_block c] = (nsz, nu) :: l3) as (nsz & nu & l3 & E2).
  { destruct l2 as [|[sz2 u2] l2]; by eexists _, _, _. }
  destruct (Hnext nsz nu l3 E2) as [Hw Hnu].
  assert (all = placed first true l1 ++ placed a pu mid ++
    mk_block e nsz (used_before pu mid) nu :: placed (e + nsz) nu l3) as Eall.
  { rewrite Hbs, <- !app_assoc, E2, !placed_app. done. }
  assert (forall b, b ∈ placed (e + nsz) nu l3 -> e + 16 <= b_at b) as Hl3.
  { intros b Hb. destruct l2 as [|[sz2 u2] l2]; cbn in E2; injection E2 as <- <- <-.
    - by apply elem_of_nil in Hb.
    - apply Forall_cons in L3 as [Hz L3]. cbn in Hz. rewrite placed_app in Hb.
      pose proof (total_nonneg _ L3).
      apply elem_of_app in Hb as [Hb|Hb%list_elem_of_singleton].
      + apply placed_bounds in Hb; [lia|done].
      + subst b. cbn. lia. }
  split; cbn [hp_control hp_words set_stats page_size min_block_size first_block last_block stats].
  - by split.
  - apply sizes_app. split; [done|]. by apply sizes_app.
  - rewrite Htb. apply I.
  - change (end_block _) with (end_block c).
    rewrite <- !app_assoc, E2, !placed_app, !Forall_app. fold a. rewrite Htot. fold e.
    split; [|split; [done|]]; [|cbn [placed]; constructor].
    + rewrite Forall_forall. intros b Hb. pose proof (placed_bounds _ _ _ _ L1 Hb).
      eapply tag_outside; [exact Hrf|exact Hnodes|rewrite Eall; in_list|lia|lia].
    + split; [exact Hw|]. cbn. intros ->. split; [auto|].
      assert (mk_block e nsz (used_before pu mid) false ∈ all) as Hin by (rewrite Eall; in_list).
      destruct (all_cases _ Hin) as [Hr|Hr]; [|by injection Hr].
      apply (placed_bounds _ _ _ _ inv_large) in Hr as (_ & _ & Hr). cbn in Hr.
      apply (prev_size_outside nodes a e m' Hrf Hnodes _ Hin eq_refl). cbn. lia.
    + rewrite Forall_forall. intros b Hb. pose proof (Hl3 b Hb).
      eapply tag_outside; [exact Hrf|exact Hnodes|rewrite Eall; in_list|lia|].
      intros _. right. assert (b ∈ all) as Hin by (rewrite Eall; in_list).
      apply all_even in Hin as [? _]. lia.
  - done.
  - done.
  - intros w Hw1 Hw2. apply Hrf. by apply I.
  - rewrite T1, Htb. apply I.
  - done.
  - done.
  - done.
Qed.

End Inv.
