(* ===== verification/HeapAlloc.v ===== *)
(** * Allocation from a heap

    [_Heap_Block_allocate] on a free block, from its begin or from its end, the
    choice of the place in a block under alignment and boundary constraints,
    and the search along the free list. *)

From stdpp Require Import base tactics numbers option list list_numbers gmap fin_maps.
From stdpp Require Import fin_map_dom fin_sets.
From Stdlib Require Import ZArith Lia.
From S2P Require Import Prelude Chain Objects Heap HeapList HeapBlocks HeapRun HeapInv.

Open Scope Z_scope.

(** ** Counting *)
Lemma free_at_placed a pu pu' bs : free_at (placed a pu bs) = free_at (placed a pu' bs).
Proof. destruct bs as [|[sz []] bs]; done. Qed.

Lemma free_at_cons a pu sz (u : bool) bs :
  free_at (placed a pu ((sz, u) :: bs)) =
  (if u then [] else [a]) ++ free_at (placed (a + sz) u bs).
Proof. by destruct u. Qed.

Lemma free_total_app l1 l2 : free_total (l1 ++ l2) = free_total l1 + free_total l2.
Proof. unfold free_total. by rewrite filter_app, total_app. Qed.

Lemma used_number_app l1 l2 : used_number (l1 ++ l2) = used_number l1 + used_number l2.
Proof. unfold used_number. rewrite filter_app, length_app. lia. Qed.

Lemma free_total_cons sz (u : bool) bs :
  free_total ((sz, u) :: bs) = (if u then 0 else sz) + free_total bs.
Proof. by destruct u. Qed.

Lemma used_number_cons sz (u : bool) bs : used_number ((sz, u) :: bs) = b2z u + used_number bs.
Proof.
  unfold used_number. rewrite filter_cons. destruct u;
    [rewrite decide_True by done|rewrite decide_False by done]; cbn [length b2z]; lia.
Qed.

Lemma number_bound bs : large bs -> 16 * Z.of_nat (length bs) <= total bs.
Proof. induction 1 as [|b bs Hb _ IH]; cbn [length total]; lia. Qed.

Lemma free_bounds a pu bs :
  large bs -> 0 <= free_total bs <= total bs /\
  Z.of_nat (length (free_at (placed a pu bs))) <= Z.of_nat (length bs) /\
  0 <= used_number bs <= Z.of_nat (length bs).
Proof.
  intros Hl. revert a pu. induction Hl as [|[sz u] bs Hb Hl IH]; intros a pu.
  { unfold free_total, used_number. cbn. lia. }
  destruct (IH (a + sz) u) as (? & ? & ?). rewrite free_at_cons, length_app, free_total_cons.
  rewrite used_number_cons. cbn [total length fst] in *. destruct u; cbn [length b2z]; lia.
Qed.

(** ** Taking a block off the list *)
Definition take_stats (sz : Z) (t : Heap_Statistics) : Heap_Statistics :=
  stat_free_size (fun x => u32 (x - sz))
    (stat_used_blocks (fun x => u32 (x + 1)) (stat_free_blocks (fun x => u32 (x - 1)) t)).

Section Alloc.
Context (heap : Z).
Context (s : heap_state) (bs : list (Z * bool)) (fl : list Z).
Context (I : heap_inv heap s bs fl).

Abbreviation c := (hp_control s).
Abbreviation page := (page_size c).
Abbreviation min := (min_block_size c).
Abbreviation first := (first_block c).
Abbreviation last := (last_block c).
Abbreviation all := (placed first true (bs ++ [end_block c])).

Lemma take_run b f1 f2 :
  b ∈ placed first true bs -> b_used b = false -> fl = f1 ++ b_at b :: f2 ->
  exists m1 s1 anchor,
    block_take heap (b_at b) s =
      Ok (anchor, mk_heap_state (set_stats (take_stats (b_size b) (stats c)) c) m1) /\
    heap :: f1 = s1 ++ [anchor] /\ free_list m1 heap (f1 ++ f2) /\
    changes (heap :: f1 ++ f2) (hp_words s) m1.
Proof.
  intros Hb Hu Hfl. pose proof (all_real _ _ _ _ I b Hb) as Ha.
  destruct (all_next _ _ _ _ I b Ha) as (nb & Hnb & Hat & Hpu). rewrite Hu in Hpu.
  pose proof (all_word _ _ _ _ I b Ha) as Hw. pose proof (all_word _ _ _ _ I nb Hnb) as Hnw.
  pose proof (all_even _ _ _ _ I b Ha) as He. pose proof (all_even _ _ _ _ I nb Hnb) as Hne.
  rewrite Hat, Hpu in Hnw. pose proof (hi_list _ _ _ _ I) as Hl. rewrite Hfl in Hl.
  pose proof (list_spread _ _ _ _ I) as Hsp. rewrite Hfl in Hsp.
  destruct (list_before heap f1) as (s1 & anchor & Hs1).
  destruct (list_pair _ _ f1 (b_at b :: f2) s1 anchor (b_at b) (f2 ++ [heap]) Hl Hs1 eq_refl)
    as [_ Hanc].
  destruct (list_remove_run heap f1 (b_at b) f2 s Hl Hsp) as (m1 & Hr & Hl1 & Hc1 & Hm1).
  exists m1, s1, anchor. split; [|done].
  unfold block_take. rewrite (is_free_bind (b_at b) (b_size b) (b_prev b) (b_size nb) false) by done.
  cbn [negb]. unfold ld_prev at 1. hstep Hanc.
  rewrite (cm_bind_ok _ _ _ _ _ Hr), !upd_stats_bind.
  rewrite (block_size_bind (b_at b) (b_size b) (b_prev b)); [|cbn|done].
  - rewrite upd_stats_bind. done.
  - rewrite Hc1; [done|]. intros (x & Hx & Hxw). apply (proj2 (not_link _ _ _ _ I b Ha)).
    exists x. split; [|done]. rewrite Hfl. revert Hx. in_list.
Qed.

(** The list without the block stays clear of it. *)
Lemma clear_free b f1 f2 :
  b ∈ placed first true bs -> b_used b = false -> fl = f1 ++ b_at b :: f2 ->
  clear_of (b_at b) (b_at b + b_size b) (heap :: f1 ++ f2).
Proof.
  intros Hb Hu Hfl x Hx. pose proof (real_bounds _ _ _ _ I b Hb) as (? & ? & ? & _).
  destruct (hi_area _ _ _ _ I) as [_ [? _] [? ?] [? ?] Hap].
  apply elem_of_cons in Hx as [-> |Hx]; [lia|].
  assert (x <> b_at b) as Hne.
  { intros ->. pose proof (list_spread _ _ _ _ I) as [Hnd _]. rewrite Hfl in Hnd.
    apply NoDup_cons in Hnd as [_ Hnd]. apply NoDup_app in Hnd as (_ & Hd & Hf).
    apply NoDup_cons in Hf as [Hf _]. apply elem_of_app in Hx as [Hx|Hx]; [|done].
    apply (Hd _ Hx). left. }
  assert (x ∈ fl) as Hxf by (rewrite Hfl; revert Hx; in_list).
  apply (free_block _ _ _ _ I) in Hxf as (b' & Hb' & <- & Hu').
  destruct (all_apart _ _ _ _ I b b' Hb (all_real _ _ _ _ I _ Hb')) as [-> |[Hge|?]];
    [done| |by left].
  right. destruct (all_next _ _ _ _ I b (all_real _ _ _ _ I b Hb)) as (nb & Hnb & Hat & Hpu).
  rewrite u32_id in Hat by lia.
  destruct (all_apart _ _ _ _ I b' nb Hb' Hnb) as [-> |[?|?]].
  - exfalso. destruct (all_free _ _ _ _ I nb Hnb Hu') as [? _]. congruence.
  - pose proof (real_bounds _ _ _ _ I b' Hb') as (_ & _ & ? & _). lia.
  - lia.
Qed.

(** The block behind a free block is used. *)
Lemma behind_free b :
  b ∈ placed first true bs -> b_used b = false ->
  exists nb, nb ∈ all /\ b_at nb = b_at b + b_size b /\ b_used nb = true /\ b_prev nb = false.
Proof.
  intros Hb Hu. pose proof (all_real _ _ _ _ I b Hb) as Ha.
  pose proof (real_bounds _ _ _ _ I b Hb) as (? & ? & ? & _).
  destruct (hi_area _ _ _ _ I) as [_ [? _] [? ?] [? ?] _].
  destruct (all_next _ _ _ _ I b Ha) as (nb & Hnb & Hat & Hpu). rewrite Hu in Hpu.
  rewrite u32_id in Hat by lia. exists nb. do 2 (split; [done|]). split; [|done].
  destruct (b_used nb) eqn:E; [done|]. destruct (all_free _ _ _ _ I nb Hnb E). congruence.
Qed.

(** What a split needs of the memory, after the block was taken off the list. *)
Lemma taken_block b nb f1 f2 m1 :
  b ∈ placed first true bs -> b_used b = false -> fl = f1 ++ b_at b :: f2 ->
  nb ∈ all -> b_at nb = b_at b + b_size b -> b_used nb = true -> b_prev nb = false ->
  changes (heap :: f1 ++ f2) (hp_words s) m1 ->
  at_block m1 (b_at b) (b_size b) true (b_size nb) false.
Proof.
  intros Hb Hu Hfl Hnb Hat Hnu Hpu [Hc Hm]. pose proof (all_real _ _ _ _ I b Hb) as Ha.
  pose proof (real_bounds _ _ _ _ I b Hb) as (? & ? & ? & _).
  destruct (hi_area _ _ _ _ I) as [_ [? _] [? ?] [? ?] _].
  destruct (all_free _ _ _ _ I b Ha Hu) as [Hpb _].
  destruct (all_next _ _ _ _ I nb Hnb) as (nnb & Hnnb & Hat2 & Hpu2).
  assert (forall x, x ∈ all -> m1 !! (b_at x + 4) = hp_words s !! (b_at x + 4)) as Hsame.
  { intros x Hx. apply Hc. intros (y & Hy & Hyw). apply (proj2 (not_link _ _ _ _ I x Hx)).
    exists y. split; [|done]. rewrite Hfl. revert Hy. in_list. }
  split.
  - rewrite Hsame, <- Hpb by done. by apply (all_word _ _ _ _ I).
  - rewrite <- Hat, Hsame, <- Hpu by done. by apply (all_word _ _ _ _ I).
  - by apply (all_even _ _ _ _ I).
  - exists (b_size nnb). rewrite Hat in Hat2. rewrite <- Hat2, Hsame, <- Hnu, <- Hpu2 by done.
    split; [by apply (all_word _ _ _ _ I)|by apply (all_even _ _ _ _ I)].
  - intros w Hw1 Hw2. apply Hm, (hi_mapped _ _ _ _ I); [lia|done].
Qed.

(** The blocks of a split: their sizes, and what the statistics count. *)
Lemma split_blocks_facts a pu sz n f1 f2 t :
  sz mod page = 0 -> min <= sz -> 0 <= n -> n + 4 <= sz ->
  let sb := split_blocks page min sz n in
  let t' := split_stats page min sz n t in
  total sb = sz /\ sizes_ok page min sb /\ used_number sb = 1 /\ 0 <= free_total sb <= sz /\
  (exists usz, used_at (placed a pu sb) = [(a, usz)] /\ n + 4 <= usz <= sz) /\
  split_list page min a sz n f1 f2 ≡ₚ f1 ++ free_at (placed a pu sb) ++ f2 /\
  hs_size t' = hs_size t /\ used_blocks t' = used_blocks t /\
  (0 <= free_size t -> free_size t + sz < 2 ^ 32 -> free_size t' = free_size t + free_total sb) /\
  (0 <= free_blocks t -> free_blocks t < 2 ^ 31 ->
   free_blocks t' = free_blocks t + Z.of_nat (length (free_at (placed a pu sb)))).
Proof.
  intros Hsp Hms Hn Hns. destruct (hi_area _ _ _ _ I) as [[? ?] [? [? ?]] _ _ _].
  destruct (split_facts page min sz n) as (F1 & F2 & F3 & F4); [lia..|done|done|done|lia|lia|].
  unfold split_blocks, split_list, split_stats. set (us := used_size min n) in *.
  destruct (Z.leb_spec min (sz - us)) as [Hl|Hl].
  - destruct (F4 Hl) as (F5 & F6 & F7 & F8). set (ubs := aup us page) in *.
    cbn [total]. split; [cbn; lia|]. split; [repeat constructor; cbn; (lia || done)|].
    split; [done|]. split; [rewrite !free_total_cons; change (free_total []) with 0; cbn; lia|].
    split; [exists ubs; split; [reflexivity|lia]|].
    split; [done|]. do 2 (split; [done|]). split.
    + intros ? ?. rewrite !free_total_cons. change (free_total []) with 0. cbn. rewrite u32_id; lia.
    + intros ? ?. cbn. rewrite u32_id by lia. done.
  - split; [cbn; lia|]. split; [repeat constructor; cbn; (lia || done)|].
    split; [done|]. split; [rewrite !free_total_cons; change (free_total []) with 0; cbn; lia|].
    split; [exists sz; split; [reflexivity|lia]|].
    split; [done|]. do 2 (split; [done|]). split; intros ? ?.
    + rewrite free_total_cons. change (free_total []) with 0. lia.
    + change (Z.of_nat _) with 0. lia.
Qed.

(** The list of the free blocks around a block. *)
Lemma free_around b f1 f2 l1 l2 :
  bs = l1 ++ (b_size b, b_used b) :: l2 -> b_at b = first + total l1 -> b_used b = false ->
  fl = f1 ++ b_at b :: f2 ->
  f1 ++ f2 ≡ₚ free_at (placed first true l1) ++ free_at (placed (b_at b + b_size b) true l2).
Proof.
  intros Hbs Hat Hu Hfl. pose proof (hi_free _ _ _ _ I) as Hf.
  rewrite Hbs, placed_app, free_at_app, free_at_cons, <- Hat, Hu, Hfl in Hf.
  rewrite (free_at_placed _ false true) in Hf.
  apply (Permutation_cons_inv (a := b_at b)).
  rewrite (Permutation_middle f1 f2), Hf. cbn [app]. by rewrite Permutation_middle.
Qed.

Lemma min_free_same (t : Heap_Statistics) :
  let t' := if free_size t <? min_free_size t then stat_min_free_size (free_size t) t else t in
  hs_size t' = hs_size t /\ free_size t' = free_size t /\ free_blocks t' = free_blocks t /\
  used_blocks t' = used_blocks t.
Proof. by destruct (free_size t <? min_free_size t). Qed.

(** Writes to the list before a region is rewritten. *)
Lemma region_after_changes nodes nodes' a e m m1 m2 :
  changes nodes m m1 -> region_frame a e nodes' m1 m2 ->
  (forall x, x ∈ nodes -> x ∈ nodes') -> region_frame a e nodes' m m2.
Proof.
  intros [H1 H2] [H3 H4] Hsub. split; [|auto]. intros w Hw Hlw. rewrite H3 by done. apply H1.
  intros (x & Hx & Hxw). apply Hlw. exists x. auto.
Qed.

(** The statistics of the heap without the block. *)
Lemma take_stats_facts b f1 f2 l1 l2 :
  bs = l1 ++ [(b_size b, false)] ++ l2 -> fl = f1 ++ b_at b :: f2 ->
  let t := take_stats (b_size b) (stats c) in
  hs_size t = hs_size (stats c) /\ free_size t = free_total (l1 ++ l2) /\
  free_blocks t = Z.of_nat (length (f1 ++ f2)) /\ used_blocks t = used_number (l1 ++ l2) + 1 /\
  0 <= free_size t /\ free_size t + b_size b < 2 ^ 32 /\ 0 <= free_blocks t < 2 ^ 30.
Proof.
  intros Hbs Hfl. pose proof (inv_large _ _ _ _ I) as Hl.
  pose proof (inv_total _ _ _ _ I) as [Ht _]. pose proof (number_bound _ Hl) as Hnb.
  destruct (free_bounds first true _ Hl) as (B1 & B2 & B3).
  pose proof (hi_stat_free _ _ _ _ I) as S1. pose proof (hi_stat_number _ _ _ _ I) as S2.
  pose proof (hi_stat_used _ _ _ _ I) as S3. rewrite (hi_free _ _ _ _ I) in S2.
  pose proof (Permutation_length (hi_free _ _ _ _ I)) as Hlen. rewrite <- Hlen in *.
  assert (0 <= free_total (l1 ++ l2)) as Hpos.
  { apply free_bounds with (a := 0) (pu := true). rewrite Hbs in Hl.
    apply Forall_app in Hl as [? Hl]. apply Forall_app in Hl as [_ ?]. by apply Forall_app. }
  assert (free_total bs = free_total l1 + b_size b + free_total l2) as E1.
  { rewrite Hbs, !free_total_app, free_total_cons. change (free_total []) with 0. lia. }
  assert (used_number bs = used_number l1 + used_number l2) as E2.
  { rewrite Hbs, !used_number_app, used_number_cons. change (used_number []) with 0. cbn. lia. }
  assert (0 <= b_size b) as Hsz.
  { rewrite Hbs in Hl. apply Forall_app in Hl as [_ Hl]. apply Forall_cons in Hl as [Hl _].
    cbn in Hl. lia. }
  rewrite free_total_app in *. rewrite used_number_app.
  assert (length fl = S (length (f1 ++ f2))) as El.
  { rewrite Hfl, !length_app. cbn. lia. }
  cbn [take_stats stat_free_size stat_used_blocks stat_free_blocks hs_size free_size free_blocks
    used_blocks]. rewrite !u32_id by lia. repeat split; lia.
Qed.

(** What an allocation of [n] bytes at [p] in the block [blk] achieves. *)
Record allocated (s' : heap_state) (bs' : list (Z * bool)) (fl' : list Z) (blk p n : Z) : Prop := {
  al_inv : heap_inv heap s' bs' fl';
  al_control : exists t, hp_control s' = set_stats t c;
  al_used : exists usz, used_at (placed first true bs') ≡ₚ (blk, usz) :: used_at (placed first true bs) /\
    blk + 8 <= p < blk + 8 + page /\ p + n <= blk + usz + 4;
  al_keeps : keeps (hp_words s) (hp_words s') (placed first true bs)
}.

(** A free block [b] with its place in the heap and in the list, and the block
    [nb] behind it. *)
Record free_place (b nb : block) (f1 f2 : list Z) (l1 l2 : list (Z * bool)) : Prop := {
  fp_in : b ∈ placed first true bs;
  fp_free : b_used b = false;
  fp_list : fl = f1 ++ b_at b :: f2;
  fp_blocks : bs = l1 ++ [(b_size b, false)] ++ l2;
  fp_at : b_at b = first + total l1;
  fp_prev : used_before true l1 = true;
  fp_rest : f1 ++ f2 ≡ₚ free_at (placed first true l1) ++ free_at (placed (b_at b + b_size b) true l2);
  fp_spread : spread (heap :: f1 ++ f2);
  fp_nodes : forall x, x ∈ heap :: f1 ++ f2 -> x = heap \/ x ∈ fl;
  fp_next : nb ∈ all;
  fp_next_at : b_at nb = b_at b + b_size b;
  fp_next_used : b_used nb = true;
  fp_next_prev : b_prev nb = false
}.

Lemma find_place b f1 f2 :
  b ∈ placed first true bs -> b_used b = false -> fl = f1 ++ b_at b :: f2 ->
  exists nb l1 l2, free_place b nb f1 f2 l1 l2.
Proof.
  intros Hb Hu Hfl. destruct (placed_split _ _ _ _ Hb) as (l1 & l2 & Hbs & Hat & Hpb).
  destruct (all_free _ _ _ _ I b (all_real _ _ _ _ I b Hb) Hu) as [Hpt _].
  destruct (behind_free b Hb Hu) as (nb & ? & ? & ? & ?).
  exists nb, l1, l2. split; try done.
  - by rewrite <- Hu.
  - congruence.
  - by apply free_around.
  - pose proof (list_spread _ _ _ _ I) as Hsp. rewrite Hfl in Hsp.
    apply (spread_sub _ _ Hsp); [|intros x; in_list].
    eapply sublist_NoDup; [apply Hsp|]. apply sublist_skip, sublist_app; [done|by apply sublist_cons].
  - intros x. rewrite Hfl. in_list.
Qed.

Lemma heap_area_stats ctl h t : heap_area ctl h -> heap_area (set_stats t ctl) h.
Proof. intros [? ? ? ? ?]. by split. Qed.

(** The blocks are rebuilt around a block of the list that was taken. *)
Lemma block_after e l2 nsz nu l3 nb :
  (exists l1, bs = l1 ++ l2 /\ e = first + total l1) -> nb ∈ all -> b_at nb = e ->
  l2 ++ [end_block c] = (nsz, nu) :: l3 -> nsz = b_size nb /\ nu = b_used nb.
Proof.
  intros (l1 & Hbs & He) Hnb Hat E.
  assert (mk_block e nsz (used_before true l1) nu ∈ all) as Hin.
  { rewrite Hbs, <- app_assoc, E, placed_app. apply elem_of_app. right. rewrite <- He. left. }
  destruct (all_cases _ _ _ _ I _ Hin) as [Hr|Hr].
  - destruct (all_apart _ _ _ _ I _ _ Hr Hnb) as [<- |[Hx|Hx]]; [done|cbn in Hx..].
    + pose proof (real_bounds _ _ _ _ I _ Hr) as (_ & _ & Hm & _). cbn in Hm.
      destruct (hi_area _ _ _ _ I) as [_ [? _] _ _ _]. lia.
    + lia.
  - destruct (all_cases _ _ _ _ I _ Hnb) as [Hr2| ->]; [|by injection Hr].
    pose proof (real_bounds _ _ _ _ I _ Hr2) as (_ & Hl & Hm & _).
    destruct (hi_area _ _ _ _ I) as [_ [? _] _ _ _]. injection Hr as Hr _ _ _. lia.
Qed.

(** A free block [b] is rewritten to the blocks [mid'], one of them used. *)
Lemma served b nb f1 f2 l1 l2 mid' fl' nodes t m' blk usz p n :
  free_place b nb f1 f2 l1 l2 ->
  total mid' = b_size b -> sizes_ok page min mid' -> Forall (tag m') (placed (b_at b) true mid') ->
  m' !! (b_at b + b_size b + 4) = Some (b_size nb + b2z (used_before true mid')) ->
  region_frame (b_at b) (b_at b + b_size b) nodes (hp_words s) m' ->
  (forall x, x ∈ nodes -> x = heap \/ x ∈ fl) ->
  free_list m' heap fl' -> fl' ≡ₚ f1 ++ free_at (placed (b_at b) true mid') ++ f2 ->
  used_at (placed (b_at b) true mid') = [(blk, usz)] ->
  hs_size t = hs_size (stats c) -> free_size t = free_total (l1 ++ l2) + free_total mid' ->
  free_blocks t = Z.of_nat (length fl') -> used_blocks t = used_number (l1 ++ l2) + used_number mid' ->
  blk + 8 <= p < blk + 8 + page -> p + n <= blk + usz + 4 ->
  allocated (mk_heap_state (set_stats t c) m') (l1 ++ mid' ++ l2) fl' blk p n.
Proof.
  intros [Hb Hu Hfl Hbs Hat Hpu Hper' _ _ Hnb Hnat Hnu _] Htot Hsz Htag Hw Hrf Hnodes Hl Hper Hua
    T1 T2 T3 T4 Hp Hpn.
  assert (first + total l1 + total [(b_size b, false)] = b_at b + b_size b) as Ee by (cbn; lia).
  assert (forall x, x ∈ nodes -> x = heap \/ x ∈ fl \/
    first + total l1 <= x /\ x + 16 <= first + total l1 + total [(b_size b, false)]) as Hnodes'
    by (intros x Hx; destruct (Hnodes x Hx); auto).
  split; cbn [hp_control hp_words].
  - eapply (inv_rebuild _ _ _ _ I l1 [(b_size b, false)] l2 mid' _ nodes);
      rewrite ?Ee, ?Hpu, <- ?Hat; try done.
    + cbn. lia.
    + intros nsz nu l3 E.
      destruct (block_after (b_at b + b_size b) l2 nsz nu l3 nb) as [-> ->]; [|done|done|done|].
      { exists (l1 ++ [(b_size b, false)]). rewrite <- app_assoc. split; [done|].
        by rewrite total_app, Z.add_assoc, Ee. }
      split; [done|congruence].
    + rewrite Ee, <- Hat in Hnodes'. done.
    + rewrite Hper, !placed_app, !free_at_app. rewrite Hpu, <- Hat, Htot.
      rewrite (free_at_placed _ _ true l2). rewrite (Permutation_app_comm (free_at (placed _ _ mid'))).
      rewrite app_assoc, Hper'. rewrite <- app_assoc. apply Permutation_app_head, Permutation_app_comm.
    + rewrite T2, !free_total_app. lia.
    + rewrite T4, !used_number_app. lia.
  - by eexists.
  - exists usz. split; [|lia]. rewrite Hbs, !placed_app, !used_at_app, Hpu, <- Hat, Htot, Hua.
    cbn [total fst]. rewrite Z.add_0_r, used_at_cons. cbn [app placed].
    rewrite (used_at_placed _ _ true l2), (used_at_placed _ false true l2).
    by rewrite Permutation_middle.
  - rewrite <- Ee, Hat in Hrf.
    destruct (region_keeps _ _ _ _ I l1 [(b_size b, false)] l2 nodes m' Hbs Hrf Hnodes') as [K1 K2].
    rewrite Hbs, !placed_app. intros b' w Hb'. rewrite !elem_of_app in Hb'.
    destruct Hb' as [Hb'|[->%list_elem_of_singleton|Hb']].
    + by apply K1.
    + done.
    + by eapply K2.
Qed.

Lemma allocate_begin b f1 f2 p n :
  b ∈ placed first true bs -> b_used b = false -> fl = f1 ++ b_at b :: f2 ->
  b_at b + 8 <= p < b_at b + 8 + page -> 0 <= n -> p + n <= b_at b + b_size b + 4 ->
  exists s' bs' fl', Heap_Block_allocate heap (b_at b) p n s = Ok (b_at b, s') /\
    allocated s' bs' fl' (b_at b) p n.
Proof.
  intros Hb Hu Hfl Hp Hn Hpn.
  pose proof (real_bounds _ _ _ _ I b Hb) as (Hb1 & Hb2 & Hb3 & Hb4 & Hb5).
  destruct (hi_area _ _ _ _ I) as [[P8 _] [M16 _] [F0 _] [? L32] _].
  destruct (take_run b f1 f2 Hb Hu Hfl) as (m1 & s1 & anchor & Ht & Hs1 & Hl1 & Hc1).
  destruct (find_place b f1 f2 Hb Hu Hfl) as (nb & l1 & l2 & Hfp).
  assert (at_block m1 (b_at b) (b_size b) true (b_size nb) false) as Hab
    by (apply (taken_block b nb f1 f2); (done || apply Hfp)).
  destruct (take_stats_facts b f1 f2 l1 l2) as (T1 & T2 & T3 & T4 & T5 & T6 & T7); [apply Hfp..|].
  set (t1 := take_stats (b_size b) (stats c)) in *. set (k := n + (p - (b_at b + 8))).
  destruct (split_run heap (mk_heap_state (set_stats t1 c) m1) (b_at b) (b_size b) true (b_size nb)
    false f1 f2 s1 anchor) with (alloc := k) as (m2 & Hr & Htag & Hw & Hl2 & Hrf & _);
    [by apply heap_area_stats, I|done|lia|done|lia|done|done|done|done|apply Hfp
    |by apply (clear_free b f1 f2)|lia|lia|].
  cbn [hp_control set_stats page_size min_block_size stats hp_words] in Hr, Htag, Hw, Hl2, Hrf.
  destruct (split_blocks_facts (b_at b) true (b_size b) k f1 f2 t1)
    as (S1 & S2 & S3 & S4 & (usz & Esb & Husz) & S5 & S6 & S7 & S8 & S9); [done|done|lia|lia|].
  set (t2 := split_stats _ _ _ _ t1) in *.
  unfold Heap_Block_allocate, Heap_Alloc_area_of_block, HEAP_BLOCK_HEADER_SIZE.
  rewrite (u32_id (b_at b + 8)), (u32_id (p - (b_at b + 8))) by lia.
  rewrite (cm_bind_ok _ _ _ _ _ Ht), ctl_bind. cbn [hp_control set_stats page_size].
  rewrite (proj2 (Z.ltb_lt _ _)) by lia. rewrite u32_id by lia. fold k.
  unfold Heap_Block_allocate_from_begin. rewrite cm_bind_assoc, (cm_bind_ok _ _ _ _ _ Hr), ret_bind.
  rewrite upd_stats_bind. cbn [hp_control set_stats stats].
  destruct (min_free_same t2) as (R1 & R2 & R3 & R4).
  set (t3 := if free_size t2 <? _ then _ else t2) in *.
  eexists (mk_heap_state (set_stats t3 c) m2), _, _. split; [done|].
  eapply (served b nb f1 f2 l1 l2 _ _ (heap :: f1 ++ f2)); try done.
  - eapply region_after_changes; [exact Hc1|exact Hrf|done].
  - apply Hfp.
  - congruence.
  - rewrite R2, S8, T2 by lia. done.
  - rewrite R3, S9, T3 by lia. rewrite S5, !length_app. lia.
  - rewrite R4, S7, T4, S3. done.
  - lia.
Qed.

End Alloc.
