(* ===== verification/HeapPlace.v ===== *)
(** * Allocation at the end of a free block

    [_Heap_Block_allocate_from_end]: the front of the block stays free and in
    the list, the rest is split. *)

From stdpp Require Import base tactics numbers option list list_numbers gmap fin_maps.
From stdpp Require Import fin_map_dom fin_sets.
From Stdlib Require Import ZArith Lia.
From S2P Require Import Prelude Chain Objects Heap HeapList HeapBlocks HeapRun HeapInv HeapAlloc.

Open Scope Z_scope.

Definition front_stats (sz : Z) (t : Heap_Statistics) : Heap_Statistics :=
  stat_free_blocks (fun x => u32 (x + 1)) (stat_free_size (fun x => u32 (x + sz)) t).

Section Front.
Context (heap : Z) (st : heap_state) (a sz nsz nb : Z).
Context (f1 f2 s1 : list Z) (anchor : Z).

Abbreviation c := (hp_control st).
Abbreviation page := (page_size c).

Context (A : heap_area c heap) (B : at_block (hp_words st) a sz true nsz false).
Context (Ha : 0 < a) (Hap : (a + 8) mod page = 0) (He : a + sz + 8 < 2 ^ 32) (Hsz : sz mod page = 0).
Context (Hnp : (nb + 8) mod page = 0) (Hn1 : a + 16 <= nb) (Hn2 : nb + 16 <= a + sz).
Context (Hl : free_list (hp_words st) heap (f1 ++ f2)) (Hs1 : heap :: f1 = s1 ++ [anchor]).
Context (Hsp : spread (heap :: f1 ++ f2)) (Hcl : clear_of a (a + sz) (heap :: f1 ++ f2)).
(** The block behind the next one. *)
Context (Hnn : u32 (a + sz + nsz) = a \/
  (u32 (a + sz + nsz) + 8 <= a \/ a + sz <= u32 (a + sz + nsz)) /\
  ~ link_word (heap :: f1 ++ f2) (u32 (a + sz + nsz) + 4)).

Lemma front_even : even32 sz /\ (nb - a) mod 2 = 0 /\ a mod 4 = 0 /\ nb mod 4 = 0.
Proof.
  destruct A as [[P8 P] _ _ _ _].
  assert (forall x, (x + 8) mod page = 0 -> x mod 4 = 0) as H4.
  { intros x Hx. apply (mod_page4 page _ P) in Hx; [|lia]. replace x with (x + 8 - 8) by lia.
    by apply mod_sub. }
  split; [split; [lia|by apply (even_page page); lia]|]. split; [|auto].
  apply (even_page page); [done|lia|]. replace (nb - a) with (nb + 8 - (a + 8)) by lia.
  by apply mod_sub; [lia|..].
Qed.

(** The writes after the block is back in the list. *)
Definition front_words (m : words) : words :=
  <[nb + 4 := a + sz - nb]> (<[nb := nb - a]> (<[a + 4 := nb - a + 1]> m)).

Lemma front_link (w : Z) :
  w = a + 4 \/ w = nb \/ w = nb + 4 -> ~ link_word (heap :: f1 ++ a :: f2) w.
Proof.
  intros Hw (x & Hx & Hxw). destruct (elem_insert _ _ _ _ _ Hx) as [-> |Hx'].
  - pose proof front_even as (_ & _ & H1 & H2). lia.
  - destruct (Hcl x Hx'); lia.
Qed.

Lemma front_run n :
  exists m2, changes (heap :: f1 ++ a :: f2) (hp_words st) m2 /\
    free_list m2 heap (f1 ++ a :: f2) /\
    Heap_Block_allocate_from_end a anchor (nb + 8) n st =
    (Heap_Block_split nb a n;; mret nb)
      (mk_heap_state (set_stats (front_stats (nb - a) (stats c)) c) (front_words m2)).
Proof.
  destruct A as [[P8 P] _ _ _ _]. destruct B as [Bsz Bnx _ _ Bmap].
  pose proof front_even as (Hev & Hev2 & Ha4 & Hb4).
  assert (forall w, a <= w <= a + sz + 4 -> w mod 4 = 0 -> forall t,
    is_Some (hp_words (mk_heap_state t (hp_words st)) !! w)) as Hm by auto.
  set (t1 := stat_free_size (fun x => u32 (x + (nb - a))) (stats c)).
  destruct (list_insert_after_run heap f1 f2 s1 anchor a
    (mk_heap_state (set_stats t1 c) (hp_words st))) as (m2 & Hr & Hl2 & Hc2).
  { done. }
  { apply spread_insert; [done|]. intros x Hx. destruct (Hcl x Hx); lia. }
  { done. }
  { apply Bmap; [lia|]. by apply mod_add. }
  { apply Bmap; [lia|]. by apply mod_add. }
  exists m2. split; [done|]. split; [done|].
  unfold Heap_Block_allocate_from_end. rewrite (block_size_bind a sz true) by done.
  rewrite ctl_bind, block_of_bind by lia. rewrite Hnp, Z.sub_0_r.
  replace (nb + 8 - 8) with nb by lia. rewrite (u32_id nb) by lia.
  rewrite (u32_id (a + sz)), (u32_id (nb - a)), (u32_id (a + sz - nb)) by lia.
  rewrite upd_stats_bind. change (set_hp_control _ st) with
    (mk_heap_state (set_stats t1 c) (hp_words st)).
  rewrite (prev_used_bind a sz true) by done.
  rewrite cm_bind_assoc, (cm_bind_ok _ _ _ _ _ Hr), cm_bind_assoc, upd_stats_bind, ret_bind.
  destruct Hc2 as [_ Hm2]. cbn [hp_words] in Hm2.
  unfold st_size_and_flag, st_prev_size.
  rewrite hst_bind by (cbn; apply Hm2, Bmap; [lia|by apply mod_add]).
  rewrite hst_bind by (cbn; rewrite !lookup_insert_is_Some'; right; apply Hm2, Bmap; [lia|done]).
  rewrite hst_bind by
    (cbn; rewrite !lookup_insert_is_Some'; right; right; apply Hm2, Bmap; [lia|by apply mod_add]).
  rewrite (lor_new (nb - a)) by done. done.
Qed.

(** What the split of the rest finds. *)
Lemma front_block m2 :
  changes (heap :: f1 ++ a :: f2) (hp_words st) m2 -> free_list m2 heap (f1 ++ a :: f2) ->
  at_block (front_words m2) nb (a + sz - nb) false nsz false /\
  free_list (front_words m2) heap ((f1 ++ [a]) ++ f2) /\
  front_words m2 !! (a + 4) = Some (nb - a + 1) /\ front_words m2 !! nb = Some (nb - a) /\
  region_frame a (a + sz) (heap :: f1 ++ f2) (hp_words st) (front_words m2) /\
  spread (heap :: (f1 ++ [a]) ++ f2) /\ clear_of nb (a + sz) (heap :: (f1 ++ [a]) ++ f2).
Proof.
  intros [Hc Hm] Hl2. destruct B as [Bsz Bnx Bne (nnsz & Bnn & Bnne) Bmap].
  assert (forall w, is_Some (hp_words st !! w) -> is_Some (front_words m2 !! w)) as Hm3.
  { intros w Hw. unfold front_words. rewrite !lookup_insert_is_Some'. auto. }
  assert (forall x, x ∈ heap :: (f1 ++ [a]) ++ f2 -> x = a \/ x ∈ heap :: f1 ++ f2) as Hin.
  { intros x Hx. rewrite <- app_assoc in Hx. by apply elem_insert. }
  split; [split|].
  - by unfold front_words; rewrite lookup_insert_eq, Z.add_0_r.
  - replace (nb + (a + sz - nb) + 4) with (a + sz + 4) by lia. unfold front_words.
    rewrite !lookup_insert_ne by lia. rewrite Hc; [done|]. intros (x & Hx & Hxw).
    destruct (elem_insert _ _ _ _ _ Hx) as [-> |Hx']; [lia|destruct (Hcl x Hx'); lia].
  - done.
  - replace (nb + (a + sz - nb) + nsz) with (a + sz + nsz) by lia.
    destruct Hnn as [E|[Hout Hlk]].
    + exists (nb - a). rewrite E. split; [|split; [lia|apply front_even]].
      unfold front_words. by rewrite !lookup_insert_ne, lookup_insert_eq by lia.
    + exists nnsz. split; [|done]. unfold front_words. rewrite !lookup_insert_ne by lia.
      rewrite Hc; [done|]. intros (x & Hx & Hxw).
      destruct (elem_insert _ _ _ _ _ Hx) as [-> |Hx']; [lia|]. apply Hlk. by exists x.
  - intros w Hw H4. apply Hm3, Bmap; [lia|done].
  - split; [|split; [|split; [|split; [|split]]]].
    + rewrite <- app_assoc. unfold front_words.
      repeat apply free_list_insert; try done; apply front_link; auto.
    + unfold front_words. by rewrite !lookup_insert_ne, lookup_insert_eq by lia.
    + unfold front_words. by rewrite lookup_insert_ne, lookup_insert_eq by lia.
    + split; [|done]. intros w Hw Hlw. unfold front_words. rewrite !lookup_insert_ne by lia.
      apply Hc. intros (x & Hx & Hxw). destruct (elem_insert _ _ _ _ _ Hx) as [-> |Hx']; [lia|].
      apply Hlw. by exists x.
    + rewrite <- app_assoc. apply spread_insert; [done|]. intros x Hx. destruct (Hcl x Hx); lia.
    + intros x Hx. destruct (Hin x Hx) as [-> |Hx']; [lia|]. destruct (Hcl x Hx'); lia.
Qed.

End Front.

Section End.
Context (heap : Z).
Context (s : heap_state) (bs : list (Z * bool)) (fl : list Z).
Context (I : heap_inv heap s bs fl).

Abbreviation c := (hp_control s).
Abbreviation page := (page_size c).
Abbreviation min := (min_block_size c).
Abbreviation first := (first_block c).
Abbreviation all := (placed first true (bs ++ [end_block c])).

(** The block behind the next one is the block itself or clear of it. *)
Lemma behind_next b nb f1 f2 l1 l2 :
  free_place heap s bs fl b nb f1 f2 l1 l2 ->
  let nn := u32 (b_at b + b_size b + b_size nb) in
  nn = b_at b \/ (nn + 8 <= b_at b \/ b_at b + b_size b <= nn) /\
    ~ link_word (heap :: f1 ++ f2) (nn + 4).
Proof.
  intros Hfp nn. destruct (all_next _ _ _ _ I nb (fp_next _ _ _ _ _ _ _ _ _ _ Hfp))
    as (nnb & Hnnb & Hat & _).
  rewrite (fp_next_at _ _ _ _ _ _ _ _ _ _ Hfp) in Hat. fold nn in Hat. rewrite <- Hat.
  destruct (all_apart _ _ _ _ I b nnb (fp_in _ _ _ _ _ _ _ _ _ _ Hfp) Hnnb) as [-> |Hx];
    [by left|]. right. split; [lia|]. intros (x & Hx' & Hxw).
  apply (proj2 (not_link _ _ _ _ I nnb Hnnb)). exists x. split; [|done].
  destruct (fp_nodes _ _ _ _ _ _ _ _ _ _ Hfp x Hx') as [-> |?]; [left|by right].
Qed.

Lemma region_trans a e nb nodes nodes' m m1 m2 :
  region_frame a e nodes m m1 -> region_frame nb e nodes' m1 m2 -> a + 16 <= nb <= e ->
  (forall x, x ∈ nodes' -> x = a \/ x ∈ nodes) -> region_frame a e nodes m m2.
Proof.
  intros [F1 F2] [G1 G2] Hnb Hsub. split; [|auto]. intros w Hw Hlw. rewrite G1; [by apply F1|lia|].
  intros (x & Hx & Hxw). destruct (Hsub x Hx) as [-> |Hx']; [lia|]. apply Hlw. by exists x.
Qed.

Definition end_stats (sz0 front sz n : Z) (t : Heap_Statistics) : Heap_Statistics :=
  split_stats page min sz n (front_stats front (take_stats sz0 t)).

Definition end_blocks (front sz n : Z) : list (Z * bool) :=
  (front, false) :: split_blocks page min sz n.

Lemma end_run b nx f1 f2 l1 l2 nb sz' n :
  free_place heap s bs fl b nx f1 f2 l1 l2 ->
  (nb + 8) mod page = 0 -> b_at b + min <= nb -> min <= sz' -> n + 4 <= sz' -> 0 <= n ->
  nb + sz' = b_at b + b_size b -> sz' mod page = 0 ->
  let t := end_stats (b_size b) (nb - b_at b) sz' n (stats c) in
  exists m', Heap_Block_allocate heap (b_at b) (nb + 8) n s =
      Ok (nb, mk_heap_state (set_stats (if free_size t <? min_free_size t
                                        then stat_min_free_size (free_size t) t else t) c) m') /\
    Forall (tag m') (placed (b_at b) true (end_blocks (nb - b_at b) sz' n)) /\
    m' !! (b_at b + b_size b + 4) =
      Some (b_size nx + b2z (used_before true (end_blocks (nb - b_at b) sz' n))) /\
    free_list m' heap (split_list page min nb sz' n (f1 ++ [b_at b]) f2) /\
    region_frame (b_at b) (b_at b + b_size b) (heap :: f1 ++ f2) (hp_words s) m'.
Proof.
  intros Hfp Hpp Hmin1 Hz1 Hz2 Hn Hz3 Hszp t.
  pose proof Hfp as [Hb Hu Hfl _ _ _ _ Hsp _ _ _ _ _].
  pose proof (real_bounds _ _ _ _ I b Hb) as (Hb1 & Hb2 & Hb3 & Hb4 & Hb5).
  destruct (hi_area _ _ _ _ I) as [[P8 _] [M16 [PM _]] [F0 _] [? L32] _].
  destruct (take_run _ _ _ _ I b f1 f2 Hb Hu Hfl) as (m1 & s1 & anchor & Ht & Hs1 & Hl1 & Hc1).
  assert (at_block m1 (b_at b) (b_size b) true (b_size nx) false) as Hab
    by (apply (taken_block _ _ _ _ I b nx f1 f2); (done || apply Hfp)).
  set (t1 := take_stats (b_size b) (stats c)) in *.
  pose proof (clear_free _ _ _ _ I b f1 f2 Hb Hu Hfl) as Hcl.
  pose proof (behind_next b nx f1 f2 l1 l2 Hfp) as Hnn.
  destruct (front_run heap (mk_heap_state (set_stats t1 c) m1) (b_at b) (b_size b) (b_size nx) nb
    f1 f2 s1 anchor) with (n := n) as (m2 & Hc2 & Hl2 & Hrun);
    [by apply heap_area_stats, I|done|lia|done|lia|done|done|lia|lia|done..|].
  destruct (front_block heap (mk_heap_state (set_stats t1 c) m1) (b_at b) (b_size b) (b_size nx) nb
    f1 f2) with (m2 := m2) as (Gab & Gl & Gw1 & Gw2 & Grf & Gsp & Gcl);
    [by apply heap_area_stats, I|done|lia|done|lia|done|done|lia|lia|done..|].
  set (m3 := front_words (b_at b) (b_size b) nb m2) in *.
  set (t2 := front_stats (nb - b_at b) t1) in *.
  replace (b_at b + b_size b - nb) with sz' in Gab by lia. rewrite <- Hz3 in *.
  destruct (split_run heap (mk_heap_state (set_stats t2 c) m3) nb sz' false (b_size nx)
    false (f1 ++ [b_at b]) f2 (heap :: f1) (b_at b)) with (alloc := n)
    as (m4 & Hr & Htag & Hw & Hl4 & Hrf & _);
    [by apply heap_area_stats, I|done|lia|done|lia|done|done|done|done|done|done|lia|lia|].
  cbn [hp_control set_stats page_size min_block_size stats hp_words] in Hr, Htag, Hw, Hl4, Hrf, Grf.
  exists m4. split; [|split; [|split; [|split]]].
  - unfold Heap_Block_allocate, Heap_Alloc_area_of_block, HEAP_BLOCK_HEADER_SIZE.
    rewrite (u32_id (b_at b + 8)), (u32_id (nb + 8 - (b_at b + 8))) by lia.
    rewrite (cm_bind_ok _ _ _ _ _ Ht), ctl_bind. cbn [hp_control set_stats page_size].
    rewrite (proj2 (Z.ltb_ge _ _)) by lia.
    rewrite (cm_bind_ok _ _ _ nb (mk_heap_state (set_stats t c) m4)); [done|].
    rewrite Hrun. change (set_stats (front_stats _ _) _) with (set_stats t2 c).
    by rewrite (cm_bind_ok _ _ _ _ _ Hr).
  - cbn [end_blocks placed]. constructor; [|by replace (b_at b + (nb - b_at b)) with nb by lia].
    assert (forall w, w = b_at b + 4 \/ w = nb -> m4 !! w = m3 !! w) as Hsame.
    { intros w Hww. apply Hrf; [lia|]. rewrite <- app_assoc. intros (x & Hx & Hxw).
      apply (front_link heap (mk_heap_state c m1) (b_at b) (b_size b) nb f1 f2) with (w := w);
        [by apply I|lia|done|lia|done|done|lia|lia|by rewrite <- Hz3|tauto|]. by exists x. }
    split; cbn [b_at b_size b_prev b_used]; [rewrite Hsame by auto; done|].
    intros _. split; [done|]. replace (b_at b + (nb - b_at b)) with nb by lia.
    rewrite Hsame by auto. done.
  - done.
  - done.
  - apply (region_after_changes (heap :: f1 ++ f2) _ _ _ _ m1); [done| |done].
    eapply region_trans; [exact Grf|exact Hrf|lia|]. intros x Hx. rewrite <- app_assoc in Hx.
    by apply elem_insert.
Qed.

Lemma allocate_end b f1 f2 nb p n :
  b ∈ placed first true bs -> b_used b = false -> fl = f1 ++ b_at b :: f2 ->
  p = nb + 8 -> p mod page = 0 -> b_at b + min <= nb -> nb + min <= b_at b + b_size b ->
  0 <= n -> p + n <= b_at b + b_size b + 4 ->
  exists s' bs' fl', Heap_Block_allocate heap (b_at b) p n s = Ok (nb, s') /\
    allocated heap s bs s' bs' fl' nb p n.
Proof.
  intros Hb Hu Hfl -> Hpp Hmin1 Hmin2 Hn Hpn.
  pose proof (real_bounds _ _ _ _ I b Hb) as (Hb1 & Hb2 & Hb3 & Hb4 & Hb5).
  destruct (hi_area _ _ _ _ I) as [[P8 _] [M16 [PM _]] [F0 _] [? L32] _].
  destruct (find_place _ _ _ _ I b f1 f2 Hb Hu Hfl) as (nx & l1 & l2 & Hfp).
  assert (exists sz', nb + sz' = b_at b + b_size b /\ min <= sz' /\ n + 4 <= sz')
    as (sz' & Hz3 & Hz1 & Hz2) by (exists (b_at b + b_size b - nb); lia).
  assert ((nb - b_at b) mod page = 0) as Hfp0.
  { replace (nb - b_at b) with (nb + 8 - (b_at b + 8)) by lia. by apply mod_sub; [lia|..]. }
  assert (sz' mod page = 0) as Hszp.
  { replace sz' with (b_size b - (nb - b_at b)) by lia. by apply mod_sub; [lia|..]. }
  destruct (end_run b nx f1 f2 l1 l2 nb sz' n) as (m' & Hrun & Htag & Hw & Hl & Hrf); [done..|].
  destruct (take_stats_facts _ _ _ _ I b f1 f2 l1 l2) as (T1 & T2 & T3 & T4 & T5 & T6 & T7);
    [apply Hfp..|].
  unfold end_stats in *. set (t1 := take_stats (b_size b) (stats c)) in *.
  set (t2 := front_stats (nb - b_at b) t1) in *.
  assert (free_size t2 = free_size t1 + (nb - b_at b) /\ free_blocks t2 = free_blocks t1 + 1)
    as [U1 U2].
  { unfold t2, front_stats. cbn [free_size free_blocks stat_free_blocks stat_free_size].
    by rewrite !u32_id by lia. }
  destruct (split_blocks_facts _ _ _ _ I nb false sz' n (f1 ++ [b_at b]) f2 t2)
    as (S1 & S2 & S3 & S4 & (usz & Esb & Husz) & S5 & S6 & S7 & S8 & S9); [done|done|lia|lia|].
  set (t3 := split_stats _ _ _ _ t2) in *. destruct (min_free_same t3) as (R1 & R2 & R3 & R4).
  set (t4 := if free_size t3 <? _ then _ else t3) in *.
  assert (b_at b + (nb - b_at b) = nb) as Enb by lia.
  eexists (mk_heap_state (set_stats t4 c) m'), _, _. split; [exact Hrun|].
  eapply (served _ _ _ _ I b nx f1 f2 l1 l2 (end_blocks (nb - b_at b) sz' n) _ (heap :: f1 ++ f2)
    _ _ nb usz); try done; unfold end_blocks in *.
  - cbn. lia.
  - constructor; [cbn; split; [lia|done]|done].
  - apply Hfp.
  - rewrite S5, free_at_cons, Enb, <- !app_assoc. done.
  - by rewrite used_at_cons, Enb.
  - change (hs_size t2) with (hs_size t1) in S6. congruence.
  - rewrite R2, S8, U1, T2, free_total_cons by lia. lia.
  - rewrite R3, S9, U2, T3 by lia. rewrite S5, !length_app. cbn. lia.
  - rewrite R4, S7, used_number_cons, S3. cbn [b2z]. change (used_blocks t2) with (used_blocks t1). lia.
  - lia.
  - lia.
Qed.

End End.
