(* ===== verification/HeapSearch.v ===== *)
(** * Where an allocation goes

    The place of an allocation in a free block under alignment and boundary
    constraints ([_Heap_Check_block]: its loop ends, and what it returns is
    aligned, in the block and crosses no boundary), and the search along the
    free list. *)

From stdpp Require Import base tactics numbers option list list_numbers gmap fin_maps.
From stdpp Require Import fin_map_dom fin_sets.
From Stdlib Require Import ZArith Lia.
From S2P Require Import Prelude Chain Objects Heap HeapList HeapBlocks HeapRun HeapInv HeapAlloc.
From S2P Require Import HeapPlace.

Open Scope Z_scope.

(** ** The boundary loop *)
Lemma down_spec v al : 0 < al -> v - al < v - v mod al <= v /\ (v - v mod al) mod al = 0.
Proof.
  intros Hal. pose proof (Z.mod_pos_bound v al Hal). split; [lia|].
  rewrite Zminus_mod_idemp_r, Z.sub_diag. by apply Z.mod_0_l; lia.
Qed.

Lemma align_down_ok v al : 0 < al -> Heap_Align_down v al = Ok (v - v mod al).
Proof. intros Hal. unfold Heap_Align_down. by rewrite (proj2 (Z.eqb_neq _ _)) by lia. Qed.

(** No multiple of the boundary lies inside the area (a boundary of 0 is none). *)
Definition crosses_no (boundary p n : Z) : Prop :=
  boundary = 0 \/ forall k, k mod boundary = 0 -> ~ (p < k < p + n).

Lemma largest_multiple v al k : 0 < al -> k mod al = 0 -> k <= v -> k <= v - v mod al.
Proof.
  intros Hal [q ->]%Z.mod_divide Hk; [|lia]. pose proof (Z.mod_pos_bound v al Hal).
  pose proof (Z.div_mod v al ltac:(lia)). assert (q <= v / al) by nia. nia.
Qed.

Lemma no_cross boundary p n :
  0 < boundary -> n <= boundary ->
  (p <? p + n - (p + n) mod boundary) && (p + n - (p + n) mod boundary <? p + n) = false ->
  crosses_no boundary p n.
Proof.
  intros Hb Hn Hl. right. intros k Hk Hin. set (line := p + n - (p + n) mod boundary) in *.
  pose proof (largest_multiple (p + n) boundary k Hb Hk ltac:(lia)) as Hle. fold line in Hle.
  apply andb_false_iff in Hl as [Hl%Z.ltb_ge|Hl%Z.ltb_ge]; [lia|].
  assert (line mod boundary = 0) as Hm by (by apply down_spec).
  assert (line = p + n) as E by (pose proof (down_spec (p + n) boundary Hb); unfold line in *; lia).
  assert ((line - k) mod boundary = 0) as [q Hq]%Z.mod_divide by (by apply mod_sub); [|lia].
  assert (0 < q) by nia. nia.
Qed.

(** The loop ends with any fuel above the begin, which decreases. *)
Lemma boundary_loop_ok fuel floor n al bd p :
  (Z.to_nat p < fuel)%nat -> 0 < al -> 0 < bd -> 0 <= n -> n <= bd -> n <= floor ->
  0 <= p -> p + n < 2 ^ 32 -> p mod al = 0 ->
  boundary_loop fuel floor n al bd p (p + n) (p + n - (p + n) mod bd) = Ok None \/
  exists q, boundary_loop fuel floor n al bd p (p + n) (p + n - (p + n) mod bd) = Ok (Some q) /\
    0 <= q <= p /\ q mod al = 0 /\ crosses_no bd q n.
Proof.
  revert p. induction fuel as [|fuel IH]; intros p Hf Hal Hbd Hn Hnb Hfl Hp Hr Hm; [lia|].
  cbn [boundary_loop]. set (line := p + n - (p + n) mod bd).
  destruct ((p <? line) && (line <? p + n)) eqn:Hin.
  2: { right. exists p. split; [done|]. split; [lia|]. split; [done|]. by apply no_cross. }
  apply andb_true_iff in Hin as [Hin1%Z.ltb_lt Hin2%Z.ltb_lt].
  destruct (Z.ltb_spec line floor) as [Hlf|Hlf]; [by left|].
  rewrite (u32_id (line - n)) by lia. rewrite (align_down_ok (line - n)) by done. cbn.
  destruct (down_spec (line - n) al Hal) as [Hd1 Hd2].
  set (q := line - n - (line - n) mod al) in *.
  assert (0 <= q).
  { unfold q. pose proof (Z.mod_le (line - n) al ltac:(lia) Hal). lia. }
  rewrite (u32_id (q + n)) by lia. rewrite (align_down_ok (q + n)) by done. cbn.
  destruct (IH q) as [Hnone|(r & Hr2 & Hr3 & Hr4 & Hr5)]; [lia..|done| |].
  - by left.
  - right. exists r. split; [done|]. split; [lia|]. done.
Qed.

Section Search.
Context (heap : Z).
Context (s : heap_state) (bs : list (Z * bool)) (fl : list Z).
Context (I : heap_inv heap s bs fl).

Abbreviation c := (hp_control s).
Abbreviation page := (page_size c).
Abbreviation min := (min_block_size c).
Abbreviation first := (first_block c).
Abbreviation all := (placed first true (bs ++ [end_block c])).

(** ** The place in a block *)
Definition fits (b : block) (p n : Z) : Prop :=
  p mod page = 0 /\ p + n <= b_at b + b_size b + 4 /\
  (p = b_at b + 8 \/ b_at b + 8 + min <= p /\ p + min <= b_at b + b_size b + 8).

Lemma page_of_alignment al p : 0 < al -> al mod page = 0 -> p mod al = 0 -> p mod page = 0.
Proof.
  destruct (hi_area _ _ _ _ I) as [[? _] _ _ _ _].
  intros Ha [q ->]%Z.mod_divide [r ->]%Z.mod_divide; [|lia..].
  rewrite Z.mul_assoc. by apply Z.mod_mul; lia.
Qed.

(** An area below the ceiling leaves room for a smallest block. *)
Lemma ceiling_room b p :
  b ∈ placed first true bs -> p mod page = 0 ->
  p <= b_at b + b_size b - min + 8 + page - 1 -> p + min <= b_at b + b_size b + 8.
Proof.
  intros Hb Hp Hle. pose proof (real_bounds _ _ _ _ I b Hb) as (_ & _ & _ & Hs & Ha).
  destruct (hi_area _ _ _ _ I) as [[? _] [_ [_ Hm]] _ _ _].
  assert ((b_at b + 8 + b_size b - min) mod page = 0) as Hd.
  { apply mod_sub; [lia| |done]. by apply mod_add; [lia|..]. }
  apply Z.mod_divide in Hd as [q Hq]; [|lia].
  apply Z.mod_divide in Hp as [r ->]; [|lia]. assert (r <= q) by nia. nia.
Qed.

(** The begin of the area before the boundary is looked at. *)
Lemma check_block_begin b n al :
  b ∈ placed first true bs -> 0 <= n -> n + 4 <= b_size b -> 0 < al -> al mod page = 0 ->
  exists p, (forall (B : Type) (k : Z -> cm heap_state B),
    (alloc_begin ← lift (Heap_Align_down
        (u32 (u32 (u32 (b_at b + b_size b) + HEAP_ALLOC_BONUS) - n)) al);
     alloc_begin ← (if u32 (u32 (b_at b + b_size b) - min + HEAP_BLOCK_HEADER_SIZE + page - 1)
                        <? alloc_begin
                    then lift (Heap_Align_down
                      (u32 (u32 (b_at b + b_size b) - min + HEAP_BLOCK_HEADER_SIZE + page - 1)) al)
                    else mret alloc_begin);
     k alloc_begin) s = k p s) /\
    0 <= p /\ p mod al = 0 /\ p + n <= b_at b + b_size b + 4 /\
    p + min <= b_at b + b_size b + 8.
Proof.
  intros Hb Hn Hns Hal Hap. pose proof (real_bounds _ _ _ _ I b Hb) as (? & ? & ? & _).
  destruct (hi_area _ _ _ _ I) as [[? _] [? [? _]] [? _] [? ?] _].
  unfold HEAP_ALLOC_BONUS, HEAP_BLOCK_HEADER_SIZE.
  rewrite (u32_id (b_at b + b_size b)) by lia. rewrite (u32_id (b_at b + b_size b + 4)) by lia.
  rewrite (u32_id (b_at b + b_size b + 4 - n)) by lia.
  rewrite (u32_id (b_at b + b_size b - min + 8 + page - 1)) by lia.
  set (ceil := b_at b + b_size b - min + 8 + page - 1). set (v := b_at b + b_size b + 4 - n).
  assert (forall x, 0 <= x -> 0 <= x - x mod al <= x /\ (x - x mod al) mod al = 0) as Hd.
  { intros x Hx. pose proof (Z.mod_le x al Hx Hal). pose proof (down_spec x al Hal). lia. }
  destruct (Hd v) as [V1 V2]; [unfold v; lia|].
  destruct (Z.ltb_spec ceil (v - v mod al)) as [Hlt|Hge].
  - destruct (Hd ceil) as [W1 W2]; [unfold ceil; lia|]. exists (ceil - ceil mod al).
    split; [|split; [lia|split; [done|split; [unfold v in *; lia|]]]].
    + intros B k. rewrite align_down_bind by lia. rewrite (proj2 (Z.ltb_lt _ _)) by done.
      by rewrite align_down_bind by lia.
    + apply ceiling_room; [done| |unfold ceil in *; lia]. by apply (page_of_alignment al).
  - exists (v - v mod al). split; [|split; [lia|split; [done|split; [unfold v in *; lia|]]]].
    + intros B k. rewrite align_down_bind by lia. by rewrite (proj2 (Z.ltb_ge _ _)) by done.
    + apply ceiling_room; [done| |unfold ceil in *; lia]. by apply (page_of_alignment al).
Qed.

Lemma check_block_ok b n al bd :
  b ∈ placed first true bs -> 0 <= n -> n + 4 <= b_size b -> 0 < al -> al mod page = 0 ->
  0 <= bd -> bd = 0 \/ n <= bd ->
  exists p, Heap_Check_block (b_at b) n al bd s = Ok (p, s) /\
    (p = 0 \/ fits b p n /\ p mod al = 0 /\ crosses_no bd p n).
Proof.
  intros Hb Hn Hns Hal Hap Hbd Hnb. pose proof (all_real _ _ _ _ I b Hb) as Ha.
  pose proof (real_bounds _ _ _ _ I b Hb) as (? & ? & ? & _ & Hb8).
  destruct (hi_area _ _ _ _ I) as [[? _] [? [? _]] [? _] [? ?] _].
  destruct (check_block_begin b n al) as (p & Hp & P1 & P2 & P3 & P4); [done..|].
  unfold Heap_Check_block. rewrite !ctl_bind.
  rewrite (block_size_bind (b_at b) (b_size b) (b_prev b));
    [|by apply (all_word _ _ _ _ I)|by apply (all_even _ _ _ _ I)].
  rewrite Hp. unfold Heap_Alloc_area_of_block, HEAP_BLOCK_HEADER_SIZE.
  rewrite (u32_id (b_at b + 8)), (u32_id (p + n)), (u32_id (b_at b + 8 + n)) by lia.
  assert (exists r, (if negb (bd =? 0) then
      boundary_line ← lift (Heap_Align_down (p + n) bd);
      lift (boundary_loop (S (Z.to_nat p)) (b_at b + 8 + n) n al bd p (p + n) boundary_line)
    else mret (Some p) : cm heap_state (option Z)) s = Ok (r, s) /\
    (r = None \/ exists q, r = Some q /\ 0 <= q <= p /\ q mod al = 0 /\ crosses_no bd q n))
    as (r & Hr & Hq).
  { destruct (Z.eqb_spec bd 0) as [-> |Hz]; cbn [negb].
    - exists (Some p). split; [done|]. right. exists p. split; [done|]. split; [lia|].
      split; [done|by left].
    - rewrite align_down_bind by lia.
      destruct (boundary_loop_ok (S (Z.to_nat p)) (b_at b + 8 + n) n al bd p)
        as [Hl|(q & Hl & Hq)]; [lia..|done| |]; unfold lift; rewrite Hl; eauto 10. }
  rewrite (cm_bind_ok _ _ _ _ _ Hr).
  destruct Hq as [-> |(q & -> & Q1 & Q2 & Q3)]; [exists 0; auto|].
  destruct (Z.leb_spec (b_at b + 8) q) as [Hle|]; [|exists 0; auto].
  assert (q mod page = 0) as Hqp by (by apply (page_of_alignment al)).
  rewrite block_of_bind by lia. rewrite Hqp, Z.sub_0_r, (u32_id (q - 8)), u32_id by lia.
  eexists. split; [reflexivity|]. destruct ((min <=? q - 8 - b_at b) || (q - 8 - b_at b =? 0)) eqn:Hf;
    [right|by left].
  split; [|done]. split; [done|]. split; [lia|].
  apply orb_true_iff in Hf as [Hf%Z.leb_le|Hf%Z.eqb_eq]; lia.
Qed.

(** ** The walk along the free list *)
Section Walk.
Context (n al bd : Z).
Context (Hn : 0 <= n) (Hn32 : n + 4 < 2 ^ 32).
Context (Hal : 0 <= al) (Hap : al mod page = 0).
Context (Hbd : 0 <= bd) (Hnb : bd = 0 \/ n <= bd) (Hba : al = 0 -> bd = 0).

Definition placed_at (b : block) (p : Z) : Prop :=
  fits b p n /\ (al = 0 \/ p mod al = 0) /\ crosses_no bd p n.

(** What one block answers. *)
Lemma try_block b :
  b ∈ placed first true bs -> b_used b = false ->
  exists p, (forall (B : Type) (k : Z -> cm heap_state B),
    (v ← ld_size_and_flag (b_at b);
     alloc_begin ← (if u32 (n + HEAP_BLOCK_HEADER_SIZE - HEAP_ALLOC_BONUS) <? v then
         if al =? 0 then mret (Heap_Alloc_area_of_block (b_at b))
         else Heap_Check_block (b_at b) n al bd
       else mret 0);
     k alloc_begin) s = k p s) /\
    (p = 0 \/ placed_at b p) /\
    (al = 0 -> n + 4 <= b_size b -> p = b_at b + 8) /\ (b_size b < n + 4 -> p = 0).
Proof.
  intros Hb Hu. pose proof (all_real _ _ _ _ I b Hb) as Ha.
  pose proof (real_bounds _ _ _ _ I b Hb) as (? & ? & ? & _ & Hb8).
  destruct (hi_area _ _ _ _ I) as [[? _] [? [? _]] [? _] [? ?] _].
  destruct (all_free _ _ _ _ I b Ha Hu) as [Hpu _].
  pose proof (all_word _ _ _ _ I b Ha) as Hw. rewrite Hpu in Hw. cbn [b2z] in Hw.
  unfold HEAP_BLOCK_HEADER_SIZE, HEAP_ALLOC_BONUS. replace (n + 8 - 4) with (n + 4) by lia.
  rewrite u32_id by lia. unfold ld_size_and_flag.
  destruct (Z.ltb_spec (n + 4) (b_size b + 1)) as [Hlt|Hge].
  2: { exists 0. split; [|split; [by left|split; [lia|done]]].
       intros B k. hstep Hw. by rewrite (proj2 (Z.ltb_ge _ _)) by lia. }
  destruct (Z.eqb_spec al 0) as [E|Hz].
  - exists (b_at b + 8). split; [|split; [right|split; [done|lia]]].
    + intros B k. hstep Hw. rewrite (proj2 (Z.ltb_lt _ _)) by lia.
      rewrite ret_bind. unfold Heap_Alloc_area_of_block, HEAP_BLOCK_HEADER_SIZE.
      by rewrite u32_id by lia.
    + split; [split; [done|lia]|]. split; [by left|left; auto].
  - destruct (check_block_ok b n al bd) as (p & Hr & Hp); [done|done|lia|lia|done|done|done|].
    exists p. split; [|split; [unfold placed_at; tauto|split; [done|lia]]].
    intros B k. hstep Hw. rewrite (proj2 (Z.ltb_lt _ _)) by lia.
    by rewrite (cm_bind_ok _ _ _ _ _ Hr).
Qed.

Definition too_small (g : list Z) : Prop :=
  forall b, b ∈ placed first true bs -> b_at b ∈ g -> b_size b < n + 4.

(** The first block that answers, or none. *)
Lemma search_ok fuel f1 f2 cnt :
  fl = f1 ++ f2 -> (length f2 < fuel)%nat ->
  exists blk p cnt', search_loop heap fuel (hd heap f2) n al bd cnt s = Ok (blk, p, cnt', s) /\
    (p = 0 /\ (al = 0 -> too_small f2) \/
     exists g1 g2 b, f2 = g1 ++ blk :: g2 /\ b ∈ placed first true bs /\ b_at b = blk /\
       b_used b = false /\ p <> 0 /\ placed_at b p /\
       (al = 0 -> too_small g1 /\ p = blk + 8)).
Proof.
  revert f1 f2 cnt. induction fuel as [|fuel IH]; intros f1 f2 cnt Hfl Hfu; [lia|].
  pose proof (list_spread _ _ _ _ I) as [Hnd _]. apply NoDup_cons in Hnd as [Hh _].
  cbn [search_loop]. unfold Heap_Free_list_tail. destruct f2 as [|x f2]; cbn [hd].
  { rewrite Z.eqb_refl. eexists _, 0, _. split; [done|]. left. split; [done|].
    intros _ b _ Hin. by apply elem_of_nil in Hin. }
  assert (x ∈ fl) as Hx by (rewrite Hfl; in_list).
  rewrite (proj2 (Z.eqb_neq x heap)) by (intros ->; done).
  apply (free_block _ _ _ _ I) in Hx as (b & Hb & <- & Hu).
  destruct (try_block b Hb Hu) as (p & Hrun & Hp & Hp0 & Hp1). rewrite Hrun.
  destruct (Z.eqb_spec p 0) as [-> |Hne]; cbn [negb].
  - pose proof (list_pair (hp_words s) heap (f1 ++ [b_at b]) f2 (heap :: f1) (b_at b)) as Hpair.
    destruct (list_after heap f2) as (y & s2 & Hs2).
    destruct (Hpair y s2) as [Hy _]; [rewrite <- app_assoc|done|done|].
    { cbn [app]. rewrite <- Hfl. apply I. }
    unfold ld_next. hstep Hy. assert (y = hd heap f2) as ->.
    { destruct f2; by injection Hs2. }
    destruct (IH (f1 ++ [b_at b]) f2 (u32 (cnt + 1))) as (blk & p & cnt' & Hr & Hc).
    { by rewrite <- app_assoc. } { cbn in Hfu. lia. }
    assert (al = 0 -> b_size b < n + 4) as Hsm.
    { intros E. destruct (Z.lt_ge_cases (b_size b) (n + 4)) as [|Hge]; [done|].
      specialize (Hp0 E Hge). pose proof (real_bounds _ _ _ _ I b Hb) as (? & _).
      destruct (hi_area _ _ _ _ I) as [_ _ [? _] _ _]. lia. }
    assert (forall g, al = 0 -> too_small g -> too_small (b_at b :: g)) as Hcons.
    { intros g E Hg b' Hb' [E'|Hin]%elem_of_cons; [|by apply Hg].
      destruct (all_apart _ _ _ _ I b b' Hb (all_real _ _ _ _ I b' Hb')) as [<- |Ho]; [by apply Hsm|].
      pose proof (real_bounds _ _ _ _ I b Hb) as (_ & _ & ? & _).
      destruct (hi_area _ _ _ _ I) as [_ [? _] _ _ _]. lia. }
    exists blk, p, cnt'. split; [done|].
    destruct Hc as [[-> Hc]|(g1 & g2 & b' & -> & ? & ? & ? & ? & ? & Hc)].
    + left. split; [done|]. auto.
    + right. exists (b_at b :: g1), g2, b'. repeat (split; [done|]). intros E.
      destruct (Hc E). auto.
  - eexists _, p, _. split; [reflexivity|]. right. exists [], f2, b.
    destruct Hp as [->|Hp]; [done|]. repeat (split; [done|]). intros E. split.
    + intros b' _ Hin. by apply elem_of_nil in Hin.
    + destruct (Z.lt_ge_cases (b_size b) (n + 4)) as [Hlt|Hge]; [|auto].
      by specialize (Hp1 Hlt).
Qed.

End Walk.

Lemma free_list_length : (length fl < size (hp_words s))%nat.
Proof.
  assert (list_to_set ((fun x => x + 8) <$> heap :: fl) ⊆ (dom (hp_words s) : gset Z)) as Hsub.
  { intros w Hw. apply elem_of_list_to_set, list_elem_of_fmap in Hw as (x & -> & Hx).
    apply elem_of_dom.
    apply list_elem_of_split in Hx as (l1 & l2 & Heq). pose proof (hi_list _ _ _ _ I) as Hl.
    destruct (list_after heap l2) as (y & s2 & Hs2).
    destruct l1 as [|h l1]; injection Heq as Hh Hfl; subst.
    - destruct (list_pair (hp_words s) x [] l2 [] x y s2) as [Hy _]; [done..|]. by eexists.
    - destruct (list_pair (hp_words s) h (l1 ++ [x]) l2 (h :: l1) x y s2) as [Hy _];
        [by rewrite <- app_assoc|done|done|by eexists]. }
  pose proof (list_spread _ _ _ _ I) as [Hnd _].
  apply subseteq_size in Hsub. rewrite size_list_to_set, size_dom in Hsub.
  - rewrite length_fmap in Hsub. cbn in Hsub. lia.
  - apply NoDup_fmap_2; [|done]. intros x y. lia.
Qed.

End Search.

(** ** The statistics of a search do not touch the heap *)
Lemma heap_inv_stats heap s bs fl t :
  heap_inv heap s bs fl -> let t0 := stats (hp_control s) in
  hs_size t = hs_size t0 -> free_size t = free_size t0 -> free_blocks t = free_blocks t0 ->
  used_blocks t = used_blocks t0 ->
  heap_inv heap (mk_heap_state (set_stats t (hp_control s)) (hp_words s)) bs fl.
Proof.
  intros [? ? ? ? ? ? ? ? ? ? ?] t0 T1 T2 T3 T4. subst t0.
  split; cbn [hp_control hp_words set_stats page_size min_block_size first_block last_block stats];
    try done; try congruence. by apply heap_area_stats.
Qed.

(** ** Allocation *)
Section Allocate.
Context (heap : Z).
Context (s : heap_state) (bs : list (Z * bool)) (fl : list Z).
Context (I : heap_inv heap s bs fl).

Abbreviation c := (hp_control s).
Abbreviation page := (page_size c).
Abbreviation first := (first_block c).

(** A block that answers serves the request. *)
Lemma allocate_block b g1 g2 n al bd p :
  0 <= n -> fl = g1 ++ b_at b :: g2 -> b ∈ placed first true bs -> b_used b = false ->
  placed_at s n al bd b p ->
  exists s' bs' fl', Heap_Block_allocate heap (b_at b) p n s = Ok (p - 8, s') /\
    allocated heap s bs s' bs' fl' (p - 8) p n.
Proof.
  intros Hn Hfl Hb Hu ((Hpp & Hend & Hpos) & _ & _).
  destruct (hi_area _ _ _ _ I) as [[? _] _ _ _ _].
  destruct Hpos as [-> |[Hlo Hhi]].
  - destruct (allocate_begin _ _ _ _ I b g1 g2 (b_at b + 8) n) as (s' & bs' & fl' & Hr & Ha);
      [done|done|done|lia|done|lia|].
    exists s', bs', fl'. by replace (b_at b + 8 - 8) with (b_at b) by lia.
  - destruct (allocate_end _ _ _ _ I b g1 g2 (p - 8) p n) as (s' & bs' & fl' & Hr & Ha);
      [done|done|done|lia|done|lia|lia|done|lia|]. by exists s', bs', fl'.
Qed.

(** The size of the new block, and the counters the operation updates last. *)
Definition count_stats (cnt size : Z) (t : Heap_Statistics) : Heap_Statistics :=
  stat_lifetime_allocated (fun x => u64 (x + size))
    (stat_searches (fun x => u32 (x + cnt)) (stat_allocs (fun x => u32 (x + 1)) t)).

Definition search_stats (cnt : Z) (t : Heap_Statistics) : Heap_Statistics :=
  if max_search t <? cnt then stat_max_search cnt t else t.

Lemma search_stats_same cnt t :
  hs_size (search_stats cnt t) = hs_size t /\ free_size (search_stats cnt t) = free_size t /\
  free_blocks (search_stats cnt t) = free_blocks t /\ used_blocks (search_stats cnt t) = used_blocks t.
Proof. unfold search_stats. by destruct (max_search t <? cnt). Qed.

Lemma allocated_stats s' bs' fl' blk p n t :
  allocated heap s bs s' bs' fl' blk p n -> let t0 := stats (hp_control s') in
  hs_size t = hs_size t0 -> free_size t = free_size t0 -> free_blocks t = free_blocks t0 ->
  used_blocks t = used_blocks t0 ->
  allocated heap s bs (mk_heap_state (set_stats t (hp_control s')) (hp_words s')) bs' fl' blk p n.
Proof.
  intros [Hi (t' & Hc) Hu Hk] t0 T1 T2 T3 T4. split; [by apply heap_inv_stats| |done|done].
  exists t. cbn. by rewrite Hc.
Qed.

Lemma allocated_used_size s' bs' fl' blk p n :
  allocated heap s bs s' bs' fl' blk p n -> exists usz f, even32 usz /\
    hp_words s' !! (blk + 4) = Some (usz + b2z f).
Proof.
  intros [Hi (t' & Hc) (usz & Hu & _) _].
  assert ((blk, usz) ∈ used_at (placed first true bs')) as Hin by (rewrite Hu; left).
  apply used_at_elem in Hin as (b & Hb & <- & <- & _).
  assert (first_block (hp_control s') = first) as E by (by rewrite Hc).
  rewrite <- E in Hb. apply (all_real _ _ _ _ Hi) in Hb.
  exists (b_size b), (b_prev b).
  split; [by apply (all_even _ _ _ _ Hi)|by apply (all_word _ _ _ _ Hi)].
Qed.

(** A request that is refused only counts. *)
Record refused (s' : heap_state) : Prop := {
  rf_words : hp_words s' = hp_words s;
  rf_control : exists t, hp_control s' = set_stats t c;
  rf_inv : heap_inv heap s' bs fl
}.

Lemma first_run {B} (k : Z -> cm heap_state B) :
  (Heap_Free_list_first heap ≫= k) s = k (hd heap fl) s.
Proof.
  destruct (list_after heap fl) as (y & s2 & Hs2).
  destruct (list_pair (hp_words s) heap [] fl [] heap y s2) as [Hy _]; [apply I|done|done|].
  unfold Heap_Free_list_first, ld_next, Heap_Free_list_head. hstep Hy.
  destruct fl; by injection Hs2 as -> _.
Qed.

(** The request is served from the first block that answers. *)
Definition serves (n al bd p : Z) (s' : heap_state) : Prop :=
  p <> 0 /\ (exists bs' fl', allocated heap s bs s' bs' fl' (p - 8) p n) /\ p mod page = 0 /\
  (al = 0 \/ p mod al = 0) /\ crosses_no bd p n /\
  (al = 0 -> bd = 0 -> exists g1 b g2, fl = g1 ++ b_at b :: g2 /\ b ∈ placed first true bs /\
     p = b_at b + 8 /\ n + 4 <= b_size b /\ too_small s bs n g1).

Lemma search_serves n al bd al' :
  al' = (if negb (bd =? 0) && (al =? 0) then page else al) ->
  0 <= n -> n + 4 < 2 ^ 32 -> 0 <= al -> al mod page = 0 -> 0 <= bd -> bd = 0 \/ n <= bd ->
  exists blk p cnt, search_loop heap (size (hp_words s)) (hd heap fl) n al' bd 0 s =
      Ok (blk, p, cnt, s) /\
    (p = 0 /\ (al = 0 -> bd = 0 -> too_small s bs n fl) \/
     p <> 0 /\ exists g1 g2 b, fl = g1 ++ blk :: g2 /\ b ∈ placed first true bs /\ b_at b = blk /\
       b_used b = false /\ placed_at s n al bd b p /\
       (al = 0 -> bd = 0 -> too_small s bs n g1 /\ p = blk + 8)).
Proof.
  intros Eal Hn Hn4 Hal Hap Hbd Hnb. destruct (hi_area _ _ _ _ I) as [[? _] _ _ _ _].
  assert (0 <= al' /\ al' mod page = 0 /\ (al' = 0 -> bd = 0) /\
    (al = 0 -> bd = 0 -> al' = 0) /\ (al = 0 \/ al = al')) as (A1 & A2 & A3 & A4 & A5).
  { rewrite Eal. destruct (Z.eqb_spec bd 0), (Z.eqb_spec al 0); cbn [negb andb];
      rewrite ?Z.mod_same by lia; repeat split; lia || done || tauto. }
  destruct (search_ok heap s bs fl I n al' bd Hn Hn4 A1 A2 Hbd Hnb A3 (size (hp_words s)) [] fl 0)
    as (blk & p & cnt & Hr & Hc); [done|apply (free_list_length _ _ _ _ I)|].
  exists blk, p, cnt. split; [done|].
  destruct Hc as [[-> Hc]|(g1 & g2 & b & Hfl & Hb & Hat & Hu & Hp & (Hf & Hal2 & Hx) & Hc)].
  - left. auto.
  - right. split; [done|]. exists g1, g2, b. do 4 (split; [done|]). split; [|auto].
    split; [done|]. split; [|done]. destruct A5 as [->| ->]; [by left|done].
Qed.

Lemma allocate_ok n al bd :
  0 <= n < 2 ^ 32 -> 0 <= al -> al mod page = 0 -> 0 <= bd ->
  exists p s', Heap_Allocate_aligned_with_boundary heap n al bd s = Ok (p, s') /\
    (p = 0 /\ refused s' /\ (al = 0 -> bd = 0 -> n + 4 < 2 ^ 32 -> too_small s bs n fl) \/
     serves n al bd p s').
Proof.
  intros Hn Hal Hap Hbd. unfold Heap_Allocate_aligned_with_boundary.
  unfold HEAP_BLOCK_HEADER_SIZE, HEAP_ALLOC_BONUS. replace (n + 8 - 4) with (n + 4) by lia.
  rewrite ctl_bind. assert (refused s) as Hrs by (split; [done|by exists (stats c); destruct c|done]).
  destruct (Z.ltb_spec (u32 (n + 4)) n) as [Hov|Hov].
  { exists 0, s. split; [done|]. left. split; [done|]. split; [done|]. intros _ _ Hlt.
    rewrite u32_id in Hov by lia. lia. }
  destruct (negb (bd =? 0) && (bd <? n)) eqn:Eb.
  { exists 0, s. split; [done|]. left. split; [done|]. split; [done|]. by intros _ ->. }
  assert (n + 4 < 2 ^ 32) as Hn4.
  { destruct (Z.lt_ge_cases (n + 4) (2 ^ 32)) as [|Hge]; [done|].
    unfold u32 in Hov. rewrite <- (Z.mod_unique (n + 4) (2 ^ 32) 1 (n + 4 - 2 ^ 32)) in Hov; lia. }
  assert (bd = 0 \/ n <= bd) as Hnb.
  { apply andb_false_iff in Eb as [?%negb_false_iff%Z.eqb_eq|?%Z.ltb_ge]; auto. }
  rewrite first_run, gets_bind.
  destruct (search_serves n al bd _ eq_refl) as (blk & p & cnt & Hr & Hc); [lia|done..|].
  rewrite (cm_bind_ok _ _ _ _ _ Hr).
  destruct Hc as [[-> Hc]|(Hp & g1 & g2 & b & Hfl & Hb & <- & Hu & Hpl & Hc)].
  - cbn [Z.eqb negb]. rewrite !upd_stats_bind. eexists 0, _. split; [reflexivity|].
    left. split; [done|]. split; [|auto]. split; [done|by eexists|].
    set (t := search_stats cnt (stat_failed_allocs (fun x => u32 (x + 1)) (stats c))).
    destruct (search_stats_same cnt (stat_failed_allocs (fun x => u32 (x + 1)) (stats c)))
      as (? & ? & ? & ?). by apply (heap_inv_stats heap s bs fl t).
  - rewrite (proj2 (Z.eqb_neq p 0)) by done. cbn [negb].
    destruct (allocate_block b g1 g2 n al bd p) as (s1 & bs' & fl' & Ha & Hal1); [lia|done..|].
    destruct (allocated_used_size _ _ _ _ _ _ Hal1) as (usz & f & He & Hw).
    rewrite cm_bind_assoc, (cm_bind_ok _ _ _ _ _ Ha), cm_bind_assoc, upd_stats_bind.
    rewrite cm_bind_assoc, upd_stats_bind, cm_bind_assoc, (block_size_bind _ usz f) by done.
    rewrite !upd_stats_bind. eexists p, _. split; [reflexivity|]. right. split; [done|].
    set (t1 := count_stats cnt usz (stats (hp_control s1))).
    destruct (search_stats_same cnt t1) as (? & ? & ? & ?).
    split; [exists bs', fl'; by apply (allocated_stats s1 bs' fl' _ p n (search_stats cnt t1))|].
    destruct Hpl as ((Hpp & Hfit & _) & ? & ?). do 3 (split; [done|]).
    intros E1 E2. destruct (Hc E1 E2) as [? ->]. exists g1, b, g2. do 3 (split; [done|]). by split; [lia|].
Qed.

End Allocate.
