(* ===== verification/HeapFree.v ===== *)
(** * Freeing

    [_Heap_Free] on a used block: it becomes free alone, or one block with the
    free blocks before and behind it, so that no two neighbours are free; and
    the calls it rejects. *)

From stdpp Require Import base tactics numbers option list list_numbers gmap fin_maps.
From stdpp Require Import fin_map_dom fin_sets.
From Stdlib Require Import ZArith Lia.
From S2P Require Import Prelude Chain Objects Heap HeapList HeapBlocks HeapRun HeapInv HeapAlloc.
From S2P Require Import HeapPlace HeapSearch.

Open Scope Z_scope.

Definition free_stats (sz : Z) (t : Heap_Statistics) : Heap_Statistics :=
  stat_lifetime_freed (fun x => u64 (x + sz)) (stat_free_size (fun x => u32 (x + sz))
    (stat_frees (fun x => u32 (x + 1)) (stat_used_blocks (fun x => u32 (x - 1)) t))).

Lemma free_statistics_run sz s :
  free_statistics sz s =
  Ok (true, mk_heap_state (set_stats (free_stats sz (stats (hp_control s))) (hp_control s))
              (hp_words s)).
Proof. done. Qed.

(** The tags of a merged block of the size [sz] from [a] to [e], before the
    block [nsz]. *)
Definition merge_words (a e sz nsz : Z) (m : words) : words :=
  <[e := sz]> (<[e + 4 := nsz]> (<[a + 4 := sz + 1]> m)).

Section Free.
Context (heap : Z).
Context (s : heap_state) (bs : list (Z * bool)) (fl : list Z).
Context (I : heap_inv heap s bs fl).

Abbreviation c := (hp_control s).
Abbreviation page := (page_size c).
Abbreviation min := (min_block_size c).
Abbreviation first := (first_block c).
Abbreviation last := (last_block c).
Abbreviation all := (placed first true (bs ++ [end_block c])).

(** What freeing the block [x] of the size [sz] achieves. *)
Record freed (s' : heap_state) (bs' : list (Z * bool)) (fl' : list Z) (x sz : Z) : Prop := {
  fr_inv : heap_inv heap s' bs' fl';
  fr_control : exists t, hp_control s' = set_stats t c;
  fr_used : used_at (placed first true bs) ≡ₚ (x, sz) :: used_at (placed first true bs');
  fr_keeps : keeps (hp_words s) (hp_words s') (placed first true bs')
}.

(** The blocks [mid], one of them used, become one free block. *)
Lemma released l1 mid l2 ab nx fl' rest t m1 x xsz :
  bs = l1 ++ mid ++ l2 -> mid <> [] -> used_before true l1 = true ->
  let a := first + total l1 in let sz := total mid in let e := a + sz in
  ab ∈ all -> b_at ab = a -> nx ∈ all -> b_at nx = e -> b_used nx = true ->
  changes (a :: heap :: fl) (hp_words s) m1 -> free_list m1 heap fl' ->
  fl ≡ₚ free_at (placed a true mid) ++ rest -> fl' ≡ₚ a :: rest ->
  used_at (placed a true mid) = [(x, xsz)] ->
  hs_size t = hs_size (stats c) -> free_size t = free_total (l1 ++ l2) + sz ->
  free_blocks t = Z.of_nat (length fl') -> used_blocks t = used_number (l1 ++ l2) ->
  freed (mk_heap_state (set_stats t c) (merge_words a e sz (b_size nx) m1))
    (l1 ++ [(sz, false)] ++ l2) fl' x xsz.
Proof.
  intros Hbs Hmid Hpu a sz e Hab Haat Hnx Hnat Hnu [Hc1 Hm1] Hl Hrest Hfl' Hua T1 T2 T3 T4.
  destruct (hi_area _ _ _ _ I) as [[P8 _] [M16 _] [F0 _] [? L32] _].
  pose proof (hi_sizes _ _ _ _ I) as Hs. rewrite Hbs in Hs.
  apply sizes_app in Hs as [Hs1 Hs2]. apply sizes_app in Hs2 as [Hs2 Hs3].
  assert (sz mod page = 0) as Hszp by (eapply sizes_total; [lia|exact Hs2]).
  assert (min <= sz) as Hszm.
  { unfold sz. destruct mid as [|m mid]; [done|]. apply Forall_cons in Hs2 as [[Hm _] Hs2].
    apply (sizes_large _ _ _ M16), total_nonneg in Hs2. cbn [total]. lia. }
  assert (forall w, w = a + 4 \/ w = e \/ w = e + 4 -> ~ link_word (a :: heap :: fl) w) as Hlk.
  { intros w Hw (y & Hy & Hyw). apply elem_of_cons in Hy as [-> |Hy]; [unfold e in *; lia|].
    pose proof (not_link _ _ _ _ I ab Hab) as [_ N1]. pose proof (not_link _ _ _ _ I nx Hnx) as [N2 N3].
    rewrite Haat in N1. rewrite Hnat in N2, N3.
    destruct Hw as [-> |[-> | ->]]; [apply N1|apply N2|apply N3]; by exists y. }
  assert (forall y, y ∈ heap :: fl' -> y ∈ a :: heap :: fl) as Hsub.
  { intros y. rewrite !elem_of_cons, Hfl', Hrest, elem_of_cons, elem_of_app. tauto. }
  set (m' := merge_words a e sz (b_size nx) m1).
  assert (region_frame a e (heap :: fl) (hp_words s) m') as Hrf.
  { split; unfold m', merge_words.
    - intros w Hw Hlw. rewrite !lookup_insert_ne by (unfold e in *; lia). apply Hc1.
      intros (y & Hy & Hyw). apply elem_of_cons in Hy as [-> |Hy]; [unfold e in *; lia|].
      apply Hlw. by exists y.
    - intros w Hw. rewrite !lookup_insert_is_Some'. auto. }
  assert (forall y, y ∈ heap :: fl -> y = heap \/ y ∈ fl \/ a <= y /\ y + 16 <= e) as Hnodes
    by (intros y [-> |Hy]%elem_of_cons; auto).
  assert (placed first true bs = placed first true l1 ++ placed a true mid ++
    placed e (used_before true mid) l2) as Eall.
  { by rewrite Hbs, !placed_app, Hpu. }
  assert (rest ≡ₚ free_at (placed first true l1) ++ free_at (placed e true l2)) as Erest.
  { pose proof (hi_free _ _ _ _ I) as Hf. rewrite Eall, !free_at_app in Hf.
    rewrite (free_at_placed e _ true) in Hf.
    apply (Permutation_app_inv_l (free_at (placed a true mid))). rewrite <- Hrest, Hf.
    rewrite !app_assoc. apply Permutation_app_tail, Permutation_app_comm. }
  split; cbn [hp_control hp_words].
  - eapply (inv_rebuild _ _ _ _ I l1 mid l2 [(sz, false)] _ (heap :: fl));
      try done; fold a; fold sz; fold e; rewrite ?Hpu.
    + cbn. lia.
    + constructor; [done|constructor].
    + cbn [placed]. constructor; [|constructor]. split; cbn; unfold m', merge_words.
      * by rewrite !lookup_insert_ne, lookup_insert_eq by (unfold e; lia).
      * intros _. split; [done|]. apply lookup_insert_eq.
    + intros nsz nu l3 E. destruct (block_after _ _ _ _ I e l2 nsz nu l3 nx) as [-> ->]; [|done..|].
      { exists (l1 ++ mid). rewrite <- app_assoc. split; [done|]. rewrite total_app. unfold e, a, sz. lia. }
      split; [|congruence]. unfold m', merge_words.
      by rewrite lookup_insert_ne, lookup_insert_eq, Z.add_0_r by lia.
    + unfold m', merge_words. repeat apply free_list_insert; try done;
        intros (y & Hy & Hyw); (eapply Hlk; [|exists y; split; [by apply Hsub|exact Hyw]]); auto.
    + rewrite Hfl', Erest, !placed_app, !free_at_app, Hpu. cbn [placed total fst].
      rewrite Z.add_0_r. fold a. fold e. rewrite (free_at_placed e (used_before true [(sz, false)]) true). cbn.
      apply Permutation_middle.
    + rewrite T2, !free_total_app, free_total_cons. change (free_total []) with 0. lia.
    + rewrite T4, !used_number_app, used_number_cons. change (used_number []) with 0. cbn. lia.
  - by eexists.
  - rewrite Eall, !placed_app, !used_at_app, Hua, Hpu. fold a. cbn [placed total fst].
    rewrite Z.add_0_r. fold e. rewrite (used_at_placed e (used_before true mid) true).
    rewrite (used_at_placed e (used_before true [(sz, false)]) true). cbn. symmetry. apply Permutation_middle.
  - destruct (region_keeps _ _ _ _ I l1 mid l2 (heap :: fl) m' Hbs Hrf Hnodes) as [K1 K2].
    rewrite !placed_app. cbn [total fst]. rewrite Z.add_0_r.
    intros b' w Hb'. rewrite !elem_of_app in Hb'.
    destruct Hb' as [Hb'|[->%list_elem_of_singleton|Hb']]; [by apply K1|done|by eapply K2].
Qed.

(** ** The block and its neighbours *)
Section Block.
Context (b nb : block) (l1 l2 : list (Z * bool)).
Context (Hb : b ∈ placed first true bs) (Hu : b_used b = true).
Context (Hbs : bs = l1 ++ (b_size b, true) :: l2) (Hat : b_at b = first + total l1).
Context (Hprev : b_prev b = used_before true l1).
Context (Hnb : nb ∈ all) (Hnat : b_at nb = b_at b + b_size b) (Hnp : b_prev nb = true).

Lemma list_apart x : x ∈ heap :: fl -> x + 16 <= b_at b \/ b_at b + 16 <= x.
Proof.
  pose proof (real_bounds _ _ _ _ I b Hb) as (? & ? & ? & _).
  destruct (hi_area _ _ _ _ I) as [_ [? _] [? ?] [? ?] Hap]. intros [-> |Hx]%elem_of_cons; [lia|].
  apply (free_block _ _ _ _ I) in Hx as (b' & Hb' & <- & Hu').
  pose proof (real_bounds _ _ _ _ I b' Hb') as (_ & _ & ? & _).
  destruct (all_apart _ _ _ _ I b b' Hb (all_real _ _ _ _ I _ Hb')) as [-> |[?|?]]; [congruence|lia|lia].
Qed.

Lemma prev_free :
  b_prev b = false -> exists l1' psz, l1 = l1' ++ [(psz, false)] /\ used_before true l1' = true /\
    mk_block (first + total l1') psz true false ∈ placed first true bs /\
    first + total l1' + psz = b_at b.
Proof.
  intros Hp. destruct (exists_last (l := l1)) as (l1' & [psz pu] & E).
  { intros ->. cbn in Hprev. congruence. }
  rewrite E, used_before_app in Hprev. cbn in Hprev. assert (pu = false) as -> by congruence.
  assert (mk_block (first + total l1') psz (used_before true l1') false ∈ placed first true bs) as Hin.
  { rewrite Hbs, E, <- app_assoc, placed_app. apply elem_of_app. right. left. }
  destruct (all_free _ _ _ _ I _ (all_real _ _ _ _ I _ Hin) eq_refl) as [Hpp _]. cbn in Hpp.
  rewrite Hpp in Hin. exists l1', psz. do 3 (split; [done|]).
  rewrite Hat, E, total_app. cbn. lia.
Qed.

Lemma next_free :
  b_used nb = false -> nb ∈ placed first true bs /\ exists l2', l2 = (b_size nb, false) :: l2'.
Proof.
  intros Hn. split.
  - destruct (all_cases _ _ _ _ I nb Hnb) as [?| ->]; done.
  - destruct (l2 ++ [end_block c]) as [|[nsz nu] l3] eqn:E; [by destruct l2|].
    destruct (block_after _ _ _ _ I (b_at nb) l2 nsz nu l3 nb) as [-> Enu]; [|done|done|done|].
    { exists (l1 ++ [(b_size b, true)]). rewrite <- app_assoc. split; [done|].
      rewrite total_app, Hnat, Hat. cbn. lia. }
    rewrite Hn in Enu. subst nu. destruct l2 as [|[sz2 u2] l2']; [by destruct c|].
    injection E as -> -> _. by exists l2'.
Qed.

(** The statistics. *)
Lemma free_stats_facts t :
  hs_size t = hs_size (stats c) -> free_size t = free_size (stats c) ->
  used_blocks t = used_blocks (stats c) ->
  let t' := free_stats (b_size b) t in
  hs_size t' = hs_size (stats c) /\ free_size t' = free_total (l1 ++ l2) + b_size b /\
  free_blocks t' = free_blocks t /\ used_blocks t' = used_number (l1 ++ l2).
Proof.
  intros T1 T2 T3. pose proof (inv_large _ _ _ _ I) as Hl. pose proof (inv_total _ _ _ _ I) as [Ht _].
  rewrite (hi_stat_free _ _ _ _ I) in T2. rewrite (hi_stat_used _ _ _ _ I) in T3.
  rewrite Hbs in Hl, Ht, T2, T3. rewrite total_app in Ht. cbn [total fst] in Ht.
  rewrite free_total_app, free_total_cons in T2. rewrite used_number_app, used_number_cons in T3.
  apply Forall_app in Hl as [L1 L2]. apply Forall_cons in L2 as [Hz L2]. cbn in Hz.
  destruct (free_bounds 0 true _ L1) as (? & _ & ?). destruct (free_bounds 0 true _ L2) as (? & _ & ?).
  pose proof (number_bound _ L1). pose proof (number_bound _ L2).
  rewrite free_total_app, used_number_app. unfold free_stats.
  cbn [stat_lifetime_freed stat_free_size stat_frees stat_used_blocks hs_size free_size free_blocks
    used_blocks]. cbn [b2z] in T3. rewrite !u32_id by lia. repeat split; lia.
Qed.

Lemma number_small : Z.of_nat (length fl) < 2 ^ 30.
Proof.
  pose proof (inv_large _ _ _ _ I) as Hl. pose proof (inv_total _ _ _ _ I) as [Ht _].
  pose proof (number_bound _ Hl). destruct (free_bounds first true _ Hl) as (_ & ? & _).
  rewrite (Permutation_length (hi_free _ _ _ _ I)). lia.
Qed.

(** What the code reads of a free block before the block. *)
Lemma prev_facts pb :
  pb ∈ placed first true bs -> b_used pb = false -> b_at pb + b_size pb = b_at b ->
  hp_words s !! b_at b = Some (b_size pb) /\
  Heap_Block_at (b_at b) (u32 (- b_size pb)) = b_at pb /\
  (first <=? b_at pb) && (b_at pb <=? last) = true /\
  hp_words s !! (b_at pb + 4) = Some (b_size pb + b2z true) /\ even32 (b_size pb) /\
  16 <= b_size pb /\ b_at b + b_size b < 2 ^ 32 /\ 0 < b_at pb.
Proof.
  intros Hpb Hpu Hpat. pose proof (all_real _ _ _ _ I pb Hpb) as Ha.
  pose proof (real_bounds _ _ _ _ I b Hb) as (? & ? & _).
  pose proof (real_bounds _ _ _ _ I pb Hpb) as (? & ? & ? & _).
  destruct (hi_area _ _ _ _ I) as [_ [? _] [? ?] [? ?] _].
  destruct (all_free _ _ _ _ I pb Ha Hpu) as [Hpp Hw]. rewrite Hpat in Hw.
  split; [done|]. split.
  { unfold Heap_Block_at, u32. rewrite Z.add_mod_idemp_r by lia. rewrite Z.mod_small; lia. }
  split; [lia|]. split; [rewrite <- Hpp; by apply (all_word _ _ _ _ I)|].
  split; [by apply (all_even _ _ _ _ I)|]. lia.
Qed.

(** ** The four cases *)
Lemma words_used :
  hp_words s !! (b_at nb + 4) = Some (b_size nb + b2z true) /\ even32 (b_size nb) /\
  even32 (b_size b) /\ is_Some (hp_words s !! b_at nb) /\ is_Some (hp_words s !! (b_at b + 4)) /\
  is_Some (hp_words s !! (b_at b + 8)) /\ is_Some (hp_words s !! (b_at b + 12)) /\
  16 <= b_size b.
Proof.
  pose proof (all_real _ _ _ _ I b Hb) as Ha.
  pose proof (real_bounds _ _ _ _ I b Hb) as (? & ? & ? & S0 & B8).
  destruct (hi_area _ _ _ _ I) as [[? P] [? _] [? ?] [? ?] _].
  rewrite <- Hnp. split; [by apply (all_word _ _ _ _ I)|]. split; [by apply (all_even _ _ _ _ I)|].
  split; [by apply (all_even _ _ _ _ I)|].
  assert (b_at b mod 4 = 0) as Hb4.
  { apply (mod_page4 page _ P) in B8; [|lia]. replace (b_at b) with (b_at b + 8 - 8) by lia.
    by apply mod_sub. }
  assert (forall w, first <= w <= last + 4 -> w mod 4 = 0 -> is_Some (hp_words s !! w)) as Hm by apply I.
  split; [|repeat split; try lia; apply Hm; try lia; by apply mod_add].
  rewrite Hnat. apply Hm; [lia|]. apply mod_add; [lia|done|]. by apply (mod_page4 page); [|lia|].
Qed.

Lemma free_alone :
  b_prev b = true -> b_used nb = true ->
  exists s' bs' fl', free_coalesce heap (b_at b) (b_size b) (b_at nb) (b_size nb) false true s =
    Ok (true, s') /\ freed s' bs' fl' (b_at b) (b_size b).
Proof.
  intros Hp Hn. destruct words_used as (W1 & W2 & W3 & W4 & W5 & W6 & W7 & W8).
  destruct (list_insert_after_run heap [] fl [] heap (b_at b) s) as (m1 & Hr & Hl & Hc & Hm);
    [apply I| |done|done|done|].
  { apply (spread_insert heap [] fl); [apply (list_spread _ _ _ _ I)|exact list_apart]. }
  assert (m1 !! (b_at nb + 4) = Some (b_size nb + b2z true)) as W1'.
  { rewrite Hc; [done|]. intros (y & Hy & Hyw). apply elem_insert in Hy as [-> |Hy].
    - lia.
    - apply (proj2 (not_link _ _ _ _ I nb Hnb)). by exists y. }
  unfold free_coalesce, st_size_and_flag, ld_size_and_flag, st_prev_size. cbn [negb].
  rewrite (cm_bind_ok _ _ _ _ _ Hr).
  rewrite hst_bind by (cbn; auto). rewrite (hld_bind _ (b_size nb + b2z true))
    by (cbn; by rewrite lookup_insert_ne by lia).
  rewrite hst_bind by (cbn; rewrite lookup_insert_is_Some'; right; by eexists).
  rewrite hst_bind by (cbn; rewrite !lookup_insert_is_Some'; auto).
  rewrite !upd_stats_bind, free_statistics_run, land_size_mask, lor_new by (done || apply W3).
  eexists _, _, _. split; [reflexivity|].
  cbn [hp_control hp_words set_hp_control set_hp_words set_stats stats].
  set (t1 := if _ <? _ then _ else _).
  destruct (free_stats_facts t1) as (T1 & T2 & T3 & T4); [unfold t1; by destruct (_ <? _)..|].
  pose proof (released l1 [(b_size b, true)] l2 b nb (b_at b :: fl) fl (free_stats (b_size b) t1) m1
    (b_at b) (b_size b)) as R. cbn [total fst] in R. rewrite Z.add_0_r, <- Hat, <- Hnat in R.
  apply R; try done.
  - congruence.
  - apply (all_real _ _ _ _ I b Hb).
  - apply (changes_sub (heap :: b_at b :: fl)); [done|]. intros x Hx. revert Hx. in_list.
  - rewrite T3. assert (free_blocks t1 = u32 (free_blocks (stats c) + 1)) as ->
      by (unfold t1; by destruct (_ <? _)).
    rewrite (hi_stat_number _ _ _ _ I). pose proof number_small.
    rewrite u32_id by lia. cbn [length]. lia.
Qed.

Lemma free_with_prev :
  b_prev b = false -> b_used nb = true ->
  exists s' bs' fl', free_coalesce heap (b_at b) (b_size b) (b_at nb) (b_size nb) false false s =
    Ok (true, s') /\ freed s' bs' fl' (b_at b) (b_size b).
Proof.
  intros Hp Hn. destruct words_used as (W1 & W2 & W3 & W4 & W5 & W6 & W7 & W8).
  destruct (prev_free Hp) as (l1' & psz & El1 & Hpu & Hpb & Hpat).
  set (pb := mk_block (first + total l1') psz true false) in *.
  destruct (prev_facts pb Hpb eq_refl Hpat) as (V1 & V2 & V3 & V4 & V5 & V6 & V7 & V8).
  cbn [pb b_at b_size] in V1, V2, V3, V4, V5, V6, V8.
  set (a := first + total l1') in *.
  unfold free_coalesce, st_size_and_flag, ld_size_and_flag, st_prev_size, ld_prev_size. cbn [negb].
  hstep V1. rewrite V2, in_heap_bind, V3. cbn [negb].
  rewrite (prev_used_bind a psz true) by done. cbn [negb].
  rewrite (u32_id (b_size b + psz)) by lia.
  rewrite hst_bind by (by eexists). rewrite (hld_bind _ (b_size nb + b2z true))
    by (cbn; by rewrite lookup_insert_ne by lia).
  rewrite hst_bind by (cbn; rewrite lookup_insert_is_Some'; right; by eexists).
  rewrite hst_bind by (cbn; rewrite !lookup_insert_is_Some'; auto).
  assert ((b_size b + psz) mod 2 = 0) as Hev by (apply mod_add; [lia|apply W3|apply V5]).
  rewrite free_statistics_run, land_size_mask, lor_new by done.
  eexists _, _, _. split; [reflexivity|].
  cbn [hp_control hp_words set_hp_control set_hp_words set_stats stats].
  destruct (free_stats_facts (stats c)) as (T1 & T2 & T3 & T4); [done..|].
  assert (a ∈ fl) as Ha by (apply (free_block _ _ _ _ I); by exists pb).
  apply elem_of_Permutation in Ha as (rest & Hrest).
  pose proof (released l1' [(psz, false); (b_size b, true)] l2 pb nb fl rest
    (free_stats (b_size b) (stats c)) (hp_words s) (b_at b) (b_size b)) as R.
  cbn [total fst] in R. fold a in R. replace (psz + (b_size b + 0)) with (b_size b + psz) in R by lia.
  replace (a + (b_size b + psz)) with (b_at nb) in R by lia.
  apply R; try done.
  - rewrite Hbs, El1, <- app_assoc. done.
  - apply (all_real _ _ _ _ I _ Hpb).
  - apply I.
  - cbn. by rewrite Hpat.
  - rewrite T2, El1, !free_total_app, free_total_cons. change (free_total []) with 0. lia.
  - rewrite T3. apply I.
  - rewrite T4, El1, !used_number_app, used_number_cons. change (used_number []) with 0. cbn. lia.
Qed.

(** What the code finds behind a free block [nb]. *)
Lemma next_facts :
  b_used nb = false -> exists nx l2' f1 f2,
    l2 = (b_size nb, false) :: l2' /\ fl = f1 ++ b_at nb :: f2 /\
    nx ∈ all /\ b_at nx = b_at nb + b_size nb /\ b_used nx = true /\
    hp_words s !! (b_at nx + 4) = Some (b_size nx) /\ is_Some (hp_words s !! b_at nx) /\
    ~ link_word (heap :: fl) (b_at nx) /\ ~ link_word (heap :: fl) (b_at nx + 4) /\
    16 <= b_size nb /\ b_at nb + b_size nb < 2 ^ 32 /\ 0 < b_at b.
Proof.
  intros Hn. destruct (next_free Hn) as [Hnr (l2' & El2)].
  destruct (behind_free _ _ _ _ I nb Hnr Hn) as (nx & Hnx & Hxat & Hxu & Hxp).
  pose proof (all_word _ _ _ _ I nx Hnx) as Hxw. rewrite Hxp, Z.add_0_r in Hxw.
  destruct (not_link _ _ _ _ I nx Hnx) as [N1 N2].
  pose proof (real_bounds _ _ _ _ I b Hb) as (? & _).
  pose proof (real_bounds _ _ _ _ I nb Hnr) as (? & ? & ? & _).
  destruct (hi_area _ _ _ _ I) as [_ [? _] [? ?] [? ?] _].
  assert (b_at nb ∈ fl) as Hin by (apply (free_block _ _ _ _ I); by exists nb).
  apply list_elem_of_split in Hin as (f1 & f2 & Hfl).
  destruct (all_free _ _ _ _ I nb (all_real _ _ _ _ I nb Hnr) Hn) as [_ Hw].
  exists nx, l2', f1, f2. do 6 (split; [done|]). split; [rewrite Hxat; by eexists|].
  do 2 (split; [done|]). lia.
Qed.

Lemma free_with_next :
  b_prev b = true -> b_used nb = false ->
  exists s' bs' fl', free_coalesce heap (b_at b) (b_size b) (b_at nb) (b_size nb) true true s =
    Ok (true, s') /\ freed s' bs' fl' (b_at b) (b_size b).
Proof.
  intros Hp Hn. destruct words_used as (W1 & W2 & W3 & W4 & W5 & W6 & W7 & W8).
  destruct (next_facts Hn) as (nx & l2' & f1 & f2 & El2 & Hfl & Hnx & Hxat & Hxu & X1 & X2 & X3 & X4
    & X5 & X6 & X7).
  assert (spread (heap :: f1 ++ b_at b :: f2)) as Hsp.
  { apply spread_insert.
    - pose proof (list_spread _ _ _ _ I) as Hsp. rewrite Hfl in Hsp.
      apply (spread_sub _ _ Hsp); [|intros x; in_list].
      eapply sublist_NoDup; [apply Hsp|]. apply sublist_skip, sublist_app; [done|by apply sublist_cons].
    - intros x Hx. apply list_apart. rewrite Hfl. revert Hx. in_list. }
  destruct (list_replace_run heap f1 (b_at nb) f2 (b_at b) s) as (m1 & Hr & Hl & Hc & Hm);
    [rewrite <- Hfl; apply I|done|done|done|].
  assert (m1 !! (b_at nx + 4) = Some (b_size nx)) as X1'.
  { rewrite Hc; [done|]. intros (y & Hy & Hyw). apply elem_insert in Hy as [-> |Hy]; [lia|].
    apply X4. exists y. split; [|done]. rewrite Hfl. revert Hy. in_list. }
  unfold free_coalesce, st_size_and_flag, st_prev_size, Heap_Block_at. cbn [negb].
  rewrite (cm_bind_ok _ _ _ _ _ Hr). rewrite (u32_id (b_size b + b_size nb)) by lia.
  replace (b_at b + (b_size b + b_size nb)) with (b_at nx) by lia. rewrite (u32_id (b_at nx)) by lia.
  rewrite hst_bind by (cbn; auto). rewrite hst_bind by (cbn; rewrite !lookup_insert_is_Some'; auto).
  assert ((b_size b + b_size nb) mod 2 = 0) as Hev by (apply mod_add; [lia|apply W3|apply W2]).
  rewrite free_statistics_run, lor_new by done. eexists _, _, _. split; [reflexivity|].
  cbn [hp_control hp_words set_hp_control set_hp_words set_stats stats].
  destruct (free_stats_facts (stats c)) as (T1 & T2 & T3 & T4); [done..|].
  pose proof (released l1 [(b_size b, true); (b_size nb, false)] l2' b nx (f1 ++ b_at b :: f2) (f1 ++ f2)
    (free_stats (b_size b) (stats c)) m1 (b_at b) (b_size b)) as R.
  cbn [total fst] in R. rewrite Z.add_0_r, <- Hat in R.
  replace (b_at b + (b_size b + b_size nb)) with (b_at nx) in R by lia.
  unfold merge_words in R. rewrite (insert_id _ (b_at nx + 4)) in R
    by (by rewrite lookup_insert_ne by lia).
  apply R; try done.
  - rewrite Hbs, El2. done.
  - congruence.
  - apply (all_real _ _ _ _ I b Hb).
  - apply (changes_sub (heap :: f1 ++ b_at b :: f2)); [done|]. intros x Hx. rewrite Hfl. revert Hx. in_list.
  - assert (free_at (placed (b_at b) true [(b_size b, true); (b_size nb, false)]) = [b_at nb]) as ->
      by (by rewrite Hnat). cbn [app]. by rewrite Hfl, Permutation_middle.
  - by rewrite Permutation_middle.
  - rewrite T2, El2, !free_total_app, free_total_cons. lia.
  - rewrite T3, (hi_stat_number _ _ _ _ I), Hfl, !length_app. done.
  - rewrite T4, El2, !used_number_app, used_number_cons. cbn. lia.
Qed.

Lemma free_with_both :
  b_prev b = false -> b_used nb = false ->
  exists s' bs' fl', free_coalesce heap (b_at b) (b_size b) (b_at nb) (b_size nb) true false s =
    Ok (true, s') /\ freed s' bs' fl' (b_at b) (b_size b).
Proof.
  intros Hp Hn. destruct words_used as (W1 & W2 & W3 & W4 & W5 & W6 & W7 & W8).
  destruct (next_facts Hn) as (nx & l2' & f1 & f2 & El2 & Hfl & Hnx & Hxat & Hxu & X1 & X2 & X3 & X4
    & X5 & X6 & X7).
  destruct (prev_free Hp) as (l1' & psz & El1 & Hpu & Hpb & Hpat).
  set (pb := mk_block (first + total l1') psz true false) in *.
  destruct (prev_facts pb Hpb eq_refl Hpat) as (V1 & V2 & V3 & V4 & V5 & V6 & V7 & V8).
  cbn [pb b_at b_size] in V1, V2, V3, V4, V5, V6, V8. set (a := first + total l1') in *.
  destruct (list_remove_run heap f1 (b_at nb) f2 s) as (m1 & Hr & Hl & Hc & Hm);
    [rewrite <- Hfl; apply I|rewrite <- Hfl; apply (list_spread _ _ _ _ I)|].
  assert (forall y, y ∈ heap :: f1 ++ f2 -> y ∈ heap :: fl) as Hsub by (intros y; rewrite Hfl; in_list).
  assert (m1 !! (b_at nx + 4) = Some (b_size nx)) as X1'.
  { rewrite Hc; [done|]. intros (y & Hy & Hyw). apply X4. exists y. auto. }
  unfold free_coalesce, st_size_and_flag, st_prev_size, ld_prev_size. cbn [negb].
  hstep V1. rewrite V2, in_heap_bind, V3. cbn [negb].
  rewrite (prev_used_bind a psz true) by done. cbn [negb]. unfold Heap_Block_at.
  rewrite (u32_id (b_size b + psz + b_size nb)) by lia. rewrite (cm_bind_ok _ _ _ _ _ Hr).
  replace (a + (b_size b + psz + b_size nb)) with (b_at nx) by lia. rewrite (u32_id (b_at nx)) by lia.
  rewrite upd_stats_bind.
  rewrite hst_bind by (cbn; apply Hm; by eexists).
  rewrite hst_bind by (cbn; rewrite !lookup_insert_is_Some'; auto).
  assert ((b_size b + psz + b_size nb) mod 2 = 0) as Hev
    by (apply mod_add; [lia|apply mod_add; [lia|apply W3|apply V5]|apply W2]).
  rewrite free_statistics_run, lor_new by done. eexists _, _, _. split; [reflexivity|].
  cbn [hp_control hp_words set_hp_control set_hp_words set_stats stats].
  set (t1 := stat_free_blocks _ _). destruct (free_stats_facts t1) as (T1 & T2 & T3 & T4); [done..|].
  assert (a ∈ f1 ++ f2) as Ha.
  { assert (a ∈ fl) as Ha by (apply (free_block _ _ _ _ I); by exists pb). rewrite Hfl in Ha.
    rewrite elem_of_app, elem_of_cons in Ha. rewrite elem_of_app. destruct Ha as [?|[?|?]]; auto. lia. }
  apply elem_of_Permutation in Ha as (rest & Hrest).
  pose proof (released l1' [(psz, false); (b_size b, true); (b_size nb, false)] l2' pb nx (f1 ++ f2) rest
    (free_stats (b_size b) t1) m1 (b_at b) (b_size b)) as R.
  cbn [total fst] in R. fold a in R.
  replace (psz + (b_size b + (b_size nb + 0))) with (b_size b + psz + b_size nb) in R by lia.
  replace (a + (b_size b + psz + b_size nb)) with (b_at nx) in R by lia.
  unfold merge_words in R. rewrite (insert_id _ (b_at nx + 4)) in R
    by (by rewrite lookup_insert_ne by lia).
  apply R; try done.
  - rewrite Hbs, El1, El2, <- app_assoc. done.
  - apply (all_real _ _ _ _ I _ Hpb).
  - apply (changes_sub (heap :: f1 ++ f2)); [done|]. intros x Hx. right. auto.
  - assert (free_at (placed a true [(psz, false); (b_size b, true); (b_size nb, false)]) = [a; b_at nb])
      as -> by (by rewrite Hnat, <- Hpat).
    rewrite Hfl, <- Permutation_middle, Hrest. apply Permutation_swap.
  - cbn. by rewrite Hpat.
  - rewrite T2, El1, El2, !free_total_app, !free_total_cons. change (free_total []) with 0. lia.
  - rewrite T3. cbn. rewrite (hi_stat_number _ _ _ _ I). pose proof number_small as Hs.
    rewrite Hfl in *. rewrite length_app in *. cbn [length] in *. rewrite u32_id; rewrite ?length_app; lia.
  - rewrite T4, El1, El2, !used_number_app, !used_number_cons. change (used_number []) with 0. cbn. lia.
Qed.

End Block.
(** ** The checks before the block is freed *)
Lemma free_head p b :
  b ∈ placed first true bs -> b_at b + 8 <= p < b_at b + 8 + page ->
  p <> 0 /\ u32 (p - p mod page - 8) = b_at b.
Proof.
  intros Hb Hp. pose proof (real_bounds _ _ _ _ I b Hb) as (? & ? & ? & _ & B8).
  destruct (hi_area _ _ _ _ I) as [[? ?] [? _] [? ?] [? ?] _]. split; [lia|].
  apply Z.mod_divide in B8 as [q Hq]; [|lia].
  assert (p mod page = p - (b_at b + 8)) as ->.
  { symmetry. apply (Z.mod_unique p page q); [lia|]. rewrite Hq. lia. }
  rewrite u32_id; lia.
Qed.

Lemma free_enter p b nb :
  b ∈ placed first true bs -> b_at b + 8 <= p < b_at b + 8 + page ->
  nb ∈ all -> b_at nb = b_at b + b_size b -> b_prev nb = b_used b ->
  Heap_Free heap p s =
  if b_used b
  then free_coalesce heap (b_at b) (b_size b) (b_at nb) (b_size nb) (negb (b_used nb)) (b_prev b) s
  else Ok (false, s).
Proof.
  intros Hb Hp Hnb Hnat Hnp. destruct (free_head p b Hb Hp) as [Hp0 Hblk].
  pose proof (real_bounds _ _ _ _ I b Hb) as (? & ? & ? & _).
  destruct (hi_area _ _ _ _ I) as [[? ?] [? _] [? ?] [? ?] _].
  pose proof (all_real _ _ _ _ I b Hb) as Ha.
  pose proof (all_word _ _ _ _ I b Ha) as Hw. pose proof (all_even _ _ _ _ I b Ha) as He.
  pose proof (all_word _ _ _ _ I nb Hnb) as Hnw. pose proof (all_even _ _ _ _ I nb Hnb) as Hne.
  destruct (all_next _ _ _ _ I nb Hnb) as (nx & Hnx & Hxat & Hxp).
  assert (Heap_Block_at (b_at b) (b_size b) = b_at nb) as En
    by (unfold Heap_Block_at; rewrite u32_id; lia).
  unfold Heap_Free. rewrite (proj2 (Z.eqb_neq p NULL)) by done.
  rewrite ctl_bind, block_of_bind, Hblk by lia. rewrite in_heap_bind.
  rewrite (proj2 (Z.leb_le first (b_at b))), (proj2 (Z.leb_le (b_at b) last)) by lia. cbn [andb negb].
  rewrite (block_size_bind (b_at b) (b_size b) (b_prev b)) by done.
  rewrite !En, in_heap_bind.
  rewrite (proj2 (Z.leb_le first (b_at nb))), (proj2 (Z.leb_le (b_at nb) last)) by lia.
  cbn [andb negb]. rewrite (prev_used_bind (b_at nb) (b_size nb) (b_prev nb)) by done. rewrite Hnp.
  destruct (b_used b); cbn [negb]; [|done].
  rewrite (block_size_bind (b_at nb) (b_size nb) (b_prev nb)) by done. rewrite ctl_bind.
  assert ((if negb (b_at nb =? last)
     then u ← Heap_Is_prev_used (Heap_Block_at (b_at nb) (b_size nb)); mret (negb u)
     else mret false) s = Ok (negb (b_used nb), s)) as Hnf.
  { destruct (Z.eqb_spec (b_at nb) last) as [E|E]; cbn [negb].
    - destruct (all_cases _ _ _ _ I nb Hnb) as [Hr| ->]; [|done].
      pose proof (real_bounds _ _ _ _ I nb Hr) as (_ & ? & ? & _). lia.
    - unfold Heap_Block_at. rewrite <- Hxat. rewrite (prev_used_bind (b_at nx) (b_size nx) (b_prev nx));
        [by rewrite Hxp|by apply (all_word _ _ _ _ I)|by apply (all_even _ _ _ _ I)]. }
  rewrite (cm_bind_ok _ _ _ _ _ Hnf).
  by rewrite (prev_used_bind (b_at b) (b_size b) (b_prev b)).
Qed.

Lemma free_ok p b :
  b ∈ placed first true bs -> b_used b = true -> b_at b + 8 <= p < b_at b + 8 + page ->
  exists s' bs' fl', Heap_Free heap p s = Ok (true, s') /\ freed s' bs' fl' (b_at b) (b_size b).
Proof.
  intros Hb Hu Hp. pose proof (all_real _ _ _ _ I b Hb) as Ha.
  pose proof (real_bounds _ _ _ _ I b Hb) as (? & ? & ? & _).
  destruct (hi_area _ _ _ _ I) as [_ [? _] [? ?] [? ?] _].
  destruct (all_next _ _ _ _ I b Ha) as (nb & Hnb & Hnat & Hnp). rewrite u32_id in Hnat by lia.
  rewrite (free_enter p b nb), Hu by done.
  destruct (placed_split _ _ _ _ Hb) as (l1 & l2 & Hbs & Hat & Hprev). rewrite Hu in Hbs, Hnp.
  destruct (b_used nb) eqn:Hn, (b_prev b) eqn:Hbp; cbn [negb].
  - by apply (free_alone b nb l1 l2); rewrite ?Hbp.
  - by apply (free_with_prev b nb l1 l2); rewrite ?Hbp.
  - by apply (free_with_next b nb l1 l2); rewrite ?Hbp.
  - by apply (free_with_both b nb l1 l2); rewrite ?Hbp.
Qed.

(** A block that is free is not freed again. *)
Lemma free_twice p b :
  b ∈ placed first true bs -> b_used b = false -> b_at b + 8 <= p < b_at b + 8 + page ->
  Heap_Free heap p s = Ok (false, s).
Proof.
  intros Hb Hu Hp. destruct (behind_free _ _ _ _ I b Hb Hu) as (nb & ? & ? & ? & ?).
  rewrite (free_enter p b nb); [by rewrite Hu|done..|congruence].
Qed.

(** An address outside of the heap is rejected, the null pointer accepted. *)
Lemma free_outside p :
  p <> 0 -> u32 (p - p mod page - 8) < first \/ last < u32 (p - p mod page - 8) ->
  Heap_Free heap p s = Ok (false, s).
Proof.
  intros Hp Hout. destruct (hi_area _ _ _ _ I) as [[? ?] _ _ _ _]. unfold Heap_Free.
  rewrite (proj2 (Z.eqb_neq p NULL)) by done. rewrite ctl_bind, block_of_bind by lia.
  rewrite in_heap_bind. destruct Hout as [Ho|Ho].
  - by rewrite (proj2 (Z.leb_gt _ _) Ho).
  - by rewrite (proj2 (Z.leb_gt _ _) Ho), andb_false_r.
Qed.

End Free.
