(* ===== verification/HeapWalk.v ===== *)
(** * The heap checks itself

    [_Heap_Walk] accepts every heap of the invariant, and the visits of the
    blocks ([_Heap_Iterate], [_Heap_Get_information],
    [_Heap_Get_free_information]) count what the blocks are. *)

From stdpp Require Import base tactics numbers option list list_numbers gmap fin_maps.
From stdpp Require Import fin_map_dom fin_sets.
From Stdlib Require Import ZArith Lia.
From S2P Require Import Prelude Chain Objects Heap HeapList HeapBlocks HeapRun HeapInv HeapAlloc.
From S2P Require Import HeapPlace HeapSearch.

Open Scope Z_scope.

Lemma is_aligned_bind {B} v al (k : bool -> cm heap_state B) s :
  al <> 0 -> (lift (Heap_Is_aligned v al) ≫= k) s = k (v mod al =? 0) s.
Proof. intros Ha. apply lift_bind. unfold Heap_Is_aligned. by rewrite (proj2 (Z.eqb_neq _ _) Ha). Qed.

Section Walk.
Context (heap : Z).
Context (s : heap_state) (bs : list (Z * bool)) (fl : list Z).
Context (I : heap_inv heap s bs fl).

Abbreviation c := (hp_control s).
Abbreviation page := (page_size c).
Abbreviation min := (min_block_size c).
Abbreviation first := (first_block c).
Abbreviation last := (last_block c).
Abbreviation all := (placed first true (bs ++ [end_block c])).

(** ** What the visits read of a block *)
Lemma size_read {B} b (k : Z -> cm heap_state B) :
  b ∈ all -> (Heap_Block_size (b_at b) ≫= k) s = k (b_size b) s.
Proof.
  intros Hb. apply (block_size_bind _ _ (b_prev b)); [by apply (all_word _ _ _ _ I)|].
  by apply (all_even _ _ _ _ I).
Qed.

Lemma prev_read {B} b (k : bool -> cm heap_state B) :
  b ∈ all -> (Heap_Is_prev_used (b_at b) ≫= k) s = k (b_prev b) s.
Proof.
  intros Hb. apply (prev_used_bind _ (b_size b)); [by apply (all_word _ _ _ _ I)|].
  by apply (all_even _ _ _ _ I).
Qed.

Lemma next_read {B} b (k : bool -> cm heap_state B) :
  b ∈ all -> (Heap_Is_prev_used (Heap_Block_at (b_at b) (b_size b)) ≫= k) s = k (b_used b) s.
Proof.
  intros Hb. destruct (all_next _ _ _ _ I b Hb) as (nb & Hnb & Hat & <-).
  unfold Heap_Block_at. rewrite <- Hat. by apply prev_read.
Qed.

Lemma used_read {B} b (k : bool -> cm heap_state B) :
  b ∈ all -> (Heap_Is_used (b_at b) ≫= k) s = k (b_used b) s.
Proof. intros Hb. unfold Heap_Is_used. rewrite cm_bind_assoc, size_read by done. by apply next_read. Qed.

(** The links of a free block. *)
Lemma links_read f1 x f2 :
  fl = f1 ++ x :: f2 ->
  hp_words s !! (x + 8) = Some (hd heap f2) /\ hp_words s !! (x + 12) = Some (List.last f1 heap).
Proof.
  intros Hfl. pose proof (hi_list _ _ _ _ I) as Hl. rewrite Hfl in Hl.
  destruct (list_before heap f1) as (s1 & p & Hs1). destruct (list_after heap f2) as (n & s2 & Hs2).
  destruct (list_pair _ _ f1 (x :: f2) s1 p x (f2 ++ [heap]) Hl Hs1 eq_refl) as [_ P2].
  destruct (list_pair (hp_words s) heap (f1 ++ [x]) f2 (heap :: f1) x n s2) as [N1 _];
    [by rewrite <- app_assoc|done|done|].
  rewrite N1, P2. split; f_equal.
  - destruct f2; by injection Hs2.
  - assert (List.last (heap :: f1) heap = List.last (s1 ++ [p]) heap) as E by (by rewrite Hs1).
    rewrite List.last_last in E. rewrite <- E. by destruct f1.
Qed.

Lemma block_aligned b : b ∈ all -> b_at b mod 4 = 0.
Proof.
  destruct (hi_area _ _ _ _ I) as [[? P8] _ [_ F8] _ _].
  assert (forall x, (x + 8) mod page = 0 -> x mod 4 = 0) as Hx.
  { intros x Hx%(mod_page4 page _ P8); [|lia]. replace x with (x + 8 - 8) by lia. by apply mod_sub. }
  intros [Hr| ->]%(all_cases _ _ _ _ I); cbn; apply Hx; [by apply (real_bounds _ _ _ _ I)|].
  rewrite <- (hi_last _ _ _ _ I). replace (first + total bs + 8) with (first + 8 + total bs) by lia.
  apply mod_add; [lia|done|]. by apply (inv_total _ _ _ _ I).
Qed.

(** The blocks are at most as many as the words of the memory. *)
Lemma block_number : (length (bs ++ [end_block c]) <= size (hp_words s))%nat.
Proof.
  assert (list_to_set ((fun x => x + 4) <$> (b_at <$> all)) ⊆ (dom (hp_words s) : gset Z)) as Hsub.
  { intros w Hw. apply elem_of_list_to_set, list_elem_of_fmap in Hw as (x & -> & Hx).
    apply list_elem_of_fmap in Hx as (b & -> & Hb). apply elem_of_dom.
    rewrite (all_word _ _ _ _ I b Hb). by eexists. }
  apply subseteq_size in Hsub. rewrite size_list_to_set, size_dom in Hsub.
  - rewrite !length_fmap in Hsub. etrans; [|exact Hsub]. clear. generalize first true (bs ++ [end_block c]).
    intros a pu l. revert a pu. induction l as [|[sz u] l IH]; intros a pu; [done|]. cbn.
    specialize (IH (a + sz) u). lia.
  - apply NoDup_fmap_2; [intros x y; lia|]. rewrite (all_split _ _ _ _ I), fmap_app. apply NoDup_app.
    split; [apply placed_NoDup, (inv_large _ _ _ _ I)|]. split; [|apply NoDup_singleton].
    intros x (b & -> & Hb)%list_elem_of_fmap Hx%list_elem_of_singleton. cbn in Hx.
    pose proof (real_bounds _ _ _ _ I b Hb) as (_ & ? & ? & _).
    destruct (hi_area _ _ _ _ I) as [_ [? _] _ _ _]. lia.
Qed.

(** ** The checks of the free list *)
Lemma check_free_list_ok fuel f1 f2 :
  fl = f1 ++ f2 -> (length f2 < fuel)%nat ->
  check_free_list_loop heap fuel page (List.last f1 heap) (hd heap f2) s = Ok (true, s).
Proof.
  revert f1 f2. induction fuel as [|fuel IH]; intros f1 f2 Hfl Hfu; [lia|].
  pose proof (list_spread _ _ _ _ I) as [Hnd _]. apply NoDup_cons in Hnd as [Hh _].
  cbn [check_free_list_loop]. unfold Heap_Free_list_tail.
  destruct f2 as [|x f2]; cbn [hd]; [by rewrite Z.eqb_refl|].
  assert (x ∈ fl) as Hx by (rewrite Hfl; in_list).
  rewrite (proj2 (Z.eqb_neq x heap)) by (intros ->; done).
  destruct (links_read f1 x f2 Hfl) as [L1 L2].
  apply (free_block _ _ _ _ I) in Hx as (b & Hb & <- & Hu).
  pose proof (real_bounds _ _ _ _ I b Hb) as (? & ? & ? & _ & H8).
  destruct (hi_area _ _ _ _ I) as [[? ?] [? _] [? _] [? ?] _].
  rewrite in_heap_bind, (proj2 (Z.leb_le first (b_at b))), (proj2 (Z.leb_le (b_at b) last)) by lia.
  cbn [andb negb]. unfold Heap_Alloc_area_of_block, HEAP_BLOCK_HEADER_SIZE.
  rewrite is_aligned_bind by lia. rewrite u32_id, H8 by lia. cbn [Z.eqb negb].
  rewrite used_read by (by apply (all_real _ _ _ _ I)). rewrite Hu.
  unfold ld_prev, ld_next. hstep L2. rewrite Z.eqb_refl. cbn [negb]. hstep L1.
  replace (b_at b) with (List.last (f1 ++ [b_at b]) heap) at 1 by apply List.last_last.
  apply IH; [by rewrite <- app_assoc|cbn in Hfu; lia].
Qed.

Lemma is_in_free_list_ok fuel f1 f2 x :
  fl = f1 ++ f2 -> (length f2 < fuel)%nat -> x ∈ f2 ->
  is_in_free_list_loop heap fuel (hd heap f2) x s = Ok (true, s).
Proof.
  revert f1 f2. induction fuel as [|fuel IH]; intros f1 f2 Hfl Hfu Hin; [lia|].
  pose proof (list_spread _ _ _ _ I) as [Hnd _]. apply NoDup_cons in Hnd as [Hh _].
  cbn [is_in_free_list_loop]. unfold Heap_Free_list_tail.
  destruct f2 as [|y f2]; [by apply elem_of_nil in Hin|]. cbn [hd].
  assert (y ∈ fl) as Hy by (rewrite Hfl; in_list).
  rewrite (proj2 (Z.eqb_neq y heap)) by (intros ->; done).
  destruct (links_read f1 y f2 Hfl) as [L1 _].
  destruct (Z.eqb_spec y x) as [-> |Hne]; [done|]. unfold ld_next. hstep L1.
  apply (IH (f1 ++ [y])); [by rewrite <- app_assoc|cbn in Hfu; lia|].
  apply elem_of_cons in Hin as [-> |?]; done.
Qed.

Lemma walk_in_free_list x : x ∈ fl -> Heap_Walk_is_in_free_list heap x s = Ok (true, s).
Proof.
  intros Hx. unfold Heap_Walk_is_in_free_list. rewrite (first_run _ _ _ _ I), gets_bind.
  apply (is_in_free_list_ok _ []); [done|apply (free_list_length _ _ _ _ I)|done].
Qed.

Lemma last_read {B} (k : Z -> cm heap_state B) : (Heap_Free_list_last heap ≫= k) s = k (List.last fl heap) s.
Proof.
  unfold Heap_Free_list_last, ld_prev, Heap_Free_list_tail. apply hld_bind.
  destruct (list_before heap fl) as (s1 & p & Hs1).
  destruct (list_pair (hp_words s) heap fl [] s1 p heap []) as [_ H2];
    [rewrite app_nil_r; apply I|done|done|]. rewrite H2. f_equal.
  assert (List.last (heap :: fl) heap = List.last (s1 ++ [p]) heap) as E by (by rewrite Hs1).
  rewrite List.last_last in E. rewrite <- E. by destruct fl.
Qed.
(** ** The checks of the blocks *)
Lemma check_free_block_ok b :
  b ∈ placed first true bs -> b_used b = false ->
  Heap_Walk_check_free_block heap (b_at b) s = Ok (true, s).
Proof.
  intros Hb Hu. pose proof (all_real _ _ _ _ I b Hb) as Ha.
  assert (b_at b ∈ fl) as Hin by (apply (free_block _ _ _ _ I); eauto).
  pose proof Hin as (f1 & f2 & Hfl)%list_elem_of_split.
  destruct (links_read f1 (b_at b) f2 Hfl) as [L1 L2].
  destruct (all_free _ _ _ _ I b Ha Hu) as [Hp Hw].
  pose proof (real_bounds _ _ _ _ I b Hb) as (? & ? & ? & _).
  destruct (hi_area _ _ _ _ I) as [_ [? _] [? _] [? ?] _].
  unfold Heap_Walk_check_free_block. rewrite (first_run _ _ _ _ I), last_read, prev_read, size_read by done.
  unfold ld_prev, ld_next, ld_prev_size. hstep L2. hstep L1.
  unfold Heap_Block_at. rewrite u32_id by lia. hstep Hw. rewrite Z.eqb_refl, Hp. cbn [negb].
  by rewrite (cm_bind_ok _ _ _ _ _ (walk_in_free_list _ Hin)).
Qed.

Lemma last_next : u32 (last + u32 (first - last)) = first.
Proof.
  destruct (hi_area _ _ _ _ I) as [_ [? _] [? _] [? ?] _]. unfold u32.
  rewrite Z.add_mod_idemp_r by lia. replace (last + (first - last)) with first by lia.
  rewrite Z.mod_small; lia.
Qed.

(** One block of the walk. *)
Lemma walk_block b fuel :
  b ∈ all -> let next := Heap_Block_at (b_at b) (b_size b) in
  walk_loop heap (S fuel) page min first last (b_at b) s =
  if next =? first then Ok (true, s) else walk_loop heap fuel page min first last next s.
Proof.
  intros Hb next. destruct (hi_area _ _ _ _ I) as [[? ?] [? [? ?]] [? ?] [? ?] _].
  assert (first <= next <= last /\ (b_at b = last \/
    b_size b mod page = 0 /\ min <= b_size b /\ b_at b < next)) as [Hn Hcase].
  { unfold next, Heap_Block_at. destruct (all_cases _ _ _ _ I b Hb) as [Hr| ->]; cbn [b_at b_size].
    - pose proof (real_bounds _ _ _ _ I b Hr) as (? & ? & ? & ? & _). rewrite u32_id by lia.
      split; [lia|right; split; [done|lia]].
    - rewrite last_next. split; [lia|by left]. }
  assert (forall k : bool -> cm heap_state bool,
    ((if negb (b_used b) then Heap_Walk_check_free_block heap (b_at b)
      else if (b_prev b : bool) then mret true else ld_prev_size (b_at b);; mret true) ≫= k) s =
    k true s) as Hok.
  { intros k. destruct (b_used b) eqn:Hu; cbn [negb].
    - destruct (b_prev b) eqn:Hp; [done|]. unfold ld_prev_size.
      assert (is_Some (hp_words s !! b_at b)) as (v & Hv).
      { apply (hi_mapped _ _ _ _ I).
        - destruct (all_cases _ _ _ _ I b Hb) as [(? & ? & _)%(real_bounds _ _ _ _ I)| ->]; cbn; lia.
        - pose proof (block_aligned b Hb). done. }
      rewrite cm_bind_assoc. by hstep Hv.
    - destruct (all_cases _ _ _ _ I b Hb) as [Hr| ->]; [|done].
      by rewrite (cm_bind_ok _ _ _ _ _ (check_free_block_ok b Hr Hu)). }
  cbn [walk_loop]. rewrite size_read, prev_read by done. fold next.
  rewrite in_heap_bind, (proj2 (Z.leb_le first next)), (proj2 (Z.leb_le next last)) by lia.
  cbn [andb negb]. rewrite is_aligned_bind by lia.
  assert (negb (b_size b mod page =? 0) && negb (b_at b =? last) = false) as ->.
  { destruct Hcase as [-> |(-> & _)]; [by rewrite Z.eqb_refl, andb_false_r|done]. }
  assert ((b_size b <? min) && negb (b_at b =? last) = false) as ->.
  { destruct Hcase as [-> |(_ & Hm & _)]; [by rewrite Z.eqb_refl, andb_false_r|].
    by rewrite (proj2 (Z.ltb_ge _ _) Hm). }
  assert ((next <=? b_at b) && negb (b_at b =? last) = false) as ->.
  { destruct Hcase as [-> |(_ & _ & Hm)]; [by rewrite Z.eqb_refl, andb_false_r|].
    by rewrite (proj2 (Z.leb_gt _ _) Hm). }
  etrans; [exact (next_read b _ Hb)|]. cbn beta. rewrite Hok. cbn [negb]. by destruct (next =? first).
Qed.

Lemma walk_blocks fuel l1 l2 :
  bs ++ [end_block c] = l1 ++ l2 -> l2 <> [] -> (length l2 <= fuel)%nat ->
  walk_loop heap fuel page min first last (first + total l1) s = Ok (true, s).
Proof.
  revert l1 l2. induction fuel as [|fuel IH]; intros l1 l2 E Hne Hf; [destruct l2; [done|cbn in Hf; lia]|].
  destruct l2 as [|[sz u] l2]; [done|].
  assert (mk_block (first + total l1) sz (used_before true l1) u ∈ all) as Hb.
  { rewrite E, placed_app. apply elem_of_app. right. left. }
  etrans; [exact (walk_block _ fuel Hb)|]. cbn [b_at b_size]. unfold Heap_Block_at.
  destruct (Z.eqb_spec (u32 (first + total l1 + sz)) first) as [Hq|Hq]; [done|].
  destruct (all_cases _ _ _ _ I _ Hb) as [Hr|Hr].
  2: { injection Hr as E1 E2 _ _. rewrite E1, E2, last_next in Hq. done. }
  pose proof (real_bounds _ _ _ _ I _ Hr) as (? & ? & ? & _). cbn in *.
  destruct (hi_area _ _ _ _ I) as [_ [? _] [? _] [? ?] _]. rewrite u32_id by lia.
  replace (first + total l1 + sz) with (first + total (l1 ++ [(sz, u)])) by (rewrite total_app; cbn; lia).
  apply (IH (l1 ++ [(sz, u)]) l2); [by rewrite E, <- app_assoc| |cbn in Hf; lia].
  intros ->. apply app_inj_tail in E as [E1 E2]. unfold end_block in E2. injection E2 as E2 _.
  pose proof (hi_last _ _ _ _ I) as Hl. rewrite E1 in Hl. rewrite Hl, <- E2, last_next in Hq. done.
Qed.

Lemma walk_control_ok : Heap_Walk_check_control heap s = Ok (true, s).
Proof.
  destruct (hi_area _ _ _ _ I) as [[? P8] [? [? M0]] [? F8] [? ?] _].
  assert (exists sz u, mk_block first sz true u ∈ all) as (sz & u & Hf).
  { pose proof (inv_total _ _ _ _ I) as [Ht _]. revert Ht.
    destruct bs as [|[sz u] bs'] eqn:E; cbn; [lia|]. intros _. exists sz, u. left. }
  assert (mk_block last (u32 (first - last)) (used_before true bs) true ∈ all) as Hl.
  { rewrite (all_split _ _ _ _ I). apply elem_of_app. right. left. }
  unfold Heap_Walk_check_control. rewrite !ctl_bind, (first_run _ _ _ _ I), last_read, !ctl_bind.
  rewrite (proj2 (Z.eqb_neq page 0)) by lia. unfold CPU_ALIGNMENT. rewrite P8. cbn [Z.eqb negb].
  rewrite is_aligned_bind, M0 by lia. cbn [Z.eqb negb].
  unfold Heap_Alloc_area_of_block, HEAP_BLOCK_HEADER_SIZE.
  rewrite is_aligned_bind, u32_id, F8 by lia. cbn [Z.eqb negb].
  rewrite (prev_read _ _ Hf). cbn [b_prev negb]. unfold Heap_Is_free. rewrite cm_bind_assoc.
  rewrite (used_read _ _ Hl), ret_bind. cbn [b_used negb]. rewrite (size_read _ _ Hl). cbn [b_size].
  unfold Heap_Block_at. rewrite last_next, Z.eqb_refl. cbn [negb].
  unfold Heap_Walk_check_free_list. rewrite ctl_bind, (first_run _ _ _ _ I), gets_bind.
  apply (check_free_list_ok _ []); [done|apply (free_list_length _ _ _ _ I)].
Qed.

Lemma walk_ok up : Heap_Walk heap up s = Ok (true, s).
Proof.
  unfold Heap_Walk. rewrite !ctl_bind. destruct up; [|done]. cbn [negb].
  rewrite (cm_bind_ok _ _ _ _ _ walk_control_ok). cbn [negb]. rewrite gets_bind.
  replace first with (first + total []) at 2 by (cbn; lia).
  apply (walk_blocks _ [] (bs ++ [end_block c])); [done|by destruct bs|].
  apply block_number.
Qed.

(** ** The visits of the blocks *)
Fixpoint visit {A} (visitor : Z -> Z -> bool -> A -> bool * A) (L : list block) (stop : bool) (a : A)
    : A :=
  match L with
  | [] => a
  | b :: L' =>
      if stop then a
      else let '(stop', a') := visitor (b_at b) (b_size b) (b_used b) a in visit visitor L' stop' a'
  end.

Lemma iterate_blocks {A} (visitor : Z -> Z -> bool -> A -> bool * A) fuel l1 l2 stop a :
  bs = l1 ++ l2 -> (length l2 < fuel)%nat ->
  iterate_loop visitor fuel (first + total l1) last stop a s =
  Ok (visit visitor (placed (first + total l1) (used_before true l1) l2) stop a, s).
Proof.
  revert l1 l2 stop a. induction fuel as [|fuel IH]; intros l1 l2 stop a E Hf; [lia|].
  destruct stop; cbn [iterate_loop negb andb]; [by destruct l2 as [|[? ?] ?]|].
  destruct l2 as [|[sz u] l2].
  { rewrite app_nil_r in E. pose proof (hi_last _ _ _ _ I) as Hl. rewrite E in Hl.
    by rewrite Hl, Z.eqb_refl. }
  assert (mk_block (first + total l1) sz (used_before true l1) u ∈ placed first true bs) as Hb.
  { rewrite E, placed_app. apply elem_of_app. right. left. }
  pose proof (real_bounds _ _ _ _ I _ Hb) as (? & ? & ? & _). cbn in *.
  destruct (hi_area _ _ _ _ I) as [_ [? _] [? _] [? ?] _].
  rewrite (proj2 (Z.eqb_neq _ _)) by lia. cbn [negb andb].
  pose proof (all_real _ _ _ _ I _ Hb) as Ha. etrans; [exact (size_read _ _ Ha)|].
  etrans; [exact (next_read _ _ Ha)|]. cbn [b_at b_size b_used b_prev].
  destruct (visitor (first + total l1) sz u a) as [stop' a'].
  unfold Heap_Block_at. rewrite u32_id by lia.
  replace (first + total l1 + sz) with (first + total (l1 ++ [(sz, u)])) by (rewrite total_app; cbn; lia).
  rewrite (IH (l1 ++ [(sz, u)]) l2) by (rewrite <- ?app_assoc; (done || cbn in Hf; lia)).
  by rewrite used_before_app.
Qed.

Lemma iterate_ok {A} (visitor : Z -> Z -> bool -> A -> bool * A) a :
  Heap_Iterate visitor a s = Ok (visit visitor (placed first true bs) false a, s).
Proof.
  unfold Heap_Iterate. rewrite !ctl_bind, gets_bind.
  pose proof (iterate_blocks visitor (size (hp_words s)) [] bs false a eq_refl) as Hi. cbn in Hi.
  rewrite Z.add_0_r in Hi. apply Hi. pose proof block_number as Hn.
  rewrite length_app in Hn. cbn in Hn. lia.
Qed.

End Walk.

(** ** Counting *)
Definition sum (l : list Z) : Z := foldr Z.add 0 l.
Definition largest (l : list Z) : Z := foldr Z.max 0 l.

(** The information on blocks of these sizes. *)
Definition info_of (l : list Z) : Heap_Information :=
  mk_heap_information (Z.of_nat (length l)) (largest l) (sum l).

Definition sizes_of (used : bool) (bs : list (Z * bool)) : list Z :=
  fst <$> filter (fun b => b.2 = used) bs.

Lemma sizes_of_cons used sz u bs :
  sizes_of used ((sz, u) :: bs) = (if bool_decide (u = used) then [sz] else []) ++ sizes_of used bs.
Proof.
  unfold sizes_of. rewrite filter_cons. cbn [snd]. by destruct (decide (u = used)) as [E|E];
    [rewrite bool_decide_eq_true_2|rewrite bool_decide_eq_false_2].
Qed.

Lemma sizes_of_bounds used bs :
  large bs -> 0 <= sum (sizes_of used bs) <= total bs /\
  16 * Z.of_nat (length (sizes_of used bs)) <= total bs.
Proof.
  induction 1 as [|[sz u] bs Hz Hl IH]; [done|]. rewrite sizes_of_cons. cbn [total fst] in *.
  destruct (bool_decide _); cbn [app]; [|lia].
  change (sum (sz :: sizes_of used bs)) with (sz + sum (sizes_of used bs)). cbn [length]. lia.
Qed.

(** What the visitor has counted, when it has seen [l]. *)
Lemma count_block_ok sz l i :
  0 <= sz -> info_number i + Z.of_nat (S (length l)) < 2 ^ 32 -> 0 <= info_number i ->
  info_total i + sz + sum l < 2 ^ 32 -> 0 <= info_total i -> 0 <= sum l ->
  count_block sz i = mk_heap_information (info_number i + 1) (Z.max (info_largest i) sz)
    (info_total i + sz).
Proof.
  intros. unfold count_block. rewrite !u32_id by lia. f_equal.
  destruct (Z.ltb_spec (info_largest i) sz); lia.
Qed.

Definition info_add (i j : Heap_Information) : Heap_Information :=
  mk_heap_information (info_number i + info_number j) (Z.max (info_largest i) (info_largest j))
    (info_total i + info_total j).

Lemma visit_information a pu bs i j :
  large bs ->
  0 <= info_number i -> 0 <= info_total i -> 0 <= info_number j -> 0 <= info_total j ->
  0 <= info_largest i -> 0 <= info_largest j ->
  info_number i + total bs < 2 ^ 32 -> info_total i + total bs < 2 ^ 32 ->
  info_number j + total bs < 2 ^ 32 -> info_total j + total bs < 2 ^ 32 ->
  visit Heap_Get_information_visitor (placed a pu bs) false (i, j) =
  (info_add i (info_of (sizes_of false bs)), info_add j (info_of (sizes_of true bs))).
Proof.
  intros Hl. revert a pu i j. induction Hl as [|[sz u] bs Hz Hl IH]; intros a pu i j.
  { intros. cbn. unfold info_add. cbn. rewrite !Z.add_0_r, !Z.max_l by lia. by destruct i, j. }
  cbn [fst total placed visit b_at b_size b_used] in *. intros.
  pose proof (sizes_of_bounds false bs Hl). pose proof (sizes_of_bounds true bs Hl).
  pose proof (total_nonneg _ Hl). rewrite !sizes_of_cons.
  unfold Heap_Get_information_visitor at 1. cbn [fst snd].
  destruct u; cbn [fst snd].
  - rewrite (count_block_ok sz []) by (cbn; lia). rewrite IH; cbn [info_number info_total info_largest]; try lia.
    rewrite (bool_decide_eq_false_2 (true = false)), (bool_decide_eq_true_2 (true = true)) by done.
    f_equal. unfold info_add. cbn. f_equal; unfold largest, sum; cbn; lia.
  - rewrite (count_block_ok sz []) by (cbn; lia). rewrite IH; cbn [info_number info_total info_largest]; try lia.
    rewrite (bool_decide_eq_true_2 (false = false)), (bool_decide_eq_false_2 (false = true)) by done.
    f_equal. unfold info_add. cbn. f_equal; unfold largest, sum; cbn; lia.
Qed.

Lemma information_ok heap s bs fl :
  heap_inv heap s bs fl ->
  Heap_Get_information s =
  Ok (info_of (sizes_of false bs), info_of (sizes_of true bs), stats (hp_control s), s).
Proof.
  intros I. unfold Heap_Get_information. rewrite (cm_bind_ok _ _ _ _ _ (iterate_ok _ _ _ _ I _ _)).
  pose proof (inv_large _ _ _ _ I) as Hl. pose proof (inv_total _ _ _ _ I) as [? _].
  rewrite visit_information by (done || cbn; lia). rewrite ctl_bind. cbn [fst snd].
  assert (forall l, info_add (mk_heap_information 0 0 0) (info_of l) = info_of l) as Hz.
  { intros l. assert (0 <= largest l) by (unfold largest; induction l; cbn; lia).
    unfold info_add, info_of. cbn [info_number info_largest info_total]. f_equal; lia. }
  by rewrite !Hz.
Qed.
