(* ===== verification/HeapInit.v ===== *)
(** * Making a heap

    [_Heap_Initialize] makes one free block of an area of memory that is large
    enough, and the invariant holds; else it leaves everything alone. *)

From stdpp Require Import base tactics numbers option list list_numbers gmap fin_maps.
From Stdlib Require Import ZArith Lia.
From S2P Require Import Prelude Chain Objects Heap HeapList HeapBlocks HeapRun HeapInv HeapAlloc.

Open Scope Z_scope.

(** The page size the heap works with, and its smallest block. *)
Definition real_page (page : Z) : Z := if page =? 0 then 8 else aup page 8.

Lemma real_page_spec page :
  0 <= page -> 8 <= real_page page < page + 9 /\ real_page page mod 8 = 0.
Proof.
  intros Hp. unfold real_page. destruct (Z.eqb_spec page 0) as [-> |Hz]; [done|].
  destruct (aup_spec page 8) as (H1 & H2 & _); [lia|]. split; [|done].
  destruct (Z.lt_ge_cases (aup page 8) 8) as [Hlt|]; [|lia].
  rewrite <- (Z.mod_small (aup page 8) 8), H2 in H1 by lia. lia.
Qed.

Lemma min_block_spec page :
  8 <= page -> 16 <= aup 16 page /\ page <= aup 16 page /\ aup 16 page mod page = 0 /\
  aup 16 page < 16 + page.
Proof.
  intros Hp. destruct (aup_spec 16 page) as (H1 & H2 & _); [lia|].
  split; [lia|]. split; [|split; [done|lia]].
  destruct (Z.lt_ge_cases (aup 16 page) page) as [Hlt|]; [|done].
  rewrite (Z.mod_small (aup 16 page)) in H2 by lia. lia.
Qed.

(** The begin of the first block and the end of the last one. *)
Definition area_first (begin page : Z) : Z := aup (begin + 8) page - 8.
Definition area_size (begin size page : Z) : Z :=
  let rest := size - 8 - (area_first begin page - begin) in rest - rest mod page.

Lemma first_and_last_ok begin size page min :
  0 < begin -> 0 <= size -> begin + size < 2 ^ 32 -> 8 <= page -> begin + page + 16 < 2 ^ 32 ->
  16 <= min ->
  let first := area_first begin page in
  let first_size := area_size begin size page in
  Heap_Get_first_and_last_block begin size page min =
    Ok (if (size <=? 8 + (first - begin)) || (first_size <? min) then None
        else Some (first, first + first_size)) /\
  begin <= first < begin + page /\ (first + 8) mod page = 0 /\
  (8 + (first - begin) < size -> 0 <= first_size <= size - 8 - (first - begin) /\
     first_size mod page = 0).
Proof.
  intros Hb Hs Hbs Hp Hbp Hm first first_size.
  destruct (aup_spec (begin + 8) page) as (H1 & H2 & _); [lia|].
  assert (first + 8 = aup (begin + 8) page) as Ef by (unfold first, area_first; lia).
  split; [|split; [lia|split; [by rewrite Ef|]]].
  2: { intros Hlt. unfold first_size, area_size. fold first.
       set (rest := size - 8 - (first - begin)).
       pose proof (Z.mod_pos_bound rest page ltac:(lia)).
       pose proof (Z.mod_le rest page ltac:(unfold rest; lia) ltac:(lia)). split; [lia|].
       rewrite Zminus_mod_idemp_r, Z.sub_diag. by apply Z.mod_0_l; lia. }
  unfold Heap_Get_first_and_last_block, HEAP_BLOCK_HEADER_SIZE.
  rewrite (u32_id (begin + size)), (u32_id (begin + 8)) by lia.
  unfold Heap_Align_up at 1. rewrite (proj2 (Z.eqb_neq page 0)) by lia.
  assert ((if (begin + 8) mod page =? 0 then begin + 8
           else u32 (begin + 8 - (begin + 8) mod page + page)) = first + 8) as Eu.
  { rewrite Ef. unfold aup in *. destruct ((begin + 8) mod page =? 0); [done|]. rewrite u32_id; lia. }
  cbn. rewrite Eu. replace (first + 8 - 8) with first by lia.
  rewrite (u32_id first), (u32_id (first - begin)), (u32_id (8 + (first - begin))) by lia.
  unfold Heap_Align_down. rewrite (proj2 (Z.eqb_neq page 0)) by lia. cbn.
  rewrite (proj2 (Z.ltb_ge (begin + size) begin)) by lia. cbn [orb].
  destruct (Z.leb_spec size (8 + (first - begin))) as [Hle|Hgt]; [done|]. cbn [orb].
  replace (size - (8 + (first - begin))) with (size - 8 - (first - begin)) by lia.
  rewrite (u32_id (size - 8 - (first - begin))) by lia.
  unfold Heap_Block_at.
  change (size - 8 - (first - begin) - (size - 8 - (first - begin)) mod page) with first_size.
  destruct (Z.ltb_spec first_size min) as [Hlm|Hlm]; [done|]. do 3 f_equal. rewrite u32_id; [done|].
  pose proof (Z.mod_pos_bound (size - 8 - (first - begin)) page ltac:(lia)).
  assert (first_size = size - 8 - (first - begin) - (size - 8 - (first - begin)) mod page) by done. lia.
Qed.

Section Init.
Context (heap : Z) (s : heap_state) (begin size page : Z).

(** The area and the control are memory of their own. *)
Record area_ok : Prop := {
  ao_begin : 0 < begin;
  ao_size : 0 <= size;
  ao_end : begin + size < 2 ^ 32;
  ao_page : 0 <= page;
  ao_space : begin + page + 32 < 2 ^ 32;
  ao_apart : heap + 16 <= begin \/ begin + size <= heap;
  ao_words : forall w, begin <= w -> w + 4 <= begin + size -> w mod 4 = 0 -> is_Some (hp_words s !! w);
  ao_head : forall o, o = 0 \/ o = 4 \/ o = 8 \/ o = 12 -> is_Some (hp_words s !! (heap + o))
}.

Abbreviation pg := (real_page page).
Abbreviation first := (area_first begin pg).
Abbreviation first_size := (area_size begin size pg).
Abbreviation last := (first + first_size).

Definition init_words : words :=
  <[last + 4 := u32 (first - last)]> (<[last + 4 := 0]> (<[last := first_size]>
    (<[heap + 12 := first]> (<[heap + 8 := first]> (<[first + 12 := heap]> (<[first + 8 := heap]>
    (<[first + 4 := first_size + 1]> (<[first := begin + size]> (<[heap + 12 := 0]>
    (<[heap + 8 := 0]> (<[heap + 4 := 0]> (<[heap := 0]> (hp_words s))))))))))))).

Definition init_control : Heap_Control :=
  mk_heap_control pg (aup 16 pg) begin (begin + size) first last
    (mk_heap_statistics 0 0 first_size first_size first_size 1 1 0 0 0 0 0 0 0).

Definition large_enough : bool :=
  negb ((size <=? 8 + (first - begin)) || (first_size <? aup 16 pg)).

Context (A : area_ok).

Lemma area_facts :
  8 <= pg /\ pg mod 8 = 0 /\ begin <= first < begin + pg /\ (first + 8) mod pg = 0 /\
  (large_enough = true -> aup 16 pg <= first_size /\ first_size <= size - 8 - (first - begin) /\
     first_size mod pg = 0 /\ first mod 4 = 0 /\ first_size mod 4 = 0).
Proof.
  destruct A as [? ? ? ? ? ? _ _]. destruct (real_page_spec page) as [P1 P2]; [done|].
  destruct (min_block_spec pg) as (M1 & M2 & M3 & M4); [lia|].
  destruct (first_and_last_ok begin size pg (aup 16 pg)) as (_ & F1 & F2 & F3); [lia..|].
  split; [lia|]. do 3 (split; [done|]). unfold large_enough. intros Hl.
  apply negb_true_iff, orb_false_iff in Hl as [Hl1%Z.leb_gt Hl2%Z.ltb_ge].
  destruct (F3 Hl1) as [F4 F5]. do 3 (split; [lia || done|]).
  split; [|by apply (mod_page4 pg); [|lia|]].
  apply (mod_page4 pg _ P2) in F2; [|lia]. replace first with (first + 8 - 8) by lia. by apply mod_sub.
Qed.

Lemma even_back : 0 < first_size < 2 ^ 32 -> first_size mod 2 = 0 -> even32 (u32 (first - last)).
Proof.
  intros Hs He. unfold u32. replace (first - last) with (- first_size) by lia.
  rewrite Z.mod_opp_l_nz, (Z.mod_small first_size) by (rewrite ?Z.mod_small; lia).
  split; [lia|]. by apply mod_sub.
Qed.

Lemma area_mapped :
  (size <=? 8 + (first - begin)) || (first_size <? aup 16 pg) = false ->
  is_Some (hp_words s !! first) /\ is_Some (hp_words s !! (first + 4)) /\
  is_Some (hp_words s !! (first + 8)) /\ is_Some (hp_words s !! (first + 12)) /\
  is_Some (hp_words s !! last) /\ is_Some (hp_words s !! (last + 4)).
Proof.
  intros El. pose proof area_facts as (P1 & P2 & F1 & F2 & F3).
  destruct F3 as (G1 & G2 & G3 & G4 & G5); [unfold large_enough; by rewrite El|].
  destruct (min_block_spec pg) as (M1 & M2 & M3 & M4); [lia|].
  destruct A as [A1 A2 A3 A4 A5 A6 A7 A8].
  assert (last mod 4 = 0) as G6 by (by apply mod_add).
  repeat split; apply A7; (lia || done || by apply mod_add).
Qed.

Lemma heap_initialize_run :
  Heap_Initialize heap begin size page s =
  if large_enough then Ok (first_size, mk_heap_state init_control init_words) else Ok (0, s).
Proof.
  pose proof area_facts as (P1 & P2 & F1 & F2 & F3). destruct A as [A1 A2 A3 A4 A5 A6 A7 A8].
  destruct (real_page_spec page) as [P3 _]; [done|].
  destruct (min_block_spec pg) as (M1 & M2 & M3 & M4); [lia|].
  destruct (first_and_last_ok begin size pg (aup 16 pg)) as (Hr & _); [lia..|].
  unfold Heap_Initialize.
  rewrite (cm_bind_ok _ _ _ pg s).
  2: { unfold real_page, CPU_ALIGNMENT. destruct (Z.eqb_spec page 0); [done|].
       unfold lift, Heap_Align_up. cbn [Z.eqb]. unfold aup.
       destruct (aup_spec page 8) as [Hx _]; [lia|]. unfold aup in Hx.
       destruct (page mod 8 =? 0); [done|]. by rewrite u32_id by lia. }
  unfold CPU_ALIGNMENT. rewrite (proj2 (Z.ltb_ge pg 8)) by lia.
  unfold Heap_Min_block_size, SIZEOF_HEAP_BLOCK. rewrite aup_bind by lia.
  rewrite (lift_bind _ _ _ _ Hr). unfold large_enough.
  destruct ((size <=? 8 + (first - begin)) || (first_size <? aup 16 pg)) eqn:El; cbn [negb]; [done|].
  destruct (area_mapped El) as (W1 & W2 & W3 & W4 & W5 & W6).
  destruct F3 as (G1 & G2 & G3 & G4 & G5); [unfold large_enough; by rewrite El|].
  assert (first_size mod 2 = 0) as He by (apply (even_page pg); [done|lia|done]).
  pose proof (A8 0) as H0. rewrite Z.add_0_r in H0.
  unfold st_prev_size, st_size_and_flag, st_next, st_prev, Heap_Free_list_tail, Heap_Free_list_head.
  rewrite (u32_id (last - first)) by lia. replace (last - first) with first_size by lia.
  rewrite (u32_id (begin + size)), lor_new by (done || lia).
  do 4 (rewrite hst_bind by (cbn; rewrite ?lookup_insert_is_Some'; auto 10)).
  rewrite modify_bind.
  do 4 (rewrite hst_bind by (cbn; rewrite ?lookup_insert_is_Some'; auto 10)).
  rewrite modify_bind.
  do 4 (rewrite hst_bind by (cbn; rewrite ?lookup_insert_is_Some'; auto 20)).
  unfold Heap_Set_last_block_size. rewrite cm_bind_assoc, ctl_bind, cm_bind_assoc, ctl_bind.
  assert (even32 (u32 (first - last))) as [_ He2] by (apply even_back; [lia|done]).
  rewrite (set_size_bind last 0 false) by (done || by cbn; rewrite lookup_insert_eq).
  rewrite upd_stats_bind, Z.add_0_r. done.
Qed.

Lemma initialize_inv :
  large_enough = true ->
  heap_inv heap (mk_heap_state init_control init_words) [(first_size, false)] [first].
Proof.
  intros Hl. pose proof area_facts as (P1 & P2 & F1 & F2 & F3). destruct A as [A1 A2 A3 A4 A5 A6 A7 A8].
  destruct (F3 Hl) as (G1 & G2 & G3 & G4 & G5).
  destruct (min_block_spec pg) as (M1 & M2 & M3 & M4); [lia|].
  split; cbn [hp_control hp_words init_control page_size min_block_size first_block last_block stats].
  - split; cbn; (split || idtac); try done; try lia.
  - constructor; [done|constructor].
  - cbn. lia.
  - unfold end_block. cbn [first_block last_block init_control app placed]. unfold init_words.
    constructor; [|constructor; [|constructor]]; (split; cbn; [|intros Hu; try done]).
    + by rewrite !lookup_insert_ne, lookup_insert_eq by lia.
    + split; [done|]. by rewrite !lookup_insert_ne, lookup_insert_eq by lia.
    + by rewrite lookup_insert_eq, Z.add_0_r.
  - unfold init_words. repeat split; cbn.
    + by rewrite !lookup_insert_ne, lookup_insert_eq by lia.
    + by rewrite !lookup_insert_ne, lookup_insert_eq by lia.
    + by rewrite !lookup_insert_ne, lookup_insert_eq by lia.
    + by rewrite !lookup_insert_ne, lookup_insert_eq by lia.
  - done.
  - intros w Hw H4. unfold init_words. rewrite !lookup_insert_is_Some'. do 13 right.
    apply A7; [lia|lia|done].
  - cbn. lia.
  - rewrite free_total_cons. change (free_total []) with 0. cbn. lia.
  - done.
  - done.
Qed.

End Init.
