(* ===== verification/HeapResize.v ===== *)
(** * Changing the size of an area

    [_Heap_Resize_block] on a used block: it takes in the free block behind it
    when there is one, and gives back what is not needed. *)

From stdpp Require Import base tactics numbers option list list_numbers gmap fin_maps.
From stdpp Require Import fin_map_dom fin_sets.
From Stdlib Require Import ZArith Lia.
From S2P Require Import Prelude Chain Objects Heap HeapList HeapBlocks HeapRun HeapInv HeapAlloc.
From S2P Require Import HeapPlace HeapSearch HeapFree HeapWalk.

Open Scope Z_scope.

(** The block [x] of the size [sz] gets the size [sz']; the data of the other
    used blocks stay, and of its own the part that both sizes have. *)
Record resized (heap : Z) (s : heap_state) (bs : list (Z * bool)) (s' : heap_state)
    (bs' : list (Z * bool)) (fl' : list Z) (x sz sz' : Z) : Prop := {
  rs_inv : heap_inv heap s' bs' fl';
  rs_control : exists t, hp_control s' = set_stats t (hp_control s);
  rs_used : exists U, used_at (placed (first_block (hp_control s)) true bs) ≡ₚ (x, sz) :: U /\
    used_at (placed (first_block (hp_control s)) true bs') ≡ₚ (x, sz') :: U /\
    (forall y ysz w, (y, ysz) ∈ U -> y + 8 <= w <= y + ysz -> hp_words s' !! w = hp_words s !! w);
  rs_keeps : forall w, x + 8 <= w <= x + Z.min sz sz' -> hp_words s' !! w = hp_words s !! w
}.

Section Resize.
Context (heap : Z).
Context (s : heap_state) (bs : list (Z * bool)) (fl : list Z).
Context (I : heap_inv heap s bs fl).

Abbreviation c := (hp_control s).
Abbreviation page := (page_size c).
Abbreviation min := (min_block_size c).
Abbreviation first := (first_block c).
Abbreviation last := (last_block c).
Abbreviation all := (placed first true (bs ++ [end_block c])).

(** A used block [b] in its place, before the block [nb]. *)
Record used_place (b nb : block) (l1 l2 : list (Z * bool)) : Prop := {
  up_in : b ∈ placed first true bs;
  up_used : b_used b = true;
  up_blocks : bs = l1 ++ [(b_size b, true)] ++ l2;
  up_at : b_at b = first + total l1;
  up_prev : b_prev b = used_before true l1;
  up_next : nb ∈ all;
  up_next_at : b_at nb = b_at b + b_size b;
  up_next_prev : b_prev nb = true
}.

Lemma find_used b :
  b ∈ placed first true bs -> b_used b = true -> exists nb l1 l2, used_place b nb l1 l2.
Proof.
  intros Hb Hu. pose proof (real_bounds _ _ _ _ I b Hb) as (? & ? & ? & _).
  destruct (hi_area _ _ _ _ I) as [_ [? _] [? ?] [? ?] _].
  destruct (placed_split _ _ _ _ Hb) as (l1 & l2 & Hbs & Hat & Hp).
  destruct (all_next _ _ _ _ I b (all_real _ _ _ _ I b Hb)) as (nb & Hnb & Hnat & Hnp).
  rewrite u32_id in Hnat by lia. exists nb, l1, l2. split; try done; [by rewrite <- Hu|congruence].
Qed.

(** The blocks [mid] at [b] become [mid'], both with [b] as their used block. *)
Lemma rebuilt b l1 mid l2 mid' fl' nodes t m' sz sz' :
  bs = l1 ++ mid ++ l2 -> b_at b = first + total l1 ->
  let pu := used_before true l1 in
  let e := b_at b + total mid in
  used_at (placed (b_at b) pu mid) = [(b_at b, sz)] ->
  used_at (placed (b_at b) pu mid') = [(b_at b, sz')] ->
  total mid' = total mid ->
  region_frame (b_at b) e nodes (hp_words s) m' ->
  (forall x, x ∈ nodes -> x = heap \/ x ∈ fl \/ b_at b <= x /\ x + 16 <= e) ->
  (forall w, b_at b + 8 <= w <= b_at b + Z.min sz sz' -> m' !! w = hp_words s !! w) ->
  heap_inv heap (mk_heap_state (set_stats t c) m') (l1 ++ mid' ++ l2) fl' ->
  resized heap s bs (mk_heap_state (set_stats t c) m') (l1 ++ mid' ++ l2) fl' (b_at b) sz sz'.
Proof.
  intros Hbs Hat pu e U1 U2 Ht Hrf Hn Hk I'. subst e. rewrite Hat in Hrf, Hn.
  destruct (region_keeps _ _ _ _ I l1 mid l2 nodes m' Hbs Hrf Hn) as [K1 K2].
  split; [done|by eexists| |done].
  exists (used_at (placed first true l1) ++ used_at (placed (b_at b + total mid) true l2)).
  split; [|split].
  - rewrite Hbs, !placed_app, !used_at_app. fold pu. rewrite <- Hat, U1.
    rewrite (used_at_placed _ _ true l2). symmetry. apply Permutation_middle.
  - cbn [hp_control set_stats first_block]. rewrite !placed_app, !used_at_app. fold pu.
    rewrite <- Hat, U2, Ht. rewrite (used_at_placed _ _ true l2). symmetry. apply Permutation_middle.
  - intros y ysz w Hy Hw. apply elem_of_app in Hy as [Hy|Hy];
      apply used_at_elem in Hy as (b' & Hb' & <- & <- & Hu').
    + by apply (K1 b').
    + rewrite Hat in Hb'. by apply (K2 true b').
Qed.

(** The list stays clear of a used block and of a used block behind it. *)
Lemma clear_used b nb l1 l2 :
  used_place b nb l1 l2 -> b_used nb = true -> clear_of (b_at b) (b_at b + b_size b) (heap :: fl).
Proof.
  intros [Hb Hu _ _ _ Hnb Hnat _] Hnu x Hx.
  pose proof (real_bounds _ _ _ _ I b Hb) as (? & ? & ? & _).
  destruct (hi_area _ _ _ _ I) as [_ [? _] [? ?] [? ?] Hap].
  apply elem_of_cons in Hx as [-> |Hx]; [lia|].
  apply (free_block _ _ _ _ I) in Hx as (b' & Hb' & <- & Hu').
  pose proof (real_bounds _ _ _ _ I b' Hb') as (_ & _ & ? & _).
  destruct (all_apart _ _ _ _ I b b' Hb (all_real _ _ _ _ I _ Hb')) as [-> |[Hge|?]];
    [congruence| |by left].
  right. destruct (all_apart _ _ _ _ I b' nb Hb' Hnb) as [-> |[?|?]]; [congruence|lia|lia].
Qed.

(** What the statistics count beside a used block. *)
Lemma used_counts l1 sz l2 :
  bs = l1 ++ [(sz, true)] ++ l2 ->
  free_size (stats c) = free_total (l1 ++ l2) /\ used_blocks (stats c) = used_number (l1 ++ l2) + 1 /\
  0 <= free_total (l1 ++ l2) /\ free_total (l1 ++ l2) + sz < 2 ^ 32 /\
  0 <= free_blocks (stats c) < 2 ^ 30.
Proof.
  intros Hbs. pose proof (inv_large _ _ _ _ I) as Hl. pose proof (inv_total _ _ _ _ I) as [Ht _].
  rewrite (hi_stat_free _ _ _ _ I), (hi_stat_used _ _ _ _ I), (hi_stat_number _ _ _ _ I).
  pose proof (number_small _ _ _ _ I) as Hs.
  rewrite Hbs in Hl, Ht |- *. rewrite !total_app in Ht. cbn [total fst] in Ht.
  rewrite !free_total_app, free_total_cons, !used_number_app, used_number_cons.
  change (free_total []) with 0. change (used_number []) with 0.
  apply Forall_app in Hl as [L1 L2]. apply Forall_app in L2 as [_ L2].
  destruct (free_bounds 0 true _ L1) as (? & _ & _). destruct (free_bounds 0 true _ L2) as (? & _ & _).
  cbn [b2z]. lia.
Qed.

(** ** Giving back what is not needed *)
Section Shrink.
Context (b nb : block) (l1 l2 : list (Z * bool)) (p n : Z).
Context (Hup : used_place b nb l1 l2) (Hnu : b_used nb = true).
Context (Hp : b_at b + 8 <= p < b_at b + 8 + page) (Hn : 0 <= n).
Context (Hpn : p + n <= b_at b + b_size b + 4).

(** The size the code passes to the split: with the offset in the page. *)
Abbreviation k := (n + (p - (b_at b + 8))).
Abbreviation sb := (split_blocks page min (b_size b) k).

Definition shrink_stats : Heap_Statistics :=
  let t := split_stats page min (b_size b) k (stats c) in
  if free_size t <? min_free_size t then stat_min_free_size (free_size t) t else t.

Lemma shrink_block : at_block (hp_words s) (b_at b) (b_size b) (b_prev b) (b_size nb) true.
Proof.
  destruct Hup as [Hb Hu Hbs Hat Hprev Hnb Hnat Hnp].
  pose proof (real_bounds _ _ _ _ I b Hb) as (? & ? & ? & _).
  destruct (all_next _ _ _ _ I nb Hnb) as (nn & Hnn & Hat2 & Hpu2).
  pose proof (all_word _ _ _ _ I nb Hnb) as W. rewrite Hnat, Hnp in W. split.
  - apply (all_word _ _ _ _ I b (all_real _ _ _ _ I b Hb)).
  - done.
  - by apply (all_even _ _ _ _ I).
  - exists (b_size nn). rewrite Hnat in Hat2. rewrite <- Hat2, <- Hnu, <- Hpu2.
    split; [by apply (all_word _ _ _ _ I)|by apply (all_even _ _ _ _ I)].
  - intros w Hw1 Hw2. apply (hi_mapped _ _ _ _ I); [lia|done].
Qed.

Lemma shrink_run :
  exists m', Heap_Block_allocate heap (b_at b) p n s =
      Ok (b_at b, mk_heap_state (set_stats shrink_stats c) m') /\
    Forall (tag m') (placed (b_at b) (b_prev b) sb) /\
    m' !! (b_at b + b_size b + 4) = Some (b_size nb + b2z (used_before (b_prev b) sb)) /\
    free_list m' heap (split_list page min (b_at b) (b_size b) k [] fl) /\
    region_frame (b_at b) (b_at b + b_size b) (heap :: fl) (hp_words s) m' /\
    (forall w, b_at b + 4 < w <= b_at b + split_used page min (b_size b) k ->
       m' !! w = hp_words s !! w).
Proof.
  pose proof (clear_used b nb l1 l2 Hup Hnu) as Hcl. pose proof shrink_block as Hab.
  destruct Hup as [Hb Hu Hbs Hat Hprev Hnb Hnat Hnp].
  pose proof (real_bounds _ _ _ _ I b Hb) as (B1 & B2 & B3 & B4 & B5).
  destruct (hi_area _ _ _ _ I) as [[P8 _] [M16 _] [F0 _] [? L32] _].
  destruct (split_run heap s (b_at b) (b_size b) (b_prev b) (b_size nb) true [] fl [] heap)
    with (alloc := k) as (m' & Hr & Hrest);
    [apply I|done|lia|done|lia|done|done|apply I|done|apply (list_spread _ _ _ _ I)|done|lia|lia|].
  exists m'. split; [|exact Hrest].
  unfold Heap_Block_allocate, Heap_Alloc_area_of_block, HEAP_BLOCK_HEADER_SIZE, block_take.
  rewrite (u32_id (b_at b + 8)), (u32_id (p - (b_at b + 8))), cm_bind_assoc by lia.
  rewrite (is_free_bind (b_at b) (b_size b) (b_prev b) (b_size nb) true);
    [|apply Hab|apply (all_even _ _ _ _ I b (all_real _ _ _ _ I b Hb))
     |rewrite u32_id by lia; apply Hab|apply Hab].
  cbn [negb]. rewrite ret_bind, ctl_bind. rewrite (proj2 (Z.ltb_lt _ _)), (u32_id (n + _)) by lia.
  unfold Heap_Block_allocate_from_begin, Heap_Free_list_head.
  rewrite cm_bind_assoc, (cm_bind_ok _ _ _ _ _ Hr), ret_bind. by rewrite upd_stats_bind.
Qed.

Lemma shrink_ok :
  exists s' bs' fl' usz, Heap_Block_allocate heap (b_at b) p n s = Ok (b_at b, s') /\
    resized heap s bs s' bs' fl' (b_at b) (b_size b) usz /\ p + n <= b_at b + usz + 4 /\
    usz <= b_size b.
Proof.
  destruct shrink_run as (m' & Hr & Htag & Hw & Hl & Hrf & Hkeep).
  destruct Hup as [Hb Hu Hbs Hat Hprev Hnb Hnat Hnp].
  pose proof (real_bounds _ _ _ _ I b Hb) as (B1 & B2 & B3 & B4 & B5).
  destruct (used_counts l1 (b_size b) l2 Hbs) as (U1 & U2 & U3 & U4 & U5).
  destruct (split_blocks_facts _ _ _ _ I (b_at b) (b_prev b) (b_size b) k [] fl (stats c))
    as (S1 & S2 & S3 & S4 & (usz & Esb & Husz) & S5 & S6 & S7 & S8 & S9); [done|done|lia|lia|].
  assert (split_used page min (b_size b) k = usz) as Eu.
  { revert Esb. unfold split_used, split_blocks. by destruct (_ <=? _); rewrite used_at_cons; intros [= ?]. }
  destruct (min_free_same (split_stats page min (b_size b) k (stats c))) as (R1 & R2 & R3 & R4).
  fold shrink_stats in R1, R2, R3, R4.
  assert (total [(b_size b, true)] = b_size b) as Et by (cbn; lia).
  assert (forall x, x ∈ heap :: fl -> x = heap \/ x ∈ fl \/
    b_at b <= x /\ x + 16 <= b_at b + total [(b_size b, true)]) as Hn'
    by (intros x [-> |Hx]%elem_of_cons; auto).
  exists (mk_heap_state (set_stats shrink_stats c) m'), (l1 ++ sb ++ l2),
    (split_list page min (b_at b) (b_size b) k [] fl), usz. split; [done|]. split; [|lia].
  apply (rebuilt b l1 [(b_size b, true)] l2 sb _ (heap :: fl)); rewrite ?Et, <- ?Hprev; try done.
  - rewrite Et in Hn'. done.
  - intros w Hw'. apply Hkeep. lia.
  - eapply (inv_rebuild _ _ _ _ I l1 [(b_size b, true)] l2 sb _ (heap :: fl));
      rewrite <- ?Hat, <- ?Hprev, ?Et; try done.
    + intros nsz nu l3 E. destruct (block_after _ _ _ _ I (b_at b + b_size b) l2 nsz nu l3 nb)
        as [-> ->]; [|done..|split; [done|congruence]].
      exists (l1 ++ [(b_size b, true)]). rewrite <- app_assoc. split; [done|].
      rewrite total_app, Et. lia.
    + rewrite Et in Hn'. done.
    + rewrite S5, !placed_app, !free_at_app, <- Hat, <- Hprev, S1. pose proof (hi_free _ _ _ _ I) as Hf.
      rewrite Hbs, !placed_app, !free_at_app, <- Hat, Et in Hf. rewrite Hf. cbn [app].
      rewrite (free_at_placed _ (used_before (b_prev b) sb) true l2).
      rewrite Permutation_app_comm, <- app_assoc. apply Permutation_app_head.
      cbn [placed]. apply Permutation_app_comm.
    + congruence.
    + rewrite R2, S8, U1, !free_total_app by lia. lia.
    + rewrite R3, S9, S5 by lia. rewrite (hi_stat_number _ _ _ _ I). cbn [app]. rewrite length_app. lia.
    + rewrite R4, S7, U2, !used_number_app. rewrite S3. lia.
Qed.
End Shrink.

(** ** Taking in the free block behind *)
Definition grow_stats (nsz : Z) (t : Heap_Statistics) : Heap_Statistics :=
  stat_free_size (fun x => u32 (x - nsz)) (stat_free_blocks (fun x => u32 (x - 1)) t).

Section Grow.
Context (b nb nx : block) (l1 l2 : list (Z * bool)) (f1 f2 : list Z).
Context (Hup : used_place b nb l1 ((b_size nb, false) :: l2)) (Hnr : nb ∈ placed first true bs).
Context (Hnu : b_used nb = false) (Hfl : fl = f1 ++ b_at nb :: f2).
Context (Hnx : nx ∈ all) (Hxat : b_at nx = b_at nb + b_size nb) (Hxu : b_used nx = true).
Context (Hxp : b_prev nx = false).

Abbreviation sz' := (b_size b + b_size nb).

Lemma grow_run :
  exists m', changes (heap :: f1 ++ f2) (<[b_at b + 4 := sz' + b2z (b_prev b)]> (hp_words s)) m' /\
    free_list m' heap (f1 ++ f2) /\
    (Heap_Block_set_size (b_at b) sz';;
     Heap_Free_list_remove (b_at nb);;
     let next_block := Heap_Block_at (b_at b) sz' in
     v ← ld_size_and_flag next_block;
     st_size_and_flag next_block (Z.lor v HEAP_PREV_BLOCK_USED);;
     upd_stats (stat_free_blocks (fun x => u32 (x - 1)));;
     upd_stats (stat_free_size (fun x => u32 (x - b_size nb)))) s =
    Ok (tt, mk_heap_state (set_stats (grow_stats (b_size nb) (stats c)) c)
              (<[b_at nx + 4 := b_size nx + 1]> m')).
Proof.
  destruct Hup as [Hb Hu Hbs Hat Hprev Hnb Hnat Hnp].
  pose proof (all_real _ _ _ _ I b Hb) as Ha.
  pose proof (real_bounds _ _ _ _ I b Hb) as (? & ? & ? & _).
  pose proof (real_bounds _ _ _ _ I nb Hnr) as (? & ? & ? & _).
  destruct (hi_area _ _ _ _ I) as [_ [? _] [? ?] [? ?] _].
  pose proof (all_even _ _ _ _ I b Ha) as [E1 E2]. pose proof (all_even _ _ _ _ I nb Hnb) as [_ E3].
  pose proof (all_even _ _ _ _ I nx Hnx) as [_ E4].
  pose proof (all_word _ _ _ _ I nx Hnx) as Wx. rewrite Hxp in Wx.
  pose proof (not_link _ _ _ _ I b Ha) as [_ N1]. pose proof (not_link _ _ _ _ I nx Hnx) as [_ N2].
  set (m0 := <[b_at b + 4 := sz' + b2z (b_prev b)]> (hp_words s)).
  destruct (list_remove_run heap f1 (b_at nb) f2 (mk_heap_state c m0)) as (m' & Hr & Hl & Hc & Hm).
  { rewrite <- Hfl. cbn. apply free_list_insert; [apply I|done]. }
  { rewrite <- Hfl. apply (list_spread _ _ _ _ I). }
  cbn [hp_words] in Hc, Hm.
  exists m'. split; [by split|]. split; [done|].
  rewrite (set_size_bind (b_at b) (b_size b) (b_prev b));
    [|by apply (all_word _ _ _ _ I)|done|by apply mod_add].
  change (set_hp_words _ s) with (mk_heap_state c m0). rewrite (cm_bind_ok _ _ _ _ _ Hr).
  unfold Heap_Block_at. replace (b_at b + sz') with (b_at nx) by lia. rewrite (u32_id (b_at nx)) by lia.
  assert (m' !! (b_at nx + 4) = Some (b_size nx + b2z false)) as Wx'.
  { rewrite Hc; [unfold m0; by rewrite lookup_insert_ne by lia|].
    intros (y & Hy & Hyw). apply N2. exists y. split; [|done]. rewrite Hfl. revert Hy. in_list. }
  unfold ld_size_and_flag, st_size_and_flag.
  rewrite (hld_bind _ (b_size nx + b2z false)) by exact Wx'. rewrite lor_used by done.
  rewrite hst_bind by (by eexists). by rewrite upd_stats_bind.
Qed.

Lemma grow_ok :
  exists s', (Heap_Block_set_size (b_at b) sz';;
     Heap_Free_list_remove (b_at nb);;
     let next_block := Heap_Block_at (b_at b) sz' in
     v ← ld_size_and_flag next_block;
     st_size_and_flag next_block (Z.lor v HEAP_PREV_BLOCK_USED);;
     upd_stats (stat_free_blocks (fun x => u32 (x - 1)));;
     upd_stats (stat_free_size (fun x => u32 (x - b_size nb)))) s = Ok (tt, s') /\
    resized heap s bs s' (l1 ++ [(sz', true)] ++ l2) (f1 ++ f2) (b_at b) (b_size b) sz'.
Proof.
  destruct grow_run as (m' & [Hc Hm] & Hl & Hr). eexists. split; [exact Hr|].
  destruct Hup as [Hb Hu Hbs Hat Hprev Hnb Hnat Hnp].
  pose proof (all_real _ _ _ _ I b Hb) as Ha.
  pose proof (real_bounds _ _ _ _ I b Hb) as (? & ? & ? & S1 & _).
  pose proof (real_bounds _ _ _ _ I nb Hnr) as (? & ? & ? & S2 & _).
  destruct (hi_area _ _ _ _ I) as [[P8 _] [? _] [? ?] [? ?] _].
  assert (forall w, ~ link_word (heap :: fl) w -> ~ link_word (heap :: f1 ++ f2) w) as Hsub.
  { intros w Hw (y & Hy & Hyw). apply Hw. exists y. split; [|done]. rewrite Hfl. revert Hy. in_list. }
  pose proof (not_link _ _ _ _ I b Ha) as [_ N1]. pose proof (not_link _ _ _ _ I nx Hnx) as [_ N2].
  assert (total [(b_size b, true); (b_size nb, false)] = sz') as Et by (cbn; lia).
  assert (total [(sz', true)] = sz') as Et' by (cbn; lia).
  assert (bs = l1 ++ [(b_size b, true); (b_size nb, false)] ++ l2) as Hbs' by done.
  assert (region_frame (b_at b) (b_at b + sz') (heap :: f1 ++ f2) (hp_words s)
    (<[b_at nx + 4 := b_size nx + 1]> m')) as Hrf.
  { split.
    - intros w Hw Hlw. rewrite lookup_insert_ne, Hc by (done || lia). apply lookup_insert_ne. lia.
    - intros w Hw. apply lookup_insert_is_Some'. right. apply Hm, lookup_insert_is_Some'. by right. }
  assert (forall x, x ∈ heap :: f1 ++ f2 -> x = heap \/ x ∈ fl \/ b_at b <= x /\ x + 16 <= b_at b + sz')
    as Hnodes.
  { intros x Hx. rewrite Hfl. revert Hx. rewrite !elem_of_cons, !elem_of_app, elem_of_cons. tauto. }
  destruct (used_counts l1 (b_size b) ((b_size nb, false) :: l2)) as (U1 & U2 & U3 & U4 & U5); [done|].
  rewrite free_total_app, free_total_cons in U1, U3, U4. rewrite used_number_app, used_number_cons in U2.
  assert (0 <= free_total l1 + free_total l2) as U6.
  { pose proof (inv_large _ _ _ _ I) as Hla. rewrite Hbs' in Hla. apply Forall_app in Hla as [L1 L2].
    apply Forall_app in L2 as [_ L2]. pose proof (free_bounds 0 true _ L1) as (? & _).
    pose proof (free_bounds 0 true _ L2) as (? & _). lia. }
  apply (rebuilt b l1 [(b_size b, true); (b_size nb, false)] l2 [(sz', true)] _ (heap :: f1 ++ f2));
    rewrite ?Et, ?Et'; try done.
  - intros w Hw. rewrite lookup_insert_ne, Hc by (lia || (apply Hsub, (data_not_link _ _ _ _ I b); (done || lia))).
    apply lookup_insert_ne. lia.
  - eapply (inv_rebuild _ _ _ _ I l1 [(b_size b, true); (b_size nb, false)] l2 [(sz', true)] _
      (heap :: f1 ++ f2)); rewrite <- ?Hat, <- ?Hprev, ?Et, ?Et'; try done.
    + constructor; [|constructor]. cbn. split; [lia|]. apply mod_add; [lia|done|done].
    + constructor; [|constructor]. split; [|done]. cbn.
      rewrite lookup_insert_ne, Hc by (lia || by apply Hsub). apply lookup_insert_eq.
    + intros nsz nu l3 E. destruct (block_after _ _ _ _ I (b_at b + sz') l2 nsz nu l3 nx)
        as [-> ->]; [|done|lia|done|].
      * exists (l1 ++ [(b_size b, true); (b_size nb, false)]). rewrite <- app_assoc. split; [done|].
        rewrite total_app, Et. lia.
      * split; [|congruence]. replace (b_at b + sz' + 4) with (b_at nx + 4) by lia. apply lookup_insert_eq.
    + apply free_list_insert; [done|by apply Hsub].
    + rewrite !placed_app, !free_at_app, <- Hat, Et'. pose proof (hi_free _ _ _ _ I) as Hf.
      rewrite Hbs', !placed_app, !free_at_app, <- Hat, Et, Hfl in Hf.
      assert (free_at (placed (b_at b) (used_before true l1) [(b_size b, true); (b_size nb, false)])
        = [b_at nb]) as Em by (by rewrite Hnat).
      rewrite Em, <- Permutation_middle in Hf. cbn [app] in Hf. rewrite <- Permutation_middle in Hf.
      apply Permutation_cons_inv in Hf. rewrite Hf.
      rewrite (free_at_placed _ (used_before _ [(sz', true)]) (used_before (used_before true l1)
        [(b_size b, true); (b_size nb, false)]) l2). done.
    + cbn [grow_stats stat_free_size free_size]. cbn [stat_free_blocks free_size]. rewrite U1.
      rewrite u32_id by lia. rewrite !free_total_app, free_total_cons. change (free_total []) with 0. lia.
    + cbn [grow_stats stat_free_size free_blocks stat_free_blocks]. rewrite u32_id by
        (rewrite (hi_stat_number _ _ _ _ I), Hfl in *; rewrite length_app in *; cbn [length] in *; lia).
      rewrite (hi_stat_number _ _ _ _ I), Hfl, !length_app. cbn [length]. lia.
    + cbn [grow_stats stat_free_size used_blocks stat_free_blocks]. rewrite U2.
      rewrite !used_number_app, used_number_cons. change (used_number []) with 0. cbn. lia.
Qed.
End Grow.

End Resize.

(** ** Composition *)
Lemma resized_trans heap s bs s1 bs1 fl1 s2 bs2 fl2 x sz sz1 sz2 :
  resized heap s bs s1 bs1 fl1 x sz sz1 -> resized heap s1 bs1 s2 bs2 fl2 x sz1 sz2 -> sz <= sz1 ->
  resized heap s bs s2 bs2 fl2 x sz sz2.
Proof.
  intros [_ (t1 & C1) (U & P1 & P2 & D1) K1] [I2 (t2 & C2) (U' & Q1 & Q2 & D2) K2] Hle.
  rewrite C1 in C2, Q1, Q2. cbn in C2, Q1, Q2.
  assert (U ≡ₚ U') as E by (apply (Permutation_cons_inv (a := (x, sz1))); by rewrite <- P2, Q1).
  split; [done|by exists t2| |].
  - exists U. split; [done|]. split; [by rewrite E|]. intros y ysz w Hy Hw.
    rewrite (D2 y ysz w) by (by rewrite <- ?E). by apply (D1 y ysz).
  - intros w Hw. rewrite K2 by lia. apply K1. lia.
Qed.

Lemma resized_stats heap s bs s' bs' fl' x sz sz' t :
  resized heap s bs s' bs' fl' x sz sz' -> let t0 := stats (hp_control s') in
  hs_size t = hs_size t0 -> free_size t = free_size t0 -> free_blocks t = free_blocks t0 ->
  used_blocks t = used_blocks t0 ->
  resized heap s bs (mk_heap_state (set_stats t (hp_control s')) (hp_words s')) bs' fl' x sz sz'.
Proof.
  intros [Hi (t' & Hc) Hu Hk] t0 T1 T2 T3 T4. split; [by apply heap_inv_stats| |done|done].
  exists t. cbn. by rewrite Hc.
Qed.

Lemma used_size_read {B} heap s bs fl x sz (k : Z -> cm heap_state B) :
  heap_inv heap s bs fl -> (x, sz) ∈ used_at (placed (first_block (hp_control s)) true bs) ->
  (Heap_Block_size x ≫= k) s = k sz s /\ first_block (hp_control s) <= x /\
  x + sz <= last_block (hp_control s).
Proof.
  intros I (b & Hb & <- & <- & _)%used_at_elem. pose proof (all_real _ _ _ _ I b Hb) as Ha.
  pose proof (real_bounds _ _ _ _ I b Hb) as (? & ? & _). split; [|done].
  apply (block_size_bind _ _ (b_prev b)); [by apply (all_word _ _ _ _ I)|by apply (all_even _ _ _ _ I)].
Qed.

Section Checked.
Context (heap : Z).
Context (s : heap_state) (bs : list (Z * bool)) (fl : list Z).
Context (I : heap_inv heap s bs fl).

Abbreviation c := (hp_control s).
Abbreviation page := (page_size c).
Abbreviation first := (first_block c).

(** The allocation in a used block, and what the caller learns from it. *)
Lemma finish_ok b nb l1 l2 p n :
  used_place s bs b nb l1 l2 -> b_used nb = true -> b_at b + 8 <= p < b_at b + 8 + page ->
  0 <= n -> p + n <= b_at b + b_size b + 4 ->
  exists s' bs' fl' usz, Heap_Block_allocate heap (b_at b) p n s = Ok (b_at b, s') /\
    (forall B (k : Z -> cm heap_state B), (Heap_Block_size (b_at b) ≫= k) s' = k usz s') /\
    u32 (Heap_Block_at (b_at b) usz - p + HEAP_ALLOC_BONUS) = b_at b + usz + 4 - p /\
    resized heap s bs s' bs' fl' (b_at b) (b_size b) usz /\ p + n <= b_at b + usz + 4.
Proof.
  intros Hup Hnu Hp Hn Hpn.
  destruct (shrink_ok heap s bs fl I b nb l1 l2 p n) as (s1 & bs1 & fl1 & usz & Hr & R & Hz & Hle); [done..|].
  assert ((b_at b, usz) ∈ used_at (placed (first_block (hp_control s1)) true bs1)) as Hin.
  { destruct R as [_ (t & ->) (U & _ & P & _) _]. cbn. rewrite P. left. }
  pose proof (fun B k => used_size_read (B := B) heap s1 bs1 fl1 (b_at b) usz k
    (rs_inv _ _ _ _ _ _ _ _ _ R) Hin) as Hsz.
  exists s1, bs1, fl1, usz. split; [done|]. split; [by intros B k; apply Hsz|]. split; [|done].
  destruct (hi_area _ _ _ _ I) as [_ [? _] [? _] [? ?] _].
  pose proof (real_bounds _ _ _ _ I b (up_in _ _ _ _ _ _ Hup)) as (? & ? & _).
  unfold Heap_Block_at, HEAP_ALLOC_BONUS. rewrite (u32_id (b_at b + usz)), u32_id; lia.
Qed.
End Checked.

Lemma used_place_next heap s bs fl b nb l1 l2 nsz nu l3 :
  heap_inv heap s bs fl -> used_place s bs b nb l1 l2 ->
  l2 ++ [end_block (hp_control s)] = (nsz, nu) :: l3 -> nsz = b_size nb /\ nu = b_used nb.
Proof.
  intros I [Hb Hu Hbs Hat Hprev Hnb Hnat Hnp] E.
  apply (block_after heap s bs fl I (b_at b + b_size b) l2 nsz nu l3 nb); try done.
  exists (l1 ++ [(b_size b, true)]). rewrite <- app_assoc. split; [done|].
  rewrite total_app, Hat. cbn. lia.
Qed.

Section Block.
Context (heap : Z).
Context (s : heap_state) (bs : list (Z * bool)) (fl : list Z).
Context (I : heap_inv heap s bs fl).

Abbreviation c := (hp_control s).
Abbreviation page := (page_size c).
Abbreviation first := (first_block c).

Context (b nb : block) (l1 l2 : list (Z * bool)) (p n : Z).
Context (Hup : used_place s bs b nb l1 l2).
Context (Hp : b_at b + 8 <= p < b_at b + 8 + page) (Hpe : p <= b_at b + b_size b + 4).
Context (Hn : 0 <= n < 2 ^ 32).

(** The bytes the area can have. *)
Definition room : Z := b_at b + b_size b + (if b_used nb then 0 else b_size nb) + 4 - p.

(** The room behind the block is taken in. *)
Lemma grown :
  b_used nb = false -> exists s1 nx l2',
    l2 = (b_size nb, false) :: l2' /\
    (Heap_Block_set_size (b_at b) (b_size b + b_size nb);;
     Heap_Free_list_remove (b_at nb);;
     let next_block := Heap_Block_at (b_at b) (b_size b + b_size nb) in
     v ← ld_size_and_flag next_block;
     st_size_and_flag next_block (Z.lor v HEAP_PREV_BLOCK_USED);;
     upd_stats (stat_free_blocks (fun x => u32 (x - 1)));;
     upd_stats (stat_free_size (fun x => u32 (x - b_size nb)))) s = Ok (tt, s1) /\
    let b1 := mk_block (b_at b) (b_size b + b_size nb) (b_prev b) true in
    let bs1 := l1 ++ [(b_size b + b_size nb, true)] ++ l2' in
    (exists fl1, resized heap s bs s1 bs1 fl1 (b_at b) (b_size b) (b_size b + b_size nb)) /\
    used_place s1 bs1 b1 nx l1 l2' /\ b_used nx = true.
Proof.
  intros Hn0. pose proof Hup as [Hb Hu Hbs Hat Hprev Hnb Hnat Hnp].
  destruct (next_free heap s bs fl I b nb l1 l2) as [Hnr (l2' & El2)]; [done..|].
  destruct (behind_free _ _ _ _ I nb Hnr Hn0) as (nx & Hnx & Hxat & Hxu & Hxp).
  assert (b_at nb ∈ fl) as Hin by (apply (free_block _ _ _ _ I); by exists nb).
  apply list_elem_of_split in Hin as (f1 & f2 & Hfl).
  assert (used_place s bs b nb l1 ((b_size nb, false) :: l2')) as Hup' by (by rewrite <- El2).
  destruct (grow_ok heap s bs fl I b nb nx l1 l2' f1 f2) as (s1 & Hr & R); [done..|].
  pose proof (rs_inv _ _ _ _ _ _ _ _ _ R) as I1. destruct (rs_control _ _ _ _ _ _ _ _ _ R) as (t1 & C1).
  set (b1 := mk_block (b_at b) (b_size b + b_size nb) (b_prev b) true).
  set (bs1 := l1 ++ [(b_size b + b_size nb, true)] ++ l2') in *.
  assert (b1 ∈ placed (first_block (hp_control s1)) true bs1) as Hb1.
  { rewrite C1. cbn [set_stats first_block]. unfold bs1. rewrite placed_app. apply elem_of_app. right.
    rewrite <- Hat, <- Hprev. left. }
  destruct (all_next _ _ _ _ I1 b1 (all_real _ _ _ _ I1 b1 Hb1)) as (n1 & Hn1 & Hn1at & Hn1p).
  pose proof (real_bounds _ _ _ _ I1 b1 Hb1) as (? & ? & _).
  destruct (hi_area _ _ _ _ I1) as [_ [? _] [? _] [? ?] _]. cbn [b1 b_at b_size b_used] in *.
  destruct (hi_area _ _ _ _ I) as [_ [? _] [? _] [? ?] _].
  pose proof (real_bounds _ _ _ _ I b Hb) as (? & ? & ? & _).
  pose proof (real_bounds _ _ _ _ I nb Hnr) as (? & ? & ? & _).
  rewrite u32_id in Hn1at by lia.
  assert (used_place s1 bs1 b1 n1 l1 l2') as Hup1.
  { split; cbn [b1 b_at b_size b_used b_prev]; try done. by rewrite C1. }
  exists s1, n1, l2'. split; [done|]. split; [done|]. split; [by exists (f1 ++ f2)|]. split; [done|].
  destruct (l2' ++ [end_block (hp_control s1)]) as [|[nsz nu] l3] eqn:E; [by destruct l2'|].
  destruct (used_place_next heap s1 bs1 _ b1 n1 l1 l2' nsz nu l3 I1 Hup1 E) as [_ <-].
  rewrite C1 in E. change (end_block (set_stats t1 c)) with (end_block c) in E.
  rewrite <- Hxu. apply (block_after heap s bs fl I (b_at nx) l2' nsz nu l3 nx); try done.
  exists (l1 ++ [(b_size b, true); (b_size nb, false)]). rewrite <- app_assoc. cbn [app].
  split; [by rewrite Hbs, El2|]. rewrite total_app. cbn. lia.
Qed.

Lemma resize_ok :
  exists st new s', Heap_Resize_block heap p n s = Ok (st, b_at b + b_size b + 4 - p, new, s') /\
    (st = HEAP_RESIZE_UNSATISFIED /\ new = 0 /\ s' = s /\ room < n \/
     st = HEAP_RESIZE_SUCCESSFUL /\ n <= room /\ exists bs' fl' usz,
       resized heap s bs s' bs' fl' (b_at b) (b_size b) usz /\ new = b_at b + usz + 4 - p /\ n <= new).
Proof.
  pose proof Hup as [Hb Hu Hbs Hat Hprev Hnb Hnat Hnp].
  destruct (free_head heap s bs fl I p b Hb Hp) as [_ Hblk].
  pose proof (real_bounds _ _ _ _ I b Hb) as (? & ? & ? & _).
  destruct (hi_area _ _ _ _ I) as [[? ?] [? _] [? _] [? ?] _].
  pose proof (all_real _ _ _ _ I b Hb) as Ha.
  assert (Heap_Block_at (b_at b) (b_size b) = b_at nb) as En by (unfold Heap_Block_at; rewrite u32_id; lia).
  assert (b_used nb = false -> b_at nb + b_size nb <= last_block c /\ 0 < b_size nb) as Hnsz.
  { intros Hf. destruct (next_free heap s bs fl I b nb l1 l2) as [Hnr _]; [done..|].
    pose proof (real_bounds _ _ _ _ I nb Hnr) as (_ & ? & ? & _). lia. }
  unfold Heap_Resize_block. rewrite ctl_bind, block_of_bind, Hblk, in_heap_bind by lia.
  rewrite (proj2 (Z.leb_le first (b_at b))), (proj2 (Z.leb_le (b_at b) (last_block c))) by lia. cbn [andb].
  unfold Heap_Resize_block_checked.
  rewrite (size_read _ _ _ _ I), En, (size_read _ _ _ _ I) by done.
  unfold Heap_Is_free. rewrite cm_bind_assoc, (used_read _ _ _ _ I), ret_bind by done.
  unfold HEAP_ALLOC_BONUS. rewrite (u32_id (b_at b + b_size b)), (u32_id (b_at b + b_size b - p + 4)) by lia.
  replace (b_at b + b_size b - p + 4) with (b_at b + b_size b + 4 - p) by lia.
  unfold room. destruct (b_used nb) eqn:Hnu; cbn [negb c_if].
  - destruct (Z.ltb_spec (b_at b + b_size b + 4 - p) n) as [Hlt|Hge].
    { eexists _, 0, s. split; [reflexivity|]. left. repeat (split; [done|]). lia. }
    destruct (finish_ok heap s bs fl I b nb l1 l2 p n) as (s' & bs' & fl' & usz & Hr & Hrd & Hnew & R & Hfit);
      [done|done|done|lia|lia|].
    unfold HEAP_ALLOC_BONUS in Hnew. rewrite ret_bind, (cm_bind_ok _ _ _ _ _ Hr), Hrd, upd_stats_bind.
    eexists _, _, _. split; [reflexivity|]. right. split; [done|]. split; [lia|].
    exists bs', fl', usz. split; [by apply resized_stats|]. split; [done|]. rewrite Hnew. lia.
  - destruct (Hnsz eq_refl) as [? ?]. rewrite (u32_id (b_at b + b_size b + 4 - p + b_size nb)) by lia.
    rewrite (u32_id (b_size b + b_size nb)) by lia.
    destruct (Z.ltb_spec (b_at b + b_size b + 4 - p + b_size nb) n) as [Hlt|Hge].
    { eexists _, 0, s. split; [reflexivity|]. left. repeat (split; [done|]). lia. }
    destruct (grown Hnu) as (s1 & nx & l2' & El2 & Hg & (fl1 & R1) & Hup1 & Hxu).
    rewrite (cm_bind_ok _ _ _ _ _ Hg). destruct (rs_control _ _ _ _ _ _ _ _ _ R1) as (t1 & C1).
    destruct (finish_ok heap s1 _ fl1 (rs_inv _ _ _ _ _ _ _ _ _ R1) _ nx l1 l2' p n Hup1)
      as (s' & bs' & fl' & usz & Hr & Hrd & Hnew & R & Hfit);
      [done|by rewrite C1|lia|cbn; lia|]. cbn [b_at b_size] in *.
    unfold HEAP_ALLOC_BONUS in Hnew. rewrite (cm_bind_ok _ _ _ _ _ Hr), Hrd, upd_stats_bind.
    eexists _, _, _. split; [reflexivity|]. right. split; [done|]. split; [lia|].
    exists bs', fl', usz. split; [|split; [done|rewrite Hnew; lia]].
    apply resized_stats; [|done..]. eapply resized_trans; [exact R1|exact R|lia].
Qed.
End Block.
