(* ===== verification/HeapSession.v ===== *)
(** * The heap as an allocator

    What the clients of a heap rely on, as an abstract allocator: a map of live
    areas with their data.  The operations of the heap and the stores of the
    clients to their own areas refine it; the blocks of a heap are determined
    by its used blocks, so freeing undoes an allocation. *)

From stdpp Require Import base tactics numbers option list list_numbers gmap fin_maps.
From stdpp Require Import fin_map_dom fin_sets sorting.
From Stdlib Require Import ZArith Lia.
From S2P Require Import Prelude Chain Objects Heap HeapList HeapBlocks HeapRun HeapInv HeapAlloc.
From S2P Require Import HeapPlace HeapSearch HeapFree HeapInit HeapResize.

Open Scope Z_scope.

(** ** The used blocks determine the heap *)
Definition merged (L : list block) : Prop :=
  Forall (fun b => b_used b = false -> b_prev b = true) L.

Lemma used_at_from a pu bs x sz :
  large bs -> (x, sz) ∈ used_at (placed a pu bs) -> a <= x.
Proof.
  intros Hl (b & Hb & <- & _ & _)%used_at_elem. apply placed_bounds in Hb; [lia|done].
Qed.

(** Behind a free block comes a used one, or nothing. *)
Lemma merged_free a bs :
  merged (placed a false bs) -> bs = [] \/ exists sz r, bs = (sz, true) :: r.
Proof.
  destruct bs as [|[sz [|]] r]; intros Hm; [by left|right; eauto|].
  apply Forall_cons in Hm as [Hm _]. by specialize (Hm eq_refl).
Qed.

Lemma canonical a pu bs1 bs2 :
  large bs1 -> large bs2 -> merged (placed a pu bs1) -> merged (placed a pu bs2) ->
  total bs1 = total bs2 -> used_at (placed a pu bs1) = used_at (placed a pu bs2) -> bs1 = bs2.
Proof.
  intros L1. revert a pu bs2. induction L1 as [|[sz1 u1] r1 Hz1 L1 IH]; intros a pu bs2 L2 M1 M2 Ht Hu.
  { destruct bs2 as [|b2 r2]; [done|]. apply Forall_cons in L2 as [Hz2 L2].
    pose proof (total_nonneg _ L2). cbn in Ht. lia. }
  destruct bs2 as [|[sz2 u2] r2].
  { pose proof (total_nonneg _ L1). cbn in Ht, Hz1. lia. }
  apply Forall_cons in L2 as [Hz2 L2]. cbn [fst] in Hz1, Hz2.
  apply Forall_cons in M1 as [M1 N1]. apply Forall_cons in M2 as [M2 N2].
  cbn [total fst] in Ht. rewrite !used_at_cons in Hu.
  assert (forall sz sz' r r', 16 <= sz' -> large r' ->
    (a, sz) :: used_at (placed (a + sz) true r) <> used_at (placed (a + sz') false r')) as Hdiff.
  { intros sz sz' r r' Hs Hl Heq. assert ((a, sz) ∈ used_at (placed (a + sz') false r')) as Hin
      by (rewrite <- Heq; left). apply used_at_from in Hin; [lia|done]. }
  destruct u1, u2; cbn [app] in Hu.
  - injection Hu as -> Hu. f_equal. apply (IH (a + sz2) true); [done..|lia|done].
  - by apply Hdiff in Hu.
  - symmetry in Hu. by apply Hdiff in Hu.
  - assert (sz1 = sz2) as ->; [|f_equal; apply (IH (a + sz2) false); [done..|lia|done]].
    destruct (merged_free _ _ N1) as [-> |(s1 & q1 & ->)], (merged_free _ _ N2) as [-> |(s2 & q2 & ->)].
    + cbn in Ht. lia.
    + by rewrite used_at_cons in Hu.
    + by rewrite used_at_cons in Hu.
    + rewrite !used_at_cons in Hu. injection Hu as Hu _ _. lia.
Qed.

(** The used blocks are listed by address. *)
Lemma used_at_perm a pu bs1 bs2 :
  large bs1 -> large bs2 -> used_at (placed a pu bs1) ≡ₚ used_at (placed a pu bs2) ->
  used_at (placed a pu bs1) = used_at (placed a pu bs2).
Proof.
  assert (forall a pu bs, large bs ->
    StronglySorted (fun x y : Z * Z => x.1 < y.1) (used_at (placed a pu bs))) as Hss.
  { intros a' pu' bs Hl. revert a' pu'. induction Hl as [|[sz u] r Hz Hl IH]; intros a' pu'; [constructor|].
    rewrite used_at_cons. destruct u; cbn [app]; [|apply IH]. constructor; [apply IH|].
    apply Forall_forall. intros [x xs] Hx. apply used_at_from in Hx; [cbn in *; lia|done]. }
  intros L1 L2 Hp.
  apply (StronglySorted_unique_strong (fun x y : Z * Z => x.1 < y.1)); [|by apply Hss..|done].
  intros x y _ _ H1 H2. lia.
Qed.

Lemma inv_merged heap s bs fl :
  heap_inv heap s bs fl -> merged (placed (first_block (hp_control s)) true bs).
Proof.
  intros I. apply Forall_forall. intros b Hb Hu.
  by apply (all_free _ _ _ _ I b (all_real _ _ _ _ I b Hb)).
Qed.

(** Two heaps with the same area and the same used blocks have the same blocks. *)
Lemma heap_determined heap s bs fl s' bs' fl' :
  heap_inv heap s bs fl -> heap_inv heap s' bs' fl' ->
  (exists t, hp_control s' = set_stats t (hp_control s)) ->
  let first := first_block (hp_control s) in
  used_at (placed first true bs) ≡ₚ used_at (placed first true bs') -> bs = bs'.
Proof.
  intros I I' (t & Hc) first Hu. pose proof (inv_large _ _ _ _ I). pose proof (inv_large _ _ _ _ I').
  pose proof (inv_merged _ _ _ _ I) as M. pose proof (inv_merged _ _ _ _ I') as M'.
  pose proof (hi_last _ _ _ _ I) as Hl. pose proof (hi_last _ _ _ _ I') as Hl'.
  rewrite Hc in M', Hl'. cbn in M', Hl'. fold first in M, M', Hl, Hl'.
  apply (canonical first true); [done..|lia|by apply used_at_perm].
Qed.

(** ** Stores of the clients *)
Lemma store_inv heap s bs fl b w v :
  heap_inv heap s bs fl -> b ∈ placed (first_block (hp_control s)) true bs -> b_used b = true ->
  b_at b + 8 <= w <= b_at b + b_size b ->
  heap_inv heap (set_hp_words (<[w := v]> (hp_words s)) s) bs fl.
Proof.
  intros I Hb Hu Hw. pose proof (real_bounds _ _ _ _ I b Hb) as (? & ? & ? & _).
  destruct (hi_area _ _ _ _ I) as [_ [? _] _ [? _] Hap].
  assert (forall x, x ∈ placed (first_block (hp_control s)) true (bs ++ [end_block (hp_control s)]) ->
    x = b \/ b_at b + b_size b <= b_at x \/ b_at x + 16 <= b_at b) as Hx.
  { intros x Hx. destruct (all_apart _ _ _ _ I b x Hb Hx); auto. }
  pose proof (data_not_link _ _ _ _ I b w Hb Hu Hw) as Hlk.
  pose proof I as [I1 I2 I3 I4 I5 I6 I7 I8 I9 I10 I11].
  split; cbn [hp_control hp_words set_hp_words]; try done.
  - apply (tags_frame _ _ _ I4).
    + intros x Hin. apply lookup_insert_ne. destruct (Hx x Hin) as [-> |[?|?]]; lia.
    + intros x Hin Hux. apply lookup_insert_ne.
      destruct (all_next _ _ _ _ I x Hin) as (nx & Hnx & Hat & Hp).
      destruct (all_cases _ _ _ _ I x Hin) as [Hr| ->]; [|done].
      pose proof (real_bounds _ _ _ _ I x Hr) as (? & ? & ? & _).
      destruct I1 as [_ _ [? _] [_ ?] _]. rewrite u32_id in Hat by lia. rewrite <- Hat.
      destruct (Hx nx Hnx) as [-> |[Hge|?]]; [lia| |lia].
      intros ->. destruct (placed_apart _ _ _ _ _ (inv_large _ _ _ _ I) Hb Hr) as [-> |[?|?]];
        [congruence|lia|lia].
  - by apply free_list_insert.
  - intros w' Hw1 Hw2. apply lookup_insert_is_Some'. right. by apply I7.
Qed.

(** ** The abstract allocator *)
Record client := mk_client { live : gmap Z Z; data : words }.

Inductive heap_op :=
| H_allocate (n alignment boundary : Z)
| H_free (p : Z)
| H_resize (p n : Z)
| H_store (w v : Z).

Definition run_heap_op (heap : Z) (op : heap_op) : cm heap_state Z :=
  match op with
  | H_allocate n al bd => Heap_Allocate_aligned_with_boundary heap n al bd
  | H_free p => ok ← Heap_Free heap p; mret (b2z ok)
  | H_resize p n =>
      r ← Heap_Resize_block heap p n;
      mret (match r.1.1 with HEAP_RESIZE_SUCCESSFUL => 1 | _ => 0 end)
  | H_store w v => in_words (stw w v);; mret 0
  end.

(** A word of an area. *)
Definition in_area (p n w : Z) : Prop := p <= w /\ w + 4 <= p + n /\ w mod 4 = 0.

(** What a client may ask for. *)
Definition may (c : Heap_Control) (a : client) (op : heap_op) : Prop :=
  match op with
  | H_allocate n al bd => 0 <= n < 2 ^ 32 /\ 0 <= al /\ al mod page_size c = 0 /\ 0 <= bd
  | H_free p => is_Some (live a !! p)
  | H_resize p n => is_Some (live a !! p) /\ 0 <= n < 2 ^ 32
  | H_store w v => exists p n, live a !! p = Some n /\ in_area p n w
  end.

(** A fresh area lies in the heap, apart from the live ones, aligned and within
    the boundary lines as asked; it leaves the live data alone. *)
Record fresh (c : Heap_Control) (a : client) (n al bd p : Z) (d : words) : Prop := {
  fh_null : p <> 0;
  fh_new : live a !! p = None;
  fh_in : first_block c + 8 <= p /\ p + n <= last_block c + 4;
  fh_page : p mod page_size c = 0;
  fh_align : al = 0 \/ p mod al = 0;
  fh_bound : crosses_no bd p n;
  fh_apart : forall q k, live a !! q = Some k -> p + n <= q \/ q + k <= p;
  fh_data : forall q k w, live a !! q = Some k -> in_area q k w -> d !! w = data a !! w
}.

(** An area changes its size in place: it stays in the heap, apart from the
    others, and keeps the data both sizes have. *)
Record in_place (c : Heap_Control) (a : client) (p n : Z) (d : words) : Prop := {
  ip_in : p + n <= last_block c + 4;
  ip_apart : forall q k, q <> p -> live a !! q = Some k -> p + n <= q \/ q + k <= p;
  ip_data : forall q k w, q <> p -> live a !! q = Some k -> in_area q k w -> d !! w = data a !! w;
  ip_own : forall k w, live a !! p = Some k -> in_area p (Z.min k n) w -> d !! w = data a !! w
}.

Inductive client_step (c : Heap_Control) (a : client) : heap_op -> Z -> client -> Prop :=
| cs_refuse n al bd : client_step c a (H_allocate n al bd) 0 a
| cs_allocate n al bd p d : fresh c a n al bd p d ->
    client_step c a (H_allocate n al bd) p (mk_client (<[p := n]> (live a)) d)
| cs_free p : client_step c a (H_free p) 1 (mk_client (delete p (live a)) (data a))
| cs_resize p n d : in_place c a p n d ->
    client_step c a (H_resize p n) 1 (mk_client (<[p := n]> (live a)) d)
| cs_no_room p n : client_step c a (H_resize p n) 0 a
| cs_store w v : client_step c a (H_store w v) 0 (mk_client (live a) (<[w := v]> (data a))).

(** A heap whose used blocks are the live areas, with their data. *)
Record represents (heap : Z) (s : heap_state) (bs : list (Z * bool)) (fl : list Z) (a : client)
    : Prop := {
  rp_inv : heap_inv heap s bs fl;
  rp_live : forall p n, live a !! p = Some n -> exists usz,
    (p - 8, usz) ∈ used_at (placed (first_block (hp_control s)) true bs) /\ p + n <= p - 8 + usz + 4;
  rp_used : forall x usz, (x, usz) ∈ used_at (placed (first_block (hp_control s)) true bs) ->
    is_Some (live a !! (x + 8));
  rp_data : forall p n w, live a !! p = Some n -> in_area p n w -> data a !! w = hp_words s !! w
}.

(** The live areas are apart. *)
Lemma represents_apart heap s bs fl a p n q k :
  represents heap s bs fl a -> live a !! p = Some n -> live a !! q = Some k -> p <> q ->
  p + n <= q \/ q + k <= p.
Proof.
  intros [I Hl _ _] Hp Hq Hne.
  destruct (Hl p n Hp) as (u1 & (b1 & Hb1 & E1 & <- & _)%used_at_elem & ?).
  destruct (Hl q k Hq) as (u2 & (b2 & Hb2 & E2 & <- & _)%used_at_elem & ?).
  destruct (placed_apart _ _ _ _ _ (inv_large _ _ _ _ I) Hb1 Hb2) as [-> |[?|?]]; lia.
Qed.

Lemma used_at_unique a pu bs x sz sz' :
  large bs -> (x, sz) ∈ used_at (placed a pu bs) -> (x, sz') ∈ used_at (placed a pu bs) -> sz = sz'.
Proof.
  intros Hl (b1 & Hb1 & E1 & <- & _)%used_at_elem (b2 & Hb2 & E2 & <- & _)%used_at_elem.
  pose proof (placed_bounds _ _ _ _ Hl Hb1) as (_ & _ & ?).
  pose proof (placed_bounds _ _ _ _ Hl Hb2) as (_ & _ & ?).
  destruct (placed_apart _ _ _ _ _ Hl Hb1 Hb2) as [-> |[?|?]]; [done|lia|lia].
Qed.

Lemma used_at_fresh a pu bs x sz sz' U :
  large bs -> used_at (placed a pu bs) ≡ₚ (x, sz) :: U -> (x, sz') ∈ U -> False.
Proof.
  intros Hl Hp Hin. assert (NoDup (fst <$> used_at (placed a pu bs))) as Hnd.
  { unfold used_at. rewrite <- list_fmap_compose.
    eapply sublist_NoDup; [exact (placed_NoDup a pu bs Hl)|]. apply fmap_sublist, sublist_filter. }
  rewrite Hp in Hnd. cbn in Hnd. apply NoDup_cons in Hnd as [Hnd _]. apply Hnd.
  apply list_elem_of_fmap. by exists (x, sz').
Qed.

(** ** Refinement *)
Section Refine.
Context (heap : Z) (s : heap_state) (bs : list (Z * bool)) (fl : list Z) (a : client).
Context (R : represents heap s bs fl a).

Abbreviation c := (hp_control s).
Abbreviation first := (first_block c).

Lemma first_same s' : (exists t, hp_control s' = set_stats t c) -> first_block (hp_control s') = first.
Proof. by intros (t & ->). Qed.

Lemma refine_store w v :
  may c a (H_store w v) ->
  in_words (stw w v) s = Ok (tt, set_hp_words (<[w := v]> (hp_words s)) s) /\
  represents heap (set_hp_words (<[w := v]> (hp_words s)) s) bs fl
    (mk_client (live a) (<[w := v]> (data a))).
Proof.
  intros (p & n & Hp & Hw). pose proof R as [I Hl Hus Hd].
  destruct (Hl p n Hp) as (usz & Hin & Hend).
  apply used_at_elem in Hin as (b & Hb & Hat & <- & Hu). unfold in_area in Hw.
  pose proof (real_bounds _ _ _ _ I b Hb) as (? & ? & ? & _).
  split.
  - apply hst_run. rewrite <- (Hd p n) by done. rewrite (Hd p n) by done.
    apply (hi_mapped _ _ _ _ I); [lia|tauto].
  - split; cbn [hp_words hp_control set_hp_words live data]; [|done|done|].
    + apply (store_inv heap s bs fl b); [done|done|done|lia].
    + intros q k w' Hq Hw'. destruct (decide (w = w')) as [<- |Hne].
      * by rewrite !lookup_insert_eq.
      * rewrite !lookup_insert_ne by done. by apply (Hd q k).
Qed.

Lemma refine_free p :
  may c a (H_free p) ->
  exists s' bs' fl', Heap_Free heap p s = Ok (true, s') /\
    (exists t, hp_control s' = set_stats t c) /\
    represents heap s' bs' fl' (mk_client (delete p (live a)) (data a)).
Proof.
  intros (n & Hp). pose proof R as [I Hl Hus Hd]. destruct (Hl p n Hp) as (usz & Hin & Hend).
  pose proof Hin as (b & Hb & Hat & Hsz & Hu)%used_at_elem.
  destruct (hi_area _ _ _ _ I) as [[? _] _ _ _ _].
  destruct (free_ok _ _ _ _ I p b) as (s' & bs' & fl' & Hr & [F1 F2 F3 F4]); [done|done|lia|].
  exists s', bs', fl'. split; [done|]. split; [done|]. pose proof (first_same s' F2) as Ef.
  rewrite Hat, Hsz in F3.
  assert (forall q k, delete p (live a) !! q = Some k -> exists u,
    (q - 8, u) ∈ used_at (placed first true bs') /\ q + k <= q - 8 + u + 4) as Hl'.
  { intros q k (Hne & Hq)%lookup_delete_Some. destruct (Hl q k Hq) as (u & Hqu & ?).
    exists u. split; [|done]. rewrite F3 in Hqu. apply elem_of_cons in Hqu as [[= E _]|Hqu]; [lia|done]. }
  split; rewrite ?Ef; cbn [live data]; [done|done| |].
  - intros x u Hx. assert ((x, u) ∈ used_at (placed first true bs)) as Hx' by (rewrite F3; by right).
    destruct (Hus x u Hx') as (k & Hk). exists k. apply lookup_delete_Some. split; [|done].
    intros ->. apply (used_at_fresh first true bs x usz u (used_at (placed first true bs')));
      [exact (inv_large _ _ _ _ I)| |done]. rewrite F3. by replace (x + 8 - 8) with x by lia.
  - intros q k w Hq Hw. destruct (Hl' q k Hq) as (u & (b' & Hb' & Eb & Es & Eu)%used_at_elem & ?).
    apply lookup_delete_Some in Hq as [_ Hq]. rewrite (Hd q k w Hq Hw). symmetry.
    unfold in_area in Hw. apply (F4 b' w Hb' Eu). lia.
Qed.

Lemma refine_allocated s' bs' fl' p n al bd :
  0 <= n -> p <> 0 -> allocated heap s bs s' bs' fl' (p - 8) p n -> p mod page_size c = 0 ->
  (al = 0 \/ p mod al = 0) -> crosses_no bd p n ->
  fresh c a n al bd p (hp_words s') /\
  represents heap s' bs' fl' (mk_client (<[p := n]> (live a)) (hp_words s')).
Proof.
  intros Hn Hp0 [A1 A2 (usz & A3 & A4 & A5) A6] Hpp Hal Hbd. pose proof R as [I Hl Hus Hd].
  pose proof (first_same s' A2) as Ef. pose proof (inv_large _ _ _ _ A1) as L'.
  assert ((p - 8, usz) ∈ used_at (placed first true bs')) as Hin by (rewrite A3; left).
  assert (forall q k, live a !! q = Some k -> exists u,
    (q - 8, u) ∈ used_at (placed first true bs') /\ q + k <= q - 8 + u + 4) as Hl'.
  { intros q k Hq. destruct (Hl q k Hq) as (u & Hu & ?). exists u. split; [|done].
    rewrite A3. by right. }
  assert (live a !! p = None) as Hnone.
  { destruct (live a !! p) as [k|] eqn:E; [|done]. destruct (Hl p k E) as (u & Hu & _). exfalso.
    by apply (used_at_fresh first true bs' (p - 8) usz u _ L' A3). }
  assert (forall q k w, live a !! q = Some k -> in_area q k w -> hp_words s' !! w = data a !! w) as Hdat.
  { intros q k w Hq Hw. rewrite (Hd q k w Hq Hw).
    destruct (Hl q k Hq) as (u & (b' & Hb' & Eb & Es & Eu)%used_at_elem & ?).
    unfold in_area in Hw. apply (A6 b' w Hb' Eu). lia. }
  split.
  - split; try done.
    + apply used_at_elem in Hin as (b & Hb & E1 & E2 & _). rewrite <- Ef in Hb.
      pose proof (real_bounds _ _ _ _ A1 b Hb) as (? & ? & _). destruct A2 as (t & A2).
      rewrite A2 in *. cbn in *. lia.
    + intros q k Hq. destruct (Hl' q k Hq) as (u & (b2 & Hb2 & Eb & Es & _)%used_at_elem & ?).
      apply used_at_elem in Hin as (b & Hb & E1 & E2 & _).
      destruct (placed_apart _ _ _ _ _ L' Hb Hb2) as [<- |[?|?]]; [|lia|lia].
      assert (p = q) as <- by lia. congruence.
  - split; cbn [live data]; [done|rewrite Ef..|done].
    + intros q k [[<- <-]|[Hne Hq]]%lookup_insert_Some; [|by apply Hl']. exists usz. split; [done|lia].
    + intros x u Hx. rewrite A3 in Hx. apply lookup_insert_is_Some'.
      apply elem_of_cons in Hx as [[= -> ->]|Hx]; [left; lia|right; by apply (Hus x u)].
Qed.

(** The representation after a change of size. *)
Lemma represents_resized s' bs' fl' p k n sz sz' :
  live a !! p = Some k -> 0 <= n -> (p - 8, sz) ∈ used_at (placed first true bs) ->
  resized heap s bs s' bs' fl' (p - 8) sz sz' -> p + n <= p - 8 + sz' + 4 ->
  represents heap s' bs' fl' (mk_client (<[p := n]> (live a)) (hp_words s')).
Proof.
  intros Hp Hn Hin [I' Hc (U & P1 & P2 & _) _] Hfit. pose proof R as [I Hl Hus Hd].
  pose proof (first_same s' Hc) as Ef. split; cbn [live data]; [done|rewrite Ef..|done].
  - intros q j [[<- <-]|[Hne Hq]]%lookup_insert_Some.
    + exists sz'. split; [rewrite P2; left|done].
    + destruct (Hl q j Hq) as (u & Hu & ?). exists u. split; [|done]. rewrite P2. right.
      rewrite P1 in Hu. apply elem_of_cons in Hu as [[= E _]|Hu]; [lia|done].
  - intros x u Hx. apply lookup_insert_is_Some'. rewrite P2 in Hx.
    apply elem_of_cons in Hx as [[= -> _]|Hx]; [left; lia|right]. apply (Hus x u). rewrite P1. by right.
Qed.

Lemma refine_resize p n :
  is_Some (live a !! p) -> 0 <= n < 2 ^ 32 ->
  exists st old new s', Heap_Resize_block heap p n s = Ok (st, old, new, s') /\
    (st = HEAP_RESIZE_UNSATISFIED /\ s' = s \/
     st = HEAP_RESIZE_SUCCESSFUL /\ (exists t, hp_control s' = set_stats t c) /\ exists bs' fl',
       in_place c a p n (hp_words s') /\
       represents heap s' bs' fl' (mk_client (<[p := n]> (live a)) (hp_words s'))).
Proof.
  intros (k & Hp) Hn. pose proof R as [I Hl Hus Hd]. destruct (Hl p k Hp) as (sz & Hin & Hend).
  pose proof Hin as (b & Hb & Hat & Hsz & Hu)%used_at_elem.
  destruct (find_used _ _ _ _ I b Hb Hu) as (nb & l1 & l2 & Hup).
  destruct (hi_area _ _ _ _ I) as [[? _] [? _] _ _ _].
  pose proof (real_bounds _ _ _ _ I b Hb) as (_ & _ & ? & _).
  destruct (resize_ok heap s bs fl I b nb l1 l2 p n) as (st & new & s' & Hr & Hcase); [done|lia|lia|done|].
  exists st, (b_at b + b_size b + 4 - p), new, s'. split; [done|].
  destruct Hcase as [(-> & _ & -> & _)|(-> & _ & bs' & fl' & usz & HR & Hnew & Hfit)]; [by left|].
  right. split; [done|]. split; [by apply HR|]. exists bs', fl'. rewrite Hat, Hsz in HR.
  assert (represents heap s' bs' fl' (mk_client (<[p := n]> (live a)) (hp_words s'))) as HR'.
  { apply (represents_resized s' bs' fl' p k n sz usz); [done|lia|done|done|lia]. }
  split; [|done]. destruct HR as [I' Hc (U & P1 & P2 & D) K]. split.
  - assert ((p - 8, usz) ∈ used_at (placed (first_block (hp_control s')) true bs')) as Hin'
      by (rewrite (first_same s' Hc), P2; left).
    apply used_at_elem in Hin' as (b' & Hb' & E1 & E2 & _).
    pose proof (real_bounds _ _ _ _ I' b' Hb') as (_ & Hl' & _). destruct Hc as (t & Hc).
    rewrite Hc in Hl'. cbn in Hl'. lia.
  - intros q j Hne Hq. apply (represents_apart _ _ _ _ _ p n q j HR'); cbn [live];
      [apply lookup_insert_eq|by rewrite lookup_insert_ne by done|done].
  - intros q j w Hne Hq Hw. rewrite (Hd q j w Hq Hw). destruct (Hl q j Hq) as (u & Hu' & ?).
    unfold in_area in Hw. apply (D (q - 8) u); [|lia]. rewrite P1 in Hu'.
    apply elem_of_cons in Hu' as [[= E _]|Hu']; [lia|done].
  - intros j w Hj Hw. assert (j = k) as -> by congruence.
    rewrite (Hd p k w Hp); [|unfold in_area in *; lia]. apply K. unfold in_area in Hw. lia.
Qed.

End Refine.

(** The client after an operation: the contents of a new area are what the
    memory holds there. *)
Definition client_after (a : client) (op : heap_op) (r : Z) (s' : heap_state) : client :=
  match op with
  | H_allocate n _ _ => if r =? 0 then a else mk_client (<[r := n]> (live a)) (hp_words s')
  | H_free p => mk_client (delete p (live a)) (data a)
  | H_resize p n => if r =? 0 then a else mk_client (<[p := n]> (live a)) (hp_words s')
  | H_store w v => mk_client (live a) (<[w := v]> (data a))
  end.

Lemma refine_step heap s bs fl a op :
  represents heap s bs fl a -> may (hp_control s) a op ->
  exists r s' bs' fl', run_heap_op heap op s = Ok (r, s') /\
    client_step (hp_control s) a op r (client_after a op r s') /\
    (exists t, hp_control s' = set_stats t (hp_control s)) /\
    represents heap s' bs' fl' (client_after a op r s').
Proof.
  intros R Hm. destruct op as [n al bd|p|p n|w v]; cbn [run_heap_op client_after].
  - destruct Hm as (Hn & Hal & Hap & Hbd).
    destruct (allocate_ok _ _ _ _ (rp_inv _ _ _ _ _ R) n al bd) as (p & s' & Hr & Hc); [done..|].
    exists p, s'. destruct Hc as [(-> & [W1 W2 W3] & _)|(Hp & (bs' & fl' & Ha) & Hpp & Hpa & Hpb & _)].
    + exists bs, fl. split; [done|]. split; [constructor|]. split; [done|].
      destruct R as [I Hl Hus Hd]. pose proof (first_same s s' W2) as Ef.
      split; rewrite ?Ef, ?W1; done.
    + exists bs', fl'. split; [done|]. rewrite (proj2 (Z.eqb_neq p 0)) by done.
      destruct (refine_allocated _ _ _ _ _ R s' bs' fl' p n al bd) as [Hf HR]; [lia|done..|].
      split; [by constructor|]. split; [apply Ha|done].
  - destruct (refine_free _ _ _ _ _ R p Hm) as (s' & bs' & fl' & Hr & Hc & HR).
    exists 1, s', bs', fl'. rewrite (cm_bind_ok _ _ _ _ _ Hr). split; [done|]. split; [constructor|]. done.
  - destruct Hm as [Hp Hn].
    destruct (refine_resize _ _ _ _ _ R p n Hp Hn) as (st & old & new & s' & Hr & Hc).
    rewrite (cm_bind_ok _ _ _ _ _ Hr). cbn [fst].
    destruct Hc as [[-> ->]|(-> & Hct & bs' & fl' & Hip & HR)].
    + exists 0, s, bs, fl. split; [done|]. split; [constructor|]. split; [|done].
      exists (stats (hp_control s)). by destruct (hp_control s).
    + exists 1, s', bs', fl'. split; [done|]. split; [by constructor|]. done.
  - destruct (refine_store _ _ _ _ _ R w v Hm) as [Hr HR].
    exists 0. eexists _, bs, fl. rewrite (cm_bind_ok _ _ _ _ _ Hr). split; [done|].
    split; [constructor|]. split; [|done].
    exists (stats (hp_control s)). cbn [hp_control set_hp_words]. by destruct (hp_control s).
Qed.

(** ** Sessions: what a heap and its clients can reach *)
Inductive session (heap : Z) : heap_state -> client -> Prop :=
| session_start s begin size page s' n :
    area_ok heap s begin size page -> Heap_Initialize heap begin size page s = Ok (n, s') -> n <> 0 ->
    session heap s' (mk_client ∅ ∅)
| session_step s a op r s' :
    session heap s a -> may (hp_control s) a op -> run_heap_op heap op s = Ok (r, s') ->
    session heap s' (client_after a op r s').

Lemma start_represents heap s begin size page s' n :
  area_ok heap s begin size page -> Heap_Initialize heap begin size page s = Ok (n, s') -> n <> 0 ->
  represents heap s' [(n, false)] [first_block (hp_control s')] (mk_client ∅ ∅).
Proof.
  intros A Hr Hn. rewrite (heap_initialize_run _ _ _ _ _ A) in Hr.
  destruct (large_enough begin size page) eqn:El; [|by injection Hr as <- _].
  injection Hr as <- <-. split; cbn [live data].
  - by apply initialize_inv.
  - done.
  - intros x usz Hx. by apply elem_of_nil in Hx.
  - done.
Qed.

Lemma session_represents heap s a : session heap s a -> exists bs fl, represents heap s bs fl a.
Proof.
  induction 1 as [s begin size page s' n A Hr Hn|s a op r s' _ (bs & fl & R) Hm Hr].
  - eauto using start_represents.
  - destruct (refine_step _ _ _ _ _ _ R Hm) as (r' & s'' & bs' & fl' & Hr' & _ & _ & R').
    rewrite Hr in Hr'. injection Hr' as <- <-. eauto.
Qed.
