(* ===== verification/HeapTheorems.v ===== *)
(** * Theorems on the heap

    What the heap promises to its clients, with a heap of 248 bytes as the
    concrete instance of the hypotheses. *)

From stdpp Require Import base tactics numbers option list list_numbers gmap fin_maps.
From stdpp Require Import fin_map_dom fin_sets.
From Stdlib Require Import ZArith Lia.
From S2P Require Import Prelude Chain Objects Heap HeapList HeapBlocks HeapRun HeapInv HeapAlloc.
From S2P Require Import HeapPlace HeapSearch HeapFree HeapInit HeapSession HeapWalk.

Open Scope Z_scope.

(** ** An area of memory *)
Definition word_range (lo : Z) (n : nat) : words :=
  list_to_map ((fun i => (lo + 4 * Z.of_nat i, 0)) <$> seq 0 n).

Lemma word_range_mapped lo n w :
  lo <= w -> w < lo + 4 * Z.of_nat n -> (w - lo) mod 4 = 0 -> is_Some (word_range lo n !! w).
Proof.
  intros H1 H2 H3. exists 0. apply elem_of_list_to_map.
  - rewrite <- list_fmap_compose. apply NoDup_fmap_2; [|apply NoDup_seq]. intros x y E. cbn in E. lia.
  - apply list_elem_of_fmap. exists (Z.to_nat ((w - lo) / 4)).
    apply Z.mod_divide in H3 as [q Hq]; [|lia]. rewrite Hq, Z.div_mul by lia.
    split; [f_equal; lia|]. apply elem_of_seq. lia.
Qed.

Definition demo_memory (size : nat) : heap_state :=
  mk_heap_state (mk_heap_control 0 0 0 0 0 0 heap_zero_statistics)
    (word_range 1000 size ∪ word_range 64 4).

Lemma demo_area (k : nat) page :
  4 * Z.of_nat k < 2 ^ 20 -> 0 <= page < 2 ^ 20 ->
  area_ok 64 (demo_memory k) 1000 (4 * Z.of_nat k) page.
Proof.
  intros Hk Hp. split; try lia; cbn [hp_words demo_memory].
  - intros w H1 H2 H3. apply lookup_union_is_Some. left. apply word_range_mapped; [lia..|].
    apply mod_sub; [lia|done|done].
  - intros o Ho. apply lookup_union_is_Some. right. apply word_range_mapped; [lia..|].
    by destruct Ho as [-> |[-> |[-> | ->]]].
Qed.

(** The heap made of 256 bytes at 1000. *)
Definition demo_heap : heap_state :=
  mk_heap_state (init_control 1000 256 0) (init_words 64 (demo_memory 64) 1000 256 0).

Lemma demo_start : Heap_Initialize 64 1000 256 0 (demo_memory 64) = Ok (248, demo_heap).
Proof. rewrite heap_initialize_run by (by apply (demo_area 64)). reflexivity. Qed.

Lemma demo_represents : represents 64 demo_heap [(248, false)] [1000] (mk_client ∅ ∅).
Proof.
  apply (start_represents 64 (demo_memory 64) 1000 256 0 demo_heap 248);
    [by apply (demo_area 64)|apply demo_start|done].
Qed.

Lemma demo_inv : heap_inv 64 demo_heap [(248, false)] [1000].
Proof. apply demo_represents. Qed.

(** ** The heap is an allocator *)

(** C4: whatever the clients of a heap do from its initialization on (allocate
    with any size, boundary and an alignment that is a multiple of the page
    size, free or resize what is live, store into their live areas), no operation runs
    into undefined behaviour or a loop that does not end, and each does what
    the abstract allocator allows: a new area is in the heap, aligned, within
    its boundary lines and apart from all live areas.  At every moment the live
    areas are disjoint, hold what their clients stored, and the heap passes its
    own check. *)
Theorem heap_session_safe heap s a :
  session heap s a ->
  (forall p n q k, live a !! p = Some n -> live a !! q = Some k -> p <> q ->
     p + n <= q \/ q + k <= p) /\
  (forall p n w, live a !! p = Some n -> in_area p n w -> hp_words s !! w = data a !! w) /\
  Heap_Walk heap true s = Ok (true, s) /\
  (forall op, may (hp_control s) a op ->
     exists r s', run_heap_op heap op s = Ok (r, s') /\
       client_step (hp_control s) a op r (client_after a op r s') /\
       session heap s' (client_after a op r s')).
Proof.
  intros Hs. destruct (session_represents _ _ _ Hs) as (bs & fl & R). split; [|split; [|split]].
  - intros p n q k. by apply (represents_apart heap s bs fl).
  - intros p n w Hp Hw. symmetry. by apply (rp_data _ _ _ _ _ R p n).
  - apply (walk_ok heap s bs fl), R.
  - intros op Hm. destruct (refine_step _ _ _ _ _ _ R Hm) as (r & s' & bs' & fl' & Hr & Hc & _ & _).
    exists r, s'. split; [done|]. split; [done|]. by apply (session_step heap s).
Qed.

Lemma heap_session_safe_witness : Heap_Walk 64 true demo_heap = Ok (true, demo_heap).
Proof.
  apply (heap_session_safe 64 demo_heap (mk_client ∅ ∅)).
  apply (session_start 64 (demo_memory 64) 1000 256 0 demo_heap 248);
    [by apply (demo_area 64)|apply demo_start|done].
Defined.

(** C5: one operation of the heap refines the abstract allocator: from a heap
    whose used blocks are the live areas, every operation a client may ask for
    returns, takes the step of the abstract allocator, and leaves a heap whose
    used blocks are the live areas after it; of the control only the
    statistics change. *)
Theorem heap_refines_allocator heap s bs fl a op :
  represents heap s bs fl a -> may (hp_control s) a op ->
  exists r s' bs' fl', run_heap_op heap op s = Ok (r, s') /\
    client_step (hp_control s) a op r (client_after a op r s') /\
    (exists t, hp_control s' = set_stats t (hp_control s)) /\
    represents heap s' bs' fl' (client_after a op r s').
Proof. apply refine_step. Qed.

Lemma heap_refines_allocator_witness :
  exists r s' bs' fl', run_heap_op 64 (H_allocate 100 0 0) demo_heap = Ok (r, s') /\
    client_step (hp_control demo_heap) (mk_client ∅ ∅) (H_allocate 100 0 0) r
      (client_after (mk_client ∅ ∅) (H_allocate 100 0 0) r s') /\
    (exists t, hp_control s' = set_stats t (hp_control demo_heap)) /\
    represents 64 s' bs' fl' (client_after (mk_client ∅ ∅) (H_allocate 100 0 0) r s').
Proof.
  apply (heap_refines_allocator 64 demo_heap [(248, false)] [1000]); [apply demo_represents|].
  cbn. repeat split; done.
Defined.

(** C23: [_Heap_Allocate] takes the first free block of the list with room for
    the size and 4 more bytes (the header less what the next block lends), and
    returns the area behind its header; it returns the null pointer exactly
    when no free block has that room, and then the memory is unchanged. *)
Theorem heap_allocate_first_fit heap s bs fl n :
  heap_inv heap s bs fl -> 0 <= n -> n + 4 < 2 ^ 32 ->
  let blocks := placed (first_block (hp_control s)) true bs in
  exists p s', Heap_Allocate heap n s = Ok (p, s') /\
    (p = 0 /\ hp_words s' = hp_words s /\
       (forall b, b ∈ blocks -> b_used b = false -> b_size b < n + 4) \/
     p <> 0 /\ exists g1 b g2, fl = g1 ++ b_at b :: g2 /\ b ∈ blocks /\ p = b_at b + 8 /\
       n + 4 <= b_size b /\ (forall b', b' ∈ blocks -> b_at b' ∈ g1 -> b_size b' < n + 4)).
Proof.
  intros I Hn Hn4 blocks. destruct (allocate_ok _ _ _ _ I n 0 0) as (p & s' & Hr & Hc);
    [lia|done|by rewrite Z.mod_0_l by (destruct (hi_area _ _ _ _ I) as [[? _] _ _ _ _]; lia)|done|].
  exists p, s'. split; [done|].
  destruct Hc as [(-> & [W1 _ _] & Hsmall)|(Hp & _ & _ & _ & _ & Hf)].
  - left. split; [done|]. split; [done|]. intros b Hb Hu. apply (Hsmall eq_refl eq_refl Hn4 b Hb).
    apply (free_block _ _ _ _ I). by exists b.
  - right. split; [done|]. by apply Hf.
Qed.

Lemma heap_allocate_first_fit_witness :
  exists p s', Heap_Allocate 64 100 demo_heap = Ok (p, s') /\
    (p = 0 /\ hp_words s' = hp_words demo_heap /\
       (forall b, b ∈ placed 1000 true [(248, false)] -> b_used b = false -> b_size b < 104) \/
     p <> 0 /\ exists g1 b g2, [1000] = g1 ++ b_at b :: g2 /\ b ∈ placed 1000 true [(248, false)] /\
       p = b_at b + 8 /\ 104 <= b_size b /\
       (forall b', b' ∈ placed 1000 true [(248, false)] -> b_at b' ∈ g1 -> b_size b' < 104)).
Proof. apply (heap_allocate_first_fit 64 demo_heap); [apply demo_inv|done|done]. Defined.

(** C24: freeing undoes an allocation: after a successful allocation and the
    free of what it returned, the heap has exactly the blocks it had before,
    in sizes and flags (the parts that were split are merged again), and the
    data of all used blocks are unchanged. *)
Theorem heap_free_undoes_allocate heap s bs fl n al bd p s1 :
  heap_inv heap s bs fl -> 0 <= n < 2 ^ 32 -> 0 <= al -> al mod page_size (hp_control s) = 0 ->
  0 <= bd -> Heap_Allocate_aligned_with_boundary heap n al bd s = Ok (p, s1) -> p <> 0 ->
  exists s2 fl2, Heap_Free heap p s1 = Ok (true, s2) /\ heap_inv heap s2 bs fl2 /\
    keeps (hp_words s) (hp_words s2) (placed (first_block (hp_control s)) true bs).
Proof.
  intros I Hn Hal Hap Hbd Hr Hp.
  destruct (allocate_ok _ _ _ _ I n al bd) as (p' & s' & Hr' & Hc); [done..|].
  rewrite Hr in Hr'. injection Hr' as <- <-.
  destruct Hc as [(-> & _)|(_ & (bs1 & fl1 & [A1 (t1 & A2) (usz & A3 & A4 & _) A5]) & _)]; [done|].
  assert ((p - 8, usz) ∈ used_at (placed (first_block (hp_control s)) true bs1)) as Hin
    by (rewrite A3; left).
  apply used_at_elem in Hin as (b & Hb & Hat & Hsz & Hu).
  destruct (free_ok heap s1 bs1 fl1 A1 p b) as (s2 & bs2 & fl2 & Hf & [F1 (t2 & F2) F3 F4]);
    [by rewrite A2|done|rewrite A2; cbn; lia|].
  rewrite A2, Hat, Hsz in F3. cbn in F3. rewrite A2 in F2, F4. cbn in F2, F4.
  assert (bs = bs2) as <-.
  { apply (heap_determined heap s bs fl s2 bs2 fl2 I F1); [by exists t2|].
    apply (Permutation_cons_inv (a := (p - 8, usz))). by rewrite <- A3, F3. }
  exists s2, fl2. split; [done|]. split; [done|]. intros b' w Hb' Hu' Hw.
  rewrite (F4 b' w Hb' Hu' Hw). by apply A5 with b'.
Qed.

Definition demo_allocated : outcome (Z * heap_state) :=
  Heap_Allocate_aligned_with_boundary 64 60 16 128 demo_heap.

(** The demonstration's allocation of 60 bytes, aligned to 16, within 128. *)
Lemma demo_allocated_at : exists s1, demo_allocated = Ok (1184, s1).
Proof. unfold demo_allocated. eexists. vm_compute. reflexivity. Qed.

Lemma heap_free_undoes_allocate_witness :
  exists s1 s2 fl2, demo_allocated = Ok (1184, s1) /\ Heap_Free 64 1184 s1 = Ok (true, s2) /\
    heap_inv 64 s2 [(248, false)] fl2.
Proof.
  destruct demo_allocated_at as (s1 & Hr).
  destruct (heap_free_undoes_allocate 64 demo_heap [(248, false)] [1000] 60 16 128 1184 s1)
    as (s2 & fl2 & H1 & H2 & _); [apply demo_inv|done|done|reflexivity|done|exact Hr|done|].
  exists s1, s2, fl2. split; [exact Hr|]. split; [exact H1|exact H2].
Defined.

(** No space is lost: when every area of a session has been freed, in
    whatever order, the heap is a single free block of its full size again. *)
Theorem heap_all_freed heap s a :
  session heap s a -> live a = ∅ ->
  let t := stats (hp_control s) in
  (exists fl, heap_inv heap s [(hs_size t, false)] fl) /\
  free_size t = hs_size t /\ free_blocks t = 1 /\ used_blocks t = 0.
Proof.
  intros Hs Hl t. destruct (session_represents _ _ _ Hs) as (bs & fl & [I _ Hus _]).
  assert (used_at (placed (first_block (hp_control s)) true bs) = []) as Hno.
  { destruct (used_at _) as [|[x sz] U]; [done|]. destruct (Hus x sz) as (k & Hk); [left|].
    by rewrite Hl, lookup_empty in Hk. }
  assert (bs = [(total bs, false)]) as E.
  { pose proof (inv_total _ _ _ _ I) as [? _]. destruct (hi_area _ _ _ _ I) as [_ [? _] _ _ _].
    apply (canonical (first_block (hp_control s)) true); [by eapply inv_large| | | | |].
    - repeat constructor. cbn. lia.
    - by apply (inv_merged heap s bs fl).
    - by repeat constructor.
    - cbn. lia.
    - by rewrite Hno. }
  pose proof (hi_stat_size _ _ _ _ I) as S1. pose proof (hi_stat_free _ _ _ _ I) as S2.
  pose proof (hi_stat_number _ _ _ _ I) as S3. pose proof (hi_stat_used _ _ _ _ I) as S4.
  rewrite (Permutation_length (hi_free _ _ _ _ I)) in S3.
  rewrite E in S2, S3, S4. fold t in S1, S2, S3, S4. rewrite free_total_cons in S2.
  split; [exists fl; rewrite S1, <- E; done|]. change (free_total []) with 0 in S2.
  split; [lia|]. split; [exact S3|exact S4].
Qed.

Lemma heap_all_freed_witness :
  session 64 demo_heap (mk_client ∅ ∅) /\ free_blocks (stats (hp_control demo_heap)) = 1.
Proof.
  assert (session 64 demo_heap (mk_client ∅ ∅)) as Hs.
  { apply (session_start 64 (demo_memory 64) 1000 256 0 demo_heap 248);
      [by apply (demo_area 64)|apply demo_start|done]. }
  split; [exact Hs|]. apply (heap_all_freed 64 demo_heap (mk_client ∅ ∅) Hs eq_refl).
Defined.

(** C29: the search for a place in a block ends: the loop over the boundary
    lines makes the begin smaller in every round, and what [_Heap_Check_block]
    returns is 0 or an area in the block that is aligned, crosses no boundary
    line, and leaves no gap smaller than a block before it. *)
Theorem heap_check_block_ends heap s bs fl b n al bd :
  let c := hp_control s in
  heap_inv heap s bs fl -> b ∈ placed (first_block c) true bs ->
  0 <= n -> n + 4 <= b_size b -> 0 < al -> al mod page_size c = 0 -> 0 <= bd -> bd = 0 \/ n <= bd ->
  exists p, Heap_Check_block (b_at b) n al bd s = Ok (p, s) /\
    (p = 0 \/ p + n <= b_at b + b_size b + 4 /\ p mod al = 0 /\ crosses_no bd p n /\
       (p = b_at b + 8 \/ b_at b + 8 + min_block_size c <= p)).
Proof.
  intros c I Hb Hn Hns Hal Hap Hbd Hnb.
  destruct (check_block_ok heap s bs fl I b n al bd) as (p & Hr & Hp); [done..|].
  exists p. split; [done|]. destruct Hp as [-> |((Hf1 & Hf2 & Hf3) & Hpa & Hpb)]; [by left|].
  right. do 3 (split; [done|]). destruct Hf3 as [?|[? _]]; auto.
Qed.

Lemma heap_check_block_ends_witness :
  exists p, Heap_Check_block 1000 60 16 128 demo_heap = Ok (p, demo_heap) /\
    (p = 0 \/ p + 60 <= 1252 /\ p mod 16 = 0 /\ crosses_no 128 p 60 /\
       (p = 1008 \/ 1008 + min_block_size (hp_control demo_heap) <= p)).
Proof.
  apply (heap_check_block_ends 64 demo_heap [(248, false)] [1000] (mk_block 1000 248 true false) 60 16 128);
    [apply demo_inv|left|done|done|done|reflexivity|done|by right].
Defined.

(** [_Heap_Free] accepts the null pointer, and rejects, with the heap
    unchanged, an address outside of the heap and an area that is already
    free (the pointer is taken down to its page first). *)
Theorem heap_free_rejects heap s bs fl p b :
  let c := hp_control s in
  heap_inv heap s bs fl -> b ∈ placed (first_block c) true bs -> b_used b = false ->
  b_at b + 8 <= p < b_at b + 8 + page_size c ->
  Heap_Free heap 0 s = Ok (true, s) /\ Heap_Free heap p s = Ok (false, s) /\
  (forall q, q <> 0 ->
     u32 (q - q mod page_size c - 8) < first_block c \/ last_block c < u32 (q - q mod page_size c - 8) ->
     Heap_Free heap q s = Ok (false, s)).
Proof.
  intros c I Hb Hu Hp. split; [done|]. split.
  - by apply (free_twice heap s bs fl I p b).
  - intros q Hq Hout. by apply (free_outside heap s bs fl I).
Qed.

Lemma heap_free_rejects_witness :
  Heap_Free 64 1008 demo_heap = Ok (false, demo_heap) /\ Heap_Free 64 4096 demo_heap = Ok (false, demo_heap).
Proof.
  destruct (heap_free_rejects 64 demo_heap [(248, false)] [1000] 1008 (mk_block 1000 248 true false))
    as (_ & H1 & H2); [apply demo_inv|left|done|cbn; lia|].
  split; [exact H1|]. apply H2; [done|]. right. by vm_compute.
Defined.

(** [_Heap_Initialize] makes of a large enough area a heap with one free
    block, inside the area and at most two pages and a header smaller; the
    size it returns is the size of that block.  When it returns 0 the area was
    too small for the smallest block and nothing was written. *)
Theorem heap_initialize_makes_heap heap s begin size page :
  area_ok heap s begin size page ->
  let pg := real_page page in
  exists n s', Heap_Initialize heap begin size page s = Ok (n, s') /\
    (n = 0 /\ s' = s /\ size < 8 + 2 * pg + aup 16 pg \/
     n <> 0 /\ heap_inv heap s' [(n, false)] [first_block (hp_control s')] /\
       page_size (hp_control s') = pg /\ begin <= first_block (hp_control s') /\
       last_block (hp_control s') + 8 <= begin + size /\ size - 8 - 2 * pg < n).
Proof.
  intros A pg. rewrite (heap_initialize_run _ _ _ _ _ A).
  pose proof (area_facts _ _ _ _ _ A) as (P1 & P2 & F1 & F2 & F3).
  destruct (min_block_spec pg) as (M1 & M2 & M3 & M4); [done|].
  set (rest := size - 8 - (area_first begin pg - begin)).
  assert (area_size begin size pg = rest - rest mod pg) as Es by done.
  pose proof (Z.mod_pos_bound rest pg ltac:(lia)) as Hm. fold pg in F1, F3.
  destruct (large_enough begin size page) eqn:El.
  - destruct (F3 eq_refl) as (G1 & G2 & _). exists (area_size begin size pg). eexists. split; [reflexivity|].
    right. split; [lia|]. split; [by apply initialize_inv|].
    cbn [hp_control init_control page_size first_block last_block]. fold pg.
    split; [done|]. split; [lia|]. split; [lia|]. unfold rest in *. lia.
  - exists 0, s. split; [done|]. left. split; [done|]. split; [done|]. unfold large_enough in El.
    apply negb_false_iff, orb_true_iff in El as [El%Z.leb_le|El%Z.ltb_lt]; fold pg in El.
    + lia.
    + rewrite Es in El. unfold rest in *. lia.
Qed.

Lemma heap_initialize_makes_heap_witness :
  exists n s', Heap_Initialize 64 1000 256 0 (demo_memory 64) = Ok (n, s') /\
    (n = 0 /\ s' = demo_memory 64 /\ 256 < 8 + 2 * real_page 0 + aup 16 (real_page 0) \/
     n <> 0 /\ heap_inv 64 s' [(n, false)] [first_block (hp_control s')] /\
       page_size (hp_control s') = real_page 0 /\ 1000 <= first_block (hp_control s') /\
       last_block (hp_control s') + 8 <= 1000 + 256 /\ 256 - 8 - 2 * real_page 0 < n).
Proof. apply (heap_initialize_makes_heap 64 (demo_memory 64) 1000 256 0). by apply (demo_area 64). Defined.

(** [_Heap_Size_of_alloc_area] gives, for any address in the area of a used
    block and in its first page, the bytes from there to the end of the block's area, and
    refuses an address in a free block. *)
Theorem heap_size_of_alloc_area heap s bs fl p b :
  let c := hp_control s in
  heap_inv heap s bs fl -> b ∈ placed (first_block c) true bs ->
  b_at b + 8 <= p < b_at b + 8 + page_size c -> p <= b_at b + b_size b + 4 ->
  Heap_Size_of_alloc_area p s =
  Ok (if b_used b then Some (b_at b + b_size b + 4 - p) else None, s).
Proof.
  intros c I Hb Hp Hpe. destruct (free_head heap s bs fl I p b Hb Hp) as [_ Hblk]. fold c in Hblk.
  pose proof (real_bounds _ _ _ _ I b Hb) as (? & ? & ? & _). fold c in H, H0, H1.
  destruct (hi_area _ _ _ _ I) as [[? ?] [? [? _]] [? ?] [? ?] _]. fold c in H2, H3, H4, H5, H6, H7, H8, H9.
  pose proof (all_real _ _ _ _ I b Hb) as Ha.
  unfold Heap_Size_of_alloc_area. rewrite ctl_bind, block_of_bind by (fold c; lia). fold c.
  rewrite Hblk, in_heap_bind. fold c.
  rewrite (proj2 (Z.leb_le _ (b_at b))), (proj2 (Z.leb_le (b_at b) _)) by lia. cbn [andb negb].
  rewrite (size_read _ _ _ _ I) by done. rewrite in_heap_bind. fold c.
  assert (Heap_Block_at (b_at b) (b_size b) = b_at b + b_size b) as En
    by (unfold Heap_Block_at; rewrite u32_id; lia).
  rewrite En at 1 2. rewrite (proj2 (Z.leb_le _ (b_at b + b_size b))), (proj2 (Z.leb_le (b_at b + b_size b) _)) by lia.
  cbn [andb]. rewrite (next_read _ _ _ _ I) by done. rewrite En. unfold HEAP_ALLOC_BONUS.
  by rewrite u32_id by lia.
Qed.

Lemma heap_size_of_alloc_area_witness : Heap_Size_of_alloc_area 1008 demo_heap = Ok (None, demo_heap).
Proof.
  apply (heap_size_of_alloc_area 64 demo_heap [(248, false)] [1000] 1008 (mk_block 1000 248 true false));
    [apply demo_inv|left|cbn; lia|cbn; lia].
Defined.

Lemma sizes_counts a pu l :
  Z.of_nat (length (sizes_of false l)) = Z.of_nat (length (free_at (placed a pu l))) /\
  sum (sizes_of false l) = free_total l /\
  Z.of_nat (length (sizes_of true l)) = used_number l /\
  sum (sizes_of false l) + sum (sizes_of true l) = total l.
Proof.
  revert a pu. induction l as [|[sz u] l IH]; intros a pu; [done|].
  destruct (IH (a + sz) u) as (H1 & H2 & H3 & H4).
  rewrite !sizes_of_cons, free_at_cons, free_total_cons, used_number_cons. cbn [total fst].
  unfold sum in *. destruct u.
  - rewrite (bool_decide_eq_false_2 (true = false)), (bool_decide_eq_true_2 (true = true)) by done.
    cbn [app length b2z foldr]. repeat split; lia.
  - rewrite (bool_decide_eq_true_2 (false = false)), (bool_decide_eq_false_2 (false = true)) by done.
    cbn [app length b2z foldr]. repeat split; lia.
Qed.

(** C31: [_Heap_Get_information] reports exactly the blocks: the number, the
    largest and the sum of the sizes of the free blocks and of the used blocks,
    and the statistics agree with it. *)
Theorem heap_information_exact heap s bs fl :
  heap_inv heap s bs fl ->
  let free := info_of (sizes_of false bs) in
  let used := info_of (sizes_of true bs) in
  let t := stats (hp_control s) in
  Heap_Get_information s = Ok (free, used, t, s) /\
  info_number free = free_blocks t /\ info_total free = free_size t /\
  info_number used = used_blocks t /\ info_total free + info_total used = hs_size t.
Proof.
  intros I free used t. split; [by apply (information_ok heap s bs fl)|].
  unfold free, used, info_of, t. cbn [info_number info_total].
  rewrite (hi_stat_number _ _ _ _ I), (hi_stat_free _ _ _ _ I), (hi_stat_used _ _ _ _ I).
  rewrite (hi_stat_size _ _ _ _ I), (Permutation_length (hi_free _ _ _ _ I)).
  apply sizes_counts.
Qed.

Lemma heap_information_exact_witness :
  Heap_Get_information demo_heap =
  Ok (info_of [248], info_of [], stats (hp_control demo_heap), demo_heap).
Proof. apply (heap_information_exact 64 demo_heap [(248, false)] [1000]). apply demo_inv. Defined.

(** *** An alignment below the page size

    The state after an operation of a demonstration. *)
Definition state_after {A} (m : cm heap_state A) (s : heap_state) : heap_state :=
  match m s with Ok (_, s') => s' | _ => s end.

Definition paged_heap : heap_state :=
  state_after (Heap_Initialize 64 1000 3160 64) (demo_memory 790).
Definition paged_allocated : heap_state :=
  state_after (Heap_Allocate_aligned_with_boundary 64 120 4 1024) paged_heap.

